(* ===== verification/_CoqProject ===== *)
-Q . S2P
Prelude.v
Bytes.v
KString.v
Params.v
State.v
Spinlock.v
Cprintf.v
Mmu.v
Kalloc.v
Vm.v
Aspace.v
Uspace.v
Ucopy.v
Sched.v
Rely.v
Sleeplock.v
Bio.v
Block.v
Log.v
LogTx.v
Fs.v
Inode.v
Pipe.v
File.v
Proc.v
Init.v
Args.v
Queue.v
Container.v
Sysproc.v
Exec.v
Sysfile.v
Open.v
Console.v
Dev.v
Kbd.v
Line.v
Ide.v
Seg.v
Boot.v
Mp.v
Main.v
Ulib.v
Umalloc.v
Trap.v
User.v
Sh.v
Grep.v
Utils.v
Usertests.v
Mkfs.v
