(* ===== verification/Prelude.v ===== *)
(** * Verification of the xv6 container system

    The program is xv6, a small Unix-like kernel for x86, extended with containers
    (groups of processes with private copies of files), message queues between
    processes and a schedule log, together with its user programs and [mkfs], the
    host program that builds its disk image. This library translates its C code into
    definitions that can be run, one per function, and proves theorems about them.

    ** The shape of the model

    Kernel code is a computation [K A = kernel -> outcome kernel A] (this file and
    [State.v]). The record [kernel] holds the kernel's global variables, the hardware
    state of the processors and the flat byte memory [k_mem]; the outcomes are [Ret]
    (value and state), [Panic] (a call of [panic]), [Undef] (an access the C code has
    no right to make, such as an index past the end of a table), [Spin] (a loop that waits for
    another processor), [Swtch s k] (the thread is switched away in [s] and goes on with
    [k] in whatever state it comes back to) and [NoFuel]. [let! x := m in k] and
    [m ;; k] sequence computations. Machine words are integers with their wrap-around
    written out ([u32], [i32], [u8] of [Bytes.v]); pointers into tables are indices,
    pointers to pages are addresses.

    Fuel: loops of the C code that run a computed number of times take that number,
    a function of their arguments, as fuel ([mappages], [allocuvm], [readi], ...); the
    theorems say that the run ends in [Ret], so the fuel is enough. The user programs that read
    until the end of their input take fuel as an argument, and their theorems
    hold for all fuel above a bound given in the statement.

    Code that touches devices is a computation [MD A] over a [machine] ([Dev.v]): the
    kernel, the variables of the drivers, the descriptor tables and a device. What the
    device answers is a parameter, an instance of the class [Device]; [lk] lifts kernel
    code. The disk controller is the class [Ata] ([Ide.v]), the keyboard controller
    [Keyboard] ([Kbd.v]): what the drivers rely on, as laws, each with an instance.
    What the linker and the generated [vectors.S] decide is in the classes [Symbols],
    [BootSymbols] and [Linked].

    A user program is a tree of system calls ([prog], [User.v]); what the calls answer
    is given by a handler, so a theorem about a program holds for every kernel that
    behaves as the handler does.

    Definitions that have the name of a C macro are its value.

    ** The files, in order

    - [Prelude.v]: outcomes and the monad, its rules, list and search lemmas.
    - [Bytes.v]: words, little-endian integers, byte memory. [KString.v]: [string.c].
      [Params.v]: the constants of [param.h], [memlayout.h], [mmu.h], [fs.h] and the
      other headers. [State.v]: the structures of [proc.h], [spinlock.h],
      [sleeplock.h], [buf.h], [file.h], [fs.h], [types.h] and the global variables.
    - [Spinlock.v]: [spinlock.c], sequentially and as a step relation of several
      processors. [Cprintf.v]: the output half of [console.c]. [Mmu.v]: the segment and
      gate descriptors of [mmu.h], as words and as the processor reads them.
    - [Kalloc.v]: [kalloc.c]. [Vm.v]: [vm.c]. [Aspace.v]: the address spaces that the
      page tables of [vm.c] denote. [Uspace.v]: growing and shrinking them
      ([allocuvm], [deallocuvm], [freevm]). [Ucopy.v]: copying them ([copyuvm]).
    - [Sched.v]: [sched], [yield], [sleep], [wakeup], [kill], the search of
      [allocproc]. [Rely.v]: the logic for code that sleeps. [Sleeplock.v]:
      [sleeplock.c].
    - [Bio.v]: [bio.c] over the memory disk [memide.c]. [Block.v]: what the cache
      promises to its clients, over block contents. [Log.v], [LogTx.v]: [log.c].
      [Fs.v]: [fs.c]. [Inode.v]: its block allocation and file contents over the
      interface of [Block.v] and [LogTx.v].
    - [Pipe.v]: [pipe.c]. [File.v]: [file.c]. [Proc.v]: the rest of [proc.c].
      [Init.v]: memory and the first process at start-up ([kinit1], [kvmalloc],
      [kinit2], [userinit]).
    - [Args.v]: argument fetching of [syscall.c]. [Queue.v]: the queues and message
      buffers of [syscall.c], [sys_send] and [sys_recv]. [Container.v]: the container
      table and its system calls ([types.h], [sysproc.c], [sysfile.c], [proc.c]).
      [Sysproc.v]: [sysproc.c]. [Exec.v]: [exec.c]. [Sysfile.v], [Open.v]:
      [sysfile.c]. [Console.v]: the input half of [console.c].
    - [Dev.v]: the machine with its devices, [x86.h], [picirq.c], [ioapic.c],
      [lapic.c], [uart.c], [kbd.c]. [Kbd.v]: the keyboard driver against its
      controller. [Line.v]: from scan codes to the reader of the console.
      [Ide.v]: [ide.c] against the controller. [Seg.v]: [seginit] and the whole of
      [switchuvm] ([vm.c]), [tvinit] and [idtinit] ([trap.c]).
    - [Boot.v]: [bootmain.c]. [Mp.v]: [mp.c]. [Main.v]: [main.c].
    - [Trap.v]: the system call table and [trap.c].
    - [User.v]: system calls as seen by programs, [ulib.c], [printf.c]. [Ulib.v]: the
      string and memory functions of [ulib.c]. [Umalloc.v]:
      [umalloc.c] over the program's memory. [Sh.v]: [sh.c]. [Grep.v]: [grep.c].
      [Utils.v]: the other user programs. [Usertests.v]: [usertests.c].
      [Mkfs.v]: [mkfs.c].

    ** What the theorems show

    - Storage. A crash at any point of [commit] or of recovery leaves the file system
      with all of the transaction or none of it; a transaction's blocks are on
      the disk when it ends; admitted operations fit in the log's reservation; the buffer cache
      is coherent with the disk; [writei] then [readi] is a round trip that
      disturbs no other file, with allocation of direct and indirect blocks; inodes on
      disk round-trip; what [mkfs] writes is what the kernel reads.
    - Memory. Address spaces grow, are copied and are freed with the right contents and
      permissions on every branch, out of memory included, and no page is lost; the page
      allocator's list invariant is kept by [kalloc], [kfree] and [freerange]; the
      allocator of the user programs keeps its heap a partition of free and allocated blocks.
    - Devices. The keyboard interrupt and [consoleread] implement a reference line
      editor; [iderw] over the controller is synchronous, and the disk interrupt does
      to the first queued buffer what the memory disk does.
    - Start-up and protection. The boot loader puts the kernel's segments in memory;
      [mpinit] fills the table of processors from the firmware's tables; [main] on a
      machine with one processor gets to the first switch to a process, with [initcode] in its
      address space, every page of memory accounted for and the caches and descriptor
      tables set up, touching until then only memory that the boot page table maps; the
      descriptors make every trap enter the kernel at its vector on the process's kernel stack, and
      let user code raise only the system call and use no port.
    - Concurrency. Spin locks exclude each other in every interleaving; pipes deliver
      bytes in order and lose no wake-up under any interference between sleeps.
    - Containers and messages. Creating, destroying and joining a container on every
      branch; the message queue is a bounded first-in first-out queue.
    - System call arguments are checked to lie in the process.
    - User programs. The shell's parser accepts exactly the grammar and [runcmd] of a
      pipeline connects its ends; [grep]'s matcher decides the language of the
      expression, and [grep], [wc], [cat], [echo] print what they should; file
      tests of [usertests.c] pass on a reference file system.
    - Errors. The theorems [log_reservation_gap], [wait_queue_stale],
      [grep_drops_partial], [leave_container_drops_last], [ideintr_error_valid],
      [malloc_overflow], [mp_entries_stuck], [ulib_memmove_overlap] and [writetest1_misses_loss] exhibit runs
      in which the code does not do what it is meant to.

    ** Not modelled

    - The assembler sources ([bootasm.S], [entry.S], [entryother.S], [swtch.S],
      [trapasm.S], [initcode.S], [usys.S]) and the generated [vectors.S]: their entry
      points and images are parameters, [swtch] is a suspension of the thread.
    - The file system over [ide.c]: its theorems are about the memory disk [memide.c],
      which has the same interface and which [ide.c] refines buffer by buffer.
    - [jacob.c], [jacob_linux.c]: floating-point programs. [queues.c], [queues.h]: a copy of
      code in [syscall.c] that is not compiled. [defs.h], [user.h]: prototypes.
    - The port write of [sys_halt]; names and saved call stacks of locks. *)

From stdpp Require Import base list gmap strings.
From Stdlib Require Import ZArith Lia.
#[export] Set Default Goal Selector "!".
Open Scope Z_scope.

(** * Outcomes and the kernel-thread monad

    [outcome S A] is what running a piece of C code from a state does:
    return, call [panic], run into undefined behaviour, spin on a lock that no
    step of this thread can release, switch to the scheduler leaving the rest of
    the thread as a continuation ([swtch] inside [sched]), or exhaust the fuel
    of a loop that has no static bound. *)
Inductive outcome (S A : Type) : Type :=
| Ret (a : A) (s : S)
| Panic (msg : string) (s : S)
| Undef (why : string) (s : S)
| Spin (s : S)
| Swtch (s : S) (k : S -> outcome S A)
| NoFuel (s : S).

Arguments Ret {S A} a s.
Arguments Panic {S A} msg s.
Arguments Undef {S A} why s.
Arguments Spin {S A} s.
Arguments Swtch {S A} s k.
Arguments NoFuel {S A} s.

Definition M (S A : Type) : Type := S -> outcome S A.

Declare Scope km_scope.
Create HintDb xv6.
Delimit Scope km_scope with km.

Section Monad.
Context {S : Type}.

Definition ret {A} (a : A) : M S A := fun s => Ret a s.

Fixpoint obind {A B} (o : outcome S A) (f : A -> M S B) : outcome S B :=
  match o with
  | Ret a s => f a s
  | Panic m s => Panic m s
  | Undef w s => Undef w s
  | Spin s => Spin s
  | Swtch s k => Swtch s (fun s' => obind (k s') f)
  | NoFuel s => NoFuel s
  end.

Definition bind {A B} (m : M S A) (f : A -> M S B) : M S B :=
  fun s => obind (m s) f.

Definition get : M S S := fun s => Ret s s.
Definition gets {A} (f : S -> A) : M S A := fun s => Ret (f s) s.
Definition modify (f : S -> S) : M S unit := fun s => Ret tt (f s).
Definition panic {A} (msg : string) : M S A := fun s => Panic msg s.
Definition undef {A} (why : string) : M S A := fun s => Undef why s.
Definition spin {A} : M S A := fun s => Spin s.
Definition nofuel {A} : M S A := fun s => NoFuel s.
End Monad.

Notation "'let!' x ':=' m 'in' k" := (bind m (fun x => k))
  (at level 10, x pattern, m at level 200, k at level 200,
   format "'[v' 'let!'  x  ':='  m  'in' '//' k ']'") : km_scope.
Notation "m1 ;; m2" := (bind m1 (fun _ => m2))
  (at level 100, m2 at level 200) : km_scope.
Open Scope km_scope.

Section Loops.
Context {S : Type}.

(** [if(c) m;] *)
Definition when (c : bool) (m : M S unit) : M S unit := if c then m else ret tt.

(** A [for] loop over [l] whose body may leave it early with a result. *)
Fixpoint for_find {I R} (l : list I) (body : I -> M S (option R)) : M S (option R) :=
  match l with
  | [] => ret None
  | i :: l' =>
      let! r := body i in
      match r with
      | Some x => ret (Some x)
      | None => for_find l' body
      end
  end.

(** A [for] loop over [l] that runs to its end. *)
Fixpoint for_each {I} (l : list I) (body : I -> M S unit) : M S unit :=
  match l with
  | [] => ret tt
  | i :: l' => body i ;; for_each l' body
  end.

(** [while(cond) body;] run at most [n] times; more rounds are [NoFuel]. *)
Fixpoint while_loop (n : nat) (cond : M S bool) (body : M S unit) : M S unit :=
  let! b := cond in
  if b then
    match n with
    | O => nofuel
    | Datatypes.S n' => body ;; while_loop n' cond body
    end
  else ret tt.

(** [l[i]] of a C array: an index outside it is undefined behaviour. *)
Definition index {A} (why : string) (l : list A) (i : Z) : M S A :=
  if i <? 0 then undef why
  else match l !! Z.to_nat i with
       | Some a => ret a
       | None => undef why
       end.

(** [l[i] = v] of a C array: the array afterwards. *)
Definition assign {A} (why : string) (l : list A) (i : Z) (v : A) : M S (list A) :=
  let! _ := index why l i in ret (<[Z.to_nat i := v]> l).
End Loops.

(** How many times a loop around [sleep] re-tests its condition before the model
    gives up with [NoFuel]. Nothing bounds it in the code: other threads decide. *)
Class WaitFuel : Type := wait_fuel : nat.

(** Indices [0 .. n-1] of a C array of [n] elements. *)
Definition range (n : Z) : list nat := seq 0 (Z.to_nat n).

(** [l[i] = v] of a C array, within its bounds. *)
Definition store {A} (l : list A) (i : Z) (v : A) : list A := <[Z.to_nat i := v]> l.
Definition in_bounds {A} (l : list A) (i : Z) : bool := (0 <=? i) && (i <? Z.of_nat (length l)).

(** ** Weakest preconditions: the code returns, and [Q] holds *)
Definition wp {S A} (m : M S A) (Q : A -> S -> Prop) (s : S) : Prop :=
  match m s with
  | Ret a s' => Q a s'
  | _ => False
  end.

Section Wp.
Context {S : Type}.
Implicit Types s : S.

Lemma wp_ret {A} (a : A) Q s : Q a s -> wp (ret a) Q s.
Proof. done. Qed.

Lemma wp_bind {A B} (m : M S A) (f : A -> M S B) Q s :
  wp m (fun a s' => wp (f a) Q s') s -> wp (bind m f) Q s.
Proof. unfold wp, bind. destruct (m s); simpl; auto; tauto. Qed.

Lemma wp_mono {A} (m : M S A) (Q Q' : A -> S -> Prop) s :
  wp m Q s -> (forall a s', Q a s' -> Q' a s') -> wp m Q' s.
Proof. unfold wp. destruct (m s); auto. Qed.

Lemma wp_eq {A} (m : M S A) Q s a s' : m s = Ret a s' -> Q a s' -> wp m Q s.
Proof. unfold wp. by intros ->. Qed.

Lemma wp_inv {A} (m : M S A) Q s : wp m Q s -> exists a s', m s = Ret a s' /\ Q a s'.
Proof. unfold wp. destruct (m s); eauto; tauto. Qed.

Lemma wp_gets {A} (f : S -> A) Q s : Q (f s) s -> wp (gets f) Q s.
Proof. done. Qed.

Lemma wp_modify f Q s : Q tt (f s) -> wp (modify f) Q s.
Proof. done. Qed.

Lemma wp_index {A} why (l : list A) i Q s a :
  0 <= i -> l !! Z.to_nat i = Some a -> Q a s -> wp (index why l i) Q s.
Proof.
  intros Hi Hl HQ. unfold wp, index.
  destruct (Z.ltb_spec i 0); [lia|]. by rewrite Hl.
Qed.

(** A loop invariant for [for_each]. *)
Lemma wp_for_each {I} (body : I -> M S unit) (Inv : list I -> S -> Prop) (l : list I) Q s :
  Inv l s ->
  (forall i l' s', Inv (i :: l') s' -> wp (body i) (fun _ s'' => Inv l' s'') s') ->
  (forall s', Inv [] s' -> Q tt s') ->
  wp (for_each l body) Q s.
Proof.
  intros H0 Hstep Hend. revert s H0.
  induction l as [|i l IH]; intros s H0; simpl.
  - by apply wp_ret, Hend.
  - apply wp_bind. eapply wp_mono; [by apply Hstep|]. intros [] s' H. by apply IH.
Qed.
End Wp.

(** ** Equations of [bind] on the basic operations *)
Section BindEq.
Context {S : Type}.
Implicit Types s : S.

Lemma bind_run {A B} (m : M S A) (f : A -> M S B) s a s' :
  m s = Ret a s' -> bind m f s = f a s'.
Proof. unfold bind. by intros ->. Qed.

Lemma bind_inv {A B} (m : M S A) (f : A -> M S B) s b s' :
  bind m f s = Ret b s' -> exists a s1, m s = Ret a s1 /\ f a s1 = Ret b s'.
Proof. unfold bind. destruct (m s); simpl; intros; simplify_eq; eauto. Qed.

(** The beginning of a sequence that returns can be skipped. *)
Lemma bind_seq {A B C} (m : M S A) (f : A -> M S B) (g : B -> M S C) s b s' :
  bind m f s = Ret b s' -> bind m (fun a => bind (f a) g) s = g b s'.
Proof. intros (a & s1 & E1 & E2)%bind_inv. erewrite bind_run by exact E1. by erewrite bind_run by exact E2. Qed.

Lemma bind_ret {A B} (a : A) (f : A -> M S B) s : bind (ret a) f s = f a s.
Proof. done. Qed.

Lemma bind_gets {A B} (g : S -> A) (f : A -> M S B) s : bind (gets g) f s = f (g s) s.
Proof. done. Qed.

Lemma bind_get {B} (f : S -> M S B) s : bind get f s = f s s.
Proof. done. Qed.

Lemma bind_modify {B} (g : S -> S) (f : unit -> M S B) s : bind (modify g) f s = f tt (g s).
Proof. done. Qed.

Lemma bind_panic {A B} msg (f : A -> M S B) s : bind (panic msg) f s = Panic msg s.
Proof. done. Qed.

Lemma index_eq {A} why (l : list A) (i : Z) s a :
  0 <= i -> l !! Z.to_nat i = Some a -> index why l i s = Ret a s.
Proof.
  intros Hi Hl. unfold index. destruct (Z.ltb_spec i 0); [lia|]. by rewrite Hl.
Qed.

Lemma bind_index {A B} why (l : list A) (i : Z) (f : A -> M S B) s a :
  0 <= i -> l !! Z.to_nat i = Some a -> bind (index why l i) f s = f a s.
Proof. intros. apply bind_run. by apply index_eq. Qed.

Lemma bind_index_nat {A B} why (l : list A) (i : nat) (f : A -> M S B) s a :
  l !! i = Some a -> bind (index why l (Z.of_nat i)) f s = f a s.
Proof. intros. apply bind_index; [lia|]. by rewrite Nat2Z.id. Qed.

Lemma assign_eq {A} why (l : list A) i v s :
  0 <= i < Z.of_nat (length l) -> assign why l i v s = Ret (<[Z.to_nat i := v]> l) s.
Proof.
  intros H. destruct (lookup_lt_is_Some_2 l (Z.to_nat i)) as [x Hx]; [lia|].
  unfold assign. erewrite bind_run by (apply index_eq; [lia|done]). done.
Qed.

Lemma while_false n (cond : M S bool) body s s' :
  cond s = Ret false s' -> while_loop n cond body s = Ret tt s'.
Proof. intros H. destruct n; cbn [while_loop]; by erewrite bind_run by exact H. Qed.

Lemma while_true n (cond : M S bool) body s s' :
  cond s = Ret true s' ->
  while_loop (Datatypes.S n) cond body s = (body ;; while_loop n cond body) s'.
Proof. intros H. cbn [while_loop]. by erewrite bind_run by exact H. Qed.

(** A searching loop skips the elements on which its body only falls through. *)
Lemma for_find_skip {I R} (body : I -> M S (option R)) (l1 l2 : list I) s :
  (forall i, i ∈ l1 -> body i s = Ret None s) ->
  for_find (l1 ++ l2) body s = for_find l2 body s.
Proof.
  induction l1 as [|i l1 IH]; intros H; [done|].
  simpl. unfold bind at 1. rewrite (H i) by set_solver. simpl.
  apply IH. intros; apply H; set_solver.
Qed.

Lemma for_find_none {I R} (body : I -> M S (option R)) (l : list I) s :
  (forall i, i ∈ l -> body i s = Ret None s) ->
  for_find l body s = Ret None s.
Proof. intros H. rewrite <- (app_nil_r l). by rewrite for_find_skip. Qed.

Lemma for_find_hit {I R} (body : I -> M S (option R)) (l1 l2 : list I) i s r s' :
  (forall j, j ∈ l1 -> body j s = Ret None s) ->
  body i s = Ret (Some r) s' ->
  for_find (l1 ++ i :: l2) body s = Ret (Some r) s'.
Proof.
  intros H1 H2. rewrite for_find_skip by done. simpl. unfold bind. by rewrite H2.
Qed.

(** A search through a table: the body falls through on the entries that do not
    satisfy [P] and leaves the loop at the first that does. *)
Lemma for_find_table {A R} (P : A -> Prop) `{forall x, Decision (P x)} (l : list A)
    (body : nat -> M S (option R)) s :
  (forall i a, l !! i = Some a -> ~ P a -> body i s = Ret None s) ->
  match list_find P l with
  | Some (i, a) => forall o s', body i s = Ret (Some o) s' ->
      for_find (seq 0 (length l)) body s = Ret (Some o) s'
  | None => for_find (seq 0 (length l)) body s = Ret None s
  end.
Proof.
  intros Hb. destruct (list_find P l) as [[i a]|] eqn:E.
  - apply list_find_Some in E as (Hi & HP & Hbefore). intros o s' Ho.
    pose proof (lookup_lt_Some _ _ _ Hi).
    replace (length l) with (i + Datatypes.S (length l - i - 1))%nat by lia.
    rewrite seq_app. cbn [seq]. apply for_find_hit; [|done].
    intros j Hj. apply elem_of_seq in Hj. destruct (lookup_lt_is_Some_2 l j) as [b Hjb]; [lia|].
    apply (Hb j b Hjb). apply (Hbefore j b Hjb). lia.
  - apply list_find_None in E. rewrite Forall_forall in E. apply for_find_none.
    intros j Hj. apply elem_of_seq in Hj. destruct (lookup_lt_is_Some_2 l j) as [b Hjb]; [lia|].
    apply (Hb j b Hjb), E. by eapply list_elem_of_lookup_2.
Qed.
End BindEq.

(** Induction for functions that consume one or two list elements at a time. *)
Lemma list_ind2 {A} (P : list A -> Prop) :
  P [] -> (forall x, P [x]) -> (forall x y l, P l -> P (y :: l) -> P (x :: y :: l)) ->
  forall l, P l.
Proof.
  intros H0 H1 H2 l. cut (P l /\ forall x, P (x :: l)); [tauto|].
  induction l as [|y l [IH1 IH2]]; auto.
Qed.
