(* ===== verification/Bytes.v ===== *)
(** Machine words, little-endian byte sequences and the flat byte memory that
    kernel pointers address, with the lemmas the components share. *)

From S2P Require Import Prelude.
From stdpp Require Import base list.
From Stdlib Require Import ZArith Lia.
Open Scope Z_scope.

(** * C integer types: conversion to a width *)
Definition u8 (x : Z) : Z := x mod 2 ^ 8.
Definition u16 (x : Z) : Z := x mod 2 ^ 16.
Definition u32 (x : Z) : Z := x mod 2 ^ 32.
Definition signed (w x : Z) : Z :=
  let y := x mod 2 ^ w in if y <? 2 ^ (w - 1) then y else y - 2 ^ w.
Definition i16 (x : Z) : Z := signed 16 x.
Definition i32 (x : Z) : Z := signed 32 x.

Lemma u32_range x : 0 <= u32 x < 2 ^ 32.
Proof. apply Z.mod_pos_bound. lia. Qed.

Lemma u32_small x : 0 <= x < 2 ^ 32 -> u32 x = x.
Proof. apply Z.mod_small. Qed.

Lemma i32_small x : - 2 ^ 31 <= x < 2 ^ 31 -> i32 x = x.
Proof.
  intros H. unfold i32, signed.
  destruct (Z.ltb_spec (x mod 2 ^ 32) (2 ^ (32 - 1))) as [Hl|Hl];
    change (2 ^ (32 - 1)) with (2 ^ 31) in *;
    pose proof (Z.div_mod x (2 ^ 32) ltac:(lia));
    pose proof (Z.mod_pos_bound x (2 ^ 32) ltac:(lia)); nia.
Qed.

Lemma i16_small x : - 2 ^ 15 <= x < 2 ^ 15 -> i16 x = x.
Proof.
  intros H. unfold i16, signed.
  destruct (Z.ltb_spec (x mod 2 ^ 16) (2 ^ (16 - 1))) as [Hl|Hl];
    change (2 ^ (16 - 1)) with (2 ^ 15) in *;
    pose proof (Z.div_mod x (2 ^ 16) ltac:(lia));
    pose proof (Z.mod_pos_bound x (2 ^ 16) ltac:(lia)); nia.
Qed.

Lemma i32_range x : - 2 ^ 31 <= i32 x < 2 ^ 31.
Proof.
  unfold i32, signed. pose proof (Z.mod_pos_bound x (2 ^ 32) ltac:(lia)).
  destruct (Z.ltb_spec (x mod 2 ^ 32) (2 ^ (32 - 1)));
    change (2 ^ (32 - 1)) with (2 ^ 31) in *; lia.
Qed.

(** Converting to [uint] and back to [int] loses nothing. *)
Lemma i32_u32 x : i32 (u32 x) = i32 x.
Proof. unfold i32, u32, signed. by rewrite Z.mod_mod by lia. Qed.

Lemma u32_i32 x : u32 (i32 x) = u32 x.
Proof.
  unfold i32, u32, signed.
  destruct (Z.ltb_spec (x mod 2 ^ 32) (2 ^ (32 - 1))).
  - by rewrite Z.mod_mod by lia.
  - rewrite Zminus_mod, Z.mod_same, Z.sub_0_r, !Z.mod_mod by lia. done.
Qed.

(** * Little-endian encodings *)
Fixpoint le_enc (n : nat) (x : Z) : list Z :=
  match n with
  | O => []
  | S n' => x mod 256 :: le_enc n' (x / 256)
  end.

Fixpoint le_dec (l : list Z) : Z :=
  match l with
  | [] => 0
  | b :: l' => b + 256 * le_dec l'
  end.

Definition is_byte (b : Z) : Prop := 0 <= b < 256.

Lemma le_enc_length n x : length (le_enc n x) = n.
Proof. revert x. induction n; intros; simpl; auto. Qed.

Lemma le_dec_enc n x : le_dec (le_enc n x) = x mod 256 ^ Z.of_nat n.
Proof.
  revert x. induction n as [|n IH]; intros x; simpl.
  - by rewrite Z.mod_1_r.
  - rewrite IH, Nat2Z.inj_succ, Z.pow_succ_r by lia.
    rewrite (Z.rem_mul_r x 256) by lia. lia.
Qed.

Lemma le_enc_dec l : Forall is_byte l -> le_enc (length l) (le_dec l) = l.
Proof.
  induction 1 as [|b l Hb Hl IH]; [done|]. simpl.
  unfold is_byte in Hb. f_equal.
  - rewrite Z.mul_comm, Z.mod_add by lia. by apply Z.mod_small.
  - rewrite Z.mul_comm, Z.div_add by lia.
    rewrite Z.div_small by lia. by rewrite Z.add_0_l.
Qed.

Lemma le_dec_range l : Forall is_byte l -> 0 <= le_dec l < 256 ^ Z.of_nat (length l).
Proof.
  induction 1 as [|b l Hb Hl IH]; cbn [le_dec length]; [simpl; lia|].
  unfold is_byte in Hb.
  rewrite Nat2Z.inj_succ, Z.pow_succ_r by lia. lia.
Qed.

Lemma le_enc_bytes n x : Forall is_byte (le_enc n x).
Proof.
  revert x. induction n; intros x; simpl; constructor; auto.
  apply Z.mod_pos_bound. lia.
Qed.

(** * Byte arrays: reading and overwriting a slice *)
Definition splice (b : list Z) (off : Z) (d : list Z) : list Z :=
  take (Z.to_nat off) b ++ d ++ drop (Z.to_nat off + length d) b.

Definition slice (b : list Z) (off n : Z) : list Z :=
  take (Z.to_nat n) (drop (Z.to_nat off) b).

Definition rd16 (b : list Z) (off : Z) : Z := le_dec (slice b off 2).
Definition rd32 (b : list Z) (off : Z) : Z := le_dec (slice b off 4).
Definition wr16 (b : list Z) (off v : Z) : list Z := splice b off (le_enc 2 v).
Definition wr32 (b : list Z) (off v : Z) : list Z := splice b off (le_enc 4 v).

Section Splice.
Implicit Types b d : list Z.

Lemma splice_length b off d :
  0 <= off -> off + Z.of_nat (length d) <= Z.of_nat (length b) ->
  length (splice b off d) = length b.
Proof.
  intros. unfold splice. rewrite !length_app, length_take, length_drop. lia.
Qed.

Lemma slice_length b off n :
  0 <= off -> 0 <= n -> off + n <= Z.of_nat (length b) ->
  length (slice b off n) = Z.to_nat n.
Proof. intros. unfold slice. rewrite length_take, length_drop. lia. Qed.

Lemma slice_lookup b off n i :
  0 <= off -> (i < Z.to_nat n)%nat ->
  slice b off n !! i = b !! (Z.to_nat off + i)%nat.
Proof. intros. unfold slice. rewrite lookup_take_lt by lia. by rewrite lookup_drop. Qed.

Lemma splice_lookup_in b off d i :
  0 <= off -> off + Z.of_nat (length d) <= Z.of_nat (length b) ->
  (i < length d)%nat -> splice b off d !! (Z.to_nat off + i)%nat = d !! i.
Proof.
  intros. unfold splice.
  rewrite lookup_app_r by (rewrite length_take; lia).
  rewrite length_take, lookup_app_l by lia. f_equal. lia.
Qed.

Lemma splice_lookup_out b off d i :
  0 <= off -> off + Z.of_nat (length d) <= Z.of_nat (length b) ->
  (i < Z.to_nat off \/ Z.to_nat off + length d <= i)%nat -> splice b off d !! i = b !! i.
Proof.
  intros H1 H2 [H|H]; unfold splice.
  - rewrite lookup_app_l by (rewrite length_take; lia). by rewrite lookup_take_lt by lia.
  - rewrite lookup_app_r by (rewrite length_take; lia).
    rewrite lookup_app_r by (rewrite length_take; lia).
    rewrite length_take, lookup_drop. f_equal. lia.
Qed.

(** Reading back exactly the slice that was written. *)
Lemma slice_splice_eq b off d :
  0 <= off -> off + Z.of_nat (length d) <= Z.of_nat (length b) ->
  slice (splice b off d) off (Z.of_nat (length d)) = d.
Proof.
  intros. apply list_eq_same_length with (n := length d); [done| |].
  - rewrite slice_length; rewrite ?splice_length; lia.
  - intros i x y Hi Hx Hy. rewrite slice_lookup in Hx by lia.
    rewrite splice_lookup_in in Hx by lia. congruence.
Qed.

(** A slice disjoint from the written one is unchanged. *)
Lemma slice_splice_ne b off d off' n :
  0 <= off -> off + Z.of_nat (length d) <= Z.of_nat (length b) ->
  0 <= off' -> 0 <= n ->
  off' + n <= off \/ off + Z.of_nat (length d) <= off' ->
  slice (splice b off d) off' n = slice b off' n.
Proof.
  intros. apply list_eq. intros i.
  destruct (decide (i < Z.to_nat n)%nat).
  - rewrite !slice_lookup by lia. apply splice_lookup_out; lia.
  - unfold slice. rewrite !lookup_take_ge by lia. done.
Qed.

(** A slice within the written one. *)
Lemma slice_splice_in b off d k n :
  0 <= off -> off + Z.of_nat (length d) <= Z.of_nat (length b) -> 0 <= k -> 0 <= n -> k + n <= Z.of_nat (length d) ->
  slice (splice b off d) (off + k) n = slice d k n.
Proof.
  intros. apply list_eq. intros i. destruct (decide (i < Z.to_nat n)%nat).
  - rewrite !slice_lookup by lia. replace (Z.to_nat (off + k) + i)%nat with (Z.to_nat off + (Z.to_nat k + i))%nat by lia.
    apply splice_lookup_in; lia.
  - unfold slice. rewrite !lookup_take_ge by lia. done.
Qed.

Lemma wr16_length b off v : 0 <= off -> off + 2 <= Z.of_nat (length b) -> length (wr16 b off v) = length b.
Proof. intros. apply splice_length; rewrite ?le_enc_length; lia. Qed.

Lemma wr32_length b off v : 0 <= off -> off + 4 <= Z.of_nat (length b) -> length (wr32 b off v) = length b.
Proof. intros. apply splice_length; rewrite ?le_enc_length; lia. Qed.

Lemma rd16_wr16_ne b off off' v :
  0 <= off -> off + 2 <= Z.of_nat (length b) -> 0 <= off' ->
  off' + 2 <= off \/ off + 2 <= off' -> rd16 (wr16 b off v) off' = rd16 b off'.
Proof. intros. unfold rd16, wr16. f_equal. apply slice_splice_ne; rewrite ?le_enc_length; lia. Qed.

Lemma splice_bytes b off d :
  Forall is_byte b -> Forall is_byte d -> Forall is_byte (splice b off d).
Proof.
  intros. unfold splice. rewrite !Forall_app. auto using Forall_take, Forall_drop.
Qed.

Lemma slice_bytes b off n : Forall is_byte b -> Forall is_byte (slice b off n).
Proof. intros. unfold slice. auto using Forall_take, Forall_drop. Qed.

Lemma rd32_wr32_eq b off v :
  0 <= off -> off + 4 <= Z.of_nat (length b) -> rd32 (wr32 b off v) off = u32 v.
Proof.
  intros. unfold rd32, wr32.
  pose proof (slice_splice_eq b off (le_enc 4 v)) as E.
  rewrite le_enc_length in E. change (Z.of_nat 4) with 4 in E.
  rewrite E by lia. by rewrite le_dec_enc.
Qed.

Lemma rd32_wr32_ne b off off' v :
  0 <= off -> off + 4 <= Z.of_nat (length b) -> 0 <= off' ->
  off' + 4 <= off \/ off + 4 <= off' -> rd32 (wr32 b off v) off' = rd32 b off'.
Proof.
  intros. unfold rd32, wr32. f_equal. apply slice_splice_ne; rewrite ?le_enc_length; lia.
Qed.

Lemma rd16_wr16_eq b off v :
  0 <= off -> off + 2 <= Z.of_nat (length b) -> rd16 (wr16 b off v) off = u16 v.
Proof.
  intros. unfold rd16, wr16.
  pose proof (slice_splice_eq b off (le_enc 2 v)) as E.
  rewrite le_enc_length in E. change (Z.of_nat 2) with 2 in E.
  rewrite E by lia. by rewrite le_dec_enc.
Qed.

Lemma rd32_range b off : Forall is_byte b -> 0 <= rd32 b off < 2 ^ 32.
Proof.
  intros Hb. unfold rd32.
  pose proof (le_dec_range (slice b off 4) (slice_bytes _ _ _ Hb)) as [H1 H2].
  split; [done|]. eapply Z.lt_le_trans; [exact H2|].
  change (2 ^ 32) with (256 ^ 4). apply Z.pow_le_mono_r; [lia|].
  unfold slice. rewrite length_take. lia.
Qed.
End Splice.

(** * The flat memory of kernel pointers: one byte per address *)
Definition mem : Type := Z -> Z.

Definition upd (m : mem) (a v : Z) : mem := fun x => if x =? a then v else m x.

Definition ld32 (m : mem) (a : Z) : Z := le_dec [m a; m (a + 1); m (a + 2); m (a + 3)].

(** Storing a byte list at consecutive addresses. *)
Fixpoint st_bytes (m : mem) (a : Z) (l : list Z) : mem :=
  match l with
  | [] => m
  | b :: l' => st_bytes (upd m a b) (a + 1) l'
  end.

Definition st32 (m : mem) (a v : Z) : mem := st_bytes m a (le_enc 4 v).

(** The [n] bytes at [a]. *)
Fixpoint ld_bytes (m : mem) (a : Z) (n : nat) : list Z :=
  match n with
  | O => []
  | S n' => m a :: ld_bytes m (a + 1) n'
  end.

Section Mem.
Implicit Types (m : mem) (a : Z).

Lemma upd_eq m a v : upd m a v a = v.
Proof. unfold upd. by rewrite Z.eqb_refl. Qed.

Lemma upd_ne m a v x : x <> a -> upd m a v x = m x.
Proof. unfold upd. intros. by destruct (Z.eqb_spec x a). Qed.

Lemma st_bytes_out m a l x :
  x < a \/ a + Z.of_nat (length l) <= x -> st_bytes m a l x = m x.
Proof.
  revert m a. induction l as [|b l IH]; intros m a H; simpl in *; [done|].
  rewrite IH by lia. apply upd_ne. lia.
Qed.

Lemma st_bytes_in m a l i b :
  l !! i = Some b -> st_bytes m a l (a + Z.of_nat i) = b.
Proof.
  revert m a i. induction l as [|c l IH]; intros m a i H; simpl in *; [done|].
  destruct i as [|i]; simpl in *.
  - injection H as ->. rewrite st_bytes_out by lia. rewrite Z.add_0_r. apply upd_eq.
  - rewrite <- (IH (upd m a c) (a + 1) i H). f_equal. lia.
Qed.

Lemma ld32_out m m' a :
  (forall x, a <= x < a + 4 -> m x = m' x) -> ld32 m a = ld32 m' a.
Proof. intros H. unfold ld32. by rewrite !H by lia. Qed.

Lemma st32_out m a v x : x < a \/ a + 4 <= x -> st32 m a v x = m x.
Proof. intros. apply st_bytes_out. rewrite le_enc_length. lia. Qed.

Lemma ld32_st32_eq m a v : ld32 (st32 m a v) a = u32 v.
Proof.
  unfold ld32, st32.
  pose proof (st_bytes_in m a (le_enc 4 v) 0 _ eq_refl) as H0.
  pose proof (st_bytes_in m a (le_enc 4 v) 1 _ eq_refl) as H1.
  pose proof (st_bytes_in m a (le_enc 4 v) 2 _ eq_refl) as H2.
  pose proof (st_bytes_in m a (le_enc 4 v) 3 _ eq_refl) as H3.
  rewrite Z.add_0_r in H0.
  change (Z.of_nat 1) with 1 in H1. change (Z.of_nat 2) with 2 in H2.
  change (Z.of_nat 3) with 3 in H3. rewrite H0, H1, H2, H3.
  exact (le_dec_enc 4 v).
Qed.

Lemma ld32_st32_ne m a v x :
  x + 4 <= a \/ a + 4 <= x -> ld32 (st32 m a v) x = ld32 m x.
Proof. intros. apply ld32_out. intros. apply st32_out. lia. Qed.

Lemma ld_bytes_length m a n : length (ld_bytes m a n) = n.
Proof. revert a. induction n; simpl; auto. Qed.

Lemma ld_bytes_lookup m a n i :
  (i < n)%nat -> ld_bytes m a n !! i = Some (m (a + Z.of_nat i)).
Proof.
  revert a i. induction n as [|n IH]; intros a i H; [lia|].
  destruct i as [|i]; simpl; [by rewrite Z.add_0_r|].
  rewrite IH by lia. do 2 f_equal. lia.
Qed.
End Mem.

(** Positions in a window of a ring differ modulo its size. *)
Lemma mod_window cap f i j :
  0 < cap -> 0 <= i < cap -> 0 <= j < cap -> (f + i) mod cap = (f + j) mod cap -> i = j.
Proof.
  intros Hc Hi Hj E.
  pose proof (Z.div_mod (f + i) cap ltac:(lia)). pose proof (Z.div_mod (f + j) cap ltac:(lia)).
  assert (i - j = cap * ((f + i) / cap - (f + j) / cap)) as E' by lia.
  assert ((f + i) / cap - (f + j) / cap = 0) by nia. lia.
Qed.


(** The bits of a number below [2 ^ n] and those of a multiple of [2 ^ n] do not meet. *)
Lemma lor_low n a f : 0 <= n -> a mod 2 ^ n = 0 -> 0 <= f < 2 ^ n -> Z.lor a f = a + f.
Proof.
  intros Hn Ha Hf. symmetry. assert (H0 : Z.land a f = 0).
  { apply Z.bits_inj'. intros i Hi. rewrite Z.land_spec, Z.bits_0. rewrite (Z.div_mod a (2 ^ n)), Ha, Z.add_0_r, Z.mul_comm by lia.
    destruct (Z.ltb_spec i n).
    - by rewrite Z.mul_pow2_bits_low by lia.
    - rewrite <- (Z.mod_small f (2 ^ n)) by done. rewrite Z.mod_pow2_bits_high by lia. apply andb_false_r. }
  rewrite Z.add_nocarry_lxor by done. by apply Z.lxor_lor.
Qed.

Lemma lor_shift n a f : 0 <= n -> 0 <= f < 2 ^ n -> Z.lor (Z.shiftl a n) f = a * 2 ^ n + f.
Proof. intros Hn Hf. rewrite Z.shiftl_mul_pow2 by done. apply (lor_low n); [done|apply Z.mod_mul; lia|done]. Qed.
