(* ===== verification/KString.v ===== *)
(** [string.c]: the kernel's memory and string routines, on the flat memory of
    [Bytes]. Each loop of the C code is a recursion on its counter; the
    pointer-increment loops run for exactly the iterations the C loop runs. *)

From S2P Require Import Prelude Bytes.
From stdpp Require Import base list.
From Stdlib Require Import ZArith Lia.
Open Scope Z_scope.

(** [rep stosb]: [cnt] byte stores. *)
Fixpoint stosb (m : mem) (a c : Z) (cnt : nat) : mem :=
  match cnt with
  | O => m
  | S cnt' => stosb (upd m a c) (a + 1) c cnt'
  end.

(** [rep stosl]: [cnt] 32-bit stores. *)
Fixpoint stosl (m : mem) (a w : Z) (cnt : nat) : mem :=
  match cnt with
  | O => m
  | S cnt' => stosl (st32 m a w) (a + 4) w cnt'
  end.

Definition memset (m : mem) (dst c n : Z) : mem :=
  if (dst mod 4 =? 0) && (n mod 4 =? 0) then
    let c := Z.land c 255 in
    stosl m dst (Z.lor (Z.lor (Z.lor (Z.shiftl c 24) (Z.shiftl c 16)) (Z.shiftl c 8)) c)
          (Z.to_nat (n / 4))
  else stosb m dst (u8 c) (Z.to_nat n).

(** [memcmp]: the difference of the first bytes that differ. *)
Fixpoint memcmp (m : mem) (s1 s2 : Z) (n : nat) : Z :=
  match n with
  | O => 0
  | S n' => if m s1 =? m s2 then memcmp m (s1 + 1) (s2 + 1) n' else m s1 - m s2
  end.

(** The two loops of [memmove]: [*d++ = *s++] and [*--d = *--s]. *)
Fixpoint copy_up (m : mem) (d s : Z) (n : nat) : mem :=
  match n with
  | O => m
  | S n' => copy_up (upd m d (m s)) (d + 1) (s + 1) n'
  end.

Fixpoint copy_down (m : mem) (d s : Z) (n : nat) : mem :=
  match n with
  | O => m
  | S n' => copy_down (upd m (d - 1) (m (s - 1))) (d - 1) (s - 1) n'
  end.

Definition memmove (m : mem) (dst src n : Z) : mem :=
  if (src <? dst) && (dst <? src + n) then copy_down m (dst + n) (src + n) (Z.to_nat n)
  else copy_up m dst src (Z.to_nat n).

Definition memcpy (m : mem) (dst src n : Z) : mem := memmove m dst src n.

Fixpoint strncmp (m : mem) (p q : Z) (n : nat) : Z :=
  match n with
  | O => 0
  | S n' => if negb (m p =? 0) && (m p =? m q) then strncmp m (p + 1) (q + 1) n'
            else m p - m q
  end.

(** The padding loop of [strncpy]. *)
Fixpoint strncpy_pad (m : mem) (s : Z) (n : nat) : mem :=
  match n with
  | O => m
  | S n' => strncpy_pad (upd m s 0) (s + 1) n'
  end.

Fixpoint strncpy_loop (m : mem) (s t : Z) (n : nat) : mem :=
  match n with
  | O => m
  | S n' => let c := m t in
            if c =? 0 then strncpy_pad (upd m s c) (s + 1) n'
            else strncpy_loop (upd m s c) (s + 1) (t + 1) n'
  end.

Definition strncpy (m : mem) (s t n : Z) : mem := strncpy_loop m s t (Z.to_nat n).

(** The loop of [safestrcpy]: [n] is the value after the test's decrement. *)
Fixpoint safestrcpy_loop (m : mem) (s t : Z) (n : nat) : mem :=
  match n with
  | O => upd m s 0
  | S n' => let c := m t in
            if c =? 0 then upd (upd m s c) (s + 1) 0
            else safestrcpy_loop (upd m s c) (s + 1) (t + 1) n'
  end.

Definition safestrcpy (m : mem) (s t n : Z) : mem :=
  if n <=? 0 then m else safestrcpy_loop m s t (Z.to_nat (n - 1)).

(** [strlen]: [None] when no NUL is met within [fuel] bytes. *)
Fixpoint strlen_loop (fuel : nat) (m : mem) (s n : Z) : option Z :=
  match fuel with
  | O => None
  | S f => if m (s + n) =? 0 then Some n else strlen_loop f m s (n + 1)
  end.

Definition strlen (fuel : nat) (m : mem) (s : Z) : option Z := strlen_loop fuel m s 0.

(** The C string [l] is stored at [a]: its bytes are not NUL and a NUL follows. *)
Definition cstr (m : mem) (a : Z) (l : list Z) : Prop :=
  (forall i c, l !! i = Some c -> m (a + Z.of_nat i) = c /\ c <> 0) /\
  m (a + Z.of_nat (length l)) = 0.

(** * Correctness *)
Section StringFacts.
Implicit Types m : mem.

Lemma stosb_spec m a c cnt x :
  stosb m a c cnt x = if (a <=? x) && (x <? a + Z.of_nat cnt) then c else m x.
Proof.
  revert m a. induction cnt as [|cnt IH]; intros m a; cbn [stosb].
  - destruct (Z.leb_spec a x), (Z.ltb_spec x (a + Z.of_nat 0)); simpl; auto; lia.
  - rewrite IH.
    destruct (Z.leb_spec (a + 1) x), (Z.ltb_spec x (a + 1 + Z.of_nat cnt)),
      (Z.leb_spec a x), (Z.ltb_spec x (a + Z.of_nat (S cnt))); simpl; auto; try lia;
      try (apply upd_ne; lia).
    replace x with a by lia. apply upd_eq.
Qed.

(** Four equal bytes make the word [stosl] stores. *)
Lemma le_rep c :
  0 <= c < 256 ->
  le_enc 4 (Z.lor (Z.lor (Z.lor (Z.shiftl c 24) (Z.shiftl c 16)) (Z.shiftl c 8)) c) = [c; c; c; c].
Proof.
  intros H.
  assert (Hall : forallb (fun k => let c := Z.of_nat k in
    forallb (fun p => Z.eqb (fst p) (snd p))
      (zip (le_enc 4 (Z.lor (Z.lor (Z.lor (Z.shiftl c 24) (Z.shiftl c 16)) (Z.shiftl c 8)) c))
           [c; c; c; c])) (seq 0 256) = true) by (vm_compute; reflexivity).
  rewrite forallb_forall in Hall. specialize (Hall (Z.to_nat c)).
  rewrite Z2Nat.id in Hall by lia.
  assert (Hin : In (Z.to_nat c) (seq 0 256)) by (apply in_seq; lia).
  specialize (Hall Hin). cbn [le_enc zip zip_with forallb fst snd] in Hall.
  rewrite !andb_true_iff, !Z.eqb_eq in Hall. cbn [le_enc].
  destruct Hall as (E1 & E2 & E3 & E4 & _). congruence.
Qed.

Lemma stosl_spec m a c cnt x :
  0 <= c < 256 ->
  stosl m a (Z.lor (Z.lor (Z.lor (Z.shiftl c 24) (Z.shiftl c 16)) (Z.shiftl c 8)) c) cnt x
  = if (a <=? x) && (x <? a + 4 * Z.of_nat cnt) then c else m x.
Proof.
  intros Hc. set (w := Z.lor _ c).
  assert (Hw : le_enc 4 w = [c; c; c; c]) by (by apply le_rep).
  revert m a. induction cnt as [|cnt IH]; intros m a; cbn [stosl].
  - destruct (Z.leb_spec a x), (Z.ltb_spec x (a + 4 * Z.of_nat 0)); simpl; auto; lia.
  - rewrite IH.
    destruct (Z.leb_spec (a + 4) x), (Z.ltb_spec x (a + 4 + 4 * Z.of_nat cnt)),
      (Z.leb_spec a x), (Z.ltb_spec x (a + 4 * Z.of_nat (S cnt))); simpl; auto; try lia;
      try (apply st32_out; lia).
    unfold st32. rewrite Hw. replace x with (a + Z.of_nat (Z.to_nat (x - a))) by lia.
    apply st_bytes_in.
    assert (Hlt : (Z.to_nat (x - a) < 4)%nat) by lia.
    destruct (Z.to_nat (x - a)) as [|[|[|[|]]]]; simpl; auto; lia.
Qed.

Lemma memset_spec m dst c n x :
  0 <= n -> memset m dst c n x = if (dst <=? x) && (x <? dst + n) then u8 c else m x.
Proof.
  intros Hn. unfold memset.
  destruct ((dst mod 4 =? 0) && (n mod 4 =? 0)) eqn:E.
  - apply andb_true_iff in E as [_ E]. apply Z.eqb_eq in E.
    change 255 with (Z.ones 8). rewrite Z.land_ones by lia. fold (u8 c).
    rewrite stosl_spec by (unfold u8; apply Z.mod_pos_bound; lia).
    rewrite Z2Nat.id by (apply Z.div_pos; lia).
    replace (4 * (n / 4)) with n by (pose proof (Z.div_mod n 4 ltac:(lia)); lia). done.
  - rewrite stosb_spec, Z2Nat.id by lia. done.
Qed.

Lemma copy_up_out m d s n x :
  x < d \/ d + Z.of_nat n <= x -> copy_up m d s n x = m x.
Proof.
  revert m d s. induction n as [|n IH]; intros m d s H; cbn [copy_up]; [done|].
  rewrite IH by lia. apply upd_ne. lia.
Qed.

(** The upward loop copies the original bytes when the destination starts at
    or below the source, or past its end. *)
Lemma copy_up_in m d s n x :
  d <= s \/ s + Z.of_nat n <= d ->
  d <= x < d + Z.of_nat n -> copy_up m d s n x = m (x - d + s).
Proof.
  revert m d s. induction n as [|n IH]; intros m d s Hov Hx; cbn [copy_up]; [lia|].
  destruct (decide (x = d)) as [->|Hne].
  - rewrite copy_up_out by lia. rewrite upd_eq. f_equal. lia.
  - rewrite IH by lia. rewrite upd_ne by lia. f_equal. lia.
Qed.

Lemma copy_down_out m d s n x :
  x < d - Z.of_nat n \/ d <= x -> copy_down m d s n x = m x.
Proof.
  revert m d s. induction n as [|n IH]; intros m d s H; cbn [copy_down]; [done|].
  rewrite IH by lia. apply upd_ne. lia.
Qed.

Lemma copy_down_in m d s n x :
  s <= d -> d - Z.of_nat n <= x < d -> copy_down m d s n x = m (x - d + s).
Proof.
  revert m d s. induction n as [|n IH]; intros m d s Hov Hx; cbn [copy_down]; [lia|].
  destruct (decide (x = d - 1)) as [->|Hne].
  - rewrite copy_down_out by lia. rewrite upd_eq. f_equal. lia.
  - rewrite IH by lia. rewrite upd_ne by lia. f_equal. lia.
Qed.

(** [memmove] copies the original source bytes, whatever the overlap. *)
Lemma memmove_spec m dst src n x :
  0 <= n ->
  memmove m dst src n x =
    if (dst <=? x) && (x <? dst + n) then m (x - dst + src) else m x.
Proof.
  intros Hn. unfold memmove.
  destruct (Z.leb_spec dst x), (Z.ltb_spec x (dst + n)),
    (Z.ltb_spec src dst), (Z.ltb_spec dst (src + n)); simpl;
    rewrite ?copy_down_out, ?copy_up_out by lia; auto.
  all: rewrite ?copy_down_in, ?copy_up_in by lia; f_equal; lia.
Qed.

Lemma strlen_loop_spec fuel m s l n :
  cstr m s l -> (n <= length l)%nat -> (length l - n < fuel)%nat ->
  strlen_loop fuel m s (Z.of_nat n) = Some (Z.of_nat (length l)).
Proof.
  intros [Hl Hz]. revert n. induction fuel as [|f IH]; intros n Hn Hf; [lia|].
  cbn [strlen_loop]. destruct (decide (n = length l)) as [->|Hne].
  - by rewrite Hz, Z.eqb_refl.
  - destruct (lookup_lt_is_Some_2 l n ltac:(lia)) as [c Hc].
    destruct (Hl n c Hc) as [-> Hnz]. destruct (Z.eqb_spec c 0); [done|].
    replace (Z.of_nat n + 1) with (Z.of_nat (S n)) by lia. apply IH; lia.
Qed.

(** [strlen] finds the length of any stored string, given that much fuel. *)
Lemma strlen_spec fuel m s l :
  cstr m s l -> (length l < fuel)%nat -> strlen fuel m s = Some (Z.of_nat (length l)).
Proof. intros. apply (strlen_loop_spec fuel m s l 0); auto; lia. Qed.

Lemma safestrcpy_loop_out m s t n x :
  x < s \/ s + Z.of_nat n < x -> safestrcpy_loop m s t n x = m x.
Proof.
  revert m s t. induction n as [|n IH]; intros m s t H; cbn [safestrcpy_loop].
  - apply upd_ne. lia.
  - destruct (m t =? 0).
    + rewrite !upd_ne by lia. done.
    + rewrite IH by lia. apply upd_ne. lia.
Qed.

Lemma cstr_tail m a c l : cstr m a (c :: l) -> m a = c /\ c <> 0 /\ cstr m (a + 1) l.
Proof.
  intros [Hl Hz]. destruct (Hl 0%nat c eq_refl) as [E1 E2].
  rewrite Z.add_0_r in E1. split_and!; auto. split.
  - intros i d Hd. specialize (Hl (S i) d Hd).
    replace (a + 1 + Z.of_nat i) with (a + Z.of_nat (S i)) by lia. done.
  - cbn [length] in Hz. replace (a + 1 + Z.of_nat (length l)) with
      (a + Z.of_nat (S (length l))) by lia. done.
Qed.

Lemma cstr_frame m m' a l :
  (forall x, a <= x <= a + Z.of_nat (length l) -> m' x = m x) -> cstr m a l -> cstr m' a l.
Proof.
  intros H [Hl Hz]. split.
  - intros i c Hi. rewrite H; [auto|]. apply lookup_lt_Some in Hi. lia.
  - rewrite H; [auto|]. lia.
Qed.

Lemma cstr_cons m a c l : m a = c -> c <> 0 -> cstr m (a + 1) l -> cstr m a (c :: l).
Proof.
  intros H1 H2 [Hl Hz]. split.
  - intros [|i] d Hd; simpl in Hd.
    + injection Hd as <-. by rewrite Z.add_0_r.
    + replace (a + Z.of_nat (S i)) with (a + 1 + Z.of_nat i) by lia. auto.
  - cbn [length]. replace (a + Z.of_nat (S (length l))) with
      (a + 1 + Z.of_nat (length l)) by lia. done.
Qed.

Lemma safestrcpy_loop_spec m s t n l :
  cstr m t l ->
  t + Z.of_nat (length l) < s \/ s + Z.of_nat n < t ->
  cstr (safestrcpy_loop m s t n) s (take n l).
Proof.
  revert m s t l. induction n as [|n IH]; intros m s t l Hl Hd; cbn [safestrcpy_loop].
  - rewrite take_0. split; [by intros i c Hi|]. simpl. rewrite Z.add_0_r. apply upd_eq.
  - destruct l as [|c l].
    + destruct Hl as [_ Hz]. simpl in Hz. rewrite Z.add_0_r in Hz. rewrite Hz. simpl.
      split; [by intros i c Hi|]. simpl. rewrite Z.add_0_r.
      rewrite upd_ne by lia. apply upd_eq.
    + destruct (cstr_tail _ _ _ _ Hl) as (E1 & E2 & E3). rewrite E1.
      destruct (Z.eqb_spec c 0); [done|]. simpl in Hd. cbn [take].
      apply cstr_cons; auto.
      * rewrite safestrcpy_loop_out by lia. apply upd_eq.
      * apply IH; [|simpl; lia]. eapply cstr_frame; [|exact E3].
        intros x Hx. apply upd_ne. lia.
Qed.

(** [safestrcpy] into a buffer apart from the source leaves there the source
    string cut to [n - 1] bytes, always NUL-terminated. *)
Lemma safestrcpy_spec m s t n l :
  cstr m t l -> 0 < n ->
  t + Z.of_nat (length l) < s \/ s + n <= t ->
  cstr (safestrcpy m s t n) s (take (Z.to_nat (n - 1)) l).
Proof.
  intros Hl Hn Hd. unfold safestrcpy. destruct (Z.leb_spec n 0); [lia|].
  apply safestrcpy_loop_spec; auto. lia.
Qed.

Lemma safestrcpy_out m s t n x :
  x < s \/ s + n <= x -> safestrcpy m s t n x = m x.
Proof.
  intros. unfold safestrcpy. destruct (Z.leb_spec n 0); [done|].
  apply safestrcpy_loop_out. lia.
Qed.

(** [memcmp] is 0 exactly on equal ranges. *)
Lemma memcmp_zero m s1 s2 n :
  memcmp m s1 s2 n = 0 <-> (forall i, 0 <= i < Z.of_nat n -> m (s1 + i) = m (s2 + i)).
Proof.
  revert s1 s2. induction n as [|n IH]; intros s1 s2; cbn [memcmp].
  - split; [intros; lia|done].
  - destruct (Z.eqb_spec (m s1) (m s2)) as [E|E].
    + rewrite IH. split; intros H i Hi.
      * destruct (decide (i = 0)) as [->|]; [by rewrite !Z.add_0_r|].
        replace (s1 + i) with (s1 + 1 + (i - 1)) by lia.
        replace (s2 + i) with (s2 + 1 + (i - 1)) by lia. apply H. lia.
      * rewrite <- !Z.add_assoc. apply H. lia.
    + split; intros H; [lia|]. specialize (H 0 ltac:(lia)).
      rewrite !Z.add_0_r in H. lia.
Qed.

(** [strncmp] of two stored strings is 0 exactly when they agree on their
    first [n] bytes. *)
Lemma strncmp_zero m p q n l1 l2 :
  cstr m p l1 -> cstr m q l2 -> strncmp m p q n = 0 <-> take n l1 = take n l2.
Proof.
  revert p q l1 l2. induction n as [|n IH]; intros p q l1 l2 H1 H2; cbn [strncmp].
  - by rewrite !take_0.
  - destruct l1 as [|c l1], l2 as [|d l2].
    + destruct H1 as [_ Z1], H2 as [_ Z2]. simpl in Z1, Z2.
      rewrite Z.add_0_r in Z1, Z2. by rewrite Z1, Z2.
    + destruct H1 as [_ Z1]. simpl in Z1. rewrite Z.add_0_r in Z1.
      apply cstr_tail in H2 as (E2 & N2 & _). rewrite Z1, E2. simpl. split; [lia|done].
    + destruct H2 as [_ Z1]. simpl in Z1. rewrite Z.add_0_r in Z1.
      apply cstr_tail in H1 as (E2 & N2 & _). rewrite Z1, E2.
      destruct (Z.eqb_spec c 0); simpl; split; try lia; done.
    + apply cstr_tail in H1 as (E1 & N1 & T1). apply cstr_tail in H2 as (E2 & N2 & T2).
      rewrite E1, E2. destruct (Z.eqb_spec c 0); [done|]. simpl.
      destruct (Z.eqb_spec c d) as [->|Hne].
      * rewrite (IH _ _ l1 l2) by done. split; [by intros ->|by intros [= ?]].
      * split; [lia|]. intros [= -> _]. done.
Qed.
End StringFacts.
