(* ===== verification/Params.v ===== *)
(** Constants and address macros: [param.h], [memlayout.h], [mmu.h], [fs.h],
    [stat.h], [fcntl.h], [buf.h], [traps.h] and [syscall.h]. *)

From S2P Require Import Prelude Bytes.
From stdpp Require Import base list.
From Stdlib Require Import ZArith Lia.
Open Scope Z_scope.

(** [param.h] *)
Definition NPROC : Z := 64.
Definition KSTACKSIZE : Z := 4096.
Definition NCPU : Z := 8.
Definition NOFILE : Z := 100.
Definition NFILE : Z := 100.
Definition NINODE : Z := 50.
Definition NDEV : Z := 10.
Definition ROOTDEV : Z := 1.
Definition MAXARG : Z := 32.
Definition MAXOPBLOCKS : Z := 10.
Definition LOGSIZE : Z := MAXOPBLOCKS * 3.
Definition NBUF : Z := MAXOPBLOCKS * 3.
Definition FSSIZE : Z := 1000.

(** [memlayout.h] *)
Definition EXTMEM : Z := 1048576.
Definition PHYSTOP : Z := 234881024.
Definition DEVSPACE : Z := 4261412864.
Definition KERNBASE : Z := 2147483648.
Definition KERNLINK : Z := KERNBASE + EXTMEM.
Definition V2P (a : Z) : Z := u32 (a - KERNBASE).
Definition P2V (a : Z) : Z := u32 (a + KERNBASE).

(** [mmu.h] *)
Definition PGSIZE : Z := 4096.
Definition NPDENTRIES : Z := 1024.
Definition NPTENTRIES : Z := 1024.
Definition PDX (va : Z) : Z := Z.land (Z.shiftr va 22) 1023.
Definition PTX (va : Z) : Z := Z.land (Z.shiftr va 12) 1023.
Definition PGADDR (d t o : Z) : Z :=
  u32 (Z.lor (Z.lor (Z.shiftl d 22) (Z.shiftl t 12)) o).
Definition PGROUNDDOWN (a : Z) : Z := Z.land a (u32 (Z.lnot (PGSIZE - 1))).
Definition PGROUNDUP (sz : Z) : Z := PGROUNDDOWN (u32 (sz + PGSIZE - 1)).
Definition PTE_P : Z := 1.
Definition PTE_W : Z := 2.
Definition PTE_U : Z := 4.
Definition PTE_ADDR (pte : Z) : Z := Z.land pte (u32 (Z.lnot 4095)).
Definition PTE_FLAGS (pte : Z) : Z := Z.land pte 4095.
Definition FL_IF : Z := 512.
Definition SEG_KCODE : Z := 1.
Definition SEG_KDATA : Z := 2.
Definition SEG_UCODE : Z := 3.
Definition SEG_UDATA : Z := 4.
Definition SEG_TSS : Z := 5.
Definition DPL_USER : Z := 3.

(** [fs.h], [stat.h], [fcntl.h], [buf.h], [file.h] *)
Definition ROOTINO : Z := 1.
Definition BSIZE : Z := 512.
Definition NDIRECT : Z := 12.
Definition NINDIRECT : Z := BSIZE / 4.
Definition MAXFILE : Z := NDIRECT + NINDIRECT.
Definition DINODE_SIZE : Z := 64.
Definition IPB : Z := BSIZE / DINODE_SIZE.
Definition BPB : Z := BSIZE * 8.
Definition DIRSIZ : Z := 14.
Definition DIRENT_SIZE : Z := 16.
Definition T_DIR : Z := 1.
Definition T_FILE : Z := 2.
Definition T_DEV : Z := 3.
Definition O_RDONLY : Z := 0.
Definition O_WRONLY : Z := 1.
Definition O_RDWR : Z := 2.
Definition O_CREATE : Z := 512.
Definition B_VALID : Z := 2.
Definition B_DIRTY : Z := 4.
Definition CONSOLE : Z := 1.

(** [traps.h] *)
Definition T_SYSCALL : Z := 64.
Definition T_IRQ0 : Z := 32.
Definition IRQ_TIMER : Z := 0.
Definition IRQ_KBD : Z := 1.
Definition IRQ_COM1 : Z := 4.
Definition IRQ_IDE : Z := 14.
Definition IRQ_SPURIOUS : Z := 31.

(** [syscall.h] *)
Definition SYS_fork : Z := 1.
Definition SYS_exit : Z := 2.
Definition SYS_wait : Z := 3.
Definition SYS_pipe : Z := 4.
Definition SYS_read : Z := 5.
Definition SYS_kill : Z := 6.
Definition SYS_exec : Z := 7.
Definition SYS_fstat : Z := 8.
Definition SYS_chdir : Z := 9.
Definition SYS_dup : Z := 10.
Definition SYS_getpid : Z := 11.
Definition SYS_sbrk : Z := 12.
Definition SYS_sleep : Z := 13.
Definition SYS_uptime : Z := 14.
Definition SYS_open : Z := 15.
Definition SYS_write : Z := 16.
Definition SYS_mknod : Z := 17.
Definition SYS_unlink : Z := 18.
Definition SYS_link : Z := 19.
Definition SYS_mkdir : Z := 20.
Definition SYS_close : Z := 21.
Definition SYS_halt : Z := 22.
Definition SYS_toggle : Z := 23.
Definition SYS_ps : Z := 24.
Definition SYS_destroy_container : Z := 25.
Definition SYS_join_container : Z := 26.
Definition SYS_leave_container : Z := 27.
Definition SYS_create_container : Z := 28.
Definition SYS_send : Z := 29.
Definition SYS_recv : Z := 30.
Definition SYS_getcid : Z := 31.
Definition SYS_scheduler_log : Z := 32.

(** * Facts about the address macros *)
Lemma PGROUNDDOWN_eq a : 0 <= a < 2 ^ 32 -> PGROUNDDOWN a = a - a mod PGSIZE.
Proof.
  intros H. unfold PGROUNDDOWN, PGSIZE.
  change (u32 (Z.lnot (4096 - 1))) with (Z.ldiff (Z.ones 32) (Z.ones 12)).
  change 4096 with (2 ^ 12). rewrite <- Z.land_ones by lia.
  assert (E : Z.land a (Z.ldiff (Z.ones 32) (Z.ones 12)) = Z.ldiff a (Z.ones 12)).
  { rewrite !Z.ldiff_land, Z.land_assoc. f_equal.
    rewrite Z.land_ones by lia. apply Z.mod_small. lia. }
  rewrite E. pose proof (Z.add_nocarry_lxor (Z.ldiff a (Z.ones 12)) (Z.land a (Z.ones 12))) as X.
  assert (D : Z.land (Z.ldiff a (Z.ones 12)) (Z.land a (Z.ones 12)) = 0).
  { apply Z.bits_inj'. intros n Hn. rewrite !Z.land_spec, Z.ldiff_spec, Z.bits_0.
    by destruct (Z.testbit a n), (Z.testbit (Z.ones 12) n). }
  specialize (X D).
  assert (Y : Z.lxor (Z.ldiff a (Z.ones 12)) (Z.land a (Z.ones 12)) = a).
  { apply Z.bits_inj'. intros n Hn. rewrite Z.lxor_spec, Z.land_spec, Z.ldiff_spec.
    by destruct (Z.testbit a n), (Z.testbit (Z.ones 12) n). }
  change (Z.ones 12) with 4095 in *. lia.
Qed.

Lemma PTE_ADDR_eq a : 0 <= a < 2 ^ 32 -> PTE_ADDR a = a - a mod PGSIZE.
Proof. exact (PGROUNDDOWN_eq a). Qed.

Lemma PGROUNDUP_eq a :
  0 <= a -> a + PGSIZE <= 2 ^ 32 -> PGROUNDUP a = (a + PGSIZE - 1) / PGSIZE * PGSIZE.
Proof.
  intros H1 H2. unfold PGROUNDUP. rewrite u32_small by (unfold PGSIZE in *; lia).
  rewrite PGROUNDDOWN_eq by (unfold PGSIZE in *; lia).
  pose proof (Z.div_mod (a + PGSIZE - 1) PGSIZE ltac:(unfold PGSIZE; lia)). lia.
Qed.

Lemma PDX_eq va : 0 <= va < 2 ^ 32 -> PDX va = va / 2 ^ 22.
Proof.
  intros H. unfold PDX. change 1023 with (Z.ones 10).
  rewrite Z.land_ones, Z.shiftr_div_pow2 by lia. apply Z.mod_small.
  split; [apply Z.div_pos; lia|]. apply Z.div_lt_upper_bound; lia.
Qed.

Lemma PTX_eq va : PTX va = (va / PGSIZE) mod 1024.
Proof.
  unfold PTX. change 1023 with (Z.ones 10).
  rewrite Z.land_ones, Z.shiftr_div_pow2 by lia. done.
Qed.

Lemma PTX_range va : 0 <= PTX va < 1024.
Proof. rewrite PTX_eq. apply Z.mod_pos_bound. lia. Qed.

(** Two page-aligned addresses with the same indices are the same page. *)
Lemma PDX_PTX_inj va va' :
  0 <= va < 2 ^ 32 -> 0 <= va' < 2 ^ 32 ->
  PDX va = PDX va' -> PTX va = PTX va' -> va / PGSIZE = va' / PGSIZE.
Proof.
  intros H H' E1 E2. rewrite !PDX_eq in E1 by done. rewrite !PTX_eq in E2.
  change (2 ^ 22) with (PGSIZE * 1024) in E1.
  rewrite <- !Z.div_div in E1 by (unfold PGSIZE; lia).
  pose proof (Z.div_mod (va / PGSIZE) 1024 ltac:(lia)).
  pose proof (Z.div_mod (va' / PGSIZE) 1024 ltac:(lia)). lia.
Qed.
