(* ===== verification/State.v ===== *)
(** The kernel's data: the C structures of the headers as records, with a setter
    per field, and the record [kernel] of the kernel's global variables.

    Pointers into statically allocated tables ([struct proc*], [struct inode*],
    [struct file*], [struct buf*], [struct cpu*]) are indices into the table, the
    null pointer being [None] where it can occur. Pointers to pages obtained from
    [kalloc] are addresses (0 is null). Structures that live in such a page
    ([struct pipe], the message queues) are in a map keyed by the address; page
    tables, user pages, strings and the free list are bytes of [k_mem]. The [name]
    and [pcs] fields of locks, kept for debugging only, are left out. *)

From S2P Require Import Prelude Bytes Params.
From stdpp Require Import base list gmap strings.
From Stdlib Require Import ZArith Lia.
Open Scope Z_scope.

Inductive procstate : Type := UNUSED | EMBRYO | SLEEPING | RUNNABLE | RUNNING | ZOMBIE.

#[export] Instance procstate_eq_dec : EqDecision procstate.
Proof. solve_decision. Defined.

(** Which sleep-lock: the one of a cached block or of an in-memory inode. *)
Inductive slid : Type := SL_buf (i : nat) | SL_inode (i : nat).

#[export] Instance slid_eq_dec : EqDecision slid.
Proof. solve_decision. Defined.

#[export] Instance slid_countable : Countable slid.
Proof.
  apply (inj_countable'
    (fun l => match l with SL_buf i => inl i | SL_inode i => inr i end)
    (fun x => match x with inl i => SL_buf i | inr i => SL_inode i end)).
  by intros [].
Defined.

(** Which spin-lock. *)
Inductive lockid : Type :=
| L_ptable | L_kmem | L_cons | L_ftable | L_icache | L_log | L_bcache | L_ide | L_ticks
| L_pipe (a : Z) | L_sleep (l : slid).

#[export] Instance lockid_eq_dec : EqDecision lockid.
Proof. solve_decision. Defined.

#[export] Instance lockid_countable : Countable lockid.
Proof.
  apply (inj_countable'
    (fun l => match l with
      | L_ptable => inl 0%nat | L_kmem => inl 1%nat | L_cons => inl 2%nat
      | L_ftable => inl 3%nat | L_icache => inl 4%nat | L_log => inl 5%nat
      | L_bcache => inl 6%nat | L_ide => inl 7%nat | L_ticks => inl 8%nat
      | L_pipe a => inr (inl a) | L_sleep l => inr (inr l) end)
    (fun x => match x with
      | inl 0%nat => L_ptable | inl 1%nat => L_kmem | inl 2%nat => L_cons
      | inl 3%nat => L_ftable | inl 4%nat => L_icache | inl 5%nat => L_log
      | inl 6%nat => L_bcache | inl 7%nat => L_ide | inl _ => L_ticks
      | inr (inl a) => L_pipe a | inr (inr l) => L_sleep l end)).
  by intros [].
Defined.

(** Sleep channels: the addresses the kernel passes to [sleep] and [wakeup]. *)
Inductive chan : Type :=
| Ch_proc (p : nat) | Ch_log | Ch_buf (b : nat) | Ch_sleep (l : slid) | Ch_ticks
| Ch_nread (a : Z) | Ch_nwrite (a : Z) | Ch_input.

#[export] Instance chan_eq_dec : EqDecision chan.
Proof. solve_decision. Defined.

(** [struct spinlock] (spinlock.h) *)
Record spinlock : Type := mkSpinlock {
  locked : Z;
  lcpu : option nat
}.

Definition set_locked (v : Z) (s : spinlock) : spinlock := mkSpinlock v (lcpu s).
Definition set_lcpu (v : option nat) (s : spinlock) : spinlock := mkSpinlock (locked s) v.

(** [struct sleeplock] (sleeplock.h); its [lk] is the spin-lock [L_sleep]. *)
Record sleeplock : Type := mkSleeplock {
  slocked : Z;
  spid : Z
}.

Definition set_slocked (v : Z) (s : sleeplock) : sleeplock := mkSleeplock v (spid s).
Definition set_spid (v : Z) (s : sleeplock) : sleeplock := mkSleeplock (slocked s) v.

(** [struct cpu] (proc.h); of the task state only [ts.esp0]. [intena] is the saved [FL_IF]. *)
Record cpu : Type := mkCpu {
  c_apicid : Z;
  c_started : Z;
  c_ncli : Z;
  c_intena : bool;
  c_proc : option nat;
  c_esp0 : Z
}.

Definition set_c_apicid (v : Z) (s : cpu) : cpu := mkCpu v (c_started s) (c_ncli s) (c_intena
  s) (c_proc s) (c_esp0 s).
Definition set_c_started (v : Z) (s : cpu) : cpu := mkCpu (c_apicid s) v (c_ncli s) (c_intena
  s) (c_proc s) (c_esp0 s).
Definition set_c_ncli (v : Z) (s : cpu) : cpu := mkCpu (c_apicid s) (c_started s) v (c_intena
  s) (c_proc s) (c_esp0 s).
Definition set_c_intena (v : bool) (s : cpu) : cpu := mkCpu (c_apicid s) (c_started s) (c_ncli
  s) v (c_proc s) (c_esp0 s).
Definition set_c_proc (v : option nat) (s : cpu) : cpu := mkCpu (c_apicid s) (c_started s)
  (c_ncli s) (c_intena s) v (c_esp0 s).
Definition set_c_esp0 (v : Z) (s : cpu) : cpu := mkCpu (c_apicid s) (c_started s) (c_ncli s)
  (c_intena s) (c_proc s) v.

(** The processor that runs: its [FL_IF], its local APIC id and [%cr3], and the [cpus] array and locks it shares. *)
Record hw : Type := mkHw {
  h_IF : bool;
  h_lapicid : Z;
  h_cr3 : Z;
  h_ncpu : Z;
  h_cpus : list cpu;
  h_locks : gmap lockid spinlock
}.

Definition set_h_IF (v : bool) (s : hw) : hw := mkHw v (h_lapicid s) (h_cr3 s) (h_ncpu s)
  (h_cpus s) (h_locks s).
Definition set_h_lapicid (v : Z) (s : hw) : hw := mkHw (h_IF s) v (h_cr3 s) (h_ncpu s) (h_cpus
  s) (h_locks s).
Definition set_h_cr3 (v : Z) (s : hw) : hw := mkHw (h_IF s) (h_lapicid s) v (h_ncpu s) (h_cpus
  s) (h_locks s).
Definition set_h_ncpu (v : Z) (s : hw) : hw := mkHw (h_IF s) (h_lapicid s) (h_cr3 s) v (h_cpus
  s) (h_locks s).
Definition set_h_cpus (v : list cpu) (s : hw) : hw := mkHw (h_IF s) (h_lapicid s) (h_cr3 s)
  (h_ncpu s) v (h_locks s).
Definition set_h_locks (v : gmap lockid spinlock) (s : hw) : hw := mkHw (h_IF s) (h_lapicid s)
  (h_cr3 s) (h_ncpu s) (h_cpus s) v.

(** [struct trapframe] (x86.h) *)
Record trapframe : Type := mkTrapframe {
  tf_edi : Z;
  tf_esi : Z;
  tf_ebp : Z;
  tf_oesp : Z;
  tf_ebx : Z;
  tf_edx : Z;
  tf_ecx : Z;
  tf_eax : Z;
  tf_gs : Z;
  tf_fs : Z;
  tf_es : Z;
  tf_ds : Z;
  tf_trapno : Z;
  tf_err : Z;
  tf_eip : Z;
  tf_cs : Z;
  tf_eflags : Z;
  tf_esp : Z;
  tf_ss : Z
}.

Definition set_tf_edi (v : Z) (s : trapframe) : trapframe := mkTrapframe v (tf_esi s) (tf_ebp
  s) (tf_oesp s) (tf_ebx s) (tf_edx s) (tf_ecx s) (tf_eax s) (tf_gs s) (tf_fs s) (tf_es s)
  (tf_ds s) (tf_trapno s) (tf_err s) (tf_eip s) (tf_cs s) (tf_eflags s) (tf_esp s) (tf_ss s).
Definition set_tf_esi (v : Z) (s : trapframe) : trapframe := mkTrapframe (tf_edi s) v (tf_ebp
  s) (tf_oesp s) (tf_ebx s) (tf_edx s) (tf_ecx s) (tf_eax s) (tf_gs s) (tf_fs s) (tf_es s)
  (tf_ds s) (tf_trapno s) (tf_err s) (tf_eip s) (tf_cs s) (tf_eflags s) (tf_esp s) (tf_ss s).
Definition set_tf_ebp (v : Z) (s : trapframe) : trapframe := mkTrapframe (tf_edi s) (tf_esi s)
  v (tf_oesp s) (tf_ebx s) (tf_edx s) (tf_ecx s) (tf_eax s) (tf_gs s) (tf_fs s) (tf_es s)
  (tf_ds s) (tf_trapno s) (tf_err s) (tf_eip s) (tf_cs s) (tf_eflags s) (tf_esp s) (tf_ss s).
Definition set_tf_oesp (v : Z) (s : trapframe) : trapframe := mkTrapframe (tf_edi s) (tf_esi s)
  (tf_ebp s) v (tf_ebx s) (tf_edx s) (tf_ecx s) (tf_eax s) (tf_gs s) (tf_fs s) (tf_es s) (tf_ds
  s) (tf_trapno s) (tf_err s) (tf_eip s) (tf_cs s) (tf_eflags s) (tf_esp s) (tf_ss s).
Definition set_tf_ebx (v : Z) (s : trapframe) : trapframe := mkTrapframe (tf_edi s) (tf_esi s)
  (tf_ebp s) (tf_oesp s) v (tf_edx s) (tf_ecx s) (tf_eax s) (tf_gs s) (tf_fs s) (tf_es s)
  (tf_ds s) (tf_trapno s) (tf_err s) (tf_eip s) (tf_cs s) (tf_eflags s) (tf_esp s) (tf_ss s).
Definition set_tf_edx (v : Z) (s : trapframe) : trapframe := mkTrapframe (tf_edi s) (tf_esi s)
  (tf_ebp s) (tf_oesp s) (tf_ebx s) v (tf_ecx s) (tf_eax s) (tf_gs s) (tf_fs s) (tf_es s)
  (tf_ds s) (tf_trapno s) (tf_err s) (tf_eip s) (tf_cs s) (tf_eflags s) (tf_esp s) (tf_ss s).
Definition set_tf_ecx (v : Z) (s : trapframe) : trapframe := mkTrapframe (tf_edi s) (tf_esi s)
  (tf_ebp s) (tf_oesp s) (tf_ebx s) (tf_edx s) v (tf_eax s) (tf_gs s) (tf_fs s) (tf_es s)
  (tf_ds s) (tf_trapno s) (tf_err s) (tf_eip s) (tf_cs s) (tf_eflags s) (tf_esp s) (tf_ss s).
Definition set_tf_eax (v : Z) (s : trapframe) : trapframe := mkTrapframe (tf_edi s) (tf_esi s)
  (tf_ebp s) (tf_oesp s) (tf_ebx s) (tf_edx s) (tf_ecx s) v (tf_gs s) (tf_fs s) (tf_es s)
  (tf_ds s) (tf_trapno s) (tf_err s) (tf_eip s) (tf_cs s) (tf_eflags s) (tf_esp s) (tf_ss s).
Definition set_tf_gs (v : Z) (s : trapframe) : trapframe := mkTrapframe (tf_edi s) (tf_esi s)
  (tf_ebp s) (tf_oesp s) (tf_ebx s) (tf_edx s) (tf_ecx s) (tf_eax s) v (tf_fs s) (tf_es s)
  (tf_ds s) (tf_trapno s) (tf_err s) (tf_eip s) (tf_cs s) (tf_eflags s) (tf_esp s) (tf_ss s).
Definition set_tf_fs (v : Z) (s : trapframe) : trapframe := mkTrapframe (tf_edi s) (tf_esi s)
  (tf_ebp s) (tf_oesp s) (tf_ebx s) (tf_edx s) (tf_ecx s) (tf_eax s) (tf_gs s) v (tf_es s)
  (tf_ds s) (tf_trapno s) (tf_err s) (tf_eip s) (tf_cs s) (tf_eflags s) (tf_esp s) (tf_ss s).
Definition set_tf_es (v : Z) (s : trapframe) : trapframe := mkTrapframe (tf_edi s) (tf_esi s)
  (tf_ebp s) (tf_oesp s) (tf_ebx s) (tf_edx s) (tf_ecx s) (tf_eax s) (tf_gs s) (tf_fs s) v
  (tf_ds s) (tf_trapno s) (tf_err s) (tf_eip s) (tf_cs s) (tf_eflags s) (tf_esp s) (tf_ss s).
Definition set_tf_ds (v : Z) (s : trapframe) : trapframe := mkTrapframe (tf_edi s) (tf_esi s)
  (tf_ebp s) (tf_oesp s) (tf_ebx s) (tf_edx s) (tf_ecx s) (tf_eax s) (tf_gs s) (tf_fs s) (tf_es
  s) v (tf_trapno s) (tf_err s) (tf_eip s) (tf_cs s) (tf_eflags s) (tf_esp s) (tf_ss s).
Definition set_tf_trapno (v : Z) (s : trapframe) : trapframe := mkTrapframe (tf_edi s) (tf_esi
  s) (tf_ebp s) (tf_oesp s) (tf_ebx s) (tf_edx s) (tf_ecx s) (tf_eax s) (tf_gs s) (tf_fs s)
  (tf_es s) (tf_ds s) v (tf_err s) (tf_eip s) (tf_cs s) (tf_eflags s) (tf_esp s) (tf_ss s).
Definition set_tf_err (v : Z) (s : trapframe) : trapframe := mkTrapframe (tf_edi s) (tf_esi s)
  (tf_ebp s) (tf_oesp s) (tf_ebx s) (tf_edx s) (tf_ecx s) (tf_eax s) (tf_gs s) (tf_fs s) (tf_es
  s) (tf_ds s) (tf_trapno s) v (tf_eip s) (tf_cs s) (tf_eflags s) (tf_esp s) (tf_ss s).
Definition set_tf_eip (v : Z) (s : trapframe) : trapframe := mkTrapframe (tf_edi s) (tf_esi s)
  (tf_ebp s) (tf_oesp s) (tf_ebx s) (tf_edx s) (tf_ecx s) (tf_eax s) (tf_gs s) (tf_fs s) (tf_es
  s) (tf_ds s) (tf_trapno s) (tf_err s) v (tf_cs s) (tf_eflags s) (tf_esp s) (tf_ss s).
Definition set_tf_cs (v : Z) (s : trapframe) : trapframe := mkTrapframe (tf_edi s) (tf_esi s)
  (tf_ebp s) (tf_oesp s) (tf_ebx s) (tf_edx s) (tf_ecx s) (tf_eax s) (tf_gs s) (tf_fs s) (tf_es
  s) (tf_ds s) (tf_trapno s) (tf_err s) (tf_eip s) v (tf_eflags s) (tf_esp s) (tf_ss s).
Definition set_tf_eflags (v : Z) (s : trapframe) : trapframe := mkTrapframe (tf_edi s) (tf_esi
  s) (tf_ebp s) (tf_oesp s) (tf_ebx s) (tf_edx s) (tf_ecx s) (tf_eax s) (tf_gs s) (tf_fs s)
  (tf_es s) (tf_ds s) (tf_trapno s) (tf_err s) (tf_eip s) (tf_cs s) v (tf_esp s) (tf_ss s).
Definition set_tf_esp (v : Z) (s : trapframe) : trapframe := mkTrapframe (tf_edi s) (tf_esi s)
  (tf_ebp s) (tf_oesp s) (tf_ebx s) (tf_edx s) (tf_ecx s) (tf_eax s) (tf_gs s) (tf_fs s) (tf_es
  s) (tf_ds s) (tf_trapno s) (tf_err s) (tf_eip s) (tf_cs s) (tf_eflags s) v (tf_ss s).
Definition set_tf_ss (v : Z) (s : trapframe) : trapframe := mkTrapframe (tf_edi s) (tf_esi s)
  (tf_ebp s) (tf_oesp s) (tf_ebx s) (tf_edx s) (tf_ecx s) (tf_eax s) (tf_gs s) (tf_fs s) (tf_es
  s) (tf_ds s) (tf_trapno s) (tf_err s) (tf_eip s) (tf_cs s) (tf_eflags s) (tf_esp s) v.

(** [struct context] (proc.h) *)
Record context : Type := mkContext {
  cx_edi : Z;
  cx_esi : Z;
  cx_ebx : Z;
  cx_ebp : Z;
  cx_eip : Z
}.

Definition set_cx_edi (v : Z) (s : context) : context := mkContext v (cx_esi s) (cx_ebx s)
  (cx_ebp s) (cx_eip s).
Definition set_cx_esi (v : Z) (s : context) : context := mkContext (cx_edi s) v (cx_ebx s)
  (cx_ebp s) (cx_eip s).
Definition set_cx_ebx (v : Z) (s : context) : context := mkContext (cx_edi s) (cx_esi s) v
  (cx_ebp s) (cx_eip s).
Definition set_cx_ebp (v : Z) (s : context) : context := mkContext (cx_edi s) (cx_esi s)
  (cx_ebx s) v (cx_eip s).
Definition set_cx_eip (v : Z) (s : context) : context := mkContext (cx_edi s) (cx_esi s)
  (cx_ebx s) (cx_ebp s) v.

(** [struct proc] (proc.h); the trap frame and context live on the kernel stack in C. *)
Record proc : Type := mkProc {
  p_sz : Z;
  p_pgdir : Z;
  p_kstack : Z;
  p_state : procstate;
  p_pid : Z;
  p_parent : option nat;
  p_tf : trapframe;
  p_context : context;
  p_chan : option chan;
  p_killed : Z;
  p_ofile : list (option nat);
  p_cwd : option nat;
  p_name : list Z;
  p_cid : Z
}.

Definition set_p_sz (v : Z) (s : proc) : proc := mkProc v (p_pgdir s) (p_kstack s) (p_state s)
  (p_pid s) (p_parent s) (p_tf s) (p_context s) (p_chan s) (p_killed s) (p_ofile s) (p_cwd s)
  (p_name s) (p_cid s).
Definition set_p_pgdir (v : Z) (s : proc) : proc := mkProc (p_sz s) v (p_kstack s) (p_state s)
  (p_pid s) (p_parent s) (p_tf s) (p_context s) (p_chan s) (p_killed s) (p_ofile s) (p_cwd s)
  (p_name s) (p_cid s).
Definition set_p_kstack (v : Z) (s : proc) : proc := mkProc (p_sz s) (p_pgdir s) v (p_state s)
  (p_pid s) (p_parent s) (p_tf s) (p_context s) (p_chan s) (p_killed s) (p_ofile s) (p_cwd s)
  (p_name s) (p_cid s).
Definition set_p_state (v : procstate) (s : proc) : proc := mkProc (p_sz s) (p_pgdir s)
  (p_kstack s) v (p_pid s) (p_parent s) (p_tf s) (p_context s) (p_chan s) (p_killed s) (p_ofile
  s) (p_cwd s) (p_name s) (p_cid s).
Definition set_p_pid (v : Z) (s : proc) : proc := mkProc (p_sz s) (p_pgdir s) (p_kstack s)
  (p_state s) v (p_parent s) (p_tf s) (p_context s) (p_chan s) (p_killed s) (p_ofile s) (p_cwd
  s) (p_name s) (p_cid s).
Definition set_p_parent (v : option nat) (s : proc) : proc := mkProc (p_sz s) (p_pgdir s)
  (p_kstack s) (p_state s) (p_pid s) v (p_tf s) (p_context s) (p_chan s) (p_killed s) (p_ofile
  s) (p_cwd s) (p_name s) (p_cid s).
Definition set_p_tf (v : trapframe) (s : proc) : proc := mkProc (p_sz s) (p_pgdir s) (p_kstack
  s) (p_state s) (p_pid s) (p_parent s) v (p_context s) (p_chan s) (p_killed s) (p_ofile s)
  (p_cwd s) (p_name s) (p_cid s).
Definition set_p_context (v : context) (s : proc) : proc := mkProc (p_sz s) (p_pgdir s)
  (p_kstack s) (p_state s) (p_pid s) (p_parent s) (p_tf s) v (p_chan s) (p_killed s) (p_ofile
  s) (p_cwd s) (p_name s) (p_cid s).
Definition set_p_chan (v : option chan) (s : proc) : proc := mkProc (p_sz s) (p_pgdir s)
  (p_kstack s) (p_state s) (p_pid s) (p_parent s) (p_tf s) (p_context s) v (p_killed s)
  (p_ofile s) (p_cwd s) (p_name s) (p_cid s).
Definition set_p_killed (v : Z) (s : proc) : proc := mkProc (p_sz s) (p_pgdir s) (p_kstack s)
  (p_state s) (p_pid s) (p_parent s) (p_tf s) (p_context s) (p_chan s) v (p_ofile s) (p_cwd s)
  (p_name s) (p_cid s).
Definition set_p_ofile (v : list (option nat)) (s : proc) : proc := mkProc (p_sz s) (p_pgdir s)
  (p_kstack s) (p_state s) (p_pid s) (p_parent s) (p_tf s) (p_context s) (p_chan s) (p_killed
  s) v (p_cwd s) (p_name s) (p_cid s).
Definition set_p_cwd (v : option nat) (s : proc) : proc := mkProc (p_sz s) (p_pgdir s)
  (p_kstack s) (p_state s) (p_pid s) (p_parent s) (p_tf s) (p_context s) (p_chan s) (p_killed
  s) (p_ofile s) v (p_name s) (p_cid s).
Definition set_p_name (v : list Z) (s : proc) : proc := mkProc (p_sz s) (p_pgdir s) (p_kstack
  s) (p_state s) (p_pid s) (p_parent s) (p_tf s) (p_context s) (p_chan s) (p_killed s) (p_ofile
  s) (p_cwd s) v (p_cid s).
Definition set_p_cid (v : Z) (s : proc) : proc := mkProc (p_sz s) (p_pgdir s) (p_kstack s)
  (p_state s) (p_pid s) (p_parent s) (p_tf s) (p_context s) (p_chan s) (p_killed s) (p_ofile s)
  (p_cwd s) (p_name s) v.

(** [struct container] (types.h) *)
Record container : Type := mkContainer {
  ct_cid : Z;
  ct_number_of_process : Z;
  ct_number_of_files : Z;
  ct_mypid : list Z;
  ct_container_files : list Z;
  ct_copied_or_not : list Z;
  ct_type : list Z;
  ct_ino : list Z;
  ct_size : list Z
}.

Definition set_ct_cid (v : Z) (s : container) : container := mkContainer v
  (ct_number_of_process s) (ct_number_of_files s) (ct_mypid s) (ct_container_files s)
  (ct_copied_or_not s) (ct_type s) (ct_ino s) (ct_size s).
Definition set_ct_number_of_process (v : Z) (s : container) : container := mkContainer (ct_cid
  s) v (ct_number_of_files s) (ct_mypid s) (ct_container_files s) (ct_copied_or_not s) (ct_type
  s) (ct_ino s) (ct_size s).
Definition set_ct_number_of_files (v : Z) (s : container) : container := mkContainer (ct_cid s)
  (ct_number_of_process s) v (ct_mypid s) (ct_container_files s) (ct_copied_or_not s) (ct_type
  s) (ct_ino s) (ct_size s).
Definition set_ct_mypid (v : list Z) (s : container) : container := mkContainer (ct_cid s)
  (ct_number_of_process s) (ct_number_of_files s) v (ct_container_files s) (ct_copied_or_not s)
  (ct_type s) (ct_ino s) (ct_size s).
Definition set_ct_container_files (v : list Z) (s : container) : container := mkContainer
  (ct_cid s) (ct_number_of_process s) (ct_number_of_files s) (ct_mypid s) v (ct_copied_or_not
  s) (ct_type s) (ct_ino s) (ct_size s).
Definition set_ct_copied_or_not (v : list Z) (s : container) : container := mkContainer (ct_cid
  s) (ct_number_of_process s) (ct_number_of_files s) (ct_mypid s) (ct_container_files s) v
  (ct_type s) (ct_ino s) (ct_size s).
Definition set_ct_type (v : list Z) (s : container) : container := mkContainer (ct_cid s)
  (ct_number_of_process s) (ct_number_of_files s) (ct_mypid s) (ct_container_files s)
  (ct_copied_or_not s) v (ct_ino s) (ct_size s).
Definition set_ct_ino (v : list Z) (s : container) : container := mkContainer (ct_cid s)
  (ct_number_of_process s) (ct_number_of_files s) (ct_mypid s) (ct_container_files s)
  (ct_copied_or_not s) (ct_type s) v (ct_size s).
Definition set_ct_size (v : list Z) (s : container) : container := mkContainer (ct_cid s)
  (ct_number_of_process s) (ct_number_of_files s) (ct_mypid s) (ct_container_files s)
  (ct_copied_or_not s) (ct_type s) (ct_ino s) v.

(** The container globals of types.h, proc.h, proc.c and sysfile.c. *)
Record containers : Type := mkContainers {
  cs_array : list container;
  cs_location : list Z;
  cs_all_files : list Z;
  cs_corresponding_cid : list Z;
  cs_num_all_files : Z;
  cs_create_container_called : Z;
  cs_cid_to_ptable : Z;
  cs_sch_log : list Z;
  cs_cid_sch_log : Z
}.

Definition set_cs_array (v : list container) (s : containers) : containers := mkContainers v
  (cs_location s) (cs_all_files s) (cs_corresponding_cid s) (cs_num_all_files s)
  (cs_create_container_called s) (cs_cid_to_ptable s) (cs_sch_log s) (cs_cid_sch_log s).
Definition set_cs_location (v : list Z) (s : containers) : containers := mkContainers (cs_array
  s) v (cs_all_files s) (cs_corresponding_cid s) (cs_num_all_files s)
  (cs_create_container_called s) (cs_cid_to_ptable s) (cs_sch_log s) (cs_cid_sch_log s).
Definition set_cs_all_files (v : list Z) (s : containers) : containers := mkContainers
  (cs_array s) (cs_location s) v (cs_corresponding_cid s) (cs_num_all_files s)
  (cs_create_container_called s) (cs_cid_to_ptable s) (cs_sch_log s) (cs_cid_sch_log s).
Definition set_cs_corresponding_cid (v : list Z) (s : containers) : containers := mkContainers
  (cs_array s) (cs_location s) (cs_all_files s) v (cs_num_all_files s)
  (cs_create_container_called s) (cs_cid_to_ptable s) (cs_sch_log s) (cs_cid_sch_log s).
Definition set_cs_num_all_files (v : Z) (s : containers) : containers := mkContainers (cs_array
  s) (cs_location s) (cs_all_files s) (cs_corresponding_cid s) v (cs_create_container_called s)
  (cs_cid_to_ptable s) (cs_sch_log s) (cs_cid_sch_log s).
Definition set_cs_create_container_called (v : Z) (s : containers) : containers := mkContainers
  (cs_array s) (cs_location s) (cs_all_files s) (cs_corresponding_cid s) (cs_num_all_files s) v
  (cs_cid_to_ptable s) (cs_sch_log s) (cs_cid_sch_log s).
Definition set_cs_cid_to_ptable (v : Z) (s : containers) : containers := mkContainers (cs_array
  s) (cs_location s) (cs_all_files s) (cs_corresponding_cid s) (cs_num_all_files s)
  (cs_create_container_called s) v (cs_sch_log s) (cs_cid_sch_log s).
Definition set_cs_sch_log (v : list Z) (s : containers) : containers := mkContainers (cs_array
  s) (cs_location s) (cs_all_files s) (cs_corresponding_cid s) (cs_num_all_files s)
  (cs_create_container_called s) (cs_cid_to_ptable s) v (cs_cid_sch_log s).
Definition set_cs_cid_sch_log (v : Z) (s : containers) : containers := mkContainers (cs_array
  s) (cs_location s) (cs_all_files s) (cs_corresponding_cid s) (cs_num_all_files s)
  (cs_create_container_called s) (cs_cid_to_ptable s) (cs_sch_log s) v.

(** [struct intMessageQueue] (types.h) *)
Record intqueue : Type := mkIntQueue {
  mq_front : Z;
  mq_last : Z;
  mq_size : Z;
  mq_capacity : Z;
  mq_arr : Z
}.

Definition set_mq_front (v : Z) (s : intqueue) : intqueue := mkIntQueue v (mq_last s) (mq_size
  s) (mq_capacity s) (mq_arr s).
Definition set_mq_last (v : Z) (s : intqueue) : intqueue := mkIntQueue (mq_front s) v (mq_size
  s) (mq_capacity s) (mq_arr s).
Definition set_mq_size (v : Z) (s : intqueue) : intqueue := mkIntQueue (mq_front s) (mq_last s)
  v (mq_capacity s) (mq_arr s).
Definition set_mq_capacity (v : Z) (s : intqueue) : intqueue := mkIntQueue (mq_front s)
  (mq_last s) (mq_size s) v (mq_arr s).
Definition set_mq_arr (v : Z) (s : intqueue) : intqueue := mkIntQueue (mq_front s) (mq_last s)
  (mq_size s) (mq_capacity s) v.

(** [struct waitQueue] (types.h) *)
Record waitqueue : Type := mkWaitQueue {
  wq_front : Z;
  wq_last : Z;
  wq_size : Z;
  wq_capacity : Z;
  wq_array : Z
}.

Definition set_wq_front (v : Z) (s : waitqueue) : waitqueue := mkWaitQueue v (wq_last s)
  (wq_size s) (wq_capacity s) (wq_array s).
Definition set_wq_last (v : Z) (s : waitqueue) : waitqueue := mkWaitQueue (wq_front s) v
  (wq_size s) (wq_capacity s) (wq_array s).
Definition set_wq_size (v : Z) (s : waitqueue) : waitqueue := mkWaitQueue (wq_front s) (wq_last
  s) v (wq_capacity s) (wq_array s).
Definition set_wq_capacity (v : Z) (s : waitqueue) : waitqueue := mkWaitQueue (wq_front s)
  (wq_last s) (wq_size s) v (wq_array s).
Definition set_wq_array (v : Z) (s : waitqueue) : waitqueue := mkWaitQueue (wq_front s)
  (wq_last s) (wq_size s) (wq_capacity s) v.

(** The message-passing globals of types.h and syscall.c. *)
Record messages : Type := mkMessages {
  ms_int_queue : list Z;
  ms_wait_queue : list Z;
  ms_intqueues : gmap Z intqueue;
  ms_waitqueues : gmap Z waitqueue;
  ms_buffers : list Z;
  ms_lastBufferUsed : Z;
  ms_free_message_buffer : Z;
  ms_syscallhappened : Z
}.

Definition set_ms_int_queue (v : list Z) (s : messages) : messages := mkMessages v
  (ms_wait_queue s) (ms_intqueues s) (ms_waitqueues s) (ms_buffers s) (ms_lastBufferUsed s)
  (ms_free_message_buffer s) (ms_syscallhappened s).
Definition set_ms_wait_queue (v : list Z) (s : messages) : messages := mkMessages (ms_int_queue
  s) v (ms_intqueues s) (ms_waitqueues s) (ms_buffers s) (ms_lastBufferUsed s)
  (ms_free_message_buffer s) (ms_syscallhappened s).
Definition set_ms_intqueues (v : gmap Z intqueue) (s : messages) : messages := mkMessages
  (ms_int_queue s) (ms_wait_queue s) v (ms_waitqueues s) (ms_buffers s) (ms_lastBufferUsed s)
  (ms_free_message_buffer s) (ms_syscallhappened s).
Definition set_ms_waitqueues (v : gmap Z waitqueue) (s : messages) : messages := mkMessages
  (ms_int_queue s) (ms_wait_queue s) (ms_intqueues s) v (ms_buffers s) (ms_lastBufferUsed s)
  (ms_free_message_buffer s) (ms_syscallhappened s).
Definition set_ms_buffers (v : list Z) (s : messages) : messages := mkMessages (ms_int_queue s)
  (ms_wait_queue s) (ms_intqueues s) (ms_waitqueues s) v (ms_lastBufferUsed s)
  (ms_free_message_buffer s) (ms_syscallhappened s).
Definition set_ms_lastBufferUsed (v : Z) (s : messages) : messages := mkMessages (ms_int_queue
  s) (ms_wait_queue s) (ms_intqueues s) (ms_waitqueues s) (ms_buffers s) v
  (ms_free_message_buffer s) (ms_syscallhappened s).
Definition set_ms_free_message_buffer (v : Z) (s : messages) : messages := mkMessages
  (ms_int_queue s) (ms_wait_queue s) (ms_intqueues s) (ms_waitqueues s) (ms_buffers s)
  (ms_lastBufferUsed s) v (ms_syscallhappened s).
Definition set_ms_syscallhappened (v : Z) (s : messages) : messages := mkMessages (ms_int_queue
  s) (ms_wait_queue s) (ms_intqueues s) (ms_waitqueues s) (ms_buffers s) (ms_lastBufferUsed s)
  (ms_free_message_buffer s) v.

(** [struct superblock] (fs.h) *)
Record superblock : Type := mkSuperblock {
  sb_size : Z;
  sb_nblocks : Z;
  sb_ninodes : Z;
  sb_nlog : Z;
  sb_logstart : Z;
  sb_inodestart : Z;
  sb_bmapstart : Z
}.

Definition set_sb_size (v : Z) (s : superblock) : superblock := mkSuperblock v (sb_nblocks s)
  (sb_ninodes s) (sb_nlog s) (sb_logstart s) (sb_inodestart s) (sb_bmapstart s).
Definition set_sb_nblocks (v : Z) (s : superblock) : superblock := mkSuperblock (sb_size s) v
  (sb_ninodes s) (sb_nlog s) (sb_logstart s) (sb_inodestart s) (sb_bmapstart s).
Definition set_sb_ninodes (v : Z) (s : superblock) : superblock := mkSuperblock (sb_size s)
  (sb_nblocks s) v (sb_nlog s) (sb_logstart s) (sb_inodestart s) (sb_bmapstart s).
Definition set_sb_nlog (v : Z) (s : superblock) : superblock := mkSuperblock (sb_size s)
  (sb_nblocks s) (sb_ninodes s) v (sb_logstart s) (sb_inodestart s) (sb_bmapstart s).
Definition set_sb_logstart (v : Z) (s : superblock) : superblock := mkSuperblock (sb_size s)
  (sb_nblocks s) (sb_ninodes s) (sb_nlog s) v (sb_inodestart s) (sb_bmapstart s).
Definition set_sb_inodestart (v : Z) (s : superblock) : superblock := mkSuperblock (sb_size s)
  (sb_nblocks s) (sb_ninodes s) (sb_nlog s) (sb_logstart s) v (sb_bmapstart s).
Definition set_sb_bmapstart (v : Z) (s : superblock) : superblock := mkSuperblock (sb_size s)
  (sb_nblocks s) (sb_ninodes s) (sb_nlog s) (sb_logstart s) (sb_inodestart s) v.

(** [struct buf] (buf.h); its sleep-lock is [SL_buf]. [b_prev], [b_next] index the array, [NBUF] being [bcache.head]. *)
Record buf : Type := mkBuf {
  b_flags : Z;
  b_dev : Z;
  b_blockno : Z;
  b_refcnt : Z;
  b_prev : nat;
  b_next : nat;
  b_data : list Z
}.

Definition set_b_flags (v : Z) (s : buf) : buf := mkBuf v (b_dev s) (b_blockno s) (b_refcnt s)
  (b_prev s) (b_next s) (b_data s).
Definition set_b_dev (v : Z) (s : buf) : buf := mkBuf (b_flags s) v (b_blockno s) (b_refcnt s)
  (b_prev s) (b_next s) (b_data s).
Definition set_b_blockno (v : Z) (s : buf) : buf := mkBuf (b_flags s) (b_dev s) v (b_refcnt s)
  (b_prev s) (b_next s) (b_data s).
Definition set_b_refcnt (v : Z) (s : buf) : buf := mkBuf (b_flags s) (b_dev s) (b_blockno s) v
  (b_prev s) (b_next s) (b_data s).
Definition set_b_prev (v : nat) (s : buf) : buf := mkBuf (b_flags s) (b_dev s) (b_blockno s)
  (b_refcnt s) v (b_next s) (b_data s).
Definition set_b_next (v : nat) (s : buf) : buf := mkBuf (b_flags s) (b_dev s) (b_blockno s)
  (b_refcnt s) (b_prev s) v (b_data s).
Definition set_b_data (v : list Z) (s : buf) : buf := mkBuf (b_flags s) (b_dev s) (b_blockno s)
  (b_refcnt s) (b_prev s) (b_next s) v.

(** [struct log] (log.c), its header flattened. *)
Record log_t : Type := mkLog {
  lg_start : Z;
  lg_size : Z;
  lg_outstanding : Z;
  lg_committing : Z;
  lg_dev : Z;
  lg_n : Z;
  lg_block : list Z
}.

Definition set_lg_start (v : Z) (s : log_t) : log_t := mkLog v (lg_size s) (lg_outstanding s)
  (lg_committing s) (lg_dev s) (lg_n s) (lg_block s).
Definition set_lg_size (v : Z) (s : log_t) : log_t := mkLog (lg_start s) v (lg_outstanding s)
  (lg_committing s) (lg_dev s) (lg_n s) (lg_block s).
Definition set_lg_outstanding (v : Z) (s : log_t) : log_t := mkLog (lg_start s) (lg_size s) v
  (lg_committing s) (lg_dev s) (lg_n s) (lg_block s).
Definition set_lg_committing (v : Z) (s : log_t) : log_t := mkLog (lg_start s) (lg_size s)
  (lg_outstanding s) v (lg_dev s) (lg_n s) (lg_block s).
Definition set_lg_dev (v : Z) (s : log_t) : log_t := mkLog (lg_start s) (lg_size s)
  (lg_outstanding s) (lg_committing s) v (lg_n s) (lg_block s).
Definition set_lg_n (v : Z) (s : log_t) : log_t := mkLog (lg_start s) (lg_size s)
  (lg_outstanding s) (lg_committing s) (lg_dev s) v (lg_block s).
Definition set_lg_block (v : list Z) (s : log_t) : log_t := mkLog (lg_start s) (lg_size s)
  (lg_outstanding s) (lg_committing s) (lg_dev s) (lg_n s) v.

(** [struct inode] (file.h); its sleep-lock is [SL_inode]. *)
Record inode : Type := mkInode {
  i_dev : Z;
  i_inum : Z;
  i_ref : Z;
  i_valid : Z;
  i_type : Z;
  i_major : Z;
  i_minor : Z;
  i_nlink : Z;
  i_size : Z;
  i_addrs : list Z;
  i_cid : Z
}.

Definition set_i_dev (v : Z) (s : inode) : inode := mkInode v (i_inum s) (i_ref s) (i_valid s)
  (i_type s) (i_major s) (i_minor s) (i_nlink s) (i_size s) (i_addrs s) (i_cid s).
Definition set_i_inum (v : Z) (s : inode) : inode := mkInode (i_dev s) v (i_ref s) (i_valid s)
  (i_type s) (i_major s) (i_minor s) (i_nlink s) (i_size s) (i_addrs s) (i_cid s).
Definition set_i_ref (v : Z) (s : inode) : inode := mkInode (i_dev s) (i_inum s) v (i_valid s)
  (i_type s) (i_major s) (i_minor s) (i_nlink s) (i_size s) (i_addrs s) (i_cid s).
Definition set_i_valid (v : Z) (s : inode) : inode := mkInode (i_dev s) (i_inum s) (i_ref s) v
  (i_type s) (i_major s) (i_minor s) (i_nlink s) (i_size s) (i_addrs s) (i_cid s).
Definition set_i_type (v : Z) (s : inode) : inode := mkInode (i_dev s) (i_inum s) (i_ref s)
  (i_valid s) v (i_major s) (i_minor s) (i_nlink s) (i_size s) (i_addrs s) (i_cid s).
Definition set_i_major (v : Z) (s : inode) : inode := mkInode (i_dev s) (i_inum s) (i_ref s)
  (i_valid s) (i_type s) v (i_minor s) (i_nlink s) (i_size s) (i_addrs s) (i_cid s).
Definition set_i_minor (v : Z) (s : inode) : inode := mkInode (i_dev s) (i_inum s) (i_ref s)
  (i_valid s) (i_type s) (i_major s) v (i_nlink s) (i_size s) (i_addrs s) (i_cid s).
Definition set_i_nlink (v : Z) (s : inode) : inode := mkInode (i_dev s) (i_inum s) (i_ref s)
  (i_valid s) (i_type s) (i_major s) (i_minor s) v (i_size s) (i_addrs s) (i_cid s).
Definition set_i_size (v : Z) (s : inode) : inode := mkInode (i_dev s) (i_inum s) (i_ref s)
  (i_valid s) (i_type s) (i_major s) (i_minor s) (i_nlink s) v (i_addrs s) (i_cid s).
Definition set_i_addrs (v : list Z) (s : inode) : inode := mkInode (i_dev s) (i_inum s) (i_ref
  s) (i_valid s) (i_type s) (i_major s) (i_minor s) (i_nlink s) (i_size s) v (i_cid s).
Definition set_i_cid (v : Z) (s : inode) : inode := mkInode (i_dev s) (i_inum s) (i_ref s)
  (i_valid s) (i_type s) (i_major s) (i_minor s) (i_nlink s) (i_size s) (i_addrs s) v.

Inductive filetype : Type := FD_NONE | FD_PIPE | FD_INODE.

#[export] Instance filetype_eq_dec : EqDecision filetype.
Proof. solve_decision. Defined.

(** [struct file] (file.h) *)
Record file : Type := mkFile {
  f_type : filetype;
  f_ref : Z;
  f_readable : Z;
  f_writable : Z;
  f_pipe : Z;
  f_ip : option nat;
  f_off : Z;
  f_cid : Z;
  f_path : Z
}.

Definition set_f_type (v : filetype) (s : file) : file := mkFile v (f_ref s) (f_readable s)
  (f_writable s) (f_pipe s) (f_ip s) (f_off s) (f_cid s) (f_path s).
Definition set_f_ref (v : Z) (s : file) : file := mkFile (f_type s) v (f_readable s)
  (f_writable s) (f_pipe s) (f_ip s) (f_off s) (f_cid s) (f_path s).
Definition set_f_readable (v : Z) (s : file) : file := mkFile (f_type s) (f_ref s) v
  (f_writable s) (f_pipe s) (f_ip s) (f_off s) (f_cid s) (f_path s).
Definition set_f_writable (v : Z) (s : file) : file := mkFile (f_type s) (f_ref s) (f_readable
  s) v (f_pipe s) (f_ip s) (f_off s) (f_cid s) (f_path s).
Definition set_f_pipe (v : Z) (s : file) : file := mkFile (f_type s) (f_ref s) (f_readable s)
  (f_writable s) v (f_ip s) (f_off s) (f_cid s) (f_path s).
Definition set_f_ip (v : option nat) (s : file) : file := mkFile (f_type s) (f_ref s)
  (f_readable s) (f_writable s) (f_pipe s) v (f_off s) (f_cid s) (f_path s).
Definition set_f_off (v : Z) (s : file) : file := mkFile (f_type s) (f_ref s) (f_readable s)
  (f_writable s) (f_pipe s) (f_ip s) v (f_cid s) (f_path s).
Definition set_f_cid (v : Z) (s : file) : file := mkFile (f_type s) (f_ref s) (f_readable s)
  (f_writable s) (f_pipe s) (f_ip s) (f_off s) v (f_path s).
Definition set_f_path (v : Z) (s : file) : file := mkFile (f_type s) (f_ref s) (f_readable s)
  (f_writable s) (f_pipe s) (f_ip s) (f_off s) (f_cid s) v.

(** [struct pipe] (pipe.c) *)
Record pipe : Type := mkPipe {
  pi_data : list Z;
  pi_nread : Z;
  pi_nwrite : Z;
  pi_readopen : Z;
  pi_writeopen : Z
}.

Definition set_pi_data (v : list Z) (s : pipe) : pipe := mkPipe v (pi_nread s) (pi_nwrite s)
  (pi_readopen s) (pi_writeopen s).
Definition set_pi_nread (v : Z) (s : pipe) : pipe := mkPipe (pi_data s) v (pi_nwrite s)
  (pi_readopen s) (pi_writeopen s).
Definition set_pi_nwrite (v : Z) (s : pipe) : pipe := mkPipe (pi_data s) (pi_nread s) v
  (pi_readopen s) (pi_writeopen s).
Definition set_pi_readopen (v : Z) (s : pipe) : pipe := mkPipe (pi_data s) (pi_nread s)
  (pi_nwrite s) v (pi_writeopen s).
Definition set_pi_writeopen (v : Z) (s : pipe) : pipe := mkPipe (pi_data s) (pi_nread s)
  (pi_nwrite s) (pi_readopen s) v.

(** The console: [cons.locking], [panicked], [input] (console.c), the characters sent to the serial port, the text screen and its cursor. *)
Record console : Type := mkConsole {
  co_locking : Z;
  co_panicked : Z;
  co_buf : list Z;
  co_r : Z;
  co_w : Z;
  co_e : Z;
  co_out : list Z;
  co_crt : list Z;
  co_pos : Z
}.

Definition set_co_locking (v : Z) (s : console) : console := mkConsole v (co_panicked s)
  (co_buf s) (co_r s) (co_w s) (co_e s) (co_out s) (co_crt s) (co_pos s).
Definition set_co_panicked (v : Z) (s : console) : console := mkConsole (co_locking s) v
  (co_buf s) (co_r s) (co_w s) (co_e s) (co_out s) (co_crt s) (co_pos s).
Definition set_co_buf (v : list Z) (s : console) : console := mkConsole (co_locking s)
  (co_panicked s) v (co_r s) (co_w s) (co_e s) (co_out s) (co_crt s) (co_pos s).
Definition set_co_r (v : Z) (s : console) : console := mkConsole (co_locking s) (co_panicked s)
  (co_buf s) v (co_w s) (co_e s) (co_out s) (co_crt s) (co_pos s).
Definition set_co_w (v : Z) (s : console) : console := mkConsole (co_locking s) (co_panicked s)
  (co_buf s) (co_r s) v (co_e s) (co_out s) (co_crt s) (co_pos s).
Definition set_co_e (v : Z) (s : console) : console := mkConsole (co_locking s) (co_panicked s)
  (co_buf s) (co_r s) (co_w s) v (co_out s) (co_crt s) (co_pos s).
Definition set_co_out (v : list Z) (s : console) : console := mkConsole (co_locking s)
  (co_panicked s) (co_buf s) (co_r s) (co_w s) (co_e s) v (co_crt s) (co_pos s).
Definition set_co_crt (v : list Z) (s : console) : console := mkConsole (co_locking s)
  (co_panicked s) (co_buf s) (co_r s) (co_w s) (co_e s) (co_out s) v (co_pos s).
Definition set_co_pos (v : Z) (s : console) : console := mkConsole (co_locking s) (co_panicked
  s) (co_buf s) (co_r s) (co_w s) (co_e s) (co_out s) (co_crt s) v.

(** The disk: its blocks, its size, and the trace of block writes it has performed. *)
Record disk_t : Type := mkDisk {
  d_blocks : Z -> list Z;
  d_size : Z;
  d_trace : list (Z * list Z)
}.

Definition set_d_blocks (v : Z -> list Z) (s : disk_t) : disk_t := mkDisk v (d_size s) (d_trace
  s).
Definition set_d_size (v : Z) (s : disk_t) : disk_t := mkDisk (d_blocks s) v (d_trace s).
Definition set_d_trace (v : list (Z * list Z)) (s : disk_t) : disk_t := mkDisk (d_blocks s)
  (d_size s) v.

(** The kernel's global state; [k_end] and [k_data] are the addresses the linker script gives [end] and [data]. *)
Record kernel : Type := mkKernel {
  k_hw : hw;
  k_sleeplocks : gmap slid sleeplock;
  k_mem : mem;
  k_use_lock : Z;
  k_freelist : Z;
  k_end : Z;
  k_data : Z;
  k_kpgdir : Z;
  k_proc : list proc;
  k_nextpid : Z;
  k_initproc : option nat;
  k_forkret_first : Z;
  k_ticks : Z;
  k_cont : containers;
  k_msg : messages;
  k_isTraceOn : Z;
  k_num_calls : list Z;
  k_ls_called : Z;
  k_cons : console;
  k_disk : disk_t;
  k_bufs : list buf;
  k_log : log_t;
  k_sb : superblock;
  k_inodes : list inode;
  k_files : list file;
  k_pipes : gmap Z pipe
}.

Definition set_k_hw (v : hw) (s : kernel) : kernel := mkKernel v (k_sleeplocks s) (k_mem s)
  (k_use_lock s) (k_freelist s) (k_end s) (k_data s) (k_kpgdir s) (k_proc s) (k_nextpid s)
  (k_initproc s) (k_forkret_first s) (k_ticks s) (k_cont s) (k_msg s) (k_isTraceOn s)
  (k_num_calls s) (k_ls_called s) (k_cons s) (k_disk s) (k_bufs s) (k_log s) (k_sb s) (k_inodes
  s) (k_files s) (k_pipes s).
Definition set_k_sleeplocks (v : gmap slid sleeplock) (s : kernel) : kernel := mkKernel (k_hw
  s) v (k_mem s) (k_use_lock s) (k_freelist s) (k_end s) (k_data s) (k_kpgdir s) (k_proc s)
  (k_nextpid s) (k_initproc s) (k_forkret_first s) (k_ticks s) (k_cont s) (k_msg s)
  (k_isTraceOn s) (k_num_calls s) (k_ls_called s) (k_cons s) (k_disk s) (k_bufs s) (k_log s)
  (k_sb s) (k_inodes s) (k_files s) (k_pipes s).
Definition set_k_mem (v : mem) (s : kernel) : kernel := mkKernel (k_hw s) (k_sleeplocks s) v
  (k_use_lock s) (k_freelist s) (k_end s) (k_data s) (k_kpgdir s) (k_proc s) (k_nextpid s)
  (k_initproc s) (k_forkret_first s) (k_ticks s) (k_cont s) (k_msg s) (k_isTraceOn s)
  (k_num_calls s) (k_ls_called s) (k_cons s) (k_disk s) (k_bufs s) (k_log s) (k_sb s) (k_inodes
  s) (k_files s) (k_pipes s).
Definition set_k_use_lock (v : Z) (s : kernel) : kernel := mkKernel (k_hw s) (k_sleeplocks s)
  (k_mem s) v (k_freelist s) (k_end s) (k_data s) (k_kpgdir s) (k_proc s) (k_nextpid s)
  (k_initproc s) (k_forkret_first s) (k_ticks s) (k_cont s) (k_msg s) (k_isTraceOn s)
  (k_num_calls s) (k_ls_called s) (k_cons s) (k_disk s) (k_bufs s) (k_log s) (k_sb s) (k_inodes
  s) (k_files s) (k_pipes s).
Definition set_k_freelist (v : Z) (s : kernel) : kernel := mkKernel (k_hw s) (k_sleeplocks s)
  (k_mem s) (k_use_lock s) v (k_end s) (k_data s) (k_kpgdir s) (k_proc s) (k_nextpid s)
  (k_initproc s) (k_forkret_first s) (k_ticks s) (k_cont s) (k_msg s) (k_isTraceOn s)
  (k_num_calls s) (k_ls_called s) (k_cons s) (k_disk s) (k_bufs s) (k_log s) (k_sb s) (k_inodes
  s) (k_files s) (k_pipes s).
Definition set_k_end (v : Z) (s : kernel) : kernel := mkKernel (k_hw s) (k_sleeplocks s) (k_mem
  s) (k_use_lock s) (k_freelist s) v (k_data s) (k_kpgdir s) (k_proc s) (k_nextpid s)
  (k_initproc s) (k_forkret_first s) (k_ticks s) (k_cont s) (k_msg s) (k_isTraceOn s)
  (k_num_calls s) (k_ls_called s) (k_cons s) (k_disk s) (k_bufs s) (k_log s) (k_sb s) (k_inodes
  s) (k_files s) (k_pipes s).
Definition set_k_data (v : Z) (s : kernel) : kernel := mkKernel (k_hw s) (k_sleeplocks s)
  (k_mem s) (k_use_lock s) (k_freelist s) (k_end s) v (k_kpgdir s) (k_proc s) (k_nextpid s)
  (k_initproc s) (k_forkret_first s) (k_ticks s) (k_cont s) (k_msg s) (k_isTraceOn s)
  (k_num_calls s) (k_ls_called s) (k_cons s) (k_disk s) (k_bufs s) (k_log s) (k_sb s) (k_inodes
  s) (k_files s) (k_pipes s).
Definition set_k_kpgdir (v : Z) (s : kernel) : kernel := mkKernel (k_hw s) (k_sleeplocks s)
  (k_mem s) (k_use_lock s) (k_freelist s) (k_end s) (k_data s) v (k_proc s) (k_nextpid s)
  (k_initproc s) (k_forkret_first s) (k_ticks s) (k_cont s) (k_msg s) (k_isTraceOn s)
  (k_num_calls s) (k_ls_called s) (k_cons s) (k_disk s) (k_bufs s) (k_log s) (k_sb s) (k_inodes
  s) (k_files s) (k_pipes s).
Definition set_k_proc (v : list proc) (s : kernel) : kernel := mkKernel (k_hw s) (k_sleeplocks
  s) (k_mem s) (k_use_lock s) (k_freelist s) (k_end s) (k_data s) (k_kpgdir s) v (k_nextpid s)
  (k_initproc s) (k_forkret_first s) (k_ticks s) (k_cont s) (k_msg s) (k_isTraceOn s)
  (k_num_calls s) (k_ls_called s) (k_cons s) (k_disk s) (k_bufs s) (k_log s) (k_sb s) (k_inodes
  s) (k_files s) (k_pipes s).
Definition set_k_nextpid (v : Z) (s : kernel) : kernel := mkKernel (k_hw s) (k_sleeplocks s)
  (k_mem s) (k_use_lock s) (k_freelist s) (k_end s) (k_data s) (k_kpgdir s) (k_proc s) v
  (k_initproc s) (k_forkret_first s) (k_ticks s) (k_cont s) (k_msg s) (k_isTraceOn s)
  (k_num_calls s) (k_ls_called s) (k_cons s) (k_disk s) (k_bufs s) (k_log s) (k_sb s) (k_inodes
  s) (k_files s) (k_pipes s).
Definition set_k_initproc (v : option nat) (s : kernel) : kernel := mkKernel (k_hw s)
  (k_sleeplocks s) (k_mem s) (k_use_lock s) (k_freelist s) (k_end s) (k_data s) (k_kpgdir s)
  (k_proc s) (k_nextpid s) v (k_forkret_first s) (k_ticks s) (k_cont s) (k_msg s) (k_isTraceOn
  s) (k_num_calls s) (k_ls_called s) (k_cons s) (k_disk s) (k_bufs s) (k_log s) (k_sb s)
  (k_inodes s) (k_files s) (k_pipes s).
Definition set_k_forkret_first (v : Z) (s : kernel) : kernel := mkKernel (k_hw s) (k_sleeplocks
  s) (k_mem s) (k_use_lock s) (k_freelist s) (k_end s) (k_data s) (k_kpgdir s) (k_proc s)
  (k_nextpid s) (k_initproc s) v (k_ticks s) (k_cont s) (k_msg s) (k_isTraceOn s) (k_num_calls
  s) (k_ls_called s) (k_cons s) (k_disk s) (k_bufs s) (k_log s) (k_sb s) (k_inodes s) (k_files
  s) (k_pipes s).
Definition set_k_ticks (v : Z) (s : kernel) : kernel := mkKernel (k_hw s) (k_sleeplocks s)
  (k_mem s) (k_use_lock s) (k_freelist s) (k_end s) (k_data s) (k_kpgdir s) (k_proc s)
  (k_nextpid s) (k_initproc s) (k_forkret_first s) v (k_cont s) (k_msg s) (k_isTraceOn s)
  (k_num_calls s) (k_ls_called s) (k_cons s) (k_disk s) (k_bufs s) (k_log s) (k_sb s) (k_inodes
  s) (k_files s) (k_pipes s).
Definition set_k_cont (v : containers) (s : kernel) : kernel := mkKernel (k_hw s) (k_sleeplocks
  s) (k_mem s) (k_use_lock s) (k_freelist s) (k_end s) (k_data s) (k_kpgdir s) (k_proc s)
  (k_nextpid s) (k_initproc s) (k_forkret_first s) (k_ticks s) v (k_msg s) (k_isTraceOn s)
  (k_num_calls s) (k_ls_called s) (k_cons s) (k_disk s) (k_bufs s) (k_log s) (k_sb s) (k_inodes
  s) (k_files s) (k_pipes s).
Definition set_k_msg (v : messages) (s : kernel) : kernel := mkKernel (k_hw s) (k_sleeplocks s)
  (k_mem s) (k_use_lock s) (k_freelist s) (k_end s) (k_data s) (k_kpgdir s) (k_proc s)
  (k_nextpid s) (k_initproc s) (k_forkret_first s) (k_ticks s) (k_cont s) v (k_isTraceOn s)
  (k_num_calls s) (k_ls_called s) (k_cons s) (k_disk s) (k_bufs s) (k_log s) (k_sb s) (k_inodes
  s) (k_files s) (k_pipes s).
Definition set_k_isTraceOn (v : Z) (s : kernel) : kernel := mkKernel (k_hw s) (k_sleeplocks s)
  (k_mem s) (k_use_lock s) (k_freelist s) (k_end s) (k_data s) (k_kpgdir s) (k_proc s)
  (k_nextpid s) (k_initproc s) (k_forkret_first s) (k_ticks s) (k_cont s) (k_msg s) v
  (k_num_calls s) (k_ls_called s) (k_cons s) (k_disk s) (k_bufs s) (k_log s) (k_sb s) (k_inodes
  s) (k_files s) (k_pipes s).
Definition set_k_num_calls (v : list Z) (s : kernel) : kernel := mkKernel (k_hw s)
  (k_sleeplocks s) (k_mem s) (k_use_lock s) (k_freelist s) (k_end s) (k_data s) (k_kpgdir s)
  (k_proc s) (k_nextpid s) (k_initproc s) (k_forkret_first s) (k_ticks s) (k_cont s) (k_msg s)
  (k_isTraceOn s) v (k_ls_called s) (k_cons s) (k_disk s) (k_bufs s) (k_log s) (k_sb s)
  (k_inodes s) (k_files s) (k_pipes s).
Definition set_k_ls_called (v : Z) (s : kernel) : kernel := mkKernel (k_hw s) (k_sleeplocks s)
  (k_mem s) (k_use_lock s) (k_freelist s) (k_end s) (k_data s) (k_kpgdir s) (k_proc s)
  (k_nextpid s) (k_initproc s) (k_forkret_first s) (k_ticks s) (k_cont s) (k_msg s)
  (k_isTraceOn s) (k_num_calls s) v (k_cons s) (k_disk s) (k_bufs s) (k_log s) (k_sb s)
  (k_inodes s) (k_files s) (k_pipes s).
Definition set_k_cons (v : console) (s : kernel) : kernel := mkKernel (k_hw s) (k_sleeplocks s)
  (k_mem s) (k_use_lock s) (k_freelist s) (k_end s) (k_data s) (k_kpgdir s) (k_proc s)
  (k_nextpid s) (k_initproc s) (k_forkret_first s) (k_ticks s) (k_cont s) (k_msg s)
  (k_isTraceOn s) (k_num_calls s) (k_ls_called s) v (k_disk s) (k_bufs s) (k_log s) (k_sb s)
  (k_inodes s) (k_files s) (k_pipes s).
Definition set_k_disk (v : disk_t) (s : kernel) : kernel := mkKernel (k_hw s) (k_sleeplocks s)
  (k_mem s) (k_use_lock s) (k_freelist s) (k_end s) (k_data s) (k_kpgdir s) (k_proc s)
  (k_nextpid s) (k_initproc s) (k_forkret_first s) (k_ticks s) (k_cont s) (k_msg s)
  (k_isTraceOn s) (k_num_calls s) (k_ls_called s) (k_cons s) v (k_bufs s) (k_log s) (k_sb s)
  (k_inodes s) (k_files s) (k_pipes s).
Definition set_k_bufs (v : list buf) (s : kernel) : kernel := mkKernel (k_hw s) (k_sleeplocks
  s) (k_mem s) (k_use_lock s) (k_freelist s) (k_end s) (k_data s) (k_kpgdir s) (k_proc s)
  (k_nextpid s) (k_initproc s) (k_forkret_first s) (k_ticks s) (k_cont s) (k_msg s)
  (k_isTraceOn s) (k_num_calls s) (k_ls_called s) (k_cons s) (k_disk s) v (k_log s) (k_sb s)
  (k_inodes s) (k_files s) (k_pipes s).
Definition set_k_log (v : log_t) (s : kernel) : kernel := mkKernel (k_hw s) (k_sleeplocks s)
  (k_mem s) (k_use_lock s) (k_freelist s) (k_end s) (k_data s) (k_kpgdir s) (k_proc s)
  (k_nextpid s) (k_initproc s) (k_forkret_first s) (k_ticks s) (k_cont s) (k_msg s)
  (k_isTraceOn s) (k_num_calls s) (k_ls_called s) (k_cons s) (k_disk s) (k_bufs s) v (k_sb s)
  (k_inodes s) (k_files s) (k_pipes s).
Definition set_k_sb (v : superblock) (s : kernel) : kernel := mkKernel (k_hw s) (k_sleeplocks
  s) (k_mem s) (k_use_lock s) (k_freelist s) (k_end s) (k_data s) (k_kpgdir s) (k_proc s)
  (k_nextpid s) (k_initproc s) (k_forkret_first s) (k_ticks s) (k_cont s) (k_msg s)
  (k_isTraceOn s) (k_num_calls s) (k_ls_called s) (k_cons s) (k_disk s) (k_bufs s) (k_log s) v
  (k_inodes s) (k_files s) (k_pipes s).
Definition set_k_inodes (v : list inode) (s : kernel) : kernel := mkKernel (k_hw s)
  (k_sleeplocks s) (k_mem s) (k_use_lock s) (k_freelist s) (k_end s) (k_data s) (k_kpgdir s)
  (k_proc s) (k_nextpid s) (k_initproc s) (k_forkret_first s) (k_ticks s) (k_cont s) (k_msg s)
  (k_isTraceOn s) (k_num_calls s) (k_ls_called s) (k_cons s) (k_disk s) (k_bufs s) (k_log s)
  (k_sb s) v (k_files s) (k_pipes s).
Definition set_k_files (v : list file) (s : kernel) : kernel := mkKernel (k_hw s) (k_sleeplocks
  s) (k_mem s) (k_use_lock s) (k_freelist s) (k_end s) (k_data s) (k_kpgdir s) (k_proc s)
  (k_nextpid s) (k_initproc s) (k_forkret_first s) (k_ticks s) (k_cont s) (k_msg s)
  (k_isTraceOn s) (k_num_calls s) (k_ls_called s) (k_cons s) (k_disk s) (k_bufs s) (k_log s)
  (k_sb s) (k_inodes s) v (k_pipes s).
Definition set_k_pipes (v : gmap Z pipe) (s : kernel) : kernel := mkKernel (k_hw s)
  (k_sleeplocks s) (k_mem s) (k_use_lock s) (k_freelist s) (k_end s) (k_data s) (k_kpgdir s)
  (k_proc s) (k_nextpid s) (k_initproc s) (k_forkret_first s) (k_ticks s) (k_cont s) (k_msg s)
  (k_isTraceOn s) (k_num_calls s) (k_ls_called s) (k_cons s) (k_disk s) (k_bufs s) (k_log s)
  (k_sb s) (k_inodes s) (k_files s) v.

(** Kernel code: a computation on the global state. *)
Abbreviation K A := (M kernel A).

(** Access through a pointer to a table element. *)
Definition getproc (p : nat) : K proc :=
  let! l := gets k_proc in index "ptable.proc" l (Z.of_nat p).
Definition setproc (p : nat) (v : proc) : K unit :=
  modify (fun s => set_k_proc (<[p := v]> (k_proc s)) s).
Definition updproc (p : nat) (f : proc -> proc) : K unit :=
  let! v := getproc p in setproc p (f v).

Definition getinode (i : nat) : K inode :=
  let! l := gets k_inodes in index "icache.inode" l (Z.of_nat i).
Definition updinode (i : nat) (f : inode -> inode) : K unit :=
  let! v := getinode i in modify (fun s => set_k_inodes (<[i := f v]> (k_inodes s)) s).

Definition getfile (i : nat) : K file :=
  let! l := gets k_files in index "ftable.file" l (Z.of_nat i).
Definition updfile (i : nat) (f : file -> file) : K unit :=
  let! v := getfile i in modify (fun s => set_k_files (<[i := f v]> (k_files s)) s).

Definition getbuf (i : nat) : K buf :=
  let! l := gets k_bufs in index "bcache.buf" l (Z.of_nat i).
Definition updbuf (i : nat) (f : buf -> buf) : K unit :=
  let! v := getbuf i in modify (fun s => set_k_bufs (<[i := f v]> (k_bufs s)) s).

Definition updlog (f : log_t -> log_t) : K unit :=
  modify (fun s => set_k_log (f (k_log s)) s).
Definition updcons (f : console -> console) : K unit :=
  modify (fun s => set_k_cons (f (k_cons s)) s).
Definition updcont (f : containers -> containers) : K unit :=
  modify (fun s => set_k_cont (f (k_cont s)) s).
Definition updmsg (f : messages -> messages) : K unit :=
  modify (fun s => set_k_msg (f (k_msg s)) s).
Definition updmem (f : mem -> mem) : K unit :=
  modify (fun s => set_k_mem (f (k_mem s)) s).

(** A proc, inode or file pointer that the code dereferences without a null test. *)
Definition nonnull {A} (why : string) (o : option A) : K A :=
  match o with Some a => ret a | None => undef why end.

(** * The state after loading: zero-initialised data, one processor with
    interrupts off, the linker's [end] at the third megabyte. *)
Definition cpu0 : cpu := mkCpu 0 0 0 false None 0.
Definition hw0 : hw := mkHw false 0 0 1 (replicate 8 cpu0) ∅.
Definition trapframe0 : trapframe := mkTrapframe 0 0 0 0 0 0 0 0 0 0 0 0 0 0 0 0 0 0 0.
Definition context0 : context := mkContext 0 0 0 0 0.
Definition proc0 : proc :=
  mkProc 0 0 0 UNUSED 0 None trapframe0 context0 None 0 (replicate 100 None) None (replicate 16 0) 0.
Definition container0 : container :=
  mkContainer 0 0 0 (replicate 100 0) (replicate 100 0) (replicate 100 0) (replicate 100 0)
    (replicate 100 0) (replicate 100 0).
Definition containers0 : containers :=
  mkContainers (replicate 100 container0) (replicate 100 0) (replicate 100 0) (replicate 100 0)
    0 0 0 (replicate 100 0) 0.
Definition messages0 : messages :=
  mkMessages (replicate 64 0) (replicate 64 0) ∅ ∅ (replicate 500 0) 0 0 0.
Definition console0 : console := mkConsole 0 0 (replicate 128 0) 0 0 0 [] (replicate 2000 0) 0.
Definition zero_block : list Z := replicate 512 0.
Definition disk0 : disk_t := mkDisk (fun _ => zero_block) FSSIZE [].
Definition buf0 : buf := mkBuf 0 0 0 0 0 0 zero_block.
Definition log0 : log_t := mkLog 0 0 0 0 0 0 (replicate 30 0).
Definition superblock0 : superblock := mkSuperblock 0 0 0 0 0 0 0.
Definition inode0 : inode := mkInode 0 0 0 0 0 0 0 0 0 (replicate 13 0) 0.
Definition file0 : file := mkFile FD_NONE 0 0 0 0 None 0 0 0.
Definition kernel0 : kernel :=
  mkKernel hw0 ∅ (fun _ => 0) 0 0 2148532224 2148532224 0 (replicate 64 proc0) 1 None 1 0
    containers0 messages0 0 (replicate 40 0) 0 console0 disk0 (replicate 31 buf0) log0 superblock0
    (replicate 50 inode0) (replicate 100 file0) ∅.
