(* ===== verification/Spinlock.v ===== *)
(** [spinlock.c], with [mycpu] and [myproc] of [proc.c] and the interrupt flag
    of [x86.h]: [pushcli]/[popcli] nesting, [acquire], [release], [holding] as one
    processor runs them, and an interleaved model of several processors that
    contend for one lock. *)

From S2P Require Import Prelude Bytes Params State.
From stdpp Require Import base list gmap strings.
From Stdlib Require Import ZArith Lia.
Local Open Scope Z_scope.
Local Open Scope km_scope.

Definition sethw (f : hw -> hw) : K unit := modify (fun s => set_k_hw (f (k_hw s)) s).
Definition readIF : K bool := gets (fun s => h_IF (k_hw s)).
Definition cli : K unit := sethw (set_h_IF false).
Definition sti : K unit := sethw (set_h_IF true).

Definition mycpu : K nat :=
  let! h := gets k_hw in
  if h_IF h then panic "mycpu called with interrupts enabled" else
  let! r := for_find (range (h_ncpu h)) (fun i =>
    let! c := index "cpus" (h_cpus h) (Z.of_nat i) in
    ret (if c_apicid c =? h_lapicid h then Some i else None)) in
  match r with
  | Some i => ret i
  | None => panic "unknown apicid"
  end.

(** [mycpu()] is [&cpus[i]], so its index is [mycpu() - cpus]. *)
Definition cpuid : K nat := mycpu.

Definition getcpu (i : nat) : K cpu :=
  let! h := gets k_hw in index "cpus" (h_cpus h) (Z.of_nat i).
Definition updcpu (i : nat) (f : cpu -> cpu) : K unit :=
  let! c := getcpu i in sethw (fun h => set_h_cpus (<[i := f c]> (h_cpus h)) h).

Definition pushcli : K unit :=
  let! eflags := readIF in
  cli ;;
  let! i := mycpu in
  let! c := getcpu i in
  when (c_ncli c =? 0) (updcpu i (set_c_intena eflags)) ;;
  updcpu i (fun c => set_c_ncli (c_ncli c + 1) c).

Definition popcli : K unit :=
  let! fl := readIF in
  if fl then panic "popcli - interruptible" else
  let! i := mycpu in
  updcpu i (fun c => set_c_ncli (c_ncli c - 1) c) ;;
  let! c := getcpu i in
  if c_ncli c <? 0 then panic "popcli" else
  when ((c_ncli c =? 0) && c_intena c) sti.

Definition myproc : K (option nat) :=
  pushcli ;;
  let! i := mycpu in
  let! c := getcpu i in
  popcli ;;
  ret (c_proc c).

(** A lock in zero-initialised storage: [locked = 0], [cpu = 0]. *)
Definition lock_zero : spinlock := mkSpinlock 0 None.

Definition getlock (h : hw) (l : lockid) : spinlock := default lock_zero (h_locks h !! l).
Definition putlock (l : lockid) (v : spinlock) (h : hw) : hw :=
  set_h_locks (match locked v, lcpu v with
               | 0, None => delete l (h_locks h)
               | _, _ => <[l := v]> (h_locks h)
               end) h.

(** [lk->cpu == mycpu()] *)
Definition is_cpu (o : option nat) (i : nat) : bool :=
  match o with Some j => Nat.eqb j i | None => false end.

Definition initlock (l : lockid) : K unit := sethw (putlock l lock_zero).

Definition holding (l : lockid) : K bool :=
  pushcli ;;
  let! i := mycpu in
  let! h := gets k_hw in
  let r := negb (locked (getlock h l) =? 0) && is_cpu (lcpu (getlock h l)) i in
  popcli ;;
  ret r.

Definition acquire (l : lockid) : K unit :=
  pushcli ;;
  let! r := holding l in
  if r then panic "acquire" else
  let! h := gets k_hw in
  (if locked (getlock h l) =? 0 then sethw (putlock l (set_locked 1 (getlock h l))) else spin) ;;
  let! i := mycpu in
  sethw (fun h => putlock l (set_lcpu (Some i) (getlock h l)) h).

Definition release (l : lockid) : K unit :=
  let! r := holding l in
  if negb r then panic "release" else
  sethw (fun h => putlock l (set_lcpu None (getlock h l)) h) ;;
  sethw (fun h => putlock l (set_locked 0 (getlock h l)) h) ;;
  popcli.

(** * One processor *)

(** Processor [i], with per-CPU state [c], is the one that runs. *)
Record cur_cpu (h : hw) (i : nat) (c : cpu) : Prop := {
  cc_lookup : h_cpus h !! i = Some c;
  cc_ncpu : (i < Z.to_nat (h_ncpu h))%nat;
  cc_len : (Z.to_nat (h_ncpu h) <= length (h_cpus h))%nat;
  cc_id : c_apicid c = h_lapicid h;
  cc_first : forall j c', (j < i)%nat -> h_cpus h !! j = Some c' -> c_apicid c' <> h_lapicid h
}.

(** In addition, interrupts are off while [ncli > 0], and otherwise [intena]
    agrees with the interrupt flag. *)
Record on_cpu (h : hw) (i : nat) (c : cpu) : Prop := {
  oc_cur : cur_cpu h i c;
  oc_ncli : 0 <= c_ncli c;
  oc_IF : if c_ncli c =? 0 then c_intena c = h_IF h else h_IF h = false
}.

Definition cpu_pushed (c : cpu) : cpu := set_c_ncli (c_ncli c + 1) c.

Definition hw_push (i : nat) (c : cpu) (h : hw) : hw :=
  set_h_IF false (set_h_cpus (<[i := cpu_pushed c]> (h_cpus h)) h).

(** The hardware state while [l] is held by the running processor. *)
Definition hw_lock (l : lockid) (i : nat) (c : cpu) (h : hw) : hw :=
  set_h_locks (<[l := mkSpinlock 1 (Some i)]> (h_locks h)) (hw_push i c h).

Definition lock_free (h : hw) (l : lockid) : Prop := h_locks h !! l = None.
Definition lock_held (h : hw) (l : lockid) (i : nat) : Prop :=
  h_locks h !! l = Some (mkSpinlock 1 (Some i)).

Section OneCpu.
Implicit Types (s : kernel) (h : hw) (i : nat) (c : cpu) (l : lockid).

Lemma set_hw_same s : set_k_hw (k_hw s) s = s.
Proof. by destruct s. Qed.

Lemma set_hw_twice h h' s : set_k_hw h (set_k_hw h' s) = set_k_hw h s.
Proof. done. Qed.

Lemma getlock_free h l : lock_free h l -> getlock h l = lock_zero.
Proof. unfold getlock. by intros ->. Qed.

Lemma getlock_held h l i : lock_held h l i -> getlock h l = mkSpinlock 1 (Some i).
Proof. unfold getlock. by intros ->. Qed.

Lemma getlock_put h l v : getlock (putlock l v h) l = v.
Proof.
  unfold getlock, putlock. destruct v as [[| |] []]; simpl;
    rewrite ?lookup_insert_eq, ?lookup_delete_eq; done.
Qed.

Lemma putlock_put h l v w : putlock l v (putlock l w h) = putlock l v h.
Proof.
  unfold putlock. destruct v as [[| |] []], w as [[| |] []]; simpl; unfold set_h_locks; simpl;
    rewrite ?insert_insert_eq, ?insert_delete_eq, ?delete_insert_eq, ?delete_delete_eq; done.
Qed.

Lemma putlock_zero h l : lock_free h l -> putlock l lock_zero h = h.
Proof.
  intros Hf. unfold putlock. simpl. rewrite delete_id by done. by destruct h.
Qed.

Lemma cur_cpu_upd h i c c' :
  cur_cpu h i c -> c_apicid c' = c_apicid c ->
  cur_cpu (set_h_cpus (<[i := c']> (h_cpus h)) h) i c'.
Proof.
  intros [] E. constructor; simpl; auto; try congruence.
  - apply list_lookup_insert_eq. eapply lookup_lt_Some; eauto.
  - by rewrite length_insert.
  - intros j c'' Hj. rewrite list_lookup_insert_ne by lia. eauto.
Qed.

Lemma cur_cpu_IF h i c b : cur_cpu h i c -> cur_cpu (set_h_IF b h) i c.
Proof. intros []. by constructor. Qed.

Lemma cur_cpu_locks h i c x : cur_cpu h i c -> cur_cpu (set_h_locks x h) i c.
Proof. intros []. by constructor. Qed.

Lemma on_cpu_push h i c : on_cpu h i c -> on_cpu (hw_push i c h) i (cpu_pushed c).
Proof.
  intros [Hc Hn HI]. constructor; simpl; [|lia|].
  - apply cur_cpu_IF. by apply (cur_cpu_upd _ _ c).
  - destruct (Z.eqb_spec (c_ncli c + 1) 0); [lia|done].
Qed.

Lemma on_cpu_lock h i c l : on_cpu h i c -> on_cpu (hw_lock l i c h) i (cpu_pushed c).
Proof. intros H. destruct (on_cpu_push _ _ _ H). constructor; [by apply cur_cpu_locks|done|done]. Qed.

Lemma mycpu_eq s i c :
  cur_cpu (k_hw s) i c -> h_IF (k_hw s) = false -> mycpu s = Ret i s.
Proof.
  intros Hc HIF. unfold mycpu. rewrite bind_gets, HIF.
  assert (E : range (h_ncpu (k_hw s)) = seq 0 i ++ i :: seq (S i) (Z.to_nat (h_ncpu (k_hw s)) - S i)).
  { unfold range. pose proof (cc_ncpu _ _ _ Hc).
    replace (Z.to_nat (h_ncpu (k_hw s))) with (i + S (Z.to_nat (h_ncpu (k_hw s)) - S i))%nat at 1 by lia.
    by rewrite seq_app. }
  rewrite E. erewrite bind_run; [|apply for_find_hit with (s' := s) (r := i)].
  - done.
  - intros j Hj. apply elem_of_seq in Hj as [_ Hj]. simpl in Hj.
    destruct (lookup_lt_is_Some_2 (h_cpus (k_hw s)) j) as [cj Hcj].
    { pose proof (cc_len _ _ _ Hc). pose proof (cc_ncpu _ _ _ Hc). lia. }
    erewrite bind_index_nat by exact Hcj.
    destruct (Z.eqb_spec (c_apicid cj) (h_lapicid (k_hw s))) as [E'|]; [|done].
    by destruct (cc_first _ _ _ Hc j cj).
  - erewrite bind_index_nat by apply Hc. by rewrite (cc_id _ _ _ Hc), Z.eqb_refl.
Qed.

Lemma getcpu_eq s i c : h_cpus (k_hw s) !! i = Some c -> getcpu i s = Ret c s.
Proof. intros H. unfold getcpu. rewrite bind_gets. apply index_eq; [lia|]. by rewrite Nat2Z.id. Qed.

Lemma updcpu_eq s i c f :
  h_cpus (k_hw s) !! i = Some c ->
  updcpu i f s = Ret tt (set_k_hw (set_h_cpus (<[i := f c]> (h_cpus (k_hw s))) (k_hw s)) s).
Proof. intros H. unfold updcpu. by erewrite bind_run by by apply getcpu_eq. Qed.

Lemma pushcli_eq s i c :
  on_cpu (k_hw s) i c -> pushcli s = Ret tt (set_k_hw (hw_push i c (k_hw s)) s).
Proof.
  intros [Hc Hn HI]. unfold pushcli, readIF, cli, sethw. rewrite bind_gets, bind_modify.
  set (s1 := set_k_hw _ s).
  assert (Hl1 : h_cpus (k_hw s1) !! i = Some c) by apply Hc.
  assert (Hc1 : cur_cpu (k_hw s1) i c) by by apply cur_cpu_IF.
  erewrite bind_run by by eapply mycpu_eq.
  erewrite bind_run by by apply getcpu_eq.
  assert (Hw : when (c_ncli c =? 0) (updcpu i (set_c_intena (h_IF (k_hw s)))) s1 = Ret tt s1).
  { unfold when. destruct (c_ncli c =? 0); [|done].
    erewrite updcpu_eq by exact Hl1. unfold s1. simpl.
    rewrite list_insert_id; [done|]. rewrite (cc_lookup _ _ _ Hc), <- HI. by destruct c. }
  erewrite bind_run by exact Hw. by erewrite updcpu_eq by exact Hl1.
Qed.

(** [popcli] undoes [pushcli]. *)
Lemma popcli_eq s h i c :
  on_cpu h i c -> k_hw s = hw_push i c h -> popcli s = Ret tt (set_k_hw h s).
Proof.
  intros H E. pose proof (on_cpu_push _ _ _ H) as [Hc _ _]. destruct H as [Hc0 Hn HI].
  unfold popcli, readIF. rewrite bind_gets, E. simpl.
  erewrite bind_run; [|eapply mycpu_eq with (c := cpu_pushed c); rewrite E; done].
  assert (L : h_cpus (hw_push i c h) !! i = Some (cpu_pushed c)) by apply Hc.
  erewrite bind_run; [|apply updcpu_eq; rewrite E; exact L].
  set (s1 := set_k_hw _ s).
  assert (Hh : k_hw s1 = set_h_IF false h).
  { unfold s1. rewrite E. simpl. unfold hw_push. simpl. rewrite list_insert_insert_eq.
    unfold set_h_cpus, set_h_IF. simpl. f_equal.
    apply list_insert_id. rewrite (cc_lookup _ _ _ Hc0). f_equal.
    destruct c; unfold set_c_ncli; simpl. f_equal. lia. }
  erewrite bind_run; [|apply getcpu_eq; rewrite Hh; apply Hc0].
  destruct (Z.ltb_spec (c_ncli c) 0); [lia|]. unfold when, sti, sethw, modify.
  destruct (Z.eqb_spec (c_ncli c) 0) as [E0|E0].
  - simpl. destruct (c_intena c) eqn:Ei.
    + rewrite Hh. unfold s1. simpl. f_equal. unfold set_k_hw; simpl. f_equal.
      rewrite HI. by destruct h.
    + unfold s1, ret in *. f_equal. unfold set_k_hw in *; simpl in *. f_equal.
      rewrite Hh, HI. by destruct h.
  - unfold s1, ret in *. simpl. f_equal. unfold set_k_hw in *; simpl in *. f_equal.
    rewrite Hh, <- HI. by destruct h.
Qed.

(** [myproc] reads [cpu->proc] and changes nothing. *)
Lemma myproc_eq s i c : on_cpu (k_hw s) i c -> myproc s = Ret (c_proc c) s.
Proof.
  intros H. unfold myproc. erewrite bind_run by by apply pushcli_eq.
  set (s1 := set_k_hw _ s).
  pose proof (on_cpu_push _ _ _ H) as [Hc _ _].
  erewrite bind_run by (eapply (mycpu_eq s1); [exact Hc|done]).
  erewrite bind_run by (apply (getcpu_eq s1); apply Hc).
  erewrite bind_run by (by apply (popcli_eq s1 (k_hw s) i c)).
  unfold s1, ret. simpl. f_equal. by destruct s.
Qed.

Lemma holding_eq s i c l :
  on_cpu (k_hw s) i c ->
  holding l s = Ret (negb (locked (getlock (k_hw s) l) =? 0) &&
                     is_cpu (lcpu (getlock (k_hw s) l)) i) s.
Proof.
  intros H. unfold holding. erewrite bind_run by by apply pushcli_eq.
  set (s1 := set_k_hw _ s).
  pose proof (on_cpu_push _ _ _ H) as [Hc _ _].
  erewrite bind_run by (eapply (mycpu_eq s1); [exact Hc|done]).
  rewrite bind_gets. cbv zeta.
  erewrite bind_run by (by apply (popcli_eq s1 (k_hw s) i c)).
  unfold s1, ret. simpl. f_equal. by destruct s.
Qed.

Lemma acquire_eq s i c l :
  on_cpu (k_hw s) i c -> lock_free (k_hw s) l ->
  acquire l s = Ret tt (set_k_hw (hw_lock l i c (k_hw s)) s).
Proof.
  intros H Hf. unfold acquire. erewrite bind_run by by apply pushcli_eq.
  set (s1 := set_k_hw _ s).
  pose proof (on_cpu_push _ _ _ H) as Hp.
  assert (G : getlock (k_hw s1) l = lock_zero) by by apply getlock_free.
  erewrite bind_run by (apply (holding_eq s1 i (cpu_pushed c)); exact Hp).
  rewrite G. simpl. rewrite bind_gets, G. unfold sethw. simpl.
  rewrite bind_modify. set (s2 := set_k_hw _ s1).
  erewrite bind_run by (apply (mycpu_eq s2 i (cpu_pushed c)); [apply cur_cpu_locks, Hp|done]).
  unfold modify, s2. simpl. rewrite getlock_put, putlock_put. done.
Qed.

(** Acquiring a lock this processor already holds panics. *)
Lemma acquire_again s i c l :
  on_cpu (k_hw s) i c -> lock_held (k_hw s) l i ->
  exists s', acquire l s = Panic "acquire" s'.
Proof.
  intros H Hl. unfold acquire. erewrite bind_run by by apply pushcli_eq.
  set (s1 := set_k_hw _ s).
  pose proof (on_cpu_push _ _ _ H) as Hp.
  erewrite bind_run by (apply (holding_eq s1 i (cpu_pushed c)); exact Hp).
  unfold getlock. simpl. rewrite Hl. simpl. rewrite Nat.eqb_refl. eauto.
Qed.

(** [release] undoes [acquire], whatever else the critical section changed. *)
Lemma release_eq s h i c l :
  on_cpu h i c -> lock_free h l -> k_hw s = hw_lock l i c h ->
  release l s = Ret tt (set_k_hw h s).
Proof.
  intros H Hf E. unfold release. pose proof (on_cpu_lock _ _ _ l H) as Hp.
  assert (G : getlock (k_hw s) l = mkSpinlock 1 (Some i)).
  { rewrite E. apply getlock_held. apply lookup_insert_eq. }
  erewrite bind_run by (apply (holding_eq s i (cpu_pushed c)); rewrite E; exact Hp).
  rewrite G. simpl. rewrite Nat.eqb_refl. simpl.
  unfold sethw. rewrite !bind_modify. simpl. rewrite G, getlock_put, putlock_put.
  erewrite (popcli_eq _ h i c); [done|done|]. simpl. rewrite E.
  change (hw_lock l i c h) with (putlock l (mkSpinlock 1 (Some i)) (hw_push i c h)).
  rewrite putlock_put. by apply putlock_zero.
Qed.

(** Releasing a lock that is not held panics. *)
Lemma release_free s i c l :
  on_cpu (k_hw s) i c -> lock_free (k_hw s) l -> release l s = Panic "release" s.
Proof.
  intros H Hf. unfold release. erewrite bind_run by (apply (holding_eq s i c); exact H).
  unfold getlock. by rewrite Hf.
Qed.

Lemma lock_free_other h i c l l' :
  lock_free h l' -> l <> l' -> lock_free (hw_lock l i c h) l'.
Proof. unfold lock_free, hw_lock; simpl. intros. by rewrite lookup_insert_ne. Qed.

Lemma lock_held_self h i c l : lock_held (hw_lock l i c h) l i.
Proof. unfold lock_held; simpl. apply lookup_insert_eq. Qed.

Lemma on_cpu0 : on_cpu hw0 0 cpu0.
Proof. constructor; [constructor|..]; simpl; auto; lia. Qed.
End OneCpu.

(** * The process table, and the current process *)

(** Process [p], whose entry is [pr], runs on processor [i]. *)
Record running (s : kernel) (i : nat) (c : cpu) (p : nat) (pr : proc) : Prop := {
  rn_cpu : on_cpu (k_hw s) i c;
  rn_cproc : c_proc c = Some p;
  rn_proc : k_proc s !! p = Some pr
}.

#[export] Hint Resolve rn_cpu rn_proc : xv6.

Section Table.
Implicit Types (s : kernel) (p : nat).

Lemma getproc_eq s p pr : k_proc s !! p = Some pr -> getproc p s = Ret pr s.
Proof. intros H. unfold getproc. rewrite bind_gets. apply index_eq; [lia|]. by rewrite Nat2Z.id. Qed.

Lemma updproc_eq s p pr f :
  k_proc s !! p = Some pr -> updproc p f s = Ret tt (set_k_proc (<[p := f pr]> (k_proc s)) s).
Proof. intros H. unfold updproc. by erewrite bind_run by by apply getproc_eq. Qed.

Lemma set_proc_same s : set_k_proc (k_proc s) s = s.
Proof. by destruct s. Qed.

Lemma running_frame s s' i c p pr :
  running s i c p pr -> k_hw s' = k_hw s -> k_proc s' = k_proc s -> running s' i c p pr.
Proof. intros [] Eh Ep. constructor; rewrite ?Eh, ?Ep; auto. Qed.

Lemma myproc_run s i c p pr : running s i c p pr -> myproc s = Ret (Some p) s.
Proof. intros [Hc Hp _]. erewrite myproc_eq by done. by rewrite Hp. Qed.
End Table.

(** * Several processors and one lock

    The statements of [acquire] and [release] as interleaved atomic steps; the
    program counter of a processor says where it is in them. *)
Module MP.
Inductive pc : Type :=
| Out                 (* not in the critical section *)
| Try                 (* in [while(xchg(&lk->locked, 1) != 0)] *)
| Got                 (* the xchg returned 0, [lk->cpu] not yet set *)
| In                  (* after [acquire] *)
| Rel.                (* in [release], [lk->cpu] cleared *)

Record st : Type := mkSt { word : Z; owner : option nat; pcs : list pc }.

(** [holding] as processor [i] evaluates it. *)
Definition holds (s : st) (i : nat) : bool := negb (word s =? 0) && is_cpu (owner s) i.

Definition goto (s : st) (i : nat) (p : pc) : list pc := <[i := p]> (pcs s).

Inductive step : st -> st -> Prop :=
| s_enter s i : pcs s !! i = Some Out -> holds s i = false ->
    step s (mkSt (word s) (owner s) (goto s i Try))
| s_xchg_busy s i : pcs s !! i = Some Try -> word s <> 0 ->
    step s (mkSt 1 (owner s) (goto s i Try))
| s_xchg_ok s i : pcs s !! i = Some Try -> word s = 0 ->
    step s (mkSt 1 (owner s) (goto s i Got))
| s_setcpu s i : pcs s !! i = Some Got ->
    step s (mkSt (word s) (Some i) (goto s i In))
| s_release s i : pcs s !! i = Some In -> holds s i = true ->
    step s (mkSt (word s) None (goto s i Rel))
| s_unlock s i : pcs s !! i = Some Rel ->
    step s (mkSt 0 (owner s) (goto s i Out)).

Definition init (n : nat) : st := mkSt 0 None (replicate n Out).

Inductive reachable (n : nat) : st -> Prop :=
| r_init : reachable n (init n)
| r_step s s' : reachable n s -> step s s' -> reachable n s'.

(** The processor is past a successful xchg and has not yet cleared the word. *)
Definition inside (p : pc) : Prop := p = Got \/ p = In \/ p = Rel.

Record inv (s : st) : Prop := {
  inv_word : forall i p, pcs s !! i = Some p -> inside p -> word s = 1;
  inv_free : word s <> 0 -> exists i p, pcs s !! i = Some p /\ inside p;
  inv_uniq : forall i j p q, pcs s !! i = Some p -> pcs s !! j = Some q ->
    inside p -> inside q -> i = j;
  inv_owner : forall i, owner s = Some i <-> pcs s !! i = Some In
}.

Lemma inv_init n : inv (init n).
Proof.
  unfold init. constructor; simpl.
  - intros i p H. apply lookup_replicate in H as [-> _]. by intros [|[|]].
  - done.
  - intros i j p q H. apply lookup_replicate in H as [-> _]. by intros _ [|[|]].
  - intros i. split; [done|]. intros H. apply lookup_replicate in H as [? _]. done.
Qed.

Lemma lookup_goto s i p q : pcs s !! i = Some q -> goto s i p !! i = Some p.
Proof. intros H. apply list_lookup_insert_eq. by eapply lookup_lt_Some. Qed.

Lemma lookup_goto_ne s i j p : i <> j -> goto s i p !! j = pcs s !! j.
Proof. intros. by apply list_lookup_insert_ne. Qed.

(** Where does a program counter of the updated array come from? *)
Lemma goto_inv s i j p q :
  goto s i p !! j = Some q -> (j = i /\ q = p) \/ (j <> i /\ pcs s !! j = Some q).
Proof.
  destruct (decide (i = j)) as [->|Hne].
  - intros H. left. split; [done|]. unfold goto in H.
    assert (Hlt := lookup_lt_Some _ _ _ H). rewrite length_insert in Hlt.
    rewrite list_lookup_insert_eq in H by done. congruence.
  - rewrite lookup_goto_ne by done. auto.
Qed.

Ltac from_goto :=
  repeat match goal with
  | H : goto _ _ _ !! _ = Some _ |- _ =>
      apply goto_inv in H; destruct H as [[? ?]|[? ?]]; subst
  end.

Ltac not_inside :=
  match goal with H : inside _ |- _ => exfalso; revert H; by intros [|[|]] end.

#[local] Hint Unfold inside : core.

Lemma inv_step s s' : inv s -> step s s' -> inv s'.
Proof.
  intros [Hw Hf Hu Ho]. destruct 1 as [s i Hi Hh|s i Hi H1|s i Hi H0|s i Hi|s i Hi Hh|s i Hi].
  - (* enter *)
    constructor; simpl.
    + intros; from_goto; eauto; not_inside.
    + intros H. destruct (Hf H) as (j & p & Hj & Hp). exists j, p. split; [|done].
      rewrite lookup_goto_ne; [done|]. intros ->. simplify_eq. not_inside.
    + intros; from_goto; eauto; not_inside.
    + intros j. rewrite Ho. destruct (decide (i = j)) as [->|].
      * rewrite (lookup_goto _ _ _ _ Hi), Hi. done.
      * by rewrite lookup_goto_ne.
  - (* xchg on a held lock *)
    destruct (Hf H1) as (j0 & p0 & Hj0 & Hp0). pose proof (Hw _ _ Hj0 Hp0) as E.
    assert (j0 <> i) by (intros ->; simplify_eq; not_inside).
    constructor; simpl; auto.
    + intros _. exists j0, p0. split; [|done]. by rewrite lookup_goto_ne.
    + intros; from_goto; eauto; not_inside.
    + intros j. rewrite Ho. destruct (decide (i = j)) as [->|].
      * rewrite (lookup_goto _ _ _ _ Hi), Hi. done.
      * by rewrite lookup_goto_ne.
  - (* xchg on a free lock *)
    assert (Hno : forall j p, pcs s !! j = Some p -> inside p -> False).
    { intros j p Hj Hp. specialize (Hw _ _ Hj Hp). congruence. }
    constructor; simpl; auto.
    + intros _. exists i, Got. split; [by eapply lookup_goto|auto].
    + intros; from_goto; auto; exfalso; eauto.
    + intros j. rewrite Ho. destruct (decide (i = j)) as [->|].
      * rewrite (lookup_goto _ _ _ _ Hi), Hi. done.
      * by rewrite lookup_goto_ne.
  - (* lk->cpu = mycpu() *)
    assert (Hi' : inside Got) by auto.
    constructor; simpl.
    + intros; from_goto; eauto.
    + intros _. exists i, In. split; [by eapply lookup_goto|auto].
    + intros; from_goto; eauto.
    + intros j. destruct (decide (i = j)) as [->|Hne].
      * by rewrite (lookup_goto _ _ _ _ Hi).
      * rewrite lookup_goto_ne by done. split; [congruence|].
        intros Hj. exfalso. apply Hne. eapply Hu; eauto.
  - (* lk->cpu = 0 *)
    assert (Hi' : inside In) by auto.
    constructor; simpl.
    + intros; from_goto; eauto.
    + intros _. exists i, Rel. split; [by eapply lookup_goto|auto].
    + intros; from_goto; eauto.
    + intros j. split; [done|]. intros Hj. from_goto; [done|].
      exfalso. match goal with H : _ <> i |- _ => apply H end. eapply Hu; eauto.
  - (* movl $0 *)
    assert (Hi' : inside Rel) by auto.
    assert (Hno : forall j p, j <> i -> pcs s !! j = Some p -> inside p -> False).
    { intros j p Hne Hj Hp. apply Hne. eapply Hu; eauto. }
    constructor; simpl.
    + intros; from_goto; [not_inside|exfalso; eauto].
    + done.
    + intros; from_goto; auto; try not_inside; exfalso; eauto.
    + intros j. rewrite Ho. destruct (decide (i = j)) as [->|].
      * rewrite (lookup_goto _ _ _ _ Hi), Hi. done.
      * by rewrite lookup_goto_ne.
Qed.

Lemma inv_reachable n s : reachable n s -> inv s.
Proof. induction 1; eauto using inv_init, inv_step. Qed.
End MP.

(** * Properties *)

(** on one processor, [acquire] of a free lock followed by any code that leaves
    the processor and the locks alone and then [release] restores the interrupt
    flag, the nesting depth and the lock exactly; acquiring twice and releasing a
    free lock panic. *)
Theorem acquire_release_correct s i c l (f : kernel -> kernel) :
  on_cpu (k_hw s) i c -> lock_free (k_hw s) l ->
  (forall s', k_hw (f s') = k_hw s') ->
  (acquire l ;; modify f ;; release l) s = Ret tt (set_k_hw (k_hw s) (f (set_k_hw (hw_lock l i c (k_hw s)) s))) /\
  (exists s', (acquire l ;; acquire l) s = Panic "acquire" s') /\
  release l s = Panic "release" s.
Proof.
  intros Hc Hf Hb. split_and!.
  - erewrite bind_run by by apply acquire_eq. rewrite bind_modify.
    eapply release_eq; [done|done|]. by rewrite Hb.
  - erewrite bind_run by by apply acquire_eq.
    eapply acquire_again; [apply on_cpu_lock; done|apply lock_held_self].
  - by eapply release_free.
Qed.

Lemma acquire_release_witness :
  release L_kmem kernel0 = Panic "release" kernel0.
Proof.
  destruct (acquire_release_correct kernel0 0 cpu0 L_kmem (fun s => s) on_cpu0) as (_ & _ & H);
    [reflexivity|reflexivity|exact H].
Defined.

(** C28: whatever the interleaving of any number of processors, at most one is
    between a successful xchg and the store that clears the lock word, and a
    processor that has returned from [acquire] finds itself holding the lock, so
    the check in [release] succeeds. *)
Theorem spinlock_mutual_exclusion n s i j p q :
  MP.reachable n s -> MP.pcs s !! i = Some p -> MP.pcs s !! j = Some q ->
  MP.inside p -> MP.inside q -> i = j /\ (p = MP.In -> MP.holds s i = true).
Proof.
  intros Hr Hi Hj Hp Hq. apply MP.inv_reachable in Hr as [Hw _ Hu Ho]. split; [eauto|].
  intros ->. unfold MP.holds. rewrite (Hw i _ Hi Hp).
  rewrite (proj2 (Ho i) Hi). simpl. by rewrite Nat.eqb_refl.
Qed.

(** Processor 1 of two takes the lock: [Out], [Try], [Got], [In]. *)
Lemma spinlock_mutual_exclusion_witness :
  MP.holds (MP.mkSt 1 (Some 1%nat) [MP.Out; MP.In]) 1 = true.
Proof.
  assert (R : MP.reachable 2 (MP.mkSt 1 (Some 1%nat) [MP.Out; MP.In])).
  { eapply MP.r_step; [eapply MP.r_step; [eapply MP.r_step; [apply MP.r_init|]|]|].
    - by apply (MP.s_enter (MP.init 2) 1).
    - by apply (MP.s_xchg_ok (MP.mkSt 0 None [MP.Out; MP.Try]) 1).
    - by apply (MP.s_setcpu (MP.mkSt 1 None [MP.Out; MP.Got]) 1). }
  apply (spinlock_mutual_exclusion 2 _ 1 1 MP.In MP.In R eq_refl eq_refl);
    [right; left|right; left|]; reflexivity.
Defined.
