(* ===== verification/Cprintf.v ===== *)
(** The console's output half ([console.c]: [cgaputc], [consputc], [printint], [cprintf]).
    [co_out] is what goes to the serial port, [co_crt] and [co_pos] are the text screen and
    its cursor. *)

From S2P Require Import Prelude Bytes Params State Spinlock.
From stdpp Require Import base list gmap strings.
From Stdlib Require Import ZArith Lia.
Local Open Scope Z_scope.
Local Open Scope km_scope.

(** The bytes of a string literal. *)
Fixpoint str (x : string) : list Z :=
  match x with
  | EmptyString => []
  | String a x' => Z.of_N (Ascii.N_of_ascii a) :: str x'
  end.
Definition NL : Z := 10.

Definition BACKSPACE : Z := 256.

(** What [consputc] sends to [uartputc]. *)
Definition uart_chars (c : Z) : list Z := if c =? BACKSPACE then [8; 32; 8] else [c].

(** [memmove(crt, crt+80, ...23*80)], then [memset(crt+pos, 0, ...24*80 - pos)] *)
Definition cga_scroll (crt : list Z) (pos : Z) : list Z * Z :=
  let crt := take 1840 (drop 80 crt) ++ drop 1840 crt in
  let pos := pos - 80 in
  (take (Z.to_nat pos) crt ++ replicate (Z.to_nat (1920 - pos)) 0 ++ drop 1920 crt, pos).

Definition cgaputc (c : Z) : K unit :=
  let! co := gets k_cons in
  let pos := co_pos co in
  let! r :=
    (if c =? NL then ret (co_crt co, pos + (80 - pos mod 80))
     else if c =? BACKSPACE then ret (co_crt co, if 0 <? pos then pos - 1 else pos)
     else let! crt := assign "crt[pos++]" (co_crt co) pos (Z.lor (Z.land c 255) 1792) in
          ret (crt, pos + 1)) in
  let '(crt, pos) := r in
  if (pos <? 0) || (25 * 80 <? pos) then panic "pos under/overflow" else
  let '(crt, pos) := if 24 <=? pos / 80 then cga_scroll crt pos else (crt, pos) in
  let! crt := assign "crt[pos]" crt pos (Z.lor 32 1792) in
  updcons (fun co => set_co_pos pos (set_co_crt crt co)).

Definition consputc (c : Z) : K unit :=
  let! co := gets k_cons in
  if negb (co_panicked co =? 0) then cli ;; spin else
  updcons (fun co => set_co_out (co_out co ++ uart_chars c) co) ;;
  cgaputc c.

Definition digits : list Z := str "0123456789abcdef".

(** The [do ... while((x /= base) != 0)] loop: [buf] in the order it is filled. *)
Fixpoint print_digits (tab : list Z) (fuel : nat) (x base : Z) : list Z :=
  match fuel with
  | O => []
  | S f => nth (Z.to_nat (x mod base)) tab 0 ::
           (if x / base =? 0 then [] else print_digits tab f (x / base) base)
  end.

(** The characters of [printint(xx, base, sign)]. 32 iterations are enough for
    any 32-bit [x] and [base >= 2]. *)
Definition printint_chars (tab : list Z) (xx base sign : Z) : list Z :=
  let neg := negb (sign =? 0) && (xx <? 0) in
  let x := u32 (if neg then - xx else xx) in
  (if neg then [45] else []) ++ rev (print_digits tab 32 x base).

Definition printint (xx base sign : Z) : K unit :=
  for_each (printint_chars digits xx base sign) consputc.

(** An argument of a variadic call. *)
Inductive parg : Type := A_int (v : Z) | A_str (v : option (list Z)).

Definition next_int (args : list parg) : K (Z * list parg) :=
  match args with
  | A_int v :: rest => ret (v, rest)
  | _ => undef "cprintf: argument"
  end.

Definition next_str (args : list parg) : K (list Z * list parg) :=
  match args with
  | A_str (Some v) :: rest => ret (v, rest)
  | A_str None :: rest => ret (str "(null)", rest)
  | _ => undef "cprintf: argument"
  end.

Fixpoint cprintf_loop (fmt : list Z) (args : list parg) : K unit :=
  match fmt with
  | [] => ret tt
  | c :: fmt1 =>
      if negb (c =? 37) then consputc c ;; cprintf_loop fmt1 args
      else match fmt1 with
      | [] => ret tt
      | d :: fmt2 =>
          if d =? 100 then
            let! va := next_int args in printint (i32 va.1) 10 1 ;; cprintf_loop fmt2 va.2
          else if (d =? 120) || (d =? 112) then
            let! va := next_int args in printint (i32 va.1) 16 0 ;; cprintf_loop fmt2 va.2
          else if d =? 115 then
            let! va := next_str args in for_each va.1 consputc ;; cprintf_loop fmt2 va.2
          else if d =? 37 then consputc 37 ;; cprintf_loop fmt2 args
          else consputc 37 ;; consputc d ;; cprintf_loop fmt2 args
      end
  end.

Definition cprintf (fmt : list Z) (args : list parg) : K unit :=
  let! co := gets k_cons in
  let locking := negb (co_locking co =? 0) in
  when locking (acquire L_cons) ;;
  cprintf_loop fmt args ;;
  when locking (release L_cons).

(** * What is printed *)

(** The text a format produces, when its arguments fit it. *)
Fixpoint cformat (fmt : list Z) (args : list parg) : option (list Z) :=
  match fmt with
  | [] => Some []
  | c :: fmt1 =>
      if negb (c =? 37) then app [c] <$> cformat fmt1 args
      else match fmt1 with
      | [] => Some []
      | d :: fmt2 =>
          if d =? 100 then
            match args with
            | A_int v :: rest => app (printint_chars digits (i32 v) 10 1) <$> cformat fmt2 rest
            | _ => None
            end
          else if (d =? 120) || (d =? 112) then
            match args with
            | A_int v :: rest => app (printint_chars digits (i32 v) 16 0) <$> cformat fmt2 rest
            | _ => None
            end
          else if d =? 115 then
            match args with
            | A_str (Some v) :: rest => app v <$> cformat fmt2 rest
            | A_str None :: rest => app (str "(null)") <$> cformat fmt2 rest
            | _ => None
            end
          else if d =? 37 then app [37] <$> cformat fmt2 args
          else app [37; d] <$> cformat fmt2 args
      end
  end.

(** ** The screen *)

Definition SCREEN : nat := 2000.

(** The cursor stays on the first 24 lines of the 25. *)
Definition cga_ok (co : console) : Prop :=
  length (co_crt co) = SCREEN /\ 0 <= co_pos co < 24 * 80.

Definition cons_ok (co : console) : Prop := co_panicked co = 0 /\ cga_ok co.

(** Where the cursor is after [c], before scrolling. *)
Definition cga_move (c pos : Z) : Z :=
  if c =? NL then pos + (80 - pos mod 80)
  else if c =? BACKSPACE then (if 0 <? pos then pos - 1 else pos) else pos + 1.

Definition cga_cell (c : Z) (crt : list Z) (pos : Z) : list Z :=
  if (c =? NL) || (c =? BACKSPACE) then crt
  else <[Z.to_nat pos := Z.lor (Z.land c 255) 1792]> crt.

(** The console after [consputc(c)]. *)
Definition cons_put (co : console) (c : Z) : console :=
  let pos := cga_move c (co_pos co) in
  let crt := cga_cell c (co_crt co) (co_pos co) in
  let '(crt, pos) := if 24 <=? pos / 80 then cga_scroll crt pos else (crt, pos) in
  set_co_pos pos (set_co_crt (<[Z.to_nat pos := Z.lor 32 1792]> crt)
    (set_co_out (co_out co ++ uart_chars c) co)).

Definition put_out (l : list Z) (s : kernel) : kernel :=
  set_k_cons (fold_left cons_put l (k_cons s)) s.

Section Output.
Implicit Types s : kernel.

Lemma cga_move_range c pos :
  0 <= pos < 24 * 80 -> 0 <= cga_move c pos <= 24 * 80.
Proof.
  intros H. unfold cga_move. destruct (c =? NL).
  - assert (pos < 80 * (pos / 80 + 1)) by (pose proof (Z.div_mod pos 80); pose proof (Z.mod_pos_bound pos 80); lia).
    assert (pos / 80 <= 23) by (apply Z.lt_succ_r, Z.div_lt_upper_bound; lia).
    pose proof (Z.div_mod pos 80). pose proof (Z.mod_pos_bound pos 80). lia.
  - destruct (c =? BACKSPACE); [destruct (Z.ltb_spec 0 pos)|]; lia.
Qed.

Lemma cga_scroll_length crt pos :
  length crt = SCREEN -> pos = 24 * 80 -> length (cga_scroll crt pos).1 = SCREEN.
Proof.
  intros H ->. unfold cga_scroll, SCREEN in *. cbn [fst].
  rewrite !length_app, length_take, length_replicate, !length_drop, !length_app, length_take, !length_drop.
  lia.
Qed.

Lemma cga_cell_length c crt pos : length (cga_cell c crt pos) = length crt.
Proof. unfold cga_cell. destruct (_ || _); [done|]. apply length_insert. Qed.

Lemma cons_put_ok co c : cons_ok co -> cons_ok (cons_put co c).
Proof.
  intros (Hp & Hl & Hr). unfold cons_put.
  pose proof (cga_move_range c _ Hr). pose proof (cga_cell_length c (co_crt co) (co_pos co)) as Hc.
  destruct (Z.leb_spec 24 (cga_move c (co_pos co) / 80)) as [E|E].
  - assert (cga_move c (co_pos co) = 24 * 80) as Em.
    { pose proof (Z.mul_div_le (cga_move c (co_pos co)) 80). lia. }
    destruct (cga_scroll _ _) as [crt pos] eqn:Es. pose proof (cga_scroll_length _ _ (eq_trans Hc Hl) Em) as Hs.
    rewrite Es in Hs. cbn [fst] in Hs. assert (pos = 1840) as -> by (rewrite Em in Es; by injection Es as <- <-).
    split; [done|]. split; cbn; [by rewrite length_insert|lia].
  - assert (cga_move c (co_pos co) < 24 * 80).
    { destruct (Z.eq_dec (cga_move c (co_pos co)) (24 * 80)) as [Em|]; [|lia]. by rewrite Em in E. }
    split; [done|]. split; cbn; [rewrite length_insert; congruence|lia].
Qed.

Lemma put_out_nil s : put_out [] s = s.
Proof. by destruct s. Qed.

Lemma put_out_app l1 l2 s : put_out l2 (put_out l1 s) = put_out (l1 ++ l2) s.
Proof. unfold put_out; simpl. by rewrite fold_left_app. Qed.

Lemma put_out_ok l s : cons_ok (k_cons s) -> cons_ok (k_cons (put_out l s)).
Proof.
  unfold put_out; simpl. revert s. induction l as [|c l IH]; intros s H; simpl; [done|].
  apply (IH (put_out [c] s)). by apply cons_put_ok.
Qed.
#[local] Hint Resolve put_out_ok : core.

Lemma consputc_eq c s : cons_ok (k_cons s) -> consputc c s = Ret tt (put_out [c] s).
Proof.
  intros (Hp & Hl & Hr). unfold consputc. rewrite bind_gets, Hp. cbn [negb Z.eqb].
  erewrite bind_run by reflexivity. unfold cgaputc. rewrite bind_gets. cbn -[Z.mul].
  assert (Hc : cons_ok (cons_put (k_cons s) c)) by (apply cons_put_ok; done).
  pose proof (cga_move_range c _ Hr) as Hm.
  rewrite (bind_run _ _ _ (cga_cell c (co_crt (k_cons s)) (co_pos (k_cons s)), cga_move c (co_pos (k_cons s)))
    (set_k_cons (set_co_out (co_out (k_cons s) ++ uart_chars c) (k_cons s)) s)).
  2:{ unfold cga_cell, cga_move. destruct (c =? NL); [done|]. destruct (c =? BACKSPACE); [done|].
      cbn [orb]. erewrite bind_run by (apply assign_eq; rewrite Hl; unfold SCREEN; lia). done. }
  destruct (Z.ltb_spec (cga_move c (co_pos (k_cons s))) 0); [lia|].
  destruct (Z.ltb_spec (25 * 80) (cga_move c (co_pos (k_cons s)))); [lia|]. cbn [orb].
  unfold put_out. cbn [fold_left]. unfold cons_put in *.
  destruct (if 24 <=? _ then _ else _) as [crt pos]. destruct Hc as (_ & Hc1 & Hc2). cbn in Hc1, Hc2.
  rewrite length_insert in Hc1. unfold SCREEN in Hc1.
  erewrite bind_run by (apply assign_eq; lia). reflexivity.
Qed.

Lemma consputs_eq l s :
  cons_ok (k_cons s) -> for_each l consputc s = Ret tt (put_out l s).
Proof.
  revert s. induction l as [|c l IH]; intros s H; simpl.
  - by rewrite put_out_nil.
  - erewrite bind_run by (apply consputc_eq; auto).
    rewrite IH by eauto. by rewrite put_out_app.
Qed.

Lemma cprintf_loop_eq fmt args out s :
  cons_ok (k_cons s) -> cformat fmt args = Some out ->
  cprintf_loop fmt args s = Ret tt (put_out out s).
Proof.
  revert args out s. induction fmt as [|c|c d fmt IH1 IH2] using list_ind2;
    intros args out s Hp Hf.
  - simpl in Hf. injection Hf as <-. by rewrite put_out_nil.
  - cbn [cprintf_loop cformat] in *. destruct (c =? 37); simpl in *; injection Hf as <-.
    + by rewrite put_out_nil.
    + erewrite bind_run by (apply consputc_eq; auto). done.
  - cbn [cprintf_loop cformat] in *. fold cprintf_loop cformat in *.
    destruct (c =? 37); cbn [negb] in *.
    + destruct (d =? 100); [|destruct ((d =? 120) || (d =? 112)); [|destruct (d =? 115);
        [|destruct (d =? 37)]]].
      * destruct args as [|[v|] args]; try done. apply fmap_Some in Hf as (out' & Hf & ->).
        unfold next_int. rewrite bind_ret. unfold printint.
        erewrite bind_run by by apply consputs_eq.
        erewrite IH1 by eauto. by rewrite put_out_app.
      * destruct args as [|[v|] args]; try done. apply fmap_Some in Hf as (out' & Hf & ->).
        unfold next_int. rewrite bind_ret. unfold printint.
        erewrite bind_run by by apply consputs_eq. erewrite IH1 by eauto. by rewrite put_out_app.
      * destruct args as [|[|[v|]] args]; try done; apply fmap_Some in Hf as (out' & Hf & ->);
          unfold next_str; rewrite bind_ret;
          (erewrite bind_run by by apply consputs_eq); (erewrite IH1 by eauto); by rewrite put_out_app.
      * apply fmap_Some in Hf as (out' & Hf & ->).
        erewrite bind_run by (apply consputc_eq; auto). erewrite IH1 by eauto. by rewrite put_out_app.
      * apply fmap_Some in Hf as (out' & Hf & ->).
        erewrite bind_run by (apply consputc_eq; auto). erewrite bind_run by (apply consputc_eq; auto).
        erewrite IH1 by eauto. by rewrite !put_out_app.
    + apply fmap_Some in Hf as (out' & Hf & ->).
      erewrite bind_run by (apply consputc_eq; auto). erewrite (IH2 args out') by eauto.
      by rewrite put_out_app.
Qed.

(** [cprintf] prints the formatted text and changes nothing else, whether or
    not the console is locking. *)
Lemma cprintf_eq fmt args out s i c :
  on_cpu (k_hw s) i c -> lock_free (k_hw s) L_cons ->
  cons_ok (k_cons s) -> cformat fmt args = Some out ->
  cprintf fmt args s = Ret tt (put_out out s).
Proof.
  intros Hc Hl Hp Hf. unfold cprintf. rewrite bind_gets. cbv zeta.
  destruct (co_locking (k_cons s) =? 0); simpl.
  - rewrite bind_ret. erewrite bind_run by by apply cprintf_loop_eq. done.
  - erewrite bind_run by by apply acquire_eq.
    erewrite bind_run by by apply cprintf_loop_eq.
    erewrite release_eq by done. by destruct s.
Qed.
End Output.

(** * Printed numbers read back *)

(** Reading a numeral: the value of a digit is its position in [tab]. *)
Fixpoint find_pos (c : Z) (l : list Z) (n : Z) : Z :=
  match l with
  | [] => -1
  | d :: l' => if d =? c then n else find_pos c l' (n + 1)
  end.
Definition digit_val (tab : list Z) (c : Z) : Z := find_pos c tab 0.
Definition read_nat (tab : list Z) (base : Z) (l : list Z) : Z :=
  fold_left (fun v c => v * base + digit_val tab c) l 0.
Definition read_int (tab : list Z) (base : Z) (l : list Z) : Z :=
  match l with
  | 45 :: l' => - read_nat tab base l'
  | _ => read_nat tab base l
  end.

(** The hexadecimal digit tables of [console.c] and [printf.c]: position and
    character determine each other, and no digit is a minus sign. *)
Definition good_tab (tab : list Z) (base : Z) : bool :=
  forallb (fun k => let c := nth k tab 0 in (digit_val tab c =? Z.of_nat k) && negb (c =? 45))
          (seq 0 (Z.to_nat base)).

Section Numerals.
Variables (tab : list Z) (base : Z).
Hypothesis Hbase : 2 <= base.
Hypothesis Htab : good_tab tab base = true.

Lemma tab_digit d :
  0 <= d < base -> digit_val tab (nth (Z.to_nat d) tab 0) = d /\ nth (Z.to_nat d) tab 0 <> 45.
Proof using Hbase Htab.
  intros Hd. unfold good_tab in Htab. rewrite forallb_forall in Htab.
  specialize (Htab (Z.to_nat d)). rewrite andb_true_iff, negb_true_iff, Z.eqb_eq, Z.eqb_neq in Htab.
  rewrite Z2Nat.id in Htab by lia. apply Htab. apply in_seq. lia.
Qed.

Lemma read_nat_rev l1 c : read_nat tab base (l1 ++ [c]) = read_nat tab base l1 * base + digit_val tab c.
Proof. unfold read_nat. by rewrite fold_left_app. Qed.

Lemma print_digits_read fuel x :
  0 <= x < 2 ^ Z.of_nat fuel -> (0 < fuel)%nat ->
  read_nat tab base (rev (print_digits tab fuel x base)) = x.
Proof using Hbase Htab.
  revert x. induction fuel as [|f IH]; intros x Hx Hf; [lia|]. cbn [print_digits rev].
  rewrite read_nat_rev.
  destruct (tab_digit (x mod base)) as [-> _]; [apply Z.mod_pos_bound; lia|].
  pose proof (Z.div_mod x base ltac:(lia)).
  destruct (Z.eqb_spec (x / base) 0) as [E|E].
  - simpl. unfold read_nat. simpl. lia.
  - rewrite IH; [lia| |].
    + rewrite Nat2Z.inj_succ, Z.pow_succ_r in Hx by lia.
      split; [apply Z.div_pos; lia|]. apply Z.div_lt_upper_bound; [lia|]. nia.
    + destruct f; [|lia]. exfalso. apply E. apply Z.div_small.
      change (2 ^ Z.of_nat 1) with 2 in Hx. lia.
Qed.

Lemma print_digits_head fuel x c l :
  0 <= x -> rev (print_digits tab fuel x base) = c :: l -> c <> 45.
Proof using Hbase Htab.
  intros Hx E. assert (Hin : c ∈ print_digits tab fuel x base).
  { apply elem_of_reverse. unfold reverse. rewrite <- rev_alt, E. set_solver. }
  clear E. revert x Hx Hin. induction fuel as [|f IH]; intros x Hx Hin; simpl in Hin; [set_solver|].
  apply elem_of_cons in Hin as [->|Hin].
  - apply tab_digit. apply Z.mod_pos_bound. lia.
  - destruct (x / base =? 0); [set_solver|]. eapply IH; [|exact Hin]. apply Z.div_pos; lia.
Qed.

Lemma print_digits_nonempty fuel x : (0 < fuel)%nat -> rev (print_digits tab fuel x base) <> [].
Proof.
  destruct fuel; [lia|]. intros _ E. cbn [print_digits rev] in E.
  by apply app_eq_nil in E as [_ ?].
Qed.

Lemma read_int_nat c l : c <> 45 -> read_int tab base (c :: l) = read_nat tab base (c :: l).
Proof. unfold read_int. intros. destruct c as [|p|]; auto. by do 6 (destruct p; auto). Qed.

(** A number printed with sign reads back as itself, over the whole [int]
    range, the most negative one included. *)
Lemma printint_signed_read xx :
  - 2 ^ 31 <= xx < 2 ^ 31 -> read_int tab base (printint_chars tab xx base 1) = xx.
Proof using Hbase Htab.
  intros H. unfold printint_chars. remember 32%nat as fuel eqn:Ef.
  assert (Hr : forall x, 0 <= x < 2 ^ 32 -> read_nat tab base (rev (print_digits tab fuel x base)) = x).
  { intros x Hx. apply print_digits_read; [|lia]. by subst. }
  destruct (Z.ltb_spec xx 0); cbn [Z.eqb negb andb app].
  - rewrite u32_small by lia. cbn [read_int]. rewrite Hr by lia. lia.
  - rewrite u32_small by lia.
    destruct (rev (print_digits tab fuel xx base)) as [|c l] eqn:E.
    + by apply print_digits_nonempty in E; [|lia].
    + rewrite read_int_nat by (eapply print_digits_head; [|exact E]; lia).
      rewrite <- E. apply Hr. lia.
Qed.

(** Printed without sign, it reads back as the unsigned 32-bit value. *)
Lemma printint_unsigned_read xx :
  read_nat tab base (printint_chars tab xx base 0) = u32 xx.
Proof using Hbase Htab.
  unfold printint_chars. cbn [Z.eqb negb andb app].
  apply print_digits_read; [apply u32_range|lia].
Qed.
End Numerals.

Lemma digits_good_10 : good_tab digits 10 = true.
Proof. reflexivity. Qed.
Lemma digits_good_16 : good_tab digits 16 = true.
Proof. reflexivity. Qed.
