(* ===== verification/Mmu.v ===== *)
(** Descriptors of the x86 segmentation hardware ([mmu.h]): [struct segdesc], [struct gatedesc], [struct taskstate],
    the macros that fill them, the 64-bit words they are in memory, and what the processor reads in these words. *)

From S2P Require Import Prelude Bytes Params.
From stdpp Require Import base list.
From Stdlib Require Import ZArith Lia.
Local Open Scope Z_scope.

(** * Bit fields *)

(** The fields of a C bit-field structure, the lowest first: a width and a value, cut to the width. *)
Definition bitfields : Type := list (Z * Z).

Fixpoint pack (l : bitfields) : Z :=
  match l with
  | [] => 0
  | (w, x) :: l => x mod 2 ^ w + 2 ^ w * pack l
  end.

(** Bits [lo .. lo + n - 1] of a word. *)
Definition bits (x lo n : Z) : Z := (x / 2 ^ lo) mod 2 ^ n.

(** * [mmu.h] *)

Record segdesc : Type := mkSegdesc {
  lim_15_0 : Z;
  base_15_0 : Z;
  base_23_16 : Z;
  sd_type : Z;
  sd_s : Z;
  sd_dpl : Z;
  sd_p : Z;
  lim_19_16 : Z;
  sd_avl : Z;
  sd_rsv1 : Z;
  sd_db : Z;
  sd_g : Z;
  base_31_24 : Z
}.

Definition segdesc_word (d : segdesc) : Z :=
  pack [(16, lim_15_0 d); (16, base_15_0 d); (8, base_23_16 d); (4, sd_type d); (1, sd_s d); (2, sd_dpl d); (1, sd_p d);
        (4, lim_19_16 d); (1, sd_avl d); (1, sd_rsv1 d); (1, sd_db d); (1, sd_g d); (8, base_31_24 d)].

Definition SEG (type base lim dpl : Z) : segdesc :=
  mkSegdesc (Z.land (Z.shiftr lim 12) 65535) (Z.land (u32 base) 65535)
    (Z.land (Z.shiftr (u32 base) 16) 255) type 1 dpl 1
    (Z.shiftr (u32 lim) 28) 0 0 1 1 (Z.shiftr (u32 base) 24).
Definition SEG16 (type base lim dpl : Z) : segdesc :=
  mkSegdesc (Z.land lim 65535) (Z.land (u32 base) 65535)
    (Z.land (Z.shiftr (u32 base) 16) 255) type 1 dpl 1
    (Z.shiftr (u32 lim) 16) 0 0 1 0 (Z.shiftr (u32 base) 24).

Definition set_sd_s (x : Z) (d : segdesc) : segdesc :=
  mkSegdesc (lim_15_0 d) (base_15_0 d) (base_23_16 d) (sd_type d) x (sd_dpl d) (sd_p d) (lim_19_16 d) (sd_avl d) (sd_rsv1 d)
    (sd_db d) (sd_g d) (base_31_24 d).
Definition segdesc0 : segdesc := mkSegdesc 0 0 0 0 0 0 0 0 0 0 0 0 0.

Definition NSEGS : Z := 6.
Definition PTE_PS : Z := 128.
Definition STA_X : Z := 8.
Definition STA_W : Z := 2.
Definition STA_R : Z := 2.
Definition STS_T32A : Z := 9.
Definition STS_IG32 : Z := 14.
Definition STS_TG32 : Z := 15.

Record gatedesc : Type := mkGatedesc {
  off_15_0 : Z;
  gd_cs : Z;
  gd_args : Z;
  gd_rsv1 : Z;
  gd_type : Z;
  gd_s : Z;
  gd_dpl : Z;
  gd_p : Z;
  off_31_16 : Z
}.

Definition gatedesc_word (g : gatedesc) : Z :=
  pack [(16, off_15_0 g); (16, gd_cs g); (5, gd_args g); (3, gd_rsv1 g); (4, gd_type g); (1, gd_s g); (2, gd_dpl g); (1, gd_p g);
        (16, off_31_16 g)].

Definition SETGATE (istrap : bool) (sel off d : Z) : gatedesc :=
  mkGatedesc (Z.land (u32 off) 65535) sel 0 0 (if istrap then STS_TG32 else STS_IG32) 0 d 1 (Z.shiftr (u32 off) 16).
Definition gatedesc0 : gatedesc := mkGatedesc 0 0 0 0 0 0 0 0 0.

(** [struct taskstate]; its padding is left out. *)
Record taskstate : Type := mkTaskstate {
  ts_link : Z;
  ts_esp0 : Z;
  ts_ss0 : Z;
  ts_esp1 : Z;
  ts_ss1 : Z;
  ts_esp2 : Z;
  ts_ss2 : Z;
  ts_cr3 : Z;
  ts_eip : Z;
  ts_eflags : Z;
  ts_eax : Z;
  ts_ecx : Z;
  ts_edx : Z;
  ts_ebx : Z;
  ts_esp : Z;
  ts_ebp : Z;
  ts_esi : Z;
  ts_edi : Z;
  ts_es : Z;
  ts_cs : Z;
  ts_ss : Z;
  ts_ds : Z;
  ts_fs : Z;
  ts_gs : Z;
  ts_ldt : Z;
  ts_t : Z;
  ts_iomb : Z
}.
Definition TASKSTATE_SIZE : Z := 104.
Definition taskstate0 : taskstate := mkTaskstate 0 0 0 0 0 0 0 0 0 0 0 0 0 0 0 0 0 0 0 0 0 0 0 0 0 0 0.

(** The fields that [switchuvm] sets. *)
Definition set_ts_ring0 (esp0 ss0 iomb : Z) (t : taskstate) : taskstate :=
  mkTaskstate (ts_link t) esp0 ss0 (ts_esp1 t) (ts_ss1 t) (ts_esp2 t) (ts_ss2 t) (ts_cr3 t) (ts_eip t) (ts_eflags t) (ts_eax t)
    (ts_ecx t) (ts_edx t) (ts_ebx t) (ts_esp t) (ts_ebp t) (ts_esi t) (ts_edi t) (ts_es t) (ts_cs t) (ts_ss t) (ts_ds t) (ts_fs t)
    (ts_gs t) (ts_ldt t) (ts_t t) iomb.
Definition set_ts_ss0 (x : Z) (t : taskstate) : taskstate := set_ts_ring0 (ts_esp0 t) x (ts_iomb t) t.
Definition set_ts_esp0 (x : Z) (t : taskstate) : taskstate := set_ts_ring0 x (ts_ss0 t) (ts_iomb t) t.
Definition set_ts_iomb (x : Z) (t : taskstate) : taskstate := set_ts_ring0 (ts_esp0 t) (ts_ss0 t) x t.

(** The tables of the kernel, the [gdt] and [ts] of each [struct cpu] and the [idt], and the registers of the running
    processor that refer to them: the processor whose [gdt] is loaded and its limit, the limit of the loaded [idt], the
    selector of the task register. *)
Record tables : Type := mkTables {
  t_gdt : list (list segdesc);
  t_ts : list taskstate;
  t_idt : list gatedesc;
  t_gdtr : option (nat * Z);
  t_idtr : option Z;
  t_tr : Z
}.
Definition set_t_gdt x (t : tables) : tables := mkTables x (t_ts t) (t_idt t) (t_gdtr t) (t_idtr t) (t_tr t).
Definition set_t_ts x (t : tables) : tables := mkTables (t_gdt t) x (t_idt t) (t_gdtr t) (t_idtr t) (t_tr t).
Definition set_t_idt x (t : tables) : tables := mkTables (t_gdt t) (t_ts t) x (t_gdtr t) (t_idtr t) (t_tr t).
Definition set_t_gdtr x (t : tables) : tables := mkTables (t_gdt t) (t_ts t) (t_idt t) x (t_idtr t) (t_tr t).
Definition set_t_idtr x (t : tables) : tables := mkTables (t_gdt t) (t_ts t) (t_idt t) (t_gdtr t) x (t_tr t).
Definition set_t_tr x (t : tables) : tables := mkTables (t_gdt t) (t_ts t) (t_idt t) (t_gdtr t) (t_idtr t) x.
Definition tables0 : tables := mkTables (replicate 8 (replicate 6 segdesc0)) (replicate 8 taskstate0) (replicate 256 gatedesc0) None None 0.

(** * What the processor reads *)

(** A segment descriptor: where the segment is, its last byte, its type, whether it is an application segment, the
    privilege it needs, whether it is present. With the granularity bit the limit counts pages. *)
Record segment : Type := mkSeg { x_base : Z; x_limit : Z; x_type : Z; x_app : bool; x_dpl : Z; x_present : bool }.
Definition x_segment (w : Z) : segment :=
  let lim := bits w 0 16 + 2 ^ 16 * bits w 48 4 in
  mkSeg (bits w 16 24 + 2 ^ 24 * bits w 56 8) (if bits w 55 1 =? 1 then 4096 * lim + 4095 else lim) (bits w 40 4)
    (bits w 44 1 =? 1) (bits w 45 2) (bits w 47 1 =? 1).

Record gate : Type := mkGate { x_off : Z; x_sel : Z; x_kind : Z; x_sys : bool; x_gdpl : Z; x_gpresent : bool }.
Definition x_gate (w : Z) : gate :=
  mkGate (bits w 0 16 + 2 ^ 16 * bits w 48 16) (bits w 16 16) (bits w 40 4) (bits w 44 1 =? 0) (bits w 45 2) (bits w 47 1 =? 1).

(** * Lemmas *)

(** Reading below, across and inside the first field. *)
Lemma bits_skip w x l lo n : 0 <= w <= lo -> bits (pack ((w, x) :: l)) lo n = bits (pack l) (lo - w) n.
Proof.
  intros Hw. unfold bits. cbn [pack]. f_equal. replace (2 ^ lo) with (2 ^ w * 2 ^ (lo - w)) by (rewrite <- Z.pow_add_r by lia; f_equal; lia).
  rewrite <- Z.div_div by lia. f_equal. pose proof (Z.mod_pos_bound x (2 ^ w) ltac:(lia)).
  rewrite Z.mul_comm, Z.div_add by lia. rewrite Z.div_small by lia. lia.
Qed.

Lemma bits_first w x l lo n : lo = 0 -> 0 <= w <= n -> bits (pack ((w, x) :: l)) lo n = x mod 2 ^ w + 2 ^ w * bits (pack l) 0 (n - w).
Proof.
  intros -> Hw. unfold bits. rewrite !Z.div_1_r. cbn [pack]. pose proof (Z.mod_pos_bound x (2 ^ w) ltac:(lia)) as Hx.
  replace (2 ^ n) with (2 ^ w * 2 ^ (n - w)) by (rewrite <- Z.pow_add_r by lia; f_equal; lia).
  rewrite Z.rem_mul_r by lia. rewrite (Z.mul_comm (2 ^ w) (pack l)), Z.mod_add, Z.mod_small by lia.
  rewrite Z.div_add, (Z.div_small (x mod _)) by lia. done.
Qed.

Lemma bits_none x lo n : n = 0 -> bits x lo n = 0.
Proof. intros ->. apply Z.mod_1_r. Qed.

Ltac read_bits := repeat first [rewrite bits_skip by lia | rewrite bits_first by lia | rewrite bits_none by lia].

Lemma segdesc_read d : x_segment (segdesc_word d) =
  let lim := lim_15_0 d mod 2 ^ 16 + 2 ^ 16 * (lim_19_16 d mod 2 ^ 4) in
  mkSeg (base_15_0 d mod 2 ^ 16 + 2 ^ 16 * (base_23_16 d mod 2 ^ 8) + 2 ^ 24 * (base_31_24 d mod 2 ^ 8))
    (if sd_g d mod 2 =? 1 then 4096 * lim + 4095 else lim) (sd_type d mod 2 ^ 4) (sd_s d mod 2 =? 1) (sd_dpl d mod 2 ^ 2) (sd_p d mod 2 =? 1).
Proof. unfold x_segment, segdesc_word. read_bits. rewrite !Z.mul_0_r, !Z.add_0_r. done. Qed.

Lemma gatedesc_read g : x_gate (gatedesc_word g) =
  mkGate (off_15_0 g mod 2 ^ 16 + 2 ^ 16 * (off_31_16 g mod 2 ^ 16)) (gd_cs g mod 2 ^ 16) (gd_type g mod 2 ^ 4) (gd_s g mod 2 =? 0)
    (gd_dpl g mod 2 ^ 2) (gd_p g mod 2 =? 1).
Proof. unfold x_gate, gatedesc_word. read_bits. rewrite !Z.mul_0_r, !Z.add_0_r. done. Qed.

Lemma base_parts b : 0 <= b < 2 ^ 32 ->
  (Z.land (u32 b) 65535) mod 2 ^ 16 + 2 ^ 16 * (Z.land (Z.shiftr (u32 b) 16) 255 mod 2 ^ 8) + 2 ^ 24 * (Z.shiftr (u32 b) 24 mod 2 ^ 8) = b.
Proof.
  intros Hb. rewrite u32_small by done. change 65535 with (Z.ones 16). change 255 with (Z.ones 8). rewrite !Z.land_ones, !Z.shiftr_div_pow2 by lia.
  rewrite !Z.mod_mod by lia. rewrite (Z.mod_small (b / 2 ^ 24)) by (split; [apply Z.div_pos; lia|apply Z.div_lt_upper_bound; lia]).
  pose proof (Z.div_mod b (2 ^ 16) ltac:(lia)). pose proof (Z.div_mod (b / 2 ^ 16) (2 ^ 8) ltac:(lia)).
  rewrite Z.div_div in * by lia. change (2 ^ 16 * 2 ^ 8) with (2 ^ 24) in *. lia.
Qed.

(** The processor reads in [SEG] the base, the limit up to the end of its page, the type and the privilege. *)
Lemma SEG_read type base lim dpl : 0 <= type < 16 -> 0 <= base < 2 ^ 32 -> 0 <= lim < 2 ^ 32 -> 0 <= dpl < 4 ->
  x_segment (segdesc_word (SEG type base lim dpl)) = mkSeg base (4096 * (lim / 4096) + 4095) type true dpl true.
Proof.
  intros Ht Hb Hl Hd. rewrite segdesc_read. unfold SEG. cbn [lim_15_0 base_15_0 base_23_16 sd_type sd_s sd_dpl sd_p lim_19_16 sd_g base_31_24].
  rewrite base_parts by done. rewrite (Z.mod_small type), (Z.mod_small dpl) by lia. change (1 mod 2 =? 1) with true. cbv zeta iota. f_equal.
  rewrite u32_small by done. change 65535 with (Z.ones 16). rewrite Z.land_ones, !Z.shiftr_div_pow2, Z.mod_mod by lia.
  rewrite (Z.mod_small (lim / 2 ^ 28)) by (split; [apply Z.div_pos; lia|apply Z.div_lt_upper_bound; lia]).
  pose proof (Z.div_mod (lim / 2 ^ 12) (2 ^ 16) ltac:(lia)). rewrite Z.div_div in * by lia. change (2 ^ 12 * 2 ^ 16) with (2 ^ 28) in *.
  change 4096 with (2 ^ 12). lia.
Qed.

Lemma SEG16_read type base lim dpl : 0 <= type < 16 -> 0 <= base < 2 ^ 32 -> 0 <= lim < 2 ^ 20 -> 0 <= dpl < 4 ->
  x_segment (segdesc_word (SEG16 type base lim dpl)) = mkSeg base lim type true dpl true.
Proof.
  intros Ht Hb Hl Hd. rewrite segdesc_read. unfold SEG16. cbn [lim_15_0 base_15_0 base_23_16 sd_type sd_s sd_dpl sd_p lim_19_16 sd_g base_31_24].
  rewrite base_parts by done. rewrite (Z.mod_small type), (Z.mod_small dpl) by lia. change (0 mod 2 =? 1) with false. cbv zeta iota. f_equal.
  rewrite u32_small by lia. change 65535 with (Z.ones 16). rewrite Z.land_ones, !Z.shiftr_div_pow2, Z.mod_mod by lia.
  rewrite (Z.mod_small (lim / 2 ^ 16)) by (split; [apply Z.div_pos; lia|apply Z.div_lt_upper_bound; lia]).
  pose proof (Z.div_mod lim (2 ^ 16) ltac:(lia)). lia.
Qed.

Lemma SETGATE_read istrap sel off d : 0 <= sel < 2 ^ 16 -> 0 <= off < 2 ^ 32 -> 0 <= d < 4 ->
  x_gate (gatedesc_word (SETGATE istrap sel off d)) = mkGate off sel (if istrap then STS_TG32 else STS_IG32) true d true.
Proof.
  intros Hs Ho Hd. rewrite gatedesc_read. unfold SETGATE. cbn [off_15_0 gd_cs gd_type gd_s gd_dpl gd_p off_31_16].
  rewrite (Z.mod_small sel), (Z.mod_small d) by lia. f_equal; [|by destruct istrap].
  rewrite u32_small by done. change 65535 with (Z.ones 16). rewrite Z.land_ones, Z.shiftr_div_pow2, Z.mod_mod by lia.
  rewrite (Z.mod_small (off / 2 ^ 16)) by (split; [apply Z.div_pos; lia|apply Z.div_lt_upper_bound; lia]).
  pose proof (Z.div_mod off (2 ^ 16) ltac:(lia)). lia.
Qed.
