(* ===== verification/Kalloc.v ===== *)
(** [kalloc.c]: the physical page allocator. The free list is threaded through
    the free pages: the first word of a free page is the address of the next. *)

From S2P Require Import Prelude Bytes KString Params State Spinlock.
From stdpp Require Import base list gmap strings.
From Stdlib Require Import ZArith Lia.
Local Open Scope Z_scope.
Local Open Scope km_scope.

Definition kfree (v : Z) : K unit :=
  let! s := get in
  if negb (v mod PGSIZE =? 0) || (v <? k_end s) || (PHYSTOP <=? V2P v) then panic "kfree" else
  updmem (fun m => memset m v 1 PGSIZE) ;;
  when (negb (k_use_lock s =? 0)) (acquire L_kmem) ;;
  let! fl := gets k_freelist in
  updmem (fun m => st32 m v fl) ;;
  modify (set_k_freelist v) ;;
  when (negb (k_use_lock s =? 0)) (release L_kmem).

Definition kalloc : K Z :=
  let! s := get in
  when (negb (k_use_lock s =? 0)) (acquire L_kmem) ;;
  let! r := gets k_freelist in
  when (negb (r =? 0)) (modify (fun s => set_k_freelist (ld32 (k_mem s) r) s)) ;;
  when (negb (k_use_lock s =? 0)) (release L_kmem) ;;
  ret r.

(** The loop of [freerange]; a page is 4096 bytes, so the loop runs at most
    [(vend - p) / PGSIZE] times and the fuel below is one more. *)
Fixpoint freerange_loop (fuel : nat) (p vend : Z) : K unit :=
  match fuel with
  | O => nofuel
  | S f => if p + PGSIZE <=? vend then kfree p ;; freerange_loop f (p + PGSIZE) vend
           else ret tt
  end.

Definition freerange (vstart vend : Z) : K unit :=
  let p := PGROUNDUP vstart in
  freerange_loop (S (Z.to_nat ((vend - p) / PGSIZE))) p vend.

Definition kinit1 (vstart vend : Z) : K unit :=
  initlock L_kmem ;;
  modify (set_k_use_lock 0) ;;
  freerange vstart vend.

Definition kinit2 (vstart vend : Z) : K unit :=
  freerange vstart vend ;;
  modify (set_k_use_lock 1).

(** * The free list as a list of pages *)

(** [kfree] accepts [v]. *)
Definition page_ok (kend v : Z) : Prop :=
  v mod PGSIZE = 0 /\ kend <= v /\ V2P v < PHYSTOP /\ 0 < v < 2 ^ 32.

Fixpoint freelist_at (m : mem) (p : Z) (l : list Z) : Prop :=
  match l with
  | [] => p = 0
  | a :: l' => p = a /\ freelist_at m (ld32 m a) l'
  end.

(** The allocator's invariant: the list that [freelist] heads is [l], a list of
    distinct valid pages. *)
Record kmem_ok (s : kernel) (l : list Z) : Prop := {
  km_list : freelist_at (k_mem s) (k_freelist s) l;
  km_nodup : NoDup l;
  km_pages : Forall (page_ok (k_end s)) l
}.

(** The kernel does not use the allocator's lock yet, or can take it. *)
Definition kmem_lockable (s : kernel) (i : nat) (c : cpu) : Prop :=
  k_use_lock s = 0 \/ on_cpu (k_hw s) i c /\ lock_free (k_hw s) L_kmem.

Section KallocFacts.
Implicit Types (s : kernel) (l : list Z).

Lemma page_disjoint a b :
  a mod PGSIZE = 0 -> b mod PGSIZE = 0 -> a <> b -> a + PGSIZE <= b \/ b + PGSIZE <= a.
Proof.
  unfold PGSIZE. intros H1 H2 Hne.
  pose proof (Z.div_mod a 4096 ltac:(lia)). pose proof (Z.div_mod b 4096 ltac:(lia)). nia.
Qed.

(** The list depends only on the first word of each of its pages. *)
Lemma freelist_frame m m' p l :
  (forall a x, a ∈ l -> a <= x < a + 4 -> m' x = m x) ->
  freelist_at m p l -> freelist_at m' p l.
Proof.
  revert p. induction l as [|a l IH]; intros p H; simpl; [done|].
  intros [-> Hl]. split; [done|].
  rewrite (ld32_out m' m) by (intros; apply (H a); set_solver).
  apply IH; [|done]. intros b x Hb. apply H. set_solver.
Qed.

Lemma kmem_ok_frame s s' l :
  k_freelist s' = k_freelist s -> k_end s' = k_end s ->
  (forall a x, a ∈ l -> a <= x < a + 4 -> k_mem s' x = k_mem s x) ->
  kmem_ok s l -> kmem_ok s' l.
Proof.
  intros E1 E2 E3 []. constructor; [|done|by rewrite E2].
  rewrite E1. by eapply freelist_frame.
Qed.

Lemma kalloc_some s l a i c :
  kmem_lockable s i c -> kmem_ok s (a :: l) ->
  kalloc s = Ret a (set_k_freelist (ld32 (k_mem s) a) s).
Proof.
  intros Hlk [[E Hl] _ Hp]. unfold kalloc.
  apply Forall_cons in Hp as [(_ & _ & _ & Ha) _].
  rewrite bind_get.
  destruct (Z.eqb_spec (k_use_lock s) 0) as [Eu|Eu]; cbn [negb when]; [|destruct Hlk as [?|[Hc Hf]]; [done|]].
  - rewrite bind_ret, bind_gets, E. destruct (Z.eqb_spec a 0); [lia|]. done.
  - erewrite bind_run by by apply acquire_eq. rewrite bind_gets. simpl. rewrite E.
    destruct (Z.eqb_spec a 0); [lia|]. cbn [negb when]. rewrite bind_modify.
    erewrite bind_run by by apply (release_eq _ (k_hw s) i c).
    by destruct s.
Qed.

Lemma kalloc_none s i c :
  kmem_lockable s i c -> kmem_ok s [] -> kalloc s = Ret 0 s.
Proof.
  intros Hlk [E _ _]. simpl in E. unfold kalloc.
  rewrite bind_get.
  destruct (Z.eqb_spec (k_use_lock s) 0) as [Eu|Eu]; cbn [negb when]; [|destruct Hlk as [?|[Hc Hf]]; [done|]].
  - rewrite bind_ret, bind_gets, E. done.
  - erewrite bind_run by by apply acquire_eq. rewrite bind_gets. simpl. rewrite E. simpl.
    rewrite bind_ret.
    erewrite bind_run by by apply (release_eq _ (k_hw s) i c).
    by destruct s.
Qed.

(** Taking the head page leaves the rest of the list. *)
Lemma kmem_ok_pop s l a :
  kmem_ok s (a :: l) -> kmem_ok (set_k_freelist (ld32 (k_mem s) a) s) l.
Proof. intros [[E Hl] Hn Hp]. constructor; simpl; [done|by inversion Hn|by inversion Hp]. Qed.

Definition kfree_mem (v : Z) (s : kernel) : mem :=
  st32 (memset (k_mem s) v 1 PGSIZE) v (k_freelist s).

Lemma kfree_eq s v i c :
  kmem_lockable s i c -> page_ok (k_end s) v ->
  kfree v s = Ret tt (set_k_freelist v (set_k_mem (kfree_mem v s) s)).
Proof.
  intros Hlk (H1 & H2 & H3 & H4). unfold kfree.
  rewrite bind_get.
  rewrite H1. destruct (Z.ltb_spec v (k_end s)); [lia|].
  destruct (Z.leb_spec PHYSTOP (V2P v)); [lia|]. cbn [Z.eqb negb orb].
  unfold updmem. rewrite bind_modify.
  destruct (Z.eqb_spec (k_use_lock s) 0) as [Eu|Eu]; cbn [negb when]; [|destruct Hlk as [?|[Hc Hf]]; [done|]].
  - rewrite bind_ret, bind_gets, !bind_modify. done.
  - set (s1 := set_k_mem _ s).
    erewrite bind_run by by apply (acquire_eq s1 i c). rewrite bind_gets, !bind_modify.
    erewrite (release_eq _ (k_hw s) i c) by done. by destruct s.
Qed.

Lemma kfree_bad s v :
  v mod PGSIZE <> 0 \/ v < k_end s \/ PHYSTOP <= V2P v -> kfree v s = Panic "kfree" s.
Proof.
  intros H. unfold kfree. rewrite bind_get.
  destruct (Z.eqb_spec (v mod PGSIZE) 0), (Z.ltb_spec v (k_end s)),
    (Z.leb_spec PHYSTOP (V2P v)); simpl; auto; lia.
Qed.

Lemma kfree_mem_out s v x : x < v \/ v + PGSIZE <= x -> kfree_mem v s x = k_mem s x.
Proof.
  intros H. unfold kfree_mem. rewrite st32_out by (unfold PGSIZE in *; lia).
  rewrite memset_spec by (unfold PGSIZE; lia).
  destruct (Z.leb_spec v x), (Z.ltb_spec x (v + PGSIZE)); simpl; auto; lia.
Qed.

Lemma kmem_ok_push s l v :
  page_ok (k_end s) v -> v ∉ l -> kmem_ok s l ->
  kmem_ok (set_k_freelist v (set_k_mem (kfree_mem v s) s)) (v :: l).
Proof.
  intros Hv Hn [Hl Hd Hp]. constructor; simpl.
  - split; [done|]. unfold kfree_mem. rewrite ld32_st32_eq. rewrite u32_small.
    + eapply freelist_frame; [|exact Hl]. intros a x Ha Hx.
      apply (kfree_mem_out s v x).
      rewrite Forall_forall in Hp. specialize (Hp a Ha).
      destruct (page_disjoint a v); [apply Hp|apply Hv|by intros ->| |];
        unfold PGSIZE in *; lia.
    + destruct l as [|a l]; simpl in Hl; [rewrite Hl; lia|].
      destruct Hl as [-> _]. apply Forall_cons in Hp as [(_ & _ & _ & ?) _]. lia.
  - by constructor.
  - by constructor.
Qed.

(** The [n] pages that start at [p]. *)
Definition pages (p : Z) (n : nat) : list Z := map (fun k => p + Z.of_nat k * PGSIZE) (seq 0 n).

Lemma pages_S p n : pages p (S n) = p :: pages (p + PGSIZE) n.
Proof.
  unfold pages. cbn [seq map]. f_equal; [lia|]. rewrite <- seq_shift, map_map.
  apply map_ext. intros. lia.
Qed.

Lemma elem_of_pages p n a :
  a ∈ pages p n <-> exists k, (k < n)%nat /\ a = p + Z.of_nat k * PGSIZE.
Proof.
  unfold pages. rewrite list_elem_of_In, in_map_iff. setoid_rewrite in_seq.
  split; intros (k & H); exists k; naive_solver lia.
Qed.

(** [s'] is [s] but for the allocator's own data. *)
Definition kmem_step (s s' : kernel) : Prop :=
  exists fl m, s' = set_k_freelist fl (set_k_mem m s).

Lemma freerange_loop_ok n s p vend l i c :
  vend - p < (Z.of_nat n + 1) * PGSIZE -> Z.of_nat n * PGSIZE <= vend - p ->
  kmem_lockable s i c -> kmem_ok s l ->
  Forall (fun v => page_ok (k_end s) v /\ v ∉ l) (pages p n) ->
  exists s', freerange_loop (S n) p vend s = Ret tt s' /\
    kmem_ok s' (rev (pages p n) ++ l) /\ kmem_step s s' /\
    (forall x, x < p \/ p + Z.of_nat n * PGSIZE <= x -> k_mem s' x = k_mem s x).
Proof.
  revert s p l. induction n as [|n IH]; intros s p l Hhi Hlo Hk Hok Hpg; unfold PGSIZE in Hhi, Hlo.
  - cbn [freerange_loop]. unfold PGSIZE at 1. destruct (Z.leb_spec (p + 4096) vend); [lia|].
    exists s. split_and!; [done|done| |done].
    exists (k_freelist s), (k_mem s). by destruct s.
  - cbn [freerange_loop]. unfold PGSIZE at 1. destruct (Z.leb_spec (p + 4096) vend); [|lia].
    rewrite pages_S in Hpg. apply Forall_cons in Hpg as [[Hv Hn] Hpg].
    erewrite bind_run by by eapply kfree_eq.
    set (s1 := set_k_freelist _ _).
    destruct (IH s1 (p + PGSIZE) (p :: l)) as (s' & E & Ok & (fl & m & Es) & Fr).
    + unfold PGSIZE. lia.
    + unfold PGSIZE. lia.
    + done.
    + by apply kmem_ok_push.
    + rewrite Forall_forall in Hpg |- *. intros v Hin. destruct (Hpg v Hin) as [Hok' Hnl].
      split; [done|]. apply not_elem_of_cons. split; [|done].
      apply elem_of_pages in Hin as (k & _ & ->). unfold PGSIZE. lia.
    + exists s'. split_and!; [exact E| | |].
      * rewrite pages_S. cbn [rev]. by rewrite <- app_assoc.
      * exists fl, m. rewrite Es. done.
      * intros x Hx. rewrite Fr by (unfold PGSIZE in *; lia). unfold s1. simpl.
        apply kfree_mem_out. unfold PGSIZE in *. lia.
Qed.

Lemma freerange_ok s l vstart vend i c :
  let p := PGROUNDUP vstart in
  let n := Z.to_nat ((vend - p) / PGSIZE) in
  p <= vend -> kmem_lockable s i c -> kmem_ok s l ->
  Forall (fun v => page_ok (k_end s) v /\ v ∉ l) (pages p n) ->
  exists s', freerange vstart vend s = Ret tt s' /\ kmem_ok s' (rev (pages p n) ++ l) /\ kmem_step s s' /\
    (forall x, x < p \/ vend <= x -> k_mem s' x = k_mem s x).
Proof.
  intros p n Hp Hk Hok Hpg. unfold freerange. fold p. fold n.
  assert (Hn : Z.of_nat n = (vend - p) / PGSIZE).
  { unfold n. rewrite Z2Nat.id; [done|]. apply Z.div_pos; [lia|done]. }
  pose proof (Z.div_mod (vend - p) PGSIZE ltac:(done)).
  pose proof (Z.mod_pos_bound (vend - p) PGSIZE ltac:(done)).
  destruct (freerange_loop_ok n s p vend l i c) as (s' & E & Ok & Hs & Fr); auto; try lia.
  exists s'. split_and!; auto. intros x Hx. apply Fr. lia.
Qed.
End KallocFacts.

(** * Properties *)

(** with the allocator in order and [a] at the head of the free list, [kalloc]
    returns [a], keeps every byte of memory, and leaves the allocator in order
    with the rest of the list; an empty list makes it return 0 and change nothing. *)
Theorem kalloc_correct s l i c :
  kmem_lockable s i c -> kmem_ok s l ->
  match l with
  | [] => kalloc s = Ret 0 s
  | a :: l' => exists s', kalloc s = Ret a s' /\ kmem_ok s' l' /\ k_mem s' = k_mem s /\
                 (a ∉ l') /\ s' = set_k_freelist (k_freelist s') s
  end.
Proof.
  intros Hk Hok. destruct l as [|a l].
  - by eapply kalloc_none.
  - eexists. split; [by eapply kalloc_some|]. split_and!; [by apply kmem_ok_pop|done| |done].
    by destruct (proj1 (NoDup_cons _ _) (km_nodup _ _ Hok)).
Qed.

(** C34: [kfree] of a valid page that is not free puts exactly that page on the
    free list, changes no byte outside it, and an immediate [kalloc] gives it back. *)
Theorem kfree_kalloc_roundtrip s l v i c :
  kmem_lockable s i c -> kmem_ok s l -> page_ok (k_end s) v -> v ∉ l ->
  exists s', kfree v s = Ret tt s' /\ kmem_ok s' (v :: l) /\
    (forall x, x < v \/ v + PGSIZE <= x -> k_mem s' x = k_mem s x) /\
    exists s'', kalloc s' = Ret v s'' /\ kmem_ok s'' l.
Proof.
  intros Hk Hok Hv Hn. eexists. split; [by eapply kfree_eq|].
  pose proof (kmem_ok_push s l v Hv Hn Hok) as Hok'.
  split_and!; [done|intros; by apply kfree_mem_out|].
  eexists. split; [by eapply kalloc_some|]. by apply kmem_ok_pop.
Qed.

(** C35: [freerange] frees exactly the whole pages of the range, each once, and
    terminates: afterwards the free list is those pages in front of the old list. *)
Theorem freerange_correct s l vstart vend i c :
  let p := PGROUNDUP vstart in
  let n := Z.to_nat ((vend - p) / PGSIZE) in
  p <= vend -> kmem_lockable s i c -> kmem_ok s l ->
  Forall (fun v => page_ok (k_end s) v /\ v ∉ l) (pages p n) ->
  exists s', freerange vstart vend s = Ret tt s' /\ kmem_ok s' (rev (pages p n) ++ l) /\
    (forall x, x < p \/ vend <= x -> k_mem s' x = k_mem s x).
Proof.
  intros p n Hp Hk Hok Hpg. destruct (freerange_ok s l vstart vend i c Hp Hk Hok Hpg) as (s' & E & Ok & _ & Fr). by exists s'.
Qed.

(** The allocator of [kernel0] after freeing one page. *)
Definition kernel1 : kernel :=
  set_k_freelist 2149580800 (set_k_mem (kfree_mem 2149580800 kernel0) kernel0).

Lemma kernel0_mem : kmem_ok kernel0 [] /\ kmem_lockable kernel0 0 cpu0.
Proof. split; [constructor; simpl; auto using NoDup_nil_2|]. right. split; [apply on_cpu0|done]. Qed.

Lemma kernel0_page : page_ok (k_end kernel0) 2149580800.
Proof. vm_compute. split_and!; congruence. Qed.

Lemma kernel1_mem : kmem_ok kernel1 [2149580800].
Proof. apply kmem_ok_push; [apply kernel0_page|set_solver|apply kernel0_mem]. Qed.

(** A kernel whose free list is [l], linked through otherwise unchanged memory. *)
Fixpoint link_mem (l : list Z) (m : mem) : mem :=
  match l with
  | [] => m
  | a :: l' => st32 (link_mem l' m) a (hd 0 l')
  end.

Definition with_pages (l : list Z) (s : kernel) : kernel :=
  set_k_freelist (hd 0 l) (set_k_mem (link_mem l (k_mem s)) s).

Lemma with_pages_ok l s :
  NoDup l -> Forall (page_ok (k_end s)) l -> kmem_ok (with_pages l s) l.
Proof.
  intros Hn Hp. constructor; [|done|done]. cbn [with_pages k_mem k_freelist set_k_freelist set_k_mem].
  induction l as [|a l IH]; [done|]. apply Forall_cons in Hp as [Ha Hp]. apply NoDup_cons in Hn as [Hni Hn].
  cbn [hd link_mem freelist_at]. split; [done|]. rewrite ld32_st32_eq, u32_small.
  - eapply freelist_frame; [|by apply IH]. intros b x Hb Hx. apply st32_out.
    rewrite Forall_forall in Hp. specialize (Hp b Hb).
    destruct (page_disjoint a b) as [|]; [apply Ha|apply Hp|by intros ->|unfold PGSIZE in *; lia..].
  - destruct l as [|b l]; simpl; [lia|]. apply Forall_cons in Hp as [(_ & _ & _ & ?) _]. lia.
Qed.

Lemma kalloc_correct_witness : exists s', kalloc kernel1 = Ret 2149580800 s' /\ kmem_ok s' [].
Proof.
  destruct (kalloc_correct kernel1 [2149580800] 0 cpu0) as (s' & H1 & H2 & _).
  - right. split; [exact on_cpu0|reflexivity].
  - exact kernel1_mem.
  - exists s'. split; assumption.
Defined.

Lemma kfree_kalloc_roundtrip_witness :
  exists s', kfree 2149580800 kernel0 = Ret tt s' /\ kmem_ok s' [2149580800].
Proof.
  destruct (kfree_kalloc_roundtrip kernel0 [] 2149580800 0 cpu0) as (s' & H1 & H2 & _).
  - apply kernel0_mem.
  - apply kernel0_mem.
  - exact kernel0_page.
  - apply not_elem_of_nil.
  - exists s'. split; assumption.
Defined.

Lemma freerange_correct_witness :
  exists s', freerange 2149576705 2149589000 kernel0 = Ret tt s' /\
    kmem_ok s' [2149584896; 2149580800].
Proof.
  destruct (freerange_correct kernel0 [] 2149576705 2149589000 0 cpu0) as (s' & H1 & H2 & _).
  - vm_compute. congruence.
  - apply kernel0_mem.
  - apply kernel0_mem.
  - replace (pages _ _) with [2149580800; 2149584896] by (vm_compute; reflexivity).
    repeat constructor; first [apply not_elem_of_nil | vm_compute; congruence].
  - exists s'. split; [exact H1|exact H2].
Defined.
