(* ===== verification/Vm.v ===== *)
(** Virtual memory [vm.c]: two-level page tables kept in [k_mem], their construction,
    growth, copying and destruction, and the user memory the kernel reads and writes
    through them. *)

From S2P Require Import Prelude Bytes KString Params State Spinlock Cprintf Kalloc.
From stdpp Require Import base list gmap strings.
From Stdlib Require Import ZArith Lia.
Local Open Scope Z_scope.
Local Open Scope km_scope.

Definition ldmem (a : Z) : K Z := gets (fun s => ld32 (k_mem s) a).
Definition stmem (a v : Z) : K unit := updmem (fun m => st32 m a v).

(** The address of the page-table entry for [va], 0 if there is none. *)
Definition walkpgdir (pgdir va : Z) (alloc : bool) : K Z :=
  let pde := pgdir + 4 * PDX va in
  let! e := ldmem pde in
  if negb (Z.land e PTE_P =? 0) then
    ret (P2V (PTE_ADDR e) + 4 * PTX va)
  else if negb alloc then ret 0 else
    let! pgtab := kalloc in
    if pgtab =? 0 then ret 0 else
    updmem (fun m => memset m pgtab 0 PGSIZE) ;;
    stmem pde (Z.lor (Z.lor (Z.lor (V2P pgtab) PTE_P) PTE_W) PTE_U) ;;
    ret (pgtab + 4 * PTX va).

(** The loop of [mappages]: one page per round, from [a] to [last]. *)
Fixpoint mappages_loop (fuel : nat) (pgdir a last pa perm : Z) : K Z :=
  match fuel with
  | O => nofuel
  | S fuel =>
      let! pte := walkpgdir pgdir a true in
      if pte =? 0 then ret (-1) else
      let! e := ldmem pte in
      if negb (Z.land e PTE_P =? 0) then panic "remap" else
      stmem pte (Z.lor (Z.lor pa perm) PTE_P) ;;
      if a =? last then ret 0
      else mappages_loop fuel pgdir (u32 (a + PGSIZE)) last (u32 (pa + PGSIZE)) perm
  end.

Definition mappages (pgdir va size pa perm : Z) : K Z :=
  let a := PGROUNDDOWN va in
  let last := PGROUNDDOWN (u32 (va + size - 1)) in
  mappages_loop (Z.to_nat (u32 (last - a) / PGSIZE + 1)) pgdir a last pa perm.

(** The loop of [deallocuvm]: [a] advances by at least a page per round. *)
Fixpoint deallocuvm_loop (fuel : nat) (pgdir a oldsz : Z) : K unit :=
  if oldsz <=? a then ret tt else
  match fuel with
  | O => nofuel
  | S fuel =>
      let! pte := walkpgdir pgdir a false in
      if pte =? 0 then
        deallocuvm_loop fuel pgdir (u32 (u32 (PGADDR (PDX a + 1) 0 0 - PGSIZE) + PGSIZE)) oldsz
      else
        let! e := ldmem pte in
        (if negb (Z.land e PTE_P =? 0) then
           let pa := PTE_ADDR e in
           if pa =? 0 then panic "kfree" else
           kfree (P2V pa) ;;
           stmem pte 0
         else ret tt) ;;
        deallocuvm_loop fuel pgdir (u32 (a + PGSIZE)) oldsz
  end.

Definition deallocuvm (pgdir oldsz newsz : Z) : K Z :=
  if oldsz <=? newsz then ret oldsz else
  let a := PGROUNDUP newsz in
  deallocuvm_loop (Z.to_nat ((oldsz - a) / PGSIZE + 1)) pgdir a oldsz ;;
  ret newsz.

Definition freevm (pgdir : Z) : K unit :=
  if pgdir =? 0 then panic "freevm: no pgdir" else
  let! _ := deallocuvm pgdir KERNBASE 0 in
  for_each (range NPDENTRIES) (fun i =>
    let! e := ldmem (pgdir + 4 * Z.of_nat i) in
    when (negb (Z.land e PTE_P =? 0)) (kfree (P2V (PTE_ADDR e)))) ;;
  kfree pgdir.

(** [kmap[]]: virt, phys_start, phys_end, perm *)
Definition kmap (data : Z) : list (Z * Z * Z * Z) :=
  [(KERNBASE, 0, EXTMEM, PTE_W);
   (KERNLINK, V2P KERNLINK, V2P data, 0);
   (data, V2P data, PHYSTOP, PTE_W);
   (DEVSPACE, DEVSPACE, 0, PTE_W)].

Definition setupkvm : K Z :=
  let! pgdir := kalloc in
  if pgdir =? 0 then ret 0 else
  updmem (fun m => memset m pgdir 0 PGSIZE) ;;
  if DEVSPACE <? P2V PHYSTOP then panic "PHYSTOP too high" else
  let! data := gets k_data in
  let! r := for_find (kmap data) (fun k =>
    let '(virt, phys_start, phys_end, perm) := k in
    let! r := mappages pgdir virt (u32 (phys_end - phys_start)) phys_start perm in
    if r <? 0 then freevm pgdir ;; ret (Some 0) else ret None) in
  ret (default pgdir r).

Definition lcr3 (v : Z) : K unit := sethw (set_h_cr3 v).

Definition switchkvm : K unit :=
  let! k := gets k_kpgdir in lcr3 (V2P k).

Definition kvmalloc : K unit :=
  let! k := setupkvm in
  modify (set_k_kpgdir k) ;;
  switchkvm.

(** Of the task state, only [esp0] is kept in the model. *)
Definition switchuvm (op : option nat) : K unit :=
  match op with
  | None => panic "switchuvm: no process"
  | Some p =>
      let! pr := getproc p in
      if p_kstack pr =? 0 then panic "switchuvm: no kstack" else
      if p_pgdir pr =? 0 then panic "switchuvm: no pgdir" else
      pushcli ;;
      let! i := mycpu in
      updcpu i (set_c_esp0 (u32 (p_kstack pr + KSTACKSIZE))) ;;
      lcr3 (V2P (p_pgdir pr)) ;;
      popcli
  end.

Definition inituvm (pgdir : Z) (init : list Z) (sz : Z) : K unit :=
  if PGSIZE <=? sz then panic "inituvm: more than a page" else
  let! mem := kalloc in
  if mem =? 0 then undef "inituvm: memset of 0" else
  updmem (fun m => memset m mem 0 PGSIZE) ;;
  let! _ := mappages pgdir 0 PGSIZE (V2P mem) (Z.lor PTE_W PTE_U) in
  updmem (fun m => st_bytes m mem (take (Z.to_nat sz) init)).

(** The loop of [allocuvm], a page per round. *)
Fixpoint allocuvm_loop (fuel : nat) (pgdir a oldsz newsz : Z) : K Z :=
  if newsz <=? a then ret newsz else
  match fuel with
  | O => nofuel
  | S fuel =>
      let! mem := kalloc in
      if mem =? 0 then
        cprintf (str "allocuvm out of memory" ++ [NL]) [] ;;
        let! _ := deallocuvm pgdir newsz oldsz in
        ret 0
      else
        updmem (fun m => memset m mem 0 PGSIZE) ;;
        let! r := mappages pgdir a PGSIZE (V2P mem) (Z.lor PTE_W PTE_U) in
        if r <? 0 then
          cprintf (str "allocuvm out of memory (2)" ++ [NL]) [] ;;
          let! _ := deallocuvm pgdir newsz oldsz in
          kfree mem ;;
          ret 0
        else allocuvm_loop fuel pgdir (u32 (a + PGSIZE)) oldsz newsz
  end.

Definition allocuvm (pgdir oldsz newsz : Z) : K Z :=
  if KERNBASE <=? newsz then ret 0 else
  if newsz <? oldsz then ret oldsz else
  let a := PGROUNDUP oldsz in
  allocuvm_loop (Z.to_nat ((newsz - a) / PGSIZE + 1)) pgdir a oldsz newsz.

Definition clearpteu (pgdir uva : Z) : K unit :=
  let! pte := walkpgdir pgdir uva false in
  if pte =? 0 then panic "clearpteu" else
  let! e := ldmem pte in
  stmem pte (Z.land e (u32 (Z.lnot PTE_U))).

(** The loop of [copyuvm] over the pages below [sz]; the result is the value of the
    function, 0 after [bad]. *)
Fixpoint copyuvm_loop (fuel : nat) (pgdir d i sz : Z) : K Z :=
  if sz <=? i then ret d else
  match fuel with
  | O => nofuel
  | S fuel =>
      let! pte := walkpgdir pgdir i false in
      if pte =? 0 then panic "copyuvm: pte should exist" else
      let! e := ldmem pte in
      if Z.land e PTE_P =? 0 then panic "copyuvm: page not present" else
      let pa := PTE_ADDR e in
      let flags := PTE_FLAGS e in
      let! mem := kalloc in
      if mem =? 0 then freevm d ;; ret 0 else
      updmem (fun m => memmove m mem (P2V pa) PGSIZE) ;;
      let! r := mappages d i PGSIZE (V2P mem) flags in
      if r <? 0 then kfree mem ;; freevm d ;; ret 0
      else copyuvm_loop fuel pgdir d (u32 (i + PGSIZE)) sz
  end.

Definition copyuvm (pgdir sz : Z) : K Z :=
  let! d := setupkvm in
  if d =? 0 then ret 0 else
  copyuvm_loop (Z.to_nat (sz / PGSIZE + 1)) pgdir d 0 sz.

Definition uva2ka (pgdir uva : Z) : K Z :=
  let! pte := walkpgdir pgdir uva false in
  if pte =? 0 then undef "uva2ka: *0" else
  let! e := ldmem pte in
  if Z.land e PTE_P =? 0 then ret 0 else
  if Z.land e PTE_U =? 0 then ret 0 else
  ret (P2V (PTE_ADDR e)).

(** The loop of [copyout]: [buf] are the [len] bytes still to copy. *)
Fixpoint copyout_loop (fuel : nat) (pgdir va : Z) (buf : list Z) : K Z :=
  match buf with
  | [] => ret 0
  | _ =>
      match fuel with
      | O => nofuel
      | S fuel =>
          let va0 := PGROUNDDOWN va in
          let! pa0 := uva2ka pgdir va0 in
          if pa0 =? 0 then ret (-1) else
          let n := Z.min (PGSIZE - (va - va0)) (Z.of_nat (length buf)) in
          updmem (fun m => st_bytes m (pa0 + (va - va0)) (take (Z.to_nat n) buf)) ;;
          copyout_loop fuel pgdir (u32 (va0 + PGSIZE)) (drop (Z.to_nat n) buf)
      end
  end.

Definition copyout (pgdir va : Z) (p : list Z) : K Z :=
  copyout_loop (Z.to_nat (Z.of_nat (length p) / PGSIZE + 2)) pgdir va p.

(** * User memory, as kernel code dereferences it *)

(** The kernel address behind [va] in the address space [pgdir]. *)
Definition utrans (m : mem) (pgdir va : Z) : option Z :=
  let e := ld32 m (pgdir + 4 * PDX va) in
  if Z.land e PTE_P =? 0 then None else
  let e' := ld32 m (P2V (PTE_ADDR e) + 4 * PTX va) in
  if Z.land e' PTE_P =? 0 then None else
  Some (P2V (PTE_ADDR e') + va mod PGSIZE).

(** The page directory of the running process. *)
Definition mypgdir : K Z :=
  let! op := myproc in
  let! p := nonnull "myproc()->pgdir" op in
  let! pr := getproc p in
  ret (p_pgdir pr).

(** A load or store through a user pointer; a page fault in the kernel ends in
    [trap]'s panic. *)
Definition uload8 (va : Z) : K Z :=
  let! d := mypgdir in
  let! m := gets k_mem in
  match utrans m d va with
  | Some a => ret (m a)
  | None => panic "trap"
  end.

Definition ustore8 (va v : Z) : K unit :=
  let! d := mypgdir in
  let! m := gets k_mem in
  match utrans m d va with
  | Some a => updmem (fun m => upd m a v)
  | None => panic "trap"
  end.

Fixpoint uload (va : Z) (n : nat) : K (list Z) :=
  match n with
  | O => ret []
  | S n' => let! b := uload8 va in let! r := uload (va + 1) n' in ret (b :: r)
  end.

Fixpoint ustore (va : Z) (l : list Z) : K unit :=
  match l with
  | [] => ret tt
  | b :: l' => ustore8 va b ;; ustore (va + 1) l'
  end.

(** A kernel load through any pointer: the kernel half of every address space is
    mapped onto physical memory, the user half goes through the page table. *)
Definition load8 (a : Z) : K Z :=
  if a <? KERNBASE then uload8 a else gets (fun s => k_mem s a).

(** The C string at [a]. *)
Fixpoint cstring_loop (fuel : nat) (a : Z) : K (list Z) :=
  match fuel with
  | O => nofuel
  | S fuel =>
      let! c := load8 a in
      if c =? 0 then ret [] else
      let! r := cstring_loop fuel (a + 1) in
      ret (c :: r)
  end.

(** No string is longer than the user half of the address space that holds it, or than
    a user string and a page together. *)
Definition cstring (a : Z) : K (list Z) :=
  let! op := myproc in
  let! p := nonnull "string of no process" op in
  let! pr := getproc p in
  cstring_loop (Z.to_nat (p_sz pr + 2 * PGSIZE)) a.

(** * User memory below [sz] *)

(** The byte a process sees at [va]. *)
Definition ubyte (m : mem) (pgdir va : Z) : Z :=
  match utrans m pgdir va with Some a => m a | None => 0 end.

Definition ubytes (m : mem) (pgdir va : Z) (n : nat) : list Z :=
  (fun k => ubyte m pgdir (va + Z.of_nat k)) <$> seq 0 n.

(** Every address below [sz] is mapped, and none of the kernel's. *)
Record user_ok (m : mem) (pgdir sz : Z) : Prop := {
  uo_sz : 0 <= sz <= KERNBASE;
  uo_map : forall va, 0 <= va < sz -> is_Some (utrans m pgdir va)
}.

Section User.
Implicit Types (s : kernel) (i p : nat) (c : cpu) (pr : proc).

Lemma mypgdir_eq s i c p pr : running s i c p pr -> mypgdir s = Ret (p_pgdir pr) s.
Proof.
  intros H. unfold mypgdir. erewrite bind_run by by eapply myproc_run. unfold nonnull. rewrite bind_ret.
  by erewrite bind_run by (apply getproc_eq; apply H).
Qed.

Lemma uload8_eq s i c p pr va :
  running s i c p pr -> user_ok (k_mem s) (p_pgdir pr) (p_sz pr) -> 0 <= va < p_sz pr ->
  uload8 va s = Ret (ubyte (k_mem s) (p_pgdir pr) va) s.
Proof.
  intros H Hu Hva. unfold uload8, ubyte. erewrite bind_run by by eapply mypgdir_eq. rewrite bind_gets.
  destruct (uo_map _ _ _ Hu va Hva) as [a ->]. done.
Qed.

Lemma uload_eq s i c p pr va n :
  running s i c p pr -> user_ok (k_mem s) (p_pgdir pr) (p_sz pr) ->
  0 <= va -> va + Z.of_nat n <= p_sz pr ->
  uload va n s = Ret (ubytes (k_mem s) (p_pgdir pr) va n) s.
Proof.
  intros H Hu. revert va. induction n as [|n IH]; intros va H0 H1; [done|]. cbn [uload].
  erewrite bind_run by (eapply uload8_eq; [done..|lia]).
  erewrite bind_run by (apply IH; lia). unfold ret, ubytes. do 2 f_equal.
  cbn [seq fmap list_fmap]. rewrite Z.add_0_r. f_equal.
  rewrite <- fmap_S_seq, <- list_fmap_compose. apply list_fmap_ext. intros ? k _. cbn. f_equal. lia.
Qed.

Lemma load8_eq s i c p pr va :
  running s i c p pr -> user_ok (k_mem s) (p_pgdir pr) (p_sz pr) -> 0 <= va < p_sz pr ->
  load8 va s = Ret (ubyte (k_mem s) (p_pgdir pr) va) s.
Proof.
  intros H Hu Hva. unfold load8. pose proof (uo_sz _ _ _ Hu).
  destruct (Z.ltb_spec va KERNBASE); [by eapply uload8_eq|lia].
Qed.

Lemma load8_kernel s a : KERNBASE <= a -> load8 a s = Ret (k_mem s a) s.
Proof. intros H. unfold load8. destruct (Z.ltb_spec a KERNBASE); [lia|done]. Qed.

Lemma ubytes_length m d va n : length (ubytes m d va n) = n.
Proof. unfold ubytes. by rewrite length_fmap, length_seq. Qed.
End User.

(** * A process of one page: directory, page table and page at these addresses *)
Definition demo_pgdir : Z := 2151677952.
Definition demo_pt : Z := 2151682048.
Definition demo_page : Z := 2151686144.

(** Its memory, with [l] at user address [va]. *)
Definition one_page (va : Z) (l : list Z) (m : mem) : mem :=
  st_bytes (st32 (st32 m demo_pgdir (V2P demo_pt + 7)) demo_pt (V2P demo_page + 7)) (demo_page + va) l.

Lemma one_page_entries va l m :
  0 <= va -> ld32 (one_page va l m) demo_pgdir = V2P demo_pt + 7 /\ ld32 (one_page va l m) demo_pt = V2P demo_page + 7.
Proof.
  intros Hva. unfold one_page.
  split; erewrite ld32_out by (intros x Hx; apply st_bytes_out; unfold demo_pgdir, demo_pt, demo_page in *; lia).
  - rewrite ld32_st32_ne, ld32_st32_eq by (unfold demo_pgdir, demo_pt; lia). reflexivity.
  - rewrite ld32_st32_eq. reflexivity.
Qed.

Lemma one_page_trans va l m a :
  0 <= va -> 0 <= a < PGSIZE -> utrans (one_page va l m) demo_pgdir a = Some (demo_page + a).
Proof.
  intros Hva Ha. destruct (one_page_entries va l m Hva) as [E1 E2]. unfold utrans.
  assert (PDX a = 0) as ->.
  { unfold PGSIZE in Ha. rewrite PDX_eq by lia. apply Z.div_small. lia. }
  assert (PTX a = 0) as -> by by rewrite PTX_eq, Z.div_small.
  rewrite !Z.mul_0_r, !Z.add_0_r, E1. change (P2V (PTE_ADDR (V2P demo_pt + 7))) with demo_pt.
  rewrite E2. change (P2V (PTE_ADDR (V2P demo_page + 7))) with demo_page. by rewrite Z.mod_small.
Qed.

Lemma one_page_ok va l m : 0 <= va -> user_ok (one_page va l m) demo_pgdir PGSIZE.
Proof.
  intros Hva. constructor; [unfold PGSIZE, KERNBASE; lia|]. intros a Ha.
  rewrite one_page_trans by done. eauto.
Qed.
