(* ===== verification/Aspace.v ===== *)
(** Address spaces: what the page tables of [vm.c] map, as a function from virtual
    addresses to page-table entries, and the specifications of [walkpgdir], [mappages] and
    [setupkvm] over it. *)

From S2P Require Import Prelude Bytes KString Params State Spinlock Cprintf Kalloc Vm.
From stdpp Require Import base list gmap sets strings.
From Stdlib Require Import ZArith Lia.
Local Open Scope Z_scope.
Local Open Scope km_scope.

(** Decide the comparisons of the goal. *)
Ltac cmp_cases := repeat match goal with |- context[?a <=? ?b] => destruct (Z.leb_spec a b) | |- context[?a <? ?b] => destruct (Z.ltb_spec a b) end.

(** * Page tables in memory *)

Definition present (e : Z) : bool := negb (Z.land e PTE_P =? 0).
Definition pde (m : mem) (d va : Z) : Z := ld32 m (d + 4 * PDX va).
Definition tab (m : mem) (d va : Z) : Z := P2V (PTE_ADDR (pde m d va)).

(** The entry for [va]; 0, not present, without a page table. *)
Definition ent (m : mem) (d va : Z) : Z :=
  if present (pde m d va) then ld32 m (tab m d va + 4 * PTX va) else 0.

Definition is_va (va : Z) : Prop := 0 <= va < 2 ^ 32.

(** Directory [d] with the page tables [T], one page each and none shared. *)
Record space (kend : Z) (m : mem) (d : Z) (T : gset Z) : Prop := {
  sp_dir : page_ok kend d;
  sp_tabs : forall t, t ∈ T -> page_ok kend t;
  sp_notin : d ∉ T;
  sp_in : forall va, is_va va -> present (pde m d va) = true -> tab m d va ∈ T;
  sp_inj : forall va va', is_va va -> is_va va' -> present (pde m d va) = true -> present (pde m d va') = true ->
             tab m d va = tab m d va' -> PDX va = PDX va';
  sp_onto : forall t, t ∈ T -> exists va, is_va va /\ present (pde m d va) = true /\ tab m d va = t
}.

(** Only bytes of the pages [P] differ. *)
Definition in_page (p x : Z) : Prop := p <= x < p + PGSIZE.
Definition changes (P : gset Z) (m m' : mem) : Prop := forall x, (forall p, p ∈ P -> ~ in_page p x) -> m' x = m x.

Section Tables.
Implicit Types (m : mem) (d va v kend : Z) (T P : gset Z).

Lemma changes_refl P m : changes P m m.
Proof. done. Qed.

Lemma changes_trans P m1 m2 m3 : changes P m1 m2 -> changes P m2 m3 -> changes P m1 m3.
Proof. intros A B x Hx. rewrite B by done. by apply A. Qed.

Lemma changes_mono P P' m m' : changes P m m' -> P ⊆ P' -> changes P' m m'.
Proof. intros A Hs x Hx. apply A. intros p Hp. apply Hx. set_solver. Qed.

Lemma utrans_ent m d va : utrans m d va = if present (ent m d va) then Some (P2V (PTE_ADDR (ent m d va)) + va mod PGSIZE) else None.
Proof.
  unfold utrans, ent, present. fold (pde m d va). destruct (Z.land (pde m d va) PTE_P =? 0); cbn [negb]; [done|].
  fold (tab m d va). by destruct (Z.land _ PTE_P =? 0).
Qed.

Lemma PDX_range va : 0 <= PDX va < 1024.
Proof. unfold PDX. change 1023 with (Z.ones 10). rewrite Z.land_ones by lia. apply Z.mod_pos_bound. lia. Qed.

Lemma dir_slot d va x : d + 4 * PDX va <= x < d + 4 * PDX va + 4 -> in_page d x.
Proof. intros H. pose proof (PDX_range va). unfold in_page, PGSIZE. lia. Qed.

Lemma tab_slot t va x : t + 4 * PTX va <= x < t + 4 * PTX va + 4 -> in_page t x.
Proof. intros H. pose proof (PTX_range va). unfold in_page, PGSIZE. lia. Qed.

Lemma page_apart kend a b x : page_ok kend a -> page_ok kend b -> in_page a x -> in_page b x -> a = b.
Proof.
  intros (A & _) (B & _) Ha Hb. destruct (decide (a = b)) as [|Hne]; [done|]. destruct (page_disjoint a b A B Hne); unfold in_page in *; lia.
Qed.

(** The entries depend only on the directory and the page tables. *)
Lemma ent_frame kend m m' d T :
  space kend m d T -> (forall x, in_page d x -> m' x = m x) -> (forall t x, t ∈ T -> in_page t x -> m' x = m x) ->
  space kend m' d T /\ (forall va, is_va va -> ent m' d va = ent m d va /\ pde m' d va = pde m d va).
Proof.
  intros [S1 S2 S3 S4 S5 S6] Hd Ht.
  assert (Hp : forall va, pde m' d va = pde m d va).
  { intros va. apply ld32_out. intros x Hx. apply Hd. by eapply dir_slot. }
  assert (Htab : forall va, tab m' d va = tab m d va) by (intros va; unfold tab; by rewrite Hp).
  split.
  - constructor; auto.
    + intros va Hva. rewrite Hp, Htab. auto.
    + intros va va' Hva Hva'. rewrite !Hp, !Htab. auto.
    + intros t (va & Hva & H)%S6. exists va. by rewrite Hp, Htab.
  - intros va Hva. split; [|done]. unfold ent. rewrite Hp, Htab. destruct (present _) eqn:E; [|done].
    apply ld32_out. intros x Hx. eapply Ht; [by apply S4|by eapply tab_slot].
Qed.

(** ** Storing an entry *)
Lemma slot_cases va va' : is_va va -> is_va va' -> va / PGSIZE <> va' / PGSIZE ->
  PDX va = PDX va' -> 4 * PTX va + 4 <= 4 * PTX va' \/ 4 * PTX va' + 4 <= 4 * PTX va.
Proof.
  intros H H' Hne E. assert (PTX va <> PTX va') by (intros E'; apply Hne; by apply PDX_PTX_inj). lia.
Qed.

Lemma page_eq_slots va va' : is_va va -> is_va va' -> va / PGSIZE = va' / PGSIZE -> PDX va = PDX va' /\ PTX va = PTX va'.
Proof.
  intros H H' E. rewrite !PDX_eq by done. rewrite !PTX_eq, E. split; [|done]. unfold PGSIZE in E.
  change (2 ^ 22) with (4096 * 1024). rewrite <- !Z.div_div by lia. by rewrite E.
Qed.

Lemma ent_same_page m d va va' : is_va va -> is_va va' -> va / PGSIZE = va' / PGSIZE -> ent m d va = ent m d va'.
Proof. intros H H' E. destruct (page_eq_slots va va' H H' E) as [E1 E2]. unfold ent, tab, pde. by rewrite E1, E2. Qed.

Lemma ent_store kend m d T va v :
  space kend m d T -> is_va va -> present (pde m d va) = true ->
  let m' := st32 m (tab m d va + 4 * PTX va) v in
  space kend m' d T /\ changes {[tab m d va]} m m' /\
  (forall va', is_va va' -> ent m' d va' = (if va' / PGSIZE =? va / PGSIZE then u32 v else ent m d va') /\ pde m' d va' = pde m d va').
Proof.
  intros Hs Hva Hp m'. pose proof Hs as [S1 S2 S3 S4 S5 S6]. pose proof (S4 va Hva Hp) as Hin. pose proof (S2 _ Hin) as Hok.
  assert (Hch : changes {[tab m d va]} m m').
  { intros x Hx. apply st32_out. specialize (Hx _ ltac:(by apply elem_of_singleton)). pose proof (PTX_range va). unfold in_page, PGSIZE in Hx. lia. }
  assert (Hpde : forall va', pde m' d va' = pde m d va').
  { intros va'. apply ld32_out. intros x Hx. apply Hch. intros p ->%elem_of_singleton Hpx. apply S3.
    rewrite (page_apart kend d (tab m d va) x); auto. by eapply dir_slot. }
  assert (Htab : forall va', tab m' d va' = tab m d va') by (intros va'; unfold tab; by rewrite Hpde).
  split; [|split; [done|]].
  - constructor; auto.
    + intros va' Hva'. rewrite Hpde, Htab. auto.
    + intros va1 va2 H1 H2. rewrite !Hpde, !Htab. auto.
    + intros t (va' & Hva' & H)%S6. exists va'. by rewrite Hpde, Htab.
  - intros va' Hva'. split; [|done]. unfold ent. rewrite Hpde, Htab. destruct (Z.eqb_spec (va' / PGSIZE) (va / PGSIZE)) as [E|E].
    + destruct (page_eq_slots va' va Hva' Hva E) as [E1 E2].
      assert (Ep : pde m d va' = pde m d va) by (unfold pde; by rewrite E1). rewrite Ep, Hp. unfold tab. rewrite Ep, E2.
      apply ld32_st32_eq.
    + destruct (present (pde m d va')) eqn:Hp'; [|done]. unfold m'. apply ld32_st32_ne.
      destruct (decide (tab m d va' = tab m d va)) as [Et|Et].
      * rewrite Et. pose proof (S5 va' va Hva' Hva Hp' Hp Et) as Ed. destruct (slot_cases va' va); auto; lia.
      * destruct (S2 _ (S4 va' Hva' Hp')) as (A & _). destruct Hok as (B & _). destruct (page_disjoint _ _ A B Et) as [Hlt|Hlt];
          pose proof (PTX_range va); pose proof (PTX_range va'); unfold PGSIZE in *; lia.
Qed.
End Tables.

(** * Page-table entries as numbers *)
Section Pte.
Implicit Types (a f t : Z).

Lemma lor_page a f : a mod PGSIZE = 0 -> 0 <= f < PGSIZE -> Z.lor a f = a + f.
Proof. intros Ha Hf. by apply (lor_low 12). Qed.

Lemma pte_addr a f : a mod PGSIZE = 0 -> 0 <= a -> 0 <= f < PGSIZE -> a + f < 2 ^ 32 -> PTE_ADDR (a + f) = a.
Proof.
  intros Ha H0 Hf Hm. rewrite PTE_ADDR_eq by lia. unfold PGSIZE in *. rewrite <- Z.add_mod_idemp_l, Ha by lia.
  rewrite Z.add_0_l, Z.mod_small; lia.
Qed.

Lemma page_add a k : a mod PGSIZE = 0 -> 0 <= a < 2 ^ 32 -> 0 <= k < PGSIZE -> a + k < 2 ^ 32.
Proof. unfold PGSIZE. intros Ha H Hk. pose proof (Z.div_mod a 4096 ltac:(lia)). lia. Qed.

Lemma pte_flags a f : a mod PGSIZE = 0 -> 0 <= f < PGSIZE -> PTE_FLAGS (a + f) = f.
Proof.
  intros Ha Hf. unfold PTE_FLAGS. change 4095 with (Z.ones 12). rewrite Z.land_ones by lia. change (2 ^ 12) with PGSIZE.
  rewrite <- Z.add_mod_idemp_l, Ha by done. by rewrite Z.add_0_l, Z.mod_small.
Qed.

Lemma present_odd e : present e = Z.odd e.
Proof.
  unfold present, PTE_P. change 1 with (Z.ones 1). rewrite Z.land_ones by lia. change (2 ^ 1) with 2.
  rewrite Zmod_odd. by destruct (Z.odd e).
Qed.

Lemma flags_range e : 0 <= PTE_FLAGS e < PGSIZE.
Proof. unfold PTE_FLAGS. change 4095 with (Z.ones 12). rewrite Z.land_ones by lia. by apply Z.mod_pos_bound. Qed.

Lemma flags_present e : present e = true -> Z.lor (PTE_FLAGS e) PTE_P = PTE_FLAGS e.
Proof.
  rewrite present_odd, <- Z.bit0_odd. intros H. apply Z.bits_inj'. intros n Hn. unfold PTE_FLAGS, PTE_P. rewrite Z.lor_spec, Z.land_spec.
  change 4095 with (Z.ones 12). destruct (decide (n = 0)) as [->|Hne]; [by rewrite H|].
  rewrite (Z.bits_above_log2 1 n), orb_false_r by (cbn; lia). done.
Qed.

Lemma V2P_page kend t : page_ok kend t -> V2P t mod PGSIZE = 0 /\ 0 <= V2P t < 2 ^ 32 /\ P2V (V2P t) = t.
Proof.
  intros (H1 & _ & _ & H2). unfold V2P, P2V. split; [|split; [apply u32_range|]].
  - unfold u32, PGSIZE in *. change (2 ^ 32) with (4096 * 1048576). rewrite Z.rem_mul_r by lia.
    rewrite (Z.mul_comm 4096), Z.mod_add by lia. rewrite Z.mod_mod by lia. unfold KERNBASE.
    rewrite <- Zminus_mod_idemp_l, H1. done.
  - unfold u32. rewrite Zplus_mod_idemp_l. replace (t - KERNBASE + KERNBASE) with t by lia. apply Z.mod_small. lia.
Qed.

(** The value stored for a page at [t] with permissions [f], present. *)
Lemma pte_value kend t f :
  page_ok kend t -> 0 <= f < PGSIZE ->
  exists f', Z.lor (Z.lor (V2P t) f) PTE_P = V2P t + f' /\ f' = Z.lor f PTE_P /\ 0 <= f' < PGSIZE /\ Z.odd f' = true.
Proof.
  intros Ht Hf. destruct (V2P_page kend t Ht) as (H1 & H2 & _). exists (Z.lor f PTE_P).
  assert (Hb : 0 <= Z.lor f PTE_P < PGSIZE).
  { split; [apply Z.lor_nonneg; unfold PTE_P; lia|]. destruct (decide (f = 0)) as [->|Hne]; [done|].
    change PGSIZE with (2 ^ 12) in *. apply Z.log2_lt_pow2; [|rewrite Z.log2_lor by (unfold PTE_P; lia)].
    - pose proof (Z.lor_nonneg f PTE_P). assert (Z.lor f PTE_P <> 0); [|unfold PTE_P in *; lia].
      intros E. apply Z.lor_eq_0_iff in E. unfold PTE_P in E. lia.
    - apply Z.max_lub_lt; [apply Z.log2_lt_pow2; lia|done]. }
  split; [|split; [done|split; [done|]]].
  - rewrite <- Z.lor_assoc. apply lor_page; done.
  - rewrite <- Z.bit0_odd, Z.lor_spec. apply orb_true_r.
Qed.
End Pte.

(** * A new page table *)
Section NewTable.
Context (kend : Z) (m : mem) (d : Z) (T : gset Z) (va t : Z).
Hypothesis (Hs : space kend m d T) (Hva : is_va va) (Hp : present (pde m d va) = false).
Hypothesis (Ht : page_ok kend t) (Htd : t <> d) (HtT : t ∉ T).
Let v := Z.lor (Z.lor (Z.lor (V2P t) PTE_P) PTE_W) PTE_U.
Let m1 := memset m t 0 PGSIZE.
Let m2 := st32 m1 (d + 4 * PDX va) v.

Lemma table_value : v = V2P t + 7 /\ u32 v = v /\ present v = true /\ P2V (PTE_ADDR v) = t.
Proof.
  destruct (V2P_page kend t Ht) as (H1 & H2 & H3).
  assert (E : v = V2P t + 7) by (unfold v; rewrite <- !Z.lor_assoc; by apply lor_page).
  pose proof (page_add (V2P t) 7 H1 H2 ltac:(done)). rewrite E. split; [done|]. split; [apply u32_small; lia|]. split.
  - rewrite present_odd, Z.odd_add. unfold PGSIZE in H1. rewrite (Z.div_mod (V2P t) 4096), H1, Z.add_0_r by lia.
    by rewrite Z.odd_mul.
  - by rewrite pte_addr by (done || lia).
Qed.

Lemma table_changes : changes {[d; t]} m m2.
Proof.
  intros x Hx. pose proof (Hx d ltac:(set_solver)) as Hd. pose proof (Hx t ltac:(set_solver)) as Hxt. pose proof (PDX_range va).
  unfold in_page, PGSIZE in *. unfold m2, m1. rewrite st32_out by lia. rewrite memset_spec by (unfold PGSIZE; lia). unfold PGSIZE.
  destruct (Z.leb_spec t x), (Z.ltb_spec x (t + 4096)); cbn; try done. lia.
Qed.

Lemma table_dir x : in_page d x -> m1 x = m x.
Proof.
  intros Hx. unfold m1. rewrite memset_spec by (unfold PGSIZE; lia). destruct ((t <=? x) && (x <? t + PGSIZE)) eqn:E; [|done].
  apply andb_prop in E as [E1%Z.leb_le E2%Z.ltb_lt]. destruct Htd. apply (page_apart kend t d x); [done|apply Hs|done|done].
Qed.

Lemma table_pde va' : is_va va' -> pde m2 d va' = if PDX va' =? PDX va then v else pde m d va'.
Proof.
  intros Hva'. destruct table_value as (_ & Eu & _). unfold pde, m2. destruct (Z.eqb_spec (PDX va') (PDX va)) as [->|Hne].
  - by rewrite ld32_st32_eq.
  - rewrite ld32_st32_ne by lia. apply ld32_out. intros x Hx. apply table_dir. by eapply dir_slot.
Qed.

Lemma table_zero x : in_page t x -> m2 x = 0.
Proof.
  intros Hx. unfold m2. rewrite st32_out.
  - unfold m1. rewrite memset_spec by (unfold PGSIZE; lia). unfold in_page in Hx.
    by rewrite (proj2 (Z.leb_le t x)), (proj2 (Z.ltb_lt x _)) by lia.
  - pose proof (PDX_range va). destruct (decide (in_page d x)) as [Hd|Hd]; [|unfold in_page, PGSIZE in *; lia].
    destruct Htd. by apply (page_apart kend t d x); [|apply Hs| |].
Qed.

Lemma table_old t' x : t' ∈ T -> in_page t' x -> m2 x = m x.
Proof.
  intros Hin Hx. apply table_changes. intros p Hpp Hpx. assert (Hpk : page_ok kend p) by (destruct (decide (p = d)) as [->|]; [apply Hs|by assert (p = t) as -> by set_solver]).
  assert (t' = p) as -> by (apply (page_apart kend t' p x); [by apply Hs|done|done|done]).
  apply elem_of_union in Hpp as [->%elem_of_singleton| ->%elem_of_singleton]; [by apply (sp_notin _ _ _ _ Hs)|done].
Qed.

Lemma table_tab va' : is_va va' -> tab m2 d va' = if PDX va' =? PDX va then t else tab m d va'.
Proof.
  intros Hva'. unfold tab. rewrite table_pde by done. destruct (PDX va' =? PDX va); [|done]. apply table_value.
Qed.

Lemma table_ent va' : is_va va' -> ent m2 d va' = ent m d va'.
Proof.
  intros Hva'. unfold ent. rewrite table_pde, table_tab by done. destruct (Z.eqb_spec (PDX va') (PDX va)) as [E|E].
  - destruct table_value as (_ & _ & -> & _). assert (Epd : pde m d va' = pde m d va) by (unfold pde; by rewrite E). rewrite Epd, Hp.
    unfold ld32. pose proof (PTX_range va').
    rewrite !table_zero by (unfold in_page, PGSIZE; lia). done.
  - destruct (present (pde m d va')) eqn:E'; [|done]. apply ld32_out. intros x Hx. eapply table_old; [by apply Hs|by eapply tab_slot].
Qed.

Lemma new_table :
  space kend m2 d ({[t]} ∪ T) /\ present (pde m2 d va) = true /\ tab m2 d va = t /\
  (forall va', is_va va' -> present (pde m d va') = true -> pde m2 d va' = pde m d va').
Proof.
  assert (Hold : forall va', is_va va' -> present (pde m d va') = true -> PDX va' <> PDX va).
  { intros va' Hva' H E. assert (Epd : pde m d va' = pde m d va) by (unfold pde; by rewrite E). congruence. }
  split; [|split; [|split]].
  - constructor; [apply Hs| |set_unfold; intros [->|H]; [done|by apply (sp_notin _ _ _ _ Hs)]| | |].
    + intros t' [->%elem_of_singleton|Hin]%elem_of_union; [done|by apply Hs].
    + intros va' Hva'. rewrite table_pde, table_tab by done. destruct (PDX va' =? PDX va); [set_solver|].
      intros H. apply elem_of_union. right. by apply Hs.
    + intros va1 va2 H1 H2. rewrite !table_pde, !table_tab by done.
      destruct (Z.eqb_spec (PDX va1) (PDX va)) as [E1|E1], (Z.eqb_spec (PDX va2) (PDX va)) as [E2|E2]; intros P1 P2 Et; [congruence| | |by apply (sp_inj _ _ _ _ Hs)].
      * destruct HtT. rewrite Et. by apply Hs.
      * destruct HtT. rewrite <- Et. by apply Hs.
    + intros t' [->%elem_of_singleton|(va' & Hva' & H & Et)%(sp_onto _ _ _ _ Hs)]%elem_of_union.
      * exists va. rewrite table_pde, table_tab, Z.eqb_refl by done. split; [done|]. split; [apply table_value|done].
      * exists va'. rewrite table_pde, table_tab, (proj2 (Z.eqb_neq _ _)) by auto. done.
  - rewrite table_pde, Z.eqb_refl by done. apply table_value.
  - by rewrite table_tab, Z.eqb_refl by done.
  - intros va' Hva' H. rewrite table_pde, (proj2 (Z.eqb_neq _ _)) by auto. done.
Qed.
End NewTable.

(** * [walkpgdir] and [mappages] *)

(** Only memory and the free list change. *)
Definition memstep (s s' : kernel) : Prop := s' = set_k_freelist (k_freelist s') (set_k_mem (k_mem s') s).

#[export] Instance memstep_preorder : PreOrder memstep.
Proof.
  split; [intros s; by destruct s|]. intros s1 s2 s3 A B. unfold memstep in *. rewrite B, A. by destruct s1.
Qed.

(** The address space [d] with tables [T], and the free pages [l]. *)
Record vms (s : kernel) (d : Z) (T : gset Z) (l : list Z) (i : nat) (c : cpu) : Prop := {
  vs_lock : kmem_lockable s i c;
  vs_kmem : kmem_ok s l;
  vs_space : space (k_end s) (k_mem s) d T;
  vs_apart : forall p, p ∈ l -> p <> d /\ p ∉ T
}.

Section Walk.
Implicit Types (s : kernel) (d va : Z) (T : gset Z) (l : list Z) (i : nat) (c : cpu).

Lemma memstep_lock s s' i c : memstep s s' -> kmem_lockable s i c -> kmem_lockable s' i c.
Proof. intros -> H. by destruct s. Qed.

Lemma memstep_end s s' : memstep s s' -> k_end s' = k_end s.
Proof. intros ->. by destruct s. Qed.

(** The free list is not touched by writes to other pages. *)
Lemma kmem_changes s s' P l :
  memstep s s' -> k_freelist s' = k_freelist s -> changes P (k_mem s) (k_mem s') -> kmem_ok s l ->
  (forall p, p ∈ P -> page_ok (k_end s) p /\ p ∉ l) -> kmem_ok s' l.
Proof.
  intros Hm Ef Hc Hk HP. eapply kmem_ok_frame; [exact Ef|by apply memstep_end| |exact Hk].
  intros a x Ha Hx. apply Hc. intros p Hp Hpx. destruct (HP p Hp) as [Hok Hn]. apply Hn.
  rewrite (page_apart (k_end s) p a x); [done|done| |done|unfold in_page, PGSIZE; lia].
  pose proof (km_pages _ _ Hk) as Hf. rewrite Forall_forall in Hf. by apply Hf.
Qed.

Record walked s d va T l i c (l1 l' : list Z) s' : Prop := {
  wk_vms : vms s' d (list_to_set l1 ∪ T) l' i c;
  wk_step : memstep s s';
  wk_list : l = l1 ++ l';
  wk_changes : changes ({[d]} ∪ list_to_set l1) (k_mem s) (k_mem s');
  wk_present : present (pde (k_mem s') d va) = true;
  wk_ent : forall va', is_va va' -> ent (k_mem s') d va' = ent (k_mem s) d va';
  wk_keep : forall va', is_va va' -> present (pde (k_mem s) d va') = true -> pde (k_mem s') d va' = pde (k_mem s) d va';
  wk_one : l1 = [] \/ present (pde (k_mem s) d va) = false /\ length l1 = 1%nat
}.

Lemma walk_alloc s d va T l i c :
  vms s d T l i c -> is_va va -> present (pde (k_mem s) d va) = true \/ l <> [] ->
  exists l1 l' s', walkpgdir d va true s = Ret (tab (k_mem s') d va + 4 * PTX va) s' /\ walked s d va T l i c l1 l' s'.
Proof.
  intros [Hlk Hk Hs Ha] Hva Hor. unfold walkpgdir. cbv zeta. unfold ldmem. rewrite bind_gets. fold (pde (k_mem s) d va).
  fold (present (pde (k_mem s) d va)). destruct (present (pde (k_mem s) d va)) eqn:Hp.
  - exists [], l, s. split; [done|].
    constructor; auto; [|reflexivity|by apply changes_refl]. replace (list_to_set [] ∪ T) with T by set_solver. by constructor.
  - destruct l as [|t l]; [by destruct Hor|]. cbn [negb]. pose proof (km_pages _ _ Hk) as Hpg. apply Forall_cons in Hpg as [Ht Hpg].
    pose proof (km_nodup _ _ Hk) as Hnd. apply NoDup_cons in Hnd as [Htl _].
    destruct (Ha t ltac:(set_solver)) as [Htd HtT].
    erewrite bind_run by (by eapply kalloc_some). rewrite (proj2 (Z.eqb_neq t 0)) by (destruct Ht as (_ & _ & _ & ?); lia).
    pose proof (new_table (k_end s) (k_mem s) d T va t Hs Hva Hp Ht Htd HtT) as (N1 & N2 & N3 & N4).
    pose proof (table_changes (k_end s) (k_mem s) d T va t Hs Hva Hp Ht Htd HtT) as N5.
    pose proof (table_ent (k_end s) (k_mem s) d T va t Hs Hva Hp Ht Htd HtT) as N6.
    set (m2 := st32 _ _ _) in *. set (s' := set_k_mem m2 (set_k_freelist (ld32 (k_mem s) t) s)).
    exists [t], l, s'. split.
    + unfold updmem, stmem, updmem. rewrite !bind_modify. cbn [k_mem s' set_k_mem]. by rewrite N3.
    + assert (Hms : memstep s s') by (by destruct s).
      constructor; auto.
      * constructor.
        -- by eapply memstep_lock; [exact Hms|].
        -- eapply (kmem_changes (set_k_freelist (ld32 (k_mem s) t) s) s' {[d; t]}); [by destruct s|done|exact N5|by apply kmem_ok_pop|].
           intros p [->%elem_of_singleton| ->%elem_of_singleton]%elem_of_union; [split; [apply Hs|]|done].
           intros Hd. by destruct (Ha d ltac:(set_solver)).
        -- replace (list_to_set [t] ∪ T) with ({[t]} ∪ T) by set_solver. exact N1.
        -- intros p Hp'. destruct (Ha p ltac:(set_solver)) as [A1 A2]. split; [done|]. set_unfold. intros [[->|[]]|?]; [|done]. done.
      * eapply changes_mono; [exact N5|]. set_solver.
Qed.
End Walk.

(** [s'] follows from [s] by page-table writes for [d] after which the entries are [E]; the
    new tables are [l1], the first of the free pages. *)
Record mapping (s : kernel) (d : Z) (T : gset Z) (l : list Z) (i : nat) (c : cpu) (E : Z -> Z) (l1 l' : list Z) (s' : kernel) : Prop := {
  mp_vms : vms s' d (list_to_set l1 ∪ T) l' i c;
  mp_step : memstep s s';
  mp_list : l = l1 ++ l';
  mp_changes : changes ({[d]} ∪ T ∪ list_to_set l1) (k_mem s) (k_mem s');
  mp_ent : forall va, is_va va -> ent (k_mem s') d va = E va;
  mp_keep : forall va, is_va va -> present (pde (k_mem s) d va) = true -> present (pde (k_mem s') d va) = true
}.

(** The entries after pages [a .. last] are mapped to [pa ..]. *)
Definition range_ent (a last pa perm : Z) (E : Z -> Z) (va : Z) : Z :=
  if (a / PGSIZE <=? va / PGSIZE) && (va / PGSIZE <=? last / PGSIZE)
  then u32 (Z.lor (Z.lor (pa + PGSIZE * (va / PGSIZE - a / PGSIZE)) perm) PTE_P) else E va.

Definition b2z (b : bool) : Z := if b then 1 else 0.

Section Mappages.
Implicit Types (s : kernel) (d va a : Z) (T : gset Z) (l : list Z) (i : nat) (c : cpu).

Lemma mapping_trans s d T l i c E l1 l' s' E' l2 l'' s'' :
  mapping s d T l i c E l1 l' s' -> mapping s' d (list_to_set l1 ∪ T) l' i c E' l2 l'' s'' ->
  mapping s d T l i c E' (l1 ++ l2) l'' s''.
Proof.
  intros A B. pose proof (mp_list _ _ _ _ _ _ _ _ _ _ A) as ->. pose proof (mp_list _ _ _ _ _ _ _ _ _ _ B) as ->.
  constructor; [|etransitivity; [apply A|apply B]|by rewrite app_assoc| |apply B|intros; eapply mp_keep; [exact B|done|]; by eapply mp_keep; [exact A| |]].
  - replace (list_to_set (l1 ++ l2) ∪ T) with (list_to_set l2 ∪ (list_to_set l1 ∪ T)) by set_solver. apply B.
  - eapply changes_trans; [eapply changes_mono; [apply A|set_solver]|eapply changes_mono; [apply B|set_solver]].
Qed.

(** One round of [mappages]. *)
Lemma map_round s d va T l i c v :
  vms s d T l i c -> is_va va -> present (ent (k_mem s) d va) = false -> present (pde (k_mem s) d va) = true \/ l <> [] ->
  exists l1 l' s1 s', walkpgdir d va true s = Ret (tab (k_mem s1) d va + 4 * PTX va) s1 /\ tab (k_mem s1) d va <> 0 /\
    0 <= tab (k_mem s1) d va /\
    present (ld32 (k_mem s1) (tab (k_mem s1) d va + 4 * PTX va)) = false /\
    stmem (tab (k_mem s1) d va + 4 * PTX va) v s1 = Ret tt s' /\
    mapping s d T l i c (fun va' => if va' / PGSIZE =? va / PGSIZE then u32 v else ent (k_mem s) d va') l1 l' s' /\
    present (pde (k_mem s') d va) = true /\
    Z.of_nat (length l1) <= b2z (negb (present (pde (k_mem s) d va))).
Proof.
  intros Hv Hva Hnp Hor. destruct (walk_alloc s d va T l i c Hv Hva Hor) as (l1 & l' & s1 & Hrun & [[W1 W2 W3 W4] W5 W6 W7 W8 W9 W10 W11]).
  pose proof (sp_tabs _ _ _ _ W3 _ (sp_in _ _ _ _ W3 va Hva W8)) as Htok. pose proof Htok as (Ht1 & Ht2 & Ht3 & Ht4).
  destruct (ent_store _ _ _ _ va v W3 Hva W8) as (S1 & S2 & S3). set (m' := st32 _ _ _) in *.
  exists l1, l', s1, (set_k_mem m' s1). split; [done|]. split; [lia|]. split; [lia|]. split.
  { specialize (W9 va Hva). unfold ent in W9 at 1. rewrite W8 in W9. by rewrite W9. }
  split; [done|]. assert (Hms : memstep s1 (set_k_mem m' s1)) by (by destruct s1).
  split; [|split; [cbn [k_mem set_k_mem]; by rewrite (proj2 (S3 va Hva))|]].
  - constructor.
    + constructor; [by eapply memstep_lock| |done|done].
      eapply (kmem_changes s1 _ {[tab (k_mem s1) d va]}); [done|done|exact S2|done|].
      intros p ->%elem_of_singleton. split; [done|]. intros Hin. apply (W4 _ Hin). by apply W3.
    + etransitivity; [exact W5|exact Hms].
    + done.
    + eapply changes_trans; [eapply changes_mono; [exact W7|set_solver]|eapply changes_mono; [exact S2|]].
      pose proof (sp_in _ _ _ _ W3 va Hva W8). set_solver.
    + intros va' Hva'. cbn [k_mem set_k_mem]. rewrite (proj1 (S3 va' Hva')), W9 by done. done.
    + intros va' Hva' Hp. cbn [k_mem set_k_mem]. by rewrite (proj2 (S3 va' Hva')), W10.
  - destruct W11 as [->|[-> ->]]; [|done]. unfold b2z. cbn. by destruct (negb _).
Qed.

Lemma mapping_nil s d T l i c : vms s d T l i c -> mapping s d T l i c (ent (k_mem s) d) [] l s.
Proof.
  intros V. constructor; auto; [|reflexivity|by apply changes_refl].
  replace (list_to_set [] ∪ T) with T by set_solver. exact V.
Qed.

Lemma mapping_ext s d T l i c E E' l1 l' s' :
  mapping s d T l i c E l1 l' s' -> (forall va, is_va va -> E va = E' va) -> mapping s d T l i c E' l1 l' s'.
Proof. intros [] H. constructor; auto. intros va Hva. rewrite <- H by done. auto. Qed.

Lemma PGSIZE_div q k : 0 <= k < PGSIZE -> (PGSIZE * q + k) / PGSIZE = q.
Proof. intros Hk. unfold PGSIZE in *. rewrite Z.mul_comm, Z.div_add_l by lia. rewrite Z.div_small; lia. Qed.

Lemma PDX_page q : 0 <= q < 2 ^ 20 -> PDX (PGSIZE * q) = q / 1024.
Proof.
  intros Hq. rewrite PDX_eq by (unfold PGSIZE; lia). unfold PGSIZE. change (2 ^ 22) with (4096 * 1024).
  by rewrite Z.div_mul_cancel_l.
Qed.

(** The page tables a mapping of the pages [q .. q + n] can take. *)
Definition tables (s : kernel) (d q n : Z) : Z :=
  (q + n) / 1024 - q / 1024 + b2z (negb (present (pde (k_mem s) d (PGSIZE * q)))).

Lemma tables_step s s' d q n x :
  0 <= q -> 0 <= n -> q + 1 + n < 2 ^ 20 -> present (pde (k_mem s') d (PGSIZE * q)) = true ->
  x <= b2z (negb (present (pde (k_mem s) d (PGSIZE * q)))) ->
  x + tables s' d (q + 1) n <= tables s d q (n + 1).
Proof.
  intros Hq Hn0 Hn Hp Hx. unfold tables. replace (q + 1 + n) with (q + (n + 1)) by lia.
  assert (Hcase : (q + 1) / 1024 = q / 1024 \/ (q + 1) / 1024 = q / 1024 + 1).
  { pose proof (Z.div_mod q 1024 ltac:(lia)). pose proof (Z.mod_pos_bound q 1024 ltac:(lia)).
    pose proof (Z.div_mod (q + 1) 1024 ltac:(lia)). pose proof (Z.mod_pos_bound (q + 1) 1024 ltac:(lia)). lia. }
  destruct Hcase as [E|E].
  - assert (E' : pde (k_mem s') d (PGSIZE * (q + 1)) = pde (k_mem s') d (PGSIZE * q)) by (unfold pde; rewrite !PDX_page, E by lia; done).
    rewrite E', Hp, E. cbn [negb b2z]. lia.
  - rewrite E. destruct (present (pde (k_mem s') d (PGSIZE * (q + 1)))); cbn [negb b2z]; lia.
Qed.

Lemma range_ent_step q n pa perm E va :
  0 <= q -> is_va va ->
  range_ent (PGSIZE * (q + 1)) (PGSIZE * (q + 1 + Z.of_nat n)) (pa + PGSIZE) perm
    (fun va' => if va' / PGSIZE =? (PGSIZE * q) / PGSIZE then u32 (Z.lor (Z.lor pa perm) PTE_P) else E va') va =
  range_ent (PGSIZE * q) (PGSIZE * (q + Z.of_nat (S n))) pa perm E va.
Proof.
  intros Hq Hva. unfold range_ent. rewrite !(Z.mul_comm PGSIZE), !Z.div_mul by done. set (p := va / PGSIZE). cbv beta. fold p.
  destruct (Z.leb_spec (q + 1) p), (Z.leb_spec p (q + 1 + Z.of_nat n)), (Z.leb_spec q p), (Z.leb_spec p (q + Z.of_nat (S n)));
    cbn [andb]; try lia; destruct (Z.eqb_spec p q); try lia; try done.
  - do 3 f_equal. lia.
  - do 3 f_equal. lia.
Qed.

(** What [mappages] leaves: all of the range is mapped, or memory ran out before its end. *)
Definition mapped_or_full (s : kernel) (d : Z) (T : gset Z) (l : list Z) (i : nat) (c : cpu) (q n pa perm : Z) (r : Z) (s' : kernel) : Prop :=
  exists E l1 l', mapping s d T l i c E l1 l' s' /\
    (forall va, is_va va -> ~ (q <= va / PGSIZE <= q + n) -> E va = ent (k_mem s) d va) /\
    (r = 0 /\ (forall va, is_va va -> E va = range_ent (PGSIZE * q) (PGSIZE * (q + n)) pa perm (ent (k_mem s) d) va) /\
       Z.of_nat (length l1) <= tables s d q n \/
     r = -1 /\ l' = [] /\ Z.of_nat (length l) < tables s d q n).

Lemma map_store s d q T l i c pa perm k :
  vms s d T l i c -> 0 <= q < 2 ^ 20 -> (forall va, is_va va -> va / PGSIZE = q -> present (ent (k_mem s) d va) = false) ->
  present (pde (k_mem s) d (PGSIZE * q)) = true \/ l <> [] ->
  exists l1 l' s', (let! pte := walkpgdir d (PGSIZE * q) true in
      if pte =? 0 then ret (-1) else
      let! e := ldmem pte in
      if negb (Z.land e PTE_P =? 0) then panic "remap" else
      stmem pte (Z.lor (Z.lor pa perm) PTE_P) ;; k) s = k s' /\
    mapping s d T l i c (fun va => if va / PGSIZE =? q then u32 (Z.lor (Z.lor pa perm) PTE_P) else ent (k_mem s) d va) l1 l' s' /\
    present (pde (k_mem s') d (PGSIZE * q)) = true /\
    Z.of_nat (length l1) <= b2z (negb (present (pde (k_mem s) d (PGSIZE * q)))).
Proof.
  intros Hv Hq Hnp Hor. assert (Hva : is_va (PGSIZE * q)) by (unfold is_va, PGSIZE; lia).
  pose proof (PGSIZE_div q 0 ltac:(done)) as Hdiv. rewrite Z.add_0_r in Hdiv.
  destruct (map_round s d (PGSIZE * q) T l i c (Z.lor (Z.lor pa perm) PTE_P) Hv Hva) as (l1 & l' & s1 & s' & R1 & R2 & R3 & R4 & R5 & R6 & R7 & R8);
    [by apply Hnp|done|]. rewrite Hdiv in R6.
  exists l1, l', s'. split; [|done]. erewrite bind_run by exact R1. rewrite (proj2 (Z.eqb_neq _ 0)) by (pose proof (PTX_range (PGSIZE * q)); lia).
  unfold ldmem. rewrite bind_gets. unfold present in R4. rewrite R4. by erewrite bind_run by exact R5.
Qed.

Lemma walk_full s d va T i c :
  vms s d T [] i c -> present (pde (k_mem s) d va) = false -> walkpgdir d va true s = Ret 0 s.
Proof.
  intros [V1 V2 _ _] Hp. unfold walkpgdir, ldmem. cbv zeta. rewrite bind_gets. fold (pde (k_mem s) d va).
  fold (present (pde (k_mem s) d va)). rewrite Hp. cbn [negb]. by erewrite bind_run by (eapply kalloc_none; done).
Qed.

Lemma range_ent_outside q n pa perm E va : ~ (q <= va / PGSIZE <= q + n) -> range_ent (PGSIZE * q) (PGSIZE * (q + n)) pa perm E va = E va.
Proof.
  intros H. unfold range_ent. rewrite !(Z.mul_comm PGSIZE), !Z.div_mul by done.
  destruct (Z.leb_spec q (va / PGSIZE)), (Z.leb_spec (va / PGSIZE) (q + n)); cbn [andb]; try done. lia.
Qed.

Lemma mappages_loop_full d perm i c n s T l q pa :
  vms s d T l i c -> ~ (present (pde (k_mem s) d (PGSIZE * q)) = true \/ l <> []) ->
  exists r s', mappages_loop (S n) d (PGSIZE * q) (PGSIZE * (q + Z.of_nat n)) pa perm s = Ret r s' /\
    mapped_or_full s d T l i c q (Z.of_nat n) pa perm r s'.
Proof.
  intros Hv Hor. assert (l = []) as -> by (destruct l; [done|destruct Hor; by right]).
  assert (Hp : present (pde (k_mem s) d (PGSIZE * q)) = false) by (destruct (present _); [destruct Hor; by left|done]).
  exists (-1), s. split; [cbn [mappages_loop]; by erewrite bind_run by (by eapply walk_full)|].
  exists (ent (k_mem s) d), [], []. split; [by apply mapping_nil|]. split; [done|]. right. split; [done|]. split; [done|].
  unfold tables. rewrite Hp. cbn [negb b2z length]. pose proof (Z.div_le_mono q (q + Z.of_nat n) 1024 ltac:(done) ltac:(lia)). lia.
Qed.

Lemma mappages_loop_any d perm i c n : forall s T l q pa,
  vms s d T l i c -> 0 <= q -> q + Z.of_nat n < 2 ^ 20 -> 0 <= pa -> pa + PGSIZE * Z.of_nat n < 2 ^ 32 ->
  (forall va, is_va va -> q <= va / PGSIZE <= q + Z.of_nat n -> present (ent (k_mem s) d va) = false) ->
  exists r s', mappages_loop (S n) d (PGSIZE * q) (PGSIZE * (q + Z.of_nat n)) pa perm s = Ret r s' /\
    mapped_or_full s d T l i c q (Z.of_nat n) pa perm r s'.
Proof.
  induction n as [|n IH]; intros s T l q pa Hv Hq Hqn Hpa Hpan Hnp.
  all: destruct (decide (present (pde (k_mem s) d (PGSIZE * q)) = true \/ l <> [])) as [Hor|Hor].
  2,4: by apply mappages_loop_full.
  - destruct (map_store s d q T l i c pa perm (if PGSIZE * q =? PGSIZE * (q + 0) then ret 0 else mappages_loop 0 d (u32 (PGSIZE * q + PGSIZE)) (PGSIZE * (q + 0)) (u32 (pa + PGSIZE)) perm)
      Hv ltac:(lia)) as (l1 & l' & s' & R1 & R2 & R3 & R4); [intros va Hva E; apply Hnp; [done|lia]|done|].
    exists 0, s'. split; [etransitivity; [exact R1|]; by rewrite Z.add_0_r, Z.eqb_refl|].
    eexists _, l1, l'. split; [exact R2|]. split; [intros va Hva Hn; by rewrite (proj2 (Z.eqb_neq _ q)) by lia|].
    left. split; [done|]. split; [|unfold tables; change (Z.of_nat 0) with 0; rewrite Z.add_0_r; lia].
    intros va Hva. cbv beta. change (Z.of_nat 0) with 0. destruct (Z.eqb_spec (va / PGSIZE) q) as [E|E].
    + unfold range_ent. rewrite Z.add_0_r, (Z.mul_comm PGSIZE q), Z.div_mul, E, Z.leb_refl by done. cbn [andb]. do 3 f_equal. lia.
    + rewrite range_ent_outside by lia. done.
  - destruct (map_store s d q T l i c pa perm (if PGSIZE * q =? PGSIZE * (q + Z.of_nat (S n)) then ret 0 else
        mappages_loop (S n) d (u32 (PGSIZE * q + PGSIZE)) (PGSIZE * (q + Z.of_nat (S n))) (u32 (pa + PGSIZE)) perm)
      Hv ltac:(lia)) as (l1 & l' & s' & R1 & R2 & R3 & R4); [intros va Hva E; apply Hnp; [done|lia]|done|].
    pose proof (tables_step s s' d q (Z.of_nat n) _ Hq ltac:(lia) ltac:(lia) R3 R4) as Hts. replace (Z.of_nat n + 1) with (Z.of_nat (S n)) in Hts by lia.
    pose proof (mp_list _ _ _ _ _ _ _ _ _ _ R2) as El.
    destruct (IH s' (list_to_set l1 ∪ T) l' (q + 1) (pa + PGSIZE)) as (r & s'' & Q1 & E & l2 & l'' & Q2 & Q3 & Q4);
      [apply R2|lia|lia|unfold PGSIZE; lia|unfold PGSIZE in *; lia| |].
    { intros va Hva' Hr. rewrite (mp_ent _ _ _ _ _ _ _ _ _ _ R2) by done. rewrite (proj2 (Z.eqb_neq _ q)) by lia. apply Hnp; [done|lia]. }
    exists r, s''. split.
    + etransitivity; [exact R1|]. rewrite (proj2 (Z.eqb_neq _ _)) by (unfold PGSIZE; lia). rewrite !u32_small by (unfold PGSIZE in *; lia).
      replace (PGSIZE * q + PGSIZE) with (PGSIZE * (q + 1)) by lia. replace (q + Z.of_nat (S n)) with (q + 1 + Z.of_nat n) by lia. exact Q1.
    + eexists E, (l1 ++ l2), l''. split; [exact (mapping_trans _ _ _ _ _ _ _ _ _ _ _ _ _ _ R2 Q2)|]. split.
      { intros va Hva Hn. rewrite Q3, (mp_ent _ _ _ _ _ _ _ _ _ _ R2), (proj2 (Z.eqb_neq _ q)) by (done || lia). done. }
      destruct Q4 as [(-> & Q4 & Q5)|(-> & -> & Q5)]; [left|right].
      * split; [done|]. split; [|rewrite length_app; lia]. intros va Hva. rewrite Q4 by done. rewrite <- range_ent_step by done.
        rewrite (Z.mul_comm PGSIZE q), Z.div_mul by done.
        unfold range_ent. destruct (_ && _); [done|]. by apply (mp_ent _ _ _ _ _ _ _ _ _ _ R2).
      * split; [done|]. split; [done|]. rewrite El, length_app. lia.
Qed.

(** [mappages] of the pages [q .. q + n]. *)
Lemma mappages_any d perm i c n s T l q pa size :
  vms s d T l i c -> 0 <= q -> 0 <= n -> q + n < 2 ^ 20 -> 0 <= pa -> pa + PGSIZE * n < 2 ^ 32 ->
  size = PGSIZE * (n + 1) ->
  (forall va, is_va va -> q <= va / PGSIZE <= q + n -> present (ent (k_mem s) d va) = false) ->
  exists r s', mappages d (PGSIZE * q) size pa perm s = Ret r s' /\ mapped_or_full s d T l i c q n pa perm r s'.
Proof.
  intros Hv Hq Hn Hqn Hpa Hpan -> Hnp. unfold mappages. cbv zeta.
  assert (E1 : PGROUNDDOWN (PGSIZE * q) = PGSIZE * q).
  { rewrite PGROUNDDOWN_eq by (unfold PGSIZE; lia). rewrite (Z.mul_comm PGSIZE), Z.mod_mul by done. lia. }
  assert (E2 : PGROUNDDOWN (u32 (PGSIZE * q + PGSIZE * (n + 1) - 1)) = PGSIZE * (q + n)).
  { rewrite u32_small by (unfold PGSIZE; lia). rewrite PGROUNDDOWN_eq by (unfold PGSIZE; lia).
    replace (PGSIZE * q + PGSIZE * (n + 1) - 1) with (PGSIZE - 1 + (q + n) * PGSIZE) by lia.
    rewrite Z.mod_add by done. change ((PGSIZE - 1) mod PGSIZE) with (PGSIZE - 1). lia. }
  rewrite E1, E2. replace (Z.to_nat _) with (S (Z.to_nat n)).
  - rewrite <- (Z2Nat.id n) in * by done. rewrite Nat2Z.id. by apply mappages_loop_any.
  - rewrite u32_small by (unfold PGSIZE; lia). replace (PGSIZE * (q + n) - PGSIZE * q) with (n * PGSIZE) by lia.
    rewrite Z.div_mul by done. lia.
Qed.

(** With room for the page tables. *)
Lemma mappages_ok d perm i c n s T l q pa size :
  vms s d T l i c -> 0 <= q -> 0 <= n -> q + n < 2 ^ 20 -> 0 <= pa -> pa + PGSIZE * n < 2 ^ 32 ->
  size = PGSIZE * (n + 1) ->
  (forall va, is_va va -> q <= va / PGSIZE <= q + n -> present (ent (k_mem s) d va) = false) ->
  tables s d q n <= Z.of_nat (length l) ->
  exists l1 l' s', mappages d (PGSIZE * q) size pa perm s = Ret 0 s' /\
    mapping s d T l i c (range_ent (PGSIZE * q) (PGSIZE * (q + n)) pa perm (ent (k_mem s) d)) l1 l' s' /\
    Z.of_nat (length l1) <= tables s d q n.
Proof.
  intros Hv Hq Hn Hqn Hpa Hpan Hsz Hnp Hl.
  destruct (mappages_any d perm i c n s T l q pa size) as (r & s' & R1 & E & l1 & l' & M & _ & [(-> & HE & Hc)|(_ & _ & Hc)]); [done..| |lia].
  exists l1, l', s'. split; [done|]. split; [|done]. by eapply mapping_ext.
Qed.
End Mappages.

(** * [setupkvm] *)

(** The entry that [kmap] asks for: the kernel's part of every address space. *)
Definition kent (data va : Z) : Z :=
  let p := PGSIZE * (va / PGSIZE) in
  if (KERNBASE <=? va) && (va <? KERNLINK) then p - KERNBASE + (PTE_W + PTE_P)
  else if (KERNLINK <=? va) && (va <? data) then p - KERNBASE + PTE_P
  else if (data <=? va) && (va <? KERNBASE + PHYSTOP) then p - KERNBASE + (PTE_W + PTE_P)
  else if DEVSPACE <=? va then p + (PTE_W + PTE_P)
  else 0.

(** The linker puts [data] at the start of a page after the kernel's text. *)
Definition data_ok (data : Z) : Prop := data mod PGSIZE = 0 /\ KERNLINK < data < KERNBASE + PHYSTOP.

Section Setupkvm.
Implicit Types (s : kernel) (d va : Z) (T : gset Z) (l : list Z) (i : nat) (c : cpu).

Lemma present_u32 x : present (u32 (Z.lor x PTE_P)) = true.
Proof.
  rewrite present_odd, <- Z.bit0_odd. unfold u32. rewrite Z.mod_pow2_bits_low by lia. rewrite Z.lor_spec. apply orb_true_r.
Qed.

Lemma range_ent_in a last pa perm E va :
  a / PGSIZE <= va / PGSIZE <= last / PGSIZE -> present (range_ent a last pa perm E va) = true.
Proof. intros [H1%Z.leb_le H2%Z.leb_le]. unfold range_ent. rewrite H1, H2. apply present_u32. Qed.

Lemma range_ent_out a last pa perm E va :
  ~ (a / PGSIZE <= va / PGSIZE <= last / PGSIZE) -> range_ent a last pa perm E va = E va.
Proof. intros H. unfold range_ent. destruct (Z.leb_spec (a / PGSIZE) (va / PGSIZE)), (Z.leb_spec (va / PGSIZE) (last / PGSIZE)); cbn [andb]; try done. lia. Qed.

Lemma ent_pde m d va : present (ent m d va) = true -> present (pde m d va) = true.
Proof. unfold ent. by destruct (present (pde m d va)). Qed.

(** A new directory maps nothing. *)
Lemma fresh_dir s d l i c :
  kmem_lockable s i c -> kmem_ok s (d :: l) ->
  let s1 := set_k_mem (memset (k_mem s) d 0 PGSIZE) (set_k_freelist (ld32 (k_mem s) d) s) in
  vms s1 d ∅ l i c /\ memstep s s1 /\ changes {[d]} (k_mem s) (k_mem s1) /\
  (forall va, pde (k_mem s1) d va = 0) /\ (forall va, ent (k_mem s1) d va = 0).
Proof.
  intros Hlk Hk s1. pose proof (km_pages _ _ Hk) as Hpg. apply Forall_cons in Hpg as [Hd Hpg].
  pose proof (km_nodup _ _ Hk) as Hnd. apply NoDup_cons in Hnd as [Hdl _].
  assert (Hms : memstep s s1) by (by destruct s).
  assert (Hch : changes {[d]} (k_mem s) (k_mem s1)).
  { intros x Hx. specialize (Hx d ltac:(set_solver)). unfold in_page in Hx. cbn [k_mem s1 set_k_mem]. rewrite memset_spec by done.
    destruct (Z.leb_spec d x), (Z.ltb_spec x (d + PGSIZE)); cbn [andb]; try done. lia. }
  assert (Hz : forall va, pde (k_mem s1) d va = 0).
  { intros va. pose proof (PDX_range va). unfold pde, ld32. cbn [k_mem s1 set_k_mem].
    rewrite !memset_spec by done. unfold PGSIZE.
    repeat (rewrite (proj2 (Z.leb_le _ _)) by lia; rewrite (proj2 (Z.ltb_lt _ _)) by lia). done. }
  split; [|split; [done|split; [done|split; [done|]]]].
  - constructor.
    + by eapply memstep_lock.
    + eapply (kmem_changes (set_k_freelist (ld32 (k_mem s) d) s) s1 {[d]}); [by destruct s|done|exact Hch|by apply kmem_ok_pop|].
      intros p ->%elem_of_singleton. done.
    + constructor; [exact Hd|set_solver|set_solver|intros va; by rewrite Hz|intros va; by rewrite Hz|set_solver].
    + intros p Hp. split; [by intros ->|set_solver].
  - intros va. unfold ent. by rewrite Hz.
Qed.

(** A range of [kmap] is mapped, with at most [B] page tables so far, or memory ran out. *)
Definition region (s : kernel) (d : Z) (T : gset Z) (l : list Z) (i : nat) (c : cpu) (E : Z -> Z) (B r : Z) (s' : kernel) : Prop :=
  r = 0 /\ (exists l1 l', mapping s d T l i c E l1 l' s' /\ Z.of_nat (length l1) <= B) \/
  r = -1 /\ (length l < 64)%nat /\ (exists E' l1, mapping s d T l i c E' l1 [] s' /\ forall va, 0 <= va < KERNBASE -> E' va = 0).

(** One more range on top of a mapping. *)
Lemma map_range s d T l i c E l1 l' s' q n pa perm size B :
  mapping s d T l i c E l1 l' s' -> (forall va, 0 <= va < KERNBASE -> E va = 0) -> 524288 <= q -> 0 <= n -> q + n < 2 ^ 20 ->
  0 <= pa -> pa + PGSIZE * n < 2 ^ 32 ->
  size = PGSIZE * (n + 1) -> (forall va, is_va va -> q <= va / PGSIZE <= q + n -> present (E va) = false) ->
  Z.of_nat (length l1) + tables s' d q n <= B -> B <= 64 ->
  exists r s'', mappages d (PGSIZE * q) size pa perm s' = Ret r s'' /\
    region s d T l i c (range_ent (PGSIZE * q) (PGSIZE * (q + n)) pa perm E) B r s''.
Proof.
  intros M Hu Hq Hn Hqn Hpa Hpan Hsz Hnp HB HB'. pose proof (mp_list _ _ _ _ _ _ _ _ _ _ M) as El.
  destruct (mappages_any d perm i c n s' (list_to_set l1 ∪ T) l' q pa size) as (r & s'' & R1 & E' & l2 & l'' & R2 & R3 & R4); [apply M|lia|done..| |].
  { intros va Hva Hr. rewrite (mp_ent _ _ _ _ _ _ _ _ _ _ M) by done. auto. }
  exists r, s''. split; [done|]. pose proof (mapping_trans _ _ _ _ _ _ _ _ _ _ _ _ _ _ M R2) as M2.
  destruct R4 as [(-> & R4 & R5)|(-> & -> & R5)]; [left|right].
  - split; [done|]. exists (l1 ++ l2), l''. split; [|rewrite length_app; lia]. eapply mapping_ext; [exact M2|].
    intros va Hva. rewrite R4 by done. unfold range_ent. destruct (_ && _); [done|]. by apply (mp_ent _ _ _ _ _ _ _ _ _ _ M).
  - split; [done|]. split; [rewrite El, length_app; lia|]. exists E', (l1 ++ l2). split; [done|]. intros va Hva.
    assert (is_va va) by (unfold is_va, KERNBASE in *; lia). rewrite R3; [|done|].
    + rewrite (mp_ent _ _ _ _ _ _ _ _ _ _ M) by done. auto.
    + pose proof (Z.div_lt_upper_bound va PGSIZE 524288 ltac:(done) ltac:(change (PGSIZE * 524288) with KERNBASE; lia)). lia.
Qed.

(** Pages whose slots share a directory entry with a mapped page need no table of their own. *)
Lemma tables_shared s d T l i c E l1 l' s' q n va :
  mapping s d T l i c E l1 l' s' -> 0 <= q < 2 ^ 20 -> is_va va -> PDX va = q / 1024 -> present (E va) = true ->
  tables s' d q n = (q + n) / 1024 - q / 1024.
Proof.
  intros M Hq Hva Hx Hp. unfold tables.
  assert (Hpr : present (pde (k_mem s') d (PGSIZE * q)) = true).
  { replace (pde (k_mem s') d (PGSIZE * q)) with (pde (k_mem s') d va) by (unfold pde; by rewrite Hx, PDX_page).
    apply ent_pde. by rewrite (mp_ent _ _ _ _ _ _ _ _ _ _ M). }
  rewrite Hpr. cbn. lia.
Qed.

Lemma tables_le s d q n : tables s d q n <= (q + n) / 1024 - q / 1024 + 1.
Proof. unfold tables, b2z. destruct (negb _); lia. Qed.

(** The four ranges of [kmap], [qd] being the page of [data]. *)
Definition kent1 : Z -> Z := range_ent (PGSIZE * 524288) (PGSIZE * (524288 + 255)) 0 PTE_W (fun _ => 0).
Definition kent2 (qd : Z) : Z -> Z := range_ent (PGSIZE * 524544) (PGSIZE * (524544 + (qd - 524545))) EXTMEM 0 kent1.
Definition kent3 (qd : Z) : Z -> Z := range_ent (PGSIZE * qd) (PGSIZE * (qd + (581631 - qd))) (PGSIZE * qd - KERNBASE) PTE_W (kent2 qd).
Definition kent4 (qd : Z) : Z -> Z := range_ent (PGSIZE * 1040384) (PGSIZE * (1040384 + 8191)) DEVSPACE PTE_W (kent3 qd).

Lemma div_PGSIZE q : PGSIZE * q / PGSIZE = q.
Proof. rewrite Z.mul_comm. by apply Z.div_mul. Qed.

Lemma page_bounds va : PGSIZE * (va / PGSIZE) <= va < PGSIZE * (va / PGSIZE) + PGSIZE.
Proof. pose proof (Z.div_mod va PGSIZE ltac:(done)). pose proof (Z.mod_pos_bound va PGSIZE ltac:(done)). lia. Qed.

Lemma kent_value pa f : pa mod PGSIZE = 0 -> 0 <= pa < 2 ^ 32 -> (f = 0 \/ f = PTE_W) -> u32 (Z.lor (Z.lor pa f) PTE_P) = pa + (f + PTE_P).
Proof.
  intros Ha Hr Hf. rewrite <- Z.lor_assoc. assert (E : Z.lor f PTE_P = f + PTE_P) by (by destruct Hf as [-> | ->]). rewrite E.
  assert (Hb : 0 <= f + PTE_P < PGSIZE) by (by destruct Hf as [-> | ->]). rewrite lor_page by done.
  pose proof (page_add pa (f + PTE_P) Ha Hr Hb). apply u32_small. lia.
Qed.

Lemma kent4_eq qd va : 524544 < qd < 581632 -> is_va va -> kent4 qd va = kent (PGSIZE * qd) va.
Proof.
  intros Hqd Hva. pose proof (page_bounds va) as Hb. unfold kent4, kent3, kent2, kent1, range_ent, kent. rewrite !div_PGSIZE.
  unfold is_va in Hva. set (p := va / PGSIZE) in *.
  change KERNBASE with (PGSIZE * 524288) in *. change KERNLINK with (PGSIZE * 524544). change (PGSIZE * 524288 + PHYSTOP) with (PGSIZE * 581632).
  change DEVSPACE with (PGSIZE * 1040384). change EXTMEM with (PGSIZE * 256). unfold PGSIZE in Hb |- *.
  destruct (Z.leb_spec 1040384 p), (Z.leb_spec p (1040384 + 8191)); try lia; cbn [andb].
  - rewrite kent_value; [|rewrite <- Z.mul_add_distr_l, Z.mul_comm; by apply Z.mod_mul|lia|by right].
    cmp_cases; try lia; cbn [andb]; lia.
  - destruct (Z.leb_spec qd p), (Z.leb_spec p (qd + (581631 - qd))); cbn [andb].
    + rewrite kent_value; [|rewrite <- Z.mul_sub_distr_l, <- Z.mul_add_distr_l, Z.mul_comm; by apply Z.mod_mul|lia|by right].
      cmp_cases; try lia; cbn [andb]; lia.
    + destruct (Z.leb_spec 524544 p), (Z.leb_spec p (524544 + (qd - 524545))), (Z.leb_spec 524288 p), (Z.leb_spec p (524288 + 255)); try lia; cbn [andb].
      cmp_cases; try lia; done.
    + destruct (Z.leb_spec 524544 p), (Z.leb_spec p (524544 + (qd - 524545))), (Z.leb_spec 524288 p), (Z.leb_spec p (524288 + 255)); try lia; cbn [andb].
      * rewrite kent_value; [|rewrite <- Z.mul_add_distr_l, Z.mul_comm; by apply Z.mod_mul|lia|by left].
        cmp_cases; try lia; cbn [andb]; lia.
      * rewrite kent_value; [|rewrite Z.add_0_l, Z.mul_comm; by apply Z.mod_mul|lia|by right].
        cmp_cases; try lia; cbn [andb]; lia.
      * cmp_cases; try lia; done.
    + lia.
Qed.

(** The user's half is untouched by the ranges of [kmap]. *)
Lemma kent_user qd va : 524544 < qd < 581632 -> 0 <= va < KERNBASE -> kent1 va = 0 /\ kent2 qd va = 0 /\ kent3 qd va = 0.
Proof.
  intros Hqd Hva. pose proof (Z.div_lt_upper_bound va PGSIZE 524288 ltac:(done) ltac:(change (PGSIZE * 524288) with KERNBASE; lia)) as H.
  unfold kent3, kent2, kent1. rewrite !range_ent_out; [done|rewrite !div_PGSIZE; lia..].
Qed.

Section Kmap.
Context (s : kernel) (d : Z) (T : gset Z) (l : list Z) (i : nat) (c : cpu) (qd : Z).
Hypothesis (Hqd : 524544 < qd < 581632).

Lemma kmap1 l1 l' s' : mapping s d T l i c (fun _ => 0) l1 l' s' -> l1 = [] ->
  exists r s'', mappages d KERNBASE (u32 (EXTMEM - 0)) 0 PTE_W s' = Ret r s'' /\ region s d T l i c kent1 1 r s''.
Proof.
  intros M ->. pose proof (tables_le s' d 524288 255) as Ht. change ((524288 + 255) / 1024 - 524288 / 1024 + 1) with 1 in Ht.
  apply (map_range _ _ _ _ _ _ _ _ _ _ 524288 255 0 PTE_W (u32 (EXTMEM - 0)) 1 M); done.
Qed.

Lemma kmap2 l1 l' s' : mapping s d T l i c kent1 l1 l' s' -> Z.of_nat (length l1) <= 1 ->
  exists r s'', mappages d KERNLINK (u32 (V2P (PGSIZE * qd) - V2P KERNLINK)) (V2P KERNLINK) 0 s' = Ret r s'' /\
    region s d T l i c (kent2 qd) ((qd - 1) / 1024 - 511) r s''.
Proof.
  intros M Hc. pose proof (Z.div_le_mono (qd - 1) 581631 1024 ltac:(done) ltac:(lia)) as Hq. change (581631 / 1024) with 567 in Hq.
  assert (Ht : tables s' d 524544 (qd - 524545) = (qd - 1) / 1024 - 512).
  { rewrite (tables_shared _ _ _ _ _ _ _ _ _ _ _ _ (PGSIZE * 524288) M); [|done|done|done|by apply range_ent_in].
    replace (524544 + (qd - 524545)) with (qd - 1) by lia. done. }
  apply (map_range _ _ _ _ _ _ _ _ _ _ 524544 (qd - 524545) EXTMEM 0 (u32 (V2P (PGSIZE * qd) - V2P KERNLINK)) _ M);
    [intros va Hva; by apply (kent_user qd)|done|lia|lia|done|unfold PGSIZE, EXTMEM; lia| | |lia|lia].
  - unfold V2P. change (u32 (KERNLINK - KERNBASE)) with (PGSIZE * 256). change KERNBASE with (PGSIZE * 524288).
    rewrite (u32_small (_ - _ * 524288)) by (unfold PGSIZE; lia). rewrite u32_small by (unfold PGSIZE; lia). lia.
  - intros va Hva Hr. unfold kent1. rewrite range_ent_out; [done|]. rewrite !div_PGSIZE. lia.
Qed.

Lemma kmap3 l1 l' s' : mapping s d T l i c (kent2 qd) l1 l' s' -> Z.of_nat (length l1) <= (qd - 1) / 1024 - 511 ->
  exists r s'', mappages d (PGSIZE * qd) (u32 (PHYSTOP - V2P (PGSIZE * qd))) (V2P (PGSIZE * qd)) PTE_W s' = Ret r s'' /\
    region s d T l i c (kent3 qd) 56 r s''.
Proof.
  intros M Hc.
  assert (Ht : tables s' d qd (581631 - qd) <= 567 - (qd - 1) / 1024).
  { destruct (decide (qd / 1024 = (qd - 1) / 1024)) as [Ex|Ex].
    - rewrite (tables_shared _ _ _ _ _ _ _ _ _ _ _ _ (PGSIZE * (qd - 1)) M); [|lia|unfold is_va, PGSIZE; lia|rewrite PDX_page by lia; done|].
      + replace (qd + (581631 - qd)) with 581631 by lia. change (581631 / 1024) with 567. lia.
      + apply range_ent_in. rewrite !div_PGSIZE. lia.
    - pose proof (tables_le s' d qd (581631 - qd)) as Ht. replace (qd + (581631 - qd)) with 581631 in Ht by lia. change (581631 / 1024) with 567 in Ht.
      pose proof (Z.div_le_mono (qd - 1) qd 1024 ltac:(done) ltac:(lia)). lia. }
  assert (Ev : V2P (PGSIZE * qd) = PGSIZE * qd - KERNBASE).
  { unfold V2P. change KERNBASE with (PGSIZE * 524288). rewrite u32_small; unfold PGSIZE; lia. }
  rewrite Ev.
  apply (map_range _ _ _ _ _ _ _ _ _ _ qd (581631 - qd) (PGSIZE * qd - KERNBASE) PTE_W (u32 (PHYSTOP - (PGSIZE * qd - KERNBASE))) 56 M);
    [intros va Hva; by apply (kent_user qd)|lia|lia|lia|change KERNBASE with (PGSIZE * 524288); unfold PGSIZE; lia
    |change KERNBASE with (PGSIZE * 524288); unfold PGSIZE; lia| | |lia|done].
  - change KERNBASE with (PGSIZE * 524288). change PHYSTOP with (PGSIZE * 57344). rewrite u32_small; unfold PGSIZE; lia.
  - intros va Hva Hr. unfold kent2, kent1. rewrite !range_ent_out; [done|rewrite !div_PGSIZE; lia..].
Qed.

Lemma kmap4 l1 l' s' : mapping s d T l i c (kent3 qd) l1 l' s' -> Z.of_nat (length l1) <= 56 ->
  exists r s'', mappages d DEVSPACE (u32 (0 - DEVSPACE)) DEVSPACE PTE_W s' = Ret r s'' /\ region s d T l i c (kent4 qd) 64 r s''.
Proof.
  intros M Hc. pose proof (tables_le s' d 1040384 8191) as Ht. change ((1040384 + 8191) / 1024 - 1040384 / 1024 + 1) with 8 in Ht.
  apply (map_range _ _ _ _ _ _ _ _ _ _ 1040384 8191 DEVSPACE PTE_W (u32 (0 - DEVSPACE)) 64 M);
    [intros va Hva; by apply (kent_user qd)|done|done|done|done|done|done| |lia|done].
  intros va Hva Hr. unfold kent3, kent2, kent1. rewrite !range_ent_out; [done|rewrite !div_PGSIZE; lia..].
Qed.
End Kmap.

Lemma data_page data : data_ok data -> exists qd, data = PGSIZE * qd /\ 524544 < qd < 581632.
Proof.
  intros [H0 H]. exists (data / PGSIZE). assert (E : data = PGSIZE * (data / PGSIZE)) by (pose proof (Z.div_mod data PGSIZE ltac:(done)); lia).
  split; [done|]. rewrite E in H. change KERNLINK with (PGSIZE * 524544) in H. change (KERNBASE + PHYSTOP) with (PGSIZE * 581632) in H.
  unfold PGSIZE in *. lia.
Qed.
End Setupkvm.
