(* ===== verification/Uspace.v ===== *)
(** Processes' address spaces: the invariant of the page tables of a process, and [allocuvm],
    [deallocuvm], [copyuvm] and [freevm] of [vm.c] over it. *)

From S2P Require Import Prelude Bytes KString Params State Spinlock Cprintf Kalloc Vm Aspace.
From stdpp Require Import base list gmap sets strings.
From Stdlib Require Import ZArith Lia.
Local Open Scope Z_scope.
Local Open Scope km_scope.

(** * User address spaces *)

(** The console's lock can be taken. *)
Definition cons_lockable (h : hw) (i : nat) (c : cpu) : Prop := on_cpu h i c /\ lock_free h L_cons.

(** The page behind [va]. *)
Definition upage (m : mem) (d va : Z) : Z := P2V (PTE_ADDR (ent m d va)).

Definition is_uva (va : Z) : Prop := 0 <= va < KERNBASE.

(** The address space of a process: the user pages [R] are mapped, each to a page of its own that
    is neither free nor part of the page tables. *)
Record uspace (s : kernel) (d : Z) (T : gset Z) (l : list Z) (i : nat) (c : cpu) (R : Z -> bool) : Prop := {
  us_vms : vms s d T l i c;
  us_map : forall va, is_uva va -> present (ent (k_mem s) d va) = R (va / PGSIZE);
  us_page : forall va, is_uva va -> R (va / PGSIZE) = true ->
    page_ok (k_end s) (upage (k_mem s) d va) /\ (upage (k_mem s) d va <> d) /\ (upage (k_mem s) d va ∉ T) /\ (upage (k_mem s) d va ∉ l);
  us_inj : forall va va', is_uva va -> is_uva va' -> R (va / PGSIZE) = true -> R (va' / PGSIZE) = true ->
    upage (k_mem s) d va = upage (k_mem s) d va' -> va / PGSIZE = va' / PGSIZE;
  us_end : KERNBASE < k_end s
}.

Section Uspace.
Implicit Types (s : kernel) (d va : Z) (T P : gset Z) (l : list Z) (i : nat) (c : cpu) (R : Z -> bool).

Lemma uva_va va : is_uva va -> is_va va.
Proof. unfold is_uva, is_va, KERNBASE. lia. Qed.

Lemma ubyte_page m d va : present (ent m d va) = true -> ubyte m d va = m (upage m d va + va mod PGSIZE).
Proof. intros H. unfold ubyte. by rewrite utrans_ent, H. Qed.

Lemma in_page_off p va : in_page p (p + va mod PGSIZE).
Proof. pose proof (Z.mod_pos_bound va PGSIZE ltac:(done)). unfold in_page. lia. Qed.

Lemma memstep_data s s' : memstep s s' -> k_data s' = k_data s.
Proof. intros ->. by destruct s. Qed.

(** Writes to pages that the address space does not use. *)
Lemma uspace_frame s s' d T l l' i c R P :
  uspace s d T l i c R -> memstep s s' -> changes P (k_mem s) (k_mem s') -> kmem_ok s' l' -> (forall p, p ∈ l' -> p ∈ l \/ p ∈ P) ->
  (forall p, p ∈ P -> page_ok (k_end s) p /\ (p <> d) /\ (p ∉ T) /\ (forall va, is_uva va -> R (va / PGSIZE) = true -> upage (k_mem s) d va <> p)) ->
  uspace s' d T l' i c R /\ (forall va, is_va va -> ent (k_mem s') d va = ent (k_mem s) d va) /\
  (forall va, is_uva va -> R (va / PGSIZE) = true -> ubyte (k_mem s') d va = ubyte (k_mem s) d va).
Proof.
  intros [[V1 V2 V3 V4] U2 U3 U4 U5] Hms Hch Hk Hl HP.
  assert (Hpg : forall q x, page_ok (k_end s) q -> (forall p, p ∈ P -> q <> p) -> in_page q x -> k_mem s' x = k_mem s x).
  { intros q x Hq Hne Hx. apply Hch. intros p Hp Hpx. apply (Hne p Hp). destruct (HP p Hp) as [Hok _]. by eapply page_apart. }
  destruct (ent_frame _ (k_mem s) (k_mem s') d T V3) as [S1 S2].
  { intros x. apply Hpg; [apply V3|]. intros p Hp ->. by destruct (HP p Hp) as (_ & ? & _). }
  { intros t x Ht. apply Hpg; [by apply V3|]. intros p Hp ->. by destruct (HP p Hp) as (_ & _ & ? & _). }
  assert (He : forall va, is_va va -> ent (k_mem s') d va = ent (k_mem s) d va) by (intros va Hva; by apply S2).
  split; [|split; [done|]].
  - constructor.
    + constructor; [by eapply memstep_lock|done|by rewrite (memstep_end _ _ Hms)|].
      intros p [Hp|Hp]%Hl; [auto|]. destruct (HP p Hp) as (_ & ? & ? & _). done.
    + intros va Hva. rewrite He by (by apply uva_va). auto.
    + intros va Hva HR. unfold upage. rewrite He, (memstep_end _ _ Hms) by (by apply uva_va). destruct (U3 va Hva HR) as (A1 & A2 & A3 & A4).
      split; [done|]. split; [done|]. split; [done|]. intros [?|Hp]%Hl; [done|]. destruct (HP _ Hp) as (_ & _ & _ & H). by destruct (H va Hva HR).
    + intros va va' Hva Hva' HR HR'. unfold upage. rewrite !He by (by apply uva_va). by apply U4.
    + by rewrite (memstep_end _ _ Hms).
  - intros va Hva HR. rewrite !ubyte_page by (rewrite ?He by (by apply uva_va); by rewrite U2). unfold upage. rewrite He by (by apply uva_va).
    apply (Hpg (upage (k_mem s) d va)); [by apply U3| |apply in_page_off]. intros p Hp. destruct (HP p Hp) as (_ & _ & _ & H). by apply H.
Qed.

Lemma range_ent_one q pa f E va : range_ent (PGSIZE * q) (PGSIZE * (q + 0)) pa f E va =
  if va / PGSIZE =? q then u32 (Z.lor (Z.lor pa f) PTE_P) else E va.
Proof.
  unfold range_ent. rewrite Z.add_0_r, div_PGSIZE. destruct (Z.eqb_spec (va / PGSIZE) q) as [->|Hne].
  - rewrite Z.leb_refl. cbn [andb]. do 3 f_equal. lia.
  - destruct (Z.leb_spec q (va / PGSIZE)), (Z.leb_spec (va / PGSIZE) q); cbn [andb]; try done. lia.
Qed.

(** The entry for the page [p] with flags [f]. *)
Lemma upte kend p f : page_ok kend p -> 0 <= f < PGSIZE ->
  u32 (Z.lor (Z.lor (V2P p) f) PTE_P) = V2P p + Z.lor f PTE_P /\ present (V2P p + Z.lor f PTE_P) = true /\
  P2V (PTE_ADDR (V2P p + Z.lor f PTE_P)) = p /\ PTE_FLAGS (V2P p + Z.lor f PTE_P) = Z.lor f PTE_P.
Proof.
  intros Hp Hf. destruct (V2P_page kend p Hp) as (H1 & H2 & H3). destruct (pte_value kend p f Hp Hf) as (f' & E & -> & H4 & H5).
  pose proof (page_add _ _ H1 H2 H4). rewrite <- E. split; [|split; [|split]].
  - rewrite E. apply u32_small. lia.
  - rewrite <- (u32_small (Z.lor _ _)) by lia. apply present_u32.
  - rewrite E, pte_addr by (done || lia). done.
  - rewrite E. by apply pte_flags.
Qed.

(** Map a page [p] of memory that nothing else uses at page [q]. *)
Lemma map_upage s d T p l i c R q f :
  uspace s d T l i c R -> page_ok (k_end s) p -> p <> d -> p ∉ T -> p ∉ l ->
  (forall va, is_uva va -> R (va / PGSIZE) = true -> upage (k_mem s) d va <> p) ->
  0 <= q < 524288 -> R q = false -> 0 <= f < PGSIZE -> present (pde (k_mem s) d (PGSIZE * q)) = true \/ l <> [] ->
  exists l1 l' s', mappages d (PGSIZE * q) PGSIZE (V2P p) f s = Ret 0 s' /\
    uspace s' d (list_to_set l1 ∪ T) l' i c (fun k => (k =? q) || R k) /\ memstep s s' /\ l = l1 ++ l' /\ (length l1 <= 1)%nat /\
    changes ({[d]} ∪ T ∪ list_to_set l1) (k_mem s) (k_mem s') /\
    (forall va, is_va va -> ent (k_mem s') d va = if va / PGSIZE =? q then V2P p + Z.lor f PTE_P else ent (k_mem s) d va).
Proof.
  intros [U1 U2 U3 U4 U5] Hp Hpd HpT Hpl Hpu Hq HR Hf Hne. destruct (V2P_page _ p Hp) as (P1 & P2 & P3).
  destruct (upte _ p f Hp Hf) as (Q1 & Q2 & Q3 & _).
  destruct (mappages_ok d f i c 0 s T l q (V2P p) PGSIZE) as (l1 & l' & s' & R1 & [M1 M2 M3 M4 M5 _] & R3);
    [done|lia|done|lia|lia|lia|done| | |].
  { intros va Hva Hr. assert (va / PGSIZE = q) as Eq by lia. rewrite U2; [by rewrite Eq|]. pose proof (page_bounds va).
    rewrite Eq in *. unfold is_uva, KERNBASE, PGSIZE in *. lia. }
  { unfold tables. rewrite Z.add_0_r. destruct Hne as [-> |Hne]; [cbn; lia|]. destruct l; [done|]. cbn [length]. unfold b2z. destruct (negb _); lia. }
  assert (He : forall va, is_va va -> ent (k_mem s') d va = if va / PGSIZE =? q then V2P p + Z.lor f PTE_P else ent (k_mem s) d va).
  { intros va Hva. by rewrite M5, range_ent_one, Q1 by done. }
  exists l1, l', s'. split; [done|]. split; [|split; [done|split; [done|split; [|split; [done|done]]]]].
  - constructor.
    + done.
    + intros va Hva. rewrite He by (by apply uva_va). destruct (va / PGSIZE =? q); [done|]. by apply U2.
    + intros va Hva. unfold upage. rewrite He, (memstep_end _ _ M2) by (by apply uva_va). destruct (va / PGSIZE =? q); cbn [orb].
      * intros _. rewrite Q3. rewrite M3 in Hpl. set_solver.
      * intros HRa. destruct (U3 va Hva HRa) as (A1 & A2 & A3 & A4). rewrite M3 in A4. set_solver.
    + intros va va' Hva Hva'. unfold upage. rewrite !He by (by apply uva_va).
      destruct (Z.eqb_spec (va / PGSIZE) q), (Z.eqb_spec (va' / PGSIZE) q); cbn [orb]; rewrite ?Q3; [congruence| | |by apply U4].
      * intros _ HRa E. symmetry in E. by destruct (Hpu va' Hva' HRa).
      * intros HRa _ E. by destruct (Hpu va Hva HRa).
    + by rewrite (memstep_end _ _ M2).
  - unfold tables, b2z in R3. rewrite Z.add_0_r in R3. destruct (negb _); lia.
Qed.

(** Write the free page [p] and map it at page [q]. *)
Lemma add_page s s1 d T p l i c R q f :
  uspace s d T (p :: l) i c R -> memstep s s1 -> kmem_ok s1 l -> changes {[p]} (k_mem s) (k_mem s1) ->
  0 <= q < 524288 -> R q = false -> 0 <= f < PGSIZE -> present (pde (k_mem s) d (PGSIZE * q)) = true \/ l <> [] ->
  exists l1 l' s', mappages d (PGSIZE * q) PGSIZE (V2P p) f s1 = Ret 0 s' /\
    uspace s' d (list_to_set l1 ∪ T) l' i c (fun k => (k =? q) || R k) /\ memstep s s' /\ l = l1 ++ l' /\ (length l1 <= 1)%nat /\
    changes ({[d]} ∪ T ∪ list_to_set (p :: l1)) (k_mem s) (k_mem s') /\
    (forall va, is_va va -> ent (k_mem s') d va = if va / PGSIZE =? q then V2P p + Z.lor f PTE_P else ent (k_mem s) d va) /\
    (forall va, is_uva va -> va / PGSIZE = q -> ubyte (k_mem s') d va = k_mem s1 (p + va mod PGSIZE)) /\
    (forall va, is_uva va -> R (va / PGSIZE) = true -> ubyte (k_mem s') d va = ubyte (k_mem s) d va).
Proof.
  intros U Hms Hk1 Hch Hq HR Hf Hne. pose proof (us_vms _ _ _ _ _ _ _ U) as [V1 V2 V3 V4].
  destruct (V4 p ltac:(set_solver)) as [Hpd HpT]. pose proof (km_pages _ _ V2) as Hpg. apply Forall_cons in Hpg as [Hp Hpg].
  pose proof (km_nodup _ _ V2) as Hnd. apply NoDup_cons in Hnd as [Hpl _].
  destruct (uspace_frame s s1 d T (p :: l) l i c R {[p]} U Hms Hch Hk1) as (U1 & E1 & B1); [set_solver| |].
  { intros p' ->%elem_of_singleton. split_and!; try done. intros va Hva HRa. destruct (us_page _ _ _ _ _ _ _ U va Hva HRa) as (_ & _ & _ & H). set_solver. }
  assert (Hpu : forall va, is_uva va -> R (va / PGSIZE) = true -> upage (k_mem s) d va <> p).
  { intros va Hva HRa. destruct (us_page _ _ _ _ _ _ _ U va Hva HRa) as (_ & _ & _ & H). set_solver. }
  destruct (map_upage s1 d T p l i c R q f U1) as (l1 & l' & s' & R1 & R2 & R3 & R4 & R5 & R6 & R7);
    [by rewrite (memstep_end _ _ Hms)|done|done|done| |done|done|done| |].
  { intros va Hva HRa. unfold upage. rewrite E1 by (by apply uva_va). by apply Hpu. }
  { destruct Hne as [Hne|Hne]; [left|by right]. rewrite <- Hne. f_equal. apply ld32_out. intros x Hx. apply Hch.
    intros y ->%elem_of_singleton Hy. apply Hpd. eapply page_apart; [done|apply V3|done|by eapply dir_slot]. }
  destruct (upte _ p f Hp Hf) as (_ & Q2 & Q3 & _).
  assert (Hsame : forall x p', in_page p' x -> page_ok (k_end s) p' -> p' <> d -> p' ∉ T -> p' ∉ l -> k_mem s' x = k_mem s1 x).
  { intros x p' Hx Ho Hd HT Hl. apply R6. intros y Hy Hyx.
    assert (Hyo : page_ok (k_end s) y).
    { apply elem_of_union in Hy as [[->%elem_of_singleton|Hy]%elem_of_union|Hy]; [apply V3|by apply V3|].
      rewrite Forall_forall in Hpg. apply Hpg. rewrite R4. set_solver. }
    assert (y = p') as -> by (by eapply page_apart). rewrite R4 in Hl. set_solver. }
  exists l1, l', s'. split; [done|]. split; [done|]. split; [by etransitivity|]. split; [done|]. split; [done|]. split; [|split; [|split]].
  - eapply changes_trans; [eapply changes_mono; [exact Hch|]|eapply changes_mono; [exact R6|]]; set_solver.
  - intros va Hva. by rewrite R7, E1.
  - intros va Hva Hvq. pose proof (R7 va (uva_va _ Hva)) as He. rewrite Hvq, Z.eqb_refl in He. rewrite ubyte_page by (by rewrite He).
    unfold upage. rewrite He, Q3. eapply Hsame; [apply in_page_off|done..].
  - intros va Hva HRa. rewrite <- B1 by done. pose proof (R7 va (uva_va _ Hva)) as He. rewrite (proj2 (Z.eqb_neq _ _)) in He by congruence.
    pose proof (us_map _ _ _ _ _ _ _ U1 va Hva) as Hpr. rewrite HRa in Hpr. destruct (us_page _ _ _ _ _ _ _ U1 va Hva HRa) as (A1 & A2 & A3 & A4).
    rewrite !ubyte_page by (rewrite ?He; done). unfold upage. rewrite He. rewrite (memstep_end _ _ Hms) in A1.
    eapply Hsame; [apply in_page_off|done..].
Qed.

Lemma walk_noalloc s d va :
  walkpgdir d va false s = Ret (if present (pde (k_mem s) d va) then tab (k_mem s) d va + 4 * PTX va else 0) s.
Proof. unfold walkpgdir, ldmem. cbv zeta. rewrite bind_gets. fold (pde (k_mem s) d va). unfold present. by destruct (_ =? 0). Qed.

(** Free the page behind page [q] and clear its entry, as [deallocuvm] does. *)
Lemma drop_page s d T l i c R va :
  uspace s d T l i c R -> is_uva va -> R (va / PGSIZE) = true ->
  let p := upage (k_mem s) d va in
  exists s1 s', kfree p s = Ret tt s1 /\ stmem (tab (k_mem s) d va + 4 * PTX va) 0 s1 = Ret tt s' /\
    uspace s' d T (p :: l) i c (fun k => negb (k =? va / PGSIZE) && R k) /\ memstep s s' /\
    changes ({[p]} ∪ T) (k_mem s) (k_mem s') /\
    (forall va', is_va va' -> ent (k_mem s') d va' = if va' / PGSIZE =? va / PGSIZE then 0 else ent (k_mem s) d va').
Proof.
  intros U Hva HR p. pose proof U as [[V1 V2 V3 V4] U2 U3 U4 U5]. destruct (U3 va Hva HR) as (P1 & P2 & P3 & P4). fold p in P1, P2, P3, P4.
  pose proof (uva_va _ Hva) as Hva'. pose proof (ent_pde _ _ _ (eq_trans (U2 va Hva) HR)) as Hpd.
  pose proof (kfree_eq s p i c V1 P1) as Ef. set (s1 := set_k_freelist p _) in Ef.
  assert (C1 : changes {[p]} (k_mem s) (k_mem s1)).
  { intros x Hx. apply kfree_mem_out. specialize (Hx p ltac:(set_solver)). unfold in_page in Hx. lia. }
  destruct (ent_frame _ (k_mem s) (k_mem s1) d T V3) as [S1 S2].
  { intros x Hx. apply C1. intros y ->%elem_of_singleton Hy. apply P2. eapply page_apart; [done|apply V3|done|done]. }
  { intros t x Ht Hx. apply C1. intros y ->%elem_of_singleton Hy. apply P3. rewrite (page_apart (k_end s) p t x); [done|done|by apply V3|done|done]. }
  assert (Etab : tab (k_mem s1) d va = tab (k_mem s) d va) by (unfold tab; by rewrite (proj2 (S2 va Hva'))).
  destruct (ent_store _ (k_mem s1) d T va 0 S1 Hva') as (S3 & C2 & S4); [by rewrite (proj2 (S2 va Hva'))|].
  rewrite Etab in S3, C2, S4. set (m' := st32 _ _ 0) in *. set (s' := set_k_mem m' s1).
  assert (He : forall va', is_va va' -> ent m' d va' = if va' / PGSIZE =? va / PGSIZE then 0 else ent (k_mem s) d va').
  { intros x Hx. rewrite (proj1 (S4 x Hx)), (proj1 (S2 x Hx)). done. }
  pose proof (sp_in _ _ _ _ V3 va Hva' Hpd) as Htin. assert (Hms : memstep s s') by (by destruct s).
  exists s1, s'. split; [exact Ef|]. split; [done|]. split; [|split; [done|split; [|exact He]]].
  - constructor.
    + constructor; [by eapply memstep_lock| |exact S3|].
      * eapply (kmem_changes s1 s' {[tab (k_mem s) d va]}); [by destruct s|done|exact C2|by apply kmem_ok_push|].
        intros y ->%elem_of_singleton. split; [by apply (sp_tabs _ _ _ _ V3)|]. intros [<-|Hy]%elem_of_cons; [done|by apply (V4 _ Hy)].
      * intros y [->|Hy]%elem_of_cons; [done|by apply V4].
    + intros x Hx. cbn [k_mem s' set_k_mem]. rewrite He by (by apply uva_va). destruct (x / PGSIZE =? va / PGSIZE); [done|]. by apply U2.
    + intros x Hx. unfold upage. cbn [k_mem s' set_k_mem]. rewrite He by (by apply uva_va). destruct (Z.eqb_spec (x / PGSIZE) (va / PGSIZE)); [done|].
      cbn [negb andb]. intros HRx. destruct (U3 x Hx HRx) as (A1 & A2 & A3 & A4). split; [done|]. split; [done|]. split; [done|].
      intros [E|Hin]%elem_of_cons; [|done]. by destruct (U4 x va Hx Hva HRx HR E).
    + intros x y Hx Hy. unfold upage. cbn [k_mem s' set_k_mem]. rewrite !He by (by apply uva_va).
      destruct (x / PGSIZE =? va / PGSIZE), (y / PGSIZE =? va / PGSIZE); try done. cbn [negb andb]. by apply U4.
    + done.
  - eapply changes_trans; [eapply changes_mono; [exact C1|set_solver]|eapply changes_mono; [exact C2|set_solver]].
Qed.

Lemma uspace_ext s d T l i c R R' :
  uspace s d T l i c R -> (forall k, 0 <= k < 524288 -> R k = R' k) -> uspace s d T l i c R'.
Proof.
  intros [U1 U2 U3 U4 U5] H. assert (Hq : forall va, is_uva va -> R' (va / PGSIZE) = R (va / PGSIZE)).
  { intros va Hva. symmetry. apply H. pose proof (page_bounds va). unfold is_uva, KERNBASE, PGSIZE in *. lia. }
  constructor; auto.
  - intros va Hva. rewrite Hq by done. auto.
  - intros va Hva. rewrite Hq by done. auto.
  - intros va va' Hva Hva'. rewrite !Hq by done. auto.
Qed.

(** The bytes of a page that is neither written nor remapped. *)
Lemma ubyte_kept s s' d T l i c R P va :
  uspace s d T l i c R -> is_uva va -> R (va / PGSIZE) = true -> changes P (k_mem s) (k_mem s') ->
  (forall p, p ∈ P -> page_ok (k_end s) p /\ p <> upage (k_mem s) d va) -> ent (k_mem s') d va = ent (k_mem s) d va ->
  ubyte (k_mem s') d va = ubyte (k_mem s) d va.
Proof.
  intros [U1 U2 U3 U4 U5] Hva HR Hch HP He. assert (Hp : present (ent (k_mem s) d va) = true) by (by rewrite U2).
  rewrite !ubyte_page by (by rewrite ?He). unfold upage. rewrite He. apply Hch. intros p Hin Hx.
  destruct (HP p Hin) as [Ho Hne]. apply Hne. eapply page_apart; [done|by apply U3|done|apply in_page_off].
Qed.
End Uspace.

(** * [deallocuvm] *)

(** Pages [q .. qe - 1]. *)
Definition inr (q qe k : Z) : bool := (q <=? k) && (k <? qe).

(** The number of pages of a process of [sz] bytes. *)
Definition npages (sz : Z) : Z := (sz + PGSIZE - 1) / PGSIZE.

(** The pages [q .. qe - 1] are unmapped: those that were mapped, [freed], are on the free list. *)
Record unmapped (s : kernel) (d : Z) (T : gset Z) (l : list Z) (i : nat) (c : cpu) (R : Z -> bool) (q qe : Z) (freed : list Z) (s' : kernel) : Prop := {
  um_uspace : uspace s' d T (freed ++ l) i c (fun k => negb (inr q qe k) && R k);
  um_step : memstep s s';
  um_changes : changes (T ∪ list_to_set freed) (k_mem s) (k_mem s');
  um_ent : forall va, is_va va -> ent (k_mem s') d va = if inr q qe (va / PGSIZE) && R (va / PGSIZE) then 0 else ent (k_mem s) d va;
  um_freed : forall x, x ∈ freed <-> exists va, is_uva va /\ inr q qe (va / PGSIZE) = true /\ R (va / PGSIZE) = true /\ upage (k_mem s) d va = x
}.

Section Dealloc.
Implicit Types (s : kernel) (d va : Z) (T P : gset Z) (l : list Z) (i : nat) (c : cpu) (R : Z -> bool).

Lemma unmapped_nil s d T l i c R q qe :
  uspace s d T l i c R -> (forall k, 0 <= k < 524288 -> inr q qe k = true -> R k = false) -> 0 <= q -> qe <= 524288 -> unmapped s d T l i c R q qe [] s.
Proof.
  intros U H Hq Hqe. assert (Hk : forall k, inr q qe k && R k = false).
  { intros k. destruct (inr q qe k) eqn:E; [|done]. apply H; [|done]. unfold inr in E. apply andb_prop in E as [?%Z.leb_le ?%Z.ltb_lt]. lia. }
  constructor.
  - eapply uspace_ext; [exact U|]. intros k Hkr. destruct (inr q qe k) eqn:E; cbn [negb andb]; [by apply H|done].
  - reflexivity.
  - by apply changes_refl.
  - intros va Hva. by rewrite Hk.
  - intros x. split; [set_solver|]. intros (va & Hva & E1 & E2 & _). specialize (Hk (va / PGSIZE)). by rewrite E1, E2 in Hk.
Qed.

(** Page [q] and then the rest. *)
Lemma unmapped_step s d T l i c R q qe f1 s1 f2 s2 :
  q < qe -> unmapped s d T l i c R q (q + 1) f1 s1 -> unmapped s1 d T (f1 ++ l) i c (fun k => negb (inr q (q + 1) k) && R k) (q + 1) qe f2 s2 ->
  unmapped s d T l i c R q qe (f2 ++ f1) s2.
Proof.
  intros Hlt [A1 A2 A3 A4 A5] [B1 B2 B3 B4 B5].
  assert (Hin : forall k, inr q qe k = inr q (q + 1) k || inr (q + 1) qe k).
  { intros k. unfold inr. cmp_cases; try done; lia. }
  assert (Hdis : forall k, inr q (q + 1) k = true -> inr (q + 1) qe k = false).
  { intros k. unfold inr. cmp_cases; try done; lia. }
  constructor.
  - rewrite <- app_assoc. eapply uspace_ext; [exact B1|]. intros k Hk. cbv beta. rewrite Hin. by destruct (inr q (q + 1) k), (inr (q + 1) qe k).
  - by etransitivity.
  - eapply changes_trans; [eapply changes_mono; [exact A3|set_solver]|eapply changes_mono; [exact B3|set_solver]].
  - intros va Hva. rewrite B4, A4, Hin by done. pose proof (Hdis (va / PGSIZE)).
    destruct (inr q (q + 1) (va / PGSIZE)), (inr (q + 1) qe (va / PGSIZE)), (R (va / PGSIZE)); naive_solver.
  - intros x. rewrite elem_of_app, A5, B5. split.
    + intros [(va & H1 & H2 & H3 & H4)|(va & H1 & H2 & H3 & H4)]; exists va; rewrite Hin.
      * rewrite H2, orb_true_r. cbv beta in H3. apply andb_prop in H3 as [H3 H3']. split; [done|]. split; [done|]. split; [done|].
        rewrite <- H4. unfold upage. rewrite A4 by (by apply uva_va). by destruct (inr q (q + 1) (va / PGSIZE)).
      * rewrite H2. done.
    + intros (va & H1 & H2 & H3 & H4). rewrite Hin in H2. destruct (inr q (q + 1) (va / PGSIZE)) eqn:E.
      * right. exists va. done.
      * left. exists va. cbv beta. rewrite E. split; [done|]. split; [done|]. split; [done|]. rewrite <- H4. unfold upage.
        rewrite A4 by (by apply uva_va). by rewrite E.
Qed.

Lemma npages_spec sz q : 0 <= sz -> (sz <= PGSIZE * q <-> npages sz <= q).
Proof. intros H. unfold npages, PGSIZE. pose proof (Z.div_mod (sz + 4096 - 1) 4096 ltac:(done)). pose proof (Z.mod_pos_bound (sz + 4096 - 1) 4096 ltac:(done)). lia. Qed.

(** The address [deallocuvm] goes on with when there is no page table. *)
Lemma next_table q : 0 <= q < 524288 ->
  u32 (u32 (PGADDR (PDX (PGSIZE * q) + 1) 0 0 - PGSIZE) + PGSIZE) = PGSIZE * (1024 * (q / 1024 + 1)).
Proof.
  intros Hq. rewrite PDX_page by lia. unfold PGADDR. assert (0 <= q / 1024 < 512).
  { split; [apply Z.div_pos; lia|]. apply Z.div_lt_upper_bound; lia. }
  rewrite !Z.shiftl_mul_pow2, !Z.mul_0_l, !Z.lor_0_r by lia. change (2 ^ 22) with 4194304. unfold PGSIZE.
  rewrite ?(u32_small (_ * 4194304)) by lia. rewrite (u32_small (_ - _)) by lia. rewrite u32_small by lia. lia.
Qed.

(** Skipping pages that are not mapped. *)
Lemma unmapped_skip s d T l i c R q q' qe f s' :
  q <= q' -> 0 <= q -> (forall k, q <= k < q' -> k < 524288 -> R k = false) -> qe <= 524288 ->
  unmapped s d T l i c R q' qe f s' -> unmapped s d T l i c R q qe f s'.
Proof.
  intros Hle Hq HR Hqe [A1 A2 A3 A4 A5].
  assert (Hin : forall k, inr q qe k && R k = inr q' qe k && R k).
  { intros k. unfold inr. cmp_cases; cbn [andb]; try done; try lia. apply HR; lia. }
  constructor; auto.
  - eapply uspace_ext; [exact A1|]. intros k Hk. cbv beta. specialize (Hin k). destruct (R k); [|by rewrite !andb_false_r].
    rewrite !andb_true_r in Hin. by rewrite Hin.
  - intros va Hva. rewrite A4, Hin by done. done.
  - intros x. rewrite A5. split; intros (va & H1 & H2 & H3 & H4); exists va; specialize (Hin (va / PGSIZE)); rewrite H3, !andb_true_r in Hin; by rewrite Hin in *.
Qed.

Lemma uva_page q : 0 <= q < 524288 -> is_uva (PGSIZE * q).
Proof. unfold is_uva, KERNBASE, PGSIZE. lia. Qed.

(** One round of [deallocuvm] at a page with a page table. *)
Lemma dealloc_round s d T l i c R q :
  uspace s d T l i c R -> 0 <= q < 524288 -> present (pde (k_mem s) d (PGSIZE * q)) = true ->
  let pte := tab (k_mem s) d (PGSIZE * q) + 4 * PTX (PGSIZE * q) in
  exists f s', (let! e := ldmem pte in
     if negb (Z.land e PTE_P =? 0) then
       let pa := PTE_ADDR e in if pa =? 0 then panic "kfree" else kfree (P2V pa) ;; stmem pte 0
     else ret tt) s = Ret tt s' /\ unmapped s d T l i c R q (q + 1) f s'.
Proof.
  intros U Hq Hp pte. pose proof (uva_page q Hq) as Hva. pose proof (uva_va _ Hva) as Hva'. pose proof (div_PGSIZE q) as Hdiv.
  assert (Hent : ent (k_mem s) d (PGSIZE * q) = ld32 (k_mem s) pte) by (unfold ent; by rewrite Hp).
  unfold ldmem. rewrite bind_gets, <- Hent. fold (present (ent (k_mem s) d (PGSIZE * q))). rewrite (us_map _ _ _ _ _ _ _ U _ Hva), Hdiv.
  assert (Hinr : forall k, inr q (q + 1) k = (k =? q)).
  { intros k. unfold inr. destruct (Z.eqb_spec k q); cmp_cases; try done; lia. }
  destruct (R q) eqn:HR.
  - destruct (drop_page s d T l i c R (PGSIZE * q) U Hva) as (s1 & s' & F1 & F2 & F3 & F4 & F5 & F6); [by rewrite Hdiv|].
    rewrite Hdiv in F3, F6. set (p := upage (k_mem s) d (PGSIZE * q)) in *. exists [p], s'. split.
    + cbv zeta. destruct (Z.eqb_spec (PTE_ADDR (ent (k_mem s) d (PGSIZE * q))) 0) as [E0|E0].
      * exfalso. pose proof (us_page _ _ _ _ _ _ _ U _ Hva ltac:(by rewrite Hdiv)) as ((_ & Hk & _ & _) & _). fold p in Hk.
        unfold p, upage in Hk. rewrite E0 in Hk. pose proof (us_end _ _ _ _ _ _ _ U). change (P2V 0) with KERNBASE in Hk. lia.
      * erewrite bind_run by exact F1. exact F2.
    + constructor.
      * eapply uspace_ext; [exact F3|]. intros k _. cbv beta. by rewrite Hinr.
      * done.
      * eapply changes_mono; [exact F5|set_solver].
      * intros va Hva2. rewrite F6, Hinr by done. destruct (Z.eqb_spec (va / PGSIZE) q) as [->|]; [by rewrite HR|done].
      * intros x. rewrite list_elem_of_singleton. split.
        -- intros ->. exists (PGSIZE * q). rewrite Hinr, Hdiv, Z.eqb_refl. done.
        -- intros (va & H1 & H2 & H3 & <-). rewrite Hinr in H2. apply Z.eqb_eq in H2. unfold p, upage. do 2 f_equal.
           apply ent_same_page; [by apply uva_va|done|by rewrite Hdiv].
  - exists [], s. split; [done|]. apply unmapped_nil; [done| |lia|lia].
    intros k Hk. rewrite Hinr. by intros ->%Z.eqb_eq.
Qed.

Lemma deallocuvm_loop_ok d T i c oldsz fuel : forall s l R q,
  uspace s d T l i c R -> 0 <= q -> 0 <= oldsz <= KERNBASE -> (Z.to_nat (npages oldsz - q) <= fuel)%nat ->
  exists f s', deallocuvm_loop fuel d (PGSIZE * q) oldsz s = Ret tt s' /\ unmapped s d T l i c R q (npages oldsz) f s'.
Proof.
  induction fuel as [|fuel IH]; intros s l R q U Hq Hsz Hf.
  all: assert (Hqe : npages oldsz <= 524288) by (apply npages_spec; [lia|change (PGSIZE * 524288) with KERNBASE; lia]).
  - exists [], s. assert (npages oldsz <= q) by lia. cbn [deallocuvm_loop].
    rewrite (proj2 (Z.leb_le _ _)) by (apply npages_spec; lia). split; [done|]. apply unmapped_nil; auto.
    intros k _. unfold inr. cmp_cases; try done. lia.
  - cbn [deallocuvm_loop]. destruct (Z.leb_spec oldsz (PGSIZE * q)) as [Hle|Hlt].
    { exists [], s. split; [done|]. apply npages_spec in Hle; [|lia]. apply unmapped_nil; auto. intros k _. unfold inr. cmp_cases; try done. lia. }
    assert (Hqlt : q < npages oldsz) by (destruct (Z.lt_ge_cases q (npages oldsz)) as [|H]; [done|apply npages_spec in H; lia]).
    erewrite bind_run by apply walk_noalloc. pose proof (us_vms _ _ _ _ _ _ _ U) as [_ _ V3 _].
    destruct (present (pde (k_mem s) d (PGSIZE * q))) eqn:Hp.
    + pose proof (sp_tabs _ _ _ _ V3 _ (sp_in _ _ _ _ V3 _ (uva_va _ (uva_page q ltac:(lia))) Hp)) as (_ & _ & _ & Ht).
      rewrite (proj2 (Z.eqb_neq _ 0)) by (pose proof (PTX_range (PGSIZE * q)); lia).
      destruct (dealloc_round s d T l i c R q U ltac:(lia) Hp) as (f1 & s1 & E1 & U1).
      destruct (IH s1 (f1 ++ l) (fun k => negb (inr q (q + 1) k) && R k) (q + 1)) as (f2 & s2 & E2 & U2); [apply U1|lia|done|lia|].
      exists (f2 ++ f1), s2. split; [|by eapply unmapped_step].
      assert (Eb : forall (k : Z -> K unit) (m2 : K unit) s0, (let! e := ldmem (tab (k_mem s) d (PGSIZE * q) + 4 * PTX (PGSIZE * q)) in k e ;; m2) s0 =
         ((let! e := ldmem (tab (k_mem s) d (PGSIZE * q) + 4 * PTX (PGSIZE * q)) in k e) ;; m2) s0).
      { intros k m2 s0. unfold ldmem. unfold bind at 3. by rewrite !bind_gets. }
      rewrite Eb. erewrite bind_run by exact E1. rewrite u32_small by (unfold PGSIZE; lia).
      replace (PGSIZE * q + PGSIZE) with (PGSIZE * (q + 1)) by lia. exact E2.
    + rewrite Z.eqb_refl. rewrite next_table by lia. pose proof (Z.div_mod q 1024 ltac:(done)). pose proof (Z.mod_pos_bound q 1024 ltac:(done)).
      destruct (IH s l R (1024 * (q / 1024 + 1))) as (f & s' & E & U'); [done|lia|done|lia|].
      exists f, s'. split; [exact E|]. eapply unmapped_skip; [|done| |done|exact U']; [lia|].
      intros k Hk Hk2. rewrite <- (div_PGSIZE k), <- (us_map _ _ _ _ _ _ _ U) by (apply uva_page; lia). unfold ent.
      replace (pde (k_mem s) d (PGSIZE * k)) with (pde (k_mem s) d (PGSIZE * q)); [by rewrite Hp|].
      unfold pde. rewrite !PDX_page by lia. do 2 f_equal. f_equal.
      apply (Z.div_unique _ _ _ (k - 1024 * (q / 1024))); lia.
Qed.

Lemma PGROUNDUP_npages sz : 0 <= sz <= KERNBASE -> PGROUNDUP sz = PGSIZE * npages sz.
Proof. intros H. rewrite PGROUNDUP_eq by (unfold KERNBASE, PGSIZE in *; lia). unfold npages. lia. Qed.

Lemma deallocuvm_ok s d T l i c R oldsz newsz :
  uspace s d T l i c R -> 0 <= newsz -> 0 <= oldsz <= KERNBASE ->
  exists f s', deallocuvm d oldsz newsz s = Ret (Z.min oldsz newsz) s' /\ unmapped s d T l i c R (npages newsz) (npages oldsz) f s'.
Proof.
  intros U Hn Ho. unfold deallocuvm. destruct (Z.leb_spec oldsz newsz) as [Hle|Hlt].
  - exists [], s. rewrite Z.min_l by lia. split; [done|]. assert (npages oldsz <= npages newsz).
    { apply npages_spec; [lia|]. pose proof (proj2 (npages_spec newsz (npages newsz) Hn)). lia. }
    assert (0 <= npages newsz) by (unfold npages, PGSIZE; apply Z.div_pos; lia).
    apply unmapped_nil; [done| |done|].
    + intros k _. unfold inr. cmp_cases; try done. lia.
    + apply npages_spec; [lia|]. change (PGSIZE * 524288) with KERNBASE. lia.
  - rewrite Z.min_r by lia. cbv zeta. rewrite PGROUNDUP_npages by lia.
    assert (0 <= npages newsz) by (unfold npages, PGSIZE; apply Z.div_pos; lia).
    destruct (deallocuvm_loop_ok d T i c oldsz (Z.to_nat ((oldsz - PGSIZE * npages newsz) / PGSIZE + 1)) s l R (npages newsz) U) as (f & s' & E & U'); [done|done| |].
    + set (n := npages newsz) in *. unfold npages, PGSIZE. pose proof (Z.div_mod (oldsz - 4096 * n) 4096 ltac:(done)).
      pose proof (Z.mod_pos_bound (oldsz - 4096 * n) 4096 ltac:(done)). pose proof (Z.div_mod (oldsz + 4096 - 1) 4096 ltac:(done)).
      pose proof (Z.mod_pos_bound (oldsz + 4096 - 1) 4096 ltac:(done)). lia.
    + exists f, s'. split; [|done]. by erewrite bind_run by exact E.
Qed.
End Dealloc.

(** * [allocuvm] *)

(** From [s0] to [s], [allocuvm] has found no memory, printed [out] and undone what it did: the new page tables
    are all it keeps. *)
Record alloc_failed (s0 : kernel) (d : Z) (T0 : gset Z) (l0 : list Z) (i : nat) (c : cpu) (R0 : Z -> bool) (q0 : Z)
    (T : gset Z) (l out : list Z) (s : kernel) : Prop := {
  af_uspace : uspace s d T l i c R0;
  af_step : memstep (put_out out s0) s;
  af_tabs : T0 ⊆ T;
  af_pages : forall x, x ∈ l \/ x ∈ T <-> x ∈ l0 \/ x ∈ T0;
  af_old : forall va, is_uva va -> R0 (va / PGSIZE) = true -> ent (k_mem s) d va = ent (k_mem s0) d va /\ ubyte (k_mem s) d va = ubyte (k_mem s0) d va;
  af_kern : forall va, KERNBASE <= va < 2 ^ 32 -> ent (k_mem s) d va = ent (k_mem s0) d va
}.

(** From [s0] to [s] the pages [q0 .. q - 1] have been added, zeroed and writable by the user; the pages
    [used], the first of the free list, are the new pages and the new page tables. *)
Record grown (s0 : kernel) (d : Z) (T0 : gset Z) (l0 : list Z) (i : nat) (c : cpu) (R0 : Z -> bool) (q0 q : Z)
    (used : list Z) (T : gset Z) (l : list Z) (s : kernel) : Prop := {
  gr_uspace : uspace s d T l i c (fun k => inr q0 q k || R0 k);
  gr_step : memstep s0 s;
  gr_list : l0 = used ++ l;
  gr_tabs : T0 ⊆ T /\ (forall x, x ∈ T -> x ∈ T0 \/ x ∈ used);
  gr_used : forall x, x ∈ used <-> (x ∈ T /\ x ∉ T0) \/ exists va, is_uva va /\ inr q0 q (va / PGSIZE) = true /\ upage (k_mem s) d va = x;
  gr_changes : changes ({[d]} ∪ T0 ∪ list_to_set used) (k_mem s0) (k_mem s);
  gr_ent : forall va, is_va va -> inr q0 q (va / PGSIZE) = false -> ent (k_mem s) d va = ent (k_mem s0) d va;
  gr_new : forall va, is_uva va -> inr q0 q (va / PGSIZE) = true ->
    PTE_FLAGS (ent (k_mem s) d va) = PTE_P + PTE_W + PTE_U /\ ubyte (k_mem s) d va = 0;
  gr_old : forall va, is_uva va -> R0 (va / PGSIZE) = true -> ubyte (k_mem s) d va = ubyte (k_mem s0) d va
}.

Section Alloc.
Implicit Types (s : kernel) (d va : Z) (T P : gset Z) (l : list Z) (R : Z -> bool).
Context (s0 : kernel) (d : Z) (T0 : gset Z) (l0 : list Z) (i : nat) (c : cpu) (R0 : Z -> bool) (q0 : Z).
Hypothesis (U0 : uspace s0 d T0 l0 i c R0) (Hq0 : 0 <= q0).

Lemma inr_nil k : inr q0 q0 k = false.
Proof. unfold inr. cmp_cases; try done. lia. Qed.

Lemma inr_S q k : q0 <= q -> inr q0 (q + 1) k = (k =? q) || inr q0 q k.
Proof. intros H. unfold inr. destruct (Z.eqb_spec k q); cmp_cases; try done; lia. Qed.

Lemma grown_nil : grown s0 d T0 l0 i c R0 q0 q0 [] T0 l0 s0.
Proof.
  constructor; auto.
  - eapply uspace_ext; [exact U0|]. intros k _. by rewrite inr_nil.
  - reflexivity.
  - intros x. split; [set_solver|]. intros [[H1 H2]|(va & _ & H & _)]; [done|by rewrite inr_nil in H].
  - by apply changes_refl.
  - intros va _ H. by rewrite inr_nil in H.
Qed.

Lemma memset_zero m p va : memset m p 0 PGSIZE (p + va mod PGSIZE) = 0.
Proof.
  rewrite memset_spec by done. pose proof (Z.mod_pos_bound va PGSIZE ltac:(done)).
  rewrite (proj2 (Z.leb_le _ _)), (proj2 (Z.ltb_lt _ _)) by lia. done.
Qed.

(** [kalloc] and [memset] of the page it returns. *)
Lemma zero_page s p l :
  kmem_lockable s i c -> kmem_ok s (p :: l) ->
  let s1 := set_k_mem (memset (k_mem s) p 0 PGSIZE) (set_k_freelist (ld32 (k_mem s) p) s) in
  kalloc s = Ret p (set_k_freelist (ld32 (k_mem s) p) s) /\ memstep s s1 /\ kmem_ok s1 l /\ changes {[p]} (k_mem s) (k_mem s1).
Proof.
  intros Hlk Hk s1. destruct (fresh_dir s p l i c Hlk Hk) as ([_ V2 _ _] & M & C & _). split; [by eapply kalloc_some|]. done.
Qed.

Lemma grown_step q used T p l s :
  grown s0 d T0 l0 i c R0 q0 q used T (p :: l) s -> q0 <= q < 524288 -> R0 q = false ->
  present (pde (k_mem s) d (PGSIZE * q)) = true \/ l <> [] ->
  let s1 := set_k_mem (memset (k_mem s) p 0 PGSIZE) (set_k_freelist (ld32 (k_mem s) p) s) in
  exists used' T' l' s', mappages d (PGSIZE * q) PGSIZE (V2P p) (Z.lor PTE_W PTE_U) s1 = Ret 0 s' /\
    grown s0 d T0 l0 i c R0 q0 (q + 1) used' T' l' s' /\ (length used' <= length used + 2)%nat.
Proof.
  intros [G1 G2 G3 G4 G5 G6 G7 G8 G9] Hq HR Hor s1. pose proof (us_vms _ _ _ _ _ _ _ G1) as [V1 V2 V3 V4].
  destruct (zero_page s p l V1 V2) as (_ & Z2 & Z3 & Z4). fold s1 in Z2, Z3, Z4.
  destruct (add_page s s1 d T p l i c _ q (Z.lor PTE_W PTE_U) G1 Z2 Z3 Z4) as (l1 & l' & s' & A1 & A2 & A3 & A4 & A5 & A6 & A7 & A8 & A9); [lia| |done|done|].
  { rewrite HR, orb_false_r. unfold inr. cmp_cases; try done. lia. }
  pose proof (km_pages _ _ V2) as Hpg. apply Forall_cons in Hpg as [Hp _]. destruct (upte _ p (Z.lor PTE_W PTE_U) Hp ltac:(done)) as (_ & _ & P3 & P4).
  assert (Hup : forall va, is_uva va -> upage (k_mem s') d va = if va / PGSIZE =? q then p else upage (k_mem s) d va).
  { intros va Hva. unfold upage. rewrite A7 by (by apply uva_va). by destruct (va / PGSIZE =? q). }
  exists (used ++ p :: l1), (list_to_set l1 ∪ T), l', s'. split; [done|]. split; [|rewrite length_app; cbn [length]; lia].
  constructor.
  - eapply uspace_ext; [exact A2|]. intros k _. rewrite inr_S by lia. by destruct (k =? q).
  - by etransitivity.
  - rewrite G3, A4. by rewrite <- app_assoc.
  - destruct G4 as [G4 G4']. split; [clear - G4; set_solver|]. intros x [Hx|Hx]%elem_of_union.
    + right. clear - Hx. set_solver.
    + destruct (G4' x Hx); [by left|right; apply elem_of_app; by left].
  - intros x. rewrite elem_of_app, elem_of_cons, G5, elem_of_union, elem_of_list_to_set.
    assert (Hl1 : x ∈ l1 -> x ∉ T0).
    { intros Hx Hx0. destruct (V4 x) as [_ Hn]; [rewrite A4; apply elem_of_cons; right; apply elem_of_app; by left|]. by apply Hn, G4. }
    split.
    + intros [[[H1 H2]|(va & H1 & H2 & H3)]|[->|Hx]].
      * left. auto.
      * right. exists va. rewrite inr_S, Hup by (done || lia). rewrite H2, orb_true_r. split_and!; [done|done|].
        destruct (Z.eqb_spec (va / PGSIZE) q); [|done]. unfold inr in H2. apply andb_prop in H2 as [_ ?%Z.ltb_lt]. lia.
      * right. exists (PGSIZE * q). rewrite Hup, inr_S, div_PGSIZE, Z.eqb_refl by (lia || apply uva_page; lia). split; [apply uva_page; lia|done].
      * left. auto.
    + intros [[[Hx|Hx] Hn]|(va & H1 & H2 & H3)].
      * auto.
      * left. left. done.
      * rewrite inr_S in H2 by lia. rewrite Hup in H3 by done. destruct (Z.eqb_spec (va / PGSIZE) q); [by auto|]. left. right. by exists va.
  - destruct G4 as [G4 G4']. eapply changes_trans; [eapply changes_mono; [exact G6|]|eapply changes_mono; [exact A6|]]; intros x.
    + rewrite !elem_of_union, !elem_of_list_to_set, elem_of_app. naive_solver.
    + rewrite !elem_of_union, !elem_of_list_to_set, elem_of_app. intros [[Hx|Hx]|Hx]; [by auto|destruct (G4' x Hx); auto|auto].
  - intros va Hva. rewrite inr_S by lia. intros [Hk1 Hk2]%orb_false_elim. rewrite A7, Hk1 by done. auto.
  - intros va Hva. rewrite inr_S by lia. destruct (Z.eqb_spec (va / PGSIZE) q) as [E|E].
    + intros _. rewrite A7, E, Z.eqb_refl by (by apply uva_va). rewrite P4. split; [done|]. rewrite A8 by done. apply memset_zero.
    + cbn [orb]. intros Hin. destruct (G8 va Hva Hin) as [B1 B2]. rewrite A7, (proj2 (Z.eqb_neq _ _)) by (done || by apply uva_va).
      split; [done|]. rewrite A9 by (done || by rewrite Hin). done.
  - intros va Hva HRa. rewrite A9 by (done || by rewrite HRa, orb_true_r). auto.
Qed.

(** ** Running out of memory *)

Lemma uspace_put_out s T l R out : uspace s d T l i c R -> uspace (put_out out s) d T l i c R.
Proof. intros [[V1 [K1 K2 K3] V3 V4] U2 U3 U4 U5]. constructor; [constructor|..]; auto. by constructor. Qed.

Lemma memstep_put_out s s' out : memstep s s' -> memstep (put_out out s) (put_out out s').
Proof. intros ->. by destruct s. Qed.

Lemma npages_nonneg sz : 0 <= sz -> 0 <= npages sz.
Proof. intros H. unfold npages, PGSIZE. apply Z.div_pos; lia. Qed.

Lemma npages_mono a b : 0 <= a <= b -> npages a <= npages b.
Proof. intros H. unfold npages, PGSIZE. apply Z.div_le_mono; lia. Qed.

Lemma npages_max sz : 0 <= sz <= KERNBASE -> npages sz <= 524288.
Proof. intros H. apply npages_spec; [lia|]. change (PGSIZE * 524288) with KERNBASE. lia. Qed.

(** The clean-up: the pages added so far are freed again. *)
Lemma undo s T l q oldsz newsz fmt :
  q0 = npages oldsz -> 0 <= oldsz <= newsz -> newsz <= KERNBASE -> q <= npages newsz ->
  (forall k, inr q0 (npages newsz) k = true -> R0 k = false) -> uspace s d T l i c (fun k => inr q0 q k || R0 k) ->
  cons_lockable (k_hw s) i c -> cons_ok (k_cons s) -> cformat fmt [] = Some fmt ->
  exists f s', cprintf fmt [] s = Ret tt (put_out fmt s) /\ deallocuvm d newsz oldsz (put_out fmt s) = Ret oldsz s' /\
    uspace s' d T (f ++ l) i c R0 /\ memstep (put_out fmt s) s' /\ changes (T ∪ list_to_set f) (k_mem s) (k_mem s') /\
    (forall va, is_va va -> inr q0 q (va / PGSIZE) = false -> ent (k_mem s') d va = ent (k_mem s) d va) /\
    (forall x, x ∈ f <-> exists va, is_uva va /\ inr q0 q (va / PGSIZE) = true /\ upage (k_mem s) d va = x).
Proof.
  intros -> Ho Hn Hq HR U [V1 Hlc] Hco Hf.
  assert (Hsub : forall k, inr (npages oldsz) q k = true -> inr (npages oldsz) (npages newsz) k = true).
  { intros k. unfold inr. intros [H1 H2%Z.ltb_lt]%andb_prop. rewrite H1. apply Z.ltb_lt. lia. }
  destruct (deallocuvm_ok (put_out fmt s) d T l i c _ newsz oldsz (uspace_put_out _ _ _ _ _ U)) as (f & s' & E & [A1 A2 A3 A4 A5]); [lia|lia|].
  exists f, s'. split; [by eapply cprintf_eq|]. rewrite E, Z.min_r by lia. split; [done|]. split; [|split; [done|split; [done|split]]].
  - eapply uspace_ext; [exact A1|]. intros k _. cbv beta. specialize (HR k). specialize (Hsub k).
    destruct (inr (npages oldsz) (npages newsz) k), (inr (npages oldsz) q k); cbn [negb andb orb]; [by rewrite HR..|by discriminate Hsub|done].
  - intros va Hva Hin. rewrite A4, Hin by done. cbn [orb]. specialize (HR (va / PGSIZE)).
    by destruct (inr (npages oldsz) (npages newsz) (va / PGSIZE)); [rewrite HR|].
  - intros x. rewrite A5. split; intros (va & H1 & H2 & H3); exists va.
    + destruct H3 as [H3 H4]. split; [done|]. split; [|done]. rewrite (HR _ H2), orb_false_r in H3. done.
    + rewrite H2. rewrite (Hsub _ H2). done.
Qed.

Lemma kern_out q va : q <= 524288 -> KERNBASE <= va < 2 ^ 32 -> is_va va /\ inr q0 q (va / PGSIZE) = false.
Proof.
  intros Hq Hva. pose proof (page_bounds va). split; [unfold is_va, KERNBASE in *; lia|]. unfold inr. cmp_cases; try done.
  unfold KERNBASE, PGSIZE in *. lia.
Qed.

(** The pages of the old part are as they were after the clean-up. *)
Lemma undo_old s s' T l f q va :
  uspace s d T l i c (fun k => inr q0 q k || R0 k) -> uspace s' d T (f ++ l) i c R0 -> k_end s' = k_end s ->
  changes (T ∪ list_to_set f) (k_mem s) (k_mem s') -> (forall k, inr q0 q k = true -> R0 k = false) ->
  (forall va, is_va va -> inr q0 q (va / PGSIZE) = false -> ent (k_mem s') d va = ent (k_mem s) d va) ->
  is_uva va -> R0 (va / PGSIZE) = true ->
  ent (k_mem s') d va = ent (k_mem s) d va /\ ubyte (k_mem s') d va = ubyte (k_mem s) d va.
Proof.
  intros U U' Ee Hch HR He Hva HRa. assert (Hin : inr q0 q (va / PGSIZE) = false).
  { destruct (inr q0 q (va / PGSIZE)) eqn:E; [|done]. apply HR in E. congruence. }
  pose proof (He va (uva_va _ Hva) Hin) as E. split; [done|].
  eapply (ubyte_kept s s' d T l); [exact U|done|cbv beta; by rewrite HRa, orb_true_r|exact Hch| |done].
  intros p Hp. pose proof (us_vms _ _ _ _ _ _ _ U) as [_ V2 V3 _]. pose proof (us_vms _ _ _ _ _ _ _ U') as [_ W2 W3 _].
  destruct (us_page _ _ _ _ _ _ _ U' va Hva HRa) as (_ & _ & B3 & B4). unfold upage in B3, B4. rewrite E in B3, B4. fold (upage (k_mem s) d va) in B3, B4.
  apply elem_of_union in Hp as [Hp|Hp].
  - split; [by apply V3|]. by intros ->.
  - apply elem_of_list_to_set in Hp. split.
    + pose proof (km_pages _ _ W2) as Hf. rewrite Forall_forall, Ee in Hf. apply Hf. apply elem_of_app. by left.
    + intros ->. apply B4, elem_of_app. by left.
Qed.

Lemma fail_list q used T s oldsz newsz fmt :
  q0 = npages oldsz -> 0 <= oldsz <= newsz -> newsz < KERNBASE -> q <= npages newsz ->
  (forall k, inr q0 (npages newsz) k = true -> R0 k = false) ->
  grown s0 d T0 l0 i c R0 q0 q used T [] s -> cons_lockable (k_hw s0) i c -> cons_ok (k_cons s0) -> cformat fmt [] = Some fmt ->
  exists l' s', cprintf fmt [] s = Ret tt (put_out fmt s) /\ deallocuvm d newsz oldsz (put_out fmt s) = Ret oldsz s' /\
    alloc_failed s0 d T0 l0 i c R0 q0 T l' fmt s'.
Proof.
  intros Eq Ho Hn Hq HR [G1 G2 G3 G4 G5 G6 G7 G8 G9] Hlc Hco Hf. pose proof (npages_max newsz ltac:(lia)).
  assert (HRq : forall k, inr q0 q k = true -> R0 k = false).
  { intros k Hk. apply HR. unfold inr in *. apply andb_prop in Hk as [Hk1 Hk2%Z.ltb_lt]. rewrite Hk1. apply Z.ltb_lt. lia. }
  destruct (undo s T [] q oldsz newsz fmt Eq Ho ltac:(lia) Hq HR G1) as (f & s' & A1 & A2 & A3 & A4 & A5 & A6 & A7);
    [rewrite G2; by destruct s0|rewrite G2; by destruct s0|done|].
  exists (f ++ []), s'. split; [done|]. split; [done|].
  pose proof (memstep_end _ _ A4) as Ee. constructor.
  - done.
  - etransitivity; [by apply memstep_put_out|exact A4].
  - apply G4.
  - intros x. rewrite G3, !app_nil_r, G5, A7. destruct G4 as [G4 G4']. specialize (G4' x). rewrite G5 in G4'.
    assert (x ∈ T0 -> x ∈ T) by apply G4. destruct (decide (x ∈ T0)); naive_solver.
  - intros va Hva HRa. destruct (undo_old s s' T [] f q va G1 A3 Ee A5 HRq A6 Hva HRa) as [B1 B2]. rewrite B1, B2.
    split; [|auto]. apply G7; [by apply uva_va|]. destruct (inr q0 q (va / PGSIZE)) eqn:E; [|done]. apply HRq in E. congruence.
  - intros va Hva. destruct (kern_out q va ltac:(lia) Hva) as [K1 K2]. rewrite A6, G7 by done. done.
Qed.

(** [mappages] without memory for a page table. *)
Lemma mappages_fail s q pa f T :
  vms s d T [] i c -> 0 <= q < 2 ^ 20 -> present (pde (k_mem s) d (PGSIZE * q)) = false ->
  mappages d (PGSIZE * q) PGSIZE pa f s = Ret (-1) s.
Proof.
  intros [V1 V2 _ _] Hq Hp. unfold mappages. cbv zeta. rewrite !PGROUNDDOWN_eq by (apply u32_range || (unfold PGSIZE; lia)).
  match goal with |- mappages_loop ?n _ _ _ _ _ _ = _ => assert (Hn : exists k, n = S k) end.
  { match goal with |- context[Z.to_nat (u32 ?x / PGSIZE + 1)] => pose proof (Z.div_pos (u32 x) PGSIZE ltac:(apply u32_range) ltac:(done)) end.
    eexists (Nat.pred _). symmetry. apply Nat.succ_pred. lia. }
  destruct Hn as [k ->]. cbn [mappages_loop].
  replace (PGSIZE * q - (PGSIZE * q) mod PGSIZE) with (PGSIZE * q) by (rewrite (Z.mul_comm PGSIZE q), Z.mod_mul by done; lia).
  rewrite (bind_run _ _ _ 0 s); [done|]. unfold walkpgdir, ldmem. cbv zeta. rewrite bind_gets. fold (pde (k_mem s) d (PGSIZE * q)).
  fold (present (pde (k_mem s) d (PGSIZE * q))). rewrite Hp. cbn [negb]. by erewrite bind_run by (eapply kalloc_none; done).
Qed.

Lemma fail_table q used T p s oldsz newsz fmt :
  q0 = npages oldsz -> 0 <= oldsz <= newsz -> newsz < KERNBASE -> q0 <= q < npages newsz ->
  (forall k, inr q0 (npages newsz) k = true -> R0 k = false) ->
  grown s0 d T0 l0 i c R0 q0 q used T [p] s -> present (pde (k_mem s) d (PGSIZE * q)) = false ->
  cons_lockable (k_hw s0) i c -> cons_ok (k_cons s0) -> cformat fmt [] = Some fmt ->
  let s1 := set_k_mem (memset (k_mem s) p 0 PGSIZE) (set_k_freelist (ld32 (k_mem s) p) s) in
  exists l' s2 s', mappages d (PGSIZE * q) PGSIZE (V2P p) (Z.lor PTE_W PTE_U) s1 = Ret (-1) s1 /\
    cprintf fmt [] s1 = Ret tt (put_out fmt s1) /\ deallocuvm d newsz oldsz (put_out fmt s1) = Ret oldsz s2 /\ kfree p s2 = Ret tt s' /\
    alloc_failed s0 d T0 l0 i c R0 q0 T l' fmt s'.
Proof.
  intros Eq Ho Hn Hq HR [G1 G2 G3 G4 G5 G6 G7 G8 G9] Hpd Hlc Hco Hf s1. pose proof (npages_max newsz ltac:(lia)).
  assert (HRq : forall k, inr q0 q k = true -> R0 k = false).
  { intros k Hk. apply HR. unfold inr in *. apply andb_prop in Hk as [Hk1 Hk2%Z.ltb_lt]. rewrite Hk1. apply Z.ltb_lt. lia. }
  pose proof (us_vms _ _ _ _ _ _ _ G1) as [V1 V2 V3 V4]. destruct (zero_page s p [] V1 V2) as (_ & Z2 & Z3 & Z4). fold s1 in Z2, Z3, Z4.
  pose proof (km_pages _ _ V2) as Hpg. apply Forall_cons in Hpg as [Hp _]. destruct (V4 p ltac:(set_solver)) as [Hpd' HpT].
  assert (Hpu : forall va, is_uva va -> inr q0 q (va / PGSIZE) || R0 (va / PGSIZE) = true -> upage (k_mem s) d va <> p).
  { intros va Hva HRa. destruct (us_page _ _ _ _ _ _ _ G1 va Hva HRa) as (_ & _ & _ & H'). set_solver. }
  destruct (uspace_frame s s1 d T [p] [] i c _ {[p]} G1 Z2 Z4 Z3) as (U1 & E1 & B1); [set_solver| |].
  { intros y ->%elem_of_singleton. split_and!; auto. }
  destruct (undo s1 T [] q oldsz newsz fmt Eq Ho ltac:(lia) ltac:(lia) HR U1) as (f & s2 & A1 & A2 & A3 & A4 & A5 & A6 & A7);
    [cbn; rewrite G2; by destruct s0|cbn; rewrite G2; by destruct s0|done|]. rewrite app_nil_r in A3.
  pose proof (memstep_end _ _ A4) as Ee. change (k_end (put_out fmt s1)) with (k_end s) in Ee.
  pose proof (us_vms _ _ _ _ _ _ _ A3) as [W1 W2 W3 W4]. pose proof (kfree_eq s2 p i c W1 ltac:(by rewrite Ee)) as Ek.
  assert (Hpf : p ∉ f). { intros (va & H1 & H2 & H3)%A7. unfold upage in H3. rewrite E1 in H3 by (by apply uva_va). apply (Hpu va H1); [by rewrite H2|done]. }
  assert (Hold : forall va, is_uva va -> R0 (va / PGSIZE) = true -> ent (k_mem s2) d va = ent (k_mem s) d va /\ ubyte (k_mem s2) d va = ubyte (k_mem s) d va).
  { intros va Hva HRa. destruct (undo_old s1 s2 T [] f q va U1 ltac:(by rewrite app_nil_r) Ee A5 HRq A6 Hva HRa) as [-> ->].
    rewrite E1, B1 by (done || by apply uva_va || by rewrite HRa, orb_true_r). done. }
  set (s' := set_k_freelist p _) in Ek. exists (p :: f), s2, s'. split; [|split; [done|split; [done|split; [done|]]]].
  { apply (mappages_fail s1 q _ _ T); [apply U1|lia|]. rewrite <- Hpd. f_equal. apply ld32_out. intros x Hx. apply Z4.
    intros y ->%elem_of_singleton Hy. apply Hpd'. eapply page_apart; [done|apply V3|done|by eapply dir_slot]. }
  assert (C2 : changes {[p]} (k_mem s2) (k_mem s')).
  { intros x Hx. apply kfree_mem_out. specialize (Hx p ltac:(set_solver)). unfold in_page in Hx. lia. }
  destruct (uspace_frame s2 s' d T f (p :: f) i c R0 {[p]} A3) as (U2 & E2 & B2).
  { by destruct s2. } { exact C2. } { apply kmem_ok_push; [by rewrite Ee|done|done]. } { set_solver. }
  { intros y ->%elem_of_singleton. rewrite Ee. split_and!; auto. intros va Hva HRa. unfold upage. rewrite (proj1 (Hold va Hva HRa)).
    apply Hpu; [done|by rewrite HRa, orb_true_r]. }
  constructor.
  - done.
  - etransitivity; [apply memstep_put_out; exact G2|]. etransitivity; [apply memstep_put_out; exact Z2|]. etransitivity; [exact A4|]. by destruct s2.
  - apply G4.
  - intros x. rewrite G3, elem_of_app, elem_of_cons, list_elem_of_singleton, G5, A7. destruct G4 as [G4 G4']. specialize (G4' x). rewrite G5 in G4'.
    assert (Hup : (exists va, is_uva va /\ inr q0 q (va / PGSIZE) = true /\ upage (k_mem s1) d va = x) <->
      (exists va, is_uva va /\ inr q0 q (va / PGSIZE) = true /\ upage (k_mem s) d va = x)).
    { split; intros (va & H1 & H2 & H3); exists va; unfold upage in *; rewrite E1 in * by (by apply uva_va); done. }
    rewrite Hup. assert (x ∈ T0 -> x ∈ T) by apply G4. destruct (decide (x ∈ T0)); naive_solver.
  - intros va Hva HRa. rewrite E2, B2 by (done || by apply uva_va). destruct (Hold va Hva HRa) as [-> ->]. split; [|auto].
    apply G7; [by apply uva_va|]. destruct (inr q0 q (va / PGSIZE)) eqn:E; [|done]. apply HRq in E. congruence.
  - intros va Hva. destruct (kern_out q va ltac:(lia) Hva) as [K1 K2]. rewrite E2, A6, E1, G7 by done. done.
Qed.

Definition oom1 : list Z := str "allocuvm out of memory" ++ [NL].
Definition oom2 : list Z := str "allocuvm out of memory (2)" ++ [NL].

Lemma allocuvm_loop_ok oldsz newsz fuel : forall q used T l s,
  q0 = npages oldsz -> 0 <= oldsz <= newsz -> newsz < KERNBASE -> q0 <= q <= npages newsz ->
  (forall k, inr q0 (npages newsz) k = true -> R0 k = false) ->
  cons_lockable (k_hw s0) i c -> cons_ok (k_cons s0) ->
  grown s0 d T0 l0 i c R0 q0 q used T l s -> Z.of_nat (length used) <= 2 * (q - q0) ->
  (Z.to_nat (npages newsz - q) <= fuel)%nat ->
  (exists used' T' l' s', allocuvm_loop fuel d (PGSIZE * q) oldsz newsz s = Ret newsz s' /\
     grown s0 d T0 l0 i c R0 q0 (npages newsz) used' T' l' s') \/
  (exists T' l' out s', allocuvm_loop fuel d (PGSIZE * q) oldsz newsz s = Ret 0 s' /\
     alloc_failed s0 d T0 l0 i c R0 q0 T' l' out s' /\ Z.of_nat (length l0) < 2 * (npages newsz - q0)).
Proof.
  induction fuel as [|fuel IH]; intros q used T l s Eq Ho Hn Hq HR Hlc Hco G Hc Hf.
  { left. assert (q = npages newsz) as -> by lia. exists used, T, l, s. cbn [allocuvm_loop].
    rewrite (proj2 (Z.leb_le _ _)) by (apply npages_spec; lia). done. }
  cbn [allocuvm_loop]. destruct (Z.leb_spec newsz (PGSIZE * q)) as [Hle|Hlt].
  { left. apply npages_spec in Hle; [|lia]. assert (q = npages newsz) as -> by lia. exists used, T, l, s. done. }
  assert (Hqlt : q < npages newsz) by (destruct (Z.lt_ge_cases q (npages newsz)) as [|H]; [done|apply npages_spec in H; lia]).
  pose proof (npages_max newsz ltac:(lia)) as Hmax. pose proof (gr_list _ _ _ _ _ _ _ _ _ _ _ _ _ G) as El.
  pose proof (us_vms _ _ _ _ _ _ _ (gr_uspace _ _ _ _ _ _ _ _ _ _ _ _ _ G)) as [V1 V2 V3 V4].
  destruct l as [|p l].
  { right. destruct (fail_list q used T s oldsz newsz oom1 Eq Ho Hn ltac:(lia) HR G Hlc Hco eq_refl) as (l' & s' & A1 & A2 & A3).
    exists T, l', oom1, s'. split; [|split; [done|rewrite El, app_nil_r; lia]]. erewrite bind_run by by eapply kalloc_none.
    rewrite Z.eqb_refl. erewrite bind_run by exact A1. by erewrite bind_run by exact A2. }
  destruct (zero_page s p l V1 V2) as (Z1 & _). pose proof (km_pages _ _ V2) as Hpg. apply Forall_cons in Hpg as [(_ & _ & _ & Hp) _].
  set (s1 := set_k_mem (memset (k_mem s) p 0 PGSIZE) (set_k_freelist (ld32 (k_mem s) p) s)).
  assert (Hstep : forall m1 (m2 : Z -> K Z) r, m2 p s1 = r ->
    (let! mem := kalloc in if mem =? 0 then m1 else updmem (fun m => memset m mem 0 PGSIZE) ;; m2 mem) s = r).
  { intros m1 m2 r <-. erewrite bind_run by exact Z1. rewrite (proj2 (Z.eqb_neq p 0)) by lia. by rewrite (bind_run _ _ _ tt s1). }
  destruct (decide (present (pde (k_mem s) d (PGSIZE * q)) = true \/ l <> [])) as [Hor|Hor].
  - assert (HRq : R0 q = false) by (apply HR; unfold inr; rewrite (proj2 (Z.leb_le _ _)), (proj2 (Z.ltb_lt _ _)) by lia; done).
    destruct (grown_step q used T p l s G ltac:(lia) HRq Hor) as (used' & T' & l' & s' & A1 & A2 & A3). fold s1 in A1.
    destruct (IH (q + 1) used' T' l' s' Eq Ho Hn ltac:(lia) HR Hlc Hco A2 ltac:(lia) ltac:(lia)) as [(u2 & T2 & l2 & s2 & B1 & B2)|(T2 & l2 & out & s2 & B1 & B2 & B3)].
    + left. exists u2, T2, l2, s2. split; [|done]. apply Hstep. erewrite bind_run by exact A1. cbn [Z.ltb Z.compare].
      rewrite u32_small by (unfold PGSIZE; lia). replace (PGSIZE * q + PGSIZE) with (PGSIZE * (q + 1)) by lia. exact B1.
    + right. exists T2, l2, out, s2. split; [|done]. apply Hstep. erewrite bind_run by exact A1. cbn [Z.ltb Z.compare].
      rewrite u32_small by (unfold PGSIZE; lia). replace (PGSIZE * q + PGSIZE) with (PGSIZE * (q + 1)) by lia. exact B1.
  - assert (Hpd : present (pde (k_mem s) d (PGSIZE * q)) = false) by (destruct (present _); [destruct Hor; by left|done]).
    assert (l = []) as -> by (destruct l; [done|destruct Hor; by right]).
    right. destruct (fail_table q used T p s oldsz newsz oom2 Eq Ho Hn ltac:(lia) HR G Hpd Hlc Hco eq_refl) as (l' & s2 & s' & A1 & A2 & A3 & A4 & A5).
    fold s1 in A1, A2, A3. exists T, l', oom2, s'. split; [|split; [done|rewrite El, length_app; cbn [length]; lia]].
    apply Hstep. erewrite bind_run by exact A1. cbn [Z.ltb Z.compare]. erewrite bind_run by exact A2. erewrite bind_run by exact A3. by erewrite bind_run by exact A4.
Qed.
End Alloc.

(** * [freevm] *)

Section Freevm.
Context (s1 : kernel) (d : Z) (T : gset Z) (l : list Z) (i : nat) (c : cpu).
Hypothesis (V : vms s1 d T l i c).
Let m1 := k_mem s1.

(** The page tables of the directory entries below [j]. *)
Definition tabs_below (j x : Z) : Prop := exists va, is_va va /\ PDX va < j /\ present (pde m1 d va) = true /\ tab m1 d va = x.

(** [freevm]'s loop has freed the tables [g]. *)
Record freeing (j : Z) (g : list Z) (s : kernel) : Prop := {
  fr_lock : kmem_lockable s i c;
  fr_kmem : kmem_ok s (g ++ l);
  fr_step : memstep s1 s;
  fr_changes : changes T (k_mem s1) (k_mem s);
  fr_list : forall x, x ∈ g <-> tabs_below j x
}.

Definition free_table (n : nat) : K unit :=
  let! e := ldmem (d + 4 * Z.of_nat n) in
  when (negb (Z.land e PTE_P =? 0)) (kfree (P2V (PTE_ADDR e))).

Lemma slot_va j : 0 <= j < 1024 -> is_va (4194304 * j) /\ PDX (4194304 * j) = j.
Proof.
  intros Hj. assert (Hv : is_va (4194304 * j)) by (unfold is_va; lia). split; [done|]. rewrite PDX_eq by done.
  change (2 ^ 22) with 4194304. rewrite Z.mul_comm. by apply Z.div_mul.
Qed.

Lemma dir_kept (n : nat) g s : 0 <= Z.of_nat n < 1024 -> freeing (Z.of_nat n) g s ->
  ld32 (k_mem s) (d + 4 * Z.of_nat n) = pde m1 d (4194304 * Z.of_nat n).
Proof.
  intros Hn F. destruct (slot_va _ Hn) as [_ Ep]. unfold pde. rewrite Ep. apply ld32_out. intros x Hx. apply F.
  intros t Ht Hx2. apply (sp_notin _ _ _ _ (vs_space _ _ _ _ _ _ V)).
  rewrite (page_apart (k_end s1) d t x); [done|apply V|by apply V|unfold in_page, PGSIZE; lia|done].
Qed.

Lemma free_table_ok (n : nat) g s : 0 <= Z.of_nat n < 1024 -> freeing (Z.of_nat n) g s ->
  exists g' s', free_table n s = Ret tt s' /\ freeing (Z.of_nat n + 1) g' s'.
Proof.
  intros Hn F. destruct (slot_va _ Hn) as [Hva Ep]. unfold free_table, ldmem. rewrite bind_gets, (dir_kept n g s Hn F).
  fold (present (pde m1 d (4194304 * Z.of_nat n))). set (va := 4194304 * Z.of_nat n) in *.
  assert (Hnew : forall x, tabs_below (Z.of_nat n + 1) x <-> tabs_below (Z.of_nat n) x \/ present (pde m1 d va) = true /\ tab m1 d va = x).
  { intros x. split.
    - intros (v & H1 & H2 & H3 & H4). destruct (decide (PDX v = Z.of_nat n)) as [E|E]; [right|left; exists v; split_and!; [done|lia|done|done]].
      assert (E' : pde m1 d v = pde m1 d va) by (unfold pde; by rewrite E, Ep). unfold tab in *. by rewrite <- E'.
    - intros [(v & H1 & H2 & H3 & H4)|[H1 H2]]; [exists v; split_and!; [done|lia|done|done]|exists va; split_and!; [done|lia|done|done]]. }
  destruct F as [F1 F2 F3 F4 F5]. destruct (present (pde m1 d va)) eqn:Hp.
  - cbn [when]. fold (tab m1 d va). set (t := tab m1 d va) in *.
    pose proof (sp_in _ _ _ _ (vs_space _ _ _ _ _ _ V) va Hva Hp) as HtT. fold m1 in HtT. fold t in HtT.
    pose proof (sp_tabs _ _ _ _ (vs_space _ _ _ _ _ _ V) t HtT) as Hok. pose proof (memstep_end _ _ F3) as Ee. rewrite <- Ee in Hok.
    exists (t :: g). eexists. split; [by eapply kfree_eq|]. constructor.
    + done.
    + cbn [app]. apply kmem_ok_push; [done| |done]. rewrite elem_of_app, F5. intros [(v & H1 & H2 & H3 & H4)|Hl].
      * pose proof (sp_inj _ _ _ _ (vs_space _ _ _ _ _ _ V) v va H1 Hva H3 Hp H4). lia.
      * by destruct (vs_apart _ _ _ _ _ _ V t Hl).
    + etransitivity; [exact F3|]. by destruct s.
    + eapply changes_trans; [exact F4|]. intros x Hx. apply kfree_mem_out. specialize (Hx t HtT). unfold in_page in Hx. lia.
    + intros x. rewrite elem_of_cons, F5, Hnew. naive_solver.
  - exists g, s. split; [done|]. constructor; auto. intros x. rewrite F5, Hnew. naive_solver.
Qed.

Lemma free_tables_ok n : forall j g s, (j + n = 1024)%nat -> freeing (Z.of_nat j) g s ->
  exists g' s', for_each (seq j n) free_table s = Ret tt s' /\ freeing 1024 g' s'.
Proof.
  induction n as [|n IH]; intros j g s Hj F.
  - exists g, s. split; [done|]. by replace 1024 with (Z.of_nat j) by lia.
  - destruct (free_table_ok j g s ltac:(lia) F) as (g1 & s2 & E1 & F1). replace (Z.of_nat j + 1) with (Z.of_nat (S j)) in F1 by lia.
    destruct (IH (S j) g1 s2 ltac:(lia) F1) as (g2 & s3 & E2 & F2). exists g2, s3. split; [|done].
    cbn [seq for_each]. by erewrite bind_run by exact E1.
Qed.

Lemma freeing_start : freeing 0 [] s1.
Proof.
  constructor; [apply V|apply V|reflexivity|by apply changes_refl|]. intros x. split; [set_solver|].
  intros (va & H1 & H2 & _). pose proof (PDX_range va). lia.
Qed.

Lemma freeing_all g s : freeing 1024 g s -> forall x, x ∈ g <-> x ∈ T.
Proof.
  intros F x. rewrite (fr_list _ _ _ F). split.
  - intros (va & H1 & _ & H2 & <-). by apply V.
  - intros Hx. destruct (sp_onto _ _ _ _ (vs_space _ _ _ _ _ _ V) x Hx) as (va & H1 & H2 & H3).
    exists va. pose proof (PDX_range va). split_and!; [done|lia|done|done].
Qed.
End Freevm.

(** [freevm] frees the user pages, the page tables and the directory, and nothing else. *)
Lemma freevm_ok s d T l i c R :
  uspace s d T l i c R ->
  exists g s', freevm d s = Ret tt s' /\ kmem_lockable s' i c /\ kmem_ok s' (g ++ l) /\ memstep s s' /\
    changes (list_to_set g) (k_mem s) (k_mem s') /\
    (forall x, x ∈ g <-> x = d \/ x ∈ T \/ exists va, is_uva va /\ R (va / PGSIZE) = true /\ upage (k_mem s) d va = x).
Proof.
  intros U. destruct (deallocuvm_ok s d T l i c R KERNBASE 0 U) as (f & s1 & E1 & [A1 A2 A3 A4 A5]); [done|done|].
  pose proof (us_vms _ _ _ _ _ _ _ A1) as V. destruct (free_tables_ok s1 d T (f ++ l) i c V 1024 0 [] s1 eq_refl (freeing_start _ _ _ _ _ _ V)) as (g & s2 & E2 & F).
  pose proof (freeing_all _ _ _ _ _ _ V g s2 F) as Hg. destruct F as [F1 F2 F3 F4 _].
  pose proof (us_vms _ _ _ _ _ _ _ U) as [_ _ V3 V4]. pose proof (sp_dir _ _ _ _ V3) as Hd.
  assert (Ee : k_end s2 = k_end s) by (by rewrite (memstep_end _ _ F3), (memstep_end _ _ A2)).
  assert (Hf : forall x, x ∈ f <-> exists va, is_uva va /\ R (va / PGSIZE) = true /\ upage (k_mem s) d va = x).
  { intros x. rewrite A5. split; [intros (va & H1 & _ & H2); by exists va|]. intros (va & H1 & H2). exists va. split; [done|]. split; [|done].
    pose proof (page_bounds va). unfold inr. change (npages 0) with 0. change (npages KERNBASE) with 524288. unfold is_uva, KERNBASE, PGSIZE in *. cmp_cases; try done; lia. }
  assert (Hdl : d ∉ g ++ f ++ l).
  { rewrite !elem_of_app, Hg. intros [H|[H|H]]; [by apply (sp_notin _ _ _ _ V3)| |by destruct (vs_apart _ _ _ _ _ _ (us_vms _ _ _ _ _ _ _ U) d H)].
    apply Hf in H as (va & H1 & H2 & H3). by destruct (us_page _ _ _ _ _ _ _ U va H1 H2) as (_ & ? & _). }
  exists (d :: g ++ f). eexists. split; [|split; [|split; [|split; [|split]]]].
  - unfold freevm. rewrite (proj2 (Z.eqb_neq d 0)) by (destruct Hd as (_ & _ & _ & ?); lia). erewrite bind_run by exact E1.
    erewrite bind_run by exact E2. eapply kfree_eq; [done|by rewrite Ee].
  - done.
  - cbn [app]. rewrite <- app_assoc. apply kmem_ok_push; [by rewrite Ee|done|done].
  - etransitivity; [exact A2|]. etransitivity; [exact F3|]. by destruct s2.
  - assert (HT : T ∪ list_to_set f ⊆ list_to_set (d :: g ++ f)).
    { intros x. rewrite elem_of_union, !elem_of_list_to_set, elem_of_cons, elem_of_app, Hg. intros [H|H]; auto. }
    eapply changes_trans; [eapply changes_mono; [exact A3|done]|]. eapply changes_trans; [eapply changes_mono; [exact F4|apply union_subseteq in HT; apply HT]|].
    intros x Hx. apply kfree_mem_out. specialize (Hx d ltac:(apply elem_of_list_to_set, elem_of_cons; by left)). unfold in_page in Hx. lia.
  - intros x. rewrite elem_of_cons, elem_of_app, Hg, Hf. done.
Qed.

(** The user pages of a process of [sz] bytes. *)
Definition below (sz : Z) (k : Z) : bool := k <? npages sz.

Section AllocCorrect.
Context (s : kernel) (d : Z) (T : gset Z) (l : list Z) (i : nat) (c : cpu) (oldsz newsz : Z).

(** C8: growing a process. [allocuvm] always returns. Asked for the kernel's part of the address space or for
    less than there is, it does nothing and returns 0 or the old size. Otherwise either it returns the new size: every page
    up to it is mapped, the new ones are zero and the user may write them, they and the new page tables
    come from the head of the free list, the old pages and entries and all other memory are as they were; or it
    returns 0, which happens only with fewer free pages than two per page asked for: the address space has its
    old pages, with their contents, and no page is lost: every page that was free or a page table is so again. *)
Theorem allocuvm_correct :
  uspace s d T l i c (below oldsz) -> 0 <= oldsz <= KERNBASE -> cons_lockable (k_hw s) i c -> cons_ok (k_cons s) ->
  if KERNBASE <=? newsz then allocuvm d oldsz newsz s = Ret 0 s
  else if newsz <? oldsz then allocuvm d oldsz newsz s = Ret oldsz s
  else
    (exists used T' l' s', allocuvm d oldsz newsz s = Ret newsz s' /\
       grown s d T l i c (below oldsz) (npages oldsz) (npages newsz) used T' l' s' /\ uspace s' d T' l' i c (below newsz)) \/
    (exists T' l' out s', allocuvm d oldsz newsz s = Ret 0 s' /\
       alloc_failed s d T l i c (below oldsz) (npages oldsz) T' l' out s' /\
       Z.of_nat (length l) < 2 * (npages newsz - npages oldsz)).
Proof.
  intros U Ho Hlc Hco. unfold allocuvm. destruct (Z.leb_spec KERNBASE newsz) as [|Hn]; [done|].
  destruct (Z.ltb_spec newsz oldsz) as [|Hno]; [done|]. cbv zeta. rewrite PGROUNDUP_npages by done.
  pose proof (npages_nonneg oldsz ltac:(lia)) as Hnn. pose proof (npages_mono oldsz newsz ltac:(lia)) as Hmono.
  pose proof (grown_nil s d T l i c (below oldsz) (npages oldsz) U Hnn) as G.
  destruct (allocuvm_loop_ok s d T l i c (below oldsz) (npages oldsz) U Hnn oldsz newsz
    (Z.to_nat ((newsz - PGSIZE * npages oldsz) / PGSIZE + 1)) (npages oldsz) [] T l s) as [(u & T' & l' & s' & A1 & A2)|A].
  - done.
  - lia.
  - done.
  - lia.
  - intros k. unfold inr, below. cmp_cases; try done. lia.
  - done.
  - done.
  - exact G.
  - cbn [length]. lia.
  - set (n := npages oldsz) in *. unfold npages, PGSIZE. pose proof (Z.div_mod (newsz - 4096 * n) 4096 ltac:(done)).
    pose proof (Z.mod_pos_bound (newsz - 4096 * n) 4096 ltac:(done)). pose proof (Z.div_mod (newsz + 4096 - 1) 4096 ltac:(done)).
    pose proof (Z.mod_pos_bound (newsz + 4096 - 1) 4096 ltac:(done)). lia.
  - left. exists u, T', l', s'. split; [done|]. split; [done|]. eapply uspace_ext; [apply A2|]. intros k Hk. unfold inr, below.
    cmp_cases; try done; lia.
  - right. exact A.
Qed.
End AllocCorrect.

(** * A machine with free pages, and a process on it *)

Definition demo_free (n : nat) : kernel := with_pages (pages 2149580800 n) (set_k_data 2148536320 kernel0).

Lemma demo_free_ok n : (n <= 1000)%nat -> kmem_ok (demo_free n) (pages 2149580800 n).
Proof.
  intros Hn. apply with_pages_ok.
  - apply NoDup_alt. intros a b x. unfold pages. rewrite !list_lookup_fmap. intros Ha Hb.
    destruct (seq 0 n !! a) eqn:E1; [|done]. destruct (seq 0 n !! b) eqn:E2; [|done].
    apply lookup_seq in E1 as [-> _]. apply lookup_seq in E2 as [-> _]. cbn in Ha, Hb. unfold PGSIZE in *. simplify_eq. lia.
  - apply Forall_forall. intros x (k & Hk & ->)%elem_of_pages. unfold page_ok, V2P, PGSIZE, KERNBASE, PHYSTOP.
    change (k_end (set_k_data 2148536320 kernel0)) with 2148532224. rewrite u32_small by lia.
    split; [|lia]. replace (2149580800 + Z.of_nat k * 4096) with ((524800 + Z.of_nat k) * 4096) by lia. by apply Z.mod_mul.
Qed.

(** A page directory that maps nothing, and [n] free pages. *)
Lemma demo_empty n : (n < 1000)%nat -> exists s d l, uspace s d ∅ l 0 cpu0 (below 0) /\ length l = n /\
  cons_lockable (k_hw s) 0 cpu0 /\ cons_ok (k_cons s) /\ data_ok (k_data s).
Proof.
  intros Hn. pose proof (demo_free_ok (S n) ltac:(lia)) as Hk. rewrite pages_S in Hk. set (d := 2149580800) in *. set (l := pages _ n) in *.
  assert (Hlk : kmem_lockable (demo_free (S n)) 0 cpu0) by apply kernel0_mem.
  destruct (fresh_dir _ d l 0 cpu0 Hlk Hk) as (V & _ & _ & _ & He). set (s := set_k_mem _ _) in *.
  exists s, d, l. split; [|split; [unfold l, pages; by rewrite length_map, length_seq|split; [split; [exact on_cpu0|done]|done]]].
  assert (Hno : forall va, is_uva va -> below 0 (va / PGSIZE) = false).
  { intros va Hva. apply Z.ltb_ge. change (npages 0) with 0. apply Z.div_pos; [apply Hva|done]. }
  constructor; [exact V| | | |done].
  - intros va Hva. rewrite He, Hno by done. done.
  - intros va Hva. by rewrite Hno.
  - intros va va' Hva Hva'. by rewrite Hno.
Qed.

(** A process of one page. *)
Lemma demo_process n : (n < 900)%nat -> exists s d T l, uspace s d T l 0 cpu0 (below PGSIZE) /\ (n <= length l)%nat /\ data_ok (k_data s).
Proof.
  intros Hn. destruct (demo_empty (n + 2) ltac:(lia)) as (s0 & d & l0 & U & Hl & _ & _ & Hd). pose proof (grown_nil s0 d ∅ l0 0 cpu0 _ 0 U ltac:(done)) as G.
  destruct l0 as [|p l]; [cbn in Hl; lia|].
  destruct (grown_step s0 d ∅ (p :: l) 0 cpu0 (below 0) 0 U ltac:(done) 0 [] ∅ p l s0 G ltac:(done) eq_refl) as (used & T & l' & s & _ & G' & Hu).
  { right. intros ->. cbn in Hl. lia. }
  exists s, d, T, l'. split; [|split].
  - eapply uspace_ext; [apply G'|]. intros k Hk. unfold inr, below. change (npages PGSIZE) with 1. change (npages 0) with 0. cmp_cases; try done; lia.
  - pose proof (gr_list _ _ _ _ _ _ _ _ _ _ _ _ _ G') as El. apply (f_equal length) in El. rewrite length_app in El. cbn in Hu. lia.
  - by rewrite (memstep_data _ _ (gr_step _ _ _ _ _ _ _ _ _ _ _ _ _ G')).
Qed.

Lemma allocuvm_correct_witness :
  exists s d used T' l' s', allocuvm d 0 PGSIZE s = Ret PGSIZE s' /\ grown s d ∅ (used ++ l') 0 cpu0 (below 0) 0 1 used T' l' s'.
Proof.
  destruct (demo_empty 2 ltac:(lia)) as (s & d & l & U & Hl & Hc & Hco & _).
  pose proof (allocuvm_correct s d ∅ l 0 cpu0 0 PGSIZE U ltac:(done) Hc Hco) as H.
  change (KERNBASE <=? PGSIZE) with false in H. change (PGSIZE <? 0) with false in H. cbv iota in H.
  destruct H as [(used & T' & l' & s' & A1 & A2 & _)|(T' & l' & out & s' & _ & _ & A3)].
  - exists s, d, used, T', l', s'. split; [done|]. change (npages PGSIZE) with 1 in A2. change (npages 0) with 0 in A2.
    rewrite <- (gr_list _ _ _ _ _ _ _ _ _ _ _ _ _ A2). exact A2.
  - exfalso. rewrite Hl in A3. change (npages PGSIZE) with 1 in A3. change (npages 0) with 0 in A3. lia.
Defined.
