(* ===== verification/Ucopy.v ===== *)
(** [setupkvm] and [copyuvm] of [vm.c]: the kernel's half of a new address space, and the copy of
    the user's half that [fork] makes. *)

From S2P Require Import Prelude Bytes KString Params State Spinlock Cprintf Kalloc Vm Aspace Uspace.
From stdpp Require Import base list gmap sets strings.
From Stdlib Require Import ZArith Lia.
Local Open Scope Z_scope.
Local Open Scope km_scope.

(** The free list is again the pages [l], in some order. *)
Record restored (s : kernel) (l : list Z) (i : nat) (c : cpu) (l' : list Z) (s' : kernel) : Prop := {
  rs_lock : kmem_lockable s' i c;
  rs_kmem : kmem_ok s' l';
  rs_step : memstep s s';
  rs_pages : forall x, x ∈ l' <-> x ∈ l;
  rs_changes : changes (list_to_set l) (k_mem s) (k_mem s')
}.

(** A new address space [d] with the kernel's half only, its page tables [l1]. *)
Record kvm_ready (s : kernel) (l : list Z) (i : nat) (c : cpu) (d : Z) (l1 l' : list Z) (s' : kernel) : Prop := {
  kv_list : l = d :: l1 ++ l';
  kv_count : (length l1 <= 64)%nat;
  kv_uspace : uspace s' d (list_to_set l1) l' i c (fun _ => false);
  kv_step : memstep s s';
  kv_changes : changes (list_to_set (d :: l1)) (k_mem s) (k_mem s');
  kv_ent : forall va, is_va va -> ent (k_mem s') d va = kent (k_data s) va
}.

Section Setupkvm.
Context (s : kernel) (d : Z) (l : list Z) (i : nat) (c : cpu).
Hypothesis (Hlk : kmem_lockable s i c) (Hk : kmem_ok s (d :: l)) (Hend : KERNBASE < k_end s).
Let s1 := set_k_mem (memset (k_mem s) d 0 PGSIZE) (set_k_freelist (ld32 (k_mem s) d) s).

Lemma mapping_uspace E l1 l' s' : mapping s1 d ∅ l i c E l1 l' s' -> (forall va, 0 <= va < KERNBASE -> E va = 0) ->
  uspace s' d (list_to_set l1) l' i c (fun _ => false).
Proof.
  intros [M1 M2 _ _ M5 _] HE. rewrite union_empty_r_L in M1. constructor; try done.
  - intros va Hva. by rewrite M5, HE by (done || by apply uva_va).
  - by rewrite (memstep_end _ _ M2).
Qed.

Lemma dir_nonzero : d <> 0.
Proof. pose proof (km_pages _ _ Hk) as Hpg. apply Forall_cons in Hpg as [(_ & _ & _ & Hdr) _]. lia. Qed.

(** After a failed [mappages], [freevm] gives everything back. *)
Lemma region_fail E l1 s' : mapping s1 d ∅ l i c E l1 [] s' -> (forall va, 0 <= va < KERNBASE -> E va = 0) ->
  exists l' s'', freevm d s' = Ret tt s'' /\ restored s (d :: l) i c l' s''.
Proof.
  intros M HE. pose proof (mapping_uspace _ _ _ _ M HE) as U. destruct (fresh_dir s d l i c Hlk Hk) as (_ & N1 & N2 & _). fold s1 in N1, N2.
  destruct (freevm_ok _ _ _ _ _ _ _ U) as (g & s'' & F1 & F2 & F3 & F4 & F5 & F6). rewrite app_nil_r in F3.
  pose proof (mp_list _ _ _ _ _ _ _ _ _ _ M) as El. rewrite app_nil_r in El.
  assert (Hg : forall x, x ∈ g <-> x ∈ d :: l).
  { intros x. rewrite F6, elem_of_list_to_set, elem_of_cons, El. split; [intros [H|[H|(va & _ & H & _)]]; auto; done|]. intros [H|H]; auto. }
  exists g, s''. split; [done|]. constructor; [done|done| |done|].
  - etransitivity; [exact N1|]. etransitivity; [apply M|exact F4].
  - assert (Hsub : list_to_set (d :: l) = ({[d]} ∪ ∅ ∪ list_to_set l1 : gset Z)) by (rewrite El; set_solver).
    rewrite Hsub. eapply changes_trans; [eapply changes_mono; [exact N2|set_solver]|]. eapply changes_trans; [apply M|].
    eapply changes_mono; [exact F5|]. rewrite <- Hsub. intros x. rewrite !elem_of_list_to_set. apply Hg.
Qed.

Definition kmap_body (k : Z * Z * Z * Z) : K (option Z) :=
  let '(virt, phys_start, phys_end, perm) := k in
  let! r := mappages d virt (u32 (phys_end - phys_start)) phys_start perm in
  if r <? 0 then freevm d ;; ret (Some 0) else ret None.

(** One entry of [kmap]: the next state, or 0 and nothing changed. *)
Lemma kmap_entry virt ps pe perm E B rest s' :
  (exists r s'', mappages d virt (u32 (pe - ps)) ps perm s' = Ret r s'' /\ region s1 d ∅ l i c E B r s'') ->
  (exists l1 l' s'', for_find ((virt, ps, pe, perm) :: rest) kmap_body s' = for_find rest kmap_body s'' /\
     mapping s1 d ∅ l i c E l1 l' s'' /\ Z.of_nat (length l1) <= B) \/
  (exists l' s'', for_find ((virt, ps, pe, perm) :: rest) kmap_body s' = Ret (Some 0) s'' /\ restored s (d :: l) i c l' s'' /\ (length l < 64)%nat).
Proof.
  intros (r & s'' & R1 & [[-> (l1 & l' & M & HB)]|(-> & Hl & E' & l1 & M & HE)]).
  - left. exists l1, l', s''. split; [|done]. cbn [for_find]. rewrite (bind_run _ _ _ None s''); [done|]. unfold kmap_body.
    by erewrite bind_run by exact R1.
  - right. destruct (region_fail E' l1 s'' M HE) as (g & s3 & F1 & F2). exists g, s3. split; [|done]. cbn [for_find].
    rewrite (bind_run _ _ _ (Some 0) s3); [done|]. unfold kmap_body. erewrite bind_run by exact R1. cbn [Z.ltb Z.compare]. by erewrite bind_run by exact F1.
Qed.

Lemma setupkvm_split o s' : for_find (Vm.kmap (k_data s)) kmap_body s1 = Ret o s' -> setupkvm s = Ret (default d o) s'.
Proof.
  intros H. unfold setupkvm. erewrite bind_run by (eapply kalloc_some; done). rewrite (proj2 (Z.eqb_neq d 0)) by apply dir_nonzero.
  rewrite (bind_run _ _ _ tt s1) by done. change (DEVSPACE <? P2V PHYSTOP) with false. cbv iota. rewrite bind_gets.
  change (k_data s1) with (k_data s). by rewrite (bind_run _ _ _ o s').
Qed.

Lemma kent_low data va : KERNLINK <= data -> 0 <= va < KERNBASE -> kent data va = 0.
Proof.
  intros Hd Hva. unfold kent. change KERNBASE with 2147483648 in *. change KERNLINK with 2148532224 in *.
  change DEVSPACE with 4261412864. cmp_cases; try lia; done.
Qed.

Lemma kvm_ready_intro qd l1 l' s' : data_ok (k_data s) -> k_data s = PGSIZE * qd -> 524544 < qd < 581632 ->
  mapping s1 d ∅ l i c (kent4 qd) l1 l' s' -> Z.of_nat (length l1) <= 64 -> kvm_ready s (d :: l) i c d l1 l' s'.
Proof.
  intros Hdata Eqd Hqd M Hc. destruct (fresh_dir s d l i c Hlk Hk) as (_ & M1 & C1 & _). fold s1 in M1, C1. constructor.
  - f_equal. apply M.
  - lia.
  - eapply mapping_uspace; [exact M|]. intros va Hva. rewrite kent4_eq by (done || (unfold is_va, KERNBASE in *; lia)).
    rewrite <- Eqd. apply kent_low; [|done]. destruct Hdata. lia.
  - etransitivity; [exact M1|apply M].
  - assert (Hsub : list_to_set (d :: l1) = ({[d]} ∪ ∅ ∪ list_to_set l1 : gset Z)) by set_solver. rewrite Hsub.
    eapply changes_trans; [eapply changes_mono; [exact C1|set_solver]|apply M].
  - intros va Hva. rewrite (mp_ent _ _ _ _ _ _ _ _ _ _ M) by done. rewrite Eqd. by apply kent4_eq.
Qed.

(** All of [kmap]. *)
Lemma kmap_all qd : 524544 < qd < 581632 ->
  (exists l1 l' s', for_find (Vm.kmap (PGSIZE * qd)) kmap_body s1 = Ret None s' /\ mapping s1 d ∅ l i c (kent4 qd) l1 l' s' /\ Z.of_nat (length l1) <= 64) \/
  (exists l' s', for_find (Vm.kmap (PGSIZE * qd)) kmap_body s1 = Ret (Some 0) s' /\ restored s (d :: l) i c l' s' /\ (length l < 64)%nat).
Proof.
  intros Hqd. destruct (fresh_dir s d l i c Hlk Hk) as (V & _ & _ & _ & He). fold s1 in V, He.
  pose proof (mapping_ext _ _ _ _ _ _ _ (fun _ => 0) _ _ _ (mapping_nil _ _ _ _ _ _ V) (fun va _ => He va)) as M0. unfold Vm.kmap.
  destruct (kmap_entry KERNBASE 0 EXTMEM PTE_W _ _ [(KERNLINK, V2P KERNLINK, V2P (PGSIZE * qd), 0); (PGSIZE * qd, V2P (PGSIZE * qd), PHYSTOP, PTE_W); (DEVSPACE, DEVSPACE, 0, PTE_W)]
    _ (kmap1 _ _ _ _ _ _ _ _ _ M0 eq_refl)) as [(l2 & l2' & s2 & -> & N2 & B2)|A]; [|by right].
  destruct (kmap_entry KERNLINK (V2P KERNLINK) (V2P (PGSIZE * qd)) 0 _ _ [(PGSIZE * qd, V2P (PGSIZE * qd), PHYSTOP, PTE_W); (DEVSPACE, DEVSPACE, 0, PTE_W)]
    _ (kmap2 _ _ _ _ _ _ _ Hqd _ _ _ N2 B2)) as [(l3 & l3' & s3 & -> & N3 & B3)|A]; [|by right].
  destruct (kmap_entry (PGSIZE * qd) (V2P (PGSIZE * qd)) PHYSTOP PTE_W _ _ [(DEVSPACE, DEVSPACE, 0, PTE_W)]
    _ (kmap3 _ _ _ _ _ _ _ Hqd _ _ _ N3 B3)) as [(l4 & l4' & s4 & -> & N4 & B4)|A]; [|by right].
  destruct (kmap_entry DEVSPACE DEVSPACE 0 PTE_W _ _ [] _ (kmap4 _ _ _ _ _ _ _ Hqd _ _ _ N4 B4)) as [(l5 & l5' & s5 & -> & N5 & B5)|A]; [|by right].
  left. exists l5, l5', s5. done.
Qed.

Lemma setupkvm_cons : data_ok (k_data s) ->
  (exists l1 l' s', setupkvm s = Ret d s' /\ kvm_ready s (d :: l) i c d l1 l' s') \/
  (exists l' s', setupkvm s = Ret 0 s' /\ restored s (d :: l) i c l' s' /\ (length l < 64)%nat).
Proof.
  intros Hdata. destruct (data_page _ Hdata) as (qd & Eqd & Hqd). pose proof (kmap_all qd Hqd) as H. rewrite <- Eqd in H.
  destruct H as [(l1 & l' & s' & R & M & Hc)|(l' & s' & R & A1 & A2)]; [left|right].
  - exists l1, l', s'. split; [exact (setupkvm_split None s' R)|]. by eapply kvm_ready_intro.
  - exists l', s'. split; [exact (setupkvm_split (Some 0) s' R)|]. done.
Qed.
End Setupkvm.

Lemma setupkvm_run s l i c :
  kmem_lockable s i c -> kmem_ok s l -> KERNBASE < k_end s -> data_ok (k_data s) ->
  (exists d l1 l' s', setupkvm s = Ret d s' /\ d <> 0 /\ kvm_ready s l i c d l1 l' s') \/
  (exists l' s', setupkvm s = Ret 0 s' /\ restored s l i c l' s' /\ (length l < 65)%nat).
Proof.
  intros Hlk Hk He Hd. destruct l as [|d l].
  - right. exists [], s. split; [|split; [|cbn; lia]].
    + unfold setupkvm. by erewrite bind_run by by eapply kalloc_none.
    + constructor; auto; [reflexivity|by apply changes_refl].
  - destruct (setupkvm_cons s d l i c Hlk Hk He Hd) as [(l1 & l' & s' & A1 & A2)|(l' & s' & A1 & A2 & A3)]; [left|right].
    + exists d, l1, l', s'. split; [done|]. split; [by eapply dir_nonzero|done].
    + exists l', s'. split; [done|]. split; [done|]. cbn [length]. lia.
Qed.

(** * [copyuvm] *)

(** Pages [0 .. q - 1] of the process [dp] in [s0] are copied to the new address space [d]. *)
Record copied (s0 : kernel) (dp : Z) (l0 : list Z) (i : nat) (c : cpu) (d q : Z) (used : list Z) (T : gset Z) (l : list Z) (s : kernel) : Prop := {
  cy_uspace : uspace s d T l i c (fun k => k <? q);
  cy_step : memstep s0 s;
  cy_list : l0 = used ++ l;
  cy_used : forall x, x ∈ used <-> x = d \/ x ∈ T \/ exists va, is_uva va /\ va / PGSIZE < q /\ upage (k_mem s) d va = x;
  cy_changes : changes (list_to_set used) (k_mem s0) (k_mem s);
  cy_kern : forall va, KERNBASE <= va < 2 ^ 32 -> ent (k_mem s) d va = kent (k_data s0) va;
  cy_copy : forall va, is_uva va -> va / PGSIZE < q ->
    PTE_FLAGS (ent (k_mem s) d va) = PTE_FLAGS (ent (k_mem s0) dp va) /\ ubyte (k_mem s) d va = ubyte (k_mem s0) dp va
}.

Section Copy.
Context (s0 : kernel) (dp : Z) (Tp : gset Z) (l0 : list Z) (i : nat) (c : cpu) (Rp : Z -> bool) (d : Z).
Hypothesis (Up : uspace s0 dp Tp l0 i c Rp).

(** The parent is not affected: everything the copy writes was free. *)
Lemma parent_frame used l s :
  memstep s0 s -> (forall x, x ∈ used \/ x ∈ l -> x ∈ l0) -> changes (list_to_set used) (k_mem s0) (k_mem s) -> kmem_ok s l ->
  uspace s dp Tp l i c Rp /\ (forall va, is_va va -> ent (k_mem s) dp va = ent (k_mem s0) dp va) /\
  (forall va, is_uva va -> Rp (va / PGSIZE) = true -> ubyte (k_mem s) dp va = ubyte (k_mem s0) dp va).
Proof.
  intros Hms Hin Hch Hk. pose proof (us_vms _ _ _ _ _ _ _ Up) as [_ V2 _ V4]. eapply uspace_frame; [exact Up|done|exact Hch|done|by auto|].
  intros p Hp%elem_of_list_to_set. assert (Hpl : p ∈ l0) by auto.
  pose proof (km_pages _ _ V2) as Hpg. rewrite Forall_forall in Hpg. destruct (V4 p Hpl) as [A1 A2]. split_and!; auto.
  intros va Hva HR E. destruct (us_page _ _ _ _ _ _ _ Up va Hva HR) as (_ & _ & _ & H). apply H. by rewrite E.
Qed.

Lemma parent_kept used l s :
  memstep s0 s -> l0 = used ++ l -> changes (list_to_set used) (k_mem s0) (k_mem s) -> kmem_ok s l ->
  uspace s dp Tp l i c Rp /\ (forall va, is_va va -> ent (k_mem s) dp va = ent (k_mem s0) dp va) /\
  (forall va, is_uva va -> Rp (va / PGSIZE) = true -> ubyte (k_mem s) dp va = ubyte (k_mem s0) dp va).
Proof. intros Hms El Hch Hk. apply (parent_frame used); auto. intros x Hx. rewrite El. by apply elem_of_app. Qed.

Lemma copied_start l1 l' s : kvm_ready s0 l0 i c d l1 l' s -> copied s0 dp l0 i c d 0 (d :: l1) (list_to_set l1) l' s.
Proof.
  intros [K1 _ K2 K3 K4 K5]. assert (Hno : forall va, is_uva va -> ~ va / PGSIZE < 0).
  { intros va Hva. pose proof (Z.div_pos va PGSIZE ltac:(apply Hva) ltac:(done)). lia. }
  constructor; auto.
  - eapply uspace_ext; [exact K2|]. intros k Hk. symmetry. apply Z.ltb_ge. lia.
  - intros x. rewrite elem_of_cons, elem_of_list_to_set. split; [intros [H|H]; auto|]. intros [H|[H|(va & H1 & H2 & _)]]; auto. by destruct (Hno va H1).
  - intros va Hva. apply K5. unfold is_va, KERNBASE in *. lia.
  - intros va Hva Hlt. by destruct (Hno va Hva).
Qed.

(** The page [p] holds the bytes of the page [src]. *)
Definition page_copy (src p : Z) (s : kernel) : kernel :=
  set_k_mem (memmove (k_mem s) p src PGSIZE) (set_k_freelist (ld32 (k_mem s) p) s).

Lemma page_copy_ok s src p l :
  kmem_lockable s i c -> kmem_ok s (p :: l) ->
  kalloc s = Ret p (set_k_freelist (ld32 (k_mem s) p) s) /\ memstep s (page_copy src p s) /\ kmem_ok (page_copy src p s) l /\
  changes {[p]} (k_mem s) (k_mem (page_copy src p s)) /\
  (forall x, k_mem (page_copy src p s) (p + x mod PGSIZE) = k_mem s (src + x mod PGSIZE)).
Proof.
  intros Hlk Hk. pose proof (km_pages _ _ Hk) as Hpg. apply Forall_cons in Hpg as [Hp Hpg].
  pose proof (km_nodup _ _ Hk) as Hnd. apply NoDup_cons in Hnd as [Hpl _].
  assert (Hms : memstep s (page_copy src p s)) by (by destruct s).
  assert (Hch : changes {[p]} (k_mem s) (k_mem (page_copy src p s))).
  { intros x Hx. specialize (Hx p ltac:(set_solver)). unfold in_page in Hx. cbn [k_mem page_copy set_k_mem]. rewrite memmove_spec by done.
    cmp_cases; try done. lia. }
  split; [by eapply kalloc_some|]. split; [done|]. split; [|split; [done|]].
  - eapply (kmem_changes (set_k_freelist (ld32 (k_mem s) p) s) _ {[p]}); [by destruct s|done|exact Hch|by apply kmem_ok_pop|].
    intros y ->%elem_of_singleton. done.
  - intros x. cbn [k_mem page_copy set_k_mem]. rewrite memmove_spec by done. pose proof (Z.mod_pos_bound x PGSIZE ltac:(done)).
    rewrite (proj2 (Z.leb_le _ _)), (proj2 (Z.ltb_lt _ _)) by lia. cbn [andb]. f_equal. lia.
Qed.

Lemma copied_step q used T p l s :
  copied s0 dp l0 i c d q used T (p :: l) s -> 0 <= q < 524288 -> Rp q = true ->
  present (pde (k_mem s) d (PGSIZE * q)) = true \/ l <> [] ->
  exists used' T' l' s', mappages d (PGSIZE * q) PGSIZE (V2P p) (PTE_FLAGS (ent (k_mem s0) dp (PGSIZE * q)))
      (page_copy (upage (k_mem s0) dp (PGSIZE * q)) p s) = Ret 0 s' /\
    copied s0 dp l0 i c d (q + 1) used' T' l' s' /\ (length used' <= length used + 2)%nat.
Proof.
  intros [C1 C2 C3 C4 C5 C6 C7] Hq HR Hor. pose proof (us_vms _ _ _ _ _ _ _ C1) as [V1 V2 V3 V4].
  pose proof (uva_page q Hq) as Hvq. pose proof (uva_va _ Hvq) as Hvq'. set (src := upage (k_mem s0) dp (PGSIZE * q)). set (f := PTE_FLAGS _).
  destruct (page_copy_ok s src p l V1 V2) as (_ & P2 & P3 & P4 & P5).
  destruct (add_page s (page_copy src p s) d T p l i c _ q f C1 P2 P3 P4) as (l1 & l' & s' & A1 & A2 & A3 & A4 & A5 & A6 & A7 & A8 & A9);
    [done|apply Z.ltb_ge; lia|apply flags_range|done|].
  pose proof (km_pages _ _ V2) as Hpg. apply Forall_cons in Hpg as [Hp _]. destruct (upte _ p f Hp (flags_range _)) as (_ & _ & Q3 & Q4).
  assert (Hup : forall va, is_uva va -> upage (k_mem s') d va = if va / PGSIZE =? q then p else upage (k_mem s) d va).
  { intros va Hva. unfold upage. rewrite A7 by (by apply uva_va). by destruct (va / PGSIZE =? q). }
  exists (used ++ p :: l1), (list_to_set l1 ∪ T), l', s'. split; [done|]. split; [|rewrite length_app; cbn [length]; lia].
  constructor.
  - eapply uspace_ext; [exact A2|]. intros k _. cbv beta. destruct (Z.eqb_spec k q); cmp_cases; try done; lia.
  - by etransitivity.
  - rewrite C3, A4. by rewrite <- app_assoc.
  - intros x. rewrite elem_of_app, elem_of_cons, C4, elem_of_union, elem_of_list_to_set. split.
    + intros [[H|[H|(va & H1 & H2 & H3)]]|[->|H]]; auto.
      * right. right. exists va. rewrite Hup, (proj2 (Z.eqb_neq _ _)) by (done || lia). split_and!; [done|lia|done].
      * right. right. exists (PGSIZE * q). rewrite Hup, div_PGSIZE, Z.eqb_refl by done. split_and!; [done|lia|done].
    + intros [H|[[H|H]|(va & H1 & H2 & H3)]]; auto. rewrite Hup in H3 by done. destruct (Z.eqb_spec (va / PGSIZE) q); [by auto|].
      left. right. right. exists va. split_and!; [done|lia|done].
  - eapply changes_trans; [eapply changes_mono; [exact C5|]|eapply changes_mono; [exact A6|]]; intros x;
      rewrite ?elem_of_union, !elem_of_list_to_set, elem_of_app; [by left|]. rewrite C4, elem_of_singleton. intros [[H|H]|H]; auto.
  - intros va Hva. destruct (kern_out 0 (q + 1) va ltac:(lia) Hva) as [K1 K2]. rewrite A7 by done. rewrite (proj2 (Z.eqb_neq _ q)); [auto|].
    unfold inr in K2. intros E. rewrite E in K2. rewrite (proj2 (Z.leb_le _ _)), (proj2 (Z.ltb_lt _ _)) in K2 by lia. done.
  - intros va Hva Hlt. destruct (Z.eqb_spec (va / PGSIZE) q) as [E|E].
    + assert (Ee : ent (k_mem s0) dp va = ent (k_mem s0) dp (PGSIZE * q)) by (apply ent_same_page; [by apply uva_va|done|by rewrite div_PGSIZE]).
      assert (Hpr : present (ent (k_mem s0) dp va) = true) by (by rewrite (us_map _ _ _ _ _ _ _ Up), E).
      rewrite A7, E, Z.eqb_refl, Q4 by (by apply uva_va). split; [rewrite Ee; unfold f; apply flags_present; by rewrite <- Ee|].
      rewrite A8, P5 by done. destruct (parent_kept used (p :: l) s C2 C3 C5 V2) as (_ & B2 & B3).
      rewrite <- B3 by (done || by rewrite E). rewrite ubyte_page by (by rewrite B2 by (by apply uva_va)).
      unfold upage. rewrite B2 by (by apply uva_va). by rewrite Ee.
    + destruct (C7 va Hva ltac:(lia)) as [D1 D2]. rewrite A7, (proj2 (Z.eqb_neq _ _)) by (done || by apply uva_va).
      split; [done|]. rewrite A9 by (done || (apply Z.ltb_lt; lia)). done.
Qed.

(** [freevm] of the partial copy, with the pages [rest] free. *)
Lemma copy_undo q used T l s rest s1 :
  copied s0 dp l0 i c d q used T l s -> uspace s1 d T rest i c (fun k => k <? q) -> memstep s s1 ->
  (forall va, is_va va -> ent (k_mem s1) d va = ent (k_mem s) d va) -> (forall x, x ∈ rest <-> x ∈ l) ->
  changes (list_to_set l) (k_mem s) (k_mem s1) ->
  exists l' s', freevm d s1 = Ret tt s' /\ restored s0 l0 i c l' s'.
Proof.
  intros [C1 C2 C3 C4 C5 C6 C7] U1 Hms He Hrest Hch. destruct (freevm_ok _ _ _ _ _ _ _ U1) as (g & s' & F1 & F2 & F3 & F4 & F5 & F6).
  assert (Hg : forall x, x ∈ g <-> x ∈ used).
  { intros x. rewrite F6, C4. split; (intros [H|[H|(va & H1 & H2 & H3)]]; [by auto|by auto|right; right; exists va]).
    - unfold upage in *. rewrite He in H3 by (by apply uva_va). by apply Z.ltb_lt in H2.
    - unfold upage in *. rewrite He by (by apply uva_va). by apply Z.ltb_lt in H2. }
  exists (g ++ rest), s'. split; [done|]. constructor; [done|done| | |].
  - etransitivity; [exact C2|]. by etransitivity.
  - intros x. rewrite C3, !elem_of_app, Hg, Hrest. done.
  - eapply changes_trans; [eapply changes_mono; [exact C5|]|eapply changes_trans; [eapply changes_mono; [exact Hch|]|eapply changes_mono; [exact F5|]]]; intros x;
      rewrite !elem_of_list_to_set, C3, elem_of_app; [by auto|by auto|]. rewrite Hg. by auto.
Qed.

Lemma copy_fail_list q used T s : copied s0 dp l0 i c d q used T [] s -> exists l' s', freevm d s = Ret tt s' /\ restored s0 l0 i c l' s'.
Proof. intros C. eapply (copy_undo q used T [] s [] s); [exact C|apply C|reflexivity|done|done|by apply changes_refl]. Qed.

Lemma copy_fail_table q used T p s src f :
  copied s0 dp l0 i c d q used T [p] s -> 0 <= q < 524288 -> present (pde (k_mem s) d (PGSIZE * q)) = false ->
  exists s2 l' s', mappages d (PGSIZE * q) PGSIZE (V2P p) f (page_copy src p s) = Ret (-1) (page_copy src p s) /\
    kfree p (page_copy src p s) = Ret tt s2 /\ freevm d s2 = Ret tt s' /\ restored s0 l0 i c l' s'.
Proof.
  intros C Hq Hpd. pose proof (cy_uspace _ _ _ _ _ _ _ _ _ _ _ C) as C1. pose proof (us_vms _ _ _ _ _ _ _ C1) as [V1 V2 V3 V4].
  destruct (page_copy_ok s src p [] V1 V2) as (_ & P2 & P3 & P4 & _). set (s1 := page_copy src p s) in *.
  pose proof (km_pages _ _ V2) as Hpg. apply Forall_cons in Hpg as [Hp _]. destruct (V4 p ltac:(set_solver)) as [Hpd' HpT].
  assert (Hpu : forall va, is_uva va -> (va / PGSIZE <? q) = true -> upage (k_mem s) d va <> p).
  { intros va Hva HR. destruct (us_page _ _ _ _ _ _ _ C1 va Hva HR) as (_ & _ & _ & H). set_solver. }
  destruct (uspace_frame s s1 d T [p] [] i c _ {[p]} C1 P2 P4 P3) as (U1 & E1 & _); [set_solver| |].
  { intros y ->%elem_of_singleton. split_and!; auto. }
  pose proof (us_vms _ _ _ _ _ _ _ U1) as [W1 W2 _ _]. pose proof (memstep_end _ _ P2) as Ee.
  pose proof (kfree_eq s1 p i c W1 ltac:(by rewrite Ee)) as Ek. set (s2 := set_k_freelist p _) in Ek.
  assert (C2 : changes {[p]} (k_mem s1) (k_mem s2)).
  { intros x Hx. apply kfree_mem_out. specialize (Hx p ltac:(set_solver)). unfold in_page in Hx. lia. }
  destruct (uspace_frame s1 s2 d T [] [p] i c _ {[p]} U1) as (U2 & E2 & _).
  { by destruct s1. } { exact C2. } { apply kmem_ok_push; [by rewrite Ee|set_solver|done]. } { set_solver. }
  { intros y ->%elem_of_singleton. rewrite Ee. split_and!; auto. intros va Hva HR. unfold upage. rewrite E1 by (by apply uva_va). by apply Hpu. }
  destruct (copy_undo q used T [p] s [p] s2 C U2) as (l' & s' & F1 & F2).
  { etransitivity; [exact P2|]. by destruct s1. } { intros va Hva. by rewrite E2, E1. } { done. }
  { replace (list_to_set [p]) with ({[p]} : gset Z) by set_solver. by eapply changes_trans. }
  exists s2, l', s'. split; [|done]. apply (mappages_fail d i c s1 q _ _ T); [apply U1|lia|]. rewrite <- Hpd. f_equal. apply ld32_out. intros x Hx. apply P4.
  intros y ->%elem_of_singleton Hy. apply Hpd'. eapply page_apart; [done|apply V3|done|by eapply dir_slot].
Qed.

(** Reading the parent's entry. *)
Lemma parent_pte used l s q : 0 <= q < 524288 -> Rp q = true ->
  memstep s0 s -> l0 = used ++ l -> changes (list_to_set used) (k_mem s0) (k_mem s) -> kmem_ok s l ->
  exists pte, walkpgdir dp (PGSIZE * q) false s = Ret pte s /\ pte <> 0 /\ ld32 (k_mem s) pte = ent (k_mem s0) dp (PGSIZE * q) /\
    present (ent (k_mem s0) dp (PGSIZE * q)) = true.
Proof.
  intros Hq HR Hms El Hch Hk. destruct (parent_kept used l s Hms El Hch Hk) as (U & E & _). pose proof (uva_page q Hq) as Hva.
  assert (Hpr : present (ent (k_mem s) dp (PGSIZE * q)) = true) by (by rewrite (us_map _ _ _ _ _ _ _ U), div_PGSIZE).
  pose proof (ent_pde _ _ _ Hpr) as Hp. pose proof (us_vms _ _ _ _ _ _ _ U) as [_ _ V3 _].
  pose proof (sp_tabs _ _ _ _ V3 _ (sp_in _ _ _ _ V3 _ (uva_va _ Hva) Hp)) as (_ & _ & _ & Ht).
  eexists. split; [rewrite walk_noalloc, Hp; done|]. split; [pose proof (PTX_range (PGSIZE * q)); lia|].
  rewrite <- E by (by apply uva_va). split; [|done]. unfold ent. by rewrite Hp.
Qed.

Lemma copyuvm_loop_ok sz fuel : forall q used T l s,
  0 <= sz <= KERNBASE -> 0 <= q <= npages sz -> (forall k, 0 <= k < npages sz -> Rp k = true) ->
  copied s0 dp l0 i c d q used T l s -> Z.of_nat (length used) <= 65 + 2 * q -> (Z.to_nat (npages sz - q) <= fuel)%nat ->
  (exists used' T' l' s', copyuvm_loop fuel dp d (PGSIZE * q) sz s = Ret d s' /\ copied s0 dp l0 i c d (npages sz) used' T' l' s') \/
  (exists l' s', copyuvm_loop fuel dp d (PGSIZE * q) sz s = Ret 0 s' /\ restored s0 l0 i c l' s' /\ Z.of_nat (length l0) < 65 + 2 * npages sz).
Proof.
  induction fuel as [|fuel IH]; intros q used T l s Hsz Hq HR C Hc Hf.
  { left. assert (q = npages sz) as -> by lia. exists used, T, l, s. cbn [copyuvm_loop].
    rewrite (proj2 (Z.leb_le _ _)) by (apply npages_spec; lia). done. }
  cbn [copyuvm_loop]. destruct (Z.leb_spec sz (PGSIZE * q)) as [Hle|Hlt].
  { left. apply npages_spec in Hle; [|lia]. assert (q = npages sz) as -> by lia. by exists used, T, l, s. }
  assert (Hqlt : q < npages sz) by (destruct (Z.lt_ge_cases q (npages sz)) as [|H]; [done|apply npages_spec in H; lia]).
  pose proof (npages_max sz Hsz) as Hmax. pose proof C as [C1 C2 C3 _ C5 _ _]. pose proof (us_vms _ _ _ _ _ _ _ C1) as [V1 V2 _ _].
  destruct (parent_pte used l s q ltac:(lia) (HR q ltac:(lia)) C2 C3 C5 V2) as (pte & W1 & W2 & W3 & W4).
  assert (Hhead : forall k : Z -> K Z, (let! pte := walkpgdir dp (PGSIZE * q) false in
      if pte =? 0 then panic "copyuvm: pte should exist" else
      let! e := ldmem pte in
      if Z.land e PTE_P =? 0 then panic "copyuvm: page not present" else k e) s = k (ent (k_mem s0) dp (PGSIZE * q)) s).
  { intros k. erewrite bind_run by exact W1. rewrite (proj2 (Z.eqb_neq pte 0)) by done. unfold ldmem. rewrite bind_gets, W3.
    unfold present in W4. by destruct (Z.land _ PTE_P =? 0). }
  rewrite Hhead. cbv zeta. fold (upage (k_mem s0) dp (PGSIZE * q)). set (src := upage (k_mem s0) dp (PGSIZE * q)). set (e := ent (k_mem s0) dp (PGSIZE * q)).
  destruct l as [|p l].
  { right. destruct (copy_fail_list q used T s C) as (l' & s' & F1 & F2). exists l', s'.
    split; [|split; [done|rewrite C3, app_nil_r; lia]]. erewrite bind_run by by eapply kalloc_none. rewrite Z.eqb_refl. by erewrite bind_run by exact F1. }
  destruct (page_copy_ok s src p l V1 V2) as (P1 & _). pose proof (km_pages _ _ V2) as Hpg. apply Forall_cons in Hpg as [(_ & _ & _ & Hp) _].
  erewrite bind_run by exact P1. rewrite (proj2 (Z.eqb_neq p 0)) by lia. rewrite (bind_run _ _ _ tt (page_copy src p s)) by done.
  destruct (decide (present (pde (k_mem s) d (PGSIZE * q)) = true \/ l <> [])) as [Hor|Hor].
  - destruct (copied_step q used T p l s C ltac:(lia) (HR q ltac:(lia)) Hor) as (used' & T' & l' & s' & A1 & A2 & A3).
    erewrite bind_run by exact A1. cbn [Z.ltb Z.compare]. rewrite u32_small by (unfold PGSIZE; lia).
    replace (PGSIZE * q + PGSIZE) with (PGSIZE * (q + 1)) by lia. apply (IH (q + 1) used' T' l' s'); try done; lia.
  - assert (Hpd : present (pde (k_mem s) d (PGSIZE * q)) = false) by (apply not_true_is_false; intros ?; apply Hor; by left).
    assert (l = []) as -> by (destruct l; [done|destruct Hor; by right]).
    right. destruct (copy_fail_table q used T p s src (PTE_FLAGS e) C ltac:(lia) Hpd) as (s2 & l' & s' & A1 & A2 & A3 & A4).
    exists l', s'. split; [|split; [done|rewrite C3, length_app; cbn [length]; lia]].
    erewrite bind_run by exact A1. cbn [Z.ltb Z.compare]. erewrite bind_run by exact A2. by erewrite bind_run by exact A3.
Qed.
End Copy.

Section CopyCorrect.
Context (s : kernel) (dp : Z) (T : gset Z) (l : list Z) (i : nat) (c : cpu) (sz : Z).

Hypothesis (U : uspace s dp T l i c (below sz)) (Hsz : 0 <= sz <= KERNBASE) (Hd : data_ok (k_data s)).

(** What [copyuvm] does to the free pages. *)
Lemma copyuvm_run :
  (exists d used T' l' s', copyuvm dp sz s = Ret d s' /\ d <> 0 /\ copied s dp l i c d (npages sz) used T' l' s') \/
  (exists l' s', copyuvm dp sz s = Ret 0 s' /\ restored s l i c l' s' /\ Z.of_nat (length l) < 65 + 2 * npages sz).
Proof.
  pose proof (npages_nonneg sz ltac:(lia)) as Hnn. pose proof (us_vms _ _ _ _ _ _ _ U) as [V1 V2 _ _].
  unfold copyuvm. destruct (setupkvm_run s l i c V1 V2 (us_end _ _ _ _ _ _ _ U) Hd) as [(d & l1 & l' & s' & R1 & Hd0 & R2)|(l' & s' & R1 & R2 & R3)].
  - erewrite bind_run by exact R1. rewrite (proj2 (Z.eqb_neq d 0)) by done.
    destruct (copyuvm_loop_ok s dp T l i c (below sz) d U sz (Z.to_nat (sz / PGSIZE + 1)) 0 (d :: l1) (list_to_set l1) l' s')
      as [(used & T' & l2 & s2 & A1 & A2)|(l2 & s2 & A1 & A2 & A3)].
    + done.
    + lia.
    + intros k Hk. apply Z.ltb_lt. lia.
    + by apply copied_start.
    + pose proof (kv_count _ _ _ _ _ _ _ _ R2). cbn [length]. lia.
    + unfold npages, PGSIZE. pose proof (Z.div_mod sz 4096 ltac:(done)). pose proof (Z.mod_pos_bound sz 4096 ltac:(done)).
      pose proof (Z.div_mod (sz + 4096 - 1) 4096 ltac:(done)). pose proof (Z.mod_pos_bound (sz + 4096 - 1) 4096 ltac:(done)). lia.
    + left. exists d, used, T', l2, s2. done.
    + right. exists l2, s2. done.
  - right. exists l', s'. split; [by erewrite bind_run by exact R1|]. split; [done|]. lia.
Qed.
End CopyCorrect.

(** C6: copying an address space for [fork]. [copyuvm] of a process of [sz] bytes always returns, with no panic
    and no access outside the page tables. Either it returns a new page directory: every byte below the size and
    every permission is the parent's, the kernel's half is that of [kmap], the directory, its page tables and its pages are
    the pages taken from the head of the free list, each used once. Or it returns 0, which happens only with fewer free
    pages than 65 and two for each page of the process, and the free list has all its pages again. In both cases
    the parent's address space is intact, and only pages that were free are written. *)
Theorem copyuvm_correct (s : kernel) (dp : Z) (T : gset Z) (l : list Z) (i : nat) (c : cpu) (sz : Z) :
  uspace s dp T l i c (below sz) -> 0 <= sz <= KERNBASE -> data_ok (k_data s) ->
  (exists d used T' l' s', copyuvm dp sz s = Ret d s' /\ d <> 0 /\ copied s dp l i c d (npages sz) used T' l' s' /\
     uspace s' d T' l' i c (below sz) /\ uspace s' dp T l' i c (below sz) /\
     (forall va, is_uva va -> below sz (va / PGSIZE) = true -> ubyte (k_mem s') dp va = ubyte (k_mem s) dp va)) \/
  (exists l' s', copyuvm dp sz s = Ret 0 s' /\ restored s l i c l' s' /\ Z.of_nat (length l) < 65 + 2 * npages sz /\
     uspace s' dp T l' i c (below sz) /\
     (forall va, is_uva va -> below sz (va / PGSIZE) = true -> ubyte (k_mem s') dp va = ubyte (k_mem s) dp va)).
Proof.
  intros U Hsz Hd. destruct (copyuvm_run s dp T l i c sz U Hsz Hd) as [(d & used & T' & l' & s' & A1 & A2 & A3)|(l' & s' & A1 & A2 & A3)].
  - left. exists d, used, T', l', s'. split; [done|]. split; [done|]. split; [done|]. split; [apply A3|].
    destruct (parent_kept s dp T l i c (below sz) U used l' s') as (B1 & _ & B3); [apply A3|apply A3|apply A3|apply (cy_uspace _ _ _ _ _ _ _ _ _ _ _ A3)|done].
  - right. exists l', s'. split; [done|]. split; [done|]. split; [done|].
    destruct (parent_frame s dp T l i c (below sz) U l l' s') as (B1 & _ & B3); [apply A2| |apply A2|apply A2|done].
    intros x [H|H]; [done|by apply A2].
Qed.

(** C7: no page is lost. Whatever [copyuvm] returns for a process, either it is 0 and the free list has all the pages it had, or
    [freevm] of the new directory, as [wait] does when the child has exited, returns them all: the free list is again the
    same pages, each once. *)
Theorem copyuvm_freevm_no_leak (s : kernel) (dp : Z) (T : gset Z) (l : list Z) (i : nat) (c : cpu) (sz : Z) :
  uspace s dp T l i c (below sz) -> 0 <= sz <= KERNBASE -> data_ok (k_data s) ->
  exists d s1 l' s2, copyuvm dp sz s = Ret d s1 /\ (if d =? 0 then ret tt else freevm d) s1 = Ret tt s2 /\ kmem_ok s2 l' /\ l' ≡ₚ l.
Proof.
  intros U Hsz Hd.
  assert (Hperm : forall l' s', restored s l i c l' s' -> kmem_ok s' l' /\ l' ≡ₚ l).
  { intros l' s' R. split; [apply R|]. apply NoDup_Permutation; [apply (rs_kmem _ _ _ _ _ _ R)|apply (us_vms _ _ _ _ _ _ _ U)|apply R]. }
  destruct (copyuvm_run s dp T l i c sz U Hsz Hd) as [(d & used & T' & l' & s' & A1 & A2 & A3)|(l' & s' & A1 & A2 & A3)].
  - destruct (copy_undo s dp l i c d (npages sz) used T' l' s' l' s' A3) as (g & s2 & F1 & F2); [apply A3|reflexivity|done|done|by apply changes_refl|].
    exists d, s', g, s2. split; [done|]. rewrite (proj2 (Z.eqb_neq d 0)) by done. split; [done|]. by apply Hperm.
  - exists 0, s', l', s'. split; [done|]. split; [done|]. by apply Hperm.
Qed.

Lemma copyuvm_correct_witness :
  exists s dp d s' used T' l', copyuvm dp PGSIZE s = Ret d s' /\ copied s dp (used ++ l') 0 cpu0 d 1 used T' l' s'.
Proof.
  destruct (demo_process 67 ltac:(lia)) as (s & dp & T & l & U & Hl & Hd).
  destruct (copyuvm_correct s dp T l 0 cpu0 PGSIZE U ltac:(done) Hd) as [(d & used & T' & l' & s' & A1 & _ & A2 & _)|(l' & s' & _ & _ & A3 & _)].
  - exists s, dp, d, s', used, T', l'. split; [done|]. rewrite <- (cy_list _ _ _ _ _ _ _ _ _ _ _ A2). exact A2.
  - exfalso. change (npages PGSIZE) with 1 in A3. lia.
Defined.

Lemma copyuvm_freevm_no_leak_witness :
  exists s dp l d s1 l' s2, copyuvm dp PGSIZE s = Ret d s1 /\ (if d =? 0 then ret tt else freevm d) s1 = Ret tt s2 /\ kmem_ok s2 l' /\ l' ≡ₚ l /\
    (67 <= length l)%nat.
Proof.
  destruct (demo_process 67 ltac:(lia)) as (s & dp & T & l & U & Hl & Hd).
  destruct (copyuvm_freevm_no_leak s dp T l 0 cpu0 PGSIZE U ltac:(done) Hd) as (d & s1 & l' & s2 & A1 & A2 & A3 & A4).
  exists s, dp, l, d, s1, l', s2. done.
Defined.
