(* ===== verification/Sched.v ===== *)
(** The scheduling half of [proc.c]: [sched], [yield], [sleep], [wakeup], [kill],
    and the allocation of a table slot in [allocproc]. *)

From S2P Require Import Prelude Bytes Params State Spinlock.
From stdpp Require Import base list gmap strings.
From Stdlib Require Import ZArith Lia.
Local Open Scope Z_scope.
Local Open Scope km_scope.

(** [swtch(&from, to)]: the thread stops here; whoever runs next decides the state
    in which it continues. *)
Definition swtch : K unit := fun s => Swtch s (fun s' => Ret tt s').

Definition pinit : K unit := initlock L_ptable.

Definition sched : K unit :=
  let! op := myproc in
  let! h := holding L_ptable in
  if negb h then panic "sched ptable.lock" else
  let! i := mycpu in
  let! c := getcpu i in
  if negb (c_ncli c =? 1) then panic "sched locks" else
  let! p := nonnull "sched: no process" op in
  let! pr := getproc p in
  if bool_decide (p_state pr = RUNNING) then panic "sched running" else
  let! fl := readIF in
  if fl then panic "sched interruptible" else
  let! i := mycpu in
  let! c := getcpu i in
  let intena := c_intena c in
  let! _ := mycpu in
  swtch ;;
  let! i := mycpu in
  updcpu i (set_c_intena intena).

Definition yield : K unit :=
  acquire L_ptable ;;
  let! op := myproc in
  let! p := nonnull "yield: no process" op in
  updproc p (set_p_state RUNNABLE) ;;
  sched ;;
  release L_ptable.

Definition sleep (ch : chan) (lk : lockid) : K unit :=
  let! op := myproc in
  match op with
  | None => panic "sleep"
  | Some p =>
      when (bool_decide (lk <> L_ptable)) (acquire L_ptable ;; release lk) ;;
      updproc p (set_p_chan (Some ch)) ;;
      updproc p (set_p_state SLEEPING) ;;
      sched ;;
      updproc p (set_p_chan None) ;;
      when (bool_decide (lk <> L_ptable)) (release L_ptable ;; acquire lk)
  end.

Definition wakeup1 (ch : option chan) : K unit :=
  for_each (range NPROC) (fun p =>
    let! pr := getproc p in
    when (bool_decide (p_state pr = SLEEPING /\ p_chan pr = ch))
         (updproc p (set_p_state RUNNABLE))).

Definition wakeup (ch : chan) : K unit :=
  acquire L_ptable ;;
  wakeup1 (Some ch) ;;
  release L_ptable.

Definition kill (pid : Z) : K Z :=
  acquire L_ptable ;;
  let! r := for_find (range NPROC) (fun p =>
    let! pr := getproc p in
    if p_pid pr =? pid then
      updproc p (set_p_killed 1) ;;
      let! pr := getproc p in
      when (bool_decide (p_state pr = SLEEPING)) (updproc p (set_p_state RUNNABLE)) ;;
      release L_ptable ;;
      ret (Some 0)
    else ret None) in
  match r with
  | Some v => ret v
  | None => release L_ptable ;; ret (-1)
  end.

(** * The process table under these operations *)

Definition wake (ch : option chan) (pr : proc) : proc :=
  if bool_decide (p_state pr = SLEEPING /\ p_chan pr = ch) then set_p_state RUNNABLE pr else pr.

Definition kill_proc (pr : proc) : proc :=
  set_p_state (if bool_decide (p_state pr = SLEEPING) then RUNNABLE else p_state pr)
    (set_p_killed 1 pr).

Definition table_ok (s : kernel) : Prop := length (k_proc s) = Z.to_nat NPROC.

Section Table.
Implicit Types (s : kernel) (p : nat).

(** A loop over the table whose body rewrites its own entry is a [map]. *)
Lemma for_each_proc (body : nat -> K unit) (f : proc -> proc) s :
  (forall p s pr, k_proc s !! p = Some pr ->
     body p s = Ret tt (set_k_proc (<[p := f pr]> (k_proc s)) s)) ->
  table_ok s ->
  for_each (range NPROC) body s = Ret tt (set_k_proc (f <$> k_proc s) s).
Proof.
  intros Hb Hlen. unfold range. unfold table_ok in Hlen.
  assert (G : forall n k s, (k + n = length (k_proc s))%nat ->
    for_each (seq k n) body s = Ret tt (set_k_proc (take k (k_proc s) ++ (f <$> drop k (k_proc s))) s)).
  { clear s Hlen. induction n as [|n IH]; intros k s Hk; cbn [seq for_each].
    - rewrite take_ge, drop_ge by lia. simpl. rewrite app_nil_r. by destruct s.
    - destruct (lookup_lt_is_Some_2 (k_proc s) k) as [pr Hpr]; [lia|].
      erewrite bind_run by by apply Hb.
      rewrite IH by (simpl; rewrite length_insert; lia). simpl. f_equal.
      unfold set_k_proc; simpl. f_equal.
      rewrite (drop_S _ _ _ Hpr). cbn [fmap list_fmap].
      rewrite take_S_r with (x := f pr) by (apply list_lookup_insert_eq; lia).
      rewrite take_insert_ge by lia. rewrite drop_insert_lt by lia.
      by rewrite <- app_assoc. }
  rewrite <- Hlen. rewrite (G _ 0%nat s) by lia. by rewrite take_0, drop_0.
Qed.

Lemma wakeup1_eq ch s :
  table_ok s -> wakeup1 ch s = Ret tt (set_k_proc (wake ch <$> k_proc s) s).
Proof.
  intros Hlen. apply for_each_proc; [|done]. clear s Hlen. intros p s pr H.
  erewrite bind_run by by apply getproc_eq. unfold when, wake.
  case_bool_decide.
  - by erewrite updproc_eq by exact H.
  - unfold ret. f_equal. rewrite list_insert_id by done. by destruct s.
Qed.

Lemma wakeup_eq ch s i c :
  on_cpu (k_hw s) i c -> lock_free (k_hw s) L_ptable -> table_ok s ->
  wakeup ch s = Ret tt (set_k_proc (wake (Some ch) <$> k_proc s) s).
Proof.
  intros Hc Hf Hlen. unfold wakeup. erewrite bind_run by by apply acquire_eq.
  erewrite bind_run by by apply wakeup1_eq.
  erewrite release_eq by done. by destruct s.
Qed.
End Table.

(** * Switching away and back *)

(** What [sched] does once it runs again, possibly on another processor. *)
Definition sched_back (intena : bool) : K unit :=
  let! i := mycpu in updcpu i (set_c_intena intena).

(** The hardware after that: the thread's own [intena] replaces the processor's. *)
Definition hw_resume (b : bool) (i : nat) (c : cpu) (h : hw) : hw :=
  set_h_IF b (set_h_cpus (<[i := set_c_intena b c]> (h_cpus h)) h).

(** A thread that runs on processor [i] with only [ptable.lock] held: the state in
    which [swtch] leaves and enters it. *)
Record only_ptable (s : kernel) (i : nat) (c : cpu) (h : hw) : Prop := {
  op_cpu : on_cpu h i c;
  op_ncli : c_ncli c = 0;
  op_free : lock_free h L_ptable;
  op_hw : k_hw s = hw_lock L_ptable i c h
}.

Section Switch.
Implicit Types (s : kernel) (h : hw) (i p : nat) (c : cpu).

Lemma hw_lock_comm h i c l1 l2 :
  l1 <> l2 -> hw_lock l1 i (cpu_pushed c) (hw_lock l2 i c h) = hw_lock l2 i (cpu_pushed c) (hw_lock l1 i c h).
Proof.
  intros Hne. unfold hw_lock, hw_push, set_h_locks, set_h_IF, set_h_cpus. simpl.
  by rewrite (insert_insert_ne _ l1 l2) by done.
Qed.

Lemma cpu_pushed_intena b c : cpu_pushed (set_c_intena b c) = set_c_intena b (cpu_pushed c).
Proof. done. Qed.

Lemma hw_lock_resume h i c b :
  cur_cpu h i c ->
  set_h_cpus (<[i := set_c_intena b (cpu_pushed c)]> (h_cpus (hw_lock L_ptable i c h)))
    (hw_lock L_ptable i c h) = hw_lock L_ptable i (set_c_intena b c) (hw_resume b i c h).
Proof.
  intros Hc. unfold hw_lock, hw_push, hw_resume, set_h_locks, set_h_IF, set_h_cpus. simpl.
  by rewrite !list_insert_insert_eq.
Qed.

Lemma on_cpu_resume h i c b :
  on_cpu h i c -> c_ncli c = 0 -> on_cpu (hw_resume b i c h) i (set_c_intena b c).
Proof.
  intros [Hc Hn HI] E. constructor; simpl; [|lia|by rewrite E].
  apply cur_cpu_IF. by apply (cur_cpu_upd _ _ c).
Qed.

Lemma sched_eq s h i c p pr :
  only_ptable s i c h -> c_proc c = Some p -> k_proc s !! p = Some pr -> p_state pr <> RUNNING ->
  sched s = Swtch s (sched_back (c_intena c)).
Proof.
  intros [Hc Hn Hf Hh] Hp Hpr Hs. pose proof (on_cpu_lock _ _ _ L_ptable Hc) as Hl.
  rewrite <- Hh in Hl. unfold sched.
  erewrite bind_run by by eapply myproc_eq.
  erewrite bind_run by by eapply holding_eq.
  erewrite getlock_held by (rewrite Hh; apply lookup_insert_eq). simpl. rewrite Nat.eqb_refl. simpl.
  assert (HI : h_IF (k_hw s) = false) by by rewrite Hh.
  erewrite bind_run by (eapply mycpu_eq; [apply Hl|done]).
  erewrite bind_run by (apply getcpu_eq; apply Hl). simpl. rewrite Hn. simpl.
  rewrite Hp. unfold nonnull. rewrite bind_ret.
  erewrite bind_run by by apply getproc_eq. rewrite bool_decide_false by done.
  unfold readIF. rewrite bind_gets, HI.
  erewrite bind_run by (eapply mycpu_eq; [apply Hl|done]).
  erewrite bind_run by (apply getcpu_eq; apply Hl). cbv zeta.
  by erewrite bind_run by (eapply mycpu_eq; [apply Hl|done]).
Qed.

Lemma sched_back_eq s i c h b :
  only_ptable s i c h ->
  sched_back b s = Ret tt (set_k_hw (hw_lock L_ptable i (set_c_intena b c) (hw_resume b i c h)) s).
Proof.
  intros [Hc Hn Hf Hh]. pose proof (on_cpu_lock _ _ _ L_ptable Hc) as Hl. rewrite <- Hh in Hl.
  unfold sched_back. erewrite bind_run by (eapply mycpu_eq; [apply Hl|by rewrite Hh]).
  erewrite updcpu_eq by apply Hl. rewrite Hh. by rewrite (hw_lock_resume _ _ _ b (oc_cur _ _ _ Hc)).
Qed.

(** [release(&ptable.lock)] after [sched_back]: interrupts are as the thread had them. *)
Lemma sched_back_release s i c h b :
  only_ptable s i c h ->
  (sched_back b ;; release L_ptable)%km s = Ret tt (set_k_hw (hw_resume b i c h) s).
Proof.
  intros H. erewrite bind_run by by apply sched_back_eq.
  erewrite release_eq; [done|by apply on_cpu_resume; apply H|apply H|done].
Qed.

(** Calling [sched] without [ptable.lock] panics. *)
Lemma sched_unlocked s i c :
  on_cpu (k_hw s) i c -> lock_free (k_hw s) L_ptable -> sched s = Panic "sched ptable.lock" s.
Proof.
  intros Hc Hf. unfold sched. erewrite bind_run by by eapply myproc_eq.
  erewrite bind_run by by eapply holding_eq. by rewrite getlock_free by done.
Qed.

Lemma bind_swtch {A B} (m : K A) (f : A -> K B) s s' k :
  m s = Swtch s' k -> bind m f s = Swtch s' (fun s'' => obind (k s'') f).
Proof. unfold bind. by intros ->. Qed.
End Switch.

Definition asleep (ch : chan) (pr : proc) : proc := set_p_state SLEEPING (set_p_chan (Some ch) pr).

(** What is left of [sleep] after [sched] has come back. *)
Definition sleep_back (p : nat) (lk : lockid) : K unit :=
  updproc p (set_p_chan None) ;;
  when (bool_decide (lk <> L_ptable)) (release L_ptable ;; acquire lk).

Section Sleep.
Implicit Types (s : kernel) (h : hw) (i p : nat) (c : cpu).

Lemma sleep_tail s h i c p pr ch lk :
  only_ptable s i c h -> c_proc c = Some p -> k_proc s !! p = Some pr ->
  (updproc p (set_p_chan (Some ch)) ;; updproc p (set_p_state SLEEPING) ;; sched ;;
   updproc p (set_p_chan None) ;;
   when (bool_decide (lk <> L_ptable)) (release L_ptable ;; acquire lk))%km s =
  Swtch (set_k_proc (<[p := asleep ch pr]> (k_proc s)) s)
    (fun s' => (sched_back (c_intena c) ;; sleep_back p lk)%km s').
Proof.
  intros [] Hp Hpr. pose proof (lookup_lt_Some _ _ _ Hpr) as Hlt.
  erewrite bind_run by by apply updproc_eq.
  erewrite bind_run by (apply updproc_eq; apply list_lookup_insert_eq; done). simpl.
  rewrite list_insert_insert_eq.
  erewrite bind_swtch; [|eapply (sched_eq _ h i c p (asleep ch pr)); simpl; try done]; [done|..].
  by apply list_lookup_insert_eq.
Qed.

Lemma sleep_eq s h i c p pr ch lk :
  on_cpu h i c -> c_ncli c = 0 -> c_proc c = Some p -> lk <> L_ptable ->
  lock_free h lk -> lock_free h L_ptable -> k_hw s = hw_lock lk i c h -> k_proc s !! p = Some pr ->
  sleep ch lk s =
  Swtch (set_k_proc (<[p := asleep ch pr]> (k_proc s)) (set_k_hw (hw_lock L_ptable i c h) s))
    (fun s' => (sched_back (c_intena c) ;; sleep_back p lk)%km s').
Proof.
  intros Hc Hn Hp Hlk Hf Hfp Hh Hpr. pose proof (on_cpu_lock _ _ _ lk Hc) as Hl.
  unfold sleep. erewrite bind_run by (eapply myproc_eq; rewrite Hh; exact Hl). simpl. rewrite Hp.
  rewrite (bind_run _ _ _ tt (set_k_hw (hw_lock L_ptable i c h) s)).
  { eapply (sleep_tail (set_k_hw (hw_lock L_ptable i c h) s)); eauto. by constructor. }
  rewrite bool_decide_true by done. cbn [when]. erewrite bind_run.
  2:{ apply (acquire_eq s i (cpu_pushed c)); rewrite Hh; [done|]. by apply lock_free_other. }
  erewrite (release_eq _ (hw_lock L_ptable i c h) i (cpu_pushed c)); [done|by apply on_cpu_lock|..].
  - by apply lock_free_other.
  - simpl. rewrite Hh. by apply hw_lock_comm.
Qed.

Lemma sleep_back_eq s j c h p pr lk b :
  only_ptable s j c h -> k_proc s !! p = Some pr -> lk <> L_ptable -> lock_free h lk ->
  (sched_back b ;; sleep_back p lk)%km s =
  Ret tt (set_k_proc (<[p := set_p_chan None pr]> (k_proc s))
           (set_k_hw (hw_lock lk j (set_c_intena b c) (hw_resume b j c h)) s)).
Proof.
  intros H Hpr Hlk Hf. erewrite bind_run by by apply sched_back_eq. unfold sleep_back.
  erewrite bind_run by (apply updproc_eq; exact Hpr).
  rewrite bool_decide_true by done. cbn [when].
  erewrite bind_run; [|eapply release_eq; [apply on_cpu_resume; apply H|apply H|done]].
  erewrite acquire_eq; [done|apply on_cpu_resume; apply H|done].
Qed.

(** [sleep(chan, &ptable.lock)], as [wait] calls it. *)
Lemma sleep_ptable_eq s h i c p pr ch :
  only_ptable s i c h -> c_proc c = Some p -> k_proc s !! p = Some pr ->
  sleep ch L_ptable s =
  Swtch (set_k_proc (<[p := asleep ch pr]> (k_proc s)) s)
    (fun s' => (sched_back (c_intena c) ;; sleep_back p L_ptable)%km s').
Proof.
  intros H Hp Hpr. unfold sleep.
  erewrite bind_run by (eapply myproc_eq; rewrite (op_hw _ _ _ _ H); apply on_cpu_lock, H).
  change (c_proc (cpu_pushed c)) with (c_proc c). rewrite Hp.
  rewrite (bind_run _ _ _ tt s); [|done]. by eapply sleep_tail.
Qed.

Lemma wake_asleep ch pr : p_state (wake (Some ch) (asleep ch pr)) = RUNNABLE.
Proof. unfold wake. by rewrite bool_decide_true. Qed.

Lemma wake_not ch pr : p_state pr <> SLEEPING \/ p_chan pr <> ch -> wake ch pr = pr.
Proof. intros H. unfold wake. rewrite bool_decide_false; [done|]. tauto. Qed.
End Sleep.

(** * [kill] *)
Section Kill.
Implicit Types (s : kernel) (i p : nat) (c : cpu).

Definition has_pid (pid : Z) (pr : proc) : Prop := p_pid pr = pid.

(** The body of the search, away from a match. *)
Lemma range_split n p : (p < Z.to_nat n)%nat ->
  range n = seq 0 p ++ p :: seq (S p) (Z.to_nat n - S p).
Proof.
  intros H. unfold range. replace (Z.to_nat n) with (p + S (Z.to_nat n - S p))%nat at 1 by lia.
  by rewrite seq_app.
Qed.

Lemma kill_found s i c pid p pr :
  on_cpu (k_hw s) i c -> lock_free (k_hw s) L_ptable -> table_ok s ->
  k_proc s !! p = Some pr -> p_pid pr = pid ->
  (forall q qr, (q < p)%nat -> k_proc s !! q = Some qr -> p_pid qr <> pid) ->
  kill pid s = Ret 0 (set_k_proc (<[p := kill_proc pr]> (k_proc s)) s).
Proof.
  intros Hc Hf Ht Hp Hpid Hfirst. unfold kill.
  erewrite bind_run by by apply acquire_eq. set (s1 := set_k_hw _ s).
  pose proof (lookup_lt_Some _ _ _ Hp) as Hlt. unfold table_ok in Ht.
  rewrite (range_split _ p) by lia.
  rewrite (bind_run _ _ _ (Some 0) (set_k_proc (<[p := kill_proc pr]> (k_proc s)) s)); [done|].
  eapply (for_find_hit _ _ _ _ s1 0).
  - intros q Hq. apply elem_of_seq in Hq.
    destruct (lookup_lt_is_Some_2 (k_proc s) q) as [qr Hqr]; [lia|].
    erewrite bind_run by (apply getproc_eq; exact Hqr).
    destruct (Z.eqb_spec (p_pid qr) pid) as [E|]; [|done].
    exfalso. apply (Hfirst q qr); [lia|done|done].
  - erewrite bind_run by (apply getproc_eq; exact Hp). rewrite Hpid, Z.eqb_refl.
    erewrite bind_run by (apply updproc_eq; exact Hp).
    erewrite bind_run by (apply getproc_eq; by apply list_lookup_insert_eq). simpl.
    rewrite (bind_run _ _ _ tt (set_k_proc (<[p := kill_proc pr]> (k_proc s)) s1)).
    + erewrite bind_run; [|by eapply release_eq]. unfold s1. simpl. by destruct s.
    + unfold when, kill_proc. case_bool_decide.
      * erewrite updproc_eq by (by apply list_lookup_insert_eq). simpl.
        by rewrite list_insert_insert_eq.
      * unfold s1, ret. simpl. by destruct pr.
Qed.

Lemma kill_missing s i c pid :
  on_cpu (k_hw s) i c -> lock_free (k_hw s) L_ptable -> table_ok s ->
  (forall q qr, k_proc s !! q = Some qr -> p_pid qr <> pid) ->
  kill pid s = Ret (-1) s.
Proof.
  intros Hc Hf Ht Hno. unfold kill.
  erewrite bind_run by by apply acquire_eq. set (s1 := set_k_hw _ s).
  rewrite (bind_run _ _ _ None s1); [|apply for_find_none].
  - cbv beta iota. erewrite bind_run by by eapply release_eq. unfold s1, ret. simpl. by destruct s.
  - intros q Hq. apply elem_of_seq in Hq. unfold table_ok in Ht.
    destruct (lookup_lt_is_Some_2 (k_proc s) q) as [qr Hqr]; [lia|].
    erewrite bind_run by (apply getproc_eq; exact Hqr).
    destruct (Z.eqb_spec (p_pid qr) pid) as [E|]; [|done].
    by destruct (Hno q qr).
Qed.
End Kill.
