(* ===== verification/Rely.v ===== *)
(** Code that sleeps: a rely-guarantee logic over outcomes, and the thread that runs inside
    a critical section. While a thread is switched away, everything else may run; what is
    known is the guarantee it gave and the rely condition under which it comes back. *)

From S2P Require Import Prelude Bytes Params State Spinlock Sched.
From stdpp Require Import base list gmap strings.
From Stdlib Require Import ZArith Lia.
Local Open Scope Z_scope.
Local Open Scope km_scope.

(** [rg G R Q o]: the run neither panics nor goes wrong; whenever it switches away, [G] holds
    of the state it leaves; if it then always comes back in a state related by [R], it ends
    with [Q]. A run that still waits when the waiting bound of the model is reached has kept
    its guarantees. *)
Fixpoint rg {S A : Type} (G : S -> Prop) (R : S -> S -> Prop) (Q : A -> S -> Prop) (o : outcome S A) : Prop :=
  match o with
  | Ret a s => Q a s
  | Swtch s k => G s /\ forall s', R s s' -> rg G R Q (k s')
  | NoFuel _ => True
  | Panic _ _ | Undef _ _ | Spin _ => False
  end.

Section Rg.
Context {S : Type} (G : S -> Prop) (R : S -> S -> Prop).

Lemma rg_mono {A} (Q Q' : A -> S -> Prop) (o : outcome S A) :
  (forall a s, Q a s -> Q' a s) -> rg G R Q o -> rg G R Q' o.
Proof. intros H. induction o as [| | | |s k IH|]; cbn [rg]; auto. intros [? Hk]. auto. Qed.

(** The guarantee can be weakened. *)
Lemma rg_guar {A} (G' : S -> Prop) (Q : A -> S -> Prop) (o : outcome S A) :
  (forall s, G s -> G' s) -> rg G R Q o -> rg G' R Q o.
Proof. intros H. induction o as [| | | |s k IH|]; cbn [rg]; auto. intros [? Hk]. auto. Qed.

Lemma rg_bind {A B} (m : M S A) (f : A -> M S B) Q s :
  rg G R (fun a s' => rg G R Q (f a s')) (m s) -> rg G R Q (bind m f s).
Proof.
  unfold bind. induction (m s) as [| | | |s' k IH|]; cbn [rg obind]; auto. intros [? Hk]. auto.
Qed.

Lemma rg_ret {A} (m : M S A) Q s a s' : m s = Ret a s' -> Q a s' -> rg G R Q (m s).
Proof. by intros ->. Qed.

(** A step that returns. *)
Lemma rg_step {A B} (m : M S A) (f : A -> M S B) Q s a s' :
  m s = Ret a s' -> rg G R Q (f a s') -> rg G R Q (bind m f s).
Proof. intros E H. apply rg_bind. by rewrite E. Qed.
End Rg.

(** * A thread and the rest of the kernel *)

(** Everything but the processors, the locks and the process table. *)
Definition rest (s : kernel) : kernel := set_k_hw hw0 (set_k_proc [] s).

(** Process [q] runs, and holds no spin-lock. *)
Record free_thread (q : nat) (s : kernel) : Prop := {
  ft_on : exists i c pr, running s i c q pr /\ c_ncli c = 0 /\ p_state pr = RUNNING;
  ft_locks : h_locks (k_hw s) = ∅;
  ft_table : table_ok s
}.

(** Process [q] runs, and holds the spin-lock [lk] and no other. *)
Record inside (lk : lockid) (q : nat) (s : kernel) : Prop := {
  in_on : exists i c h pr, on_cpu h i c /\ c_ncli c = 0 /\ c_proc c = Some q /\ h_locks h = ∅ /\
            k_hw s = hw_lock lk i c h /\ k_proc s !! q = Some pr /\ p_state pr = RUNNING;
  in_table : table_ok s
}.

(** Process [q] has just been given the processor by the scheduler: it holds [ptable.lock]. *)
Record resumed (q : nat) (s : kernel) : Prop := {
  rs_on : exists i c h pr, only_ptable s i c h /\ c_proc c = Some q /\ h_locks h = ∅ /\
            k_proc s !! q = Some pr /\ p_state pr = RUNNING;
  rs_table : table_ok s
}.

(** The process table but for [q] itself. *)
Definition others (q : nat) (s : kernel) : list proc := <[q := proc0]> (k_proc s).

Section Inside.
Implicit Types (s : kernel) (q : nat) (lk : lockid).

Lemma acquire_free lk q s :
  free_thread q s -> exists s', acquire lk s = Ret tt s' /\ inside lk q s' /\ rest s' = rest s /\ k_proc s' = k_proc s.
Proof.
  intros [(i & c & pr & [Hc Hp Hpr] & Hn & Hs) Hl Ht].
  eexists. split; [apply acquire_eq; [done|unfold lock_free; by rewrite Hl]|].
  split; [|done]. constructor; [|done]. exists i, c, (k_hw s), pr. done.
Qed.

Lemma release_inside lk q s :
  inside lk q s -> exists s', release lk s = Ret tt s' /\ free_thread q s' /\ rest s' = rest s /\ k_proc s' = k_proc s.
Proof.
  intros [(i & c & h & pr & Hc & Hn & Hp & Hl & Hh & Hpr & Hs) Ht].
  eexists. split; [apply (release_eq s h i c); [done|unfold lock_free; by rewrite Hl|done]|].
  split; [|done]. constructor; [|done|done]. exists i, c, pr. done.
Qed.

Lemma inside_cur lk q s : inside lk q s -> exists pr, myproc s = Ret (Some q) s /\ k_proc s !! q = Some pr /\ p_state pr = RUNNING.
Proof.
  intros [(i & c & h & pr & Hc & Hn & Hp & Hl & Hh & Hpr & Hs) Ht]. exists pr. split; [|done].
  erewrite (myproc_eq s i (cpu_pushed c)) by (rewrite Hh; by apply on_cpu_lock). by rewrite <- Hp.
Qed.

(** Only the table and the rest of the kernel matter. *)
Lemma inside_frame lk q s s' :
  inside lk q s -> k_hw s' = k_hw s -> table_ok s' ->
  (exists pr, k_proc s' !! q = Some pr /\ p_state pr = RUNNING) -> inside lk q s'.
Proof.
  intros [(i & c & h & pr & Hc & Hn & Hp & Hl & Hh & Hpr & Hs) Ht] Eh Ht' (pr' & Hpr' & Hs').
  constructor; [|done]. exists i, c, h, pr'. by rewrite Eh.
Qed.

Lemma wakeup_inside lk q s ch :
  lk <> L_ptable -> inside lk q s ->
  exists s', wakeup ch s = Ret tt s' /\ inside lk q s' /\ rest s' = rest s /\
    k_proc s' = wake (Some ch) <$> k_proc s.
Proof.
  intros Hlk Hin. pose proof Hin as [(i & c & h & pr & Hc & Hn & Hp & Hl & Hh & Hpr & Hs) Ht].
  eexists. split.
  - apply (wakeup_eq ch s i (cpu_pushed c)); [rewrite Hh; by apply on_cpu_lock| |done].
    rewrite Hh. apply lock_free_other; [unfold lock_free; by rewrite Hl|done].
  - split; [|done]. apply (inside_frame lk q s); [done|done| |].
    + unfold table_ok in *. cbn. by rewrite length_fmap.
    + exists pr. cbn. rewrite list_lookup_fmap, Hpr. cbn. split; [|done]. f_equal. apply wake_not. left. by rewrite Hs.
Qed.

(** Sleeping in a critical section: [s1] is the state in which the thread leaves, [s2] the
    one in which it comes back, [s3] the one in which [sleep] returns. *)
Lemma sleep_rg G R (Q : unit -> kernel -> Prop) ch lk q s :
  lk <> L_ptable -> inside lk q s ->
  (forall s1 pr, rest s1 = rest s -> k_proc s !! q = Some pr -> k_proc s1 = <[q := asleep ch pr]> (k_proc s) ->
     G s1 /\ forall s2, R s1 s2 -> resumed q s2 /\
       forall s3, rest s3 = rest s2 -> others q s3 = others q s2 -> inside lk q s3 -> Q tt s3) ->
  rg G R Q (sleep ch lk s).
Proof.
  intros Hlk Hin H. pose proof Hin as [(i & c & h & pr & Hc & Hn & Hp & Hl & Hh & Hpr & Hs) Ht].
  rewrite (sleep_eq s h i c q pr ch lk) by (try done; unfold lock_free; by rewrite Hl). cbn [rg].
  destruct (H (set_k_proc (<[q := asleep ch pr]> (k_proc s)) (set_k_hw (hw_lock L_ptable i c h) s)) pr)
    as [HG HR]; [done..|]. split; [done|]. intros s2 H2.
  destruct (HR s2 H2) as [[(j & c2 & h2 & pr2 & Ho & Hp2 & Hl2 & Hpr2 & Hs2) Ht2] HQ].
  erewrite sleep_back_eq by (try done; unfold lock_free; by rewrite Hl2). cbn [rg].
  apply HQ; [done| |].
  - unfold others. cbn. by rewrite list_insert_insert_eq.
  - constructor.
    + exists j, (set_c_intena (c_intena c) c2), (hw_resume (c_intena c) j c2 h2), (set_p_chan None pr2).
      split_and!; try done; try apply Ho.
      * apply on_cpu_resume; apply Ho.
      * cbn. by rewrite list_lookup_insert_eq by by eapply lookup_lt_Some.
    + unfold table_ok in *. cbn. by rewrite length_insert.
Qed.
End Inside.
