(* ===== verification/Sleeplock.v ===== *)
(** [sleeplock.c]: locks that are held across [sched]; [acquiresleep],
    [releasesleep], [holdingsleep] as a thread without competitors runs them, and
    what a contended [acquiresleep] does. *)

From S2P Require Import Prelude Bytes Params State Spinlock Sched.
From stdpp Require Import base list gmap strings.
From Stdlib Require Import ZArith Lia.
Local Open Scope Z_scope.
Local Open Scope km_scope.

(** A sleep-lock in zero-initialised storage. *)
Definition sleep_zero : sleeplock := mkSleeplock 0 0.

Definition getsleep (s : kernel) (l : slid) : sleeplock := default sleep_zero (k_sleeplocks s !! l).
Definition putsleep (l : slid) (v : sleeplock) (s : kernel) : kernel :=
  set_k_sleeplocks (match slocked v, spid v with
                    | 0, 0 => delete l (k_sleeplocks s)
                    | _, _ => <[l := v]> (k_sleeplocks s)
                    end) s.

(** [myproc()->pid] *)
Definition mypid : K Z :=
  let! op := myproc in
  let! p := nonnull "myproc()->pid" op in
  let! pr := getproc p in
  ret (p_pid pr).

Definition initsleeplock (l : slid) : K unit :=
  initlock (L_sleep l) ;;
  modify (putsleep l sleep_zero).

Definition acquiresleep `{WaitFuel} (l : slid) : K unit :=
  acquire (L_sleep l) ;;
  while_loop wait_fuel (gets (fun s => negb (slocked (getsleep s l) =? 0)))
    (sleep (Ch_sleep l) (L_sleep l)) ;;
  modify (fun s => putsleep l (set_slocked 1 (getsleep s l)) s) ;;
  let! pid := mypid in
  modify (fun s => putsleep l (set_spid pid (getsleep s l)) s) ;;
  release (L_sleep l).

Definition releasesleep (l : slid) : K unit :=
  acquire (L_sleep l) ;;
  modify (fun s => putsleep l (set_slocked 0 (getsleep s l)) s) ;;
  modify (fun s => putsleep l (set_spid 0 (getsleep s l)) s) ;;
  wakeup (Ch_sleep l) ;;
  release (L_sleep l).

Definition holdingsleep (l : slid) : K bool :=
  acquire (L_sleep l) ;;
  let! v := gets (fun s => getsleep s l) in
  let! r := (if negb (slocked v =? 0) then
               let! pid := mypid in ret (spid v =? pid)
             else ret false) in
  release (L_sleep l) ;;
  ret r.

(** * A thread that runs alone *)

(** The channels of the file system. *)
Definition fs_chan (ch : chan) : bool :=
  match ch with Ch_log | Ch_buf _ | Ch_sleep _ => true | _ => false end.

(** Process [p] runs on processor [i], no spin-lock is held, and nobody sleeps inside
    the file system. *)
Record thread (s : kernel) (i : nat) (c : cpu) (p : nat) (pr : proc) : Prop := {
  th_cpu : on_cpu (k_hw s) i c;
  th_locks : h_locks (k_hw s) = ∅;
  th_cproc : c_proc c = Some p;
  th_proc : k_proc s !! p = Some pr;
  th_table : table_ok s;
  th_awake : forall q qr ch, k_proc s !! q = Some qr -> p_chan qr = Some ch -> fs_chan ch = true ->
               p_state qr <> SLEEPING
}.

(** The thread depends on the hardware and the process table only. *)
Lemma thread_frame s s' i c p pr :
  thread s i c p pr -> k_hw s' = k_hw s -> k_proc s' = k_proc s -> thread s' i c p pr.
Proof.
  intros [] Eh Ep. constructor; unfold table_ok in *; rewrite ?Eh, ?Ep; auto.
Qed.

Lemma thread_free s i c p pr l : thread s i c p pr -> lock_free (k_hw s) l.
Proof. intros H. unfold lock_free. by rewrite (th_locks _ _ _ _ _ H). Qed.

#[export] Hint Resolve thread_free th_cpu : xv6.

Section Alone.
Implicit Types (s : kernel) (i p : nat) (c : cpu) (pr : proc) (l : slid).

Lemma getsleep_put s l v : getsleep (putsleep l v s) l = v.
Proof.
  unfold getsleep, putsleep. destruct v as [[| |] [| |]]; simpl;
    rewrite ?lookup_insert_eq, ?lookup_delete_eq; done.
Qed.

Lemma putsleep_put s l v w : putsleep l v (putsleep l w s) = putsleep l v s.
Proof.
  unfold putsleep. destruct v as [[| |] [| |]], w as [[| |] [| |]]; simpl; unfold set_k_sleeplocks; simpl;
    rewrite ?insert_insert_eq, ?insert_delete_eq, ?delete_insert_eq, ?delete_delete_eq; done.
Qed.

(** While the spin-lock [L] is held by the thread. *)
Lemma mypid_locked s s0 i c p pr L :
  thread s0 i c p pr -> k_hw s = hw_lock L i c (k_hw s0) -> k_proc s = k_proc s0 ->
  mypid s = Ret (p_pid pr) s.
Proof.
  intros H Eh Ep. unfold mypid.
  erewrite bind_run by (eapply myproc_eq; rewrite Eh; apply on_cpu_lock, H).
  simpl. rewrite (th_cproc _ _ _ _ _ H). unfold nonnull. rewrite bind_ret.
  by erewrite bind_run by (apply getproc_eq; rewrite Ep; apply H).
Qed.

Lemma mypid_eq s i c p pr : thread s i c p pr -> mypid s = Ret (p_pid pr) s.
Proof.
  intros H. unfold mypid. erewrite bind_run by (eapply myproc_eq; apply H).
  rewrite (th_cproc _ _ _ _ _ H). unfold nonnull. rewrite bind_ret.
  by erewrite bind_run by (apply getproc_eq; apply H).
Qed.

Lemma wake_awake s i c p pr ch :
  thread s i c p pr -> fs_chan ch = true -> wake (Some ch) <$> k_proc s = k_proc s.
Proof.
  intros H Hch. rewrite <- (list_fmap_id (k_proc s)) at 2. apply list_fmap_ext. intros q qr Hq.
  unfold id. apply wake_not. destruct (decide (p_chan qr = Some ch)) as [E|]; [left|by right].
  by apply (th_awake _ _ _ _ _ H q qr ch).
Qed.

(** Inside a critical section of a single lock, [wakeup] on a file-system channel
    finds nobody. *)
Lemma wakeup_locked s s0 i c p pr L ch :
  thread s0 i c p pr -> k_hw s = hw_lock L i c (k_hw s0) -> k_proc s = k_proc s0 ->
  L <> L_ptable -> fs_chan ch = true -> wakeup ch s = Ret tt s.
Proof.
  intros H Eh Ep HL Hch.
  rewrite (wakeup_eq ch s i (cpu_pushed c)).
  - rewrite Ep. erewrite wake_awake by done. rewrite <- Ep. by rewrite set_proc_same.
  - rewrite Eh. apply on_cpu_lock, H.
  - rewrite Eh. apply lock_free_other; [by eapply thread_free|done].
  - unfold table_ok. rewrite Ep. apply H.
Qed.

Lemma releaseth_eq s s0 i c p pr L :
  thread s0 i c p pr -> k_hw s = hw_lock L i c (k_hw s0) -> release L s = Ret tt (set_k_hw (k_hw s0) s).
Proof. intros H E. apply (release_eq s (k_hw s0) i c); [apply H|by eapply thread_free|done]. Qed.

Lemma acquireth_eq s i c p pr L :
  thread s i c p pr -> acquire L s = Ret tt (set_k_hw (hw_lock L i c (k_hw s)) s).
Proof. intros H. apply acquire_eq; [apply H|by eapply thread_free]. Qed.

Lemma acquiresleep_eq `{WaitFuel} s i c p pr l :
  thread s i c p pr -> k_sleeplocks s !! l = None ->
  acquiresleep l s = Ret tt (set_k_sleeplocks (<[l := mkSleeplock 1 (p_pid pr)]> (k_sleeplocks s)) s).
Proof.
  intros Ht Hf. unfold acquiresleep. erewrite bind_run by by eapply acquireth_eq.
  set (s1 := set_k_hw _ s).
  assert (G : getsleep s1 l = sleep_zero) by (unfold getsleep; simpl; by rewrite Hf).
  rewrite (bind_run _ _ s1 tt s1) by (apply while_false; unfold gets; by rewrite G).
  rewrite bind_modify, G. erewrite bind_run by by eapply (mypid_locked _ s).
  rewrite bind_modify, getsleep_put, putsleep_put. simpl.
  by erewrite releaseth_eq by done; destruct s.
Qed.

Lemma releasesleep_eq s i c p pr l :
  thread s i c p pr ->
  releasesleep l s = Ret tt (set_k_sleeplocks (delete l (k_sleeplocks s)) s).
Proof.
  intros Ht. unfold releasesleep. erewrite bind_run by by eapply acquireth_eq.
  rewrite !bind_modify, getsleep_put, putsleep_put.
  erewrite bind_run by (by eapply (wakeup_locked _ s)).
  by erewrite releaseth_eq by done; destruct s.
Qed.

Lemma holdingsleep_eq s i c p pr l :
  thread s i c p pr ->
  holdingsleep l s = Ret (negb (slocked (getsleep s l) =? 0) && (spid (getsleep s l) =? p_pid pr)) s.
Proof.
  intros Ht. unfold holdingsleep. erewrite bind_run by by eapply acquireth_eq.
  rewrite bind_gets. set (s1 := set_k_hw _ s).
  change (getsleep s1 l) with (getsleep s l).
  rewrite (bind_run _ _ _ (negb (slocked (getsleep s l) =? 0) && (spid (getsleep s l) =? p_pid pr)) s1).
  - erewrite bind_run by by eapply releaseth_eq. unfold s1, ret. simpl. by destruct s.
  - destruct (slocked (getsleep s l) =? 0); [done|]. simpl.
    by erewrite bind_run by by eapply (mypid_locked _ s).
Qed.

(** The lock the thread holds. *)
Lemma holdingsleep_self s i c p pr l :
  thread s i c p pr -> k_sleeplocks s !! l = Some (mkSleeplock 1 (p_pid pr)) ->
  holdingsleep l s = Ret true s.
Proof.
  intros Ht Hl. erewrite holdingsleep_eq by done. unfold getsleep. rewrite Hl. simpl.
  by rewrite Z.eqb_refl.
Qed.
End Alone.

(** * A running machine: [kernel0] with process 0 (pid 1) running on processor 0 *)
Definition cpu_run : cpu := set_c_proc (Some 0%nat) cpu0.
Definition hw_run : hw := set_h_cpus (cpu_run :: replicate 7 cpu0) hw0.
Definition proc_run : proc := set_p_state RUNNING (set_p_pid 1 proc0).
Definition kernel_run : kernel :=
  set_k_hw hw_run (set_k_proc (proc_run :: replicate 63 proc0) kernel0).

Lemma thread_run : thread kernel_run 0 cpu_run 0 proc_run.
Proof.
  constructor; try done.
  - constructor; [constructor|..]; simpl; auto; lia.
  - intros q qr ch Hq Hc. assert (p_chan qr = None) as E; [|congruence].
    change ((proc_run :: replicate 63 proc0) !! q = Some qr) in Hq.
    destruct q as [|q]; cbn [lookup list_lookup] in Hq; [by simplify_eq|]. apply lookup_replicate in Hq as [-> _]. done.
Qed.
