(* ===== verification/Bio.v ===== *)
(** The buffer cache [bio.c] over the memory disk [memide.c]: the doubly linked
    least-recently-used ring, [bget], [bread], [bwrite], [brelse] and [iderw]. *)

From S2P Require Import Prelude Bytes Params State Spinlock Sched Sleeplock.
From stdpp Require Import base list gmap strings.
From Stdlib Require Import ZArith Lia.
Local Open Scope Z_scope.
Local Open Scope km_scope.

(** [&bcache.head] *)
Definition bhead : nat := Z.to_nat NBUF.

(** * [memide.c] *)

(** [ideinit]: [disksize] is the size of the linked image in blocks. *)
Definition ideinit (img : Z -> list Z) (img_size : Z) : K unit :=
  modify (fun s => set_k_disk (mkDisk img (img_size / BSIZE) []) s).

Definition ideintr : K unit := ret tt.

Definition disk_write (b : Z) (data : list Z) (d : disk_t) : disk_t :=
  mkDisk (fun x => if x =? b then data else d_blocks d x) (d_size d) (d_trace d ++ [(b, data)]).

Definition iderw (b : nat) : K unit :=
  let! h := holdingsleep (SL_buf b) in
  if negb h then panic "iderw: buf not locked" else
  let! bp := getbuf b in
  if Z.land (b_flags bp) (Z.lor B_VALID B_DIRTY) =? B_VALID then panic "iderw: nothing to do" else
  if negb (b_dev bp =? 1) then panic "iderw: request not for disk 1" else
  let! d := gets k_disk in
  if d_size d <=? b_blockno bp then panic "iderw: block out of range" else
  (if negb (Z.land (b_flags bp) B_DIRTY =? 0) then
     updbuf b (fun bp => set_b_flags (Z.land (b_flags bp) (Z.lnot B_DIRTY)) bp) ;;
     modify (fun s => set_k_disk (disk_write (b_blockno bp) (b_data bp) (k_disk s)) s)
   else
     updbuf b (set_b_data (d_blocks d (b_blockno bp)))) ;;
  updbuf b (fun bp => set_b_flags (Z.lor (b_flags bp) B_VALID) bp).

(** * [bio.c] *)

Definition binit : K unit :=
  initlock L_bcache ;;
  updbuf bhead (set_b_prev bhead) ;;
  updbuf bhead (set_b_next bhead) ;;
  for_each (range NBUF) (fun b =>
    let! hd := getbuf bhead in
    updbuf b (set_b_next (b_next hd)) ;;
    updbuf b (set_b_prev bhead) ;;
    initsleeplock (SL_buf b) ;;
    let! hd := getbuf bhead in
    updbuf (b_next hd) (set_b_prev b) ;;
    updbuf bhead (set_b_next b)).

(** The first loop of [bget], from [b] along [next]. *)
Fixpoint bget_cached (fuel : nat) (b : nat) (dev blockno : Z) : K (option nat) :=
  match fuel with
  | O => nofuel
  | S fuel =>
      if Nat.eqb b bhead then ret None else
      let! bp := getbuf b in
      if (b_dev bp =? dev) && (b_blockno bp =? blockno) then ret (Some b)
      else bget_cached fuel (b_next bp) dev blockno
  end.

(** The second loop, from [b] along [prev]. *)
Fixpoint bget_unused (fuel : nat) (b : nat) : K (option nat) :=
  match fuel with
  | O => nofuel
  | S fuel =>
      if Nat.eqb b bhead then ret None else
      let! bp := getbuf b in
      if (b_refcnt bp =? 0) && (Z.land (b_flags bp) B_DIRTY =? 0) then ret (Some b)
      else bget_unused fuel (b_prev bp)
  end.

(** The ring has [NBUF] buffers, so both loops end within [NBUF + 1] tests. *)
Definition ring_fuel : nat := S (Z.to_nat NBUF).

Definition bget `{WaitFuel} (dev blockno : Z) : K nat :=
  acquire L_bcache ;;
  let! hd := getbuf bhead in
  let! r := bget_cached ring_fuel (b_next hd) dev blockno in
  match r with
  | Some b =>
      updbuf b (fun bp => set_b_refcnt (u32 (b_refcnt bp + 1)) bp) ;;
      release L_bcache ;;
      acquiresleep (SL_buf b) ;;
      ret b
  | None =>
      let! hd := getbuf bhead in
      let! r := bget_unused ring_fuel (b_prev hd) in
      match r with
      | Some b =>
          updbuf b (set_b_dev dev) ;;
          updbuf b (set_b_blockno blockno) ;;
          updbuf b (set_b_flags 0) ;;
          updbuf b (set_b_refcnt 1) ;;
          release L_bcache ;;
          acquiresleep (SL_buf b) ;;
          ret b
      | None => panic "bget: no buffers"
      end
  end.

Definition bread `{WaitFuel} (dev blockno : Z) : K nat :=
  let! b := bget dev blockno in
  let! bp := getbuf b in
  when (Z.land (b_flags bp) B_VALID =? 0) (iderw b) ;;
  ret b.

Definition bwrite (b : nat) : K unit :=
  let! h := holdingsleep (SL_buf b) in
  if negb h then panic "bwrite" else
  updbuf b (fun bp => set_b_flags (Z.lor (b_flags bp) B_DIRTY) bp) ;;
  iderw b.

(** The body of [if(b->refcnt == 0)]: move [b] to the front of the ring. *)
Definition bmove (b : nat) : K unit :=
  let! bp := getbuf b in
  updbuf (b_next bp) (set_b_prev (b_prev bp)) ;;
  let! bp := getbuf b in
  updbuf (b_prev bp) (set_b_next (b_next bp)) ;;
  let! hd := getbuf bhead in
  updbuf b (set_b_next (b_next hd)) ;;
  updbuf b (set_b_prev bhead) ;;
  let! hd := getbuf bhead in
  updbuf (b_next hd) (set_b_prev b) ;;
  updbuf bhead (set_b_next b).

Definition brelse (b : nat) : K unit :=
  let! h := holdingsleep (SL_buf b) in
  if negb h then panic "brelse" else
  releasesleep (SL_buf b) ;;
  acquire L_bcache ;;
  updbuf b (fun bp => set_b_refcnt (u32 (b_refcnt bp - 1)) bp) ;;
  let! bp := getbuf b in
  when (b_refcnt bp =? 0) (bmove b) ;;
  release L_bcache.

(** * The ring *)

(** [p->next == e] and [e->prev == p]. *)
Definition link (B : list buf) (p e : nat) : Prop :=
  b_next <$> B !! p = Some e /\ b_prev <$> B !! e = Some p.

(** The nodes of [l], in order, lead from [p] to [e]. *)
Fixpoint linked (B : list buf) (p : nat) (l : list nat) (e : nat) : Prop :=
  match l with
  | [] => link B p e
  | x :: l' => link B p x /\ linked B x l' e
  end.

Definition bupd (B : list buf) (i : nat) (f : buf -> buf) : list buf := alter f i B.

(** [brelse]'s move to the front, as a function of the array. *)
Definition unlink (b : nat) (bp : buf) (B : list buf) : list buf :=
  bupd (bupd B (b_next bp) (set_b_prev (b_prev bp))) (b_prev bp) (set_b_next (b_next bp)).
Definition to_front (b first : nat) (B : list buf) : list buf :=
  bupd (bupd (bupd (bupd B b (set_b_next first)) b (set_b_prev bhead)) first (set_b_prev b))
    bhead (set_b_next b).

Section Ring.
Implicit Types (B : list buf) (l : list nat) (p e x b i : nat).

Lemma linked_app B p l1 x l2 e :
  linked B p (l1 ++ x :: l2) e <-> linked B p l1 x /\ linked B x l2 e.
Proof.
  revert p. induction l1 as [|y l1 IH]; intros p; simpl; [tauto|]. rewrite IH. tauto.
Qed.

Definition first_of l e : nat := List.hd e l.
Definition same_next B B' p : Prop := b_next <$> B' !! p = b_next <$> B !! p.
Definition same_prev B B' p : Prop := b_prev <$> B' !! p = b_prev <$> B !! p.

Lemma linked_same B B' p l e :
  linked B p l e ->
  (forall x, x ∈ p :: l -> same_next B B' x) -> (forall x, x ∈ l ++ [e] -> same_prev B B' x) ->
  linked B' p l e.
Proof.
  revert p. induction l as [|y l IH]; intros p; simpl; unfold link, same_next, same_prev.
  - intros [H1 H2] Hn Hp. rewrite Hn, Hp by set_solver. done.
  - intros [[H1 H2] H3] Hn Hp. rewrite Hn, Hp by set_solver. split; [done|].
    apply IH; [done|..]; intros; [apply Hn|apply Hp]; set_solver.
Qed.

Lemma lookup_bupd B i f j :
  bupd B i f !! j = if decide (i = j) then f <$> B !! j else B !! j.
Proof.
  unfold bupd. destruct (decide (i = j)) as [->|]; [by rewrite list_lookup_alter_eq|].
  by rewrite list_lookup_alter_ne.
Qed.

Lemma bupd_insert B i f bp : B !! i = Some bp -> <[i := f bp]> B = bupd B i f.
Proof.
  intros H. apply list_eq. intros j. rewrite lookup_bupd. destruct (decide (i = j)) as [<-|].
  - rewrite H. apply list_lookup_insert_eq. by eapply lookup_lt_Some.
  - by rewrite list_lookup_insert_ne.
Qed.

Lemma same_next_bupd B i f j :
  i <> j \/ (forall bp, b_next (f bp) = b_next bp) -> same_next B (bupd B i f) j.
Proof.
  intros H. unfold same_next. rewrite lookup_bupd. destruct (decide (i = j)); [|done].
  destruct (B !! j); simpl; [|done]. destruct H as [|H]; [done|]. by rewrite H.
Qed.

Lemma same_prev_bupd B i f j :
  i <> j \/ (forall bp, b_prev (f bp) = b_prev bp) -> same_prev B (bupd B i f) j.
Proof.
  intros H. unfold same_prev. rewrite lookup_bupd. destruct (decide (i = j)); [|done].
  destruct (B !! j); simpl; [|done]. destruct H as [|H]; [done|]. by rewrite H.
Qed.

(** The node before the end of a chain is one of its nodes. *)
Lemma linked_prev_in B p l e q : linked B p l e -> b_prev <$> B !! e = Some q -> q ∈ p :: l.
Proof.
  revert p. induction l as [|y l IH]; intros p; simpl.
  - intros [_ H] E. rewrite H in E. set_solver.
  - intros [_ H] E. apply (IH _ H) in E. set_solver.
Qed.

(** Let a chain end in [n] instead of [b]. *)
Lemma linked_retarget B B' p l b n q :
  linked B p l b -> b_prev <$> B !! b = Some q -> NoDup (p :: l) ->
  (forall x, x ∈ p :: l -> x <> q -> same_next B B' x) -> (forall x, x ∈ l -> same_prev B B' x) ->
  link B' q n -> linked B' p l n.
Proof.
  revert p. induction l as [|y l IH]; intros p; simpl; unfold link, same_next, same_prev.
  - intros [_ H] E _ _ _ Hl. by simplify_eq.
  - intros [[H1 H2] H] E Hnd Hn Hp Hl. apply NoDup_cons in Hnd as [Hni Hnd].
    assert (q ∈ y :: l) by by eapply linked_prev_in.
    rewrite (Hn p), (Hp y) by set_solver. split; [done|].
    apply IH; auto; intros; [apply Hn|apply Hp]; set_solver.
Qed.

Lemma linked_dom B p l e x : linked B p l e -> x ∈ p :: l ++ [e] -> is_Some (B !! x).
Proof.
  assert (D : forall p e, link B p e -> is_Some (B !! p) /\ is_Some (B !! e)).
  { intros p' e' [H1 H2]. by split; eapply fmap_is_Some; eauto. }
  revert p. induction l as [|y l IH]; intros p; simpl.
  - intros H. apply D in H. set_solver.
  - intros [H1 H2] Hx. apply D in H1 as [H1 _].
    apply elem_of_cons in Hx as [->|Hx]; [done|]. by apply (IH _ H2).
Qed.

Lemma linked_next B p l e : linked B p l e -> b_next <$> B !! p = Some (first_of l e).
Proof. destruct l; simpl; [by intros []|by intros [[] _]]. Qed.

Lemma unlink_next B b bp x : x <> b_prev bp -> same_next B (unlink b bp B) x.
Proof.
  intros Hx. unfold unlink, same_next. rewrite same_next_bupd by (by left).
  apply same_next_bupd. by right.
Qed.

Lemma unlink_prev B b bp x : x <> b_next bp -> same_prev B (unlink b bp B) x.
Proof.
  intros Hx. unfold unlink, same_prev. rewrite same_prev_bupd by (by right).
  apply same_prev_bupd. by left.
Qed.

Lemma unlink_link B b bp :
  is_Some (B !! b_prev bp) -> is_Some (B !! b_next bp) ->
  link (unlink b bp B) (b_prev bp) (b_next bp).
Proof.
  intros [bq Hq] [bn Hn]. unfold link, unlink. rewrite !lookup_bupd. split.
  - rewrite decide_True by done. rewrite Hq. by destruct (decide _).
  - rewrite (decide_True (P := b_next bp = b_next bp)) by done. rewrite Hn. by destruct (decide _).
Qed.

Lemma linked_unlink B p l1 b l2 e bp :
  linked B p (l1 ++ b :: l2) e -> NoDup (p :: l1 ++ b :: l2) -> (e = p \/ e ∉ l1 ++ b :: l2) ->
  B !! b = Some bp -> linked (unlink b bp B) p (l1 ++ l2) e.
Proof.
  intros H Hnd He Hb. apply linked_app in H as [H1 H2].
  assert (Eq : b_prev <$> B !! b = Some (b_prev bp)) by by rewrite Hb.
  assert (Hq : b_prev bp ∈ p :: l1) by by eapply linked_prev_in.
  assert (Hnn : b_next bp = first_of l2 e) by (apply linked_next in H2; rewrite Hb in H2; by simplify_eq/=).
  assert (Hl : link (unlink b bp B) (b_prev bp) (b_next bp)).
  { apply unlink_link; [eapply (linked_dom B p l1 b); set_solver|eapply (linked_dom B b l2 e); [done|]].
    rewrite Hnn. destruct l2; set_solver. }
  apply NoDup_cons in Hnd as [Hnp Hnd]. pose proof Hnd as Hnd'. apply NoDup_app in Hnd' as (Hnd1 & Hd & Hnd2).
  assert (Hnd1' : NoDup (p :: l1)) by (apply NoDup_cons; split; [set_solver|done]).
  assert (Hr : linked (unlink b bp B) p l1 (b_next bp)).
  { eapply linked_retarget; eauto using unlink_next. intros x Hx. apply unlink_prev. rewrite Hnn.
    intros ->. clear - Hx Hnp He Hd. destruct l2; simpl in *; set_solver. }
  destruct l2 as [|n l2]; simpl in Hnn; rewrite Hnn in Hr; [by rewrite app_nil_r|].
  apply linked_app. split; [done|]. destruct H2 as [_ H2]. eapply linked_same; [exact H2|..].
  - intros x Hx. apply unlink_next. intros ->. set_solver.
  - intros x Hx. apply unlink_prev. rewrite Hnn. intros ->. apply NoDup_cons in Hnd2 as [? Hnd2].
    apply NoDup_cons in Hnd2 as [? ?]. apply elem_of_app in Hx. set_solver.
Qed.

Lemma linked_front B l b :
  linked B bhead l bhead -> NoDup (bhead :: l) -> b ∉ bhead :: l -> is_Some (B !! b) ->
  linked (to_front b (first_of l bhead) B) bhead (b :: l) bhead.
Proof.
  intros H Hnd Hb [bp Hbp]. set (n := first_of l bhead).
  assert (Hn : n ∈ bhead :: l) by (unfold n; destruct l; set_solver).
  destruct (linked_dom B bhead l bhead n H) as [bn Hbn]; [set_solver|].
  destruct (linked_dom B bhead l bhead bhead H) as [bh Hbh]; [set_solver|].
  assert (b <> n /\ b <> bhead) as [Hbn' Hbh'] by set_solver.
  assert (Hl1 : link (to_front b n B) bhead b).
  { unfold link, to_front. rewrite !lookup_bupd.
    rewrite !(decide_False (P := bhead = b)), !(decide_True (P := bhead = bhead)), !(decide_True (P := b = b)),
      !(decide_False (P := n = b)), !(decide_False (P := b = bhead)) by done.
    rewrite Hbh, Hbp. split; [|done]. by destruct (decide (n = bhead)). }
  assert (Hl2 : link (to_front b n B) b n).
  { unfold link, to_front. rewrite !lookup_bupd.
    rewrite !(decide_False (P := bhead = b)), !(decide_True (P := n = n)), !(decide_True (P := b = b)),
      !(decide_False (P := n = b)), !(decide_False (P := b = n)) by done.
    rewrite Hbn, Hbp. split; [done|]. by destruct (decide (bhead = n)). }
  split; [done|]. unfold n in *. destruct l as [|y l]; simpl in *; [done|]. split; [done|].
  destruct H as [_ H]. apply NoDup_cons in Hnd as [? Hnd]. apply NoDup_cons in Hnd as [? ?].
  eapply linked_same; [exact H|..]; intros x Hx; unfold same_next, same_prev, to_front; rewrite !lookup_bupd.
  - rewrite !(decide_False (P := b = x)), !(decide_False (P := bhead = x)) by set_solver.
    destruct (decide (y = x)); [|done]. by destruct (B !! x).
  - rewrite !(decide_False (P := b = x)), !(decide_False (P := y = x)) by set_solver.
    destruct (decide (bhead = x)); [|done]. by destruct (B !! x).
Qed.
End Ring.

(** * The invariant of the cache *)

Definition valid (bp : buf) : bool := negb (Z.land (b_flags bp) B_VALID =? 0).
Definition dirty (bp : buf) : bool := negb (Z.land (b_flags bp) B_DIRTY =? 0).

(** The buffer holds block [bn] of the disk, device 1. *)
Definition b_is (bn : Z) (bp : buf) : bool := (b_dev bp =? 1) && (b_blockno bp =? bn).

Fixpoint cached (B : list buf) (bn : Z) : option buf :=
  match B with
  | [] => None
  | bp :: B' => if b_is bn bp then Some bp else cached B' bn
  end.

(** What a read of block [bn] through the cache sees. *)
Definition bview (B : list buf) (d : disk_t) (bn : Z) : list Z :=
  match cached B bn with
  | Some bp => if valid bp then b_data bp else d_blocks d bn
  | None => d_blocks d bn
  end.

Definition held_by (held : list nat) (i : nat) : bool := bool_decide (i ∈ held).

(** Buffer [i]: its flags are one of the three combinations that occur between calls;
    a clean valid buffer that is not held agrees with the disk; a dirty one belongs to
    [D]; the reference count and the sleep-lock say whether the thread holds it. *)
Record buf_ok (pid : Z) (held : list nat) (D : list Z) (SL : gmap slid sleeplock) (d : disk_t)
    (i : nat) (bp : buf) : Prop := {
  bo_flags : b_flags bp = 0 \/ b_flags bp = 2 \/ b_flags bp = 6;
  bo_dev : b_flags bp <> 0 \/ i ∈ held -> b_dev bp = 1;
  bo_len : length (b_data bp) = 512%nat;
  bo_clean : i ∉ held -> b_flags bp = 2 -> b_data bp = d_blocks d (b_blockno bp);
  bo_dirty : b_flags bp = 6 -> b_blockno bp ∈ D;
  bo_ref : b_refcnt bp = if held_by held i then 1 else 0;
  bo_lock : SL !! SL_buf i = if held_by held i then Some (mkSleeplock 1 pid) else None
}.

Record bcache_ok (pid : Z) (held : list nat) (D : list Z)
    (B : list buf) (SL : gmap slid sleeplock) (d : disk_t) : Prop := {
  bc_len : length B = S bhead;
  bc_ring : exists l, linked B bhead l bhead /\ Permutation l (seq 0 bhead);
  bc_head : forall bp, B !! bhead = Some bp -> b_dev bp = 0;
  bc_uniq : forall i j bi bj, B !! i = Some bi -> B !! j = Some bj ->
              b_dev bi = 1 -> b_dev bj = 1 -> b_blockno bi = b_blockno bj -> i = j;
  bc_buf : forall i bp, (i < bhead)%nat -> B !! i = Some bp -> buf_ok pid held D SL d i bp;
  bc_held : NoDup held /\ forall i, i ∈ held -> (i < bhead)%nat;
  bc_disk : forall bn, length (d_blocks d bn) = 512%nat
}.

Section View.
Implicit Types (B : list buf) (d : disk_t) (bn : Z) (i : nat) (bp : buf).

Lemma b_is_true bn bp : b_is bn bp = true <-> b_dev bp = 1 /\ b_blockno bp = bn.
Proof. unfold b_is. rewrite andb_true_iff, !Z.eqb_eq. done. Qed.

Lemma cached_none B bn :
  (forall i bp, B !! i = Some bp -> b_is bn bp = false) -> cached B bn = None.
Proof.
  induction B as [|b B IH]; intros H; simpl; [done|].
  rewrite (H 0%nat b) by done. apply IH. intros i bp Hi. by apply (H (S i)).
Qed.

Lemma cached_some B bn i bp :
  B !! i = Some bp -> b_is bn bp = true ->
  (forall j bj, B !! j = Some bj -> b_is bn bj = true -> j = i) -> cached B bn = Some bp.
Proof.
  revert i. induction B as [|b B IH]; intros i Hi Hb Hu; [done|]. simpl.
  destruct (b_is bn b) eqn:E.
  - pose proof (Hu 0%nat b eq_refl E) as <-. by simplify_eq/=.
  - destruct i as [|i]; [by simplify_eq/=; rewrite Hb in E|]. apply (IH i); auto.
    intros j bj Hj Hbj. specialize (Hu (S j) bj Hj Hbj). lia.
Qed.

Lemma cached_inv B bn bp : cached B bn = Some bp -> exists i, B !! i = Some bp /\ b_is bn bp = true.
Proof.
  induction B as [|b B IH]; simpl; [done|]. destruct (b_is bn b) eqn:Eb; intros E.
  - simplify_eq. by exists 0%nat.
  - destruct (IH E) as (i & ? & ?). by exists (S i).
Qed.

Lemma cached_none_inv B bn i bp : cached B bn = None -> B !! i = Some bp -> b_is bn bp = false.
Proof.
  revert i. induction B as [|b B IH]; intros i; [done|]. simpl. destruct (b_is bn b) eqn:Eb; [done|].
  destruct i as [|i]; simpl; intros; [by simplify_eq|eauto].
Qed.

(** The two cases of [bview] under the uniqueness invariant. *)
Lemma bview_hit pid held D B SL d i bp :
  bcache_ok pid held D B SL d -> B !! i = Some bp -> b_dev bp = 1 ->
  bview B d (b_blockno bp) = if valid bp then b_data bp else d_blocks d (b_blockno bp).
Proof.
  intros H Hi Hd. unfold bview. erewrite cached_some; [done|exact Hi|by apply b_is_true|].
  intros j bj Hj Hb. apply b_is_true in Hb as [? ?]. by eapply (bc_uniq _ _ _ _ _ _ H).
Qed.

Lemma bview_miss B d bn :
  (forall i bp, B !! i = Some bp -> b_is bn bp = false) -> bview B d bn = d_blocks d bn.
Proof. intros H. unfold bview. by rewrite cached_none. Qed.

Lemma bview_len pid held D B SL d bn :
  bcache_ok pid held D B SL d -> length (bview B d bn) = 512%nat.
Proof.
  intros H. unfold bview. destruct (cached B bn) as [bp|] eqn:E; [|apply H].
  destruct (valid bp) eqn:Ev; [|apply H].
  apply cached_inv in E as (i & Hi & Hb). apply b_is_true in Hb as [Hd _].
  assert (i < bhead)%nat.
  { pose proof (lookup_lt_Some _ _ _ Hi). rewrite (bc_len _ _ _ _ _ _ H) in *.
    destruct (decide (i = bhead)) as [->|]; [|lia]. apply (bc_head _ _ _ _ _ _ H) in Hi. lia. }
  by apply (bc_buf _ _ _ _ _ _ H i bp).
Qed.
End View.

(** * The two scans of [bget] *)
Section Scan.
Implicit Types (B : list buf) (l : list nat) (s : kernel).

Lemma getbuf_eq s i bp : k_bufs s !! i = Some bp -> getbuf i s = Ret bp s.
Proof. intros H. unfold getbuf. rewrite bind_gets. apply index_eq; [lia|]. by rewrite Nat2Z.id. Qed.

Lemma updbuf_eq s i bp f :
  k_bufs s !! i = Some bp -> updbuf i f s = Ret tt (set_k_bufs (<[i := f bp]> (k_bufs s)) s).
Proof. intros H. unfold updbuf. by erewrite bind_run by by apply getbuf_eq. Qed.

Lemma updbuf_bupd s i f :
  is_Some (k_bufs s !! i) -> updbuf i f s = Ret tt (set_k_bufs (bupd (k_bufs s) i f) s).
Proof.
  intros [bp H]. erewrite updbuf_eq by exact H. do 2 f_equal. by apply bupd_insert.
Qed.

Lemma bget_cached_eq s p l dev bn fuel :
  linked (k_bufs s) p l bhead -> (bhead ∉ l) -> (length l < fuel)%nat ->
  exists r, bget_cached fuel (first_of l bhead) dev bn s = Ret r s /\
    match r with
    | Some b => b ∈ l /\ exists bp, k_bufs s !! b = Some bp /\ b_dev bp = dev /\ b_blockno bp = bn
    | None => forall b bp, b ∈ l -> k_bufs s !! b = Some bp -> b_dev bp <> dev \/ b_blockno bp <> bn
    end.
Proof.
  revert p fuel. induction l as [|x l IH]; intros p fuel Hl Hh Hf; (destruct fuel as [|fuel]; [simpl in *; lia|]);
    cbn [bget_cached first_of List.hd].
  - rewrite Nat.eqb_refl. exists None. split; [done|]. set_solver.
  - destruct (Nat.eqb_spec x bhead); [set_solver|].
    destruct (linked_dom _ _ _ _ x Hl) as [bp Hbp]; [set_solver|].
    erewrite bind_run by by apply getbuf_eq.
    destruct (Z.eqb_spec (b_dev bp) dev), (Z.eqb_spec (b_blockno bp) bn); simpl;
      [exists (Some x); split; [done|]; set_solver|..].
    all: destruct Hl as [_ Hl]; pose proof (linked_next _ _ _ _ Hl) as En; rewrite Hbp in En;
      injection En as En; rewrite En;
      destruct (IH x fuel Hl) as (r & -> & Hr); [set_solver|simpl in *; lia|]; exists r; split; [done|];
      destruct r; [set_solver|]; intros b bp' Hb Hbp'; apply elem_of_cons in Hb as [->|Hb]; [|eauto];
      rewrite Hbp in Hbp'; simplify_eq; tauto.
Qed.

Lemma linked_snoc B p l x e : linked B p (l ++ [x]) e <-> linked B p l x /\ link B x e.
Proof. by rewrite linked_app. Qed.

Lemma bget_unused_eq s l e q fuel :
  linked (k_bufs s) bhead l e -> (bhead ∉ l) -> (length l < fuel)%nat ->
  b_prev <$> k_bufs s !! e = Some q ->
  exists r, bget_unused fuel q s = Ret r s /\
    match r with
    | Some b => b ∈ l /\ exists bp, k_bufs s !! b = Some bp /\ b_refcnt bp = 0 /\ dirty bp = false
    | None => forall b bp, b ∈ l -> k_bufs s !! b = Some bp -> b_refcnt bp <> 0 \/ dirty bp = true
    end.
Proof.
  revert e q fuel. induction l as [|x l IH] using rev_ind; intros e q fuel Hl Hh Hf Hq;
    (destruct fuel as [|fuel]; [rewrite ?length_app in Hf; simpl in *; lia|]); cbn [bget_unused].
  - destruct Hl as [_ Hl]. rewrite Hl in Hq. simplify_eq. rewrite Nat.eqb_refl.
    exists None. split; [done|]. set_solver.
  - apply linked_snoc in Hl as [Hl [_ Hp]]. rewrite Hp in Hq. simplify_eq.
    destruct (Nat.eqb_spec q bhead); [set_solver|].
    destruct (linked_dom _ _ _ _ q Hl) as [bp Hbp]; [set_solver|].
    erewrite bind_run by by apply getbuf_eq.
    destruct (Z.eqb_spec (b_refcnt bp) 0), (Z.land (b_flags bp) B_DIRTY =? 0) eqn:Ed; simpl;
      [exists (Some q); split; [done|]; split; [set_solver|]; exists bp; unfold dirty; by rewrite Ed|..].
    all: rewrite length_app in Hf; simpl in Hf;
      destruct (IH q (b_prev bp) fuel Hl) as (r & -> & Hr); [set_solver|lia|by rewrite Hbp|];
      exists r; split; [done|]; destruct r; [set_solver|]; intros b bp' Hb Hbp';
      apply elem_of_app in Hb as [Hb|Hb]; [eauto|]; apply list_elem_of_singleton in Hb as ->;
      rewrite Hbp in Hbp'; simplify_eq; unfold dirty; rewrite ?Ed; auto.
Qed.
End Scan.

(** * Updating one buffer *)
Section Update.
Implicit Types (B : list buf) (d : disk_t) (bn : Z) (bp : buf) (SL : gmap slid sleeplock).

Lemma linked_insert B p l e b bp bp' :
  linked B p l e -> B !! b = Some bp -> b_next bp' = b_next bp -> b_prev bp' = b_prev bp ->
  linked (<[b := bp']> B) p l e.
Proof.
  intros H Hb En Ep. pose proof (lookup_lt_Some _ _ _ Hb).
  eapply linked_same; [exact H|..]; intros x _; unfold same_next, same_prev;
    (destruct (decide (x = b)) as [->|];
      [rewrite list_lookup_insert_eq, Hb by done; simpl; by f_equal|by rewrite list_lookup_insert_ne]).
Qed.

Lemma bcache_set pid held D B SL d b bp bp' held' D' SL' d' :
  bcache_ok pid held D B SL d -> B !! b = Some bp -> (b < bhead)%nat ->
  b_next bp' = b_next bp -> b_prev bp' = b_prev bp ->
  (forall j bj, j <> b -> B !! j = Some bj -> b_dev bj = 1 -> b_dev bp' = 1 -> b_blockno bj <> b_blockno bp') ->
  buf_ok pid held' D' SL' d' b bp' ->
  (forall j bj, j <> b -> B !! j = Some bj -> buf_ok pid held D SL d j bj -> buf_ok pid held' D' SL' d' j bj) ->
  NoDup held' /\ (forall i, i ∈ held' -> (i < bhead)%nat) ->
  (forall bn, length (d_blocks d' bn) = 512%nat) ->
  bcache_ok pid held' D' (<[b := bp']> B) SL' d'.
Proof.
  intros H Hb Hlt En Ep Hu Hok Hoth Hheld Hd. pose proof (lookup_lt_Some _ _ _ Hb).
  constructor; auto.
  - rewrite length_insert. apply H.
  - destruct (bc_ring _ _ _ _ _ _ H) as (l & Hl & Hp). exists l. split; [|done].
    by eapply linked_insert.
  - intros bh. rewrite list_lookup_insert_ne by lia. apply H.
  - intros i j bi bj Hi Hj. apply list_lookup_insert_Some in Hi as [(<- & -> & _)|[? Hi]];
      apply list_lookup_insert_Some in Hj as [(<- & -> & _)|[? Hj]]; intros; [done|..].
    + exfalso. by eapply (Hu j bj).
    + exfalso. by eapply (Hu i bi).
    + by eapply (bc_uniq _ _ _ _ _ _ H).
  - intros i bi Hi Hbi. destruct (decide (i = b)) as [->|].
    + rewrite list_lookup_insert_eq in Hbi by done. by simplify_eq.
    + rewrite list_lookup_insert_ne in Hbi by done. apply Hoth; auto. by apply H.
Qed.

(** A buffer whose lock, reference and block are not touched stays well-formed. *)
Lemma buf_ok_frame pid held held' D D' SL SL' d d' i bp :
  buf_ok pid held D SL d i bp ->
  (i ∈ held' <-> i ∈ held) -> D ⊆ D' -> SL' !! SL_buf i = SL !! SL_buf i ->
  (b_flags bp = 2 -> d_blocks d' (b_blockno bp) = d_blocks d (b_blockno bp)) ->
  buf_ok pid held' D' SL' d' i bp.
Proof.
  intros [] Hh HD HS Hd. assert (E : held_by held' i = held_by held i).
  { unfold held_by. by apply bool_decide_ext. }
  constructor; rewrite ?E, ?HS; auto.
  - intros Hx. apply bo_dev0. tauto.
  - intros Hn Hf. rewrite Hd by done. apply bo_clean0; tauto.
Qed.

Lemma valid_flags bp : b_flags bp = 0 \/ b_flags bp = 2 \/ b_flags bp = 6 ->
  valid bp = negb (b_flags bp =? 0) /\ dirty bp = (b_flags bp =? 6).
Proof. unfold valid, dirty. by intros [-> | [-> | ->]]. Qed.

(** To know the view it is enough to know the valid buffers and the disk blocks that
    no valid buffer covers. *)
Lemma bview_char pid held D B SL d (f : Z -> list Z) :
  bcache_ok pid held D B SL d ->
  (forall i bi, B !! i = Some bi -> b_dev bi = 1 -> valid bi = true -> b_data bi = f (b_blockno bi)) ->
  (forall bn, (forall i bi, B !! i = Some bi -> b_dev bi = 1 -> b_blockno bi = bn -> valid bi = false) ->
     d_blocks d bn = f bn) ->
  forall bn, bview B d bn = f bn.
Proof.
  intros H Hv Hd bn. destruct (cached B bn) as [bp|] eqn:E.
  - apply cached_inv in E as (i & Hi & Hb). apply b_is_true in Hb as [Hdev <-]. erewrite bview_hit by eauto.
    destruct (valid bp) eqn:Ev; [by apply (Hv i)|]. apply Hd. intros j bj Hj Hdj Hbj.
    assert (j = i) as -> by by eapply (bc_uniq _ _ _ _ _ _ H). by simplify_eq.
  - unfold bview. rewrite E. apply Hd. intros i bi Hi Hdi Hbi. exfalso.
    eapply cached_none_inv in E; [|exact Hi]. by rewrite (proj2 (b_is_true bn bi)) in E.
Qed.

(** Changing buffer [b] without changing what is seen of its old and new block. *)
Lemma bview_set_same pid held D B SL d b bp bp' held' D' SL' :
  bcache_ok pid held D B SL d -> B !! b = Some bp ->
  bcache_ok pid held' D' (<[b := bp']> B) SL' d ->
  (b_dev bp = 1 -> valid bp = true ->
     b_dev bp' = 1 /\ b_blockno bp' = b_blockno bp /\ valid bp' = true /\ b_data bp' = b_data bp \/
     b_data bp = d_blocks d (b_blockno bp)) ->
  (b_dev bp' = 1 -> valid bp' = true -> b_data bp' = bview B d (b_blockno bp')) ->
  forall bn, bview (<[b := bp']> B) d bn = bview B d bn.
Proof.
  intros H Hb H' Hold Hnew. pose proof (lookup_lt_Some _ _ _ Hb).
  apply (bview_char _ _ _ _ _ _ _ H').
  - intros i bi Hi Hd Hv. destruct (decide (i = b)) as [->|].
    + rewrite list_lookup_insert_eq in Hi by done. simplify_eq. auto.
    + rewrite list_lookup_insert_ne in Hi by done. erewrite bview_hit by eauto. by rewrite Hv.
  - intros bn Hno. symmetry. destruct (decide (b_dev bp = 1 /\ b_blockno bp = bn)) as [[Hd Hbn]|Hne].
    + subst bn. erewrite bview_hit by eauto. destruct (valid bp) eqn:Ev; [|done].
      destruct (Hold Hd eq_refl) as [(Hd' & Hbn' & Hv' & _)|E]; [|done].
      specialize (Hno b bp'). rewrite list_lookup_insert_eq in Hno by done.
      rewrite Hno in Hv'; done.
    + destruct (cached B bn) as [bj|] eqn:E; [|by unfold bview; rewrite E].
      unfold bview. rewrite E. destruct (valid bj) eqn:Ev; [|done]. exfalso.
      apply cached_inv in E as (i & Hi & Hbj).
      apply b_is_true in Hbj as [? ?]. assert (i <> b) by (intros ->; simplify_eq; tauto).
      rewrite (Hno i bj) in Ev; [done| |done|done]. by rewrite list_lookup_insert_ne.
Qed.
End Update.

(** * The operations of a thread that runs alone *)
Section Ops.
Context {WF : WaitFuel}.
Implicit Types (s : kernel) (i p b : nat) (c : cpu) (pr : proc) (bp : buf) (held : list nat) (D : list Z).

Definition cache_ok pid held D s : Prop :=
  bcache_ok pid held D (k_bufs s) (k_sleeplocks s) (k_disk s).
Definition view s : Z -> list Z := bview (k_bufs s) (k_disk s).
Definition lock_buf (pid : Z) b s : kernel :=
  set_k_sleeplocks (<[SL_buf b := mkSleeplock 1 pid]> (k_sleeplocks s)) s.
Definition put_buf b bp s : kernel := set_k_bufs (<[b := bp]> (k_bufs s)) s.

Lemma bhead_lt pid held D s b bp :
  cache_ok pid held D s -> k_bufs s !! b = Some bp -> b_dev bp = 1 -> (b < bhead)%nat.
Proof.
  intros Hc Hb Hd. pose proof (lookup_lt_Some _ _ _ Hb) as Hlt.
  rewrite (bc_len _ _ _ _ _ _ Hc) in Hlt. destruct (decide (b = bhead)) as [->|]; [|lia].
  apply (bc_head _ _ _ _ _ _ Hc) in Hb. lia.
Qed.

(** A buffer that is in use but not held is pinned by the log. *)
Lemma pinned_ok pid held D s b bp :
  cache_ok pid held D s -> (b < bhead)%nat -> k_bufs s !! b = Some bp -> b ∉ held ->
  b_refcnt bp <> 0 \/ dirty bp = true -> b_dev bp = 1 /\ b_blockno bp ∈ D.
Proof.
  intros Hc Hlt Hb Hnh Hor. destruct (bc_buf _ _ _ _ _ _ Hc b bp) as [Hf Hd _ _ HD Hr _]; [done|done|].
  unfold held_by in Hr. rewrite bool_decide_false in Hr by done. destruct Hor as [|Hdy]; [done|].
  destruct (valid_flags bp Hf) as [_ E]. rewrite E in Hdy. apply Z.eqb_eq in Hdy.
  split; [apply Hd; left; lia|auto].
Qed.

Lemma length_filter_split {A} (P : A -> Prop) `{forall x, Decision (P x)} (l : list A) :
  length l = (length (filter P l) + length (filter (fun x => ~ P x) l))%nat.
Proof.
  induction l as [|x l IH]; [done|]. rewrite !filter_cons.
  destruct (decide (P x)), (decide (~ P x)); simpl; try tauto; lia.
Qed.

(** With fewer than [NBUF] buffers held or dirty, one can be recycled. *)
Lemma some_unused pid held D s :
  cache_ok pid held D s -> (length held + length D < bhead)%nat ->
  ~ (forall b bp, (b < bhead)%nat -> k_bufs s !! b = Some bp -> b_refcnt bp <> 0 \/ dirty bp = true).
Proof.
  intros Hc Hlt Hall.
  set (g := fun b => match k_bufs s !! b with Some bp => b_blockno bp | None => 0 end).
  pose (P := fun b => b ∈ held).
  pose proof (length_filter_split P (seq 0 bhead)) as L3.
  match type of L3 with _ = (length ?a + length ?b)%nat => set (m1 := a) in L3; set (l2 := b) in L3 end.
  assert (Hl2 : forall b, b ∈ l2 -> exists bp, k_bufs s !! b = Some bp /\ b_dev bp = 1 /\ b_blockno bp ∈ D).
  { intros b Hb. apply list_elem_of_filter in Hb as [Hnh Hb]. apply elem_of_seq in Hb.
    destruct (lookup_lt_is_Some_2 (k_bufs s) b) as [bp Hbp]; [rewrite (bc_len _ _ _ _ _ _ Hc); lia|].
    exists bp. split; [done|]. eapply (pinned_ok pid held D s b); eauto; [lia|]. apply (Hall b); [lia|done]. }
  assert (L1 : (length (g <$> l2) <= length D)%nat).
  { apply submseteq_length, NoDup_submseteq.
    - apply NoDup_fmap_2_strong; [|apply NoDup_filter, NoDup_seq]. intros x y Hx Hy Hxy.
      destruct (Hl2 x Hx) as (bx & Ex & Dx & _), (Hl2 y Hy) as (b_y & Ey & Dy & _).
      unfold g in Hxy. rewrite Ex, Ey in Hxy. by eapply (bc_uniq _ _ _ _ _ _ Hc).
    - intros z Hz. apply list_elem_of_fmap in Hz as (x & -> & Hx).
      destruct (Hl2 x Hx) as (bx & Ex & _ & Hin). unfold g. by rewrite Ex. }
  assert (L2 : (length m1 <= length held)%nat).
  { apply submseteq_length, NoDup_submseteq; [apply NoDup_filter, NoDup_seq|].
    intros x Hx. by apply list_elem_of_filter in Hx as [Hx _]. }
  rewrite length_fmap in L1. rewrite length_seq in L3. lia.
Qed.
(** Taking buffer [b] with contents [bp']: the lock and reference are new, the rest of
    the cache is as before. *)
Lemma cache_take pid held D s b bp bp' :
  cache_ok pid held D s -> k_bufs s !! b = Some bp -> (b < bhead)%nat -> b ∉ held ->
  b_next bp' = b_next bp -> b_prev bp' = b_prev bp -> b_refcnt bp' = 1 -> b_dev bp' = 1 ->
  (b_flags bp' = 0 \/ b_flags bp' = b_flags bp /\ b_data bp' = b_data bp /\ b_blockno bp' = b_blockno bp) ->
  length (b_data bp') = 512%nat ->
  (forall j bj, j <> b -> k_bufs s !! j = Some bj -> b_dev bj = 1 -> b_blockno bj <> b_blockno bp') ->
  cache_ok pid (b :: held) D (lock_buf pid b (put_buf b bp' s)).
Proof.
  intros Hc Hb Hlt Hnh En Ep Er Ed Hf Hlen Hu. unfold cache_ok, lock_buf, put_buf. simpl.
  eapply bcache_set; eauto.
  - destruct (bc_buf _ _ _ _ _ _ Hc b bp Hlt Hb) as [F1 F2 F3 F4 F5 F6 F7].
    assert (Hh : held_by (b :: held) b = true) by (apply bool_decide_eq_true; set_solver).
    constructor; rewrite ?Hh, ?lookup_insert_eq; auto.
    + destruct Hf as [|[-> _]]; auto.
    + set_solver.
    + destruct Hf as [|(-> & _ & ->)]; [lia|done].
  - intros j bj Hj Hbj Hok. eapply buf_ok_frame; eauto; [set_solver|].
    rewrite lookup_insert_ne; [done|]. congruence.
  - destruct (bc_held _ _ _ _ _ _ Hc) as [Hnd Hin]. split; [by apply NoDup_cons|]. set_solver.
  - apply Hc.
Qed.

(** The result of [bget] and [bread]: buffer [b] is now held, everything else in the
    kernel state is as before, and so is what the cache shows of the disk. *)
Record got pid held D s bn b bp s' : Prop := {
  got_state : s' = lock_buf pid b (put_buf b bp s);
  got_new : b ∉ held;
  got_old : is_Some (k_bufs s !! b);
  got_dev : b_dev bp = 1;
  got_bn : b_blockno bp = bn;
  got_clean : b_flags bp = 2 -> b_data bp = d_blocks (k_disk s) bn;
  got_pin : forall bp0, k_bufs s !! b = Some bp0 -> b_flags bp0 = 6 -> b_blockno bp0 = bn /\ b_flags bp = 6;
  got_ok : cache_ok pid (b :: held) D s';
  got_view : forall x, view s' x = view s x
}.

Lemma got_hit pid held D s b bp :
  cache_ok pid held D s -> k_bufs s !! b = Some bp -> (b < bhead)%nat -> b_dev bp = 1 -> b ∉ held ->
  got pid held D s (b_blockno bp) b (set_b_refcnt 1 bp) (lock_buf pid b (put_buf b (set_b_refcnt 1 bp) s)).
Proof.
  intros Hc Hbp Hb Hd Hnh. destruct (bc_buf _ _ _ _ _ _ Hc b bp Hb Hbp) as [F1 F2 F3 F4 F5 F6 F7].
  assert (Hok : cache_ok pid (b :: held) D (lock_buf pid b (put_buf b (set_b_refcnt 1 bp) s))).
  { eapply cache_take; eauto. intros j bj Hj Hbj Hdj E. apply Hj. by eapply (bc_uniq _ _ _ _ _ _ Hc). }
  constructor; eauto. { intros bp0 E0. by simplify_eq. }
  eapply (bview_set_same _ _ _ (k_bufs s)); eauto.
  intros _ Hv. change (b_data bp = bview (k_bufs s) (k_disk s) (b_blockno bp)).
  erewrite bview_hit by eauto. change (valid bp = true) in Hv. by rewrite Hv.
Qed.

Definition recycled (bn : Z) bp : buf := set_b_refcnt 1 (set_b_flags 0 (set_b_blockno bn (set_b_dev 1 bp))).

Lemma got_recycled pid held D s bn b bp :
  cache_ok pid held D s -> k_bufs s !! b = Some bp -> (b < bhead)%nat ->
  b_refcnt bp = 0 -> dirty bp = false ->
  (forall j bj, (j < bhead)%nat -> k_bufs s !! j = Some bj -> b_dev bj <> 1 \/ b_blockno bj <> bn) ->
  got pid held D s bn b (recycled bn bp) (lock_buf pid b (put_buf b (recycled bn bp) s)).
Proof.
  intros Hc Hbp Hb Href Hdy Hno. destruct (bc_buf _ _ _ _ _ _ Hc b bp Hb Hbp) as [F1 F2 F3 F4 F5 F6 F7].
  assert (Hhb : held_by held b = false) by (destruct (held_by held b); [lia|done]).
  assert (Hnh : b ∉ held) by by apply bool_decide_eq_false in Hhb.
  assert (Hok : cache_ok pid (b :: held) D (lock_buf pid b (put_buf b (recycled bn bp) s))).
  { eapply cache_take; eauto. intros j bj Hj Hbj Hdj E. simpl in E.
    destruct (Hno j bj); [by eapply bhead_lt|done|done|done]. }
  constructor; eauto; [done| |].
  { intros bp0 E0 F0. simplify_eq. unfold dirty in Hdy. by rewrite F0 in Hdy. }
  eapply (bview_set_same _ _ _ (k_bufs s)); eauto; [|done].
  intros _ Hv. right. destruct (valid_flags bp F1) as [E1 E2]. rewrite Hv in E1. rewrite Hdy in E2.
  destruct F1 as [E|[E|E]]; rewrite E in *; [done|auto|done].
Qed.

(** The common end of both branches of [bget]. *)
Lemma bget_lock s s1 i c p pr held b bp :
  thread s i c p pr -> (b ∉ held -> k_sleeplocks s !! SL_buf b = None) -> b ∉ held ->
  s1 = set_k_hw (hw_lock L_bcache i c (k_hw s)) (put_buf b bp s) ->
  (release L_bcache ;; acquiresleep (SL_buf b) ;; ret b) s1 =
  Ret b (lock_buf (p_pid pr) b (put_buf b bp s)).
Proof.
  intros Ht Hf Hnh ->. erewrite bind_run by by eapply releaseth_eq.
  erewrite bind_run; [|eapply (acquiresleep_eq _ i c p pr); [eapply thread_frame; eauto|simpl; auto]].
  unfold lock_buf, put_buf, ret. simpl. by destruct s.
Qed.

(** [bget] finds a buffer: the block is cached, or one can be recycled. *)
Definition room held D s bn : Prop :=
  (length held + length D < bhead)%nat \/ exists j bj, k_bufs s !! j = Some bj /\ b_is bn bj = true.

Lemma bget_spec s i c p pr held D bn :
  thread s i c p pr -> cache_ok (p_pid pr) held D s ->
  (forall j bj, j ∈ held -> k_bufs s !! j = Some bj -> b_blockno bj <> bn) ->
  room held D s bn ->
  exists b bp s', bget 1 bn s = Ret b s' /\ got (p_pid pr) held D s bn b bp s'.
Proof.
  intros Ht Hc Hnot Hlt. unfold bget. erewrite bind_run by by eapply acquireth_eq.
  set (s1 := set_k_hw _ s). destruct (bc_ring _ _ _ _ _ _ Hc) as (l & Hl & Hp).
  assert (Hin : forall b, b ∈ l <-> (b < bhead)%nat) by (intros b; rewrite Hp, elem_of_seq; lia).
  assert (Hhead : bhead ∉ l) by (rewrite Hin; lia).
  assert (Hlen : (length l < ring_fuel)%nat) by (rewrite Hp, length_seq; unfold ring_fuel, bhead; lia).
  assert (Hfree : forall b, (b < bhead)%nat -> b ∉ held -> k_sleeplocks s !! SL_buf b = None).
  { intros b Hb Hnh. destruct (lookup_lt_is_Some_2 (k_bufs s) b) as [bp Hbp];
      [rewrite (bc_len _ _ _ _ _ _ Hc); lia|].
    rewrite (bo_lock _ _ _ _ _ _ _ (bc_buf _ _ _ _ _ _ Hc b bp Hb Hbp)). unfold held_by.
    by rewrite bool_decide_false. }
  destruct (linked_dom _ _ _ _ bhead Hl) as [bh Hbh]; [set_solver|].
  erewrite bind_run by (apply getbuf_eq; exact Hbh).
  pose proof (linked_next _ _ _ _ Hl) as En. rewrite Hbh in En. injection En as En. rewrite En.
  destruct (bget_cached_eq s1 bhead l 1 bn ring_fuel Hl Hhead Hlen) as (r & Er & Hr).
  erewrite bind_run by exact Er. destruct r as [b|].
  - destruct Hr as (Hb & bp & Hbp & Hd & Hbn). simpl in Hbp. apply Hin in Hb.
    assert (Hnh : b ∉ held) by (intros Hh; by apply (Hnot b bp)).
    eexists b, _, _. split; [|rewrite <- Hbn; by apply got_hit].
    erewrite bind_run by (apply updbuf_eq; exact Hbp). cbv beta.
    rewrite (bo_ref _ _ _ _ _ _ _ (bc_buf _ _ _ _ _ _ Hc b bp Hb Hbp)). unfold held_by.
    rewrite bool_decide_false by done. eapply bget_lock; eauto.
  - cbv beta iota. erewrite bind_run by (apply getbuf_eq; exact Hbh).
    destruct (bget_unused_eq s1 l bhead (b_prev bh) ring_fuel Hl Hhead Hlen) as (r & Er2 & Hr2).
    { simpl. by rewrite Hbh. }
    erewrite bind_run by exact Er2. destruct r as [b|].
    2:{ exfalso. destruct Hlt as [Hlt|(j & bj & Hj & Hij)].
        - apply (some_unused _ _ _ _ Hc Hlt). intros b bp Hb. apply Hr2. by apply Hin.
        - apply b_is_true in Hij as [Hdj Hbj].
          destruct (Hr j bj); [apply Hin; by eapply bhead_lt|done|done|done]. }
    destruct Hr2 as (Hb & bp & Hbp & Href & Hdy). simpl in Hbp. apply Hin in Hb.
    assert (G : got (p_pid pr) held D s bn b (recycled bn bp)
                  (lock_buf (p_pid pr) b (put_buf b (recycled bn bp) s))).
    { apply got_recycled; auto. intros j bj Hj. apply Hr. by apply Hin. }
    eexists b, _, _. split; [|exact G].
    pose proof (lookup_lt_Some _ _ _ Hbp) as Hltb.
    cbv beta iota. erewrite bind_run by (apply updbuf_eq; exact Hbp).
    do 3 (erewrite bind_run by (apply updbuf_eq; by apply list_lookup_insert_eq); simpl;
          rewrite list_insert_insert_eq). eapply bget_lock; eauto. apply G.
Qed.

(** ** A buffer the thread holds *)
Record holds pid held D s b bp : Prop := {
  ho_ok : cache_ok pid held D s;
  ho_in : b ∈ held;
  ho_buf : k_bufs s !! b = Some bp
}.

Lemma holds_lt pid held D s b bp : holds pid held D s b bp -> (b < bhead)%nat.
Proof. intros []. by apply (bc_held _ _ _ _ _ _ ho_ok0). Qed.

Lemma holds_lock pid held D s b bp :
  holds pid held D s b bp -> k_sleeplocks s !! SL_buf b = Some (mkSleeplock 1 pid).
Proof.
  intros Hh. pose proof (holds_lt _ _ _ _ _ _ Hh). destruct Hh as [Hc Hin Hb].
  rewrite (bo_lock _ _ _ _ _ _ _ (bc_buf _ _ _ _ _ _ Hc b bp ltac:(done) Hb)). unfold held_by.
  by rewrite bool_decide_true.
Qed.

Lemma holds_buf_ok pid held D s b bp :
  holds pid held D s b bp -> buf_ok pid held D (k_sleeplocks s) (k_disk s) b bp.
Proof. intros Hh. apply Hh; [by eapply holds_lt|apply Hh]. Qed.

Lemma holds_dev pid held D s b bp : holds pid held D s b bp -> b_dev bp = 1.
Proof. intros Hh. apply (holds_buf_ok _ _ _ _ _ _ Hh). right. apply Hh. Qed.

(** Changing the flags and data of a held buffer. *)
Lemma holds_set pid held D s b bp bp' D' d' :
  holds pid held D s b bp ->
  b_next bp' = b_next bp -> b_prev bp' = b_prev bp -> b_refcnt bp' = b_refcnt bp ->
  b_dev bp' = b_dev bp -> b_blockno bp' = b_blockno bp -> length (b_data bp') = 512%nat ->
  b_flags bp' = 0 \/ b_flags bp' = 2 \/ b_flags bp' = 6 /\ b_blockno bp ∈ D' ->
  (forall x, x ∈ D -> x <> b_blockno bp -> x ∈ D') ->
  (forall x, x <> b_blockno bp -> d_blocks d' x = d_blocks (k_disk s) x) ->
  length (d_blocks d' (b_blockno bp)) = 512%nat ->
  holds pid held D' (set_k_disk d' (put_buf b bp' s)) b bp'.
Proof.
  intros Hh En Ep Er Ed Eb Hlen Hf HD Hd Hdl. pose proof (holds_dev _ _ _ _ _ _ Hh) as Hdev.
  pose proof (holds_lt _ _ _ _ _ _ Hh) as Hlt. pose proof (holds_buf_ok _ _ _ _ _ _ Hh) as Hbo.
  destruct Hh as [Hc Hin Hb]. constructor; [|done|].
  2:{ simpl. apply list_lookup_insert_eq. by eapply lookup_lt_Some. }
  unfold cache_ok. simpl. eapply bcache_set; eauto.
  - intros j bj Hj Hbj Hdj _ E. rewrite Eb in E. apply Hj. by eapply (bc_uniq _ _ _ _ _ _ Hc).
  - destruct Hbo. constructor; rewrite ?Er, ?Ed, ?Eb; auto; [tauto|set_solver|].
    intros F6. destruct Hf as [|[|[_ ?]]]; [lia|lia|done].
  - intros j bj Hj Hbj Hok. assert (Hne : b_flags bj <> 0 -> b_blockno bj <> b_blockno bp).
    { intros Hfl E. apply Hj. destruct Hok. eapply (bc_uniq _ _ _ _ _ _ Hc); eauto. }
    destruct Hok. constructor; auto.
    + intros Hnh F2. rewrite Hd; [auto|]. apply Hne. lia.
    + intros F6. apply HD; [auto|]. apply Hne. lia.
  - apply Hc.
  - intros bn. destruct (decide (bn = b_blockno bp)) as [->|]; [done|]. rewrite Hd by done. apply Hc.
Qed.

Lemma holds_held s i c p pr held D b bp :
  thread s i c p pr -> holds (p_pid pr) held D s b bp -> holdingsleep (SL_buf b) s = Ret true s.
Proof. intros Ht Hh. eapply holdingsleep_self; [done|]. by eapply holds_lock. Qed.

Lemma put_put b bp bp' s : put_buf b bp' (put_buf b bp s) = put_buf b bp' s.
Proof. unfold put_buf. simpl. by rewrite list_insert_insert_eq. Qed.

Lemma put_buf_lookup b bp bp0 s : k_bufs s !! b = Some bp0 -> k_bufs (put_buf b bp s) !! b = Some bp.
Proof. intros Hb. simpl. apply list_lookup_insert_eq. by eapply lookup_lt_Some. Qed.

Lemma updbuf_put s b bp f : k_bufs s !! b = Some bp -> updbuf b f s = Ret tt (put_buf b (f bp) s).
Proof. apply updbuf_eq. Qed.

Lemma iderw_read s i c p pr held D b bp :
  thread s i c p pr -> holds (p_pid pr) held D s b bp -> b_flags bp = 0 ->
  b_blockno bp < d_size (k_disk s) ->
  iderw b s = Ret tt (put_buf b (set_b_flags 2 (set_b_data (d_blocks (k_disk s) (b_blockno bp)) bp)) s).
Proof.
  intros Ht Hh Hf Hlt. unfold iderw. erewrite bind_run by by eapply holds_held. simpl.
  erewrite bind_run by (apply getbuf_eq; apply Hh). rewrite Hf. simpl.
  rewrite (holds_dev _ _ _ _ _ _ Hh). simpl. rewrite bind_gets.
  destruct (Z.leb_spec (d_size (k_disk s)) (b_blockno bp)); [lia|].
  erewrite bind_run by (apply updbuf_put; apply Hh).
  erewrite updbuf_put by (eapply put_buf_lookup; apply Hh). rewrite put_put. simpl. by rewrite Hf.
Qed.

Lemma iderw_write s i c p pr held D b bp :
  thread s i c p pr -> holds (p_pid pr) held D s b bp -> b_flags bp = 6 ->
  b_blockno bp < d_size (k_disk s) ->
  iderw b s = Ret tt (set_k_disk (disk_write (b_blockno bp) (b_data bp) (k_disk s))
                        (put_buf b (set_b_flags 2 bp) s)).
Proof.
  intros Ht Hh Hf Hlt. unfold iderw. erewrite bind_run by by eapply holds_held. simpl.
  erewrite bind_run by (apply getbuf_eq; apply Hh). rewrite Hf. simpl.
  rewrite (holds_dev _ _ _ _ _ _ Hh). simpl. rewrite bind_gets.
  destruct (Z.leb_spec (d_size (k_disk s)) (b_blockno bp)); [lia|].
  erewrite (bind_run _ _ s); [|erewrite bind_run by (apply updbuf_put; apply Hh); reflexivity].
  erewrite updbuf_put by (simpl; eapply list_lookup_insert_eq, lookup_lt_Some, Hh). simpl. rewrite Hf.
  unfold put_buf, set_k_disk, set_k_bufs. simpl. by rewrite list_insert_insert_eq.
Qed.

(** [bread] returns a held buffer with what the cache shows of the block. *)
Lemma bread_spec s i c p pr held D bn :
  thread s i c p pr -> cache_ok (p_pid pr) held D s ->
  (forall j bj, j ∈ held -> k_bufs s !! j = Some bj -> b_blockno bj <> bn) ->
  room held D s bn -> bn < d_size (k_disk s) ->
  exists b bp s', bread 1 bn s = Ret b s' /\ got (p_pid pr) held D s bn b bp s' /\
    b_data bp = view s bn /\ (b_flags bp = 2 \/ b_flags bp = 6).
Proof.
  intros Ht Hc Hnot Hlt Hbn.
  destruct (bget_spec s i c p pr held D bn Ht Hc Hnot Hlt) as (b & bp & s1 & E & G).
  unfold bread. erewrite bind_run by exact E.
  assert (Hb : k_bufs s1 !! b = Some bp).
  { rewrite (got_state _ _ _ _ _ _ _ _ G). simpl. destruct (got_old _ _ _ _ _ _ _ _ G) as [? Hold].
    apply list_lookup_insert_eq. by eapply lookup_lt_Some. }
  assert (Hh : holds (p_pid pr) (b :: held) D s1 b bp) by (constructor; [apply G|set_solver|done]).
  pose proof (holds_buf_ok _ _ _ _ _ _ Hh) as Hbo. pose proof (bo_flags _ _ _ _ _ _ _ Hbo) as Hfl.
  destruct (valid_flags bp Hfl) as [Ev _]. erewrite bind_run by (apply getbuf_eq; exact Hb).
  pose proof (got_state _ _ _ _ _ _ _ _ G) as Es.
  assert (Ht1 : thread s1 i c p pr) by (subst s1; by eapply thread_frame).
  destruct (decide (b_flags bp = 0)) as [F0|Fn].
  - rewrite F0. simpl. set (bp' := set_b_flags 2 (set_b_data (d_blocks (k_disk s) bn) bp)).
    exists b, bp', (lock_buf (p_pid pr) b (put_buf b bp' s)).
    assert (E2 : iderw b s1 = Ret tt (put_buf b bp' s1)).
    { erewrite iderw_read by (eauto; rewrite (got_bn _ _ _ _ _ _ _ _ G); by subst s1).
      rewrite (got_bn _ _ _ _ _ _ _ _ G). by subst s1. }
    assert (E3 : put_buf b bp' s1 = lock_buf (p_pid pr) b (put_buf b bp' s)).
    { subst s1. unfold put_buf, lock_buf. simpl. unfold set_k_bufs, set_k_sleeplocks. simpl.
      by rewrite list_insert_insert_eq. }
    assert (Hview : view s bn = d_blocks (k_disk s) bn).
    { rewrite <- (got_view _ _ _ _ _ _ _ _ G). unfold view. rewrite <- (got_bn _ _ _ _ _ _ _ _ G).
      erewrite bview_hit by (eauto; apply G). rewrite Ev, F0. by subst s1. }
    erewrite bind_run by exact E2. rewrite E3. split; [done|]. split; [|split; [done|by left]].
    assert (Hh' : holds (p_pid pr) (b :: held) D (put_buf b bp' s1) b bp').
    { replace (put_buf b bp' s1) with (set_k_disk (k_disk s1) (put_buf b bp' s1)) by by destruct s1.
      eapply holds_set; eauto; simpl; try apply Hc; auto. apply Hh. }
    destruct G. constructor; auto.
    + intros bp0 Hp0 F6. destruct (got_pin0 bp0 Hp0 F6). lia.
    + simpl. rewrite <- E3. apply Hh'.
    + intros x. rewrite <- got_view0. rewrite <- E3. unfold view.
      eapply (bview_set_same _ _ _ (k_bufs s1)); eauto; [apply Hh'| |].
      * intros _ Hv. rewrite Hv, F0 in Ev. done.
      * intros _ _. simpl. rewrite got_bn0. fold (view s1 bn). by rewrite got_view0, Hview.
  - exists b, bp, s1. rewrite (bind_run _ _ _ tt s1).
    + split; [done|]. split; [done|]. split; [|tauto]. rewrite <- (got_view _ _ _ _ _ _ _ _ G).
      unfold view. rewrite <- (got_bn _ _ _ _ _ _ _ _ G). erewrite bview_hit by (eauto; apply G).
      rewrite Ev. by destruct (Z.eqb_spec (b_flags bp) 0).
    + destruct Hfl as [|[-> | ->]]; done.
Qed.

(** Storing into a held, valid buffer changes the view of its block only. *)
Lemma view_put s pid held D b bp bp' D' held' :
  cache_ok pid held D s -> k_bufs s !! b = Some bp -> b_dev bp = 1 ->
  cache_ok pid held' D' (put_buf b bp' s) -> b_dev bp' = 1 -> b_blockno bp' = b_blockno bp -> valid bp' = true ->
  forall x, view (put_buf b bp' s) x = if x =? b_blockno bp then b_data bp' else view s x.
Proof.
  intros Hc Hb Hd Hc' Hd' Eb Hv. pose proof (lookup_lt_Some _ _ _ Hb) as Hlt.
  apply (bview_char _ _ _ _ _ _ _ Hc').
  - intros j bj Hj Hdj Hvj. apply list_lookup_insert_Some in Hj as [(<- & -> & _)|[Hne Hj]].
    + by rewrite Eb, Z.eqb_refl.
    + destruct (Z.eqb_spec (b_blockno bj) (b_blockno bp)) as [E|].
      * exfalso. apply Hne. symmetry. by eapply (bc_uniq _ _ _ _ _ _ Hc).
      * unfold view. erewrite bview_hit by eauto. by rewrite Hvj.
  - intros x Hno. destruct (Z.eqb_spec x (b_blockno bp)) as [->|Hne].
    + rewrite (Hno b bp') in Hv; [done| |done|done]. by eapply put_buf_lookup.
    + symmetry. unfold view, bview. destruct (cached (k_bufs s) x) as [bj|] eqn:E; [|done].
      apply cached_inv in E as (j & Hj & Ej). apply b_is_true in Ej as [Hdj <-].
      rewrite (Hno j bj); [done| |done|done]. simpl. rewrite list_lookup_insert_ne; [done|congruence].
Qed.

Lemma holds_store pid held D s b bp data :
  holds pid held D s b bp -> valid bp = true -> length data = 512%nat ->
  holds pid held D (put_buf b (set_b_data data bp) s) b (set_b_data data bp) /\
  forall x, view (put_buf b (set_b_data data bp) s) x = if x =? b_blockno bp then data else view s x.
Proof.
  intros Hh Hv Hlen. pose proof (holds_buf_ok _ _ _ _ _ _ Hh) as Hbo.
  assert (Hh' : holds pid held D (put_buf b (set_b_data data bp) s) b (set_b_data data bp)).
  { replace (put_buf b (set_b_data data bp) s) with (set_k_disk (k_disk s) (put_buf b (set_b_data data bp) s))
      by by destruct s.
    eapply holds_set; eauto; [|apply Hh]. destruct (bo_flags _ _ _ _ _ _ _ Hbo) as [|[|]]; auto.
    right; right. split; [done|]. by apply Hbo. }
  split; [done|]. intros x. rewrite (view_put s pid held D b bp _ D held); try done; try apply Hh'; try apply Hh.
  - by eapply holds_dev.
  - by eapply (holds_dev _ _ _ _ _ _ Hh').
Qed.

(** [bwrite] puts the buffer's data on the disk. *)
Lemma bwrite_eq s i c p pr held D b bp :
  thread s i c p pr -> holds (p_pid pr) held D s b bp -> valid bp = true ->
  b_blockno bp < d_size (k_disk s) ->
  bwrite b s = Ret tt (set_k_disk (disk_write (b_blockno bp) (b_data bp) (k_disk s))
                        (put_buf b (set_b_flags 2 bp) s)).
Proof.
  intros Ht Hh Hv Hlt. pose proof (holds_buf_ok _ _ _ _ _ _ Hh) as Hbo.
  destruct (valid_flags bp (bo_flags _ _ _ _ _ _ _ Hbo)) as [Ev _].
  assert (Hf : Z.lor (b_flags bp) B_DIRTY = 6).
  { rewrite Hv in Ev. destruct (bo_flags _ _ _ _ _ _ _ Hbo) as [E|[E|E]]; rewrite E in *; done. }
  unfold bwrite. erewrite bind_run by by eapply holds_held. simpl.
  erewrite bind_run by (apply updbuf_put; apply Hh). cbv beta. rewrite Hf.
  erewrite (iderw_write _ i c p pr held (b_blockno bp :: D) b (set_b_flags 6 bp)).
  - unfold put_buf. simpl. unfold set_k_disk, set_k_bufs. simpl. by rewrite list_insert_insert_eq.
  - by eapply thread_frame.
  - replace (put_buf b (set_b_flags 6 bp) s) with (set_k_disk (k_disk s) (put_buf b (set_b_flags 6 bp) s))
      by by destruct s.
    eapply holds_set; eauto; simpl; try apply Hbo; auto; try set_solver. apply Hh.
  - done.
  - done.
Qed.

Lemma bwrite_spec s i c p pr held D b bp :
  thread s i c p pr -> holds (p_pid pr) held D s b bp -> valid bp = true ->
  b_blockno bp < d_size (k_disk s) ->
  exists s', bwrite b s = Ret tt s' /\
    s' = set_k_disk (disk_write (b_blockno bp) (b_data bp) (k_disk s)) (put_buf b (set_b_flags 2 bp) s) /\
    holds (p_pid pr) held (filter (fun x => x <> b_blockno bp) D) s' b (set_b_flags 2 bp) /\
    forall x, view s' x = view s x.
Proof.
  intros Ht Hh Hv Hlt. eexists. split; [by eapply bwrite_eq|]. split; [done|].
  pose proof (holds_buf_ok _ _ _ _ _ _ Hh) as Hbo. pose proof (holds_dev _ _ _ _ _ _ Hh) as Hdev.
  set (s' := set_k_disk _ _).
  assert (Hh' : holds (p_pid pr) held (filter (fun x => x <> b_blockno bp) D) s' b (set_b_flags 2 bp)).
  { eapply holds_set; eauto; simpl; try apply Hbo.
    - intros x Hx Hne. by apply list_elem_of_filter.
    - intros x Hne. by destruct (Z.eqb_spec x (b_blockno bp)).
    - rewrite Z.eqb_refl. apply Hbo. }
  split; [done|].
  assert (Hvb : view s (b_blockno bp) = b_data bp).
  { unfold view. erewrite bview_hit by (eauto; apply Hh). by rewrite Hv. }
  apply (bview_char _ _ _ _ _ _ _ (ho_ok _ _ _ _ _ _ Hh')).
  - intros j bj Hj Hdj Hvj. apply list_lookup_insert_Some in Hj as [(<- & <- & _)|[Hne Hj]]; [simpl; by rewrite Hvb|].
    unfold view. erewrite bview_hit by (eauto; apply Hh). by rewrite Hvj.
  - intros x Hno. simpl. destruct (Z.eqb_spec x (b_blockno bp)) as [->|Hne]; [by rewrite Hvb|].
    symmetry. unfold view, bview. destruct (cached (k_bufs s) x) as [bj|] eqn:E; [|done].
    apply cached_inv in E as (j & Hj & Ej). apply b_is_true in Ej as [Hdj <-].
    rewrite (Hno j bj); [done| |done|done]. simpl. rewrite list_lookup_insert_ne; [done|].
    intros ->. rewrite (ho_buf _ _ _ _ _ _ Hh) in Hj. by simplify_eq.
Qed.

(** ** Release *)

(** Equal but for the links of the ring. *)
Record bsame bp bp' : Prop := {
  bs_flags : b_flags bp' = b_flags bp;
  bs_dev : b_dev bp' = b_dev bp;
  bs_blockno : b_blockno bp' = b_blockno bp;
  bs_refcnt : b_refcnt bp' = b_refcnt bp;
  bs_data : b_data bp' = b_data bp
}.

Definition bsames (B B' : list buf) : Prop :=
  length B' = length B /\
  forall j bj', B' !! j = Some bj' -> exists bj, B !! j = Some bj /\ bsame bj bj'.

Lemma bsames_refl B : bsames B B.
Proof. split; [done|]. eauto using Build_bsame. Qed.

Lemma bsames_bupd B B' j f :
  bsames B B' -> (forall bp, bsame bp (f bp)) -> bsames B (bupd B' j f).
Proof.
  intros [Hl H] Hf. split; [unfold bupd; by rewrite length_alter|]. intros k bk. rewrite lookup_bupd.
  destruct (decide (j = k)); [|apply H]. intros E. apply fmap_Some in E as (bk' & E & ->).
  destruct (H k bk' E) as (b0 & ? & []). exists b0. split; [done|]. destruct (Hf bk').
  constructor; congruence.
Qed.

Lemma bsames_release B b bp first :
  bsames B (to_front b first (unlink b bp B)).
Proof.
  unfold to_front, unlink. repeat apply bsames_bupd; try done. apply bsames_refl.
Qed.

Lemma bcache_relink pid held D B B' SL d l :
  bcache_ok pid held D B SL d -> bsames B B' -> linked B' bhead l bhead ->
  Permutation l (seq 0 bhead) -> bcache_ok pid held D B' SL d.
Proof.
  intros [] [Hlen HB] Hl Hp. constructor; auto; try congruence; eauto.
  - intros bp Hbp. destruct (HB _ _ Hbp) as (b0 & H0 & []). rewrite bs_dev0. eauto.
  - intros j k bj bk Hj Hk. destruct (HB _ _ Hj) as (bj0 & Hj0 & []), (HB _ _ Hk) as (bk0 & Hk0 & []).
    intros. eapply (bc_uniq0 j k bj0 bk0); congruence.
  - intros j bj Hlt Hj. destruct (HB _ _ Hj) as (bj0 & Hj0 & [E1 E2 E3 E4 E5]).
    destruct (bc_buf0 j bj0 Hlt Hj0). constructor; rewrite ?E1, ?E2, ?E3, ?E4, ?E5; auto.
Qed.

Lemma bview_bsames B B' d x : bsames B B' -> bview B' d x = bview B d x.
Proof.
  intros [Hlen HB]. unfold bview.
  assert (E : match cached B' x, cached B x with
              | Some b1, Some b2 => bsame b2 b1 | None, None => True | _, _ => False end).
  { revert B' Hlen HB. induction B as [|b B IH]; intros [|b' B'] Hlen HB; try done.
    destruct (HB 0%nat b' eq_refl) as (b0 & E0 & Hs). simpl in E0. simplify_eq. simpl.
    assert (Eb : b_is x b' = b_is x b0) by (unfold b_is; by rewrite (bs_dev _ _ Hs), (bs_blockno _ _ Hs)).
    rewrite Eb. destruct (b_is x b0); [done|]. apply IH; [simpl in Hlen; lia|].
    intros j bj Hj. apply (HB (S j) bj Hj). }
  destruct (cached B' x), (cached B x); try done. destruct E as [E1 _ _ _ E5].
  unfold valid. by rewrite E1, E5.
Qed.

(** [bmove] moves a node of the ring to its front. *)
Lemma bmove_eq s b bp l1 l2 :
  linked (k_bufs s) bhead (l1 ++ b :: l2) bhead -> NoDup (bhead :: l1 ++ b :: l2) ->
  k_bufs s !! b = Some bp ->
  bmove b s = Ret tt (set_k_bufs (to_front b (first_of (l1 ++ l2) bhead) (unlink b bp (k_bufs s))) s).
Proof.
  intros Hl Hnd Hb. set (B := k_bufs s).
  assert (Hun : linked (unlink b bp B) bhead (l1 ++ l2) bhead) by (apply linked_unlink; auto).
  pose proof Hl as Hl0. apply linked_app in Hl as [Hl1 Hl2].
  assert (D : forall B j f k, is_Some (B !! k) -> is_Some (bupd B j f !! k)).
  { intros B0 j f k [x Hx]. rewrite lookup_bupd, Hx. destruct (decide _); eauto. }
  assert (Hnext : b_next bp = first_of l2 bhead).
  { pose proof (linked_next _ _ _ _ Hl2) as E. rewrite Hb in E. by injection E. }
  assert (Hprev : b_prev bp ∈ bhead :: l1) by (eapply linked_prev_in; [exact Hl1|by rewrite Hb]).
  assert (b_next bp <> b).
  { rewrite Hnext. apply NoDup_cons in Hnd as [? Hnd]. apply NoDup_app in Hnd as (_ & _ & Hnd).
    apply NoDup_cons in Hnd as [? _]. destruct l2; simpl; set_solver. }
  assert (b <> bhead) by (intros ->; apply NoDup_cons in Hnd as [Hni _]; set_solver).
  unfold bmove. erewrite bind_run by (apply getbuf_eq; exact Hb).
  erewrite bind_run.
  2:{ apply updbuf_bupd. rewrite Hnext. eapply (linked_dom _ _ _ _ _ Hl2). destruct l2; set_solver. }
  erewrite bind_run by (apply getbuf_eq; simpl; rewrite lookup_bupd, decide_False by done; exact Hb).
  erewrite bind_run.
  2:{ apply updbuf_bupd. simpl. apply D. eapply (linked_dom _ _ _ _ _ Hl1). set_solver. }
  simpl. fold B. fold (unlink b bp B).
  destruct (linked_dom _ _ _ _ bhead Hun) as [bh Hbh]; [set_solver|].
  assert (Hn : b_next bh = first_of (l1 ++ l2) bhead).
  { pose proof (linked_next _ _ _ _ Hun) as E. rewrite Hbh in E. by injection E. }
  erewrite bind_run by (apply getbuf_eq; exact Hbh).
  assert (Hb' : is_Some (unlink b bp B !! b)) by (apply D, D; eauto).
  erewrite bind_run by by apply updbuf_bupd.
  erewrite bind_run by (apply updbuf_bupd; simpl; auto).
  erewrite bind_run by (apply getbuf_eq; simpl; rewrite !lookup_bupd, !decide_False by done; exact Hbh).
  assert (Hf : is_Some (unlink b bp B !! b_next bh)).
  { rewrite Hn. eapply (linked_dom _ _ _ _ _ Hun). destruct (l1 ++ l2); set_solver. }
  erewrite bind_run by (apply updbuf_bupd; simpl; auto).
  erewrite updbuf_bupd by (simpl; do 3 apply D; eauto). simpl. by rewrite Hn.
Qed.

Definition unlock_buf b s : kernel := set_k_sleeplocks (delete (SL_buf b) (k_sleeplocks s)) s.

(** Dropping the reference and the lock, before the buffer is moved. *)
Lemma cache_drop pid held held' D s b bp :
  holds pid held D s b bp -> Permutation held (b :: held') ->
  (b_flags bp = 2 -> b_data bp = d_blocks (k_disk s) (b_blockno bp)) ->
  cache_ok pid held' D (unlock_buf b (put_buf b (set_b_refcnt 0 bp) s)).
Proof.
  intros Hh Hp Hcl. pose proof (holds_lt _ _ _ _ _ _ Hh). pose proof (holds_dev _ _ _ _ _ _ Hh).
  destruct (holds_buf_ok _ _ _ _ _ _ Hh). destruct Hh as [Hc Hin Hb].
  destruct (bc_held _ _ _ _ _ _ Hc) as [Hnd Hall]. rewrite Hp in Hnd. apply NoDup_cons in Hnd as [Hni Hnd].
  unfold cache_ok. simpl. eapply bcache_set; eauto.
  - intros j bj Hj Hbj Hdj _ E. apply Hj. by eapply (bc_uniq _ _ _ _ _ _ Hc).
  - assert (Hhb : held_by held' b = false) by by apply bool_decide_eq_false.
    constructor; rewrite ?Hhb, ?lookup_delete_eq; auto.
  - intros j bj Hj Hbj Hok. eapply buf_ok_frame; eauto; [rewrite Hp; set_solver|].
    rewrite lookup_delete_ne; [done|congruence].
  - split; [done|]. intros j Hj. apply Hall. rewrite Hp. set_solver.
  - apply Hc.
Qed.

Lemma brelse_spec s i c p pr held held' D b bp :
  thread s i c p pr -> holds (p_pid pr) held D s b bp -> Permutation held (b :: held') ->
  (b_flags bp = 2 -> b_data bp = d_blocks (k_disk s) (b_blockno bp)) ->
  exists B', brelse b s = Ret tt (unlock_buf b (set_k_bufs B' s)) /\
    cache_ok (p_pid pr) held' D (unlock_buf b (set_k_bufs B' s)) /\
    (forall x, view (unlock_buf b (set_k_bufs B' s)) x = view s x) /\
    bsames (<[b := set_b_refcnt 0 bp]> (k_bufs s)) B'.
Proof.
  intros Ht Hh Hp Hcl. pose proof (cache_drop _ _ _ _ _ _ _ Hh Hp Hcl) as Hd.
  pose proof (holds_lt _ _ _ _ _ _ Hh) as Hlt. pose proof (ho_buf _ _ _ _ _ _ Hh) as Hb.
  pose proof (lookup_lt_Some _ _ _ Hb) as Hlen. pose proof (holds_dev _ _ _ _ _ _ Hh) as Hdev.
  set (bp0 := set_b_refcnt 0 bp). set (B1 := <[b := bp0]> (k_bufs s)).
  assert (Hb1 : B1 !! b = Some bp0) by by apply list_lookup_insert_eq.
  destruct (bc_ring _ _ _ _ _ _ Hd) as (l & Hl & Hperm). simpl in Hl. fold bp0 B1 in Hl.
  assert (Hbl : b ∈ l) by (rewrite Hperm, elem_of_seq; lia).
  assert (Hnd : NoDup (bhead :: l)).
  { apply NoDup_cons. split; [rewrite Hperm, elem_of_seq; lia|]. rewrite Hperm. apply NoDup_seq. }
  apply list_elem_of_split in Hbl as (l1 & l2 & ->).
  set (B2 := to_front b (first_of (l1 ++ l2) bhead) (unlink b bp0 B1)).
  assert (Hs : bsames B1 B2) by apply bsames_release.
  exists B2. split; [|split; [|split; [|done]]].
  - unfold brelse. erewrite bind_run by by eapply holds_held. simpl.
    erewrite bind_run by by eapply releasesleep_eq.
    erewrite bind_run by (eapply acquireth_eq, (thread_frame s); eauto).
    erewrite bind_run by (apply updbuf_eq; exact Hb). cbv beta.
    rewrite (bo_ref _ _ _ _ _ _ _ (holds_buf_ok _ _ _ _ _ _ Hh)). unfold held_by.
    rewrite bool_decide_true by apply Hh. change (u32 (1 - 1)) with 0.
    erewrite bind_run by (apply getbuf_eq; exact Hb1). unfold when.
    replace (b_refcnt bp0 =? 0) with true by done.
    erewrite bind_run by (by eapply (bmove_eq _ b bp0 l1 l2)).
    erewrite releaseth_eq by done. unfold unlock_buf. simpl. by destruct s.
  - eapply bcache_relink; [exact Hd|exact Hs| |rewrite <- Hperm; by apply Permutation_middle].
    rewrite <- Permutation_middle, Permutation_swap in Hnd. apply NoDup_cons in Hnd as [Hni Hnd].
    apply linked_front; [|done|done|].
    + apply linked_unlink; auto.
      rewrite <- Permutation_middle, Permutation_swap. by apply NoDup_cons.
    + unfold unlink. rewrite !lookup_bupd, Hb1. repeat destruct (decide _); eauto.
  - intros x. unfold view. simpl. erewrite bview_bsames by exact Hs. unfold B1.
    eapply (bview_set_same _ _ _ (k_bufs s)); eauto; [apply Hh|].
    intros _ Hv. change (valid bp = true) in Hv. change (b_blockno bp0) with (b_blockno bp).
    erewrite (bview_hit _ _ _ (k_bufs s)) by (eauto; apply Hh). by rewrite Hv.
Qed.

(** ** [binit] *)

(** One round of the loop of [binit]: [b] becomes the front of the ring. *)
Lemma binit_round s b l :
  (forall x, lock_free (k_hw s) x) -> linked (k_bufs s) bhead l bhead -> b ∉ bhead :: l -> is_Some (k_bufs s !! b) ->
  k_sleeplocks s !! SL_buf b = None ->
  (let! hd := getbuf bhead in
   updbuf b (set_b_next (b_next hd)) ;;
   updbuf b (set_b_prev bhead) ;;
   initsleeplock (SL_buf b) ;;
   let! hd := getbuf bhead in
   updbuf (b_next hd) (set_b_prev b) ;;
   updbuf bhead (set_b_next b)) s =
  Ret tt (set_k_bufs (to_front b (first_of l bhead) (k_bufs s)) s).
Proof.
  intros Ht Hl Hb Hsb Hsl. destruct (linked_dom _ _ _ _ bhead Hl) as [bh Hbh]; [set_solver|].
  assert (Hn : b_next bh = first_of l bhead).
  { pose proof (linked_next _ _ _ _ Hl) as E. rewrite Hbh in E. by injection E. }
  assert (D : forall B j f k, is_Some (B !! k) -> is_Some (bupd B j f !! k)).
  { intros B j f k [x Hx]. rewrite lookup_bupd, Hx. destruct (decide _); eauto. }
  erewrite bind_run by (apply getbuf_eq; exact Hbh).
  erewrite bind_run by by apply updbuf_bupd.
  erewrite bind_run by (apply updbuf_bupd; simpl; auto).
  erewrite bind_run.
  2:{ unfold initsleeplock, initlock, sethw. rewrite bind_modify. reflexivity. }
  erewrite bind_run by (apply getbuf_eq; simpl; rewrite !lookup_bupd, !decide_False by set_solver; exact Hbh).
  erewrite bind_run.
  2:{ apply updbuf_bupd. simpl. apply D, D. rewrite Hn. eapply (linked_dom _ _ _ _ _ Hl). destruct l; set_solver. }
  erewrite updbuf_bupd by (simpl; do 3 apply D; eauto). rewrite Hn. simpl.
  unfold set_k_bufs, putsleep, set_k_sleeplocks. simpl. rewrite delete_id by done. do 2 f_equal.
  by apply putlock_zero.
Qed.

Definition fresh_buf bp : Prop :=
  b_flags bp = 0 /\ b_dev bp = 0 /\ b_refcnt bp = 0 /\ length (b_data bp) = 512%nat.

Lemma bsames_trans B1 B2 B3 : bsames B1 B2 -> bsames B2 B3 -> bsames B1 B3.
Proof.
  intros [L1 H1] [L2 H2]. split; [congruence|]. intros j b3 E3.
  destruct (H2 _ _ E3) as (b2 & E2 & []), (H1 _ _ E2) as (b1 & E1 & []).
  exists b1. split; [done|]. constructor; congruence.
Qed.

Lemma binit_loop s n k l :
  (forall x, lock_free (k_hw s) x) -> linked (k_bufs s) bhead l bhead -> Permutation l (seq 0 k) ->
  (k + n = bhead)%nat -> length (k_bufs s) = S bhead -> (forall b, k_sleeplocks s !! SL_buf b = None) ->
  exists B' l', for_each (seq k n) (fun b =>
    let! hd := getbuf bhead in
    updbuf b (set_b_next (b_next hd)) ;;
    updbuf b (set_b_prev bhead) ;;
    initsleeplock (SL_buf b) ;;
    let! hd := getbuf bhead in
    updbuf (b_next hd) (set_b_prev b) ;;
    updbuf bhead (set_b_next b)) s = Ret tt (set_k_bufs B' s) /\
    linked B' bhead l' bhead /\ Permutation l' (seq 0 bhead) /\ bsames (k_bufs s) B'.
Proof.
  revert s k l. induction n as [|n IH]; intros s k l Ht Hl Hp Hk Hlen Hsl; cbn [seq for_each].
  - exists (k_bufs s), l. replace bhead with k by lia. replace k with bhead in * by lia.
    split; [by destruct s|]. split; [done|]. split; [done|]. apply bsames_refl.
  - assert (Hin : forall x, x ∈ l <-> (x < k)%nat) by (intros x; rewrite Hp, elem_of_seq; lia).
    assert (Hkb : k ∉ bhead :: l) by (rewrite elem_of_cons, Hin; lia).
    assert (Hks : is_Some (k_bufs s !! k)) by (apply lookup_lt_is_Some_2; lia).
    erewrite bind_run by by eapply binit_round.
    set (s1 := set_k_bufs _ s). assert (Hs : bsames (k_bufs s) (k_bufs s1)).
    { unfold s1, to_front. simpl. repeat apply bsames_bupd; try done. apply bsames_refl. }
    destruct (IH s1 (S k) (k :: l)) as (B' & l' & E & Hl' & Hp' & Hs'); auto.
    + apply linked_front; auto. apply NoDup_cons. split; [rewrite Hin; lia|]. rewrite Hp. apply NoDup_seq.
    + rewrite seq_S, <- Permutation_cons_append. by constructor.
    + lia.
    + by rewrite (proj1 Hs).
    + exists B', l'. rewrite E. split; [done|]. split; [done|]. split; [done|].
      by eapply bsames_trans.
Qed.

Lemma binit_spec pid s :
  (forall x, lock_free (k_hw s) x) -> length (k_bufs s) = S bhead ->
  (forall j bj, k_bufs s !! j = Some bj -> fresh_buf bj) ->
  (forall b, k_sleeplocks s !! SL_buf b = None) -> (forall bn, length (d_blocks (k_disk s) bn) = 512%nat) ->
  exists B', binit s = Ret tt (set_k_bufs B' s) /\ cache_ok pid [] [] (set_k_bufs B' s) /\
    forall x, view (set_k_bufs B' s) x = d_blocks (k_disk s) x.
Proof.
  intros Ht Hlen Hfresh Hsl Hd. destruct (lookup_lt_is_Some_2 (k_bufs s) bhead) as [bh Hbh]; [lia|].
  unfold binit, initlock, sethw. rewrite bind_modify, putlock_zero by done.
  rewrite set_hw_same. erewrite bind_run by (apply updbuf_bupd; eauto).
  erewrite bind_run by (apply updbuf_bupd; simpl; rewrite lookup_bupd, Hbh, decide_True by done; eauto).
  set (s1 := set_k_bufs _ _). simpl in s1.
  assert (Hs : bsames (k_bufs s) (k_bufs s1)) by (unfold s1; simpl; repeat apply bsames_bupd; try done; apply bsames_refl).
  destruct (binit_loop s1 (Z.to_nat NBUF) 0 []) as (B' & l' & E & Hl' & Hp' & Hs').
  - done.
  - unfold s1. simpl. split; by rewrite !lookup_bupd, !decide_True, Hbh by done.
  - done.
  - done.
  - by rewrite (proj1 Hs).
  - done.
  - exists B'. unfold range. rewrite E. assert (HB : bsames (k_bufs s) B') by by eapply bsames_trans.
    assert (HF : forall j bj, B' !! j = Some bj -> fresh_buf bj).
    { intros j bj Hj. destruct (proj2 HB j bj Hj) as (b0 & H0 & []). apply Hfresh in H0.
      unfold fresh_buf in *. rewrite bs_flags0, bs_dev0, bs_refcnt0, bs_data0. done. }
    split; [by unfold s1; destruct s|]. split.
    + unfold cache_ok. simpl. constructor; eauto.
      * by rewrite (proj1 HB).
      * intros bp Hbp. by apply HF in Hbp as (_ & ? & _).
      * intros x y bx b_y Hx _ Hdx. apply HF in Hx as (_ & Hx & _). lia.
      * intros j bj Hj Hbj. destruct (HF j bj Hbj) as (F1 & F2 & F3 & F4).
        constructor; auto; try lia. intros [|]; [lia|set_solver].
      * split; [constructor|set_solver].
    + intros x. apply bview_miss. intros j bj Hj. apply HF in Hj as (_ & Hj & _). unfold b_is. by rewrite Hj.
Qed.
End Ops.
