(* ===== verification/Block.v ===== *)
(** What the buffer cache promises to its clients [log.c] and [fs.c]: [bread],
    [bwrite], [brelse] and stores into a held buffer, specified over the contents of
    the blocks instead of the ring, flags and locks of [Bio.v]. *)

From S2P Require Import Prelude Bytes Params State Spinlock Sched Sleeplock Bio.
From stdpp Require Import base list gmap strings.
From Stdlib Require Import ZArith Lia.
Local Open Scope Z_scope.
Local Open Scope km_scope.

(** The thread of the process with this pid runs alone. *)
Definition runs (pid : Z) (s : kernel) : Prop :=
  exists i c p pr, thread s i c p pr /\ p_pid pr = pid.

(** Every block of [D] is in the cache and dirty. *)
Definition pinned (D : list Z) (s : kernel) : Prop :=
  forall bn, bn ∈ D -> exists j bj, k_bufs s !! j = Some bj /\ b_is bn bj = true /\ b_flags bj = 6.

Record blk (pid : Z) (held : list nat) (D : list Z) (s : kernel) : Prop := {
  bk_runs : runs pid s;
  bk_ok : cache_ok pid held D s;
  bk_pin : pinned D s
}.

(** Buffer [b] holds block [bn] with these bytes; when [rel], it may be released: it is
    dirty, or agrees with the disk. *)
Definition hb (s : kernel) (b : nat) (bn : Z) (data : list Z) (rel : bool) : Prop :=
  exists bp, k_bufs s !! b = Some bp /\ b_blockno bp = bn /\ b_data bp = data /\
    (b_flags bp = 2 \/ b_flags bp = 6) /\
    (rel = true -> b_flags bp = 2 -> data = d_blocks (k_disk s) bn).

(** The other buffers the thread holds are not affected. *)
Definition keeps (held : list nat) (s s' : kernel) : Prop :=
  forall j x data rel, j ∈ held -> hb s j x data rel -> hb s' j x data rel.

Definition buf_lock (l : slid) : Prop := exists i, l = SL_buf i.

(** The part of the state the file system's block layer works on. *)
Record fs_step (s s' : kernel) : Prop := {
  fs_eq : s' = set_k_log (k_log s') (set_k_disk (k_disk s') (set_k_bufs (k_bufs s')
                 (set_k_sleeplocks (k_sleeplocks s') s)));
  fs_sl : forall l, ~ buf_lock l -> k_sleeplocks s' !! l = k_sleeplocks s !! l
}.

#[export] Instance fs_step_preorder : PreOrder fs_step.
Proof.
  split.
  - intros s. by split; [destruct s|].
  - intros s1 s2 s3 [E1 S1] [E2 S2]. split; [rewrite E2; by rewrite E1|].
    intros l Hl. rewrite S2 by done. by apply S1.
Qed.

Section Frame.
Implicit Types (s : kernel) (pid : Z).

Lemma fs_step_runs pid s s' : fs_step s s' -> runs pid s -> runs pid s'.
Proof.
  intros [E _] (i & c & p & pr & Ht & <-). exists i, c, p, pr. split; [|done].
  eapply thread_frame; [exact Ht|by rewrite E..].
Qed.

(** A disk of the same size. *)
Definition same_size s s' : Prop := d_size (k_disk s') = d_size (k_disk s).
End Frame.

Section Client.
Context {WF : WaitFuel}.
Implicit Types (s : kernel) (pid bn : Z) (held : list nat) (D : list Z) (b : nat) (data : list Z) (rel : bool).

Lemma hb_holds pid held D s b bn data rel :
  blk pid held D s -> b ∈ held -> hb s b bn data rel ->
  exists bp, holds pid held D s b bp /\ b_blockno bp = bn /\ b_data bp = data /\ valid bp = true /\
    (rel = true -> b_flags bp = 2 -> b_data bp = d_blocks (k_disk s) (b_blockno bp)).
Proof.
  intros Hk Hin (bp & Hb & <- & <- & Hf & Hr). exists bp.
  split; [constructor; [apply Hk|done|done]|]. split; [done|]. split; [done|]. split; [|done].
  destruct (valid_flags bp) as [-> _]; [tauto|]. by destruct Hf as [-> | ->].
Qed.

Lemma hb_view pid held D s b bn data rel :
  blk pid held D s -> b ∈ held -> hb s b bn data rel -> view s bn = data.
Proof.
  intros Hk Hin Hb. destruct (hb_holds _ _ _ _ _ _ _ _ Hk Hin Hb) as (bp & Hh & <- & <- & Hv & _).
  unfold view. erewrite bview_hit; [by rewrite Hv|apply Hh|apply Hh|by eapply holds_dev].
Qed.

Lemma hb_len pid held D s b bn data rel :
  blk pid held D s -> b ∈ held -> hb s b bn data rel -> length data = 512%nat.
Proof.
  intros Hk Hin Hb. destruct (hb_holds _ _ _ _ _ _ _ _ Hk Hin Hb) as (bp & Hh & <- & <- & _).
  by apply (holds_buf_ok _ _ _ _ _ _ Hh).
Qed.

Lemma getbuf_hb s b bn data rel :
  hb s b bn data rel -> exists bp, getbuf b s = Ret bp s /\ b_data bp = data /\ b_blockno bp = bn.
Proof. intros (bp & Hb & <- & <- & _). exists bp. by rewrite (getbuf_eq _ _ _ Hb). Qed.

Record bread_post pid held D s bn b s' : Prop := {
  br_blk : blk pid (b :: held) D s';
  br_step : fs_step s s';
  br_hb : hb s' b bn (view s bn) true;
  br_new : b ∉ held;
  br_view : forall x, view s' x = view s x;
  br_disk : k_disk s' = k_disk s;
  br_log : k_log s' = k_log s;
  br_keep : keeps held s s'
}.

Lemma bread_fs pid held D s bn :
  blk pid held D s -> (forall j x data rel, j ∈ held -> hb s j x data rel -> x <> bn) ->
  (forall j, j ∈ held -> exists x data rel, hb s j x data rel) ->
  room held D s bn -> bn < d_size (k_disk s) ->
  exists b s', bread 1 bn s = Ret b s' /\ bread_post pid held D s bn b s'.
Proof.
  intros [(i & c & p & pr & Ht & <-) Hc Hpin] Hne Hhb Hroom Hlt.
  destruct (bread_spec s i c p pr held D bn) as (b & bp & s' & E & G & Hd & Hf); auto.
  { intros j bj Hj Hbj. destruct (Hhb j Hj) as (x & data & rel & Hx).
    pose proof (Hne _ _ _ _ Hj Hx) as Hn. destruct Hx as (bp & Hbp & <- & _). by simplify_eq. }
  exists b, s'. split; [done|]. destruct G as [Hst Hnew [bp0 Hbp0] Hdev Hbn Hcln Hpn Hok Hvw].
  pose proof (lookup_lt_Some _ _ _ Hbp0) as Hltb.
  assert (Hfs : fs_step s s').
  { subst s'. split; [by destruct s|]. intros l Hl. simpl. rewrite lookup_insert_ne; [done|].
    intros <-. apply Hl. by eexists. }
  assert (Hb : k_bufs s' !! b = Some bp) by (subst s'; by apply list_lookup_insert_eq).
  constructor; auto.
  - constructor; [eapply fs_step_runs; [done|]; by exists i, c, p, pr|done|].
    intros x Hx. destruct (Hpin x Hx) as (j & bj & Hj & Hxj & Hfj).
    destruct (decide (j = b)) as [->|Hjb].
    + exists b, bp. split; [done|]. apply b_is_true in Hxj as [_ Hxj].
      destruct (Hpn bj Hj Hfj) as [Hbn0 F6]. split; [|done]. apply b_is_true. split; [done|congruence].
    + exists j, bj. subst s'. simpl. by rewrite list_lookup_insert_ne.
  - exists bp. do 4 (split; [done|]). intros _ F2. rewrite <- Hd. subst s'. by apply Hcln.
  - by subst s'.
  - by subst s'.
  - intros j x data rel Hj (bj & Hbj & Hrest). exists bj. subst s'. simpl.
    rewrite list_lookup_insert_ne by set_solver. done.
Qed.

(** Storing into a held buffer. *)
Record store_post pid held D s b bn data s' : Prop := {
  st_blk : blk pid held D s';
  st_step : fs_step s s';
  st_hb : hb s' b bn data false;
  st_view : forall x, view s' x = if x =? bn then data else view s x;
  st_disk : k_disk s' = k_disk s;
  st_log : k_log s' = k_log s;
  st_keep : forall j x dj rel, j <> b -> hb s j x dj rel -> hb s' j x dj rel
}.

Lemma updbuf_fs pid held D s b bn data rel data' f :
  blk pid held D s -> b ∈ held -> hb s b bn data rel -> length data' = 512%nat ->
  (forall bp, b_data bp = data -> f bp = set_b_data data' bp) ->
  exists s', updbuf b f s = Ret tt s' /\ store_post pid held D s b bn data' s'.
Proof.
  intros Hk Hin Hb Hlen Hf. destruct (hb_holds _ _ _ _ _ _ _ _ Hk Hin Hb) as (bp & Hh & Hbn & Hd & Hv & _).
  destruct (holds_store _ _ _ _ _ _ data' Hh Hv Hlen) as [Hh' Hview].
  exists (put_buf b (set_b_data data' bp) s). split.
  { erewrite updbuf_put by apply Hh. by rewrite Hf. }
  pose proof (ho_buf _ _ _ _ _ _ Hh) as Hbp. pose proof (lookup_lt_Some _ _ _ Hbp) as Hlt.
  constructor; auto.
  - constructor; [|apply Hh'|].
    + eapply fs_step_runs; [|apply Hk]. split; [by destruct s|done].
    + intros x Hx. destruct (bk_pin _ _ _ _ Hk x Hx) as (j & bj & Hj & Hxj & Hfj).
      destruct (decide (j = b)) as [->|Hjb].
      * exists b, (set_b_data data' bp). simplify_eq. split; [by apply list_lookup_insert_eq|done].
      * exists j, bj. simpl. by rewrite list_lookup_insert_ne.
  - split; [by destruct s|done].
  - exists (set_b_data data' bp). split; [by apply list_lookup_insert_eq|]. simpl.
    destruct Hb as (bp' & Hbp' & _ & _ & Hfl & _). rewrite Hbp in Hbp'. injection Hbp' as <-. done.
  - intros x. rewrite Hview. by rewrite Hbn.
  - intros j x dj rj Hj (bj & Hbj & Hrest). exists bj. simpl. by rewrite list_lookup_insert_ne.
Qed.

Record bwrite_post pid held D s b bn data s' : Prop := {
  bw_blk : blk pid held (filter (fun x => x <> bn) D) s';
  bw_step : fs_step s s';
  bw_hb : hb s' b bn data true;
  bw_view : forall x, view s' x = view s x;
  bw_disk : k_disk s' = disk_write bn data (k_disk s);
  bw_log : k_log s' = k_log s;
  bw_keep : forall j x dj rel, j <> b -> j ∈ held -> hb s j x dj rel -> hb s' j x dj rel
}.

Lemma bwrite_fs pid held D s b bn data rel :
  blk pid held D s -> b ∈ held -> hb s b bn data rel -> bn < d_size (k_disk s) ->
  exists s', bwrite b s = Ret tt s' /\ bwrite_post pid held D s b bn data s'.
Proof.
  intros Hk Hin Hb Hlt. destruct (hb_holds _ _ _ _ _ _ _ _ Hk Hin Hb) as (bp & Hh & Hbn & Hd & Hv & _).
  destruct Hk as [(i & c & p & pr & Ht & <-) Hc Hpin].
  destruct (bwrite_spec s i c p pr held D b bp Ht Hh Hv) as (s' & E & Es & Hh' & Hview); [by rewrite Hbn|].
  exists s'. split; [done|]. pose proof (ho_buf _ _ _ _ _ _ Hh) as Hbp.
  pose proof (lookup_lt_Some _ _ _ Hbp) as Hltb.
  assert (Hfs : fs_step s s') by (subst s'; split; [by destruct s|done]).
  rewrite Hbn in Hh', Es. rewrite Hd in Es. constructor; auto.
  - constructor; [eapply fs_step_runs; [done|]; by exists i, c, p, pr|apply Hh'|].
    intros x Hx. apply list_elem_of_filter in Hx as [Hne Hx].
    destruct (Hpin x Hx) as (j & bj & Hj & Hxj & Hfj). exists j, bj. split; [|done].
    subst s'. simpl. rewrite list_lookup_insert_ne; [done|]. intros ->. simplify_eq.
    by apply b_is_true in Hxj as [_ ?].
  - exists (set_b_flags 2 bp). subst s'. split; [by apply list_lookup_insert_eq|]. simpl.
    rewrite Z.eqb_refl. auto.
  - by subst s'.
  - by subst s'.
  - intros j x dj rj Hj Hjh (bj & Hbj & Hxj & Hdj & Hfj & Hrj). exists bj. subst s'. simpl.
    rewrite list_lookup_insert_ne by done. repeat split; auto. intros -> F2.
    destruct (Z.eqb_spec x bn) as [->|]; [|auto]. exfalso. apply Hj.
    pose proof (holds_dev _ _ _ _ _ _ (Build_holds _ _ _ _ _ _ Hc Hjh Hbj)).
    pose proof (holds_dev _ _ _ _ _ _ Hh).
    eapply (bc_uniq _ _ _ _ _ _ Hc); eauto. congruence.
Qed.

Record brelse_post pid held' D s b s' : Prop := {
  rl_blk : blk pid held' D s';
  rl_step : fs_step s s';
  rl_view : forall x, view s' x = view s x;
  rl_disk : k_disk s' = k_disk s;
  rl_log : k_log s' = k_log s;
  rl_keep : forall j x dj rel, j <> b -> hb s j x dj rel -> hb s' j x dj rel
}.

Lemma brelse_fs pid held held' D s b bn data :
  blk pid held D s -> hb s b bn data true -> Permutation held (b :: held') ->
  exists s', brelse b s = Ret tt s' /\ brelse_post pid held' D s b s'.
Proof.
  intros Hk Hb Hp. assert (Hin : b ∈ held) by (rewrite Hp; set_solver).
  destruct (hb_holds _ _ _ _ _ _ _ _ Hk Hin Hb) as (bp & Hh & Hbn & Hd & Hv & Hcl).
  destruct Hk as [(i & c & p & pr & Ht & <-) Hc Hpin].
  destruct (brelse_spec s i c p pr held held' D b bp Ht Hh Hp (Hcl eq_refl)) as (B' & E & Hok & Hview & Hs).
  eexists. split; [exact E|]. set (s' := unlock_buf b (set_k_bufs B' s)) in *.
  assert (Hfs : fs_step s s').
  { split; [by unfold s'; destruct s|]. intros l Hl. simpl. rewrite lookup_delete_ne; [done|].
    intros <-. apply Hl. by eexists. }
  pose proof (ho_buf _ _ _ _ _ _ Hh) as Hbp.
  assert (HB : forall j bj, k_bufs s !! j = Some bj -> exists bj', B' !! j = Some bj' /\
      b_flags bj' = b_flags bj /\ b_blockno bj' = b_blockno bj /\ b_data bj' = b_data bj /\ b_dev bj' = b_dev bj).
  { intros j bj Hj. destruct (lookup_lt_is_Some_2 B' j) as [bj' Hj'].
    { rewrite (proj1 Hs), length_insert. by eapply lookup_lt_Some. }
    exists bj'. split; [done|]. destruct (proj2 Hs j bj' Hj') as (b0 & Hb0 & []).
    apply list_lookup_insert_Some in Hb0 as [(<- & <- & _)|[_ Hb0]]; simplify_eq; auto. }
  constructor; auto.
  - constructor; [eapply fs_step_runs; [done|]; by exists i, c, p, pr|done|].
    intros x Hx. destruct (Hpin x Hx) as (j & bj & Hj & Hxj & Hfj).
    destruct (HB j bj Hj) as (bj' & Hj' & F & Bn & _ & Dv). exists j, bj'. split; [done|].
    unfold b_is in *. by rewrite F, Bn, Dv.
  - intros j x dj rj Hj (bj & Hbj & Hrest). destruct (HB j bj Hbj) as (bj' & Hj' & F & Bn & Dd & _).
    exists bj'. split; [done|]. by rewrite F, Bn, Dd.
Qed.
End Client.

(** * A booted machine: [kernel_run] with any disk and log, after [binit] *)
Lemma boot_demo `{WaitFuel} d lg :
  (forall bn, length (d_blocks d bn) = 512%nat) ->
  exists B, binit (set_k_log lg (set_k_disk d kernel_run)) =
      Ret tt (set_k_bufs B (set_k_log lg (set_k_disk d kernel_run))) /\
    blk 1 [] [] (set_k_bufs B (set_k_log lg (set_k_disk d kernel_run))).
Proof.
  intros Hd. set (s := set_k_log lg (set_k_disk d kernel_run)).
  assert (Ht : thread s 0 cpu_run 0 proc_run) by (eapply thread_frame; [apply thread_run|done|done]).
  destruct (binit_spec 1 s) as (B & E & Hc & _); auto.
  - intros x. by eapply thread_free.
  - intros j bj Hj. change (replicate 31 buf0 !! j = Some bj) in Hj. by apply lookup_replicate in Hj as [-> _].
  - exists B. split; [done|]. constructor; [|exact Hc|].
    + exists 0%nat, cpu_run, 0%nat, proc_run. split; [|done]. by eapply thread_frame.
    + intros bn Hb. inversion Hb.
Qed.

(** * Theorems *)

(** [binit] on zero-initialised buffers returns with the cache's invariant: the
    [NBUF] buffers are linked in a ring through [bcache.head], none is held, and what
    the cache shows is the disk. *)
Theorem binit_correct {WF : WaitFuel} (pid : Z) (s : kernel) :
  runs pid s -> length (k_bufs s) = S bhead ->
  (forall j bj, k_bufs s !! j = Some bj -> fresh_buf bj) ->
  (forall b, k_sleeplocks s !! SL_buf b = None) -> (forall bn, length (d_blocks (k_disk s) bn) = 512%nat) ->
  exists s', binit s = Ret tt s' /\ blk pid [] [] s' /\ (forall x, view s' x = d_blocks (k_disk s) x) /\
    exists l, linked (k_bufs s') bhead l bhead /\ Permutation l (seq 0 bhead).
Proof.
  intros (i & c & p & pr & Ht & <-) Hlen Hf Hsl Hd.
  destruct (binit_spec (p_pid pr) s (fun x => thread_free _ _ _ _ _ x Ht) Hlen Hf Hsl Hd) as (B & E & Hc & Hv).
  eexists. split; [exact E|]. split; [|split; [exact Hv|apply (bc_ring _ _ _ _ _ _ Hc)]].
  constructor; [|exact Hc|].
  - exists i, c, p, pr. split; [|done]. by eapply thread_frame.
  - intros bn Hb. inversion Hb.
Qed.

Lemma binit_correct_witness : exists s', binit kernel_run = Ret tt s' /\ blk 1 [] [] s'.
Proof.
  destruct (@binit_correct 0%nat 1 kernel_run) as (s' & E & K & _).
  - exists 0%nat, cpu_run, 0%nat, proc_run. split; [apply thread_run|done].
  - done.
  - intros j bj Hj. change (replicate 31 buf0 !! j = Some bj) in Hj. by apply lookup_replicate in Hj as [-> _].
  - done.
  - done.
  - exists s'. split; [exact E|exact K].
Defined.

(** [bread], a store into the buffer, [bwrite], [brelse]: a block is replaced on disk. *)
Definition write_block {WF : WaitFuel} (bn : Z) (data : list Z) : K unit :=
  let! b := bread 1 bn in
  updbuf b (set_b_data data) ;;
  bwrite b ;;
  brelse b.

(** C4: the cache is coherent. Writing a block through [bread], [bwrite] and [brelse]
    puts it on the disk; a later [bread] of the same block returns a locked buffer with
    exactly these bytes; and neither changes what is read of any other block. *)
Theorem bcache_coherent {WF : WaitFuel} (pid : Z) (D : list Z) (s : kernel) (bn : Z) (data : list Z) :
  blk pid [] D s -> (length D < bhead)%nat -> 0 <= bn < d_size (k_disk s) -> length data = 512%nat ->
  exists s1 b s2, write_block bn data s = Ret tt s1 /\ bread 1 bn s1 = Ret b s2 /\
    hb s2 b bn data true /\ d_blocks (k_disk s1) bn = data /\
    forall x, x <> bn -> view s2 x = view s x /\ d_blocks (k_disk s2) x = d_blocks (k_disk s) x.
Proof.
  intros Hk HD Hbn Hlen. unfold write_block.
  destruct (bread_fs pid [] D s bn) as (b & s1 & E1 & [K1 S1 H1 _ V1 D1 L1 _]); auto;
    [set_solver|set_solver|by left|lia|].
  erewrite bind_run by exact E1.
  destruct (updbuf_fs pid [b] D s1 b bn (view s bn) true data (set_b_data data))
    as (s2 & E2 & [K2 S2 H2 V2 D2 L2 _]); auto; [set_solver|].
  erewrite bind_run by exact E2.
  destruct (bwrite_fs pid [b] D s2 b bn data false) as (s3 & E3 & [K3 S3 H3 V3 D3 L3 _]); auto;
    [set_solver|rewrite D2, D1; lia|].
  erewrite bind_run by exact E3.
  destruct (brelse_fs pid [b] [] _ s3 b bn data K3 H3) as (s4 & E4 & [K4 S4 V4 D4 L4 _]); [done|].
  pose proof (length_filter (fun x => x <> bn) D).
  destruct (bread_fs pid [] _ s4 bn K4) as (b' & s5 & E5 & [K5 S5 H5 _ V5 D5 L5 _]);
    [set_solver|set_solver|left; simpl; lia|rewrite D4, D3, D2, D1; simpl; lia|].
  rewrite V4, V3, V2, Z.eqb_refl in H5.
  exists s4, b', s5. split; [done|]. split; [done|]. split; [done|]. split.
  - rewrite D4, D3. simpl. by rewrite Z.eqb_refl.
  - intros x Hx. rewrite V5, V4, V3, V2, V1, D5, D4, D3, D2, D1. simpl.
    by destruct (Z.eqb_spec x bn).
Qed.

Lemma bcache_coherent_witness :
  exists s s1 b s2, @write_block 0%nat 7 (replicate 512 9) s = Ret tt s1 /\ @bread 0%nat 1 7 s1 = Ret b s2 /\
    hb s2 b 7 (replicate 512 9) true.
Proof.
  destruct (@boot_demo 0%nat disk0 log0) as (B & _ & Hk); [done|]. set (s := set_k_bufs B _) in *.
  destruct (@bcache_coherent 0%nat 1 [] s 7 (replicate 512 9)) as (s1 & b & s2 & E1 & E2 & H & _);
    [exact Hk|by apply Nat.ltb_lt|done|done|].
  exists s, s1, b, s2. split; [exact E1|]. split; [exact E2|exact H].
Defined.
