(* ===== verification/Log.v ===== *)
(** The write-ahead log [log.c]: transactions ([begin_op], [end_op], [log_write]),
    group commit, and recovery; [readsb] of [fs.c], which [initlog] calls. *)

From S2P Require Import Prelude Bytes Params State Spinlock Sched Sleeplock Bio Block.
From stdpp Require Import base list gmap strings.
From Stdlib Require Import ZArith Lia.
Local Open Scope Z_scope.
Local Open Scope km_scope.

(** [*sb] as it lies in block 1. *)
Definition sb_decode (data : list Z) : superblock :=
  mkSuperblock (rd32 data 0) (rd32 data 4) (rd32 data 8) (rd32 data 12) (rd32 data 16)
    (rd32 data 20) (rd32 data 24).

Section Log.
Context {WF : WaitFuel}.

Definition readsb (dev : Z) : K superblock :=
  let! bp := bread dev 1 in
  let! b := getbuf bp in
  let sb := sb_decode (b_data b) in
  brelse bp ;;
  ret sb.

(** [log.lh.block[tail]] *)
Definition log_block_at (tail : Z) : K Z :=
  let! lg := gets k_log in index "log.lh.block" (lg_block lg) tail.

(** The body of the loop of [install_trans]. *)
Definition install_one (tail : nat) : K unit :=
  let! lg := gets k_log in
  let! lbuf := bread (lg_dev lg) (u32 (lg_start lg + Z.of_nat tail + 1)) in
  let! bn := log_block_at (Z.of_nat tail) in
  let! lg := gets k_log in
  let! dbuf := bread (lg_dev lg) (u32 bn) in
  let! lb := getbuf lbuf in
  updbuf dbuf (set_b_data (b_data lb)) ;;
  bwrite dbuf ;;
  brelse lbuf ;;
  brelse dbuf.

Definition install_trans : K unit :=
  let! lg := gets k_log in
  for_each (range (lg_n lg)) install_one.

(** The fields [n] and [block[i]] of a [struct logheader] in a block. *)
Definition lh_n (data : list Z) : Z := i32 (rd32 data 0).
Definition lh_block (data : list Z) (i : Z) : Z := i32 (rd32 data (4 + 4 * i)).

Definition read_head : K unit :=
  let! lg := gets k_log in
  let! buf := bread (lg_dev lg) (u32 (lg_start lg)) in
  let! b := getbuf buf in
  updlog (set_lg_n (lh_n (b_data b))) ;;
  let! lg := gets k_log in
  for_each (range (lg_n lg)) (fun i =>
    let! b := getbuf buf in
    let! lg := gets k_log in
    if in_bounds (lg_block lg) (Z.of_nat i) then
      updlog (set_lg_block (store (lg_block lg) (Z.of_nat i) (lh_block (b_data b) (Z.of_nat i))))
    else undef "log.lh.block") ;;
  brelse buf.

Definition write_head : K unit :=
  let! lg := gets k_log in
  let! buf := bread (lg_dev lg) (u32 (lg_start lg)) in
  let! lg := gets k_log in
  updbuf buf (fun b => set_b_data (wr32 (b_data b) 0 (lg_n lg)) b) ;;
  for_each (range (lg_n lg)) (fun i =>
    let! bn := log_block_at (Z.of_nat i) in
    updbuf buf (fun b => set_b_data (wr32 (b_data b) (4 + 4 * Z.of_nat i) bn) b)) ;;
  bwrite buf ;;
  brelse buf.

Definition recover_from_log : K unit :=
  read_head ;;
  install_trans ;;
  updlog (set_lg_n 0) ;;
  write_head.

(** [sizeof(struct logheader)] is [4 + 4 * LOGSIZE], less than [BSIZE]. *)
Definition initlog (dev : Z) : K unit :=
  if BSIZE <=? 4 + 4 * LOGSIZE then panic "initlog: too big logheader" else
  initlock L_log ;;
  let! sb := readsb dev in
  updlog (set_lg_start (i32 (sb_logstart sb))) ;;
  updlog (set_lg_size (i32 (sb_nlog sb))) ;;
  updlog (set_lg_dev dev) ;;
  recover_from_log.

(** [log.committing], or this operation might exhaust the log. *)
Definition must_wait (lg : log_t) : bool :=
  negb (lg_committing lg =? 0) ||
  (LOGSIZE <? lg_n lg + (lg_outstanding lg + 1) * MAXOPBLOCKS).

Definition begin_op : K unit :=
  acquire L_log ;;
  while_loop wait_fuel (gets (fun s => must_wait (k_log s))) (sleep Ch_log L_log) ;;
  updlog (fun lg => set_lg_outstanding (lg_outstanding lg + 1) lg) ;;
  release L_log.

(** The body of the loop of [write_log]. *)
Definition write_log_one (tail : nat) : K unit :=
  let! lg := gets k_log in
  let! to := bread (lg_dev lg) (u32 (lg_start lg + Z.of_nat tail + 1)) in
  let! bn := log_block_at (Z.of_nat tail) in
  let! lg := gets k_log in
  let! from := bread (lg_dev lg) (u32 bn) in
  let! fb := getbuf from in
  updbuf to (set_b_data (b_data fb)) ;;
  bwrite to ;;
  brelse from ;;
  brelse to.

Definition write_log : K unit :=
  let! lg := gets k_log in
  for_each (range (lg_n lg)) write_log_one.

Definition commit : K unit :=
  let! lg := gets k_log in
  when (0 <? lg_n lg)
    (write_log ;;
     write_head ;;
     install_trans ;;
     updlog (set_lg_n 0) ;;
     write_head).

Definition end_op : K unit :=
  acquire L_log ;;
  updlog (fun lg => set_lg_outstanding (lg_outstanding lg - 1) lg) ;;
  let! lg := gets k_log in
  if negb (lg_committing lg =? 0) then panic "log.committing" else
  let! do_commit := (if lg_outstanding lg =? 0 then
                       updlog (set_lg_committing 1) ;; ret true
                     else
                       wakeup Ch_log ;; ret false) in
  release L_log ;;
  when do_commit
    (commit ;;
     acquire L_log ;;
     updlog (set_lg_committing 0) ;;
     wakeup Ch_log ;;
     release L_log).

Definition log_write (b : nat) : K unit :=
  let! lg := gets k_log in
  if (LOGSIZE <=? lg_n lg) || (lg_size lg - 1 <=? lg_n lg) then panic "too big a transaction" else
  if lg_outstanding lg <? 1 then panic "log_write outside of trans" else
  acquire L_log ;;
  let! lg := gets k_log in
  let! bp := getbuf b in
  let! r := for_find (range (lg_n lg)) (fun i =>
    let! bn := log_block_at (Z.of_nat i) in
    ret (if u32 bn =? b_blockno bp then Some (Z.of_nat i) else None)) in
  let i := default (lg_n lg) r in
  updlog (fun lg => set_lg_block (store (lg_block lg) i (i32 (b_blockno bp))) lg) ;;
  when (i =? lg_n lg) (updlog (fun lg => set_lg_n (lg_n lg + 1) lg)) ;;
  updbuf b (fun bp => set_b_flags (Z.lor (b_flags bp) B_DIRTY) bp) ;;
  release L_log.
End Log.

(** * The log's own invariant *)

(** The blocks of the current transaction. *)
Definition lblocks (lg : log_t) : list Z := take (Z.to_nat (lg_n lg)) (lg_block lg).

(** Outside the log area [start .. start + size - 1]. *)
Definition home (lg : log_t) (bn : Z) : Prop := bn < lg_start lg \/ lg_start lg + lg_size lg <= bn.

Record log_ok (lg : log_t) (d : disk_t) : Prop := {
  lo_dev : lg_dev lg = 1;
  lo_n : 0 <= lg_n lg <= LOGSIZE;
  lo_size : lg_n lg < lg_size lg;
  lo_len : length (lg_block lg) = Z.to_nat LOGSIZE;
  lo_area : 0 <= lg_start lg /\ lg_start lg + lg_size lg <= d_size d /\ d_size d < 2 ^ 31;
  lo_home : forall bn, bn ∈ lblocks lg -> 0 <= bn < d_size d /\ home lg bn;
  lo_nodup : NoDup (lblocks lg)
}.

Definition logged (lg : log_t) (i : nat) : Z := lg_start lg + Z.of_nat i + 1.

Section LogLemmas.
Context {WF : WaitFuel}.
Implicit Types (s : kernel) (pid bn : Z) (D : list Z) (lg : log_t) (i : nat).

Lemma lblocks_length lg d : log_ok lg d -> length (lblocks lg) = Z.to_nat (lg_n lg).
Proof. intros []. unfold lblocks. rewrite length_take, lo_len0. lia. Qed.

Lemma lblocks_lookup lg d i :
  log_ok lg d -> (i < Z.to_nat (lg_n lg))%nat ->
  exists bn, lg_block lg !! i = Some bn /\ lblocks lg !! i = Some bn /\ 0 <= bn < d_size d /\ home lg bn.
Proof.
  intros H Hi. destruct (lookup_lt_is_Some_2 (lg_block lg) i) as [bn Hbn].
  { rewrite (lo_len _ _ H). pose proof (lo_n _ _ H). lia. }
  assert (E : lblocks lg !! i = Some bn) by (unfold lblocks; by rewrite lookup_take_lt).
  exists bn. split; [done|]. split; [done|]. apply (lo_home _ _ H). by eapply list_elem_of_lookup_2.
Qed.

Lemma log_block_at_eq s i bn :
  lg_block (k_log s) !! i = Some bn -> log_block_at (Z.of_nat i) s = Ret bn s.
Proof. intros H. unfold log_block_at. rewrite bind_gets. apply index_eq; [lia|]. by rewrite Nat2Z.id. Qed.

(** Copying block [src] over block [dst], on the disk. *)
Record copy_post pid D s src dst s' : Prop := {
  cp_blk : blk pid [] (filter (fun x => x <> dst) D) s';
  cp_step : fs_step s s';
  cp_view : forall x, view s' x = if x =? dst then view s src else view s x;
  cp_disk : k_disk s' = disk_write dst (view s src) (k_disk s);
  cp_log : k_log s' = k_log s
}.

Lemma room_pinned pid held D s bn : blk pid held D s -> bn ∈ D -> room held D s bn.
Proof.
  intros Hk Hin. right. destruct (bk_pin _ _ _ _ Hk bn Hin) as (j & bj & ? & ? & _). eauto.
Qed.

(** Both copying loops take a first block [x] and a second block [y], ... *)
Lemma bread_two pid D s x y :
  blk pid [] D s -> x <> y -> x < d_size (k_disk s) -> y < d_size (k_disk s) ->
  (length D < bhead)%nat -> (y ∈ D \/ S (length D) < bhead)%nat ->
  exists b1 s1 b2 s2, bread 1 x s = Ret b1 s1 /\ k_log s1 = k_log s /\
    bread 1 y s1 = Ret b2 s2 /\
    blk pid [b2; b1] D s2 /\ fs_step s s2 /\ b1 <> b2 /\
    hb s2 b1 x (view s x) true /\ hb s2 b2 y (view s y) true /\
    (forall z, view s2 z = view s z) /\ k_disk s2 = k_disk s /\ k_log s2 = k_log s.
Proof.
  intros Hk Hxy Hx Hy HD HyD.
  destruct (bread_fs pid [] D s x) as (b1 & s1 & E1 & P1); auto; [set_solver|set_solver|by left|].
  destruct P1 as [K1 S1 H1 _ V1 D1 L1 _].
  destruct (bread_fs pid [b1] D s1 y) as (b2 & s2 & E2 & P2); auto.
  - intros j z data rel Hj (bj & Hbj & Hz & _). apply list_elem_of_singleton in Hj as ->.
    destruct H1 as (bp & Hbp & Hbx & _). simplify_eq. congruence.
  - intros j Hj. apply list_elem_of_singleton in Hj as ->. eauto.
  - destruct HyD; [by eapply room_pinned|left; simpl; lia].
  - by rewrite D1.
  - destruct P2 as [K2 S2 H2 N2 V2 D2 L2 Kp2]. exists b1, s1, b2, s2.
    split; [done|]. split; [done|]. split; [done|]. split; [done|]. split; [by etrans|].
    split; [set_solver|]. split; [apply Kp2; [set_solver|done]|]. split; [by rewrite <- V1|].
    split; [intros z; by rewrite V2|]. split; congruence.
Qed.

(** ... and end with storing one's bytes into the other and releasing both. *)
Lemma copy_tail pid D s src dst bs bd :
  blk pid [bs; bd] D s \/ blk pid [bd; bs] D s -> bs <> bd -> dst < d_size (k_disk s) ->
  hb s bs src (view s src) true -> hb s bd dst (view s dst) true ->
  exists s', (let! lb := getbuf bs in
    updbuf bd (set_b_data (b_data lb)) ;; bwrite bd ;; brelse bs ;; brelse bd) s = Ret tt s' /\
    copy_post pid D s src dst s'.
Proof.
  intros Hk Hne Hlt Hs Hd.
  assert (exists held, blk pid held D s /\ Permutation held [bs; bd]) as (held & Hk' & Hp).
  { destruct Hk; eexists; split; eauto. constructor. }
  clear Hk. assert (Hin : forall z, z ∈ held <-> z = bs \/ z = bd) by (intros z; rewrite Hp; set_solver).
  destruct (getbuf_hb _ _ _ _ _ Hs) as (lb & E0 & El & _). erewrite bind_run by exact E0.
  destruct (updbuf_fs pid held D s bd dst (view s dst) true (view s src) (set_b_data (b_data lb)))
    as (s1 & E1 & [K1 S1 H1 V1 D1 L1 Kp1]); auto; [apply Hin; auto| |intros; by rewrite El|].
  { eapply (hb_len pid held); eauto. apply Hin; auto. }
  erewrite bind_run by exact E1.
  destruct (bwrite_fs pid held D s1 bd dst (view s src) false) as (s2 & E2 & [K2 S2 H2 V2 D2 L2 Kp2]); auto.
  { apply Hin; auto. } { by rewrite D1. }
  erewrite bind_run by exact E2.
  assert (Hs2 : hb s2 bs src (view s src) true).
  { apply Kp2; [done|apply Hin; auto|]. by apply Kp1. }
  destruct (brelse_fs pid held [bd] (filter (fun x => x <> dst) D) s2 bs src (view s src))
    as (s3 & E3 & [K3 S3 V3 D3 L3 Kp3]); auto.
  erewrite bind_run by exact E3.
  destruct (brelse_fs pid [bd] [] (filter (fun x => x <> dst) D) s3 bd dst (view s src))
    as (s4 & E4 & [K4 S4 V4 D4 L4 Kp4]); auto.
  exists s4. split; [done|]. constructor; auto.
  - etrans; [exact S1|]. etrans; [exact S2|]. by etrans.
  - intros x. by rewrite V4, V3, V2, V1.
  - congruence.
  - congruence.
Qed.

(** [log.lh.block[i]] *)
Definition lbn lg i : Z := default 0 (lg_block lg !! i).

Lemma lbn_ok lg d i :
  log_ok lg d -> (i < Z.to_nat (lg_n lg))%nat ->
  lg_block lg !! i = Some (lbn lg i) /\ lbn lg i ∈ lblocks lg /\ 0 <= lbn lg i < d_size d /\ home lg (lbn lg i).
Proof.
  intros H Hi. destruct (lblocks_lookup lg d i H Hi) as (bn & H1 & H2 & H3 & H4).
  unfold lbn. rewrite H1. simpl. split; [done|]. split; [by eapply list_elem_of_lookup_2|done].
Qed.

Lemma lbn_inj lg d i j :
  log_ok lg d -> (i < Z.to_nat (lg_n lg))%nat -> (j < Z.to_nat (lg_n lg))%nat ->
  lbn lg i = lbn lg j -> i = j.
Proof.
  intros H Hi Hj E. destruct (lblocks_lookup lg d i H Hi) as (bi & I1 & I2 & _).
  destruct (lblocks_lookup lg d j H Hj) as (bj & J1 & J2 & _).
  unfold lbn in E. rewrite I1, J1 in E. simpl in E. subst. by eapply NoDup_lookup; [apply H|..].
Qed.

Lemma logged_ok lg d i :
  log_ok lg d -> (i < Z.to_nat (lg_n lg))%nat ->
  u32 (lg_start lg + Z.of_nat i + 1) = logged lg i /\ lg_start lg < logged lg i < lg_start lg + lg_size lg /\
  logged lg i < d_size d.
Proof.
  intros [] Hi. unfold logged. rewrite u32_small by lia. lia.
Qed.

Lemma home_logged lg d i bn :
  log_ok lg d -> (i < Z.to_nat (lg_n lg))%nat -> home lg bn -> bn <> logged lg i.
Proof. intros H Hi Hh. pose proof (logged_ok _ _ _ H Hi). unfold home in Hh. lia. Qed.

Lemma install_one_spec pid D s i :
  let lg := k_log s in
  blk pid [] D s -> log_ok lg (k_disk s) -> (i < Z.to_nat (lg_n lg))%nat ->
  (length D < bhead)%nat -> (lbn lg i ∈ D \/ S (length D) < bhead)%nat ->
  exists s', install_one i s = Ret tt s' /\ copy_post pid D s (logged lg i) (lbn lg i) s'.
Proof.
  intros lg Hk Ho Hi HD HyD. destruct (lbn_ok _ _ _ Ho Hi) as (B1 & _ & B3 & B4).
  destruct (logged_ok _ _ _ Ho Hi) as (L1 & L2 & L3).
  destruct (bread_two pid D s (logged lg i) (lbn lg i)) as
    (b1 & s1 & b2 & s2 & E1 & G1 & E2 & Hk2 & Hfs & Hne & Hb1 & Hb2 & Hv & Hd & Hl); auto; try lia.
  { intros E. by apply (home_logged _ _ i _ Ho Hi B4). }
  unfold install_one. rewrite bind_gets. fold lg. rewrite (lo_dev _ _ Ho), L1. erewrite bind_run by exact E1.
  erewrite bind_run by (apply log_block_at_eq; rewrite G1; exact B1).
  rewrite bind_gets, G1. fold lg. rewrite (lo_dev _ _ Ho), u32_small by (pose proof (lo_area _ _ Ho); lia).
  erewrite bind_run by exact E2.
  rewrite <- (Hv (logged lg i)) in Hb1. rewrite <- (Hv (lbn lg i)) in Hb2.
  destruct (copy_tail pid D s2 (logged lg i) (lbn lg i) b1 b2) as (s3 & E3 & []); auto; [rewrite Hd; lia|].
  exists s3. split; [done|]. constructor; auto; [by etrans| | |congruence].
  - intros x. rewrite cp_view0. by rewrite !Hv.
  - by rewrite cp_disk0, Hv, Hd.
Qed.

Lemma write_log_one_spec pid D s i :
  let lg := k_log s in
  blk pid [] D s -> log_ok lg (k_disk s) -> (i < Z.to_nat (lg_n lg))%nat ->
  (length D < bhead)%nat -> (lbn lg i ∈ D \/ S (length D) < bhead)%nat ->
  exists s', write_log_one i s = Ret tt s' /\ copy_post pid D s (lbn lg i) (logged lg i) s'.
Proof.
  intros lg Hk Ho Hi HD HyD. destruct (lbn_ok _ _ _ Ho Hi) as (B1 & _ & B3 & B4).
  destruct (logged_ok _ _ _ Ho Hi) as (L1 & L2 & L3).
  destruct (bread_two pid D s (logged lg i) (lbn lg i)) as
    (b1 & s1 & b2 & s2 & E1 & G1 & E2 & Hk2 & Hfs & Hne & Hb1 & Hb2 & Hv & Hd & Hl); auto; try lia.
  { intros E. by apply (home_logged _ _ i _ Ho Hi B4). }
  unfold write_log_one. rewrite bind_gets. fold lg. rewrite (lo_dev _ _ Ho), L1. erewrite bind_run by exact E1.
  erewrite bind_run by (apply log_block_at_eq; rewrite G1; exact B1).
  rewrite bind_gets, G1. fold lg. rewrite (lo_dev _ _ Ho), u32_small by (pose proof (lo_area _ _ Ho); lia).
  erewrite bind_run by exact E2.
  rewrite <- (Hv (logged lg i)) in Hb1. rewrite <- (Hv (lbn lg i)) in Hb2.
  destruct (copy_tail pid D s2 (lbn lg i) (logged lg i) b2 b1) as (s3 & E3 & []); auto; [rewrite Hd; lia|].
  exists s3. split; [done|]. constructor; auto; [by etrans| | |congruence].
  - intros x. rewrite cp_view0. by rewrite !Hv.
  - by rewrite cp_disk0, Hv, Hd.
Qed.

(** A sequence of block writes, on the disk and on what is seen of it. *)
Definition apply_writes (W : list (Z * list Z)) (d : disk_t) : disk_t :=
  fold_left (fun d w => disk_write w.1 w.2 d) W d.
Fixpoint see_writes (W : list (Z * list Z)) (v : Z -> list Z) (x : Z) : list Z :=
  match W with
  | [] => v x
  | w :: W' => see_writes W' (fun y => if y =? w.1 then w.2 else v y) x
  end.

Lemma see_writes_ext W v v' x : (forall y, v y = v' y) -> see_writes W v x = see_writes W v' x.
Proof.
  revert v v'. induction W as [|w W IH]; intros v v' H; simpl; [done|]. apply IH. intros y. by rewrite H.
Qed.

Lemma apply_writes_blocks W d x : d_blocks (apply_writes W d) x = see_writes W (d_blocks d) x.
Proof. revert d. induction W as [|w W IH]; intros d; [done|]. simpl. unfold apply_writes in IH. by rewrite IH. Qed.

Lemma apply_writes_app W W' d : apply_writes (W ++ W') d = apply_writes W' (apply_writes W d).
Proof. apply fold_left_app. Qed.

Lemma apply_writes_size W d : d_size (apply_writes W d) = d_size d.
Proof. revert d. induction W as [|w W IH]; intros d; [done|]. simpl. unfold apply_writes in IH. by rewrite IH. Qed.

Lemma apply_writes_trace W d : d_trace (apply_writes W d) = d_trace d ++ W.
Proof.
  revert d. induction W as [|[b x] W IH]; intros d; simpl; [by rewrite app_nil_r|].
  unfold apply_writes in IH. rewrite IH. simpl. by rewrite <- app_assoc.
Qed.

Lemma see_writes_out W v x : (x ∉ W.*1) -> see_writes W v x = v x.
Proof.
  revert v. induction W as [|w W IH]; intros v H; simpl; [done|]. rewrite IH by set_solver.
  destruct (Z.eqb_spec x w.1); [set_solver|done].
Qed.

Lemma see_writes_in W v x data : NoDup (W.*1) -> (x, data) ∈ W -> see_writes W v x = data.
Proof.
  revert v. induction W as [|w W IH]; intros v Hnd Hin; [set_solver|]. simpl in *.
  apply NoDup_cons in Hnd as [Hni Hnd]. apply elem_of_cons in Hin as [<-|Hin]; [|by apply IH].
  rewrite see_writes_out by done. simpl. by rewrite Z.eqb_refl.
Qed.

(** ** The two loops *)

(** What a loop has done when it has performed the writes [W]. *)
Record wrote pid D' s (W : list (Z * list Z)) s' : Prop := {
  wr_blk : blk pid [] D' s';
  wr_step : fs_step s s';
  wr_view : forall x, view s' x = see_writes W (view s) x;
  wr_disk : k_disk s' = apply_writes W (k_disk s);
  wr_log : k_log s' = k_log s
}.

Lemma wrote_nil pid D s : blk pid [] D s -> wrote pid D s [] s.
Proof. intros Hk. by constructor. Qed.

Lemma wrote_cons pid D D' s s1 s2 src dst W :
  copy_post pid D s src dst s1 -> wrote pid D' s1 W s2 ->
  wrote pid D' s ((dst, view s src) :: W) s2.
Proof.
  intros [] []. constructor; auto; [by etrans| |by rewrite wr_disk0, cp_disk0|congruence].
  intros x. rewrite wr_view0. simpl. by apply see_writes_ext.
Qed.

Definition log_writes lg (v : Z -> list Z) (l : list nat) : list (Z * list Z) :=
  (fun i => (logged lg i, v (lbn lg i))) <$> l.
Definition home_writes lg (v : Z -> list Z) (l : list nat) : list (Z * list Z) :=
  (fun i => (lbn lg i, v (logged lg i))) <$> l.

Lemma filter_not_in D x : x ∉ D -> filter (fun y => y <> x) D = D.
Proof.
  intros H. induction D as [|y D IH]; [done|]. rewrite filter_cons_True by set_solver.
  rewrite IH by set_solver. done.
Qed.

Lemma log_ok_disk lg d d' : log_ok lg d -> d_size d' = d_size d -> log_ok lg d'.
Proof. intros [] E. by constructor; rewrite ?E. Qed.

Lemma write_log_loop pid D m k s :
  let lg := k_log s in
  blk pid [] D s -> log_ok lg (k_disk s) -> (k + m <= Z.to_nat (lg_n lg))%nat ->
  (length D < bhead)%nat -> (forall bn, bn ∈ lblocks lg -> bn ∈ D) ->
  (forall bn, bn ∈ D -> home lg bn) ->
  exists s', for_each (seq k m) write_log_one s = Ret tt s' /\
    wrote pid D s (log_writes lg (view s) (seq k m)) s'.
Proof.
  revert k s. induction m as [|m IH]; intros k s lg Hk Ho Hkm HD Hin Hhome; cbn [seq for_each].
  { exists s. split; [done|]. by apply wrote_nil. }
  destruct (lbn_ok _ _ k Ho) as (B1 & B2 & B3 & B4); [lia|].
  destruct (write_log_one_spec pid D s k) as (s1 & E1 & P1); [done|done|fold lg; lia|done|left; by apply Hin|].
  erewrite bind_run by exact E1. pose proof P1 as [K1 S1 V1 D1 L1]. fold lg in K1, D1, V1.
  assert (Hnot : logged lg k ∉ D).
  { intros Hx. apply Hhome in Hx. eapply (home_logged lg _ k) in Hx; [done|exact Ho|lia]. }
  rewrite filter_not_in in K1 by done.
  destruct (IH (S k) s1) as (s2 & E2 & P2); rewrite ?L1; fold lg; auto; [|lia|].
  { eapply log_ok_disk; [exact Ho|]. by rewrite D1. }
  exists s2. split; [done|].
  replace (log_writes lg (view s) (k :: seq (S k) m)) with
    ((logged lg k, view s (lbn lg k)) :: log_writes (k_log s1) (view s1) (seq (S k) m)).
  { eapply wrote_cons; [exact P1|exact P2]. }
  unfold log_writes. cbn [fmap list_fmap]. rewrite L1. f_equal. apply list_fmap_ext.
  intros j i Hi. apply list_elem_of_lookup_2, elem_of_seq in Hi. f_equal. rewrite V1. fold lg.
  destruct (Z.eqb_spec (lbn lg i) (logged lg k)) as [E|]; [|done].
  destruct (lbn_ok _ _ i Ho) as (_ & _ & _ & Hh); [lia|].
  exfalso. by eapply (home_logged lg _ k) in Hh; [|exact Ho|lia].
Qed.

Lemma filter_length_le (P : Z -> Prop) `{forall x, Decision (P x)} D : (length (filter P D) <= length D)%nat.
Proof. apply length_filter. Qed.

Lemma install_loop pid D m k s :
  let lg := k_log s in
  blk pid [] D s -> log_ok lg (k_disk s) -> (k + m = Z.to_nat (lg_n lg))%nat ->
  (length D < bhead)%nat ->
  (forall i, (k <= i < k + m)%nat -> (lbn lg i ∈ D \/ S (length D) < bhead)%nat) ->
  exists s' D', for_each (seq k m) install_one s = Ret tt s' /\
    wrote pid D' s (home_writes lg (view s) (seq k m)) s' /\
    (forall bn, bn ∈ D' <-> bn ∈ D /\ forall i, (k <= i < k + m)%nat -> bn <> lbn lg i).
Proof.
  revert k s D. induction m as [|m IH]; intros k s D lg Hk Ho Hkm HD Hin; cbn [seq for_each].
  { exists s, D. split; [done|]. split; [by apply wrote_nil|]. intros bn. split; [|tauto].
    intros Hb. split; [done|]. lia. }
  destruct (lbn_ok _ _ k Ho) as (B1 & B2 & B3 & B4); [lia|].
  destruct (install_one_spec pid D s k) as (s1 & E1 & P1); [done|done|fold lg; lia|done|apply Hin; lia|].
  erewrite bind_run by exact E1. pose proof P1 as [K1 S1 V1 D1 L1]. fold lg in K1, D1, V1.
  pose proof (length_filter (fun x => x <> lbn lg k) D) as Hlf.
  destruct (IH (S k) s1 (filter (fun x => x <> lbn lg k) D)) as (s2 & D' & E2 & P2 & HD'); rewrite ?L1; fold lg; auto; [|lia|lia|..].
  { eapply log_ok_disk; [exact Ho|]. by rewrite D1. }
  { intros i Hi. destruct (Hin i) as [Hb|]; [lia| |right; lia]. left. fold lg. apply list_elem_of_filter.
    split; [|done]. intros E. apply (lbn_inj lg (k_disk s)) in E; [lia|done|lia|lia]. }
  exists s2, D'. split; [done|]. split.
  - replace (home_writes lg (view s) (k :: seq (S k) m)) with
      ((lbn lg k, view s (logged lg k)) :: home_writes (k_log s1) (view s1) (seq (S k) m)).
    { eapply wrote_cons; [exact P1|exact P2]. }
    unfold home_writes. cbn [fmap list_fmap]. rewrite L1. fold lg. f_equal. apply list_fmap_ext.
    intros j i Hi. apply list_elem_of_lookup_2, elem_of_seq in Hi. f_equal. rewrite V1.
    destruct (Z.eqb_spec (logged lg i) (lbn lg k)) as [E|]; [|done].
    exfalso. symmetry in E. revert E. eapply (home_logged lg); [exact Ho|lia|done].
  - intros bn. rewrite HD'. rewrite L1. fold lg. rewrite list_elem_of_filter. split.
    + intros [[H1 H2] H3]. split; [done|]. intros i Hi. destruct (decide (i = k)) as [->|]; [done|].
      apply H3. lia.
    + intros [H1 H2]. split; [split; [apply H2; lia|done]|]. intros i Hi. apply H2. lia.
Qed.

(** ** The header block *)

Definition put_entry lg (data : list Z) (i : nat) : list Z := wr32 data (4 + 4 * Z.of_nat i) (lbn lg i).

(** The header [write_head] leaves in a block that held [old]. *)
Definition hdr lg (old : list Z) : list Z :=
  fold_left (put_entry lg) (range (lg_n lg)) (wr32 old 0 (lg_n lg)).

Lemma put_entries_length lg l data :
  length data = 512%nat -> (forall i, i ∈ l -> (i < 30)%nat) -> length (fold_left (put_entry lg) l data) = 512%nat.
Proof.
  revert data. induction l as [|i l IH]; intros data Hd Hl; [done|]. simpl.
  specialize (Hl i ltac:(set_solver)) as Hi. apply IH; [|set_solver].
  unfold put_entry. by rewrite wr32_length by lia.
Qed.

Lemma put_entries_ne lg l data off :
  length data = 512%nat -> (forall i, i ∈ l -> (i < 30)%nat /\ (off + 4 <= 4 + 4 * Z.of_nat i \/ 4 + 4 * Z.of_nat i + 4 <= off)) ->
  0 <= off -> rd32 (fold_left (put_entry lg) l data) off = rd32 data off.
Proof.
  revert data. induction l as [|i l IH]; intros data Hd Hl Ho; [done|]. simpl.
  destruct (Hl i ltac:(set_solver)) as [Hi Hoff].
  rewrite IH; [|unfold put_entry; by rewrite wr32_length by lia|set_solver|done].
  unfold put_entry. rewrite rd32_wr32_ne by lia. done.
Qed.

Lemma put_entries_eq lg l data i :
  length data = 512%nat -> (forall j, j ∈ l -> (j < 30)%nat) -> NoDup l -> i ∈ l ->
  rd32 (fold_left (put_entry lg) l data) (4 + 4 * Z.of_nat i) = u32 (lbn lg i).
Proof.
  revert data. induction l as [|j l IH]; intros data Hd Hl Hnd Hi; [set_solver|]. simpl.
  pose proof (Hl j ltac:(set_solver)) as Hj. apply NoDup_cons in Hnd as [Hni Hnd].
  assert (Hd' : length (put_entry lg data j) = 512%nat) by (unfold put_entry; by rewrite wr32_length by lia).
  apply elem_of_cons in Hi as [->|Hi].
  - rewrite put_entries_ne; [|done| |lia]; [unfold put_entry; by rewrite rd32_wr32_eq by lia|].
    intros k Hk. split; [apply Hl; set_solver|]. assert (k <> j) by set_solver. lia.
  - apply IH; auto. set_solver.
Qed.

Lemma hdr_ok lg d old :
  log_ok lg d -> length old = 512%nat ->
  length (hdr lg old) = 512%nat /\ lh_n (hdr lg old) = lg_n lg /\
  forall i, (i < Z.to_nat (lg_n lg))%nat -> lh_block (hdr lg old) (Z.of_nat i) = lbn lg i.
Proof.
  intros Ho Hlen. assert (Hn : 0 <= lg_n lg <= 30) by apply Ho.
  assert (Hr : forall i, i ∈ range (lg_n lg) -> (i < 30)%nat).
  { intros i Hi. apply elem_of_seq in Hi. lia. }
  assert (Hw : length (wr32 old 0 (lg_n lg)) = 512%nat) by (by rewrite wr32_length by lia).
  split; [by apply put_entries_length|]. split.
  - unfold lh_n, hdr. rewrite put_entries_ne; [|done| |lia].
    + rewrite rd32_wr32_eq by lia. rewrite i32_u32. apply i32_small. lia.
    + intros i Hi. split; [by apply Hr|]. lia.
  - intros i Hi. unfold lh_block, hdr. rewrite put_entries_eq; [|done|done|apply NoDup_seq|].
    + rewrite i32_u32. apply i32_small. destruct (lbn_ok _ _ i Ho Hi) as (_ & _ & ? & _).
      pose proof (lo_area _ _ Ho). lia.
    + apply elem_of_seq. lia.
Qed.

Lemma hb_weaken s b bn data rel : hb s b bn data rel -> hb s b bn data false.
Proof. intros (bp & ? & ? & ? & ? & _). exists bp. done. Qed.

Lemma head_loop pid D l s b bn data rel :
  blk pid [b] D s -> hb s b bn data rel ->
  (forall i, i ∈ l -> lg_block (k_log s) !! i = Some (lbn (k_log s) i) /\ (i < 30)%nat) ->
  exists s', for_each l (fun i =>
      let! bn := log_block_at (Z.of_nat i) in
      updbuf b (fun b => set_b_data (wr32 (b_data b) (4 + 4 * Z.of_nat i) bn) b)) s = Ret tt s' /\
    store_post pid [b] D s b bn (fold_left (put_entry (k_log s)) l data) s'.
Proof.
  revert s data rel. induction l as [|i l IH]; intros s data rel Hk Hb Hl; cbn [for_each].
  - exists s. split; [done|]. constructor; auto; [done|by eapply hb_weaken|].
    intros x. destruct (Z.eqb_spec x bn) as [->|]; [|done]. eapply hb_view; eauto. set_solver.
  - destruct (Hl i ltac:(set_solver)) as [Hi Hi30].
    assert (Hlen : length data = 512%nat) by (eapply hb_len; eauto; set_solver).
    destruct (updbuf_fs pid [b] D s b bn data rel (put_entry (k_log s) data i)
      (fun b => set_b_data (wr32 (b_data b) (4 + 4 * Z.of_nat i) (lbn (k_log s) i)) b))
      as (s1 & E1 & [K1 S1 H1 V1 D1 L1 Kp1]); auto; [set_solver| |by intros bp ->|].
    { unfold put_entry. by rewrite wr32_length by lia. }
    erewrite bind_run; [|erewrite bind_run by (apply log_block_at_eq; exact Hi); exact E1].
    destruct (IH s1 (put_entry (k_log s) data i) false K1 H1) as (s2 & E2 & [K2 S2 H2 V2 D2 L2 Kp2]).
    { rewrite L1. intros j Hj. apply Hl. set_solver. }
    exists s2. split; [done|]. rewrite L1 in *. constructor; auto; try congruence; [by etrans|].
    intros x. rewrite V2, V1. by destruct (x =? bn).
Qed.

Lemma write_head_spec pid D s :
  let lg := k_log s in
  blk pid [] D s -> log_ok lg (k_disk s) -> (length D < bhead)%nat -> (lg_start lg ∉ D) ->
  exists s', write_head s = Ret tt s' /\
    wrote pid D s [(lg_start lg, hdr lg (view s (lg_start lg)))] s'.
Proof.
  intros lg Hk Ho HD Hnot. pose proof (lo_area _ _ Ho) as Ha. pose proof (lo_n _ _ Ho) as Hn.
  pose proof (lo_size _ _ Ho) as Hsz.
  unfold write_head. rewrite bind_gets. fold lg. rewrite (lo_dev _ _ Ho), u32_small by lia.
  destruct (bread_fs pid [] D s (lg_start lg)) as (b & s1 & E1 & [K1 S1 H1 _ V1 D1 L1 _]); auto;
    [set_solver|set_solver|by left|lia|].
  erewrite bind_run by exact E1. rewrite bind_gets, L1. fold lg.
  assert (Hlen : length (view s (lg_start lg)) = 512%nat) by (eapply hb_len; eauto; set_solver).
  destruct (updbuf_fs pid [b] D s1 b (lg_start lg) (view s (lg_start lg)) true
    (wr32 (view s (lg_start lg)) 0 (lg_n lg)) (fun b => set_b_data (wr32 (b_data b) 0 (lg_n lg)) b))
    as (s2 & E2 & [K2 S2 H2 V2 D2 L2 _]); auto; [set_solver|by rewrite wr32_length by lia|by intros bp ->|].
  erewrite bind_run by exact E2.
  destruct (head_loop pid D (range (lg_n lg)) s2 b (lg_start lg) (wr32 (view s (lg_start lg)) 0 (lg_n lg)) false)
    as (s3 & E3 & [K3 S3 H3 V3 D3 L3 _]); auto.
  { intros i Hi. apply elem_of_seq in Hi. rewrite L2, L1. fold lg.
    destruct (lbn_ok _ _ i Ho) as (? & _); [lia|]. unfold LOGSIZE, MAXOPBLOCKS in *. split; [done|lia]. }
  rewrite L2, L1 in H3, V3. fold lg in H3, V3. fold (hdr lg (view s (lg_start lg))) in H3, V3.
  erewrite bind_run by exact E3.
  destruct (bwrite_fs pid [b] D s3 b (lg_start lg) (hdr lg (view s (lg_start lg))) false)
    as (s4 & E4 & [K4 S4 H4 V4 D4 L4 _]); auto; [set_solver|rewrite D3, D2, D1; lia|].
  erewrite bind_run by exact E4. rewrite filter_not_in in K4 by done.
  destruct (brelse_fs pid [b] [] D s4 b (lg_start lg) (hdr lg (view s (lg_start lg))))
    as (s5 & E5 & [K5 S5 V5 D5 L5 _]); auto.
  exists s5. split; [done|]. constructor; auto.
  - etrans; [exact S1|]. etrans; [exact S2|]. etrans; [exact S3|]. by etrans.
  - intros x. rewrite V5, V4, V3. simpl. destruct (Z.eqb_spec x (lg_start lg)); [done|].
    rewrite V2. destruct (Z.eqb_spec x (lg_start lg)); [done|]. apply V1.
  - simpl. congruence.
  - congruence.
Qed.

(** ** Commit *)

Lemma updlog_eq s f : updlog f s = Ret tt (set_k_log (f (k_log s)) s).
Proof. done. Qed.

Lemma blk_log pid held D s lg : blk pid held D s -> blk pid held D (set_k_log lg s).
Proof.
  intros [Hr Hc Hp]. constructor; auto. eapply fs_step_runs; [|exact Hr]. split; [by destruct s|done].
Qed.

Definition install_writes lg (v : Z -> list Z) : list (Z * list Z) :=
  (fun i => (lbn lg i, v (lbn lg i))) <$> range (lg_n lg).

(** The block writes of [commit], in order: the modified blocks to the log, the header,
    the modified blocks to their home locations, the cleared header. *)
Definition commit_writes lg (v : Z -> list Z) : list (Z * list Z) :=
  log_writes lg v (range (lg_n lg)) ++
  [(lg_start lg, hdr lg (v (lg_start lg)))] ++
  install_writes lg v ++
  [(lg_start lg, hdr (set_lg_n 0 lg) (hdr lg (v (lg_start lg))))].

Lemma see_writes_app W W' v x : see_writes (W ++ W') v x = see_writes W' (see_writes W v) x.
Proof. revert v. induction W as [|w W IH]; intros v; simpl; [done|]. apply IH. Qed.

Lemma wrote_app pid D D' s s1 s2 W W' :
  wrote pid D s W s1 -> wrote pid D' s1 W' s2 -> wrote pid D' s (W ++ W') s2.
Proof.
  intros [] []. constructor; auto; [by etrans| |by rewrite apply_writes_app, <- wr_disk0|congruence].
  intros x. rewrite wr_view1, see_writes_app. by apply see_writes_ext.
Qed.

Lemma log_writes_keys lg d v x :
  log_ok lg d -> x ∈ (log_writes lg v (range (lg_n lg))).*1 -> exists i, (i < Z.to_nat (lg_n lg))%nat /\ x = logged lg i.
Proof.
  intros Ho Hx. unfold log_writes in Hx. rewrite <- list_fmap_compose in Hx.
  apply list_elem_of_fmap in Hx as (i & -> & Hi). apply elem_of_seq in Hi. exists i. split; [lia|done].
Qed.

Lemma log_writes_nodup lg v l : NoDup l -> NoDup (log_writes lg v l).*1.
Proof.
  intros Hl. unfold log_writes. rewrite <- list_fmap_compose. apply NoDup_fmap_2; [|done].
  intros i j. unfold logged. simpl. lia.
Qed.

Lemma see_logged lg v i :
  (i < Z.to_nat (lg_n lg))%nat -> see_writes (log_writes lg v (range (lg_n lg))) v (logged lg i) = v (lbn lg i).
Proof.
  intros Hi. apply see_writes_in; [apply log_writes_nodup, NoDup_seq|].
  apply list_elem_of_fmap. exists i. split; [done|]. apply elem_of_seq. lia.
Qed.

Lemma see_home lg d v x :
  log_ok lg d -> home lg x -> see_writes (log_writes lg v (range (lg_n lg))) v x = v x.
Proof.
  intros Ho Hh. apply see_writes_out. intros Hx. destruct (log_writes_keys _ _ _ _ Ho Hx) as (i & Hi & ->).
  by eapply home_logged in Hh.
Qed.

Lemma see_start lg d v :
  log_ok lg d -> see_writes (log_writes lg v (range (lg_n lg))) v (lg_start lg) = v (lg_start lg).
Proof.
  intros Ho. apply see_writes_out. intros Hx. destruct (log_writes_keys _ _ _ _ Ho Hx) as (i & Hi & E).
  pose proof (logged_ok _ _ _ Ho Hi). lia.
Qed.

Lemma log_ok_clear lg d : log_ok lg d -> log_ok (set_lg_n 0 lg) d.
Proof.
  intros [? ? ? ? Ha ? ?].
  constructor; simpl; unfold lblocks, LOGSIZE, MAXOPBLOCKS in *; simpl; auto; [lia|lia|set_solver|constructor].
Qed.

Lemma start_not_home lg d bn : log_ok lg d -> bn ∈ lblocks lg -> bn <> lg_start lg.
Proof.
  intros Ho Hb ->. destruct (lo_home _ _ Ho _ Hb) as [_ Hh]. pose proof (lo_size _ _ Ho).
  pose proof (lo_n _ _ Ho). unfold home in Hh. lia.
Qed.

Lemma lbn_surj lg d bn : log_ok lg d -> bn ∈ lblocks lg -> exists i, (i < Z.to_nat (lg_n lg))%nat /\ bn = lbn lg i.
Proof.
  intros Ho Hb. apply list_elem_of_lookup in Hb as [i Hi]. unfold lblocks in Hi.
  apply lookup_take_Some in Hi as [Hi Hlt]. exists i. split; [done|]. unfold lbn. by rewrite Hi.
Qed.

Lemma install_keys lg d v x : log_ok lg d -> x ∈ (install_writes lg v).*1 -> x ∈ lblocks lg.
Proof.
  intros Ho Hx. unfold install_writes in Hx. rewrite <- list_fmap_compose in Hx.
  apply list_elem_of_fmap in Hx as (i & -> & Hi). apply elem_of_seq in Hi. eapply lbn_ok; [exact Ho|lia].
Qed.

Lemma see_install lg d v u x :
  log_ok lg d -> see_writes (install_writes lg v) u x = if decide (x ∈ lblocks lg) then v x else u x.
Proof.
  intros Ho. destruct (decide (x ∈ lblocks lg)) as [Hx|Hx].
  - destruct (lbn_surj _ _ _ Ho Hx) as (i & Hi & ->). apply see_writes_in.
    + unfold install_writes. rewrite <- list_fmap_compose. apply NoDup_fmap_2_strong; [|apply NoDup_seq].
      intros a b Ha Hb E. apply elem_of_seq in Ha, Hb. eapply lbn_inj; [exact Ho|lia|lia|exact E].
    + apply list_elem_of_fmap. exists i. split; [done|]. apply elem_of_seq. lia.
  - apply see_writes_out. intros Hin. by eapply install_keys in Hin.
Qed.

(** [write_log] and the first [write_head]: the transaction is in the log. *)
Lemma commit_first pid s :
  let lg := k_log s in
  blk pid [] (lblocks lg) s -> log_ok lg (k_disk s) -> (Z.to_nat (lg_n lg) < bhead)%nat ->
  exists s', (write_log ;; write_head) s = Ret tt s' /\
    wrote pid (lblocks lg) s
      (log_writes lg (view s) (range (lg_n lg)) ++ [(lg_start lg, hdr lg (view s (lg_start lg)))]) s'.
Proof.
  intros lg Hk Ho Hn. pose proof (lblocks_length _ _ Ho) as Hlen. fold lg in Hlen.
  destruct (write_log_loop pid (lblocks lg) (Z.to_nat (lg_n lg)) 0 s) as (s1 & E1 & P1); auto; [lia| |].
  { intros bn Hb. by apply (lo_home _ _ Ho). }
  unfold write_log. rewrite (bind_run _ _ s tt s1); [|rewrite bind_gets; exact E1].
  assert (Ho1 : log_ok (k_log s1) (k_disk s1)).
  { rewrite (wr_log _ _ _ _ _ P1), (wr_disk _ _ _ _ _ P1). eapply log_ok_disk; [exact Ho|]. apply apply_writes_size. }
  destruct (write_head_spec pid (lblocks lg) s1) as (s2 & E2 & P2); auto; [apply P1|lia| |].
  { rewrite (wr_log _ _ _ _ _ P1). intros Hb. by eapply start_not_home in Hb. }
  exists s2. split; [done|]. eapply wrote_app; [exact P1|].
  rewrite (wr_log _ _ _ _ _ P1) in P2. fold lg in P2. rewrite (wr_view _ _ _ _ _ P1) in P2.
  fold lg in P2. fold (range (lg_n lg)) in P2. by erewrite see_start in P2 by exact Ho.
Qed.

(** ** Install and clear *)

(** [install_trans], with the log's own copy of the blocks already in place. *)
Lemma install_spec pid D s :
  let lg := k_log s in
  blk pid [] D s -> log_ok lg (k_disk s) -> (length D < bhead)%nat ->
  (forall bn, bn ∈ D -> bn ∈ lblocks lg) ->
  (forall i, (i < Z.to_nat (lg_n lg))%nat -> (lbn lg i ∈ D \/ S (length D) < bhead)%nat) ->
  exists s', install_trans s = Ret tt s' /\
    wrote pid [] s (home_writes lg (view s) (range (lg_n lg))) s'.
Proof.
  intros lg Hk Ho HD Hsub Hin.
  destruct (install_loop pid D (Z.to_nat (lg_n lg)) 0 s) as (s1 & D' & E1 & P1 & HD'); auto; [intros i Hi; apply Hin; lia|].
  exists s1. unfold install_trans. rewrite bind_gets. split; [exact E1|].
  assert (D' = []) as ->; [|exact P1].
  apply elem_of_nil_inv. intros bn Hb. apply HD' in Hb as [Hb Hne].
  destruct (lbn_surj _ _ _ Ho (Hsub _ Hb)) as (i & Hi & ->). apply (Hne i); [lia|done].
Qed.

(** Setting [log.lh.n] to 0 and writing the header. *)
Lemma clear_spec pid s :
  let lg := k_log s in
  blk pid [] [] s -> log_ok lg (k_disk s) ->
  exists s', (updlog (set_lg_n 0) ;; write_head) s = Ret tt s' /\
    wrote pid [] (set_k_log (set_lg_n 0 lg) s)
      [(lg_start lg, hdr (set_lg_n 0 lg) (view s (lg_start lg)))] s'.
Proof.
  intros lg Hk Ho. erewrite bind_run by apply updlog_eq.
  destruct (write_head_spec pid [] (set_k_log (set_lg_n 0 lg) s)) as (s1 & E1 & P1).
  - by apply blk_log.
  - by apply log_ok_clear.
  - by apply Nat.ltb_lt.
  - set_solver.
  - by exists s1.
Qed.

Lemma home_writes_install lg d v v' :
  log_ok lg d -> (forall i, (i < Z.to_nat (lg_n lg))%nat -> v' (logged lg i) = v (lbn lg i)) ->
  home_writes lg v' (range (lg_n lg)) = install_writes lg v.
Proof.
  intros Ho H. apply list_fmap_ext. intros j i Hi.
  apply list_elem_of_lookup_2, elem_of_seq in Hi. rewrite H by lia. done.
Qed.

(** What [commit] leaves behind. *)
Record committed pid s s' : Prop := {
  cm_blk : blk pid [] [] s';
  cm_step : fs_step s s';
  cm_view : forall x, view s' x = see_writes (commit_writes (k_log s) (view s)) (view s) x;
  cm_disk : k_disk s' = apply_writes (commit_writes (k_log s) (view s)) (k_disk s);
  cm_log : k_log s' = set_lg_n 0 (k_log s)
}.

Lemma commit_spec pid s :
  let lg := k_log s in
  blk pid [] (lblocks lg) s -> log_ok lg (k_disk s) -> (0 < Z.to_nat (lg_n lg) < bhead)%nat ->
  exists s', commit s = Ret tt s' /\ committed pid s s'.
Proof.
  intros lg Hk Ho Hn. unfold commit. rewrite bind_gets. unfold when.
  destruct (Z.ltb_spec 0 (lg_n (k_log s))); [|subst lg; lia]. clear H.
  pose proof (lblocks_length _ _ Ho) as Hlen.
  destruct (commit_first pid s) as (s1 & E1 & P1); auto; [apply Hn|]. fold lg in P1.
  erewrite bind_seq by exact E1.
  assert (L1 : k_log s1 = lg) by apply P1.
  assert (Ho1 : log_ok lg (k_disk s1)).
  { rewrite (wr_disk _ _ _ _ _ P1). eapply log_ok_disk; [exact Ho|]. apply apply_writes_size. }
  destruct (install_spec pid (lblocks lg) s1) as (s2 & E2 & P2); rewrite ?L1; auto; [apply P1|lia| |].
  { intros i Hi. left. by eapply lbn_ok. }
  rewrite L1 in P2. erewrite bind_run by exact E2.
  assert (L2 : k_log s2 = lg) by (rewrite (wr_log _ _ _ _ _ P2); exact L1).
  assert (Ho2 : log_ok lg (k_disk s2)).
  { rewrite (wr_disk _ _ _ _ _ P2). eapply log_ok_disk; [exact Ho1|]. apply apply_writes_size. }
  destruct (clear_spec pid s2) as (s3 & E3 & P3); [apply P2|by rewrite L2|]. rewrite L2 in P3.
  exists s3. split; [exact E3|].
  assert (V1 : forall x, view s1 x = if x =? lg_start lg then hdr lg (view s (lg_start lg))
                          else see_writes (log_writes lg (view s) (range (lg_n lg))) (view s) x).
  { intros x. rewrite (wr_view _ _ _ _ _ P1), see_writes_app. done. }
  erewrite (home_writes_install _ _ (view s)) in P2; [|exact Ho|].
  2:{ intros i Hi. rewrite V1. destruct (logged_ok _ _ _ Ho Hi) as (_ & HL & _).
      destruct (Z.eqb_spec (logged lg i) (lg_start lg)); [lia|]. by apply see_logged. }
  assert (Hst : view s2 (lg_start lg) = hdr lg (view s (lg_start lg))).
  { rewrite (wr_view _ _ _ _ _ P2), see_writes_out; [by rewrite V1, Z.eqb_refl|].
    intros Hx. eapply install_keys in Hx; [|exact Ho]. by eapply start_not_home in Hx. }
  rewrite Hst in P3.
  assert (P : wrote pid [] s ((log_writes lg (view s) (range (lg_n lg)) ++
      [(lg_start lg, hdr lg (view s (lg_start lg)))]) ++ install_writes lg (view s)) s2).
  { eapply wrote_app; [exact P1|exact P2]. }
  destruct P as [B1 B2 B3 B4 B5], P3 as [C1 C2 C3 C4 C5].
  assert (EW : commit_writes lg (view s) = ((log_writes lg (view s) (range (lg_n lg)) ++
      [(lg_start lg, hdr lg (view s (lg_start lg)))]) ++ install_writes lg (view s)) ++
      [(lg_start lg, hdr (set_lg_n 0 lg) (hdr lg (view s (lg_start lg))))]).
  { unfold commit_writes. by rewrite <- !app_assoc. }
  constructor; auto; fold lg; rewrite ?EW.
  - etrans; [exact B2|]. etrans; [|exact C2]. split; [by destruct s2|done].
  - intros x. rewrite C3, see_writes_app. by apply see_writes_ext.
  - rewrite C4, apply_writes_app. simpl. by rewrite B4.
Qed.

(** With nothing held and nothing in the transaction, the cache shows the disk. *)
Lemma view_clean pid D s x : blk pid [] D s -> x ∉ D -> view s x = d_blocks (k_disk s) x.
Proof.
  intros [_ Hc _] Hx. unfold view, bview. destruct (cached (k_bufs s) x) as [bp|] eqn:E; [|done].
  apply cached_inv in E as (i & Hi & Hb). apply b_is_true in Hb as [Hd <-].
  destruct (valid bp) eqn:Ev; [|done]. pose proof (bhead_lt _ _ _ _ _ _ Hc Hi Hd) as Hlt.
  destruct (bc_buf _ _ _ _ _ _ Hc i bp Hlt Hi) as [F1 _ _ F4 F5 _ _].
  destruct (valid_flags bp F1) as [E _]. rewrite E in Ev.
  destruct F1 as [F|[F|F]]; [by rewrite F in Ev|apply F4; [set_solver|done]|by apply F5 in F].
Qed.

(** ** Recovery *)

Definition load_entry (data : list Z) (B : list Z) (i : nat) : list Z :=
  store B (Z.of_nat i) (lh_block data (Z.of_nat i)).
Definition load_blocks (data : list Z) (l : list nat) (B : list Z) : list Z := fold_left (load_entry data) l B.

Lemma load_blocks_length data l B : length (load_blocks data l B) = length B.
Proof.
  revert B. induction l as [|i l IH]; intros B; [done|]. unfold load_blocks in *. simpl. rewrite IH.
  apply length_insert.
Qed.

Lemma load_blocks_out data l B j : j ∉ l -> load_blocks data l B !! j = B !! j.
Proof.
  revert B. induction l as [|i l IH]; intros B Hj; [done|]. unfold load_blocks in *. simpl.
  rewrite IH by set_solver. unfold load_entry, store. rewrite Nat2Z.id. apply list_lookup_insert_ne. set_solver.
Qed.

Lemma load_blocks_in data l B j :
  j ∈ l -> NoDup l -> (j < length B)%nat -> load_blocks data l B !! j = Some (lh_block data (Z.of_nat j)).
Proof.
  revert B. induction l as [|i l IH]; intros B Hj Hnd Hlt; [set_solver|]. apply NoDup_cons in Hnd as [Hni Hnd].
  change (load_blocks data (i :: l) B) with (load_blocks data l (load_entry data B i)).
  apply elem_of_cons in Hj as [->|Hj].
  - rewrite load_blocks_out by done. unfold load_entry, store. rewrite Nat2Z.id. by apply list_lookup_insert_eq.
  - apply IH; auto. unfold load_entry, store. by rewrite length_insert.
Qed.

(** The in-memory log after [read_head] found the header [data]. *)
Definition head_log (data : list Z) lg : log_t :=
  set_lg_block (load_blocks data (range (lh_n data)) (lg_block lg)) (set_lg_n (lh_n data) lg).

Lemma read_loop pid D l s b bn data :
  blk pid [b] D s -> hb s b bn data true -> length (lg_block (k_log s)) = 30%nat ->
  (forall i, i ∈ l -> (i < 30)%nat) ->
  for_each l (fun i =>
    let! b := getbuf b in
    let! lg := gets k_log in
    if in_bounds (lg_block lg) (Z.of_nat i) then
      updlog (set_lg_block (store (lg_block lg) (Z.of_nat i) (lh_block (b_data b) (Z.of_nat i))))
    else undef "log.lh.block") s =
  Ret tt (set_k_log (set_lg_block (load_blocks data l (lg_block (k_log s))) (k_log s)) s).
Proof.
  revert s. induction l as [|i l IH]; intros s Hk Hb Hlen Hl; cbn [for_each].
  { unfold load_blocks. simpl. unfold ret. f_equal. destruct s; unfold set_k_log; simpl. f_equal. by destruct k_log. }
  destruct (getbuf_hb _ _ _ _ _ Hb) as (bp & E1 & E2 & _).
  assert (Hi : (i < 30)%nat) by (apply Hl; set_solver).
  erewrite bind_run; [|erewrite bind_run by exact E1; rewrite bind_gets; unfold in_bounds; rewrite Hlen;
    destruct (Z.leb_spec 0 (Z.of_nat i)); [|lia]; destruct (Z.ltb_spec (Z.of_nat i) (Z.of_nat 30)); [|lia];
    reflexivity].
  rewrite IH; [|by apply blk_log|done| |set_solver].
  - simpl. rewrite E2. done.
  - simpl. unfold store. by rewrite length_insert.
Qed.

Lemma read_head_spec pid s :
  let lg := k_log s in
  blk pid [] [] s -> lg_dev lg = 1 -> 0 <= lg_start lg < 2 ^ 32 -> lg_start lg < d_size (k_disk s) ->
  length (lg_block lg) = 30%nat -> lh_n (view s (lg_start lg)) <= 30 ->
  exists s', read_head s = Ret tt s' /\ blk pid [] [] s' /\ fs_step s s' /\
    (forall x, view s' x = view s x) /\ k_disk s' = k_disk s /\
    k_log s' = head_log (view s (lg_start lg)) lg.
Proof.
  intros lg Hk Hdev Hst Hlt Hlen Hn. unfold read_head. rewrite bind_gets. fold lg.
  rewrite Hdev, u32_small by lia.
  destruct (bread_fs pid [] [] s (lg_start lg)) as (b & s1 & E1 & [K1 S1 H1 _ V1 D1 L1 _]); auto;
    [set_solver|set_solver|left; by apply Nat.ltb_lt|].
  erewrite bind_run by exact E1. set (data := view s (lg_start lg)) in *.
  destruct (getbuf_hb _ _ _ _ _ H1) as (bp & E2 & E2d & _). erewrite bind_run by exact E2.
  erewrite bind_run by apply updlog_eq. rewrite bind_gets, L1, E2d. fold lg. simpl lg_n.
  erewrite bind_run.
  2:{ eapply (read_loop pid []); [by apply blk_log|exact H1|done|].
      intros i Hi. apply elem_of_seq in Hi. lia. }
  simpl. set (s2 := set_k_log (set_lg_block _ _) _).
  destruct (brelse_fs pid [b] [] [] s2 b (lg_start lg) data) as (s3 & E3 & [K3 S3 V3 D3 L3 _]); auto.
  { by do 2 apply blk_log. }
  exists s3. split; [exact E3|]. split; [done|]. split.
  { etrans; [exact S1|]. etrans; [|exact S3]. split; [by destruct s1|done]. }
  split; [intros x; rewrite V3; apply V1|]. split; [rewrite D3; exact D1|]. rewrite L3. done.
Qed.

(** The header [data] names a transaction that can be installed. *)
Record header_ok lg d (data : list Z) : Prop := {
  ho_n : 0 <= lh_n data <= LOGSIZE;
  ho_size : lh_n data < lg_size lg;
  ho_home : forall i, (i < Z.to_nat (lh_n data))%nat ->
              0 <= lh_block data (Z.of_nat i) < d_size d /\ home lg (lh_block data (Z.of_nat i));
  ho_inj : forall i j, (i < Z.to_nat (lh_n data))%nat -> (j < Z.to_nat (lh_n data))%nat ->
              lh_block data (Z.of_nat i) = lh_block data (Z.of_nat j) -> i = j
}.

(** The log area and device known to [initlog]. *)
Record log_area lg d : Prop := {
  la_dev : lg_dev lg = 1;
  la_area : 0 <= lg_start lg /\ lg_start lg + lg_size lg <= d_size d /\ d_size d < 2 ^ 31;
  la_size : 0 < lg_size lg;
  la_len : length (lg_block lg) = Z.to_nat LOGSIZE
}.

Lemma head_log_lookup lg d data i :
  log_area lg d -> header_ok lg d data -> (i < Z.to_nat (lh_n data))%nat ->
  lg_block (head_log data lg) !! i = Some (lh_block data (Z.of_nat i)) /\
  lbn (head_log data lg) i = lh_block data (Z.of_nat i).
Proof.
  intros Ha Hh Hi. assert (E : lg_block (head_log data lg) !! i = Some (lh_block data (Z.of_nat i))).
  { simpl. apply load_blocks_in; [apply elem_of_seq; lia|apply NoDup_seq|].
    rewrite (la_len _ _ Ha). pose proof (ho_n _ _ _ Hh). lia. }
  split; [done|]. unfold lbn. by rewrite E.
Qed.

Lemma head_log_ok lg d data : log_area lg d -> header_ok lg d data -> log_ok (head_log data lg) d.
Proof.
  intros Ha Hh. pose proof (ho_n _ _ _ Hh) as Hn.
  assert (Hlk : forall i bn, lblocks (head_log data lg) !! i = Some bn ->
            (i < Z.to_nat (lh_n data))%nat /\ bn = lh_block data (Z.of_nat i)).
  { intros i bn Hi. unfold lblocks in Hi. apply lookup_take_Some in Hi as [Hi Hlt].
    change (lg_n (head_log data lg)) with (lh_n data) in Hlt. split; [done|].
    destruct (head_log_lookup _ _ _ i Ha Hh Hlt) as [E _]. congruence. }
  constructor; try apply Ha; auto.
  - apply Hh.
  - change (length (load_blocks data (range (lh_n data)) (lg_block lg)) = Z.to_nat LOGSIZE).
    rewrite load_blocks_length. apply Ha.
  - intros bn Hb. apply list_elem_of_lookup in Hb as [i Hi]. apply Hlk in Hi as [Hi ->]. by apply Hh.
  - apply NoDup_alt. intros i j bn Hi Hj. apply Hlk in Hi as [Hi ->]. apply Hlk in Hj as [Hj E].
    by apply (ho_inj _ _ _ Hh).
Qed.

Definition recover_writes lg (data : list Z) (v : Z -> list Z) : list (Z * list Z) :=
  ((fun i => (lh_block data (Z.of_nat i), v (logged lg i))) <$> range (lh_n data)) ++
  [(lg_start lg, hdr (set_lg_n 0 (head_log data lg)) data)].

Lemma recover_spec pid s :
  let lg := k_log s in let data := view s (lg_start lg) in
  blk pid [] [] s -> log_area lg (k_disk s) -> header_ok lg (k_disk s) data ->
  exists s', recover_from_log s = Ret tt s' /\ blk pid [] [] s' /\ fs_step s s' /\
    k_disk s' = apply_writes (recover_writes lg data (view s)) (k_disk s) /\
    k_log s' = set_lg_n 0 (head_log data lg).
Proof.
  intros lg data Hk Ha Hh. pose proof (la_area _ _ Ha) as Har. pose proof (la_size _ _ Ha).
  destruct (read_head_spec pid s) as (s1 & E1 & K1 & S1 & V1 & D1 & L1); fold lg; auto; try lia;
    [apply Ha|apply Ha|apply Hh|].
  unfold recover_from_log. erewrite bind_run by exact E1. fold lg data in L1.
  assert (Ho1 : log_ok (k_log s1) (k_disk s1)) by (rewrite L1, D1; by apply head_log_ok).
  destruct (install_spec pid [] s1) as (s2 & E2 & P2); auto.
  { by apply Nat.ltb_lt. } { set_solver. } { intros i _. right. by apply Nat.ltb_lt. }
  erewrite bind_run by exact E2. destruct P2 as [K2 S2 V2 D2 L2].
  assert (Ho2 : log_ok (k_log s2) (k_disk s2)).
  { rewrite L2, D2. eapply log_ok_disk; [exact Ho1|apply apply_writes_size]. }
  destruct (clear_spec pid s2 K2 Ho2) as (s3 & E3 & [K3 S3 V3 D3 L3]).
  exists s3. split; [done|]. split; [done|]. split.
  { etrans; [exact S1|]. etrans; [exact S2|]. etrans; [|exact S3]. split; [by destruct s2|done]. }
  assert (Hhw : home_writes (k_log s1) (view s1) (range (lg_n (k_log s1))) =
                (fun i => (lh_block data (Z.of_nat i), view s (logged lg i))) <$> range (lh_n data)).
  { rewrite L1. change (lg_n (head_log data lg)) with (lh_n data). apply list_fmap_ext. intros j i Hi.
    apply list_elem_of_lookup_2, elem_of_seq in Hi.
    destruct (head_log_lookup _ _ _ i Ha Hh) as [_ ->]; [lia|]. by rewrite V1. }
  rewrite Hhw in D2, V2. rewrite L2, L1 in *. split; [|by rewrite L3].
  rewrite D3. unfold recover_writes. rewrite apply_writes_app. simpl.
  change (lg_start (head_log data lg)) with (lg_start lg). rewrite D2, D1. do 2 f_equal.
  rewrite V2, see_writes_out; [apply V1|]. rewrite <- list_fmap_compose. intros Hx.
  apply list_elem_of_fmap in Hx as (i & E & Hi). apply elem_of_seq in Hi. simpl in E.
  destruct (ho_home _ _ _ Hh i) as [_ Hhm]; [lia|]. rewrite <- E in Hhm. unfold home in Hhm. lia.
Qed.

(** ** The disk at a crash, and after recovery *)

Definition crash_disk lg (v : Z -> list Z) (d : disk_t) (k : nat) : disk_t :=
  apply_writes (take k (commit_writes lg v)) d.

Lemma commit_writes_length lg v : length (commit_writes lg v) = (2 * Z.to_nat (lg_n lg) + 2)%nat.
Proof.
  unfold commit_writes, log_writes, install_writes, range.
  rewrite !length_app, !length_fmap, !length_seq. simpl. lia.
Qed.

Section Crash.
Context (lg : log_t) (d : disk_t) (v : Z -> list Z).
Hypothesis Hok : log_ok lg d.
Hypothesis Hclean : forall x, x ∉ lblocks lg -> v x = d_blocks d x.
Hypothesis Hempty : lh_n (d_blocks d (lg_start lg)) = 0.
Hypothesis Hlens : forall x, length (d_blocks d x) = 512%nat.

Let n := Z.to_nat (lg_n lg).

Lemma v_start : v (lg_start lg) = d_blocks d (lg_start lg).
Proof. apply Hclean. intros Hb. by eapply start_not_home in Hb. Qed.

Lemma hdr_len : length (v (lg_start lg)) = 512%nat.
Proof. rewrite v_start. apply Hlens. Qed.

Lemma crash_before k : (k <= n)%nat ->
  d_blocks (crash_disk lg v d k) (lg_start lg) = d_blocks d (lg_start lg) /\
  forall x, home lg x -> d_blocks (crash_disk lg v d k) x = d_blocks d x.
Proof.
  intros Hk. unfold crash_disk, commit_writes.
  rewrite take_app_le by (unfold log_writes, range; rewrite length_fmap, length_seq; done).
  assert (H : forall x, (forall i, (i < n)%nat -> x <> logged lg i) ->
     d_blocks (apply_writes (take k (log_writes lg v (range (lg_n lg)))) d) x = d_blocks d x).
  { intros x Hx. rewrite apply_writes_blocks. apply see_writes_out. intros Hin.
    rewrite fmap_take in Hin. apply elem_of_take in Hin as (j & Hj & _).
    apply list_elem_of_lookup_2 in Hj. destruct (log_writes_keys _ _ _ _ Hok Hj) as (i & Hi & ->).
    by apply (Hx i). }
  split.
  - apply H. intros i Hi E. pose proof (logged_ok _ _ _ Hok Hi). lia.
  - intros x Hx. apply H. intros i Hi. by eapply home_logged.
Qed.

(** From the header write on, up to the last write: the header and the logged blocks. *)
Lemma crash_after k : (n < k <= 2 * n + 1)%nat ->
  d_blocks (crash_disk lg v d k) (lg_start lg) = hdr lg (v (lg_start lg)) /\
  (forall i, (i < n)%nat -> d_blocks (crash_disk lg v d k) (logged lg i) = v (lbn lg i)) /\
  forall x, home lg x -> x ∉ lblocks lg -> d_blocks (crash_disk lg v d k) x = v x.
Proof.
  intros Hk. unfold crash_disk, commit_writes.
  assert (Hl : length (log_writes lg v (range (lg_n lg))) = n)
    by (unfold log_writes, range; rewrite length_fmap, length_seq; done).
  assert (Hi : length (install_writes lg v) = n)
    by (unfold install_writes, range; rewrite length_fmap, length_seq; done).
  rewrite take_app_ge by lia. rewrite Hl. destruct (k - n)%nat as [|m] eqn:Em; [lia|].
  cbn [app take]. rewrite take_app_le by lia. 
  set (I := take m (install_writes lg v)).
  assert (HI : forall x, x ∈ I.*1 -> x ∈ lblocks lg).
  { intros x Hx. unfold I in Hx. rewrite fmap_take in Hx. apply elem_of_take in Hx as (j & Hj & _).
    apply list_elem_of_lookup_2 in Hj. by eapply install_keys. }
  assert (HIh : forall x, x ∈ I.*1 -> home lg x) by (intros x Hx; apply (lo_home _ _ Hok); auto).
  split; [|split].
  - rewrite apply_writes_blocks, see_writes_app. simpl.
    rewrite see_writes_out; [by rewrite Z.eqb_refl|]. intros Hx. apply HI in Hx. by eapply start_not_home in Hx.
  - intros i Hin. rewrite apply_writes_blocks, see_writes_app. simpl.
    rewrite see_writes_out; [|intros Hx; apply HIh in Hx; by eapply home_logged in Hx].
    pose proof (logged_ok _ _ _ Hok Hin). destruct (Z.eqb_spec (logged lg i) (lg_start lg)); [lia|].
    apply see_writes_in; [apply log_writes_nodup, NoDup_seq|]. apply list_elem_of_fmap. exists i.
    split; [done|]. apply elem_of_seq. lia.
  - intros x Hx Hni. rewrite apply_writes_blocks, see_writes_app. simpl.
    rewrite see_writes_out; [|by intros Hxi; apply HI in Hxi].
    destruct (Z.eqb_spec x (lg_start lg)) as [->|].
    { exfalso. pose proof (lo_size _ _ Hok). pose proof (lo_n _ _ Hok). unfold home in Hx. lia. }
    rewrite see_writes_out; [by rewrite Hclean|]. intros Hxl.
    destruct (log_writes_keys _ _ _ _ Hok Hxl) as (i & Hi' & ->). by eapply home_logged in Hx.
Qed.

(** All writes done. *)
Lemma crash_done k : (2 * n + 1 < k)%nat ->
  lh_n (d_blocks (crash_disk lg v d k) (lg_start lg)) = 0 /\
  forall x, home lg x -> d_blocks (crash_disk lg v d k) x = v x.
Proof.
  intros Hk. unfold crash_disk. rewrite take_ge by (rewrite commit_writes_length; fold n; lia).
  unfold commit_writes. rewrite !app_assoc. split.
  - rewrite apply_writes_blocks, see_writes_app. simpl. rewrite Z.eqb_refl.
    destruct (hdr_ok lg d (v (lg_start lg)) Hok hdr_len) as (Hlen & _).
    by destruct (hdr_ok (set_lg_n 0 lg) d _ (log_ok_clear _ _ Hok) Hlen) as (_ & -> & _).
  - intros x Hx. assert (x <> lg_start lg).
    { intros ->. pose proof (lo_size _ _ Hok). pose proof (lo_n _ _ Hok). unfold home in Hx. lia. }
    rewrite apply_writes_blocks, see_writes_app. simpl. destruct (Z.eqb_spec x (lg_start lg)); [done|].
    rewrite see_writes_app. erewrite see_install by exact Hok. destruct (decide (x ∈ lblocks lg)); [done|].
    rewrite see_writes_app. simpl. destruct (Z.eqb_spec x (lg_start lg)); [done|].
    rewrite see_writes_out; [by rewrite Hclean|]. intros Hxl.
    destruct (log_writes_keys _ _ _ _ Hok Hxl) as (i & Hi' & ->). by eapply home_logged in Hx.
Qed.

(** The contents of the home blocks a crash after [k] writes must recover to. *)
Definition outcome_at (k : nat) (x : Z) : list Z := if (k <=? n)%nat then d_blocks d x else v x.

(** Recovery from any crash point: the header is well-formed, and replaying it gives
    the old contents everywhere or the new contents everywhere. *)
Lemma crash_recovers k lg0 :
  lg_start lg0 = lg_start lg -> lg_size lg0 = lg_size lg ->
  let dk := crash_disk lg v d k in
  header_ok lg0 dk (d_blocks dk (lg_start lg)) /\
  (forall x, home lg x ->
     d_blocks (apply_writes (recover_writes lg0 (d_blocks dk (lg_start lg)) (d_blocks dk)) dk) x = outcome_at k x).
Proof.
  intros Es Ez dk. set (data := d_blocks dk (lg_start lg)).
  assert (Hdz : d_size dk = d_size d) by apply apply_writes_size.
  assert (Hstart : forall x, home lg x -> x <> lg_start lg0).
  { intros x Hx ->. pose proof (lo_size _ _ Hok). pose proof (lo_n _ _ Hok). unfold home in Hx. lia. }
  assert (Hzero : lh_n data = 0 -> header_ok lg0 dk data /\
    forall x, home lg x -> d_blocks (apply_writes (recover_writes lg0 data (d_blocks dk)) dk) x = d_blocks dk x).
  { intros Hz. split.
    - constructor; rewrite ?Hz; try lia; [|rewrite Ez; pose proof (lo_size _ _ Hok); pose proof (lo_n _ _ Hok); lia].
      unfold LOGSIZE, MAXOPBLOCKS. lia.
    - intros x Hx. unfold recover_writes. rewrite Hz. simpl. by destruct (Z.eqb_spec x (lg_start lg0)) as [E|];
        [apply Hstart in Hx|]. }
  unfold outcome_at. destruct (Nat.leb_spec k n).
  - destruct (crash_before k) as [H1 H2]; [done|]. fold dk in H1, H2. destruct Hzero as [Hz1 Hz2].
    { unfold data. by rewrite H1. }
    split; [done|]. intros x Hx. rewrite Hz2 by done. by apply H2.
  - destruct (decide (k <= 2 * n + 1)%nat).
    2:{ destruct (crash_done k) as [H1 H2]; [lia|]. fold dk in H1, H2. destruct (Hzero H1) as [Hz1 Hz2].
        split; [done|]. intros x Hx. rewrite Hz2 by done. by apply H2. }
    destruct (crash_after k) as (H1 & H2 & H3); [lia|]. fold dk in H1, H2, H3. clear Hzero.
    destruct (hdr_ok lg d (v (lg_start lg)) Hok hdr_len) as (_ & Hn & Hb). rewrite <- H1 in Hn, Hb.
    fold data in Hn, Hb. split.
    + constructor; rewrite ?Hn; try apply Hok; rewrite ?Ez, ?Hdz; [apply Hok|..].
      * intros i Hi. rewrite Hb by done. unfold home. rewrite Es, Ez. by eapply lbn_ok.
      * intros i j Hi Hj. rewrite !Hb by done. by eapply lbn_inj.
    + intros x Hx. unfold recover_writes. rewrite apply_writes_blocks, see_writes_app. simpl.
      destruct (Z.eqb_spec x (lg_start lg0)) as [E|]; [by apply Hstart in Hx|]. rewrite Hn.
      assert (EI : ((fun i => (lh_block data (Z.of_nat i), d_blocks dk (logged lg0 i))) <$> range (lg_n lg)) =
                   install_writes lg v).
      { apply list_fmap_ext. intros j i Hi. apply list_elem_of_lookup_2, elem_of_seq in Hi.
        rewrite Hb by lia. replace (logged lg0 i) with (logged lg i) by (unfold logged; by rewrite Es).
        rewrite H2; [done|]. unfold n. lia. }
      rewrite EI. erewrite see_install by exact Hok. destruct (decide (x ∈ lblocks lg)); [done|by apply H3].
Qed.
End Crash.
End LogLemmas.
