(* ===== verification/LogTx.v ===== *)
(** Transactions: [log_write] with absorption, [begin_op] and [end_op], the space
    they reserve, and [initlog]; the crash theorem of the log. *)

From S2P Require Import Prelude Bytes Params State Spinlock Sched Sleeplock Bio Block Log.
From stdpp Require Import base list gmap strings.
From Stdlib Require Import ZArith Lia.
Local Open Scope Z_scope.
Local Open Scope km_scope.

(** The log after [log_write] of block [bn]. *)
Definition log_add (bn : Z) (lg : log_t) : log_t :=
  if bool_decide (bn ∈ lblocks lg) then lg
  else set_lg_n (lg_n lg + 1) (set_lg_block (store (lg_block lg) (lg_n lg) bn) lg).

Section Tx.
Context {WF : WaitFuel}.
Implicit Types (s : kernel) (pid bn : Z) (held : list nat) (D : list Z) (lg : log_t) (b : nat).

Lemma lblocks_add lg d bn :
  log_ok lg d -> lg_n lg < LOGSIZE ->
  lblocks (log_add bn lg) = if bool_decide (bn ∈ lblocks lg) then lblocks lg else lblocks lg ++ [bn].
Proof.
  intros Ho Hn. unfold log_add. case_bool_decide; [done|]. unfold lblocks, store. simpl.
  pose proof (lo_n _ _ Ho). pose proof (lo_len _ _ Ho) as Hlen.
  replace (Z.to_nat (lg_n lg + 1)) with (S (Z.to_nat (lg_n lg))) by lia.
  erewrite take_S_r by (apply list_lookup_insert_eq; rewrite Hlen; lia).
  by rewrite take_insert_ge by lia.
Qed.

Lemma elem_of_add lg d bn x :
  log_ok lg d -> lg_n lg < LOGSIZE -> x ∈ lblocks (log_add bn lg) <-> x ∈ lblocks lg \/ x = bn.
Proof.
  intros Ho Hn. erewrite lblocks_add by done. case_bool_decide; set_solver.
Qed.

Lemma log_add_ok lg d bn :
  log_ok lg d -> lg_n lg < LOGSIZE -> lg_n lg < lg_size lg - 1 -> 0 <= bn < d_size d -> home lg bn ->
  log_ok (log_add bn lg) d.
Proof.
  intros Ho Hn Hs Hb Hh. pose proof (lblocks_add lg d bn Ho Hn) as El.
  assert (Hx : forall x, x ∈ lblocks (log_add bn lg) -> 0 <= x < d_size d /\ home lg x).
  { intros x Hx. eapply elem_of_add in Hx; [|done|done]. destruct Hx as [Hx| ->]; [by apply Ho|done]. }
  assert (Hnd : NoDup (lblocks (log_add bn lg))).
  { rewrite El. case_bool_decide; [apply Ho|]. apply NoDup_app. split; [apply Ho|]. split; [set_solver|].
    apply NoDup_singleton. }
  unfold log_add in *. case_bool_decide; [done|].
  pose proof (lo_n _ _ Ho). constructor; simpl; try apply Ho; auto; try lia.
  unfold store. rewrite length_insert. apply Ho.
Qed.

(** The search of [log_write]. *)
Lemma log_write_find s lg d bn :
  log_ok lg d -> lg = k_log s -> 0 <= bn < 2 ^ 31 -> d_size d < 2 ^ 31 ->
  exists r, for_find (range (lg_n lg)) (fun i =>
      let! x := log_block_at (Z.of_nat i) in
      ret (if u32 x =? bn then Some (Z.of_nat i) else None)) s = Ret r s /\
    match r with
    | Some j => exists i, j = Z.of_nat i /\ (i < Z.to_nat (lg_n lg))%nat /\ lbn lg i = bn
    | None => bn ∉ lblocks lg
    end.
Proof.
  intros Ho -> Hb Hd.
  assert (G : forall l, (forall i, i ∈ l -> (i < Z.to_nat (lg_n (k_log s)))%nat) ->
    exists r, for_find l (fun i => let! x := log_block_at (Z.of_nat i) in
      ret (if u32 x =? bn then Some (Z.of_nat i) else None)) s = Ret r s /\
    match r with
    | Some j => exists i, j = Z.of_nat i /\ (i < Z.to_nat (lg_n (k_log s)))%nat /\ lbn (k_log s) i = bn
    | None => forall i, i ∈ l -> lbn (k_log s) i <> bn
    end).
  { induction l as [|i l IH]; intros Hl; cbn [for_find]; [exists None; split; [done|set_solver]|].
    pose proof (Hl i ltac:(set_solver)) as Hi. destruct (lbn_ok _ _ i Ho Hi) as (B1 & _ & B3 & _).
    erewrite bind_run; [|erewrite bind_run by (apply log_block_at_eq; exact B1); reflexivity].
    rewrite u32_small by lia. destruct (Z.eqb_spec (lbn (k_log s) i) bn) as [E|E].
    - exists (Some (Z.of_nat i)). split; [done|]. eauto.
    - destruct IH as (r & Er & Hr); [set_solver|]. exists r. split; [exact Er|].
      destruct r; [done|]. intros j Hj. apply elem_of_cons in Hj as [->|Hj]; auto. }
  destruct (G (range (lg_n (k_log s)))) as (r & Er & Hr).
  { intros i Hi. apply elem_of_seq in Hi. lia. }
  exists r. split; [done|]. destruct r; [done|]. intros Hin.
  destruct (lbn_surj _ _ _ Ho Hin) as (i & Hi & ->). apply (Hr i); [|done]. apply elem_of_seq. lia.
Qed.

Lemma log_write_eq s i c p pr b bn bp :
  let lg := k_log s in
  thread s i c p pr -> k_bufs s !! b = Some bp -> b_blockno bp = bn -> 
  log_ok lg (k_disk s) -> lg_n lg < LOGSIZE -> lg_n lg < lg_size lg - 1 -> 1 <= lg_outstanding lg ->
  0 <= bn < d_size (k_disk s) ->
  log_write b s = Ret tt (put_buf b (set_b_flags (Z.lor (b_flags bp) B_DIRTY) bp)
                            (set_k_log (log_add bn lg) s)).
Proof.
  intros lg Ht Hb Hbn Ho Hn Hs Hout Hr. pose proof (lo_area _ _ Ho) as Ha.
  unfold log_write. rewrite bind_gets. fold lg.
  destruct (Z.leb_spec LOGSIZE (lg_n lg)); [lia|]. destruct (Z.leb_spec (lg_size lg - 1) (lg_n lg)); [lia|].
  destruct (Z.ltb_spec (lg_outstanding lg) 1); [lia|]. simpl.
  erewrite bind_run by by eapply acquireth_eq. rewrite bind_gets. set (s1 := set_k_hw _ s).
  erewrite bind_run by (apply getbuf_eq; exact Hb). rewrite Hbn.
  destruct (log_write_find s1 lg (k_disk s) bn) as (r & Er & Hrr); [done|done|lia|lia|].
  erewrite bind_run by exact Er. cbv zeta. rewrite i32_small by lia.
  erewrite bind_run by apply updlog_eq.
  assert (E : (when (default (lg_n lg) r =? lg_n lg) (updlog (fun lg => set_lg_n (lg_n lg + 1) lg)))
       (set_k_log (set_lg_block (store (lg_block lg) (default (lg_n lg) r) bn) lg) s1) =
     Ret tt (set_k_log (log_add bn lg) s1)).
  { unfold log_add, when. destruct r as [j|]; simpl.
    - destruct Hrr as (k & -> & Hk & E). destruct (lbn_ok _ _ k Ho Hk) as (B1 & B2 & _).
      rewrite bool_decide_true by (by rewrite <- E). destruct (Z.eqb_spec (Z.of_nat k) (lg_n lg)); [lia|].
      unfold store. rewrite Nat2Z.id, list_insert_id by (by rewrite <- E). by destruct lg.
    - rewrite Z.eqb_refl, bool_decide_false by done. done. }
  erewrite bind_run by exact E.
  erewrite bind_run by (apply updbuf_eq; exact Hb).
  by erewrite releaseth_eq by done; destruct s.
Qed.

(** [log_write] pins the buffer, adds its block to the transaction unless it is
    already there, and changes nothing that can be read. *)
Record log_write_post pid held s b bn data s' : Prop := {
  lw_blk : blk pid held (lblocks (k_log s')) s';
  lw_step : fs_step s s';
  lw_hb : hb s' b bn data true;
  lw_view : forall x, view s' x = view s x;
  lw_disk : k_disk s' = k_disk s;
  lw_log : k_log s' = log_add bn (k_log s);
  lw_ok : log_ok (k_log s') (k_disk s');
  lw_keep : forall j x dj rel, j <> b -> hb s j x dj rel -> hb s' j x dj rel
}.

Lemma log_write_fs pid held s b bn data rel :
  let lg := k_log s in
  blk pid held (lblocks lg) s -> b ∈ held -> hb s b bn data rel ->
  log_ok lg (k_disk s) -> lg_n lg < LOGSIZE -> lg_n lg < lg_size lg - 1 -> 1 <= lg_outstanding lg ->
  0 <= bn < d_size (k_disk s) -> home lg bn ->
  exists s', log_write b s = Ret tt s' /\ log_write_post pid held s b bn data s'.
Proof.
  intros lg Hk Hin Hb Ho Hn Hs Hout Hr Hh.
  destruct (hb_holds _ _ _ _ _ _ _ _ Hk Hin Hb) as (bp & Hho & Hbn & Hd & Hv & _).
  pose proof (holds_buf_ok _ _ _ _ _ _ Hho) as Hbo. pose proof (ho_buf _ _ _ _ _ _ Hho) as Hbp.
  pose proof (lookup_lt_Some _ _ _ Hbp) as Hlt. pose proof (holds_dev _ _ _ _ _ _ Hho) as Hdev.
  destruct (bk_runs _ _ _ _ Hk) as (i & c & p & pr & Ht & Hpid).
  eexists. split; [eapply log_write_eq; eauto|]. rewrite <- Hbn in *. clear Hbn. fold lg.
  assert (Hf : Z.lor (b_flags bp) B_DIRTY = 6).
  { destruct (valid_flags bp (bo_flags _ _ _ _ _ _ _ Hbo)) as [Ev _]. rewrite Hv in Ev.
    destruct (bo_flags _ _ _ _ _ _ _ Hbo) as [E|[E|E]]; rewrite E in *; done. }
  rewrite Hf. set (s' := put_buf _ _ _).
  assert (Hel : forall x, x ∈ lblocks (log_add (b_blockno bp) lg) <-> x ∈ lblocks lg \/ x = b_blockno bp)
    by (intros x; by eapply elem_of_add).
  assert (Hh' : holds pid held (lblocks (log_add (b_blockno bp) lg)) s' b (set_b_flags 6 bp)).
  { replace s' with (set_k_log (log_add (b_blockno bp) lg)
      (set_k_disk (k_disk s) (put_buf b (set_b_flags 6 bp) s))) by (unfold s'; by destruct s).
    assert (Hx : holds pid held (lblocks (log_add (b_blockno bp) lg))
       (set_k_disk (k_disk s) (put_buf b (set_b_flags 6 bp) s)) b (set_b_flags 6 bp)).
    { eapply holds_set; eauto; simpl; try apply Hbo.
      - right; right. split; [done|]. apply Hel. auto.
      - intros x Hx _. apply Hel. auto.
      - apply Hho. }
    destruct Hx. by constructor. }
  assert (Hfs : fs_step s s') by (unfold s'; split; [by destruct s|done]).
  constructor; auto.
  - constructor; [by eapply fs_step_runs; [|apply Hk]|apply Hh'|].
    intros x Hx. apply Hel in Hx as [Hx| ->].
    + destruct (bk_pin _ _ _ _ Hk x Hx) as (j & bj & Hj & Hxj & Hfj).
      destruct (decide (j = b)) as [->|Hjb].
      * exists b, (set_b_flags 6 bp). split; [by apply list_lookup_insert_eq|]. by simplify_eq.
      * exists j, bj. simpl. by rewrite list_lookup_insert_ne.
    + exists b, (set_b_flags 6 bp). split; [by apply list_lookup_insert_eq|]. split; [|done].
      by apply b_is_true.
  - exists (set_b_flags 6 bp). split; [by apply list_lookup_insert_eq|]. simpl. rewrite Hd.
    split; [done|]. split; [done|]. split; [by right|done].
  - intros x. unfold s'. rewrite (view_put (set_k_log (log_add (b_blockno bp) lg) s) pid held (lblocks lg) b bp _
      (lblocks (log_add (b_blockno bp) lg)) held); try done; [|apply Hho|apply Hh'].
    destruct (Z.eqb_spec x (b_blockno bp)) as [->|]; [|done]. simpl. rewrite Hd. symmetry.
    by eapply hb_view.
  - simpl. by apply log_add_ok.
  - intros j x dj rj Hj (bj & Hbj & Hrest). exists bj. simpl. by rewrite list_lookup_insert_ne.
Qed.

(** ** [begin_op], [end_op] *)

Definition log_begin lg : log_t := set_lg_outstanding (lg_outstanding lg + 1) lg.
Definition log_leave lg : log_t := set_lg_outstanding (lg_outstanding lg - 1) lg.

Lemma begin_op_eq s i c p pr :
  thread s i c p pr -> must_wait (k_log s) = false ->
  begin_op s = Ret tt (set_k_log (log_begin (k_log s)) s).
Proof.
  intros Ht Hw. unfold begin_op. erewrite bind_run by by eapply acquireth_eq. set (s1 := set_k_hw _ s).
  rewrite (bind_run _ _ s1 tt s1) by (apply while_false; unfold gets; simpl; by rewrite Hw).
  erewrite bind_run by apply updlog_eq. by erewrite releaseth_eq by done; destruct s.
Qed.

(** A contended [begin_op] sleeps on the log. *)
Lemma begin_op_waits s i c p pr fuel :
  thread s i c p pr -> c_ncli c = 0 -> wait_fuel = S fuel -> must_wait (k_log s) = true ->
  exists s' k, begin_op s = Swtch s' k /\
    k_proc s' = <[p := asleep Ch_log pr]> (k_proc s) /\ k_log s' = k_log s.
Proof.
  intros Ht Hc Hf Hw. unfold begin_op. erewrite bind_run by by eapply acquireth_eq. set (s1 := set_k_hw _ s).
  rewrite Hf. eexists _, _. split.
  - eapply bind_swtch. erewrite while_true by (unfold gets; simpl; rewrite Hw; reflexivity).
    eapply bind_swtch. eapply (sleep_eq s1 (k_hw s) i c p pr); [apply Ht|done|apply Ht|done|..];
      [by eapply thread_free..|done|apply Ht].
  - done.
Qed.

Lemma end_op_more s i c p pr :
  thread s i c p pr -> lg_committing (k_log s) = 0 -> lg_outstanding (k_log s) <> 1 ->
  end_op s = Ret tt (set_k_log (log_leave (k_log s)) s).
Proof.
  intros Ht Hc Ho. unfold end_op. erewrite bind_run by by eapply acquireth_eq.
  erewrite bind_run by apply updlog_eq. rewrite bind_gets. cbn. rewrite Hc. simpl.
  destruct (Z.eqb_spec (lg_outstanding (k_log s) - 1) 0); [lia|].
  erewrite bind_run; [|erewrite bind_run by (by eapply (wakeup_locked _ s)); reflexivity].
  erewrite bind_run by by eapply releaseth_eq. unfold when, ret. simpl. by destruct s.
Qed.

(** The last [end_op] commits. *)
Lemma end_op_last s i c p pr s2 :
  thread s i c p pr -> lg_committing (k_log s) = 0 -> lg_outstanding (k_log s) = 1 ->
  commit (set_k_log (set_lg_committing 1 (log_leave (k_log s))) s) = Ret tt s2 ->
  thread s2 i c p pr ->
  end_op s = Ret tt (set_k_log (set_lg_committing 0 (k_log s2)) s2).
Proof.
  intros Ht Hc Ho Hcm Ht2. unfold end_op. erewrite bind_run by by eapply acquireth_eq.
  erewrite bind_run by apply updlog_eq. rewrite bind_gets. cbn. rewrite Hc. simpl. rewrite Ho. simpl.
  erewrite bind_run; [|erewrite bind_run by apply updlog_eq; reflexivity].
  erewrite bind_run by (by eapply (releaseth_eq _ s)). cbn [when].
  erewrite bind_run; [|etrans; [|exact Hcm]; f_equal; unfold log_leave; rewrite Ho; by destruct s].
  erewrite bind_run by by eapply acquireth_eq. erewrite bind_run by apply updlog_eq.
  erewrite bind_run by (by eapply (wakeup_locked _ s2)).
  by erewrite releaseth_eq by done; destruct s2.
Qed.

(** ** [initlog] *)

Lemma readsb_spec pid D s :
  blk pid [] D s -> (length D < bhead)%nat -> 1 < d_size (k_disk s) ->
  exists s', readsb 1 s = Ret (sb_decode (view s 1)) s' /\ blk pid [] D s' /\ fs_step s s' /\
    (forall x, view s' x = view s x) /\ k_disk s' = k_disk s /\ k_log s' = k_log s.
Proof.
  intros Hk HD Hd. destruct (bread_fs pid [] D s 1) as (b & s1 & E1 & [K1 S1 H1 _ V1 D1 L1 _]); auto;
    [set_solver|set_solver|by left|].
  destruct (getbuf_hb _ _ _ _ _ H1) as (bp & E2 & E2d & _).
  destruct (brelse_fs pid [b] [] D s1 b 1 (view s 1)) as (s2 & E3 & [K3 S3 V3 D3 L3 _]); auto.
  exists s2. unfold readsb. erewrite bind_run by exact E1. erewrite bind_run by exact E2. cbv zeta.
  erewrite bind_run by exact E3. rewrite E2d. split; [done|]. split; [done|]. split; [by etrans|].
  split; [intros x; rewrite V3; apply V1|]. split; congruence.
Qed.

Lemma initlog_spec pid s :
  let sb := sb_decode (d_blocks (k_disk s) 1) in
  let lg := set_lg_dev 1 (set_lg_size (sb_nlog sb) (set_lg_start (sb_logstart sb) (k_log s))) in
  let data := d_blocks (k_disk s) (lg_start lg) in
  blk pid [] [] s -> log_area lg (k_disk s) -> 1 < d_size (k_disk s) -> header_ok lg (k_disk s) data ->
  exists s', initlog 1 s = Ret tt s' /\ blk pid [] [] s' /\
    k_disk s' = apply_writes (recover_writes lg data (d_blocks (k_disk s))) (k_disk s) /\
    k_log s' = set_lg_n 0 (head_log data lg).
Proof.
  intros sb lg data Hk Ha Hd Hh. pose proof (la_area _ _ Ha) as Har. pose proof (la_size _ _ Ha) as Hsz.
  assert (HV : forall D s x, blk pid [] D s -> D = [] -> view s x = d_blocks (k_disk s) x).
  { intros D s' x Hk' ->. eapply view_clean; [done|set_solver]. }
  destruct (readsb_spec pid [] s Hk) as (s1 & E1 & K1 & S1 & V1 & D1 & L1); [by apply Nat.ltb_lt|done|].
  rewrite (HV [] s) in E1 by done. fold sb in E1.
  set (s2 := set_k_log lg s1).
  assert (K2 : blk pid [] [] s2) by by apply blk_log.
  assert (Hd2 : k_disk s2 = k_disk s) by exact D1.
  destruct (recover_spec pid s2) as (s3 & E3 & K3 & S3 & D3 & L3); auto.
  { by rewrite Hd2. } { rewrite (HV []), Hd2 by done. exact Hh. }
  exists s3. split.
  - unfold initlog. replace (BSIZE <=? 4 + 4 * LOGSIZE) with false by done.
    destruct (bk_runs _ _ _ _ Hk) as (i & c & p & pr & Ht & _).
    unfold initlock, sethw. rewrite bind_modify, putlock_zero by by eapply thread_free.
    rewrite set_hw_same. erewrite bind_run by exact E1. rewrite !(bind_run _ _ _ _ _ (updlog_eq _ _)). simpl.
    rewrite !i32_small by (unfold lg, sb in Har, Hsz; simpl in Har, Hsz; lia).
    replace (set_k_log _ _) with s2; [exact E3|]. unfold s2, lg, set_k_log. simpl. by rewrite L1.
  - split; [done|]. rewrite (HV [] s2), Hd2 in D3, L3 by done. split; [|done]. rewrite D3.
    f_equal. unfold recover_writes. f_equal. apply list_fmap_ext. intros j x _. by rewrite (HV [] s2), Hd2.
Qed.
End Tx.

(** * The space a transaction reserves

    A log and the number of blocks each active operation may still write. *)
Inductive tx_step : log_t * list nat -> log_t * list nat -> Prop :=
| tx_begin lg ops :
    must_wait lg = false -> tx_step (lg, ops) (log_begin lg, Z.to_nat MAXOPBLOCKS :: ops)
| tx_write lg l1 k l2 bn :
    tx_step (lg, l1 ++ S k :: l2) (log_add bn lg, l1 ++ k :: l2)
| tx_end lg l1 k l2 :
    lg_outstanding lg <> 1 -> tx_step (lg, l1 ++ k :: l2) (log_leave lg, l1 ++ l2)
| tx_end_last lg k :
    lg_outstanding lg = 1 -> tx_step (lg, [k]) (set_lg_committing 1 (log_leave lg), [])
| tx_commit lg :
    lg_committing lg = 1 -> tx_step (lg, []) (set_lg_committing 0 (set_lg_n 0 lg), []).

Inductive tx_reachable (lg0 : log_t) : log_t * list nat -> Prop :=
| txr_init : tx_reachable lg0 (lg0, [])
| txr_step x y : tx_reachable lg0 x -> tx_step x y -> tx_reachable lg0 y.

Definition log_idle (lg : log_t) : Prop := lg_n lg = 0 /\ lg_outstanding lg = 0 /\ lg_committing lg = 0.

Record tx_inv (lg0 : log_t) (x : log_t * list nat) : Prop := {
  ti_out : lg_outstanding x.1 = Z.of_nat (length x.2);
  ti_n : 0 <= lg_n x.1;
  ti_sum : lg_n x.1 + Z.of_nat (sum_list x.2) <= LOGSIZE;
  ti_ops : Forall (fun k => (k <= Z.to_nat MAXOPBLOCKS)%nat) x.2;
  ti_commit : lg_committing x.1 = 0 \/ lg_committing x.1 = 1 /\ x.2 = [];
  ti_area : lg_start x.1 = lg_start lg0 /\ lg_size x.1 = lg_size lg0
}.

Lemma sum_list_bound l m : Forall (fun k => (k <= m)%nat) l -> (sum_list l <= m * length l)%nat.
Proof. induction 1; simpl; lia. Qed.

Lemma log_add_fields bn lg :
  lg_outstanding (log_add bn lg) = lg_outstanding lg /\ lg_committing (log_add bn lg) = lg_committing lg /\
  lg_start (log_add bn lg) = lg_start lg /\ lg_size (log_add bn lg) = lg_size lg /\
  lg_n lg <= lg_n (log_add bn lg) <= lg_n lg + 1.
Proof. unfold log_add. case_bool_decide; simpl; lia. Qed.

Lemma tx_inv_step lg0 x y : tx_inv lg0 x -> tx_step x y -> tx_inv lg0 y.
Proof.
  intros [H1 H2 H3 H4 H5 H6] Hs. destruct Hs as [lg ops Hw|lg l1 k l2 bn|lg l1 k l2 Ho|lg k Ho|lg Hc]; simpl in *.
  - apply orb_false_iff in Hw as [Hw1 Hw2]. apply negb_false_iff, Z.eqb_eq in Hw1. apply Z.ltb_ge in Hw2.
    pose proof (sum_list_bound _ _ H4) as Hb. constructor; simpl; auto; try lia.
    unfold MAXOPBLOCKS in *. lia.
  - destruct (log_add_fields bn lg) as (E1 & E2 & E3 & E4 & E5). apply Forall_app in H4 as [F1 F2].
    inversion F2 as [|? ? Fk F3]; subst. rewrite length_app, sum_list_with_app in *. simpl in *.
    constructor; simpl; rewrite ?E1, ?E2, ?E3, ?E4; auto.
    + rewrite H1, length_app. done.
    + lia.
    + rewrite sum_list_with_app. simpl. lia.
    + apply Forall_app. split; [done|]. constructor; [lia|done].
    + destruct H5 as [|[_ H5]]; [auto|]. by destruct l1.
  - rewrite length_app, sum_list_with_app in *. simpl in *. apply Forall_app in H4 as [F1 F2].
    inversion F2; subst. constructor; simpl; auto; rewrite ?length_app, ?sum_list_with_app; try lia.
    + by apply Forall_app.
    + destruct H5 as [|[_ H5]]; [auto|]. by destruct l1.
  - constructor; simpl; auto; lia.
  - constructor; simpl; auto; lia.
Qed.

Lemma tx_inv_reachable lg0 x : log_idle lg0 -> tx_reachable lg0 x -> tx_inv lg0 x.
Proof.
  intros (I1 & I2 & I3) H. induction H; [|by eapply tx_inv_step].
  constructor; simpl; auto; try lia. rewrite I1. unfold LOGSIZE, MAXOPBLOCKS. lia.
Qed.

(** * One transaction from beginning to end *)

(** The typical use of [log_write] of the comment in [log.c]. *)
Definition update_tx {WF : WaitFuel} (bn : Z) (f : list Z -> list Z) : K unit :=
  begin_op ;;
  let! bp := bread 1 bn in
  updbuf bp (fun b => set_b_data (f (b_data b)) b) ;;
  log_write bp ;;
  brelse bp ;;
  end_op.

Section OneTx.
Context {WF : WaitFuel}.
Implicit Types (s : kernel) (pid bn : Z).

(** Up to [end_op]: the block is in the transaction and in the cache. *)
Lemma update_logged pid s bn (f : list Z -> list Z) :
  let lg := k_log s in
  blk pid [] [] s -> log_ok lg (k_disk s) -> lg_n lg = 0 -> 1 <= lg_outstanding lg -> 2 <= lg_size lg ->
  0 <= bn < d_size (k_disk s) -> home lg bn -> (forall l, length l = 512%nat -> length (f l) = 512%nat) ->
  exists s', (let! bp := bread 1 bn in
      updbuf bp (fun b => set_b_data (f (b_data b)) b) ;; log_write bp ;; brelse bp) s = Ret tt s' /\
    blk pid [] [bn] s' /\ fs_step s s' /\ k_disk s' = k_disk s /\ k_log s' = log_add bn lg /\
    forall x, view s' x = if x =? bn then f (view s bn) else view s x.
Proof.
  intros lg Hk Ho Hn Hout Hsz Hbn Hh Hf.
  assert (Hl0 : lblocks lg = []) by (unfold lblocks; by rewrite Hn).
  destruct (bread_fs pid [] [] s bn) as (b & s1 & E1 & [K1 S1 H1 _ V1 D1 L1 _]); auto;
    [set_solver|set_solver|left; by apply Nat.ltb_lt|lia|].
  erewrite bind_run by exact E1.
  assert (Hlen : length (view s bn) = 512%nat) by (eapply hb_len; eauto; set_solver).
  destruct (updbuf_fs pid [b] [] s1 b bn (view s bn) true (f (view s bn))
    (fun b => set_b_data (f (b_data b)) b)) as (s2 & E2 & [K2 S2 H2 V2 D2 L2 _]); auto;
    [set_solver|by intros bp ->|].
  erewrite bind_run by exact E2. rewrite L1 in L2. fold lg in L2.
  destruct (log_write_fs pid [b] s2 b bn (f (view s bn)) false) as (s3 & E3 & [K3 S3 H3 V3 D3 L3 O3 _]);
    rewrite ?L2, ?D2, ?D1, ?Hl0; auto; rewrite ?Hn; try done; [set_solver|lia|].
  erewrite bind_run by exact E3. rewrite L2 in L3. rewrite L3 in K3.
  assert (Hl1 : lblocks (log_add bn lg) = [bn]).
  { erewrite lblocks_add by (eauto; rewrite Hn; done). rewrite Hl0. by rewrite bool_decide_false by set_solver. }
  rewrite Hl1 in K3.
  destruct (brelse_fs pid [b] [] [bn] s3 b bn (f (view s bn))) as (s4 & E4 & [K4 S4 V4 D4 L4 _]); auto.
  exists s4. split; [done|]. split; [done|]. split.
  { etrans; [exact S1|]. etrans; [exact S2|]. by etrans. }
  split; [congruence|]. split; [congruence|]. intros x. rewrite V4, V3, V2. destruct (x =? bn); [done|apply V1].
Qed.

Lemma runs_thread pid s : runs pid s -> exists i c p pr, thread s i c p pr /\ p_pid pr = pid.
Proof. done. Qed.

Lemma commit_one pid s bn data :
  blk pid [] [bn] s -> log_ok (k_log s) (k_disk s) -> lblocks (k_log s) = [bn] -> lg_n (k_log s) = 1 ->
  view s bn = data ->
  exists s', commit s = Ret tt s' /\ committed pid s s' /\ d_blocks (k_disk s') bn = data /\
    forall x, home (k_log s) x -> x <> bn -> d_blocks (k_disk s') x = d_blocks (k_disk s) x.
Proof.
  intros Hk Ho Hl Hn Hv. destruct (commit_spec pid s) as (s' & E & Hc); [by rewrite Hl|done|rewrite Hn; split; by apply Nat.ltb_lt|].
  exists s'. split; [done|]. split; [done|].
  assert (Hd : forall x, x ∉ lblocks (k_log s) -> view s x = d_blocks (k_disk s) x).
  { intros x Hx. rewrite Hl in Hx. by eapply view_clean. }
  pose proof (commit_writes_length (k_log s) (view s)) as Hlen. rewrite Hn in Hlen. simpl in Hlen.
  pose proof (cm_disk _ _ _ Hc) as Hdisk.
  destruct (crash_done (k_log s) (k_disk s) (view s) Ho Hd) with (k := 4%nat) as [_ H2].
  { apply (bc_disk _ _ _ _ _ _ (bk_ok _ _ _ _ Hk)). } { rewrite Hn. simpl. lia. }
  unfold crash_disk in H2. rewrite take_ge in H2 by lia. rewrite <- Hdisk in H2. split.
  - rewrite H2; [done|]. apply (lo_home _ _ Ho). rewrite Hl. set_solver.
  - intros x Hx Hne. rewrite H2 by done. apply Hd. rewrite Hl. set_solver.
Qed.
End OneTx.

(** * A small file system image: the layout of [mkfs.c], everything else zero *)
Definition sb_bytes : list Z :=
  le_enc 4 1000 ++ le_enc 4 941 ++ le_enc 4 200 ++ le_enc 4 30 ++ le_enc 4 2 ++ le_enc 4 32 ++ le_enc 4 58 ++
  replicate 484 0.
Definition disk_demo : disk_t := mkDisk (fun x => if x =? 1 then sb_bytes else zero_block) 1000 [].
Definition log_demo : log_t := mkLog 2 30 0 0 1 0 (replicate 30 0).
Definition kernel_demo : kernel := set_k_log log_demo (set_k_disk disk_demo kernel_run).

Lemma disk_demo_len bn : length (d_blocks disk_demo bn) = 512%nat.
Proof. simpl. by destruct (bn =? 1). Qed.

Lemma log_demo_ok : log_ok log_demo disk_demo.
Proof. constructor; simpl; try done; try lia; [|constructor]. intros bn Hb. inversion Hb. Qed.

(** The demo machine with one block (number 100, all bytes [c]) in the transaction. *)
Lemma demo_logged `{WaitFuel} (c : Z) :
  exists s, blk 1 [] [100] s /\ k_log s = log_add 100 (log_begin log_demo) /\ k_disk s = disk_demo /\
    forall x, view s x = if x =? 100 then replicate 512 c else d_blocks disk_demo x.
Proof.
  destruct (boot_demo disk_demo (log_begin log_demo) disk_demo_len) as (B & _ & Hk).
  set (s0 := set_k_bufs B _) in *.
  destruct (update_logged 1 s0 100 (fun _ => replicate 512 c)) as (s & _ & K & _ & D & L & V); auto;
    try (simpl; unfold home; simpl; lia); try done.
  { destruct log_demo_ok. by constructor. }
  exists s. split; [done|]. split; [done|]. split; [done|]. intros x. rewrite V.
  destruct (x =? 100); [done|]. by erewrite view_clean by (eauto; by apply not_elem_of_nil).
Qed.

(** * Theorems *)

(** A machine that has just booted from disk [d]: an empty cache, the log in
    zero-initialised storage. *)
Record booted (pid : Z) (d : disk_t) (s : kernel) : Prop := {
  bt_blk : blk pid [] [] s;
  bt_disk : k_disk s = d;
  bt_log : length (lg_block (k_log s)) = Z.to_nat LOGSIZE
}.

(** C1: crash atomicity of [commit]. From any state with a transaction of at most 29
    blocks in the cache and an empty log on the disk, [commit] returns, and the blocks
    it writes are [commit_writes] in this order; whatever the number [k] of writes done
    when the machine crashes, the next boot's [initlog] returns, empties the log, and
    leaves every block outside the log area with its contents from before the
    transaction (if the header had not been written) or with its contents of the whole
    transaction (otherwise). *)
Theorem log_crash_atomic {WF : WaitFuel} (pid pid0 : Z) (s s0 : kernel) (k : nat) :
  let lg := k_log s in let d := k_disk s in
  blk pid [] (lblocks lg) s -> log_ok lg d -> 0 < lg_n lg < NBUF ->
  lh_n (d_blocks d (lg_start lg)) = 0 ->
  1 < lg_start lg -> 1 ∉ lblocks lg ->
  sb_logstart (sb_decode (d_blocks d 1)) = lg_start lg -> sb_nlog (sb_decode (d_blocks d 1)) = lg_size lg ->
  booted pid0 (apply_writes (take k (commit_writes lg (view s))) d) s0 ->
  (exists s', commit s = Ret tt s' /\ k_disk s' = apply_writes (commit_writes lg (view s)) d /\ lg_n (k_log s') = 0) /\
  exists s1, initlog 1 s0 = Ret tt s1 /\ blk pid0 [] [] s1 /\ lg_n (k_log s1) = 0 /\
    forall x, home lg x ->
      d_blocks (k_disk s1) x = if (k <=? Z.to_nat (lg_n lg))%nat then d_blocks d x else view s x.
Proof.
  intros lg d Hk Ho Hn He H1 H1n Hst Hsz [Bk Bd Bl].
  assert (Hclean : forall x, x ∉ lblocks lg -> view s x = d_blocks d x)
    by (intros x Hx; by eapply view_clean).
  assert (Hlen : forall x, length (d_blocks d x) = 512%nat) by apply (bk_ok _ _ _ _ Hk).
  split.
  { destruct (commit_spec pid s Hk Ho) as (s' & E & Hc); [fold lg; unfold bhead; lia|].
    exists s'. split; [done|]. split; [apply Hc|]. by rewrite (cm_log _ _ _ Hc). }
  fold (crash_disk lg (view s) d k) in Bd. pose proof (lo_area _ _ Ho) as Ha. pose proof (lo_size _ _ Ho) as Hs.
  set (lg0 := set_lg_dev 1 (set_lg_size (lg_size lg) (set_lg_start (lg_start lg) (k_log s0)))).
  destruct (crash_recovers lg d (view s) Ho Hclean He Hlen k lg0) as [Hh Hr]; [done|done|].
  rewrite <- Bd in Hh, Hr.
  assert (Hsb : d_blocks (k_disk s0) 1 = d_blocks d 1).
  { rewrite Bd. assert (home lg 1) by (left; lia).
    destruct (decide (k <= Z.to_nat (lg_n lg))%nat).
    - by apply (crash_before lg d (view s) Ho).
    - destruct (decide (k <= 2 * Z.to_nat (lg_n lg) + 1)%nat).
      + rewrite <- Hclean by done. apply (crash_after lg d (view s) Ho Hclean); [lia|done|done].
      + rewrite <- Hclean by done. apply (crash_done lg d (view s) Ho Hclean Hlen); [lia|done]. }
  destruct (initlog_spec pid0 s0) as (s1 & E1 & K1 & D1 & L1); rewrite ?Hsb, ?Hst, ?Hsz; auto.
  - constructor; simpl; auto; [|lia]. rewrite Bd. unfold crash_disk. rewrite apply_writes_size. exact Ha.
  - rewrite Bd. unfold crash_disk. rewrite apply_writes_size. fold d in Ha. lia.
  - exists s1. rewrite Hsb, Hst, Hsz in D1, L1. split; [done|]. split; [done|]. split; [by rewrite L1|].
    intros x Hx. rewrite D1. exact (Hr x Hx).
Qed.

Lemma log_crash_atomic_witness :
  exists (s s0 s1 : kernel), @initlog 0%nat 1 s0 = Ret tt s1 /\
    k_disk s0 = apply_writes (take 2 (commit_writes (k_log s) (view s))) disk_demo /\
    d_blocks (k_disk s1) 100 = replicate 512 7.
Proof.
  destruct (@demo_logged 0%nat 7) as (s & K & L & D & V).
  destruct (@boot_demo 0%nat (apply_writes (take 2 (commit_writes (k_log s) (view s))) disk_demo) log_demo) as (B & _ & Hb).
  { intros bn. rewrite L. rewrite apply_writes_blocks. cbn [commit_writes take]. simpl.
    rewrite !V. simpl. repeat (destruct (bn =? _); [done|]). done. }
  set (s0 := set_k_bufs B _) in *.
  destruct (@log_crash_atomic 0%nat 1 1 s s0 2) as (_ & s1 & E1 & _ & _ & H1); rewrite ?L, ?D; try done.
  - apply log_add_ok; [destruct log_demo_ok; by constructor|done|done|done|right; simpl; lia].
  - intros Hin. by apply list_elem_of_singleton in Hin.
  - constructor; [exact Hb|unfold s0; cbn [k_disk set_k_bufs set_k_log set_k_disk]; by rewrite L|done].
  - exists s, s0, s1. split; [done|]. split; [done|]. rewrite H1; [|rewrite L; right; simpl; lia].
    rewrite L. simpl. by rewrite V.
Defined.





(** Writing [l], within the budget of one operation. *)
Lemma tx_writes lg0 lg l1 l2 k l :
  tx_reachable lg0 (lg, l1 ++ (length l + k)%nat :: l2) ->
  tx_reachable lg0 (fold_left (fun g bn => log_add bn g) l lg, l1 ++ k :: l2).
Proof.
  revert lg. induction l as [|bn l IH]; intros lg H; [done|]. simpl. apply IH.
  eapply txr_step; [exact H|]. apply tx_write.
Qed.

(** Three operations; the first two have written ten blocks each, the third nine. *)
Definition gap_log : log_t :=
  fold_left (fun g bn => log_add bn g) ((fun i => 100 + Z.of_nat i) <$> seq 20 9)
    (fold_left (fun g bn => log_add bn g) ((fun i => 100 + Z.of_nat i) <$> seq 10 10)
      (fold_left (fun g bn => log_add bn g) ((fun i => 100 + Z.of_nat i) <$> seq 0 10)
        (log_begin (log_begin (log_begin log_demo))))).

Lemma gap_reachable : tx_reachable log_demo (gap_log, [0; 0; 1]%nat).
Proof.
  unfold gap_log. apply (tx_writes _ _ [0; 0]%nat [] 1).
  apply (tx_writes _ _ [0%nat] [10%nat] 0). apply (tx_writes _ _ [] [10; 10]%nat 0).
  do 3 (eapply txr_step; [|by apply tx_begin]). apply txr_init.
Qed.

Lemma gap_fields : lg_n gap_log = 29 /\ lg_size gap_log = 30.
Proof. split; vm_compute; reflexivity. Qed.

(** C37: the reservation of [begin_op] and the guard of [log_write] disagree by one for
    the log [mkfs] creates ([sb.nlog = LOGSIZE], header included): three operations are
    admitted, and one of them, still within its budget of [MAXOPBLOCKS] blocks, makes
    [log_write] panic. *)
Theorem log_reservation_gap :
  exists lg ops k, tx_reachable log_demo (lg, ops) /\ S k ∈ ops /\
    forall s b, k_log s = lg -> log_write b s = Panic "too big a transaction" s.
Proof.
  exists gap_log, [0; 0; 1]%nat, 0%nat. split; [apply gap_reachable|]. split; [set_solver|].
  intros s b Hs. unfold log_write. rewrite bind_gets, Hs. destruct gap_fields as [-> ->]. done.
Qed.
