(* ===== verification/Fs.v ===== *)
(** The file system [fs.c]: block allocator, inodes, file contents, directories and
    path names. The definitions; their lemmas are in the files that follow.

    A [char*] that the code only reads as a string is the list of its bytes up to the
    NUL; [readi] returns the bytes it copies to [dst], [writei] takes the bytes at
    [src]. *)

From S2P Require Import Prelude Bytes Params State Spinlock Cprintf Sched Sleeplock Bio Block Log.
From stdpp Require Import base list gmap strings.
From Stdlib Require Import ZArith Lia.
Local Open Scope Z_scope.
Local Open Scope km_scope.

(** [devsw[major].read] and [.write], [None] for a null pointer. *)
Class Devsw : Type := {
  devsw_read : Z -> option (nat -> Z -> K (Z * list Z));
  devsw_write : Z -> option (nat -> list Z -> Z -> K Z)
}.

(** [struct stat] (stat.h) *)
Record stat_t : Type := mkStat {
  st_type : Z; st_dev : Z; st_ino : Z; st_nlink : Z; st_size : Z; st_cid : Z
}.

(** * Strings *)

(** [p[i]], reading NUL at and after the end. *)
Definition char_at (l : list Z) (i : nat) : Z := default 0 (l !! i).

(** [strncmp] on strings. *)
Fixpoint lstrncmp (p q : list Z) (n : nat) : Z :=
  match n with
  | O => 0
  | S n' => if negb (char_at p 0 =? 0) && (char_at p 0 =? char_at q 0)
            then lstrncmp (drop 1 p) (drop 1 q) n' else char_at p 0 - char_at q 0
  end.

Definition namecmp (s t : list Z) : Z := lstrncmp s t (Z.to_nat DIRSIZ).

(** [strncpy(de.name, name, DIRSIZ)]: the bytes stored. *)
Fixpoint lstrncpy (t : list Z) (n : nat) : list Z :=
  match n with
  | O => []
  | S n' => if char_at t 0 =? 0 then replicate n 0 else char_at t 0 :: lstrncpy (drop 1 t) n'
  end.

Definition SLASH : Z := 47.

(** [while( *path == '/') path++] *)
Fixpoint skip_slashes (path : list Z) : list Z :=
  match path with
  | c :: path' => if c =? SLASH then skip_slashes path' else path
  | [] => []
  end.

(** [while( *path != '/' && *path != 0) path++]: the element and what follows. *)
Fixpoint take_elem (path : list Z) : list Z * list Z :=
  match path with
  | c :: path' => if c =? SLASH then ([], path)
                  else let (e, r) := take_elem path' in (c :: e, r)
  | [] => ([], [])
  end.

(** [skipelem(path, name)]: the rest of the path and the new contents of [name]. *)
Definition skipelem (path name : list Z) : option (list Z * list Z) :=
  let path := skip_slashes path in
  match path with
  | [] => None
  | _ =>
      let (s, path) := take_elem path in
      let len := length s in
      let name := if Z.of_nat len >=? DIRSIZ then take (Z.to_nat DIRSIZ) s
                  else s ++ [0] ++ drop (S len) name in
      Some (skip_slashes path, name)
  end.

(** * On-disk inodes *)

Definition dinode_off (inum : Z) : Z := inum mod IPB * DINODE_SIZE.
Definition IBLOCK (i : Z) (sb : superblock) : Z := u32 (i / IPB + sb_inodestart sb).
Definition BBLOCK (b : Z) (sb : superblock) : Z := u32 (b / BPB + sb_bmapstart sb).

Definition dip_type (data : list Z) (o : Z) : Z := i16 (rd16 data o).

(** [memset(dip, 0, sizeof *dip); dip->type = type] *)
Definition dinode_clear (data : list Z) (o type : Z) : list Z :=
  wr16 (splice data o (replicate (Z.to_nat DINODE_SIZE) 0)) o type.

(** [ip->addrs] as it lies in a dinode. *)
Definition enc_addrs (a : list Z) : list Z := mjoin (le_enc 4 <$> a).
Definition dec_addrs (data : list Z) (o : Z) : list Z :=
  (fun i => rd32 data (o + 12 + 4 * Z.of_nat i)) <$> seq 0 (Z.to_nat (NDIRECT + 1)).

(** The stores of [iupdate]. *)
Definition dinode_store (data : list Z) (o : Z) (ip : inode) : list Z :=
  let data := wr16 data o (i_type ip) in
  let data := wr16 data (o + 2) (i_major ip) in
  let data := wr16 data (o + 4) (i_minor ip) in
  let data := wr16 data (o + 6) (i_nlink ip) in
  let data := wr32 data (o + 8) (i_size ip) in
  splice data (o + 12) (enc_addrs (i_addrs ip)).

(** The loads of [ilock]. *)
Definition dinode_load (data : list Z) (o : Z) (ip : inode) : inode :=
  let ip := set_i_type (i16 (rd16 data o)) ip in
  let ip := set_i_major (i16 (rd16 data (o + 2))) ip in
  let ip := set_i_minor (i16 (rd16 data (o + 4))) ip in
  let ip := set_i_nlink (i16 (rd16 data (o + 6))) ip in
  let ip := set_i_size (rd32 data (o + 8)) ip in
  set_i_addrs (dec_addrs data o) ip.

Section Fs.
Context {WF : WaitFuel} {DS : Devsw}.

(** * Blocks *)

Definition bzero (dev bno : Z) : K unit :=
  let! bp := bread dev (u32 bno) in
  updbuf bp (set_b_data (replicate (Z.to_nat BSIZE) 0)) ;;
  log_write bp ;;
  brelse bp.

(** [bp->data[bi/8] & m], [bp->data[bi/8] |= m], [bp->data[bi/8] &= ~m] *)
Definition bit_mask (bi : Z) : Z := Z.shiftl 1 (bi mod 8).
Definition bit_test (data : list Z) (bi : Z) : Z := Z.land (char_at data (Z.to_nat (bi / 8))) (bit_mask bi).
Definition bit_set (data : list Z) (bi : Z) : list Z :=
  <[Z.to_nat (bi / 8) := Z.lor (char_at data (Z.to_nat (bi / 8))) (bit_mask bi)]> data.
Definition bit_clear (data : list Z) (bi : Z) : list Z :=
  <[Z.to_nat (bi / 8) := Z.land (char_at data (Z.to_nat (bi / 8))) (255 - bit_mask bi)]> data.

(** The inner loop of [balloc], over the bits of one bitmap block. *)
Definition balloc_block (dev b : Z) (bp : nat) (size : Z) : K (option Z) :=
  for_find (range (Z.min BPB (size - b))) (fun bi =>
    let bi := Z.of_nat bi in
    let! d := getbuf bp in
    if bit_test (b_data d) bi =? 0 then
      updbuf bp (fun d => set_b_data (bit_set (b_data d) bi) d) ;;
      log_write bp ;;
      brelse bp ;;
      bzero dev (b + bi) ;;
      ret (Some (b + bi))
    else ret None).

Definition balloc (dev : Z) : K Z :=
  let! sb := gets k_sb in
  let! r := for_find (range ((sb_size sb + BPB - 1) / BPB)) (fun j =>
    let b := Z.of_nat j * BPB in
    let! bp := bread dev (BBLOCK b sb) in
    let! r := balloc_block dev b bp (sb_size sb) in
    match r with
    | Some x => ret (Some x)
    | None => brelse bp ;; ret None
    end) in
  match r with
  | Some x => ret x
  | None => panic "balloc: out of blocks"
  end.

Definition bfree (dev b : Z) : K unit :=
  let! sb := readsb dev in
  modify (set_k_sb sb) ;;
  let! bp := bread dev (BBLOCK b sb) in
  let bi := b mod BPB in
  let! d := getbuf bp in
  if bit_test (b_data d) bi =? 0 then panic "freeing free block" else
  updbuf bp (fun d => set_b_data (bit_clear (b_data d) bi) d) ;;
  log_write bp ;;
  brelse bp.

(** * Inodes *)

Definition iinit (dev : Z) : K unit :=
  initlock L_icache ;;
  for_each (range NINODE) (fun i => initsleeplock (SL_inode i)) ;;
  let! sb := readsb dev in
  modify (set_k_sb sb) ;;
  cprintf (str "sb: size %d nblocks %d ninodes %d nlog %d logstart %d inodestart %d bmap start %d" ++ [NL])
    [A_int (sb_size sb); A_int (sb_nblocks sb); A_int (sb_ninodes sb); A_int (sb_nlog sb);
     A_int (sb_logstart sb); A_int (sb_inodestart sb); A_int (sb_bmapstart sb)].

(** The loop of [iget]: the entry for [(dev, inum)], or else the first free one. *)
Fixpoint iget_scan (l : list nat) (empty : option nat) (dev inum : Z) : K (sum nat (option nat)) :=
  match l with
  | [] => ret (inr empty)
  | ip :: l' =>
      let! i := getinode ip in
      if (0 <? i_ref i) && (i_dev i =? dev) && (i_inum i =? inum) then ret (inl ip)
      else iget_scan l' (match empty with
                         | Some e => Some e
                         | None => if i_ref i =? 0 then Some ip else None
                         end) dev inum
  end.

Definition iget (dev inum : Z) : K nat :=
  acquire L_icache ;;
  let! r := iget_scan (range NINODE) None dev inum in
  match r with
  | inl ip =>
      updinode ip (fun i => set_i_ref (i_ref i + 1) i) ;;
      release L_icache ;;
      ret ip
  | inr None => panic "iget: no inodes"
  | inr (Some ip) =>
      updinode ip (set_i_dev dev) ;;
      updinode ip (set_i_inum inum) ;;
      updinode ip (set_i_ref 1) ;;
      updinode ip (set_i_valid 0) ;;
      release L_icache ;;
      ret ip
  end.

Definition ialloc (dev type : Z) : K nat :=
  let! sb := gets k_sb in
  let! r := for_find (drop 1 (range (sb_ninodes sb))) (fun inum =>
    let inum := Z.of_nat inum in
    let! bp := bread dev (IBLOCK inum sb) in
    let! d := getbuf bp in
    if dip_type (b_data d) (dinode_off inum) =? 0 then
      updbuf bp (fun d => set_b_data (dinode_clear (b_data d) (dinode_off inum) type) d) ;;
      log_write bp ;;
      brelse bp ;;
      let! ip := iget dev inum in
      ret (Some ip)
    else brelse bp ;; ret None) in
  match r with
  | Some ip => ret ip
  | None => panic "ialloc: no inodes"
  end.

Definition iupdate (ip : nat) : K unit :=
  let! i := getinode ip in
  let! sb := gets k_sb in
  let! bp := bread (i_dev i) (IBLOCK (i_inum i) sb) in
  let! i := getinode ip in
  updbuf bp (fun d => set_b_data (dinode_store (b_data d) (dinode_off (i_inum i)) i) d) ;;
  log_write bp ;;
  brelse bp.

Definition idup (ip : nat) : K nat :=
  acquire L_icache ;;
  updinode ip (fun i => set_i_ref (i_ref i + 1) i) ;;
  release L_icache ;;
  ret ip.

Definition ilock (oip : option nat) : K unit :=
  match oip with
  | None => panic "ilock"
  | Some ip =>
      let! i := getinode ip in
      if i_ref i <? 1 then panic "ilock" else
      acquiresleep (SL_inode ip) ;;
      let! i := getinode ip in
      if i_valid i =? 0 then
        let! sb := gets k_sb in
        let! bp := bread (i_dev i) (IBLOCK (i_inum i) sb) in
        let! d := getbuf bp in
        updinode ip (dinode_load (b_data d) (dinode_off (i_inum i))) ;;
        brelse bp ;;
        updinode ip (set_i_valid 1) ;;
        let! i := getinode ip in
        if i_type i =? 0 then panic "ilock: no type" else ret tt
      else ret tt
  end.

Definition iunlock (oip : option nat) : K unit :=
  match oip with
  | None => panic "iunlock"
  | Some ip =>
      let! h := holdingsleep (SL_inode ip) in
      let! i := getinode ip in
      if negb h || (i_ref i <? 1) then panic "iunlock" else
      releasesleep (SL_inode ip)
  end.

(** The two loops of [itrunc]. *)
Definition itrunc (ip : nat) : K unit :=
  for_each (range NDIRECT) (fun k =>
    let! i := getinode ip in
    let! a := index "ip->addrs" (i_addrs i) (Z.of_nat k) in
    when (negb (a =? 0))
      (bfree (i_dev i) a ;;
       updinode ip (fun i => set_i_addrs (store (i_addrs i) (Z.of_nat k) 0) i))) ;;
  let! i := getinode ip in
  let! a := index "ip->addrs" (i_addrs i) NDIRECT in
  when (negb (a =? 0))
    (let! bp := bread (i_dev i) a in
     for_each (range NINDIRECT) (fun j =>
       let! d := getbuf bp in
       let x := rd32 (b_data d) (4 * Z.of_nat j) in
       when (negb (x =? 0)) (bfree (i_dev i) x)) ;;
     brelse bp ;;
     bfree (i_dev i) a ;;
     updinode ip (fun i => set_i_addrs (store (i_addrs i) NDIRECT 0) i)) ;;
  updinode ip (set_i_size 0) ;;
  iupdate ip.

Definition iput (ip : nat) : K unit :=
  acquiresleep (SL_inode ip) ;;
  let! i := getinode ip in
  when (negb (i_valid i =? 0) && (i_nlink i =? 0))
    (acquire L_icache ;;
     let! i := getinode ip in
     let r := i_ref i in
     release L_icache ;;
     when (r =? 1)
       (itrunc ip ;;
        updinode ip (set_i_type 0) ;;
        iupdate ip ;;
        updinode ip (set_i_valid 0))) ;;
  releasesleep (SL_inode ip) ;;
  acquire L_icache ;;
  updinode ip (fun i => set_i_ref (i_ref i - 1) i) ;;
  release L_icache.

Definition iunlockput (ip : nat) : K unit :=
  iunlock (Some ip) ;;
  iput ip.

(** * Contents *)

Definition bmap (ip : nat) (bn : Z) : K Z :=
  let! i := getinode ip in
  if bn <? NDIRECT then
    let! addr := index "ip->addrs" (i_addrs i) bn in
    if addr =? 0 then
      let! addr := balloc (i_dev i) in
      updinode ip (fun i => set_i_addrs (store (i_addrs i) bn addr) i) ;;
      ret addr
    else ret addr
  else
    let bn := bn - NDIRECT in
    if bn <? NINDIRECT then
      let! addr := index "ip->addrs" (i_addrs i) NDIRECT in
      let! addr := (if addr =? 0 then
                      let! addr := balloc (i_dev i) in
                      updinode ip (fun i => set_i_addrs (store (i_addrs i) NDIRECT addr) i) ;;
                      ret addr
                    else ret addr) in
      let! bp := bread (i_dev i) addr in
      let! d := getbuf bp in
      let addr := rd32 (b_data d) (4 * bn) in
      let! addr := (if addr =? 0 then
                      let! addr := balloc (i_dev i) in
                      updbuf bp (fun d => set_b_data (wr32 (b_data d) (4 * bn) addr) d) ;;
                      log_write bp ;;
                      ret addr
                    else ret addr) in
      brelse bp ;;
      ret addr
    else panic "bmap: out of range".

Definition stati (ip : nat) (cid : Z) : K stat_t :=
  let! i := getinode ip in
  ret (mkStat (i_type i) (i_dev i) (i_inum i) (i_nlink i) (i_size i) cid).

(** [min(n - tot, BSIZE - off%BSIZE)] *)
Definition chunk (left off : Z) : Z := Z.min left (BSIZE - off mod BSIZE).

(** The loop of [readi]: [left = n - tot]; at least one byte per round. *)
Fixpoint readi_loop (fuel : nat) (ip : nat) (off left : Z) : K (list Z) :=
  if left <=? 0 then ret [] else
  match fuel with
  | O => nofuel
  | S fuel =>
      let! i := getinode ip in
      let! bno := bmap ip (off / BSIZE) in
      let! bp := bread (i_dev i) bno in
      let m := chunk left off in
      let! d := getbuf bp in
      let bytes := slice (b_data d) (off mod BSIZE) m in
      brelse bp ;;
      let! rest := readi_loop fuel ip (off + m) (left - m) in
      ret (bytes ++ rest)
  end.

(** A run of [n] bytes touches at most [n / BSIZE + 2] blocks. *)
Definition io_fuel (n : Z) : nat := Z.to_nat (n / BSIZE + 2).

Definition readi (ip : nat) (off n : Z) : K (Z * list Z) :=
  let! i := getinode ip in
  if i_type i =? T_DEV then
    if (i_major i <? 0) || (NDEV <=? i_major i) then ret (-1, []) else
    match devsw_read (i_major i) with
    | None => ret (-1, [])
    | Some f => f ip n
    end
  else
  if (i_size i <? off) || (u32 (off + n) <? off) then ret (-1, []) else
  let n := if i_size i <? u32 (off + n) then i_size i - off else n in
  let! bytes := readi_loop (io_fuel n) ip off n in
  ret (n, bytes).

(** The loop of [writei]; it returns the final [off]. *)
Fixpoint writei_loop (fuel : nat) (ip : nat) (src : list Z) (off left : Z) : K Z :=
  if left <=? 0 then ret off else
  match fuel with
  | O => nofuel
  | S fuel =>
      let! i := getinode ip in
      let! bno := bmap ip (off / BSIZE) in
      let! bp := bread (i_dev i) bno in
      let m := chunk left off in
      updbuf bp (fun d => set_b_data (splice (b_data d) (off mod BSIZE) (take (Z.to_nat m) src)) d) ;;
      log_write bp ;;
      brelse bp ;;
      writei_loop fuel ip (drop (Z.to_nat m) src) (off + m) (left - m)
  end.

Definition writei (ip : nat) (src : list Z) (off n : Z) : K Z :=
  let! i := getinode ip in
  if i_type i =? T_DEV then
    if (i_major i <? 0) || (NDEV <=? i_major i) then ret (-1) else
    match devsw_write (i_major i) with
    | None => ret (-1)
    | Some f => f ip src n
    end
  else
  if (i_size i <? off) || (u32 (off + n) <? off) then ret (-1) else
  if MAXFILE * BSIZE <? u32 (off + n) then ret (-1) else
  let! off := writei_loop (io_fuel n) ip src off n in
  let! i := getinode ip in
  when ((0 <? n) && (i_size i <? off))
    (updinode ip (set_i_size off) ;;
     iupdate ip) ;;
  ret n.

(** * Directories *)

Definition de_inum (de : list Z) : Z := rd16 de 0.
Definition de_name (de : list Z) : list Z := drop 2 de.

(** The loop of [dirlookup]: the inode number and offset of the entry. *)
Definition dirlookup_scan (dp : nat) (name : list Z) (size : Z) : K (option (Z * Z)) :=
  for_find (range ((size + DIRENT_SIZE - 1) / DIRENT_SIZE)) (fun k =>
    let off := Z.of_nat k * DIRENT_SIZE in
    let! r := readi dp off DIRENT_SIZE in
    if negb (r.1 =? DIRENT_SIZE) then panic "dirlookup read" else
    if de_inum r.2 =? 0 then ret None else
    ret (if namecmp name (de_name r.2) =? 0 then Some (de_inum r.2, off) else None)).

(** The result carries the offset that the code stores in [*poff]. *)
Definition dirlookup (dp : nat) (name : list Z) : K (option (nat * Z)) :=
  let! d := getinode dp in
  if negb (i_type d =? T_DIR) then panic "dirlookup not DIR" else
  let! r := dirlookup_scan dp name (i_size d) in
  match r with
  | None => ret None
  | Some (inum, off) => let! ip := iget (i_dev d) inum in ret (Some (ip, off))
  end.

(** The offset of the first empty entry, or the end. *)
Definition dirlink_slot (dp : nat) (size : Z) : K Z :=
  let! r := for_find (range ((size + DIRENT_SIZE - 1) / DIRENT_SIZE)) (fun k =>
    let off := Z.of_nat k * DIRENT_SIZE in
    let! r := readi dp off DIRENT_SIZE in
    if negb (r.1 =? DIRENT_SIZE) then panic "dirlink read" else
    ret (if de_inum r.2 =? 0 then Some off else None)) in
  ret (default ((size + DIRENT_SIZE - 1) / DIRENT_SIZE * DIRENT_SIZE) r).

Definition dirent_bytes (name : list Z) (inum : Z) : list Z :=
  le_enc 2 inum ++ lstrncpy name (Z.to_nat DIRSIZ).

Definition dirlink (dp : nat) (name : list Z) (inum : Z) : K Z :=
  let! r := dirlookup dp name in
  match r with
  | Some (ip, _) => iput ip ;; ret (-1)
  | None =>
      let! d := getinode dp in
      let! off := dirlink_slot dp (i_size d) in
      let! w := writei dp (dirent_bytes name inum) off DIRENT_SIZE in
      if negb (w =? DIRENT_SIZE) then panic "dirlink" else ret 0
  end.

(** * Paths *)

(** The loop of [namex]; every round removes an element from [path]. *)
Fixpoint namex_loop (fuel : nat) (ip : nat) (path name : list Z) (nameiparent : bool) :
    K (option nat * list Z) :=
  match skipelem path name with
  | None =>
      if nameiparent then iput ip ;; ret (None, name) else ret (Some ip, name)
  | Some (path, name) =>
      match fuel with
      | O => nofuel
      | S fuel =>
          ilock (Some ip) ;;
          let! i := getinode ip in
          if negb (i_type i =? T_DIR) then iunlockput ip ;; ret (None, name) else
          if nameiparent && (char_at path 0 =? 0) then iunlock (Some ip) ;; ret (Some ip, name) else
          let! next := dirlookup ip name in
          match next with
          | None => iunlockput ip ;; ret (None, name)
          | Some (next, _) => iunlockput ip ;; namex_loop fuel next path name nameiparent
          end
      end
  end.

(** The result is the inode and the contents of [name]. *)
Definition namex (path : list Z) (nameiparent : bool) (name : list Z) : K (option nat * list Z) :=
  let! ip := (if char_at path 0 =? SLASH then iget ROOTDEV ROOTINO
              else let! op := myproc in
                   let! p := nonnull "myproc()->cwd" op in
                   let! pr := getproc p in
                   let! cwd := nonnull "idup(0)" (p_cwd pr) in
                   idup cwd) in
  namex_loop (length path) ip path name nameiparent.

(** [name] is an uninitialised local array. *)
Definition namei (path : list Z) : K (option nat) :=
  let! r := namex path false (replicate (Z.to_nat DIRSIZ) 0) in ret r.1.

Definition nameiparent (path name : list Z) : K (option nat * list Z) := namex path true name.
End Fs.

(** * The bits of the block bitmap *)
Section Bits.
Implicit Types (data : list Z) (i j : Z).

Lemma land_pow2 x k : 0 <= k -> (Z.land x (2 ^ k) =? 0) = negb (Z.testbit x k).
Proof.
  intros Hk. destruct (Z.testbit x k) eqn:E; cbn.
  - apply Z.eqb_neq. intros H. assert (Hb : Z.testbit (Z.land x (2 ^ k)) k = true) by
      (rewrite Z.land_spec, E, Z.pow2_bits_true by done; done). by rewrite H, Z.bits_0 in Hb.
  - apply Z.eqb_eq, Z.bits_inj'. intros n Hn. rewrite Z.land_spec, Z.bits_0, Z.pow2_bits_eqb by done.
    destruct (Z.eqb_spec k n) as [<-|]; [by rewrite E|apply andb_false_r].
Qed.

Lemma rd32_rep0 n o : rd32 (replicate n 0) o = 0.
Proof.
  unfold rd32, slice. rewrite drop_replicate, take_replicate. set (k := (_ `min` _)%nat).
  induction k as [|k IH]; cbn [replicate Bytes.le_dec]; [done|]. rewrite IH. lia.
Qed.

Lemma bit_test_spec data i : 0 <= i -> (bit_test data i =? 0) = negb (Z.testbit (char_at data (Z.to_nat (i / 8))) (i mod 8)).
Proof.
  intros Hi. unfold bit_test, bit_mask. pose proof (Z.mod_pos_bound i 8). rewrite Z.shiftl_1_l. apply land_pow2. lia.
Qed.

Lemma bit_set_length data i : length (bit_set data i) = length data.
Proof. apply length_insert. Qed.

Lemma bit_set_test data i j :
  0 <= i < 8 * Z.of_nat (length data) -> 0 <= j ->
  (bit_test (bit_set data i) j =? 0) = negb (i =? j) && (bit_test data j =? 0).
Proof.
  intros Hi Hj. rewrite !bit_test_spec by done. pose proof (Z.mod_pos_bound i 8 ltac:(lia)) as Mi. pose proof (Z.mod_pos_bound j 8 ltac:(lia)) as Mj.
  pose proof (Z.div_mod i 8 ltac:(lia)) as Di. pose proof (Z.div_mod j 8 ltac:(lia)) as Dj.
  pose proof (Z.div_pos i 8 ltac:(lia) ltac:(lia)). pose proof (Z.div_pos j 8 ltac:(lia) ltac:(lia)).
  unfold bit_set, bit_mask, char_at. destruct (decide (i / 8 = j / 8)) as [E|E].
  - rewrite <- E. rewrite list_lookup_insert_eq by lia. cbn [from_option id].
    rewrite Z.shiftl_1_l, Z.lor_spec, Z.pow2_bits_eqb by lia.
    destruct (Z.eqb_spec (i mod 8) (j mod 8)), (Z.eqb_spec i j); try lia; rewrite ?orb_true_r, ?orb_false_r; done.
  - rewrite list_lookup_insert_ne by lia. by rewrite (proj2 (Z.eqb_neq i j)) by (intros ->; done).
Qed.
End Bits.

(** * On-disk inodes: what is stored is what is loaded *)
Section Dinode.
Implicit Types (l data : list Z) (ip : inode).

Lemma enc_addrs_cons x l : enc_addrs (x :: l) = le_enc 4 x ++ enc_addrs l.
Proof. done. Qed.

Lemma enc_addrs_length l : length (enc_addrs l) = (4 * length l)%nat.
Proof.
  induction l as [|x l IH]; [done|]. rewrite enc_addrs_cons, length_app, IH, le_enc_length. cbn [length]. lia.
Qed.

Lemma slice_enc_addrs l i x : l !! i = Some x -> slice (enc_addrs l) (4 * Z.of_nat i) 4 = le_enc 4 x.
Proof.
  revert i. induction l as [|y l IH]; intros [|i] H; try done; rewrite enc_addrs_cons.
  - injection H as ->. done.
  - rewrite <- (IH i H). unfold slice. replace (Z.to_nat (4 * Z.of_nat (S i))) with (4 + Z.to_nat (4 * Z.of_nat i))%nat by lia.
    rewrite <- drop_drop. by rewrite drop_app_length' by (by rewrite le_enc_length).
Qed.

(** The addresses behind a dinode's header. *)
Lemma dec_enc_addrs data o l :
  length l = Z.to_nat (NDIRECT + 1) -> Forall (fun a => 0 <= a < 2 ^ 32) l ->
  0 <= o -> o + DINODE_SIZE <= Z.of_nat (length data) ->
  dec_addrs (splice data (o + 12) (enc_addrs l)) o = l.
Proof.
  intros Hl Hr Ho Hlen. unfold dec_addrs. apply list_eq. intros i. rewrite list_lookup_fmap.
  change (Z.to_nat (NDIRECT + 1)) with 13%nat in *. unfold DINODE_SIZE in Hlen.
  destruct (decide (i < 13)%nat) as [Hi|Hi].
  - rewrite lookup_seq_lt by done. cbn. destruct (lookup_lt_is_Some_2 l i) as [x Hx]; [lia|]. rewrite Hx. f_equal.
    unfold rd32. rewrite slice_splice_in by (rewrite ?enc_addrs_length; lia).
    rewrite (slice_enc_addrs l i x Hx), le_dec_enc. rewrite Forall_lookup in Hr. apply Z.mod_small. by apply (Hr i).
  - rewrite lookup_ge_None_2 by (rewrite length_seq; lia). by rewrite lookup_ge_None_2 by lia.
Qed.

(** The header of a dinode as one piece. *)
Definition enc_inode (ip : inode) : list Z :=
  le_enc 2 (i_type ip) ++ le_enc 2 (i_major ip) ++ le_enc 2 (i_minor ip) ++ le_enc 2 (i_nlink ip) ++
  le_enc 4 (i_size ip) ++ enc_addrs (i_addrs ip).

(** Adjacent pieces written one after the other. *)
Lemma splice_app data o o2 d1 d2 :
  0 <= o -> o2 = o + Z.of_nat (length d1) -> o2 + Z.of_nat (length d2) <= Z.of_nat (length data) ->
  splice (splice data o d1) o2 d2 = splice data o (d1 ++ d2).
Proof.
  intros Ho -> Hlen.
  assert (L1 : length (splice data o d1) = length data) by (apply splice_length; lia).
  apply list_eq. intros i. destruct (decide (i < Z.to_nat o)%nat); [|destruct (decide (i < Z.to_nat o + length d1)%nat);
    [|destruct (decide (i < Z.to_nat o + length d1 + length d2)%nat)]].
  - rewrite !splice_lookup_out by (rewrite ?length_app; lia). done.
  - rewrite (splice_lookup_out (splice data o d1)) by lia. replace i with (Z.to_nat o + (i - Z.to_nat o))%nat by lia.
    rewrite !splice_lookup_in by (rewrite ?length_app; lia). by rewrite lookup_app_l by lia.
  - replace i with (Z.to_nat (o + Z.of_nat (length d1)) + (i - Z.to_nat o - length d1))%nat at 1 by lia.
    rewrite splice_lookup_in by lia. replace i with (Z.to_nat o + (i - Z.to_nat o))%nat at 2 by lia.
    rewrite splice_lookup_in by (rewrite ?length_app; lia). rewrite lookup_app_r by lia. done.
  - rewrite !splice_lookup_out by (rewrite ?length_app; lia). done.
Qed.

Lemma enc_inode_length ip :
  length (i_addrs ip) = Z.to_nat (NDIRECT + 1) -> length (enc_inode ip) = Z.to_nat DINODE_SIZE.
Proof. intros H. unfold enc_inode. rewrite !length_app, !le_enc_length, enc_addrs_length, H. done. Qed.

(** The stores of [iupdate] write the dinode as one piece. *)
Lemma dinode_store_eq data o ip :
  length (i_addrs ip) = Z.to_nat (NDIRECT + 1) -> 0 <= o -> o + DINODE_SIZE <= Z.of_nat (length data) ->
  dinode_store data o ip = splice data o (enc_inode ip).
Proof.
  intros Hl Ho Hlen. unfold dinode_store, wr16, wr32, enc_inode, DINODE_SIZE in *. change (Z.to_nat (NDIRECT + 1)) with 13%nat in Hl.
  pose proof (enc_addrs_length (i_addrs ip)) as La. rewrite Hl in La.
  do 5 (rewrite (splice_app data); [|lia|rewrite ?length_app, ?le_enc_length; lia|rewrite ?le_enc_length, ?La; lia]).
  by rewrite <- !app_assoc.
Qed.

(** Reading inside a piece that has been written. *)
Lemma rd16_splice data o e k :
  0 <= o -> o + Z.of_nat (length e) <= Z.of_nat (length data) -> 0 <= k -> k + 2 <= Z.of_nat (length e) ->
  rd16 (splice data o e) (o + k) = Bytes.le_dec (slice e k 2).
Proof. intros. unfold rd16. by rewrite slice_splice_in by lia. Qed.

Lemma rd32_splice data o e k :
  0 <= o -> o + Z.of_nat (length e) <= Z.of_nat (length data) -> 0 <= k -> k + 4 <= Z.of_nat (length e) ->
  rd32 (splice data o e) (o + k) = Bytes.le_dec (slice e k 4).
Proof. intros. unfold rd32. by rewrite slice_splice_in by lia. Qed.

Lemma le_dec2 x : Bytes.le_dec (le_enc 2 x) = u16 x.
Proof. exact (le_dec_enc 2 x). Qed.
Lemma le_dec4 x : Bytes.le_dec (le_enc 4 x) = u32 x.
Proof. exact (le_dec_enc 4 x). Qed.

Lemma i16_u16 x : i16 (u16 x) = i16 x.
Proof. unfold i16, u16, signed. by rewrite Z.mod_mod by lia. Qed.

Lemma slice_app_r (a b : list Z) k n : 0 <= k -> slice (a ++ b) (Z.of_nat (length a) + k) n = slice b k n.
Proof.
  intros Hk. unfold slice. rewrite Z2Nat.inj_add, Nat2Z.id by lia. rewrite <- drop_drop.
  by rewrite drop_app_length.
Qed.

(** What a dinode written as one piece reads as. *)
Lemma dec_addrs_piece data o (h : list Z) l :
  length h = 12%nat -> length l = Z.to_nat (NDIRECT + 1) -> Forall (fun a => 0 <= a < 2 ^ 32) l ->
  0 <= o -> o + DINODE_SIZE <= Z.of_nat (length data) -> dec_addrs (splice data o (h ++ enc_addrs l)) o = l.
Proof.
  intros Hh Hl Hr Ho Hlen. rewrite <- (splice_app data o (o + 12) h (enc_addrs l)).
  - apply dec_enc_addrs; [done|done|done|]. rewrite splice_length; [done|lia|unfold DINODE_SIZE in *; lia].
  - lia.
  - lia.
  - rewrite enc_addrs_length, Hl. unfold DINODE_SIZE in *. change (Z.to_nat (NDIRECT + 1)) with 13%nat. lia.
Qed.

Lemma dinode_load_store data o ip ip0 :
  length (i_addrs ip) = Z.to_nat (NDIRECT + 1) -> Forall (fun a => 0 <= a < 2 ^ 32) (i_addrs ip) ->
  0 <= o -> o + DINODE_SIZE <= Z.of_nat (length data) ->
  let r := dinode_load (dinode_store data o ip) o ip0 in
  i_type r = i16 (i_type ip) /\ i_major r = i16 (i_major ip) /\ i_minor r = i16 (i_minor ip) /\
  i_nlink r = i16 (i_nlink ip) /\ i_size r = u32 (i_size ip) /\ i_addrs r = i_addrs ip.
Proof.
  intros Hl Hr Ho Hlen r. unfold r. rewrite dinode_store_eq by done. pose proof (enc_inode_length ip Hl) as Le.
  change (Z.to_nat DINODE_SIZE) with 64%nat in Le. unfold DINODE_SIZE in *. cbn [dinode_load i_type i_major i_minor i_nlink i_size i_addrs
    set_i_type set_i_major set_i_minor set_i_nlink set_i_size set_i_addrs].
  rewrite <- (Z.add_0_r o) at 2. rewrite !rd16_splice, rd32_splice by (rewrite ?Le; lia).
  change (slice (enc_inode ip) 0 2) with (le_enc 2 (i_type ip)). change (slice (enc_inode ip) 2 2) with (le_enc 2 (i_major ip)).
  change (slice (enc_inode ip) 4 2) with (le_enc 2 (i_minor ip)). change (slice (enc_inode ip) 6 2) with (le_enc 2 (i_nlink ip)).
  change (slice (enc_inode ip) 8 4) with (le_enc 4 (i_size ip)).
  rewrite !le_dec2, le_dec4, !i16_u16. split_and!; try done.
  unfold enc_inode. rewrite !app_assoc. apply dec_addrs_piece; [|done|done|lia|unfold DINODE_SIZE; lia].
  by rewrite !length_app, !le_enc_length.
Qed.

(** Another dinode of the block. *)
Lemma dinode_load_other data o o' e ip0 :
  0 <= o -> o + DINODE_SIZE <= Z.of_nat (length data) -> Z.of_nat (length e) = DINODE_SIZE -> 0 <= o' ->
  o' + DINODE_SIZE <= o \/ o + DINODE_SIZE <= o' ->
  dinode_load (splice data o e) o' ip0 = dinode_load data o' ip0 /\ dec_addrs (splice data o e) o' = dec_addrs data o'.
Proof.
  intros Ho Hlen Le Ho' Hd. unfold DINODE_SIZE in *.
  assert (R16 : forall k, 0 <= k <= 62 -> rd16 (splice data o e) (o' + k) = rd16 data (o' + k)).
  { intros k Hk. unfold rd16. f_equal. apply slice_splice_ne; lia. }
  assert (R32 : forall k, 0 <= k <= 60 -> rd32 (splice data o e) (o' + k) = rd32 data (o' + k)).
  { intros k Hk. unfold rd32. f_equal. apply slice_splice_ne; lia. }
  assert (Da : dec_addrs (splice data o e) o' = dec_addrs data o').
  { unfold dec_addrs. apply list_fmap_ext. intros i x Hx. apply lookup_seq in Hx as [-> Hx].
    change (Z.to_nat (NDIRECT + 1)) with 13%nat in Hx. rewrite <- !Z.add_assoc. apply R32. lia. }
  split; [|done]. pose proof (R16 0 ltac:(lia)) as R0. rewrite Z.add_0_r in R0.
  unfold dinode_load. by rewrite Da, R0, !R16, !R32 by lia.
Qed.
End Dinode.

(** C29: The inode that [iupdate] stores in its slot of an inode block is the one [ilock] loads
    from it, field by field and with all its block addresses; the other inodes of the block
    read as before. *)
Theorem dinode_roundtrip data inum inum' ip ip0 :
  Z.of_nat (length data) = BSIZE -> length (i_addrs ip) = Z.to_nat (NDIRECT + 1) ->
  Forall (fun a => 0 <= a < 2 ^ 32) (i_addrs ip) ->
  - 2 ^ 15 <= i_type ip < 2 ^ 15 -> - 2 ^ 15 <= i_major ip < 2 ^ 15 -> - 2 ^ 15 <= i_minor ip < 2 ^ 15 ->
  - 2 ^ 15 <= i_nlink ip < 2 ^ 15 -> 0 <= i_size ip < 2 ^ 32 ->
  inum mod IPB <> inum' mod IPB ->
  let data' := dinode_store data (dinode_off inum) ip in
  let r := dinode_load data' (dinode_off inum) ip0 in
  (i_type r = i_type ip /\ i_major r = i_major ip /\ i_minor r = i_minor ip /\ i_nlink r = i_nlink ip /\
   i_size r = i_size ip /\ i_addrs r = i_addrs ip) /\
  dinode_load data' (dinode_off inum') ip0 = dinode_load data (dinode_off inum') ip0.
Proof.
  intros Hlen Hl Ha Ht Hm1 Hm2 Hn Hs Hne data' r. unfold BSIZE in Hlen.
  pose proof (Z.mod_pos_bound inum IPB ltac:(done)). pose proof (Z.mod_pos_bound inum' IPB ltac:(done)).
  change IPB with 8 in *. assert (Ho : 0 <= dinode_off inum /\ dinode_off inum + DINODE_SIZE <= Z.of_nat (length data)).
  { unfold dinode_off, DINODE_SIZE. change IPB with 8. lia. }
  split.
  - destruct (dinode_load_store data (dinode_off inum) ip ip0 Hl Ha (proj1 Ho) (proj2 Ho)) as (E1 & E2 & E3 & E4 & E5 & E6).
    unfold r, data'. rewrite E1, E2, E3, E4, E5, E6. rewrite !i16_small, u32_small by done. done.
  - unfold data'. rewrite dinode_store_eq by (try done; apply Ho). apply dinode_load_other; [apply Ho|apply Ho| | |].
    + rewrite enc_inode_length by done. done.
    + unfold dinode_off, DINODE_SIZE. change IPB with 8. lia.
    + unfold dinode_off, DINODE_SIZE. change IPB with 8. lia.
Qed.

Lemma dinode_roundtrip_witness :
  i_size (dinode_load (dinode_store (replicate 512 0) (dinode_off 9) (set_i_size 700 (set_i_type 2 inode0)))
            (dinode_off 9) inode0) = 700.
Proof.
  destruct (dinode_roundtrip (replicate 512 0) 9 10 (set_i_size 700 (set_i_type 2 inode0)) inode0)
    as [(_ & _ & _ & _ & H & _) _].
  - reflexivity.
  - reflexivity.
  - apply (bool_decide_unpack _). vm_compute. exact I.
  - cbn. lia.
  - cbn. lia.
  - cbn. lia.
  - cbn. lia.
  - cbn. lia.
  - discriminate.
  - exact H.
Defined.
