(* ===== verification/Inode.v ===== *)
(** File contents: [balloc], [bmap], [readi] and [writei] of [fs.c] inside a transaction,
    over the contents of the blocks as the buffer cache shows them ([view]). *)

From S2P Require Import Prelude Bytes Params State Spinlock Sched Sleeplock Bio Block Log LogTx Fs.
From stdpp Require Import base list gmap sets strings.
From Stdlib Require Import ZArith Lia.
Local Open Scope Z_scope.
Local Open Scope km_scope.

(** * Inside a transaction *)

(** The thread holds the buffers [H] (with their blocks), and [n] more blocks may be logged. *)
Record tx (pid : Z) (H : list (nat * Z)) (n : Z) (s : kernel) : Prop := {
  tx_blk : blk pid H.*1 (lblocks (k_log s)) s;
  tx_held : forall b bn, (b, bn) ∈ H -> hb s b bn (view s bn) true;
  tx_log : log_ok (k_log s) (k_disk s);
  tx_out : 1 <= lg_outstanding (k_log s);
  tx_room : lg_n (k_log s) + n <= lg_size (k_log s) - 1 /\ lg_n (k_log s) + n + 2 <= NBUF
}.

Definition same_area (lg lg' : log_t) : Prop :=
  lg_start lg' = lg_start lg /\ lg_size lg' = lg_size lg /\ lg_outstanding lg' = lg_outstanding lg.

(** What the block layer changes within a transaction. *)
Record tstep (s s' : kernel) : Prop := {
  ts_fs : fs_step s s';
  ts_disk : k_disk s' = k_disk s;
  ts_area : same_area (k_log s) (k_log s')
}.

#[export] Instance tstep_preorder : PreOrder tstep.
Proof.
  split.
  - intros s. by constructor.
  - intros s1 s2 s3 [A1 B1 (C1 & C1' & C1'')] [A2 B2 (C2 & C2' & C2'')]. constructor; [by etrans|congruence|]. split_and!; congruence.
Qed.

Section Blocks.
Context {WF : WaitFuel}.
Implicit Types (s : kernel) (pid bn : Z) (H : list (nat * Z)) (b : nat).

Lemma tx_len pid H n s : tx pid H n s -> length (lblocks (k_log s)) = Z.to_nat (lg_n (k_log s)).
Proof. intros Ht. eapply lblocks_length, Ht. Qed.

Lemma tx_weaken pid H n n' s : tx pid H n s -> n' <= n -> tx pid H n' s.
Proof. intros [] ?. constructor; auto. lia. Qed.

Lemma tx_bread pid H n s bn :
  tx pid H n s -> 0 <= n -> bn ∉ H.*2 -> bn < d_size (k_disk s) -> (length H <= 1)%nat ->
  exists b s', bread 1 bn s = Ret b s' /\ tx pid ((b, bn) :: H) n s' /\ tstep s s' /\ (forall x, view s' x = view s x) /\
    (b ∉ H.*1) /\ hb s' b bn (view s bn) true.
Proof.
  intros Ht Hn Hbn Hd Hl. pose proof Ht as [Hk Hh Ho Hout Hroom].
  assert (Huse : forall j, j ∈ H.*1 -> exists x, (j, x) ∈ H) by (intros j [[j' x] [-> Hx]]%list_elem_of_fmap; eauto).
  destruct (bread_fs pid H.*1 _ s bn Hk) as (b & s' & E & [K1 S1 H1 N1 V1 D1 L1 P1]).
  - intros j x data rel Hj Hx. destruct (Huse j Hj) as [x' Hx']. pose proof (Hh _ _ Hx') as Hx2. intros ->. apply Hbn.
    destruct Hx as (bp & Hb & <- & _), Hx2 as (bp' & Hb' & <- & _). simplify_eq. apply list_elem_of_fmap. by exists (j, b_blockno bp).
  - intros j Hj. destruct (Huse j Hj) as [x Hx]. eauto.
  - left. rewrite length_fmap, (tx_len _ _ _ _ Ht). change bhead with 30%nat. unfold NBUF, MAXOPBLOCKS in *. pose proof (lo_n _ _ Ho). lia.
  - lia.
  - exists b, s'. split; [done|]. split.
    + constructor; rewrite ?L1, ?D1; auto. intros j x [E'|Hx]%elem_of_cons; [injection E' as -> ->; by rewrite V1|].
      rewrite V1. apply P1; [|auto]. apply list_elem_of_fmap. by exists (j, x).
    + split; [constructor; auto; by rewrite L1|]. auto.
Qed.

Lemma tx_relse pid H n s b bn :
  tx pid ((b, bn) :: H) n s -> b ∉ H.*1 ->
  exists s', brelse b s = Ret tt s' /\ tx pid H n s' /\ tstep s s' /\ (forall x, view s' x = view s x).
Proof.
  intros [Hk Hh Ho Hout Hroom] Hb. destruct (brelse_fs pid _ H.*1 _ s b bn (view s bn) Hk) as (s' & E & [K1 S1 V1 D1 L1 P1]).
  - apply Hh. set_solver.
  - done.
  - exists s'. split; [done|]. split; [|split; [constructor; auto; by rewrite L1|done]].
    constructor; rewrite ?L1, ?D1; auto. intros j x Hx. rewrite V1. apply P1; [|apply Hh; set_solver].
    intros ->. apply Hb. apply list_elem_of_fmap. by exists (b, x).
Qed.

(** A store into the held buffer, logged. *)
Lemma tx_store pid H n s b bn f data' :
  tx pid ((b, bn) :: H) (n + 1) s -> 0 <= n -> 0 <= bn < d_size (k_disk s) -> home (k_log s) bn -> b ∉ H.*1 -> bn ∉ H.*2 ->
  (forall bp, b_data bp = view s bn -> f bp = set_b_data data' bp) -> length data' = 512%nat ->
  exists s1 s', updbuf b f s = Ret tt s1 /\ log_write b s1 = Ret tt s' /\ tx pid ((b, bn) :: H) n s' /\ tstep s s' /\
    (forall x, view s' x = if x =? bn then data' else view s x).
Proof.
  intros Ht Hn Hbn Hhome Hb Hbn2 Hf Hlen. pose proof Ht as [Hk Hh Ho Hout Hroom].
  destruct (updbuf_fs pid _ _ s b bn (view s bn) true data' f Hk) as (s1 & E1 & [K1 S1 H1 V1 D1 L1 P1]);
    [set_solver|apply Hh; set_solver|done|done|].
  destruct (log_write_fs pid (b :: H.*1) s1 b bn data' false) as (s' & E2 & [K2 S2 H2 V2 D2 L2 O2 P2]);
    rewrite ?L1, ?D1; auto; [set_solver|unfold NBUF, LOGSIZE, MAXOPBLOCKS in *; lia|lia|].
  assert (Harea : same_area (k_log s) (k_log s') /\ lg_n (k_log s') <= lg_n (k_log s) + 1).
  { rewrite L2, L1. unfold log_add. case_bool_decide; simpl; (split; [done|lia]). }
  destruct Harea as [(A1 & A2 & A3) A4].
  exists s1, s'. split; [done|]. split; [done|]. split; [|split].
  - constructor; rewrite ?A1, ?A2, ?A3; auto; [|lia]. intros j x [E|Hx]%elem_of_cons.
    + injection E as -> ->. rewrite V2, V1, Z.eqb_refl. exact H2.
    + assert (Hjb : j <> b) by (intros ->; apply Hb, list_elem_of_fmap; by exists (b, x)).
      assert (x <> bn) by (intros ->; apply Hbn2, list_elem_of_fmap; by exists (j, bn)).
      rewrite V2, V1, (proj2 (Z.eqb_neq x bn)) by done. apply P2, P1; auto. apply Hh. set_solver.
  - constructor; [by etrans|congruence|done].
  - intros x. rewrite V2, V1. done.
Qed.
End Blocks.

(** * The layout of the disk and the block bitmap *)

Definition data_start (sb : superblock) : Z := sb_bmapstart sb + (sb_size sb - 1) / BPB + 1.

(** Log, inode blocks, bitmap and data blocks follow one another. *)
Record layout (sb : superblock) (lg : log_t) (d : disk_t) : Prop := {
  ly_size : 0 < sb_size sb <= d_size d;
  ly_data : data_start sb <= sb_size sb;
  ly_log : 0 <= lg_start lg /\ 0 <= lg_size lg /\ lg_start lg + lg_size lg <= sb_inodestart sb;
  ly_ino : 0 <= sb_ninodes sb /\ sb_inodestart sb + sb_ninodes sb / IPB < sb_bmapstart sb;
  ly_max : d_size d < 2 ^ 31
}.

Definition is_free (V : Z -> list Z) (sb : superblock) (b : Z) : bool := bit_test (V (BBLOCK b sb)) (b mod BPB) =? 0.

(** At least [n] blocks are free. *)
Definition has_free (V : Z -> list Z) (sb : superblock) (n : Z) : Prop :=
  exists F : gset Z, n <= Z.of_nat (size F) /\ forall y, y ∈ F -> 0 <= y < sb_size sb /\ is_free V sb y = true.

(** The blocks before the data are marked in use. *)
Definition meta_used (V : Z -> list Z) (sb : superblock) : Prop :=
  forall b, 0 <= b < data_start sb -> is_free V sb b = false.

(** [balloc] took block [x]. *)
Definition allocated (sb : superblock) (x : Z) (V V' : Z -> list Z) : Prop :=
  forall y, V' y = if y =? x then replicate 512 0
                   else if y =? BBLOCK x sb then bit_set (V y) (x mod BPB) else V y.

Section Bitmap.
Implicit Types (V : Z -> list Z) (sb : superblock) (x y b : Z).

Lemma layout_step sb s s' :
  layout sb (k_log s) (k_disk s) -> tstep s s' -> layout sb (k_log s') (k_disk s').
Proof. intros [] [_ Ed (E1 & E2 & E3)]. constructor; rewrite ?Ed, ?E1, ?E2; done. Qed.

Lemma BBLOCK_range sb lg d b :
  layout sb lg d -> 0 <= b < sb_size sb -> sb_bmapstart sb <= BBLOCK b sb < data_start sb /\ BBLOCK b sb = b / BPB + sb_bmapstart sb.
Proof.
  intros [L1 L2 L3 L4 L5] Hb. unfold BBLOCK, data_start in *. change BPB with 4096 in *. change IPB with 8 in *.
  pose proof (Z.div_le_mono b (sb_size sb - 1) 4096 ltac:(lia) ltac:(lia)). pose proof (Z.div_pos b 4096 ltac:(lia) ltac:(lia)).
  pose proof (Z.div_pos (sb_ninodes sb) 8 ltac:(lia) ltac:(lia)).
  rewrite u32_small; lia.
Qed.

Lemma home_block sb lg d b : layout sb lg d -> sb_inodestart sb <= b < sb_size sb -> home lg b /\ 0 <= b < d_size d.
Proof. intros [L1 L2 L3 L4 L5] Hb. split; [right|]; lia. Qed.

(** Exactly [x] has become used. *)
Lemma allocated_free sb lg d x V V' y :
  layout sb lg d -> allocated sb x V V' -> data_start sb <= x < sb_size sb -> 0 <= y < sb_size sb ->
  length (V (BBLOCK x sb)) = 512%nat -> is_free V' sb y = negb (x =? y) && is_free V sb y.
Proof.
  intros Hl Ha Hx Hy Hlen. destruct (BBLOCK_range sb lg d x Hl) as [Bx Ex]; [pose proof (ly_log _ _ _ Hl); pose proof (ly_ino _ _ _ Hl)|].
  { change IPB with 8 in *. pose proof (Z.div_pos (sb_ninodes sb) 8 ltac:(lia) ltac:(lia)).
    unfold data_start in Hx. change BPB with 4096 in *. pose proof (ly_size _ _ _ Hl).
    pose proof (Z.div_pos (sb_size sb - 1) 4096 ltac:(lia) ltac:(lia)). lia. }
  destruct (BBLOCK_range sb lg d y Hl Hy) as [By Ey]. unfold is_free. rewrite (Ha (BBLOCK y sb)).
  rewrite (proj2 (Z.eqb_neq (BBLOCK y sb) x)) by lia. change BPB with 4096 in *.
  pose proof (Z.mod_pos_bound x 4096 ltac:(lia)). pose proof (Z.mod_pos_bound y 4096 ltac:(lia)).
  pose proof (Z.div_mod x 4096 ltac:(lia)). pose proof (Z.div_mod y 4096 ltac:(lia)).
  destruct (Z.eqb_spec (BBLOCK y sb) (BBLOCK x sb)) as [E|E].
  - rewrite E. rewrite bit_set_test by (rewrite ?Hlen; lia). f_equal. f_equal.
    destruct (Z.eqb_spec (x mod 4096) (y mod 4096)), (Z.eqb_spec x y); try done; subst; lia.
  - rewrite (proj2 (Z.eqb_neq x y)) by (intros ->; done). done.
Qed.

Lemma has_free_step sb lg d x V V' n :
  layout sb lg d -> allocated sb x V V' -> data_start sb <= x < sb_size sb -> length (V (BBLOCK x sb)) = 512%nat ->
  has_free V sb n -> has_free V' sb (n - 1).
Proof.
  intros Hl Ha Hx Hlen (F & Hn & HF). exists (F ∖ {[x]}). split.
  - rewrite size_difference_alt. assert (size (F ∩ {[x]}) <= 1)%nat.
    { etransitivity; [apply (subseteq_size _ {[x]}); set_solver|]. by rewrite size_singleton. }
    lia.
  - intros y Hy. destruct (HF y) as [Hr Hf]; [set_solver|]. split; [done|].
    rewrite (allocated_free _ _ _ _ _ _ _ Hl Ha Hx Hr Hlen), Hf. rewrite (proj2 (Z.eqb_neq x y)) by set_solver. done.
Qed.
End Bitmap.

(** The first number with property [P]. *)
Lemma first_nat (P : nat -> bool) m :
  (forall k, (k < m)%nat -> P k = false) \/ exists k, (k < m)%nat /\ P k = true /\ forall j, (j < k)%nat -> P j = false.
Proof.
  induction m as [|m [IH|(k & Hk & HP & Hj)]]; [left; lia| |right; exists k; split; [lia|done]].
  destruct (P m) eqn:E; [right; exists m; split; [lia|done]|left]. intros k Hk.
  destruct (decide (k = m)) as [->|]; [done|apply IH; lia].
Qed.

Section Alloc.
Context {WF : WaitFuel}.
Implicit Types (s : kernel) (pid bn : Z) (H : list (nat * Z)) (sb : superblock) (V : Z -> list Z).

Lemma tx_step_len pid H n s b bn : tx pid ((b, bn) :: H) n s -> length (view s bn) = 512%nat.
Proof. intros [Hk Hh _ _ _]. apply (hb_len pid (b :: H.*1) _ s b bn _ true Hk); [set_solver|]. apply Hh. set_solver. Qed.

Lemma bzero_tx pid H n s x :
  tx pid H (n + 1) s -> 0 <= n -> (length H <= 1)%nat -> x ∉ H.*2 -> 0 <= x < d_size (k_disk s) -> home (k_log s) x ->
  exists s', bzero 1 x s = Ret tt s' /\ tx pid H n s' /\ tstep s s' /\
    forall y, view s' y = if y =? x then replicate 512 0 else view s y.
Proof.
  intros Ht Hn Hl Hx Hd Hh. unfold bzero. pose proof (lo_area _ _ (tx_log _ _ _ _ Ht)). rewrite u32_small by lia.
  destruct (tx_bread pid H (n + 1) s x) as (b & s1 & E1 & T1 & S1 & V1 & B1 & _); [done|lia|done|lia|done|].
  erewrite bind_run by exact E1. destruct (ts_area _ _ S1) as (A1 & A2 & A3).
  destruct (tx_store pid H n s1 b x (set_b_data (replicate (Z.to_nat BSIZE) 0)) (replicate 512 0)) as (s2 & s3 & E2 & E3 & T3 & S3 & V3);
    [done|done|by rewrite (ts_disk _ _ S1)|unfold home in *; rewrite A1, A2; done|done|done|done|done|].
  erewrite bind_run by exact E2. erewrite bind_run by exact E3.
  destruct (tx_relse _ _ _ _ _ _ T3 B1) as (s4 & E4 & T4 & S4 & V4). exists s4. split; [done|]. split; [done|].
  split; [etrans; [exact S1|by etrans]|]. intros y. rewrite V4, V3. destruct (y =? x); [done|apply V1].
Qed.

(** The blocks of the held buffers are data blocks in use. *)
Definition held_used sb H V : Prop := forall y, y ∈ H.*2 -> data_start sb <= y < sb_size sb /\ is_free V sb y = false.

Lemma is_free_ext sb V V' b : (forall y, V' y = V y) -> is_free V' sb b = is_free V sb b.
Proof. intros E. unfold is_free. by rewrite E. Qed.

(** One bitmap block, in which [bi] is the first clear bit. *)
Lemma balloc_block_tx pid H n s sb j bi b :
  let x := Z.of_nat j * BPB + Z.of_nat bi in
  tx pid ((b, BBLOCK x sb) :: H) (n + 2) s -> 0 <= n -> (length H <= 1)%nat -> b ∉ H.*1 ->
  layout sb (k_log s) (k_disk s) -> held_used sb H (view s) ->
  Z.of_nat bi < Z.min BPB (sb_size sb - Z.of_nat j * BPB) -> data_start sb <= x ->
  is_free (view s) sb x = true -> (forall k, (k < bi)%nat -> is_free (view s) sb (Z.of_nat j * BPB + Z.of_nat k) = false) ->
  exists s', balloc_block 1 (Z.of_nat j * BPB) b (sb_size sb) s = Ret (Some x) s' /\ tx pid H n s' /\ tstep s s' /\
    allocated sb x (view s) (view s') /\ length (view s (BBLOCK x sb)) = 512%nat.
Proof.
  intros x Ht Hn Hlen Hb Hly Hheld Hbi Hds Hfree Hbefore.
  assert (Hdiv : forall k, (k <= bi)%nat -> (Z.of_nat j * BPB + Z.of_nat k) / BPB = Z.of_nat j /\ (Z.of_nat j * BPB + Z.of_nat k) mod BPB = Z.of_nat k).
  { intros k Hk. change BPB with 4096 in *. split.
    - symmetry. apply (Z.div_unique _ _ _ (Z.of_nat k)); lia.
    - symmetry. apply (Z.mod_unique _ _ (Z.of_nat j)); lia. }
  assert (Hblk : forall k, (k <= bi)%nat -> BBLOCK (Z.of_nat j * BPB + Z.of_nat k) sb = BBLOCK x sb).
  { intros k Hk. unfold BBLOCK, x. by rewrite (proj1 (Hdiv k Hk)), (proj1 (Hdiv bi ltac:(lia))). }
  assert (Hx : 0 <= x < sb_size sb) by (unfold x; change BPB with 4096 in *; lia).
  destruct (BBLOCK_range sb _ _ x Hly Hx) as [Bx _].
  pose proof (tx_held _ _ _ _ Ht b (BBLOCK x sb) ltac:(set_solver)) as Hhb.
  destruct (getbuf_hb _ _ _ _ _ Hhb) as (bp & Eg & Egd & _).
  unfold balloc_block, range.
  replace (Z.to_nat (Z.min BPB (sb_size sb - Z.of_nat j * BPB)))
    with (bi + S (Z.to_nat (Z.min BPB (sb_size sb - Z.of_nat j * BPB)) - bi - 1))%nat by lia.
  rewrite seq_app. cbn [seq Nat.add].
  destruct (home_block sb _ _ (BBLOCK x sb) Hly) as [Hh1 Hd1]; [pose proof (ly_ino _ _ _ Hly); pose proof (ly_data _ _ _ Hly)|].
  { change IPB with 8 in *. pose proof (Z.div_pos (sb_ninodes sb) 8 ltac:(lia) ltac:(lia)). lia. }
  destruct (home_block sb _ _ x Hly) as [Hh2 Hd2]; [pose proof (ly_ino _ _ _ Hly)|].
  { change IPB with 8 in *. pose proof (Z.div_pos (sb_ninodes sb) 8 ltac:(lia) ltac:(lia)). lia. }
  destruct (tx_store pid H (n + 1) s b (BBLOCK x sb) (fun d => set_b_data (bit_set (b_data d) (Z.of_nat bi)) d)
    (bit_set (view s (BBLOCK x sb)) (Z.of_nat bi))) as (s1 & s2 & E1 & E2 & T2 & S2 & V2).
  { eapply tx_weaken; [exact Ht|lia]. }
  { lia. } { done. } { done. } { done. }
  { intros Hin. apply Hheld in Hin as [Hin _]. lia. }
  { intros bp' ->. done. }
  { rewrite bit_set_length. by eapply tx_step_len. }
  destruct (tx_relse _ _ _ _ _ _ T2 Hb) as (s3 & E3 & T3 & S3 & V3). destruct (ts_area _ _ S2) as (A1 & A2 & _), (ts_area _ _ S3) as (A3 & A4 & _).
  destruct (bzero_tx pid H n s3 x T3) as (s4 & E4 & T4 & S4 & V4); [done|done| |by rewrite (ts_disk _ _ S3), (ts_disk _ _ S2)| |].
  { intros Hin. apply Hheld in Hin as [_ Hin]. congruence. }
  { unfold home in *. rewrite A3, A4, A1, A2. done. }
  exists s4. split; [|split; [done|split; [etrans; [exact S2|by etrans]|split; [|by eapply tx_step_len]]]].
  - apply for_find_hit.
    + intros k Hk. apply elem_of_seq in Hk. cbv zeta. erewrite bind_run by exact Eg. rewrite Egd.
      specialize (Hbefore k ltac:(lia)). unfold is_free in Hbefore. rewrite Hblk, (proj2 (Hdiv k ltac:(lia))) in Hbefore by lia.
      by rewrite Hbefore.
    + cbv zeta. erewrite bind_run by exact Eg. rewrite Egd. unfold is_free in Hfree.
      unfold x in Hfree at 2. rewrite (proj2 (Hdiv bi ltac:(lia))) in Hfree. rewrite Hfree.
      erewrite bind_run by exact E1. erewrite bind_run by exact E2. erewrite bind_run by exact E3.
      erewrite bind_run by exact E4. done.
  - intros y. rewrite V4, V3, V2. destruct (Z.eqb_spec y x); [done|]. destruct (Z.eqb_spec y (BBLOCK x sb)) as [->|]; [|done].
    unfold x at 3. by rewrite (proj2 (Hdiv bi ltac:(lia))).
Qed.

(** Block [j] of the bitmap covers the blocks from [j * BPB] on. *)
Lemma in_bitmap (j : nat) k : 0 <= k < BPB ->
  (Z.of_nat j * BPB + k) / BPB = Z.of_nat j /\ (Z.of_nat j * BPB + k) mod BPB = k.
Proof.
  intros Hk. change BPB with 4096 in *. split.
  - symmetry. apply (Z.div_unique _ _ _ k); lia.
  - symmetry. apply (Z.mod_unique _ _ (Z.of_nat j)); lia.
Qed.

Lemma bitmap_block sb (j : nat) k : 0 <= k < BPB -> BBLOCK (Z.of_nat j * BPB + k) sb = BBLOCK (Z.of_nat j * BPB) sb.
Proof.
  intros Hk. unfold BBLOCK. rewrite (proj1 (in_bitmap j k Hk)). rewrite <- (Z.add_0_r (Z.of_nat j * BPB)).
  by rewrite (proj1 (in_bitmap j 0 ltac:(done))).
Qed.

Lemma balloc_block_full s sb b (j : nat) :
  hb s b (BBLOCK (Z.of_nat j * BPB) sb) (view s (BBLOCK (Z.of_nat j * BPB) sb)) true ->
  (forall k, 0 <= k < Z.min BPB (sb_size sb - Z.of_nat j * BPB) -> is_free (view s) sb (Z.of_nat j * BPB + k) = false) ->
  balloc_block 1 (Z.of_nat j * BPB) b (sb_size sb) s = Ret None s.
Proof.
  intros Hhb Hfull. destruct (getbuf_hb _ _ _ _ _ Hhb) as (bp & Eg & Egd & _).
  apply for_find_none. intros k Hk. apply elem_of_seq in Hk. cbv zeta. erewrite bind_run by exact Eg. rewrite Egd.
  specialize (Hfull (Z.of_nat k) ltac:(lia)). unfold is_free in Hfull.
  rewrite bitmap_block, (proj2 (in_bitmap j (Z.of_nat k) ltac:(lia))) in Hfull by lia. by rewrite Hfull.
Qed.

(** The body of [balloc]'s loop. *)
Definition balloc_round (sb : superblock) (j : nat) : K (option Z) :=
  let b := Z.of_nat j * BPB in
  let! bp := bread 1 (BBLOCK b sb) in
  let! r := balloc_block 1 b bp (sb_size sb) in
  match r with
  | Some x => ret (Some x)
  | None => brelse bp ;; ret None
  end.

Lemma tx_bitmap pid H n s sb b :
  tx pid H n s -> 0 <= n -> (length H <= 1)%nat -> layout sb (k_log s) (k_disk s) -> held_used sb H (view s) ->
  0 <= b < sb_size sb ->
  exists bp s', bread 1 (BBLOCK b sb) s = Ret bp s' /\ tx pid ((bp, BBLOCK b sb) :: H) n s' /\ tstep s s' /\
    (forall x, view s' x = view s x) /\ (bp ∉ H.*1) /\ hb s' bp (BBLOCK b sb) (view s (BBLOCK b sb)) true.
Proof.
  intros Ht Hn Hl Hly Hh Hb. destruct (BBLOCK_range _ _ _ b Hly Hb) as [B _]. apply tx_bread; auto.
  - intros Hin. apply Hh in Hin as [Hin _]. lia.
  - pose proof (ly_data _ _ _ Hly). pose proof (ly_size _ _ _ Hly). lia.
Qed.

Lemma held_used_ext sb H V V' : held_used sb H V -> (forall y, V' y = V y) -> held_used sb H V'.
Proof. intros Hh E y Hy. rewrite (is_free_ext sb V V' y E). by apply Hh. Qed.

Lemma balloc_skip pid H n sb (k : nat) : forall j0 s,
  tx pid H n s -> 0 <= n -> (length H <= 1)%nat -> layout sb (k_log s) (k_disk s) -> held_used sb H (view s) ->
  Z.of_nat (j0 + k) * BPB <= sb_size sb ->
  (forall y, Z.of_nat j0 * BPB <= y < Z.of_nat (j0 + k) * BPB -> is_free (view s) sb y = false) ->
  exists s', tx pid H n s' /\ tstep s s' /\ (forall x, view s' x = view s x) /\
    forall l, for_find (seq j0 k ++ l) (balloc_round sb) s = for_find l (balloc_round sb) s'.
Proof.
  induction k as [|k IH]; intros j0 s Ht Hn Hl Hly Hh Hs Hfull; [by exists s|].
  assert (BP : BPB = 4096) by done. rewrite BP in Hs, Hfull. cbn [seq app].
  destruct (tx_bitmap pid H n s sb (Z.of_nat j0 * BPB)) as (bp & s1 & E1 & T1 & S1 & V1 & B1 & H1); auto; [rewrite BP; lia|].
  assert (Ef : balloc_block 1 (Z.of_nat j0 * BPB) bp (sb_size sb) s1 = Ret None s1).
  { apply balloc_block_full; [by rewrite V1|]. intros m Hm. rewrite (is_free_ext sb (view s)) by done. apply Hfull. rewrite BP in *. lia. }
  destruct (tx_relse _ _ _ _ _ _ T1 B1) as (s2 & E2 & T2 & S2 & V2).
  assert (V2' : forall x, view s2 x = view s x) by (intros x; by rewrite V2, V1).
  destruct (IH (S j0) s2) as (s3 & T3 & S3 & V3 & E3); auto.
  - eapply layout_step; [|exact S2]. by eapply layout_step.
  - by eapply held_used_ext.
  - rewrite BP. lia.
  - intros y Hy. rewrite (is_free_ext sb (view s)) by done. apply Hfull. rewrite BP in *. lia.
  - exists s3. split; [done|]. split; [etrans; [exact S1|by etrans]|]. split; [intros x; by rewrite V3, V2'|].
    intros l. rewrite <- E3. cbn [for_find]. rewrite (bind_run _ _ _ None s2); [reflexivity|]. unfold balloc_round. cbv zeta.
    erewrite bind_run by exact E1. erewrite bind_run by exact Ef. cbv iota. by erewrite bind_run by exact E2.
Qed.

Lemma balloc_tx pid H n s sb :
  tx pid H (n + 2) s -> 0 <= n -> (length H <= 1)%nat -> k_sb s = sb -> layout sb (k_log s) (k_disk s) ->
  meta_used (view s) sb -> held_used sb H (view s) -> has_free (view s) sb 1 ->
  exists x s', balloc 1 s = Ret x s' /\ tx pid H n s' /\ tstep s s' /\ data_start sb <= x < sb_size sb /\
    is_free (view s) sb x = true /\ allocated sb x (view s) (view s') /\ length (view s (BBLOCK x sb)) = 512%nat.
Proof.
  intros Ht Hn Hl Hsb Hly Hmeta Hh (F & HF & HFx).
  assert (exists y, y ∈ F) as [y Hy].
  { destruct (decide (F = ∅)) as [->|Hne]; [rewrite size_empty in HF; lia|]. by apply set_choose_L. }
  destruct (HFx y Hy) as [Hyr Hyf]. clear F HF HFx Hy.
  destruct (first_nat (fun k => is_free (view s) sb (Z.of_nat k)) (Z.to_nat (sb_size sb))) as [Hno|(x & Hx & Hxf & Hbefore)].
  { specialize (Hno (Z.to_nat y) ltac:(lia)). cbv beta in Hno. rewrite Z2Nat.id in Hno by lia. congruence. }
  assert (Hxd : data_start sb <= Z.of_nat x).
  { destruct (decide (data_start sb <= Z.of_nat x)); [done|]. rewrite Hmeta in Hxf by lia. done. }
  assert (BP : BPB = 4096) by done. set (j := (x / 4096)%nat). set (bi := (x mod 4096)%nat).
  pose proof (Nat.div_mod x 4096 ltac:(done)) as Dx. pose proof (Nat.mod_upper_bound x 4096 ltac:(done)) as Mx. fold j bi in Dx, Mx.
  assert (Ex : Z.of_nat x = Z.of_nat j * BPB + Z.of_nat bi) by (rewrite BP; lia).
  destruct (balloc_skip pid H (n + 2) sb j 0 s) as (s1 & T1 & S1 & V1 & E1); auto; [lia|rewrite BP; lia| |].
  { intros z Hz. specialize (Hbefore (Z.to_nat z)). cbv beta in Hbefore. rewrite Z2Nat.id in Hbefore by lia. apply Hbefore. rewrite BP in *. lia. }
  pose proof (layout_step _ _ _ Hly S1) as Hly1.
  assert (Hh1 : held_used sb H (view s1)) by by eapply held_used_ext.
  destruct (tx_bitmap pid H (n + 2) s1 sb (Z.of_nat j * BPB)) as (bp & s2 & E2 & T2 & S2 & V2 & B2 & _); auto; [lia|rewrite BP; lia|].
  assert (V2' : forall z, view s2 z = view s z) by (intros z; by rewrite V2, V1).
  destruct (balloc_block_tx pid H n s2 sb j bi bp) as (s3 & E3 & T3 & S3 & A3 & L3); rewrite <- ?Ex in *; auto.
  - rewrite Ex, bitmap_block by (rewrite BP; lia). done.
  - by eapply layout_step.
  - by eapply held_used_ext.
  - rewrite BP in *. lia.
  - by rewrite (is_free_ext sb (view s)) by done.
  - intros k Hk. rewrite (is_free_ext sb (view s)) by done. rewrite BP.
    replace (Z.of_nat j * 4096 + Z.of_nat k) with (Z.of_nat (j * 4096 + k)) by lia. apply Hbefore. lia.
  - exists (Z.of_nat x), s3. split_and!; try done; try lia; [|etrans; [exact S1|by etrans]| |by rewrite <- V2'].
    + unfold balloc. rewrite bind_gets, Hsb. erewrite bind_run.
      2:{ unfold range. replace (Z.to_nat ((sb_size sb + BPB - 1) / BPB)) with (j + S (Z.to_nat ((sb_size sb + BPB - 1) / BPB) - j - 1))%nat.
          2:{ rewrite BP in *. assert (Z.of_nat j + 1 <= (sb_size sb + 4096 - 1) / 4096); [apply Z.div_le_lower_bound|]; lia. }
          rewrite seq_app. etransitivity; [apply E1|]. cbn [seq Nat.add for_find].
          rewrite (bind_run _ _ _ (Some (Z.of_nat x)) s3); [reflexivity|]. unfold balloc_round. cbv zeta. erewrite bind_run by exact E2.
          by erewrite bind_run by exact E3. }
      done.
    + intros z. rewrite A3, !V2'. done.
Qed.
End Alloc.

(** * The blocks of an inode *)

Definition iind (i : inode) : Z := nth 12 (i_addrs i) 0.

(** The address of block [k] of the file, 0 for a hole. *)
Definition iaddr (V : Z -> list Z) (i : inode) (k : Z) : Z :=
  if k <? NDIRECT then nth (Z.to_nat k) (i_addrs i) 0
  else if iind i =? 0 then 0 else rd32 (V (iind i)) (4 * (k - NDIRECT)).

(** The byte of the file at offset [o]; a hole reads as zeroes. *)
Definition fbyte (V : Z -> list Z) (i : inode) (o : Z) : Z :=
  let a := iaddr V i (o / BSIZE) in if a =? 0 then 0 else nth (Z.to_nat (o mod BSIZE)) (V a) 0.

Definition owns (V : Z -> list Z) (i : inode) (b : Z) : Prop :=
  b <> 0 /\ (b = iind i \/ exists k, 0 <= k < MAXFILE /\ b = iaddr V i k).

Record inode_ok (V : Z -> list Z) (sb : superblock) (i : inode) : Prop := {
  in_len : length (i_addrs i) = 13%nat;
  in_dev : i_dev i = 1;
  in_own : forall b, owns V i b -> data_start sb <= b < sb_size sb /\ is_free V sb b = false /\ length (V b) = 512%nat;
  in_inj : forall j k, 0 <= j < MAXFILE -> 0 <= k < MAXFILE -> iaddr V i j = iaddr V i k -> iaddr V i j <> 0 -> j = k;
  in_ind : forall k, 0 <= k < MAXFILE -> iaddr V i k <> 0 -> iaddr V i k <> iind i
}.

(** [i'] over [V'] has the contents of [i] over [V], with more blocks allocated. *)
Record ext (sb : superblock) (V : Z -> list Z) (i : inode) (V' : Z -> list Z) (i' : inode) : Prop := {
  ex_ok : inode_ok V' sb i';
  ex_fields : i' = set_i_addrs (i_addrs i') i;
  ex_addr : forall k, 0 <= k < MAXFILE -> iaddr V i k <> 0 -> iaddr V' i' k = iaddr V i k;
  ex_byte : forall o, 0 <= o < MAXFILE * BSIZE -> fbyte V' i' o = fbyte V i o;
  ex_frame : forall y, data_start sb <= y < sb_size sb -> is_free V sb y = false -> y <> iind i -> V' y = V y;
  ex_low : forall y, y < sb_bmapstart sb \/ sb_size sb <= y -> V' y = V y;
  ex_used : forall y, 0 <= y < sb_size sb -> is_free V sb y = false -> is_free V' sb y = false;
  ex_new : forall b, owns V' i' b -> owns V i b \/ is_free V sb b = true;
  ex_ind : iind i' = iind i \/ iind i = 0 /\ is_free V sb (iind i') = true
}.

Section Ext.
Implicit Types (sb : superblock) (V : Z -> list Z) (i : inode).

Lemma ext_refl sb V i : inode_ok V sb i -> ext sb V i V i.
Proof. intros Ho. constructor; auto. by destruct i. Qed.

Lemma owns_ind V i : iind i <> 0 -> owns V i (iind i).
Proof. intros H. by split; [|left]. Qed.

Lemma owns_addr V i k : 0 <= k < MAXFILE -> iaddr V i k <> 0 -> owns V i (iaddr V i k).
Proof. intros Hk H. split; [done|right]. by exists k. Qed.

Lemma layout_pos sb lg d : layout sb lg d -> 0 < data_start sb /\ sb_bmapstart sb < data_start sb /\ 0 <= sb_inodestart sb < sb_bmapstart sb.
Proof.
  intros [L1 L2 L3 L4 L5]. unfold data_start in *. change BPB with 4096 in *. change IPB with 8 in *.
  pose proof (Z.div_pos (sb_size sb - 1) 4096 ltac:(lia) ltac:(lia)).
  pose proof (Z.div_pos (sb_ninodes sb) 8 ltac:(lia) ltac:(lia)). lia.
Qed.

Lemma ext_trans sb lg d V i V1 i1 V2 i2 :
  layout sb lg d -> ext sb V i V1 i1 -> ext sb V1 i1 V2 i2 -> ext sb V i V2 i2.
Proof.
  intros Hl A B. pose proof (layout_pos _ _ _ Hl) as (P1 & P2 & P3). constructor.
  - apply B.
  - rewrite (ex_fields _ _ _ _ _ B), (ex_fields _ _ _ _ _ A). done.
  - intros k Hk Hne. pose proof (ex_addr _ _ _ _ _ A k Hk Hne) as E. rewrite <- E. apply (ex_addr _ _ _ _ _ B); [done|congruence].
  - intros o Ho. rewrite (ex_byte _ _ _ _ _ B) by done. by apply (ex_byte _ _ _ _ _ A).
  - intros y Hy Hu Hne. rewrite (ex_frame _ _ _ _ _ B); [by apply (ex_frame _ _ _ _ _ A)|done|apply (ex_used _ _ _ _ _ A); [lia|done]|].
    destruct (ex_ind _ _ _ _ _ A) as [->|[_ Hf]]; [done|]. intros ->. congruence.
  - intros y Hy. rewrite (ex_low _ _ _ _ _ B) by done. by apply (ex_low _ _ _ _ _ A).
  - intros y Hy Hu. apply (ex_used _ _ _ _ _ B); [done|]. by apply (ex_used _ _ _ _ _ A).
  - intros b Hb. destruct (ex_new _ _ _ _ _ B b Hb) as [Hb1|Hb1]; [by apply A|].
    destruct (is_free V sb b) eqn:E; [by right|]. exfalso.
    destruct (in_own _ _ _ (ex_ok _ _ _ _ _ B) b Hb) as [Hr _].
    rewrite (ex_used _ _ _ _ _ A b) in Hb1; [done|lia|done].
  - assert (Hr : 0 <= iind i2 < sb_size sb).
    { pose proof (ly_size _ _ _ Hl). destruct (decide (iind i2 = 0)) as [->|E2]; [lia|].
      destruct (in_own _ _ _ (ex_ok _ _ _ _ _ B) _ (owns_ind V2 i2 E2)) as [Hr _]. lia. }
    assert (Hback : is_free V1 sb (iind i2) = true -> is_free V sb (iind i2) = true).
    { intros Hf. destruct (is_free V sb (iind i2)) eqn:F; [done|]. by rewrite (ex_used _ _ _ _ _ A) in Hf. }
    destruct (ex_ind _ _ _ _ _ A) as [E|[E Hf]], (ex_ind _ _ _ _ _ B) as [E'|[E' Hf']]; rewrite ?E' in *; auto.
Qed.

(** One block [x] more: as block [k] of the file, or as its indirect block ([ok = None]). *)
Section Fresh.
Context (sb : superblock) (lg : log_t) (d : disk_t) (V V' : Z -> list Z) (i i' : inode) (x : Z) (ok : option Z).
Hypothesis (Hl : layout sb lg d) (Ho : inode_ok V sb i) (Hx : data_start sb <= x < sb_size sb) (Hxf : is_free V sb x = true).
Hypothesis (Hfree : forall y, 0 <= y < sb_size sb -> is_free V' sb y = negb (x =? y) && is_free V sb y).
Hypothesis (Hfr : forall y, data_start sb <= y < sb_size sb -> is_free V sb y = false -> y <> iind i -> V' y = V y).
Hypothesis (Hind : iind i <> 0 -> length (V' (iind i)) = 512%nat).
Hypothesis (Hzero : V' x = replicate 512 0).
Hypothesis (Hlow : forall y, y < sb_bmapstart sb \/ sb_size sb <= y -> V' y = V y).
Hypothesis (Hi' : i' = set_i_addrs (i_addrs i') i) (Hlen : length (i_addrs i') = 13%nat).
Hypothesis (Hii : iind i' = match ok with Some _ => iind i | None => x end).
Hypothesis (Hk : match ok with Some k => 0 <= k < MAXFILE /\ iaddr V i k = 0 | None => iind i = 0 end).
Hypothesis (Ha : forall j, 0 <= j < MAXFILE ->
  iaddr V' i' j = match ok with Some k => if j =? k then x else iaddr V i j | None => iaddr V i j end).

Lemma fresh_owns b : owns V' i' b -> owns V i b \/ b = x.
Proof.
  intros [Hb [->|(j & Hj & ->)]].
  - rewrite Hii in *. destruct ok; [left; by apply owns_ind|by right].
  - rewrite Ha in * by done. destruct ok as [k|]; [destruct (j =? k); [by right|]|]; left; by apply owns_addr.
Qed.

Lemma fresh_not_owned b : owns V i b -> b <> x.
Proof. intros Hb ->. destruct (in_own _ _ _ Ho x Hb) as (_ & Hf & _). congruence. Qed.

Lemma fresh_addr j : 0 <= j < MAXFILE -> iaddr V i j <> 0 -> iaddr V' i' j = iaddr V i j /\ iaddr V i j <> x /\ V' (iaddr V i j) = V (iaddr V i j).
Proof.
  intros Hj Hne. pose proof (owns_addr V i j Hj Hne) as Hw. split.
  - rewrite Ha by done. destruct ok as [k|]; [|done]. destruct (Z.eqb_spec j k) as [->|]; [|done]. by destruct Hk.
  - split; [by apply fresh_not_owned|]. destruct (in_own _ _ _ Ho _ Hw) as (R1 & R2 & _). apply Hfr; auto. by apply Ho.
Qed.

Lemma fresh_ok : inode_ok V' sb i'.
Proof.
  pose proof (layout_pos _ _ _ Hl) as (P1 & P2 & P3). constructor.
  - done.
  - rewrite Hi'. apply Ho.
  - intros b [Hb| ->]%fresh_owns.
    + destruct (in_own _ _ _ Ho b Hb) as (R1 & R2 & R3). split; [done|]. split.
      * rewrite Hfree by lia. by rewrite R2, andb_false_r.
      * destruct (decide (b = iind i)) as [->|Hne]; [apply Hind, Hb|by rewrite Hfr].
    + split; [done|]. rewrite Hfree, Z.eqb_refl by lia. by rewrite Hzero.
  - intros j k Hj Hk'. rewrite !Ha by done. destruct ok as [k0|]; [|by apply Ho].
    destruct (Z.eqb_spec j k0) as [->|Hj0], (Z.eqb_spec k k0) as [->|Hk0]; intros E Hne; [done| | |by apply (in_inj _ _ _ Ho)].
    + destruct (fresh_not_owned (iaddr V i k)); [apply owns_addr; congruence|done].
    + destruct (fresh_not_owned (iaddr V i j)); [by apply owns_addr|done].
  - intros j Hj. rewrite Ha, Hii by done. destruct ok as [k|]; [|intros Hne; by apply fresh_not_owned, owns_addr].
    destruct (Z.eqb_spec j k); [|by apply Ho]. intros Hne E. destruct (fresh_not_owned (iind i)); [|done].
    apply owns_ind. congruence.
Qed.

Lemma fresh_fbyte o : 0 <= o < MAXFILE * BSIZE -> fbyte V' i' o = fbyte V i o.
Proof.
  intros Hob. unfold fbyte. assert (Hj : 0 <= o / BSIZE < MAXFILE).
  { change BSIZE with 512 in *. split; [apply Z.div_pos; lia|apply Z.div_lt_upper_bound; lia]. }
  destruct (Z.eqb_spec (iaddr V i (o / BSIZE)) 0) as [E|E].
  - rewrite Ha, E by done. destruct ok as [k|]; [|done]. destruct (o / BSIZE =? k); [|done].
    destruct (x =? 0); [done|]. rewrite Hzero, nth_lookup. destruct (_ !! _) as [z|] eqn:Ez; [|done].
    by apply lookup_replicate in Ez as [-> _].
  - destruct (fresh_addr _ Hj E) as (-> & _ & ->). by rewrite (proj2 (Z.eqb_neq _ 0)) by done.
Qed.

Lemma ext_fresh : ext sb V i V' i'.
Proof.
  pose proof (layout_pos _ _ _ Hl) as (P1 & P2 & P3). constructor; auto.
  - apply fresh_ok.
  - intros k Hk' Hne. by apply fresh_addr.
  - apply fresh_fbyte.
  - intros y Hy Hu. rewrite Hfree by done. by rewrite Hu, andb_false_r.
  - intros b [Hb| ->]%fresh_owns; auto.
  - rewrite Hii. destruct ok; [by left|by right].
Qed.
End Fresh.

Lemma allocated_frame sb lg d x V V' y :
  layout sb lg d -> allocated sb x V V' -> data_start sb <= x < sb_size sb -> data_start sb <= y -> y <> x -> V' y = V y.
Proof.
  intros Hl Ha Hx Hy Hne. pose proof (layout_pos _ _ _ Hl) as (P1 & P2 & P3).
  destruct (BBLOCK_range _ _ _ x Hl) as [B _]; [lia|]. rewrite Ha.
  rewrite (proj2 (Z.eqb_neq y x)), (proj2 (Z.eqb_neq y (BBLOCK x sb))) by lia. done.
Qed.

Lemma allocated_low sb lg d x V V' y :
  layout sb lg d -> allocated sb x V V' -> data_start sb <= x < sb_size sb -> y < sb_bmapstart sb \/ sb_size sb <= y -> V' y = V y.
Proof.
  intros Hl Ha Hx Hy. pose proof (layout_pos _ _ _ Hl) as (P1 & P2 & P3). pose proof (ly_data _ _ _ Hl).
  destruct (BBLOCK_range _ _ _ x Hl) as [B _]; [lia|]. rewrite Ha.
  rewrite (proj2 (Z.eqb_neq y x)), (proj2 (Z.eqb_neq y (BBLOCK x sb))) by lia. done.
Qed.

Lemma nth_store (l : list Z) k x j : (Z.to_nat k < length l)%nat -> 0 <= k ->
  nth j (store l k x) 0 = if (j =? Z.to_nat k)%nat then x else nth j l 0.
Proof.
  intros Hk H0. unfold store. rewrite !nth_lookup. destruct (Nat.eqb_spec j (Z.to_nat k)) as [->|Hne].
  - by rewrite list_lookup_insert_eq.
  - by rewrite list_lookup_insert_ne by lia.
Qed.

Section AllocCases.
Context (sb : superblock) (lg : log_t) (d : disk_t) (V V1 : Z -> list Z) (i : inode) (x : Z).
Hypothesis (Hl : layout sb lg d) (Ho : inode_ok V sb i) (Hx : data_start sb <= x < sb_size sb) (Hxf : is_free V sb x = true).
Hypothesis (Hal : allocated sb x V V1) (Hbm : length (V (BBLOCK x sb)) = 512%nat).

Lemma alloc_used_frame y : data_start sb <= y < sb_size sb -> is_free V sb y = false -> V1 y = V y.
Proof. intros Hy Hu. eapply allocated_frame; [exact Hl|exact Hal|done|lia|]. intros ->. congruence. Qed.

Lemma alloc_zero : V1 x = replicate 512 0.
Proof. rewrite Hal. by rewrite Z.eqb_refl. Qed.

Lemma alloc_ind_frame : iind i <> 0 -> V1 (iind i) = V (iind i) /\ length (V (iind i)) = 512%nat.
Proof.
  intros Hne. destruct (in_own _ _ _ Ho _ (owns_ind V i Hne)) as (R1 & R2 & R3). split; [by apply alloc_used_frame|done].
Qed.

Lemma ext_direct k :
  0 <= k < NDIRECT -> iaddr V i k = 0 -> ext sb V i V1 (set_i_addrs (store (i_addrs i) k x) i).
Proof.
  intros Hk Hz. change NDIRECT with 12 in *. pose proof (in_len _ _ _ Ho) as Hlen.
  assert (Hi : iind (set_i_addrs (store (i_addrs i) k x) i) = iind i).
  { unfold iind. cbn [i_addrs set_i_addrs]. rewrite nth_store by lia. destruct (Nat.eqb_spec 12 (Z.to_nat k)); [lia|done]. }
  apply (ext_fresh sb lg d V V1 i _ x (Some k)); auto.
  - intros y Hy. by apply (allocated_free sb lg d).
  - intros y Hy Hu _. by apply alloc_used_frame.
  - intros Hne. destruct (alloc_ind_frame Hne) as [-> ?]. done.
  - apply alloc_zero.
  - intros y Hy. by apply (allocated_low sb lg d x).
  - cbn. unfold store. by rewrite length_insert.
  - change MAXFILE with 140. split; [lia|done].
  - intros j Hj. unfold iaddr at 1. rewrite Hi. cbn [i_addrs set_i_addrs]. rewrite nth_store by lia. unfold iaddr. change NDIRECT with 12.
    destruct (Z.ltb_spec j 12), (Z.eqb_spec j k), (Nat.eqb_spec (Z.to_nat j) (Z.to_nat k)); try lia; try done.
    destruct (Z.eqb_spec (iind i) 0) as [|Hne]; [done|]. by destruct (alloc_ind_frame Hne) as [-> _].
Qed.

Lemma ext_ind : iind i = 0 -> ext sb V i V1 (set_i_addrs (store (i_addrs i) NDIRECT x) i).
Proof.
  intros Hz. pose proof (in_len _ _ _ Ho) as Hlen. change NDIRECT with 12 in *. pose proof (layout_pos _ _ _ Hl) as (P1 & P2 & P3).
  assert (Hi : iind (set_i_addrs (store (i_addrs i) 12 x) i) = x).
  { unfold iind. cbn [i_addrs set_i_addrs]. by rewrite nth_store by lia. }
  apply (ext_fresh sb lg d V V1 i _ x None); auto.
  - intros y Hy. by apply (allocated_free sb lg d).
  - intros y Hy Hu _. by apply alloc_used_frame.
  - done.
  - apply alloc_zero.
  - intros y Hy. by apply (allocated_low sb lg d x).
  - cbn. unfold store. by rewrite length_insert.
  - intros j Hj. unfold iaddr. rewrite Hi, Hz. cbn [i_addrs set_i_addrs Z.eqb]. change NDIRECT with 12.
    destruct (Z.ltb_spec j 12).
    + rewrite nth_store by lia. destruct (Nat.eqb_spec (Z.to_nat j) (Z.to_nat 12)); [lia|done].
    + rewrite (proj2 (Z.eqb_neq x 0)), alloc_zero by lia. apply rd32_rep0.
Qed.

Lemma ext_entry k V2 :
  NDIRECT <= k < MAXFILE -> iind i <> 0 -> iaddr V i k = 0 ->
  (forall y, V2 y = if y =? iind i then wr32 (V (iind i)) (4 * (k - NDIRECT)) x else V1 y) -> ext sb V i V2 i.
Proof.
  intros Hk Hne Hz H2. change NDIRECT with 12 in *. change MAXFILE with 140 in *. pose proof (layout_pos _ _ _ Hl) as (P1 & P2 & P3).
  destruct (in_own _ _ _ Ho _ (owns_ind V i Hne)) as (R1 & R2 & R3).
  assert (Hxi : x <> iind i) by (intros ->; congruence). pose proof (ly_max _ _ _ Hl). pose proof (ly_size _ _ _ Hl).
  assert (Hlow2 : forall y, y < data_start sb \/ sb_size sb <= y -> V2 y = V1 y).
  { intros y Hy. by rewrite H2, (proj2 (Z.eqb_neq y (iind i))) by lia. }
  apply (ext_fresh sb lg d V V2 i i x (Some k)); auto.
  - intros y Hy. rewrite <- (allocated_free sb lg d x V V1) by auto. unfold is_free. rewrite Hlow2; [done|].
    destruct (BBLOCK_range _ _ _ y Hl Hy). lia.
  - intros y Hy Hu Hyi. rewrite H2, (proj2 (Z.eqb_neq y _)) by done. by apply alloc_used_frame.
  - intros _. rewrite H2, Z.eqb_refl. rewrite Bytes.wr32_length; lia.
  - rewrite H2, (proj2 (Z.eqb_neq x _)) by done. apply alloc_zero.
  - intros y Hy. rewrite Hlow2 by lia. by apply (allocated_low sb lg d x).
  - by destruct i.
  - apply Ho.
  - split; [change MAXFILE with 140; lia|done].
  - intros j Hj. unfold iaddr. change NDIRECT with 12. change MAXFILE with 140 in *. rewrite (proj2 (Z.eqb_neq (iind i) 0)) by done.
    destruct (Z.ltb_spec j 12); [by rewrite (proj2 (Z.eqb_neq j k)) by lia|].
    rewrite H2, Z.eqb_refl. destruct (Z.eqb_spec j k) as [->|Hjk].
    + rewrite rd32_wr32_eq by lia. apply u32_small. lia.
    + by rewrite rd32_wr32_ne by lia.
Qed.
End AllocCases.
End Ext.

(** * [bmap] *)

(** The block layer and the inode cache change. *)
Definition istep (s s' : kernel) : Prop := tstep (set_k_inodes (k_inodes s') s) s'.

Section Bmap.
Context {WF : WaitFuel} {DS : Devsw}.
Implicit Types (s : kernel) (pid : Z) (sb : superblock) (V : Z -> list Z) (i : inode) (ip : nat).

Lemma getinode_eq s ip i : k_inodes s !! ip = Some i -> getinode ip s = Ret i s.
Proof. intros H. unfold getinode. rewrite bind_gets. by rewrite (index_eq _ _ _ _ i) by (lia || by rewrite Nat2Z.id). Qed.

Lemma updinode_eq s ip i f : k_inodes s !! ip = Some i -> updinode ip f s = Ret tt (set_k_inodes (<[ip := f i]> (k_inodes s)) s).
Proof. intros H. unfold updinode. by erewrite bind_run by by apply getinode_eq. Qed.

Lemma tstep_inodes s s' : tstep s s' -> k_inodes s' = k_inodes s /\ k_sb s' = k_sb s.
Proof. intros [[E _] _ _]. rewrite E. by destruct s. Qed.

Lemma tstep_set I s s' : tstep s s' -> tstep (set_k_inodes I s) (set_k_inodes I s').
Proof.
  intros [[E Sl] D A]. constructor; [|by destruct s, s'|by destruct s, s'].
  split; [|by destruct s, s']. rewrite E. by destruct s.
Qed.

Lemma set_inodes_twice I I' s : set_k_inodes I (set_k_inodes I' s) = set_k_inodes I s.
Proof. by destruct s. Qed.

Lemma set_inodes_same s : set_k_inodes (k_inodes s) s = s.
Proof. by destruct s. Qed.

Lemma istep_tstep s s' : tstep s s' -> istep s s'.
Proof. intros H. unfold istep. destruct (tstep_inodes _ _ H) as [-> _]. by rewrite set_inodes_same. Qed.

Lemma istep_trans s1 s2 s3 : istep s1 s2 -> istep s2 s3 -> istep s1 s3.
Proof. unfold istep. intros A B. apply (tstep_set (k_inodes s3)) in A. rewrite set_inodes_twice in A. by etrans. Qed.

Lemma istep_set s I : istep s (set_k_inodes I s).
Proof. unfold istep. by destruct s. Qed.

Lemma istep_sb s s' : istep s s' -> k_sb s' = k_sb s.
Proof. intros H. destruct (tstep_inodes _ _ H) as [_ ->]. by destruct s. Qed.

Lemma istep_layout sb s s' : layout sb (k_log s) (k_disk s) -> istep s s' -> layout sb (k_log s') (k_disk s').
Proof. intros Hl H. eapply layout_step; [|exact H]. by destruct s. Qed.

Lemma tx_inodes pid H n s I : tx pid H n s -> tx pid H n (set_k_inodes I s).
Proof.
  intros [[(j & c & p & pr & Ht & Hp) Hc Hpin] Hh Ho Hout Hr]. constructor; auto. constructor; auto.
  exists j, c, p, pr. split; [|done]. eapply thread_frame; [exact Ht|done|done].
Qed.

Lemma view_inodes s I : view (set_k_inodes I s) = view s.
Proof. done. Qed.

Lemma inode_ok_ext sb V V' i : inode_ok V sb i -> (forall y, V' y = V y) -> ext sb V i V' i.
Proof.
  intros Ho E. assert (Ea : forall k, iaddr V' i k = iaddr V i k) by (intros k; unfold iaddr; by rewrite E).
  assert (Ew : forall b, owns V' i b -> owns V i b).
  { intros b [Hb [->|(k & Hk & ->)]]; [by apply owns_ind|]. rewrite Ea in *. by apply owns_addr. }
  assert (Ef : forall y, is_free V' sb y = is_free V sb y) by (intros y; by apply is_free_ext).
  constructor; auto.
  - constructor; try apply Ho.
    + intros b Hb. rewrite Ef, E. by apply (in_own _ _ _ Ho), Ew.
    + intros j k. rewrite !Ea. apply Ho.
    + intros k. rewrite Ea. apply Ho.
  - by destruct i.
  - intros o _. unfold fbyte. by rewrite Ea, E.
  - intros y _. by rewrite Ef.
Qed.

Lemma meta_used_ext sb V i V' i' lg d : layout sb lg d -> ext sb V i V' i' -> meta_used V sb -> meta_used V' sb.
Proof. intros Hl He Hm b Hb. apply (ex_used _ _ _ _ _ He); [pose proof (ly_data _ _ _ Hl); lia|by apply Hm]. Qed.

Lemma has_free_ext sb V V' n : (forall y, V' y = V y) -> has_free V sb n -> has_free V' sb n.
Proof. intros E (F & Hn & HF). exists F. split; [done|]. intros y Hy. rewrite (is_free_ext sb V V' y E). by apply HF. Qed.

Lemma has_free_mono sb V n n' : n' <= n -> has_free V sb n -> has_free V sb n'.
Proof. intros Hn (F & Hs & HF). exists F. split; [lia|done]. Qed.

Lemma has_free_low sb lg d V V' n :
  layout sb lg d -> (forall y, y < data_start sb -> V' y = V y) -> has_free V sb n -> has_free V' sb n.
Proof.
  intros Hl E (F & Hn & HF). exists F. split; [done|]. intros y Hy. destruct (HF y Hy) as [Hr Hf]. split; [done|].
  unfold is_free in *. destruct (BBLOCK_range _ _ _ y Hl Hr) as [B _]. by rewrite E by lia.
Qed.

(** An inode in the cache, in a transaction with [n] more blocks. *)
Record iok (pid n : Z) sb s ip i : Prop := {
  io_tx : tx pid [] n s;
  io_sb : k_sb s = sb;
  io_lay : layout sb (k_log s) (k_disk s);
  io_meta : meta_used (view s) sb;
  io_at : k_inodes s !! ip = Some i;
  io_ok : inode_ok (view s) sb i
}.

Record grows (pid n : Z) sb s ip i s' i' : Prop := {
  gw_tx : tx pid [] n s';
  gw_step : istep s s';
  gw_at : k_inodes s' = <[ip := i']> (k_inodes s);
  gw_ext : ext sb (view s) i (view s') i';
  gw_free : forall m, has_free (view s) sb m -> has_free (view s') sb (m - 2)
}.

Lemma grows_iok pid n n' sb s ip i s' i' : iok pid n sb s ip i -> grows pid n' sb s ip i s' i' -> iok pid n' sb s' ip i'.
Proof.
  intros [] []. constructor; auto.
  - by erewrite istep_sb.
  - by eapply istep_layout.
  - by eapply meta_used_ext.
  - rewrite gw_at0. apply list_lookup_insert_eq. by eapply lookup_lt_Some.
  - apply gw_ext0.
Qed.

Lemma addrs_index i V sb k s : inode_ok V sb i -> 0 <= k < 13 ->
  index "ip->addrs" (i_addrs i) k s = Ret (nth (Z.to_nat k) (i_addrs i) 0) s.
Proof.
  intros Ho Hk. pose proof (in_len _ _ _ Ho) as Hl. destruct (lookup_lt_is_Some_2 (i_addrs i) (Z.to_nat k)) as [a Ha]; [lia|].
  rewrite (nth_lookup_Some _ _ _ _ Ha). apply index_eq; [lia|done].
Qed.

(** [balloc] and the store of its result into [ip->addrs[k]]. *)
Lemma alloc_addr pid n sb s ip i k :
  iok pid (n + 2) sb s ip i -> 0 <= n -> has_free (view s) sb 1 -> 0 <= k <= NDIRECT -> nth (Z.to_nat k) (i_addrs i) 0 = 0 ->
  exists x s', (let! addr := balloc 1 in
     updinode ip (fun i => set_i_addrs (store (i_addrs i) k addr) i) ;; ret addr) s = Ret x s' /\ x <> 0 /\
    tx pid [] n s' /\ istep s s' /\ k_inodes s' = <[ip := set_i_addrs (store (i_addrs i) k x) i]> (k_inodes s) /\
    ext sb (view s) i (view s') (set_i_addrs (store (i_addrs i) k x) i) /\
    (forall m, has_free (view s) sb m -> has_free (view s') sb (m - 1)).
Proof.
  intros [Ht Hsb Hl Hm Hat Ho] Hn Hf Hk Hz. change NDIRECT with 12 in *.
  destruct (balloc_tx pid [] n s sb) as (x & s1 & E1 & T1 & S1 & X1 & F1 & A1 & L1); auto; [intros y Hy; by apply elem_of_nil in Hy|].
  destruct (tstep_inodes _ _ S1) as [I1 _]. pose proof (layout_pos _ _ _ Hl) as (P1 & _).
  exists x, (set_k_inodes (<[ip := set_i_addrs (store (i_addrs i) k x) i]> (k_inodes s1)) s1).
  split; [|split; [lia|split; [by apply tx_inodes|split; [|split; [cbn; by rewrite I1|split]]]]].
  - erewrite bind_run by exact E1. by erewrite bind_run by (apply updinode_eq; by rewrite I1).
  - eapply istep_trans; [by apply istep_tstep|apply istep_set].
  - rewrite view_inodes. destruct (decide (k = 12)) as [->|Hk'].
    + by eapply ext_ind.
    + eapply ext_direct; eauto; [change NDIRECT with 12; lia|]. unfold iaddr. by rewrite (proj2 (Z.ltb_lt k NDIRECT)) by (change NDIRECT with 12; lia).
  - intros m Hm'. rewrite view_inodes. by eapply has_free_step.
Qed.

(** The second half of [bmap], once the indirect block is there. *)
Definition bmap_entry (addr bn : Z) : K Z :=
  let! bp := bread 1 addr in
  let! d := getbuf bp in
  let addr := rd32 (b_data d) (4 * bn) in
  let! addr := (if addr =? 0 then
                  let! addr := balloc 1 in
                  updbuf bp (fun d => set_b_data (wr32 (b_data d) (4 * bn) addr) d) ;;
                  log_write bp ;;
                  ret addr
                else ret addr) in
  brelse bp ;;
  ret addr.

Lemma has_free_sub sb V m n : has_free V sb m -> n <= m -> has_free V sb n.
Proof. intros H Hn. by eapply has_free_mono. Qed.

Lemma same_grows pid n n' sb s ip i s' :
  iok pid n sb s ip i -> tx pid [] n' s' -> tstep s s' -> (forall y, view s' y = view s y) -> grows pid n' sb s ip i s' i.
Proof.
  intros [Ht Hsb Hl Hm Hat Ho] Ht' Hs Hv. destruct (tstep_inodes _ _ Hs) as [I _]. constructor; auto.
  - by apply istep_tstep.
  - by rewrite I, list_insert_id.
  - by apply inode_ok_ext.
  - intros m Hf. eapply has_free_sub; [by eapply has_free_ext|lia].
Qed.

Lemma bmap_entry_tx pid n sb s ip i k :
  iok pid (n + 3) sb s ip i -> 0 <= n -> has_free (view s) sb 1 -> NDIRECT <= k < MAXFILE -> iind i <> 0 ->
  exists a s', bmap_entry (iind i) (k - NDIRECT) s = Ret a s' /\ tx pid [] n s' /\ tstep s s' /\ ext sb (view s) i (view s') i /\
    iaddr (view s') i k = a /\ a <> 0 /\ (forall m, has_free (view s) sb m -> has_free (view s') sb (m - 1)).
Proof.
  intros Hio Hn Hf Hk Hne. pose proof Hio as [Ht Hsb Hl Hm Hat Ho]. pose proof (layout_pos _ _ _ Hl) as (P1 & P2 & P3).
  destruct (in_own _ _ _ Ho _ (owns_ind (view s) i Hne)) as (R1 & R2 & R3).
  assert (Ea : iaddr (view s) i k = rd32 (view s (iind i)) (4 * (k - NDIRECT))).
  { unfold iaddr. rewrite (proj2 (Z.ltb_ge k NDIRECT)), (proj2 (Z.eqb_neq (iind i) 0)) by (done || lia). done. }
  destruct (home_block _ _ _ (iind i) Hl) as [Hh Hd]; [lia|].
  destruct (tx_bread pid [] (n + 3) s (iind i)) as (bp & s1 & E1 & T1 & S1 & V1 & B1 & H1); [done|lia|set_solver|lia|cbn; lia|].
  destruct (getbuf_hb _ _ _ _ _ H1) as (d & Eg & Egd & _). unfold bmap_entry. erewrite bind_run by exact E1.
  erewrite bind_run by exact Eg. cbv zeta. rewrite Egd, <- Ea. pose proof (layout_step _ _ _ Hl S1) as Hl1.
  destruct (Z.eqb_spec (iaddr (view s) i k) 0) as [Hz|Hz].
  - destruct (balloc_tx pid [(bp, iind i)] (n + 1) s1 sb) as (x & s2 & E2 & T2 & S2 & X2 & F2 & A2 & L2).
    { eapply tx_weaken; [exact T1|lia]. }
    { lia. } { cbn; lia. } { by rewrite (proj2 (tstep_inodes _ _ S1)). } { done. }
    { intros b Hb. rewrite (is_free_ext sb (view s)) by done. by apply Hm. }
    { intros y Hy. apply list_elem_of_singleton in Hy as ->. rewrite (is_free_ext sb (view s)) by done. done. }
    { by eapply has_free_ext. }
    rewrite (is_free_ext sb (view s)) in F2 by done. rewrite V1 in L2. pose proof (layout_step _ _ _ Hl1 S2) as Hl2.
    assert (A2' : allocated sb x (view s) (view s2)) by (intros y; rewrite A2, !V1; done).
    assert (Eind : view s2 (iind i) = view s (iind i)).
    { eapply allocated_frame; [exact Hl|exact A2'|done|lia|]. intros Ex. rewrite Ex in R2. congruence. }
    destruct (tx_store pid [] n s2 bp (iind i) (fun d => set_b_data (wr32 (b_data d) (4 * (k - NDIRECT)) x) d)
      (wr32 (view s (iind i)) (4 * (k - NDIRECT)) x)) as (s3 & s4 & E3 & E4 & T4 & S4 & V4).
    { exact T2. } { lia. }
    { by destruct (home_block _ _ _ (iind i) Hl2) as [_ ?]; [lia|]. }
    { by destruct (home_block _ _ _ (iind i) Hl2) as [? _]; [lia|]. }
    { set_solver. } { set_solver. } { intros b Hb. by rewrite Hb, Eind. }
    { rewrite Bytes.wr32_length; [done|..]; change NDIRECT with 12 in *; change MAXFILE with 140 in *; lia. }
    destruct (tx_relse pid [] n s4 bp (iind i) T4) as (s5 & E5 & T5 & S5 & V5); [set_solver|].
    rewrite (bind_run _ _ _ x s4).
    2:{ erewrite bind_run by exact E2. erewrite bind_run by exact E3. by erewrite bind_run by exact E4. }
    erewrite bind_run by exact E5. exists x, s5. pose proof (layout_pos _ _ _ Hl) as _.
    assert (Hx : ext sb (view s) i (view s5) i).
    { eapply (ext_entry sb _ _ (view s) (view s2) i x Hl Ho X2 F2 A2' L2 k); [done|done|done|]. intros y. rewrite V5, V4. done. }
    split; [done|]. split; [done|]. split; [etrans; [exact S1|]; etrans; [exact S2|by etrans]|]. split; [done|]. split; [|split; [lia|]].
    + unfold iaddr. rewrite (proj2 (Z.ltb_ge k NDIRECT)), (proj2 (Z.eqb_neq (iind i) 0)) by (done || lia).
      rewrite V5, V4, Z.eqb_refl. pose proof (ly_max _ _ _ Hl). pose proof (ly_size _ _ _ Hl).
      change NDIRECT with 12 in *; change MAXFILE with 140 in *. rewrite rd32_wr32_eq by lia. apply u32_small. lia.
    + intros m Hm'. eapply (has_free_low sb _ _ (view s2)); [exact Hl| |by eapply has_free_step].
      intros y Hy. rewrite V5, V4, (proj2 (Z.eqb_neq y (iind i))) by lia. done.
  - rewrite bind_ret. destruct (tx_relse pid [] (n + 3) s1 bp (iind i) T1) as (s2 & E2 & T2 & S2 & V2); [set_solver|].
    erewrite bind_run by exact E2. assert (V2' : forall y, view s2 y = view s y) by (intros y; by rewrite V2, V1).
    exists (iaddr (view s) i k), s2. split; [done|]. split; [eapply tx_weaken; [done|lia]|]. split; [by etrans|].
    split; [by apply inode_ok_ext|]. split; [unfold iaddr; by rewrite V2'|]. split; [done|].
    intros m Hm'. eapply has_free_sub; [by eapply has_free_ext|lia].
Qed.

Lemma bmap_tx pid n sb s ip i k :
  iok pid (n + 5) sb s ip i -> 0 <= n -> has_free (view s) sb 2 -> 0 <= k < MAXFILE ->
  exists a s' i', bmap ip k s = Ret a s' /\ grows pid n sb s ip i s' i' /\ iaddr (view s') i' k = a /\ a <> 0.
Proof.
  intros Hio Hn Hf Hk. pose proof Hio as [Ht Hsb Hl Hm Hat Ho]. unfold bmap. erewrite bind_run by by apply getinode_eq.
  rewrite (in_dev _ _ _ Ho). change NDIRECT with 12. change MAXFILE with 140 in *.
  assert (Hio2 : iok pid (n + 3 + 2) sb s ip i) by (by replace (n + 3 + 2) with (n + 5) by lia).
  destruct (Z.ltb_spec k 12) as [Hd|Hd].
  - erewrite bind_run by (eapply addrs_index; [exact Ho|lia]).
    destruct (Z.eqb_spec (nth (Z.to_nat k) (i_addrs i) 0) 0) as [Hz|Hz].
    + destruct (alloc_addr pid (n + 3) sb s ip i k) as (x & s1 & E1 & N1 & T1 & S1 & I1 & X1 & F1);
        [done|lia|apply (has_free_sub _ _ 2); [done|lia]|change NDIRECT with 12; lia|done|].
      exists x, s1, (set_i_addrs (store (i_addrs i) k x) i). split; [exact E1|]. split; [|split; [|done]].
      * constructor; auto; [eapply tx_weaken; [done|lia]|]. intros m Hm'. eapply has_free_sub; [by apply F1|lia].
      * unfold iaddr. change NDIRECT with 12. rewrite (proj2 (Z.ltb_lt k 12)) by lia. cbn [i_addrs set_i_addrs].
        rewrite nth_store by (rewrite ?(in_len _ _ _ Ho); lia). by rewrite Nat.eqb_refl.
    + exists (nth (Z.to_nat k) (i_addrs i) 0), s, i. split; [done|]. split; [|split; [|done]].
      * eapply same_grows; [exact Hio|eapply tx_weaken; [done|lia]|done|done].
      * unfold iaddr. change NDIRECT with 12. by rewrite (proj2 (Z.ltb_lt k 12)) by lia.
  - change NINDIRECT with 128. rewrite (proj2 (Z.ltb_lt (k - 12) 128)) by lia.
    erewrite bind_run by (eapply addrs_index; [exact Ho|lia]). change (nth (Z.to_nat 12) (i_addrs i) 0) with (iind i).
    destruct (Z.eqb_spec (iind i) 0) as [Hz|Hz].
    + destruct (alloc_addr pid (n + 3) sb s ip i NDIRECT) as (x & s1 & E1 & N1 & T1 & S1 & I1 & X1 & F1);
        [done|lia|apply (has_free_sub _ _ 2); [done|lia]|change NDIRECT with 12; lia|done|].
      set (i1 := set_i_addrs (store (i_addrs i) NDIRECT x) i) in *.
      assert (Hi1 : iind i1 = x).
      { unfold iind, i1. cbn [i_addrs set_i_addrs]. rewrite nth_store; [done|change (Z.to_nat NDIRECT) with 12%nat; pose proof (in_len _ _ _ Ho); lia|done]. }
      assert (G1 : grows pid (n + 3) sb s ip i s1 i1).
      { constructor; auto. intros m Hm'. apply (has_free_sub _ _ (m - 1)); [by apply F1|lia]. }
      erewrite bind_run by exact E1. rewrite <- Hi1.
      destruct (bmap_entry_tx pid n sb s1 ip i1 k) as (a & s2 & E2 & T2 & S2 & X2 & A2 & N2 & F2);
        [by eapply grows_iok|done|apply (has_free_sub _ _ (2 - 1)); [by apply F1|lia]|change NDIRECT with 12; change MAXFILE with 140; lia|congruence|].
      exists a, s2, i1. split; [exact E2|]. split; [|done]. destruct (tstep_inodes _ _ S2) as [I2 _].
      constructor; auto; [eapply istep_trans; [exact S1|by apply istep_tstep]|by rewrite I2|by eapply ext_trans|].
      intros m Hm'. apply (has_free_sub _ _ (m - 1 - 1)); [by apply F2, F1|lia].
    + rewrite bind_ret.
      destruct (bmap_entry_tx pid n sb s ip i k) as (a & s2 & E2 & T2 & S2 & X2 & A2 & N2 & F2);
        [destruct Hio; constructor; auto; eapply tx_weaken; [done|lia]|done|apply (has_free_sub _ _ 2); [done|lia]|
         change NDIRECT with 12; change MAXFILE with 140; lia|done|].
      exists a, s2, i. split; [exact E2|]. split; [|done]. destruct (tstep_inodes _ _ S2) as [I2 _].
      constructor; auto; [by apply istep_tstep|by rewrite I2, list_insert_id|].
      intros m Hm'. apply (has_free_sub _ _ (m - 1)); [by apply F2|lia].
Qed.
End Bmap.

(** * Changing the contents *)

(** Only the inode's own and formerly free blocks change. *)
Record fchange (sb : superblock) (V : Z -> list Z) (i : inode) (V' : Z -> list Z) (i' : inode) : Prop := {
  fc_ok : inode_ok V' sb i';
  fc_fields : i' = set_i_addrs (i_addrs i') i;
  fc_addr : forall k, 0 <= k < MAXFILE -> iaddr V i k <> 0 -> iaddr V' i' k = iaddr V i k;
  fc_frame : forall y, data_start sb <= y < sb_size sb -> is_free V sb y = false -> ~ owns V i y -> V' y = V y;
  fc_low : forall y, y < sb_bmapstart sb \/ sb_size sb <= y -> V' y = V y;
  fc_used : forall y, 0 <= y < sb_size sb -> is_free V sb y = false -> is_free V' sb y = false;
  fc_new : forall b, owns V' i' b -> owns V i b \/ is_free V sb b = true
}.

Section Change.
Implicit Types (sb : superblock) (V : Z -> list Z) (i : inode).

Lemma ext_change sb lg d V i V' i' : layout sb lg d -> ext sb V i V' i' -> fchange sb V i V' i'.
Proof.
  intros Hl []. pose proof (layout_pos _ _ _ Hl) as (P1 & _). constructor; auto.
  intros y Hy Hu Hno. apply ex_frame0; auto. intros ->. apply Hno, owns_ind. lia.
Qed.

Lemma fchange_trans sb V i V1 i1 V2 i2 lg d :
  layout sb lg d -> fchange sb V i V1 i1 -> fchange sb V1 i1 V2 i2 -> fchange sb V i V2 i2.
Proof.
  intros Hl A B. pose proof (layout_pos _ _ _ Hl) as (P1 & P2 & P3). constructor.
  - apply B.
  - rewrite (fc_fields _ _ _ _ _ B), (fc_fields _ _ _ _ _ A). done.
  - intros k Hk Hne. pose proof (fc_addr _ _ _ _ _ A k Hk Hne) as E. rewrite <- E. apply (fc_addr _ _ _ _ _ B); [done|congruence].
  - intros y Hy Hu Hno. rewrite (fc_frame _ _ _ _ _ B); [by apply (fc_frame _ _ _ _ _ A)|done|apply (fc_used _ _ _ _ _ A); [lia|done]|].
    intros Ho. destruct (fc_new _ _ _ _ _ A y Ho); [done|congruence].
  - intros y Hy. rewrite (fc_low _ _ _ _ _ B) by done. by apply (fc_low _ _ _ _ _ A).
  - intros y Hy Hu. apply (fc_used _ _ _ _ _ B); [done|]. by apply (fc_used _ _ _ _ _ A).
  - intros b Hb. destruct (fc_new _ _ _ _ _ B b Hb) as [Hb1|Hb1]; [by apply (fc_new _ _ _ _ _ A)|].
    destruct (is_free V sb b) eqn:E; [by right|]. destruct (in_own _ _ _ (fc_ok _ _ _ _ _ B) b Hb) as [Hr _].
    rewrite (fc_used _ _ _ _ _ A b) in Hb1; [done|lia|done].
Qed.

(** Bytes stored into one block of the file. *)
Lemma store_change sb lg d V i off bs V' :
  layout sb lg d -> inode_ok V sb i -> 0 <= off < MAXFILE * BSIZE -> off mod BSIZE + Z.of_nat (length bs) <= BSIZE ->
  let a := iaddr V i (off / BSIZE) in a <> 0 ->
  (forall y, V' y = if y =? a then splice (V a) (off mod BSIZE) bs else V y) ->
  fchange sb V i V' i /\
  forall o, 0 <= o < MAXFILE * BSIZE ->
    fbyte V' i o = if (off <=? o) && (o <? off + Z.of_nat (length bs)) then nth (Z.to_nat (o - off)) bs 0 else fbyte V i o.
Proof.
  intros Hl Ho Hoff Hbs a Ha HV. pose proof (layout_pos _ _ _ Hl) as (P1 & P2 & P3).
  change BSIZE with 512 in *. change MAXFILE with 140 in *.
  assert (Hk : 0 <= off / 512 < 140) by (split; [apply Z.div_pos; lia|apply Z.div_lt_upper_bound; lia]).
  pose proof (owns_addr V i (off / 512) Hk Ha) as Hown. fold a in Hown. destruct (in_own _ _ _ Ho a Hown) as (R1 & R2 & R3).
  pose proof (Z.mod_pos_bound off 512 ltac:(lia)) as Hmod. pose proof (Z.div_mod off 512 ltac:(lia)) as Hdm.
  assert (Hai : a <> iind i) by (by apply Ho).
  assert (Hia : forall j, iaddr V' i j = iaddr V i j).
  { intros j. unfold iaddr. destruct (j <? NDIRECT); [done|]. by rewrite HV, (proj2 (Z.eqb_neq (iind i) a)) by done. }
  assert (Hlow : forall y, y <> a -> V' y = V y) by (intros y Hy; by rewrite HV, (proj2 (Z.eqb_neq y a))).
  assert (Hfree : forall y, 0 <= y < sb_size sb -> is_free V' sb y = is_free V sb y).
  { intros y Hy. unfold is_free. destruct (BBLOCK_range _ _ _ y Hl Hy) as [B _]. by rewrite Hlow by lia. }
  assert (How : forall b, owns V' i b -> owns V i b).
  { intros b [Hb [->|(j & Hj & ->)]]; [by apply owns_ind|]. rewrite Hia in *. by apply owns_addr. }
  assert (Hlen : length (V' a) = 512%nat) by (rewrite HV, Z.eqb_refl, splice_length; [done|lia|lia]).
  split.
  - constructor; auto.
    + constructor; [apply Ho|apply Ho| | |].
      * intros b Hb%How. destruct (in_own _ _ _ Ho b Hb) as (B1 & B2 & B3). split; [done|]. split; [by rewrite Hfree by lia|].
        destruct (decide (b = a)) as [->|]; [done|by rewrite Hlow].
      * intros j k. rewrite !Hia. apply Ho.
      * intros k. rewrite Hia. apply Ho.
    + by destruct i.
    + intros y Hy Hu Hno. apply Hlow. by intros ->.
    + intros y Hy. apply Hlow. lia.
    + intros y Hy. by rewrite Hfree.
  - intros o Hob. unfold fbyte. rewrite Hia. change BSIZE with 512.
    assert (Hko : 0 <= o / 512 < 140) by (split; [apply Z.div_pos; lia|apply Z.div_lt_upper_bound; lia]).
    pose proof (Z.mod_pos_bound o 512 ltac:(lia)) as Hmodo. pose proof (Z.div_mod o 512 ltac:(lia)) as Hdmo.
    destruct (decide (o / 512 = off / 512)) as [E|E].
    + rewrite E. fold a. rewrite (proj2 (Z.eqb_neq a 0)) by done. rewrite HV, Z.eqb_refl, !nth_lookup.
      destruct (Z.leb_spec off o), (Z.ltb_spec o (off + Z.of_nat (length bs))); cbn [andb].
      * replace (Z.to_nat (o mod 512)) with (Z.to_nat (off mod 512) + Z.to_nat (o - off))%nat by lia.
        by rewrite splice_lookup_in by lia.
      * by rewrite splice_lookup_out by lia.
      * by rewrite splice_lookup_out by lia.
      * by rewrite splice_lookup_out by lia.
    + assert (Hout : (off <=? o) && (o <? off + Z.of_nat (length bs)) = false).
      { destruct (Z.leb_spec off o), (Z.ltb_spec o (off + Z.of_nat (length bs))); cbn; try done. destruct E.
        apply Z.le_antisymm; [|apply Z.div_le_mono; lia]. apply Z.lt_succ_r, Z.div_lt_upper_bound; lia. }
      rewrite Hout. destruct (Z.eqb_spec (iaddr V i (o / 512)) 0) as [Ez|Ez]; [done|]. rewrite Hlow; [done|].
      intros E'. apply E. by apply (in_inj _ _ _ Ho).
Qed.
End Change.

Section Write.
Context {WF : WaitFuel} {DS : Devsw}.
Implicit Types (s : kernel) (pid : Z) (sb : superblock) (V : Z -> list Z) (i : inode) (ip : nat).

(** The file after [bs] has been written at [off]. *)
Definition bytes_at (off : Z) (bs : list Z) (old : Z -> Z) (o : Z) : Z :=
  if (off <=? o) && (o <? off + Z.of_nat (length bs)) then nth (Z.to_nat (o - off)) bs 0 else old o.

Record wrote (pid n : Z) sb s ip i (off : Z) (bs : list Z) s' i' : Prop := {
  wr_tx : tx pid [] n s';
  wr_step : istep s s';
  wr_at : k_inodes s' = <[ip := i']> (k_inodes s);
  wr_change : fchange sb (view s) i (view s') i';
  wr_bytes : forall o, 0 <= o < MAXFILE * BSIZE -> fbyte (view s') i' o = bytes_at off bs (fbyte (view s) i) o;
  wr_alloc : forall o, off <= o < off + Z.of_nat (length bs) -> iaddr (view s') i' (o / BSIZE) <> 0
}.

Lemma wrote_iok pid n n' sb s ip i off bs s' i' : iok pid n sb s ip i -> wrote pid n' sb s ip i off bs s' i' -> iok pid n' sb s' ip i'.
Proof.
  intros [Ht Hsb Hl Hm Hat Ho] []. constructor; auto.
  - by erewrite istep_sb.
  - by eapply istep_layout.
  - intros b Hb. apply (fc_used _ _ _ _ _ wr_change0); [pose proof (ly_data _ _ _ Hl); lia|by apply Hm].
  - rewrite wr_at0. apply list_lookup_insert_eq. by eapply lookup_lt_Some.
  - apply wr_change0.
Qed.

Lemma bytes_at_app off a b old o :
  bytes_at (off + Z.of_nat (length a)) b (bytes_at off a old) o = bytes_at off (a ++ b) old o.
Proof.
  unfold bytes_at. rewrite length_app.
  destruct (Z.leb_spec (off + Z.of_nat (length a)) o), (Z.leb_spec off o), (Z.ltb_spec o (off + Z.of_nat (length a) + Z.of_nat (length b))),
    (Z.ltb_spec o (off + Z.of_nat (length a))), (Z.ltb_spec o (off + Z.of_nat (length a + length b))); cbn [andb]; try lia; try done.
  - rewrite app_nth2 by lia. f_equal. lia.
  - rewrite app_nth1 by lia. done.
Qed.

(** One round of the loop of [writei]. *)
Lemma writei_round pid n sb s ip i off bs :
  iok pid (n + 6) sb s ip i -> 0 <= n -> has_free (view s) sb 2 -> 0 <= off < MAXFILE * BSIZE ->
  off mod BSIZE + Z.of_nat (length bs) <= BSIZE -> bs <> [] ->
  exists a b s1 s2 s3 s4 s5 i1, bmap ip (off / BSIZE) s = Ret a s1 /\ bread 1 a s1 = Ret b s2 /\
    updbuf b (fun d => set_b_data (splice (b_data d) (off mod BSIZE) bs) d) s2 = Ret tt s3 /\
    log_write b s3 = Ret tt s4 /\ brelse b s4 = Ret tt s5 /\ wrote pid n sb s ip i off bs s5 i1 /\
    (forall m, has_free (view s) sb m -> has_free (view s5) sb (m - 2)).
Proof.
  intros Hio Hn Hf Hoff Hbs Hne. pose proof (io_lay _ _ _ _ _ _ Hio) as Hl. pose proof (layout_pos _ _ _ Hl) as (P1 & P2 & P3).
  change BSIZE with 512 in *. assert (Hk : 0 <= off / 512 < MAXFILE).
  { change MAXFILE with 140 in *. split; [apply Z.div_pos; lia|apply Z.div_lt_upper_bound; lia]. }
  destruct (bmap_tx pid (n + 1) sb s ip i (off / 512)) as (a & s1 & i1 & E1 & G1 & A1 & N1);
    [by replace (n + 1 + 5) with (n + 6) by lia|lia|done|done|].
  pose proof (grows_iok _ _ _ _ _ _ _ _ _ Hio G1) as [T1 Hsb1 Hl1 Hm1 Hat1 Ho1]. destruct G1 as [_ S1 I1 X1 F1].
  assert (Hown : owns (view s1) i1 a) by (rewrite <- A1; apply owns_addr; [done|congruence]).
  destruct (in_own _ _ _ Ho1 a Hown) as (R1 & R2 & R3). destruct (home_block _ _ _ a Hl1) as [Hh Hd]; [lia|].
  destruct (tx_bread pid [] (n + 1) s1 a) as (b & s2 & E2 & T2 & S2 & V2 & B2 & _); [done|lia|set_solver|lia|cbn; lia|].
  destruct (ts_area _ _ S2) as (Q1 & Q2 & _). pose proof (Z.mod_pos_bound off 512 ltac:(lia)) as Hmod.
  destruct (tx_store pid [] n s2 b a (fun d => set_b_data (splice (b_data d) (off mod 512) bs) d)
    (splice (view s1 a) (off mod 512) bs)) as (s3 & s4 & E3 & E4 & T4 & S4 & V4).
  { done. } { done. } { by rewrite (ts_disk _ _ S2). } { unfold home in *. by rewrite Q1, Q2. } { set_solver. } { set_solver. }
  { intros bp Hbp. by rewrite Hbp, V2. } { rewrite splice_length; [done|lia|lia]. }
  destruct (tx_relse pid [] n s4 b a T4) as (s5 & E5 & T5 & S5 & V5); [set_solver|].
  assert (HV : forall y, view s5 y = if y =? a then splice (view s1 a) (off mod 512) bs else view s1 y).
  { intros y. rewrite V5, V4. destruct (y =? a); [done|apply V2]. }
  destruct (store_change sb _ _ (view s1) i1 off bs (view s5) Hl1 Ho1) as [C5 Y5];
    [done|done|change BSIZE with 512; by rewrite A1|change BSIZE with 512; by rewrite A1|].
  assert (Hts : tstep s1 s5) by (etrans; [exact S2|by etrans]). destruct (tstep_inodes _ _ Hts) as [I5 _].
  exists a, b, s1, s2, s3, s4, s5, i1. repeat (split; [done|]). split.
  - constructor.
    + done.
    + eapply istep_trans; [exact S1|by apply istep_tstep].
    + by rewrite I5.
    + eapply fchange_trans; [exact Hl|by eapply ext_change|exact C5].
    + intros o Ho. rewrite Y5 by done. unfold bytes_at. destruct (_ && _); [done|]. by apply (ex_byte _ _ _ _ _ X1).
    + change BSIZE with 512. intros o Ho. assert (o / 512 = off / 512) as ->.
      { symmetry. pose proof (Z.div_mod off 512 ltac:(lia)). apply (Z.div_unique _ _ _ (o - 512 * (off / 512))); lia. }
      rewrite (fc_addr _ _ _ _ _ C5); [congruence|done|congruence].
  - intros m Hm'. eapply (has_free_low sb _ _ (view s1)); [exact Hl1| |by apply F1].
    intros y Hy. rewrite HV, (proj2 (Z.eqb_neq y a)) by lia. done.
Qed.

Lemma wrote_trans pid n n' n0 sb s ip i off a b s1 i1 s2 i2 :
  iok pid n0 sb s ip i -> 0 <= off -> off + Z.of_nat (length a) + Z.of_nat (length b) <= MAXFILE * BSIZE ->
  wrote pid n sb s ip i off a s1 i1 -> wrote pid n' sb s1 ip i1 (off + Z.of_nat (length a)) b s2 i2 ->
  wrote pid n' sb s ip i off (a ++ b) s2 i2.
Proof.
  intros Hio Hoff Hmax [T1 S1 I1 C1 Y1 A1] [T2 S2 I2 C2 Y2 A2]. constructor.
  - done.
  - by eapply istep_trans.
  - by rewrite I2, I1, list_insert_insert_eq.
  - eapply fchange_trans; [apply Hio|exact C1|exact C2].
  - intros o Ho. rewrite Y2 by done. rewrite <- bytes_at_app. unfold bytes_at at 1 2. destruct (_ && _); [done|]. by apply Y1.
  - rewrite length_app, Nat2Z.inj_add, Z.add_assoc. intros o Ho. change BSIZE with 512 in *. change MAXFILE with 140 in *.
    destruct (decide (o < off + Z.of_nat (length a))) as [Hlt|Hge]; [|apply A2; lia].
    specialize (A1 o ltac:(lia)). rewrite (fc_addr _ _ _ _ _ C2); auto. change MAXFILE with 140.
    split; [apply Z.div_pos; lia|apply Z.div_lt_upper_bound; lia].
Qed.

Lemma iwrote_nil pid n sb s ip i off : iok pid n sb s ip i -> 0 <= off -> wrote pid n sb s ip i off [] s i.
Proof.
  intros [Ht Hsb Hl Hm Hat Ho] Hoff. constructor; auto.
  - by apply istep_tstep.
  - by rewrite list_insert_id.
  - eapply ext_change; [exact Hl|by apply ext_refl].
  - intros o _. unfold bytes_at. cbn [length Z.of_nat]. rewrite Z.add_0_r.
    destruct (Z.leb_spec off o), (Z.ltb_spec o off); cbn [andb]; try done; lia.
  - cbn. lia.
Qed.

Lemma writei_loop_tx pid sb fuel : forall s ip i src off n,
  iok pid (6 * Z.of_nat fuel + n) sb s ip i -> 0 <= n -> has_free (view s) sb (2 * Z.of_nat fuel) -> 0 <= off ->
  off + Z.of_nat (length src) <= MAXFILE * BSIZE -> length src = 0%nat \/ off + Z.of_nat (length src) <= (off / BSIZE + Z.of_nat fuel) * BSIZE ->
  exists s' i', writei_loop fuel ip src off (Z.of_nat (length src)) s = Ret (off + Z.of_nat (length src)) s' /\
    wrote pid n sb s ip i off src s' i'.
Proof.
  induction fuel as [|f IH]; intros s ip i src off n Hio Hn Hf Hoff Hmax Hfuel; change BSIZE with 512 in *;
    pose proof (Z.div_mod off 512 ltac:(lia)) as Hdm; pose proof (Z.mod_pos_bound off 512 ltac:(lia)) as Hmod.
  - assert (length src = 0)%nat as Hz by lia. apply nil_length_inv in Hz as ->. exists s, i. cbn [writei_loop length Z.of_nat Z.leb Z.compare].
    split; [by rewrite Z.add_0_r|]. apply iwrote_nil; [|done]. by replace (6 * Z.of_nat 0 + n) with n in Hio by lia.
  - cbn [writei_loop]. destruct (Z.leb_spec (Z.of_nat (length src)) 0) as [Hz|Hz].
    { assert (length src = 0)%nat as Hz' by lia. apply nil_length_inv in Hz' as ->. exists s, i. rewrite Z.add_0_r. split; [done|].
      apply iwrote_nil; [|done]. destruct Hio. constructor; auto. eapply tx_weaken; [done|lia]. }
    set (m := chunk (Z.of_nat (length src)) off). assert (Hm : 0 < m <= Z.of_nat (length src) /\ off mod 512 + m <= 512).
    { unfold m, chunk. change BSIZE with 512. lia. }
    assert (Hlt : length (take (Z.to_nat m) src) = Z.to_nat m) by (rewrite length_take; lia).
    destruct (writei_round pid (6 * Z.of_nat f + n) sb s ip i off (take (Z.to_nat m) src))
      as (a & b & s1 & s2 & s3 & s4 & s5 & i1 & E1 & E2 & E3 & E4 & E5 & W & F).
    { by replace (6 * Z.of_nat f + n + 6) with (6 * Z.of_nat (S f) + n) by lia. }
    { lia. } { eapply has_free_sub; [exact Hf|lia]. } { change BSIZE with 512. change MAXFILE with 140 in *. lia. }
    { change BSIZE with 512. rewrite Hlt. lia. } { intros E. rewrite E in Hlt. cbn in Hlt. lia. }
    change BSIZE with 512 in E1, E3.
    erewrite bind_run by (apply getinode_eq, Hio). erewrite bind_run by exact E1. rewrite (in_dev _ _ _ (io_ok _ _ _ _ _ _ Hio)).
    erewrite bind_run by exact E2. cbv zeta. fold m. erewrite bind_run by exact E3. erewrite bind_run by exact E4.
    erewrite bind_run by exact E5.
    assert (Hd : Z.of_nat (length (drop (Z.to_nat m) src)) = Z.of_nat (length src) - m) by (rewrite length_drop; lia).
    destruct (IH s5 ip i1 (drop (Z.to_nat m) src) (off + m) n) as (s' & i' & E6 & W6).
    + by eapply wrote_iok.
    + done.
    + eapply has_free_sub; [apply F, Hf|lia].
    + lia.
    + rewrite Hd. lia.
    + rewrite Hd. change BSIZE with 512. unfold m, chunk in *. change BSIZE with 512 in *.
      destruct (decide (Z.of_nat (length src) <= 512 - off mod 512)) as [Hl|Hl]; [left; lia|right].
      rewrite Z.min_r in * by lia. assert ((off + (512 - off mod 512)) / 512 = off / 512 + 1) as ->; [|lia].
      symmetry. apply (Z.div_unique _ _ _ 0); lia.
    + exists s', i'. rewrite Hd in E6. rewrite E6. split; [f_equal; lia|]. rewrite <- (take_drop (Z.to_nat m) src).
      eapply wrote_trans; [exact Hio|done| |exact W|]; rewrite Hlt, Z2Nat.id by lia; [rewrite Hd; change BSIZE with 512; lia|done].
Qed.
End Write.

Section Read.
Context {WF : WaitFuel} {DS : Devsw}.
Implicit Types (s : kernel) (pid : Z) (sb : superblock) (V : Z -> list Z) (i : inode) (ip : nat).

(** An inode in the cache, outside or inside a transaction on the blocks [D]. *)
Record rdc (pid : Z) (D : list Z) sb s ip i : Prop := {
  rc_blk : blk pid [] D s;
  rc_len : (length D + 1 < bhead)%nat;
  rc_size : 0 < data_start sb /\ sb_size sb <= d_size (k_disk s);
  rc_at : k_inodes s !! ip = Some i;
  rc_ok : inode_ok (view s) sb i
}.

(** The block layer changes and no contents do. *)
Definition quiet s s' : Prop := fs_step s s' /\ k_disk s' = k_disk s /\ k_log s' = k_log s /\ forall y, view s' y = view s y.

Lemma quiet_trans s1 s2 s3 : quiet s1 s2 -> quiet s2 s3 -> quiet s1 s3.
Proof. intros (A & B & C & E) (A' & B' & C' & E'). split_and!; [by etrans|congruence|congruence|]. intros y. by rewrite E'. Qed.

Lemma rdc_quiet pid D sb s ip i s' : rdc pid D sb s ip i -> blk pid [] D s' -> quiet s s' -> rdc pid D sb s' ip i.
Proof.
  intros [] Hk (Hf & Hd & _ & Hv). constructor; auto; [by rewrite Hd| |].
  - rewrite (fs_eq _ _ Hf). by destruct s.
  - by destruct (inode_ok_ext sb (view s) (view s') i rc_ok0 Hv).
Qed.

(** [bread] of a block of the file, and [brelse]. *)
Lemma rdc_block pid D sb s ip i a :
  rdc pid D sb s ip i -> owns (view s) i a ->
  exists b s1 s2, bread 1 a s = Ret b s1 /\ hb s1 b a (view s a) true /\ brelse b s1 = Ret tt s2 /\ quiet s s2 /\ rdc pid D sb s2 ip i.
Proof.
  intros Hr Ha. pose proof Hr as [Hk Hl Hs Hat Ho]. destruct (in_own _ _ _ Ho a Ha) as (R1 & _).
  destruct (bread_fs pid [] D s a) as (b & s1 & E1 & [K1 S1 H1 _ V1 D1 L1 _]); auto; [set_solver|set_solver|left; cbn; lia|lia|].
  destruct (brelse_fs pid [b] [] D s1 b a (view s a)) as (s2 & E2 & [K2 S2 V2 D2 L2 _]); auto.
  assert (Hq : quiet s s2) by (split_and!; [by etrans|congruence|congruence|]; intros y; by rewrite V2, V1).
  exists b, s1, s2. split_and!; auto. by eapply rdc_quiet.
Qed.

Lemma bmap_present pid D sb s ip i k :
  rdc pid D sb s ip i -> 0 <= k < MAXFILE -> iaddr (view s) i k <> 0 ->
  exists s', bmap ip k s = Ret (iaddr (view s) i k) s' /\ quiet s s' /\ rdc pid D sb s' ip i.
Proof.
  intros Hr Hk Hne. pose proof Hr as [Hb Hl Hs Hat Ho]. unfold bmap. erewrite bind_run by by apply getinode_eq.
  rewrite (in_dev _ _ _ Ho). unfold iaddr in *. change NDIRECT with 12 in *. change MAXFILE with 140 in *.
  destruct (Z.ltb_spec k 12) as [Hd|Hd].
  - erewrite bind_run by (eapply addrs_index; [exact Ho|lia]). rewrite (proj2 (Z.eqb_neq _ 0)) by done. exists s. by split_and!.
  - change NINDIRECT with 128. rewrite (proj2 (Z.ltb_lt (k - 12) 128)) by lia.
    erewrite bind_run by (eapply addrs_index; [exact Ho|lia]). change (nth (Z.to_nat 12) (i_addrs i) 0) with (iind i).
    destruct (Z.eqb_spec (iind i) 0) as [Hz|Hz]; [done|]. rewrite bind_ret.
    destruct (rdc_block pid D sb s ip i (iind i) Hr) as (b & s1 & s2 & E1 & H1 & E2 & Q2 & R2); [by apply owns_ind|].
    erewrite bind_run by exact E1. destruct (getbuf_hb _ _ _ _ _ H1) as (d & Eg & Egd & _). erewrite bind_run by exact Eg.
    cbv zeta. rewrite Egd, (proj2 (Z.eqb_neq _ 0)), bind_ret by done. erewrite bind_run by exact E2. by exists s2.
Qed.

Definition fbytes V i (off n : Z) : list Z := map (fun j => fbyte V i (off + Z.of_nat j)) (seq 0 (Z.to_nat n)).

Lemma fbytes_app V i off m n : 0 <= m -> 0 <= n -> fbytes V i off (m + n) = fbytes V i off m ++ fbytes V i (off + m) n.
Proof.
  intros Hm Hn. unfold fbytes. rewrite Z2Nat.inj_add, seq_app, map_app by done. f_equal. cbn [Nat.add].
  rewrite <- (Nat.add_0_r (Z.to_nat m)) at 1. rewrite <- fmap_add_seq, map_map. apply map_ext. intros j. f_equal. lia.
Qed.

Lemma fbytes_ext V V' i off n : (forall y, V' y = V y) -> fbytes V' i off n = fbytes V i off n.
Proof. intros E. unfold fbytes. apply map_ext. intros j. unfold fbyte, iaddr. by rewrite !E. Qed.

(** A piece of one block. *)
Lemma fbytes_block V sb i off m :
  inode_ok V sb i -> 0 <= off < MAXFILE * BSIZE -> 0 <= m -> off mod BSIZE + m <= BSIZE -> iaddr V i (off / BSIZE) <> 0 ->
  slice (V (iaddr V i (off / BSIZE))) (off mod BSIZE) m = fbytes V i off m.
Proof.
  intros Ho Hoff Hm Hle Hne. change BSIZE with 512 in *. change MAXFILE with 140 in *.
  pose proof (Z.div_mod off 512 ltac:(lia)) as Hdm. pose proof (Z.mod_pos_bound off 512 ltac:(lia)) as Hmod.
  destruct (in_own _ _ _ Ho _ (owns_addr V i (off / 512) ltac:(change MAXFILE with 140; split; [apply Z.div_pos; lia|apply Z.div_lt_upper_bound; lia]) Hne))
    as (_ & _ & Hlen).
  apply list_eq. intros j. unfold fbytes. rewrite list_lookup_fmap. destruct (decide (j < Z.to_nat m)%nat) as [Hj|Hj].
  - rewrite lookup_seq_lt by done. cbn [fmap option_fmap option_map]. rewrite slice_lookup by lia. unfold fbyte. change BSIZE with 512.
    assert ((off + Z.of_nat (0 + j)) / 512 = off / 512 /\ (off + Z.of_nat (0 + j)) mod 512 = off mod 512 + Z.of_nat j) as [-> ->].
    { split; [symmetry; apply (Z.div_unique _ _ _ (off mod 512 + Z.of_nat j)); lia|].
      symmetry; apply (Z.mod_unique _ _ (off / 512)); lia. }
    rewrite (proj2 (Z.eqb_neq _ 0)) by done. replace (Z.to_nat (off mod 512 + Z.of_nat j)) with (Z.to_nat (off mod 512) + j)%nat by lia.
    destruct (lookup_lt_is_Some_2 (V (iaddr V i (off / 512))) (Z.to_nat (off mod 512) + j)) as [x Hx]; [lia|].
    rewrite Hx. f_equal. symmetry. by apply nth_lookup_Some.
  - rewrite !lookup_ge_None_2; [done|rewrite length_seq; lia|]. rewrite slice_length; lia.
Qed.

Lemma readi_loop_rd pid D sb fuel : forall s ip i off n,
  rdc pid D sb s ip i -> 0 <= off -> 0 <= n -> off + n <= MAXFILE * BSIZE ->
  (forall o, off <= o < off + n -> iaddr (view s) i (o / BSIZE) <> 0) ->
  n = 0 \/ off + n <= (off / BSIZE + Z.of_nat fuel) * BSIZE ->
  exists s', readi_loop fuel ip off n s = Ret (fbytes (view s) i off n) s' /\ quiet s s' /\ rdc pid D sb s' ip i.
Proof.
  induction fuel as [|f IH]; intros s ip i off n Hr Hoff Hn Hmax Hpres Hfuel; change BSIZE with 512 in *;
    pose proof (Z.div_mod off 512 ltac:(lia)) as Hdm; pose proof (Z.mod_pos_bound off 512 ltac:(lia)) as Hmod;
    cbn [readi_loop]; destruct (Z.leb_spec n 0) as [Hz|Hz];
    try (replace n with 0 by lia; exists s; split; [done|]; split; [by split_and!|done]); [lia|].
  set (m := chunk n off). assert (Hm : 0 < m <= n /\ off mod 512 + m <= 512) by (unfold m, chunk; change BSIZE with 512; lia).
  assert (Hk : 0 <= off / 512 < MAXFILE).
  { change MAXFILE with 140 in *. split; [apply Z.div_pos; lia|apply Z.div_lt_upper_bound; lia]. }
  assert (Hne : iaddr (view s) i (off / 512) <> 0) by (apply Hpres; lia).
  destruct (bmap_present pid D sb s ip i (off / 512) Hr Hk Hne) as (s1 & E1 & Q1 & R1). pose proof Q1 as (_ & _ & _ & V1).
  assert (Hown : owns (view s1) i (iaddr (view s) i (off / 512))).
  { unfold iaddr at 1. rewrite <- !V1. apply owns_addr; [done|]. unfold iaddr in *. by rewrite !V1. }
  destruct (rdc_block pid D sb s1 ip i _ R1 Hown) as (b & s2 & s3 & E2 & H2 & E3 & Q3 & R3).
  destruct (getbuf_hb _ _ _ _ _ H2) as (d & Eg & Egd & _). pose proof Q3 as (_ & _ & _ & V3).
  assert (V3' : forall y, view s3 y = view s y) by (intros y; by rewrite V3, V1).
  assert (Ei : forall k, iaddr (view s3) i k = iaddr (view s) i k) by (intros k; unfold iaddr; by rewrite !V3').
  erewrite bind_run by (apply getinode_eq, Hr). erewrite bind_run by exact E1. rewrite (in_dev _ _ _ (rc_ok _ _ _ _ _ _ Hr)).
  erewrite bind_run by exact E2. cbv zeta. fold m. erewrite bind_run by exact Eg. erewrite bind_run by exact E3.
  destruct (IH s3 ip i (off + m) (n - m) R3) as (s4 & E4 & Q4 & R4).
  - lia.
  - lia.
  - lia.
  - intros o Ho. change BSIZE with 512. rewrite Ei. apply Hpres. lia.
  - unfold m, chunk in *. change BSIZE with 512 in *. destruct (decide (n <= 512 - off mod 512)); [left; lia|right].
    rewrite Z.min_r in * by lia. assert ((off + (512 - off mod 512)) / 512 = off / 512 + 1) as ->; [|lia].
    symmetry. apply (Z.div_unique _ _ _ 0); lia.
  - erewrite bind_run by exact E4. exists s4. split; [|split; [|done]].
    + unfold ret. f_equal. rewrite Egd, V1. replace n with (m + (n - m)) at 2 by lia. rewrite fbytes_app by lia. f_equal.
      * apply (fbytes_block _ sb); [apply Hr|change MAXFILE with 140 in *; change BSIZE with 512; lia|lia|change BSIZE with 512; lia|done].
      * by apply fbytes_ext.
    + eapply quiet_trans; [exact Q1|]. by eapply quiet_trans.
Qed.

Lemma iupdate_tx pid n sb s ip i :
  iok pid (n + 1) sb s ip i -> 0 <= n -> 0 <= i_inum i < sb_ninodes sb ->
  let bn := IBLOCK (i_inum i) sb in
  sb_inodestart sb <= bn < sb_bmapstart sb /\
  exists s', iupdate ip s = Ret tt s' /\ tx pid [] n s' /\ tstep s s' /\
    forall y, view s' y = if y =? bn then dinode_store (view s bn) (dinode_off (i_inum i)) i else view s y.
Proof.
  intros [Ht Hsb Hl Hm Hat Ho] Hn Hi bn. pose proof (layout_pos _ _ _ Hl) as (P1 & P2 & P3).
  pose proof (ly_data _ _ _ Hl). pose proof (ly_size _ _ _ Hl). pose proof (ly_max _ _ _ Hl). pose proof (ly_ino _ _ _ Hl).
  assert (Hbn : sb_inodestart sb <= bn < sb_bmapstart sb).
  { unfold bn, IBLOCK. change IPB with 8 in *. pose proof (Z.div_pos (i_inum i) 8 ltac:(lia) ltac:(lia)).
    pose proof (Z.div_le_mono (i_inum i) (sb_ninodes sb) 8 ltac:(lia) ltac:(lia)). rewrite u32_small; lia. }
  split; [done|]. destruct (home_block _ _ _ bn Hl) as [Hh Hd]; [lia|].
  destruct (tx_bread pid [] (n + 1) s bn) as (b & s1 & E1 & T1 & S1 & V1 & B1 & _); [done|lia|set_solver|lia|cbn; lia|].
  destruct (tstep_inodes _ _ S1) as [I1 _]. destruct (ts_area _ _ S1) as (A1 & A2 & _).
  assert (Hlen : length (view s bn) = 512%nat) by (rewrite <- V1; by eapply tx_step_len).
  destruct (tx_store pid [] n s1 b bn (fun d => set_b_data (dinode_store (b_data d) (dinode_off (i_inum i)) i) d)
    (dinode_store (view s bn) (dinode_off (i_inum i)) i)) as (s2 & s3 & E2 & E3 & T3 & S3 & V3).
  { done. } { done. } { by rewrite (ts_disk _ _ S1). } { unfold home in *. by rewrite A1, A2. } { set_solver. } { set_solver. }
  { intros bp Hbp. by rewrite Hbp, V1. }
  { pose proof (Z.mod_pos_bound (i_inum i) 8 ltac:(lia)). assert (0 <= dinode_off (i_inum i) <= 448).
    { unfold dinode_off. change IPB with 8. change DINODE_SIZE with 64. lia. }
    rewrite dinode_store_eq by (rewrite ?(in_len _ _ _ Ho); change DINODE_SIZE with 64; done || lia).
    rewrite splice_length; [done|lia|]. rewrite enc_inode_length; [change DINODE_SIZE with 64; lia|apply Ho]. }
  destruct (tx_relse pid [] n s3 b bn T3) as (s4 & E4 & T4 & S4 & V4); [set_solver|].
  exists s4. split; [|split; [done|split; [etrans; [exact S1|by etrans]|]]].
  - unfold iupdate. erewrite bind_run by by apply getinode_eq. rewrite bind_gets, Hsb, (in_dev _ _ _ Ho). fold bn.
    erewrite bind_run by exact E1. erewrite bind_run by (apply getinode_eq; by rewrite I1).
    erewrite bind_run by exact E2. by erewrite bind_run by exact E3.
  - intros y. rewrite V4, V3. destruct (y =? bn); [done|apply V1].
Qed.
End Read.

Section Theorems.
Context {WF : WaitFuel} {DS : Devsw}.
Implicit Types (s : kernel) (pid : Z) (sb : superblock) (i : inode) (ip : nat).

Lemma fbytes_src V i off src old :
  (forall o, 0 <= o < MAXFILE * BSIZE -> fbyte V i o = bytes_at off src old o) -> 0 <= off ->
  off + Z.of_nat (length src) <= MAXFILE * BSIZE -> fbytes V i off (Z.of_nat (length src)) = src.
Proof.
  intros Hb Hoff Hmax. unfold fbytes. rewrite Nat2Z.id. apply list_eq. intros j. rewrite list_lookup_fmap.
  destruct (decide (j < length src)%nat) as [Hj|Hj].
  - rewrite lookup_seq_lt by done. cbn [fmap option_fmap option_map Nat.add]. rewrite Hb by lia. unfold bytes_at.
    rewrite (proj2 (Z.leb_le _ _)), (proj2 (Z.ltb_lt _ _)) by lia. cbn [andb].
    replace (Z.to_nat (off + Z.of_nat j - off)) with j by lia.
    destruct (lookup_lt_is_Some_2 src j Hj) as [x Hx]. rewrite Hx. f_equal. by apply nth_lookup_Some.
  - by rewrite !lookup_ge_None_2 by (rewrite ?length_seq; lia).
Qed.

(** [writei] on every state in which the transaction has room: the last step stores the inode if the file grew. *)
Lemma writei_tx pid sb s ip i src off :
  let n := Z.of_nat (length src) in
  iok pid (6 * (n / BSIZE + 2) + 1) sb s ip i -> i_type i <> T_DEV -> 0 <= i_inum i < sb_ninodes sb ->
  has_free (view s) sb (2 * (n / BSIZE + 2)) -> 0 <= off <= i_size i -> off + n <= MAXFILE * BSIZE ->
  exists s1 i1 s2, writei ip src off n s = Ret n s2 /\ wrote pid 1 sb s ip i off src s1 i1 /\
    let i2 := set_i_size (Z.max (i_size i) (off + n)) i1 in
    k_inodes s2 !! ip = Some i2 /\ tx pid [] 0 s2 /\ k_disk s2 = k_disk s1 /\
    forall y, view s2 y = if (i_size i <? off + n) && (y =? IBLOCK (i_inum i) sb)
                          then dinode_store (view s y) (dinode_off (i_inum i)) i2 else view s1 y.
Proof.
  intros n Hio Ht Hi Hf Hoff Hmax. pose proof (io_at _ _ _ _ _ _ Hio) as Hat.
  assert (Hu : u32 (off + n) = off + n) by (apply u32_small; change MAXFILE with 140 in *; change BSIZE with 512 in *; lia).
  pose proof (Z.div_pos n BSIZE ltac:(lia) ltac:(done)). pose proof (Z.div_mod n 512 ltac:(lia)). pose proof (Z.mod_pos_bound n 512 ltac:(lia)).
  unfold writei. erewrite bind_run by by apply getinode_eq. rewrite (proj2 (Z.eqb_neq (i_type i) T_DEV)) by done. rewrite Hu.
  rewrite (proj2 (Z.ltb_ge (i_size i) off)), (proj2 (Z.ltb_ge (off + n) off)) by lia. cbn [orb].
  rewrite (proj2 (Z.ltb_ge (MAXFILE * BSIZE) (off + n))) by lia.
  destruct (writei_loop_tx pid sb (io_fuel n) s ip i src off 1) as (s1 & i1 & E1 & W1); fold n.
  { unfold io_fuel. by rewrite Z2Nat.id by lia. }
  { lia. } { unfold io_fuel. by rewrite Z2Nat.id by lia. } { lia. } { done. }
  { right. unfold io_fuel. rewrite Z2Nat.id by lia. change BSIZE with 512 in *. pose proof (Z.div_mod off 512 ltac:(lia)).
    pose proof (Z.mod_pos_bound off 512 ltac:(lia)). lia. }
  fold n in E1. erewrite bind_run by exact E1. pose proof (wrote_iok _ _ _ _ _ _ _ _ _ _ _ Hio W1) as Hio1.
  erewrite bind_run by (apply getinode_eq, Hio1). pose proof (fc_fields _ _ _ _ _ (wr_change _ _ _ _ _ _ _ _ _ _ W1)) as Efld.
  assert (Esz : i_size i1 = i_size i) by (rewrite Efld; by destruct i). rewrite Esz.
  assert (Einum : i_inum i1 = i_inum i) by (rewrite Efld; by destruct i).
  destruct (Z.ltb_spec (i_size i) (off + n)) as [Hg|Hg].
  - rewrite (proj2 (Z.ltb_lt 0 n)), Z.max_r by lia. cbn [andb]. unfold when.
    set (i2 := set_i_size (off + n) i1). set (s1' := set_k_inodes (<[ip := i2]> (k_inodes s1)) s1).
    assert (Hio2 : iok pid (0 + 1) sb s1' ip i2).
    { destruct Hio1 as [T1 Hsb1 Hl1 Hm1 Hat1 Ho1]. constructor; auto.
      - by apply tx_inodes.
      - apply list_lookup_insert_eq. by eapply lookup_lt_Some.
      - destruct Ho1. by constructor. }
    destruct (iupdate_tx pid 0 sb s1' ip i2 Hio2) as [Hbn (s2 & E2 & T2 & S2 & V2)]; [lia|cbn; by rewrite Einum|].
    cbn [i2 set_i_size i_inum] in Hbn, V2. rewrite Einum in Hbn, V2. destruct (tstep_inodes _ _ S2) as [I2 _].
    exists s1, i1, s2. split; [|split; [done|]].
    + rewrite (bind_run _ _ _ tt s2); [done|]. erewrite bind_run by (apply updinode_eq, Hio1). exact E2.
    + split; [rewrite I2; apply Hio2|]. split; [done|]. split; [apply S2|]. intros y. rewrite V2.
      destruct (Z.eqb_spec y (IBLOCK (i_inum i) sb)) as [->|]; [|done]. f_equal.
      apply (fc_low _ _ _ _ _ (wr_change _ _ _ _ _ _ _ _ _ _ W1)). lia.
  - rewrite andb_false_r, Z.max_l by lia. cbn [when]. rewrite bind_ret. exists s1, i1, s1. split; [done|]. split; [done|].
    cbn [andb]. replace (set_i_size (i_size i) i1) with i1 by (rewrite <- Esz; by destruct i1).
    split; [apply Hio1|]. split; [eapply tx_weaken; [apply W1|lia]|done].
Qed.
End Theorems.

Section Roundtrip.
Context {WF : WaitFuel} {DS : Devsw}.

(** A change before the bitmap, and of the size. *)
Lemma inode_ok_high sb lg d V V' i z :
  layout sb lg d -> inode_ok V sb i -> (forall y, sb_bmapstart sb <= y -> V' y = V y) ->
  inode_ok V' sb (set_i_size z i) /\ (forall k, iaddr V' (set_i_size z i) k = iaddr V i k) /\
  (forall o, 0 <= o < MAXFILE * BSIZE -> fbyte V' (set_i_size z i) o = fbyte V i o).
Proof.
  intros Hl Ho E. pose proof (layout_pos _ _ _ Hl) as (P1 & P2 & P3).
  assert (Hind : iind i <> 0 -> V' (iind i) = V (iind i)).
  { intros H. apply E. destruct (in_own _ _ _ Ho _ (owns_ind V i H)) as [? _]. lia. }
  assert (Ha : forall k, iaddr V' (set_i_size z i) k = iaddr V i k).
  { intros k. unfold iaddr. change (iind (set_i_size z i)) with (iind i). cbn [i_addrs set_i_size].
    destruct (k <? NDIRECT); [done|]. destruct (Z.eqb_spec (iind i) 0); [done|]. by rewrite Hind. }
  assert (Hw : forall b, owns V' (set_i_size z i) b -> owns V i b).
  { intros b [Hb [->|(k & Hk & ->)]]; [by apply (owns_ind V i)|]. rewrite Ha in *. by apply owns_addr. }
  split; [|split; [done|]].
  - constructor; [apply Ho|apply Ho| | |].
    + intros b Hb%Hw. destruct (in_own _ _ _ Ho b Hb) as (R1 & R2 & R3). rewrite E by lia. split; [done|]. split; [|done].
      unfold is_free. destruct (BBLOCK_range _ _ _ b Hl) as [B _]; [lia|]. rewrite E by lia. exact R2.
    + intros j k. rewrite !Ha. apply Ho.
    + intros k. rewrite Ha. apply Ho.
  - intros o Hob. unfold fbyte. rewrite Ha. destruct (Z.eqb_spec (iaddr V i (o / BSIZE)) 0) as [|Hne]; [done|]. rewrite E; [done|].
    destruct (in_own _ _ _ Ho _ (owns_addr V i (o / BSIZE) ltac:(change BSIZE with 512 in *; split; [apply Z.div_pos; lia|apply Z.div_lt_upper_bound; lia]) Hne)) as [? _].
    lia.
Qed.

(** * A disk as [mkfs] lays it out, with an empty file *)
Definition fs_demo_sb : superblock := mkSuperblock 1000 941 200 30 2 32 58.
Definition fs_demo_bits : list Z := replicate 7 255 ++ [7] ++ replicate 504 0.
Definition fs_demo_disk : disk_t := mkDisk (fun x => if x =? 58 then fs_demo_bits else replicate 512 0) 1000 [].
Definition fs_demo_inode : inode := set_i_dev 1 (set_i_inum 2 (set_i_type T_FILE (set_i_ref 1 (set_i_valid 1 inode0)))).

Lemma fs_demo_free V b : (forall y, V y = d_blocks fs_demo_disk y) -> 0 <= b < 1000 -> is_free V fs_demo_sb b = (59 <=? b).
Proof.
  intros HV Hb. unfold is_free. rewrite HV. unfold BBLOCK. change BPB with 4096. change (sb_bmapstart fs_demo_sb) with 58.
  rewrite Z.div_small, Z.mod_small by lia. change (d_blocks fs_demo_disk (u32 (0 + 58))) with fs_demo_bits.
  assert (H : Forall (fun k => (bit_test fs_demo_bits (Z.of_nat k) =? 0) = (59 <=? Z.of_nat k)) (seq 0 (Z.to_nat 1000))).
  { apply Forall_forall. intros k Hk. revert k Hk.
    assert (Hall : forallb (fun k => Bool.eqb (bit_test fs_demo_bits (Z.of_nat k) =? 0) (59 <=? Z.of_nat k)) (seq 0 (Z.to_nat 1000)) = true)
      by (vm_compute; reflexivity).
    intros k Hk. rewrite forallb_forall in Hall. apply eqb_prop, Hall. by apply list_elem_of_In. }
  rewrite Forall_forall in H. specialize (H (Z.to_nat b)). rewrite Z2Nat.id in H by lia. apply H, elem_of_seq. lia.
Qed.

Lemma fs_demo : exists s, iok 1 13 fs_demo_sb s 0 fs_demo_inode /\ has_free (view s) fs_demo_sb 4.
Proof.
  destruct (boot_demo fs_demo_disk (log_begin log_demo)) as (B & _ & Hk); [intros bn; cbn; by destruct (bn =? 58)|].
  set (s0 := set_k_bufs B _) in *. set (s := set_k_sb fs_demo_sb (set_k_inodes [fs_demo_inode] s0)).
  assert (HV : forall y, view s y = d_blocks fs_demo_disk y) by (intros y; apply (view_clean 1 [] s0); [done|apply not_elem_of_nil]).
  assert (Hl : layout fs_demo_sb (k_log s) (k_disk s)) by (constructor; by vm_compute).
  exists s. split; [constructor|].
  - destruct Hk as [(j & c & p & pr & Ht & Hp) Hc Hpin]. constructor; auto.
    + constructor; auto. exists j, c, p, pr. split; [|done]. eapply thread_frame; [exact Ht|done|done].
    + intros b bn Hb. by apply elem_of_nil in Hb.
    + destruct log_demo_ok. by constructor.
    + done.
    + done.
  - done.
  - exact Hl.
  - intros b Hb. change (data_start fs_demo_sb) with 59 in Hb. rewrite (fs_demo_free _ _ HV) by lia. apply Z.leb_gt. lia.
  - done.
  - assert (Ha : forall k, iaddr (view s) fs_demo_inode k = 0).
    { intros k. unfold iaddr. change (iind fs_demo_inode =? 0) with true. destruct (k <? NDIRECT); [|done].
      rewrite nth_lookup. destruct (_ !! _) as [x|] eqn:Ex; [|done]. change (replicate 13 0 !! Z.to_nat k = Some x) in Ex.
      by apply lookup_replicate in Ex as [-> _]. }
    constructor; try done.
    + intros b [Hb [->|(k & _ & ->)]]; [done|]. by rewrite Ha in Hb.
    + intros j k _ _ _ Hne. by rewrite Ha in Hne.
  - exists (list_to_set [100; 101; 102; 103]). split; [by vm_compute|]. intros y Hy.
    assert (100 <= y <= 103) by (rewrite elem_of_list_to_set, !elem_of_cons, elem_of_nil in Hy; lia). change (sb_size fs_demo_sb) with 1000. split; [lia|].
    rewrite (fs_demo_free _ _ HV) by lia. apply Z.leb_le. lia.
Qed.

(** C5: what is written to a file is what is read from it, and nothing else changes. In a transaction with
    enough log space and enough free blocks, [writei] of [src] at an offset inside the file (up to its end) of an
    inode whose blocks are marked in use and distinct, finishes and returns the number of bytes, whatever
    blocks it has to allocate: direct, indirect, or the indirect block itself. Afterwards the file's bytes are
    [src] at that offset and the old ones elsewhere, its size is as large as need be, and a [readi] there returns exactly [src];
    the inode's blocks are again distinct and marked in use; every block in use that is not the file's is as it was;
    of the blocks before the bitmap only that of the inode may change, and only to store the inode of a file that grew. *)
Theorem writei_readi_roundtrip (pid : Z) (sb : superblock) (s : kernel) (ip : nat) (i : inode) (src : list Z) (off : Z) :
  let n := Z.of_nat (length src) in
  iok pid (6 * (n / BSIZE + 2) + 1) sb s ip i -> i_type i <> T_DEV -> 0 <= i_inum i < sb_ninodes sb ->
  has_free (view s) sb (2 * (n / BSIZE + 2)) -> 0 <= off <= i_size i -> off + n <= MAXFILE * BSIZE ->
  exists s1 i1 s2, writei ip src off n s = Ret n s1 /\ k_inodes s1 !! ip = Some i1 /\
    i_size i1 = Z.max (i_size i) (off + n) /\ inode_ok (view s1) sb i1 /\
    readi ip off n s1 = Ret (n, src) s2 /\ (forall y, view s2 y = view s1 y) /\
    (forall o, 0 <= o < MAXFILE * BSIZE -> fbyte (view s1) i1 o = bytes_at off src (fbyte (view s) i) o) /\
    (forall y, data_start sb <= y < sb_size sb -> is_free (view s) sb y = false -> ~ owns (view s) i y -> view s1 y = view s y) /\
    (forall y, y < sb_bmapstart sb ->
       view s1 y = if (i_size i <? off + n) && (y =? IBLOCK (i_inum i) sb)
                   then dinode_store (view s y) (dinode_off (i_inum i)) i1 else view s y).
Proof.
  intros n Hio Ht Hi Hf Hoff Hmax. pose proof (io_lay _ _ _ _ _ _ Hio) as Hl. pose proof (layout_pos _ _ _ Hl) as (P1 & P2 & P3).
  destruct (writei_tx pid sb s ip i src off Hio Ht Hi Hf Hoff Hmax) as (s1 & i1 & s2 & E & W & Hat2 & T2 & D2 & V2). fold n in E, Hat2, V2.
  pose proof (wrote_iok _ _ _ _ _ _ _ _ _ _ _ Hio W) as [T1 Hsb1 Hl1 Hm1 Hat1 Ho1]. destruct W as [_ S1 I1 C1 Y1 A1].
  pose proof (fc_fields _ _ _ _ _ C1) as Efld. assert (Ety : i_type i1 = i_type i) by (rewrite Efld; by destruct i).
  set (i2 := set_i_size _ i1) in *. set (z := Z.max (i_size i) (off + n)) in *.
  assert (Hbn : sb_inodestart sb <= IBLOCK (i_inum i) sb < sb_bmapstart sb).
  { eapply (iupdate_tx pid 0 sb s ip i); [|done|done]. destruct Hio. constructor; auto. eapply tx_weaken; [done|].
    pose proof (Z.div_pos n BSIZE ltac:(lia) ltac:(done)). lia. }
  assert (Vd : forall y, sb_bmapstart sb <= y -> view s2 y = view s1 y).
  { intros y Hy. rewrite V2, (proj2 (Z.eqb_neq y _)), andb_false_r by lia. done. }
  destruct (inode_ok_high sb _ _ (view s1) (view s2) i1 z Hl1 Ho1 Vd) as (Ho2 & Ha2 & Y2). fold i2 in Ho2, Ha2, Y2.
  assert (Hb2 : forall o, 0 <= o < MAXFILE * BSIZE -> fbyte (view s2) i2 o = bytes_at off src (fbyte (view s) i) o).
  { intros o Hob. rewrite Y2 by done. by apply Y1. }
  assert (Hr : rdc pid (lblocks (k_log s2)) sb s2 ip i2).
  { constructor; auto; [apply T2| |].
    - rewrite (tx_len _ _ _ _ T2). pose proof (tx_room _ _ _ _ T2) as [_ Hroom]. pose proof (lo_n _ _ (tx_log _ _ _ _ T2)).
      change bhead with 30%nat. unfold NBUF, MAXOPBLOCKS in Hroom. lia.
    - split; [done|]. rewrite D2. apply Hl1. }
  pose proof (Z.div_pos n BSIZE ltac:(lia) ltac:(done)). pose proof (Z.div_mod n 512 ltac:(lia)). pose proof (Z.mod_pos_bound n 512 ltac:(lia)).
  destruct (readi_loop_rd pid _ sb (io_fuel n) s2 ip i2 off n Hr) as (s3 & E3 & (_ & _ & _ & V3) & _); [lia|lia|done| | |].
  { intros o Ho. rewrite Ha2. by apply A1. }
  { right. unfold io_fuel. rewrite Z2Nat.id by lia. change BSIZE with 512 in *. pose proof (Z.div_mod off 512 ltac:(lia)).
    pose proof (Z.mod_pos_bound off 512 ltac:(lia)). lia. }
  pose proof (fbytes_src (view s2) i2 off src _ Hb2 ltac:(lia) Hmax) as Hsrc. fold n in Hsrc.
  exists s2, i2, s3. split_and!; try done.
  - unfold readi. erewrite bind_run by by apply getinode_eq. cbn [i2 set_i_size i_type i_size]. rewrite Ety.
    rewrite (proj2 (Z.eqb_neq (i_type i) T_DEV)) by done. change MAXFILE with 140 in *. change BSIZE with 512 in *.
    rewrite u32_small by lia. rewrite (proj2 (Z.ltb_ge z off)), (proj2 (Z.ltb_ge (off + n) off)), (proj2 (Z.ltb_ge z (off + n))) by lia.
    cbn [orb]. erewrite bind_run by exact E3. unfold ret. by rewrite Hsrc.
  - intros y Hy Hu Hno. rewrite Vd by lia. by apply (fc_frame _ _ _ _ _ C1).
  - intros y Hy. rewrite V2. destruct (_ && _); [done|]. apply (fc_low _ _ _ _ _ C1). by left.
Qed.

End Roundtrip.

(** No device drivers. *)
Definition no_devsw : Devsw := {| devsw_read := fun _ => None; devsw_write := fun _ => None |}.

Lemma writei_readi_roundtrip_witness :
  exists s s1 s2 i1, @writei 1%nat no_devsw 0 [104; 105] 0 2 s = Ret 2 s1 /\ @readi 1%nat no_devsw 0 0 2 s1 = Ret (2, [104; 105]) s2 /\
    k_inodes s1 !! 0%nat = Some i1 /\ i_size i1 = 2.
Proof.
  destruct (@fs_demo 1%nat) as (s & Hio & Hf).
  destruct (@writei_readi_roundtrip 1%nat no_devsw 1 fs_demo_sb s 0 fs_demo_inode [104; 105] 0) as (s1 & i1 & s2 & E1 & H1 & Z1 & _ & E2 & _);
    [exact Hio|done|done|exact Hf|done|done|].
  exists s, s1, s2, i1. done.
Defined.
