(* ===== verification/Pipe.v ===== *)
(** Pipes ([pipe.c]): the circular buffer and its [nread]/[nwrite] counters. A
    [struct pipe*] is the address of its page; [addr] is the list of bytes to write, or
    the result of reading. *)

From S2P Require Import Prelude Bytes Params State Spinlock Kalloc Sched Rely Sleeplock.
From stdpp Require Import base list gmap strings.
From Stdlib Require Import ZArith Lia.
Local Open Scope Z_scope.
Local Open Scope km_scope.

Definition PIPESIZE : Z := 512.

Definition getpipe (p : Z) : K pipe :=
  let! m := gets k_pipes in
  match m !! p with
  | Some pi => ret pi
  | None => undef "pipe"
  end.
Definition updpipe (p : Z) (f : pipe -> pipe) : K unit :=
  let! pi := getpipe p in
  modify (fun s => set_k_pipes (<[p := f pi]> (k_pipes s)) s).

Definition mykilled : K Z :=
  let! op := myproc in
  let! q := nonnull "myproc()->killed" op in
  let! pr := getproc q in
  ret (p_killed pr).

(** [kfree] of a pipe: the structure is gone with its page. *)
Definition freepipe (p : Z) : K unit :=
  modify (fun s => set_k_pipes (delete p (k_pipes s)) s) ;;
  kfree p.

Definition pipeclose (p writable : Z) : K unit :=
  acquire (L_pipe p) ;;
  (if negb (writable =? 0) then
     updpipe p (set_pi_writeopen 0) ;;
     wakeup (Ch_nread p)
   else
     updpipe p (set_pi_readopen 0) ;;
     wakeup (Ch_nwrite p)) ;;
  let! pi := getpipe p in
  if (pi_readopen pi =? 0) && (pi_writeopen pi =? 0) then
    release (L_pipe p) ;;
    freepipe p
  else release (L_pipe p).

Section Pipe.
Context {WF : WaitFuel}.

(** [while(p->nwrite == p->nread + PIPESIZE) ...]; [false] after [return -1]. *)
Fixpoint pipewrite_wait (fuel : nat) (p : Z) : K bool :=
  let! pi := getpipe p in
  if pi_nwrite pi =? u32 (pi_nread pi + PIPESIZE) then
    let! stop := (if pi_readopen pi =? 0 then ret true
                  else let! k := mykilled in ret (negb (k =? 0))) in
    if stop then release (L_pipe p) ;; ret false else
    match fuel with
    | O => nofuel
    | S fuel =>
        wakeup (Ch_nread p) ;;
        sleep (Ch_nwrite p) (L_pipe p) ;;
        pipewrite_wait fuel p
    end
  else ret true.

(** [p->data[p->nwrite++ % PIPESIZE] = c] *)
Definition pipe_put (c : Z) (pi : pipe) : pipe :=
  set_pi_nwrite (u32 (pi_nwrite pi + 1))
    (set_pi_data (store (pi_data pi) (pi_nwrite pi mod PIPESIZE) c) pi).

Fixpoint pipewrite_loop (p : Z) (addr : list Z) : K bool :=
  match addr with
  | [] => ret true
  | c :: addr' =>
      let! ok := pipewrite_wait wait_fuel p in
      if negb ok then ret false else
      updpipe p (pipe_put c) ;;
      pipewrite_loop p addr'
  end.

Definition pipewrite (p : Z) (addr : list Z) (n : Z) : K Z :=
  acquire (L_pipe p) ;;
  let! ok := pipewrite_loop p (take (Z.to_nat n) addr) in
  if negb ok then ret (-1) else
  wakeup (Ch_nread p) ;;
  release (L_pipe p) ;;
  ret n.

(** [while(p->nread == p->nwrite && p->writeopen) ...]; [false] after [return -1]. *)
Fixpoint piperead_wait (fuel : nat) (p : Z) : K bool :=
  let! pi := getpipe p in
  if (pi_nread pi =? pi_nwrite pi) && negb (pi_writeopen pi =? 0) then
    let! k := mykilled in
    if negb (k =? 0) then release (L_pipe p) ;; ret false else
    match fuel with
    | O => nofuel
    | S fuel =>
        sleep (Ch_nread p) (L_pipe p) ;;
        piperead_wait fuel p
    end
  else ret true.

(** The copying loop: at most [n] bytes. *)
Fixpoint piperead_loop (p : Z) (n : nat) : K (list Z) :=
  match n with
  | O => ret []
  | S n' =>
      let! pi := getpipe p in
      if pi_nread pi =? pi_nwrite pi then ret [] else
      let! c := index "p->data" (pi_data pi) (pi_nread pi mod PIPESIZE) in
      updpipe p (fun pi => set_pi_nread (u32 (pi_nread pi + 1)) pi) ;;
      let! r := piperead_loop p n' in
      ret (c :: r)
  end.

(** The result is the return value and the bytes stored at [addr]. *)
Definition piperead (p n : Z) : K (Z * list Z) :=
  acquire (L_pipe p) ;;
  let! ok := piperead_wait wait_fuel p in
  if negb ok then ret (-1, []) else
  let! bytes := piperead_loop p (Z.to_nat n) in
  wakeup (Ch_nwrite p) ;;
  release (L_pipe p) ;;
  ret (Z.of_nat (length bytes), bytes).
End Pipe.

(** * The bytes in a pipe *)

(** [l] are the bytes written and not yet read; the counters run modulo 2^32. *)
Record pipe_rep (pi : pipe) (l : list Z) : Prop := {
  pr_data : length (pi_data pi) = 512%nat;
  pr_read : 0 <= pi_nread pi < 2 ^ 32;
  pr_write : pi_nwrite pi = u32 (pi_nread pi + Z.of_nat (length l));
  pr_cap : (length l <= 512)%nat;
  pr_at : forall k x, l !! k = Some x ->
            pi_data pi !! Z.to_nat ((pi_nread pi + Z.of_nat k) mod PIPESIZE) = Some x
}.

Section Ring.
Implicit Types (pi : pipe) (l : list Z).

Lemma u32_slot n : u32 n mod PIPESIZE = n mod PIPESIZE.
Proof.
  unfold u32, PIPESIZE. apply Z.mod_mod_divide. by exists 8388608.
Qed.

Lemma u32_window n a b : 0 <= a < 2 ^ 32 -> 0 <= b < 2 ^ 32 -> u32 (n + a) = u32 (n + b) -> a = b.
Proof. intros Ha Hb E. apply (mod_window (2 ^ 32) n a b); [lia|done..]. Qed.

Lemma pipe_full pi l : pipe_rep pi l ->
  (pi_nwrite pi =? u32 (pi_nread pi + PIPESIZE)) = bool_decide (length l = 512%nat).
Proof.
  intros []. rewrite pr_write0. unfold PIPESIZE. case_bool_decide as E.
  - rewrite E. apply Z.eqb_refl.
  - apply Z.eqb_neq. intros H%u32_window; lia.
Qed.

Lemma pipe_empty pi l : pipe_rep pi l -> (pi_nread pi =? pi_nwrite pi) = bool_decide (l = []).
Proof.
  intros []. rewrite pr_write0. case_bool_decide as E.
  - subst l. rewrite Z.add_0_r, u32_small by done. apply Z.eqb_refl.
  - apply Z.eqb_neq. intros H. rewrite <- (u32_small (pi_nread pi)) in H at 1 by done.
    rewrite <- (Z.add_0_r (pi_nread pi)) in H at 1. apply u32_window in H; [|lia..]. by destruct l.
Qed.

Lemma pipe_put_rep pi l x : pipe_rep pi l -> (length l < 512)%nat -> pipe_rep (pipe_put x pi) (l ++ [x]).
Proof.
  intros [H1 H2 H3 H4 H5] Hl. constructor; cbn; [by unfold store; rewrite length_insert|done| | |].
  - rewrite H3, length_app, Nat2Z.inj_add. unfold u32. rewrite Zplus_mod_idemp_l. f_equal. cbn. lia.
  - rewrite length_app. cbn. lia.
  - intros k y Hk. unfold store. rewrite H3, u32_slot. apply lookup_app_Some in Hk as [Hk|[Hk1 Hk2]].
    + pose proof (lookup_lt_Some _ _ _ Hk). rewrite list_lookup_insert_ne; [by apply H5|].
      intros E. apply Z2Nat.inj in E; try (apply Z.mod_pos_bound; done).
      apply mod_window in E; unfold PIPESIZE; lia.
    + apply list_lookup_singleton_Some in Hk2 as [Hk2 ->]. replace k with (length l) by lia.
      apply list_lookup_insert_eq. pose proof (Z.mod_pos_bound (pi_nread pi + Z.of_nat (length l)) PIPESIZE).
      unfold PIPESIZE in *. lia.
Qed.

Lemma pipe_get_rep pi l x : pipe_rep pi (x :: l) ->
  pi_data pi !! Z.to_nat (pi_nread pi mod PIPESIZE) = Some x /\
  pipe_rep (set_pi_nread (u32 (pi_nread pi + 1)) pi) l.
Proof.
  intros [H1 H2 H3 H4 H5]. split; [rewrite <- (Z.add_0_r (pi_nread pi)); by apply (H5 0%nat)|].
  cbn [length] in *. constructor; cbn; [done|apply u32_range| |lia|].
  - rewrite H3. unfold u32. rewrite Zplus_mod_idemp_l. f_equal. lia.
  - intros k y Hk. rewrite <- (H5 (S k) y Hk), <- Zplus_mod_idemp_l, u32_slot, Zplus_mod_idemp_l.
    do 3 f_equal. lia.
Qed.

Lemma pipe_rep_inj pi l l' : pipe_rep pi l -> pipe_rep pi l' -> l = l'.
Proof.
  intros [H1 H2 H3 H4 H5] [H1' H2' H3' H4' H5'].
  assert (Hlen : length l = length l').
  { apply Nat2Z.inj. rewrite H3 in H3'. apply u32_window in H3'; lia. }
  apply (list_eq_same_length _ _ (length l)); [done..|]. intros k x y _ Hx Hy.
  apply H5 in Hx. apply H5' in Hy. congruence.
Qed.
End Ring.

(** * Readers, writers and the threads that wait *)

Definition no_sleeper (s : kernel) (ch : chan) : Prop :=
  Forall (fun pr => ~ (p_state pr = SLEEPING /\ p_chan pr = Some ch)) (k_proc s).

(** A pipe as its users see it: the bytes in it and which ends are open. *)
Record pstate : Type := PS { ps_bytes : list Z; ps_read : bool; ps_write : bool }.

Definition ps_append (bs : list Z) (x : pstate) : pstate := PS (ps_bytes x ++ bs) (ps_read x) (ps_write x).
Definition ps_put (c : Z) (x : pstate) : pstate := PS (ps_bytes x ++ [c]) (ps_read x) (ps_write x).
Definition ps_drop (n : nat) (x : pstate) : pstate := PS (drop n (ps_bytes x)) (ps_read x) (ps_write x).
Definition ps_close (writable : bool) (x : pstate) : pstate :=
  if writable then PS (ps_bytes x) (ps_read x) false else PS (ps_bytes x) false (ps_write x).

Record pipe_is (pi : pipe) (x : pstate) : Prop := {
  pi_rep : pipe_rep pi (ps_bytes x);
  pi_ro : negb (pi_readopen pi =? 0) = ps_read x;
  pi_wo : negb (pi_writeopen pi =? 0) = ps_write x
}.

(** The pipe at [a] is [x]. *)
Definition pipe_has (a : Z) (x : pstate) (s : kernel) : Prop :=
  exists pi, k_pipes s !! a = Some pi /\ pipe_is pi x.

Definition can_write (x : pstate) : Prop := (length (ps_bytes x) < 512)%nat \/ ps_read x = false.
Definition can_read (x : pstate) : Prop := ps_bytes x <> [] \/ ps_write x = false.

(** No thread waits for room, or for data, while it could go on. *)
Definition writers_ok (a : Z) (s : kernel) : Prop :=
  forall x, pipe_has a x s -> can_write x -> no_sleeper s (Ch_nwrite a).
Definition readers_ok (a : Z) (s : kernel) : Prop :=
  forall x, pipe_has a x s -> can_read x -> no_sleeper s (Ch_nread a).

(** What every thread leaves behind when it lets go of the pipe: the pipe [x], and nobody
    asleep who could go on. *)
Record pipe_inv (a : Z) (x : pstate) (s : kernel) : Prop := {
  pv_has : pipe_has a x s;
  pv_writers : writers_ok a s;
  pv_readers : readers_ok a s
}.

(** Process [q] comes back to a pipe in order; [E] is what the others may have done to it. *)
Definition pipe_rely (E : relation pstate) (q : nat) (a : Z) (s s' : kernel) : Prop :=
  resumed q s' /\ exists x x', pipe_has a x s /\ pipe_inv a x' s' /\ E x x'.

(** A thread of this pipe is switched away only while the pipe satisfies [P]. *)
Definition pipe_waiting (a : Z) (P : pstate -> Prop) (s : kernel) : Prop := exists x, P x /\ pipe_inv a x s.

(** [x'] is the pipe after writing [bs] to [x], the others doing [E] between. *)
Fixpoint written (E : relation pstate) (x : pstate) (bs : list Z) (x' : pstate) : Prop :=
  match bs with
  | [] => x' = x
  | c :: bs' => exists x1, E x x1 /\ (length (ps_bytes x1) < 512)%nat /\ written E (ps_put c x1) bs' x'
  end.

(** The other threads only read, or only write. *)
Definition others_read (x x' : pstate) : Prop := ps_bytes x' `suffix_of` ps_bytes x.
Definition others_write (x x' : pstate) : Prop := ps_bytes x `prefix_of` ps_bytes x'.
Definition others_any (x x' : pstate) : Prop := True.

#[export] Instance others_read_pre : PreOrder others_read.
Proof. split; [intros x; by unfold others_read|]. intros x y z H1 H2. unfold others_read in *. by etransitivity. Qed.
#[export] Instance others_write_pre : PreOrder others_write.
Proof. split; [intros x; by unfold others_write|]. intros x y z H1 H2. unfold others_write in *. by etransitivity. Qed.
#[export] Instance others_any_pre : PreOrder others_any.
Proof. by split. Qed.

Section PipeThreads.
Context {WF : WaitFuel}.
Implicit Types (s : kernel) (q : nat) (x : pstate) (pi : pipe).

Lemma pipe_is_inj pi x x' : pipe_is pi x -> pipe_is pi x' -> x = x'.
Proof.
  intros [H1 H2 H3] [H1' H2' H3']. destruct x, x'; cbn in *. subst. f_equal. by eapply pipe_rep_inj.
Qed.

Lemma pipe_has_inj a x x' s : pipe_has a x s -> pipe_has a x' s -> x = x'.
Proof. intros (pi & H1 & H2) (pi' & H1' & H2'). simplify_eq. by eapply pipe_is_inj. Qed.

Lemma pipe_has_rest a x s s' : rest s' = rest s -> pipe_has a x s -> pipe_has a x s'.
Proof. intros Hr. apply (f_equal k_pipes) in Hr. cbn in Hr. unfold pipe_has. by rewrite Hr. Qed.

Lemma no_sleeper_wake s ch ch' :
  no_sleeper s ch' \/ ch' = ch -> Forall (fun pr => ~ (p_state pr = SLEEPING /\ p_chan pr = Some ch')) (wake (Some ch) <$> k_proc s).
Proof.
  unfold no_sleeper. intros H. rewrite Forall_fmap, Forall_forall. intros pr Hpr [H1 H2]. cbn in *.
  unfold wake in *. case_bool_decide as Hd; cbn in *; [done|]. destruct H as [H| ->]; [|auto].
  rewrite Forall_forall in H. by apply (H pr).
Qed.

Lemma no_sleeper_insert s ch q pr :
  no_sleeper s ch -> ~ (p_state pr = SLEEPING /\ p_chan pr = Some ch) ->
  Forall (fun pr => ~ (p_state pr = SLEEPING /\ p_chan pr = Some ch)) (<[q := pr]> (k_proc s)).
Proof. intros. by apply Forall_insert. Qed.

(** A thread that runs is not among the sleepers. *)
Lemma no_sleeper_others lk q s s' ch :
  inside lk q s' -> others q s' = others q s -> no_sleeper s ch -> no_sleeper s' ch.
Proof.
  intros (pr & _ & Hpr & Hs)%inside_cur Ho H. unfold no_sleeper. rewrite Forall_lookup. intros i y Hy.
  destruct (decide (i = q)) as [->|Hne]; [simplify_eq; by intros [? _]; rewrite Hs in *|].
  unfold no_sleeper in H. rewrite Forall_lookup in H. apply (H i). unfold others in Ho.
  by rewrite <- (list_lookup_insert_ne (k_proc s) q i proc0), <- Ho, list_lookup_insert_ne.
Qed.

Lemma getpipe_eq a pi s : k_pipes s !! a = Some pi -> getpipe a s = Ret pi s.
Proof. unfold getpipe. intros H. rewrite bind_gets. by rewrite H. Qed.

Lemma updpipe_eq a pi f s :
  k_pipes s !! a = Some pi -> updpipe a f s = Ret tt (set_k_pipes (<[a := f pi]> (k_pipes s)) s).
Proof. intros H. unfold updpipe. by erewrite bind_run by by apply getpipe_eq. Qed.

Lemma mykilled_eq lk q s : inside lk q s -> exists k, mykilled s = Ret k s.
Proof.
  intros (pr & Hm & Hpr & _)%inside_cur. exists (p_killed pr). unfold mykilled.
  erewrite bind_run by exact Hm. cbn [nonnull]. rewrite bind_ret.
  by erewrite bind_run by by apply getproc_eq.
Qed.

Lemma inside_pipes lk q s m : inside lk q s -> inside lk q (set_k_pipes m s).
Proof.
  intros H. pose proof (inside_cur _ _ _ H) as (pr & _ & ? & ?).
  apply (inside_frame lk q s); [done|done|apply H|by exists pr].
Qed.

(** The invariant of a known pipe. *)
Lemma writers_ok_has a x s : pipe_has a x s -> (can_write x -> no_sleeper s (Ch_nwrite a)) -> writers_ok a s.
Proof. intros H1 H2 y Hy. by rewrite (pipe_has_inj _ _ _ _ Hy H1). Qed.

Lemma readers_ok_has a x s : pipe_has a x s -> (can_read x -> no_sleeper s (Ch_nread a)) -> readers_ok a s.
Proof. intros H1 H2 y Hy. by rewrite (pipe_has_inj _ _ _ _ Hy H1). Qed.

Lemma pipe_inv_same a x s s' :
  rest s' = rest s -> (forall ch, no_sleeper s ch -> no_sleeper s' ch) -> pipe_inv a x s -> pipe_inv a x s'.
Proof.
  intros Hr Hp [H1 H2 H3]. pose proof (pipe_has_rest _ _ _ _ Hr H1) as Hh. constructor; [done| |].
  - apply (writers_ok_has a x); [done|]. intros Hc. by apply Hp, (H2 x).
  - apply (readers_ok_has a x); [done|]. intros Hc. by apply Hp, (H3 x).
Qed.

(** Waiting inside the critical section of a pipe: [ch] is one of its two channels. *)
Lemma pipe_sleep_rg (E : relation pstate) (P : pstate -> Prop) Q q a x s ch :
  inside (L_pipe a) q s -> pipe_inv a x s ->
  (ch = Ch_nwrite a /\ ~ can_write x \/ ch = Ch_nread a /\ ~ can_read x) -> P x ->
  (forall x' s', E x x' -> inside (L_pipe a) q s' -> pipe_inv a x' s' -> Q tt s') ->
  rg (pipe_waiting a P) (pipe_rely E q a) Q (sleep ch (L_pipe a) s).
Proof.
  intros Hin [Hh Hw Hr] Hch HP HQ. apply (sleep_rg _ _ _ _ _ q); [done|done|].
  intros s1 pr Hs1 Hpr Hp1. pose proof (pipe_has_rest _ _ _ _ Hs1 Hh) as Hh1. split.
  - exists x. split; [done|]. constructor; [done| |].
    + apply (writers_ok_has a x); [done|]. intros Hl. unfold no_sleeper. rewrite Hp1.
      apply no_sleeper_insert; [by apply (Hw x)|]. cbn. intros [_ ?]. naive_solver.
    + apply (readers_ok_has a x); [done|]. intros Hl. unfold no_sleeper. rewrite Hp1.
      apply no_sleeper_insert; [by apply (Hr x)|]. cbn. intros [_ ?]. naive_solver.
  - intros s2 [Hres (x2 & x' & Hx2 & Hv & HE)]. split; [done|].
    rewrite (pipe_has_inj _ _ _ _ Hx2 Hh1) in HE. intros s3 Hs3 Ho3 Hin3.
    apply (HQ x'); [done|done|]. apply (pipe_inv_same a x' s2); [done| |done].
    intros ch'. by apply (no_sleeper_others (L_pipe a) q).
Qed.

(** Waking the waiters of one channel. *)
Lemma pipe_wakeup a x q s ch :
  inside (L_pipe a) q s -> pipe_has a x s ->
  (ch = Ch_nwrite a /\ readers_ok a s \/ ch = Ch_nread a /\ writers_ok a s) ->
  exists s', wakeup ch s = Ret tt s' /\ inside (L_pipe a) q s' /\ pipe_inv a x s'.
Proof.
  intros Hin Hh Hch. destruct (wakeup_inside (L_pipe a) q s ch) as (s' & E & Hin' & Hr & Hp); [done..|].
  exists s'. split; [done|]. split; [done|]. pose proof (pipe_has_rest _ _ _ _ Hr Hh) as Hh'.
  constructor; [done| |].
  - apply (writers_ok_has a x); [done|]. intros Hl. unfold no_sleeper. rewrite Hp. apply no_sleeper_wake.
    destruct Hch as [[-> _]|[-> Hw]]; [by right|left; by apply (Hw x)].
  - apply (readers_ok_has a x); [done|]. intros Hl. unfold no_sleeper. rewrite Hp. apply no_sleeper_wake.
    destruct Hch as [[-> Hr']|[-> _]]; [left; by apply (Hr' x)|by right].
Qed.

Lemma release_pipe a x q s :
  inside (L_pipe a) q s -> pipe_has a x s ->
  exists s', release (L_pipe a) s = Ret tt s' /\ free_thread q s' /\ pipe_has a x s' /\ k_proc s' = k_proc s /\
    (pipe_inv a x s -> pipe_inv a x s').
Proof.
  intros Hin Hh. destruct (release_inside _ _ _ Hin) as (s' & E & Hf & Hr & Hp).
  exists s'. split_and!; try done; [by eapply pipe_has_rest|].
  apply pipe_inv_same; [done|]. intros ch. unfold no_sleeper. by rewrite Hp.
Qed.

Lemma acquire_pipe a x q s :
  free_thread q s -> pipe_inv a x s ->
  exists s', acquire (L_pipe a) s = Ret tt s' /\ inside (L_pipe a) q s' /\ pipe_inv a x s'.
Proof.
  intros Hf Hv. destruct (acquire_free (L_pipe a) q s Hf) as (s' & E & Hin & Hr & Hp).
  exists s'. split; [done|]. split; [done|]. revert Hv.
  apply pipe_inv_same; [done|]. intros ch. unfold no_sleeper. by rewrite Hp.
Qed.

Lemma updpipe_inside a x x' q s f :
  inside (L_pipe a) q s -> pipe_has a x s -> (forall pi, pipe_is pi x -> pipe_is (f pi) x') ->
  exists s', updpipe a f s = Ret tt s' /\ inside (L_pipe a) q s' /\ pipe_has a x' s' /\ k_proc s' = k_proc s.
Proof.
  intros Hin (pi & Hpi & Hrep) Hf. exists (set_k_pipes (<[a := f pi]> (k_pipes s)) s).
  split; [by apply updpipe_eq|]. split; [by apply inside_pipes|]. split; [|done].
  exists (f pi). split; [by rewrite <- lookup_insert_eq with (m := k_pipes s) (i := a)|by apply Hf].
Qed.

Lemma put_is pi x c : (length (ps_bytes x) < 512)%nat -> pipe_is pi x -> pipe_is (pipe_put c pi) (ps_put c x).
Proof. intros Hl [H1 H2 H3]. constructor; [by apply pipe_put_rep|done..]. Qed.

(** * Writing *)
Section Writer.
Context (E : relation pstate) `{!PreOrder E} (q : nat) (a : Z).

Lemma pipewrite_wait_rg fuel x s :
  inside (L_pipe a) q s -> pipe_has a x s -> writers_ok a s ->
  rg (pipe_waiting a (fun x1 => ~ can_write x1)) (pipe_rely E q a)
    (fun ok s' => exists x', E x x' /\ pipe_has a x' s' /\ writers_ok a s' /\
       if ok : bool then inside (L_pipe a) q s' /\ (length (ps_bytes x') < 512)%nat
       else free_thread q s' /\ length (ps_bytes x') = 512%nat)
    (pipewrite_wait fuel a s).
Proof.
  revert x s. induction fuel as [|fuel IH]; intros x s Hin Hh Hw; cbn [pipewrite_wait];
    pose proof Hh as (pi & Hpi & [Hrep Hro Hwo]); (eapply rg_step; [by apply getpipe_eq|]);
    rewrite (pipe_full _ _ Hrep); (case_bool_decide as Hfull;
      [|exists x; split_and!; try done; pose proof (pr_cap _ _ Hrep); lia]).
  all: destruct (mykilled_eq _ _ _ Hin) as [k Hk];
    assert (Hstop : (if pi_readopen pi =? 0 then ret true
                     else let! k := mykilled in ret (negb (k =? 0))) s
                    = Ret ((pi_readopen pi =? 0) || negb (k =? 0)) s)
      by (destruct (pi_readopen pi =? 0); [done|by erewrite bind_run by exact Hk]);
    (eapply rg_step; [exact Hstop|]); destruct ((pi_readopen pi =? 0) || negb (k =? 0)) eqn:Hs.
  1, 3: destruct (release_pipe a x q s) as (s' & Es & Hf & Hh' & Hp & _); [done..|];
    (eapply rg_step; [exact Es|]); exists x; split_and!; try done;
    apply (writers_ok_has a x); [done|]; unfold no_sleeper; rewrite Hp; by apply Hw.
  - done.
  - destruct (pipe_wakeup a x q s (Ch_nread a)) as (s1 & E1 & Hin1 & Hv); [done|done|by right|].
    assert (~ can_write x).
    { apply orb_false_iff in Hs as [Hs _]. rewrite Hs in Hro. cbn in Hro. intros [?|?]; [lia|congruence]. }
    eapply rg_step; [exact E1|]. apply rg_bind. apply (pipe_sleep_rg E _ _ q a x); [done|done|by left|done|].
    intros x' s' HE Hin' [Hv1' Hv2' Hv3']. eapply rg_mono; [|by apply (IH x')].
    intros ok s2 (x2 & HE2 & HQ). exists x2. split; [by transitivity x'|done].
Qed.

Lemma pipewrite_loop_rg bs x s :
  inside (L_pipe a) q s -> pipe_has a x s -> writers_ok a s ->
  rg (pipe_waiting a (fun x1 => ~ can_write x1)) (pipe_rely E q a)
    (fun ok s' => exists bs1 bs2 x', bs = bs1 ++ bs2 /\ written E x bs1 x' /\ writers_ok a s' /\
       if ok : bool then bs2 = [] /\ inside (L_pipe a) q s' /\ pipe_has a x' s'
       else bs2 <> [] /\ free_thread q s' /\ exists x2, E x' x2 /\ length (ps_bytes x2) = 512%nat /\ pipe_has a x2 s')
    (pipewrite_loop a bs s).
Proof.
  revert x s. induction bs as [|c bs IH]; intros x s Hin Hh Hw; cbn [pipewrite_loop].
  { exists [], [], x. done. }
  apply rg_bind. eapply rg_mono; [|by apply (pipewrite_wait_rg wait_fuel x)].
  intros [] s1 (x1 & HE & Hh1 & Hw1 & Hok).
  - destruct Hok as [Hin1 Hl1]. cbn [negb].
    destruct (updpipe_inside a x1 (ps_put c x1) q s1 (pipe_put c)) as (s2 & E2 & Hin2 & Hh2 & Hp2); [done|done| |].
    { intros pi Hpi. by apply put_is. }
    eapply rg_step; [exact E2|]. eapply rg_mono; [|apply (IH (ps_put c x1)); [done|done|]].
    + intros ok s3 (bs1 & bs2 & x' & -> & Hwr & H). exists (c :: bs1), bs2, x'.
      split; [done|]. split; [|done]. exists x1. done.
    + apply (writers_ok_has a (ps_put c x1)); [done|]. intros _. unfold no_sleeper. rewrite Hp2.
      apply (Hw1 x1); [done|by left].
  - destruct Hok as [Hf Hl1]. exists [], (c :: bs), x. split_and!; try done. by exists x1.
Qed.

(** It is suspended only on a full pipe that it has left in order; it returns [n] having
    written the bytes one after the other, or -1 at a full pipe with some of them left. *)
Lemma pipewrite_rg x bs s :
  free_thread q s -> pipe_inv a x s ->
  rg (pipe_waiting a (fun x1 => ~ can_write x1)) (pipe_rely E q a)
    (fun r s' => free_thread q s' /\ exists bs1 bs2 x', bs = bs1 ++ bs2 /\ written E x bs1 x' /\
       (r = Z.of_nat (length bs) /\ bs2 = [] /\ pipe_inv a x' s' \/
        r = -1 /\ bs2 <> [] /\ exists x2, E x' x2 /\ length (ps_bytes x2) = 512%nat /\ pipe_has a x2 s'))
    (pipewrite a bs (Z.of_nat (length bs)) s).
Proof.
  intros Hf Hv. unfold pipewrite. rewrite take_ge by lia.
  destruct (acquire_pipe a x q s) as (s1 & E1 & Hin1 & [Hv1 Hv2 Hv3]); [done..|].
  eapply rg_step; [exact E1|]. apply rg_bind. eapply rg_mono; [|by apply (pipewrite_loop_rg bs x)].
  intros [] s2 (bs1 & bs2 & x' & -> & Hwr & Hw2 & H); cbn [negb].
  - destruct H as (-> & Hin2 & Hh2).
    destruct (pipe_wakeup a x' q s2 (Ch_nread a)) as (s3 & E3 & Hin3 & Hv3'); [done|done|by right|].
    eapply rg_step; [exact E3|].
    destruct (release_pipe a x' q s3) as (s4 & E4 & Hf4 & _ & _ & Hv4); [done|apply Hv3'|].
    eapply rg_step; [exact E4|]. split; [done|]. exists bs1, [], x'. split_and!; try done. left. auto.
  - destruct H as (Hne & Hf2 & x2 & HE & Hl2 & Hh2). split; [done|]. exists bs1, bs2, x'.
    split_and!; try done. right. split_and!; try done. by exists x2.
Qed.
End Writer.

(** With no other writer, what is left in the pipe is the end of all that was written. *)
Lemma written_suffix x bs x' : written others_read x bs x' -> ps_bytes x' `suffix_of` ps_bytes x ++ bs.
Proof.
  revert x. induction bs as [|c bs IH]; intros x; cbn [written].
  - intros ->. by rewrite app_nil_r.
  - intros (x1 & [k Hk] & _ & H). apply IH in H. etransitivity; [exact H|]. exists k.
    rewrite Hk. cbn. by rewrite <- !app_assoc.
Qed.

(** * Reading *)
Section Reader.
Context (E : relation pstate) `{!PreOrder E} (q : nat) (a : Z).

Lemma piperead_wait_rg fuel x s :
  inside (L_pipe a) q s -> pipe_inv a x s ->
  rg (pipe_waiting a (fun x1 => ~ can_read x1)) (pipe_rely E q a)
    (fun ok s' => exists x', E x x' /\ (can_read x -> x' = x) /\ pipe_inv a x' s' /\
       if ok : bool then inside (L_pipe a) q s' /\ can_read x' else free_thread q s' /\ ~ can_read x')
    (piperead_wait fuel a s).
Proof.
  revert x s. induction fuel as [|fuel IH]; intros x s Hin Hv; cbn [piperead_wait];
    pose proof (pv_has _ _ _ Hv) as (pi & Hpi & [Hrep Hro Hwo]); (eapply rg_step; [by apply getpipe_eq|]);
    rewrite (pipe_empty _ _ Hrep), Hwo;
    (assert (Hc : bool_decide (ps_bytes x = []) && ps_write x = true <-> ~ can_read x)
       by (unfold can_read; rewrite andb_true_iff, bool_decide_eq_true;
           destruct (ps_write x), (decide (ps_bytes x = [])); naive_solver));
    (destruct (bool_decide (ps_bytes x = []) && ps_write x);
       [apply proj1 in Hc; specialize (Hc eq_refl)
       |exists x; split_and!; try done; apply dec_stable; intros Hn; by apply Hc in Hn]);
    destruct (mykilled_eq _ _ _ Hin) as [k Hk]; (eapply rg_step; [exact Hk|]); destruct (negb (k =? 0)).
  1, 3: destruct (release_pipe a x q s) as (s' & Es & Hf & _ & _ & Hv'); [done|apply Hv|];
    (eapply rg_step; [exact Es|]); exists x; split_and!; try done; by apply Hv'.
  - done.
  - apply rg_bind. apply (pipe_sleep_rg E _ _ q a x); [done|done|by right|done|].
    intros x' s' HE Hin' Hv'. eapply rg_mono; [|by apply (IH x')].
    intros ok s2 (x2 & HE2 & _ & HQ). exists x2. split; [by transitivity x'|done].
Qed.

Lemma piperead_loop_eq n x s :
  inside (L_pipe a) q s -> pipe_has a x s -> readers_ok a s ->
  exists s', piperead_loop a n s = Ret (take n (ps_bytes x)) s' /\ inside (L_pipe a) q s' /\
    pipe_has a (ps_drop n x) s' /\ readers_ok a s'.
Proof.
  revert x s. induction n as [|n IH]; intros x s Hin Hh Hr; cbn [piperead_loop]; [exists s; by destruct x|].
  pose proof Hh as (pi & Hpi & [Hrep Hro Hwo]). erewrite bind_run by by apply getpipe_eq.
  rewrite (pipe_empty _ _ Hrep). destruct x as [l ro wo]. unfold ps_drop in *. cbn [ps_bytes ps_read ps_write] in *.
  case_bool_decide as Hl; [subst l; by exists s|].
  destruct l as [|c l]; [done|]. destruct (pipe_get_rep _ _ _ Hrep) as [Hc _].
  rewrite (bind_index _ _ _ _ _ c) by (try done; apply Z.mod_pos_bound; done).
  destruct (updpipe_inside a (PS (c :: l) ro wo) (PS l ro wo) q s (fun pi => set_pi_nread (u32 (pi_nread pi + 1)) pi))
    as (s1 & E1 & Hin1 & Hh1 & Hp1); [done|done|intros ? [[]%pipe_get_rep ? ?]; by constructor|].
  erewrite bind_run by exact E1. destruct (IH (PS l ro wo) s1) as (s2 & E2 & H2); [done|done| |].
  - apply (readers_ok_has a (PS l ro wo)); [done|]. intros _. unfold no_sleeper. rewrite Hp1.
    apply (Hr (PS (c :: l) ro wo)); [done|by left].
  - exists s2. by erewrite bind_run by exact E2.
Qed.

(** It is suspended only on an empty pipe with an open write end; it returns the first [n]
    bytes in the pipe, or -1 when killed. *)
Lemma piperead_rg x n s :
  free_thread q s -> pipe_inv a x s ->
  rg (pipe_waiting a (fun x1 => ~ can_read x1)) (pipe_rely E q a)
    (fun r s' => free_thread q s' /\ exists x', E x x' /\ (can_read x -> x' = x) /\
       (r = (-1, []) /\ ~ can_read x' /\ pipe_inv a x' s' \/
        r = (Z.of_nat (length (take (Z.to_nat n) (ps_bytes x'))), take (Z.to_nat n) (ps_bytes x')) /\ can_read x' /\
        pipe_inv a (ps_drop (Z.to_nat n) x') s'))
    (piperead a n s).
Proof.
  intros Hf Hv. unfold piperead.
  destruct (acquire_pipe a x q s) as (s1 & E1 & Hin1 & Hv1); [done..|].
  eapply rg_step; [exact E1|]. apply rg_bind. eapply rg_mono; [|by apply (piperead_wait_rg wait_fuel x)].
  intros [] s2 (x' & HE & Hne & Hv2 & H); cbn [negb].
  - destruct H as [Hin2 Hcan].
    destruct (piperead_loop_eq (Z.to_nat n) x' s2) as (s3 & E3 & Hin3 & Hh3 & Hr3); [done|apply Hv2..|].
    eapply rg_step; [exact E3|].
    destruct (pipe_wakeup a (ps_drop (Z.to_nat n) x') q s3 (Ch_nwrite a)) as (s4 & E4 & Hin4 & Hv4); [done|done|by left|].
    eapply rg_step; [exact E4|].
    destruct (release_pipe a (ps_drop (Z.to_nat n) x') q s4) as (s5 & E5 & Hf5 & _ & _ & Hv5); [done|apply Hv4|].
    eapply rg_step; [exact E5|]. split; [done|]. exists x'. split_and!; try done. right. auto.
  - destruct H as [Hf2 Hl']. split; [done|]. exists x'. split_and!; try done. by left.
Qed.
End Reader.

(** * Writing without waiting *)
Lemma pipewrite_loop_room a q bs x s :
  inside (L_pipe a) q s -> pipe_has a x s -> writers_ok a s -> (length (ps_bytes x) + length bs <= 512)%nat ->
  exists s', pipewrite_loop a bs s = Ret true s' /\ inside (L_pipe a) q s' /\
    pipe_has a (ps_append bs x) s' /\ writers_ok a s'.
Proof.
  revert x s. induction bs as [|c bs IH]; intros x s Hin Hh Hw Hl; cbn [pipewrite_loop length] in *.
  { exists s. unfold ps_append. rewrite app_nil_r. by destruct x. }
  assert (E1 : pipewrite_wait wait_fuel a s = Ret true s).
  { pose proof Hh as (pi & Hpi & [Hrep _ _]). destruct wait_fuel; cbn [pipewrite_wait];
      (erewrite bind_run by by apply getpipe_eq); rewrite (pipe_full _ _ Hrep);
      (rewrite bool_decide_eq_false_2 by lia); done. }
  erewrite bind_run by exact E1. cbn [negb].
  destruct (updpipe_inside a x (ps_put c x) q s (pipe_put c)) as (s2 & E2 & Hin2 & Hh2 & Hp2); [done|done| |].
  { intros pi Hpi. apply put_is; [lia|done]. }
  erewrite bind_run by exact E2.
  destruct (IH (ps_put c x) s2) as (s3 & E3 & H3); [done|done| |cbn; rewrite length_app; cbn; lia|].
  - apply (writers_ok_has a (ps_put c x)); [done|]. intros _. unfold no_sleeper. rewrite Hp2.
    apply (Hw x); [done|left; lia].
  - exists s3. split; [done|]. unfold ps_append in *. cbn in H3. by rewrite <- app_assoc in H3.
Qed.

Lemma pipewrite_room a q bs x s :
  free_thread q s -> pipe_inv a x s -> (length (ps_bytes x) + length bs <= 512)%nat ->
  exists s', pipewrite a bs (Z.of_nat (length bs)) s = Ret (Z.of_nat (length bs)) s' /\ free_thread q s' /\
    pipe_inv a (ps_append bs x) s'.
Proof.
  intros Hf Hv Hl. unfold pipewrite. rewrite take_ge by lia.
  destruct (acquire_pipe a x q s) as (s1 & E1 & Hin1 & Hv1); [done..|]. erewrite bind_run by exact E1.
  destruct (pipewrite_loop_room a q bs x s1) as (s2 & E2 & Hin2 & Hh2 & Hw2); [done|apply Hv1|apply Hv1|done|].
  erewrite bind_run by exact E2. cbn [negb].
  destruct (pipe_wakeup a (ps_append bs x) q s2 (Ch_nread a)) as (s3 & E3 & Hin3 & Hv3); [done|done|by right|].
  erewrite bind_run by exact E3.
  destruct (release_pipe a (ps_append bs x) q s3) as (s4 & E4 & Hf4 & _ & _ & Hv4); [done|apply Hv3|].
  erewrite bind_run by exact E4. exists s4. auto.
Qed.

Lemma piperead_ready a q n x s :
  free_thread q s -> pipe_inv a x s -> can_read x ->
  exists s', piperead a n s = Ret (Z.of_nat (length (take (Z.to_nat n) (ps_bytes x))), take (Z.to_nat n) (ps_bytes x)) s' /\
    free_thread q s' /\ pipe_inv a (ps_drop (Z.to_nat n) x) s'.
Proof.
  intros Hf Hv Hc. unfold piperead.
  destruct (acquire_pipe a x q s) as (s1 & E1 & Hin1 & Hv1); [done..|]. erewrite bind_run by exact E1.
  assert (E2 : piperead_wait wait_fuel a s1 = Ret true s1).
  { pose proof (pv_has _ _ _ Hv1) as (pi & Hpi & [Hrep _ Hwo]). destruct wait_fuel; cbn [piperead_wait];
      (erewrite bind_run by by apply getpipe_eq); rewrite (pipe_empty _ _ Hrep), Hwo;
      (destruct Hc as [Hc|Hc]; [by rewrite bool_decide_eq_false_2|by rewrite Hc, andb_false_r]). }
  erewrite bind_run by exact E2. cbn [negb].
  destruct (piperead_loop_eq q a (Z.to_nat n) x s1) as (s3 & E3 & Hin3 & Hh3 & Hr3); [done|apply Hv1..|].
  erewrite bind_run by exact E3.
  destruct (pipe_wakeup a (ps_drop (Z.to_nat n) x) q s3 (Ch_nwrite a)) as (s4 & E4 & Hin4 & Hv4); [done|done|by left|].
  erewrite bind_run by exact E4.
  destruct (release_pipe a (ps_drop (Z.to_nat n) x) q s4) as (s5 & E5 & Hf5 & _ & _ & Hv5); [done|apply Hv4|].
  erewrite bind_run by exact E5. exists s5. auto.
Qed.

(** * Closing *)
Lemma close_is pi x w :
  pipe_is pi x -> pipe_is (if negb (w =? 0) then set_pi_writeopen 0 pi else set_pi_readopen 0 pi) (ps_close (negb (w =? 0)) x).
Proof. intros [[] H2 H3]. destruct (negb (w =? 0)); by constructor; [constructor|..]. Qed.

(** Up to the last test, [pipeclose] marks the end closed and wakes the other side. *)
Lemma pipeclose_mark a q w x s :
  free_thread q s -> pipe_inv a x s ->
  exists s1, inside (L_pipe a) q s1 /\ pipe_inv a (ps_close (negb (w =? 0)) x) s1 /\
    set_k_pipes ∅ (rest s1) = set_k_pipes ∅ (rest s) /\
    pipeclose a w s =
      (let! pi := getpipe a in
       if (pi_readopen pi =? 0) && (pi_writeopen pi =? 0) then release (L_pipe a) ;; freepipe a
       else release (L_pipe a)) s1.
Proof.
  intros Hf Hv. unfold pipeclose.
  destruct (acquire_free (L_pipe a) q s Hf) as (s1 & E1 & Hin1 & Hr1 & Hp1).
  assert (Hv1 : pipe_inv a x s1).
  { apply (pipe_inv_same a x s); [done| |done]. intros ch. unfold no_sleeper. by rewrite Hp1. }
  pose proof (pv_has _ _ _ Hv1) as (pi & Hpi & His). pose proof (close_is pi x w His) as His'.
  set (pi' := if negb (w =? 0) then _ else _) in His'.
  set (s2 := set_k_pipes (<[a := pi']> (k_pipes s1)) s1).
  assert (Hin2 : inside (L_pipe a) q s2) by by apply inside_pipes.
  assert (Hh2 : pipe_has a (ps_close (negb (w =? 0)) x) s2).
  { exists pi'. split; [|done]. apply lookup_insert_eq. }
  set (ch := if negb (w =? 0) then Ch_nread a else Ch_nwrite a).
  destruct (wakeup_inside (L_pipe a) q s2 ch) as (s3 & E3 & Hin3 & Hr3 & Hp3); [done..|].
  exists s3. split; [done|].
  assert (Hdo : (if negb (w =? 0) then updpipe a (set_pi_writeopen 0) ;; wakeup (Ch_nread a)
                 else updpipe a (set_pi_readopen 0) ;; wakeup (Ch_nwrite a)) s1 = Ret tt s3).
  { unfold ch, s2, pi' in *. destruct (negb (w =? 0)); by erewrite bind_run by by apply updpipe_eq. }
  split_and!.
  - destruct (pipe_wakeup a (ps_close (negb (w =? 0)) x) q s2 ch) as (s3' & E3' & _ & Hv3); [done|done| |congruence].
    unfold ch. destruct (negb (w =? 0)) eqn:Ew; [right|left]; (split; [done|]); intros y Hy Hc;
      apply (pipe_has_inj _ _ _ _ Hh2) in Hy; subst y; [apply (pv_writers _ _ _ Hv1 x)|apply (pv_readers _ _ _ Hv1 x)];
      (try apply Hv1); by destruct x.
  - rewrite Hr3. transitivity (set_k_pipes ∅ (rest s1)); [done|]. by rewrite Hr1.
  - erewrite bind_run by exact E1. erewrite bind_run by exact Hdo. done.
Qed.
End PipeThreads.



(** Within the 512 bytes of the buffer a write does not wait, and a read of the same
    length from the then non-empty pipe gives back the bytes that were there followed by the
    ones written. *)
Theorem pipe_roundtrip {WF : WaitFuel} q a x s bs :
  free_thread q s -> pipe_inv a x s -> (length (ps_bytes x) + length bs <= 512)%nat ->
  ps_bytes x ++ bs <> [] ->
  let n := Z.of_nat (length (ps_bytes x ++ bs)) in
  exists s1 s2, pipewrite a bs (Z.of_nat (length bs)) s = Ret (Z.of_nat (length bs)) s1 /\
    piperead a n s1 = Ret (n, ps_bytes x ++ bs) s2 /\ free_thread q s2 /\
    pipe_inv a (PS [] (ps_read x) (ps_write x)) s2.
Proof.
  intros Hf Hv Hl Hne n. destruct (pipewrite_room a q bs x s) as (s1 & E1 & Hf1 & Hv1); [done..|].
  destruct (piperead_ready a q n (ps_append bs x) s1) as (s2 & E2 & Hf2 & Hv2); [done|done|by left|].
  exists s1, s2. split; [done|]. unfold ps_drop in Hv2. cbn [ps_append ps_bytes ps_read ps_write] in *.
  unfold n in *. rewrite Nat2Z.id in *. rewrite firstn_all in E2. rewrite drop_all in Hv2. done.
Qed.

(** [pipeclose] marks its end closed and lets the other side's waiters go; the pipe
    stays in order while the other end is open, and closing the second end gives its page
    back to the allocator. *)
Theorem pipeclose_correct q a w x s l :
  free_thread q s -> pipe_inv a x s -> page_ok (k_end s) a -> kmem_ok s l -> a ∉ l ->
  let x' := ps_close (negb (w =? 0)) x in
  exists s', pipeclose a w s = Ret tt s' /\
    if ps_read x' || ps_write x' then pipe_inv a x' s' /\ free_thread q s' /\ kmem_ok s' l
    else k_pipes s' !! a = None /\ kmem_ok s' (a :: l).
Proof.
  intros Hf Hv Hpg Hkm Hl x'. destruct (pipeclose_mark a q w x s Hf Hv) as (s1 & Hin1 & Hv1 & Hr1 & ->).
  fold x' in Hv1. pose proof (pv_has _ _ _ Hv1) as (pi & Hpi & [_ Hro Hwo]).
  erewrite bind_run by by apply getpipe_eq.
  replace ((pi_readopen pi =? 0) && (pi_writeopen pi =? 0)) with (negb (ps_read x' || ps_write x'))
    by (rewrite <- Hro, <- Hwo; by destruct (pi_readopen pi =? 0), (pi_writeopen pi =? 0)).
  destruct (release_inside _ _ _ Hin1) as (s2 & E2 & Hf2 & Hr2 & Hp2).
  assert (Hr : set_k_pipes ∅ (rest s2) = set_k_pipes ∅ (rest s)) by by rewrite Hr2.
  pose proof (f_equal k_end Hr) as He. pose proof (f_equal k_mem Hr) as Hm. pose proof (f_equal k_freelist Hr) as Hfl.
  cbn in He, Hm, Hfl.
  assert (Hkm2 : kmem_ok s2 l) by (revert Hkm; apply kmem_ok_frame; [done|done|intros; by rewrite Hm]).
  destruct (ps_read x' || ps_write x') eqn:Hopen; cbn [negb].
  - exists s2. split; [done|]. split_and!; try done. revert Hv1. apply pipe_inv_same; [done|].
    intros ch. unfold no_sleeper. by rewrite Hp2.
  - erewrite bind_run by exact E2. unfold freepipe. rewrite bind_modify.
    set (s3 := set_k_pipes (delete a (k_pipes s2)) s2).
    destruct (ft_on _ _ Hf2) as (i & c & pr & [Hc _ _] & _).
    eexists. split; [apply (kfree_eq s3 a i c)|].
    + right. split; [done|]. unfold lock_free. change (h_locks (k_hw s3)) with (h_locks (k_hw s2)). by rewrite (ft_locks _ _ Hf2).
    + cbn. by rewrite He.
    + split; [apply lookup_delete_eq|]. apply kmem_ok_push; [cbn; by rewrite He|done|].
      revert Hkm2. by apply kmem_ok_frame.
Qed.

(** A kernel with one process, running, and a pipe with the bytes 7 and 8. *)
Definition pipe_page : Z := 2149580800.
Definition pipe_kernel : kernel :=
  set_k_hw (set_h_cpus (set_c_proc (Some 0%nat) cpu0 :: replicate 7 cpu0) hw0)
    (set_k_proc (set_p_state RUNNING proc0 :: replicate 63 proc0)
      (set_k_pipes {[ pipe_page := mkPipe (7 :: 8 :: replicate 510 0) 0 2 1 1 ]} kernel0)).

Lemma pipe_kernel_free : free_thread 0 pipe_kernel.
Proof.
  constructor; [|done|done]. exists 0%nat, (set_c_proc (Some 0%nat) cpu0), (set_p_state RUNNING proc0).
  split_and!; [|done|done]. constructor; [|done|done]. constructor; [constructor|..]; simpl; auto; lia.
Qed.

Lemma pipe_kernel_inv : pipe_inv pipe_page (PS [7; 8] true true) pipe_kernel.
Proof.
  assert (no_sleeper pipe_kernel (Ch_nread pipe_page) /\ no_sleeper pipe_kernel (Ch_nwrite pipe_page)) as [H1 H2].
  { split; apply Forall_cons; (split; [by intros [? _]|]); apply Forall_replicate; by intros [? _]. }
  constructor; [|by intros ???..]. eexists. split; [apply lookup_insert_eq|]. constructor; [|done|done].
  constructor; cbn; [done|lia|done|lia|].
  intros [|[|k]] y Hk; cbn in Hk; by simplify_eq.
Qed.



Lemma pipe_roundtrip_witness :
  exists s1 s2, @pipewrite 3%nat pipe_page [9; 10; 11] 3 pipe_kernel = Ret 3 s1 /\
    @piperead 3%nat pipe_page 5 s1 = Ret (5, [7; 8; 9; 10; 11]) s2.
Proof.
  destruct (@pipe_roundtrip 3%nat 0 pipe_page (PS [7; 8] true true) pipe_kernel [9; 10; 11]) as (s1 & s2 & H1 & H2 & _).
  - exact pipe_kernel_free.
  - exact pipe_kernel_inv.
  - cbn. lia.
  - discriminate.
  - exists s1, s2. split; assumption.
Defined.

Lemma pipeclose_correct_witness :
  exists s', pipeclose pipe_page 1 pipe_kernel = Ret tt s' /\ pipe_inv pipe_page (PS [7; 8] true false) s'.
Proof.
  destruct (pipeclose_correct 0 pipe_page 1 (PS [7; 8] true true) pipe_kernel []) as (s' & H1 & H2 & _).
  - exact pipe_kernel_free.
  - exact pipe_kernel_inv.
  - exact kernel0_page.
  - constructor; [reflexivity|constructor|constructor].
  - apply not_elem_of_nil.
  - exists s'. split; assumption.
Defined.
