(* ===== verification/File.v ===== *)
(** Open files ([file.c]) and [pipealloc] of [pipe.c]: the system file table, reference
    counts, and dispatch to pipes and inodes. *)

From S2P Require Import Prelude Bytes Params State Spinlock Kalloc Sched Sleeplock Bio Block Log Fs Pipe.
From stdpp Require Import base list gmap strings.
From Stdlib Require Import ZArith Lia.
Local Open Scope Z_scope.
Local Open Scope km_scope.

Definition fileinit : K unit := initlock L_ftable.

(** The index of the file, [None] for a null pointer. *)
Definition filealloc : K (option nat) :=
  acquire L_ftable ;;
  let! r := for_find (range NFILE) (fun f =>
    let! fl := getfile f in
    if f_ref fl =? 0 then
      updfile f (set_f_ref 1) ;;
      release L_ftable ;;
      ret (Some f)
    else ret None) in
  match r with
  | Some f => ret (Some f)
  | None => release L_ftable ;; ret None
  end.

Definition filedup (f : nat) : K nat :=
  acquire L_ftable ;;
  let! fl := getfile f in
  if f_ref fl <? 1 then panic "filedup" else
  updfile f (fun fl => set_f_ref (f_ref fl + 1) fl) ;;
  release L_ftable ;;
  ret f.

Section File.
Context {WF : WaitFuel} {DS : Devsw}.

Definition fileclose (f : nat) : K unit :=
  acquire L_ftable ;;
  let! fl := getfile f in
  if f_ref fl <? 1 then panic "fileclose" else
  updfile f (fun fl => set_f_ref (f_ref fl - 1) fl) ;;
  let! ff := getfile f in
  if 0 <? f_ref ff then release L_ftable else
  updfile f (set_f_ref 0) ;;
  updfile f (set_f_type FD_NONE) ;;
  release L_ftable ;;
  match f_type ff with
  | FD_PIPE => pipeclose (f_pipe ff) (f_writable ff)
  | FD_INODE =>
      begin_op ;;
      let! ip := nonnull "iput(0)" (f_ip ff) in
      iput ip ;;
      end_op
  | FD_NONE => ret tt
  end.

(** [st] and 0, or -1. *)
Definition filestat (f : nat) : K (option stat_t) :=
  let! fl := getfile f in
  match f_type fl with
  | FD_INODE =>
      ilock (f_ip fl) ;;
      let! ip := nonnull "stati(0)" (f_ip fl) in
      let! st := stati ip (f_cid fl) in
      iunlock (f_ip fl) ;;
      ret (Some st)
  | _ => ret None
  end.

Definition fileread (f : nat) (n : Z) : K (Z * list Z) :=
  let! fl := getfile f in
  if f_readable fl =? 0 then ret (-1, []) else
  match f_type fl with
  | FD_PIPE => piperead (f_pipe fl) n
  | FD_INODE =>
      ilock (f_ip fl) ;;
      let! ip := nonnull "readi(0)" (f_ip fl) in
      let! r := readi ip (f_off fl) (u32 n) in
      when (0 <? r.1) (updfile f (fun fl => set_f_off (u32 (f_off fl + r.1)) fl)) ;;
      iunlock (f_ip fl) ;;
      ret r
  | FD_NONE => panic "fileread"
  end.

(** [max] of [filewrite] *)
Definition write_max : Z := (MAXOPBLOCKS - 1 - 1 - 2) / 2 * 512.

(** The loop of [filewrite]; [src] are the bytes from [addr + i] on. Every round that
    continues writes [n1 >= 1] bytes. *)
Fixpoint filewrite_loop (fuel : nat) (f : nat) (src : list Z) (i n : Z) : K Z :=
  if n <=? i then ret i else
  match fuel with
  | O => nofuel
  | S fuel =>
      let n1 := Z.min (n - i) write_max in
      begin_op ;;
      let! fl := getfile f in
      ilock (f_ip fl) ;;
      let! ip := nonnull "writei(0)" (f_ip fl) in
      let! r := writei ip (take (Z.to_nat n1) src) (f_off fl) n1 in
      when (0 <? r) (updfile f (fun fl => set_f_off (u32 (f_off fl + r)) fl)) ;;
      iunlock (f_ip fl) ;;
      end_op ;;
      if r <? 0 then ret i else
      if negb (r =? n1) then panic "short filewrite" else
      filewrite_loop fuel f (drop (Z.to_nat r) src) (i + r) n
  end.

Definition filewrite (f : nat) (addr : list Z) (n : Z) : K Z :=
  let! fl := getfile f in
  if f_writable fl =? 0 then ret (-1) else
  match f_type fl with
  | FD_PIPE => pipewrite (f_pipe fl) addr n
  | FD_INODE =>
      let! i := filewrite_loop (Z.to_nat (n / write_max + 1)) f addr 0 n in
      ret (if i =? n then n else -1)
  | FD_NONE => panic "filewrite"
  end.

(** The [bad:] exit of [pipealloc]. *)
Definition pipealloc_bad (p : Z) (f0 f1 : option nat) : K (option (nat * nat)) :=
  when (negb (p =? 0)) (kfree p) ;;
  match f0 with Some f => fileclose f | None => ret tt end ;;
  match f1 with Some f => fileclose f | None => ret tt end ;;
  ret None.

(** A file for an end of pipe [p]. *)
Definition pipe_end (f : nat) (p readable writable : Z) : K unit :=
  updfile f (set_f_type FD_PIPE) ;;
  updfile f (set_f_readable readable) ;;
  updfile f (set_f_writable writable) ;;
  updfile f (set_f_pipe p).

(** [data] of a pipe lies 52 bytes into its page, behind the lock. *)
Definition pipealloc : K (option (nat * nat)) :=
  let! f0 := filealloc in
  match f0 with
  | None => pipealloc_bad 0 None None
  | Some a =>
      let! f1 := filealloc in
      match f1 with
      | None => pipealloc_bad 0 f0 None
      | Some b =>
          let! p := kalloc in
          if p =? 0 then pipealloc_bad 0 f0 f1 else
          modify (fun s => set_k_pipes
            (<[p := mkPipe (ld_bytes (k_mem s) (p + 52) (Z.to_nat PIPESIZE)) 0 0 1 1]> (k_pipes s)) s) ;;
          initlock (L_pipe p) ;;
          pipe_end a p 1 0 ;;
          pipe_end b p 0 1 ;;
          ret (Some (a, b))
      end
  end.
End File.
