(* ===== verification/Proc.v ===== *)
(** Processes ([proc.c]): creation, [fork], [exit], [wait], the scheduler loop, the
    process listing, and the decimal and concatenation helpers of the schedule log. *)

From S2P Require Import Prelude Bytes KString Params State Spinlock Cprintf Kalloc Vm Sched Sleeplock Bio Block Log LogTx Fs Pipe File.
From stdpp Require Import base list gmap strings.
From Stdlib Require Import ZArith Lia.
Local Open Scope Z_scope.
Local Open Scope km_scope.

(** What the linker provides: the addresses of [trapret] and [forkret] and the image of
    [initcode.S]. *)
Class Linked : Type := mkLinked {
  trapret_addr : Z;
  forkret_addr : Z;
  initcode : list Z
}.

Definition TRAPFRAME_SIZE : Z := 76.
Definition CONTEXT_SIZE : Z := 20.

(** [safestrcpy] into a character array [s], from the string [t]. *)
Fixpoint lsafestrcpy_loop (s t : list Z) (n : nat) : list Z :=
  match n with
  | O => <[0%nat := 0]> s
  | S n' =>
      let c := char_at t 0 in
      if c =? 0 then <[0%nat := 0]> (<[1%nat := 0]> s)
      else c :: lsafestrcpy_loop (drop 1 s) (drop 1 t) n'
  end.

Definition lsafestrcpy (s t : list Z) (n : Z) : list Z :=
  if n <=? 0 then s else lsafestrcpy_loop s t (Z.to_nat (n - 1)).

(** The string held in a character array: its bytes up to the first NUL. *)
Fixpoint upto_nul (l : list Z) : list Z :=
  match l with
  | [] => []
  | c :: l' => if c =? 0 then [] else c :: upto_nul l'
  end.

(** The trap frame whose words are at [a]. *)
Definition tf_at (m : mem) (a : Z) : trapframe :=
  let w (i : Z) := ld32 m (a + 4 * i) in
  let h (i : Z) := ld32 m (a + 4 * i) mod 65536 in
  mkTrapframe (w 0) (w 1) (w 2) (w 3) (w 4) (w 5) (w 6) (w 7) (h 8) (h 9) (h 10) (h 11)
              (w 12) (w 13) (w 14) (h 15) (w 16) (w 17) (h 18).

(** * Decimal numerals and concatenation *)

(** The counting loop of [my_itoa_1]; an [int] has at most ten digits. *)
Fixpoint itoa_end (fuel : nat) (n p : Z) : Z :=
  match fuel with
  | O => p
  | S fuel => let n := Z.quot n 10 in if n =? 0 then p + 1 else itoa_end fuel n (p + 1)
  end.

(** The loop that stores digits downwards from [p]; [None] when [digit[i%10]] is
    outside the table. *)
Fixpoint itoa_digits (fuel : nat) (m : mem) (i p : Z) : option (mem * Z) :=
  match fuel with
  | O => Some (m, p)
  | S fuel =>
      if Z.rem i 10 <? 0 then None else
      let m := upd m (p - 1) (48 + Z.rem i 10) in
      let i := Z.quot i 10 in
      if i =? 0 then Some (m, p - 1) else itoa_digits fuel m i (p - 1)
  end.

Definition my_itoa_1 (i b : Z) : K Z :=
  let p := itoa_end 10 i b in
  let! m := gets k_mem in
  match itoa_digits 10 (upd m p 0) i p with
  | None => undef "digit[i%10]"
  | Some (m, _) => modify (set_k_mem m) ;; ret b
  end.

(** The bytes of the strings [s1] and [s2], stored in a new page. *)
Definition my_strcat (s1 s2 : list Z) : K Z :=
  let! b := kalloc in
  if b =? 0 then undef "my_strcat: store to 0" else
  updmem (fun m => st_bytes m b (s1 ++ s2 ++ [0])) ;;
  ret b.

(** The string at a kernel address, within a page. *)
Fixpoint kstr (fuel : nat) (m : mem) (a : Z) : list Z :=
  match fuel with
  | O => []
  | S fuel => if m a =? 0 then [] else m a :: kstr fuel m (a + 1)
  end.

Definition kstring (a : Z) : K (list Z) := gets (fun s => kstr (Z.to_nat PGSIZE) (k_mem s) a).

Section Proc.
Context {WF : WaitFuel} {DS : Devsw} {LK : Linked}.

Definition allocproc : K (option nat) :=
  acquire L_ptable ;;
  let! r := for_find (range NPROC) (fun p =>
    let! pr := getproc p in
    if bool_decide (p_state pr = UNUSED) then ret (Some p) else ret None) in
  match r with
  | None => release L_ptable ;; ret None
  | Some p =>
      updproc p (set_p_state EMBRYO) ;;
      let! pid := gets k_nextpid in
      modify (set_k_nextpid (i32 (pid + 1))) ;;
      updproc p (set_p_pid pid) ;;
      release L_ptable ;;
      let! ks := kalloc in
      updproc p (set_p_kstack ks) ;;
      if ks =? 0 then updproc p (set_p_state UNUSED) ;; ret None else
      let sp := ks + KSTACKSIZE in
      let sp := sp - TRAPFRAME_SIZE in
      let! m := gets k_mem in
      updproc p (set_p_tf (tf_at m sp)) ;;
      let sp := sp - 4 in
      stmem sp trapret_addr ;;
      let sp := sp - CONTEXT_SIZE in
      updmem (fun m => memset m sp 0 CONTEXT_SIZE) ;;
      stmem (sp + 16) forkret_addr ;;
      updproc p (set_p_context (set_cx_eip forkret_addr context0)) ;;
      ret (Some p)
  end.

Definition user_tf : trapframe :=
  let ds := Z.lor (Z.shiftl SEG_UDATA 3) DPL_USER in
  set_tf_eip 0 (set_tf_esp PGSIZE (set_tf_eflags FL_IF (set_tf_ss ds (set_tf_es ds (set_tf_ds ds
    (set_tf_cs (Z.lor (Z.shiftl SEG_UCODE 3) DPL_USER) trapframe0)))))).

Definition userinit : K unit :=
  let! op := allocproc in
  modify (set_k_initproc op) ;;
  let! p := nonnull "userinit: no process" op in
  let! d := setupkvm in
  updproc p (set_p_pgdir d) ;;
  if d =? 0 then panic "userinit: out of memory?" else
  inituvm d initcode (Z.of_nat (length initcode)) ;;
  updproc p (set_p_sz PGSIZE) ;;
  updproc p (set_p_tf user_tf) ;;
  updproc p (fun pr => set_p_name (lsafestrcpy (p_name pr) (str "initcode") 16) pr) ;;
  let! cwd := namei (str "/") in
  updproc p (set_p_cwd cwd) ;;
  acquire L_ptable ;;
  updproc p (set_p_state RUNNABLE) ;;
  release L_ptable.

Definition growproc (n : Z) : K Z :=
  let! op := myproc in
  let! p := nonnull "growproc: no process" op in
  let! pr := getproc p in
  let sz := p_sz pr in
  let! sz' :=
    (if 0 <? n then allocuvm (p_pgdir pr) sz (u32 (sz + n))
     else if n <? 0 then deallocuvm (p_pgdir pr) sz (u32 (sz + n))
     else ret sz) in
  if negb (n =? 0) && (sz' =? 0) then ret (-1) else
  updproc p (set_p_sz sz') ;;
  switchuvm (Some p) ;;
  ret 0.

Definition fork : K Z :=
  let! op := myproc in
  let! curproc := nonnull "fork: no process" op in
  let! onp := allocproc in
  match onp with
  | None => ret (-1)
  | Some np =>
      let! cur := getproc curproc in
      let! d := copyuvm (p_pgdir cur) (p_sz cur) in
      updproc np (set_p_pgdir d) ;;
      if d =? 0 then
        let! n := getproc np in
        kfree (p_kstack n) ;;
        updproc np (set_p_kstack 0) ;;
        updproc np (set_p_state UNUSED) ;;
        ret (-1)
      else
      let! cur := getproc curproc in
      updproc np (set_p_sz (p_sz cur)) ;;
      updproc np (set_p_parent (Some curproc)) ;;
      updproc np (set_p_tf (p_tf cur)) ;;
      updproc np (fun n => set_p_tf (set_tf_eax 0 (p_tf n)) n) ;;
      for_each (range NOFILE) (fun i =>
        let! cur := getproc curproc in
        match p_ofile cur !! i with
        | Some (Some f) =>
            let! f := filedup f in
            updproc np (fun n => set_p_ofile (<[i := Some f]> (p_ofile n)) n)
        | _ => ret tt
        end) ;;
      let! cur := getproc curproc in
      let! cwd := nonnull "idup(0)" (p_cwd cur) in
      let! cwd := idup cwd in
      updproc np (set_p_cwd (Some cwd)) ;;
      updproc np (fun n => set_p_name (lsafestrcpy (p_name n) (p_name cur) 16) n) ;;
      let! n := getproc np in
      let pid := p_pid n in
      acquire L_ptable ;;
      updproc np (set_p_state RUNNABLE) ;;
      release L_ptable ;;
      ret pid
  end.

(** [exit] does not return: its result type is any. *)
Definition exit {A} : K A :=
  let! op := myproc in
  let! init := gets k_initproc in
  if bool_decide (op = init) then panic "init exiting" else
  let! curproc := nonnull "exit: no process" op in
  for_each (range NOFILE) (fun fd =>
    let! cur := getproc curproc in
    match p_ofile cur !! fd with
    | Some (Some f) =>
        fileclose f ;;
        updproc curproc (fun pr => set_p_ofile (<[fd := None]> (p_ofile pr)) pr)
    | _ => ret tt
    end) ;;
  begin_op ;;
  let! cur := getproc curproc in
  let! cwd := nonnull "iput(0)" (p_cwd cur) in
  iput cwd ;;
  end_op ;;
  updproc curproc (set_p_cwd None) ;;
  acquire L_ptable ;;
  let! cur := getproc curproc in
  wakeup1 (Ch_proc <$> p_parent cur) ;;
  for_each (range NPROC) (fun p =>
    let! pr := getproc p in
    when (bool_decide (p_parent pr = Some curproc))
      (let! init := gets k_initproc in
       updproc p (set_p_parent init) ;;
       when (bool_decide (p_state pr = ZOMBIE)) (wakeup1 (Ch_proc <$> init)))) ;;
  updproc curproc (set_p_state ZOMBIE) ;;
  sched ;;
  panic "zombie exit".

(** One scan of [wait] over the table: the pid of the child that was freed, or whether
    there are children. *)
Fixpoint wait_scan (l : list nat) (curproc : nat) (havekids : bool) : K (Z + bool) :=
  match l with
  | [] => ret (inr havekids)
  | p :: l' =>
      let! pr := getproc p in
      if negb (bool_decide (p_parent pr = Some curproc)) then wait_scan l' curproc havekids
      else if bool_decide (p_state pr = ZOMBIE) then
        let pid := p_pid pr in
        kfree (p_kstack pr) ;;
        updproc p (set_p_kstack 0) ;;
        freevm (p_pgdir pr) ;;
        updproc p (set_p_pid 0) ;;
        updproc p (set_p_parent None) ;;
        updproc p (fun pr => set_p_name (<[0%nat := 0]> (p_name pr)) pr) ;;
        updproc p (set_p_killed 0) ;;
        updproc p (set_p_state UNUSED) ;;
        release L_ptable ;;
        ret (inl pid)
      else wait_scan l' curproc true
  end.

Fixpoint wait_loop (fuel : nat) (curproc : nat) : K Z :=
  let! r := wait_scan (range NPROC) curproc false in
  match r with
  | inl pid => ret pid
  | inr havekids =>
      let! cur := getproc curproc in
      if negb havekids || negb (p_killed cur =? 0) then release L_ptable ;; ret (-1)
      else match fuel with
      | O => nofuel
      | S fuel => sleep (Ch_proc curproc) L_ptable ;; wait_loop fuel curproc
      end
  end.

Definition wait : K Z :=
  let! op := myproc in
  let! curproc := nonnull "wait: no process" op in
  acquire L_ptable ;;
  wait_loop wait_fuel curproc.

(** * The scheduler *)

(** The schedule log of [scheduler]: a line for a process of the container being logged. *)
Definition log_schedule (p : nat) : K unit :=
  let! cs := gets k_cont in
  let! on := index "sch_log[cid_sch_log]" (cs_sch_log cs) (cs_cid_sch_log cs) in
  let! pr := getproc p in
  when ((on =? 1) && (cs_cid_sch_log cs =? p_cid pr))
    (let! _ := kalloc in
     let! str_cid := kalloc in
     let! str_pid := kalloc in
     if (str_cid =? 0) || (str_pid =? 0) then undef "my_itoa_1: store to 0" else
     let! a := my_itoa_1 (p_cid pr) str_cid in
     let! a := kstring a in
     let! str1 := my_strcat (str "Container ") a in
     let! a := my_itoa_1 (p_pid pr) str_pid in
     let! a := kstring a in
     let! str2 := my_strcat (str " : Scheduling process ") a in
     let! s1 := kstring str1 in
     let! s2 := kstring str2 in
     let! str' := my_strcat s1 s2 in
     let! s := kstring str' in
     cprintf (str "%s" ++ [NL]) [A_str (Some s)]).

(** The body of the table loop, for one process. *)
Definition run_proc (c : nat) (logging : bool) (p : nat) : K unit :=
  let! pr := getproc p in
  if negb (bool_decide (p_state pr = RUNNABLE)) then ret tt else
  updcpu c (set_c_proc (Some p)) ;;
  switchuvm (Some p) ;;
  updproc p (set_p_state RUNNING) ;;
  when logging (log_schedule p) ;;
  swtch ;;
  switchkvm ;;
  updcpu c (set_c_proc None).

(** One round of the [for(;;)] of [scheduler]. *)
Definition scheduler_round (c : nat) : K unit :=
  sti ;;
  acquire L_ptable ;;
  for_each (range NPROC) (run_proc c true) ;;
  release L_ptable.

(** The scheduler run for [rounds] rounds; it never returns. *)
Fixpoint scheduler_loop (rounds : nat) (c : nat) : K unit :=
  match rounds with
  | O => nofuel
  | S rounds => scheduler_round c ;; scheduler_loop rounds c
  end.

Definition scheduler (rounds : nat) : K unit :=
  let! c := mycpu in
  updcpu c (set_c_proc None) ;;
  scheduler_loop rounds c.

Definition scheduler2_round (c : nat) : K unit :=
  acquire L_ptable ;;
  for_each (range NPROC) (run_proc c false) ;;
  release L_ptable.

Fixpoint scheduler2_loop (rounds : nat) (c : nat) : K unit :=
  match rounds with
  | O => nofuel
  | S rounds => scheduler2_round c ;; scheduler2_loop rounds c
  end.

Definition scheduler2 (rounds : nat) : K unit :=
  let! c := mycpu in
  updcpu c (set_c_proc None) ;;
  scheduler2_loop rounds c.

Definition forkret : K unit :=
  release L_ptable ;;
  let! first := gets k_forkret_first in
  when (negb (first =? 0))
    (modify (set_k_forkret_first 0) ;;
     iinit ROOTDEV ;;
     initlog ROOTDEV).
End Proc.

(** * Listings *)

(** The [%ebp] chain from [v]: ten saved [%eip]s, 0 past its end. *)
Fixpoint callerpcs (n : nat) (m : mem) (ebp : Z) : list Z :=
  match n with
  | O => []
  | S n' =>
      if (ebp =? 0) || (ebp <? KERNBASE) || (ebp =? 4294967295) then replicate n 0
      else ld32 m (ebp + 4) :: callerpcs n' m (ld32 m ebp)
  end.

Definition getcallerpcs (v : Z) : K (list Z) := gets (fun s => callerpcs 10 (k_mem s) (u32 (v - 8))).

Definition states (st : procstate) : list Z :=
  match st with
  | UNUSED => str "unused" | EMBRYO => str "embryo" | SLEEPING => str "sleep "
  | RUNNABLE => str "runble" | RUNNING => str "run   " | ZOMBIE => str "zombie"
  end.

Definition procdump : K unit :=
  for_each (range NPROC) (fun p =>
    let! pr := getproc p in
    if bool_decide (p_state pr = UNUSED) then ret tt else
    cprintf (str "%d %s %s")
      [A_int (p_pid pr); A_str (Some (states (p_state pr))); A_str (Some (upto_nul (p_name pr)))] ;;
    when (bool_decide (p_state pr = SLEEPING))
      (let! pc := getcallerpcs (u32 (cx_ebp (p_context pr) + 8)) in
       for_each (upto_nul pc) (fun x => cprintf (str " %p") [A_int x])) ;;
    cprintf [NL] []).
