(* ===== verification/Init.v ===== *)
(** Start-up of memory and of the first process: [kinit1], [kvmalloc], [kinit2] and [userinit], composed from the
    allocator, the page tables, the process table and the inode cache. *)

From S2P Require Import Prelude Bytes KString Params State Spinlock Cprintf Kalloc Vm Aspace Uspace Ucopy Fs Inode Proc.
From stdpp Require Import base list gmap sets strings.
From Stdlib Require Import ZArith Lia.
Local Open Scope Z_scope.
Local Open Scope km_scope.

(** No spin-lock is held. *)
Definition unlocked (s : kernel) : Prop := forall x, lock_free (k_hw s) x.

(** * A slot of the process table *)

Definition at_proc (p : nat) (pr : proc) (s : kernel) : kernel := set_k_proc (<[p := pr]> (k_proc s)) s.

(** The memory after [allocproc] has laid out the kernel stack [ks]: what [forkret] and its return find there. *)
Definition stack_mem `{Linked} (ks : Z) (m : mem) : mem :=
  let sp := ks + KSTACKSIZE - TRAPFRAME_SIZE - 4 in
  st32 (memset (st32 m sp trapret_addr) (sp - CONTEXT_SIZE) 0 CONTEXT_SIZE) (sp - CONTEXT_SIZE + 16) forkret_addr.

Definition new_proc `{Linked} (ks pid : Z) (m : mem) (pr : proc) : proc :=
  set_p_context (set_cx_eip forkret_addr context0)
    (set_p_tf (tf_at m (ks + KSTACKSIZE - TRAPFRAME_SIZE)) (set_p_kstack ks (set_p_pid pid (set_p_state EMBRYO pr)))).

Section Slot.
Implicit Types (s : kernel) (p : nat) (pr : proc) (i : nat) (c : cpu).

Lemma updproc_at s p pr f : (p < length (k_proc s))%nat -> updproc p f (at_proc p pr s) = Ret tt (at_proc p (f pr) s).
Proof.
  intros Hp. erewrite updproc_eq by (cbn; by apply list_lookup_insert_eq). unfold at_proc. cbn [k_proc set_k_proc].
  rewrite list_insert_insert_eq. by destruct s.
Qed.

Lemma kmem_ok_same s s' l : k_mem s' = k_mem s -> k_freelist s' = k_freelist s -> k_end s' = k_end s -> kmem_ok s l -> kmem_ok s' l.
Proof. intros E1 E2 E3 Hk. eapply kmem_ok_frame; [done|done| |exact Hk]. intros. by rewrite E1. Qed.

Lemma first_unused s s' p pr : k_proc s' = k_proc s -> length (k_proc s) = Z.to_nat NPROC ->
  list_find (fun x => p_state x = UNUSED) (k_proc s) = Some (p, pr) ->
  for_find (range NPROC) (fun p => let! pr := getproc p in if bool_decide (p_state pr = UNUSED) then ret (Some p) else ret None) s' = Ret (Some p) s'.
Proof.
  intros E Hlen Hf. match goal with |- for_find _ ?b _ = _ => pose proof (for_find_table (fun x => p_state x = UNUSED) (k_proc s) b s') as Ht end.
  rewrite Hf in Ht. unfold range. rewrite <- Hlen. apply Ht.
  - intros j x Hx Hn. erewrite bind_run by (apply getproc_eq; by rewrite E). by rewrite bool_decide_eq_false_2.
  - apply list_find_Some in Hf as (Hp & Hs & _). erewrite bind_run by (apply getproc_eq; by rewrite E). by rewrite bool_decide_eq_true_2.
Qed.

Lemma allocproc_ok `{Linked} s i c p pr ks l :
  on_cpu (k_hw s) i c -> unlocked s -> kmem_lockable s i c -> kmem_ok s (ks :: l) ->
  length (k_proc s) = Z.to_nat NPROC -> list_find (fun x => p_state x = UNUSED) (k_proc s) = Some (p, pr) ->
  allocproc s = Ret (Some p) (at_proc p (new_proc ks (k_nextpid s) (k_mem s) pr)
    (set_k_mem (stack_mem ks (k_mem s)) (set_k_freelist (ld32 (k_mem s) ks) (set_k_nextpid (i32 (k_nextpid s + 1)) s)))).
Proof.
  intros Hc Hu Hlk Hk Hlen Hf. unfold allocproc. erewrite bind_run by by apply acquire_eq. set (s1 := set_k_hw _ s).
  assert (Hp : k_proc s1 !! p = Some pr) by (by apply list_find_Some in Hf as (? & _)).
  assert (Hlt : (p < length (k_proc s))%nat) by by eapply lookup_lt_Some.
  erewrite bind_run by (apply (first_unused s) with (pr := pr); done). cbv beta iota. set (q := at_proc p).
  erewrite bind_run by by apply updproc_eq. change (set_k_proc _ s1) with (q (set_p_state EMBRYO pr) s1).
  rewrite bind_gets, bind_modify. change (set_k_nextpid _ (q _ s1)) with (q (set_p_state EMBRYO pr) (set_k_nextpid (i32 (k_nextpid s + 1)) s1)).
  erewrite bind_run by by apply updproc_at.
  erewrite bind_run by (apply (release_eq _ (k_hw s) i c); done). cbv zeta.
  set (s2 := set_k_nextpid (i32 (k_nextpid s + 1)) s). set (pr1 := set_p_pid _ _).
  replace (set_k_hw (k_hw s) _) with (q pr1 s2) by (by destruct s).
  erewrite bind_run by (eapply kalloc_some; [|by eapply kmem_ok_same; [..|exact Hk]]; done).
  change (set_k_freelist _ (q pr1 s2)) with (q pr1 (set_k_freelist (ld32 (k_mem s) ks) s2)).
  erewrite bind_run by by apply updproc_at.
  pose proof (km_pages _ _ Hk) as Hpg. apply Forall_cons in Hpg as [(_ & _ & _ & Hks) _]. destruct (Z.eqb_spec ks 0); [lia|].
  rewrite bind_gets. erewrite bind_run by by apply updproc_at. unfold stmem, updmem. rewrite !bind_modify.
  match goal with |- bind (updproc p _) _ ?x = _ => set (s3 := x) end.
  change s3 with (q (set_p_tf (tf_at (k_mem s) (ks + KSTACKSIZE - TRAPFRAME_SIZE)) (set_p_kstack ks pr1))
    (set_k_mem (stack_mem ks (k_mem s)) (set_k_freelist (ld32 (k_mem s) ks) s2))).
  by erewrite bind_run by by apply updproc_at.
Qed.
End Slot.

(** * The address space *)

Section Space.
Implicit Types (s : kernel) (d : Z) (T : gset Z) (l : list Z) (i : nat) (c : cpu) (R : Z -> bool).

Lemma uspace_same s s' d T l i c i' c' R : k_mem s' = k_mem s -> k_freelist s' = k_freelist s -> k_end s' = k_end s -> kmem_lockable s' i' c' ->
  uspace s d T l i c R -> uspace s' d T l i' c' R.
Proof.
  intros E1 E2 E3 Hlk [[V1 V2 V3 V4] U2 U3 U4 U5]. constructor; [constructor|..]; rewrite ?E1, ?E3; auto. by eapply kmem_ok_same.
Qed.

(** A write to a page of the process. *)
Lemma uspace_write s d T l i c R p m' : uspace s d T l i c R -> changes {[p]} (k_mem s) m' ->
  page_ok (k_end s) p -> p <> d -> p ∉ T -> p ∉ l ->
  uspace (set_k_mem m' s) d T l i c R /\ (forall va, is_va va -> ent m' d va = ent (k_mem s) d va).
Proof.
  intros [[V1 V2 V3 V4] U2 U3 U4 U5] Hch Hp Hd HT Hl.
  destruct (ent_frame _ (k_mem s) m' d T V3) as [S1 S2].
  { intros x Hx. apply Hch. intros q ->%elem_of_singleton Hq. apply Hd. eapply page_apart; [done|apply V3|done|done]. }
  { intros t x Ht Hx. apply Hch. intros q ->%elem_of_singleton Hq. apply HT. rewrite (page_apart (k_end s) p t x); [done|done|by apply V3|done|done]. }
  assert (He : forall va, is_va va -> ent m' d va = ent (k_mem s) d va) by (intros va Hva; by apply S2).
  split; [|done]. constructor.
  - constructor; [done| |done|done]. eapply (kmem_changes s _ {[p]}); [by destruct s|done|exact Hch|done|]. by intros q ->%elem_of_singleton.
  - intros va Hva. cbn. rewrite He by (by apply uva_va). auto.
  - intros va Hva. unfold upage. cbn. rewrite He by (by apply uva_va). by apply U3.
  - intros va va' Hva Hva'. unfold upage. cbn. rewrite !He by (by apply uva_va). by apply U4.
  - done.
Qed.

Lemma st_bytes_page m p l : Z.of_nat (length l) <= PGSIZE -> changes {[p]} m (st_bytes m p l).
Proof. intros Hl x Hx. apply st_bytes_out. specialize (Hx p ltac:(set_solver)). unfold in_page in Hx. lia. Qed.

(** [inituvm] maps one page at 0: the image, then zeroes. *)
Lemma inituvm_ok s d T p l i c init :
  uspace s d T (p :: l) i c (fun _ => false) -> l <> [] -> Z.of_nat (length init) < PGSIZE ->
  exists l1 l' s', inituvm d init (Z.of_nat (length init)) s = Ret tt s' /\ memstep s s' /\ l = l1 ++ l' /\
    uspace s' d (list_to_set l1 ∪ T) l' i c (fun k => k =? 0) /\
    changes ({[d]} ∪ T ∪ list_to_set (p :: l1)) (k_mem s) (k_mem s') /\
    (forall va, is_va va -> ent (k_mem s') d va = if va / PGSIZE =? 0 then V2P p + Z.lor (Z.lor PTE_W PTE_U) PTE_P else ent (k_mem s) d va) /\
    (forall va, 0 <= va < PGSIZE -> ubyte (k_mem s') d va = default 0 (init !! Z.to_nat va)).
Proof.
  intros U Hl Hlen. pose proof (us_vms _ _ _ _ _ _ _ U) as [V1 V2 V3 V4]. destruct (zero_page i c s p l V1 V2) as (K1 & Z2 & Z3 & Z4). set (s1 := set_k_mem _ _) in Z2, Z3, Z4.
  destruct (add_page s s1 d T p l i c (fun _ => false) 0 (Z.lor PTE_W PTE_U) U Z2 Z3 Z4) as (l1 & l' & s2 & A1 & A2 & A3 & A4 & _ & A6 & A7 & A8 & _); [lia|done|done|by right|].
  pose proof (km_pages _ _ V2) as Hpg. apply Forall_cons in Hpg as [Hp _]. pose proof (km_nodup _ _ V2) as Hnd. apply NoDup_cons in Hnd as [Hpl _].
  destruct (V4 p ltac:(set_solver)) as [Hpd HpT]. rewrite A4 in Hpl. pose proof (st_bytes_page (k_mem s2) p init ltac:(lia)) as Hch.
  destruct (uspace_write s2 d (list_to_set l1 ∪ T) l' i c _ p (st_bytes (k_mem s2) p init) A2 Hch) as [U2 E2]; [by rewrite (memstep_end _ _ A3)|done|set_solver|set_solver|].
  exists l1, l', (set_k_mem (st_bytes (k_mem s2) p init) s2). split; [|split; [|split; [done|split; [|split; [|split]]]]].
  - unfold inituvm. destruct (Z.leb_spec PGSIZE (Z.of_nat (length init))); [lia|]. erewrite bind_run by exact K1.
    destruct (Z.eqb_spec p 0) as [->|]; [destruct Hp as (_ & _ & _ & ?); lia|]. unfold updmem. rewrite bind_modify.
    rewrite Z.mul_0_r in A1. erewrite bind_run by exact A1. by rewrite Nat2Z.id, take_ge.
  - etransitivity; [exact A3|]. by destruct s2.
  - eapply uspace_ext; [exact U2|]. intros k _. cbv beta. by rewrite orb_false_r.
  - eapply changes_trans; [exact A6|]. eapply changes_mono; [exact Hch|set_solver].
  - intros va Hva. cbn. by rewrite E2, A7.
  - intros va Hva. assert (Hu : is_uva va) by (unfold is_uva, KERNBASE, PGSIZE in *; lia). assert (Hq : va / PGSIZE = 0) by (by apply Z.div_small).
    destruct (upte _ p (Z.lor PTE_W PTE_U) Hp ltac:(done)) as (_ & Q2 & Q3 & _).
    pose proof (A7 va (uva_va _ Hu)) as He. rewrite Hq, Z.eqb_refl in He. cbn [k_mem set_k_mem].
    rewrite ubyte_page by (rewrite E2, He by (by apply uva_va); done). unfold upage. rewrite E2, He, Q3, Z.mod_small by (done || by apply uva_va).
    pose proof (A8 va Hu Hq) as Hz. rewrite ubyte_page in Hz by (by rewrite He). unfold upage in Hz. rewrite He, Q3, Z.mod_small in Hz by done.
    destruct (init !! Z.to_nat va) as [b|] eqn:Eb; cbn [default].
    + replace va with (Z.of_nat (Z.to_nat va)) at 1 by lia. by apply st_bytes_in.
    + apply lookup_ge_None in Eb. rewrite st_bytes_out by lia. rewrite Hz. cbn. rewrite memset_spec by done.
      destruct (Z.leb_spec p (p + va)), (Z.ltb_spec (p + va) (p + PGSIZE)); done || lia.
Qed.
End Space.

(** * Memory *)

Definition with_mem (fl : Z) (m : mem) (s : kernel) : kernel := set_k_freelist fl (set_k_mem m s).

(** The kernel's page table [d] with the tables [t] maps the kernel and the devices. *)
Record kspace (s : kernel) (d : Z) (t : list Z) : Prop := {
  kp_space : space (k_end s) (k_mem s) d (list_to_set t);
  kp_ent : forall va, is_va va -> ent (k_mem s) d va = kent (k_data s) va
}.

Section Memory.
Implicit Types (s : kernel) (l : list Z).

Lemma kspace_frame s s' d t : k_end s' = k_end s -> k_data s' = k_data s -> (forall p x, p ∈ d :: t -> in_page p x -> k_mem s' x = k_mem s x) ->
  kspace s d t -> kspace s' d t.
Proof.
  intros E1 E2 Hm [K1 K2]. destruct (ent_frame _ (k_mem s) (k_mem s') d (list_to_set t) K1) as [S1 S2].
  - intros x. apply Hm. set_solver.
  - intros p x Hp. apply Hm. set_solver.
  - constructor; [by rewrite E1|]. intros va Hva. rewrite E2, <- K2 by done. by apply S2.
Qed.

Lemma pages_app p n1 n2 : pages p (n1 + n2) = pages p n1 ++ pages (p + Z.of_nat n1 * PGSIZE) n2.
Proof.
  revert p. induction n1 as [|n IH]; intros p; [cbn [Nat.add app]; rewrite Z.mul_0_l, Z.add_0_r; done|].
  cbn [Nat.add]. rewrite !pages_S, IH. cbn [app]. do 3 f_equal. lia.
Qed.

Lemma pages_ok kend p n : p mod PGSIZE = 0 -> kend <= p -> KERNBASE <= p -> p + Z.of_nat n * PGSIZE <= KERNBASE + PHYSTOP ->
  Forall (page_ok kend) (pages p n).
Proof.
  intros Hp Hk Hb Hn. apply Forall_forall. intros a (k & Hk' & ->)%elem_of_pages.
  assert (Ha : p <= p + Z.of_nat k * PGSIZE < p + Z.of_nat n * PGSIZE) by (unfold PGSIZE; lia).
  split; [by rewrite Z.mod_add|]. split; [lia|]. unfold V2P, KERNBASE, PHYSTOP in *. rewrite u32_small by lia. lia.
Qed.

Lemma kmem_step_with s s' : kmem_step s s' -> s' = with_mem (k_freelist s') (k_mem s') s.
Proof. by intros (fl & m & ->). Qed.

Context (kend : Z).
Let p1 := PGROUNDUP kend.
Let top := P2V 4194304.
Hypothesis Hkend : KERNBASE < kend <= top.

Lemma first_page : p1 mod PGSIZE = 0 /\ kend <= p1 <= top /\ PGROUNDUP top = top.
Proof.
  unfold p1. change top with 2151677952 in *. unfold KERNBASE in Hkend. rewrite PGROUNDUP_eq by (unfold PGSIZE; lia). split; [by apply Z.mod_mul|]. split; [|done].
  unfold PGSIZE. pose proof (Z.div_mod (kend + 4096 - 1) 4096 ltac:(done)). pose proof (Z.mod_pos_bound (kend + 4096 - 1) 4096 ltac:(done)). lia.
Qed.

Lemma count_pages a b n : a + Z.of_nat n * PGSIZE = b -> Z.to_nat ((b - a) / PGSIZE) = n.
Proof. intros <-. replace (a + Z.of_nat n * PGSIZE - a) with (Z.of_nat n * PGSIZE) by lia. by rewrite Z.div_mul, Nat2Z.id. Qed.

Lemma upper_pages n2 : top + Z.of_nat n2 * PGSIZE = P2V PHYSTOP -> Forall (page_ok kend) (pages top n2).
Proof. intros Hn2. apply pages_ok; [by vm_compute|lia|by vm_compute|]. rewrite Hn2. by vm_compute. Qed.

(** [kinit2] adds the rest of physical memory. *)
Lemma kinit2_ok n2 s l : top + Z.of_nat n2 * PGSIZE = P2V PHYSTOP -> k_use_lock s = 0 -> k_end s = kend -> kmem_ok s l -> (forall p, p ∈ l -> p < top) ->
  exists fl m, kinit2 top (P2V PHYSTOP) s = Ret tt (set_k_use_lock 1 (with_mem fl m s)) /\ kmem_ok (set_k_use_lock 1 (with_mem fl m s)) (rev (pages top n2) ++ l) /\
    (forall x, x < top \/ P2V PHYSTOP <= x -> m x = k_mem s x).
Proof.
  intros Hn2 Hl He Hk Hlt. destruct first_page as (_ & _ & F3).
  destruct (freerange_ok s l top (P2V PHYSTOP) 0 cpu0) as (s' & E & Ok & Hs & Fr); [rewrite F3; by vm_compute|by left|done| |].
  - rewrite F3, (count_pages _ _ _ Hn2). pose proof (upper_pages n2 Hn2) as Hup. rewrite Forall_forall in Hup |- *. intros v Hv. rewrite He. split; [by apply Hup|].
    intros Hin%Hlt. apply elem_of_pages in Hv as (k & _ & ->). unfold PGSIZE in *. lia.
  - rewrite F3, (count_pages _ _ _ Hn2) in Ok. rewrite F3 in Fr. apply kmem_step_with in Hs. exists (k_freelist s'), (k_mem s'). rewrite <- Hs.
    split; [unfold kinit2; by erewrite bind_run by exact E|]. split; [|done]. by eapply kmem_ok_same; [..|exact Ok].
Qed.
Context (n1 : nat).
Hypothesis Hn1 : p1 + Z.of_nat n1 * PGSIZE = top.

Lemma lower_pages : Forall (page_ok kend) (pages p1 n1).
Proof. destruct first_page as (F1 & F2 & _). apply pages_ok; [done|lia|lia|]. rewrite Hn1. by vm_compute. Qed.

(** [kinit1] frees the pages up to the fourth megabyte. *)
Lemma kinit1_ok s : unlocked s -> k_end s = kend -> k_freelist s = 0 ->
  exists fl m, kinit1 kend top s = Ret tt (with_mem fl m (set_k_use_lock 0 s)) /\ kmem_ok (with_mem fl m (set_k_use_lock 0 s)) (rev (pages p1 n1)) /\
    (forall x, x < p1 \/ top <= x -> m x = k_mem s x).
Proof.
  intros Hu He Hfl. unfold kinit1, initlock, sethw. rewrite bind_modify, putlock_zero by apply Hu. rewrite bind_modify. set (s1 := set_k_use_lock 0 _).
  assert (E1 : s1 = set_k_use_lock 0 s) by (by destruct s). rewrite E1. clear s1 E1. destruct first_page as (F1 & F2 & _).
  destruct (freerange_ok (set_k_use_lock 0 s) [] kend top 0 cpu0) as (s' & E & Ok & Hs & Fr); [lia|by left|by constructor; [|constructor|constructor]| |].
  - fold p1. rewrite (count_pages _ _ _ Hn1). eapply Forall_impl; [apply lower_pages|]. cbn. rewrite He. intros v Hv. split; [done|set_solver].
  - fold p1 in Ok, Fr. rewrite (count_pages _ _ _ Hn1), app_nil_r in Ok. apply kmem_step_with in Hs. exists (k_freelist s'), (k_mem s'). by rewrite <- Hs.
Qed.
End Memory.

(** [kvmalloc] takes the kernel's page table from the free pages and loads it. *)
Lemma kvmalloc_ok s l : k_use_lock s = 0 -> kmem_ok s l -> KERNBASE < k_end s -> data_ok (k_data s) -> (65 <= length l)%nat ->
  exists d t l' fl m, let s' := set_k_hw (set_h_cr3 (V2P d) (k_hw s)) (set_k_kpgdir d (with_mem fl m s)) in
    kvmalloc s = Ret tt s' /\ l = d :: t ++ l' /\ kmem_ok s' l' /\ kspace s' d t /\ changes (list_to_set (d :: t)) (k_mem s) m.
Proof.
  intros Hl Hk He Hd Hlen. destruct (setupkvm_run s l 0 cpu0) as [(d & t & l' & s1 & E & _ & [K1 _ K3 K4 K5 K6])|(? & ? & _ & _ & ?)]; [by left|done..| |lia].
  exists d, t, l', (k_freelist s1), (k_mem s1). set (s' := set_k_hw _ _). unfold memstep in K4. pose proof (us_vms _ _ _ _ _ _ _ K3) as [_ V2 V3 _]. split_and!.
  - unfold kvmalloc. erewrite bind_run by exact E. rewrite K4. by destruct s.
  - done.
  - eapply kmem_ok_same; [..|exact V2]; [done|done|by rewrite K4].
  - constructor; [by rewrite K4 in V3|exact K6].
  - exact K5.
Qed.

(** * The root directory *)

Definition root_inode (x : inode) : inode := set_i_valid 0 (set_i_ref 1 (set_i_inum ROOTINO (set_i_dev ROOTDEV x))).

Section Root.
Context `{WaitFuel} `{Devsw}.
Implicit Types (s : kernel).

Lemma iget_scan_free s dev inum n : forall a e, Forall (fun x => i_ref x = 0) (k_inodes s) -> (a + n <= length (k_inodes s))%nat ->
  iget_scan (seq a n) e dev inum s = Ret (Datatypes.inr (match e with Some x => Some x | None => head (seq a n) end)) s.
Proof.
  induction n as [|n IH]; intros a e Hf Hl; cbn [seq iget_scan head]; [by destruct e|].
  destruct (lookup_lt_is_Some_2 (k_inodes s) a) as [x Hx]; [lia|]. rewrite Forall_lookup in Hf. pose proof (Hf a x Hx) as Hr.
  erewrite bind_run by by apply getinode_eq. rewrite Hr. cbn [Z.ltb Z.compare andb Z.eqb]. rewrite IH by (by apply Forall_lookup || lia). by destruct e.
Qed.

(** With an empty inode cache, [namei("/")] takes the first entry and reads nothing. *)
Lemma namei_root s i c x I : on_cpu (k_hw s) i c -> lock_free (k_hw s) L_icache -> k_inodes s = x :: I -> length I = 49%nat ->
  Forall (fun x => i_ref x = 0) (x :: I) -> namei (str "/") s = Ret (Some 0%nat) (set_k_inodes (root_inode x :: I) s).
Proof.
  intros Hc Hl Ei HI Hf. assert (Eg : iget ROOTDEV ROOTINO s = Ret 0%nat (set_k_inodes (root_inode x :: I) s)).
  { unfold iget. erewrite bind_run by by apply acquire_eq. set (s1 := set_k_hw _ s).
    erewrite bind_run by (unfold range; apply iget_scan_free; cbn [k_inodes set_k_hw s1]; rewrite Ei; [done|cbn; by rewrite HI]). cbv beta iota.
    change (head (seq 0 (Z.to_nat NINODE))) with (Some 0%nat). cbv beta iota.
    do 4 (erewrite bind_run by (apply updinode_eq; cbn; rewrite ?Ei; reflexivity)).
    erewrite bind_run by (apply (release_eq _ (k_hw s) i c); done). cbn [k_inodes set_k_inodes set_k_hw s1]. rewrite Ei. by destruct s. }
  unfold namei, namex. change (char_at (str "/") 0 =? SLASH) with true. cbv iota. unfold bind. by rewrite Eg.
Qed.
End Root.

(** * The first process *)

(** What [userinit] leaves of the free pages [l]: the kernel stack [ks], the page table [d] with the tables [t1] and
    [t2], the page [pg] of the process, and [l']. *)
Record first_proc `{Linked} (s : kernel) (l : list Z) (i : nat) (c : cpu) (ks d pg : Z) (t1 t2 l' : list Z) (s' : kernel) : Prop := {
  fp_pages : l = ks :: d :: t1 ++ pg :: t2 ++ l';
  fp_changes : changes (list_to_set (ks :: d :: t1 ++ pg :: t2)) (k_mem s) (k_mem s');
  fp_uspace : uspace s' d (list_to_set (t2 ++ t1)) l' i c (fun k => k =? 0);
  fp_kern : forall va, KERNBASE <= va < 2 ^ 32 -> ent (k_mem s') d va = kent (k_data s) va;
  fp_page : ent (k_mem s') d 0 = V2P pg + Z.lor (Z.lor PTE_W PTE_U) PTE_P;
  fp_image : forall va, 0 <= va < PGSIZE -> ubyte (k_mem s') d va = default 0 (initcode !! Z.to_nat va);
  fp_stack : ld32 (k_mem s') (ks + KSTACKSIZE - 80) = u32 trapret_addr /\ ld32 (k_mem s') (ks + KSTACKSIZE - 84) = u32 forkret_addr
}.

Definition init_proc `{Linked} (ks d pid : Z) (pr : proc) : proc :=
  set_p_state RUNNABLE (set_p_cwd (Some 0%nat) (set_p_name (lsafestrcpy (p_name pr) (str "initcode") 16) (set_p_tf user_tf (set_p_sz PGSIZE (set_p_pgdir d
    (set_p_context (set_cx_eip forkret_addr context0) (set_p_kstack ks (set_p_pid pid pr)))))))).

(** The kernel state that [userinit] leaves, but for memory: the process is in slot [p]. *)
Definition booted (p : nat) (pr : proc) (I : list inode) (s : kernel) : kernel :=
  at_proc p pr (set_k_inodes I (set_k_initproc (Some p) (set_k_nextpid (i32 (k_nextpid s + 1)) s))).

Section Userinit.
Context `{WaitFuel} `{Devsw} `{Linked}.
Implicit Types (s : kernel).

Lemma stack_mem_page ks m : changes {[ks]} m (stack_mem ks m).
Proof.
  intros x Hx. specialize (Hx ks ltac:(set_solver)). unfold in_page, PGSIZE in Hx. unfold stack_mem, KSTACKSIZE, TRAPFRAME_SIZE, CONTEXT_SIZE.
  rewrite st32_out by lia. rewrite memset_spec by lia. destruct (Z.leb_spec (ks + 4096 - 76 - 4 - 20) x), (Z.ltb_spec x (ks + 4096 - 76 - 4 - 20 + 20)); cbn [andb]; try lia.
  all: apply st32_out; lia.
Qed.

Lemma stack_mem_words ks m m' : (forall x, in_page ks x -> m' x = stack_mem ks m x) ->
  ld32 m' (ks + KSTACKSIZE - 80) = u32 trapret_addr /\ ld32 m' (ks + KSTACKSIZE - 84) = u32 forkret_addr.
Proof.
  intros Hm. unfold KSTACKSIZE. rewrite !(ld32_out m' (stack_mem ks m)) by (intros; apply Hm; unfold in_page, PGSIZE; lia).
  unfold stack_mem, KSTACKSIZE, TRAPFRAME_SIZE, CONTEXT_SIZE. split.
  - rewrite (ld32_out _ (st32 m (ks + 4096 - 80) trapret_addr)); [by rewrite ld32_st32_eq|]. intros x Hx. rewrite st32_out by lia.
    rewrite memset_spec by lia. destruct (Z.ltb_spec x (ks + 4096 - 76 - 4 - 20 + 20)); [lia|]. rewrite andb_false_r. f_equal. lia.
  - replace (ks + 4096 - 84) with (ks + 4096 - 76 - 4 - 20 + 16) by lia. by rewrite ld32_st32_eq.
Qed.

Context (s : kernel) (i : nat) (c : cpu) (p : nat) (pr : proc) (ks : Z) (l : list Z) (x : inode) (I : list inode).
Hypothesis (Hc : on_cpu (k_hw s) i c) (Hu : unlocked s) (Hlk : kmem_lockable s i c) (Hk : kmem_ok s (ks :: l)).
Hypothesis (Hlen : length (k_proc s) = Z.to_nat NPROC) (Hf : list_find (fun x => p_state x = UNUSED) (k_proc s) = Some (p, pr)).
Hypothesis (Hend : KERNBASE < k_end s) (Hdata : data_ok (k_data s)) (Hpages : (67 <= length l)%nat) (Hcode : Z.of_nat (length initcode) < PGSIZE).
Hypothesis (Hino : k_inodes s = x :: I) (HI : length I = 49%nat) (Hrefs : Forall (fun x => i_ref x = 0) (x :: I)).

Let b0 := set_k_initproc (Some p) (set_k_nextpid (i32 (k_nextpid s + 1)) s).
Let s2 := at_proc p (new_proc ks (k_nextpid s) (k_mem s) pr) (with_mem (ld32 (k_mem s) ks) (stack_mem ks (k_mem s)) b0).

Lemma kmem_after_stack : kmem_ok s2 l /\ kmem_lockable s2 i c.
Proof.
  split; [|done]. pose proof (kmem_ok_pop _ _ _ Hk) as Hp. pose proof (km_pages _ _ Hk) as Hpg. apply Forall_cons in Hpg as [Hks _].
  pose proof (km_nodup _ _ Hk) as Hnd. apply NoDup_cons in Hnd as [Hni _].
  eapply (kmem_ok_same (with_mem (ld32 (k_mem s) ks) (stack_mem ks (k_mem s)) s)); [done..|].
  eapply (kmem_changes (set_k_freelist (ld32 (k_mem s) ks) s) _ {[ks]}); [by destruct s|done|apply stack_mem_page|done|]. by intros q ->%elem_of_singleton.
Qed.

Lemma memstep_at q y fl m s0 s' : memstep (at_proc q y (with_mem fl m s0)) s' -> s' = at_proc q y (with_mem (k_freelist s') (k_mem s') s0).
Proof. unfold memstep. intros E. etransitivity; [exact E|]. by destruct s0. Qed.

Lemma userinit_ok : exists d pg t1 t2 l' s', userinit s = Ret tt s' /\ first_proc s (ks :: l) i c ks d pg t1 t2 l' s' /\
  s' = with_mem (k_freelist s') (k_mem s') (booted p (init_proc ks d (k_nextpid s) pr) (root_inode x :: I) s).
Proof.
  destruct kmem_after_stack as [Hk2 Hlk2]. destruct (setupkvm_run s2 l i c Hlk2 Hk2 Hend Hdata) as [(d & t1 & l2 & s3 & E3 & Hd0 & KV)|(? & ? & _ & _ & ?)]; [|lia].
  destruct KV as [K1 K2 K3 K4' K5 K6]. pose proof (memstep_at _ _ _ _ _ _ K4') as K4.
  assert (Hlt : (p < length (k_proc s))%nat) by (apply list_find_Some in Hf as (Hp & _); by eapply lookup_lt_Some).
  destruct l2 as [|pg l2]; [rewrite K1, app_nil_r in Hpages; cbn in Hpages; lia|]. set (b3 := with_mem (k_freelist s3) (k_mem s3) b0) in K4.
  set (pr2 := new_proc _ _ _ _) in *. set (pr4 := set_p_pgdir d pr2).
  assert (Hl2 : l2 <> []) by (intros ->; rewrite K1 in Hpages; cbn in Hpages; rewrite length_app in Hpages; cbn in Hpages; lia).
  assert (U4 : uspace (at_proc p pr4 b3) d (list_to_set t1) (pg :: l2) i c (fun _ => false)) by (apply (uspace_same s3 _ _ _ _ i c); [done|done|by rewrite K4|exact Hlk|exact K3]).
  destruct (inituvm_ok _ d _ pg l2 i c initcode U4 Hl2 Hcode) as (t2 & l' & s5 & E5 & M5 & L5 & U5 & C5 & N5 & B5). apply memstep_at in M5.
  set (b5 := with_mem (k_freelist s5) (k_mem s5) b0) in M5.
  set (s' := with_mem (k_freelist s5) (k_mem s5) (booted p (init_proc ks d (k_nextpid s) pr) (root_inode x :: I) s)).
  exists d, pg, t1, t2, l', s'. split; [|split; [|done]].
  - unfold userinit. erewrite bind_run by by eapply allocproc_ok. rewrite bind_modify.
    change (nonnull _ (Some p)) with (ret (S := kernel) p). rewrite bind_ret. erewrite bind_run by exact E3. rewrite K4.
    erewrite bind_run by by apply updproc_at. rewrite (proj2 (Z.eqb_neq _ _) Hd0). erewrite bind_run by exact E5. rewrite M5.
    do 3 (erewrite bind_run by by apply updproc_at).
    match goal with |- bind (namei _) _ (at_proc p ?y b5) = _ => set (pr5 := y) end.
    erewrite bind_run by (eapply (namei_root _ i c x I); done).
    change (set_k_inodes _ (at_proc p pr5 b5)) with (at_proc p pr5 (set_k_inodes (root_inode x :: I) b5)).
    erewrite bind_run by by apply updproc_at. erewrite bind_run by by apply acquire_eq.
    match goal with |- bind _ _ (set_k_hw ?h (at_proc p ?y ?z)) = _ => change (set_k_hw h (at_proc p y z)) with (at_proc p y (set_k_hw h z)) end.
    erewrite bind_run by by apply updproc_at. rewrite (release_eq _ (k_hw s) i c) by done. by destruct s, pr.
  - assert (Hall : ks :: l = ks :: d :: t1 ++ pg :: t2 ++ l') by (by rewrite K1, L5).
    assert (C3 : changes (list_to_set (d :: t1 ++ pg :: t2)) (stack_mem ks (k_mem s)) (k_mem s5)).
    { eapply changes_trans; [eapply changes_mono; [exact K5|]|eapply changes_mono; [exact C5|]]; rewrite ?list_to_set_cons, ?list_to_set_app_L, ?list_to_set_cons; set_solver. }
    constructor.
    + done.
    + eapply changes_trans; [eapply changes_mono; [apply (stack_mem_page ks)|set_solver]|eapply changes_mono; [exact C3|set_solver]].
    + rewrite list_to_set_app_L. apply (uspace_same s5 _ _ _ _ i c); [done|done|by rewrite M5|exact Hlk|exact U5].
    + intros va Hva. cbn [k_mem s' with_mem set_k_freelist set_k_mem]. rewrite N5 by (unfold is_va; unfold KERNBASE in *; lia).
      rewrite (proj2 (Z.eqb_neq _ _)) by (unfold KERNBASE in *; pose proof (Z.div_le_lower_bound va PGSIZE 1 ltac:(done)); unfold PGSIZE in *; lia).
      apply (K6 va). unfold is_va, KERNBASE in *. lia.
    + apply (N5 0). unfold is_va. lia.
    + exact B5.
    + apply (stack_mem_words _ (k_mem s)). intros y Hy. apply C3. intros q Hq Hqy.
      pose proof (km_pages _ _ Hk) as Hpg. pose proof (km_nodup _ _ Hk) as Hnd. rewrite Hall in Hpg, Hnd. rewrite Forall_forall in Hpg. apply NoDup_cons in Hnd as [Hni _].
      apply elem_of_list_to_set in Hq. assert (Hin : q ∈ d :: t1 ++ pg :: t2 ++ l') by set_solver. apply Hni.
      rewrite (page_apart (k_end s) ks q y); [done|apply Hpg; set_solver|apply Hpg; set_solver|done|done].
Qed.
End Userinit.
