(* ===== verification/Args.v ===== *)
(** System call arguments ([syscall.c]): fetching integers, pointers and strings from the
    user stack and checking that they lie in the process. *)

From S2P Require Import Prelude Bytes KString Params State Spinlock Cprintf Kalloc Vm.
From stdpp Require Import base list gmap strings.
From Stdlib Require Import ZArith Lia.
Local Open Scope Z_scope.
Local Open Scope km_scope.

(** The indeterminate contents of uninitialised variables on the kernel stack: the
    [struct container] of [sys_create_container], the [char name[DIRSIZ]] of the path
    system calls. *)
Class Indet : Type := mkIndet {
  indet_container : container;
  indet_name : list Z
}.

(** [myproc()], dereferenced. *)
Definition curproc (why : string) : K nat :=
  let! op := myproc in nonnull why op.

Definition cur (why : string) : K proc :=
  let! p := curproc why in getproc p.

(** The value stored through [ip]; [None] is the result -1, with nothing stored. *)
Definition fetchint (addr : Z) : K (option Z) :=
  let! pr := cur "fetchint" in
  if (p_sz pr <=? addr) || (p_sz pr <? u32 (addr + 4)) then ret None else
  let! bs := uload addr 4 in
  ret (Some (i32 (Bytes.le_dec bs))).

(** The scan of [fetchstr] from [s] up to [ep]. *)
Fixpoint fetchstr_loop (n : nat) (s pp : Z) : K Z :=
  match n with
  | O => ret (-1)
  | S n' =>
      let! c := uload8 s in
      if c =? 0 then ret (s - pp) else fetchstr_loop n' (s + 1) pp
  end.

(** The result, and the pointer stored through [pp] if there is one. *)
Definition fetchstr (addr : Z) : K (Z * option Z) :=
  let! pr := cur "fetchstr" in
  if p_sz pr <=? addr then ret (-1, None) else
  let! r := fetchstr_loop (Z.to_nat (p_sz pr - addr)) addr addr in
  ret (r, Some addr).

Definition argint (n : Z) : K (option Z) :=
  let! pr := cur "argint" in
  fetchint (u32 (tf_esp (p_tf pr) + 4 + 4 * n)).

Definition argptr (n size : Z) : K (option Z) :=
  let! pr := cur "argptr" in
  let! i := argint n in
  match i with
  | None => ret None
  | Some i =>
      if (size <? 0) || (p_sz pr <=? u32 i) || (p_sz pr <? u32 (u32 i + size)) then ret None
      else ret (Some (u32 i))
  end.

Definition argstr (n : Z) : K (Z * option Z) :=
  let! addr := argint n in
  match addr with
  | None => ret (-1, None)
  | Some addr => fetchstr (u32 addr)
  end.

(** [if(isTraceOn==1) {num_calls[n]++;}] *)
Definition trace (n : Z) : K unit :=
  let! on := gets k_isTraceOn in
  when (on =? 1)
    (let! nc := gets k_num_calls in
     let! v := index "num_calls" nc n in
     let! nc := assign "num_calls" nc n (i32 (v + 1)) in
     modify (set_k_num_calls nc)).

(** A kernel store through any pointer. *)
Definition store8 (a v : Z) : K unit :=
  if a <? KERNBASE then ustore8 a v else updmem (fun m => upd m a v).

(** [safestrcpy] between kernel and user memory. *)
Fixpoint safestrcpy_ptr_loop (s t : Z) (n : nat) : K unit :=
  match n with
  | O => store8 s 0
  | S n' =>
      let! c := load8 t in
      store8 s c ;;
      if c =? 0 then store8 (s + 1) 0 else safestrcpy_ptr_loop (s + 1) (t + 1) n'
  end.

Definition safestrcpy_ptr (s t n : Z) : K unit :=
  if n <=? 0 then ret tt else safestrcpy_ptr_loop s t (Z.to_nat (n - 1)).

(** * What the checks accept *)

Section Spec.
Variables (m : mem) (pr : proc).

(** The [int] in user memory at [a]. *)
Definition int_at (a : Z) : Z := i32 (Bytes.le_dec (ubytes m (p_pgdir pr) a 4)).

Definition fetchint_spec (a : Z) : option Z :=
  if a + 4 <=? p_sz pr then Some (int_at a) else None.

Definition argint_spec (n : Z) : option Z := fetchint_spec (u32 (tf_esp (p_tf pr) + 4 + 4 * n)).

(** A block of [size] bytes is accepted when it lies in the process. *)
Definition argptr_spec (n size : Z) : option Z :=
  match argint_spec n with
  | Some i => if (0 <=? size) && (u32 i <? p_sz pr) && (u32 i + size <=? p_sz pr) then Some (u32 i) else None
  | None => None
  end.

Fixpoint nul_pos (l : list Z) : option nat :=
  match l with
  | [] => None
  | c :: l' => if c =? 0 then Some 0%nat else S <$> nul_pos l'
  end.

(** The bytes from [a] to the end of the process. *)
Definition urest (a : Z) : list Z := ubytes m (p_pgdir pr) a (Z.to_nat (p_sz pr - a)).

Definition fetchstr_spec (a : Z) : Z * option Z :=
  if p_sz pr <=? a then (-1, None)
  else (match nul_pos (urest a) with Some k => Z.of_nat k | None => -1 end, Some a).

Definition argstr_spec (n : Z) : Z * option Z :=
  match argint_spec n with
  | Some a => fetchstr_spec (u32 a)
  | None => (-1, None)
  end.
End Spec.

Section Args.
Implicit Types (s : kernel) (i p : nat) (c : cpu) (pr : proc).

Lemma curproc_eq s i c p pr why : running s i c p pr -> curproc why s = Ret p s.
Proof. intros H. unfold curproc. by erewrite bind_run by by eapply myproc_run. Qed.

Lemma cur_eq s i c p pr why : running s i c p pr -> cur why s = Ret pr s.
Proof.
  intros H. unfold cur. erewrite bind_run by by eapply curproc_eq. apply getproc_eq, H.
Qed.

Section Proc.
Context {s : kernel} {i p : nat} {c : cpu} {pr : proc}.
Hypothesis Hr : running s i c p pr.
Hypothesis Hu : user_ok (k_mem s) (p_pgdir pr) (p_sz pr).

Lemma fetchint_eq a : 0 <= a < 2 ^ 32 -> fetchint a s = Ret (fetchint_spec (k_mem s) pr a) s.
Proof using Hr Hu.
  intros Ha. unfold fetchint, fetchint_spec. erewrite bind_run by by eapply cur_eq.
  pose proof (uo_sz _ _ _ Hu) as Hsz. unfold KERNBASE in Hsz.
  destruct (Z.leb_spec (p_sz pr) a); cbn [orb].
  - by destruct (Z.leb_spec (a + 4) (p_sz pr)); [lia|].
  - rewrite u32_small by lia. destruct (Z.ltb_spec (p_sz pr) (a + 4)).
    + by destruct (Z.leb_spec (a + 4) (p_sz pr)); [lia|].
    + destruct (Z.leb_spec (a + 4) (p_sz pr)); [|lia].
      by erewrite bind_run by (eapply uload_eq; [done..|lia|lia]).
Qed.

Lemma argint_eq n : argint n s = Ret (argint_spec (k_mem s) pr n) s.
Proof using Hr Hu.
  unfold argint. erewrite bind_run by by eapply cur_eq. apply fetchint_eq, u32_range.
Qed.

Lemma argptr_eq n size : size < 2 ^ 31 -> argptr n size s = Ret (argptr_spec (k_mem s) pr n size) s.
Proof using Hr Hu.
  intros Hs. unfold argptr, argptr_spec. erewrite bind_run by by eapply cur_eq.
  erewrite bind_run by apply argint_eq. destruct (argint_spec _ _ _) as [a|]; [|done].
  pose proof (uo_sz _ _ _ Hu) as Hsz. unfold KERNBASE in Hsz. pose proof (u32_range a).
  destruct (Z.ltb_spec size 0), (Z.leb_spec 0 size); try lia; [done|]. cbn [orb andb].
  destruct (Z.leb_spec (p_sz pr) (u32 a)), (Z.ltb_spec (u32 a) (p_sz pr)); try lia; [done|]. cbn [orb andb].
  rewrite (u32_small (u32 a + size)) by lia.
  by destruct (Z.ltb_spec (p_sz pr) (u32 a + size)), (Z.leb_spec (u32 a + size) (p_sz pr)); try lia.
Qed.

Lemma fetchstr_loop_eq n a pp :
  0 <= a -> a + Z.of_nat n = p_sz pr ->
  fetchstr_loop n a pp s =
    Ret (match nul_pos (ubytes (k_mem s) (p_pgdir pr) a n) with
         | Some k => a + Z.of_nat k - pp | None => -1 end) s.
Proof using Hr Hu.
  revert a. induction n as [|n IH]; intros a Ha Hn; [done|]. cbn [fetchstr_loop].
  erewrite bind_run by (eapply uload8_eq; [done..|lia]).
  unfold ubytes. cbn [seq fmap list_fmap nul_pos]. rewrite Z.add_0_r.
  destruct (ubyte _ _ a =? 0); [by rewrite Z.add_0_r|]. rewrite IH by lia.
  rewrite <- fmap_S_seq, <- list_fmap_compose. unfold ubytes.
  rewrite (list_fmap_ext (_ ∘ S) (fun k => ubyte (k_mem s) (p_pgdir pr) (a + 1 + Z.of_nat k)))
    by (intros ? k _; cbn; f_equal; lia).
  destruct (nul_pos _) as [k|]; cbn; [|done]. f_equal. lia.
Qed.

Lemma fetchstr_eq a : 0 <= a < 2 ^ 32 -> fetchstr a s = Ret (fetchstr_spec (k_mem s) pr a) s.
Proof using Hr Hu.
  intros Ha. unfold fetchstr, fetchstr_spec. erewrite bind_run by by eapply cur_eq.
  destruct (Z.leb_spec (p_sz pr) a); [done|].
  erewrite bind_run by (apply fetchstr_loop_eq; lia). unfold urest, ret.
  destruct (nul_pos _); [|done]. do 2 f_equal. lia.
Qed.

Lemma argstr_eq n : argstr n s = Ret (argstr_spec (k_mem s) pr n) s.
Proof using Hr Hu.
  unfold argstr, argstr_spec. erewrite bind_run by apply argint_eq.
  destruct (argint_spec _ _ _); [|done]. apply fetchstr_eq, u32_range.
Qed.
End Proc.

Lemma nul_pos_spec l k : nul_pos l = Some k -> l !! k = Some 0 /\ Forall (fun x => x <> 0) (take k l).
Proof.
  revert k. induction l as [|x l IH]; intros k H; [done|]. cbn [nul_pos] in H.
  destruct (Z.eqb_spec x 0) as [->|Hc].
  - injection H as <-. by split; [|constructor].
  - apply fmap_Some in H as (k' & H & ->). destruct (IH k' H). by split; [|constructor].
Qed.
End Args.

(** C27: The argument checks are exact and never fault: whatever the user's stack pointer and
    arguments, [argint] yields the word on the user stack or -1, a block accepted by
    [argptr] lies entirely in the process, and a string accepted by [argstr] ends with a NUL
    before the end of the process. *)
Theorem args_checked s i c p pr n size :
  running s i c p pr -> user_ok (k_mem s) (p_pgdir pr) (p_sz pr) -> size < 2 ^ 31 ->
  argint n s = Ret (argint_spec (k_mem s) pr n) s /\
  (exists r, argptr n size s = Ret r s /\ r = argptr_spec (k_mem s) pr n size /\
     forall a, r = Some a -> 0 <= size /\ 0 <= a /\ a + size <= p_sz pr) /\
  (exists r, argstr n s = Ret r s /\ r = argstr_spec (k_mem s) pr n /\
     (0 <= r.1 -> exists a, r.2 = Some a /\ 0 <= a /\ a + r.1 < p_sz pr /\
        ubyte (k_mem s) (p_pgdir pr) (a + r.1) = 0 /\
        forall k, 0 <= k < r.1 -> ubyte (k_mem s) (p_pgdir pr) (a + k) <> 0)).
Proof.
  intros Hr Hu Hs. split; [by apply (argint_eq Hr Hu)|]. split.
  - eexists. split; [by apply (argptr_eq Hr Hu)|]. split; [done|]. unfold argptr_spec.
    intros a. destruct (argint_spec _ _ _) as [x|]; [|done]. pose proof (u32_range x).
    destruct (Z.leb_spec 0 size), (Z.ltb_spec (u32 x) (p_sz pr)), (Z.leb_spec (u32 x + size) (p_sz pr));
      cbn; intros E; simplify_eq; lia.
  - eexists. split; [by apply (argstr_eq Hr Hu)|]. split; [done|]. unfold argstr_spec, fetchstr_spec.
    destruct (argint_spec _ _ _) as [x|]; [|cbn; lia]. pose proof (u32_range x).
    destruct (Z.leb_spec (p_sz pr) (u32 x)); [cbn; lia|].
    destruct (nul_pos _) as [k|] eqn:E; cbn [fst snd]; [|lia]. intros _. exists (u32 x).
    apply nul_pos_spec in E as [E1 E2]. unfold urest, ubytes in *.
    pose proof (lookup_lt_Some _ _ _ E1) as Hk. rewrite length_fmap, length_seq in Hk.
    apply list_lookup_fmap_Some in E1 as (j & E1 & [-> _]%lookup_seq).
    split_and!; [done|lia|lia|done|].
    intros j Hj. rewrite <- fmap_take, take_seq, Forall_fmap, Forall_seq in E2.
    specialize (E2 (Z.to_nat j) ltac:(lia)). cbn in E2. by rewrite Z2Nat.id in E2 by lia.
Qed.

(** A process of one page, with the words [200] and [300] as arguments on its stack. *)
Definition user_proc : proc :=
  set_p_tf (set_tf_esp 96 trapframe0) (set_p_sz PGSIZE (set_p_pgdir demo_pgdir
    (set_p_pid 1 (set_p_state RUNNING proc0)))).
Definition user_cpu : cpu := set_c_proc (Some 0%nat) cpu0.
Definition user_kernel (l : list Z) : kernel :=
  set_k_hw (set_h_cpus (user_cpu :: replicate 7 cpu0) hw0)
    (set_k_proc (user_proc :: replicate 63 proc0) (set_k_mem (one_page 100 l (fun _ => 0)) kernel0)).

Lemma user_running l : running (user_kernel l) 0 user_cpu 0 user_proc.
Proof. constructor; [|done|done]. constructor; [constructor|..]; simpl; auto; lia. Qed.

Lemma user_mem_ok l : user_ok (k_mem (user_kernel l)) (p_pgdir user_proc) (p_sz user_proc).
Proof. by apply one_page_ok. Qed.

Lemma args_checked_witness :
  argint 1 (user_kernel (le_enc 4 200 ++ le_enc 4 300)) = Ret (Some 300) (user_kernel (le_enc 4 200 ++ le_enc 4 300)).
Proof.
  destruct (args_checked (user_kernel (le_enc 4 200 ++ le_enc 4 300)) 0 user_cpu 0 user_proc 1 16) as (H & _).
  - apply user_running.
  - apply user_mem_ok.
  - reflexivity.
  - etransitivity; [exact H|]. vm_compute. reflexivity.
Defined.
