(* ===== verification/Queue.v ===== *)
(** Message passing: the integer and wait queues of [syscall.c], the message buffers, and
    the [send] and [recv] system calls of [proc.c]. The queue headers are kept by address in
    [k_msg]; their arrays are pages of [k_mem]. *)

From S2P Require Import Prelude Bytes KString Params State Spinlock Cprintf Kalloc Vm Sched Args.
From stdpp Require Import base list gmap strings.
From Stdlib Require Import ZArith Lia.
Local Open Scope Z_scope.
Local Open Scope km_scope.

Definition EndOfFreeList : Z := -1.
Definition QCAPACITY : Z := 50.

Definition getiq (q : Z) : K intqueue :=
  let! ms := gets k_msg in nonnull "struct intMessageQueue *" (ms_intqueues ms !! q).
Definition putiq (q : Z) (v : intqueue) : K unit :=
  updmsg (fun ms => set_ms_intqueues (<[q := v]> (ms_intqueues ms)) ms).
Definition getwq (q : Z) : K waitqueue :=
  let! ms := gets k_msg in nonnull "struct waitQueue *" (ms_waitqueues ms !! q).
Definition putwq (q : Z) (v : waitqueue) : K unit :=
  updmsg (fun ms => set_ms_waitqueues (<[q := v]> (ms_waitqueues ms)) ms).

Definition createIntQueue (capacity : Z) : K Z :=
  let! mq := kalloc in
  if mq =? 0 then undef "createIntQueue: store to 0" else
  let! arr := kalloc in
  putiq mq (mkIntQueue 0 (-1) 0 capacity arr) ;;
  ret mq.

Definition createWaitQueue (capacity : Z) : K Z :=
  let! mq := kalloc in
  if mq =? 0 then undef "createWaitQueue: store to 0" else
  let! arr := kalloc in
  putwq mq (mkWaitQueue 0 (-1) 0 capacity arr) ;;
  ret mq.

Definition init_queues : K unit :=
  for_each (range NPROC) (fun p =>
    let! q := createIntQueue QCAPACITY in
    updmsg (fun ms => set_ms_int_queue (<[p := q]> (ms_int_queue ms)) ms) ;;
    let! w := createWaitQueue QCAPACITY in
    updmsg (fun ms => set_ms_wait_queue (<[p := w]> (ms_wait_queue ms)) ms)).

(** * Wait queues *)

Definition isWaitFull (q : Z) : K bool :=
  let! mq := getwq q in ret (u32 (wq_size mq) =? wq_capacity mq).

Definition isWaitEmpty (q : Z) : K bool :=
  let! mq := getwq q in ret (wq_size mq =? 0).

(** An item is a pid and a buffer pointer, 8 bytes of the array. *)
Definition waitenqueue (q : Z) (pid buffer : Z) : K unit :=
  let! full := isWaitFull q in
  if full then ret tt else
  let! mq := getwq q in
  let last := i32 (wq_last mq + 1) in
  putwq q (set_wq_last last mq) ;;
  (if wq_array mq =? 0 then undef "waitenqueue: array" else
   stmem (wq_array mq + 8 * last) (u32 pid) ;;
   stmem (wq_array mq + 8 * last + 4) buffer) ;;
  let! mq := getwq q in
  putwq q (set_wq_size (i32 (wq_size mq + 1)) mq).

Definition waitdequeue (q : Z) : K (Z * Z) :=
  let! mq := getwq q in
  if wq_array mq =? 0 then undef "waitdequeue: array" else
  let! pid := ldmem (wq_array mq + 8 * wq_front mq) in
  let! buffer := ldmem (wq_array mq + 8 * wq_front mq + 4) in
  putwq q (set_wq_front (i32 (u32 (wq_front mq + 1) mod wq_capacity mq)) mq) ;;
  let! mq := getwq q in
  putwq q (set_wq_size (i32 (wq_size mq - 1)) mq) ;;
  ret (i32 pid, buffer).

(** * Integer queues *)

Definition isFull (q : Z) : K bool :=
  let! mq := getiq q in ret (u32 (mq_size mq) =? mq_capacity mq).

Definition isEmpty (q : Z) : K bool :=
  let! mq := getiq q in ret (mq_size mq =? 0).

Definition enqueue (q item : Z) : K unit :=
  let! full := isFull q in
  if full then ret tt else
  let! mq := getiq q in
  let last := i32 (u32 (mq_last mq + 1) mod mq_capacity mq) in
  putiq q (set_mq_last last mq) ;;
  (if mq_arr mq =? 0 then undef "enqueue: arr" else
   stmem (mq_arr mq + 4 * last) (u32 item)) ;;
  let! mq := getiq q in
  putiq q (set_mq_size (i32 (mq_size mq + 1)) mq).

Definition dequeue (q : Z) : K Z :=
  let! empty := isEmpty q in
  if empty then cprintf (str "dequeue from EMPTY" ++ [NL]) [] ;; ret (-3) else
  let! mq := getiq q in
  if mq_arr mq =? 0 then undef "dequeue: arr" else
  let! item := ldmem (mq_arr mq + 4 * mq_front mq) in
  putiq q (set_mq_front (i32 (u32 (mq_front mq + 1) mod mq_capacity mq)) mq) ;;
  let! mq := getiq q in
  putiq q (set_mq_size (i32 (mq_size mq - 1)) mq) ;;
  ret (i32 item).

(** * Message buffers *)

(** [while(len-->0) *to++ = *from++;] *)
Fixpoint copy_ptr (to from : Z) (len : nat) : K unit :=
  match len with
  | O => ret tt
  | S len =>
      let! c := load8 from in
      store8 to c ;;
      copy_ptr (to + 1) (from + 1) len
  end.

Definition copyToSystemSpace (from to len : Z) : K unit := copy_ptr to from (Z.to_nat len).
Definition copyFromSystemSpace (to from len : Z) : K unit := copy_ptr to from (Z.to_nat len).

Definition getMessageBuffer : K Z :=
  updmsg (fun ms => set_ms_lastBufferUsed (i32 (ms_lastBufferUsed ms + 1)) ms) ;;
  let! m := gets (fun s => ms_lastBufferUsed (k_msg s)) in
  updmsg (fun ms => set_ms_lastBufferUsed (i32 (ms_lastBufferUsed ms + 1)) ms) ;;
  ret m.

Definition freeMessageBuffer (msg_no : Z) : K unit :=
  let! ms := gets k_msg in
  let! b := index "messageBuffers" (ms_buffers ms) msg_no in
  store8 b (u8 (ms_free_message_buffer ms)) ;;
  updmsg (set_ms_free_message_buffer msg_no).

Definition TransferMessage (msg_no msg : Z) : K unit :=
  let! ms := gets k_msg in
  let! b := index "messageBuffers" (ms_buffers ms) msg_no in
  copyFromSystemSpace msg b 8.

(** * The system calls *)

(** A variable the code reads although the call that should set it failed. *)
Definition was_set {A} (why : string) (o : option A) : K A :=
  match o with Some a => ret a | None => undef why end.

Definition sys_send : K Z :=
  trace SYS_send ;;
  let! _ := argint 0 in
  let! rec_pid := argint 1 in
  let! str := argstr 2 in
  let! msg_no := getMessageBuffer in
  when (msg_no =? EndOfFreeList) (cprintf (Cprintf.str "message buffers consumed" ++ [NL]) []) ;;
  let! page := kalloc in
  let! ms := gets k_msg in
  let! bs := assign "messageBuffers" (ms_buffers ms) msg_no page in
  updmsg (set_ms_buffers bs) ;;
  let! str := was_set "send: str" str.2 in
  safestrcpy_ptr page str 8 ;;
  let! rec_pid := was_set "send: rec_pid" rec_pid in
  let! ms := gets k_msg in
  let! wq := index "wait_queue" (ms_wait_queue ms) rec_pid in
  let! empty := isWaitEmpty wq in
  when (negb empty)
    (let! item := waitdequeue wq in
     let pid := item.1 in
     if (pid <? 0) || (NPROC <=? pid) then undef "ptable.proc[pid]"
     else updproc (Z.to_nat pid) (set_p_state RUNNABLE)) ;;
  let! iq := index "int_message_queue" (ms_int_queue ms) rec_pid in
  enqueue iq msg_no ;;
  ret 1.

Definition sys_recv : K Z :=
  trace SYS_recv ;;
  let! str := argstr 0 in
  let! p := curproc "recv" in
  let! pr := getproc p in
  let! ms := gets k_msg in
  let! iq := index "int_message_queue" (ms_int_queue ms) (p_pid pr) in
  let! empty := isEmpty iq in
  if empty then
    updproc p (set_p_state SLEEPING) ;;
    let! str := was_set "recv: str" str.2 in
    let! wq := index "wait_queue" (ms_wait_queue ms) (p_pid pr) in
    waitenqueue wq (p_pid pr) str ;;
    sched ;;
    ret 1
  else
    let! msg_no := dequeue iq in
    let! ms := gets k_msg in
    let! b := index "messageBuffers" (ms_buffers ms) msg_no in
    let! str := was_set "recv: str" str.2 in
    safestrcpy_ptr str b 8 ;;
    ret 1.

(** * The integer queue is a bounded first-in first-out queue *)

Definition is_int (x : Z) : Prop := - 2 ^ 31 <= x < 2 ^ 31.

(** The queue at [q] holds the integers [l], oldest first: the [k]-th of them is in slot
    [(front + k) mod cap] of the array. *)
Definition iq_rep (s : kernel) (q cap : Z) (l : list Z) : Prop :=
  exists front last arr,
    ms_intqueues (k_msg s) !! q = Some (mkIntQueue front last (Z.of_nat (length l)) cap arr) /\
    (0 < cap <= 1024 /\ Z.of_nat (length l) <= cap /\ 0 <= front < cap /\ -1 <= last < cap /\
     arr <> 0 /\ (last + 1) mod cap = (front + Z.of_nat (length l)) mod cap) /\
    Forall is_int l /\
    forall k x, l !! k = Some x -> ld32 (k_mem s) (arr + 4 * ((front + Z.of_nat k) mod cap)) = u32 x.

(** The calls, and what a bounded queue does for them. *)
Inductive qop : Type := Enq (x : Z) | Deq.

Definition qspec (cap : Z) (l : list Z) (o : qop) : list Z * Z :=
  match o with
  | Enq x => (if Z.of_nat (length l) =? cap then l else l ++ [x], 0)
  | Deq => match l with [] => ([], -3) | x :: l' => (l', x) end
  end.

Fixpoint qspecs (cap : Z) (l : list Z) (os : list qop) : list Z * list Z :=
  match os with
  | [] => (l, [])
  | o :: os => let r := qspec cap l o in
               let rs := qspecs cap r.1 os in (rs.1, r.2 :: rs.2)
  end.

Definition qrun (q : Z) (o : qop) : K Z :=
  match o with
  | Enq x => enqueue q x ;; ret 0
  | Deq => dequeue q
  end.

Fixpoint qruns (q : Z) (os : list qop) : K (list Z) :=
  match os with
  | [] => ret []
  | o :: os => let! r := qrun q o in let! rs := qruns q os in ret (r :: rs)
  end.

Definition qop_ok (o : qop) : Prop := match o with Enq x => is_int x | Deq => True end.

(** The code can print. *)
Record can_print (s : kernel) (i : nat) (c : cpu) : Prop := {
  cp_cpu : on_cpu (k_hw s) i c;
  cp_lock : lock_free (k_hw s) L_cons;
  cp_cons : cons_ok (k_cons s)
}.

Section Fifo.
Implicit Types (s : kernel) (q cap : Z) (l : list Z).

Definition iq_put (q : Z) (v : intqueue) (s : kernel) : kernel :=
  set_k_msg (set_ms_intqueues (<[q := v]> (ms_intqueues (k_msg s))) (k_msg s)) s.

Lemma iq_put_put q v w s : iq_put q v (iq_put q w s) = iq_put q v s.
Proof. unfold iq_put, set_k_msg, set_ms_intqueues; simpl. by rewrite insert_insert_eq. Qed.

Lemma iq_put_mem q v m s : iq_put q v (set_k_mem m s) = set_k_mem m (iq_put q v s).
Proof. done. Qed.

Lemma iq_put_get q v s : ms_intqueues (k_msg (iq_put q v s)) !! q = Some v.
Proof. apply lookup_insert_eq. Qed.

Lemma getiq_eq s q v : ms_intqueues (k_msg s) !! q = Some v -> getiq q s = Ret v s.
Proof. intros H. unfold getiq. rewrite bind_gets, H. done. Qed.

Lemma putiq_eq s q v :
  putiq q v s = Ret tt (iq_put q v s).
Proof. done. Qed.

Lemma i32_mod x cap : 0 < cap <= 1024 -> i32 (u32 x mod cap) = u32 x mod cap.
Proof. intros H. apply i32_small. pose proof (Z.mod_pos_bound (u32 x) cap). lia. Qed.

Lemma enqueue_full s q cap l x :
  iq_rep s q cap l -> Z.of_nat (length l) = cap -> enqueue q x s = Ret tt s.
Proof.
  intros (f & la & arr & Hq & Hb & _) Hl. unfold enqueue, isFull.
  erewrite bind_run by by erewrite bind_run by by apply getiq_eq. cbn [mq_size mq_capacity].
  rewrite u32_small by lia. by rewrite Hl, Z.eqb_refl.
Qed.

Lemma enqueue_room s q cap l x i c :
  iq_rep s q cap l -> Z.of_nat (length l) <> cap -> is_int x -> can_print s i c ->
  exists s', enqueue q x s = Ret tt s' /\ iq_rep s' q cap (l ++ [x]) /\ can_print s' i c.
Proof.
  intros (f & la & arr & Hq & (Hc & Hl & Hf & Hla & Ha & Hm) & Hi & Hs) Hn Hx Hp.
  unfold enqueue, isFull.
  exists (set_k_mem (st32 (k_mem s) (arr + 4 * ((la + 1) mod cap)) (u32 x))
    (iq_put q (mkIntQueue f ((la + 1) mod cap) (Z.of_nat (length l) + 1) cap arr) s)).
  split; [|split].
  - erewrite bind_run by by erewrite bind_run by by apply getiq_eq. cbn [mq_size mq_capacity].
    rewrite u32_small by lia. destruct (Z.eqb_spec (Z.of_nat (length l)) cap); [done|].
    erewrite bind_run by by apply getiq_eq. cbn [mq_last mq_capacity mq_arr].
    rewrite i32_mod, (u32_small (la + 1)) by lia.
    erewrite bind_run by apply putiq_eq. destruct (Z.eqb_spec arr 0); [done|].
    rewrite (bind_run _ _ _ tt (set_k_mem (st32 (k_mem s) (arr + 4 * ((la + 1) mod cap)) (u32 x))
      (iq_put q (mkIntQueue f ((la + 1) mod cap) (Z.of_nat (length l)) cap arr) s))) by done.
    erewrite bind_run by (apply getiq_eq, iq_put_get).
    rewrite putiq_eq, iq_put_mem, iq_put_put. unfold set_mq_size; simpl. by rewrite i32_small by lia.
  - exists f, ((la + 1) mod cap), arr. pose proof (Z.mod_pos_bound (la + 1) cap).
    rewrite length_app, Nat2Z.inj_add. split; [apply lookup_insert_eq|]. cbn [length k_mem set_k_mem]. split_and!; try lia.
    + rewrite Hm, Zplus_mod_idemp_l. f_equal. lia.
    + rewrite Forall_app. auto.
    + intros k y Hk. rewrite lookup_app_Some in Hk.
      destruct Hk as [Hk|[Hk1 Hk2]].
      * pose proof (lookup_lt_Some _ _ _ Hk).
        rewrite ld32_st32_ne; [by apply Hs|]. rewrite Hm.
        assert ((f + Z.of_nat k) mod cap <> (f + Z.of_nat (length l)) mod cap)
          by (intros E; apply mod_window in E; lia). lia.
      * apply list_lookup_singleton_Some in Hk2 as [Hk2 <-].
        replace k with (length l) by lia. rewrite <- Hm, ld32_st32_eq.
        apply u32_small, u32_range.
  - destruct Hp. by constructor.
Qed.

Lemma dequeue_some s q cap l x i c :
  iq_rep s q cap (x :: l) -> can_print s i c ->
  exists s', dequeue q s = Ret x s' /\ iq_rep s' q cap l /\ can_print s' i c.
Proof.
  intros (f & la & arr & Hq & (Hc & Hl & Hf & Hla & Ha & Hm) & Hi & Hs) Hp.
  apply Forall_cons in Hi as [Hx Hi]. cbn [length] in *. rewrite Nat2Z.inj_succ in *.
  unfold dequeue, isEmpty.
  exists (iq_put q (mkIntQueue ((f + 1) mod cap) la (Z.of_nat (length l)) cap arr) s). split; [|split].
  - erewrite bind_run by by erewrite bind_run by by apply getiq_eq. cbn [mq_size].
    destruct (Z.eqb_spec (Z.succ (Z.of_nat (length l))) 0); [lia|].
    erewrite bind_run by by apply getiq_eq. cbn [mq_front mq_capacity mq_arr].
    destruct (Z.eqb_spec arr 0); [done|]. unfold ldmem at 1. rewrite bind_gets.
    rewrite i32_mod, (u32_small (f + 1)) by lia. erewrite bind_run by apply putiq_eq.
    erewrite bind_run by (apply getiq_eq, iq_put_get).
    erewrite bind_run by apply putiq_eq. rewrite iq_put_put. unfold set_mq_size; simpl.
    rewrite (i32_small (Z.succ _ - 1)), Z.sub_1_r, Z.pred_succ by lia.
    specialize (Hs 0%nat x eq_refl). rewrite Z.add_0_r, Z.mod_small in Hs by lia.
    rewrite Hs, i32_u32, i32_small by done. reflexivity.
  - exists ((f + 1) mod cap), la, arr. pose proof (Z.mod_pos_bound (f + 1) cap).
    split; [apply lookup_insert_eq|]. split_and!; try lia; [|done|].
    + rewrite Hm, Zplus_mod_idemp_l. f_equal. lia.
    + intros k y Hk. rewrite Zplus_mod_idemp_l, <- (Hs (S k) y Hk).
      by replace (f + 1 + Z.of_nat k) with (f + Z.of_nat (S k)) by lia.
  - destruct Hp. by constructor.
Qed.

Lemma dequeue_none s q cap i c :
  iq_rep s q cap [] -> can_print s i c ->
  exists s', dequeue q s = Ret (-3) s' /\ iq_rep s' q cap [] /\ can_print s' i c.
Proof.
  intros (f & la & arr & Hq & Hb & Hi & Hs) [Hc Hl Ho].
  eexists (put_out _ s). split; [|split].
  - unfold dequeue, isEmpty. erewrite bind_run by by erewrite bind_run by by apply getiq_eq. cbn [mq_size].
    change (Z.of_nat (length []) =? 0) with true. cbv iota.
    erewrite bind_run by (eapply cprintf_eq; [done..|reflexivity]). reflexivity.
  - exists f, la, arr. done.
  - constructor; [done..|]. by apply put_out_ok.
Qed.

Lemma qrun_refines s q cap l o i c :
  iq_rep s q cap l -> can_print s i c -> qop_ok o ->
  exists s', qrun q o s = Ret (qspec cap l o).2 s' /\ iq_rep s' q cap (qspec cap l o).1 /\ can_print s' i c.
Proof.
  intros Hr Hp Ho. destruct o as [x|]; cbn [qrun qspec fst snd].
  - destruct (Z.eqb_spec (Z.of_nat (length l)) cap) as [E|E].
    + exists s. by erewrite bind_run by by eapply enqueue_full.
    + destruct (enqueue_room s q cap l x i c) as (s' & E' & H); [done..|].
      exists s'. by erewrite bind_run by exact E'.
  - destruct l as [|x l]; cbn [fst snd]; [by apply dequeue_none|by eapply dequeue_some].
Qed.

Lemma qruns_refines s q cap l os i c :
  iq_rep s q cap l -> can_print s i c -> Forall qop_ok os ->
  exists s', qruns q os s = Ret (qspecs cap l os).2 s' /\ iq_rep s' q cap (qspecs cap l os).1.
Proof.
  intros Hr Hp Ho. revert s l Hr Hp. induction Ho as [|o os Ho Hos IH]; intros s l Hr Hp; cbn [qruns qspecs].
  - eauto.
  - destruct (qrun_refines s q cap l o i c) as (s1 & E1 & Hr1 & Hp1); [done..|].
    destruct (IH s1 _ Hr1 Hp1) as (s2 & E2 & Hr2).
    exists s2. erewrite bind_run by exact E1. by erewrite bind_run by exact E2.
Qed.

(** A new queue is empty. *)
Lemma createIntQueue_spec s cap a b fl i c :
  kmem_lockable s i c -> kmem_ok s (a :: b :: fl) -> can_print s i c -> 0 < cap <= 1024 ->
  exists s', createIntQueue cap s = Ret a s' /\ iq_rep s' a cap [] /\ can_print s' i c.
Proof.
  intros Hk Hm Hp Hc. pose proof (km_pages _ _ Hm) as Hpg.
  apply Forall_cons in Hpg as [(_ & _ & _ & Ha) [(_ & _ & _ & Hb) _]%Forall_cons].
  unfold createIntQueue.
  exists (iq_put a (mkIntQueue 0 (-1) 0 cap b) (set_k_freelist (ld32 (k_mem s) b) s)). split; [|split].
  - erewrite bind_run by by eapply kalloc_some. destruct (Z.eqb_spec a 0); [lia|].
    erewrite bind_run by (eapply kalloc_some; [done|by apply kmem_ok_pop]).
    erewrite bind_run by apply putiq_eq. reflexivity.
  - exists 0, (-1), b. cbn. rewrite lookup_insert_eq. split; [done|]. split_and!; try lia; done.
  - destruct Hp. by constructor.
Qed.
End Fifo.

(** C26: A queue made by [createIntQueue(cap)] from two free pages behaves as a bounded
    first-in first-out queue under every sequence of [enqueue] and [dequeue]: items come
    out in the order they went in, an item for a full queue is dropped, and [dequeue] of an
    empty queue gives -3. *)
Theorem int_queue_fifo s cap a b fl os i c :
  kmem_lockable s i c -> kmem_ok s (a :: b :: fl) -> can_print s i c -> 0 < cap <= 1024 ->
  Forall qop_ok os ->
  exists s1 s2, createIntQueue cap s = Ret a s1 /\
    qruns a os s1 = Ret (qspecs cap [] os).2 s2 /\ iq_rep s2 a cap (qspecs cap [] os).1.
Proof.
  intros Hk Hm Hp Hc Ho.
  destruct (createIntQueue_spec s cap a b fl i c) as (s1 & E1 & Hr & Hp1); [done..|].
  destruct (qruns_refines s1 a cap [] os i c) as (s2 & E2 & H2); [done..|]. eauto 6.
Qed.

Definition page1 : Z := 2149580800.
Definition page2 : Z := 2149584896.
Definition kernel_queue : kernel := with_pages [page1; page2] kernel0.

Lemma kernel_queue_mem : kmem_ok kernel_queue [page1; page2].
Proof.
  apply with_pages_ok.
  - apply NoDup_cons; split; [|apply NoDup_singleton]. rewrite list_elem_of_singleton. done.
  - repeat constructor; vm_compute; congruence.
Qed.

Lemma kernel_queue_print : can_print kernel_queue 0 cpu0.
Proof. constructor; [exact on_cpu0|done|]. split; [done|]. split; [done|]. cbn; lia. Qed.

Definition demo_ops : list qop := [Enq 7; Enq (-9); Deq; Deq; Deq].

Lemma int_queue_fifo_witness :
  exists s1 s2, createIntQueue 50 kernel_queue = Ret page1 s1 /\
    qruns page1 demo_ops s1 = Ret [0; 0; 7; -9; -3] s2 /\ iq_rep s2 page1 50 [].
Proof.
  apply (int_queue_fifo kernel_queue 50 page1 page2 [] demo_ops 0 cpu0).
  - right. split; [exact on_cpu0|reflexivity].
  - exact kernel_queue_mem.
  - exact kernel_queue_print.
  - split; [reflexivity|discriminate].
  - repeat constructor; discriminate.
Defined.

(** * The wait queue does not wrap *)

Definition item_ok (it : Z * Z) : Prop := is_int it.1 /\ 0 <= it.2 < 2 ^ 32.

(** A process that waits and is woken, for each of [items] in turn: the items that come
    out. *)
Fixpoint wpairs (q : Z) (items : list (Z * Z)) : K (list (Z * Z)) :=
  match items with
  | [] => ret []
  | it :: items =>
      waitenqueue q it.1 it.2 ;;
      let! r := waitdequeue q in
      let! rs := wpairs q items in
      ret (r :: rs)
  end.

Definition wq_put (q : Z) (v : waitqueue) (s : kernel) : kernel :=
  set_k_msg (set_ms_waitqueues (<[q := v]> (ms_waitqueues (k_msg s))) (k_msg s)) s.

Definition item_at (m : mem) (arr j : Z) : Z * Z :=
  (i32 (ld32 m (arr + 8 * j)), ld32 m (arr + 8 * j + 4)).

Definition put_item (m : mem) (arr j : Z) (it : Z * Z) : mem :=
  st32 (st32 m (arr + 8 * j) (u32 it.1)) (arr + 8 * j + 4) it.2.

Section WaitQueue.
Implicit Types (s : kernel) (q cap arr : Z) (it : Z * Z).

Lemma wq_put_put q v w s : wq_put q v (wq_put q w s) = wq_put q v s.
Proof. unfold wq_put, set_k_msg, set_ms_waitqueues; simpl. by rewrite insert_insert_eq. Qed.

Lemma wq_put_mem q v m s : wq_put q v (set_k_mem m s) = set_k_mem m (wq_put q v s).
Proof. done. Qed.

Lemma wq_put_get q v s : ms_waitqueues (k_msg (wq_put q v s)) !! q = Some v.
Proof. apply lookup_insert_eq. Qed.

Lemma getwq_eq s q v : ms_waitqueues (k_msg s) !! q = Some v -> getwq q s = Ret v s.
Proof. intros H. unfold getwq. rewrite bind_gets, H. done. Qed.

Lemma putwq_eq s q v : putwq q v s = Ret tt (wq_put q v s).
Proof. done. Qed.

Lemma item_put_eq m arr j it : item_ok it -> item_at (put_item m arr j it) arr j = it.
Proof.
  intros [Hp Hb]. destruct it as [p b]. unfold item_at, put_item. cbn [fst snd] in *.
  rewrite ld32_st32_eq, ld32_st32_ne, ld32_st32_eq by lia.
  rewrite (u32_small (u32 p)), i32_u32, i32_small, u32_small by (try apply u32_range; done). done.
Qed.

Lemma item_put_ne m arr j j' it : j <> j' -> item_at (put_item m arr j it) arr j' = item_at m arr j'.
Proof. intros H. unfold item_at, put_item. by rewrite !ld32_st32_ne by lia. Qed.

Lemma waitenqueue_eq s q f la n cap arr it :
  ms_waitqueues (k_msg s) !! q = Some (mkWaitQueue f la n cap arr) -> arr <> 0 ->
  0 <= n < cap -> cap <= 1024 -> -1 <= la < 2 ^ 30 ->
  waitenqueue q it.1 it.2 s =
    Ret tt (set_k_mem (put_item (k_mem s) arr (la + 1) it) (wq_put q (mkWaitQueue f (la + 1) (n + 1) cap arr) s)).
Proof.
  intros Hq Ha Hn Hc Hla. unfold waitenqueue, isWaitFull.
  erewrite bind_run by by erewrite bind_run by by apply getwq_eq. cbn [wq_size wq_capacity].
  rewrite u32_small by lia. destruct (Z.eqb_spec n cap); [lia|].
  erewrite bind_run by by apply getwq_eq. cbn [wq_last wq_array].
  rewrite (i32_small (la + 1)) by lia. erewrite bind_run by apply putwq_eq.
  destruct (Z.eqb_spec arr 0); [done|].
  rewrite (bind_run _ _ _ tt (set_k_mem (put_item (k_mem s) arr (la + 1) it)
    (wq_put q (mkWaitQueue f (la + 1) n cap arr) s))) by done.
  erewrite bind_run by (apply getwq_eq, wq_put_get).
  rewrite putwq_eq, wq_put_mem, wq_put_put. unfold set_wq_size; simpl. by rewrite i32_small by lia.
Qed.

Lemma waitdequeue_eq s q f la n cap arr :
  ms_waitqueues (k_msg s) !! q = Some (mkWaitQueue f la n cap arr) -> arr <> 0 ->
  0 <= n <= cap -> 0 < cap <= 1024 -> 0 <= f < cap ->
  waitdequeue q s =
    Ret (item_at (k_mem s) arr f) (wq_put q (mkWaitQueue ((f + 1) mod cap) la (n - 1) cap arr) s).
Proof.
  intros Hq Ha Hn Hc Hf. unfold waitdequeue.
  erewrite bind_run by by apply getwq_eq. cbn [wq_front wq_array wq_capacity].
  destruct (Z.eqb_spec arr 0); [done|]. unfold ldmem. rewrite !bind_gets.
  rewrite i32_mod, (u32_small (f + 1)) by lia. erewrite bind_run by apply putwq_eq.
  erewrite bind_run by (apply getwq_eq, wq_put_get).
  erewrite bind_run by apply putwq_eq. rewrite wq_put_put. unfold set_wq_size; simpl.
  by rewrite (i32_small (n - 1)) by lia.
Qed.

(** The queue after [n] rounds: nothing is queued, the next item goes to slot [n], and the
    next to come out is that of slot [n mod cap]. *)
Definition wq_idle (s : kernel) (q cap arr : Z) (n : Z) : Prop :=
  ms_waitqueues (k_msg s) !! q = Some (mkWaitQueue (n mod cap) (n - 1) 0 cap arr) /\
  arr <> 0 /\ 0 < cap <= 1024 /\ 0 <= n < 2 ^ 30.

Lemma wait_round s q cap arr n it :
  wq_idle s q cap arr n ->
  exists s', (waitenqueue q it.1 it.2 ;; waitdequeue q) s =
      Ret (item_at (put_item (k_mem s) arr n it) arr (n mod cap)) s' /\
    (n + 1 < 2 ^ 30 -> wq_idle s' q cap arr (n + 1)) /\ k_mem s' = put_item (k_mem s) arr n it.
Proof.
  intros (Hq & Ha & Hc & Hn). pose proof (Z.mod_pos_bound n cap).
  erewrite bind_run by (eapply waitenqueue_eq; [done..|lia|lia|lia]).
  replace (n - 1 + 1) with n by lia.
  eexists. split; [eapply waitdequeue_eq; [apply wq_put_get|lia..]|]. split; [|done].
  intros Hn'. split; [|lia]. rewrite wq_put_get, Zplus_mod_idemp_l.
  by replace (n + 1 - 1) with n by lia.
Qed.

Lemma wpairs_app q l1 l2 s r1 s1 r2 s2 :
  wpairs q l1 s = Ret r1 s1 -> wpairs q l2 s1 = Ret r2 s2 -> wpairs q (l1 ++ l2) s = Ret (r1 ++ r2) s2.
Proof.
  revert s r1. induction l1 as [|it l1 IH]; intros s r1 E1 E2; cbn [app wpairs] in *.
  - by injection E1 as <- <-.
  - apply bind_inv in E1 as ([] & s3 & E3 & E1). apply bind_inv in E1 as (r & s4 & E4 & E1).
    apply bind_inv in E1 as (rs & s5 & E5 & E1). injection E1 as <- <-.
    erewrite bind_run by exact E3. erewrite bind_run by exact E4.
    by erewrite bind_run by by eapply IH.
Qed.

Lemma wpairs_first s q cap arr n items :
  wq_idle s q cap arr n -> Forall item_ok items -> n + Z.of_nat (length items) <= cap ->
  exists s', wpairs q items s = Ret items s' /\ wq_idle s' q cap arr (n + Z.of_nat (length items)) /\
    (forall j it, items !! j = Some it -> item_at (k_mem s') arr (n + Z.of_nat j) = it) /\
    (forall j, j < n -> item_at (k_mem s') arr j = item_at (k_mem s) arr j).
Proof.
  intros Hq Hi. revert s n Hq. induction Hi as [|it items Hit Hi IH]; intros s n Hq Hn; cbn [length wpairs] in *.
  - exists s. rewrite Z.add_0_r. done.
  - rewrite Nat2Z.inj_succ in *. destruct Hq as (Hq & Ha & Hc & Hb).
    destruct (wait_round s q cap arr n it) as (s1 & E & H1 & Em); [done|].
    specialize (H1 ltac:(lia)).
    rewrite Z.mod_small, item_put_eq in E by (try done; lia).
    destruct (IH s1 (n + 1) H1) as (s2 & E2 & H2 & Hs & Hold); [lia|].
    exists s2. erewrite bind_seq by exact E. erewrite bind_run by exact E2.
    replace (n + Z.succ (Z.of_nat (length items))) with (n + 1 + Z.of_nat (length items)) by lia.
    split_and!; [done|done| |].
    + intros [|j] x Hx; cbn in Hx.
      * injection Hx as <-. rewrite Z.add_0_r, Hold, Em by lia. by apply item_put_eq.
      * rewrite <- (Hs j x Hx). f_equal. lia.
    + intros j Hj. rewrite Hold, Em by lia. apply item_put_ne. lia.
Qed.
End WaitQueue.

(** C38: The wait queue is right only for its first turn: a new queue gives back [cap]
    waiting processes one after the other, but since [waitenqueue] does not wrap [last]
    while [waitdequeue] wraps [front], the next round gives the first of them again. *)
Theorem wait_queue_stale s q cap arr items it :
  wq_idle s q cap arr 0 -> Forall item_ok (items ++ [it]) -> Z.of_nat (length items) = cap ->
  exists s', wpairs q (items ++ [it]) s = Ret (items ++ take 1 items) s'.
Proof.
  intros Hq [Hi Hit]%Forall_app Hl.
  destruct (wpairs_first s q cap arr 0 items) as (s1 & E1 & H1 & Hs & _); [done|done|lia|].
  destruct (wait_round s1 q cap arr (0 + Z.of_nat (length items)) it H1) as (s2 & E2 & _ & _).
  destruct items as [|first items]; [cbn in Hl; destruct Hq as (_ & _ & ? & _); lia|].
  specialize (Hs 0%nat first eq_refl). change (0 + Z.of_nat 0) with 0 in Hs. destruct Hq as (_ & _ & Hc & _).
  rewrite Z.add_0_l, Hl, Z.mod_same, item_put_ne, Hs in E2 by lia.
  exists s2. eapply wpairs_app; [exact E1|]. cbn [wpairs]. by erewrite bind_seq by exact E2.
Qed.

Definition demo_items : list (Z * Z) := [(1, 100); (2, 200)].
Definition kernel_wait : kernel := wq_put page1 (mkWaitQueue 0 (-1) 0 2 page2) kernel0.

Lemma wait_queue_stale_witness :
  exists s', wpairs page1 (demo_items ++ [(3, 300)]) kernel_wait = Ret (demo_items ++ [(1, 100)]) s'.
Proof.
  apply (wait_queue_stale kernel_wait page1 2 page2 demo_items (3, 300)).
  - split; [reflexivity|]. split; [discriminate|]. split; split; first [reflexivity|discriminate].
  - repeat constructor; discriminate.
  - reflexivity.
Defined.
