(* ===== verification/Container.v ===== *)
(** Containers: the container table of [types.h] and its system calls in [sysproc.c],
    [sysfile.c] and [proc.c]. *)

From S2P Require Import Prelude Bytes KString Params State Spinlock Cprintf Kalloc Vm Sched Sleeplock Bio Block Log LogTx Fs Pipe File Proc Args Queue.
From stdpp Require Import base list gmap strings.
From Stdlib Require Import ZArith Lia.
Local Open Scope Z_scope.
Local Open Scope km_scope.

Definition NCONT : Z := 100.

Definition getcont (i : nat) : K container :=
  let! cs := gets k_cont in index "container_array" (cs_array cs) (Z.of_nat i).
Definition updcontainer (i : nat) (f : container -> container) : K unit :=
  let! c := getcont i in
  updcont (fun cs => set_cs_array (<[i := f c]> (cs_array cs)) cs).
Definition getloc (i : nat) : K Z :=
  let! cs := gets k_cont in index "container_location" (cs_location cs) (Z.of_nat i).
Definition setloc (i : nat) (v : Z) : K unit :=
  updcont (fun cs => set_cs_location (<[i := v]> (cs_location cs)) cs).

(** The scan every container call makes: the first live slot with container id [cid]. *)
Definition find_cont (cid : Z) : K (option nat) :=
  for_find (range NCONT) (fun i =>
    let! l := getloc i in
    if l =? 1 then
      let! c := getcont i in
      if ct_cid c =? cid then ret (Some i) else ret None
    else ret None).

(** The first use of [ps] or [join] puts every process outside of the containers. *)
Definition first_cids : K unit :=
  let! f := gets (fun s => cs_cid_to_ptable (k_cont s)) in
  when (negb (f =? 1))
    (acquire L_ptable ;;
     for_each (range NPROC) (fun p => updproc p (set_p_cid (-1))) ;;
     release L_ptable ;;
     updcont (set_cs_cid_to_ptable 1)).

Definition print_proc (pr : proc) : K unit :=
  cprintf (str "pid:%d name:%s") [A_int (p_pid pr); A_str (Some (upto_nul (p_name pr)))] ;;
  cprintf [NL] [].

Definition running_procs : K unit :=
  first_cids ;;
  let! pr := cur "running_procs" in
  let cid := p_cid pr in
  if cid =? -1 then
    acquire L_ptable ;;
    for_each (range NPROC) (fun p =>
      let! pr := getproc p in
      when (bool_decide (p_state pr <> UNUSED)) (print_proc pr)) ;;
    release L_ptable
  else
    let! oc := find_cont cid in
    let c := default 0%nat oc in
    acquire L_ptable ;;
    let! ct := getcont c in
    for_each (range (ct_number_of_process ct)) (fun i =>
      for_each (range NPROC) (fun p =>
        let! pr := getproc p in
        let! pid := index "mypid[i]" (ct_mypid ct) (Z.of_nat i) in
        when ((p_pid pr =? pid) && bool_decide (p_state pr <> UNUSED)) (print_proc pr))) ;;
    release L_ptable.

Definition join_cont (cid : Z) : K Z :=
  first_cids ;;
  let! oi := find_cont cid in
  match oi with
  | None => ret (-1)
  | Some i =>
      let! p := curproc "join_cont" in
      let! pr := getproc p in
      let! ct := getcont i in
      let! l := assign "mypid[number_of_process]" (ct_mypid ct) (ct_number_of_process ct) (p_pid pr) in
      updcontainer i (set_ct_mypid l) ;;
      updproc p (set_p_cid cid) ;;
      updcontainer i (fun ct => set_ct_number_of_process (i32 (ct_number_of_process ct + 1)) ct) ;;
      ret 1
  end.

Section Calls.
Context {IN : Indet}.

Definition sys_create_container : K Z :=
  updcont (set_cs_create_container_called 1) ;;
  let! cid := argint 0 in
  let! cid := was_set "create_container: cid" cid in
  let! dup := find_cont cid in
  match dup with
  | Some _ => ret (-1)
  | None =>
      let! _ := for_find (range NCONT) (fun i =>
        let! l := getloc i in
        if negb (l =? 1) then
          updcontainer i (fun _ => set_ct_cid cid indet_container) ;;
          setloc i 1 ;;
          updcontainer i (set_ct_number_of_process 0) ;;
          updcontainer i (set_ct_number_of_files 0) ;;
          ret (Some tt)
        else ret None) in
      ret cid
  end.
End Calls.

Definition sys_destroy_container : K Z :=
  let! cid := argint 0 in
  let! cid := was_set "destroy_container: cid" cid in
  let! oi := find_cont cid in
  match oi with
  | None => ret (-1)
  | Some i => setloc i 0 ;; ret 1
  end.

Definition sys_join_container : K Z :=
  let! cid := argint 0 in
  let! cid := was_set "join_container: cid" cid in
  join_cont cid.

Definition sys_leave_container : K Z :=
  let! p := curproc "leave_container" in
  let! pr := getproc p in
  let! oi := find_cont (p_cid pr) in
  match oi with
  | None => ret (-1)
  | Some i =>
      updproc p (set_p_cid 0) ;;
      let! ct := getcont i in
      let! l := assign "mypid[number_of_process]" (ct_mypid ct) (ct_number_of_process ct) (-1) in
      updcontainer i (set_ct_mypid l) ;;
      updcontainer i (fun ct => set_ct_number_of_process (i32 (ct_number_of_process ct - 1)) ct) ;;
      ret 1
  end.

Definition sys_getcid : K Z :=
  trace SYS_getpid ;;
  let! pr := cur "getcid" in ret (p_cid pr).

Definition sys_scheduler_log : K Z :=
  let! pr := cur "scheduler_log" in
  let cid := p_cid pr in
  updcont (set_cs_cid_sch_log cid) ;;
  let! cs := gets k_cont in
  let! v := index "sch_log[cid]" (cs_sch_log cs) cid in
  let! l := assign "sch_log[cid]" (cs_sch_log cs) cid (i32 (1 - v)) in
  updcont (set_cs_sch_log l) ;;
  ret 1.

Definition sys_ps : K Z :=
  trace SYS_ps ;;
  running_procs ;;
  ret 0.

(** * The container table as a map from container ids to members *)

Definition slots (cs : containers) : list (Z * container) := zip (cs_location cs) (cs_array cs).

Definition is_live (cid : Z) (x : Z * container) : Prop := x.1 = 1 /\ ct_cid x.2 = cid.

#[export] Instance is_live_dec cid x : Decision (is_live cid x).
Proof. unfold is_live. apply _. Defined.

Definition find_slot (cs : containers) (cid : Z) : option (nat * (Z * container)) :=
  list_find (is_live cid) (slots cs).

(** The pids a container lists. *)
Definition listed (ct : container) : list Z := take (Z.to_nat (ct_number_of_process ct)) (ct_mypid ct).

(** The members of container [cid], [None] when there is no such container. *)
Definition members (cs : containers) (cid : Z) : option (list Z) :=
  (fun r => listed r.2.2) <$> find_slot cs cid.

(** A live slot counts its members within its array. *)
Definition slot_ok (x : Z * container) : Prop :=
  x.1 = 1 -> 0 <= ct_number_of_process x.2 <= 100 /\ length (ct_mypid x.2) = 100%nat.

Record cont_ok (cs : containers) : Prop := {
  co_arr : length (cs_array cs) = 100%nat;
  co_loc : length (cs_location cs) = 100%nat;
  co_uniq : forall i j x y cid, slots cs !! i = Some x -> slots cs !! j = Some y ->
              is_live cid x -> is_live cid y -> i = j;
  co_slot : Forall slot_ok (slots cs)
}.

Section Table.
Implicit Types (cs : containers) (cid : Z) (s : kernel) (x y : Z * container).

Lemma slots_length cs : cont_ok cs -> length (slots cs) = 100%nat.
Proof. intros []. unfold slots. rewrite length_zip. lia. Qed.

Lemma slots_lookup cs i x :
  slots cs !! i = Some x <-> cs_location cs !! i = Some x.1 /\ cs_array cs !! i = Some x.2.
Proof.
  unfold slots. rewrite lookup_zip_with_Some. split.
  - by intros (l & c & -> & ? & ?).
  - destruct x. naive_solver.
Qed.

Lemma find_slot_iff cs cid i x :
  cont_ok cs -> find_slot cs cid = Some (i, x) <-> slots cs !! i = Some x /\ is_live cid x.
Proof.
  intros Ho. unfold find_slot. rewrite list_find_Some. split; [tauto|]. intros [Hi Hl].
  split_and!; [done..|]. intros j y Hj Hlt Hy.
  assert (j = i) by by eapply (co_uniq _ Ho). lia.
Qed.

Lemma find_slot_none cs cid :
  find_slot cs cid = None <-> forall i x, slots cs !! i = Some x -> ~ is_live cid x.
Proof.
  unfold find_slot. rewrite list_find_None, Forall_lookup. naive_solver.
Qed.

(** Replacing one slot. *)
Lemma slot_set cs cs' i x x' :
  cont_ok cs -> slots cs !! i = Some x ->
  cs_location cs' = <[i := x'.1]> (cs_location cs) -> cs_array cs' = <[i := x'.2]> (cs_array cs) ->
  slot_ok x' -> (forall cid j y, is_live cid x' -> slots cs !! j = Some y -> is_live cid y -> j = i) ->
  cont_ok cs' /\
  forall cid, find_slot cs' cid =
    if decide (is_live cid x') then Some (i, x')
    else if decide (is_live cid x) then None else find_slot cs cid.
Proof.
  intros Ho Hi El Ea Hok Hx.
  assert (Es : slots cs' = <[i := x']> (slots cs)).
  { unfold slots. rewrite El, Ea, <- insert_zip_with. by destruct x'. }
  assert (Ho' : cont_ok cs').
  { constructor.
    - rewrite Ea, length_insert. apply Ho.
    - rewrite El, length_insert. apply Ho.
    - intros j k y z cid. rewrite Es. intros Hj Hk Ly Lz.
      apply list_lookup_insert_Some in Hj as [(-> & -> & _)|[? Hj]];
        apply list_lookup_insert_Some in Hk as [(-> & -> & _)|[? Hk]]; [done| | |].
      + symmetry. by eapply Hx.
      + by eapply Hx.
      + by eapply (co_uniq _ Ho).
    - rewrite Es. apply Forall_insert; [apply Ho|done]. }
  split; [done|]. intros cid. pose proof (lookup_lt_Some _ _ _ Hi) as Hlt.
  destruct (decide (is_live cid x')) as [L'|L'].
  { apply find_slot_iff; [done|]. rewrite Es. split; [by apply list_lookup_insert_eq|done]. }
  destruct (decide (is_live cid x)) as [L|L].
  - apply find_slot_none. intros j y. rewrite Es. intros Hj.
    apply list_lookup_insert_Some in Hj as [(-> & -> & _)|[Hne Hj]]; [done|].
    intros Ly. by pose proof (co_uniq _ Ho _ _ _ _ _ Hi Hj L Ly).
  - destruct (find_slot cs cid) as [[j y]|] eqn:E.
    + apply find_slot_iff in E as [Hj Ly]; [|done]. apply find_slot_iff; [done|]. rewrite Es.
      split; [|done]. rewrite list_lookup_insert_ne; [done|]. intros ->. naive_solver.
    + rewrite find_slot_none in E. apply find_slot_none. intros j y. rewrite Es. intros Hj.
      apply list_lookup_insert_Some in Hj as [(-> & -> & _)|[Hne Hj]]; [done|]. by eapply E.
Qed.

(** ** The table operations *)

Lemma getcont_eq s i c : cs_array (k_cont s) !! i = Some c -> getcont i s = Ret c s.
Proof. intros H. unfold getcont. rewrite bind_gets. apply index_eq; [lia|]. by rewrite Nat2Z.id. Qed.

Lemma getloc_eq s i v : cs_location (k_cont s) !! i = Some v -> getloc i s = Ret v s.
Proof. intros H. unfold getloc. rewrite bind_gets. apply index_eq; [lia|]. by rewrite Nat2Z.id. Qed.

Definition put_cont (i : nat) (c : container) (s : kernel) : kernel :=
  set_k_cont (set_cs_array (<[i := c]> (cs_array (k_cont s))) (k_cont s)) s.

Lemma updcontainer_eq s i c f :
  cs_array (k_cont s) !! i = Some c -> updcontainer i f s = Ret tt (put_cont i (f c) s).
Proof. intros H. unfold updcontainer. by erewrite bind_run by by apply getcont_eq. Qed.

Lemma put_cont_get s i c c0 :
  cs_array (k_cont s) !! i = Some c0 -> cs_array (k_cont (put_cont i c s)) !! i = Some c.
Proof. intros H. cbn. apply list_lookup_insert_eq. by eapply lookup_lt_Some. Qed.

Lemma put_cont_put s i c c' : put_cont i c (put_cont i c' s) = put_cont i c s.
Proof. unfold put_cont, set_k_cont, set_cs_array; simpl. by rewrite list_insert_insert_eq. Qed.

Lemma find_cont_eq s cid :
  cont_ok (k_cont s) -> find_cont cid s = Ret (fst <$> find_slot (k_cont s) cid) s.
Proof.
  intros Ho. unfold find_cont, find_slot, range.
  replace (Z.to_nat NCONT) with (length (slots (k_cont s))) by by rewrite slots_length.
  assert (Hb : forall i x, slots (k_cont s) !! i = Some x ->
    (let! l := getloc i in if l =? 1 then let! c := getcont i in
       if ct_cid c =? cid then ret (Some i) else ret None else ret None) s =
    Ret (if decide (is_live cid x) then Some i else None) s).
  { intros i x [H1 H2]%slots_lookup. erewrite bind_run by by apply getloc_eq.
    unfold is_live. destruct (Z.eqb_spec x.1 1).
    - erewrite bind_run by by apply getcont_eq. destruct (Z.eqb_spec (ct_cid x.2) cid); case_decide; naive_solver.
    - case_decide; naive_solver. }
  pose proof (for_find_table (is_live cid) (slots (k_cont s)) (fun i =>
    let! l := getloc i in if l =? 1 then let! c := getcont i in
       if ct_cid c =? cid then ret (Some i) else ret None else ret None) s) as H.
  destruct (list_find _ _) as [[i x]|] eqn:E.
  - apply H; [intros j y Hj Hn; rewrite (Hb j y Hj); by rewrite decide_False|].
    apply list_find_Some in E as (Hi & HP & _). rewrite (Hb i x Hi). by rewrite decide_True.
  - apply H. intros j y Hj Hn; rewrite (Hb j y Hj); by rewrite decide_False.
Qed.

Definition set_loc (i : nat) (v : Z) (s : kernel) : kernel :=
  set_k_cont (set_cs_location (<[i := v]> (cs_location (k_cont s))) (k_cont s)) s.

Lemma setloc_eq i v s : setloc i v s = Ret tt (set_loc i v s).
Proof. done. Qed.

Lemma put_set_loc i j c v s : put_cont i c (set_loc j v s) = set_loc j v (put_cont i c s).
Proof. done. Qed.

(** The first slot that is not in use. *)
Definition free_slot (cs : containers) : option (nat * (Z * container)) :=
  list_find (fun x => x.1 <> 1) (slots cs).
End Table.

(** ** The system calls *)

Section Lifecycle.
Context {IN : Indet}.
Implicit Types (s : kernel) (i p : nat) (c : cpu) (pr : proc) (cid : Z).

(** A container as [create] leaves it. *)
Definition new_container (cid : Z) : container :=
  set_ct_number_of_files 0 (set_ct_number_of_process 0 (set_ct_cid cid indet_container)).

Definition called (s : kernel) : kernel := set_k_cont (set_cs_create_container_called 1 (k_cont s)) s.

Lemma create_loop_eq s cid :
  cont_ok (k_cont s) ->
  for_find (range NCONT) (fun i =>
    let! l := getloc i in
    if negb (l =? 1) then
      updcontainer i (fun _ => set_ct_cid cid indet_container) ;;
      setloc i 1 ;;
      updcontainer i (set_ct_number_of_process 0) ;;
      updcontainer i (set_ct_number_of_files 0) ;;
      ret (Some tt)
    else ret None) s =
  match free_slot (k_cont s) with
  | Some (i, _) => Ret (Some tt) (set_loc i 1 (put_cont i (new_container cid) s))
  | None => Ret None s
  end.
Proof.
  intros Ho. unfold free_slot, range.
  replace (Z.to_nat NCONT) with (length (slots (k_cont s))) by by rewrite slots_length.
  match goal with |- for_find _ ?b _ = _ =>
    pose proof (for_find_table (fun x => x.1 <> 1) (slots (k_cont s)) b s) as H end.
  destruct (list_find _ _) as [[i x]|] eqn:E; apply H.
  1,3: intros j y [H1 H2]%slots_lookup Hn; erewrite bind_run by (by apply getloc_eq);
    by destruct (Z.eqb_spec y.1 1).
  apply list_find_Some in E as (Hi & HP & _). pose proof Hi as [H1 H2]%slots_lookup.
  erewrite bind_run by by apply getloc_eq. destruct (Z.eqb_spec x.1 1); [done|]. cbn [negb].
  erewrite bind_run by by apply updcontainer_eq. erewrite bind_run by apply setloc_eq.
  rewrite <- put_set_loc.
  erewrite bind_run by by (apply updcontainer_eq; eapply (put_cont_get (set_loc i 1 s))).
  rewrite put_cont_put.
  erewrite bind_run by by (apply updcontainer_eq; eapply (put_cont_get (set_loc i 1 s))).
  rewrite put_cont_put, put_set_loc. done.
Qed.


(** C24: [destroy_container(cid)] removes exactly container [cid], or returns -1 when there
    is none. *)
Theorem destroy_container_correct s i c p pr cid :
  running s i c p pr -> user_ok (k_mem s) (p_pgdir pr) (p_sz pr) ->
  argint_spec (k_mem s) pr 0 = Some cid -> cont_ok (k_cont s) ->
  exists r s', sys_destroy_container s = Ret r s' /\ cont_ok (k_cont s') /\
    r = (match members (k_cont s) cid with Some _ => 1 | None => -1 end) /\
    forall x, members (k_cont s') x = if decide (x = cid) then None else members (k_cont s) x.
Proof.
  intros Hr Hu Ha Ho. unfold sys_destroy_container.
  erewrite bind_run by by apply (argint_eq Hr Hu). rewrite Ha. unfold was_set. rewrite bind_ret.
  erewrite bind_run by by apply find_cont_eq. unfold members at 1.
  destruct (find_slot (k_cont s) cid) as [[j x]|] eqn:E; cbn [fmap option_fmap option_map fst].
  - eexists 1, _. split; [erewrite bind_run by apply setloc_eq; done|].
    apply find_slot_iff in E as [Hj Hx]; [|done].
    destruct (slot_set (k_cont s) (k_cont (set_loc j 0 s)) j x (0, x.2)) as [H1 H2]; [done|done|done| |done|by intros ? ? ? []|].
    { cbn. rewrite list_insert_id; [done|]. by apply slots_lookup in Hj as [_ ?]. }
    split; [done|]. split; [done|]. intros z. unfold members. rewrite H2.
    rewrite (decide_False (P := is_live z (0, x.2))) by (intros []; done).
    destruct Hx as [Hx1 Hx2]. unfold is_live. destruct (decide (z = cid)) as [->|Hne].
    + by rewrite decide_True.
    + by rewrite decide_False by naive_solver.
  - eexists (-1), s. split; [done|]. split; [done|]. split; [done|]. intros z. case_decide as Hz; [|done]. subst z. unfold members. by rewrite E.
Qed.

(** The state after the first use of [ps] or [join]. *)
Definition cids_ready (s : kernel) : kernel :=
  if cs_cid_to_ptable (k_cont s) =? 1 then s
  else set_k_cont (set_cs_cid_to_ptable 1 (k_cont s)) (set_k_proc (set_p_cid (-1) <$> k_proc s) s).

Lemma first_cids_eq s i c :
  on_cpu (k_hw s) i c -> lock_free (k_hw s) L_ptable -> table_ok s ->
  first_cids s = Ret tt (cids_ready s).
Proof.
  intros Hc Hl Ht. unfold first_cids, cids_ready. rewrite bind_gets.
  destruct (cs_cid_to_ptable (k_cont s) =? 1); cbn [negb when]; [done|].
  erewrite bind_run by by apply acquire_eq.
  erewrite bind_run.
  2:{ apply (for_each_proc _ (set_p_cid (-1))); [|done]. intros q s' qr Hq. by apply updproc_eq. }
  erewrite bind_run by by apply (release_eq _ (k_hw s) i c). by destruct s.
Qed.

(** The entry of the running process then. *)
Definition pr_ready (s : kernel) (pr : proc) : proc :=
  if cs_cid_to_ptable (k_cont s) =? 1 then pr else set_p_cid (-1) pr.

Lemma running_ready s i c p pr : running s i c p pr -> running (cids_ready s) i c p (pr_ready s pr).
Proof.
  intros [Hc Hp Hpr]. unfold cids_ready, pr_ready. destruct (_ =? 1); [done|].
  constructor; [done..|]. cbn. by rewrite list_lookup_fmap, Hpr.
Qed.

Lemma cont_ready s : cont_ok (k_cont s) -> cont_ok (k_cont (cids_ready s)) /\
  forall cid, find_slot (k_cont (cids_ready s)) cid = find_slot (k_cont s) cid.
Proof. intros []. unfold cids_ready. destruct (_ =? 1); [done|]. by split; [constructor|]. Qed.

Lemma listed_join ct n pid :
  ct_number_of_process ct = n -> 0 <= n < 100 -> length (ct_mypid ct) = 100%nat ->
  listed (set_ct_number_of_process (n + 1) (set_ct_mypid (<[Z.to_nat n := pid]> (ct_mypid ct)) ct)) =
  listed ct ++ [pid].
Proof.
  intros En Hn Hl. unfold listed; cbn. rewrite En.
  replace (Z.to_nat (n + 1)) with (S (Z.to_nat n)) by lia.
  rewrite take_S_r with (x := pid) by (apply list_lookup_insert_eq; lia).
  by rewrite take_insert_ge by lia.
Qed.


(** C40: [leave_container] drops the last pid of the container's list, whichever process
    calls it, and gives the caller container id 0: a process that is not the last to have
    joined stays listed, and another disappears. *)
Theorem leave_container_drops_last s i c p pr l :
  running s i c p pr -> cont_ok (k_cont s) ->
  members (k_cont s) (p_cid pr) = Some l -> (0 < length l < 100)%nat ->
  exists s', sys_leave_container s = Ret 1 s' /\ cont_ok (k_cont s') /\
    (p_cid <$> k_proc s' !! p) = Some 0 /\
    forall x, members (k_cont s') x =
      if decide (x = p_cid pr) then Some (take (length l - 1) l) else members (k_cont s) x.
Proof.
  intros Hr Ho Hm Hlen. unfold sys_leave_container.
  erewrite bind_run by by eapply curproc_eq. erewrite bind_run by (apply getproc_eq, Hr).
  erewrite bind_run by by apply find_cont_eq. unfold members in Hm.
  destruct (find_slot (k_cont s) (p_cid pr)) as [[j x]|] eqn:E; [|done]. cbn [fmap option_fmap option_map fst snd] in Hm |- *. injection Hm as Hm.
  apply find_slot_iff in E as [Hj Hx]; [|done].
  pose proof Hj as [Hj1 Hj2]%slots_lookup. pose proof (co_slot _ Ho) as Hs. rewrite Forall_lookup in Hs.
  destruct (Hs j x Hj (proj1 Hx)) as [Hn Hlm].
  assert (Hn' : Z.of_nat (length l) = ct_number_of_process x.2).
  { subst l. unfold listed. rewrite length_take. lia. }
  erewrite bind_run by (apply updproc_eq; apply Hr).
  erewrite bind_run by by apply getcont_eq.
  erewrite bind_run by (apply assign_eq; lia).
  erewrite bind_run by by apply updcontainer_eq.
  erewrite bind_run by (apply updcontainer_eq; by eapply (put_cont_get s)).
  cbv beta. rewrite i32_small by (cbn; lia). eexists. split; [done|].
  set (x' := (1, set_ct_number_of_process (ct_number_of_process x.2 - 1)
    (set_ct_mypid (<[Z.to_nat (ct_number_of_process x.2) := -1]> (ct_mypid x.2)) x.2))).
  match goal with |- context [cont_ok (k_cont ?st)] =>
    destruct (slot_set (k_cont s) (k_cont st) j x x') as [H1 H2] end; [done|done|..].
  - cbn. by rewrite list_insert_id by (by rewrite Hj1, (proj1 Hx)).
  - cbn. by rewrite list_insert_insert_eq.
  - intros _. cbn. rewrite length_insert. lia.
  - intros cid' k y [_ L] Hk Ly. eapply (co_uniq _ Ho); [done|done|exact Ly|]. split; [apply Hx|done].
  - split; [done|]. split.
    { cbn. rewrite list_lookup_insert_eq by (eapply lookup_lt_Some, Hr). done. }
    intros z. unfold members. rewrite H2. destruct Hx as [Hx1 Hx2].
    destruct (decide (z = p_cid pr)) as [->|Hz].
    + rewrite decide_True by done. cbn. f_equal. subst l. unfold listed; cbn.
      rewrite length_take, Hlm, take_insert_ge, take_take by lia. f_equal. lia.
    + rewrite decide_False by (intros [_ L]; cbn in L; congruence).
      by rewrite decide_False by (intros [_ L]; cbn in L; congruence).
Qed.
End Lifecycle.

(** * Concrete containers: slot 0 holds container 7 with members [l] *)
Definition demo_cont (l : list Z) : container :=
  set_ct_cid 7 (set_ct_number_of_process (Z.of_nat (length l)) (set_ct_mypid (l ++ replicate (100 - length l) 0) container0)).
Definition demo_conts (l : list Z) : containers :=
  set_cs_array (demo_cont l :: replicate 99 container0) (set_cs_location (1 :: replicate 99 0) containers0).
Definition cont_kernel (l : list Z) : kernel :=
  set_k_cont (demo_conts l) (user_kernel (le_enc 4 7)).

Lemma demo_slots l : slots (demo_conts l) = (1, demo_cont l) :: replicate 99 (0, container0).
Proof. reflexivity. Qed.

Lemma demo_conts_ok l : (length l <= 100)%nat -> cont_ok (demo_conts l).
Proof.
  intros Hl. constructor; [reflexivity|reflexivity|..]; rewrite demo_slots.
  - intros i j x y cid Hi Hj [Hx _] [Hy _].
    destruct i as [|i], j as [|j]; [done|exfalso..].
    1: change (replicate 99 (0, container0) !! j = Some y) in Hj.
    2,3: change (replicate 99 (0, container0) !! i = Some x) in Hi.
    1: apply lookup_replicate in Hj as [-> _]; done.
    all: apply lookup_replicate in Hi as [-> _]; done.
  - constructor.
    + intros _. cbn [snd ct_number_of_process demo_cont set_ct_number_of_process set_ct_cid set_ct_mypid ct_mypid].
      rewrite length_app, length_replicate. lia.
    + apply Forall_replicate. by intros [=].
Qed.

Definition indet_demo : Indet := mkIndet container0 [].

Lemma cont_user l : running (cont_kernel l) 0 user_cpu 0 user_proc.
Proof. apply (running_frame (user_kernel (le_enc 4 7))); [apply user_running|done..]. Qed.


Lemma destroy_container_correct_witness :
  exists s', sys_destroy_container (cont_kernel []) = Ret 1 s' /\ members (k_cont s') 7 = None.
Proof.
  destruct (destroy_container_correct (cont_kernel []) 0 user_cpu 0 user_proc 7) as (r & s' & H1 & _ & Hr & H2).
  - apply cont_user.
  - apply (user_mem_ok (le_enc 4 7)).
  - vm_compute. reflexivity.
  - apply demo_conts_ok. apply Nat.le_0_l.
  - exists s'. subst r. split; [exact H1|]. rewrite H2. reflexivity.
Defined.


(** Process 1, in container 7 with members 1 and 5, leaves: 5 is dropped. *)
Definition leaver : proc := set_p_cid 7 user_proc.
Definition leave_kernel : kernel := set_k_proc (leaver :: replicate 63 proc0) (cont_kernel [1; 5]).

Lemma leave_container_drops_last_witness :
  exists s', sys_leave_container leave_kernel = Ret 1 s' /\ members (k_cont s') 7 = Some [1].
Proof.
  destruct (leave_container_drops_last leave_kernel 0 user_cpu 0 leaver [1; 5]) as (s' & H1 & _ & _ & H2).
  - constructor; [apply (cont_user [1; 5])|reflexivity|reflexivity].
  - apply demo_conts_ok. repeat constructor.
  - reflexivity.
  - split; repeat constructor.
  - exists s'. split; [exact H1|]. rewrite H2. reflexivity.
Defined.
