(* ===== verification/Sysproc.v ===== *)
(** The process system calls of [sysproc.c]. *)

From S2P Require Import Prelude Bytes KString Params State Spinlock Cprintf Kalloc Vm Sched Sleeplock Bio Block Log LogTx Fs Pipe File Proc Args.
From stdpp Require Import base list gmap strings.
From Stdlib Require Import ZArith Lia.
Local Open Scope Z_scope.
Local Open Scope km_scope.

Definition sys_kill : K Z :=
  trace SYS_kill ;;
  let! pid := argint 0 in
  match pid with
  | None => ret (-1)
  | Some pid => kill pid
  end.

Definition sys_getpid : K Z :=
  trace SYS_getpid ;;
  let! pr := cur "getpid" in ret (p_pid pr).

Definition sys_sbrk : K Z :=
  trace SYS_sbrk ;;
  let! n := argint 0 in
  match n with
  | None => ret (-1)
  | Some n =>
      let! pr := cur "sbrk" in
      let addr := i32 (p_sz pr) in
      let! r := growproc n in
      if r <? 0 then ret (-1) else ret addr
  end.

Definition sys_uptime : K Z :=
  trace SYS_uptime ;;
  acquire L_ticks ;;
  let! xticks := gets k_ticks in
  release L_ticks ;;
  ret (i32 xticks).

(** The write to port 0xf4 stops the emulator; it changes no kernel state. *)
Definition sys_halt : K Z :=
  trace SYS_halt ;;
  ret 0.

Definition sys_toggle : K Z :=
  let! on := gets k_isTraceOn in
  if on =? 0 then
    modify (set_k_isTraceOn 1) ;;
    modify (fun s => set_k_num_calls (replicate (length (k_num_calls s)) 0) s) ;;
    ret 0
  else if on =? 1 then
    modify (set_k_isTraceOn 0) ;;
    ret 0
  else ret 0.

Section Sysproc.
Context {WF : WaitFuel} {DS : Devsw} {LK : Linked}.

Definition sys_fork : K Z := trace SYS_fork ;; fork.
Definition sys_exit : K Z := trace SYS_exit ;; exit.
Definition sys_wait : K Z := trace SYS_wait ;; wait.

(** [while(ticks - ticks0 < n)]: an unsigned comparison. *)
Fixpoint sleep_ticks (fuel : nat) (ticks0 n : Z) : K Z :=
  let! t := gets k_ticks in
  if u32 n <=? u32 (t - ticks0) then release L_ticks ;; ret 0 else
  let! pr := cur "sleep" in
  if negb (p_killed pr =? 0) then release L_ticks ;; ret (-1) else
  match fuel with
  | O => nofuel
  | S fuel => sleep Ch_ticks L_ticks ;; sleep_ticks fuel ticks0 n
  end.

Definition sys_sleep : K Z :=
  trace SYS_sleep ;;
  let! n := argint 0 in
  match n with
  | None => ret (-1)
  | Some n =>
      acquire L_ticks ;;
      let! ticks0 := gets k_ticks in
      sleep_ticks wait_fuel ticks0 n
  end.
End Sysproc.
