(* ===== verification/Exec.v ===== *)
(** [exec] ([exec.c]) and [loaduvm] ([vm.c]): replacing the user image of a process by an
    ELF file. *)

From S2P Require Import Prelude Bytes KString Params State Spinlock Cprintf Kalloc Vm Sched Sleeplock Bio Block Log LogTx Fs Pipe File Proc Args.
From stdpp Require Import base list gmap strings.
From Stdlib Require Import ZArith Lia.
Local Open Scope Z_scope.
Local Open Scope km_scope.

Definition ELF_MAGIC : Z := 1179403647.
Definition ELFHDR_SIZE : Z := 52.
Definition PROGHDR_SIZE : Z := 32.
Definition ELF_PROG_LOAD : Z := 1.

Definition elf_magic (h : list Z) : Z := rd32 h 0.
Definition elf_entry (h : list Z) : Z := rd32 h 24.
Definition elf_phoff (h : list Z) : Z := rd32 h 28.
Definition elf_phnum (h : list Z) : Z := rd16 h 44.

Definition ph_type (h : list Z) : Z := rd32 h 0.
Definition ph_off (h : list Z) : Z := rd32 h 4.
Definition ph_vaddr (h : list Z) : Z := rd32 h 8.
Definition ph_filesz (h : list Z) : Z := rd32 h 16.
Definition ph_memsz (h : list Z) : Z := rd32 h 20.

Section Exec.
Context {WF : WaitFuel} {DS : Devsw}.

(** The loop of [loaduvm], a page per round. *)
Fixpoint loaduvm_loop (fuel : nat) (pgdir addr : Z) (ip : nat) (offset sz i : Z) : K Z :=
  if sz <=? i then ret 0 else
  match fuel with
  | O => nofuel
  | S fuel =>
      let! pte := walkpgdir pgdir (u32 (addr + i)) false in
      if pte =? 0 then panic "loaduvm: address should exist" else
      let! e := ldmem pte in
      let pa := PTE_ADDR e in
      let n := if sz - i <? PGSIZE then sz - i else PGSIZE in
      let! r := readi ip (u32 (offset + i)) n in
      updmem (fun m => st_bytes m (P2V pa) r.2) ;;
      if negb (r.1 =? n) then ret (-1) else
      loaduvm_loop fuel pgdir addr ip offset sz (u32 (i + PGSIZE))
  end.

Definition loaduvm (pgdir addr : Z) (ip : nat) (offset sz : Z) : K Z :=
  if negb (addr mod PGSIZE =? 0) then panic "loaduvm: addr must be page aligned" else
  loaduvm_loop (Z.to_nat (sz / PGSIZE + 1)) pgdir addr ip offset sz 0.

(** Loads the [n] program segments from [off] on: the new [sz], [None] for [goto bad]. *)
Fixpoint exec_segments (n : nat) (pgdir : Z) (ip : nat) (off sz : Z) : K (option Z) :=
  match n with
  | O => ret (Some sz)
  | S n =>
      let! r := readi ip (u32 off) PROGHDR_SIZE in
      if negb (r.1 =? PROGHDR_SIZE) then ret None else
      let ph := r.2 in
      if negb (ph_type ph =? ELF_PROG_LOAD) then
        exec_segments n pgdir ip (i32 (off + PROGHDR_SIZE)) sz
      else
      if ph_memsz ph <? ph_filesz ph then ret None else
      if u32 (ph_vaddr ph + ph_memsz ph) <? ph_vaddr ph then ret None else
      let! sz := allocuvm pgdir sz (u32 (ph_vaddr ph + ph_memsz ph)) in
      if sz =? 0 then ret None else
      if negb (ph_vaddr ph mod PGSIZE =? 0) then ret None else
      let! l := loaduvm pgdir (ph_vaddr ph) ip (ph_off ph) (ph_filesz ph) in
      if l <? 0 then ret None else
      exec_segments n pgdir ip (i32 (off + PROGHDR_SIZE)) sz
  end.

(** Pushes the argument strings: the stack pointer and the addresses of the strings. *)
Fixpoint exec_args (argv : list (list Z)) (pgdir sp argc : Z) (ustack : list Z) :
    K (option (Z * list Z)) :=
  match argv with
  | [] => ret (Some (sp, ustack))
  | a :: argv =>
      if MAXARG <=? argc then ret None else
      let sp := Z.land (u32 (sp - (Z.of_nat (length a) + 1))) (u32 (Z.lnot 3)) in
      let! r := copyout pgdir sp (a ++ [0]) in
      if r <? 0 then ret None else
      exec_args argv pgdir sp (argc + 1) (ustack ++ [sp])
  end.

(** [for(last=s=path; *s; s++) if( *s == '/') last = s+1;] *)
Fixpoint last_elem (s last : list Z) : list Z :=
  match s with
  | [] => last
  | c :: s' => last_elem s' (if c =? SLASH then s' else last)
  end.

Definition words (l : list Z) : list Z := l ≫= le_enc 4.

Definition exec_bad (pgdir : Z) (ip : option nat) : K Z :=
  when (negb (pgdir =? 0)) (freevm pgdir) ;;
  match ip with
  | Some ip => iunlockput ip ;; end_op
  | None => ret tt
  end ;;
  ret (-1).

(** From the stack on: the new image has its segments. *)
Definition exec_image (p : nat) (path : list Z) (argv : list (list Z)) (elf : list Z) (pgdir sz : Z) : K Z :=
  let sz := PGROUNDUP sz in
  let! sz := allocuvm pgdir sz (u32 (sz + 2 * PGSIZE)) in
  if sz =? 0 then exec_bad pgdir None else
  clearpteu pgdir (u32 (sz - 2 * PGSIZE)) ;;
  let! r := exec_args argv pgdir sz 0 [] in
  match r with
  | None => exec_bad pgdir None
  | Some (sp, addrs) =>
      let argc := Z.of_nat (length addrs) in
      let ustack := [4294967295; argc; u32 (sp - (argc + 1) * 4)] ++ addrs ++ [0] in
      let sp := u32 (sp - (3 + argc + 1) * 4) in
      let! r := copyout pgdir sp (words ustack) in
      if r <? 0 then exec_bad pgdir None else
      updproc p (fun pr => set_p_name (lsafestrcpy (p_name pr) (last_elem path path) 16) pr) ;;
      let! pr := getproc p in
      let oldpgdir := p_pgdir pr in
      updproc p (set_p_pgdir pgdir) ;;
      updproc p (set_p_sz sz) ;;
      updproc p (fun pr => set_p_tf (set_tf_eip (elf_entry elf) (p_tf pr)) pr) ;;
      updproc p (fun pr => set_p_tf (set_tf_esp sp (p_tf pr)) pr) ;;
      switchuvm (Some p) ;;
      freevm oldpgdir ;;
      ret 0
  end.

Definition exec (path : list Z) (argv : list (list Z)) : K Z :=
  let! p := curproc "exec" in
  begin_op ;;
  let! oip := namei path in
  match oip with
  | None =>
      end_op ;;
      cprintf (str "exec: fail" ++ [NL]) [] ;;
      ret (-1)
  | Some ip =>
      ilock (Some ip) ;;
      let! r := readi ip 0 ELFHDR_SIZE in
      let elf := r.2 in
      if negb (r.1 =? ELFHDR_SIZE) then exec_bad 0 (Some ip) else
      if negb (elf_magic elf =? ELF_MAGIC) then exec_bad 0 (Some ip) else
      let! pgdir := setupkvm in
      if pgdir =? 0 then exec_bad 0 (Some ip) else
      let! osz := exec_segments (Z.to_nat (elf_phnum elf)) pgdir ip (i32 (elf_phoff elf)) 0 in
      match osz with
      | None => exec_bad pgdir (Some ip)
      | Some sz =>
          iunlockput ip ;;
          end_op ;;
          exec_image p path argv elf pgdir sz
      end
  end.
End Exec.
