(* ===== verification/Sysfile.v ===== *)
(** The file system calls of [sysfile.c], with the container-private copies that [open]
    makes of files. *)

From S2P Require Import Prelude Bytes KString Params State Spinlock Cprintf Kalloc Vm Sched Sleeplock Bio Block Log LogTx Fs Pipe File Proc Args Queue Container Exec.
From stdpp Require Import base list gmap strings.
From Stdlib Require Import ZArith Lia.
Local Open Scope Z_scope.
Local Open Scope km_scope.

(** The descriptor and the file, [None] for -1. *)
Definition argfd (n : Z) : K (option (Z * nat)) :=
  let! fd := argint n in
  match fd with
  | None => ret None
  | Some fd =>
      if (fd <? 0) || (NOFILE <=? fd) then ret None else
      let! pr := cur "argfd" in
      let! f := index "ofile[fd]" (p_ofile pr) fd in
      ret ((fun f => (fd, f)) <$> f)
  end.

Definition set_ofile (fd : Z) (v : option nat) : K unit :=
  let! p := curproc "ofile" in
  updproc p (fun pr => set_p_ofile (<[Z.to_nat fd := v]> (p_ofile pr)) pr).

Definition fdalloc (f : nat) : K Z :=
  let! p := curproc "fdalloc" in
  let! r := for_find (range NOFILE) (fun fd =>
    let! pr := getproc p in
    let! o := index "ofile[fd]" (p_ofile pr) (Z.of_nat fd) in
    match o with
    | None =>
        updproc p (fun pr => set_p_ofile (<[fd := Some f]> (p_ofile pr)) pr) ;;
        ret (Some (Z.of_nat fd))
    | Some _ => ret None
    end) in
  ret (default (-1) r).

Definition sys_dup : K Z :=
  trace SYS_dup ;;
  let! a := argfd 0 in
  match a with
  | None => ret (-1)
  | Some (_, f) =>
      let! fd := fdalloc f in
      if fd <? 0 then ret (-1) else
      let! _ := filedup f in
      ret fd
  end.

(** [argstr], as the pointer and the string. *)
Definition argpath (n : Z) : K (option (Z * list Z)) :=
  let! r := argstr n in
  if r.1 <? 0 then ret None else
  let! a := was_set "argstr" r.2 in
  let! l := cstring a in
  ret (Some (a, l)).

(** [while(a--) if( *s1-- != *s2--) return 0;] from the terminators at [i] backwards. *)
Fixpoint cmp_back (a i : nat) (s1 s2 : list Z) : bool :=
  match a with
  | O => true
  | S a => if char_at s1 i =? char_at s2 i then cmp_back a (i - 1) s1 s2 else false
  end.

Definition mystrcmp (s1 s2 : list Z) : bool :=
  if negb (Nat.eqb (length s1) (length s2)) then false
  else cmp_back (length s1) (length s1) s1 s2.

(** [my_itoa]: a dollar sign and the digits of [i], stored at [b]. *)
Definition my_itoa (i b : Z) : K Z :=
  let p := itoa_end 10 i b + 1 in
  let! m := gets k_mem in
  match itoa_digits 10 (upd m p 0) i p with
  | None => undef "digit[i%10]"
  | Some (m, p) => modify (set_k_mem (upd m (p - 1) 36)) ;; ret b
  end.

Definition strcat (s1 s2 : list Z) : K Z :=
  let! b := kalloc in
  if b =? 0 then undef "strcat: store to 0" else
  updmem (fun m => st_bytes m b (s1 ++ s2 ++ [0])) ;;
  ret b.

Section Sysfile.
Context {WF : WaitFuel} {DS : Devsw} {IN : Indet}.

Definition sys_read : K Z :=
  trace SYS_read ;;
  let! a := argfd 0 in
  match a with
  | None => ret (-1)
  | Some (_, f) =>
      let! n := argint 2 in
      match n with
      | None => ret (-1)
      | Some n =>
          let! p := argptr 1 n in
          match p with
          | None => ret (-1)
          | Some p =>
              let! r := fileread f n in
              ustore p r.2 ;;
              ret r.1
          end
      end
  end.

Definition sys_write : K Z :=
  trace SYS_write ;;
  let! a := argfd 0 in
  match a with
  | None => ret (-1)
  | Some (_, f) =>
      let! n := argint 2 in
      match n with
      | None => ret (-1)
      | Some n =>
          let! p := argptr 1 n in
          match p with
          | None => ret (-1)
          | Some p =>
              let! bs := uload p (Z.to_nat n) in
              filewrite f bs n
          end
      end
  end.

Definition sys_close : K Z :=
  trace SYS_close ;;
  let! a := argfd 0 in
  match a with
  | None => ret (-1)
  | Some (fd, f) =>
      set_ofile fd None ;;
      fileclose f ;;
      ret 0
  end.

(** The fields of [struct stat] at their offsets; the padding is not written. *)
Definition ustore_stat (a : Z) (st : stat_t) : K unit :=
  ustore a (le_enc 2 (st_type st)) ;;
  ustore (a + 4) (le_enc 4 (st_dev st)) ;;
  ustore (a + 8) (le_enc 4 (st_ino st)) ;;
  ustore (a + 12) (le_enc 2 (st_nlink st)) ;;
  ustore (a + 16) (le_enc 4 (st_size st)) ;;
  ustore (a + 20) (le_enc 4 (st_cid st)).

Definition sys_fstat : K Z :=
  trace SYS_fstat ;;
  let! a := argfd 0 in
  match a with
  | None => ret (-1)
  | Some (_, f) =>
      let! p := argptr 1 24 in
      match p with
      | None => ret (-1)
      | Some p =>
          let! st := filestat f in
          match st with
          | None => ret (-1)
          | Some st => ustore_stat p st ;; ret 0
          end
      end
  end.

(** The [bad:] exit of [sys_link]. *)
Definition link_bad (ip : nat) : K Z :=
  ilock (Some ip) ;;
  updinode ip (fun i => set_i_nlink (i16 (i_nlink i - 1)) i) ;;
  iupdate ip ;;
  iunlockput ip ;;
  end_op ;;
  ret (-1).

(** [sys_link] once both strings are fetched. *)
Definition link (old new : list Z) : K Z :=
  begin_op ;;
  let! oip := namei old in
  match oip with
  | None => end_op ;; ret (-1)
  | Some ip =>
      ilock (Some ip) ;;
      let! i := getinode ip in
      if i_type i =? T_DIR then iunlockput ip ;; end_op ;; ret (-1) else
      updinode ip (fun i => set_i_nlink (i16 (i_nlink i + 1)) i) ;;
      iupdate ip ;;
      iunlock (Some ip) ;;
      let! r := nameiparent new indet_name in
      match r with
      | (None, _) => link_bad ip
      | (Some dp, name) =>
          ilock (Some dp) ;;
          let! d := getinode dp in
          let! i := getinode ip in
          if negb (i_dev d =? i_dev i) then iunlockput dp ;; link_bad ip else
          let! l := dirlink dp name (i_inum i) in
          if l <? 0 then iunlockput dp ;; link_bad ip else
          iunlockput dp ;;
          iput ip ;;
          end_op ;;
          ret 0
      end
  end.

Definition sys_link : K Z :=
  trace SYS_link ;;
  let! old := argpath 0 in
  match old with
  | None => ret (-1)
  | Some (_, old) =>
      let! new := argpath 1 in
      match new with
      | None => ret (-1)
      | Some (_, new) => link old new
      end
  end.

(** The scan of [isdirempty] over the entries from the third on. *)
Definition isdirempty (dp : nat) : K bool :=
  let! d := getinode dp in
  let n := (i_size d - 2 * DIRENT_SIZE + DIRENT_SIZE - 1) / DIRENT_SIZE in
  let! r := for_find (range n) (fun k =>
    let off := (Z.of_nat k + 2) * DIRENT_SIZE in
    let! r := readi dp off DIRENT_SIZE in
    if negb (r.1 =? DIRENT_SIZE) then panic "isdirempty: readi" else
    if negb (de_inum r.2 =? 0) then ret (Some tt) else ret None) in
  ret (match r with Some _ => false | None => true end).

Definition unlink_bad (dp : nat) : K Z := iunlockput dp ;; end_op ;; ret (-1).

(** [sys_unlink] once the path is fetched. *)
Definition unlink (path : list Z) : K Z :=
  begin_op ;;
  let! r := nameiparent path indet_name in
  match r with
  | (None, _) => end_op ;; ret (-1)
  | (Some dp, name) =>
      ilock (Some dp) ;;
      if (namecmp name (str ".") =? 0) || (namecmp name (str "..") =? 0) then unlink_bad dp else
      let! r := dirlookup dp name in
      match r with
      | None => unlink_bad dp
      | Some (ip, off) =>
          ilock (Some ip) ;;
          let! i := getinode ip in
          if i_nlink i <? 1 then panic "unlink: nlink < 1" else
          let! empty := (if i_type i =? T_DIR then isdirempty ip else ret true) in
          if negb empty then iunlockput ip ;; unlink_bad dp else
          let! w := writei dp (replicate (Z.to_nat DIRENT_SIZE) 0) off DIRENT_SIZE in
          if negb (w =? DIRENT_SIZE) then panic "unlink: writei" else
          let! i := getinode ip in
          when (i_type i =? T_DIR)
            (updinode dp (fun d => set_i_nlink (i16 (i_nlink d - 1)) d) ;; iupdate dp) ;;
          iunlockput dp ;;
          updinode ip (fun i => set_i_nlink (i16 (i_nlink i - 1)) i) ;;
          iupdate ip ;;
          iunlockput ip ;;
          end_op ;;
          ret 0
      end
  end.

Definition sys_unlink : K Z :=
  trace SYS_unlink ;;
  let! path := argpath 0 in
  match path with
  | None => ret (-1)
  | Some (_, path) => unlink path
  end.

(** The inode, locked; [None] for 0. *)
Definition create (path : list Z) (type major minor : Z) : K (option nat) :=
  let! r := nameiparent path indet_name in
  match r with
  | (None, _) => ret None
  | (Some dp, name) =>
      ilock (Some dp) ;;
      let! r := dirlookup dp name in
      match r with
      | Some (ip, _) =>
          iunlockput dp ;;
          ilock (Some ip) ;;
          let! i := getinode ip in
          if (type =? T_FILE) && (i_type i =? T_FILE) then ret (Some ip) else
          iunlockput ip ;;
          ret None
      | None =>
          let! d := getinode dp in
          let! ip := ialloc (i_dev d) type in
          ilock (Some ip) ;;
          updinode ip (set_i_major major) ;;
          updinode ip (set_i_minor minor) ;;
          updinode ip (set_i_nlink 1) ;;
          iupdate ip ;;
          when (type =? T_DIR)
            (updinode dp (fun d => set_i_nlink (i16 (i_nlink d + 1)) d) ;;
             iupdate dp ;;
             let! i := getinode ip in
             let! r := dirlink ip (str ".") (i_inum i) in
             if r <? 0 then panic "create dots" else
             let! d := getinode dp in
             let! r := dirlink ip (str "..") (i_inum d) in
             if r <? 0 then panic "create dots" else ret tt) ;;
          let! i := getinode ip in
          let! r := dirlink dp name (i_inum i) in
          if r <? 0 then panic "create: dirlink" else
          iunlockput dp ;;
          ret (Some ip)
      end
  end.

Definition sys_mkdir : K Z :=
  trace SYS_mkdir ;;
  begin_op ;;
  let! path := argpath 0 in
  match path with
  | None => end_op ;; ret (-1)
  | Some (_, path) =>
      let! ip := create path T_DIR 0 0 in
      match ip with
      | None => end_op ;; ret (-1)
      | Some ip => iunlockput ip ;; end_op ;; ret 0
      end
  end.

Definition sys_mknod : K Z :=
  trace SYS_mknod ;;
  begin_op ;;
  let! path := argpath 0 in
  let bad := end_op ;; ret (-1) in
  match path with
  | None => bad
  | Some (_, path) =>
      let! major := argint 1 in
      match major with
      | None => bad
      | Some major =>
          let! minor := argint 2 in
          match minor with
          | None => bad
          | Some minor =>
              let! ip := create path T_DEV (i16 major) (i16 minor) in
              match ip with
              | None => bad
              | Some ip => iunlockput ip ;; end_op ;; ret 0
              end
          end
      end
  end.

Definition sys_chdir : K Z :=
  trace SYS_chdir ;;
  let! p := curproc "chdir" in
  begin_op ;;
  let! path := argpath 0 in
  match path with
  | None => end_op ;; ret (-1)
  | Some (_, path) =>
      let! oip := namei path in
      match oip with
      | None => end_op ;; ret (-1)
      | Some ip =>
          ilock (Some ip) ;;
          let! i := getinode ip in
          if negb (i_type i =? T_DIR) then iunlockput ip ;; end_op ;; ret (-1) else
          iunlock (Some ip) ;;
          let! pr := getproc p in
          let! cwd := nonnull "iput(0)" (p_cwd pr) in
          iput cwd ;;
          end_op ;;
          updproc p (set_p_cwd (Some ip)) ;;
          ret 0
      end
  end.

(** The loop of [sys_exec] over [argv]: [k] slots are left. *)
Fixpoint exec_argv (k : nat) (uargv : Z) : K (option (list (list Z))) :=
  match k with
  | O => ret None
  | S k =>
      let! uarg := fetchint uargv in
      match uarg with
      | None => ret None
      | Some uarg =>
          if uarg =? 0 then ret (Some []) else
          let! r := fetchstr (u32 uarg) in
          if r.1 <? 0 then ret None else
          let! a := was_set "argv[i]" r.2 in
          let! l := cstring a in
          let! rest := exec_argv k (u32 (uargv + 4)) in
          ret (cons l <$> rest)
      end
  end.

Definition sys_exec : K Z :=
  trace SYS_exec ;;
  let! path := argpath 0 in
  match path with
  | None => ret (-1)
  | Some (_, path) =>
      let! uargv := argint 1 in
      match uargv with
      | None => ret (-1)
      | Some uargv =>
          let! argv := exec_argv (Z.to_nat MAXARG) (u32 uargv) in
          match argv with
          | None => ret (-1)
          | Some argv => exec path argv
          end
      end
  end.

Definition sys_pipe : K Z :=
  trace SYS_pipe ;;
  let! fd := argptr 0 8 in
  match fd with
  | None => ret (-1)
  | Some fd =>
      let! r := pipealloc in
      match r with
      | None => ret (-1)
      | Some (rf, wf) =>
          let! fd0 := fdalloc rf in
          let! fd1 := (if fd0 <? 0 then ret (-1) else fdalloc wf) in
          if (fd0 <? 0) || (fd1 <? 0) then
            when (0 <=? fd0) (set_ofile fd0 None) ;;
            fileclose rf ;;
            fileclose wf ;;
            ret (-1)
          else
          ustore fd (le_enc 4 fd0) ;;
          ustore (fd + 4) (le_enc 4 fd1) ;;
          ret 0
      end
  end.
End Sysfile.
