(* ===== verification/Open.v ===== *)
(** [sys_open] ([sysfile.c]): opening, creating, and copying a file into the container of
    the calling process. *)

From S2P Require Import Prelude Bytes KString Params State Spinlock Cprintf Kalloc Vm Sched Sleeplock Bio Block Log LogTx Fs Pipe File Proc Args Queue Container Exec Sysfile.
From stdpp Require Import base list gmap strings.
From Stdlib Require Import ZArith Lia.
Local Open Scope Z_scope.
Local Open Scope km_scope.

Section Open.
Context {WF : WaitFuel} {DS : Devsw} {IN : Indet}.

(** [*ls_called] *)
Definition ls_called : K Z :=
  let! a := gets k_ls_called in
  let! b0 := load8 a in let! b1 := load8 (a + 1) in
  let! b2 := load8 (a + 2) in let! b3 := load8 (a + 3) in
  ret (i32 (Bytes.le_dec [b0; b1; b2; b3])).

(** The path with the container id of the process behind it: [path$cid]. *)
Definition with_suffix (path : Z) : K Z :=
  let! pr := cur "open" in
  let! sind := kalloc in
  if sind =? 0 then undef "my_itoa: store to 0" else
  let! sind := my_itoa (p_cid pr) sind in
  let! l := cstring path in
  let! s := cstring sind in
  strcat l s.

(** The search of the container's files for the suffixed path: the path to use and
    [pehle_se_hai_conatiner_me]. *)
Definition open_search (path cid : Z) : K (Z * bool) :=
  let! oi := find_cont cid in
  match oi with
  | None => ret (path, false)
  | Some i =>
      let! path4 := with_suffix path in
      let! l4 := cstring path4 in
      let! ct := getcont i in
      let! r := for_find (range (ct_number_of_files ct)) (fun j =>
        let! a := index "container_files[j]" (ct_container_files ct) (Z.of_nat j) in
        let! l := cstring a in
        if mystrcmp l l4 then ret (Some tt) else ret None) in
      ret (match r with Some _ => (path4, true) | None => (path, false) end)
  end.

(** [namei], with the test that a directory is only opened for reading: the locked inode,
    [None] after [end_op]. *)
Definition open_existing (path omode : Z) : K (option nat) :=
  let! l := cstring path in
  let! oip := namei l in
  match oip with
  | None => end_op ;; ret None
  | Some ip =>
      ilock (Some ip) ;;
      let! i := getinode ip in
      if (i_type i =? T_DIR) && negb (omode =? O_RDONLY) then
        iunlockput ip ;; end_op ;; ret None
      else ret (Some ip)
  end.

Definition create_at (path : Z) : K (option nat) :=
  let! l := cstring path in create l T_FILE 0 0.

(** The inode of the first [begin_op] section, and [create_in_container]. *)
Definition open_inode (path omode cid : Z) (called : bool) : K (option nat * bool) :=
  if negb (Z.land omode O_CREATE =? 0) then
    let plain := (cid =? -1) || negb called in
    let! oip := (if plain then create_at path
                 else let! path5 := with_suffix path in create_at path5) in
    match oip with
    | None => end_op ;; ret (None, negb plain)
    | Some ip => ret (Some ip, negb plain)
    end
  else
    let! oip := open_existing path omode in ret (oip, false).

(** A file and a descriptor for the locked inode [ip]; both undone on failure. *)
Definition open_fd (ip : nat) : K (option (nat * Z)) :=
  let! ofl := filealloc in
  match ofl with
  | None => iunlockput ip ;; end_op ;; ret None
  | Some f =>
      let! fd := fdalloc f in
      if fd <? 0 then fileclose f ;; iunlockput ip ;; end_op ;; ret None else
      iunlock (Some ip) ;;
      end_op ;;
      ret (Some (f, fd))
  end.

Definition b2z (b : bool) : Z := if b then 1 else 0.

Definition open_readable (omode : Z) : Z := b2z (Z.land omode O_WRONLY =? 0).
Definition open_writable (omode : Z) : Z :=
  b2z (negb (Z.land omode O_WRONLY =? 0) || negb (Z.land omode O_RDWR =? 0)).

Definition open_fields (f ip : nat) (readable writable path : Z) : K unit :=
  updfile f (set_f_type FD_INODE) ;;
  updfile f (set_f_ip (Some ip)) ;;
  updfile f (set_f_off 0) ;;
  updfile f (set_f_readable readable) ;;
  updfile f (set_f_writable writable) ;;
  updfile f (set_f_path path).

(** The container of the file, from the list of all container files. *)
Definition open_cid (f : nat) (path : Z) : K unit :=
  let! cs := gets k_cont in
  let! l := cstring path in
  let! r := for_find (range (cs_num_all_files cs)) (fun i =>
    let! a := index "all_files[i]" (cs_all_files cs) (Z.of_nat i) in
    let! s := cstring a in
    let! new_path := strcat (str "./") s in
    let! n := cstring new_path in
    if mystrcmp l n then
      let! c := index "corresponding_cid[i]" (cs_corresponding_cid cs) (Z.of_nat i) in
      ret (Some c)
    else ret None) in
  updfile f (set_f_cid (default (-1) r)).

(** Enters the file in every live slot of container [cid]. *)
Definition register_container (cid path : Z) (ip : nat) (copied : Z) : K unit :=
  for_each (range NCONT) (fun i =>
    let! l := getloc i in
    if negb (l =? 1) then ret tt else
    let! ct := getcont i in
    if negb (ct_cid ct =? cid) then ret tt else
    let n := ct_number_of_files ct in
    let! ino := getinode ip in
    let! fs := assign "container_files" (ct_container_files ct) n path in
    updcontainer i (set_ct_container_files fs) ;;
    let! cp := assign "copied_or_not" (ct_copied_or_not ct) n copied in
    updcontainer i (set_ct_copied_or_not cp) ;;
    let! ty := assign "type" (ct_type ct) n (i_type ino) in
    updcontainer i (set_ct_type ty) ;;
    let! im := assign "ino" (ct_ino ct) n (i_inum ino) in
    updcontainer i (set_ct_ino im) ;;
    let! sz := assign "size" (ct_size ct) n (i_size ino) in
    updcontainer i (set_ct_size sz) ;;
    updcontainer i (fun ct => set_ct_number_of_files (i32 (ct_number_of_files ct + 1)) ct)).

(** Enters the file in the list of all container files. *)
Definition register_all (cid path : Z) : K unit :=
  let! cs := gets k_cont in
  let n := cs_num_all_files cs in
  let! fs := assign "all_files" (cs_all_files cs) n path in
  updcont (set_cs_all_files fs) ;;
  let! cc := assign "corresponding_cid" (cs_corresponding_cid cs) n cid in
  updcont (set_cs_corresponding_cid cc) ;;
  updcont (fun cs => set_cs_num_all_files (i32 (cs_num_all_files cs + 1)) cs).

(** The byte-by-byte copy; a file has at most [MAXFILE] blocks, a device may deliver
    bytes for ever. *)
Definition copy_fuel : nat := Z.to_nat (MAXFILE * BSIZE + 1).

Fixpoint copy_loop (fuel : nat) (f f2 : nat) : K unit :=
  let! r := fileread f 1 in
  if r.1 <=? 0 then ret tt else
  match fuel with
  | O => nofuel
  | S fuel =>
      let! n1 := filewrite f2 r.2 1 in
      when (n1 <? 0) (cprintf (str "error in writing in newopen " ++ [NL]) []) ;;
      copy_loop fuel f f2
  end.

Definition claim_cid (f : nat) (cid : Z) : K unit :=
  let! fl := getfile f in
  when ((f_cid fl =? 0) || (f_cid fl =? -1)) (updfile f (set_f_cid cid)).

(** Opening the copy again as [f3]. *)
Definition open_again (path3 omode cid : Z) : K Z :=
  begin_op ;;
  let! oip := (if negb (Z.land omode O_CREATE =? 0) then
                 let! oip := create_at path3 in
                 match oip with
                 | None => end_op ;; ret None
                 | Some ip => ret (Some ip)
                 end
               else open_existing path3 omode) in
  match oip with
  | None => ret (-1)
  | Some ip3 =>
      let! r := open_fd ip3 in
      match r with
      | None => ret (-1)
      | Some (f3, fd3) =>
          open_fields f3 ip3 (open_readable omode) (open_writable omode) path3 ;;
          claim_cid f3 cid ;;
          register_container cid path3 ip3 1 ;;
          register_all cid path3 ;;
          ret fd3
      end
  end.

(** Copying the file [f] into the container, and opening the copy. *)
Definition open_copy (f : nat) (fd path omode cid : Z) : K Z :=
  let! path2 := with_suffix path in
  begin_op ;;
  let! oip := create_at path2 in
  match oip with
  | None => end_op ;; ret (-1)
  | Some ip2 =>
      let! r := open_fd ip2 in
      match r with
      | None => ret (-1)
      | Some (f2, fd2) =>
          open_fields f2 ip2 (open_readable omode) 1 path2 ;;
          claim_cid f2 cid ;;
          copy_loop copy_fuel f f2 ;;
          updfile f2 (set_f_off 0) ;;
          updfile f (set_f_off 0) ;;
          set_ofile fd None ;;
          fileclose f ;;
          set_ofile fd2 None ;;
          fileclose f2 ;;
          open_again path2 omode cid
      end
  end.

(** What follows once the descriptor exists. *)
Definition open_finish (f ip : nat) (fd path omode cid : Z) (called found created : bool) : K Z :=
  open_fields f ip (open_readable omode) (open_writable omode) path ;;
  open_cid f path ;;
  if (cid =? -1) || negb called then ret fd else
  if found then ret fd else
  if created then
    let! path6 := with_suffix path in
    register_container cid path6 ip 0 ;;
    register_all cid path6 ;;
    updfile f (set_f_path path6) ;;
    let! fl := getfile f in
    when (f_cid fl =? 0) (updfile f (set_f_cid cid)) ;;
    ret fd
  else open_copy f fd path omode cid.

Definition sys_open : K Z :=
  let! pr := cur "open" in
  let! ls := ls_called in
  let cid := if ls =? 1 then -1 else p_cid pr in
  trace SYS_open ;;
  let! path := argstr 0 in
  if path.1 <? 0 then ret (-1) else
  let! omode := argint 1 in
  match omode with
  | None => ret (-1)
  | Some omode =>
      let! path := was_set "open: path" path.2 in
      let! r := open_search path cid in
      let '(path, found) := r in
      begin_op ;;
      let! cs := gets k_cont in
      let called := negb (cs_create_container_called cs =? 0) in
      let! r := open_inode path omode cid called in
      match r with
      | (None, _) => ret (-1)
      | (Some ip, created) =>
          let! r := open_fd ip in
          match r with
          | None => ret (-1)
          | Some (f, fd) => open_finish f ip fd path omode cid called found created
          end
      end
  end.
End Open.
