(* ===== verification/Console.v ===== *)
(** The console's input half ([console.c]): line editing in [consoleintr], [consoleread],
    [consolewrite], and the console as the device behind [devsw[CONSOLE]]. *)

From S2P Require Import Prelude Bytes KString Params State Spinlock Cprintf Kalloc Vm Sched Sleeplock Bio Block Log LogTx Fs Pipe File Proc Args.
From stdpp Require Import base list gmap strings.
From Stdlib Require Import ZArith Lia.
Local Open Scope Z_scope.
Local Open Scope km_scope.

Definition INPUT_BUF : Z := 128.

(** [C(x)]: control-[x] *)
Definition CTRL (x : Z) : Z := x - 64.
Definition CTRL_P : Z := CTRL 80.
Definition CTRL_U : Z := CTRL 85.
Definition CTRL_H : Z := CTRL 72.
Definition CTRL_D : Z := CTRL 68.
Definition CR : Z := 13.
Definition DEL : Z := 127.

(** [input.buf[i % INPUT_BUF]] *)
Definition input_at (co : console) (i : Z) : Z := char_at (co_buf co) (Z.to_nat (u32 i mod INPUT_BUF)).

(** One erased character. *)
Definition erase : K unit :=
  updcons (fun co => set_co_e (u32 (co_e co - 1)) co) ;;
  consputc BACKSPACE.

(** The loop of [^U]; at most a buffer of characters is being edited. *)
Fixpoint kill_line (fuel : nat) : K unit :=
  let! co := gets k_cons in
  if negb (co_e co =? co_w co) && negb (input_at co (co_e co - 1) =? NL) then
    match fuel with
    | O => nofuel
    | S fuel => erase ;; kill_line fuel
    end
  else ret tt.

(** The [default] case. *)
Definition input_char (c : Z) : K unit :=
  let! co := gets k_cons in
  when (negb (c =? 0) && (u32 (co_e co - co_r co) <? INPUT_BUF))
    (let c := if c =? CR then NL else c in
     updcons (fun co => set_co_buf (<[Z.to_nat (co_e co mod INPUT_BUF) := u8 c]> (co_buf co)) co) ;;
     updcons (fun co => set_co_e (u32 (co_e co + 1)) co) ;;
     consputc c ;;
     let! co := gets k_cons in
     when ((c =? NL) || (c =? CTRL_D) || (co_e co =? u32 (co_r co + INPUT_BUF)))
       (updcons (fun co => set_co_w (co_e co) co) ;;
        wakeup Ch_input)).

(** One character; the result says whether it asks for the process listing. *)
Definition consoleintr_char (c : Z) : K bool :=
  if c =? CTRL_P then ret true
  else if c =? CTRL_U then kill_line (Z.to_nat INPUT_BUF) ;; ret false
  else if (c =? CTRL_H) || (c =? DEL) then
    let! co := gets k_cons in
    when (negb (co_e co =? co_w co)) erase ;;
    ret false
  else input_char c ;; ret false.

(** [cs] are the values [getc] returns before a negative one. *)
Fixpoint consoleintr_loop (cs : list Z) (doprocdump : bool) : K bool :=
  match cs with
  | [] => ret doprocdump
  | c :: cs =>
      let! d := consoleintr_char c in
      consoleintr_loop cs (doprocdump || d)
  end.

Definition consoleintr (cs : list Z) : K unit :=
  acquire L_cons ;;
  let! d := consoleintr_loop cs false in
  release L_cons ;;
  when d procdump.

Section Device.
Context {WF : WaitFuel}.

(** [while(input.r == input.w)]: false when the process was killed. *)
Fixpoint consoleread_wait (fuel : nat) : K bool :=
  let! co := gets k_cons in
  if negb (co_r co =? co_w co) then ret true else
  let! pr := cur "consoleread" in
  if negb (p_killed pr =? 0) then ret false else
  match fuel with
  | O => nofuel
  | S fuel => sleep Ch_input L_cons ;; consoleread_wait fuel
  end.

(** The loop of [consoleread] for [n] more of [target] bytes: the bytes stored, [None]
    when the process was killed. *)
Fixpoint consoleread_loop (n target : nat) : K (option (list Z)) :=
  match n with
  | O => ret (Some [])
  | S n' =>
      let! ok := consoleread_wait wait_fuel in
      if negb ok then ret None else
      let! co := gets k_cons in
      let c := input_at co (co_r co) in
      updcons (fun co => set_co_r (u32 (co_r co + 1)) co) ;;
      if c =? CTRL_D then
        when (Nat.ltb n target) (updcons (fun co => set_co_r (u32 (co_r co - 1)) co)) ;;
        ret (Some [])
      else if c =? NL then ret (Some [c])
      else
        let! r := consoleread_loop n' target in
        ret (cons c <$> r)
  end.

Definition consoleread (ip : nat) (n : Z) : K (Z * list Z) :=
  iunlock (Some ip) ;;
  acquire L_cons ;;
  let! r := consoleread_loop (Z.to_nat n) (Z.to_nat n) in
  release L_cons ;;
  ilock (Some ip) ;;
  ret (match r with
       | None => (-1, [])
       | Some l => (Z.of_nat (length l), l)
       end).

Definition consolewrite (ip : nat) (buf : list Z) (n : Z) : K Z :=
  iunlock (Some ip) ;;
  acquire L_cons ;;
  for_each (take (Z.to_nat n) buf) (fun c => consputc (Z.land c 255)) ;;
  release L_cons ;;
  ilock (Some ip) ;;
  ret n.

Definition consoleinit : K unit :=
  initlock L_cons ;;
  updcons (set_co_locking 1).

(** [devsw] once the console is initialised; no other device has a driver. *)
#[export] Instance console_devsw : Devsw := {
  devsw_read := fun major => if major =? CONSOLE then Some consoleread else None;
  devsw_write := fun major => if major =? CONSOLE then Some consolewrite else None
}.
End Device.
