(* ===== verification/Dev.v ===== *)
(** Devices: the machine the kernel's drivers run on, port and memory-mapped accesses
    ([x86.h]), and the drivers of the interrupt controllers ([picirq.c], [ioapic.c],
    [lapic.c]), the serial port ([uart.c]) and the keyboard ([kbd.c], [kbd.h]).

    What the hardware answers is a parameter: an instance of [Device]. Reading a register may change the
    device. *)

From S2P Require Import Prelude Bytes KString Params State Spinlock Cprintf Mmu Kalloc Vm Sched Sleeplock Bio Block Log LogTx Fs Pipe File Proc Args Console.
From stdpp Require Import base list gmap strings.
From Stdlib Require Import ZArith Lia.
Local Open Scope Z_scope.
Local Open Scope km_scope.

(** * The machine *)

(** The instructions of [x86.h] and volatile accesses: ports by byte, string transfers of
    32-bit words as their bytes, memory-mapped registers of 32 bits. *)
Class Device (D : Type) : Type := {
  d_inb : Z -> D -> Z * D;
  d_outb : Z -> Z -> D -> D;
  d_insl : Z -> nat -> D -> list Z * D;
  d_outsl : Z -> list Z -> D -> D;
  d_read : Z -> D -> Z * D;
  d_write : Z -> Z -> D -> D
}.

(** The variables of the drivers, and the descriptor tables. [v_qnext] has the [qnext] fields of the buffers; a buffer
    without an entry has a null pointer. *)
Record drivers : Type := mkDrivers {
  v_idequeue : option nat;
  v_qnext : gmap nat nat;
  v_havedisk1 : Z;
  v_uart : Z;
  v_lapic : Z;
  v_ioapic : Z;
  v_ioapicid : Z;
  v_shift : Z;
  v_tables : tables
}.

Definition drivers0 : drivers := mkDrivers None ∅ 0 0 0 0 0 0 tables0.

Definition set_v_idequeue (x : option nat) (v : drivers) : drivers :=
  mkDrivers x (v_qnext v) (v_havedisk1 v) (v_uart v) (v_lapic v) (v_ioapic v) (v_ioapicid v) (v_shift v) (v_tables v).
Definition set_v_qnext (x : gmap nat nat) (v : drivers) : drivers :=
  mkDrivers (v_idequeue v) x (v_havedisk1 v) (v_uart v) (v_lapic v) (v_ioapic v) (v_ioapicid v) (v_shift v) (v_tables v).
Definition set_v_havedisk1 (x : Z) (v : drivers) : drivers :=
  mkDrivers (v_idequeue v) (v_qnext v) x (v_uart v) (v_lapic v) (v_ioapic v) (v_ioapicid v) (v_shift v) (v_tables v).
Definition set_v_uart (x : Z) (v : drivers) : drivers :=
  mkDrivers (v_idequeue v) (v_qnext v) (v_havedisk1 v) x (v_lapic v) (v_ioapic v) (v_ioapicid v) (v_shift v) (v_tables v).
Definition set_v_lapic (x : Z) (v : drivers) : drivers :=
  mkDrivers (v_idequeue v) (v_qnext v) (v_havedisk1 v) (v_uart v) x (v_ioapic v) (v_ioapicid v) (v_shift v) (v_tables v).
Definition set_v_ioapic (x : Z) (v : drivers) : drivers :=
  mkDrivers (v_idequeue v) (v_qnext v) (v_havedisk1 v) (v_uart v) (v_lapic v) x (v_ioapicid v) (v_shift v) (v_tables v).
Definition set_v_ioapicid (x : Z) (v : drivers) : drivers :=
  mkDrivers (v_idequeue v) (v_qnext v) (v_havedisk1 v) (v_uart v) (v_lapic v) (v_ioapic v) x (v_shift v) (v_tables v).
Definition set_v_shift (x : Z) (v : drivers) : drivers :=
  mkDrivers (v_idequeue v) (v_qnext v) (v_havedisk1 v) (v_uart v) (v_lapic v) (v_ioapic v) (v_ioapicid v) x (v_tables v).
Definition set_v_tables (x : tables) (v : drivers) : drivers :=
  mkDrivers (v_idequeue v) (v_qnext v) (v_havedisk1 v) (v_uart v) (v_lapic v) (v_ioapic v) (v_ioapicid v) (v_shift v) x.

Record machine (D : Type) : Type := mkMachine {
  mc_k : kernel;
  mc_v : drivers;
  mc_d : D
}.
Arguments mkMachine {D} _ _ _.
Arguments mc_k {D} _.
Arguments mc_v {D} _.
Arguments mc_d {D} _.

Section Machine.
Context {D : Type} `{Device D}.

Definition MD (A : Type) : Type := M (machine D) A.

(** Kernel code that does not touch a device. While a thread is switched away the devices change too. *)
Fixpoint lift_out {A} (v : drivers) (d : D) (o : outcome kernel A) : outcome (machine D) A :=
  match o with
  | Ret a s => Ret a (mkMachine s v d)
  | Panic msg s => Panic msg (mkMachine s v d)
  | Undef why s => Undef why (mkMachine s v d)
  | Spin s => Spin (mkMachine s v d)
  | Swtch s k => Swtch (mkMachine s v d) (fun st => lift_out (mc_v st) (mc_d st) (k (mc_k st)))
  | NoFuel s => NoFuel (mkMachine s v d)
  end.

Definition lk {A} (m : K A) : MD A := fun st => lift_out (mc_v st) (mc_d st) (m (mc_k st)).

Definition getv {A} (f : drivers -> A) : MD A := gets (fun st => f (mc_v st)).
Definition updv (f : drivers -> drivers) : MD unit := modify (fun st => mkMachine (mc_k st) (f (mc_v st)) (mc_d st)).

Definition inb (port : Z) : MD Z := fun st => let '(x, d) := d_inb port (mc_d st) in Ret x (mkMachine (mc_k st) (mc_v st) d).
Definition outb (port data : Z) : MD unit := fun st => Ret tt (mkMachine (mc_k st) (mc_v st) (d_outb port (u8 data) (mc_d st))).
(** The [cnt] words read, as bytes. *)
Definition insl (port : Z) (cnt : nat) : MD (list Z) :=
  fun st => let '(x, d) := d_insl port cnt (mc_d st) in Ret x (mkMachine (mc_k st) (mc_v st) d).
Definition outsl (port : Z) (bytes : list Z) : MD unit :=
  fun st => Ret tt (mkMachine (mc_k st) (mc_v st) (d_outsl port bytes (mc_d st))).
Definition vread (a : Z) : MD Z := fun st => let '(x, d) := d_read a (mc_d st) in Ret x (mkMachine (mc_k st) (mc_v st) d).
Definition vwrite (a x : Z) : MD unit := fun st => Ret tt (mkMachine (mc_k st) (mc_v st) (d_write a (u32 x) (mc_d st))).

(** * [picirq.c] *)

Definition IO_PIC1 : Z := 32.
Definition IO_PIC2 : Z := 160.

Definition picinit : MD unit :=
  outb (IO_PIC1 + 1) 255 ;;
  outb (IO_PIC2 + 1) 255.

(** * [ioapic.c] *)

Definition IOAPIC : Z := 4273995776.
Definition REG_ID : Z := 0.
Definition REG_VER : Z := 1.
Definition REG_TABLE : Z := 16.
Definition INT_DISABLED : Z := 65536.

(** [struct ioapic]: [reg] at offset 0, [data] at offset 16. *)
Definition ioapicread (reg : Z) : MD Z :=
  let! a := getv v_ioapic in
  vwrite a reg ;;
  vread (a + 16).

Definition ioapicwrite (reg data : Z) : MD unit :=
  let! a := getv v_ioapic in
  vwrite a reg ;;
  vwrite (a + 16) data.

Definition ioapicinit : MD unit :=
  updv (set_v_ioapic IOAPIC) ;;
  let! ver := ioapicread REG_VER in
  let maxintr := Z.land (Z.shiftr ver 16) 255 in
  let! idr := ioapicread REG_ID in
  let id := Z.shiftr idr 24 in
  let! ioapicid := getv v_ioapicid in
  when (negb (id =? ioapicid))
    (lk (cprintf (str "ioapicinit: id isn't equal to ioapicid; not a MP" ++ [NL]) [])) ;;
  for_each (range (maxintr + 1)) (fun i =>
    ioapicwrite (REG_TABLE + 2 * Z.of_nat i) (Z.lor INT_DISABLED (T_IRQ0 + Z.of_nat i)) ;;
    ioapicwrite (REG_TABLE + 2 * Z.of_nat i + 1) 0).

Definition ioapicenable (irq cpunum : Z) : MD unit :=
  ioapicwrite (REG_TABLE + 2 * irq) (T_IRQ0 + irq) ;;
  ioapicwrite (REG_TABLE + 2 * irq + 1) (Z.shiftl cpunum 24).

(** * [lapic.c] *)

(** Registers, as indices of 32-bit words. *)
Definition ID : Z := 32 / 4.
Definition VER : Z := 48 / 4.
Definition TPR : Z := 128 / 4.
Definition EOI : Z := 176 / 4.
Definition SVR : Z := 240 / 4.
Definition ENABLE : Z := 256.
Definition ESR : Z := 640 / 4.
Definition ICRLO : Z := 768 / 4.
Definition INIT : Z := 1280.
Definition STARTUP : Z := 1536.
Definition DELIVS : Z := 4096.
Definition ASSERT : Z := 16384.
Definition LEVEL : Z := 32768.
Definition BCAST : Z := 524288.
Definition ICRHI : Z := 784 / 4.
Definition TIMER : Z := 800 / 4.
Definition X1 : Z := 11.
Definition PERIODIC : Z := 131072.
Definition PCINT : Z := 832 / 4.
Definition LINT0 : Z := 848 / 4.
Definition LINT1 : Z := 864 / 4.
Definition ERROR : Z := 880 / 4.
Definition MASKED : Z := 65536.
Definition TICR : Z := 896 / 4.
Definition TDCR : Z := 992 / 4.
Definition IRQ_ERROR : Z := 19.

(** [lapic[index]] *)
Definition lapicr (index : Z) : MD Z :=
  let! a := getv v_lapic in
  vread (a + 4 * index).

Definition lapicw (index value : Z) : MD unit :=
  let! a := getv v_lapic in
  vwrite (a + 4 * index) value ;;
  let! _ := lapicr ID in
  ret tt.

Context `{WaitFuel}.

Definition lapicinit : MD unit :=
  let! a := getv v_lapic in
  if a =? 0 then ret tt else
  lapicw SVR (Z.lor ENABLE (T_IRQ0 + IRQ_SPURIOUS)) ;;
  lapicw TDCR X1 ;;
  lapicw TIMER (Z.lor PERIODIC (T_IRQ0 + IRQ_TIMER)) ;;
  lapicw TICR 10000000 ;;
  lapicw LINT0 MASKED ;;
  lapicw LINT1 MASKED ;;
  let! ver := lapicr VER in
  when (4 <=? Z.land (Z.shiftr ver 16) 255) (lapicw PCINT MASKED) ;;
  lapicw ERROR (T_IRQ0 + IRQ_ERROR) ;;
  lapicw ESR 0 ;;
  lapicw ESR 0 ;;
  lapicw EOI 0 ;;
  lapicw ICRHI 0 ;;
  lapicw ICRLO (Z.lor (Z.lor BCAST INIT) LEVEL) ;;
  while_loop wait_fuel (let! x := lapicr ICRLO in ret (negb (Z.land x DELIVS =? 0))) (ret tt) ;;
  lapicw TPR 0.

Definition lapicid : MD Z :=
  let! a := getv v_lapic in
  if a =? 0 then ret 0 else
  let! x := lapicr ID in
  ret (Z.shiftr x 24).

Definition lapiceoi : MD unit :=
  let! a := getv v_lapic in
  when (negb (a =? 0)) (lapicw EOI 0).

Definition microdelay (us : Z) : MD unit := ret tt.

Definition CMOS_PORT : Z := 112.
Definition CMOS_RETURN : Z := 113.

(** A 16-bit store. *)
Definition st16 (m : mem) (a v : Z) : mem := st_bytes m a (le_enc 2 v).

Definition lapicstartap (apicid addr : Z) : MD unit :=
  outb CMOS_PORT 15 ;;
  outb (CMOS_PORT + 1) 10 ;;
  let wrv := P2V (Z.lor (Z.shiftl 64 4) 103) in
  lk (updmem (fun m => st16 m wrv 0)) ;;
  lk (updmem (fun m => st16 m (wrv + 2) (Z.shiftr addr 4))) ;;
  lapicw ICRHI (Z.shiftl apicid 24) ;;
  lapicw ICRLO (Z.lor (Z.lor INIT LEVEL) ASSERT) ;;
  microdelay 200 ;;
  lapicw ICRLO (Z.lor INIT LEVEL) ;;
  microdelay 100 ;;
  for_each (range 2) (fun _ =>
    lapicw ICRHI (Z.shiftl apicid 24) ;;
    lapicw ICRLO (Z.lor STARTUP (Z.shiftr addr 12)) ;;
    microdelay 200).

(** ** The real-time clock *)

Definition CMOS_STATA : Z := 10.
Definition CMOS_STATB : Z := 11.
Definition CMOS_UIP : Z := 128.
Definition SECS : Z := 0.
Definition MINS : Z := 2.
Definition HOURS : Z := 4.
Definition DAY : Z := 7.
Definition MONTH : Z := 8.
Definition YEAR : Z := 9.

(** [struct rtcdate] (date.h) *)
Record rtcdate : Type := mkDate { second : Z; minute : Z; hour : Z; day : Z; month : Z; year : Z }.

#[local] Instance rtcdate_eq_dec : EqDecision rtcdate.
Proof. solve_decision. Defined.

Definition cmos_read (reg : Z) : MD Z :=
  outb CMOS_PORT reg ;;
  microdelay 200 ;;
  inb CMOS_RETURN.

Definition fill_rtcdate : MD rtcdate :=
  let! s := cmos_read SECS in
  let! mi := cmos_read MINS in
  let! h := cmos_read HOURS in
  let! d := cmos_read DAY in
  let! mo := cmos_read MONTH in
  let! y := cmos_read YEAR in
  ret (mkDate s mi h d mo y).

(** The loop that waits for two equal readings with no update in progress. *)
Fixpoint cmos_stable (fuel : nat) : MD rtcdate :=
  match fuel with
  | O => nofuel
  | S fuel =>
      let! t1 := fill_rtcdate in
      let! a := cmos_read CMOS_STATA in
      if negb (Z.land a CMOS_UIP =? 0) then cmos_stable fuel else
      let! t2 := fill_rtcdate in
      if decide (t1 = t2) then ret t1 else cmos_stable fuel
  end.

(** [CONV]: from binary-coded decimal. *)
Definition conv (x : Z) : Z := Z.shiftr x 4 * 10 + Z.land x 15.

Definition cmostime : MD rtcdate :=
  let! sb := cmos_read CMOS_STATB in
  let bcd := Z.land sb (Z.shiftl 1 2) =? 0 in
  let! t1 := cmos_stable wait_fuel in
  let t1 := if bcd then mkDate (conv (second t1)) (conv (minute t1)) (conv (hour t1)) (conv (day t1)) (conv (month t1)) (conv (year t1)) else t1 in
  ret (mkDate (second t1) (minute t1) (hour t1) (day t1) (month t1) (year t1 + 2000)).

(** * [console.c]: [consoleintr] with the function that reads the device *)

Fixpoint consoleintr_from_loop (fuel : nat) (getc : MD Z) (doprocdump : bool) : MD bool :=
  let! c := getc in
  if c <? 0 then ret doprocdump else
  match fuel with
  | O => nofuel
  | S fuel =>
      let! d := lk (consoleintr_char c) in
      consoleintr_from_loop fuel getc (doprocdump || d)
  end.

Definition consoleintr_from (getc : MD Z) : MD unit :=
  lk (acquire L_cons) ;;
  let! d := consoleintr_from_loop wait_fuel getc false in
  lk (release L_cons) ;;
  when d (lk procdump).

(** * [uart.c] *)

Definition COM1 : Z := 1016.

Definition uartputc (c : Z) : MD unit :=
  let! uart := getv v_uart in
  if uart =? 0 then ret tt else
  let! _ := for_find (range 128) (fun _ =>
    let! lsr := inb (COM1 + 5) in
    if negb (Z.land lsr 32 =? 0) then ret (Some tt) else microdelay 10 ;; ret None) in
  outb COM1 c.

Definition uartgetc : MD Z :=
  let! uart := getv v_uart in
  if uart =? 0 then ret (-1) else
  let! lsr := inb (COM1 + 5) in
  if Z.land lsr 1 =? 0 then ret (-1) else inb COM1.

Definition uartintr : MD unit := consoleintr_from uartgetc.

Definition uartinit : MD unit :=
  outb (COM1 + 2) 0 ;;
  outb (COM1 + 3) 128 ;;
  outb COM1 (115200 / 9600) ;;
  outb (COM1 + 1) 0 ;;
  outb (COM1 + 3) 3 ;;
  outb (COM1 + 4) 0 ;;
  outb (COM1 + 1) 1 ;;
  let! lsr := inb (COM1 + 5) in
  if lsr =? 255 then ret tt else
  updv (set_v_uart 1) ;;
  let! _ := inb (COM1 + 2) in
  let! _ := inb COM1 in
  ioapicenable IRQ_COM1 0 ;;
  for_each (str "xv6..." ++ [NL]) uartputc.

(** * [kbd.c], [kbd.h] *)

Definition KBSTATP : Z := 100.
Definition KBS_DIB : Z := 1.
Definition KBDATAP : Z := 96.
Definition SHIFT : Z := 1.
Definition CTL : Z := 2.
Definition ALT : Z := 4.
Definition CAPSLOCK : Z := 8.
Definition NUMLOCK : Z := 16.
Definition SCROLLLOCK : Z := 32.
Definition E0ESC : Z := 64.
Definition KEY_HOME : Z := 224.
Definition KEY_END : Z := 225.
Definition KEY_UP : Z := 226.
Definition KEY_DN : Z := 227.
Definition KEY_LF : Z := 228.
Definition KEY_RT : Z := 229.
Definition KEY_PGUP : Z := 230.
Definition KEY_PGDN : Z := 231.
Definition KEY_INS : Z := 232.
Definition KEY_DEL : Z := 233.
End Machine.

(** A [uchar[256]] initialiser: leading elements, then designated ones; the rest is 0. *)
Definition init256 (l : list Z) (des : list (nat * Z)) : list Z :=
  fold_left (fun t '(i, v) => <[i := v]> t) des (l ++ replicate (256 - length l) 0).

Definition shiftcode : list Z := Eval vm_compute in
  init256 [] [(29%nat, CTL); (42%nat, SHIFT); (54%nat, SHIFT); (56%nat, ALT); (157%nat, CTL); (184%nat, ALT)].

Definition togglecode : list Z := Eval vm_compute in init256 [] [(58%nat, CAPSLOCK); (69%nat, NUMLOCK); (70%nat, SCROLLLOCK)].

(** The keypad and the keys after an escape. *)
Definition special_keys (enter div : Z) : list (nat * Z) :=
  [(156%nat, enter); (181%nat, div); (200%nat, KEY_UP); (208%nat, KEY_DN); (201%nat, KEY_PGUP); (209%nat, KEY_PGDN);
   (203%nat, KEY_LF); (205%nat, KEY_RT); (151%nat, KEY_HOME); (207%nat, KEY_END); (210%nat, KEY_INS); (211%nat, KEY_DEL)].

Definition keypad : list Z :=
  [0; 42; 0; 32] ++ replicate 13 0 ++ str "789-456+1230." ++ replicate 4 0.

Definition normalmap : list Z := Eval vm_compute in
  init256 ([0; 27] ++ str "1234567890-=" ++ [8; 9] ++ str "qwertyuiop[]" ++ [10; 0] ++ str "asdfghjkl;'`" ++ [0]
    ++ str "\zxcvbnm,./" ++ keypad) (special_keys 10 47).

Definition shiftmap : list Z := Eval vm_compute in
  init256 ([0; 27] ++ str "!@#$%^&*()_+" ++ [8; 9] ++ str "QWERTYUIOP{}" ++ [10; 0] ++ str "ASDFGHJKL:" ++ [34] ++ str "~" ++ [0]
    ++ str "|ZXCVBNM<>?" ++ keypad) (special_keys 10 47).

(** [C(x)] of the letters of [s], as [uchar]. *)
Definition ctls (s : string) : list Z := (fun x => u8 (CTRL x)) <$> str s.

Definition ctlmap : list Z := Eval vm_compute in
  init256 (replicate 16 0 ++ ctls "QWERTYUIOP" ++ [0; 0; 13; 0] ++ ctls "ASDFGHJKL" ++ [0; 0; 0; 0] ++ ctls "\ZXCVBNM" ++ [0; 0]
    ++ ctls "/" ++ [0; 0]) (special_keys 13 (u8 (CTRL 47))).

Definition charcode : list (list Z) := [normalmap; shiftmap; ctlmap; ctlmap].

(** [kbdgetc] on a byte of data: the new [shift] and the result. *)
Definition kbd_byte (shift data : Z) : Z * Z :=
  if data =? 224 then (Z.lor shift E0ESC, 0)
  else if negb (Z.land data 128 =? 0) then
    let data := if negb (Z.land shift E0ESC =? 0) then data else Z.land data 127 in
    (Z.land shift (Z.lnot (Z.lor (char_at shiftcode (Z.to_nat data)) E0ESC)), 0)
  else
    let '(data, shift) :=
      if negb (Z.land shift E0ESC =? 0) then (Z.lor data 128, Z.land shift (Z.lnot E0ESC)) else (data, shift) in
    let shift := Z.lor shift (char_at shiftcode (Z.to_nat data)) in
    let shift := Z.lxor shift (char_at togglecode (Z.to_nat data)) in
    let c := char_at (nth (Z.to_nat (Z.land shift (Z.lor CTL SHIFT))) charcode []) (Z.to_nat data) in
    let c :=
      if negb (Z.land shift CAPSLOCK =? 0) then
        if (97 <=? c) && (c <=? 122) then c + (65 - 97)
        else if (65 <=? c) && (c <=? 90) then c + (97 - 65) else c
      else c in
    (shift, c).

Section Kbd.
Context {D : Type} `{Device D} `{WaitFuel}.

Definition kbdgetc : MD (D := D) Z :=
  let! st := inb KBSTATP in
  if Z.land st KBS_DIB =? 0 then ret (-1) else
  let! data := inb KBDATAP in
  let! shift := getv v_shift in
  let '(shift, c) := kbd_byte shift data in
  updv (set_v_shift shift) ;;
  ret c.

Definition kbdintr : MD (D := D) unit := consoleintr_from kbdgetc.
End Kbd.
