(* ===== verification/Kbd.v ===== *)
(** The keyboard driver against the keyboard: [kbd.c] on the bytes the controller delivers. *)

From S2P Require Import Prelude Bytes KString Params State Spinlock Cprintf Kalloc Vm Sched Sleeplock Bio Block Log LogTx Fs Pipe File Proc Args Console Dev.
From stdpp Require Import base list gmap strings.
From Stdlib Require Import ZArith Lia.
Local Open Scope Z_scope.
Local Open Scope km_scope.

(** The characters of a sequence of bytes, and the state of the shift keys after it. *)
Fixpoint kbd_run (shift : Z) (l : list Z) : Z * list Z :=
  match l with
  | [] => (shift, [])
  | x :: l => let '(shift, c) := kbd_byte shift x in let '(shift, cs) := kbd_run shift l in (shift, c :: cs)
  end.

(** The bytes of a key press, with the shift key around it: press and release. *)
Definition press (k : Z) : list Z := [k; Z.lor k 128].
Definition shifted (k : Z) : list Z := [42; k; Z.lor k 128; 170].

(** The key that gives [c] in the table [map]. *)
Definition key_for (map : list Z) (c : Z) : option Z :=
  (fun k => Z.of_nat (fst k)) <$> list_find (fun x => x = c) (take 128 map).

(** The bytes that type [c]. *)
Definition type_char (c : Z) : list Z :=
  match key_for normalmap c with
  | Some k => press k
  | None => match key_for shiftmap c with Some k => shifted k | None => [] end
  end.

(** Printable characters, newline, tab and backspace. *)
Definition typable (c : Z) : bool := ((32 <=? c) && (c <=? 126)) || (c =? 10) || (c =? 9) || (c =? 8).

Definition nonzero (l : list Z) : list Z := filter (fun c => c <> 0) l.

Section Bytes256.

(** A fact about all values of a byte, by trying them. *)
Lemma all_below (P : Z -> bool) (n : nat) : forallb P (Z.of_nat <$> seq 0 n) = true -> forall x, 0 <= x < Z.of_nat n -> P x = true.
Proof.
  intros H x Hx. rewrite forallb_forall in H. apply H. rewrite <- list_elem_of_In. apply list_elem_of_fmap.
  exists (Z.to_nat x). rewrite elem_of_seq. lia.
Qed.

Lemma lor_range n a b : 0 <= n -> 0 <= a < 2 ^ n -> 0 <= b < 2 ^ n -> 0 <= Z.lor a b < 2 ^ n.
Proof.
  intros Hn Ha Hb. rewrite <- (Z.mod_small a (2 ^ n)), <- (Z.mod_small b (2 ^ n)) by done. rewrite <- !Z.land_ones, <- Z.land_lor_distr_l, Z.land_ones by done.
  apply Z.mod_pos_bound. by apply Z.pow_pos_nonneg.
Qed.

Lemma lxor_range n a b : 0 <= n -> 0 <= a < 2 ^ n -> 0 <= b < 2 ^ n -> 0 <= Z.lxor a b < 2 ^ n.
Proof.
  intros Hn Ha Hb. replace (Z.lxor a b) with (Z.lxor a b mod 2 ^ n); [apply Z.mod_pos_bound; by apply Z.pow_pos_nonneg|].
  rewrite <- Z.land_ones by done. apply Z.bits_inj'. intros k Hk. rewrite Z.land_spec, Z.lxor_spec.
  destruct (Z.lt_ge_cases k n) as [H|H]; [by rewrite Z.ones_spec_low, andb_true_r by lia|].
  rewrite Z.ones_spec_high, andb_false_r by lia. rewrite <- (Z.mod_small a (2 ^ n)), <- (Z.mod_small b (2 ^ n)) by done.
  by rewrite !Z.mod_pow2_bits_high by lia.
Qed.

Lemma land_range n a b : 0 <= n -> 0 <= a < 2 ^ n -> 0 <= Z.land a b < 2 ^ n.
Proof.
  intros Hn Ha. rewrite <- (Z.mod_small a (2 ^ n)), <- Z.land_ones by done. rewrite <- Z.land_assoc, (Z.land_comm (Z.ones n)), Z.land_assoc, Z.land_ones by done.
  apply Z.mod_pos_bound. by apply Z.pow_pos_nonneg.
Qed.

Lemma char_at_range l n k : Forall (fun x => 0 <= x < n) l -> 0 < n -> 0 <= char_at l k < n.
Proof.
  intros Hl Hn. unfold char_at. destruct (l !! k) as [x|] eqn:E; cbn; [|lia]. rewrite Forall_lookup in Hl. by apply (Hl k).
Qed.

Lemma tables_ok : Forall (fun x => 0 <= x < 128) shiftcode /\ Forall (fun x => 0 <= x < 128) togglecode /\ Forall (Forall (fun x => 0 <= x < 256)) charcode.
Proof. apply (bool_decide_unpack _). vm_compute. exact I. Qed.

(** [kbdgetc] keeps its state a set of flags and returns a character. *)
Lemma kbd_byte_ok shift data : 0 <= shift < 128 -> 0 <= data < 256 ->
  0 <= fst (kbd_byte shift data) < 128 /\ 0 <= snd (kbd_byte shift data) < 256.
Proof.
  intros Hs Hd. destruct tables_ok as (T1 & T2 & T3). change 128 with (2 ^ 7) in *. unfold kbd_byte.
  destruct (data =? 224); [split; [apply lor_range; done|cbn; lia]|].
  destruct (negb (Z.land data 128 =? 0)); [split; [apply land_range; done|cbn; lia]|].
  assert (Hc : forall k j, 0 <= char_at (nth k charcode []) j < 256).
  { intros k j. apply char_at_range; [|done]. destruct (nth_in_or_default k charcode []) as [H|H]; [|rewrite H; by constructor].
    rewrite Forall_forall in T3. by apply T3, list_elem_of_In. }
  assert (Hsh : forall s k, 0 <= s < 2 ^ 7 -> 0 <= Z.lxor (Z.lor s (char_at shiftcode k)) (char_at togglecode k) < 2 ^ 7).
  { intros s k H. apply lxor_range; [done| |by apply char_at_range]. apply lor_range; [done|done|by apply char_at_range]. }
  destruct (negb (Z.land shift E0ESC =? 0)); cbn [fst snd]; (split; [apply Hsh; (done || by apply land_range)|]);
    match goal with |- context[char_at (nth ?k charcode []) ?j] => specialize (Hc k j); set (c := char_at _ _) in * end;
    repeat match goal with |- context[if ?b then _ else _] => destruct b eqn:? end; try done;
    rewrite andb_true_iff in *; lia.
Qed.

(** Typing a character from the neutral state gives it and nothing else, and ends in the neutral state. *)
Lemma type_char_ok c : typable c = true -> exists l, kbd_run 0 (type_char c) = (0, l) /\ nonzero l = [c] /\ Forall (fun x => 0 <= x < 256) (type_char c) /\ (length (type_char c) <= 4)%nat.
Proof.
  intros Hc.
  assert (H : forallb (fun c => implb (typable c) (let '(s, l) := kbd_run 0 (type_char c) in
      (s =? 0) && bool_decide (nonzero l = [c]) && bool_decide (Forall (fun x => 0 <= x < 256) (type_char c)) && (length (type_char c) <=? 4)%nat))
    (Z.of_nat <$> seq 0 127) = true) by (vm_compute; reflexivity).
  assert (Hr : 0 <= c < 127) by (unfold typable in Hc; rewrite !orb_true_iff, andb_true_iff in Hc; lia).
  pose proof (all_below _ 127 H c Hr) as H1. cbv beta in H1. rewrite Hc in H1. cbn [implb] in H1.
  destruct (kbd_run 0 (type_char c)) as [s l]. rewrite !andb_true_iff in H1. destruct H1 as [[[H1 H2%bool_decide_eq_true] H3%bool_decide_eq_true] H4%Nat.leb_le].
  apply Z.eqb_eq in H1 as ->. by exists l.
Qed.
End Bytes256.

(** The keyboard controller: [kb] are the bytes it holds. The status port says whether there is one, the data port
    takes the first. *)
Class Keyboard (D : Type) `{Device D} : Type := {
  kb : D -> list Z;
  kb_status : forall d, exists st d', d_inb KBSTATP d = (st, d') /\ kb d' = kb d /\ (Z.land st KBS_DIB = 0 <-> kb d = []);
  kb_data : forall d x l, kb d = x :: l -> exists d', d_inb KBDATAP d = (x, d') /\ kb d' = l
}.

Section Intr.
Context {D : Type} `{Keyboard D} `{WaitFuel}.
Implicit Types (st : machine D) (s : kernel) (v : drivers) (d : D).

Lemma lk_ret {A} (m : K A) st a s : m (mc_k st) = Ret a s -> lk m st = Ret a (mkMachine s (mc_v st) (mc_d st)).
Proof. intros E. unfold lk. by rewrite E. Qed.

Lemma kbdgetc_empty s v d : kb d = [] -> exists d', kbdgetc (mkMachine s v d) = Ret (-1) (mkMachine s v d') /\ kb d' = [].
Proof.
  intros Hd. destruct (kb_status d) as (x & d' & E & K & B). exists d'. split; [|congruence].
  unfold kbdgetc. rewrite (bind_run _ _ _ x (mkMachine s v d')) by (unfold inb; cbn [mc_d mc_k mc_v]; by rewrite E).
  by rewrite (proj2 (Z.eqb_eq _ _)) by (by apply B).
Qed.

Lemma kbdgetc_byte s v d x l : kb d = x :: l ->
  exists d', kbdgetc (mkMachine s v d) = Ret (snd (kbd_byte (v_shift v) x)) (mkMachine s (set_v_shift (fst (kbd_byte (v_shift v) x)) v) d') /\ kb d' = l.
Proof.
  intros Hd. destruct (kb_status d) as (y & d1 & E1 & K1 & B). destruct (kb_data d1 x l) as (d2 & E2 & K2); [congruence|]. exists d2. split; [|done].
  unfold kbdgetc. rewrite (bind_run _ _ _ y (mkMachine s v d1)) by (unfold inb; cbn [mc_d mc_k mc_v]; by rewrite E1).
  rewrite (proj2 (Z.eqb_neq _ _)) by (rewrite B, Hd; done).
  rewrite (bind_run _ _ _ x (mkMachine s v d2)) by (unfold inb; cbn [mc_d mc_k mc_v]; by rewrite E2).
  unfold getv. rewrite bind_gets. cbn [mc_v]. by destruct (kbd_byte (v_shift v) x) as [s' c].
Qed.

Lemma consoleintr_char_zero s : consoleintr_char 0 s = Ret false s.
Proof. reflexivity. Qed.

(** Zero characters are dropped by the console. *)
Lemma consoleintr_nonzero l : forall b s r s', consoleintr_loop (nonzero l) b s = Ret r s' -> consoleintr_loop l b s = Ret r s'.
Proof.
  induction l as [|c l IH]; intros b s r s' E; [done|]. unfold nonzero in E. rewrite filter_cons in E. cbn [consoleintr_loop]. case_decide as Hc.
  - cbn [consoleintr_loop] in E. unfold bind in E |- *. destruct (consoleintr_char c s) as [d s1| | | | |]; try done. cbn [obind] in *. by apply IH.
  - assert (c = 0) as -> by (destruct (decide (c = 0)); [done|by destruct Hc]).
    rewrite (bind_run _ _ _ false s) by done. rewrite orb_false_r. by apply IH.
Qed.

(** The interrupt handler reads all the bytes and gives their characters to the console. *)
Lemma kbd_loop fuel : forall l b s v d r s', kb d = l -> Forall (fun x => 0 <= x < 256) l -> 0 <= v_shift v < 128 -> (length l <= fuel)%nat ->
  consoleintr_loop (snd (kbd_run (v_shift v) l)) b s = Ret r s' ->
  exists d', consoleintr_from_loop fuel kbdgetc b (mkMachine s v d) = Ret r (mkMachine s' (set_v_shift (fst (kbd_run (v_shift v) l)) v) d') /\ kb d' = [].
Proof.
  induction fuel as [|fuel IH]; intros l b s v d r s' Hd Hb Hsh Hf E.
  all: destruct l as [|x l]; [|try (cbn in Hf; lia)].
  1,2: cbn in E; injection E as <- <-; destruct (kbdgetc_empty s v d Hd) as (d' & E1 & K); exists d'; split; [|done];
    cbn [consoleintr_from_loop]; erewrite bind_run by exact E1; cbn [kbd_run fst]; by destruct v.
  destruct (kbdgetc_byte s v d x l Hd) as (d' & E1 & K). apply Forall_cons in Hb as [Hx Hb].
  destruct (kbd_byte_ok (v_shift v) x Hsh Hx) as [B1 B2]. cbn [kbd_run] in E |- *. cbn [consoleintr_from_loop]. erewrite bind_run by exact E1.
  destruct (kbd_byte (v_shift v) x) as [sh c] eqn:Eb. cbn [fst snd] in *. destruct (kbd_run sh l) as [sh' cs] eqn:Er.
  cbn [fst snd consoleintr_loop] in E |- *. rewrite (proj2 (Z.ltb_ge c 0)) by lia.
  unfold bind in E. destruct (consoleintr_char c s) as [d1 s1| | | | |] eqn:Ec; try done. cbn [obind] in E.
  erewrite bind_run by (by apply lk_ret). cbn [mc_v mc_d].
  destruct (IH l (b || d1) s1 (set_v_shift sh v) d' r s' K Hb B1) as (d2 & E2 & K2); [cbn in Hf; lia|cbn [v_shift set_v_shift]; by rewrite Er|].
  exists d2. split; [|done]. rewrite E2. cbn [v_shift set_v_shift]. rewrite Er. cbn [fst]. by destruct v.
Qed.
End Intr.

(** The bytes that type a text. *)
Definition type_text (text : list Z) : list Z := concat (type_char <$> text).

Lemma kbd_run_app l1 : forall sh l2, kbd_run sh (l1 ++ l2) =
  let '(sh1, c1) := kbd_run sh l1 in let '(sh2, c2) := kbd_run sh1 l2 in (sh2, c1 ++ c2).
Proof.
  induction l1 as [|x l1 IH]; intros sh l2; cbn [app kbd_run]; [by destruct (kbd_run sh l2)|].
  destruct (kbd_byte sh x) as [sh1 c]. rewrite IH. destruct (kbd_run sh1 l1) as [sh2 c1]. by destruct (kbd_run sh2 l2).
Qed.

Lemma type_text_ok text : Forall (fun c => typable c = true) text ->
  exists l, kbd_run 0 (type_text text) = (0, l) /\ nonzero l = text /\ Forall (fun x => 0 <= x < 256) (type_text text).
Proof.
  induction 1 as [|c text Hc _ (l & E & N & F)]; [by exists []|].
  destruct (type_char_ok c Hc) as (l1 & E1 & N1 & F1 & _). exists (l1 ++ l). unfold type_text. cbn [fmap list_fmap concat]. fold (type_text text).
  rewrite kbd_run_app, E1, E. split; [done|]. split; [|by apply Forall_app]. unfold nonzero in *. by rewrite filter_app, N1, N.
Qed.
