(* ===== verification/Line.v ===== *)
(** The console's line discipline ([consoleintr] and [consoleread] of [console.c]) against a
    reference line editor, from the keyboard's bytes to the bytes a process reads. *)

From S2P Require Import Prelude Bytes KString Params State Spinlock Cprintf Kalloc Vm Sched Sleeplock Bio Block Log LogTx Fs Inode Pipe File Proc Args Console Dev Kbd.
From stdpp Require Import base list gmap strings.
From Stdlib Require Import ZArith Lia.
Local Open Scope Z_scope.
Local Open Scope km_scope.

(** * The reference editor *)

(** Committed input that no process has read, and the line being edited. *)
Definition line_t : Type := list Z * list Z.

Definition edit (st : line_t) (c : Z) : line_t :=
  let '(com, ed) := st in
  if c =? CTRL_P then st
  else if c =? CTRL_U then (com, [])
  else if (c =? CTRL_H) || (c =? DEL) then (com, removelast ed)
  else if negb (c =? 0) && (length com + length ed <? 128)%nat then
    let c := if c =? CR then NL else c in
    if (c =? NL) || (c =? CTRL_D) || (length com + length ed =? 127)%nat then (com ++ ed ++ [c], []) else (com, ed ++ [c])
  else st.

(** What the editor prints. *)
Definition echo (st : line_t) (c : Z) : list Z :=
  let '(com, ed) := st in
  if c =? CTRL_P then []
  else if c =? CTRL_U then replicate (length ed) BACKSPACE
  else if (c =? CTRL_H) || (c =? DEL) then (if decide (ed = []) then [] else [BACKSPACE])
  else if negb (c =? 0) && (length com + length ed <? 128)%nat then [if c =? CR then NL else c]
  else [].

(** Reading [n] of [target] bytes: the bytes and what is left; [None] when the reader has to wait. *)
Fixpoint take_line (n target : nat) (com : list Z) : option (list Z * list Z) :=
  match n, com with
  | O, _ => Some ([], com)
  | S _, [] => None
  | S n', c :: com' =>
      if c =? CTRL_D then Some ([], if (n <? target)%nat then com else com')
      else if c =? NL then Some ([c], com')
      else '(l, rest) ← take_line n' target com'; Some (c :: l, rest)
  end.

(** * The circular buffer *)

Record input_ok (co : console) (com ed : list Z) : Prop := {
  in_len : length (co_buf co) = 128%nat;
  in_r : 0 <= co_r co < 2 ^ 32;
  in_w : co_w co = u32 (co_r co + Z.of_nat (length com));
  in_e : co_e co = u32 (co_r co + Z.of_nat (length com) + Z.of_nat (length ed));
  in_cap : (length com + length ed <= 128)%nat;
  in_buf : forall k x, (com ++ ed) !! k = Some x -> co_buf co !! Z.to_nat ((co_r co + Z.of_nat k) mod 128) = Some x
}.

Section Buffer.
Implicit Types (co : console) (com ed : list Z).

Lemma u32_mod128 x : u32 x mod 128 = x mod 128.
Proof. unfold u32. apply Z.mod_mod_divide. by exists 33554432. Qed.

Lemma u32_inj a b : 0 <= b - a < 2 ^ 32 -> u32 a = u32 b -> a = b.
Proof.
  intros H E. unfold u32 in E. assert (Hz : (b - a) mod 2 ^ 32 = 0) by (rewrite Zminus_mod, E, Z.sub_diag; done). rewrite Z.mod_small in Hz by done. lia.
Qed.

Lemma u32_step x y : u32 (u32 x + y) = u32 (x + y).
Proof. unfold u32. by rewrite Zplus_mod_idemp_l. Qed.

Lemma u32_back x y : u32 (u32 x - y) = u32 (x - y).
Proof. unfold u32. by rewrite Zminus_mod_idemp_l. Qed.

Lemma slot_lt x : (Z.to_nat (x mod 128) < 128)%nat.
Proof. pose proof (Z.mod_pos_bound x 128 ltac:(done)). lia. Qed.

Lemma slot_ne r j k : 0 <= k -> k < j < k + 128 -> Z.to_nat ((r + j) mod 128) <> Z.to_nat ((r + k) mod 128).
Proof.
  intros Hk Hj E. pose proof (Z.mod_pos_bound (r + j) 128 ltac:(done)). pose proof (Z.mod_pos_bound (r + k) 128 ltac:(done)).
  assert (E' : (r + j) mod 128 = (r + k) mod 128) by lia.
  assert (Hz : ((r + j) - (r + k)) mod 128 = 0) by (rewrite Zminus_mod, E', Z.sub_diag; done).
  replace (r + j - (r + k)) with (j - k) in Hz by lia. rewrite Z.mod_small in Hz by lia. lia.
Qed.

Lemma input_edit co com ed : input_ok co com ed -> (co_e co =? co_w co) = bool_decide (ed = []).
Proof.
  intros [H1 H2 H3 H4 H5 _]. rewrite H3, H4. destruct ed as [|x ed].
  - cbn [length]. rewrite Z.add_0_r, Z.eqb_refl. done.
  - rewrite bool_decide_eq_false_2 by done. apply Z.eqb_neq. intros E. symmetry in E. apply u32_inj in E; cbn [length] in *; lia.
Qed.

Lemma input_committed co com ed : input_ok co com ed -> (co_r co =? co_w co) = bool_decide (com = []).
Proof.
  intros [H1 H2 H3 H4 H5 _]. rewrite H3. destruct com as [|x com].
  - cbn [length]. rewrite Z.add_0_r, u32_small, Z.eqb_refl by done. done.
  - rewrite bool_decide_eq_false_2 by done. apply Z.eqb_neq. intros E. rewrite <- (u32_small (co_r co)) in E at 1 by done.
    apply u32_inj in E; cbn [length] in *; lia.
Qed.

Lemma input_room co com ed : input_ok co com ed -> (u32 (co_e co - co_r co) <? INPUT_BUF) = (length com + length ed <? 128)%nat.
Proof.
  intros [H1 H2 H3 H4 H5 _]. rewrite H4, u32_back. replace (co_r co + _ + _ - co_r co) with (Z.of_nat (length com + length ed)) by lia.
  rewrite u32_small by lia. unfold INPUT_BUF. destruct (Z.ltb_spec (Z.of_nat (length com + length ed)) 128), (Nat.ltb_spec (length com + length ed) 128); lia || done.
Qed.

(** The last character of the edited line. *)
Lemma input_last co com ed x : input_ok co com (ed ++ [x]) -> input_at co (co_e co - 1) = x.
Proof.
  intros [H1 H2 H3 H4 H5 H6]. unfold input_at, char_at, INPUT_BUF. rewrite u32_mod128.
  assert (Ek : (co_e co - 1) mod 128 = (co_r co + Z.of_nat (length com + length ed)) mod 128).
  { rewrite H4, length_app. cbn [length]. rewrite <- u32_mod128, u32_back, u32_mod128. f_equal. lia. }
  rewrite Ek, (H6 (length com + length ed)%nat x); [done|]. rewrite app_assoc, lookup_app_r by (rewrite length_app; lia).
  rewrite length_app, Nat.sub_diag. done.
Qed.

Lemma input_erase co com ed x : input_ok co com (ed ++ [x]) -> input_ok (set_co_e (u32 (co_e co - 1)) co) com ed.
Proof.
  intros [H1 H2 H3 H4 H5 H6]. rewrite length_app in *. cbn [length] in *. constructor; cbn; auto.
  - rewrite H4, u32_back. f_equal. lia.
  - lia.
  - intros k y Hk. apply H6. rewrite app_assoc. by apply lookup_app_l_Some.
Qed.

Lemma input_append co com ed c : input_ok co com ed -> (length com + length ed < 128)%nat ->
  input_ok (set_co_e (u32 (co_e co + 1)) (set_co_buf (<[Z.to_nat (co_e co mod INPUT_BUF) := c]> (co_buf co)) co)) com (ed ++ [c]).
Proof.
  intros [H1 H2 H3 H4 H5 H6] Hr. constructor; cbn; auto.
  - by rewrite length_insert.
  - rewrite H4, u32_step, length_app. cbn [length]. f_equal. lia.
  - rewrite length_app. cbn [length]. lia.
  - intros k x Hk. unfold INPUT_BUF. rewrite H4, u32_mod128.
    replace (co_r co + Z.of_nat (length com) + Z.of_nat (length ed)) with (co_r co + Z.of_nat (length com + length ed)) by lia.
    rewrite app_assoc in Hk. apply lookup_app_Some in Hk as [Hk|[Hk1 Hk2]].
    + pose proof (lookup_lt_Some _ _ _ Hk) as Hlt. rewrite length_app in Hlt. rewrite list_lookup_insert_ne by (apply slot_ne; lia). by apply H6.
    + rewrite length_app in *. destruct (k - (length com + length ed))%nat as [|j] eqn:Ej; [|by rewrite lookup_cons in Hk2].
      cbn in Hk2. injection Hk2 as <-. replace k with (length com + length ed)%nat by lia. apply list_lookup_insert_eq. rewrite H1. apply slot_lt.
Qed.
End Buffer.

(** * One character *)

(** The console apart from its input buffer is that of [co], after printing [out]. *)
Definition printed (out : list Z) (co co' : console) : Prop :=
  exists b w e, co' = set_co_e e (set_co_w w (set_co_buf b (fold_left cons_put out co))).

Section Step.
Implicit Types (s : kernel) (co : console) (com ed : list Z).

Lemma cons_put_input co c b w e r :
  cons_put (set_co_r r (set_co_e e (set_co_w w (set_co_buf b co)))) c = set_co_r r (set_co_e e (set_co_w w (set_co_buf b (cons_put co c)))).
Proof. unfold cons_put. cbn. destruct (24 <=? _); [destruct (cga_scroll _ _)|]; done. Qed.

Lemma cons_puts_input l : forall co b w e r,
  fold_left cons_put l (set_co_r r (set_co_e e (set_co_w w (set_co_buf b co)))) = set_co_r r (set_co_e e (set_co_w w (set_co_buf b (fold_left cons_put l co)))).
Proof. induction l as [|c l IH]; intros co b w e r; [done|]. cbn [fold_left]. by rewrite cons_put_input, IH. Qed.

Lemma cons_put_fields co c : co_buf (cons_put co c) = co_buf co /\ co_r (cons_put co c) = co_r co /\ co_w (cons_put co c) = co_w co /\ co_e (cons_put co c) = co_e co.
Proof. unfold cons_put. destruct (24 <=? _); [destruct (cga_scroll _ _)|]; done. Qed.

Lemma cons_puts_fields l : forall co, let co' := fold_left cons_put l co in
  co_buf co' = co_buf co /\ co_r co' = co_r co /\ co_w co' = co_w co /\ co_e co' = co_e co.
Proof.
  induction l as [|c l IH]; intros co; [done|]. cbn [fold_left]. destruct (IH (cons_put co c)) as (A1 & A2 & A3 & A4).
  destruct (cons_put_fields co c) as (B1 & B2 & B3 & B4). cbv zeta in *. split_and!; congruence.
Qed.

Lemma input_ok_printed co com ed l : input_ok co com ed -> input_ok (fold_left cons_put l co) com ed.
Proof. intros [H1 H2 H3 H4 H5 H6]. destruct (cons_puts_fields l co) as (A1 & A2 & A3 & A4). constructor; rewrite ?A1, ?A2, ?A3, ?A4; auto. Qed.

Lemma erase_eq s : cons_ok (k_cons s) ->
  erase s = Ret tt (set_k_cons (cons_put (set_co_e (u32 (co_e (k_cons s) - 1)) (k_cons s)) BACKSPACE) s).
Proof.
  intros H. unfold erase, updcons. rewrite bind_modify. rewrite consputc_eq by done. unfold put_out. cbn [fold_left k_cons set_k_cons]. by destruct s.
Qed.

Lemma printed_erase co : printed [BACKSPACE] co (cons_put (set_co_e (u32 (co_e co - 1)) co) BACKSPACE).
Proof.
  exists (co_buf co), (co_w co), (u32 (co_e co - 1)). cbn [fold_left]. unfold cons_put. cbn. destruct (24 <=? _); [destruct (cga_scroll _ _)|]; by destruct co.
Qed.

Lemma printed_trans o1 o2 co1 co2 co3 : printed o1 co1 co2 -> printed o2 co2 co3 -> printed (o1 ++ o2) co1 co3.
Proof.
  intros (b1 & w1 & e1 & ->) (b2 & w2 & e2 & ->). exists b2, w2, e2. rewrite fold_left_app. generalize (fold_left cons_put o1 co1). intros co.
  pose proof (cons_puts_input o2 co b1 w1 e1 (co_r co)) as E. replace (set_co_r (co_r co) _) with (set_co_e e1 (set_co_w w1 (set_co_buf b1 co))) in E by (by destruct co).
  destruct (cons_puts_fields o2 co) as (_ & Hr & _). rewrite E, <- Hr. by destruct (fold_left cons_put o2 co).
Qed.

Lemma printed_ok out co co' : printed out co co' -> cons_ok co -> cons_ok co'.
Proof.
  intros (b & w & e & ->) H. assert (H' : cons_ok (fold_left cons_put out co)).
  { clear b w e. revert co H. induction out as [|c out IH]; intros co H; [done|]. cbn [fold_left]. by apply IH, cons_put_ok. }
  exact H'.
Qed.

(** [^U] erases the edited line. *)
Lemma kill_line_ok com ed : forall s fuel, cons_ok (k_cons s) -> input_ok (k_cons s) com ed -> NL ∉ ed -> (length ed <= fuel)%nat ->
  exists co', kill_line fuel s = Ret tt (set_k_cons co' s) /\ input_ok co' com [] /\ printed (replicate (length ed) BACKSPACE) (k_cons s) co'.
Proof.
  induction ed as [|x ed IH] using rev_ind; intros s fuel Hc Hi Hnl Hf.
  - exists (k_cons s). split; [|split; [done|]].
    + destruct fuel; cbn [kill_line]; rewrite bind_gets, (input_edit _ _ _ Hi); cbn; by destruct s.
    + exists (co_buf (k_cons s)), (co_w (k_cons s)), (co_e (k_cons s)). cbn. by destruct (k_cons s).
  - rewrite length_app in Hf. cbn [length] in Hf. destruct fuel as [|fuel]; [lia|]. cbn [kill_line]. rewrite bind_gets, (input_edit _ _ _ Hi), (input_last _ _ _ _ Hi).
    rewrite bool_decide_eq_false_2 by (by destruct ed). rewrite (proj2 (Z.eqb_neq x NL)) by set_solver. cbn [negb andb].
    erewrite bind_run by by apply erase_eq. set (co1 := cons_put _ BACKSPACE).
    pose proof (printed_erase (k_cons s)) as P1. fold co1 in P1.
    destruct (IH (set_k_cons co1 s) fuel) as (co' & E & I & P); [by eapply printed_ok| |set_solver|lia|].
    { apply (input_ok_printed _ _ _ [BACKSPACE]). by apply input_erase in Hi. }
    exists co'. split; [rewrite E; by destruct s|]. split; [done|]. rewrite length_app. cbn [length]. rewrite Nat.add_1_r. cbn [replicate].
    exact (printed_trans [BACKSPACE] _ _ _ _ P1 P).
Qed.

(** A character erases at most the last of the edited line. *)
Lemma backspace_ok s com ed : cons_ok (k_cons s) -> input_ok (k_cons s) com ed ->
  exists co', (let! co := gets k_cons in when (negb (co_e co =? co_w co)) erase) s = Ret tt (set_k_cons co' s) /\ input_ok co' com (removelast ed) /\
    printed (if decide (ed = []) then [] else [BACKSPACE]) (k_cons s) co'.
Proof.
  intros Hc Hi. rewrite bind_gets, (input_edit _ _ _ Hi). destruct ed as [|x ed _] using rev_ind.
  - exists (k_cons s). split; [by destruct s|]. split; [done|]. exists (co_buf (k_cons s)), (co_w (k_cons s)), (co_e (k_cons s)). cbn. by destruct (k_cons s).
  - rewrite bool_decide_eq_false_2, decide_False, removelast_last by (by destruct ed). cbn [negb when]. rewrite erase_eq by done. eexists. split; [done|].
    split; [|apply printed_erase]. apply (input_ok_printed _ _ _ [BACKSPACE]). by eapply input_erase.
Qed.

Lemma input_commit co com ed : input_ok co com ed -> input_ok (set_co_w (co_e co) co) (com ++ ed) [].
Proof.
  intros [H1 H2 H3 H4 H5 H6]. constructor; cbn; rewrite ?length_app; auto.
  - rewrite H4. f_equal. lia.
  - rewrite H4. f_equal. lia.
  - lia.
  - by rewrite app_nil_r.
Qed.

Lemma input_full co com ed : input_ok co com ed -> (co_e co =? u32 (co_r co + INPUT_BUF)) = (length com + length ed =? 128)%nat.
Proof.
  intros [H1 H2 H3 H4 H5 _]. rewrite H4. unfold INPUT_BUF. destruct (Nat.eqb_spec (length com + length ed) 128) as [E|E].
  - apply Z.eqb_eq. f_equal. lia.
  - apply Z.eqb_neq. intros E'. apply u32_inj in E'; lia.
Qed.
End Step.

(** What handling characters does to the kernel: the console's input goes from [st] to [st'], [out] is printed, and the
    processes waiting for input are woken when there is more of it; nothing else changes. *)
Record typed (s s' : kernel) (st st' : line_t) (out : list Z) : Prop := {
  ty_state : exists co ps, s' = set_k_cons co (set_k_proc ps s);
  ty_in : input_ok (k_cons s') st'.1 st'.2;
  ty_nl : NL ∉ st'.2;
  ty_out : printed out (k_cons s) (k_cons s');
  ty_mono : (length st.1 <= length st'.1)%nat;
  ty_wake : k_proc s' = if (length st.1 <? length st'.1)%nat then wake (Some Ch_input) <$> k_proc s else k_proc s
}.

Section Typing.
Implicit Types (s : kernel) (com ed : list Z).

Lemma typed_quiet s co com ed ed' out : input_ok co com ed' -> NL ∉ ed' -> printed out (k_cons s) co ->
  typed s (set_k_cons co s) (com, ed) (com, ed') out.
Proof. intros H1 H2 H3. constructor; cbn [fst snd k_cons set_k_cons]; auto; [exists co, (k_proc s); by destruct s|by rewrite Nat.ltb_irrefl]. Qed.

Lemma input_char_ok s i c com ed x : on_cpu (k_hw s) i c -> lock_free (k_hw s) L_ptable -> table_ok s -> cons_ok (k_cons s) ->
  input_ok (k_cons s) com ed -> NL ∉ ed -> 0 < x < 256 -> (length com + length ed < 128)%nat ->
  exists s', input_char x s = Ret tt s' /\
    let y := if x =? CR then NL else x in
    typed s s' (com, ed) (if (y =? NL) || (y =? CTRL_D) || (length com + length ed =? 127)%nat then (com ++ ed ++ [y], []) else (com, ed ++ [y])) [y].
Proof.
  intros Hc Hf Ht Hk Hi Hnl Hx Hr. unfold input_char. rewrite bind_gets, (input_room _ _ _ Hi).
  rewrite (proj2 (Z.eqb_neq x 0)), (proj2 (Nat.ltb_lt _ _)) by lia. cbn [negb andb when].
  set (y := if x =? CR then NL else x). assert (Ey : u8 y = y) by (subst y; destruct (x =? CR); [done|apply Z.mod_small; lia]).
  unfold updcons. rewrite !bind_modify. cbn [k_cons set_k_cons]. rewrite Ey.
  pose proof (input_append _ _ _ y Hi Hr) as Ha. cbn [co_e set_co_buf] in Ha |- *. set (co1 := set_co_e _ _) in *.
  assert (Hk1 : cons_ok co1) by exact Hk.
  erewrite bind_run by (by apply consputc_eq). rewrite bind_gets. unfold put_out. cbn [fold_left k_cons set_k_cons].
  pose proof (input_ok_printed _ _ _ [y] Ha) as Hb. cbn [fold_left] in Hb. rewrite (input_full _ _ _ Hb).
  assert (P : printed [y] (k_cons s) (cons_put co1 y)).
  { apply (printed_trans [] [y] _ co1); [|exists (co_buf (cons_put co1 y)), (co_w (cons_put co1 y)), (co_e (cons_put co1 y)); cbn [fold_left]; by destruct (cons_put co1 y)].
    by exists (co_buf co1), (co_w co1), (co_e co1). }
  rewrite length_app. cbn [length]. replace (length com + (length ed + 1) =? 128)%nat with (length com + length ed =? 127)%nat
    by (destruct (Nat.eqb_spec (length com + length ed) 127), (Nat.eqb_spec (length com + (length ed + 1)) 128); lia || done).
  destruct ((y =? NL) || (y =? CTRL_D) || (length com + length ed =? 127)%nat) eqn:Ec.
  - cbn [when]. rewrite bind_modify. cbn [k_cons set_k_cons]. eexists. split; [by eapply wakeup_eq|]. constructor; cbn [fst snd].
    + exists (set_co_w (co_e (cons_put co1 y)) (cons_put co1 y)), (wake (Some Ch_input) <$> k_proc s). by destruct s.
    + by apply input_commit.
    + set_solver.
    + apply (printed_trans [y] [] _ _ _ P). exists (co_buf (cons_put co1 y)), (co_e (cons_put co1 y)), (co_e (cons_put co1 y)). cbn. by destruct (cons_put co1 y).
    + rewrite length_app. lia.
    + rewrite (proj2 (Nat.ltb_lt _ _)); [done|]. rewrite !length_app. cbn. lia.
  - cbn [when]. eexists. split; [done|]. rewrite !orb_false_iff in Ec. destruct Ec as [[Ec%Z.eqb_neq _] _].
    replace (set_k_cons (cons_put co1 y) (set_k_cons co1 _)) with (set_k_cons (cons_put co1 y) s) by (by destruct s). apply typed_quiet; [done|set_solver|done].
Qed.

Lemma consoleintr_char_ok s i c com ed x : on_cpu (k_hw s) i c -> lock_free (k_hw s) L_ptable -> table_ok s -> cons_ok (k_cons s) ->
  input_ok (k_cons s) com ed -> NL ∉ ed -> 0 <= x < 256 ->
  exists s', consoleintr_char x s = Ret (x =? CTRL_P) s' /\ typed s s' (com, ed) (edit (com, ed) x) (echo (com, ed) x).
Proof.
  intros Hc Hf Ht Hk Hi Hnl Hx.
  assert (Same : typed s s (com, ed) (com, ed) []).
  { replace s with (set_k_cons (k_cons s) s) at 2 by (by destruct s). apply typed_quiet; [done..|].
    exists (co_buf (k_cons s)), (co_w (k_cons s)), (co_e (k_cons s)). cbn. by destruct (k_cons s). }
  unfold consoleintr_char, edit, echo. destruct (Z.eqb_spec x CTRL_P) as [Ep|Ep]; [by exists s|].
  destruct (x =? CTRL_U).
  { destruct (kill_line_ok com ed s (Z.to_nat INPUT_BUF)) as (co & E & I & P); [done..| |].
    - pose proof (in_cap _ _ _ Hi). unfold INPUT_BUF. lia.
    - exists (set_k_cons co s). split; [by erewrite bind_run by exact E|]. apply typed_quiet; [done|set_solver|done]. }
  destruct ((x =? CTRL_H) || (x =? DEL)).
  { destruct (backspace_ok s com ed) as (co & E & I & P); [done..|]. exists (set_k_cons co s). rewrite bind_gets in E. rewrite bind_gets. split; [by erewrite bind_run by exact E|].
    apply typed_quiet; [done| |done]. intros Hin. apply Hnl. destruct ed as [|y ed _] using rev_ind; [done|]. rewrite removelast_last in Hin. set_solver. }
  destruct (negb (x =? 0) && (length com + length ed <? 128)%nat) eqn:Ea.
  - apply andb_true_iff in Ea as [Ea%negb_true_iff%Z.eqb_neq Eb%Nat.ltb_lt].
    destruct (input_char_ok s i c com ed x) as (s' & E & T); [done..|lia|done|]. exists s'. split; [by erewrite bind_run by exact E|done].
  - exists s. split; [|done]. rewrite (bind_run _ _ _ tt s); [done|]. unfold input_char. rewrite bind_gets, (input_room _ _ _ Hi), Ea. done.
Qed.
End Typing.

(** * A sequence of characters *)

Definition edits (st : line_t) (cs : list Z) : line_t := fold_left edit cs st.

Fixpoint echoes (st : line_t) (cs : list Z) : list Z :=
  match cs with
  | [] => []
  | c :: cs => echo st c ++ echoes (edit st c) cs
  end.

Section Sequence.
Implicit Types (s : kernel) (st : line_t).

Lemma wake_idemp ch pr : wake ch (wake ch pr) = wake ch pr.
Proof.
  unfold wake at 2 3. case_bool_decide as H; [|unfold wake; by rewrite bool_decide_eq_false_2]. unfold wake. case_bool_decide as H'; [|done]. by destruct pr.
Qed.

Lemma typed_nil s st : input_ok (k_cons s) st.1 st.2 -> NL ∉ st.2 -> typed s s st st [].
Proof.
  intros H1 H2. constructor; auto.
  - exists (k_cons s), (k_proc s). by destruct s.
  - exists (co_buf (k_cons s)), (co_w (k_cons s)), (co_e (k_cons s)). cbn. by destruct (k_cons s).
  - by rewrite Nat.ltb_irrefl.
Qed.

Lemma typed_trans s1 s2 s3 st1 st2 st3 o1 o2 : typed s1 s2 st1 st2 o1 -> typed s2 s3 st2 st3 o2 -> typed s1 s3 st1 st3 (o1 ++ o2).
Proof.
  intros [(co1 & ps1 & E1) I1 N1 P1 M1 W1] [(co2 & ps2 & E2) I2 N2 P2 M2 W2]. constructor; auto.
  - exists co2, ps2. by rewrite E2, E1.
  - by eapply printed_trans.
  - lia.
  - rewrite W2, W1. destruct (Nat.ltb_spec (length st1.1) (length st2.1)), (Nat.ltb_spec (length st2.1) (length st3.1)), (Nat.ltb_spec (length st1.1) (length st3.1)); try lia; try done.
    rewrite <- list_fmap_compose. apply list_fmap_ext. intros j pr _. apply wake_idemp.
Qed.

Lemma typed_hw s s' st st' out : typed s s' st st' out -> k_hw s' = k_hw s /\ length (k_proc s') = length (k_proc s).
Proof. intros [(co & ps & ->) _ _ _ _ W]. split; [done|]. rewrite W. destruct (_ <? _)%nat; [by rewrite length_fmap|done]. Qed.

Lemma consoleintr_loop_ok i c cs : forall s st b, on_cpu (k_hw s) i c -> lock_free (k_hw s) L_ptable -> table_ok s -> cons_ok (k_cons s) ->
  input_ok (k_cons s) st.1 st.2 -> NL ∉ st.2 -> Forall (fun x => 0 <= x < 256) cs ->
  exists s', consoleintr_loop cs b s = Ret (b || existsb (Z.eqb CTRL_P) cs) s' /\ typed s s' st (edits st cs) (echoes st cs).
Proof.
  induction cs as [|x cs IH]; intros s st b Hc Hf Ht Hk Hi Hnl Hr; cbn [consoleintr_loop existsb echoes].
  - exists s. rewrite orb_false_r. split; [done|]. by apply typed_nil.
  - apply Forall_cons in Hr as [Hx Hr]. destruct st as [com ed]. destruct (consoleintr_char_ok s i c com ed x) as (s1 & E1 & T1); [done..|].
    erewrite bind_run by exact E1. destruct (typed_hw _ _ _ _ _ T1) as [Eh El].
    destruct (IH s1 (edit (com, ed) x) (b || (x =? CTRL_P))) as (s2 & E2 & T2); [by rewrite Eh| by rewrite Eh|unfold table_ok in *; congruence|eapply printed_ok; [apply T1|done]|apply T1|apply T1|done|].
    exists s2. rewrite E2, <- orb_assoc, (Z.eqb_sym CTRL_P). split; [done|]. by apply (typed_trans _ _ _ _ _ _ _ _ T1).
Qed.
End Sequence.

(** * The interrupt *)

Section Interrupt.
Context {D : Type} `{Keyboard D} `{WaitFuel}.
Implicit Types (m : machine D) (s : kernel) (st : line_t).

Lemma typable_char x : typable x = true -> 0 <= x < 256 /\ (CTRL_P =? x) = false.
Proof. unfold typable, CTRL_P, CTRL. rewrite !orb_true_iff, andb_true_iff, !Z.leb_le, !Z.eqb_eq, Z.eqb_neq. lia. Qed.

Lemma typable_plain text : Forall (fun x => typable x = true) text -> Forall (fun x => 0 <= x < 256) text /\ existsb (Z.eqb CTRL_P) text = false.
Proof.
  induction 1 as [|x text Hx _ [IH1 IH2]]; [done|]. destruct (typable_char x Hx). split; [by constructor|]. cbn [existsb]. by rewrite IH2, orb_false_r.
Qed.

Lemma kbdintr_ok m i c st text : on_cpu (k_hw (mc_k m)) i c -> lock_free (k_hw (mc_k m)) L_cons -> lock_free (k_hw (mc_k m)) L_ptable ->
  table_ok (mc_k m) -> cons_ok (k_cons (mc_k m)) -> input_ok (k_cons (mc_k m)) st.1 st.2 -> NL ∉ st.2 ->
  v_shift (mc_v m) = 0 -> Forall (fun x => typable x = true) text -> kb (mc_d m) = type_text text -> (length (type_text text) <= wait_fuel)%nat ->
  exists s' d', kbdintr m = Ret tt (mkMachine s' (mc_v m) d') /\ kb d' = [] /\ typed (mc_k m) s' st (edits st text) (echoes st text).
Proof.
  intros Hc Hl Hf Ht Hk Hi Hnl Hv Htx Hkb Hw. destruct m as [s v d]. cbn [mc_k mc_v mc_d] in *.
  destruct (type_text_ok text Htx) as (l & Er & En & Hr). destruct (typable_plain text Htx) as [Hx Hp].
  unfold kbdintr, consoleintr_from. erewrite bind_run by (apply lk_ret, acquire_eq; done). cbn [mc_v mc_d mc_k].
  set (s1 := set_k_hw _ s).
  destruct (consoleintr_loop_ok i (cpu_pushed c) text s1 st false) as (s2 & E2 & T2); [by apply on_cpu_lock|by apply lock_free_other|done..|].
  rewrite Hp in E2. rewrite <- En in E2. apply consoleintr_nonzero in E2.
  destruct (kbd_loop wait_fuel (type_text text) false s1 v d false s2 Hkb Hr) as (d' & E3 & K3); [rewrite Hv; lia|done|by rewrite Hv, Er|].
  rewrite Hv, Er in E3. cbn [fst] in E3. erewrite bind_run by exact E3.
  destruct (typed_hw _ _ _ _ _ T2) as [Eh _].
  erewrite bind_run by (apply lk_ret; by apply (release_eq s2 (k_hw s) i c)). cbn [when mc_v mc_d].
  exists (set_k_hw (k_hw s) s2), d'. split; [unfold ret; by destruct v; cbn in Hv; subst|]. split; [done|].
  destruct T2 as [(co & ps & ->) I N P Mo W]. constructor; auto. exists co, ps. by destruct s.
Qed.
End Interrupt.

(** * The reader *)

Section Reader.
Context {WF : WaitFuel}.
Implicit Types (s : kernel) (com ed : list Z).

Lemma input_first co x com ed : input_ok co (x :: com) ed -> input_at co (co_r co) = x.
Proof.
  intros [H1 H2 H3 H4 H5 H6]. unfold input_at, char_at, INPUT_BUF. rewrite u32_mod128. specialize (H6 0%nat x eq_refl). rewrite Z.add_0_r in H6. by rewrite H6.
Qed.

Lemma input_read co x com ed : input_ok co (x :: com) ed -> input_ok (set_co_r (u32 (co_r co + 1)) co) com ed.
Proof.
  intros [H1 H2 H3 H4 H5 H6]. cbn [length] in *. constructor; cbn [co_buf co_r co_w co_e set_co_r]; auto.
  - by apply Z.mod_pos_bound.
  - rewrite H3, u32_step. f_equal. lia.
  - rewrite H4, <- (Z.add_assoc (u32 _)), u32_step. f_equal. lia.
  - lia.
  - intros k y Hk. rewrite <- u32_mod128, u32_step, u32_mod128. replace (co_r co + 1 + Z.of_nat k) with (co_r co + Z.of_nat (S k)) by lia. by apply H6.
Qed.

Lemma cons_r_same s : set_k_cons (set_co_r (co_r (k_cons s)) (k_cons s)) s = s.
Proof. destruct s as []. cbn. by match goal with |- context [set_co_r _ ?co] => destruct co end. Qed.

(** With enough committed input the loop takes what the reference takes, without waiting. *)
Lemma consoleread_loop_ok ed target n : forall s com l rest, input_ok (k_cons s) com ed -> take_line n target com = Some (l, rest) ->
  exists r, consoleread_loop n target s = Ret (Some l) (set_k_cons (set_co_r r (k_cons s)) s) /\ input_ok (set_co_r r (k_cons s)) rest ed.
Proof.
  induction n as [|n IH]; intros s com l rest Hi Ht; cbn [take_line consoleread_loop] in *.
  - injection Ht as <- <-. exists (co_r (k_cons s)). split; [unfold ret; by rewrite cons_r_same|by destruct (k_cons s)].
  - destruct com as [|x com]; [done|].
    erewrite bind_run by (destruct wait_fuel; cbn [consoleread_wait]; rewrite bind_gets, (input_committed _ _ _ Hi); reflexivity). cbn [negb].
    rewrite bind_gets, (input_first _ _ _ _ Hi). unfold updcons. rewrite bind_modify. pose proof (input_read _ _ _ _ Hi) as Hi'.
    destruct (x =? CTRL_D).
    + injection Ht as <- <-. destruct (S n <? target)%nat.
      * exists (co_r (k_cons s)). split; [|by destruct (k_cons s)].
        erewrite bind_run by reflexivity. cbn [k_cons set_k_cons co_r set_co_r]. rewrite u32_back, Z.add_simpl_r, u32_small by apply Hi.
        unfold ret. by destruct s.
      * by exists (u32 (co_r (k_cons s) + 1)).
    + destruct (x =? NL); [injection Ht as <- <-; by eexists|].
      destruct (take_line n target com) as [[l' rest']|] eqn:E; [|done]. injection Ht as <- <-.
      edestruct (IH (set_k_cons (set_co_r (u32 (co_r (k_cons s) + 1)) (k_cons s)) s)) as (r & E1 & I1); [exact Hi'|exact E|].
      exists r. erewrite bind_run by exact E1. split; [|exact I1]. unfold ret. cbn. by destruct s.
Qed.

Lemma consoleread_ok s i c p pr ip ino com ed n l rest : thread s i c p pr -> k_sleeplocks s !! SL_inode ip = Some (mkSleeplock 1 (p_pid pr)) ->
  k_inodes s !! ip = Some ino -> 1 <= i_ref ino -> i_valid ino <> 0 -> input_ok (k_cons s) com ed -> take_line (Z.to_nat n) (Z.to_nat n) com = Some (l, rest) ->
  exists r, consoleread ip n s = Ret (Z.of_nat (length l), l) (set_k_cons (set_co_r r (k_cons s)) s) /\ input_ok (set_co_r r (k_cons s)) rest ed.
Proof.
  intros Ht Hs Hn Hr Hv Hi Hl. unfold consoleread.
  erewrite bind_run.
  2:{ unfold iunlock. erewrite bind_run by by eapply holdingsleep_self. erewrite bind_run by (by apply getinode_eq).
      rewrite (proj2 (Z.ltb_ge _ _)) by lia. cbn [negb orb]. by eapply releasesleep_eq. }
  set (s1 := set_k_sleeplocks _ s). assert (T1 : thread s1 i c p pr) by (by apply (thread_frame s)).
  erewrite bind_run by by eapply acquireth_eq.
  edestruct (consoleread_loop_ok ed (Z.to_nat n) (Z.to_nat n) (set_k_hw (hw_lock L_cons i c (k_hw s1)) s1)) as (r & E & I); [exact Hi|exact Hl|].
  erewrite bind_run by exact E. erewrite bind_run by (by eapply (releaseth_eq _ s1)). exists r. split; [|exact I].
  set (s2 := set_k_hw _ _).
  rewrite (bind_run _ _ _ tt (set_k_cons (set_co_r r (k_cons s)) s)); [done|].
  unfold ilock. erewrite bind_run by (by apply getinode_eq). rewrite (proj2 (Z.ltb_ge _ _)) by lia.
  erewrite bind_run by (eapply acquiresleep_eq; [by apply (thread_frame s)|apply lookup_delete_eq]).
  erewrite bind_run by (by apply getinode_eq). rewrite (proj2 (Z.eqb_neq _ _)) by done. unfold ret. f_equal.
  unfold s2, s1, set_k_sleeplocks, set_k_hw, set_k_cons. cbn. rewrite insert_delete_eq, insert_id by done. by destruct s.
Qed.
End Reader.

(** * What the reference editor does with a plain line *)

Definition plain (x : Z) : bool := (32 <=? x) && (x <=? 126).

Lemma edit_plain com ed x : plain x = true -> (length com + length ed < 127)%nat -> edit (com, ed) x = (com, ed ++ [x]).
Proof.
  unfold plain. rewrite andb_true_iff, !Z.leb_le. intros Hx Hl. unfold edit, CTRL_P, CTRL_U, CTRL_H, CTRL_D, CTRL, DEL, CR, NL.
  repeat match goal with |- context [x =? ?k] => rewrite (proj2 (Z.eqb_neq x k)) by lia end.
  rewrite (proj2 (Nat.ltb_lt _ _)), (proj2 (Nat.eqb_neq _ _)) by lia. done.
Qed.

(** Printable characters and a newline commit exactly that line. *)
Lemma edits_line w : forall com ed, Forall (fun x => plain x = true) w -> (length com + length ed + length w < 128)%nat ->
  edits (com, ed) (w ++ [NL]) = (com ++ ed ++ w ++ [NL], []).
Proof.
  induction w as [|x w IH]; intros com ed Hw Hl; cbn [length app] in *.
  - unfold edits. cbn [fold_left]. unfold edit. cbn [NL Z.eqb CTRL_P CTRL_U CTRL_H CTRL_D CTRL DEL CR orb negb andb Z.sub].
    rewrite (proj2 (Nat.ltb_lt _ _)) by lia. done.
  - apply Forall_cons in Hw as [Hx Hw]. unfold edits in *. cbn [fold_left]. rewrite edit_plain by (done || lia).
    rewrite IH by (done || (rewrite length_app; cbn; lia)). by rewrite <- app_assoc.
Qed.

(** A reader with enough room gets the first line. *)
Lemma take_plain_line target w com n : Forall (fun x => plain x = true) w -> (length w < n)%nat ->
  take_line n target (w ++ [NL] ++ com) = Some (w ++ [NL], com).
Proof.
  intros Hw. revert n. induction Hw as [|x w Hx Hw IH]; intros [|n] Hn; cbn [length app take_line] in *; try lia; [done|].
  unfold plain in Hx. rewrite andb_true_iff, !Z.leb_le in Hx. unfold CTRL_D, CTRL, NL in *. rewrite !(proj2 (Z.eqb_neq x _)) by lia. cbn [app] in IH.
  by rewrite IH by lia.
Qed.

(** * From the keys to the reader *)

(** C11: When a text is typed, each character by its key's press and release with shift where it needs it, the keyboard
    interrupt reads every scan code, edits the console's line as the reference editor does with the text, echoes what
    the editor prints, wakes the processes waiting for input exactly when some was committed, and changes nothing else;
    and whenever a process then reads the console with that much input committed, [consoleread] returns, without
    waiting, the bytes of the first line as the reference reader cuts it, and leaves the rest. *)
Theorem console_typing {D} `{Keyboard D} `{WaitFuel} (m : machine D) i c st text :
  on_cpu (k_hw (mc_k m)) i c -> lock_free (k_hw (mc_k m)) L_cons -> lock_free (k_hw (mc_k m)) L_ptable ->
  table_ok (mc_k m) -> cons_ok (k_cons (mc_k m)) -> input_ok (k_cons (mc_k m)) st.1 st.2 -> NL ∉ st.2 -> v_shift (mc_v m) = 0 ->
  Forall (fun x => typable x = true) text -> kb (mc_d m) = type_text text -> (length (type_text text) <= wait_fuel)%nat ->
  exists s' d', kbdintr m = Ret tt (mkMachine s' (mc_v m) d') /\ kb d' = [] /\ typed (mc_k m) s' st (edits st text) (echoes st text) /\
    forall s2 j cj p pr ip ino n l rest, k_cons s2 = k_cons s' -> thread s2 j cj p pr ->
      k_sleeplocks s2 !! SL_inode ip = Some (mkSleeplock 1 (p_pid pr)) -> k_inodes s2 !! ip = Some ino -> 1 <= i_ref ino -> i_valid ino <> 0 ->
      take_line (Z.to_nat n) (Z.to_nat n) (edits st text).1 = Some (l, rest) ->
      exists r, consoleread ip n s2 = Ret (Z.of_nat (length l), l) (set_k_cons (set_co_r r (k_cons s2)) s2) /\
        input_ok (set_co_r r (k_cons s2)) rest (edits st text).2.
Proof.
  intros Hc Hl Hf Ht Hk Hi Hnl Hv Htx Hkb Hw.
  destruct (kbdintr_ok m i c st text) as (s' & d' & E & K & T); [done..|]. exists s', d'. split_and!; [done..|].
  intros s2 j cj p pr ip ino n l rest Ec Th Hs Hn Hr Hva Hta. eapply consoleread_ok; [done..| |done]. rewrite Ec. apply T.
Qed.

(** A keyboard controller with nothing else behind the ports. *)
#[export] Instance keys_device : Device (list Z) := {
  d_inb := fun port l => if port =? KBSTATP then (match l with [] => 0 | _ => KBS_DIB end, l)
                         else if port =? KBDATAP then (hd 0 l, tl l) else (0, l);
  d_outb := fun _ _ l => l;
  d_insl := fun _ n l => (replicate (4 * n) 0, l);
  d_outsl := fun _ _ l => l;
  d_read := fun _ l => (0, l);
  d_write := fun _ _ l => l
}.

Lemma keys_status (d : list Z) : exists st d', d_inb KBSTATP d = (st, d') /\ d' = d /\ (Z.land st KBS_DIB = 0 <-> d = []).
Proof. destruct d as [|x d]; eexists _, _; split; try reflexivity; split; try reflexivity; done. Qed.

Lemma keys_data (d : list Z) x l : d = x :: l -> exists d', d_inb KBDATAP d = (x, d') /\ d' = l.
Proof. intros ->. by eexists. Qed.

#[export] Instance keys_keyboard : Keyboard (list Z) := {
  kb := fun l => l;
  kb_status := keys_status;
  kb_data := keys_data
}.

(** [l x <backspace> s <newline>] *)
Definition demo_text : list Z := [108; 120; 8; 115; 10].
Definition demo_console : kernel := set_k_sleeplocks {[ SL_inode 0 := mkSleeplock 1 1 ]} (set_k_inodes [set_i_ref 1 (set_i_valid 1 inode0)] kernel_run).

Lemma demo_input : input_ok console0 [] [].
Proof. constructor; try done; cbn; lia. Qed.

Lemma console_typing_witness : exists s' r, @kbdintr _ _ 40%nat (mkMachine demo_console drivers0 (type_text demo_text)) = Ret tt (mkMachine s' drivers0 []) /\
  @consoleread 40%nat 0 100 s' = Ret (3, [108; 115; 10]) (set_k_cons (set_co_r r (k_cons s')) s') /\ input_ok (set_co_r r (k_cons s')) [] [].
Proof.
  destruct (@console_typing (list Z) _ _ 40%nat (mkMachine demo_console drivers0 (type_text demo_text)) 0 cpu_run ([], []) demo_text) as (s' & d' & E & K & T & R).
  - apply thread_run.
  - done.
  - done.
  - done.
  - by vm_compute.
  - apply demo_input.
  - apply not_elem_of_nil.
  - done.
  - by repeat constructor.
  - done.
  - vm_compute. lia.
  - cbn in K. subst d'. destruct (typed_hw _ _ _ _ _ T) as [Eh _]. destruct T as [(co & ps & Es) _ _ _ _ W].
    assert (Ep : k_proc s' = k_proc demo_console) by (rewrite W; by vm_compute).
    destruct (R s' 0%nat cpu_run 0%nat proc_run 0%nat (set_i_ref 1 (set_i_valid 1 inode0)) 100 [108; 115; 10] []) as (r & E2 & I2).
    + reflexivity.
    + apply (thread_frame demo_console); [exact (thread_frame _ demo_console _ _ _ _ thread_run eq_refl eq_refl)|exact Eh|exact Ep].
    + rewrite Es. reflexivity.
    + rewrite Es. reflexivity.
    + cbn. lia.
    + cbn. lia.
    + vm_compute. reflexivity.
    + exists s', r. split; [exact E|]. split; [exact E2|exact I2].
Defined.
