(* ===== verification/Ide.v ===== *)
(** The IDE disk driver ([ide.c]) over the devices of [Dev]: the queue of buffers, the
    requests it sends to the controller, and the interrupt that completes them. *)

From S2P Require Import Prelude Bytes Params State Spinlock Sched Rely Sleeplock Bio Dev Kbd.
From stdpp Require Import base list gmap strings.
From Stdlib Require Import ZArith Lia.
Local Open Scope Z_scope.
Local Open Scope km_scope.

Definition SECTOR_SIZE : Z := 512.
Definition IDE_BSY : Z := 128.
Definition IDE_DRDY : Z := 64.
Definition IDE_DF : Z := 32.
Definition IDE_ERR : Z := 1.
Definition IDE_CMD_READ : Z := 32.
Definition IDE_CMD_WRITE : Z := 48.
Definition IDE_CMD_RDMUL : Z := 196.
Definition IDE_CMD_WRMUL : Z := 197.

Section Driver.
Context {D : Type} `{Device D} `{WaitFuel}.

(** The loop of [idewait]: the last status read. *)
Fixpoint idewait_loop (fuel : nat) : MD (D := D) Z :=
  let! r := inb 503 in
  if Z.land r (Z.lor IDE_BSY IDE_DRDY) =? IDE_DRDY then ret r else
  match fuel with
  | O => nofuel
  | S fuel => idewait_loop fuel
  end.

Definition idewait (checkerr : bool) : MD (D := D) Z :=
  let! r := idewait_loop wait_fuel in
  if checkerr && negb (Z.land r (Z.lor IDE_DF IDE_ERR) =? 0) then ret (-1) else ret 0.

Definition ideinit : MD (D := D) unit :=
  lk (initlock L_ide) ;;
  let! ncpu := lk (gets (fun s => h_ncpu (k_hw s))) in
  ioapicenable IRQ_IDE (ncpu - 1) ;;
  let! _ := idewait false in
  outb 502 (Z.lor 224 (Z.shiftl 1 4)) ;;
  let! _ := for_find (range 1000) (fun _ =>
    let! x := inb 503 in
    if negb (x =? 0) then updv (set_v_havedisk1 1) ;; ret (Some tt) else ret None) in
  outb 502 (Z.lor 224 (Z.shiftl 0 4)).

Definition idestart (ob : option nat) : MD (D := D) unit :=
  match ob with
  | None => panic "idestart"
  | Some b =>
      let! bp := lk (getbuf b) in
      if FSSIZE <=? b_blockno bp then panic "incorrect blockno" else
      let sector_per_block := BSIZE / SECTOR_SIZE in
      let sector := b_blockno bp * sector_per_block in
      let read_cmd := if sector_per_block =? 1 then IDE_CMD_READ else IDE_CMD_RDMUL in
      let write_cmd := if sector_per_block =? 1 then IDE_CMD_WRITE else IDE_CMD_WRMUL in
      if 7 <? sector_per_block then panic "idestart" else
      let! _ := idewait false in
      outb 1014 0 ;;
      outb 498 sector_per_block ;;
      outb 499 (Z.land sector 255) ;;
      outb 500 (Z.land (Z.shiftr sector 8) 255) ;;
      outb 501 (Z.land (Z.shiftr sector 16) 255) ;;
      outb 502 (Z.lor (Z.lor 224 (Z.shiftl (Z.land (b_dev bp) 1) 4)) (Z.land (Z.shiftr sector 24) 15)) ;;
      if negb (Z.land (b_flags bp) B_DIRTY =? 0) then
        outb 503 write_cmd ;;
        outsl 496 (b_data bp)
      else outb 503 read_cmd
  end.

Definition ideintr : MD (D := D) unit :=
  lk (acquire L_ide) ;;
  let! ob := getv v_idequeue in
  match ob with
  | None => lk (release L_ide)
  | Some b =>
      let! next := getv (fun v => v_qnext v !! b) in
      updv (set_v_idequeue next) ;;
      let! bp := lk (getbuf b) in
      (if Z.land (b_flags bp) B_DIRTY =? 0 then
         let! r := idewait true in
         when (0 <=? r) (let! data := insl 496 (Z.to_nat (BSIZE / 4)) in lk (updbuf b (set_b_data data)))
       else ret tt) ;;
      lk (updbuf b (fun bp => set_b_flags (Z.lor (b_flags bp) B_VALID) bp)) ;;
      lk (updbuf b (fun bp => set_b_flags (Z.land (b_flags bp) (Z.lnot B_DIRTY)) bp)) ;;
      lk (wakeup (Ch_buf b)) ;;
      let! q := getv v_idequeue in
      when (bool_decide (q <> None)) (idestart q) ;;
      lk (release L_ide)
  end.

(** [*pp], where [pp] is [&idequeue] or [&b->qnext]. *)
Definition pp_get (pp : option nat) : MD (D := D) (option nat) :=
  match pp with
  | None => getv v_idequeue
  | Some x => getv (fun v => v_qnext v !! x)
  end.

Definition pp_set (pp : option nat) (b : nat) : MD (D := D) unit :=
  match pp with
  | None => updv (set_v_idequeue (Some b))
  | Some x => updv (fun v => set_v_qnext (<[x := b]> (v_qnext v)) v)
  end.

(** Append [b] after the place [pp]; at most the buffers there are in the queue. *)
Fixpoint ide_append (fuel : nat) (pp : option nat) (b : nat) : MD (D := D) unit :=
  let! cur := pp_get pp in
  match cur with
  | None => pp_set pp b
  | Some x =>
      match fuel with
      | O => nofuel
      | S fuel => ide_append fuel (Some x) b
      end
  end.

(** [while((b->flags & (B_VALID|B_DIRTY)) != B_VALID) sleep(b, &idelock);] *)
Definition ide_wait (b : nat) : MD (D := D) unit :=
  while_loop wait_fuel
    (let! bp := lk (getbuf b) in ret (negb (Z.land (b_flags bp) (Z.lor B_VALID B_DIRTY) =? B_VALID)))
    (lk (sleep (Ch_buf b) L_ide)).

Definition iderw (b : nat) : MD (D := D) unit :=
  let! h := lk (holdingsleep (SL_buf b)) in
  if negb h then panic "iderw: buf not locked" else
  let! bp := lk (getbuf b) in
  if Z.land (b_flags bp) (Z.lor B_VALID B_DIRTY) =? B_VALID then panic "iderw: nothing to do" else
  let! havedisk1 := getv v_havedisk1 in
  if negb (b_dev bp =? 0) && (havedisk1 =? 0) then panic "iderw: ide disk 1 not present" else
  lk (acquire L_ide) ;;
  updv (fun v => set_v_qnext (delete b (v_qnext v)) v) ;;
  ide_append (Z.to_nat NBUF) None b ;;
  let! q := getv v_idequeue in
  when (bool_decide (q = Some b)) (idestart (Some b)) ;;
  ide_wait b ;;
  lk (release L_ide).
End Driver.

(** * The disk controller *)

(** A request in the controller: reading, waiting for the data to write, writing, and data waiting to be taken. *)
Inductive ata_op : Type :=
| A_read (drive sector : Z)
| A_wait (drive sector : Z)
| A_write (drive sector : Z) (data : list Z)
| A_data (data : list Z).

Record ata : Type := mkAta {
  a_sec : Z -> Z -> list Z;
  a_count : Z;
  a_lba0 : Z;
  a_lba1 : Z;
  a_lba2 : Z;
  a_drv : Z;
  a_op : option ata_op;
  a_err : bool
}.

Definition set_a_op (o : option ata_op) (a : ata) : ata :=
  mkAta (a_sec a) (a_count a) (a_lba0 a) (a_lba1 a) (a_lba2 a) (a_drv a) o (a_err a).

(** The registers behind the ports. *)
Definition ata_reg (port x : Z) (a : ata) : ata :=
  if port =? 498 then mkAta (a_sec a) x (a_lba0 a) (a_lba1 a) (a_lba2 a) (a_drv a) (a_op a) (a_err a)
  else if port =? 499 then mkAta (a_sec a) (a_count a) x (a_lba1 a) (a_lba2 a) (a_drv a) (a_op a) (a_err a)
  else if port =? 500 then mkAta (a_sec a) (a_count a) (a_lba0 a) x (a_lba2 a) (a_drv a) (a_op a) (a_err a)
  else if port =? 501 then mkAta (a_sec a) (a_count a) (a_lba0 a) (a_lba1 a) x (a_drv a) (a_op a) (a_err a)
  else if port =? 502 then mkAta (a_sec a) (a_count a) (a_lba0 a) (a_lba1 a) (a_lba2 a) x (a_op a) (a_err a)
  else a.

(** The sector and the drive the registers select. *)
Definition ata_sector (a : ata) : Z := a_lba0 a + 2 ^ 8 * a_lba1 a + 2 ^ 16 * a_lba2 a + 2 ^ 24 * Z.land (a_drv a) 15.
Definition ata_drive (a : ata) : Z := Z.land (Z.shiftr (a_drv a) 4) 1.

Definition sec_write (drive sector : Z) (data : list Z) (f : Z -> Z -> list Z) : Z -> Z -> list Z :=
  fun x y => if (x =? drive) && (y =? sector) then data else f x y.

(** What the controller has done when it raises its interrupt. *)
Definition ata_done (a : ata) : ata :=
  match a_op a with
  | Some (A_read x y) => set_a_op (Some (A_data (a_sec a x y))) a
  | Some (A_write x y data) => mkAta (sec_write x y data (a_sec a)) (a_count a) (a_lba0 a) (a_lba1 a) (a_lba2 a) (a_drv a) None (a_err a)
  | _ => a
  end.

(** A device that has such a controller. The status is polled at most [at_latency] times before it is ready, and when it
    is ready the request is done; an access to the controller leaves the error flag, which only the controller itself
    sets. *)
Class Ata (D : Type) `{Device D} : Type := {
  at_ : D -> ata;
  at_polls : D -> nat;
  at_latency : nat;
  at_prompt : forall d, (at_polls d <= at_latency)%nat;
  at_status : forall d, exists r d', d_inb 503 d = (r, d') /\
    match at_polls d with
    | O => Z.land r (Z.lor IDE_BSY IDE_DRDY) = IDE_DRDY /\ at_ d' = ata_done (at_ d) /\ (Z.land r (Z.lor IDE_DF IDE_ERR) = 0 <-> a_err (at_ d) = false)
    | S n => Z.land r (Z.lor IDE_BSY IDE_DRDY) <> IDE_DRDY /\ at_ d' = at_ d /\ at_polls d' = n
    end;
  at_control : forall d x, at_ (d_outb 1014 x d) = at_ d;
  at_reg : forall d port x, 498 <= port <= 502 -> at_ (d_outb port x d) = ata_reg port x (at_ d);
  at_read : forall d, a_op (at_ d) = None -> a_count (at_ d) = 1 ->
    at_ (d_outb 503 IDE_CMD_READ d) = set_a_op (Some (A_read (ata_drive (at_ d)) (ata_sector (at_ d)))) (at_ d);
  at_write : forall d, a_op (at_ d) = None -> a_count (at_ d) = 1 ->
    at_ (d_outb 503 IDE_CMD_WRITE d) = set_a_op (Some (A_wait (ata_drive (at_ d)) (ata_sector (at_ d)))) (at_ d);
  at_send : forall d x y data, a_op (at_ d) = Some (A_wait x y) -> length data = 512%nat ->
    at_ (d_outsl 496 data d) = set_a_op (Some (A_write x y data)) (at_ d);
  at_take : forall d data, a_op (at_ d) = Some (A_data data) -> length data = 512%nat ->
    exists d', d_insl 496 128 d = (data, d') /\ at_ d' = set_a_op None (at_ d)
}.

(** * The queue *)

Definition dirty (bp : buf) : bool := negb (Z.land (b_flags bp) B_DIRTY =? 0).

(** The request of a buffer: the file system's block is the drive's sector. *)
Definition request (bp : buf) : ata_op :=
  if dirty bp then A_write (Z.land (b_dev bp) 1) (b_blockno bp) (b_data bp) else A_read (Z.land (b_dev bp) 1) (b_blockno bp).

(** A buffer when its request is done; [old] was in its sector. *)
Definition served (old : list Z) (bp : buf) : buf :=
  set_b_flags (Z.land (Z.lor (b_flags bp) B_VALID) (Z.lnot B_DIRTY)) (if dirty bp then bp else set_b_data old bp).

(** The sectors when the request is done. *)
Definition serve_sec (bp : buf) (f : Z -> Z -> list Z) : Z -> Z -> list Z :=
  if dirty bp then sec_write (Z.land (b_dev bp) 1) (b_blockno bp) (b_data bp) f else f.

(** The list that starts at [from]. *)
Fixpoint qchain (next : gmap nat nat) (from : option nat) (Q : list nat) : Prop :=
  match Q with
  | [] => from = None
  | b :: Q => from = Some b /\ qchain next (next !! b) Q
  end.

Record buf_req (bp : buf) : Prop := {
  br_work : Z.land (b_flags bp) (Z.lor B_VALID B_DIRTY) <> B_VALID;
  br_block : 0 <= b_blockno bp < FSSIZE;
  br_data : length (b_data bp) = 512%nat
}.

Section Queue.
Context {D : Type} `{Ata D} `{WaitFuel}.
Implicit Types (st : machine D) (s : kernel) (v : drivers) (d : D) (Q : list nat) (b : nat) (bp : buf).

Definition secs st : Z -> Z -> list Z := a_sec (at_ (mc_d st)).

(** The buffers of [Q] wait in that order; the controller works for the first. *)
Record ide_ok st Q : Prop := {
  io_chain : qchain (v_qnext (mc_v st)) (v_idequeue (mc_v st)) Q;
  io_nodup : NoDup Q;
  io_size : (length Q <= Z.to_nat NBUF)%nat;
  io_bufs : forall b, b ∈ Q -> exists bp, k_bufs (mc_k st) !! b = Some bp /\ buf_req bp;
  io_op : match Q with
          | [] => a_op (at_ (mc_d st)) = None
          | b :: _ => exists bp, k_bufs (mc_k st) !! b = Some bp /\ a_op (at_ (mc_d st)) = Some (request bp)
          end;
  io_secs : forall x y, length (secs st x y) = 512%nat
}.

Hypothesis Hfuel : (at_latency <= wait_fuel)%nat.

Lemma ata_done_idle a : a_op a = None -> ata_done a = a.
Proof. unfold ata_done. by intros ->. Qed.

Lemma idewait_loop_ok n : forall s v d fuel, at_polls d = n -> (n <= fuel)%nat ->
  exists r d', idewait_loop fuel (mkMachine s v d) = Ret r (mkMachine s v d') /\ at_ d' = ata_done (at_ d) /\ (Z.land r (Z.lor IDE_DF IDE_ERR) = 0 <-> a_err (at_ d) = false).
Proof.
  induction n as [|n IH]; intros s v d fuel Hn Hf; destruct (at_status d) as (r & d1 & E & Hs); rewrite Hn in Hs; destruct Hs as (Hs1 & Ea & Hs2).
  all: assert (Ei : inb 503 (mkMachine s v d) = Ret r (mkMachine s v d1)) by (unfold inb; cbn [mc_d mc_k mc_v]; by rewrite E).
  - exists r, d1. split; [|done]. destruct fuel; cbn [idewait_loop]; erewrite bind_run by exact Ei; by rewrite (proj2 (Z.eqb_eq _ _) Hs1).
  - destruct fuel as [|fuel]; [lia|]. destruct (IH s v d1 fuel) as (r' & d' & E' & Ea' & Hr); [done|lia|].
    exists r', d'. cbn [idewait_loop]. erewrite bind_run by exact Ei. rewrite (proj2 (Z.eqb_neq _ _) Hs1). split; [done|]. by rewrite <- Ea.
Qed.

Lemma idewait_ok c s v d : exists d', idewait c (mkMachine s v d) = Ret (if c && a_err (at_ d) then -1 else 0) (mkMachine s v d') /\ at_ d' = ata_done (at_ d).
Proof.
  destruct (idewait_loop_ok (at_polls d) s v d wait_fuel) as (r & d' & E & Ea & Hr); [done|pose proof (at_prompt d); lia|].
  exists d'. split; [|done]. unfold idewait. erewrite bind_run by exact E. destruct c; cbn [andb]; [|done].
  destruct (a_err (at_ d)); [rewrite (proj2 (Z.eqb_neq _ _)); [done|intros Hz; by apply Hr in Hz]|by rewrite (proj2 (Z.eqb_eq _ _)) by by apply Hr].
Qed.

(** The registers hold the block number and the drive. *)
Lemma sector_decode n x : 0 <= n < FSSIZE -> 0 <= x < 2 ->
  let r6 := u8 (Z.lor (Z.lor 224 (Z.shiftl x 4)) (Z.land (Z.shiftr n 24) 15)) in
  u8 (Z.land n 255) + 2 ^ 8 * u8 (Z.land (Z.shiftr n 8) 255) + 2 ^ 16 * u8 (Z.land (Z.shiftr n 16) 255) + 2 ^ 24 * Z.land r6 15 = n /\
  Z.land (Z.shiftr r6 4) 1 = x.
Proof.
  intros Hn Hx. pose (P := fun k => let n := k / 2 in let x := k mod 2 in
    let r6 := u8 (Z.lor (Z.lor 224 (Z.shiftl x 4)) (Z.land (Z.shiftr n 24) 15)) in
    (u8 (Z.land n 255) + 2 ^ 8 * u8 (Z.land (Z.shiftr n 8) 255) + 2 ^ 16 * u8 (Z.land (Z.shiftr n 16) 255) + 2 ^ 24 * Z.land r6 15 =? n) &&
    (Z.land (Z.shiftr r6 4) 1 =? x)).
  assert (HP : P (2 * n + x) = true) by (apply (all_below P 2000); [by vm_compute|unfold FSSIZE in Hn; lia]).
  unfold P in HP. replace ((2 * n + x) / 2) with n in HP by (rewrite Z.mul_comm, Z.div_add_l, (Z.div_small x) by lia; lia).
  replace ((2 * n + x) mod 2) with x in HP by (rewrite Z.add_comm, Z.mul_comm, Z.mod_add, Z.mod_small by lia; done).
  apply andb_true_iff in HP as [HP1%Z.eqb_eq HP2%Z.eqb_eq]. done.
Qed.

Lemma idestart_ok s v d b bp : k_bufs s !! b = Some bp -> buf_req bp -> a_op (at_ d) = None ->
  exists d', idestart (Some b) (mkMachine s v d) = Ret tt (mkMachine s v d') /\ a_op (at_ d') = Some (request bp) /\ a_sec (at_ d') = a_sec (at_ d) /\ a_err (at_ d') = a_err (at_ d).
Proof.
  intros Hb [Hw Hn Hl] Ho. unfold idestart. erewrite bind_run by (apply lk_ret, getbuf_eq; exact Hb). cbn [mc_k mc_v mc_d].
  rewrite (proj2 (Z.leb_gt _ _)) by lia. cbv zeta. change (BSIZE / SECTOR_SIZE) with 1. cbn [Z.ltb Z.compare Pos.compare Pos.compare_cont].
  rewrite Z.mul_1_r. destruct (idewait_ok false s v d) as (d1 & E1 & Ea). rewrite ata_done_idle in Ea by done. erewrite bind_run by exact E1.
  unfold outb at 1 2 3 4 5 6. repeat (erewrite bind_run by reflexivity). cbn [mc_k mc_v mc_d].
  set (d6 := d_outb 502 _ _). destruct (sector_decode (b_blockno bp) (Z.land (b_dev bp) 1)) as [Hs Hx]; [done|change 1 with (Z.ones 1); rewrite Z.land_ones by lia; by apply Z.mod_pos_bound|].
  assert (E6 : at_ d6 = mkAta (a_sec (at_ d)) 1 (u8 (Z.land (b_blockno bp) 255)) (u8 (Z.land (Z.shiftr (b_blockno bp) 8) 255))
    (u8 (Z.land (Z.shiftr (b_blockno bp) 16) 255)) (u8 (Z.lor (Z.lor 224 (Z.shiftl (Z.land (b_dev bp) 1) 4)) (Z.land (Z.shiftr (b_blockno bp) 24) 15)))
    None (a_err (at_ d))).
  { unfold d6. rewrite !at_reg by lia. by rewrite at_control, Ea, <- Ho. }
  clearbody d6. unfold request. fold (dirty bp). destruct (dirty bp) eqn:Ed.
  - unfold outb, outsl. erewrite bind_run by reflexivity. cbn [mc_k mc_v mc_d]. change (u8 (if 1 =? 1 then IDE_CMD_WRITE else IDE_CMD_WRMUL)) with IDE_CMD_WRITE.
    eexists. split; [reflexivity|]. erewrite at_send; [|by rewrite at_write by (by rewrite E6)|done]. rewrite at_write by (by rewrite E6).
    rewrite E6. unfold ata_drive, ata_sector. cbn [a_op set_a_op a_sec a_err a_lba0 a_lba1 a_lba2 a_drv]. by rewrite Hx, Hs.
  - unfold outb. cbn [mc_k mc_v mc_d]. change (u8 (if 1 =? 1 then IDE_CMD_READ else IDE_CMD_RDMUL)) with IDE_CMD_READ.
    eexists. split; [reflexivity|]. rewrite at_read by (by rewrite E6). rewrite E6. unfold ata_drive, ata_sector.
    cbn [a_op set_a_op a_sec a_err a_lba0 a_lba1 a_lba2 a_drv]. by rewrite Hx, Hs.
Qed.

(** * Appending *)

Lemma qchain_frame next next' Q : forall from, (forall x, x ∈ Q -> next' !! x = next !! x) -> qchain next from Q -> qchain next' from Q.
Proof.
  induction Q as [|x Q IH]; intros from Hn Hq; [done|]. destruct Hq as [-> Hq]. split; [done|]. rewrite Hn by set_solver. apply IH; set_solver.
Qed.

Lemma qchain_snoc next b Q : forall from x, NoDup (Q ++ [x]) -> b ∉ Q ++ [x] -> next !! b = None -> qchain next from (Q ++ [x]) ->
  qchain (<[x := b]> next) from ((Q ++ [x]) ++ [b]).
Proof.
  induction Q as [|y Q IH]; intros from x Hd Hb Hn Hq; cbn [app] in *.
  - destruct Hq as [-> Hq]. cbn in Hq |- *. rewrite lookup_insert_eq, lookup_insert_ne by set_solver. done.
  - destruct Hq as [-> Hq]. apply NoDup_cons in Hd as [Hy Hd]. split; [done|]. rewrite lookup_insert_ne by set_solver. apply IH; set_solver.
Qed.

(** The place of the null pointer. *)
Definition tail_of (pp : option nat) Q : option nat := match last Q with Some x => Some x | None => pp end.

Lemma ide_append_ok s v d b Q : forall pp fuel, qchain (v_qnext v) (match pp with None => v_idequeue v | Some x => v_qnext v !! x end) Q -> (length Q <= fuel)%nat ->
  ide_append fuel pp b (mkMachine s v d) = pp_set (tail_of pp Q) b (mkMachine s v d).
Proof.
  induction Q as [|x Q IH]; intros pp fuel Hq Hf.
  - cbn in Hq. destruct fuel; cbn [ide_append]; (rewrite (bind_run _ _ _ None (mkMachine s v d)); [done|]); destruct pp; unfold pp_get, getv, gets; cbn [mc_v]; by rewrite Hq.
  - destruct Hq as [Hx Hq]. destruct fuel as [|fuel]; [cbn in Hf; lia|]. cbn [ide_append].
    rewrite (bind_run _ _ _ (Some x) (mkMachine s v d)) by (destruct pp; unfold pp_get, getv, gets; cbn [mc_v]; by rewrite Hx).
    rewrite (IH (Some x) fuel) by (done || (cbn in Hf; lia)). unfold tail_of. rewrite last_cons. by destruct (last Q).
Qed.

(** The queue after [iderw] has appended [b]. *)
Definition queued b Q v : drivers :=
  let next := delete b (v_qnext v) in
  match last Q with
  | None => set_v_idequeue (Some b) (set_v_qnext next v)
  | Some x => set_v_qnext (<[x := b]> next) v
  end.

Lemma queued_chain b Q v : NoDup Q -> b ∉ Q -> qchain (v_qnext v) (v_idequeue v) Q -> qchain (v_qnext (queued b Q v)) (v_idequeue (queued b Q v)) (Q ++ [b]).
Proof.
  intros Hd Hb Hq. assert (Hq' : qchain (delete b (v_qnext v)) (v_idequeue v) Q).
  { apply (qchain_frame (v_qnext v)); [|done]. intros x Hx. apply lookup_delete_ne. set_solver. }
  unfold queued. destruct Q as [|x Q _] using rev_ind.
  - cbn. by rewrite lookup_delete_eq.
  - rewrite last_snoc. apply qchain_snoc; [done|done|apply lookup_delete_eq|done].
Qed.

Lemma iderw_append s v d b Q : b ∉ Q -> qchain (v_qnext v) (v_idequeue v) Q -> (length Q <= Z.to_nat NBUF)%nat ->
  (updv (fun v => set_v_qnext (delete b (v_qnext v)) v) ;; ide_append (Z.to_nat NBUF) None b)%km (mkMachine s v d) = Ret tt (mkMachine s (queued b Q v) d).
Proof.
  intros Hb Hq Hl. unfold updv. rewrite bind_modify. cbn [mc_k mc_v mc_d]. rewrite (ide_append_ok _ _ _ _ Q); [|cbn|done].
  - unfold tail_of, queued. destruct (last Q); reflexivity.
  - apply (qchain_frame (v_qnext v)); [|done]. intros x Hx. apply lookup_delete_ne. set_solver.
Qed.

(** * The interrupt *)

(** Taking the data of a finished request. *)
Lemma ide_transfer s v d d1 b bp : k_bufs s !! b = Some bp -> a_op (at_ d) = Some (request bp) -> (forall x y, length (a_sec (at_ d) x y) = 512%nat) ->
  at_ d1 = ata_done (at_ d) -> a_err (at_ d) = false ->
  exists d2, (if Z.land (b_flags bp) B_DIRTY =? 0 then
         let! r := idewait true in
         when (0 <=? r) (let! data := insl 496 (Z.to_nat (BSIZE / 4)) in lk (updbuf b (set_b_data data)))
       else ret tt)%km (mkMachine s v d1) =
    Ret tt (mkMachine (set_k_bufs (<[b := if dirty bp then bp else set_b_data (a_sec (at_ d) (Z.land (b_dev bp) 1) (b_blockno bp)) bp]> (k_bufs s)) s) v d2) /\
    a_op (at_ d2) = None /\ a_sec (at_ d2) = serve_sec bp (a_sec (at_ d)) /\ a_err (at_ d2) = false.
Proof.
  intros Hb Ho Hs Hd He. unfold request in Ho. unfold dirty, serve_sec in *. fold (dirty bp) in *. unfold dirty in *. destruct (Z.land (b_flags bp) B_DIRTY =? 0); cbn [negb] in *.
  - destruct (idewait_ok true s v d1) as (d2 & E2 & Ea2). unfold ata_done in Hd. rewrite Ho in Hd. rewrite Hd in E2, Ea2. cbn [ata_done a_op a_err set_a_op andb] in E2, Ea2. rewrite He in E2.
    destruct (at_take d2 (a_sec (at_ d) (Z.land (b_dev bp) 1) (b_blockno bp))) as (d3 & E3 & Ea3); [by rewrite Ea2|done|].
    exists d3. erewrite bind_run by exact E2. cbn [when Z.leb Z.compare]. change (Z.to_nat (BSIZE / 4)) with 128%nat.
    rewrite (bind_run _ _ _ (a_sec (at_ d) (Z.land (b_dev bp) 1) (b_blockno bp)) (mkMachine s v d3)) by (unfold insl; cbn [mc_d mc_k mc_v]; by rewrite E3).
    erewrite lk_ret by (apply updbuf_eq; exact Hb). rewrite Ea3, Ea2. done.
  - exists d1. rewrite list_insert_id by done. unfold ata_done in Hd. rewrite Ho in Hd. rewrite Hd. split; [unfold ret; by destruct s|done].
Qed.

Lemma ideintr_ok s v d d1 b bp Q i c : ide_ok (mkMachine s v d) (b :: Q) -> k_bufs s !! b = Some bp -> at_ d1 = ata_done (at_ d) -> a_err (at_ d) = false ->
  on_cpu (k_hw s) i c -> lock_free (k_hw s) L_ide -> lock_free (k_hw s) L_ptable -> table_ok s ->
  let st' := set_k_proc (wake (Some (Ch_buf b)) <$> k_proc s) (set_k_bufs (<[b := served (a_sec (at_ d) (Z.land (b_dev bp) 1) (b_blockno bp)) bp]> (k_bufs s)) s) in
  exists v' d', ideintr (mkMachine s v d1) = Ret tt (mkMachine st' v' d') /\ ide_ok (mkMachine st' v' d') Q /\
    a_sec (at_ d') = serve_sec bp (a_sec (at_ d)) /\ a_err (at_ d') = false.
Proof.
  intros Hok Hb Hd He Hc Hl Hf Ht. pose proof Hok as [[Hq1 Hq2] Hnd Hsz Hbs Hop Hss]. unfold secs in *. cbn [mc_k mc_v mc_d] in *.
  destruct Hop as (bp' & Hb' & Hop). rewrite Hb in Hb'. injection Hb' as <-. apply NoDup_cons in Hnd as [HbQ Hnd].
  unfold ideintr. erewrite bind_run by (apply lk_ret, acquire_eq; done). cbn [mc_k mc_v mc_d]. set (s1 := set_k_hw _ s).
  unfold getv at 1. rewrite bind_gets. cbn [mc_v]. rewrite Hq1. unfold getv at 1. rewrite bind_gets. unfold updv at 1. rewrite bind_modify. cbn [mc_k mc_v mc_d].
  erewrite bind_run by (apply lk_ret, getbuf_eq; exact Hb). cbn [mc_k mc_v mc_d].
  destruct (ide_transfer s1 (set_v_idequeue (v_qnext v !! b) v) d d1 b bp) as (d2 & E2 & O2 & S2 & R2); [done..|]. erewrite bind_run by exact E2.
  assert (Hlt : (b < length (k_bufs s))%nat) by (by eapply lookup_lt_Some).
  erewrite bind_run by (apply lk_ret, updbuf_eq; apply list_lookup_insert_eq; exact Hlt). cbn [mc_k mc_v mc_d].
  erewrite bind_run by (apply lk_ret, updbuf_eq; apply list_lookup_insert_eq; cbn; by rewrite length_insert). cbn [mc_k mc_v mc_d k_bufs set_k_bufs].
  rewrite !list_insert_insert_eq. match goal with |- context [set_k_bufs (<[b := ?x]> _) _] => replace x with (served (a_sec (at_ d) (Z.land (b_dev bp) 1) (b_blockno bp)) bp) by (unfold served; by destruct (dirty bp)) end.
  erewrite bind_run; [|apply lk_ret; apply (wakeup_eq (Ch_buf b) _ i (cpu_pushed c)); [by apply on_cpu_lock|by apply lock_free_other|done]].
  cbn [mc_k mc_v mc_d]. set (s2 := set_k_proc _ _).
  unfold getv. rewrite bind_gets. cbn [mc_v v_idequeue set_v_idequeue]. set (v1 := set_v_idequeue _ v).
  assert (Hk : forall x, x ∈ Q -> exists bx, k_bufs s2 !! x = Some bx /\ buf_req bx).
  { intros x Hx. destruct (Hbs x) as (bx & E & Hr); [set_solver|]. exists bx. split; [|done]. cbn. rewrite list_lookup_insert_ne; [done|]. intros ->. done. }
  assert (Hstart : exists d', when (bool_decide (v_qnext v !! b <> None)) (idestart (v_qnext v !! b)) (mkMachine s2 v1 d2) = Ret tt (mkMachine s2 v1 d') /\
      match Q with [] => a_op (at_ d') = None | x :: _ => exists bx, k_bufs s2 !! x = Some bx /\ a_op (at_ d') = Some (request bx) end /\
      a_sec (at_ d') = a_sec (at_ d2) /\ a_err (at_ d') = a_err (at_ d2)).
  { destruct Q as [|x Q].
    - cbn in Hq2. rewrite Hq2. exists d2. split_and!; try done.
    - destruct Hq2 as [Hq2 _]. rewrite Hq2. destruct (Hk x) as (bx & E & Hr); [set_solver|]. destruct (idestart_ok s2 v1 d2 x bx E Hr O2) as (d' & E' & O' & S' & R').
      exists d'. rewrite bool_decide_eq_true_2 by done. cbn [when]. split_and!; try done. by exists bx. }
  destruct Hstart as (d' & E3 & O3 & S3 & R3). erewrite bind_run by exact E3.
  rewrite (lk_ret _ _ tt (set_k_hw (k_hw s) s2)) by (by apply (release_eq _ (k_hw s) i c)). cbn [mc_v mc_d].
  exists v1, d'. split_and!; [unfold s2, s1; by destruct s| |by rewrite S3|by rewrite R3].
  constructor; cbn [mc_k mc_v mc_d]; auto.
  - cbn in Hsz. lia.
  - intros x y. unfold secs. cbn [mc_d]. rewrite S3, S2. unfold serve_sec, sec_write. destruct (dirty bp); [|done]. destruct (_ && _); [|done].
    destruct (Hbs b) as (bx & E & Hr); [set_solver|]. rewrite Hb in E. injection E as <-. apply Hr.
Qed.

(** * The request *)

Lemma sleep_lk ch L q s v d : L <> L_ptable -> inside L q s ->
  exists s1 k pr, lk (sleep ch L) (mkMachine s v d) = Swtch (mkMachine s1 v d) k /\ rest s1 = rest s /\ k_proc s !! q = Some pr /\
    k_proc s1 = <[q := asleep ch pr]> (k_proc s) /\
    forall st2, resumed q (mc_k st2) -> exists s3, k st2 = Ret tt (mkMachine s3 (mc_v st2) (mc_d st2)) /\ rest s3 = rest (mc_k st2) /\ inside L q s3.
Proof.
  intros HL [(i & c & h & pr & Hc & Hn & Hp & Hl & Hh & Hpr & Hs) Ht]. unfold lk. cbn [mc_k mc_v mc_d].
  rewrite (sleep_eq s h i c q pr ch L) by (try done; unfold lock_free; by rewrite Hl). cbn [lift_out].
  eexists _, _, pr. split; [reflexivity|]. split_and!; try done. intros st2 [(j & c2 & h2 & pr2 & Ho & Hp2 & Hl2 & Hpr2 & Hs2) Ht2].
  eexists. erewrite sleep_back_eq by (try done; unfold lock_free; by rewrite Hl2). split; [reflexivity|]. split; [done|]. constructor.
  - exists j, (set_c_intena (c_intena c) c2), (hw_resume (c_intena c) j c2 h2), (set_p_chan None pr2).
    split_and!; try done; try apply Ho; [apply on_cpu_resume; apply Ho|]. cbn. by rewrite list_lookup_insert_eq by by eapply lookup_lt_Some.
  - unfold table_ok in *. cbn. by rewrite length_insert.
Qed.

Lemma served_flags old bp : Z.land (b_flags (served old bp)) (Z.lor B_VALID B_DIRTY) = B_VALID.
Proof.
  unfold served. cbn [b_flags set_b_flags]. rewrite <- Z.land_assoc. change (Z.land (Z.lnot B_DIRTY) (Z.lor B_VALID B_DIRTY)) with B_VALID.
  rewrite Z.land_lor_distr_l, Z.land_diag. apply Z.bits_inj'. intros n _. rewrite Z.lor_spec, Z.land_spec. by destruct (Z.testbit (b_flags bp) n), (Z.testbit B_VALID n).
Qed.

(** The request of [b], which was [bp] when its sector held [old], waits or is done. *)
Definition pending b bp (old : list Z) st : Prop :=
  exists Q, ide_ok st Q /\ b ∈ Q /\ k_bufs (mc_k st) !! b = Some bp /\ secs st (Z.land (b_dev bp) 1) (b_blockno bp) = old.
Definition finished b bp (old : list Z) st : Prop :=
  exists Q, ide_ok st Q /\ (b ∉ Q) /\ k_bufs (mc_k st) !! b = Some (served old bp) /\
    secs st (Z.land (b_dev bp) 1) (b_blockno bp) = (if dirty bp then b_data bp else old).

(** What a thread knows while it waits, and what it relies on when it is switched back: nobody interferes with its request. *)
Definition waiting q b bp old st : Prop := pending b bp old st /\ exists pr, k_proc (mc_k st) !! q = Some (asleep (Ch_buf b) pr).
Definition rely q b bp old (st1 st2 : machine D) : Prop :=
  resumed q (mc_k st2) /\ (pending b bp old st1 -> pending b bp old st2 \/ finished b bp old st2).

Lemma ide_ok_rest s s' v d Q : rest s' = rest s -> ide_ok (mkMachine s v d) Q -> ide_ok (mkMachine s' v d) Q.
Proof.
  intros Hr [H1' H2' H3' H4' H5' H6']. assert (E : k_bufs s' = k_bufs s) by exact (f_equal k_bufs Hr). constructor; cbn [mc_k mc_v mc_d] in *; rewrite ?E; auto.
Qed.

Lemma pending_rest b bp old s s' v d : rest s' = rest s -> pending b bp old (mkMachine s v d) -> pending b bp old (mkMachine s' v d).
Proof.
  intros Hr (Q & H1' & H2' & H3' & H4'). exists Q. split_and!; [by eapply ide_ok_rest|done| |done]. cbn. by rewrite (f_equal k_bufs Hr : k_bufs s' = k_bufs s).
Qed.

Lemma finished_rest b bp old s s' v d : rest s' = rest s -> finished b bp old (mkMachine s v d) -> finished b bp old (mkMachine s' v d).
Proof.
  intros Hr (Q & H1' & H2' & H3' & H4'). exists Q. split_and!; [by eapply ide_ok_rest|done| |done]. cbn. by rewrite (f_equal k_bufs Hr : k_bufs s' = k_bufs s).
Qed.

Lemma ide_cond_pending b bp old st : buf_req bp -> pending b bp old st ->
  (let! bp := lk (getbuf b) in ret (negb (Z.land (b_flags bp) (Z.lor B_VALID B_DIRTY) =? B_VALID)))%km st = Ret true st.
Proof.
  intros [Hw _ _] (Q & _ & _ & Hb & _). erewrite bind_run by (apply lk_ret, getbuf_eq; exact Hb). rewrite (proj2 (Z.eqb_neq _ _) Hw). by destruct st.
Qed.

Lemma ide_cond_finished b bp old st : finished b bp old st ->
  (let! bp := lk (getbuf b) in ret (negb (Z.land (b_flags bp) (Z.lor B_VALID B_DIRTY) =? B_VALID)))%km st = Ret false st.
Proof.
  intros (Q & _ & _ & Hb & _). erewrite bind_run by (apply lk_ret, getbuf_eq; exact Hb). rewrite served_flags. by destruct st.
Qed.

(** The loop of [iderw] waits until the request is done. *)
Lemma ide_wait_rg q b bp old fuel : buf_req bp -> forall s v d, inside L_ide q s -> pending b bp old (mkMachine s v d) \/ finished b bp old (mkMachine s v d) ->
  rg (waiting q b bp old) (rely q b bp old) (fun _ st' => inside L_ide q (mc_k st') /\ finished b bp old st')
    (while_loop fuel (let! bp := lk (getbuf b) in ret (negb (Z.land (b_flags bp) (Z.lor B_VALID B_DIRTY) =? B_VALID))) (lk (sleep (Ch_buf b) L_ide)) (mkMachine s v d)).
Proof.
  intros Hr. induction fuel as [|fuel IH]; intros s v d Hin [Hp|Hf].
  2,4: by erewrite while_false by (by eapply ide_cond_finished).
  - cbn [while_loop]. by erewrite bind_run by (by eapply ide_cond_pending).
  - erewrite while_true by (by eapply ide_cond_pending). apply rg_bind.
    destruct (sleep_lk (Ch_buf b) L_ide q s v d) as (s1 & k & pr & E & Hr1 & Hpr & Hp1 & Hk); [done|done|]. rewrite E. cbn [rg]. split.
    + split; [by eapply pending_rest|]. exists pr. cbn [mc_k]. rewrite Hp1. apply list_lookup_insert_eq. by eapply lookup_lt_Some.
    + intros [s2 v2 d2] [Hrs Hre]. destruct (Hk _ Hrs) as (s3 & E3 & Hr3 & Hin3). rewrite E3. cbn [rg mc_k mc_v mc_d] in *. apply IH; [done|].
      destruct Hre as [Hp2|Hf2]; [by eapply pending_rest|left; by eapply pending_rest|right; by eapply finished_rest].
Qed.

(** [iderw] up to the point where it waits. *)
Lemma iderw_start s v d q b bp Q : free_thread q s -> holdingsleep (SL_buf b) s = Ret true s -> k_bufs s !! b = Some bp -> buf_req bp ->
  (b_dev bp = 0 \/ v_havedisk1 v <> 0) -> ide_ok (mkMachine s v d) Q -> b ∉ Q -> (length Q < Z.to_nat NBUF)%nat ->
  exists s1 v1 d1, iderw b (mkMachine s v d) = (ide_wait b ;; lk (release L_ide))%km (mkMachine s1 v1 d1) /\ inside L_ide q s1 /\ rest s1 = rest s /\ k_proc s1 = k_proc s /\
    ide_ok (mkMachine s1 v1 d1) (Q ++ [b]) /\ a_sec (at_ d1) = a_sec (at_ d) /\ a_err (at_ d1) = a_err (at_ d) /\ v_havedisk1 v1 = v_havedisk1 v.
Proof.
  intros Hft Hh Hb Hr Hv Hok HbQ Hn. pose proof Hok as [Hq Hnd Hsz Hbs Hop Hss]. cbn [mc_k mc_v mc_d] in *.
  unfold iderw. erewrite bind_run by (apply lk_ret; exact Hh). cbn [negb mc_v mc_d].
  erewrite bind_run by (apply lk_ret, getbuf_eq; exact Hb). cbn [mc_k mc_v mc_d].
  rewrite (proj2 (Z.eqb_neq _ _) (br_work _ Hr)). unfold getv at 1. rewrite bind_gets. cbn [mc_v].
  replace (negb (b_dev bp =? 0) && (v_havedisk1 v =? 0)) with false
    by (symmetry; apply andb_false_iff; rewrite negb_false_iff, Z.eqb_eq, Z.eqb_neq; done).
  destruct (acquire_free L_ide q s Hft) as (s1 & Ea & Hin & Hrs & Hps). erewrite bind_run by (apply lk_ret; exact Ea). cbn [mc_v mc_d].
  pose proof (iderw_append s1 v d b Q HbQ Hq Hsz) as Eap. unfold bind in Eap at 1. unfold bind at 1.
  destruct (updv _ (mkMachine s1 v d)) as [u st1| | | | |]; try done. cbn [obind] in *. erewrite bind_run by exact Eap. clear Eap.
  unfold getv. rewrite bind_gets. cbn [mc_v].
  assert (Hst : exists d1, when (bool_decide (v_idequeue (queued b Q v) = Some b)) (idestart (Some b)) (mkMachine s1 (queued b Q v) d) = Ret tt (mkMachine s1 (queued b Q v) d1) /\
      match Q ++ [b] with [] => True | x :: _ => exists bx, k_bufs s !! x = Some bx /\ a_op (at_ d1) = Some (request bx) end /\
      a_sec (at_ d1) = a_sec (at_ d) /\ a_err (at_ d1) = a_err (at_ d)).
  { assert (Hb1 : k_bufs s1 = k_bufs s) by exact (f_equal k_bufs Hrs). destruct Q as [|x Q].
    - destruct (idestart_ok s1 (queued b [] v) d b bp) as (d1 & E1 & O1 & S1 & R1); [by rewrite Hb1|done|done|]. exists d1. cbn [queued last v_idequeue set_v_idequeue].
      rewrite bool_decide_eq_true_2 by done. cbn [when app]. split_and!; try done. by exists bp.
    - exists d. rewrite bool_decide_eq_false_2; [cbn [when app]; split_and!; done|]. destruct Hq as [Hq _]. unfold queued. rewrite last_cons.
      destruct (last Q); cbn [v_idequeue set_v_qnext]; rewrite Hq; intros [= ->]; apply HbQ; set_solver. }
  destruct Hst as (d1 & E1 & O1 & S1 & R1). erewrite bind_run by exact E1. exists s1, (queued b Q v), d1. split; [done|]. split_and!; try done.
  2:{ unfold queued. by destruct (last Q). }
  apply (ide_ok_rest s); [done|]. constructor; cbn [mc_k mc_v mc_d].
  - by apply queued_chain.
  - apply NoDup_app. split_and!; [done|set_solver|apply NoDup_singleton].
  - rewrite length_app. cbn. lia.
  - intros x [Hx|Hx]%elem_of_app; [by apply Hbs|]. apply list_elem_of_singleton in Hx as ->. by exists bp.
  - destruct Q; cbn [app] in *; done.
  - intros x y. unfold secs. cbn [mc_d]. rewrite S1. apply Hss.
Qed.

(** The interrupt finishes the request of the first buffer and leaves the others', as long as they are for other blocks. *)
Lemma ideintr_keeps s v d s' v' d' b bp Q b' bp' old : ide_ok (mkMachine s v d) (b :: Q) -> ide_ok (mkMachine s' v' d') Q -> k_bufs s !! b = Some bp ->
  k_bufs s' = <[b := served (a_sec (at_ d) (Z.land (b_dev bp) 1) (b_blockno bp)) bp]> (k_bufs s) -> a_sec (at_ d') = serve_sec bp (a_sec (at_ d)) ->
  (b' = b \/ Z.land (b_dev bp') 1 <> Z.land (b_dev bp) 1 \/ b_blockno bp' <> b_blockno bp) ->
  pending b' bp' old (mkMachine s v d) -> pending b' bp' old (mkMachine s' v' d') \/ finished b' bp' old (mkMachine s' v' d').
Proof.
  intros Hok Hok' Hb Hk Ha Hne (Q0 & Hok0 & Hb' & Hk' & Hs). pose proof (io_nodup _ _ Hok) as Hnd. apply NoDup_cons in Hnd as [HbQ _].
  assert (Eq : Q0 = b :: Q).
  { pose proof (io_chain _ _ Hok) as C1. pose proof (io_chain _ _ Hok0) as C2. revert C1 C2. clear. generalize (b :: Q) as Q1. generalize (v_idequeue (mc_v (mkMachine s v d))).
    intros from Q1. revert from Q0. induction Q1 as [|x Q1 IH]; intros from [|y Q0] C1 C2; cbn in *; try done; destruct_and?; try congruence.
    assert (x = y) as -> by congruence. f_equal. by eapply IH. }
  subst Q0. unfold secs in Hs. cbn [mc_k mc_d] in Hk', Hs. destruct (decide (b' = b)) as [->|Hbb].
  - right. rewrite Hb in Hk'. injection Hk' as <-. exists Q. split_and!; [done|done| |].
    + cbn [mc_k]. rewrite Hk, <- Hs. apply list_lookup_insert_eq. by eapply lookup_lt_Some.
    + unfold secs. cbn [mc_d]. rewrite Ha. unfold serve_sec, sec_write. destruct (dirty bp); [by rewrite !Z.eqb_refl|done].
  - left. exists Q. split_and!; [done|set_solver| |].
    + cbn [mc_k]. by rewrite Hk, list_lookup_insert_ne by done.
    + unfold secs. cbn [mc_d]. rewrite Ha. unfold serve_sec, sec_write. destruct (dirty bp); [|done].
      replace ((Z.land (b_dev bp') 1 =? Z.land (b_dev bp) 1) && (b_blockno bp' =? b_blockno bp)) with false; [done|].
      symmetry. apply andb_false_iff. rewrite !Z.eqb_neq. by destruct Hne.
Qed.
End Queue.

(** The memory disk of [memide.c] does the same to a buffer and its block. *)
Lemma memide_serves s b bp : holdingsleep (SL_buf b) s = Ret true s -> k_bufs s !! b = Some bp -> buf_req bp -> b_dev bp = 1 -> b_blockno bp < d_size (k_disk s) ->
  exists s', Bio.iderw b s = Ret tt s' /\ k_bufs s' = <[b := served (d_blocks (k_disk s) (b_blockno bp)) bp]> (k_bufs s) /\
    forall y, d_blocks (k_disk s') y = serve_sec bp (fun _ => d_blocks (k_disk s)) 1 y.
Proof.
  intros Hh Hb [Hw Hn Hl] Hd Hz. unfold Bio.iderw. erewrite bind_run by exact Hh. cbn [negb]. erewrite bind_run by (apply getbuf_eq; exact Hb).
  rewrite (proj2 (Z.eqb_neq _ _) Hw), Hd. cbn [Z.eqb Pos.eqb negb]. rewrite bind_gets, (proj2 (Z.leb_gt _ _)) by done.
  assert (Hlt : (b < length (k_bufs s))%nat) by (by eapply lookup_lt_Some). unfold served, serve_sec. fold (dirty bp). rewrite Hd.
  assert (Hfl : forall f, Z.land (Z.lor f B_VALID) (Z.lnot B_DIRTY) = Z.lor (Z.land f (Z.lnot B_DIRTY)) B_VALID) by (intros f; by rewrite Z.land_lor_distr_l).
  destruct (dirty bp) eqn:Ed.
  - erewrite bind_run by (erewrite bind_run by (apply updbuf_eq; exact Hb); reflexivity).
    erewrite updbuf_eq by (cbn [k_bufs set_k_bufs set_k_disk]; apply list_lookup_insert_eq; exact Hlt). eexists. split; [reflexivity|]. cbn [k_bufs set_k_bufs set_k_disk].
    rewrite list_insert_insert_eq, Hfl. split; [done|]. intros y. done.
  - erewrite bind_run by (apply updbuf_eq; exact Hb). erewrite updbuf_eq by (cbn [k_bufs set_k_bufs]; apply list_lookup_insert_eq; exact Hlt).
    eexists. split; [reflexivity|]. cbn [k_bufs set_k_bufs]. rewrite list_insert_insert_eq. split; [|done]. do 2 f_equal. cbn [b_flags set_b_data].
    unfold dirty in Ed. apply negb_false_iff, Z.eqb_eq in Ed. rewrite Hfl. f_equal. apply Z.bits_inj'. intros n Hn'. rewrite Z.land_spec, Z.lnot_spec by done.
    assert (T : Z.testbit (Z.land (b_flags bp) B_DIRTY) n = false) by (rewrite Ed; apply Z.bits_0). rewrite Z.land_spec in T. by destruct (Z.testbit (b_flags bp) n), (Z.testbit B_DIRTY n).
Qed.

(** * The theorems *)

(** C12: A process that calls [iderw] for a locked buffer while other requests wait gets its buffer appended to the queue,
    sleeps on the buffer, and changes no buffer and no sector until then. Whenever it is switched back, as long as the
    others leave its request alone until it is done, it keeps waiting or returns; it returns with [idelock] released
    and the buffer valid, holding the sector's contents if it was to be read, and then stored in the sector if it was
    dirty. If the request is done when the process is switched back, it returns at once. *)
Theorem iderw_synchronous {D} `{Ata D} `{WaitFuel} s v d q b bp Q :
  (at_latency <= wait_fuel)%nat -> (1 <= wait_fuel)%nat -> free_thread q s -> holdingsleep (SL_buf b) s = Ret true s -> k_bufs s !! b = Some bp -> buf_req bp ->
  (b_dev bp = 0 \/ v_havedisk1 v <> 0) -> ide_ok (mkMachine s v d) Q -> b ∉ Q -> (length Q < Z.to_nat NBUF)%nat ->
  let old := a_sec (at_ d) (Z.land (b_dev bp) 1) (b_blockno bp) in
  exists st1 k, iderw b (mkMachine s v d) = Swtch st1 k /\ ide_ok st1 (Q ++ [b]) /\ k_bufs (mc_k st1) = k_bufs s /\ secs st1 = a_sec (at_ d) /\
    waiting q b bp old st1 /\
    (forall st2, rely q b bp old st1 st2 ->
       rg (waiting q b bp old) (rely q b bp old) (fun _ st' => free_thread q (mc_k st') /\ finished b bp old st') (k st2)) /\
    (forall st2, resumed q (mc_k st2) -> finished b bp old st2 ->
       exists s', k st2 = Ret tt (mkMachine s' (mc_v st2) (mc_d st2)) /\ free_thread q s' /\ rest s' = rest (mc_k st2)).
Proof.
  intros Hl Hf1 Hft Hh Hb Hr Hv Hok HbQ Hn old.
  destruct (iderw_start Hl s v d q b bp Q) as (s1 & v1 & d1 & E & Hin & Hrs & Hps & Hok1 & S1 & _ & _); [done..|].
  assert (Hb1 : k_bufs s1 = k_bufs s) by exact (f_equal k_bufs Hrs).
  assert (Hp : pending b bp old (mkMachine s1 v1 d1)) by (exists (Q ++ [b]); split_and!; [done|set_solver|cbn; by rewrite Hb1|unfold secs; cbn; by rewrite S1]).
  destruct (sleep_lk (Ch_buf b) L_ide q s1 v1 d1) as (s2 & k & pr & E2 & Hr2 & Hpr & Hp2 & Hk); [done|done|].
  destruct wait_fuel as [|fuel] eqn:Efuel; [lia|].
  exists (mkMachine s2 v1 d1), (fun st => obind (obind (k st) (fun _ => while_loop fuel (let! bp := lk (getbuf b) in ret (negb (Z.land (b_flags bp) (Z.lor B_VALID B_DIRTY) =? B_VALID)))%km (lk (sleep (Ch_buf b) L_ide)))) (fun _ => lk (release L_ide))).
  split_and!.
  - rewrite E. unfold ide_wait. rewrite Efuel. unfold bind at 1. erewrite while_true by (by eapply ide_cond_pending). unfold bind at 1. rewrite E2. reflexivity.
  - by eapply ide_ok_rest.
  - cbn. by rewrite (f_equal k_bufs Hr2 : k_bufs s2 = k_bufs s1).
  - unfold secs. cbn. by rewrite S1.
  - split; [by eapply pending_rest|]. exists pr. cbn [mc_k]. rewrite Hp2. apply list_lookup_insert_eq. by eapply lookup_lt_Some.
  - intros [s3 v3 d3] [Hrs3 Hre]. destruct (Hk _ Hrs3) as (s4 & E4 & Hr4 & Hin4). rewrite E4. cbn [obind mc_v mc_d mc_k] in *.
    apply (rg_bind _ _ (while_loop _ _ _) (fun _ => lk (release L_ide))).
    eapply rg_mono; [|apply (ide_wait_rg q b bp old fuel Hr); [done|]].
    + intros [] [s5 v5 d5] [Hin5 Hf5]. destruct (release_inside L_ide q s5 Hin5) as (s6 & E6 & Hft6 & Hr6 & _). erewrite lk_ret by exact E6. cbn [rg mc_k mc_v mc_d].
      split; [done|by eapply finished_rest].
    + destruct Hre as [Hp3|Hf3]; [by eapply pending_rest|left; by eapply pending_rest|right; by eapply finished_rest].
  - intros [s3 v3 d3] Hrs3 Hfin. destruct (Hk _ Hrs3) as (s4 & E4 & Hr4 & Hin4). rewrite E4. cbn [obind mc_v mc_d mc_k] in *.
    erewrite while_false by (eapply ide_cond_finished, finished_rest; [exact Hr4|exact Hfin]). cbn [obind].
    destruct (release_inside L_ide q s4 Hin4) as (s6 & E6 & Hft6 & Hr6 & _). exists s6. split_and!; [by erewrite lk_ret by exact E6|done|congruence].
Qed.

(** C13: When the controller has done the first request of the queue and raises its interrupt, [ideintr] returns: it makes
    that buffer and the sectors what the memory disk's [iderw] would make them, wakes the processes that sleep on the buffer
    and starts the next request of the queue. Every other waiting request for another block still waits. *)
Theorem ideintr_refines_memide {D} `{Ata D} `{WaitFuel} s v d d1 b bp Q i c :
  (at_latency <= wait_fuel)%nat -> ide_ok (mkMachine s v d) (b :: Q) -> k_bufs s !! b = Some bp -> b_dev bp = 1 -> at_ d1 = ata_done (at_ d) -> a_err (at_ d) = false ->
  on_cpu (k_hw s) i c -> lock_free (k_hw s) L_ide -> lock_free (k_hw s) L_ptable -> table_ok s ->
  exists s' v' d', ideintr (mkMachine s v d1) = Ret tt (mkMachine s' v' d') /\ ide_ok (mkMachine s' v' d') Q /\ k_proc s' = wake (Some (Ch_buf b)) <$> k_proc s /\
    (forall sm, k_bufs sm = k_bufs s -> (forall y, d_blocks (k_disk sm) y = a_sec (at_ d) 1 y) -> holdingsleep (SL_buf b) sm = Ret true sm -> d_size (k_disk sm) = FSSIZE ->
       exists sm', Bio.iderw b sm = Ret tt sm' /\ k_bufs s' = k_bufs sm' /\ forall y, a_sec (at_ d') 1 y = d_blocks (k_disk sm') y) /\
    (forall b' bp' old, b' = b \/ Z.land (b_dev bp') 1 <> 1 \/ b_blockno bp' <> b_blockno bp -> pending b' bp' old (mkMachine s v d) ->
       pending b' bp' old (mkMachine s' v' d') \/ finished b' bp' old (mkMachine s' v' d')).
Proof.
  intros Hl Hok Hb Hdev Hd He Hc Hli Hlp Ht. destruct (ideintr_ok Hl s v d d1 b bp Q i c) as (v' & d' & E & Hok' & S' & _); [done..|].
  eexists _, v', d'. split; [exact E|]. split; [done|]. split; [done|]. split.
  - intros sm Hkm Hdm Hhm Hsz. destruct (io_bufs _ _ Hok b) as (bx & Ex & Hr); [set_solver|]. cbn [mc_k] in Ex. rewrite Hb in Ex. injection Ex as <-.
    destruct (memide_serves sm b bp) as (sm' & Em & Hbm & Hsm); [done|by rewrite Hkm|done|done|rewrite Hsz; apply Hr|].
    exists sm'. split; [done|]. split.
    + cbn [k_bufs set_k_proc set_k_bufs]. by rewrite Hbm, Hkm, Hdm, Hdev.
    + intros y. rewrite Hsm, S'. unfold serve_sec, sec_write. destruct (dirty bp); [|by rewrite Hdm]. by rewrite Hdm.
  - intros b' bp' old Hne Hp. eapply ideintr_keeps; [exact Hl|exact Hok|exact Hok'|exact Hb|done|exact S'| |exact Hp]. by rewrite Hdev.
Qed.

(** A failed read is not reported: the buffer becomes valid with whatever it held before. *)
Theorem ideintr_error_valid {D} `{Ata D} `{WaitFuel} s v d d1 b bp i c :
  (at_latency <= wait_fuel)%nat -> ide_ok (mkMachine s v d) [b] -> k_bufs s !! b = Some bp -> dirty bp = false -> a_err (at_ d1) = true ->
  on_cpu (k_hw s) i c -> lock_free (k_hw s) L_ide -> lock_free (k_hw s) L_ptable -> table_ok s ->
  exists s' v' d', ideintr (mkMachine s v d1) = Ret tt (mkMachine s' v' d') /\ k_bufs s' = <[b := served (b_data bp) bp]> (k_bufs s).
Proof.
  intros Hl Hok Hb Hdy He Hc Hli Hlp Ht. destruct (io_chain _ _ Hok) as [Hq1 Hq2]. cbn [mc_v qchain] in *.
  unfold ideintr. erewrite bind_run by (apply lk_ret, acquire_eq; done). cbn [mc_k mc_v mc_d]. set (s1 := set_k_hw _ s).
  unfold getv at 1. rewrite bind_gets. cbn [mc_v]. rewrite Hq1. unfold getv at 1. rewrite bind_gets. unfold updv at 1. rewrite bind_modify. cbn [mc_k mc_v mc_d]. rewrite Hq2.
  erewrite bind_run by (apply lk_ret, getbuf_eq; exact Hb). cbn [mc_k mc_v mc_d].
  destruct (idewait_ok Hl true s1 (set_v_idequeue None v) d1) as (d2 & E2 & _). rewrite He in E2. cbn [andb] in E2.
  assert (Hlt : (b < length (k_bufs s))%nat) by (by eapply lookup_lt_Some).
  erewrite bind_run by (pose proof Hdy as Hz; unfold dirty in Hz; apply negb_false_iff in Hz; rewrite Hz; erewrite bind_run by exact E2; reflexivity).
  erewrite bind_run by (apply lk_ret, updbuf_eq; exact Hb). cbn [mc_k mc_v mc_d].
  erewrite bind_run by (apply lk_ret, updbuf_eq; apply list_lookup_insert_eq; exact Hlt). cbn [mc_k mc_v mc_d k_bufs set_k_bufs]. rewrite list_insert_insert_eq.
  erewrite bind_run; [|apply lk_ret; apply (wakeup_eq (Ch_buf b) _ i (cpu_pushed c)); [by apply on_cpu_lock|by apply lock_free_other|done]].
  cbn [mc_k mc_v mc_d]. unfold getv. rewrite bind_gets. cbn [mc_v v_idequeue set_v_idequeue]. erewrite bind_run by reflexivity.
  eexists _, _, _. split; [by erewrite lk_ret by (by apply (release_eq _ (k_hw s) i c))|]. cbn [k_bufs set_k_hw set_k_proc set_k_bufs].
  unfold served. rewrite Hdy. by destruct bp.
Qed.

(** * A controller that is always ready *)

#[export] Instance ata_device : Device ata := {
  d_inb := fun port a => if port =? 503 then (Z.lor IDE_DRDY (if a_err a then IDE_ERR else 0), ata_done a) else (0, a);
  d_outb := fun port x a =>
    if port =? 503 then
      if x =? IDE_CMD_READ then set_a_op (Some (A_read (ata_drive a) (ata_sector a))) a
      else if x =? IDE_CMD_WRITE then set_a_op (Some (A_wait (ata_drive a) (ata_sector a))) a else a
    else ata_reg port x a;
  d_insl := fun port n a => match a_op a with Some (A_data data) => (data, set_a_op None a) | _ => (replicate (4 * n) 0, a) end;
  d_outsl := fun port data a => match a_op a with Some (A_wait x y) => set_a_op (Some (A_write x y data)) a | _ => a end;
  d_read := fun _ a => (0, a);
  d_write := fun _ _ a => a
}.

#[export] Instance ata_ata : Ata ata.
Proof.
  refine {| at_ := fun a => a; at_polls := fun _ => 0%nat; at_latency := 0%nat |}.
  - done.
  - intros a. eexists _, _. split; [reflexivity|]. split_and!; [by destruct (a_err a)|done|by destruct (a_err a)..].
  - done.
  - intros a port x Hp. cbn. by rewrite (proj2 (Z.eqb_neq port 503)) by lia.
  - done.
  - done.
  - intros a x y data Ho _. cbn. by rewrite Ho.
  - intros a data Ho _. exists (set_a_op None a). cbn. by rewrite Ho.
Defined.

Definition demo_ata : ata := mkAta (fun _ y => replicate 512 y) 0 0 0 0 0 None false.
(** A buffer to read, and a dirty one that is queued. *)
Definition demo_buf : buf := set_b_dev 1 (set_b_blockno 5 buf0).
Definition demo_dirty : buf := set_b_flags 6 (set_b_dev 1 (set_b_blockno 7 buf0)).
Definition demo_ide : kernel := set_k_sleeplocks {[ SL_buf 0 := mkSleeplock 1 1 ]} (set_k_bufs [demo_buf; demo_dirty] kernel_run).
Definition demo_drivers : drivers := set_v_idequeue (Some 1%nat) (set_v_havedisk1 1 drivers0).
Definition demo_busy : ata := set_a_op (Some (request demo_dirty)) demo_ata.

Lemma demo_ide_ok : ide_ok (mkMachine demo_ide demo_drivers demo_busy) [1%nat].
Proof.
  constructor.
  - done.
  - apply NoDup_singleton.
  - vm_compute. lia.
  - intros b ->%list_elem_of_singleton. exists demo_dirty. split; [done|]. constructor; cbn; done.
  - by exists demo_dirty.
  - intros x y. apply length_replicate.
Qed.

Lemma iderw_synchronous_witness : exists st1 k, @iderw ata _ 1%nat 0 (mkMachine demo_ide demo_drivers demo_busy) = Swtch st1 k /\ ide_ok st1 [1%nat; 0%nat] /\
  waiting 0 0 demo_buf (replicate 512 5) st1.
Proof.
  destruct (@iderw_synchronous ata _ _ 1%nat demo_ide demo_drivers demo_busy 0 0 demo_buf [1%nat]) as (st1 & k & E & Hok & _ & _ & Hw & _).
  - vm_compute. lia.
  - vm_compute. lia.
  - constructor; [|done|done]. exists 0%nat, cpu_run, proc_run. split; [|done]. constructor; [apply thread_run|done|done].
  - vm_compute. reflexivity.
  - done.
  - constructor; cbn; done.
  - right. done.
  - exact demo_ide_ok.
  - set_solver.
  - vm_compute. lia.
  - exists st1, k. split; [exact E|]. split; [exact Hok|exact Hw].
Defined.

Lemma ideintr_refines_memide_witness : exists s' v' d', @ideintr ata _ 1%nat (mkMachine demo_ide demo_drivers (ata_done demo_busy)) = Ret tt (mkMachine s' v' d') /\
  ide_ok (mkMachine s' v' d') [].
Proof.
  destruct (@ideintr_refines_memide ata _ _ 1%nat demo_ide demo_drivers demo_busy (ata_done demo_busy) 1 demo_dirty [] 0 cpu_run) as (s' & v' & d' & E & Hok & _).
  - vm_compute. lia.
  - exact demo_ide_ok.
  - done.
  - done.
  - done.
  - done.
  - apply thread_run.
  - done.
  - done.
  - done.
  - exists s', v', d'. split; [exact E|exact Hok].
Defined.
