(* ===== verification/Seg.v ===== *)
(** Protection: the segment and interrupt descriptors that the kernel installs ([seginit] and [switchuvm] of [vm.c],
    [tvinit] and [idtinit] of [trap.c], [lgdt], [lidt] and [ltr] of [x86.h]), and what they let the processor do. *)

From S2P Require Import Prelude Bytes Params State Spinlock Mmu Vm Dev Kbd Ide.
From stdpp Require Import base list gmap strings.
From Stdlib Require Import ZArith Lia.
Local Open Scope Z_scope.
Local Open Scope km_scope.

(** Addresses that the build decides: the entry points of [vectors.S] and the place of [cpus[i].ts]. *)
Class Symbols : Type := {
  vectors : Z -> Z;
  ts_addr : nat -> Z;
  vectors_range : forall i, 0 <= i < 256 -> 0 <= vectors i < 2 ^ 32;
  ts_range : forall i, (i < 8)%nat -> 0 <= ts_addr i < 2 ^ 32;
  ts_distinct : forall i j, (i < 8)%nat -> (j < 8)%nat -> ts_addr i = ts_addr j -> i = j
}.

Section Code.
Context {D : Type} `{Device D} `{Symbols}.

Definition updt (f : tables -> tables) : MD (D := D) unit := updv (fun v => set_v_tables (f (v_tables v)) v).

(** [cpus[i].gdt[k] = d], [idt[i] = g] and a store to [cpus[i].ts]. *)
Definition setgdt (i : nat) (k : Z) (f : segdesc -> segdesc) : MD (D := D) unit := updt (fun t => set_t_gdt (alter (alter f (Z.to_nat k)) i (t_gdt t)) t).
Definition setidt (i : Z) (g : gatedesc) : MD (D := D) unit := updt (fun t => set_t_idt (<[Z.to_nat i := g]> (t_idt t)) t).
Definition setts (i : nat) (f : taskstate -> taskstate) : MD (D := D) unit := updt (fun t => set_t_ts (alter f i (t_ts t)) t).

Definition lgdt (i : nat) (size : Z) : MD (D := D) unit := updt (set_t_gdtr (Some (i, u16 (size - 1)))).
Definition lidt (size : Z) : MD (D := D) unit := updt (set_t_idtr (Some (u16 (size - 1)))).
Definition ltr (sel : Z) : MD (D := D) unit := updt (set_t_tr sel).

Definition seginit : MD (D := D) unit :=
  let! c := lk cpuid in
  setgdt c SEG_KCODE (fun _ => SEG (Z.lor STA_X STA_R) 0 4294967295 0) ;;
  setgdt c SEG_KDATA (fun _ => SEG STA_W 0 4294967295 0) ;;
  setgdt c SEG_UCODE (fun _ => SEG (Z.lor STA_X STA_R) 0 4294967295 DPL_USER) ;;
  setgdt c SEG_UDATA (fun _ => SEG STA_W 0 4294967295 DPL_USER) ;;
  lgdt c (8 * NSEGS).

Definition tvinit : MD (D := D) unit :=
  for_each (range 256) (fun i => setidt (Z.of_nat i) (SETGATE false (Z.shiftl SEG_KCODE 3) (vectors (Z.of_nat i)) 0)) ;;
  setidt T_SYSCALL (SETGATE true (Z.shiftl SEG_KCODE 3) (vectors T_SYSCALL) DPL_USER) ;;
  lk (initlock L_ticks).

Definition idtinit : MD (D := D) unit := lidt (8 * 256).

(** The whole of [switchuvm]. The [esp0] of the task state is kept in [c_esp0] too. *)
Definition switchuvm (op : option nat) : MD (D := D) unit :=
  match op with
  | None => panic "switchuvm: no process"
  | Some p =>
      let! pr := lk (getproc p) in
      if p_kstack pr =? 0 then panic "switchuvm: no kstack" else
      if p_pgdir pr =? 0 then panic "switchuvm: no pgdir" else
      lk pushcli ;;
      let! i := lk mycpu in
      setgdt i SEG_TSS (fun _ => SEG16 STS_T32A (ts_addr i) (TASKSTATE_SIZE - 1) 0) ;;
      let! i := lk mycpu in
      setgdt i SEG_TSS (set_sd_s 0) ;;
      let! i := lk mycpu in
      setts i (set_ts_ss0 (Z.shiftl SEG_KDATA 3)) ;;
      let! i := lk mycpu in
      setts i (set_ts_esp0 (u32 (p_kstack pr + KSTACKSIZE))) ;;
      lk (updcpu i (set_c_esp0 (u32 (p_kstack pr + KSTACKSIZE)))) ;;
      let! i := lk mycpu in
      setts i (set_ts_iomb 65535) ;;
      ltr (Z.shiftl SEG_TSS 3) ;;
      lk (lcr3 (V2P (p_pgdir pr))) ;;
      lk popcli
  end.
End Code.

(** * The processor *)

(** How an x86 processor takes an interrupt: through the gate of its vector, which software may use only with the
    gate's privilege; into the gate's code segment, which must not be less privileged; and on the stack that the task
    state has for the new privilege. [None] is a fault. *)
Section Processor.
Context `{Symbols}.

Definition segment_at (t : tables) (sel : Z) : option segment :=
  match t_gdtr t with
  | Some (i, lim) =>
      if (sel / 8 =? 0) || (lim <? 8 * (sel / 8) + 7) then None else
      gdt ← t_gdt t !! i; d ← gdt !! Z.to_nat (sel / 8); Some (x_segment (segdesc_word d))
  | None => None
  end.

Definition task_at (t : tables) (base : Z) : option taskstate :=
  i ← find (fun i => ts_addr i =? base) (seq 0 8); t_ts t !! i.

(** The task state that the task register selects, and its limit. *)
Definition task (t : tables) : option (taskstate * Z) :=
  s ← segment_at t (t_tr t);
  if negb (x_app s) && x_present s && (x_type s =? STS_T32A) then ts ← task_at t (x_base s); Some (ts, x_limit s) else None.

Definition code_ok (cpl : Z) (s : segment) : bool := x_app s && Z.testbit (x_type s) 3 && x_present s && (x_dpl s <=? cpl).
Definition stack_ok (cpl : Z) (s : segment) : bool :=
  x_app s && negb (Z.testbit (x_type s) 3) && Z.testbit (x_type s) 1 && x_present s && (x_dpl s =? cpl).

Record arrival : Type := mkArrival { ar_cpl : Z; ar_eip : Z; ar_stack : option (Z * Z); ar_masked : bool }.

Definition deliver (t : tables) (cpl : Z) (software : bool) (n : Z) : option arrival :=
  lim ← t_idtr t;
  if lim <? 8 * n + 7 then None else
  d ← t_idt t !! Z.to_nat n;
  let g := x_gate (gatedesc_word d) in
  if software && (x_gdpl g <? cpl) then None else
  if negb (x_gpresent g && x_sys g && ((x_kind g =? STS_IG32) || (x_kind g =? STS_TG32))) then None else
  cs ← segment_at t (x_sel g);
  if negb (code_ok cpl cs && (x_off g <=? x_limit cs)) then None else
  if x_dpl cs <? cpl then
    '(ts, _) ← task t;
    ss ← segment_at t (ts_ss0 ts);
    if stack_ok (x_dpl cs) ss then Some (mkArrival (x_dpl cs) (x_off g) (Some (ts_ss0 ts, ts_esp0 ts)) (x_kind g =? STS_IG32)) else None
  else Some (mkArrival (x_dpl cs) (x_off g) None (x_kind g =? STS_IG32)).

(** May code at privilege [cpl] with I/O privilege [iopl] use a port? Otherwise the permission map of the task decides,
    which must be inside the task state segment. *)
Definition port_allowed (t : tables) (cpl iopl port : Z) : bool :=
  (cpl <=? iopl) ||
  match task t with
  | Some (ts, lim) => ts_iomb ts + port / 8 + 1 <=? lim
  | None => false
  end.
End Processor.

(** * What the kernel installs *)

Section Installed.
Context {D : Type} `{Device D} `{Symbols}.
Implicit Types (s : kernel) (v : drivers) (d : D) (t : tables).

Definition kernel_gate (n : Z) : gatedesc := SETGATE (n =? T_SYSCALL) 8 (vectors n) (if n =? T_SYSCALL then DPL_USER else 0).

Record tables_ok t : Prop := {
  to_gdt : length (t_gdt t) = 8%nat;
  to_segs : Forall (fun g => length g = 6%nat) (t_gdt t);
  to_ts : length (t_ts t) = 8%nat;
  to_idt : length (t_idt t) = 256%nat
}.

(** The flat segments of processor [i], loaded. *)
Record flat_segments t (i : nat) : Prop := {
  fl_gdtr : t_gdtr t = Some (i, 47);
  fl_gdt : exists gdt, t_gdt t !! i = Some gdt /\ gdt !! 1%nat = Some (SEG 10 0 4294967295 0) /\ gdt !! 2%nat = Some (SEG 2 0 4294967295 0) /\
    gdt !! 3%nat = Some (SEG 10 0 4294967295 3) /\ gdt !! 4%nat = Some (SEG 2 0 4294967295 3)
}.

Definition gates t : Prop := forall n, 0 <= n < 256 -> t_idt t !! Z.to_nat n = Some (kernel_gate n).

(** The task state of processor [i] with its kernel stack, loaded. *)
Record task_loaded t (i : nat) (esp0 : Z) : Prop := {
  tl_tr : t_tr t = 40;
  tl_desc : exists gdt, t_gdt t !! i = Some gdt /\ gdt !! 5%nat = Some (set_sd_s 0 (SEG16 STS_T32A (ts_addr i) 103 0));
  tl_ts : exists ts, t_ts t !! i = Some ts /\ ts_ss0 ts = 16 /\ ts_esp0 ts = esp0 /\ ts_iomb ts = 65535
}.

Lemma tables_ok_gdt t i k f : tables_ok t -> tables_ok (set_t_gdt (alter (alter f k) i (t_gdt t)) t).
Proof.
  intros [O1 O2 O3 O4]. constructor; cbn; rewrite ?length_alter; try done. apply Forall_alter; [done|]. intros x Hx Hl. by rewrite length_alter.
Qed.

Lemma gdt_alter (g : list (list segdesc)) i gdt f : g !! i = Some gdt -> alter f i g !! i = Some (f gdt).
Proof. intros Hg. by rewrite list_lookup_alter_eq, Hg. Qed.

Lemma seginit_ok s v d i c : tables_ok (v_tables v) -> cur_cpu (k_hw s) i c -> h_IF (k_hw s) = false -> (i < 8)%nat ->
  exists t, seginit (mkMachine s v d) = Ret tt (mkMachine s (set_v_tables t v) d) /\ tables_ok t /\ flat_segments t i.
Proof.
  intros Ho Hc HIF Hi. unfold seginit. erewrite bind_run by (eapply lk_ret; by eapply mycpu_eq). cbn [mc_v mc_d].
  destruct (lookup_lt_is_Some_2 (t_gdt (v_tables v)) i) as [gdt Hg]; [rewrite (to_gdt _ Ho); lia|].
  assert (Hl : length gdt = 6%nat) by (pose proof (to_segs _ Ho) as O2; rewrite Forall_forall in O2; apply O2; by eapply list_elem_of_lookup_2).
  do 6 (destruct gdt as [|? gdt]; [done|]). destruct gdt; [|done].
  eexists. split; [reflexivity|]. split.
  - pose proof (tables_ok_gdt _ i (Z.to_nat SEG_UDATA) (fun _ => SEG STA_W 0 4294967295 DPL_USER)
      (tables_ok_gdt _ i (Z.to_nat SEG_UCODE) (fun _ => SEG (Z.lor STA_X STA_R) 0 4294967295 DPL_USER)
      (tables_ok_gdt _ i (Z.to_nat SEG_KDATA) (fun _ => SEG STA_W 0 4294967295 0)
      (tables_ok_gdt _ i (Z.to_nat SEG_KCODE) (fun _ => SEG (Z.lor STA_X STA_R) 0 4294967295 0) Ho)))) as [? ? ? ?]. by constructor.
  - constructor; [done|]. eexists. split; [do 4 (apply gdt_alter); exact Hg|]. done.
Qed.

Lemma setidt_loop s d g n : forall a v, (a + n <= length (t_idt (v_tables v)))%nat ->
  exists idt, for_each (seq a n) (fun i => setidt (Z.of_nat i) (g i)) (mkMachine s v d) = Ret tt (mkMachine s (set_v_tables (set_t_idt idt (v_tables v)) v) d) /\
    length idt = length (t_idt (v_tables v)) /\ (forall k, (a <= k < a + n)%nat -> idt !! k = Some (g k)) /\
    (forall k, (k < a)%nat -> idt !! k = t_idt (v_tables v) !! k).
Proof.
  induction n as [|n IH]; intros a v Hl; cbn [seq for_each].
  - exists (t_idt (v_tables v)). destruct v as [? ? ? ? ? ? ? ? [? ? ? ? ? ?]]. split; [done|]. split; [done|]. split; [lia|done].
  - set (v1 := set_v_tables (set_t_idt (<[a := g a]> (t_idt (v_tables v))) (v_tables v)) v).
    assert (E1 : setidt (Z.of_nat a) (g a) (mkMachine s v d) = Ret tt (mkMachine s v1 d)) by (unfold setidt, v1; by rewrite Nat2Z.id).
    erewrite bind_run by exact E1. destruct (IH (S a) v1) as (idt & E & E2 & E3 & E4); [cbn; rewrite length_insert; lia|].
    exists idt. split; [exact E|]. cbn in E2, E4. rewrite length_insert in E2. split; [done|]. split.
    + intros k Hk. destruct (decide (k = a)) as [->|]; [|apply E3; lia]. rewrite E4 by lia. apply list_lookup_insert_eq. lia.
    + intros k Hk. rewrite E4 by lia. apply list_lookup_insert_ne. lia.
Qed.

Lemma tvinit_ok s v d : tables_ok (v_tables v) ->
  exists t, tvinit (mkMachine s v d) = Ret tt (mkMachine (set_k_hw (putlock L_ticks lock_zero (k_hw s)) s) (set_v_tables t v) d) /\
    tables_ok t /\ gates t /\ t_gdtr t = t_gdtr (v_tables v) /\ t_gdt t = t_gdt (v_tables v).
Proof.
  intros [O1 O2 O3 O4]. unfold tvinit.
  destruct (setidt_loop s d (fun i => SETGATE false (Z.shiftl SEG_KCODE 3) (vectors (Z.of_nat i)) 0) 256 0 v) as (idt & E & E2 & E3 & _); [rewrite O4; done|].
  erewrite bind_run by exact E. eexists. split; [reflexivity|]. cbn. split; [constructor; cbn; by rewrite ?length_insert, ?E2|]. split; [|done].
  intros n Hn. cbn. unfold kernel_gate. destruct (Z.eqb_spec n T_SYSCALL) as [->|Hne].
  - by rewrite list_lookup_insert_eq by (rewrite E2, O4; vm_compute; lia).
  - rewrite list_lookup_insert_ne by (unfold T_SYSCALL in *; lia). rewrite E3 by lia. by rewrite Z2Nat.id by lia.
Qed.
(** The hardware state once process memory and kernel stack are switched. *)
Definition hw_user (i : nat) (c : cpu) (top cr3 : Z) (h : hw) : hw := set_h_cr3 cr3 (set_h_cpus (<[i := set_c_esp0 top c]> (h_cpus h)) h).

Lemma on_cpu_user i c top cr3 h : on_cpu h i c -> on_cpu (hw_user i c top cr3 h) i (set_c_esp0 top c).
Proof. intros [Hc Hn HI]. constructor; [|done|done]. by destruct (cur_cpu_upd h i c (set_c_esp0 top c) Hc eq_refl). Qed.

Lemma push_user i c top cr3 h : hw_push i (set_c_esp0 top c) (hw_user i c top cr3 h) =
  set_h_cr3 cr3 (set_h_cpus (<[i := set_c_esp0 top (cpu_pushed c)]> (h_cpus (hw_push i c h))) (hw_push i c h)).
Proof. unfold hw_push, hw_user, set_h_cr3, set_h_cpus, set_h_IF. cbn. by rewrite !list_insert_insert_eq. Qed.

(** The tables after [switchuvm]. *)
Definition user_tables (i : nat) (top : Z) t : tables :=
  mkTables (alter (alter (set_sd_s 0) 5%nat) i (alter (alter (fun _ => SEG16 STS_T32A (ts_addr i) 103 0) 5%nat) i (t_gdt t)))
    (alter (set_ts_iomb 65535) i (alter (set_ts_esp0 top) i (alter (set_ts_ss0 16) i (t_ts t)))) (t_idt t) (t_gdtr t) (t_idtr t) 40.

Lemma user_tables_ok i top t : tables_ok t -> (i < 8)%nat ->
  tables_ok (user_tables i top t) /\ task_loaded (user_tables i top t) i top /\ (flat_segments t i -> flat_segments (user_tables i top t) i).
Proof.
  intros Ho Hi. destruct (lookup_lt_is_Some_2 (t_gdt t) i) as [gdt Hg]; [rewrite (to_gdt _ Ho); lia|].
  assert (Hl : length gdt = 6%nat) by (pose proof (to_segs _ Ho) as O2; rewrite Forall_forall in O2; apply O2; by eapply list_elem_of_lookup_2).
  destruct (lookup_lt_is_Some_2 (t_ts t) i) as [ts Hts]; [rewrite (to_ts _ Ho); lia|].
  assert (Hg' : t_gdt (user_tables i top t) !! i = Some (alter (set_sd_s 0) 5%nat (alter (fun _ => SEG16 STS_T32A (ts_addr i) 103 0) 5%nat gdt)))
    by (cbn; by do 2 apply gdt_alter).
  split; [|split].
  - pose proof (tables_ok_gdt _ i 5 (set_sd_s 0) (tables_ok_gdt _ i 5 (fun _ => SEG16 STS_T32A (ts_addr i) 103 0) Ho)) as [O1 O2 O3 O4].
    constructor; [exact O1|exact O2| |exact O4]. cbn. by rewrite !length_alter.
  - constructor; [done| |].
    + eexists. split; [exact Hg'|]. do 6 (destruct gdt as [|? gdt]; [done|]). done.
    + exists (set_ts_iomb 65535 (set_ts_esp0 top (set_ts_ss0 16 ts))). split; [|done]. cbn. by rewrite !list_lookup_alter_eq, Hts.
  - intros [F1 (gdt' & F2 & F3)]. assert (gdt' = gdt) as -> by congruence. constructor; [done|]. eexists. split; [exact Hg'|].
    by do 6 (destruct gdt as [|? gdt]; [done|]).
Qed.

Lemma switchuvm_ok s v d p pr i c : on_cpu (k_hw s) i c -> (i < 8)%nat ->
  k_proc s !! p = Some pr -> p_kstack pr <> 0 -> p_pgdir pr <> 0 ->
  let top := u32 (p_kstack pr + KSTACKSIZE) in let s' := set_k_hw (hw_user i c top (V2P (p_pgdir pr)) (k_hw s)) s in
  Vm.switchuvm (Some p) s = Ret tt s' /\
  switchuvm (Some p) (mkMachine s v d) = Ret tt (mkMachine s' (set_v_tables (user_tables i top (v_tables v)) v) d).
Proof.
  intros Hc Hi Hp Hk Hd top s'. pose proof (on_cpu_push _ _ _ Hc) as Hpu. set (s1 := set_k_hw (hw_push i c (k_hw s)) s).
  assert (E1 : mycpu s1 = Ret i s1) by (by apply (mycpu_eq _ i (cpu_pushed c)); [apply Hpu|]).
  set (s2 := set_k_hw (set_h_cpus (<[i := set_c_esp0 top (cpu_pushed c)]> (h_cpus (k_hw s1))) (k_hw s1)) s1).
  assert (E2 : updcpu i (set_c_esp0 top) s1 = Ret tt s2) by (apply updcpu_eq, Hpu).
  assert (E3 : mycpu s2 = Ret i s2) by (apply (mycpu_eq _ i (set_c_esp0 top (cpu_pushed c))); [by apply (cur_cpu_upd _ _ (cpu_pushed c)); [apply Hpu|]|done]).
  set (s3 := set_k_hw (set_h_cr3 (V2P (p_pgdir pr)) (k_hw s2)) s2).
  assert (E4 : popcli s3 = Ret tt s').
  { rewrite (popcli_eq s3 (hw_user i c top (V2P (p_pgdir pr)) (k_hw s)) i (set_c_esp0 top c)); [done|by apply on_cpu_user|by rewrite push_user]. }
  assert (Ep : pushcli s = Ret tt s1) by (by apply pushcli_eq).
  split.
  - unfold Vm.switchuvm. erewrite bind_run by by apply getproc_eq. rewrite !(proj2 (Z.eqb_neq _ _)) by done.
    erewrite bind_run by exact Ep. erewrite bind_run by exact E1. erewrite bind_run by exact E2. by erewrite bind_run by reflexivity.
  - unfold switchuvm. erewrite bind_run by (eapply lk_ret; by apply getproc_eq). rewrite !(proj2 (Z.eqb_neq _ _)) by done.
    erewrite bind_run by (eapply lk_ret; exact Ep). cbn [mc_v mc_d].
    do 4 (erewrite bind_run by (eapply lk_ret; exact E1); cbn [mc_v mc_d mc_k]; erewrite bind_run by reflexivity; cbn [mc_v mc_d mc_k]).
    erewrite bind_run by (eapply lk_ret; exact E2). cbn [mc_v mc_d mc_k].
    erewrite bind_run by (eapply lk_ret; exact E3). cbn [mc_v mc_d mc_k].
    do 2 (erewrite bind_run by reflexivity; cbn [mc_v mc_d mc_k]).
    erewrite bind_run by (eapply lk_ret; reflexivity). cbn [mc_v mc_d mc_k]. erewrite lk_ret by exact E4. by destruct v as [? ? ? ? ? ? ? ? [? ? ? ? ? ?]].
Qed.

(** ** What the processor makes of it *)

Definition flat (type dpl : Z) : segment := mkSeg 0 4294967295 type true dpl true.

Lemma SEG_flat type dpl : 0 <= type < 16 -> 0 <= dpl < 4 -> x_segment (segdesc_word (SEG type 0 4294967295 dpl)) = flat type dpl.
Proof. intros Ht Hd. by rewrite SEG_read. Qed.

Lemma set_sd_s_read x : x_segment (segdesc_word (set_sd_s 0 x)) =
  let g := x_segment (segdesc_word x) in mkSeg (x_base g) (x_limit g) (x_type g) false (x_dpl g) (x_present g).
Proof. by rewrite !segdesc_read. Qed.

Lemma flat_at t i : flat_segments t i ->
  segment_at t 8 = Some (flat 10 0) /\ segment_at t 16 = Some (flat 2 0) /\ segment_at t 27 = Some (flat 10 3) /\ segment_at t 35 = Some (flat 2 3).
Proof.
  intros [F1 (gdt & F2 & G1 & G2 & G3 & G4)]. unfold segment_at. rewrite F1. cbn -[segdesc_word x_segment SEG]. rewrite F2. cbn -[segdesc_word x_segment SEG].
  change (Z.to_nat (8 / 8)) with 1%nat. change (Z.to_nat (16 / 8)) with 2%nat. change (Z.to_nat (27 / 8)) with 3%nat. change (Z.to_nat (35 / 8)) with 4%nat.
  rewrite G1, G2, G3, G4. cbn -[segdesc_word x_segment SEG]. by rewrite !SEG_flat.
Qed.

Lemma task_at_addr t i : (i < 8)%nat -> task_at t (ts_addr i) = t_ts t !! i.
Proof.
  intros Hi. unfold task_at. assert (E : find (fun j => ts_addr j =? ts_addr i) (seq 0 8) = Some i); [|by rewrite E].
  assert (Hgen : forall a n, (a <= i < a + n)%nat -> (a + n <= 8)%nat -> find (fun j => ts_addr j =? ts_addr i) (seq a n) = Some i); [|apply Hgen; lia].
  intros a n. revert a. induction n as [|n IH]; intros a Ha H8; [lia|]. cbn. destruct (Z.eqb_spec (ts_addr a) (ts_addr i)) as [E|Hne].
  - f_equal. apply ts_distinct; [lia|lia|done].
  - apply IH; [|lia]. destruct (decide (a = i)) as [->|]; [done|lia].
Qed.

Lemma task_ok t i top : (i < 8)%nat -> flat_segments t i -> task_loaded t i top ->
  exists ts, task t = Some (ts, 103) /\ ts_ss0 ts = 16 /\ ts_esp0 ts = top /\ ts_iomb ts = 65535.
Proof.
  intros Hi [F1 _] [T1 (gdt & T2 & T3) (ts & T4 & T5)]. exists ts. split; [|done]. unfold task, segment_at. rewrite F1, T1.
  change (Z.to_nat (40 / 8)) with 5%nat. change ((40 / 8 =? 0) || (47 <? 8 * (40 / 8) + 7)) with false. cbv iota. rewrite T2. cbn -[segdesc_word x_segment SEG16 set_sd_s task_at].
  rewrite T3. cbn -[segdesc_word x_segment SEG16 set_sd_s task_at]. rewrite set_sd_s_read, SEG16_read by (done || by apply ts_range).
  cbn -[task_at ts_addr].
  by rewrite task_at_addr, T4.
Qed.

Record protected t (i : nat) (top : Z) : Prop := {
  pt_flat : flat_segments t i;
  pt_idtr : t_idtr t = Some 2047;
  pt_gates : gates t;
  pt_task : task_loaded t i top
}.

Lemma gate_read n : 0 <= n < 256 -> x_gate (gatedesc_word (kernel_gate n)) =
  mkGate (vectors n) 8 (if n =? T_SYSCALL then STS_TG32 else STS_IG32) true (if n =? T_SYSCALL then 3 else 0) true.
Proof. intros Hn. unfold kernel_gate. rewrite SETGATE_read; [done|done|by apply vectors_range|by destruct (n =? T_SYSCALL)]. Qed.

Lemma deliver_protected t i top cpl software n : (i < 8)%nat -> protected t i top -> cpl = 0 \/ cpl = 3 -> 0 <= n < 256 ->
  deliver t cpl software n =
    if software && (cpl =? 3) && negb (n =? T_SYSCALL) then None
    else Some (mkArrival 0 (vectors n) (if cpl =? 3 then Some (16, top) else None) (negb (n =? T_SYSCALL))).
Proof.
  intros Hi [Hf Hr Hg Ht] Hcpl Hn. unfold deliver. rewrite Hr. cbn -[x_gate gatedesc_word segment_at Z.mul task stack_ok code_ok].
  destruct (Z.ltb_spec 2047 (8 * n + 7)); [lia|]. rewrite (Hg n Hn). cbn -[x_gate gatedesc_word segment_at Z.mul task stack_ok code_ok kernel_gate].
  rewrite gate_read by done. destruct (flat_at _ _ Hf) as (S1 & S2 & _). destruct (task_ok _ _ _ Hi Hf Ht) as (ts & T1 & T2 & T3 & _).
  pose proof (vectors_range n Hn) as Hv. assert (Hlim : (vectors n <=? 4294967295) = true) by lia.
  cbn [x_gdpl x_gpresent x_sys x_kind x_sel x_off]. rewrite S1.
  destruct Hcpl as [-> | ->], software, (n =? T_SYSCALL); cbn -[Z.leb segment_at task]; rewrite ?T1; cbn -[Z.leb segment_at task]; rewrite ?Hlim; cbn -[Z.leb segment_at task];
    rewrite ?T1; cbn -[Z.leb segment_at task]; rewrite ?T2, ?T3, ?S2; done.
Qed.
End Installed.

(** C17: After [seginit], [tvinit] and [idtinit], and [switchuvm] to a process, which do to the rest of the kernel's state
    what its model without descriptors does, the processor is set up so that: user and kernel segments are the whole
    address space with their own privilege; any interrupt or exception enters the kernel at the entry point of its
    vector, at privilege 0, and from user mode on the top of the process's kernel stack; the only vector that a user
    program can raise with [int] is [T_SYSCALL], which alone leaves interrupts on; and a user program cannot use any
    I/O port. *)
Theorem user_protection {D} `{Device D} `{Symbols} s v (d : D) i c p pr : tables_ok (v_tables v) -> on_cpu (k_hw s) i c -> h_IF (k_hw s) = false -> (i < 8)%nat ->
  k_proc s !! p = Some pr -> p_kstack pr <> 0 -> p_pgdir pr <> 0 ->
  exists s' t,
    (seginit ;; tvinit ;; idtinit ;; switchuvm (Some p)) (mkMachine s v d) = Ret tt (mkMachine s' (set_v_tables t v) d) /\
    (initlock L_ticks ;; Vm.switchuvm (Some p)) s = Ret tt s' /\
    segment_at t (Z.lor (Z.shiftl SEG_KCODE 3) 0) = Some (flat 10 0) /\ segment_at t (Z.lor (Z.shiftl SEG_KDATA 3) 0) = Some (flat 2 0) /\
    segment_at t (Z.lor (Z.shiftl SEG_UCODE 3) 3) = Some (flat 10 3) /\ segment_at t (Z.lor (Z.shiftl SEG_UDATA 3) 3) = Some (flat 2 3) /\
    (forall n, 0 <= n < 256 ->
       deliver t 0 false n = Some (mkArrival 0 (vectors n) None (negb (n =? T_SYSCALL))) /\
       deliver t 3 false n = Some (mkArrival 0 (vectors n) (Some (16, u32 (p_kstack pr + KSTACKSIZE))) (negb (n =? T_SYSCALL))) /\
       deliver t 3 true n = if n =? T_SYSCALL then Some (mkArrival 0 (vectors n) (Some (16, u32 (p_kstack pr + KSTACKSIZE))) false) else None) /\
    (forall port, 0 <= port < 2 ^ 16 -> port_allowed t 3 0 port = false).
Proof.
  intros Ho Hc HIF Hi Hp Hk Hd. destruct (seginit_ok s v d i c Ho (oc_cur _ _ _ Hc) HIF Hi) as (t1 & E1 & O1 & F1).
  destruct (tvinit_ok s (set_v_tables t1 v) d O1) as (t2 & E2 & O2 & G2 & G3 & G4). cbn [v_tables set_v_tables] in G3, G4.
  set (s1 := set_k_hw (putlock L_ticks lock_zero (k_hw s)) s) in *. set (t3 := set_t_idtr (Some 2047) t2).
  assert (Hc1 : on_cpu (k_hw s1) i c) by (destruct Hc as [Hcc Hn HI]; constructor; [by apply cur_cpu_locks|done|done]).
  destruct (switchuvm_ok s1 (set_v_tables t3 v) d p pr i c Hc1 Hi Hp Hk Hd) as [K E4].
  assert (O3 : tables_ok t3) by (by destruct O2). assert (F3 : flat_segments t3 i) by (destruct F1 as [A B]; constructor; cbn; [by rewrite G3|by rewrite G4]).
  set (top := u32 (p_kstack pr + KSTACKSIZE)) in *. destruct (user_tables_ok i top t3 O3 Hi) as (O4 & T4 & F4). specialize (F4 F3).
  eexists _, (user_tables i top t3). split; [|split; [|split; [|split; [|split; [|split; [|split]]]]]].
  - erewrite bind_run by exact E1. erewrite bind_run by exact E2. erewrite bind_run by reflexivity. exact E4.
  - erewrite bind_run by reflexivity. exact K.
  - apply (flat_at _ _ F4).
  - apply (flat_at _ _ F4).
  - apply (flat_at _ _ F4).
  - apply (flat_at _ _ F4).
  - intros n Hn. assert (P : protected (user_tables i top t3) i top) by (by constructor).
    rewrite !(deliver_protected _ i top) by auto. cbn [Z.eqb Pos.eqb andb]. split; [done|]. split; [done|]. by destruct (n =? T_SYSCALL).
  - intros port Hport. unfold port_allowed. destruct (task_ok _ _ _ Hi F4 T4) as (ts & -> & _ & _ & ->). cbn [orb Z.leb Z.compare].
    apply Z.leb_gt. pose proof (Z.div_pos port 8). lia.
Qed.

(** Entry points 16 bytes apart, task states 256 bytes apart. *)
#[local] Instance demo_symbols : Symbols.
Proof.
  refine {| vectors := fun n => 2148536320 + 16 * n; ts_addr := fun i => 2148532224 + 256 * Z.of_nat i |}; lia.
Defined.

Definition demo_kernel : kernel := set_k_proc [set_p_kstack 2149580800 (set_p_pgdir 2149584896 proc0)] kernel0.

Lemma user_protection_witness : exists s' t,
  (seginit ;; tvinit ;; idtinit ;; switchuvm (Some 0%nat)) (mkMachine demo_kernel drivers0 (mkAta (fun _ _ => replicate 512 0) 0 0 0 0 0 None false))
    = Ret tt (mkMachine s' (set_v_tables t drivers0) (mkAta (fun _ _ => replicate 512 0) 0 0 0 0 0 None false)) /\
  deliver t 3 true 64 = Some (mkArrival 0 (vectors 64) (Some (16, 2149584896)) false) /\ deliver t 3 true 14 = None /\ port_allowed t 3 0 112 = false.
Proof.
  destruct (@user_protection ata _ _ demo_kernel drivers0 (mkAta (fun _ _ => replicate 512 0) 0 0 0 0 0 None false) 0 cpu0 0 (set_p_kstack 2149580800 (set_p_pgdir 2149584896 proc0)))
    as (s' & t & E & _ & _ & _ & _ & _ & Hn & Hport).
  - constructor; [reflexivity| |reflexivity|reflexivity]. by repeat constructor.
  - exact on_cpu0.
  - reflexivity.
  - lia.
  - reflexivity.
  - discriminate.
  - discriminate.
  - exists s', t. split; [exact E|]. split; [apply (Hn 64); lia|]. split; [apply (Hn 14); lia|apply Hport; lia].
Defined.
