(* ===== verification/Boot.v ===== *)
(** The boot loader ([bootmain.c]): it reads the kernel's ELF image from the disk, sector by
    sector, and puts its segments where they belong. Paging is off: addresses are physical. *)

From S2P Require Import Prelude Bytes KString Params State Exec Dev Kbd Ide.
From stdpp Require Import base list gmap strings.
From Stdlib Require Import ZArith Lia.
Local Open Scope Z_scope.
Local Open Scope km_scope.

Definition SECTSIZE : Z := 512.

Section Loader.
Context {D : Type} `{Device D} `{WaitFuel}.

Definition getmem : MD (D := D) mem := gets (fun st => k_mem (mc_k st)).
Definition setmem (f : mem -> mem) : MD (D := D) unit := lk (modify (fun s => set_k_mem (f (k_mem s)) s)).

(** The loop of [waitdisk]. *)
Fixpoint waitdisk_loop (fuel : nat) : MD (D := D) unit :=
  let! r := inb 503 in
  if Z.land r 192 =? 64 then ret tt else
  match fuel with
  | O => nofuel
  | S fuel => waitdisk_loop fuel
  end.

Definition waitdisk : MD (D := D) unit := waitdisk_loop wait_fuel.

Definition readsect (dst offset : Z) : MD (D := D) unit :=
  waitdisk ;;
  outb 498 1 ;;
  outb 499 offset ;;
  outb 500 (Z.shiftr offset 8) ;;
  outb 501 (Z.shiftr offset 16) ;;
  outb 502 (Z.lor (Z.shiftr offset 24) 224) ;;
  outb 503 32 ;;
  waitdisk ;;
  let! data := insl 496 (Z.to_nat (SECTSIZE / 4)) in
  setmem (fun m => st_bytes m dst data).

(** [for(; pa < epa; pa += SECTSIZE, offset++) readsect(pa, offset);] *)
Fixpoint readseg_loop (fuel : nat) (pa epa offset : Z) : MD (D := D) unit :=
  if pa <? epa then
    match fuel with
    | O => nofuel
    | S fuel => readsect pa offset ;; readseg_loop fuel (u32 (pa + SECTSIZE)) epa (u32 (offset + 1))
    end
  else ret tt.

(** At most two sectors more than the bytes asked for take. *)
Definition readseg (pa count offset : Z) : MD (D := D) unit :=
  let epa := u32 (pa + count) in
  let pa := u32 (pa - offset mod SECTSIZE) in
  let offset := offset / SECTSIZE + 1 in
  readseg_loop (Z.to_nat (count / SECTSIZE) + 2) pa epa offset.

(** [sizeof(struct elfhdr)] bytes at [a], and a program header. *)
Definition ELF : Z := 65536.
Definition PROGHDR_SIZE : Z := 32.
Definition ph_paddr (h : list Z) : Z := rd32 h 12.

(** The loop over the program headers, [n] of them from [ph]. *)
Fixpoint boot_segments (n : nat) (ph : Z) : MD (D := D) unit :=
  match n with
  | O => ret tt
  | S n =>
      let! m := getmem in
      let h := ld_bytes m ph 32 in
      let pa := ph_paddr h in
      readseg pa (ph_filesz h) (ph_off h) ;;
      let! m := getmem in
      let h := ld_bytes m ph 32 in
      when (ph_filesz h <? ph_memsz h)
        (setmem (fun m => stosb m (pa + ph_filesz h) 0 (Z.to_nat (ph_memsz h - ph_filesz h)))) ;;
      boot_segments n (ph + PROGHDR_SIZE)
  end.

(** The entry point that is called at the end; [None] when the image is not an ELF file. *)
Definition bootmain : MD (D := D) (option Z) :=
  readseg ELF 4096 0 ;;
  let! m := getmem in
  let elf := ld_bytes m ELF 52 in
  if negb (elf_magic elf =? ELF_MAGIC) then ret None else
  boot_segments (Z.to_nat (elf_phnum elf)) (u32 (ELF + elf_phoff elf)) ;;
  let! m := getmem in
  ret (Some (elf_entry (ld_bytes m ELF 52))).
End Loader.

(** * Reading *)

Section Reading.
Context {D : Type} `{Ata D} `{WaitFuel}.
Hypothesis Hfuel : (at_latency (D := D) <= wait_fuel)%nat.
Implicit Types (s : kernel) (v : drivers) (d : D) (a : ata).

(** The image: the bytes of the first drive from its second sector on. *)
Definition image (f : Z -> Z -> list Z) (i : Z) : Z := nth (Z.to_nat (i mod 512)) (f 0 (i / 512 + 1)) 0.

Record idle f d : Prop := {
  id_op : a_op (at_ d) = None;
  id_sec : a_sec (at_ d) = f;
  id_len : forall x y, length (f x y) = 512%nat
}.

Lemma waitdisk_ok n : forall s v d fuel, at_polls d = n -> (n <= fuel)%nat ->
  exists d', waitdisk_loop fuel (mkMachine s v d) = Ret tt (mkMachine s v d') /\ at_ d' = ata_done (at_ d).
Proof.
  induction n as [|n IH]; intros s v d fuel Hn Hf; destruct (at_status d) as (r & d1 & E & Hs); rewrite Hn in Hs; destruct Hs as (Hs1 & Ea & Hs2); change (Z.land r 192 = 64) in Hs1 || change (Z.land r 192 <> 64) in Hs1.
  all: assert (Ei : inb 503 (mkMachine s v d) = Ret r (mkMachine s v d1)) by (unfold inb; cbn [mc_d mc_k mc_v]; by rewrite E).
  - exists d1. split; [|done]. destruct fuel; cbn [waitdisk_loop]; erewrite bind_run by exact Ei; by rewrite (proj2 (Z.eqb_eq _ _) Hs1).
  - destruct fuel as [|fuel]; [lia|]. destruct (IH s v d1 fuel) as (d' & E' & Ea'); [done|lia|].
    exists d'. cbn [waitdisk_loop]. erewrite bind_run by exact Ei. rewrite (proj2 (Z.eqb_neq _ _) Hs1). split; [done|]. by rewrite <- Ea.
Qed.

Lemma waitdisk_done s v d : exists d', waitdisk (mkMachine s v d) = Ret tt (mkMachine s v d') /\ at_ d' = ata_done (at_ d).
Proof. apply (waitdisk_ok (at_polls d)); [done|]. exact (Nat.le_trans _ _ _ (at_prompt d) Hfuel). Qed.

(** The registers select sector [n] of the first drive. *)
Lemma lba_decode n : 0 <= n < 2 ^ 28 ->
  let r6 := u8 (Z.lor (Z.shiftr n 24) 224) in
  u8 n + 2 ^ 8 * u8 (Z.shiftr n 8) + 2 ^ 16 * u8 (Z.shiftr n 16) + 2 ^ 24 * Z.land r6 15 = n /\ Z.land (Z.shiftr r6 4) 1 = 0.
Proof.
  intros Hn. unfold u8 at 2 3 4. cbv zeta. rewrite !Z.shiftr_div_pow2 by lia. set (q := n / 2 ^ 24).
  assert (Hq : 0 <= q < 16) by (split; [apply Z.div_pos; lia|apply Z.div_lt_upper_bound; lia]).
  pose (P := fun k => (Z.land (u8 (Z.lor k 224)) 15 =? k) && (Z.land (Z.shiftr (u8 (Z.lor k 224)) 4) 1 =? 0)).
  assert (HP : P q = true) by (apply (all_below P 16); [by vm_compute|lia]). apply andb_true_iff in HP as [E1%Z.eqb_eq E2%Z.eqb_eq].
  rewrite Z.shiftr_div_pow2 in E2 by lia. split; [|exact E2]. change (2 ^ 8) with 256. rewrite E1.
  assert (E3 : n / 65536 = (n / 256) / 256) by (rewrite Z.div_div by lia; done). assert (E4 : q = (n / 65536) / 256) by (unfold q; rewrite Z.div_div by lia; done).
  change (2 ^ 16) with 65536 in *. change (2 ^ 24) with 16777216 in *.
  pose proof (Z.div_mod n 256 ltac:(lia)). pose proof (Z.div_mod (n / 256) 256 ltac:(lia)). pose proof (Z.div_mod (n / 65536) 256 ltac:(lia)). rewrite E3 in *. unfold u8. change (2 ^ 8) with 256. lia.
Qed.

Lemma readsect_ok f s v d dst n : idle f d -> 0 <= n < 2 ^ 28 ->
  exists d', readsect dst n (mkMachine s v d) = Ret tt (mkMachine (set_k_mem (st_bytes (k_mem s) dst (f 0 n)) s) v d') /\ idle f d'.
Proof.
  intros [Ho Hs Hl] Hn. unfold readsect. destruct (waitdisk_done s v d) as (d1 & E1 & Ea). rewrite ata_done_idle in Ea by done.
  erewrite bind_run by exact E1. unfold outb. repeat (erewrite bind_run by reflexivity). cbn [mc_k mc_v mc_d].
  destruct (lba_decode n Hn) as [Hsec Hdrv].
  match goal with |- context [d_outb 503 ?c ?x] => change c with IDE_CMD_READ; set (d6 := x) end.
  assert (E6 : at_ d6 = mkAta f 1 (u8 n) (u8 (Z.shiftr n 8)) (u8 (Z.shiftr n 16)) (u8 (Z.lor (Z.shiftr n 24) 224)) None (a_err (at_ d))).
  { unfold d6. rewrite !at_reg by lia. by rewrite Ea, <- Ho, <- Hs. }
  clearbody d6. assert (E7 := at_read d6). rewrite E6 in E7. specialize (E7 eq_refl eq_refl). unfold ata_drive, ata_sector in E7. cbn [a_lba0 a_lba1 a_lba2 a_drv set_a_op] in E7. rewrite Hsec, Hdrv in E7.
  set (d7 := d_outb 503 IDE_CMD_READ d6) in *. clearbody d7. destruct (waitdisk_done s v d7) as (d8 & E8 & Ea8). rewrite E7 in Ea8. cbn in Ea8. erewrite bind_run by exact E8.
  destruct (at_take d8 (f 0 n)) as (d9 & E9 & Ea9); [by rewrite Ea8|done|]. change (Z.to_nat (SECTSIZE / 4)) with 128%nat.
  rewrite (bind_run _ _ _ (f 0 n) (mkMachine s v d9)) by (unfold insl; cbn [mc_d mc_k mc_v]; by rewrite E9).
  exists d9. split; [reflexivity|]. constructor; [by rewrite Ea9|by rewrite Ea9, Ea8|done].
Qed.

(** A sector of the image in memory. *)
Lemma sector_bytes f n dst m x : (forall x y, length (f x y) = 512%nat) -> dst <= x < dst + 512 -> st_bytes m dst (f 0 (n + 1)) x = image f (512 * n + (x - dst)).
Proof.
  intros Hl Hx. destruct (lookup_lt_is_Some_2 (f 0 (n + 1)) (Z.to_nat (x - dst))) as [b Hb]; [rewrite Hl; lia|].
  replace x with (dst + Z.of_nat (Z.to_nat (x - dst))) at 1 by lia. rewrite (st_bytes_in _ _ _ _ _ Hb). unfold image.
  replace ((512 * n + (x - dst)) / 512) with n by (rewrite Z.mul_comm, Z.div_add_l, Z.div_small by lia; lia).
  replace ((512 * n + (x - dst)) mod 512) with (x - dst) by (rewrite Z.add_comm, Z.mul_comm, Z.mod_add, Z.mod_small by lia; done).
  symmetry. by apply nth_lookup_Some.
Qed.

Lemma readseg_loop_ok f fuel : forall s v d pa epa n, idle f d -> 0 <= n -> n + Z.of_nat fuel < 2 ^ 28 -> 0 <= pa -> epa + 512 < 2 ^ 32 -> epa - pa <= 512 * Z.of_nat fuel ->
  exists m' d', readseg_loop fuel pa epa (n + 1) (mkMachine s v d) = Ret tt (mkMachine (set_k_mem m' s) v d') /\ idle f d' /\
    (forall x, pa <= x < epa -> m' x = image f (512 * n + (x - pa))) /\ (forall x, x < pa \/ epa + 511 <= x \/ epa <= pa -> m' x = k_mem s x).
Proof.
  induction fuel as [|fuel IH]; intros s v d pa epa n Hi Hn Hn2 Hp He Hk; cbn [readseg_loop]; destruct (Z.ltb_spec pa epa) as [Hlt|Hge].
  - lia.
  - exists (k_mem s), d. split; [unfold ret; by destruct s|]. split; [done|]. split; [lia|done].
  - destruct (readsect_ok f s v d pa (n + 1) Hi) as (d1 & E1 & Hi1); [lia|]. erewrite bind_run by exact E1. unfold SECTSIZE. rewrite !u32_small by lia.
    edestruct (IH (set_k_mem (st_bytes (k_mem s) pa (f 0 (n + 1))) s) v d1 (pa + 512) epa (n + 1)) as (m' & d' & E & Hi' & Hin & Hout); [done|lia..|].
    exists m', d'. split; [rewrite E; by destruct s|]. split; [done|]. pose proof (id_len _ _ Hi) as Hl. split.
    + intros x Hx. destruct (decide (pa + 512 <= x)) as [Hge|Hlt']; [rewrite Hin by lia; f_equal; lia|]. rewrite Hout by lia. cbn [k_mem set_k_mem]. apply sector_bytes; [done|lia].
    + intros x Hx. rewrite Hout by lia. cbn [k_mem set_k_mem]. apply st_bytes_out. rewrite Hl. lia.
  - exists (k_mem s), d. split; [unfold ret; by destruct s|]. split; [done|]. split; [lia|done].
Qed.

(** [readseg] brings the bytes asked for; it may write up to a sector before and after them. *)
Lemma readseg_ok f s v d pa count off : idle f d -> 0 <= off -> off + count < 2 ^ 31 -> 0 <= count -> off mod 512 <= pa -> pa + count < 2 ^ 31 ->
  exists m' d', readseg pa count off (mkMachine s v d) = Ret tt (mkMachine (set_k_mem m' s) v d') /\ idle f d' /\
    (forall k, 0 <= k < count -> m' (pa + k) = image f (off + k)) /\ (forall x, x < pa - off mod 512 \/ pa + count + 511 <= x -> m' x = k_mem s x).
Proof.
  intros Hi Ho Hoc Hc Hp Hpc. unfold readseg, SECTSIZE. pose proof (Z.mod_pos_bound off 512 ltac:(lia)) as Hm. pose proof (Z.div_mod off 512 ltac:(lia)) as Hd.
  assert (Hq : 0 <= off / 512 < 2 ^ 23) by (split; [apply Z.div_pos; lia|apply Z.div_lt_upper_bound; lia]).
  assert (Hc2 : 0 <= count / 512 < 2 ^ 23) by (split; [apply Z.div_pos; lia|apply Z.div_lt_upper_bound; lia]). pose proof (Z.div_mod count 512 ltac:(lia)). pose proof (Z.mod_pos_bound count 512 ltac:(lia)).
  rewrite !u32_small by lia.
  destruct (readseg_loop_ok f (Z.to_nat (count / 512) + 2) s v d (pa - off mod 512) (pa + count) (off / 512)) as (m' & d' & E & Hi' & Hin & Hout); [done|lia..|].
  exists m', d'. split; [done|]. split; [done|]. split.
  - intros k Hk. rewrite Hin by lia. f_equal. lia.
  - intros x Hx. apply Hout. lia.
Qed.
End Reading.

(** * Loading *)

(** The bytes of the image as a list. *)
Definition img_bytes (f : Z -> Z -> list Z) (off : Z) (n : nat) : list Z := (fun k => image f (off + Z.of_nat k)) <$> seq 0 n.

(** A program header of the image. *)
Record segment : Type := mkSegment { g_pa : Z; g_filesz : Z; g_off : Z; g_memsz : Z }.

Definition segment_of (h : list Z) : segment := mkSegment (ph_paddr h) (ph_filesz h) (ph_off h) (ph_memsz h).

(** The segments of [n] headers from offset [off]. *)
Fixpoint segments (f : Z -> Z -> list Z) (n : nat) (off : Z) : list segment :=
  match n with
  | O => []
  | S n => segment_of (img_bytes f off 32) :: segments f n (off + 32)
  end.

(** Where loading a segment writes, and the bytes that belong to it. *)
Definition touches (g : segment) (x : Z) : Prop := g_pa g - g_off g mod 512 <= x < g_pa g + Z.max (g_memsz g) (g_filesz g + 511).
Definition owns (g : segment) (x : Z) : Prop := g_pa g <= x < g_pa g + Z.max (g_memsz g) (g_filesz g).

Record segment_ok (g : segment) : Prop := {
  sg_file : 0 <= g_filesz g /\ 0 <= g_memsz g /\ 0 <= g_off g /\ g_off g + g_filesz g < 2 ^ 31;
  sg_mem : g_off g mod 512 <= g_pa g /\ g_pa g + g_filesz g < 2 ^ 31;
  sg_scratch : forall x, ELF <= x < ELF + 4096 -> ~ touches g x
}.

(** What is loaded later does not overwrite what was loaded before. *)
Fixpoint in_order (gs : list segment) : Prop :=
  match gs with
  | [] => True
  | g :: gs => (forall h, h ∈ gs -> forall x, owns g x -> ~ touches h x) /\ in_order gs
  end.

Definition loaded (f : Z -> Z -> list Z) (m : mem) (g : segment) : Prop :=
  (forall k, 0 <= k < g_filesz g -> m (g_pa g + k) = image f (g_off g + k)) /\
  (forall k, g_filesz g <= k < g_memsz g -> m (g_pa g + k) = 0).

(** The first page of the image is in the scratch space. *)
Definition scratch (f : Z -> Z -> list Z) (m : mem) : Prop := forall k, 0 <= k < 4096 -> m (ELF + k) = image f k.

Lemma scratch_bytes f m o n : scratch f m -> 0 <= o -> o + Z.of_nat n <= 4096 -> ld_bytes m (ELF + o) n = img_bytes f o n.
Proof.
  intros Hs. revert o. induction n as [|n IH]; intros o Ho Hn; [done|]. cbn [ld_bytes]. unfold img_bytes. cbn [seq fmap list_fmap].
  rewrite Hs, Z.add_0_r by lia. f_equal. rewrite <- Z.add_assoc, (IH (o + 1)) by lia. unfold img_bytes. rewrite <- (fmap_S_seq 0), <- list_fmap_compose.
  apply list_fmap_ext. intros i k _. cbn. f_equal. lia.
Qed.

Section Loading.
Context {D : Type} `{Ata D} `{WaitFuel} (Hfuel : (at_latency (D := D) <= wait_fuel)%nat) (f : Z -> Z -> list Z).
Implicit Types (s : kernel) (v : drivers) (d : D).

Lemma boot_segment_ok s v d o rest : idle f d -> scratch f (k_mem s) -> 0 <= o -> o + 32 <= 4096 ->
  let g := segment_of (img_bytes f o 32) in segment_ok g ->
  exists m' d', boot_segments (S rest) (ELF + o) (mkMachine s v d) = boot_segments rest (ELF + (o + 32)) (mkMachine (set_k_mem m' s) v d') /\ idle f d' /\
    loaded f m' g /\ (forall x, ~ touches g x -> m' x = k_mem s x).
Proof.
  intros Hi Hs Ho Hn g [(F1 & F2 & F3 & F4) (M1 & M2) Hsc]. cbn [boot_segments]. unfold getmem at 1. rewrite bind_gets. cbn [mc_k]. rewrite (scratch_bytes f) by done. fold g.
  change (ph_paddr _) with (g_pa g). change (ph_filesz _) with (g_filesz g) at 1. change (ph_off _) with (g_off g).
  destruct (readseg_ok Hfuel f s v d (g_pa g) (g_filesz g) (g_off g)) as (m1 & d1 & E1 & Hi1 & Hin & Hout); [done..|lia|done|done|]. erewrite bind_run by exact E1.
  assert (Ht : forall x, ~ touches g x -> m1 x = k_mem s x) by (intros x Hx; apply Hout; unfold touches in Hx; lia).
  assert (Hs1 : scratch f m1) by (intros k Hk; rewrite Ht by (apply Hsc; lia); by apply Hs).
  unfold getmem at 1. rewrite bind_gets. cbn [mc_k k_mem set_k_mem]. rewrite (scratch_bytes f) by done. change (ph_filesz _) with (g_filesz g). change (ph_memsz _) with (g_memsz g). cbv zeta.
  pose (m2 := if g_filesz g <? g_memsz g then stosb m1 (g_pa g + g_filesz g) 0 (Z.to_nat (g_memsz g - g_filesz g)) else m1).
  exists m2, d1. split; [|split; [done|split; [split|]]].
  - rewrite (bind_run _ _ _ tt (mkMachine (set_k_mem m2 s) v d1)); [f_equal; unfold PROGHDR_SIZE; lia|]. unfold m2. by destruct (g_filesz g <? g_memsz g).
  - intros k Hk. unfold m2. destruct (g_filesz g <? g_memsz g); [|by apply Hin]. rewrite stosb_spec, (proj2 (Z.leb_gt _ _)) by lia. by apply Hin.
  - intros k Hk. unfold m2. rewrite (proj2 (Z.ltb_lt (g_filesz g) (g_memsz g))) by lia. rewrite stosb_spec.
    destruct (Z.leb_spec (g_pa g + g_filesz g) (g_pa g + k)); [|lia]. rewrite (proj2 (Z.ltb_lt _ _)) by lia. done.
  - intros x Hx. rewrite <- Ht by done. unfold m2. destruct (Z.ltb_spec (g_filesz g) (g_memsz g)); [|done]. rewrite stosb_spec. unfold touches in Hx. pose proof (Z.mod_pos_bound (g_off g) 512 ltac:(lia)).
    destruct (Z.leb_spec (g_pa g + g_filesz g) x); [|done]. rewrite (proj2 (Z.ltb_ge _ _)) by lia. done.
Qed.

Lemma boot_segments_ok n : forall s v d o, idle f d -> scratch f (k_mem s) -> 0 <= o -> o + 32 * Z.of_nat n <= 4096 ->
  Forall segment_ok (segments f n o) -> in_order (segments f n o) ->
  exists m' d', boot_segments n (ELF + o) (mkMachine s v d) = Ret tt (mkMachine (set_k_mem m' s) v d') /\ idle f d' /\
    Forall (loaded f m') (segments f n o) /\ (forall x, (forall g, g ∈ segments f n o -> ~ touches g x) -> m' x = k_mem s x).
Proof.
  induction n as [|n IH]; intros s v d o Hi Hs Ho Hn Hok Hord.
  - exists (k_mem s), d. split; [cbn; unfold ret; by destruct s|]. done.
  - cbn [segments] in *. apply Forall_cons in Hok as [Hg Hok]. destruct Hord as [Hnext Hord]. set (g := segment_of (img_bytes f o 32)) in *.
    destruct (boot_segment_ok s v d o n Hi Hs Ho ltac:(lia) Hg) as (m1 & d1 & E1 & Hi1 & Hl1 & Hu1). fold g in Hl1, Hu1. rewrite E1.
    destruct (IH (set_k_mem m1 s) v d1 (o + 32)) as (m2 & d2 & E2 & Hi2 & Hl2 & Hu2); [done| |lia|lia|done|done|].
    { intros k Hk. cbn [k_mem set_k_mem]. rewrite Hu1 by (apply (sg_scratch _ Hg); lia). by apply Hs. }
    exists m2, d2. split; [rewrite E2; by destruct s|]. split; [done|]. cbn [k_mem set_k_mem] in Hu2. split.
    + constructor; [|done]. destruct Hl1 as [L1 L2]. pose proof (sg_file _ Hg) as (F1 & F2 & _). split; intros k Hk.
      * rewrite Hu2; [by apply L1|]. intros h Hh. apply (Hnext h Hh). unfold owns. lia.
      * rewrite Hu2; [by apply L2|]. intros h Hh. apply (Hnext h Hh). unfold owns. lia.
    + intros x Hx. rewrite Hu2 by (intros h Hh; apply Hx; by right). apply Hu1, Hx. left.
Qed.
End Loading.

(** C15: On a disk that holds an ELF image from its second sector on, whose program headers are in the first page and whose
    segments stay clear of the loader's scratch page and, rounded to sectors, of what was loaded before them, the boot
    loader finishes and calls the entry point of the image with every segment in memory: the bytes of the file, then
    zeroes up to the segment's size. If the image does not begin with the ELF magic, the loader returns without loading
    anything else. *)
Theorem bootmain_loads {D} `{Ata D} `{WaitFuel} (f : Z -> Z -> list Z) s v (d : D) : (at_latency (D := D) <= wait_fuel)%nat -> idle f d ->
  let elf := img_bytes f 0 52 in let gs := segments f (Z.to_nat (elf_phnum elf)) (elf_phoff elf) in
  0 <= elf_phoff elf -> elf_phoff elf + 32 * Z.of_nat (Z.to_nat (elf_phnum elf)) <= 4096 -> Forall segment_ok gs -> in_order gs ->
  exists m' d', idle f d' /\ bootmain (mkMachine s v d) = Ret (if elf_magic elf =? ELF_MAGIC then Some (elf_entry elf) else None) (mkMachine (set_k_mem m' s) v d') /\
    (elf_magic elf = ELF_MAGIC -> Forall (loaded f m') gs).
Proof.
  intros Hfuel Hi elf gs Ho Hn Hok Hord. unfold bootmain.
  destruct (readseg_ok Hfuel f s v d ELF 4096 0) as (m1 & d1 & E1 & Hi1 & Hin & _); [done|lia|lia|lia|by vm_compute|by vm_compute|]. erewrite bind_run by exact E1.
  assert (Hs : scratch f m1) by (intros k Hk; by apply Hin). unfold getmem at 1. rewrite bind_gets. cbn [mc_k k_mem set_k_mem].
  pose proof (scratch_bytes f m1 0 52 Hs ltac:(lia) ltac:(lia)) as Eh. rewrite Z.add_0_r in Eh. rewrite Eh. fold elf.
  destruct (Z.eqb_spec (elf_magic elf) ELF_MAGIC) as [Em|Em]; cbn [negb]; [|exists m1, d1; done].
  rewrite u32_small by (unfold ELF; lia).
  destruct (boot_segments_ok Hfuel f (Z.to_nat (elf_phnum elf)) (set_k_mem m1 s) v d1 (elf_phoff elf)) as (m2 & d2 & E2 & Hi2 & Hl2 & Hu2); [done..|]. erewrite bind_run by exact E2.
  exists m2, d2. split; [done|]. split; [|done]. unfold getmem. rewrite bind_gets. cbn [mc_k k_mem set_k_mem].
  assert (Hs2 : scratch f m2).
  { intros k Hk. rewrite Hu2; [by apply Hs|]. intros g Hg. rewrite Forall_forall in Hok. apply (sg_scratch _ (Hok g Hg)). lia. }
  pose proof (scratch_bytes f m2 0 52 Hs2 ltac:(lia) ltac:(lia)) as Eh2. rewrite Z.add_0_r in Eh2. rewrite Eh2. done.
Qed.

(** * A disk with an image of one segment *)

(** The ELF header, one program header at 52, and the segment's three bytes at 84, to be loaded at 1 MB. *)
Definition demo_image : list Z :=
  le_enc 4 ELF_MAGIC ++ replicate 20 0 ++ le_enc 4 1048588 ++ le_enc 4 52 ++ replicate 12 0 ++ le_enc 2 1 ++ replicate 6 0 ++
  le_enc 4 1 ++ le_enc 4 84 ++ le_enc 4 2148532224 ++ le_enc 4 1048576 ++ le_enc 4 3 ++ le_enc 4 8 ++ replicate 8 0 ++ [235; 254; 144].

Definition demo_sectors (x y : Z) : list Z := if (x =? 0) && (y =? 1) then demo_image ++ replicate 425 0 else replicate 512 0.
Definition demo_disk : ata := mkAta demo_sectors 0 0 0 0 0 None false.

Lemma demo_segments : segments demo_sectors 1 52 = [mkSegment 1048576 3 84 8].
Proof. vm_compute. reflexivity. Qed.

Lemma bootmain_loads_witness : exists m' d', @bootmain ata _ 0%nat (mkMachine kernel0 drivers0 demo_disk) = Ret (Some 1048588) (mkMachine (set_k_mem m' kernel0) drivers0 d') /\
  m' 1048576 = 235 /\ m' 1048577 = 254 /\ m' 1048578 = 144 /\ m' 1048579 = 0.
Proof.
  destruct (@bootmain_loads ata _ _ 0%nat demo_sectors kernel0 drivers0 demo_disk) as (m' & d' & _ & E & Hl).
  - vm_compute. lia.
  - constructor; [done|done|]. intros x y. unfold demo_sectors. by destruct (_ && _).
  - vm_compute. discriminate.
  - vm_compute. discriminate.
  - change (Forall segment_ok (segments demo_sectors 1 52)). rewrite demo_segments. constructor; [|constructor]. constructor; cbn [g_pa g_filesz g_off g_memsz].
    + lia.
    + change (84 mod 512) with 84. lia.
    + intros x Hx. unfold touches, ELF in *. cbn [g_pa g_filesz g_off g_memsz]. change (84 mod 512) with 84. lia.
  - change (in_order (segments demo_sectors 1 52)). rewrite demo_segments. split; [|done]. intros h Hh. by apply not_elem_of_nil in Hh.
  - exists m', d'. split; [exact E|]. specialize (Hl eq_refl). change (Forall (loaded demo_sectors m') (segments demo_sectors 1 52)) in Hl. rewrite demo_segments in Hl.
    apply Forall_cons in Hl as [[L1 L2] _]. cbn [g_pa g_filesz g_memsz g_off] in *.
    pose proof (L1 0 ltac:(lia)) as X0. pose proof (L1 1 ltac:(lia)) as X1. pose proof (L1 2 ltac:(lia)) as X2. pose proof (L2 3 ltac:(lia)) as X3. rewrite Z.add_0_r in X0.
    split; [exact X0|]. split; [exact X1|]. split; [exact X2|exact X3].
Defined.
