(* ===== verification/Mp.v ===== *)
(** Multiprocessor tables ([mp.c], [mp.h]): the search for the floating pointer structure the firmware leaves in
    memory, the checks of the configuration table, and [mpinit], which fills [cpus] from it. *)

From S2P Require Import Prelude Bytes KString Params State Spinlock Cprintf Dev Kbd Ide Boot.
From stdpp Require Import base list gmap strings.
From Stdlib Require Import ZArith Lia.
Local Open Scope Z_scope.
Local Open Scope km_scope.

(** The structures of [mp.h] as they are in memory. *)
Record mp : Type := mkMp {
  mp_signature : list Z;
  mp_physaddr : Z;
  mp_length : Z;
  mp_specrev : Z;
  mp_checksum : Z;
  mp_type : Z;
  mp_imcrp : Z;
  mp_reserved : list Z
}.
Definition mp_at (m : mem) (p : Z) : mp :=
  mkMp (ld_bytes m p 4) (ld32 m (p + 4)) (m (p + 8)) (m (p + 9)) (m (p + 10)) (m (p + 11)) (m (p + 12)) (ld_bytes m (p + 13) 3).
Definition MP_SIZE : Z := 16.

Record mpconf : Type := mkMpconf {
  conf_signature : list Z;
  conf_length : Z;
  conf_version : Z;
  conf_checksum : Z;
  conf_product : list Z;
  conf_oemtable : Z;
  conf_oemlength : Z;
  conf_entry : Z;
  conf_lapicaddr : Z;
  conf_xlength : Z;
  conf_xchecksum : Z;
  conf_reserved : Z
}.
Definition ld16 (m : mem) (a : Z) : Z := Bytes.le_dec [m a; m (a + 1)].
Definition mpconf_at (m : mem) (p : Z) : mpconf :=
  mkMpconf (ld_bytes m p 4) (ld16 m (p + 4)) (m (p + 6)) (m (p + 7)) (ld_bytes m (p + 8) 20) (ld32 m (p + 28)) (ld16 m (p + 32))
    (ld16 m (p + 34)) (ld32 m (p + 36)) (ld16 m (p + 40)) (m (p + 42)) (m (p + 43)).
Definition MPCONF_SIZE : Z := 44.

Record mpproc : Type := mkMpproc {
  mpp_type : Z;
  mpp_apicid : Z;
  mpp_version : Z;
  mpp_flags : Z;
  mpp_signature : list Z;
  mpp_feature : Z;
  mpp_reserved : list Z
}.
Definition mpproc_at (m : mem) (p : Z) : mpproc :=
  mkMpproc (m p) (m (p + 1)) (m (p + 2)) (m (p + 3)) (ld_bytes m (p + 4) 4) (ld32 m (p + 8)) (ld_bytes m (p + 12) 8).
Definition MPPROC_SIZE : Z := 20.

Record mpioapic : Type := mkMpioapic {
  mpi_type : Z;
  mpi_apicno : Z;
  mpi_version : Z;
  mpi_flags : Z;
  mpi_addr : Z
}.
Definition mpioapic_at (m : mem) (p : Z) : mpioapic := mkMpioapic (m p) (m (p + 1)) (m (p + 2)) (m (p + 3)) (ld32 m (p + 4)).
Definition MPIOAPIC_SIZE : Z := 8.

Definition MPPROC : Z := 0.
Definition MPBUS : Z := 1.
Definition MPIOAPIC : Z := 2.
Definition MPIOINTR : Z := 3.
Definition MPLINTR : Z := 4.

Fixpoint sum_loop (m : mem) (addr : Z) (n : nat) (sum : Z) : Z :=
  match n with
  | O => sum
  | S n => sum_loop m (addr + 1) n (sum + m addr)
  end.

Definition mp_sum (m : mem) (addr : Z) (len : Z) : Z := u8 (sum_loop m addr (Z.to_nat len) 0).

(** [memcmp(p, sig, 4) == 0] for a string constant. *)
Definition has_signature (m : mem) (p : Z) (sig : string) : bool := bool_decide (ld_bytes m p 4 = str sig).

Definition is_mp (m : mem) (p : Z) : bool := has_signature m p "_MP_" && (mp_sum m p MP_SIZE =? 0).

Section Search.
Context {D : Type} `{Device D}.

Fixpoint mpsearch1_loop (fuel : nat) (p e : Z) : MD (D := D) (option Z) :=
  if p <? e then
    match fuel with
    | O => nofuel
    | S fuel =>
        let! m := getmem in
        if is_mp m p then ret (Some p) else mpsearch1_loop fuel (u32 (p + MP_SIZE)) e
    end
  else ret None.

Definition mpsearch1 (a len : Z) : MD (D := D) (option Z) :=
  let addr := P2V a in
  let e := u32 (addr + len) in
  mpsearch1_loop (Z.to_nat (len / MP_SIZE)) addr e.

Definition mpsearch : MD (D := D) (option Z) :=
  let! m := getmem in
  let bda := P2V 1024 in
  let p := Z.shiftl (Z.lor (Z.shiftl (m (bda + 15)) 8) (m (bda + 14))) 4 in
  let! mp :=
    (if negb (p =? 0) then mpsearch1 p 1024
     else
       let p := Z.lor (Z.shiftl (m (bda + 20)) 8) (m (bda + 19)) * 1024 in
       mpsearch1 (u32 (p - 1024)) 1024) in
  match mp with
  | Some mp => ret (Some mp)
  | None => mpsearch1 983040 65536
  end.

(** The configuration table and the floating pointer structure. *)
Definition mpconfig : MD (D := D) (option (Z * Z)) :=
  let! mp := mpsearch in
  let! m := getmem in
  match mp with
  | None => ret None
  | Some mp =>
      if mp_physaddr (mp_at m mp) =? 0 then ret None else
      let conf := P2V (mp_physaddr (mp_at m mp)) in
      if negb (has_signature m conf "PCMP") then ret None else
      if negb (conf_version (mpconf_at m conf) =? 1) && negb (conf_version (mpconf_at m conf) =? 4) then ret None else
      if negb (mp_sum m conf (conf_length (mpconf_at m conf)) =? 0) then ret None else
      ret (Some (conf, mp))
  end.

(** The loop over the entries of the table; the result is [ismp]. The [break] of the last case leaves the
    [switch] only. *)
Fixpoint mp_entries (fuel : nat) (p e ismp : Z) : MD (D := D) Z :=
  if p <? e then
    match fuel with
    | O => nofuel
    | S fuel =>
        let! m := getmem in
        if m p =? MPPROC then
          let! ncpu := lk (gets (fun s => h_ncpu (k_hw s))) in
          when (ncpu <? NCPU)
            (lk (updcpu (Z.to_nat ncpu) (set_c_apicid (mpp_apicid (mpproc_at m p))) ;;
                 sethw (fun h => set_h_ncpu (h_ncpu h + 1) h))) ;;
          mp_entries fuel (u32 (p + MPPROC_SIZE)) e ismp
        else if m p =? MPIOAPIC then
          updv (set_v_ioapicid (mpi_apicno (mpioapic_at m p))) ;;
          mp_entries fuel (u32 (p + MPIOAPIC_SIZE)) e ismp
        else if (m p =? MPBUS) || (m p =? MPIOINTR) || (m p =? MPLINTR) then
          mp_entries fuel (u32 (p + 8)) e ismp
        else
          mp_entries fuel p e 0
    end
  else ret ismp.

(** Every entry has at least 8 bytes. *)
Definition mpinit : MD (D := D) unit :=
  let! conf := mpconfig in
  match conf with
  | None => panic "Expect to run on an SMP"
  | Some (conf, mp) =>
      let! m := getmem in
      updv (set_v_lapic (conf_lapicaddr (mpconf_at m conf))) ;;
      let! ismp := mp_entries (Z.to_nat (conf_length (mpconf_at m conf) / 8)) (u32 (conf + MPCONF_SIZE)) (u32 (conf + conf_length (mpconf_at m conf))) 1 in
      if ismp =? 0 then panic "Didn't find a suitable machine" else
      when (negb (mp_imcrp (mp_at m mp) =? 0))
        (outb 34 112 ;;
         let! x := inb 35 in
         outb 35 (Z.lor x 1))
  end.
End Search.

(** * The search *)

(** The places where the structure can be, in the order of the search: the first kilobyte of the extended BIOS data
    area if there is one, otherwise the last kilobyte of base memory, then the BIOS ROM. *)
Definition paragraphs (a : Z) (n : nat) : list Z := (fun k => P2V a + 16 * Z.of_nat k) <$> seq 0 n.
Definition ebda (m : mem) : Z := 16 * (m (P2V 1024 + 14) + 256 * m (P2V 1024 + 15)).
Definition base_memory (m : mem) : Z := 1024 * (m (P2V 1024 + 19) + 256 * m (P2V 1024 + 20)).
Definition candidates (m : mem) : list Z :=
  paragraphs (if ebda m =? 0 then base_memory m - 1024 else ebda m) 64 ++ paragraphs 983040 4096.
Definition floating (m : mem) : option Z := find (is_mp m) (candidates m).

(** The words of the BIOS data area that say where the structure can be are bytes. *)
Definition bda_bytes (m : mem) : Prop := Forall (fun k => is_byte (m (P2V 1024 + k))) [14; 15; 19; 20].

Lemma bytes_word lo hi : is_byte lo -> is_byte hi -> Z.lor (Z.shiftl hi 8) lo = lo + 256 * hi.
Proof. unfold is_byte. intros Hl Hh. rewrite (lor_shift 8) by lia. lia. Qed.

Lemma P2V_u32 a : P2V (u32 a) = P2V a.
Proof. unfold P2V, u32. by rewrite Z.add_mod_idemp_l by lia. Qed.

Lemma P2V_low a : - 2 ^ 31 <= a < 2 ^ 31 -> P2V a = a + 2 ^ 31.
Proof. unfold P2V, KERNBASE. intros Ha. apply u32_small. lia. Qed.

Section Searching.
Context {D : Type} `{Device D}.
Implicit Types (st : machine D) (m : mem).

Lemma mpsearch1_loop_ok m e n : forall p st, k_mem (mc_k st) = m -> 0 <= p -> e = p + 16 * Z.of_nat n -> e < 2 ^ 32 ->
  mpsearch1_loop n p e st = Ret (find (is_mp m) ((fun k => p + 16 * Z.of_nat k) <$> seq 0 n)) st.
Proof.
  induction n as [|n IH]; intros p st Hm Hp He Hlt; cbn [mpsearch1_loop].
  - destruct (Z.ltb_spec p e); [lia|done].
  - destruct (Z.ltb_spec p e); [|lia]. unfold getmem. rewrite bind_gets, Hm. cbn [seq fmap list_fmap find].
    rewrite Z.mul_0_r, Z.add_0_r. destruct (is_mp m p); [done|]. unfold MP_SIZE. rewrite u32_small by lia.
    rewrite IH; [|done|lia|lia|done]. rewrite <- fmap_S_seq, <- list_fmap_compose. do 2 f_equal.
    apply list_fmap_ext. intros i k _. cbn. lia.
Qed.

Lemma mpsearch1_ok a n len st : len = 16 * Z.of_nat n -> P2V a + len < 2 ^ 32 ->
  mpsearch1 a len st = Ret (find (is_mp (k_mem (mc_k st))) (paragraphs a n)) st.
Proof.
  intros -> Ha. unfold mpsearch1, paragraphs, MP_SIZE. rewrite Z.mul_comm, Z.div_mul, Nat2Z.id by lia.
  pose proof (u32_range (a + KERNBASE)) as Hr. fold (P2V a) in Hr. rewrite u32_small by lia.
  rewrite (mpsearch1_loop_ok (k_mem (mc_k st))); [done|done|lia|lia|lia].
Qed.

Lemma find_app {A} (f : A -> bool) l1 l2 : find f (l1 ++ l2) = match find f l1 with Some x => Some x | None => find f l2 end.
Proof. induction l1 as [|x l1 IH]; cbn; [done|]. by destruct (f x). Qed.

(** [mpsearch] finds the first structure among the candidates. *)
Lemma mpsearch_ok st : bda_bytes (k_mem (mc_k st)) -> mpsearch st = Ret (floating (k_mem (mc_k st))) st.
Proof.
  intros Hb. unfold mpsearch, floating, candidates, getmem. rewrite bind_gets, find_app. set (m := k_mem (mc_k st)) in *.
  apply Forall_cons in Hb as [? Hb]. apply Forall_cons in Hb as [? Hb]. apply Forall_cons in Hb as [? Hb]. apply Forall_cons in Hb as [? _].
  rewrite !bytes_word, Z.shiftl_mul_pow2 by done. unfold is_byte in *.
  replace ((m (P2V 1024 + 14) + 256 * m (P2V 1024 + 15)) * 2 ^ 4) with (ebda m) by (unfold ebda; lia).
  replace ((m (P2V 1024 + 19) + 256 * m (P2V 1024 + 20)) * 1024) with (base_memory m) by (unfold base_memory; lia).
  assert (E : (if negb (ebda m =? 0) then mpsearch1 (ebda m) 1024 else mpsearch1 (u32 (base_memory m - 1024)) 1024) st
    = Ret (find (is_mp m) (paragraphs (if ebda m =? 0 then base_memory m - 1024 else ebda m) 64)) st).
  { destruct (Z.eqb_spec (ebda m) 0); cbn [negb].
    - assert (Hbase : 0 <= base_memory m < 67108864) by (unfold base_memory; lia).
      rewrite (mpsearch1_ok _ 64) by (done || rewrite P2V_u32, P2V_low by lia; lia). fold m. unfold paragraphs. by rewrite P2V_u32.
    - assert (Hebda : 0 <= ebda m < 1048576) by (unfold ebda; lia). by rewrite (mpsearch1_ok _ 64) by (done || rewrite P2V_low by lia; lia). }
  erewrite bind_run by exact E.
  destruct (find (is_mp m) (paragraphs _ 64)); [reflexivity|].
  apply mpsearch1_ok.
  - by vm_compute.
  - by vm_compute.
Qed.
End Searching.

(** * The configuration table *)

(** The entries of the table. The bytes the kernel does not look at are kept as they are. *)
Inductive entry : Type :=
  | E_proc (apicid : Z) (rest : list Z)
  | E_ioapic (apicno : Z) (rest : list Z)
  | E_other (type : Z) (rest : list Z).

Definition enc_entry (x : entry) : list Z :=
  match x with
  | E_proc a r => MPPROC :: a :: r
  | E_ioapic a r => MPIOAPIC :: a :: r
  | E_other t r => t :: r
  end.
Definition entry_ok (x : entry) : Prop :=
  match x with
  | E_proc _ r => length r = 18%nat
  | E_ioapic _ r => length r = 6%nat
  | E_other t r => t ∈ [MPBUS; MPIOINTR; MPLINTR] /\ length r = 7%nat
  end.
Definition enc_entries (es : list entry) : list Z := es ≫= enc_entry.
Definition stored (m : mem) (a : Z) (l : list Z) : Prop := ld_bytes m a (length l) = l.

(** The processors of the table, and the last I/O APIC. *)
Definition apicids (es : list entry) : list Z := es ≫= fun x => match x with E_proc a _ => [a] | _ => [] end.
Definition last_ioapic (es : list entry) (id : Z) : Z := fold_left (fun id x => match x with E_ioapic a _ => a | _ => id end) es id.

Definition with_ids (ids : list Z) (cpus : list cpu) : list cpu :=
  imap (fun i c => match ids !! i with Some a => set_c_apicid a c | None => c end) cpus.
Definition with_cpus (ids : list Z) (h : hw) : hw :=
  set_h_ncpu (Z.min NCPU (Z.of_nat (length ids))) (set_h_cpus (with_ids ids (h_cpus h)) h).

Lemma stored_app m a l1 l2 : stored m a (l1 ++ l2) <-> stored m a l1 /\ stored m (a + Z.of_nat (length l1)) l2.
Proof.
  unfold stored. revert a. induction l1 as [|x l1 IH]; intros a; cbn [app length ld_bytes].
  - rewrite Z.add_0_r. naive_solver.
  - replace (a + Z.of_nat (S (length l1))) with (a + 1 + Z.of_nat (length l1)) by lia. specialize (IH (a + 1)). split.
    + intros E. injection E as E1 E2. apply IH in E2 as [E2 E3]. by rewrite E1, E2.
    + intros [E1 E3]. injection E1 as E1 E2. rewrite E1. f_equal. apply IH. done.
Qed.

Lemma stored_head m a x l : stored m a (x :: l) -> m a = x /\ stored m (a + 1) l.
Proof. unfold stored. cbn. intros E. by injection E. Qed.

Lemma with_ids_nil cpus : with_ids [] cpus = cpus.
Proof. unfold with_ids. induction cpus as [|c l IH]; [done|]. cbn. by rewrite <- IH at 2. Qed.

Lemma with_ids_snoc ids a cpus c : cpus !! length ids = Some c ->
  <[length ids := set_c_apicid a c]> (with_ids ids cpus) = with_ids (ids ++ [a]) cpus.
Proof.
  intros Hc. unfold with_ids. apply list_eq. intros i. rewrite list_lookup_imap. destruct (decide (i = length ids)) as [->|Hi].
  - rewrite list_lookup_insert_eq by (rewrite length_imap; by eapply lookup_lt_Some). rewrite Hc. cbn. by rewrite lookup_app_r, Nat.sub_diag by lia.
  - rewrite list_lookup_insert_ne, list_lookup_imap by done. destruct (cpus !! i) eqn:Ei; [|done]. cbn. do 2 f_equal.
    destruct (decide (i < length ids)%nat).
    + by rewrite lookup_app_l by done.
    + rewrite (lookup_ge_None_2 ids) by lia. rewrite lookup_ge_None_2; [done|]. rewrite length_app. cbn. lia.
Qed.

Lemma with_ids_full ids ids' cpus : (length cpus <= length ids)%nat -> with_ids (ids ++ ids') cpus = with_ids ids cpus.
Proof.
  intros Hl. apply list_eq. intros i. unfold with_ids. rewrite !list_lookup_imap. destruct (cpus !! i) eqn:Ei; [|done]. cbn.
  apply lookup_lt_Some in Ei. by rewrite lookup_app_l by lia.
Qed.

Section Table.
Context {D : Type} `{Device D}.
Implicit Types (s : kernel) (v : drivers) (d : D) (m : mem).

(** The state after the entries [es] of a machine whose processors are [ids] so far. *)
Definition cpus_known (ids : list Z) s : kernel := set_k_hw (with_cpus ids (k_hw s)) s.

Lemma cpus_known_mem ids s : k_mem (cpus_known ids s) = k_mem s.
Proof. done. Qed.

Lemma cpus_known_full ids a s : length (h_cpus (k_hw s)) = 8%nat -> (8 <= length ids)%nat -> cpus_known (ids ++ [a]) s = cpus_known ids s.
Proof. intros Hl Hi. unfold cpus_known, with_cpus. rewrite with_ids_full, length_app by lia. unfold NCPU. by rewrite !Z.min_l by (cbn; lia). Qed.

Lemma cpus_known_add ids a s : length (h_cpus (k_hw s)) = 8%nat -> (length ids < 8)%nat ->
  (updcpu (Z.to_nat (Z.min NCPU (Z.of_nat (length ids)))) (set_c_apicid a) ;; sethw (fun h => set_h_ncpu (h_ncpu h + 1) h)) (cpus_known ids s)
  = Ret tt (cpus_known (ids ++ [a]) s).
Proof.
  intros Hl Hi. rewrite Z.min_r, Nat2Z.id by (unfold NCPU; lia). destruct (lookup_lt_is_Some_2 (h_cpus (k_hw s)) (length ids)) as [c Hc]; [lia|].
  assert (Hn : (ids : list Z) !! length ids = None) by (by apply lookup_ge_None_2).
  assert (Hc' : h_cpus (k_hw (cpus_known ids s)) !! length ids = Some c) by (cbn; unfold with_ids; by rewrite list_lookup_imap, Hc; cbn; rewrite Hn).
  erewrite bind_run by exact (updcpu_eq _ _ _ _ Hc'). unfold cpus_known, with_cpus. rewrite <- (with_ids_snoc _ _ _ _ Hc).
  replace (NCPU `min` Z.of_nat (length (ids ++ [a]))) with (NCPU `min` Z.of_nat (length ids) + 1) by (rewrite length_app; cbn; unfold NCPU; lia).
  reflexivity.
Qed.

Lemma mp_proc_add ids a s v d : length (h_cpus (k_hw s)) = 8%nat ->
  when (h_ncpu (k_hw (cpus_known ids s)) <? NCPU) (lk (D := D) (updcpu (Z.to_nat (h_ncpu (k_hw (cpus_known ids s)))) (set_c_apicid a) ;;
    sethw (fun h => set_h_ncpu (h_ncpu h + 1) h))) (mkMachine (cpus_known ids s) v d) = Ret tt (mkMachine (cpus_known (ids ++ [a]) s) v d).
Proof.
  intros Hl. change (h_ncpu (k_hw (cpus_known ids s))) with (Z.min NCPU (Z.of_nat (length ids))).
  destruct (Z.ltb_spec (Z.min NCPU (Z.of_nat (length ids))) NCPU) as [Hlt|Hge]; unfold NCPU in *; cbn [when].
  - by erewrite lk_ret by (apply (cpus_known_add ids); [done|lia]).
  - by rewrite cpus_known_full by lia.
Qed.

(** The entries [es] move the loop past them. *)
Lemma mp_entries_step m e i s d es : forall ids v p fuel, k_mem s = m -> length (h_cpus (k_hw s)) = 8%nat -> Forall entry_ok es ->
  stored m p (enc_entries es) -> 0 <= p -> p + Z.of_nat (length (enc_entries es)) <= e < 2 ^ 32 ->
  mp_entries (length es + fuel) p e i (mkMachine (cpus_known ids s) v d)
  = mp_entries fuel (p + Z.of_nat (length (enc_entries es))) e i
      (mkMachine (cpus_known (ids ++ apicids es) s) (set_v_ioapicid (last_ioapic es (v_ioapicid v)) v) d).
Proof.
  induction es as [|x es IH]; intros ids v p fuel Hm Hc Hok Hst Hp He.
  - cbn [length enc_entries apicids last_ioapic fold_left mbind list_bind Nat.add]. rewrite app_nil_r, Z.add_0_r. by destruct v.
  - apply Forall_cons in Hok as [Hx Hok]. change (enc_entries (x :: es)) with (enc_entry x ++ enc_entries es) in *.
    apply stored_app in Hst as [Hs1 Hs2]. rewrite length_app in *. cbn [length Nat.add mp_entries].
    assert (Hlen : (0 < length (enc_entry x))%nat) by (destruct x; cbn; lia).
    destruct (Z.ltb_spec p e); [|lia]. unfold getmem. rewrite bind_gets. cbn [mc_k]. rewrite cpus_known_mem, Hm.
    replace (p + Z.of_nat (length (enc_entry x) + length (enc_entries es))) with (p + Z.of_nat (length (enc_entry x)) + Z.of_nat (length (enc_entries es))) by lia.
    destruct x as [a r|a r|t r]; cbn [enc_entry] in *; apply stored_head in Hs1 as [E1 Hs1]; rewrite E1; cbn in Hx.
    + apply stored_head in Hs1 as [E2 _]. cbn [Z.eqb MPPROC mpproc_at mpp_apicid]. rewrite E2. erewrite bind_run; [|by eapply lk_ret]. cbn [mc_k mc_v mc_d].
      erewrite bind_run; [|by apply (mp_proc_add ids)]. cbn [length] in *. unfold MPPROC_SIZE. rewrite u32_small by lia.
      rewrite Hx in *. rewrite IH by (done || lia). by rewrite <- app_assoc.
    + apply stored_head in Hs1 as [E2 _]. change (MPIOAPIC =? MPPROC) with false. change (MPIOAPIC =? MPIOAPIC) with true. cbn [mpioapic_at mpi_apicno]. rewrite E2. erewrite bind_run by reflexivity. cbn [mc_k mc_v mc_d].
      cbn [length] in *. unfold MPIOAPIC_SIZE. rewrite u32_small by lia. rewrite Hx in *. rewrite IH by (done || lia). by destruct v.
    + destruct Hx as [Ht Hx]. cbn [length] in *. rewrite Hx in *.
      rewrite (u32_small (p + 8)) by lia. rewrite !elem_of_cons, elem_of_nil in Ht.
      
      assert (Et : (t =? MPPROC) = false /\ (t =? MPIOAPIC) = false /\ (t =? MPBUS) || (t =? MPIOINTR) || (t =? MPLINTR) = true)
        by (by destruct Ht as [->|[->|[->|[]]]]).
      destruct Et as (-> & -> & ->). by rewrite IH by (done || lia).
Qed.

(** An entry of another type stops the loop from making progress: whatever the fuel, it is not enough. *)
Lemma mp_entries_stuck p e (st : machine D) fuel : forall i, p < e -> k_mem (mc_k st) p ∉ [MPPROC; MPBUS; MPIOAPIC; MPIOINTR; MPLINTR] ->
  mp_entries fuel p e i st = NoFuel st.
Proof.
  induction fuel as [|fuel IH]; intros i Hp Hm; cbn [mp_entries]; destruct (Z.ltb_spec p e); try lia; [done|].
  unfold getmem. rewrite bind_gets. rewrite !not_elem_of_cons in Hm. destruct Hm as (? & ? & ? & ? & ? & _).
  rewrite !(proj2 (Z.eqb_neq _ _)) by done. cbn [orb]. apply IH; [done|]. rewrite !not_elem_of_cons. repeat split; try done. apply not_elem_of_nil.
Qed.

Lemma mp_sum_eq m a n : mp_sum m a n = foldr Z.add 0 (ld_bytes m a (Z.to_nat n)) mod 256.
Proof.
  unfold mp_sum, u8. f_equal. generalize (Z.to_nat n) as k. assert (E : forall k a acc, sum_loop m a k acc = acc + foldr Z.add 0 (ld_bytes m a k)).
  { induction k as [|k IH]; intros b acc; cbn; [lia|]. rewrite IH. lia. }
  intros k. apply E.
Qed.

(** A configuration table that the kernel accepts, at [conf], found through the floating structure [mp]. *)
Record mp_header m (mp conf : Z) : Prop := {
  mt_mp : floating m = Some mp;
  mt_physaddr : mp_physaddr (mp_at m mp) <> 0;
  mt_conf : conf = P2V (mp_physaddr (mp_at m mp));
  mt_signature : ld_bytes m conf 4 = str "PCMP";
  mt_version : conf_version (mpconf_at m conf) = 1 \/ conf_version (mpconf_at m conf) = 4;
  mt_checksum : foldr Z.add 0 (ld_bytes m conf (Z.to_nat (conf_length (mpconf_at m conf)))) mod 256 = 0
}.

Definition found m (r : option (Z * Z)) : Prop :=
  match r with
  | Some (conf, mp) => mp_header m mp conf
  | None => forall mp conf, ~ mp_header m mp conf
  end.

Lemma mpconfig_ok (st : machine D) : bda_bytes (k_mem (mc_k st)) ->
  exists r, mpconfig st = Ret r st /\ found (k_mem (mc_k st)) r.
Proof.
  intros Hb. unfold mpconfig. erewrite bind_run by by apply mpsearch_ok. unfold getmem. rewrite bind_gets. set (m := k_mem (mc_k st)).
  destruct (floating m) as [mp|] eqn:Ef; [|exists None; split; [done|]; intros ?? [F1 _ _ _ _ _]; congruence].
  destruct (Z.eqb_spec (mp_physaddr (mp_at m mp)) 0); [exists None; split; [done|]; intros ?? [F1 F2 _ _ _ _]; congruence|].
  set (conf := P2V (mp_physaddr (mp_at m mp))). unfold has_signature. rewrite mp_sum_eq.
  assert (Hrej : forall P : Prop, (mp_header m mp conf -> P) -> ~ P -> found m None).
  { intros P HP HnP mp' conf' F. pose proof (mt_mp _ _ _ F) as F1. pose proof (mt_conf _ _ _ F) as F3.
    assert (mp' = mp) as -> by congruence. rewrite F3 in F. by apply HnP, HP. }
  case_bool_decide as Hs; cbn [negb]; [|exists None; split; [done|]; by eapply Hrej; [apply mt_signature|]].
  destruct (Z.eqb_spec (conf_version (mpconf_at m conf)) 1) as [Hv1|Hv1], (Z.eqb_spec (conf_version (mpconf_at m conf)) 4) as [Hv4|Hv4]; cbn [negb andb];
    [..|exists None; split; [done|]; by eapply Hrej; [apply mt_version|tauto]].
  all: destruct (Z.eqb_spec (foldr Z.add 0 (ld_bytes m conf (Z.to_nat (conf_length (mpconf_at m conf)))) mod 256) 0) as [Hc|Hc]; cbn [negb];
    [exists (Some (conf, mp)); split; [done|]; constructor; auto|exists None; split; [done|]; by eapply Hrej; [apply mt_checksum|]].
Qed.

Definition imcr m (mp : Z) d : D :=
  if mp_imcrp (mp_at m mp) =? 0 then d else let '(x, d) := d_inb 35 (d_outb 34 112 d) in d_outb 35 (u8 (Z.lor x 1)) d.

Lemma enc_entries_length es : Forall entry_ok es -> (8 * length es <= length (enc_entries es))%nat.
Proof.
  induction 1 as [|x es Hx _ IH]; [done|]. change (enc_entries (x :: es)) with (enc_entry x ++ enc_entries es). rewrite length_app. cbn [length].
  destruct x; cbn in *; lia.
Qed.

(** A processor of the table finds itself. *)
Lemma cpus_known_mycpu ids s i a : length (h_cpus (k_hw s)) = 8%nat -> NoDup ids -> ids !! i = Some a -> (i < 8)%nat ->
  h_lapicid (k_hw s) = a -> h_IF (k_hw s) = false -> mycpu (cpus_known ids s) = Ret i (cpus_known ids s).
Proof.
  intros Hl Hnd Hi Hi8 Ha HIF. pose proof (lookup_lt_Some _ _ _ Hi) as Hlt. destruct (lookup_lt_is_Some_2 (h_cpus (k_hw s)) i) as [c Hc]; [lia|].
  apply (mycpu_eq _ i (set_c_apicid a c)); [|done]. constructor; cbn.
  - unfold with_ids. by rewrite list_lookup_imap, Hc; cbn; rewrite Hi.
  - unfold NCPU. lia.
  - unfold with_ids, NCPU. rewrite length_imap. lia.
  - done.
  - intros j c' Hj Hjc E. unfold with_ids in Hjc. rewrite list_lookup_imap in Hjc. destruct (h_cpus (k_hw s) !! j); [|done]. cbn in Hjc.
    destruct (lookup_lt_is_Some_2 ids j) as [b Hb]; [lia|]. rewrite Hb in Hjc. injection Hjc as <-. cbn in E.
    assert (j = i); [|lia]. eapply NoDup_lookup; [done|exact Hb|]. by rewrite E, Ha.
Qed.
Lemma mpinit_ok s v d mp conf es : let m := k_mem s in
  bda_bytes m -> length (h_cpus (k_hw s)) = 8%nat -> h_ncpu (k_hw s) = 0 ->
  mp_header m mp conf -> Forall entry_ok es -> conf_length (mpconf_at m conf) = MPCONF_SIZE + Z.of_nat (length (enc_entries es)) ->
  conf + conf_length (mpconf_at m conf) < 2 ^ 32 -> stored m (conf + MPCONF_SIZE) (enc_entries es) ->
  mpinit (mkMachine s v d) = Ret tt (mkMachine (cpus_known (apicids es) s)
    (set_v_ioapicid (last_ioapic es (v_ioapicid v)) (set_v_lapic (conf_lapicaddr (mpconf_at m conf)) v)) (imcr m mp d)).
Proof.
  intros m Hb Hl Hn Hh Hok Hlen Hlt Hst. destruct (mpconfig_ok (mkMachine s v d) Hb) as (r & E & Hr).
  unfold mpinit. erewrite bind_run by exact E. destruct r as [[conf' mp']|]; [|by destruct (Hr mp conf)]. cbn [found mc_k] in Hr. fold m in Hr.
  assert (mp' = mp) as -> by (pose proof (mt_mp _ _ _ Hr); pose proof (mt_mp _ _ _ Hh); congruence).
  assert (conf' = conf) as -> by (by rewrite (mt_conf _ _ _ Hr), (mt_conf _ _ _ Hh)).
  unfold getmem. rewrite bind_gets. cbn [mc_k]. fold m. erewrite bind_run by reflexivity. cbn [mc_k mc_v mc_d].
  assert (Hc0 : 0 <= conf) by (rewrite (mt_conf _ _ _ Hh); apply u32_range).
  pose proof (enc_entries_length _ Hok) as H8. unfold MPCONF_SIZE in *. rewrite !u32_small by lia.
  assert (Hs0 : s = cpus_known [] s).
  { unfold cpus_known, with_cpus. rewrite with_ids_nil. cbn [length]. change (NCPU `min` Z.of_nat 0) with 0. rewrite <- Hn. destruct s as [h ?]. by destruct h. }
  set (n := Z.to_nat (conf_length (mpconf_at m conf) / 8)). assert (Hge : (length es <= n)%nat).
  { unfold n. apply Nat2Z.inj_le. rewrite Z2Nat.id by (apply Z.div_pos; lia). apply Z.div_le_lower_bound; lia. }
  replace n with (length es + (n - length es))%nat by lia.
  rewrite Hs0 at 1. erewrite bind_run.
  2: { rewrite (mp_entries_step m); [|done..|lia|lia]. rewrite app_nil_l. destruct (n - length es)%nat; cbn [mp_entries]; destruct (Z.ltb_spec (conf + 44 + Z.of_nat (length (enc_entries es))) (conf + conf_length (mpconf_at m conf))); try lia; reflexivity. }
  cbn [Z.eqb]. unfold imcr. destruct (mp_imcrp (mp_at m mp) =? 0); cbn [negb when]; [done|].
  erewrite bind_run by reflexivity. cbn [mc_d mc_k mc_v]. change (u8 112) with 112. unfold bind at 1, inb. cbn [mc_d mc_k mc_v].
  by destruct (d_inb 35 (d_outb 34 112 d)).
Qed.
End Table.

(** * Tables in low memory *)

(** The firmware's tables below the kernel: they describe [es]. *)
Record mp_tables (m : mem) (mp conf : Z) (es : list entry) : Prop := {
  tb_bda : bda_bytes m;
  tb_ebda : ebda m <= 1047552;
  tb_base : base_memory m <= 1048576;
  tb_header : mp_header m mp conf;
  tb_low : KERNBASE <= conf /\ conf + conf_length (mpconf_at m conf) <= KERNLINK;
  tb_length : conf_length (mpconf_at m conf) = MPCONF_SIZE + Z.of_nat (length (enc_entries es));
  tb_entries : Forall entry_ok es;
  tb_stored : stored m (conf + MPCONF_SIZE) (enc_entries es)
}.

Section Low.
Context (m m' : mem).
Hypothesis Hlow : forall x, x < KERNLINK -> m' x = m x.

Lemma ld_bytes_low n : forall a, a + Z.of_nat n <= KERNLINK -> ld_bytes m' a n = ld_bytes m a n.
Proof. induction n as [|n IH]; intros a Ha; cbn [ld_bytes]; [done|]. rewrite Hlow by lia. by rewrite IH by lia. Qed.

Lemma is_mp_low p : p + 16 <= KERNLINK -> is_mp m' p = is_mp m p.
Proof. intros Hp. unfold is_mp, has_signature. rewrite !mp_sum_eq, !ld_bytes_low by (unfold MP_SIZE; lia). done. Qed.

Lemma mp_at_low p : p + 16 <= KERNLINK -> mp_at m' p = mp_at m p.
Proof. intros Hp. unfold mp_at. rewrite !(ld32_out m' m) by (intros; apply Hlow; lia). by rewrite !ld_bytes_low, !Hlow by lia. Qed.

Lemma mpconf_at_low p : p + 44 <= KERNLINK -> mpconf_at m' p = mpconf_at m p.
Proof. intros Hp. unfold mpconf_at, ld16. rewrite !(ld32_out m' m) by (intros; apply Hlow; lia). by rewrite !ld_bytes_low, !Hlow by lia. Qed.

Lemma bda_low : ebda m' = ebda m /\ base_memory m' = base_memory m /\ (bda_bytes m -> bda_bytes m').
Proof.
  unfold ebda, base_memory, bda_bytes. rewrite !Forall_cons, !Hlow by (by vm_compute). split; [done|]. split; [done|]. rewrite !Forall_nil. by intros.
Qed.

Lemma find_ext_in {A} (f g : A -> bool) l : (forall x, x ∈ l -> f x = g x) -> find f l = find g l.
Proof. induction l as [|x l IH]; intros Hx; cbn; [done|]. rewrite (Hx x) by set_solver. destruct (g x); [done|]. apply IH. set_solver. Qed.

Lemma paragraphs_low a n p : p ∈ paragraphs a n -> - 1024 <= a -> a + 16 * Z.of_nat n <= 1048576 -> p + 16 <= KERNLINK.
Proof.
  intros (k & -> & Hk)%list_elem_of_fmap Ha Hn. apply elem_of_seq in Hk. rewrite P2V_low by lia. change KERNLINK with 2148532224. lia.
Qed.

Lemma candidates_low p : bda_bytes m -> ebda m <= 1047552 -> base_memory m <= 1048576 -> p ∈ candidates m -> p + 16 <= KERNLINK.
Proof.
  intros Hb He Hm [Hp|Hp]%elem_of_app; eapply paragraphs_low; [exact Hp|..|exact Hp| |]; try done.
  all: unfold bda_bytes in Hb; rewrite !Forall_cons in Hb; unfold is_byte in Hb.
  - destruct (ebda m =? 0); unfold ebda, base_memory in *; lia.
  - destruct (ebda m =? 0); lia.
Qed.

Lemma mp_tables_low mp conf es : mp_tables m mp conf es -> mp_tables m' mp conf es.
Proof.
  intros [T1 T2 T3 [F1 F2 F3 F4 F5 F6] T5 T6 T7 T8]. destruct bda_low as (B1 & B2 & B3).
  assert (Hf : floating m' = floating m).
  { unfold floating. assert (candidates m' = candidates m) as -> by (unfold candidates; by rewrite B1, B2).
    apply find_ext_in. intros p Hp. apply is_mp_low. by apply candidates_low. }
  assert (Hmp : mp + 16 <= KERNLINK).
  { apply find_some in F1 as [F1 _]. apply candidates_low; [done..|]. by apply list_elem_of_In. }
  pose proof (mpconf_at_low conf) as Hc. unfold MPCONF_SIZE in *. specialize (Hc ltac:(lia)). pose proof (mp_at_low mp Hmp) as Hm.
  constructor; rewrite ?Hc, ?B1, ?B2; auto.
  - constructor; rewrite ?Hf, ?Hm, ?Hc; auto; rewrite ld_bytes_low; auto; lia.
  - unfold stored in *. rewrite ld_bytes_low; [done|]. unfold MPCONF_SIZE. lia.
Qed.
End Low.


(** A machine with two processors and an I/O APIC, the tables in the BIOS ROM. *)
Definition demo_tables : list Z :=
  str "_MP_" ++ [0; 1; 15; 0; 1; 4; 16; 0; 128; 0; 0; 0] ++ replicate 240 0 ++
  str "PCMP" ++ [100; 0; 4; 128] ++ replicate 26 0 ++ [4; 0; 0; 0; 224; 254; 0; 0; 0; 0] ++
  enc_entries [E_proc 0 (replicate 18 0); E_proc 1 (replicate 18 0); E_ioapic 2 (replicate 6 0); E_other 1 (replicate 7 0)].
Definition demo_memory : mem := fun x => if x <? 2148466688 then 0 else nth (Z.to_nat (x - 2148466688)) demo_tables 0.
Definition demo_machine : kernel := set_k_mem demo_memory (set_k_hw (set_h_ncpu 0 hw0) kernel0).

Lemma demo_memory_bytes x : is_byte (demo_memory x).
Proof.
  unfold demo_memory. destruct (x <? 2148466688); [split; lia|]. destruct (nth_in_or_default (Z.to_nat (x - 2148466688)) demo_tables 0) as [Hi|E]; [|rewrite E; split; lia].
  assert (Hall : Forall is_byte demo_tables) by (apply (bool_decide_unpack (Forall (fun b => 0 <= b < 256) demo_tables)); by vm_compute).
  rewrite Forall_forall in Hall. apply Hall. by apply list_elem_of_In.
Qed.

Lemma demo_header : mp_header demo_memory 2148466688 2148466944.
Proof. by constructor; [vm_compute..|right|]. Qed.

