(* ===== verification/Main.v ===== *)
(** Start-up ([main.c]): [main] on the boot processor, [startothers], and [mpenter] and [mpmain] on the others. *)

From S2P Require Import Prelude Bytes KString Params State Spinlock Cprintf Mmu Kalloc Vm Aspace Uspace Sched Bio Fs File Proc Init Console Dev Kbd Ide Seg Boot Mp.
From stdpp Require Import base list gmap sets strings.
From Stdlib Require Import ZArith Lia.
Local Open Scope Z_scope.
Local Open Scope km_scope.

(** What the linker adds: the image of [entryother.S], the entry point of the other processors and the place of the
    boot page directory. *)
Class BootSymbols : Type := {
  entryother : list Z;
  mpenter_addr : Z;
  entrypgdir_addr : Z
}.

Section Start.
Context {D : Type} `{Device D} `{WaitFuel} `{Symbols} `{BootSymbols} `{Linked}.

(** [consoleinit] with the line of the keyboard. *)
Definition consoleinit_irq : MD (D := D) unit :=
  lk consoleinit ;;
  ioapicenable IRQ_KBD 0.

(** [while(c->started == 0);]: between two looks the other processors run. *)
Fixpoint wait_started (fuel : nat) (i : nat) : MD (D := D) unit :=
  let! c := lk (getcpu i) in
  if negb (c_started c =? 0) then ret tt else
  match fuel with
  | O => nofuel
  | S fuel => lk swtch ;; wait_started fuel i
  end.

Definition start_ap (code : Z) (i : nat) : MD (D := D) unit :=
  let! me := lk mycpu in
  if Nat.eqb i me then ret tt else
  let! stack := lk kalloc in
  lk (updmem (fun m => st32 m (code - 4) (u32 (stack + KSTACKSIZE)))) ;;
  lk (updmem (fun m => st32 m (code - 8) mpenter_addr)) ;;
  lk (updmem (fun m => st32 m (code - 12) (V2P entrypgdir_addr))) ;;
  let! c := lk (getcpu i) in
  lapicstartap (c_apicid c) (V2P code) ;;
  wait_started wait_fuel i.

Definition startothers : MD (D := D) unit :=
  let code := P2V 28672 in
  lk (updmem (fun m => st_bytes m code entryother)) ;;
  let! ncpu := lk (gets (fun s => h_ncpu (k_hw s))) in
  for_each (range ncpu) (start_ap code).

(** [mpmain]; the scheduler is run for [rounds] rounds. *)
Definition mpmain (rounds : nat) : MD (D := D) unit :=
  let! a := lk cpuid in
  let! b := lk cpuid in
  lk (cprintf (str "cpu%d: starting %d" ++ [NL]) [A_int (Z.of_nat a); A_int (Z.of_nat b)]) ;;
  idtinit ;;
  let! i := lk mycpu in
  lk (updcpu i (set_c_started 1)) ;;
  lk (scheduler rounds).

Definition mpenter (rounds : nat) : MD (D := D) unit :=
  lk switchkvm ;;
  seginit ;;
  lapicinit ;;
  mpmain rounds.

Definition main (rounds : nat) : MD (D := D) unit :=
  let! kend := lk (gets k_end) in
  lk (kinit1 kend (P2V 4194304)) ;;
  lk kvmalloc ;;
  mpinit ;;
  lapicinit ;;
  seginit ;;
  picinit ;;
  ioapicinit ;;
  consoleinit_irq ;;
  uartinit ;;
  lk pinit ;;
  tvinit ;;
  lk binit ;;
  lk fileinit ;;
  ideinit ;;
  startothers ;;
  lk (kinit2 (P2V 4194304) (P2V PHYSTOP)) ;;
  lk userinit ;;
  mpmain rounds.
End Start.

(** The boot page table: 4-megabyte pages that map the first 4 megabytes at 0 and at [KERNBASE]. *)
Definition entrypgdir : list Z :=
  <[0%nat := Z.lor (Z.lor PTE_P PTE_W) PTE_PS]> (<[Z.to_nat (Z.shiftr KERNBASE 22) := Z.lor (Z.lor PTE_P PTE_W) PTE_PS]> (replicate 1024 0)).

(** What the boot page table makes of a virtual address: the page directory has 4-megabyte pages only. *)
Definition entry_trans (va : Z) : option Z :=
  e ← entrypgdir !! Z.to_nat (PDX va);
  if negb (Z.land e PTE_P =? 0) && negb (Z.land e PTE_PS =? 0) then Some (Z.land e (Z.lnot (2 ^ 22 - 1)) + va mod 2 ^ 22) else None.

Lemma entry_trans_eq va : 0 <= va < 2 ^ 32 ->
  entry_trans va = if (va <? 4194304) || ((KERNBASE <=? va) && (va <? KERNBASE + 4194304)) then Some (va mod 2 ^ 22) else None.
Proof.
  intros Hva. unfold entry_trans. rewrite PDX_eq by done. assert (Hq : 0 <= va / 2 ^ 22 < 1024) by (split; [apply Z.div_pos; lia|apply Z.div_lt_upper_bound; lia]).
  assert (Hlo : (va <? 4194304) = (va / 2 ^ 22 =? 0)).
  { apply eq_true_iff_eq. rewrite Z.ltb_lt, Z.eqb_eq. pose proof (Z.div_mod va (2 ^ 22) ltac:(done)). pose proof (Z.mod_pos_bound va (2 ^ 22) ltac:(done)). lia. }
  assert (Hhi : (KERNBASE <=? va) && (va <? KERNBASE + 4194304) = (va / 2 ^ 22 =? 512)).
  { apply eq_true_iff_eq. rewrite andb_true_iff, Z.leb_le, Z.ltb_lt, Z.eqb_eq. unfold KERNBASE. pose proof (Z.div_mod va (2 ^ 22) ltac:(done)). pose proof (Z.mod_pos_bound va (2 ^ 22) ltac:(done)). lia. }
  rewrite Hlo, Hhi. set (q := va / 2 ^ 22) in *. unfold entrypgdir. change (Z.to_nat (Z.shiftr KERNBASE 22)) with 512%nat.
  destruct (Z.eqb_spec q 0) as [->|H0]; [done|]. rewrite list_lookup_insert_ne by lia. cbn [orb].
  destruct (Z.eqb_spec q 512) as [->|H512].
  - rewrite list_lookup_insert_eq by (rewrite length_replicate; lia). done.
  - rewrite list_lookup_insert_ne by lia. rewrite lookup_replicate_2 by lia. done.
Qed.

(** * The drivers at start-up *)

(** The local APIC of the processor at the address the tables give: the bit that says that an interrupt is being
    delivered is read at most [icr_latency] times before it is clear. *)
Class Lapic (D : Type) `{Device D} : Type := {
  lapic_base : Z;
  icr_polls : D -> nat;
  icr_latency : nat;
  icr_prompt : forall d, (icr_polls d <= icr_latency)%nat;
  icr_status : forall d, exists x d', d_read (lapic_base + 4 * ICRLO) d = (x, d') /\
    match icr_polls d with
    | O => Z.land x DELIVS = 0
    | S n => icr_polls d' = n
    end
}.

(** The boot processor runs, no lock is held and the console works. *)
Record printable (s : kernel) : Prop := {
  pb_cpu : exists i c, on_cpu (k_hw s) i c;
  pb_unlocked : unlocked s;
  pb_cons : cons_ok (k_cons s)
}.

Section Quiet.
Context {D : Type} `{Ata D} `{!Lapic D} `{WaitFuel}.

(** Code that finishes and changes the devices, the console and the drivers' own variables only. *)
Definition quiet {A} (f : MD (D := D) A) : Prop := forall s v d, printable s -> v_lapic v = lapic_base ->
  exists x co v' d', f (mkMachine s v d) = Ret x (mkMachine (set_k_cons co s) v' d') /\ cons_ok co /\ v_tables v' = v_tables v /\ v_lapic v' = lapic_base.

Lemma printable_cons co s : printable s -> cons_ok co -> printable (set_k_cons co s).
Proof. intros [] Hc. by constructor. Qed.

Lemma set_cons_same s : set_k_cons (k_cons s) s = s.
Proof. by destruct s. Qed.

(** A step that leaves the kernel alone. *)
Lemma quiet_step {A} (f : MD (D := D) A) :
  (forall s v d, v_lapic v = lapic_base -> exists x v' d', f (mkMachine s v d) = Ret x (mkMachine s v' d') /\ v_tables v' = v_tables v /\ v_lapic v' = lapic_base) ->
  quiet f.
Proof.
  intros Hf s v d Hp Hv. destruct (Hf s v d Hv) as (x & v' & d' & E & E1 & E2). exists x, (k_cons s), v', d'. rewrite set_cons_same. by destruct Hp.
Qed.

Lemma quiet_ret {A} (x : A) : quiet (ret x).
Proof. apply quiet_step. intros s v d Hv. by exists x, v, d. Qed.
Lemma quiet_getv {A} (f : drivers -> A) : quiet (getv f).
Proof. apply quiet_step. intros s v d Hv. by exists (f v), v, d. Qed.
Lemma quiet_updv f : (forall v, v_tables (f v) = v_tables v) -> (forall v, v_lapic (f v) = v_lapic v) -> quiet (updv f).
Proof. intros H1' H2'. apply quiet_step. intros s v d Hv. exists tt, (f v), d. by rewrite H2'. Qed.
Lemma quiet_inb a : quiet (inb a).
Proof. apply quiet_step. intros s v d Hv. unfold inb. cbn. destruct (d_inb a d) as [x d']. by exists x, v, d'. Qed.
Lemma quiet_vread a : quiet (vread a).
Proof. apply quiet_step. intros s v d Hv. unfold vread. cbn. destruct (d_read a d) as [x d']. by exists x, v, d'. Qed.
Lemma quiet_outb a x : quiet (outb a x).
Proof. apply quiet_step. intros s v d Hv. by eexists _, v, _. Qed.
Lemma quiet_vwrite a x : quiet (vwrite a x).
Proof. apply quiet_step. intros s v d Hv. by eexists _, v, _. Qed.
Lemma quiet_lkgets {A} (f : kernel -> A) : quiet (lk (gets f)).
Proof. apply quiet_step. intros s v d Hv. by eexists _, v, _. Qed.

Lemma quiet_initlock l : quiet (lk (initlock l)).
Proof.
  intros s v d Hp Hv. exists tt, (k_cons s), v, d. rewrite set_cons_same. split; [|by destruct Hp].
  erewrite lk_ret; [done|]. unfold initlock, sethw, modify. rewrite putlock_zero by apply Hp. by destruct s.
Qed.

Lemma quiet_cprintf fmt args out : cformat fmt args = Some out -> quiet (lk (cprintf fmt args)).
Proof.
  intros Hf s v d [(i & c & Hc) Hu Ho] Hv. eexists tt, _, v, d. split; [erewrite lk_ret by (by eapply cprintf_eq); reflexivity|].
  split; [|done]. by apply (put_out_ok out s).
Qed.

Lemma quiet_bind {A B} (f : MD (D := D) A) (g : A -> MD (D := D) B) : quiet f -> (forall x, quiet (g x)) -> quiet (let! x := f in g x).
Proof.
  intros Hf Hg s v d Hp Hv. destruct (Hf s v d Hp Hv) as (x & co & v1 & d1 & E & C1 & T1 & L1).
  destruct (Hg x (set_k_cons co s) v1 d1 (printable_cons _ _ Hp C1) L1) as (y & co' & v2 & d2 & E' & C2 & T2 & L2).
  exists y, co', v2, d2. erewrite bind_run by exact E. rewrite E'. split; [by destruct s|]. split; [done|]. by rewrite T2.
Qed.

Lemma quiet_when b (f : MD (D := D) unit) : quiet f -> quiet (when b f).
Proof. intros Hf. destruct b; [done|]. apply quiet_ret. Qed.

Lemma quiet_for_each {A} (l : list A) (f : A -> MD (D := D) unit) : (forall x, quiet (f x)) -> quiet (for_each l f).
Proof. intros Hf. induction l as [|x l IH]; [apply quiet_ret|]. apply quiet_bind; [done|by intros]. Qed.

Lemma quiet_for_find {A R} (l : list A) (f : A -> MD (D := D) (option R)) : (forall x, quiet (f x)) -> quiet (for_find l f).
Proof. intros Hf. induction l as [|x l IH]; [apply quiet_ret|]. apply quiet_bind; [done|]. intros [y|]; [apply quiet_ret|done]. Qed.

Lemma icr_wait n : forall s v d fuel, v_lapic v = lapic_base -> icr_polls d = n -> (n <= fuel)%nat ->
  exists d', while_loop fuel (let! x := lapicr (D := D) ICRLO in ret (negb (Z.land x DELIVS =? 0))) (ret tt) (mkMachine s v d) = Ret tt (mkMachine s v d').
Proof.
  induction n as [|n IH]; intros s v d fuel Hv Hn Hf; destruct (icr_status d) as (x & d1 & E & Hx); rewrite Hn in Hx.
  all: assert (Ec : (let! x := lapicr (D := D) ICRLO in ret (negb (Z.land x DELIVS =? 0))) (mkMachine s v d) = Ret (negb (Z.land x DELIVS =? 0)) (mkMachine s v d1))
    by (unfold lapicr, getv, bind, gets, vread; cbn [mc_d mc_k mc_v]; rewrite Hv; cbn [obind mc_d mc_k mc_v]; by rewrite E).
  - exists d1. apply while_false. by rewrite Ec, Hx.
  - destruct (Z.eqb_spec (Z.land x DELIVS) 0); cbn [negb] in Ec; [exists d1; by apply while_false|].
    destruct fuel as [|fuel]; [lia|]. destruct (IH s v d1 fuel Hv Hx ltac:(lia)) as (d' & E'). exists d'. erewrite while_true by exact Ec. by rewrite bind_ret.
Qed.

Hypothesis Hicr : (icr_latency <= wait_fuel)%nat.

Lemma quiet_icr : quiet (while_loop wait_fuel (let! x := lapicr (D := D) ICRLO in ret (negb (Z.land x DELIVS =? 0))) (ret tt)).
Proof.
  apply quiet_step. intros s v d Hv. pose proof (icr_prompt d). destruct (icr_wait (icr_polls d) s v d wait_fuel) as (d' & E); [done|done|lia|]. by exists tt, v, d'.
Qed.

Hypothesis Hata : (at_latency <= wait_fuel)%nat.

Lemma quiet_idewait b : quiet (idewait (D := D) b).
Proof.
  clear Hicr. apply quiet_step. intros s v d Hv. destruct (idewait_ok Hata b s v d) as (d' & E & _). by eexists _, v, d'.
Qed.

Lemma quiet_consoleinit : quiet (lk (D := D) consoleinit).
Proof.
  unfold consoleinit. intros s v d Hp Hv. exists tt, (set_co_locking 1 (k_cons s)), v, d. split; [|by destruct Hp as [? ? []]].
  erewrite lk_ret; [done|]. unfold initlock, sethw. rewrite bind_modify, putlock_zero by apply Hp. by destruct s.
Qed.
End Quiet.

Create HintDb quiet.
#[export] Hint Resolve quiet_ret quiet_getv quiet_inb quiet_vread quiet_outb quiet_vwrite quiet_lkgets quiet_initlock quiet_consoleinit : quiet.

(** Follow the structure of the code. *)
Ltac quiet := repeat first
  [ solve [auto with quiet] | apply quiet_for_each; intros | apply quiet_for_find; intros | apply quiet_bind; [|intros] | apply quiet_when
  | apply quiet_updv; [by intros|by intros] | (eapply quiet_cprintf; reflexivity) | case_match ].

Section Drivers.
Context {D : Type} `{Ata D} `{!Lapic D} `{WaitFuel}.
Hypothesis (Hata : (at_latency <= wait_fuel)%nat) (Hicr : (icr_latency <= wait_fuel)%nat).

Lemma quiet_lapicw a x : quiet (lapicw (D := D) a x).
Proof. unfold lapicw, lapicr. quiet. Qed.
Hint Resolve quiet_lapicw : quiet.

Lemma quiet_lapicinit : quiet (lapicinit (D := D)).
Proof. pose proof (quiet_icr Hicr). unfold lapicinit. quiet. Qed.

Lemma quiet_ioapicenable a b : quiet (ioapicenable (D := D) a b).
Proof. unfold ioapicenable, ioapicwrite. quiet. Qed.
Hint Resolve quiet_ioapicenable : quiet.

Lemma quiet_picinit : quiet (picinit (D := D)).
Proof. unfold picinit. quiet. Qed.

Lemma quiet_ioapicinit : quiet (ioapicinit (D := D)).
Proof. unfold ioapicinit, ioapicread, ioapicwrite. quiet. Qed.

Lemma quiet_uartputc x : quiet (uartputc (D := D) x).
Proof. unfold uartputc, microdelay. quiet. Qed.
Hint Resolve quiet_uartputc : quiet.

Lemma quiet_consoleinit_irq : quiet (consoleinit_irq (D := D)).
Proof. unfold consoleinit_irq. quiet. Qed.

Lemma quiet_uartinit : quiet (uartinit (D := D)).
Proof. unfold uartinit. quiet. Qed.

Lemma quiet_ideinit : quiet (ideinit (D := D)).
Proof. pose proof (quiet_idewait Hata). unfold ideinit. quiet. Qed.

(** A quiet step in front of the rest. *)
Lemma quiet_run {A} (f : MD (D := D) A) s v d : quiet f -> printable s -> v_lapic v = lapic_base ->
  exists co v' d', (forall B (g : MD (D := D) B), (f ;; g) (mkMachine s v d) = g (mkMachine (set_k_cons co s) v' d')) /\
    printable (set_k_cons co s) /\ v_tables v' = v_tables v /\ v_lapic v' = lapic_base.
Proof.
  intros Hf Hp Hv. destruct (Hf s v d Hp Hv) as (x & co & v' & d' & E & Hc & Hr). exists co, v', d'. split; [|split; [by apply printable_cons|done]].
  intros B g. by erewrite bind_run by exact E.
Qed.
End Drivers.

(** * The state at the entry to [main] *)

(** The kernel as the boot loader leaves it: zero-initialised data, interrupts off, the image between 1 MB and 4 MB
    with room for the first page tables, the firmware's tables with one processor, and the devices at the addresses
    the tables give. *)
Record at_entry {D} `{Device D} `{!Lapic D} `{BootSymbols} `{Linked} (st : machine D) (mp conf : Z) (es : list entry) : Prop := {
  en_hw : k_hw (mc_k st) = mkHw false (h_lapicid (k_hw (mc_k st))) (h_cr3 (k_hw (mc_k st))) 0 (replicate 8 cpu0) ∅;
  en_free : k_freelist (mc_k st) = 0;
  en_end : KERNLINK <= k_end (mc_k st) <= P2V 4194304 - 66 * PGSIZE;
  en_data : data_ok (k_data (mc_k st));
  en_proc : k_proc (mc_k st) = replicate 64 proc0;
  en_pid : k_nextpid (mc_k st) = 1;
  en_cont : k_cont (mc_k st) = containers0;
  en_cons : cons_ok (k_cons (mc_k st));
  en_bufs : length (k_bufs (mc_k st)) = S bhead /\ Forall fresh_buf (k_bufs (mc_k st));
  en_sleep : k_sleeplocks (mc_k st) = ∅;
  en_disk : forall bn, length (d_blocks (k_disk (mc_k st)) bn) = 512%nat;
  en_inodes : k_inodes (mc_k st) = replicate 50 inode0;
  en_tables : tables_ok (v_tables (mc_v st));
  en_mp : mp_tables (k_mem (mc_k st)) mp conf es;
  en_one : apicids es = [h_lapicid (k_hw (mc_k st))];
  en_lapic : conf_lapicaddr (mpconf_at (k_mem (mc_k st)) conf) = lapic_base;
  en_other : Z.of_nat (length entryother) <= 1048576 - 28672;
  en_code : Z.of_nat (length initcode) < PGSIZE
}.

(** The number of pages after the kernel. *)
Definition lower (kend : Z) : nat := Z.to_nat ((P2V 4194304 - PGROUNDUP kend) / PGSIZE).
Definition upper : nat := Z.to_nat ((PHYSTOP - 4194304) / PGSIZE).

Lemma lower_count kend : KERNBASE < kend <= P2V 4194304 - 66 * PGSIZE ->
  PGROUNDUP kend + Z.of_nat (lower kend) * PGSIZE = P2V 4194304 /\ (65 <= lower kend)%nat.
Proof.
  change (P2V 4194304) with 2151677952. unfold lower, KERNBASE, PGSIZE. intros Hk. rewrite PGROUNDUP_eq by (unfold PGSIZE; lia). unfold PGSIZE. change (P2V 4194304) with 2151677952.
  pose proof (Z.div_mod (kend + 4096 - 1) 4096 ltac:(done)) as Hd. pose proof (Z.mod_pos_bound (kend + 4096 - 1) 4096 ltac:(done)). set (q := (kend + 4096 - 1) / 4096) in *.
  replace (2151677952 - q * 4096) with ((525312 - q) * 4096) by lia. rewrite Z.div_mul by done. lia.
Qed.

Lemma upper_count : P2V 4194304 + Z.of_nat upper * PGSIZE = P2V PHYSTOP.
Proof. unfold upper. rewrite Z2Nat.id by (by vm_compute). by vm_compute. Qed.

Lemma upper_large : (68 <= upper)%nat.
Proof. unfold upper. apply Nat2Z.inj_le. rewrite Z2Nat.id by (by vm_compute). by vm_compute. Qed.
#[local] Opaque upper.

Section Booting.
Context {D : Type} `{Ata D} `{!Lapic D} `{WaitFuel} `{Symbols} `{BootSymbols} `{Linked}.
Implicit Types (s : kernel) (v : drivers) (d : D).

(** [kinit1] and [kvmalloc]. *)
Lemma boot_memory s v d : unlocked s -> k_freelist s = 0 -> KERNBASE < k_end s <= P2V 4194304 - 66 * PGSIZE -> data_ok (k_data s) ->
  exists kd kt l fl m, let s' := set_k_hw (set_h_cr3 (V2P kd) (k_hw s)) (set_k_kpgdir kd (set_k_use_lock 0 (with_mem fl m s))) in
    (forall B (k : MD (D := D) B), (lk (kinit1 (k_end s) (P2V 4194304)) ;; lk kvmalloc ;; k) (mkMachine s v d) = k (mkMachine s' v d)) /\
    rev (pages (PGROUNDUP (k_end s)) (lower (k_end s))) = kd :: kt ++ l /\ kmem_ok s' l /\ kspace s' kd kt /\
    (forall x, x < k_end s \/ P2V 4194304 <= x -> m x = k_mem s x).
Proof.
  intros Hu Hf He Hd. destruct (lower_count _ He) as [Hn Hge]. assert (He' : KERNBASE < k_end s <= P2V 4194304) by (unfold PGSIZE in He; lia).
  destruct (first_page _ He') as (F1 & F2 & _). pose proof (lower_pages _ He' _ Hn) as Hlp.
  destruct (kinit1_ok (k_end s) He' _ Hn s Hu eq_refl Hf) as (fl1 & m1 & E1 & K1 & Fr1). set (s1 := with_mem _ _ _) in E1, K1.
  destruct (kvmalloc_ok s1 _ eq_refl K1 (proj1 He') Hd) as (kd & kt & l & fl & m & E2 & Hl & K2 & S2 & C2).
  { rewrite length_rev. unfold pages. rewrite length_map, length_seq. lia. }
  exists kd, kt, l, fl, m. split; [|split; [done|split; [exact K2|split; [exact S2|]]]].
  - intros B k. erewrite bind_run by (eapply lk_ret; exact E1). cbn [mc_v mc_d]. by erewrite bind_run by (eapply lk_ret; exact E2).
  - intros x Hx. rewrite C2; [apply Fr1; lia|]. intros p Hp%elem_of_list_to_set Hpx. rewrite Forall_forall in Hlp.
    assert (Hin : p ∈ pages (PGROUNDUP (k_end s)) (lower (k_end s))).
    { apply list_elem_of_In, in_rev, list_elem_of_In. rewrite Hl, app_comm_cons, elem_of_app. by left. }
    destruct (Hlp p Hin) as (_ & ? & _). apply elem_of_pages in Hin as (j & Hj & ->). rewrite <- Hn in Hx. unfold in_page, PGSIZE in *. lia.
Qed.

Lemma cpus_known_one a s : h_cpus (k_hw s) = replicate 8 cpu0 -> h_lapicid (k_hw s) = a -> h_IF (k_hw s) = false ->
  on_cpu (k_hw (cpus_known [a] s)) 0 (set_c_apicid a cpu0).
Proof.
  intros Hc Ha HI. constructor; [|done|done]. constructor; cbn; rewrite ?Hc; try done.
  - vm_compute. lia.
  - vm_compute. lia.
  - intros. lia.
Qed.

(** [startothers] when there are no others. *)
Lemma boot_others s v d c : on_cpu (k_hw s) 0 c -> h_IF (k_hw s) = false -> h_ncpu (k_hw s) = 1 ->
  startothers (mkMachine s v d) = Ret tt (mkMachine (set_k_mem (st_bytes (k_mem s) (P2V 28672) entryother) s) v d).
Proof.
  intros Hc HI Hn. unfold startothers, updmem. erewrite bind_run by (eapply lk_ret; reflexivity). erewrite bind_run by (eapply lk_ret; reflexivity). cbn [mc_k mc_v mc_d k_hw set_k_mem].
  rewrite Hn. change (range 1) with [0%nat]. cbn [for_each]. unfold start_ap at 1. erewrite bind_run; [reflexivity|].
  erewrite bind_run by (eapply lk_ret; by apply (mycpu_eq _ 0 c); [apply Hc|]). done.
Qed.

(** [mpmain] up to the scheduler. *)
Lemma boot_mpmain s v d c : printable s -> on_cpu (k_hw s) 0 c -> h_IF (k_hw s) = false ->
  exists co, cons_ok co /\ forall rounds, mpmain rounds (mkMachine s v d) = lk (scheduler rounds)
    (mkMachine (set_k_cons co (set_k_hw (set_h_cpus (<[0%nat := set_c_started 1 c]> (h_cpus (k_hw s))) (k_hw s)) s)) (set_v_tables (set_t_idtr (Some 2047) (v_tables v)) v) d).
Proof.
  intros [_ Hu Hco] Hc HI. assert (Em : forall s' v' d', k_hw s' = k_hw s -> lk (D := D) mycpu (mkMachine s' v' d') = Ret 0%nat (mkMachine s' v' d')).
  { intros s' v' d' E. erewrite lk_ret; [done|]. apply (mycpu_eq s' 0 c); rewrite E; [apply Hc|done]. }
  eexists. split; [exact (put_out_ok (str "cpu0: starting 0" ++ [NL]) s Hco)|]. intros rounds. unfold mpmain, cpuid. do 2 (erewrite bind_run by (by apply Em)).
  erewrite bind_run by (eapply lk_ret; by apply (cprintf_eq _ _ (str "cpu0: starting 0" ++ [NL]) s 0 c)). cbn [mc_k mc_v mc_d].
  erewrite bind_run by reflexivity. cbn [mc_k mc_v mc_d]. erewrite bind_run by (by apply Em). erewrite bind_run by (eapply lk_ret; apply updcpu_eq, Hc).
  unfold put_out. generalize (fold_left cons_put (str "cpu0: starting 0" ++ [NL]) (k_cons s)). intros co. cbn [k_cons set_k_cons].
  match goal with |- lk _ ?a = lk _ ?b => assert (a = b) as ->; [reflexivity|done] end.
Qed.

(** ** The first turn of the scheduler *)

(** [acquire] with interrupts on: [intena] is recorded. *)
Lemma acquire_on s i c l : cur_cpu (k_hw s) i c -> c_ncli c = 0 -> lock_free (k_hw s) l ->
  acquire l s = Ret tt (set_k_hw (hw_lock l i (set_c_intena (h_IF (k_hw s)) c) (k_hw s)) s).
Proof.
  intros Hc Hn Hl. set (c' := set_c_intena _ c). set (s' := set_k_hw (set_h_cpus (<[i := c']> (h_cpus (k_hw s))) (k_hw s)) s).
  assert (Hc' : on_cpu (k_hw s') i c').
  { constructor; [by apply (cur_cpu_upd _ _ c)|cbn; lia|]. cbn. by rewrite Hn. }
  assert (Ep : pushcli s = pushcli s').
  { rewrite (pushcli_eq s' i c' Hc'). unfold pushcli, readIF, cli, sethw. rewrite bind_gets, bind_modify. set (s1 := set_k_hw _ s).
    assert (Hc1 : cur_cpu (k_hw s1) i c) by by apply cur_cpu_IF. erewrite bind_run by by eapply mycpu_eq. erewrite bind_run by apply getcpu_eq, Hc1.
    rewrite Hn. cbn [Z.eqb when]. erewrite bind_run by apply updcpu_eq, Hc1. erewrite updcpu_eq by (cbn; apply list_lookup_insert_eq; by eapply lookup_lt_Some, Hc).
    unfold hw_push. cbn. by rewrite !list_insert_insert_eq. }
  transitivity (acquire l s'); [unfold acquire, bind; by rewrite Ep|]. rewrite (acquire_eq s' i c' l Hc' Hl). unfold hw_lock, hw_push. cbn. by rewrite list_insert_insert_eq.
Qed.

(** The processor when it runs process [p] for the first time. *)
Definition cpu_running (p : nat) (top : Z) (c : cpu) : cpu := set_c_esp0 top (set_c_proc (Some p) (cpu_pushed (set_c_intena true c))).

Lemma sched_first s v d i c pr I rounds : on_cpu (k_hw s) i c -> h_IF (k_hw s) = false -> (i < 8)%nat -> c_ncli c = 0 -> c_proc c = None -> unlocked s ->
  k_proc s = pr :: I -> p_state pr = RUNNABLE -> p_kstack pr <> 0 -> p_pgdir pr <> 0 -> k_cont s = containers0 ->
  exists h k, scheduler (S rounds) s = Swtch (set_k_proc (set_p_state RUNNING pr :: I) (set_k_hw h s)) k /\
    on_cpu h i (cpu_running 0 (u32 (p_kstack pr + KSTACKSIZE)) c) /\ h_cr3 h = V2P (p_pgdir pr) /\ h_IF h = false /\
    lock_held h L_ptable i /\ (forall l, l <> L_ptable -> lock_free h l).
Proof.
  intros Hc HI Hi Hn Hnp Hu Hp Hs Hk Hd Hcont. set (c1 := set_c_intena true c).
  set (h1 := hw_lock L_ptable i c1 (set_h_IF true (k_hw s))). pose proof (oc_cur _ _ _ Hc) as Hcur.
  assert (H1' : on_cpu h1 i (cpu_pushed c1)).
  { constructor; [|cbn; lia|cbn; by rewrite Hn]. apply cur_cpu_locks, cur_cpu_IF. by apply (cur_cpu_upd (set_h_IF true (k_hw s)) i c); [apply cur_cpu_IF|]. }
  set (c2 := set_c_proc (Some 0%nat) (cpu_pushed c1)). set (h2 := set_h_cpus (<[i := c2]> (h_cpus h1)) h1).
  assert (H2' : on_cpu h2 i c2) by (destruct H1' as [A1 A2 A3]; constructor; [by apply (cur_cpu_upd _ _ (cpu_pushed c1))|done|done]).
  set (top := u32 (p_kstack pr + KSTACKSIZE)). destruct (switchuvm_ok (D := D) (set_k_hw h2 s) v d 0 pr i c2 H2' Hi ltac:(cbn; by rewrite Hp) Hk Hd) as [Hsw _].
  fold top in Hsw. set (h3 := hw_user i c2 top (V2P (p_pgdir pr)) h2) in *.
  assert (Er : exists k, run_proc i true 0 (set_k_hw h1 s) = Swtch (set_k_proc (set_p_state RUNNING pr :: I) (set_k_hw h3 s)) k).
  { eexists. unfold run_proc. erewrite bind_run by (apply getproc_eq; cbn; by rewrite Hp). rewrite bool_decide_eq_true_2 by done. cbn [negb].
    erewrite bind_run by apply updcpu_eq, H1'. erewrite bind_run by exact Hsw. erewrite bind_run by (apply updproc_eq; cbn; by rewrite Hp).
    cbn [k_proc set_k_hw]. rewrite Hp. erewrite bind_run; [reflexivity|]. unfold log_schedule, when. rewrite bind_gets. cbn [k_cont set_k_proc set_k_hw]. rewrite Hcont.
    erewrite bind_run by reflexivity. by erewrite bind_run by (apply getproc_eq; cbn; reflexivity). }
  assert (Ea : acquire L_ptable (set_k_hw (set_h_IF true (k_hw s)) s) = Ret tt (set_k_hw h1 s)).
  { rewrite (acquire_on _ i c L_ptable); [done|by apply cur_cpu_IF|done|apply Hu]. }
  destruct Er as [k Er]. exists h3. eexists. split; [|split; [by apply on_cpu_user|split; [done|split; [done|split]]]].
  - unfold scheduler. erewrite bind_run by (by eapply mycpu_eq). erewrite bind_run by apply updcpu_eq, Hcur.
    replace (set_k_hw _ s) with s by (rewrite list_insert_id by (rewrite (cc_lookup _ _ _ Hcur); by destruct c; cbn in *; subst); by destruct s as [[] ?]).
    cbn [scheduler_loop]. unfold scheduler_round, sti, sethw. unfold bind at 1 2. cbn [modify obind].
    unfold bind at 1. rewrite Ea. cbn [obind]. change (range NPROC) with (0%nat :: seq 1 63). cbn [for_each]. unfold bind at 1 2. rewrite Er. reflexivity.
  - apply lookup_insert_eq.
  - intros l Hl. apply (lock_free_other (set_h_IF true (k_hw s)) i c1 L_ptable l); [apply Hu|done].
Qed.

(** ** The rest of [main] *)

Lemma pages_NoDup p n : NoDup (pages p n).
Proof. unfold pages. apply NoDup_fmap_2; [|apply NoDup_seq]. intros x y E. unfold PGSIZE in E. lia. Qed.

(** [startothers], [kinit2] and [userinit]. *)
Lemma boot_user s v d c kd kt l : on_cpu (k_hw s) 0 c -> h_IF (k_hw s) = false -> h_ncpu (k_hw s) = 1 -> unlocked s -> k_use_lock s = 0 ->
  KERNLINK <= k_end s <= P2V 4194304 - 66 * PGSIZE -> data_ok (k_data s) -> kmem_ok s l -> kspace s kd kt ->
  rev (pages (PGROUNDUP (k_end s)) (lower (k_end s))) = kd :: kt ++ l ->
  k_proc s = replicate 64 proc0 -> k_inodes s = replicate 50 inode0 -> Z.of_nat (length entryother) <= 1048576 - 28672 -> Z.of_nat (length initcode) < PGSIZE ->
  exists ks pd pg t1 t2 l' s5 fl m, let s' := with_mem fl m (set_k_use_lock 1 (booted 0 (init_proc ks pd (k_nextpid s) proc0) (root_inode inode0 :: replicate 49 inode0) s)) in
    (forall B (k : MD (D := D) B), (startothers ;; lk (kinit2 (P2V 4194304) (P2V PHYSTOP)) ;; lk userinit ;; k) (mkMachine s v d) = k (mkMachine s' v d)) /\
    kspace s' kd kt /\ k_data s5 = k_data s /\ first_proc s5 (rev (pages (P2V 4194304) upper) ++ l) 0 c ks pd pg t1 t2 l' s'.
Proof.
  intros Hc HI Hn Hu Hl0 He Hd Hk Hks Hrev Hproc Hino Hoth Hcode.
  assert (He' : KERNBASE < k_end s <= P2V 4194304 - 66 * PGSIZE) by (change KERNLINK with 2148532224 in He; unfold KERNBASE; lia).
  destruct (lower_count _ He') as [Hcnt Hge]. assert (He2 : KERNBASE < k_end s <= P2V 4194304) by (unfold PGSIZE in He'; lia).
  pose proof (lower_pages _ He2 _ Hcnt) as Hlp. rewrite Forall_forall in Hlp.
  assert (Hlow : forall p, p ∈ kd :: kt ++ l -> page_ok (k_end s) p /\ p + PGSIZE <= P2V 4194304).
  { intros p Hp. rewrite <- Hrev in Hp. apply list_elem_of_In, in_rev, list_elem_of_In in Hp. split; [by apply Hlp|].
    apply elem_of_pages in Hp as (k & Hk' & ->). rewrite <- Hcnt. unfold PGSIZE. lia. }
  set (m4 := st_bytes (k_mem s) (P2V 28672) entryother). assert (Hm4 : forall x, KERNLINK <= x -> m4 x = k_mem s x).
  { intros x Hx. apply st_bytes_out. change (P2V 28672) with 2147512320. change KERNLINK with 2148532224 in Hx. lia. }
  set (s4 := set_k_mem m4 s). assert (Hk4 : kmem_ok s4 l).
  { eapply kmem_ok_frame; [..|exact Hk]; [done|done|]. intros p x Hp Hx. apply Hm4. destruct (Hlow p ltac:(rewrite app_comm_cons, elem_of_app; by right)) as [(_ & ? & _) _]. lia. }
  destruct (kinit2_ok (k_end s) He2 _ s4 l upper_count Hl0 eq_refl Hk4) as (fl & m5 & E5 & K5 & Fr5).
  { intros p Hp. destruct (Hlow p ltac:(rewrite app_comm_cons, elem_of_app; by right)) as [_ ?]. unfold PGSIZE in *. lia. }
  set (s5 := set_k_use_lock 1 (with_mem fl m5 s4)) in E5, K5. pose proof upper_large as Hup.
  destruct (rev (pages (P2V 4194304) upper) ++ l) as [|ks L] eqn:EL.
  { apply app_eq_nil in EL as [EL _]. apply (f_equal length) in EL. rewrite length_rev in EL. unfold pages in EL. rewrite length_map, length_seq in EL. cbn [length] in EL. lia. }
  assert (HL : (67 <= length L)%nat).
  { apply (f_equal length) in EL. rewrite length_app, length_rev in EL. unfold pages in EL. rewrite length_map, length_seq in EL. cbn [length] in EL. lia. }
  assert (Hl5 : kmem_lockable s5 0 c) by (right; split; [exact Hc|apply Hu]).
  assert (Hp5 : length (k_proc s5) = Z.to_nat NPROC) by (change (k_proc s5) with (k_proc s); by rewrite Hproc).
  assert (Hf5 : list_find (fun x => p_state x = UNUSED) (k_proc s5) = Some (0%nat, proc0)) by (change (k_proc s5) with (k_proc s); by rewrite Hproc).
  pose proof (userinit_ok s5 0 c 0 proc0 ks L inode0 (replicate 49 inode0) Hc Hu Hl5 K5 Hp5 Hf5) as Hui.
  specialize (Hui (proj1 He') Hd HL Hcode Hino eq_refl ltac:(by repeat constructor)). destruct Hui as (pd & pg & t1 & t2 & l' & s' & E6 & F6 & S6).
  exists ks, pd, pg, t1, t2, l', s5, (k_freelist s'), (k_mem s').
  match goal with |- let x := ?y in _ => change y with (with_mem (k_freelist s') (k_mem s') (booted 0 (init_proc ks pd (k_nextpid s5) proc0) (root_inode inode0 :: replicate 49 inode0) s5)) end.
  rewrite <- S6. cbv zeta. split; [|split; [|split; [done|exact F6]]].
  - intros B k. erewrite bind_run by by eapply boot_others. erewrite bind_run by (eapply lk_ret; exact E5). cbn [mc_v mc_d].
    by erewrite bind_run by (eapply lk_ret; exact E6).
  - apply (kspace_frame s); [by rewrite S6|by rewrite S6| |exact Hks]. intros p x Hp Hx.
    destruct (Hlow p ltac:(rewrite app_comm_cons, elem_of_app; by left)) as [Hpo Hpt]. rewrite (fp_changes _ _ _ _ _ _ _ _ _ _ _ F6).
    + cbn. rewrite Fr5 by (unfold in_page in Hx; lia). apply Hm4. destruct Hpo as (_ & ? & _). unfold in_page in Hx. lia.
    + intros q Hq Hqx. apply elem_of_list_to_set in Hq. assert (Heq : ks :: L = (ks :: pd :: t1 ++ pg :: t2) ++ l') by (rewrite (fp_pages _ _ _ _ _ _ _ _ _ _ _ F6); cbn [app]; by rewrite <- app_assoc).
      assert (Hin : q ∈ ks :: L) by (rewrite Heq; apply elem_of_app; by left).
      rewrite <- EL, elem_of_app in Hin. assert (Hqp : q = p).
      { eapply page_apart; [|exact Hpo|exact Hqx|exact Hx]. pose proof (km_pages _ _ K5) as Hall. rewrite Forall_forall in Hall. apply Hall. rewrite <- EL. by apply elem_of_app. }
      subst q. destruct Hin as [Hin|Hin].
      * apply list_elem_of_In, in_rev, list_elem_of_In, elem_of_pages in Hin as (k & _ & ->). unfold PGSIZE in *. lia.
      * assert (Hnd : NoDup (kd :: kt ++ l)) by (rewrite <- Hrev, <- Permutation_rev; apply pages_NoDup).
        rewrite app_comm_cons, NoDup_app in Hnd. by apply (proj1 (proj2 Hnd) p).
Qed.

(** ** The devices *)

Hypothesis (Hata : (at_latency <= wait_fuel)%nat) (Hicr : (icr_latency <= wait_fuel)%nat).

(** [lapicinit] to [tvinit]. *)
Lemma boot_interrupts s v d c : printable s -> on_cpu (k_hw s) 0 c -> h_IF (k_hw s) = false -> v_lapic v = lapic_base -> tables_ok (v_tables v) ->
  exists co v' d', (forall B (k : MD (D := D) B), (lapicinit ;; seginit ;; picinit ;; ioapicinit ;; consoleinit_irq ;; uartinit ;; lk pinit ;; tvinit ;; k) (mkMachine s v d)
      = k (mkMachine (set_k_cons co s) v' d')) /\
    printable (set_k_cons co s) /\ v_lapic v' = lapic_base /\ flat_segments (v_tables v') 0 /\ gates (v_tables v').
Proof.
  intros Hp Hc HI Hv Ht. destruct (quiet_run lapicinit s v d (quiet_lapicinit Hicr) Hp Hv) as (co1 & v1 & d1 & E1 & P1 & T1 & L1).
  destruct (seginit_ok (set_k_cons co1 s) v1 d1 0 c) as (t & E2 & Ot & Ft); [by rewrite T1|apply Hc|done|lia|].
  destruct (quiet_run picinit _ (set_v_tables t v1) d1 quiet_picinit P1 L1) as (co3 & v3 & d3 & E3 & P3 & T3 & L3).
  destruct (quiet_run ioapicinit _ v3 d3 quiet_ioapicinit P3 L3) as (co4 & v4 & d4 & E4 & P4 & T4 & L4).
  destruct (quiet_run consoleinit_irq _ v4 d4 quiet_consoleinit_irq P4 L4) as (co5 & v5 & d5 & E5 & P5 & T5 & L5).
  destruct (quiet_run uartinit _ v5 d5 quiet_uartinit P5 L5) as (co6 & v6 & d6 & E6 & P6 & T6 & L6).
  destruct (quiet_run (lk pinit) _ v6 d6 (quiet_initlock L_ptable) P6 L6) as (co7 & v7 & d7 & E7 & P7 & T7 & L7).
  assert (Et : v_tables v7 = t) by (by rewrite T7, T6, T5, T4, T3). rewrite <- Et in Ot, Ft.
  match type of P7 with printable ?x => destruct (tvinit_ok x v7 d7 Ot) as (t8 & E8 & O8 & G8 & R8 & S8) end.
  rewrite putlock_zero in E8 by apply P7. exists co7, (set_v_tables t8 v7), d7. split; [|split; [exact P7|split; [done|split; [|done]]]].
  - intros B k. rewrite E1. erewrite bind_run by exact E2. rewrite E3, E4, E5, E6, E7. by erewrite bind_run by exact E8.
  - destruct Ft as [F1 (g & F2)]. constructor; cbn; [by rewrite R8|]. exists g. by rewrite S8.
Qed.

(** [mpinit] to [ideinit]. *)
Lemma boot_devices s v d mp conf es : mp_tables (k_mem s) mp conf es -> apicids es = [h_lapicid (k_hw s)] -> conf_lapicaddr (mpconf_at (k_mem s) conf) = lapic_base ->
  unlocked s -> h_cpus (k_hw s) = replicate 8 cpu0 -> h_ncpu (k_hw s) = 0 -> h_IF (k_hw s) = false -> cons_ok (k_cons s) -> tables_ok (v_tables v) ->
  length (k_bufs s) = S bhead -> Forall fresh_buf (k_bufs s) -> k_sleeplocks s = ∅ -> (forall bn, length (d_blocks (k_disk s) bn) = 512%nat) ->
  exists Bf co v' d', let s' := set_k_bufs Bf (set_k_cons co (cpus_known [h_lapicid (k_hw s)] s)) in
    (forall B (k : MD (D := D) B), (mpinit ;; lapicinit ;; seginit ;; picinit ;; ioapicinit ;; consoleinit_irq ;; uartinit ;; lk pinit ;; tvinit ;; lk binit ;;
       lk fileinit ;; ideinit ;; k) (mkMachine s v d) = k (mkMachine s' v' d')) /\
    printable s' /\ (forall pid, cache_ok pid [] [] s') /\ flat_segments (v_tables v') 0 /\ gates (v_tables v').
Proof.
  intros [T1 _ _ T4 T5 T6 T7 T8] Hone Hla Hu Hc Hn HI Hco Htb Hb1 Hb2 Hsl Hdk. set (a := h_lapicid (k_hw s)) in *. set (s1 := cpus_known [a] s).
  pose proof (cpus_known_one a s Hc eq_refl HI) as Hon. fold s1 in Hon.
  assert (Hp : printable s1) by (constructor; [by eexists _, _|done|done]).
  pose proof (mpinit_ok (D := D) s v d mp conf es T1 ltac:(by rewrite Hc) Hn T4 T7 T6) as Em. specialize (Em ltac:(change KERNLINK with 2148532224 in T5; lia) T8).
  set (v1 := set_v_ioapicid _ _) in Em. set (d1 := imcr _ _ _) in Em. rewrite Hone in Em. fold s1 in Em.
  destruct (boot_interrupts s1 v1 d1 _ Hp Hon HI Hla Htb) as (co2 & v2 & d2 & E2 & P2 & L2 & F2 & G2).
  destruct (binit_spec 0 (set_k_cons co2 s1)) as (Bf & E3 & _); [apply P2|done|by apply Forall_lookup|cbn; intros; rewrite Hsl; apply lookup_empty|done|].
  assert (Hb : forall pid, cache_ok pid [] [] (set_k_bufs Bf (set_k_cons co2 s1))).
  { intros pid. destruct (binit_spec pid (set_k_cons co2 s1)) as (Bf' & E3' & Hok & _); [apply P2|done|by apply Forall_lookup|cbn; intros; rewrite Hsl; apply lookup_empty|done|].
    rewrite E3 in E3'. injection E3' as E3'. assert (Bf = Bf') as -> by done. done. }
  assert (P3 : printable (set_k_bufs Bf (set_k_cons co2 s1))) by (by destruct P2).
  destruct (quiet_run (lk fileinit) _ v2 d2 (quiet_initlock L_ftable) P3 L2) as (co4 & v4 & d4 & E4 & P4 & T4' & L4).
  destruct (quiet_run ideinit _ v4 d4 (quiet_ideinit Hata) P4 L4) as (co5 & v5 & d5 & E5 & P5 & T5' & L5).
  exists Bf, co5, v5, d5. split; [|split; [exact P5|split; [exact Hb|by rewrite T5', T4']]].
  intros B k. erewrite bind_run by exact Em. rewrite E2. erewrite bind_run by (eapply lk_ret; exact E3). cbn [mc_v mc_d]. by rewrite E4, E5.
Qed.
End Booting.

(** * Properties *)

(** [kinit1] and [kvmalloc] run on the boot page table: they finish, and every byte they change is mapped by it where the
    kernel's page table will have it. *)
Theorem early_boot_mapped {D} `{Device D} s v (d : D) : unlocked s -> k_freelist s = 0 -> KERNBASE < k_end s <= P2V 4194304 - 66 * PGSIZE -> data_ok (k_data s) ->
  exists s', (forall B (rest : MD (D := D) B), (lk (kinit1 (k_end s) (P2V 4194304)) ;; lk kvmalloc ;; rest) (mkMachine s v d) = rest (mkMachine s' v d)) /\
    forall x, k_mem s' x <> k_mem s x -> entry_trans x = Some (V2P x).
Proof.
  intros Hu Hf He Hd. destruct (boot_memory s v d Hu Hf He Hd) as (kd & kt & l & fl & m & E & _ & _ & _ & Fr). set (s' := set_k_hw _ _) in E.
  exists s'. split; [exact E|]. intros x Hx.
  assert (Hr : KERNBASE <= x < KERNBASE + 4194304) by (destruct (decide (x < k_end s \/ P2V 4194304 <= x)) as [Ho|Hno]; [by destruct Hx; apply Fr|change (P2V 4194304) with 2151677952 in *; unfold KERNBASE in *; lia]).
  rewrite entry_trans_eq by (unfold KERNBASE in *; lia). rewrite (proj2 (Z.leb_le _ _) (proj1 Hr)), (proj2 (Z.ltb_lt _ _) (proj2 Hr)), orb_true_r.
  unfold V2P, KERNBASE in *. f_equal. rewrite u32_small by lia. symmetry. apply Z.mod_unique with (q := 512); lia.
Qed.

(** The first process has the processor: every page after the kernel is in the kernel's page table [kd :: kt], the
    process's kernel stack [ks], its page table [pd :: t], its page [pg] or on the free list [l]. *)
Record first_runs `{Symbols} `{Linked} (s0 s : kernel) (v : drivers) (kd : Z) (kt : list Z) (ks pd pg : Z) (t l : list Z) : Prop := {
  fr_pages : pages (PGROUNDUP (k_end s0)) (lower (k_end s0) + upper) ≡ₚ (kd :: kt) ++ ks :: (pd :: t) ++ pg :: l;
  fr_kernel : k_kpgdir s = kd /\ kspace s kd kt;
  fr_proc : k_proc s = set_p_state RUNNING (init_proc ks pd 1 proc0) :: replicate 63 proc0 /\ k_initproc s = Some 0%nat;
  fr_cpu : exists c, on_cpu (k_hw s) 0 c /\ h_cr3 (k_hw s) = V2P pd /\ c_proc c = Some 0%nat /\ c_started c = 1 /\ c_esp0 c = u32 (ks + KSTACKSIZE) /\
    uspace s pd (list_to_set t) l 0 c (fun k => k =? 0);
  fr_locks : lock_held (k_hw s) L_ptable 0 /\ (forall x, x <> L_ptable -> lock_free (k_hw s) x) /\ k_use_lock s = 1;
  fr_kern : forall va, KERNBASE <= va < 2 ^ 32 -> ent (k_mem s) pd va = kent (k_data s) va;
  fr_page : ent (k_mem s) pd 0 = V2P pg + Z.lor (Z.lor PTE_W PTE_U) PTE_P;
  fr_image : forall va, 0 <= va < PGSIZE -> ubyte (k_mem s) pd va = default 0 (initcode !! Z.to_nat va);
  fr_stack : ld32 (k_mem s) (ks + KSTACKSIZE - 80) = u32 trapret_addr /\ ld32 (k_mem s) (ks + KSTACKSIZE - 84) = u32 forkret_addr;
  fr_cache : forall pid, cache_ok pid [] [] s;
  fr_tables : flat_segments (v_tables v) 0 /\ gates (v_tables v) /\ t_idtr (v_tables v) = Some 2047
}.

Lemma pages_parts kend kd kt l ks pd pg t1 t2 l' : KERNBASE < kend <= P2V 4194304 - 66 * PGSIZE ->
  rev (pages (PGROUNDUP kend) (lower kend)) = kd :: kt ++ l -> rev (pages (P2V 4194304) upper) ++ l = ks :: pd :: t1 ++ pg :: t2 ++ l' ->
  pages (PGROUNDUP kend) (lower kend + upper) ≡ₚ (kd :: kt) ++ ks :: (pd :: t2 ++ t1) ++ pg :: l'.
Proof.
  intros Hk E1 E2. destruct (lower_count _ Hk) as [Hc _]. rewrite pages_app, Hc, (Permutation_rev (pages (P2V _) _)), (Permutation_rev (pages (PGROUNDUP _) _)), E1.
  rewrite app_comm_cons, <- app_assoc, (Permutation_app_comm l), E2. apply Permutation_app_head. cbn [app]. do 2 apply Permutation_skip.
  rewrite <- !app_assoc, !app_assoc, (Permutation_app_comm t2 t1), <- !app_assoc. apply Permutation_app_head. apply Permutation_middle.
Qed.

Lemma all_pages kend : KERNBASE < kend <= P2V 4194304 - 66 * PGSIZE -> Forall (page_ok kend) (pages (PGROUNDUP kend) (lower kend + upper)).
Proof.
  intros Hk. assert (Hk' : KERNBASE < kend <= P2V 4194304) by (unfold PGSIZE in Hk; lia). destruct (lower_count _ Hk) as [Hc _]. rewrite pages_app, Hc, Forall_app.
  split; [by apply lower_pages|by apply upper_pages, upper_count].
Qed.

Section MainRuns.
Context {D : Type} `{Ata D} `{!Lapic D} `{WaitFuel} `{Symbols} `{BootSymbols} `{Linked}.
Hypothesis (Hata : (at_latency <= wait_fuel)%nat) (Hicr : (icr_latency <= wait_fuel)%nat).

(** C14: On a machine with one processor, as the boot loader leaves it, [main] gets to the first switch to a process
    without a panic and without waiting forever for a device. The process is [initcode]: it runs in slot 0 with its page table
    loaded, which maps the image at 0, zeroes after it and the kernel above, and its kernel stack is the one the
    processor will use, with [forkret] and then [trapret] to return to. Every page of memory after the kernel is
    used for exactly one of the kernel's page table, that stack, the page tables and the page of the process, or is
    free. The block cache is set up, the descriptor tables are loaded with all gates, and only [ptable.lock] is held. *)
Theorem main_runs_init s v (d : D) mp conf es rounds : at_entry (mkMachine s v d) mp conf es ->
  exists s' v' d' k kd kt ks pd pg t l, main (S rounds) (mkMachine s v d) = Swtch (mkMachine s' v' d') k /\ first_runs s s' v' kd kt ks pd pg t l.
Proof.
  intros [N1 N2 N3 N4 N5 N6 N7 N8 [N9 N10] N11 N12 N13 N14 N15 N16 N17 N18 N19]. cbn [mc_k mc_v mc_d] in *.
  assert (Hu : unlocked s) by (intros x; unfold lock_free; rewrite N1; apply lookup_empty).
  assert (He : KERNBASE < k_end s <= P2V 4194304 - 66 * PGSIZE) by (change KERNLINK with 2148532224 in N3; unfold KERNBASE; lia).
  destruct (boot_memory s v d Hu N2 He N4) as (kd & kt & l & fl & m & E2 & Hrev & K2 & S2 & Fr2). set (s2 := set_k_hw _ _) in *.
  assert (Hmp : mp_tables (k_mem s2) mp conf es) by (eapply mp_tables_low; [|exact N15]; intros x Hx; apply Fr2; lia).
  assert (Hla : conf_lapicaddr (mpconf_at (k_mem s2) conf) = lapic_base).
  { rewrite <- N17. f_equal. destruct N15 as [_ _ _ _ [_ T5] T6 _ _]. eapply (mpconf_at_low (k_mem s) (k_mem s2)); [intros x Hx; apply Fr2; lia|]. unfold MPCONF_SIZE in T6. lia. }
  assert (Hcpus : h_cpus (k_hw s2) = replicate 8 cpu0) by (cbn; by rewrite N1).
  assert (HIF : h_IF (k_hw s2) = false) by (cbn; by rewrite N1).
  destruct (boot_devices Hata Hicr s2 v d mp conf es Hmp N16 Hla Hu Hcpus ltac:(cbn; by rewrite N1) HIF N8 N14 N9 N10 N11 N12) as (Bf & co & v3 & d3 & E3 & P3 & C3 & F3 & G3).
  set (s3 := set_k_bufs _ _) in *. pose proof (cpus_known_one _ s2 Hcpus eq_refl HIF) as Hon. set (c := set_c_apicid _ cpu0) in Hon.
  destruct (boot_user s3 v3 d3 c kd kt l) as (ks & pd & pg & t1 & t2 & l' & s5 & fl6 & m6 & E6 & S6 & D6 & F6);
    [exact Hon|exact HIF|done|exact Hu|done|exact N3|exact N4|by eapply kmem_ok_same; [..|exact K2]|by destruct S2|exact Hrev|exact N5|exact N13|exact N18|exact N19|].
  set (s6 := with_mem fl6 m6 _) in *. pose proof (pages_parts _ _ _ _ _ _ _ _ _ _ He Hrev (fp_pages _ _ _ _ _ _ _ _ _ _ _ F6)) as Hperm.
  pose proof (all_pages _ He) as Hall. rewrite Hperm, Forall_forall in Hall.
  assert (Hks : ks <> 0 /\ pd <> 0).
  { destruct (Hall ks) as (_ & _ & _ & ?); [apply elem_of_app; right; apply elem_of_cons; by left|]. destruct (Hall pd) as (_ & _ & _ & ?); [apply elem_of_app; right; apply elem_of_cons; right; apply elem_of_cons; by left|]. lia. }
  assert (P6 : printable s6) by (by destruct P3).
  destruct (boot_mpmain s6 v3 d3 c P6 Hon HIF) as (co7 & Hc7 & E7). set (s7 := set_k_cons co7 _) in E7. set (v7 := set_v_tables _ v3) in E7.
  assert (Hon7 : on_cpu (k_hw s7) 0 (set_c_started 1 c)) by (destruct Hon as [O1 O2 O3]; constructor; [by apply (cur_cpu_upd _ _ c)|done|done]).
  destruct (sched_first s7 v7 d3 0 _ (init_proc ks pd 1 proc0) (replicate 63 proc0) rounds Hon7) as (h & k & E8 & O8 & R8 & I8 & L8 & U8);
    [exact HIF|lia|done|done|exact Hu|cbn; by rewrite N5, N6|done|apply Hks|apply Hks|exact N7|].
  eexists _, v7, d3, _, kd, kt, ks, pd, pg, (t2 ++ t1), l'. split.
  - unfold main. erewrite bind_run by reflexivity. cbn [mc_k]. rewrite E2, E3, E6, E7. unfold lk. cbn [mc_k mc_v mc_d]. rewrite E8. reflexivity.
  - destruct F6 as [_ _ U6 Q1 Q2 Q3 Q4]. constructor.
    + exact Hperm.
    + split; [done|]. by eapply (kspace_frame s6); [..|exact S6].
    + done.
    + eexists. split; [exact O8|]. split; [exact R8|]. split; [done|]. split; [done|]. split; [done|].
      apply (uspace_same s6 _ _ _ _ 0 c); [done|done|done| |exact U6]. right. split; [exact O8|]. by apply U8.
    + done.
    + intros va Hva. etransitivity; [exact (Q1 va Hva)|]. by rewrite D6.
    + exact Q2.
    + exact Q3.
    + exact Q4.
    + exact C3.
    + split; [|split; [|done]]; [by destruct F3|exact G3].
Qed.
End MainRuns.

(** A machine with one processor; its tables are in the BIOS ROM. *)
Definition one_tables : list Z :=
  str "_MP_" ++ [0; 1; 15; 0; 1; 4; 16; 0; 128; 0; 0; 0] ++ replicate 240 0 ++
  str "PCMP" ++ [80; 0; 4; 150] ++ replicate 26 0 ++ [3; 0; 0; 0; 224; 254; 0; 0; 0; 0] ++
  enc_entries [E_proc 0 (replicate 18 0); E_ioapic 2 (replicate 6 0); E_other 1 (replicate 7 0)].
Definition one_memory : mem := fun x => if x <? 2148466688 then 0 else nth (Z.to_nat (x - 2148466688)) one_tables 0.
Definition one_kernel : kernel :=
  mkKernel (set_h_ncpu 0 hw0) ∅ one_memory 0 0 2148540416 2148536320 0 (replicate 64 proc0) 1 None 1 0
    containers0 messages0 0 (replicate 40 0) 0 console0 disk0 (replicate 31 buf0) log0 superblock0
    (replicate 50 inode0) (replicate 100 file0) ∅.
Definition one_disk : ata := mkAta (fun _ _ => replicate 512 0) 0 0 0 0 0 None false.

#[local] Instance one_lapic : Lapic ata.
Proof.
  refine {| lapic_base := 4276092928; icr_polls := fun _ => 0%nat; icr_latency := 0%nat |}.
  - done.
  - intros d. by exists 0, d.
Defined.

#[local] Instance one_symbols : BootSymbols := { entryother := [250]; mpenter_addr := 2148532224; entrypgdir_addr := 2148536320 }.
#[local] Instance one_linked : Linked := { trapret_addr := 2148532300; forkret_addr := 2148532400; initcode := [235; 254] }.

Lemma one_mp : mp_tables one_memory 2148466688 2148466944 [E_proc 0 (replicate 18 0); E_ioapic 2 (replicate 6 0); E_other 1 (replicate 7 0)].
Proof.
  constructor; [|by vm_compute|by vm_compute| |by vm_compute|by vm_compute| |by vm_compute].
  - repeat (constructor; [by vm_compute|]). constructor.
  - by constructor; [vm_compute..|right|].
  - repeat constructor; by vm_compute.
Qed.

Lemma one_entry : @at_entry ata _ one_lapic one_symbols one_linked (mkMachine one_kernel drivers0 one_disk) 2148466688 2148466944
  [E_proc 0 (replicate 18 0); E_ioapic 2 (replicate 6 0); E_other 1 (replicate 7 0)].
Proof.
  constructor; cbn [mc_k mc_v].
  - reflexivity.
  - reflexivity.
  - by vm_compute.
  - by vm_compute.
  - reflexivity.
  - reflexivity.
  - reflexivity.
  - by vm_compute.
  - split; [reflexivity|]. by repeat constructor.
  - reflexivity.
  - done.
  - reflexivity.
  - constructor; [reflexivity| |reflexivity|reflexivity]. by repeat constructor.
  - exact one_mp.
  - reflexivity.
  - by vm_compute.
  - by vm_compute.
  - by vm_compute.
Qed.

Lemma main_runs_init_witness : exists s' v' d' k, @main ata _ 10%nat demo_symbols one_symbols one_linked 1 (mkMachine one_kernel drivers0 one_disk) = Swtch (mkMachine s' v' d') k /\
  exists pr, k_proc s' !! 0%nat = Some pr /\ p_state pr = RUNNING /\ p_pid pr = 1.
Proof.
  destruct (@main_runs_init ata _ ata_ata one_lapic 10%nat demo_symbols one_symbols one_linked) with (s := one_kernel) (v := drivers0) (d := one_disk)
    (mp := 2148466688) (conf := 2148466944) (es := [E_proc 0 (replicate 18 0); E_ioapic 2 (replicate 6 0); E_other 1 (replicate 7 0)]) (rounds := 0%nat)
    as (s' & v' & d' & k & kd & kt & ks & pd & pg & t & l & E & [_ _ [F _] _ _ _ _ _ _ _ _]).
  - apply Nat.leb_le. reflexivity.
  - apply Nat.leb_le. reflexivity.
  - exact one_entry.
  - exists s', v', d', k. split; [exact E|]. eexists. split; [rewrite F; reflexivity|]. split; reflexivity.
Defined.
