(* ===== verification/Ulib.v ===== *)
(** The string and memory functions of [ulib.c] on the memory of a program, against those of the kernel
    ([string.c]). [strcmp], [strchr], [gets], [stat] and [atoi] are in [User.v]. *)

From S2P Require Import Prelude Bytes KString.
From stdpp Require Import base list.
From Stdlib Require Import ZArith Lia.
Local Open Scope Z_scope.

(** The loop copies up to and including the NUL: [None] when none is met within [fuel] bytes. *)
Fixpoint strcpy_loop (fuel : nat) (m : mem) (s t : Z) : option mem :=
  match fuel with
  | O => None
  | S fuel =>
      let c := m t in
      let m := upd m s c in
      if c =? 0 then Some m else strcpy_loop fuel m (s + 1) (t + 1)
  end.

Definition strcpy (fuel : nat) (m : mem) (s t : Z) : option (mem * Z) :=
  m ← strcpy_loop fuel m s t; Some (m, s).

(** [for(n = 0; s[n]; n++);] *)
Fixpoint strlen_from (fuel : nat) (m : mem) (s n : Z) : option Z :=
  match fuel with
  | O => None
  | S fuel => if m (s + n) =? 0 then Some n else strlen_from fuel m s (n + 1)
  end.

Definition strlen (fuel : nat) (m : mem) (s : Z) : option Z := n ← strlen_from fuel m s 0; Some (u32 n).

Definition memset (m : mem) (dst c n : Z) : mem * Z := (stosb m dst (u8 c) (Z.to_nat n), dst).

(** The loop of [memmove]: upwards, whatever the overlap. *)
Fixpoint move_loop (m : mem) (dst src : Z) (n : nat) : mem :=
  match n with
  | O => m
  | S n => move_loop (upd m dst (m src)) (dst + 1) (src + 1) n
  end.

Definition memmove (m : mem) (vdst vsrc n : Z) : mem * Z := (move_loop m vdst vsrc (Z.to_nat n), vdst).

(** * Facts *)

Section Copying.
Implicit Types m : mem.

Lemma strlen_from_eq fuel m s n : strlen_from fuel m s n = strlen_loop fuel m s n.
Proof. revert n. induction fuel as [|fuel IH]; intros n; cbn; [done|]. by rewrite IH. Qed.

Lemma move_loop_eq m d s n : move_loop m d s n = copy_up m d s n.
Proof. revert m d s. induction n as [|n IH]; intros m d s; cbn; [done|]. by rewrite IH. Qed.

Lemma move_loop_out m d s n x : x < d \/ d + Z.of_nat n <= x -> move_loop m d s n x = m x.
Proof. rewrite move_loop_eq. apply copy_up_out. Qed.

Lemma move_loop_snoc n : forall m d s,
  move_loop m d s (S n) = upd (move_loop m d s n) (d + Z.of_nat n) (move_loop m d s n (s + Z.of_nat n)).
Proof.
  induction n as [|n IH]; intros m d s; [cbn; by rewrite !Z.add_0_r|].
  change (move_loop m d s (S (S n))) with (move_loop (upd m d (m s)) (d + 1) (s + 1) (S n)). rewrite IH. cbn [move_loop].
  replace (d + 1 + Z.of_nat n) with (d + Z.of_nat (S n)) by lia. by replace (s + 1 + Z.of_nat n) with (s + Z.of_nat (S n)) by lia.
Qed.

(** Moving up onto itself repeats the first [dst - src] bytes. *)
Lemma move_loop_smear m d s n x : s < d -> s <= x < d + Z.of_nat n -> move_loop m d s n x = m (s + (x - s) mod (d - s)).
Proof.
  intros Hsd. revert x. induction n as [|n IH]; intros x Hx.
  - cbn. f_equal. rewrite Z.mod_small by lia. lia.
  - rewrite move_loop_snoc. destruct (decide (x = d + Z.of_nat n)) as [->|Hne].
    + rewrite upd_eq, IH by lia. f_equal. f_equal. replace (d + Z.of_nat n - s) with (s + Z.of_nat n - s + 1 * (d - s)) by lia. by rewrite Z.mod_add by lia.
    + rewrite upd_ne by done. apply IH. lia.
Qed.

Lemma strcpy_loop_ok fuel : forall m s t l, cstr m t l -> (length l < fuel)%nat ->
  s + Z.of_nat (length l) < t \/ t + Z.of_nat (length l) < s \/ s <= t ->
  exists m', strcpy_loop fuel m s t = Some m' /\ cstr m' s l /\ (forall x, x < s \/ s + Z.of_nat (length l) < x -> m' x = m x).
Proof.
  induction fuel as [|fuel IH]; intros m s t l Hl Hf Hov; [lia|]. cbn [strcpy_loop]. destruct l as [|c l].
  - destruct Hl as [_ Hz]. cbn in Hz. rewrite Z.add_0_r in Hz. rewrite Hz. cbn [Z.eqb]. eexists. split; [done|]. split.
    + split; [by intros|]. cbn. rewrite Z.add_0_r. apply upd_eq.
    + intros x Hx. cbn in Hx. apply upd_ne. lia.
  - destruct (cstr_tail _ _ _ _ Hl) as (E & Hc & Hl'). rewrite E. destruct (Z.eqb_spec c 0); [done|]. cbn [length] in *.
    destruct (IH (upd m s c) (s + 1) (t + 1) l) as (m' & E' & Hm & Hout); [|lia|lia|].
    { eapply cstr_frame; [|exact Hl']. intros x Hx. apply upd_ne. lia. }
    exists m'. split; [done|]. split.
    + apply cstr_cons; [|done|done]. rewrite Hout by lia. apply upd_eq.
    + intros x Hx. rewrite Hout by lia. apply upd_ne. lia.
Qed.
End Copying.

(** * Theorems *)

(** [strcpy] ends, returns its first argument, and leaves a copy of the string there and every other byte as it was,
    when the two arrays do not overlap or the copy moves the string down. *)
Theorem strcpy_correct m s t l fuel : cstr m t l -> (length l < fuel)%nat -> t + Z.of_nat (length l) < s \/ s <= t ->
  exists m', strcpy fuel m s t = Some (m', s) /\ cstr m' s l /\ forall x, x < s \/ s + Z.of_nat (length l) < x -> m' x = m x.
Proof.
  intros Hl Hf Hov. destruct (strcpy_loop_ok fuel m s t l Hl Hf ltac:(lia)) as (m' & E & Hr). exists m'. split; [|done]. unfold strcpy. by rewrite E.
Qed.

(** [strlen] ends with the length of the string. *)
Theorem ulib_strlen_correct m s l fuel : cstr m s l -> (length l < fuel)%nat -> Z.of_nat (length l) < 2 ^ 31 -> strlen fuel m s = Some (Z.of_nat (length l)).
Proof.
  intros Hl Hf Hb. unfold strlen. rewrite strlen_from_eq. pose proof (strlen_spec fuel m s l Hl Hf) as E. unfold KString.strlen in E. rewrite E. cbn. by rewrite u32_small by lia.
Qed.

(** The byte loop of [memset] stores what the kernel's word loop stores. *)
Theorem ulib_memset_kernel m dst c n x : 0 <= n -> (memset m dst c n).1 x = KString.memset m dst c n x.
Proof. intros Hn. rewrite memset_spec by done. cbn. rewrite stosb_spec, Z2Nat.id by done. done. Qed.

(** [memmove] moves as the kernel's does when the destination is below the source or past its end. Otherwise it
    repeats the first [dst - src] bytes instead: it is right for no overlapping move up of bytes that are not periodic. *)
Theorem ulib_memmove m dst src n x : 0 <= n ->
  (dst <= src \/ src + n <= dst -> (memmove m dst src n).1 x = KString.memmove m dst src n x) /\
  (src < dst < src + n -> dst <= x < dst + n -> (memmove m dst src n).1 x = m (src + (x - src) mod (dst - src))).
Proof.
  intros Hn. cbn. split.
  - intros Hov. rewrite memmove_spec by done. destruct (Z.leb_spec dst x), (Z.ltb_spec x (dst + n)); cbn [andb].
    + rewrite move_loop_eq. apply copy_up_in; lia.
    + apply move_loop_out. lia.
    + apply move_loop_out. lia.
    + apply move_loop_out. lia.
  - intros Hov Hx. apply move_loop_smear; lia.
Qed.

(** [memmove(p + 1, p, 3)] on [abc]: the kernel's gives [abc], this one [aaa]. *)
Example ulib_memmove_overlap :
  let m := fun x => if x =? 100 then 97 else if x =? 101 then 98 else if x =? 102 then 99 else 0 in
  ((fun k => (memmove m 101 100 3).1 k) <$> [101; 102; 103]) = [97; 97; 97] /\ ((fun k => KString.memmove m 101 100 3 k) <$> [101; 102; 103]) = [97; 98; 99].
Proof. split; reflexivity. Qed.
