(* ===== verification/Umalloc.v ===== *)
(** The memory allocator of the user programs ([umalloc.c]) over the program's memory: a
    circular list of free blocks ordered by address, threaded through their headers. *)

From S2P Require Import Prelude Bytes.
From stdpp Require Import base numbers sets list.
From Stdlib Require Import ZArith Lia.
Local Open Scope Z_scope.
Local Open Scope km_scope.

(** * The program *)

(** The memory by words: the allocator only touches aligned words of headers. *)
Record uheap : Type := mkUheap {
  u_w : Z -> Z;
  u_freep : Z;
  u_brk : Z
}.

Definition wset (a x : Z) (w : Z -> Z) : Z -> Z := fun b => if b =? a then x else w b.

(** Where the linker put [base], and what the kernel answers to [sbrk]: whether it grows a process of [brk] bytes by
    [n]. A process stays below [KERNBASE]. *)
Class Brk : Type := {
  base : Z;
  brk_grow : Z -> Z -> bool;
  base_low : 0 < base;
  brk_max : forall b n, brk_grow b n = true -> b + n < 2 ^ 31
}.

Definition HEADER : Z := 8.

Section Program.
Context `{Brk} `{WaitFuel}.

Definition UM (A : Type) : Type := M uheap A.

Definition ptr (a : Z) : UM Z := gets (fun s => u_w s a).
Definition size (a : Z) : UM Z := gets (fun s => u_w s (a + 4)).
Definition set_ptr (a x : Z) : UM unit := modify (fun s => mkUheap (wset a x (u_w s)) (u_freep s) (u_brk s)).
Definition set_size (a x : Z) : UM unit := modify (fun s => mkUheap (wset (a + 4) x (u_w s)) (u_freep s) (u_brk s)).
Definition set_freep (x : Z) : UM unit := modify (fun s => mkUheap (u_w s) x (u_brk s)).

Definition sbrk (n : Z) : UM Z :=
  fun s => if brk_grow (u_brk s) n then Ret (u_brk s) (mkUheap (u_w s) (u_freep s) (u_brk s + n)) else Ret (-1) s.

(** The loop of [free]: the block after which [bp] goes. *)
Fixpoint free_find (fuel : nat) (bp p : Z) : UM Z :=
  let! nx := ptr p in
  if (p <? bp) && (bp <? nx) then ret p
  else if (nx <=? p) && ((p <? bp) || (bp <? nx)) then ret p
  else match fuel with
       | O => nofuel
       | S fuel => free_find fuel bp nx
       end.

Definition free (ap : Z) : UM unit :=
  let bp := ap - HEADER in
  let! fp := gets u_freep in
  let! p := free_find wait_fuel bp fp in
  let! n := size bp in
  let! nx := ptr p in
  (if u32 (bp + HEADER * n) =? nx then
     let! n2 := size nx in
     set_size bp (u32 (n + n2)) ;;
     let! nx2 := ptr nx in
     set_ptr bp nx2
   else set_ptr bp nx) ;;
  let! sp := size p in
  (if u32 (p + HEADER * sp) =? bp then
     let! n := size bp in
     set_size p (u32 (sp + n)) ;;
     let! nx := ptr bp in
     set_ptr p nx
   else set_ptr p bp) ;;
  set_freep p.

Definition morecore (nu : Z) : UM Z :=
  let nu := if nu <? 4096 then 4096 else nu in
  let! p := sbrk (i32 (nu * HEADER)) in
  if p =? -1 then ret 0 else
  set_size p nu ;;
  free (p + HEADER) ;;
  gets u_freep.

(** The loop of [malloc] at the block [p] after [prevp]. *)
Fixpoint malloc_loop (fuel : nat) (nunits prevp p : Z) : UM Z :=
  let! sz := size p in
  if nunits <=? sz then
    if sz =? nunits then
      let! nx := ptr p in
      set_ptr prevp nx ;;
      set_freep prevp ;;
      ret (p + HEADER)
    else
      set_size p (u32 (sz - nunits)) ;;
      let p := p + HEADER * u32 (sz - nunits) in
      set_size p nunits ;;
      set_freep prevp ;;
      ret (p + HEADER)
  else
    let! fp := gets u_freep in
    let! next := (if p =? fp then let! c := morecore nunits in ret (if c =? 0 then None else Some c) else ret (Some p)) in
    match next, fuel with
    | None, _ => ret 0
    | Some p, S fuel => let! nx := ptr p in malloc_loop fuel nunits p nx
    | Some _, O => nofuel
    end.

Definition malloc (nbytes : Z) : UM Z :=
  let nunits := u32 (nbytes + HEADER - 1) / HEADER + 1 in
  let! fp := gets u_freep in
  (if fp =? 0 then
     set_freep base ;;
     set_ptr base base ;;
     set_size base 0
   else ret tt) ;;
  let! prevp := gets u_freep in
  let! p := ptr prevp in
  malloc_loop wait_fuel nunits prevp p.
End Program.

(** * Free lists *)

(** Headers at [a] and [b] do not overlap. *)
Definition apart (a b : Z) : Prop := a + 8 <= b \/ b + 8 <= a.

(** A block is the address of its header and its size in units of a header; these are its units. *)
Definition units (b : Z * Z) : list Z := seqZ (b.1 / 8) b.2.
Definition all_units (l : list (Z * Z)) : list Z := concat (units <$> l).

Definition hdz (stop : Z) (F : list (Z * Z)) : Z := match F with [] => stop | (a, _) :: _ => a end.

(** The headers of [F] hold the sizes, and each points to the next, the last to [stop]. *)
Fixpoint chain (w : Z -> Z) (stop : Z) (F : list (Z * Z)) : Prop :=
  match F with
  | [] => True
  | (a, n) :: F => w a = hdz stop F /\ w (a + 4) = n /\ chain w stop F
  end.

(** Ascending blocks with a gap after each, the first past [lo]. *)
Fixpoint spaced (lo : Z) (F : list (Z * Z)) : Prop :=
  match F with
  | [] => True
  | (a, n) :: F => lo < a /\ 0 <= n /\ spaced (a + 8 * n) F
  end.

Section Lists.
Implicit Types (w : Z -> Z) (F : list (Z * Z)).

Lemma chain_app w stop F1 : forall F2, chain w stop (F1 ++ F2) <-> chain w (hdz stop F2) F1 /\ chain w stop F2.
Proof.
  induction F1 as [|[a n] F1 IH]; intros F2; cbn [app chain]; [tauto|]. rewrite IH.
  replace (hdz stop (F1 ++ F2)) with (hdz (hdz stop F2) F1) by (by destruct F1 as [|[]]). tauto.
Qed.

Lemma chain_frame w w' stop F : (forall a n, (a, n) ∈ F -> w' a = w a /\ w' (a + 4) = w (a + 4)) -> chain w stop F -> chain w' stop F.
Proof.
  induction F as [|[a n] F IH]; intros Hf Hc; [done|]. destruct Hc as (H1 & H2 & H3). destruct (Hf a n) as [E1 E2]; [left|].
  cbn [chain]. rewrite E1, E2. split_and!; [done..|]. apply IH; [|done]. intros a' n' Hin. apply (Hf a' n'). by right.
Qed.

Lemma spaced_app lo F1 : forall F2, spaced lo (F1 ++ F2) <-> spaced lo F1 /\ spaced (match last F1 with Some (a, n) => a + 8 * n | None => lo end) F2.
Proof.
  revert lo. induction F1 as [|[a n] F1 IH]; intros lo F2; cbn [app spaced]; [tauto|]. rewrite IH, last_cons. destruct (last F1) as [[a' n']|]; tauto.
Qed.

Lemma spaced_above lo F a n : spaced lo F -> (a, n) ∈ F -> lo < a /\ 0 <= n.
Proof.
  revert lo. induction F as [|[c m] F IH]; intros lo Hs Hin; [by apply not_elem_of_nil in Hin|]. destruct Hs as (H1 & H2 & H3).
  apply elem_of_cons in Hin as [[= -> ->]|Hin]; [done|]. destruct (IH _ H3 Hin). lia.
Qed.

Lemma spaced_lo lo lo' F : lo' <= lo -> spaced lo F -> spaced lo' F.
Proof. destruct F as [|[a n] F]; cbn; [done|]. intros. split_and!; [lia|tauto|tauto]. Qed.

Lemma all_units_app F1 F2 : all_units (F1 ++ F2) = all_units F1 ++ all_units F2.
Proof. unfold all_units. by rewrite fmap_app, concat_app. Qed.

Lemma all_units_cons b F : all_units (b :: F) = units b ++ all_units F.
Proof. done. Qed.

Lemma all_units_perm F1 F2 : F1 ≡ₚ F2 -> all_units F1 ≡ₚ all_units F2.
Proof. intros Hp. induction Hp as [|x l l' _ IH|x y l|l l' l'' _ IH1 _ IH2]; rewrite ?all_units_cons; [done|by rewrite IH|by rewrite Permutation_app_swap_app|by rewrite IH1]. Qed.

Lemma unit_in b F u : b ∈ F -> u ∈ units b -> u ∈ all_units F.
Proof.
  induction F as [|c F IH]; intros Hb Hu; [by apply not_elem_of_nil in Hb|]. rewrite all_units_cons. apply elem_of_app.
  apply elem_of_cons in Hb as [->|Hb]; [by left|right; auto].
Qed.

(** A block is the block of its first [k] units and the rest. *)
Lemma units_split a n m : a mod 8 = 0 -> 0 <= n -> 0 <= m -> units (a, n + m) = units (a, n) ++ units (a + 8 * n, m).
Proof.
  intros Ha Hn Hm. unfold units. cbn [fst snd]. rewrite seqZ_app by done. replace ((a + 8 * n) / 8) with (a / 8 + n); [done|].
  rewrite Z.mul_comm, Z.div_add by lia. done.
Qed.


Lemma wset_same a x w : wset a x w a = x.
Proof. unfold wset. by rewrite Z.eqb_refl. Qed.
Lemma wset_other a x w b : b <> a -> wset a x w b = w b.
Proof. intros Hb. unfold wset. by rewrite (proj2 (Z.eqb_neq _ _) Hb). Qed.

Lemma apart_sym a b : apart a b -> apart b a.
Proof. unfold apart. lia. Qed.

Lemma wset_apart a x w b : apart a b -> wset a x w b = w b /\ wset a x w (b + 4) = w (b + 4) /\ wset (a + 4) x w b = w b /\ wset (a + 4) x w (b + 4) = w (b + 4).
Proof. unfold apart. intros Ha. rewrite !wset_other by lia. done. Qed.
End Lists.

(** * The heap *)

(** A block put before [F], merged with the first of [F] if it ends there; and a list put after a block, merged if the
    block ends at the first of the list. *)
Definition join_up (bp n : Z) (F : list (Z * Z)) : list (Z * Z) :=
  match F with
  | (a, m) :: F' => if bp + 8 * n =? a then (bp, n + m) :: F' else (bp, n) :: F
  | [] => [(bp, n)]
  end.

Definition join_down (p n : Z) (F : list (Z * Z)) : list (Z * Z) :=
  match F with
  | (a, m) :: F' => if p + 8 * n =? a then (p, n + m) :: F' else (p, n) :: F
  | [] => [(p, n)]
  end.

Section Heap.
Context `{Brk}.
Variable heap0 : Z.
Implicit Types (s : uheap) (F rest A : list (Z * Z)).

(** [rest] are the free blocks, [A] the allocated ones: together they are the heap. *)
Record heap_ok s rest A : Prop := {
  ho_chain : chain (u_w s) base ((base, 0) :: rest);
  ho_spaced : spaced (base - 1) ((base, 0) :: rest);
  ho_blocks : Forall (fun b => b.1 mod 8 = 0 /\ 0 < b.2) (rest ++ A);
  ho_freep : u_freep s ∈ base :: rest.*1;
  ho_sizes : Forall (fun b => u_w s (b.1 + 4) = b.2) A;
  ho_units : all_units (rest ++ A) ≡ₚ seqZ (heap0 / 8) ((u_brk s - heap0) / 8);
  ho_base : base + 8 <= heap0;
  ho_align : heap0 mod 8 = 0 /\ u_brk s mod 8 = 0;
  ho_brk : heap0 <= u_brk s < 2 ^ 31
}.

Lemma div8 a : a mod 8 = 0 -> a = 8 * (a / 8).
Proof. intros Ha. pose proof (Z.div_mod a 8). lia. Qed.

Lemma heap_block s rest A a n : heap_ok s rest A -> (a, n) ∈ rest ++ A -> a mod 8 = 0 /\ 0 < n /\ heap0 <= a /\ a + 8 * n <= u_brk s.
Proof.
  intros [_ _ Hb _ _ Hu _ [H1 H2] H3] Hin. rewrite Forall_forall in Hb. destruct (Hb _ Hin) as [Ha Hn]. cbn in Ha, Hn.
  assert (Hm : forall k, 0 <= k < n -> heap0 / 8 <= a / 8 + k < heap0 / 8 + (u_brk s - heap0) / 8).
  { intros k Hk. apply elem_of_seqZ. rewrite <- Hu. eapply unit_in; [exact Hin|]. apply elem_of_seqZ. cbn. lia. }
  pose proof (Hm 0 ltac:(lia)). pose proof (Hm (n - 1) ltac:(lia)). pose proof (div8 a Ha). pose proof (div8 _ H1). pose proof (div8 _ H2).
  assert ((u_brk s - heap0) / 8 = u_brk s / 8 - heap0 / 8).
  { replace (u_brk s - heap0) with (u_brk s + (- (heap0 / 8)) * 8) by lia. rewrite Z.div_add by lia. lia. }
  split_and!; [done|done|lia|lia].
Qed.

(** Two blocks of the heap do not overlap. *)
Lemma heap_disjoint s rest A a n b m l : heap_ok s rest A -> rest ++ A ≡ₚ (a, n) :: (b, m) :: l -> a + 8 * n <= b \/ b + 8 * m <= a.
Proof.
  intros Hok Hp. destruct (heap_block s rest A a n Hok) as (Ha & Hn & _); [rewrite Hp; left|].
  destruct (heap_block s rest A b m Hok) as (Hb & Hm & _); [rewrite Hp; right; left|].
  assert (Hd : NoDup (all_units ((a, n) :: (b, m) :: l))) by (rewrite <- (all_units_perm _ _ Hp), (ho_units _ _ _ Hok); apply NoDup_seqZ).
  rewrite !all_units_cons in Hd. apply NoDup_app in Hd as (_ & Hd & _).
  pose proof (div8 a Ha). pose proof (div8 b Hb).
  assert (Hx : forall u, a / 8 <= u < a / 8 + n -> b / 8 <= u < b / 8 + m -> False).
  { intros u Hu1 Hu2. apply (Hd u); [apply elem_of_seqZ; cbn; lia|]. apply elem_of_app. left. apply elem_of_seqZ. cbn. lia. }
  destruct (decide (a + 8 * n <= b)); [by left|]. destruct (decide (b + 8 * m <= a)); [by right|]. exfalso. apply (Hx (Z.max (a / 8) (b / 8))); lia.
Qed.

(** * Finding the place of a block *)

Section Find.
Context (s : uheap) (rest : list (Z * Z)) (bp : Z).
Let F : list (Z * Z) := (base, 0) :: rest.
Context (Hc : chain (u_w s) base F) (Hs : spaced (base - 1) F) (Hb : base < bp) (Hne : bp ∉ rest.*1).

Definition place (p sp : Z) (F1 F2 : list (Z * Z)) : Prop :=
  F = F1 ++ (p, sp) :: F2 /\ p < bp /\ match F2 with [] => True | (a, _) :: _ => bp < a end.

Lemma ptr_eq G1 f m G2 : F = G1 ++ (f, m) :: G2 -> u_w s f = hdz base G2 /\ u_w s (f + 4) = m.
Proof. intros E. pose proof Hc as Hc'. rewrite E in Hc'. apply chain_app in Hc' as [_ (H1 & H2 & _)]. done. Qed.

Lemma next_above G1 f m g k G2 : F = G1 ++ (f, m) :: (g, k) :: G2 -> f < g.
Proof. intros E. pose proof Hs as Hs'. rewrite E in Hs'. apply spaced_app in Hs' as [_ (_ & H1 & H2 & _)]. lia. Qed.

Lemma node_low G1 f m G2 : F = G1 ++ (f, m) :: G2 -> base <= f.
Proof. intros E. destruct (spaced_above (base - 1) F f m); [done|rewrite E; set_solver|lia]. Qed.

Lemma node_ne G1 f m G2 : F = G1 ++ (f, m) :: G2 -> f <> bp.
Proof.
  intros E. destruct G1 as [|[a k] G1]; [injection E; lia|]. injection E as _ _ E. intros ->. apply Hne. rewrite E, fmap_app. set_solver.
Qed.

Lemma find_up G2 : forall G1 f m fuel, F = G1 ++ (f, m) :: G2 -> f < bp -> (length G2 <= fuel)%nat ->
  exists p sp F1 F2, place p sp F1 F2 /\ free_find fuel bp f s = Ret p s.
Proof.
  induction G2 as [|[g k] G2 IH]; intros G1 f m fuel E Hf Hl; destruct (ptr_eq _ _ _ _ E) as [Ep _]; cbn [hdz] in Ep.
  - exists f, m, G1, []. split; [done|]. pose proof (node_low _ _ _ _ E).
    destruct fuel; cbn [free_find]; unfold ptr; rewrite bind_gets, Ep, (proj2 (Z.ltb_lt f bp)), (proj2 (Z.ltb_ge bp base)), (proj2 (Z.leb_le base f)) by lia; done.
  - pose proof (next_above _ _ _ _ _ _ E) as Hfg. destruct (decide (bp < g)) as [Hg|Hg].
    + exists f, m, G1, ((g, k) :: G2). split; [done|].
      destruct fuel; cbn [free_find]; unfold ptr; rewrite bind_gets, Ep, (proj2 (Z.ltb_lt f bp)), (proj2 (Z.ltb_lt bp g)) by lia; done.
    + assert (g <> bp) by (apply (node_ne (G1 ++ [(f, m)]) g k G2); by rewrite <- app_assoc).
      destruct fuel as [|fuel]; [cbn in Hl; lia|]. cbn [free_find]. unfold ptr. rewrite bind_gets, Ep, (proj2 (Z.ltb_ge bp g)), andb_false_r, (proj2 (Z.leb_gt g f)) by lia.
      cbn [andb]. apply (IH (G1 ++ [(f, m)]) g k fuel); [by rewrite <- app_assoc|lia|cbn in Hl; lia].
Qed.

Lemma find_wrap G2 : forall G1 f m fuel, F = G1 ++ (f, m) :: G2 -> bp < f -> (length G2 + length rest < fuel)%nat ->
  exists p sp F1 F2, place p sp F1 F2 /\ free_find fuel bp f s = Ret p s.
Proof.
  induction G2 as [|[g k] G2 IH]; intros G1 f m fuel E Hf Hl; destruct (ptr_eq _ _ _ _ E) as [Ep _]; cbn [hdz] in Ep.
  - destruct fuel as [|fuel]; [lia|]. cbn [free_find]. unfold ptr.
    rewrite bind_gets, Ep, (proj2 (Z.ltb_ge f bp)), (proj2 (Z.ltb_ge bp base)), andb_false_r by lia. cbn [andb orb]. rewrite andb_false_r. apply (find_up rest [] base 0); [done|done|cbn [length] in Hl; lia].
  - pose proof (next_above _ _ _ _ _ _ E) as Hfg. destruct fuel as [|fuel]; [lia|]. cbn [free_find]. unfold ptr.
    rewrite bind_gets, Ep, (proj2 (Z.ltb_ge f bp)), (proj2 (Z.leb_gt g f)) by lia. cbn [andb].
    apply (IH (G1 ++ [(f, m)]) g k fuel); [by rewrite <- app_assoc|lia|cbn in Hl; lia].
Qed.

Lemma free_find_ok f fuel : f ∈ F.*1 -> (2 * length rest < fuel)%nat -> exists p sp F1 F2, place p sp F1 F2 /\ free_find fuel bp f s = Ret p s.
Proof.
  intros (b & -> & Hin)%list_elem_of_fmap Hl. apply list_elem_of_split in Hin as (G1 & G2 & E). destruct b as [f m].
  assert (length G2 <= length rest)%nat by (apply (f_equal length) in E; rewrite length_app in E; cbn in E; lia).
  pose proof (node_ne _ _ _ _ E). cbn [fst]. destruct (decide (f < bp)); [apply (find_up _ _ _ _ _ E); lia|apply (find_wrap _ _ _ _ _ E); lia].
Qed.
End Find.

(** * Inserting a block *)

Lemma join_up_head bp n F : Forall (fun b => 0 <= b.2) F -> exists m F', join_up bp n F = (bp, m) :: F' /\ n <= m /\ (forall b, b ∈ F' -> b ∈ F) /\ (length F' <= length F)%nat.
Proof.
  intros HF. destruct F as [|[a m] F]; cbn [join_up]; [exists n, []; set_solver by lia|]. apply Forall_cons in HF as [Hm _]. cbn in Hm.
  destruct (_ =? _); eexists _, _; (split; [reflexivity|]); (split; [lia|]); (split; [set_solver|cbn; lia]).
Qed.

Lemma join_up_spaced lo lo' bp n F : 0 < n -> lo < bp -> spaced lo' F -> match F with [] => True | (a, _) :: _ => bp + 8 * n <= a end -> spaced lo (join_up bp n F).
Proof.
  intros Hn Hlo Hs HF. destruct F as [|[a m] F]; cbn [join_up]; [cbn; lia|]. destruct Hs as (H1 & H2 & H3). destruct (Z.eqb_spec (bp + 8 * n) a) as [E|E]; cbn [spaced].
  - split_and!; [done|lia|]. by replace (bp + 8 * (n + m)) with (a + 8 * m) by lia.
  - split_and!; try lia. done.
Qed.

Lemma join_down_spaced lo p sp bp m U : lo < p -> 0 <= sp -> p + 8 * sp <= bp -> spaced (p + 8 * sp - 1) ((bp, m) :: U) -> spaced lo (join_down p sp ((bp, m) :: U)).
Proof.
  intros Hlo Hsp Hle (H1 & H2 & H3). cbn [join_down]. destruct (Z.eqb_spec (p + 8 * sp) bp) as [E|E]; cbn [spaced].
  - split_and!; [done|lia|]. by replace (p + 8 * (sp + m)) with (bp + 8 * m) by lia.
  - split_and!; try lia. done.
Qed.

Lemma join_up_units bp n F : bp mod 8 = 0 -> 0 < n -> Forall (fun b => 0 <= b.2) F -> all_units (join_up bp n F) = units (bp, n) ++ all_units F.
Proof.
  intros Hb Hn HF. destruct F as [|[a m] F]; [done|]. cbn [join_up]. apply Forall_cons in HF as [Hm _]. cbn in Hm. destruct (Z.eqb_spec (bp + 8 * n) a) as [<-|E]; [|done].
  rewrite !all_units_cons, units_split by lia. by rewrite <- app_assoc.
Qed.

Lemma join_down_units p sp bp m U : bp mod 8 = 0 -> 0 <= sp -> 0 <= m -> all_units (join_down p sp ((bp, m) :: U)) = units (p, sp) ++ all_units ((bp, m) :: U).
Proof.
  intros Hb Hsp Hm. cbn [join_down]. destruct (Z.eqb_spec (p + 8 * sp) bp) as [<-|E]; [|done]. rewrite !all_units_cons, units_split, <- app_assoc; try lia; [done|].
  rewrite Z.mul_comm, Z.mod_add in Hb by lia. done.
Qed.

Lemma free_up s bp n F : chain (u_w s) base F -> u_w s (bp + 4) = n -> (forall a m, (a, m) ∈ F -> apart bp a) -> 0 <= bp -> 0 < n -> bp + 8 * n < 2 ^ 31 ->
  Forall (fun b => 0 <= b.2 < 2 ^ 31) F -> base < bp ->
  exists w1, (if u32 (bp + HEADER * n) =? hdz base F then
     let! n2 := size (hdz base F) in
     set_size bp (u32 (n + n2)) ;;
     let! nx2 := ptr (hdz base F) in
     set_ptr bp nx2
   else set_ptr bp (hdz base F))%km s = Ret tt (mkUheap w1 (u_freep s) (u_brk s)) /\ chain w1 base (join_up bp n F) /\ (forall x, x <> bp -> x <> bp + 4 -> w1 x = u_w s x).
Proof.
  intros Hc Hn Ha Hb Hp Hlt HF Hba. unfold HEADER. rewrite u32_small by lia.
  assert (Hplain : chain (wset bp (hdz base F) (u_w s)) base ((bp, n) :: F)).
  { cbn [chain]. rewrite wset_same, wset_other by lia. split_and!; [done..|]. eapply chain_frame; [|exact Hc].
    intros a m Hin. destruct (wset_apart bp (hdz base F) (u_w s) a (Ha a m Hin)) as (E1 & E2 & _). done. }
  destruct F as [|[a m] F]; cbn [hdz join_up].
  - rewrite (proj2 (Z.eqb_neq _ _)) by lia. eexists. split; [reflexivity|]. split; [exact Hplain|]. intros x Hx _. by apply wset_other.
  - destruct (Z.eqb_spec (bp + 8 * n) a) as [E|E].
    + destruct Hc as (H1 & H2 & H3). apply Forall_cons in HF as [Hm HF]. cbn in Hm. pose proof (Ha a m ltac:(left)) as Hap. unfold apart in Hap.
      unfold size, set_size, ptr, set_ptr. rewrite bind_gets, bind_modify, bind_gets. cbn [u_w u_freep u_brk]. rewrite H2, u32_small by lia.
      eexists. split; [reflexivity|]. split.
      * cbn [chain u_w]. rewrite wset_same, (wset_other bp _ _ (bp + 4)), wset_same, (wset_other (bp + 4)) by lia. split_and!; [done|done|].
        eapply chain_frame; [|exact H3]. intros a' m' Hin. pose proof (Ha a' m' ltac:(by right)) as Hx. unfold apart in Hx. rewrite !wset_other by lia. done.
      * intros x Hx1 Hx2. cbn [u_w]. by rewrite !wset_other.
    + eexists. split; [reflexivity|]. split; [exact Hplain|]. intros x Hx _. by apply wset_other.
Qed.

Lemma free_down s p sp bp m U : chain (u_w s) base ((bp, m) :: U) -> u_w s (p + 4) = sp -> apart p bp -> (forall a m, (a, m) ∈ U -> apart p a) -> 0 <= p -> 0 <= sp < 2 ^ 31 -> 0 <= m < 2 ^ 31 ->
  p + 8 * sp < 2 ^ 31 ->
  exists w2, (if u32 (p + HEADER * sp) =? bp then
     let! n := size bp in
     set_size p (u32 (sp + n)) ;;
     let! nx := ptr bp in
     set_ptr p nx
   else set_ptr p bp)%km s = Ret tt (mkUheap w2 (u_freep s) (u_brk s)) /\ chain w2 base (join_down p sp ((bp, m) :: U)) /\ (forall x, x <> p -> x <> p + 4 -> w2 x = u_w s x).
Proof.
  intros Hc Hs Hap Ha Hp Hsp Hm Hlt. unfold HEADER. rewrite u32_small by lia. cbn [join_down]. pose proof Hc as (H1 & H2 & H3). destruct (p + 8 * sp =? bp).
  - unfold size, set_size, ptr, set_ptr. rewrite bind_gets, bind_modify, bind_gets. cbn [u_w u_freep u_brk]. rewrite H2, u32_small by lia. unfold apart in Hap.
    eexists. split; [reflexivity|]. split.
    + cbn [chain u_w]. rewrite wset_same, (wset_other p _ _ (p + 4)), wset_same, (wset_other (p + 4)) by lia. split_and!; [done|done|].
      eapply chain_frame; [|exact H3]. intros a' m' Hin. pose proof (Ha a' m' Hin) as Hx. unfold apart in Hx. rewrite !wset_other by lia. done.
    + intros x Hx1 Hx2. cbn [u_w]. by rewrite !wset_other.
  - eexists. split; [reflexivity|]. split.
    + cbn [chain]. rewrite wset_same, wset_other by lia. split; [done|]. split; [done|]. change (chain (wset p bp (u_w s)) base ((bp, m) :: U)). eapply chain_frame; [|exact Hc].
      intros a' m' Hin. assert (Hx : apart p a') by (apply elem_of_cons in Hin as [[= -> ->]|Hin]; [done|by eapply Ha]). unfold apart in Hx. rewrite !wset_other by lia. done.
    + intros x Hx1 _. by apply wset_other.
Qed.

(** * [free] *)

(** The memory of the blocks of [A] is unchanged. *)
Definition keeps A (w w' : Z -> Z) : Prop := forall x, x / 8 ∈ all_units A -> w' x = w x.

Lemma word_unit a : a mod 8 = 0 -> (a + 4) / 8 = a / 8.
Proof. intros Ha. pose proof (div8 a Ha). replace (a + 4) with (4 + a / 8 * 8) by lia. rewrite Z.div_add by lia. done. Qed.

Lemma first_unit a n : 0 < n -> a / 8 ∈ units (a, n).
Proof. intros Hn. apply elem_of_seqZ. cbn. lia. Qed.

(** The headers of free blocks, and [base], are in no allocated block. *)
Lemma free_not_alloc s rest A p x : heap_ok s rest A -> p ∈ base :: rest.*1 -> x = p \/ x = p + 4 -> x / 8 ∉ all_units A.
Proof.
  intros Hok Hp Hx Hin. assert (Hu : x / 8 ∈ all_units (rest ++ A)) by (rewrite all_units_app; set_solver).
  apply elem_of_cons in Hp as [->|Hp].
  - rewrite (ho_units _ _ _ Hok), elem_of_seqZ in Hu. pose proof (ho_base _ _ _ Hok). pose proof (div8 _ (proj1 (ho_align _ _ _ Hok))).
    assert (x / 8 < heap0 / 8) by (apply Z.div_lt_upper_bound; lia). lia.
  - apply list_elem_of_fmap in Hp as ([a n] & -> & Hb). cbn [fst] in *. destruct (heap_block s rest A a n Hok) as (Ha & Hn & _); [set_solver|].
    assert (E : x / 8 = a / 8) by (destruct Hx as [->| ->]; [done|by apply word_unit]).
    assert (Hd : NoDup (all_units (rest ++ A))) by (rewrite (ho_units _ _ _ Hok); apply NoDup_seqZ). rewrite all_units_app in Hd.
    apply NoDup_app in Hd as (_ & Hd & _). apply (Hd (x / 8)); [|done]. rewrite E. eapply unit_in; [exact Hb|by apply first_unit].
Qed.

Lemma keeps_sizes A w w' : Forall (fun b => b.1 mod 8 = 0 /\ 0 < b.2) A -> keeps A w w' -> Forall (fun b => w (b.1 + 4) = b.2) A -> Forall (fun b => w' (b.1 + 4) = b.2) A.
Proof.
  intros Hg Hk Hs. rewrite Forall_forall in *. intros [a n] Hin. destruct (Hg _ Hin) as [Ha Hn]. cbn in *. pose proof (Hs _ Hin) as Es. cbn in Es. rewrite <- Es at 1. apply Hk.
  rewrite word_unit by done. eapply unit_in; [exact Hin|by apply first_unit].
Qed.

Lemma nodes_apart s rest A a b : heap_ok s rest A -> a ∈ base :: rest.*1 -> b ∈ base :: (rest ++ A).*1 -> a <> b -> apart a b.
Proof.
  intros Hok Ha Hb Hne. pose proof (ho_base _ _ _ Hok).
  assert (Hx : forall x, x ∈ (rest ++ A).*1 -> x mod 8 = 0 /\ heap0 <= x).
  { intros x ([c n] & -> & Hin)%list_elem_of_fmap. destruct (heap_block s rest A c n Hok Hin) as (H1 & _ & H2 & _). done. }
  unfold apart. apply elem_of_cons in Ha as [->|Ha], Hb as [->|Hb].
  - done.
  - destruct (Hx b Hb). lia.
  - destruct (Hx a); [rewrite fmap_app; set_solver|]. lia.
  - destruct (Hx b Hb) as [H1 _]. destruct (Hx a) as [H2 _]; [rewrite fmap_app; set_solver|]. pose proof (div8 a H2). pose proof (div8 b H1). lia.
Qed.

(** The sizes of the free list's blocks. *)
Lemma node_size s rest A p sp : heap_ok s rest A -> (p, sp) ∈ (base, 0) :: rest -> 0 < p /\ 0 <= sp < 2 ^ 31 /\ p + 8 * sp < 2 ^ 31.
Proof.
  intros Hok Hin. pose proof base_low. pose proof (ho_base _ _ _ Hok). pose proof (ho_brk _ _ _ Hok). apply elem_of_cons in Hin as [[= -> ->]|Hin]; [lia|].
  destruct (heap_block s rest A p sp Hok) as (_ & ? & ? & ?); [set_solver|]. lia.
Qed.

Lemma spaced_nodup lo F : spaced lo F -> Forall (fun b => 0 <= b.2) F -> NoDup F.*1.
Proof.
  revert lo. induction F as [|[a n] F IH]; intros lo Hs HF; [constructor|]. destruct Hs as (H1 & H2 & H3). apply Forall_cons in HF as [Hn HF]. cbn [fmap list_fmap fst].
  apply NoDup_cons. split; [|by eapply IH]. intros ([b m] & -> & Hin)%list_elem_of_fmap. destruct (spaced_above _ _ _ _ H3 Hin). cbn in *. lia.
Qed.

Lemma split_facts s rest A p sp F1 F2 : heap_ok s rest A -> (base, 0) :: rest = F1 ++ (p, sp) :: F2 ->
  (forall a m, (a, m) ∈ F1 ++ (p, sp) :: F2 -> 0 < a /\ 0 <= m < 2 ^ 31 /\ a + 8 * m < 2 ^ 31) /\
  (forall a m, (a, m) ∈ F1 ++ (p, sp) :: F2 -> a ∈ base :: rest.*1) /\ (forall a m, (a, m) ∈ F1 \/ (a, m) ∈ F2 -> apart p a).
Proof.
  intros Hok EF.
  assert (Hsz : forall a m, (a, m) ∈ F1 ++ (p, sp) :: F2 -> 0 < a /\ 0 <= m < 2 ^ 31 /\ a + 8 * m < 2 ^ 31) by (intros a m Hin; rewrite <- EF in Hin; by apply (node_size s rest A)).
  assert (HN : forall a m, (a, m) ∈ F1 ++ (p, sp) :: F2 -> a ∈ base :: rest.*1).
  { intros a m Hin. change (base :: rest.*1) with (((base, 0) :: rest).*1). rewrite EF. by apply (list_elem_of_fmap_2 fst _ (a, m)). }
  split; [done|]. split; [done|].
  assert (Hnd : NoDup (F1 ++ (p, sp) :: F2).*1).
  { rewrite <- EF. eapply spaced_nodup; [apply (ho_spaced _ _ _ Hok)|]. apply Forall_forall. intros [a m] Hin. rewrite EF in Hin. cbn. destruct (Hsz a m Hin). lia. }
  intros a m Hin. pose proof (HN a m ltac:(destruct Hin; set_solver)) as Ha.
  apply (nodes_apart s rest A p a Hok); [apply (HN p sp); set_solver|rewrite fmap_app; clear -Ha; set_solver|]. intros <-.
  rewrite fmap_app in Hnd. apply NoDup_app in Hnd as (_ & Hd1 & Hd2). cbn in Hd1, Hd2. apply NoDup_cons in Hd2 as [Hd2 _].
  destruct Hin as [Hin|Hin]; apply (list_elem_of_fmap_2 fst) in Hin; cbn in Hin; [apply (Hd1 p); [done|left]|done].
Qed.

Section Free.
Context `{WaitFuel} (s : uheap) (rest A : list (Z * Z)) (bp n : Z).
Context (Hok : heap_ok s rest ((bp, n) :: A)).

Lemma free_block : bp mod 8 = 0 /\ 0 < n /\ heap0 <= bp /\ bp + 8 * n <= u_brk s.
Proof. apply (heap_block s rest ((bp, n) :: A) bp n Hok). set_solver. Qed.

Lemma free_disjoint a m : (a, m) ∈ rest -> a + 8 * m <= bp \/ bp + 8 * n <= a.
Proof.
  intros (R1 & R2 & ->)%list_elem_of_split. apply (heap_disjoint s _ _ a m bp n (R1 ++ R2 ++ A) Hok). rewrite <- app_assoc. cbn. by rewrite <- !Permutation_middle.
Qed.

Lemma free_notin : bp ∉ rest.*1.
Proof.
  intros ([a m] & E & Hin)%list_elem_of_fmap. cbn in E. pose proof (free_disjoint a m Hin). pose proof free_block.
  destruct (heap_block s rest ((bp, n) :: A) a m Hok) as (_ & Hm & _); [set_solver|lia].
Qed.

Lemma free_apart a : a ∈ base :: rest.*1 -> apart bp a.
Proof.
  intros Ha. apply apart_sym, (nodes_apart s rest ((bp, n) :: A) a bp Hok Ha); [rewrite fmap_app; set_solver|]. intros E. rewrite E in Ha.
  apply elem_of_cons in Ha as [Ha|Ha]; [|by apply free_notin]. pose proof free_block. pose proof (ho_base _ _ _ Hok). lia.
Qed.

(** The blocks of the list, and how they lie to the place. *)
Lemma place_facts p sp F1 F2 : place rest bp p sp F1 F2 ->
  (forall a m, (a, m) ∈ F1 ++ (p, sp) :: F2 -> 0 < a /\ 0 <= m < 2 ^ 31 /\ a + 8 * m < 2 ^ 31) /\
  (forall a m, (a, m) ∈ F1 ++ (p, sp) :: F2 -> a ∈ base :: rest.*1) /\ (forall a m, (a, m) ∈ F1 \/ (a, m) ∈ F2 -> apart p a).
Proof. intros (EF & _). by apply (split_facts s rest ((bp, n) :: A)). Qed.

(** What [free] does to the memory once the place is found. *)
Lemma free_mem p sp F1 F2 : place rest bp p sp F1 F2 -> free_find wait_fuel bp (u_freep s) s = Ret p s ->
  exists w', free (bp + 8) s = Ret tt (mkUheap w' p (u_brk s)) /\ chain w' base (F1 ++ join_down p sp (join_up bp n F2)) /\
    (forall x, x <> bp -> x <> bp + 4 -> x <> p -> x <> p + 4 -> w' x = u_w s x).
Proof.
  intros Hpl Ef. pose proof Hpl as (EF & Hp & HF2). destruct (place_facts p sp F1 F2 Hpl) as (Hsz & HN & Hpap).
  pose proof free_block as (Hb & Hn & Hb0 & Hbe). pose proof (ho_brk _ _ _ Hok) as Hbr. pose proof (ho_base _ _ _ Hok) as Hba. pose proof base_low as Hbl.
  pose proof (ho_chain _ _ _ Hok) as Hc. rewrite EF in Hc. apply chain_app in Hc as [Hc1 (Hcp & Hcs & Hc2)].
  destruct (free_up s bp n F2) as (w1 & E1 & C1 & K1); try done.
  { pose proof (ho_sizes _ _ _ Hok) as Hs. apply Forall_cons in Hs as [Hs _]. exact Hs. }
  { intros a m Hin. apply free_apart, (HN a m). set_solver. }
  { lia. } { lia. }
  { apply Forall_forall. intros [a m] Hin. cbn. destruct (Hsz a m); [set_solver|lia]. }
  { lia. }
  destruct (join_up_head bp n F2) as (m & U & EU & Hm & HU & _); [apply Forall_forall; intros [a k] Hin; cbn; destruct (Hsz a k); [set_solver|lia]|].
  rewrite EU in *. assert (Happ : apart p bp) by (apply apart_sym, free_apart, (HN p sp); set_solver).
  assert (Hm31 : 0 <= m < 2 ^ 31).
  { destruct F2 as [|[a k] F2]; cbn in EU; [injection EU as <- <-; lia|]. destruct (Hsz a k) as (_ & Hk & Hk2); [set_solver|].
    destruct (bp + 8 * n =? a) eqn:Ea; injection EU as <- <-; [apply Z.eqb_eq in Ea; lia|lia]. }
  destruct (free_down (mkUheap w1 (u_freep s) (u_brk s)) p sp bp m U) as (w2 & E2 & C2 & K2); try done.
  { cbn. unfold apart in Happ. rewrite K1 by lia. done. }
  { intros a k Hin. apply (Hpap a k). right. by apply HU. }
  { destruct (Hsz p sp); [set_solver|lia]. } { destruct (Hsz p sp); [set_solver|lia]. } { destruct (Hsz p sp); [set_solver|lia]. }
  cbn [u_w u_freep u_brk] in *. exists w2. split; [|split].
  - unfold free. cbv zeta. replace (bp + 8 - HEADER) with bp by (unfold HEADER; lia). rewrite bind_gets. erewrite bind_run by exact Ef. unfold size at 1, ptr at 1. rewrite !bind_gets.
    replace (u_w s (bp + 4)) with n by (pose proof (ho_sizes _ _ _ Hok) as Hs; apply Forall_cons in Hs as [Hs _]; by cbn in Hs).
    rewrite Hcp. erewrite bind_run by exact E1. unfold size at 1. rewrite bind_gets. cbn [u_w].
    replace (w1 (p + 4)) with sp by (unfold apart in Happ; by rewrite K1 by lia). erewrite bind_run by exact E2. reflexivity.
  - apply chain_app. split; [|exact C2]. replace (hdz base _) with p by (cbn; by destruct (p + 8 * sp =? bp)).
    eapply chain_frame; [|exact Hc1]. intros a k Hin. pose proof (free_apart a (HN a k ltac:(set_solver))) as X1. pose proof (Hpap a k ltac:(by left)) as X2. unfold apart in X1, X2.
    rewrite !K2, !K1 by lia. done.
  - intros x X1 X2 X3 X4. rewrite K2, K1 by done. done.
Qed.

Definition good (b : Z * Z) : Prop := b.1 mod 8 = 0 /\ 0 < b.2.

Lemma join_up_good F : Forall good F -> Forall good (join_up bp n F).
Proof.
  intros HF. pose proof free_block as (Hb & Hn & _). destruct F as [|[a m] F]; cbn [join_up]; [by repeat constructor|]. apply Forall_cons in HF as [[Ha Hm] HF]. cbn in Ha, Hm.
  destruct (_ =? _); repeat (constructor; try done). cbn. lia.
Qed.

Lemma join_down_good p sp F : good (p, sp) -> Forall good F -> Forall good (join_down p sp F).
Proof.
  intros [Hp Hs] HF. cbn in Hp, Hs. destruct F as [|[a m] F]; cbn [join_down]; [by repeat constructor|]. apply Forall_cons in HF as [[Ha Hm] HF]. cbn in Ha, Hm.
  destruct (_ =? _); repeat (constructor; try done). cbn. lia.
Qed.

(** The free list after [free], without [base]. *)
Lemma free_list p sp F1 F2 : place rest bp p sp F1 F2 ->
  exists rest', F1 ++ join_down p sp (join_up bp n F2) = (base, 0) :: rest' /\ Forall good rest' /\ spaced (base - 1) ((base, 0) :: rest') /\
    all_units rest' ≡ₚ units (bp, n) ++ all_units rest /\ p ∈ base :: rest'.*1 /\ (exists b, b ∈ rest' /\ n <= b.2) /\ (length rest' <= S (length rest))%nat.
Proof.
  intros Hpl. destruct (place_facts p sp F1 F2 Hpl) as (Hsz & _ & _). destruct Hpl as (EF & Hp & HF2). pose proof free_block as (Hb & Hn & Hb0 & Hbe). pose proof (ho_base _ _ _ Hok).
  assert (Hg : Forall good rest) by (apply Forall_forall; intros b Hin; pose proof (ho_blocks _ _ _ Hok) as Hx; rewrite Forall_forall in Hx; apply Hx; set_solver).
  assert (Hnn : Forall (fun b => 0 <= b.2) F2) by (apply Forall_forall; intros [a m] Hin; destruct (Hsz a m); [set_solver|cbn; lia]).
  pose proof (ho_spaced _ _ _ Hok) as Hs. rewrite EF in Hs. apply spaced_app in Hs as [Hs1 (Hs2 & Hs3 & Hs4)].
  assert (Hps : p + 8 * sp <= bp).
  { destruct F1 as [|[a k] F1]; cbn [app] in EF; injection EF as Eb Es E; [lia|]. destruct (free_disjoint p sp); [rewrite E; set_solver|done|lia]. }
  assert (Hup : match F2 with [] => True | (a, _) :: _ => bp + 8 * n <= a end).
  { destruct F2 as [|[a k] F2]; [done|]. assert (Hin : (a, k) ∈ rest) by (destruct F1 as [|[] F1]; cbn [app] in EF; injection EF as _ _ E; rewrite E; set_solver).
    destruct (free_disjoint a k Hin); [|done]. destruct (Hsz a k); [set_solver|lia]. }
  destruct (join_up_head bp n F2 Hnn) as (m & U & EU & Hm & _ & HlU).
  pose proof (join_up_spaced (p + 8 * sp - 1) _ bp n F2 Hn ltac:(lia) Hs4 Hup) as HsU. pose proof (join_up_units bp n F2 Hb Hn Hnn) as HuU. rewrite EU in *.
  pose proof (join_down_spaced _ p sp bp m U Hs2 Hs3 Hps HsU) as HsD. pose proof (join_down_units p sp bp m U Hb Hs3 ltac:(lia)) as HuD.
  assert (HgU : Forall good F2 -> Forall good ((bp, m) :: U)) by (rewrite <- EU; apply join_up_good).
  assert (Hsp' : spaced (base - 1) (F1 ++ join_down p sp ((bp, m) :: U))) by (by apply spaced_app).
  destruct F1 as [|[b0 k0] R1]; cbn [app] in EF; injection EF as E1 E2 E3.
  - subst p sp F2. exists ((bp, m) :: U). assert (Ej : join_down base 0 ((bp, m) :: U) = (base, 0) :: (bp, m) :: U) by (cbn [join_down]; by rewrite (proj2 (Z.eqb_neq _ _)) by lia).
    cbn [app] in *. rewrite Ej in *. split_and!; [done|auto|done..|by rewrite HuU|set_solver|exists (bp, m); cbn; set_solver by lia|cbn; lia].
  - subst b0 k0 rest. exists (R1 ++ join_down p sp ((bp, m) :: U)). apply Forall_app in Hg as [Hg1 Hg2]. apply Forall_cons in Hg2 as [Hgp Hg2].
    assert (Hj : exists k V, join_down p sp ((bp, m) :: U) = (p, k) :: V /\ (length V <= length U + 1)%nat) by (cbn [join_down]; destruct (_ =? _); eexists _, _; (split; [reflexivity|cbn; lia])).
    destruct Hj as (k & V & Ej & HV).
    split; [done|]. split; [apply Forall_app; split; [done|apply join_down_good; auto]|]. split; [done|]. split; [|split; [|split]].
    + rewrite !all_units_app, HuD, HuU, all_units_cons. by rewrite (Permutation_app_swap_app (units (p, sp)) (units (bp, n))), (Permutation_app_swap_app (all_units R1) (units (bp, n))).
    + rewrite fmap_app, Ej. set_solver.
    + cbn [join_down]. destruct (p + 8 * sp =? bp); [exists (p, sp + m); cbn; split; [set_solver|lia]|exists (bp, m); cbn; split; [set_solver|lia]].
    + rewrite !length_app, Ej. cbn. lia.
Qed.

Lemma free_ok : (2 * length rest < wait_fuel)%nat ->
  exists s' rest', free (bp + 8) s = Ret tt s' /\ heap_ok s' rest' A /\ keeps A (u_w s) (u_w s') /\ u_brk s' = u_brk s /\
    (exists b, b ∈ rest' /\ n <= b.2) /\ (length rest' <= S (length rest))%nat.
Proof.
  intros Hf. pose proof free_block as (Hb & Hn & Hb0 & Hbe). pose proof (ho_base _ _ _ Hok) as Hba.
  destruct (free_find_ok s rest bp (ho_chain _ _ _ Hok) (ho_spaced _ _ _ Hok) ltac:(lia) free_notin (u_freep s) wait_fuel) as (p & sp & F1 & F2 & Hpl & Ef);
    [apply (ho_freep _ _ _ Hok)|done|].
  destruct (free_mem p sp F1 F2 Hpl Ef) as (w' & E & Hc & Hk). destruct (free_list p sp F1 F2 Hpl) as (rest' & Er & Hg & Hs & Hu & Hp & Hx & Hl).
  destruct (place_facts p sp F1 F2 Hpl) as (_ & HN & _). assert (HA : Forall good A) by (pose proof (ho_blocks _ _ _ Hok) as Hx'; apply Forall_app in Hx' as [_ Hx']; by apply Forall_cons in Hx' as [_ Hx']).
  assert (Hkeep : keeps A (u_w s) w').
  { intros x Hx'. assert (Hnp : x <> p /\ x <> p + 4).
    { assert (Hnot : ~ (x = p \/ x = p + 4)); [|tauto]. intros Hxp. apply (free_not_alloc s rest ((bp, n) :: A) p x Hok); [apply (HN p sp); set_solver|done|]. rewrite all_units_cons. set_solver. }
    assert (Hd : NoDup (all_units ((bp, n) :: A))).
    { assert (Hd : NoDup (all_units (rest ++ (bp, n) :: A))) by (rewrite (ho_units _ _ _ Hok); apply NoDup_seqZ). rewrite all_units_app in Hd. by apply NoDup_app in Hd as (_ & _ & ?). }
    rewrite all_units_cons in Hd. apply NoDup_app in Hd as (_ & Hd & _).
    apply Hk; [| |tauto..]; intros ->; apply (Hd (bp / 8)); try (by apply first_unit); [done|by rewrite word_unit in Hx' by done]. }
  exists (mkUheap w' p (u_brk s)), rest'. split_and!; [done| |done..]. rewrite Er in Hc. destruct Hok as [_ _ Hbl _ Hsz Hun Hbs Hal Hbr]. constructor; try done.
  - by apply Forall_app.
  - apply (keeps_sizes A (u_w s)); [done|done|]. by apply Forall_cons in Hsz as [_ Hsz].
  - cbn [u_brk]. rewrite <- Hun, !all_units_app, Hu, all_units_cons, <- app_assoc. by rewrite Permutation_app_swap_app.
Qed.
End Free.

(** * Growing the heap *)

Section Grow.
Context `{WaitFuel}.

(** The new memory is a block of its own once its header is written. *)
Lemma grow_ok s rest A nu : heap_ok s rest A -> 0 < nu -> u_brk s + 8 * nu < 2 ^ 31 ->
  heap_ok (mkUheap (wset (u_brk s + 4) nu (u_w s)) (u_freep s) (u_brk s + 8 * nu)) rest ((u_brk s, nu) :: A) /\ keeps A (u_w s) (wset (u_brk s + 4) nu (u_w s)).
Proof.
  intros Hok Hn Hlt. pose proof Hok as [Hc Hs Hb Hf Hz Hu Hba [Ha1 Ha2] Hbr]. pose proof (div8 _ Ha1) as D1. pose proof (div8 _ Ha2) as D2.
  assert (Hblk : forall a n, (a, n) ∈ rest ++ A -> a + 8 <= u_brk s) by (intros a n Hin; destruct (heap_block s rest A a n Hok Hin) as (_ & ? & _ & ?); lia).
  assert (Hkeep : keeps A (u_w s) (wset (u_brk s + 4) nu (u_w s))).
  { intros x Hx. apply wset_other. intros ->. assert (Hx' : (u_brk s + 4) / 8 ∈ all_units (rest ++ A)) by (rewrite all_units_app; set_solver).
    rewrite Hu, word_unit, elem_of_seqZ in Hx' by done. assert ((u_brk s - heap0) / 8 = u_brk s / 8 - heap0 / 8).
    { replace (u_brk s - heap0) with (u_brk s + (- (heap0 / 8)) * 8) by lia. rewrite Z.div_add by lia. lia. } lia. }
  split; [|done]. constructor; cbn [u_w u_freep u_brk]; try done.
  - eapply chain_frame; [|exact Hc]. intros a n Hin. assert (a + 8 <= u_brk s).
    { apply elem_of_cons in Hin as [[= -> ->]|Hin]; [lia|]. apply (Hblk a n). set_solver. } rewrite !wset_other by lia. done.
  - apply Forall_app in Hb as [Hb1 Hb2]. apply Forall_app. split; [done|]. by constructor.
  - constructor; [cbn; apply wset_same|]. apply Forall_app in Hb as [_ Hb2]. by apply (keeps_sizes A (u_w s)).
  - rewrite all_units_app, all_units_cons, Permutation_app_swap_app, <- all_units_app, Hu. unfold units. cbn [fst snd].
    replace ((u_brk s + 8 * nu - heap0) / 8) with ((u_brk s - heap0) / 8 + nu).
    2:{ replace (u_brk s + 8 * nu - heap0) with ((u_brk s - heap0) + nu * 8) by lia. rewrite Z.div_add by lia. done. }
    rewrite seqZ_app; [|apply Z.div_pos; lia|lia]. replace (heap0 / 8 + (u_brk s - heap0) / 8) with (u_brk s / 8); [apply Permutation_app_comm|].
    replace (u_brk s - heap0) with (u_brk s + (- (heap0 / 8)) * 8) by lia. rewrite Z.div_add by lia. lia.
  - split; [done|]. rewrite Z.mul_comm, Z.mod_add by lia. done.
  - lia.
Qed.

Lemma morecore_ok s rest A nu : heap_ok s rest A -> 0 < nu < 2 ^ 28 -> (2 * length rest < wait_fuel)%nat ->
  let n := 8 * Z.max 4096 nu in
  if brk_grow (u_brk s) n then
    exists s' rest', morecore nu s = Ret (u_freep s') s' /\ heap_ok s' rest' A /\ keeps A (u_w s) (u_w s') /\ u_brk s' = u_brk s + n /\ 0 < u_freep s' /\
      (exists b, b ∈ rest' /\ nu <= b.2) /\ (length rest' <= S (length rest))%nat
  else morecore nu s = Ret 0 s.
Proof.
  intros Hok Hn Hf n. unfold morecore. replace (if nu <? 4096 then 4096 else nu) with (Z.max 4096 nu) by (destruct (Z.ltb_spec nu 4096); lia).
  assert (Ei : i32 (Z.max 4096 nu * HEADER) = n) by (unfold HEADER, n; rewrite i32_small by lia; lia). cbv zeta. rewrite Ei.
  destruct (brk_grow (u_brk s) n) eqn:E.
  - rewrite (bind_run _ _ _ (u_brk s) (mkUheap (u_w s) (u_freep s) (u_brk s + n))) by (unfold sbrk; by rewrite E). pose proof (ho_brk _ _ _ Hok). pose proof (ho_base _ _ _ Hok). pose proof base_low.
    rewrite (proj2 (Z.eqb_neq _ _)) by lia. unfold set_size. rewrite bind_modify. cbn [u_w u_freep u_brk]. pose proof (brk_max _ _ E) as Hm.
    destruct (grow_ok s rest A (Z.max 4096 nu) Hok) as [Hok1 Hk1]; [lia|done|]. fold n in Hok1.
    destruct (free_ok _ _ _ _ _ Hok1 Hf) as (s' & rest' & Ef & Hok' & Hk' & Hb' & (b & Hb1 & Hb2) & Hl'). unfold HEADER. erewrite bind_run by exact Ef.
    exists s', rest'. split_and!; [done|done| |by rewrite Hb'| |exists b; split; [done|lia]|done].
    + intros x Hx. cbn [u_w] in Hk'. rewrite (Hk' x Hx). by apply Hk1.
    + pose proof (ho_freep _ _ _ Hok') as Hp. apply elem_of_cons in Hp as [->|([a m] & -> & Hin)%list_elem_of_fmap]; [lia|]. cbn.
      destruct (heap_block s' rest' A a m Hok') as (_ & _ & ? & _); [set_solver|lia].
  - rewrite (bind_run _ _ _ (-1) s) by (unfold sbrk; by rewrite E). done.
Qed.
End Grow.

(** * [malloc] *)

(** The headers reached from [a]. *)
Fixpoint path (w : Z -> Z) (a : Z) (R : list (Z * Z)) : Prop :=
  match R with
  | [] => True
  | (b, n) :: R => w a = b /\ w (b + 4) = n /\ path w b R
  end.

Definition end_of (a : Z) (R : list (Z * Z)) : Z := match last R with Some (b, _) => b | None => a end.

Lemma end_of_cons a b n R : end_of a ((b, n) :: R) = end_of b R.
Proof. unfold end_of. rewrite last_cons. by destruct (last R) as [[]|]. Qed.

Lemma path_app w R1 : forall a R2, path w a (R1 ++ R2) <-> path w a R1 /\ path w (end_of a R1) R2.
Proof. induction R1 as [|[b n] R1 IH]; intros a R2; cbn [app path]; [tauto|]. rewrite IH, end_of_cons. tauto. Qed.

Lemma chain_path w stop G : forall f m, chain w stop ((f, m) :: G) -> path w f G /\ w (end_of f G) = stop.
Proof.
  induction G as [|[g k] G IH]; intros f m (H1 & H2 & H3); [done|]. destruct (IH g k H3) as [I1 I2]. destruct H3 as (_ & H3 & _).
  rewrite end_of_cons. cbn [path]. cbn in H1. done.
Qed.

(** From any block of the list the pointers lead once around. *)
Lemma ring_path w rest G1 f m G2 : chain w base ((base, 0) :: rest) -> (base, 0) :: rest = G1 ++ (f, m) :: G2 -> path w f (G2 ++ G1 ++ [(f, m)]).
Proof.
  intros Hc E. pose proof Hc as Hc'. rewrite E in Hc'. apply chain_app in Hc' as [Hc1 Hc2]. destruct (chain_path _ _ _ _ _ Hc2) as [P1 P2].
  apply path_app. split; [done|]. destruct G1 as [|[b k] G1]; cbn [app] in E; injection E as E1 E2 E3.
  - subst f m. cbn [app path]. destruct Hc as (_ & Hz & _). done.
  - subst b k. cbn [app path]. destruct Hc as (Hb & Hz & Hr). split; [done|]. split; [done|]. destruct (chain_path _ _ _ _ _ Hc1) as [P3 P4].
    apply path_app. split; [done|]. destruct Hc2 as (_ & Hm & _). done.
Qed.

Section Malloc.
Context `{WaitFuel}.

(** Blocks that are too small and are not where the search began are passed. *)
Lemma scan_skip s nu R1 p sz : forall prev fuel, path (u_w s) prev (R1 ++ [(p, sz)]) -> Forall (fun b => b.2 < nu /\ b.1 <> u_freep s) R1 ->
  malloc_loop (length R1 + fuel) nu prev (u_w s prev) s = malloc_loop fuel nu (end_of prev R1) p s.
Proof.
  induction R1 as [|[b n] R1 IH]; intros prev fuel Hp HR; cbn [app path] in Hp.
  - destruct Hp as (-> & _). done.
  - destruct Hp as (-> & Hn & Hp). apply Forall_cons in HR as [[Hs Hf] HR]. cbn in Hs, Hf. rewrite end_of_cons. cbn [length Nat.add malloc_loop].
    unfold size at 1. rewrite bind_gets, Hn, (proj2 (Z.leb_gt _ _)) by lia. rewrite bind_gets, (proj2 (Z.eqb_neq _ _)) by done. rewrite bind_ret.
    unfold ptr at 1. rewrite bind_gets. by apply IH.
Qed.

(** * Taking a block *)

Lemma spaced_remove L1 : forall lo b L2, spaced lo (L1 ++ b :: L2) -> spaced lo (L1 ++ L2).
Proof.
  induction L1 as [|[a n] L1 IH]; intros lo b L2; cbn [app spaced].
  - destruct b as [p sz]. intros (H1 & H2 & H3). eapply spaced_lo; [|exact H3]. lia.
  - intros (H1 & H2 & H3). eauto.
Qed.

Lemma spaced_shrink L1 : forall lo p sz sz' L2, 0 <= sz' <= sz -> spaced lo (L1 ++ (p, sz) :: L2) -> spaced lo (L1 ++ (p, sz') :: L2).
Proof.
  induction L1 as [|[a n] L1 IH]; intros lo p sz sz' L2 Hs; cbn [app spaced].
  - intros (H1 & H2 & H3). split; [done|]. split; [lia|]. eapply spaced_lo; [|exact H3]. lia.
  - intros (H1 & H2 & H3). eauto.
Qed.

Lemma free_tail rest L1 b p L2 : (base, 0) :: rest = L1 ++ b :: p :: L2 -> exists R1, rest = R1 ++ p :: L2 /\ (base, 0) :: R1 = L1 ++ [b].
Proof.
  destruct L1 as [|x L1]; cbn [app]; intros [= E1 E2]; [exists []; by subst|]. exists (L1 ++ [b]). subst. by rewrite <- app_assoc.
Qed.

(** All of it. *)
Lemma take_all s rest A L1 prev k p nu L2 fuel : heap_ok s rest A -> (base, 0) :: rest = L1 ++ (prev, k) :: (p, nu) :: L2 -> 0 < nu ->
  exists s' rest', malloc_loop fuel nu prev p s = Ret (p + 8) s' /\ heap_ok s' rest' ((p, nu) :: A) /\ keeps A (u_w s) (u_w s') /\ u_brk s' = u_brk s /\ (length rest' <= length rest)%nat.
Proof.
  intros Hok EF Hn. pose proof Hok as [Hc Hs Hb Hf Hz Hu Hba Hal Hbr]. destruct (free_tail _ _ _ _ _ EF) as (R1 & ER & ER1).
  destruct (split_facts s rest A prev k L1 ((p, nu) :: L2) Hok EF) as (_ & HN & Hap).
  pose proof Hc as Hc'. rewrite EF in Hc'. apply chain_app in Hc' as [Hc1 (Hcv & Hck & Hcp & Hcn & Hc2)]. cbn [hdz] in *.
  assert (Hkeep : keeps A (u_w s) (wset prev (hdz base L2) (u_w s))).
  { intros x Hx. apply wset_other. intros ->. apply (free_not_alloc s rest A prev prev Hok); [apply (HN prev k); set_solver|by left|done]. }
  exists (mkUheap (wset prev (hdz base L2) (u_w s)) prev (u_brk s)), (R1 ++ L2). split; [|split; [constructor; cbn [u_w u_freep u_brk]; try done|split; [done|split; [done|]]]].
  - assert (E : malloc_loop fuel nu prev p s = (let! nx := ptr p in set_ptr prev nx ;; set_freep prev ;; ret (p + HEADER))%km s).
    { destruct fuel; cbn [malloc_loop]; unfold size at 1; by rewrite bind_gets, Hcn, Z.leb_refl, Z.eqb_refl. }
    rewrite E. unfold ptr. rewrite bind_gets, Hcp. done.
  - rewrite app_comm_cons, ER1, <- app_assoc. cbn [app]. apply chain_app. split; [|cbn [chain]; split; [apply wset_same|split; [by rewrite wset_other by lia|]]].
    + eapply chain_frame; [|exact Hc1]. intros a m Hin. destruct (wset_apart prev (hdz base L2) (u_w s) a) as (X1 & X2 & _); [apply (Hap a m); by left|done].
    + eapply chain_frame; [|exact Hc2]. intros a m Hin. destruct (wset_apart prev (hdz base L2) (u_w s) a) as (X1 & X2 & _); [apply (Hap a m); right; by right|done].
  - rewrite app_comm_cons, ER1, <- app_assoc. cbn [app]. rewrite EF in Hs. change (L1 ++ (prev, k) :: (p, nu) :: L2) with (L1 ++ [(prev, k)] ++ (p, nu) :: L2) in Hs.
    rewrite app_assoc in Hs. apply spaced_remove in Hs. by rewrite <- app_assoc in Hs.
  - rewrite ER in Hb. rewrite !Forall_app, !Forall_cons in *. tauto.
  - change (base :: (R1 ++ L2).*1) with (((base, 0) :: R1 ++ L2).*1). rewrite app_comm_cons, ER1, !fmap_app. set_solver.
  - constructor; [cbn|apply (keeps_sizes A (u_w s)); [by apply Forall_app in Hb as [_ Hb]|done|done]].
    destruct (wset_apart prev (hdz base L2) (u_w s) p) as (X1 & X2 & _); [apply (Hap p nu); right; left|by rewrite X2].
  - rewrite <- Hu, ER. apply all_units_perm. rewrite <- !app_assoc. apply Permutation_app_head. symmetry. apply Permutation_middle.
  - rewrite ER, !length_app. cbn. lia.
Qed.

(** Its end. *)
Lemma take_end s rest A L1 prev k p sz L2 nu fuel : heap_ok s rest A -> (base, 0) :: rest = L1 ++ (prev, k) :: (p, sz) :: L2 -> 0 < nu < sz ->
  exists s' rest', malloc_loop fuel nu prev p s = Ret (p + 8 * (sz - nu) + 8) s' /\ heap_ok s' rest' ((p + 8 * (sz - nu), nu) :: A) /\ keeps A (u_w s) (u_w s') /\
    u_brk s' = u_brk s /\ (length rest' <= length rest)%nat.
Proof.
  intros Hok EF Hn. pose proof Hok as [Hc Hs Hb Hf Hz Hu Hba Hal Hbr]. destruct (free_tail _ _ _ _ _ EF) as (R1 & ER & ER1).
  assert (Hin : (p, sz) ∈ rest ++ A) by (rewrite ER; set_solver). destruct (heap_block s rest A p sz Hok Hin) as (Hp8 & _ & Hp0 & Hpe).
  set (q := p + 8 * (sz - nu)). set (w' := wset (q + 4) nu (wset (p + 4) (sz - nu) (u_w s))).
  assert (EF' : (base, 0) :: rest = (L1 ++ [(prev, k)]) ++ (p, sz) :: L2) by (by rewrite <- app_assoc).
  destruct (split_facts s rest A p sz _ L2 Hok EF') as (Hsz & HN & Hap).
  pose proof Hc as Hc'. rewrite EF' in Hc'. apply chain_app in Hc' as [Hc1 (Hcp & Hcn & Hc2)]. cbn [hdz] in *.
  assert (Hq8 : q mod 8 = 0) by (unfold q; rewrite Z.mul_comm, Z.mod_add by lia; done).
  assert (Hout : forall a m, (a, m) ∈ L1 ++ [(prev, k)] \/ (a, m) ∈ L2 -> w' a = u_w s a /\ w' (a + 4) = u_w s (a + 4)).
  { intros a m Ha. pose proof (Hap a m Ha) as X1. assert (X2 : a + 8 <= p \/ p + 8 * sz <= a).
    { assert (Hr : (a, m) = (base, 0) \/ (a, m) ∈ R1 ++ L2).
      { destruct Ha as [Ha|Ha]; [|right; set_solver]. rewrite <- ER1 in Ha. apply elem_of_cons in Ha as [->|Ha]; [by left|right; set_solver]. }
      destruct Hr as [[= -> ->]|Hr]; [lia|]. destruct (heap_block s rest A a m Hok) as (_ & Hm & _); [rewrite ER; set_solver|].
      apply list_elem_of_split in Hr as (M1 & M2 & EM). destruct (heap_disjoint s rest A a m p sz (M1 ++ M2 ++ A) Hok) as [Hd|Hd]; [|left; lia|by right].
      rewrite ER, <- app_assoc. cbn. rewrite <- Permutation_middle, app_assoc, EM, <- app_assoc. cbn. rewrite <- Permutation_middle. apply Permutation_swap. }
    unfold w'. unfold apart in X1. unfold q in *. rewrite !wset_other by lia. done. }
  assert (Hkeep : keeps A (u_w s) w').
  { assert (Hd : NoDup (all_units (rest ++ A))) by (rewrite Hu; apply NoDup_seqZ). rewrite all_units_app in Hd. apply NoDup_app in Hd as (_ & Hd & _).
    assert (Hun : forall j, 0 <= j < sz -> p / 8 + j ∉ all_units A). { intros j Hj. apply Hd. eapply unit_in; [rewrite ER; apply elem_of_app; right; left|]. apply elem_of_seqZ. cbn. lia. }
    intros x Hx. unfold w'. rewrite !wset_other; [done| |]; intros ->; rewrite word_unit in Hx by done.
    - apply (Hun 0); [lia|by rewrite Z.add_0_r].
    - apply (Hun (sz - nu)); [lia|]. unfold q in Hx. rewrite Z.mul_comm, Z.div_add in Hx by lia. done. }
  exists (mkUheap w' prev (u_brk s)), (R1 ++ (p, sz - nu) :: L2).
  split; [|split; [constructor; cbn [u_w u_freep u_brk]; try done|split; [done|split; [done|]]]].
  - destruct (Hsz p sz) as (_ & Hs31 & _); [set_solver|]. assert (E : malloc_loop fuel nu prev p s = (set_size p (u32 (sz - nu)) ;;
      set_size (p + HEADER * u32 (sz - nu)) nu ;; set_freep prev ;; ret (p + HEADER * u32 (sz - nu) + HEADER))%km s).
    { destruct fuel; cbn [malloc_loop]; unfold size at 1; by rewrite bind_gets, Hcn, (proj2 (Z.leb_le _ _)), (proj2 (Z.eqb_neq _ _)) by lia. }
    rewrite E, u32_small by lia. reflexivity.
  - rewrite app_comm_cons, ER1. apply chain_app. split; [|cbn [chain]; split; [|split]].
    + cbn [hdz]. eapply chain_frame; [|exact Hc1]. intros a m Ha. apply (Hout a m). by left.
    + unfold w', q. rewrite !wset_other by lia. done.
    + unfold w', q. rewrite wset_other, wset_same by lia. done.
    + eapply chain_frame; [|exact Hc2]. intros a m Ha. apply (Hout a m). by right.
  - rewrite app_comm_cons, ER1. rewrite EF' in Hs. eapply spaced_shrink; [|exact Hs]. lia.
  - rewrite ER in Hb. rewrite !Forall_app, !Forall_cons in *. cbn in *. split_and!; try tauto; lia.
  - change (base :: (R1 ++ (p, sz - nu) :: L2).*1) with (((base, 0) :: R1 ++ (p, sz - nu) :: L2).*1). rewrite app_comm_cons, ER1, !fmap_app. set_solver.
  - constructor; [cbn; apply wset_same|apply (keeps_sizes A (u_w s)); [by apply Forall_app in Hb as [_ Hb]|done|done]].
  - rewrite <- Hu, ER. rewrite !all_units_app, !all_units_cons.
    replace (units (p, sz)) with (units (p, sz - nu) ++ units (q, nu)) by (unfold q; rewrite <- units_split by lia; do 2 f_equal; lia).
    rewrite <- !app_assoc. apply Permutation_app_head, Permutation_app_head. apply Permutation_app_swap_app.
  - rewrite ER, !length_app. cbn. lia.
Qed.

(** What a successful [malloc] gives: a block of [nu] units, the others as they were, and at most [k] free blocks. *)
Definition allocated s A nu (k : nat) (r : Z) (s' : uheap) : Prop :=
  0 < r /\ keeps A (u_w s) (u_w s') /\ exists rest', heap_ok s' rest' ((r - 8, nu) :: A) /\ (length rest' <= k)%nat.

Lemma take_ok s rest A L1 prev k p sz L2 nu fuel : heap_ok s rest A -> (base, 0) :: rest = L1 ++ (prev, k) :: (p, sz) :: L2 -> 0 < nu <= sz ->
  exists r s', malloc_loop fuel nu prev p s = Ret r s' /\ allocated s A nu (length rest) r s'.
Proof.
  intros Hok EF Hn. destruct (free_tail _ _ _ _ _ EF) as (R1 & ER & _). pose proof base_low. pose proof (ho_base _ _ _ Hok).
  destruct (heap_block s rest A p sz Hok) as (_ & _ & Hp & _); [rewrite ER; set_solver|]. destruct (decide (sz = nu)) as [->|Hne].
  - destruct (take_all s rest A L1 prev k p nu L2 fuel Hok EF) as (s' & rest' & E & Hok' & Hk & Hb & Hl); [lia|]. exists (p + 8), s'. split; [done|].
    split; [lia|]. split; [done|]. exists rest'. rewrite Z.add_simpl_r. split; [done|lia].
  - destruct (take_end s rest A L1 prev k p sz L2 nu fuel Hok EF) as (s' & rest' & E & Hok' & Hk & Hb & Hl); [lia|]. exists (p + 8 * (sz - nu) + 8), s'. split; [done|].
    split; [lia|]. split; [done|]. exists rest'. rewrite Z.add_simpl_r. split; [done|lia].
Qed.

(** The search from [freep]: the first block that is large enough, or back at [freep]. *)
Lemma ring_search (nu : Z) (R : list (Z * Z)) :
  (exists R1 p sz R2, R = R1 ++ (p, sz) :: R2 /\ nu <= sz /\ Forall (fun b => b.2 < nu) R1) \/ Forall (fun b => b.2 < nu) R.
Proof.
  induction R as [|[a n] R IH]; [by right|]. destruct (decide (nu <= n)) as [Hn|Hn]; [left; by exists [], a, n, R|].
  destruct IH as [(R1 & p & sz & R2 & -> & H1 & H2)|IH]; [left|right].
  - exists ((a, n) :: R1), p, sz, R2. split; [done|]. split; [done|]. constructor; [cbn; lia|done].
  - constructor; [cbn; lia|done].
Qed.

(** Only one block of the list points to a block other than [base]. *)
Lemma pred_unique s rest A prev p sz : heap_ok s rest A -> prev ∈ base :: rest.*1 -> u_w s prev = p -> (p, sz) ∈ rest ->
  exists L1 k L2, (base, 0) :: rest = L1 ++ (prev, k) :: (p, sz) :: L2.
Proof.
  intros Hok Hp Hw Hin. pose proof (ho_chain _ _ _ Hok) as Hc. change (base :: rest.*1) with (((base, 0) :: rest).*1) in Hp.
  apply list_elem_of_fmap in Hp as ([a k] & Ea & Ha). cbn in Ea. subst a. apply list_elem_of_split in Ha as (L1 & L2 & E). rewrite E in Hc. apply chain_app in Hc as [_ (Hcv & _ & Hc2)].
  destruct (heap_block s rest A p sz Hok) as (_ & _ & Hp0 & _); [set_solver|]. pose proof (ho_base _ _ _ Hok).
  destruct L2 as [|[b m] L2]; cbn [hdz] in Hcv; [lia|]. assert (b = p) as -> by congruence. exists L1, k, L2. rewrite E. do 2 f_equal. f_equal. f_equal.
  destruct Hc2 as (_ & Hm & _). apply list_elem_of_split in Hin as (M1 & M2 & EM). pose proof (ho_chain _ _ _ Hok) as Hc. rewrite EM, app_comm_cons in Hc.
  apply chain_app in Hc as [_ (_ & Hs & _)]. congruence.
Qed.

Lemma freep_split s rest A : heap_ok s rest A -> exists G1 m G2, (base, 0) :: rest = G1 ++ (u_freep s, m) :: G2 /\
  path (u_w s) (u_freep s) (G2 ++ G1 ++ [(u_freep s, m)]) /\ Forall (fun b => b.1 <> u_freep s) (G2 ++ G1) /\ length (G2 ++ G1) = length rest.
Proof.
  intros Hok. pose proof (ho_freep _ _ _ Hok) as Hf. change (base :: rest.*1) with (((base, 0) :: rest).*1) in Hf. apply list_elem_of_fmap in Hf as ([f m] & Ef & Hf). cbn in Ef.
  apply list_elem_of_split in Hf as (G1 & G2 & E). exists G1, m, G2. rewrite Ef. split; [done|]. split; [eapply ring_path; [apply (ho_chain _ _ _ Hok)|done]|]. split.
  - destruct (split_facts s rest A f m G1 G2 Hok E) as (_ & _ & Hap). apply Forall_forall. intros [a n] Ha. cbn. pose proof (Hap a n) as X. unfold apart in X.
    apply elem_of_app in Ha. intros ->. destruct X; [tauto|lia|lia].
  - apply (f_equal length) in E. rewrite length_app in E |- *. cbn in E. lia.
Qed.

Lemma ring_prefix (G R1 R2 : list (Z * Z)) x y : G ++ [x] = R1 ++ y :: R2 -> R1 = take (length R1) G.
Proof.
  intros E. assert (length R1 <= length G)%nat by (apply (f_equal length) in E; rewrite !length_app in E; cbn in E; lia).
  rewrite <- (take_app_le G [x]) by done. rewrite E. by rewrite take_app_length.
Qed.

Lemma end_of_in f R : end_of f R = f \/ end_of f R ∈ R.*1.
Proof.
  unfold end_of. destruct (last R) as [[b n]|] eqn:E; [right|by left]. apply last_Some in E as (R' & ->). rewrite fmap_app. set_solver.
Qed.

(** With a block that is large enough in the list, the search finds one. *)
Lemma malloc_fit s rest A nu fuel : heap_ok s rest A -> 0 < nu -> (exists b, b ∈ rest /\ nu <= b.2) -> (length rest <= fuel)%nat ->
  exists r s', malloc_loop fuel nu (u_freep s) (u_w s (u_freep s)) s = Ret r s' /\ allocated s A nu (length rest) r s'.
Proof.
  intros Hok Hn (b & Hb & Hbn) Hf. destruct (freep_split s rest A Hok) as (G1 & m & G2 & E & Hp & Hne & Hlen). rewrite app_assoc in Hp.
  assert (HR : forall c, c ∈ (G2 ++ G1) ++ [(u_freep s, m)] <-> c ∈ (base, 0) :: rest) by (intros c; rewrite E; set_solver).
  destruct (ring_search nu ((G2 ++ G1) ++ [(u_freep s, m)])) as [(R1 & p & sz & R2 & ER & Hsz & Hsm)|Hsm].
  2:{ rewrite Forall_forall in Hsm. specialize (Hsm b). rewrite HR in Hsm. specialize (Hsm ltac:(by right)). lia. }
  pose proof (ring_prefix _ _ _ _ _ ER) as EP. rewrite ER in Hp. assert (Hp' : path (u_w s) (u_freep s) (R1 ++ [(p, sz)])).
  { change ((p, sz) :: R2) with ([(p, sz)] ++ R2) in Hp. rewrite app_assoc in Hp. by apply path_app in Hp as [Hp _]. }
  assert (HlR : (length R1 <= length rest)%nat) by (rewrite EP, length_take; lia).
  replace fuel with (length R1 + (fuel - length R1))%nat by lia. erewrite (scan_skip s nu R1 p sz); [|exact Hp'|].
  2:{ apply Forall_and. split; [done|]. rewrite EP. by apply Forall_take. }
  apply path_app in Hp' as [_ (Hw & _)]. assert (Hin : (p, sz) ∈ rest).
  { assert (Hin : (p, sz) ∈ (base, 0) :: rest) by (apply HR; rewrite ER; set_solver). apply elem_of_cons in Hin as [[= -> ->]|]; [lia|done]. }
  destruct (pred_unique s rest A (end_of (u_freep s) R1) p sz Hok) as (L1 & k & L2 & EL); [|done|done|].
  - destruct (end_of_in (u_freep s) R1) as [->|Hx]; [apply (ho_freep _ _ _ Hok)|]. change (base :: rest.*1) with (((base, 0) :: rest).*1).
    apply list_elem_of_fmap in Hx as ([a n] & -> & Hx). apply (list_elem_of_fmap_2 fst _ (a, n)), HR. rewrite ER. set_solver.
  - eapply take_ok; [done|exact EL|lia].
Qed.

(** Without one, it comes back to [freep]. *)
Lemma malloc_nofit s rest A nu fuel : heap_ok s rest A -> 0 < nu -> Forall (fun b => b.2 < nu) rest -> (length rest <= fuel)%nat ->
  exists prev, malloc_loop fuel nu (u_freep s) (u_w s (u_freep s)) s = malloc_loop (fuel - length rest) nu prev (u_freep s) s /\ u_w s (u_freep s + 4) < nu.
Proof.
  intros Hok Hn Hsm Hf. destruct (freep_split s rest A Hok) as (G1 & m & G2 & E & Hp & Hne & Hlen). rewrite app_assoc in Hp.
  assert (HR : Forall (fun b => b.2 < nu) ((base, 0) :: rest)) by (constructor; [cbn; lia|done]). rewrite E in HR. apply Forall_app in HR as [HG1 HG2]. apply Forall_cons in HG2 as [Hm HG2].
  exists (end_of (u_freep s) (G2 ++ G1)). split.
  - replace fuel with (length (G2 ++ G1) + (fuel - length rest))%nat at 1 by lia. eapply scan_skip; [exact Hp|]. apply Forall_and. split; [by apply Forall_app|done].
  - apply path_app in Hp as [_ (_ & -> & _)]. exact Hm.
Qed.

Lemma malloc_loop_ok s rest A nu : heap_ok s rest A -> 0 < nu < 2 ^ 28 -> (2 * length rest + 2 <= wait_fuel)%nat ->
  exists r s', malloc_loop wait_fuel nu (u_freep s) (u_w s (u_freep s)) s = Ret r s' /\
    (allocated s A nu (S (length rest)) r s' \/ r = 0 /\ s' = s /\ Forall (fun b => b.2 < nu) rest /\ brk_grow (u_brk s) (8 * Z.max 4096 nu) = false).
Proof.
  intros Hok Hn Hf. destruct (decide (Forall (fun b => b.2 < nu) rest)) as [Hsm|Hbig].
  2:{ destruct (malloc_fit s rest A nu wait_fuel Hok) as (r & s' & E & Ha); [lia| |lia|].
      2:{ exists r, s'. split; [done|]. left. destruct Ha as (Hr & Hk & rest' & Hok' & Hl). split; [done|]. split; [done|]. exists rest'. split; [done|lia]. }
      apply not_Forall_Exists in Hbig; [|solve_decision]. apply Exists_exists in Hbig as (b & Hb & Hbn). exists b. split; [done|cbn in Hbn; lia]. }
  destruct (malloc_nofit s rest A nu wait_fuel Hok) as (prev & E & Hm); [lia|done|lia|]. rewrite E.
  destruct (wait_fuel - length rest)%nat as [|fuel] eqn:Ef; [lia|]. cbn [malloc_loop]. unfold size at 1. rewrite bind_gets, (proj2 (Z.leb_gt _ _)) by lia.
  rewrite bind_gets, Z.eqb_refl. pose proof (morecore_ok s rest A nu Hok Hn ltac:(lia)) as Hmc. cbv zeta in Hmc. destruct (brk_grow _ _) eqn:Eg.
  - destruct Hmc as (s1 & rest1 & E1 & Hok1 & Hk1 & Hb1 & Hf1 & Hx & Hl1).
    rewrite (bind_run _ _ _ (Some (u_freep s1)) s1) by (erewrite bind_run by exact E1; by rewrite (proj2 (Z.eqb_neq _ _)) by lia).
    unfold ptr at 1. rewrite bind_gets. destruct (malloc_fit s1 rest1 A nu fuel Hok1) as (r & s' & E2 & Ha); [lia|done|lia|]. exists r, s'. split; [done|]. left.
    destruct Ha as (Hr & Hk2 & rest' & Hok' & Hl'). split; [done|]. split; [intros x Hx'; rewrite (Hk2 x Hx'); by apply Hk1|]. exists rest'. split; [done|lia].
  - rewrite (bind_run _ _ _ None s) by (by erewrite bind_run by exact Hmc). exists 0, s. split; [done|]. right. done.
Qed.
End Malloc.
End Heap.

(** * The theorems *)

(** Before the first [malloc] there is no list. *)
Definition heap_state `{Brk} (heap0 : Z) (s : uheap) (rest A : list (Z * Z)) : Prop :=
  heap_ok heap0 s rest A \/
  u_freep s = 0 /\ rest = [] /\ A = [] /\ u_brk s = heap0 /\ base + 8 <= heap0 < 2 ^ 31 /\ heap0 mod 8 = 0.

Section Theorems.
Context `{Brk} `{WaitFuel} (heap0 : Z).
Implicit Types (s : uheap) (rest A : list (Z * Z)).

Lemma heap_ok_perm s rest A A' : A ≡ₚ A' -> heap_ok heap0 s rest A -> heap_ok heap0 s rest A'.
Proof. intros HA [Hc Hs Hb Hf Hz Hu Hba Hal Hbr]. constructor; try done; try (by rewrite <- HA). rewrite <- Hu. apply all_units_perm. by rewrite HA. Qed.

(** The first call makes a list of [base] alone. *)
Lemma malloc_start s rest A nbytes : heap_state heap0 s rest A ->
  exists s1, heap_ok heap0 s1 rest A /\ keeps A (u_w s) (u_w s1) /\ u_brk s1 = u_brk s /\
    malloc nbytes s = malloc_loop wait_fuel (u32 (nbytes + HEADER - 1) / HEADER + 1) (u_freep s1) (u_w s1 (u_freep s1)) s1.
Proof.
  intros [Hok|(Hf & -> & -> & Hb & Hba & Hal)]; unfold malloc; cbv zeta; rewrite bind_gets.
  - exists s. split_and!; [done|done|done|]. pose proof (ho_freep _ _ _ _ Hok) as Hp. pose proof base_low. pose proof (ho_base _ _ _ _ Hok).
    rewrite (proj2 (Z.eqb_neq _ _)); [reflexivity|]. apply elem_of_cons in Hp as [->|([a m] & -> & Hin)%list_elem_of_fmap]; [lia|]. cbn.
    destruct (heap_block heap0 s rest A a m Hok) as (_ & _ & ? & _); [set_solver|lia].
  - rewrite Hf, Z.eqb_refl. eexists (mkUheap (wset (base + 4) 0 (wset base base (u_w s))) base (u_brk s)). split; [|split; [intros x Hx; by apply not_elem_of_nil in Hx|split; [done|reflexivity]]].
    pose proof base_low. constructor; cbn [u_w u_freep u_brk app]; try done.
    + cbn [chain]. rewrite wset_other, !wset_same by lia. done.
    + cbn. lia.
    + set_solver.
    + rewrite Hb, Z.sub_diag. done.
    + lia.
    + by rewrite Hb.
    + lia.
Qed.

(** C18: [malloc] always returns. Either it returns the address of a fresh block: aligned, with room for the bytes asked
    for, inside the heap, apart from every block allocated before; or it returns null, no free block is large enough
    and the kernel has refused to grow the process. In both cases the free and the allocated blocks together are still the
    whole heap, each unit in exactly one of them, and no byte of a block allocated before has changed. *)
Theorem malloc_correct s rest A nbytes : heap_state heap0 s rest A -> 0 <= nbytes < 2 ^ 31 - 16 -> (2 * length rest + 2 <= wait_fuel)%nat ->
  exists r s', malloc nbytes s = Ret r s' /\ keeps A (u_w s) (u_w s') /\
    let nu := (nbytes + 7) / 8 + 1 in
    ((exists rest', heap_ok heap0 s' rest' ((r - 8, nu) :: A) /\ (length rest' <= S (length rest))%nat /\ r mod 8 = 0 /\ heap0 < r /\ r + nbytes <= u_brk s' /\
        Forall (fun b => b.1 + 8 * b.2 <= r - 8 \/ r + nbytes <= b.1) A) \/
     (r = 0 /\ heap_ok heap0 s' rest A /\ Forall (fun b => b.2 < nu) rest /\ brk_grow (u_brk s) (8 * Z.max 4096 nu) = false)).
Proof.
  intros Hst Hn Hf. cbv zeta. set (nu := (nbytes + 7) / 8 + 1). destruct (malloc_start s rest A nbytes Hst) as (s1 & Hok1 & Hk1 & Hb1 & E1). unfold HEADER in E1.
  replace (nbytes + 8 - 1) with (nbytes + 7) in E1 by lia. rewrite u32_small in E1 by lia. fold nu in E1.
  assert (Hd : 8 * ((nbytes + 7) / 8) <= nbytes + 7 < 8 * ((nbytes + 7) / 8) + 8) by (pose proof (Z.div_mod (nbytes + 7) 8 ltac:(lia)); pose proof (Z.mod_pos_bound (nbytes + 7) 8 ltac:(lia)); lia).
  destruct (malloc_loop_ok heap0 s1 rest A nu Hok1) as (r & s' & E & Hr); [unfold nu; lia|done|]. rewrite E1. exists r, s'. split; [done|].
  destruct Hr as [(Hr & Hk & rest' & Hok' & Hl)|(-> & -> & Hsm & Hg)].
  - split; [intros x Hx; rewrite (Hk x Hx); by apply Hk1|]. left. exists rest'.
    destruct (heap_block heap0 s' rest' _ (r - 8) nu Hok') as (Ha & _ & Hlo & Hhi); [set_solver|]. pose proof (div8 _ Ha).
    split_and!; [done|done| |lia|unfold nu in *; lia|].
    + replace r with ((r - 8) / 8 * 8 + 1 * 8) by lia. rewrite Z.mod_add, Z.mod_mul by lia. done.
    + apply Forall_forall. intros [b m] Hin. apply list_elem_of_split in Hin as (A1 & A2 & EA). cbn.
      destruct (heap_disjoint heap0 s' rest' _ (r - 8) nu b m (rest' ++ A1 ++ A2) Hok') as [Hx|Hx]; [|right; unfold nu in *; lia|by left].
      rewrite <- Permutation_middle, EA. by rewrite <- !Permutation_middle.
  - split; [done|]. right. rewrite <- Hb1. done.
Qed.

(** C19: [free] of an allocated block always returns: the block is free again, merged with its neighbours if they are free,
    so that still no two free blocks touch, and no byte of another allocated block has changed. *)
Theorem free_correct s rest A ap n : heap_ok heap0 s rest A -> (ap - 8, n) ∈ A -> (2 * length rest < wait_fuel)%nat ->
  exists s' rest' A', free ap s = Ret tt s' /\ A ≡ₚ (ap - 8, n) :: A' /\ heap_ok heap0 s' rest' A' /\ keeps A' (u_w s) (u_w s') /\ u_brk s' = u_brk s /\
    (length rest' <= S (length rest))%nat.
Proof.
  intros Hok Hin Hf. apply list_elem_of_split in Hin as (A1 & A2 & EA). assert (HA : A ≡ₚ (ap - 8, n) :: A1 ++ A2) by (rewrite EA; by rewrite Permutation_middle).
  destruct (free_ok heap0 s rest (A1 ++ A2) (ap - 8) n) as (s' & rest' & E & Hok' & Hk & Hb & _ & Hl); [by eapply heap_ok_perm|done|].
  exists s', rest', (A1 ++ A2). split_and!; try done. by replace (ap - 8 + 8) with ap in E by lia.
Qed.
(** A request of almost 4 GB wraps around: the block that is returned has no room at all. *)
Theorem malloc_overflow s rest A nbytes : heap_state heap0 s rest A -> 2 ^ 32 - 7 <= nbytes < 2 ^ 32 -> (2 * length rest + 2 <= wait_fuel)%nat ->
  (exists b, b ∈ rest) \/ brk_grow (u_brk s) 32768 = true ->
  exists r s' rest', malloc nbytes s = Ret r s' /\ 0 < r /\ heap_ok heap0 s' rest' ((r - 8, 1) :: A).
Proof.
  intros Hst Hn Hf Hroom. destruct (malloc_start s rest A nbytes Hst) as (s1 & Hok1 & Hk1 & Hb1 & E1).
  assert (Eu : u32 (nbytes + HEADER - 1) / HEADER + 1 = 1).
  { unfold u32, HEADER. replace (nbytes + 8 - 1) with (nbytes + 7 - 2 ^ 32 + 1 * 2 ^ 32) by lia. rewrite Z.mod_add, Z.mod_small by lia. rewrite Z.div_small by lia. done. }
  rewrite Eu in E1. destruct (malloc_loop_ok heap0 s1 rest A 1 Hok1) as (r & s' & E & [(Hr & _ & rest' & Hok' & _)|(_ & _ & Hsm & Hg)]); [lia|done| |].
  - exists r, s', rest'. rewrite E1. done.
  - exfalso. rewrite Hb1 in Hg. destruct Hroom as [[[a m] Hb]|Hb]; [|change (8 * Z.max 4096 1) with 32768 in Hg; congruence].
    rewrite Forall_forall in Hsm. specialize (Hsm _ Hb). cbn in Hsm. destruct (heap_block heap0 s1 rest A a m Hok1) as (_ & ? & _); [set_solver|lia].
Qed.
End Theorems.

(** * A process with a heap of two blocks *)

Definition grow_to (limit : Z) (b n : Z) : bool := (b + n <? limit) && (limit <=? 2 ^ 31).

Lemma grow_to_max limit b n : grow_to limit b n = true -> b + n < 2 ^ 31.
Proof. unfold grow_to. rewrite andb_true_iff, Z.ltb_lt, Z.leb_le. lia. Qed.

#[export] Instance demo_brk : Brk := {
  base := 4000;
  brk_grow := grow_to 1000000;
  base_low := eq_refl;
  brk_max := grow_to_max 1000000
}.

Definition demo_heap : uheap := mkUheap (fun _ => 0) 0 8192.

Lemma malloc_correct_witness : exists r s', @malloc demo_brk 2%nat 100 demo_heap = Ret r s' /\ exists rest', heap_ok 8192 s' rest' [(r - 8, 14)].
Proof.
  destruct (@malloc_correct demo_brk 2%nat 8192 demo_heap [] [] 100) as (r & s' & E & _ & [(rest' & Hok & _)|(_ & _ & _ & Hg)]).
  - right. split_and!; try done.
  - lia.
  - vm_compute. lia.
  - exists r, s'. split; [exact E|]. exists rest'. exact Hok.
  - exfalso. vm_compute in Hg. discriminate Hg.
Defined.

(** One block of two units is allocated, the other of one unit is free. *)
Definition demo_heap2 : uheap := mkUheap (fun a => if a =? 4000 then 8192 else if a =? 8192 then 4000 else if a =? 8196 then 1 else if a =? 8204 then 2 else 0) 4000 8216.

Lemma demo_heap2_ok : heap_ok 8192 demo_heap2 [(8192, 1)] [(8200, 2)].
Proof.
  constructor; cbn [u_w u_freep u_brk demo_heap2].
  - by vm_compute.
  - cbn [spaced]. change base with 4000. lia.
  - by repeat constructor.
  - set_solver.
  - by repeat constructor.
  - by vm_compute.
  - by vm_compute.
  - by vm_compute.
  - lia.
Qed.

Lemma free_correct_witness : exists s' rest', @free 3%nat 8208 demo_heap2 = Ret tt s' /\ heap_ok 8192 s' rest' [].
Proof.
  destruct (@free_correct demo_brk 3%nat 8192 demo_heap2 [(8192, 1)] [(8200, 2)] 8208 2) as (s' & rest' & A' & E & HA & Hok & _).
  - exact demo_heap2_ok.
  - apply list_elem_of_here.
  - vm_compute. lia.
  - exists s', rest'. split; [exact E|]. apply Permutation_length in HA as HL. destruct A' as [|b A']; [exact Hok|discriminate HL].
Defined.
