(* ===== verification/Trap.v ===== *)
(** The system call table and dispatch ([syscall.c]) and the trap handler ([trap.c]). *)

From S2P Require Import Prelude Bytes KString Params State Spinlock Cprintf Kalloc Vm Sched Sleeplock Bio Block Log LogTx Fs Pipe File Proc Args Queue Container Sysproc Exec Sysfile Open Console.
From stdpp Require Import base list gmap strings.
From Stdlib Require Import ZArith Lia.
Local Open Scope Z_scope.
Local Open Scope km_scope.

(** What the devices hold when an interrupt is taken: the characters [kbdgetc] and
    [uartgetc] return before a negative value, and [%cr2]. *)
Class Devices : Type := mkDevices {
  kbd_chars : list Z;
  uart_in : list Z;
  cr2 : Z
}.

Section Trap.
Context {WF : WaitFuel} {LK : Linked} {IN : Indet} {DV : Devices}.

(** [syscalls[]] *)
Definition syscalls : list (Z * K Z) :=
  [(SYS_fork, sys_fork); (SYS_exit, sys_exit); (SYS_wait, sys_wait); (SYS_pipe, sys_pipe);
   (SYS_read, sys_read); (SYS_kill, sys_kill); (SYS_exec, sys_exec); (SYS_fstat, sys_fstat);
   (SYS_chdir, sys_chdir); (SYS_dup, sys_dup); (SYS_getpid, sys_getpid); (SYS_sbrk, sys_sbrk);
   (SYS_sleep, sys_sleep); (SYS_uptime, sys_uptime); (SYS_open, sys_open); (SYS_write, sys_write);
   (SYS_mknod, sys_mknod); (SYS_unlink, sys_unlink); (SYS_link, sys_link); (SYS_mkdir, sys_mkdir);
   (SYS_close, sys_close); (SYS_halt, sys_halt); (SYS_toggle, sys_toggle); (SYS_ps, sys_ps);
   (SYS_create_container, sys_create_container); (SYS_destroy_container, sys_destroy_container);
   (SYS_join_container, sys_join_container); (SYS_leave_container, sys_leave_container);
   (SYS_send, sys_send); (SYS_recv, sys_recv); (SYS_getcid, sys_getcid);
   (SYS_scheduler_log, sys_scheduler_log)].

Fixpoint find_call (num : Z) (l : list (Z * K Z)) : option (K Z) :=
  match l with
  | [] => None
  | (n, f) :: l' => if n =? num then Some f else find_call num l'
  end.

Definition set_eax (p : nat) (v : Z) : K unit :=
  updproc p (fun pr => set_p_tf (set_tf_eax (u32 v) (p_tf pr)) pr).

Definition syscall : K unit :=
  let! h := gets (fun s => ms_syscallhappened (k_msg s)) in
  when (h =? 0) (init_queues ;; updmsg (set_ms_syscallhappened 1)) ;;
  let! p := curproc "syscall" in
  let! pr := getproc p in
  let num := i32 (tf_eax (p_tf pr)) in
  match find_call num syscalls with
  | Some f => let! r := f in set_eax p r
  | None =>
      cprintf (str "%d %s: unknown sys call %d" ++ [NL])
        [A_int (p_pid pr); A_str (Some (upto_nul (p_name pr))); A_int num] ;;
      set_eax p (-1)
  end.

Definition killed (p : nat) : K bool :=
  let! pr := getproc p in ret (negb (p_killed pr =? 0)).

Definition timer_tick : K unit :=
  let! i := cpuid in
  when (Nat.eqb i 0)
    (acquire L_ticks ;;
     modify (fun s => set_k_ticks (u32 (k_ticks s + 1)) s) ;;
     wakeup Ch_ticks ;;
     release L_ticks).

(** A trap taken in the kernel. *)
Definition unexpected (tf : trapframe) : K unit :=
  let! i := cpuid in
  cprintf (str "unexpected trap %d from cpu %d eip %x (cr2=0x%x)" ++ [NL])
    [A_int (tf_trapno tf); A_int (Z.of_nat i); A_int (tf_eip tf); A_int cr2] ;;
  panic "trap".

(** The [default] case. *)
Definition trap_default (tf : trapframe) : K unit :=
  let! op := myproc in
  match op with
  | Some p =>
      if Z.land (tf_cs tf) 3 =? 0 then unexpected tf else
      let! pr := getproc p in
      let! i := cpuid in
      cprintf (str "pid %d %s: trap %d err %d on cpu %d eip 0x%x addr 0x%x--kill proc" ++ [NL])
        [A_int (p_pid pr); A_str (Some (upto_nul (p_name pr))); A_int (tf_trapno tf); A_int (tf_err tf);
         A_int (Z.of_nat i); A_int (tf_eip tf); A_int cr2] ;;
      updproc p (set_p_killed 1)
  | None => unexpected tf
  end.

Definition is_user (tf : trapframe) : bool := Z.land (tf_cs tf) 3 =? DPL_USER.

(** [if(myproc() && myproc()->killed && (tf->cs&3) == DPL_USER) exit();] *)
Definition exit_if_killed (tf : trapframe) : K unit :=
  let! op := myproc in
  match op with
  | None => ret tt
  | Some p => let! k := killed p in if k && is_user tf then exit else ret tt
  end.

Definition trap_irq (tf : trapframe) : K unit :=
  let no := tf_trapno tf in
  if no =? T_IRQ0 + IRQ_TIMER then timer_tick
  else if no =? T_IRQ0 + IRQ_IDE then ideintr
  else if no =? T_IRQ0 + IRQ_IDE + 1 then ret tt
  else if no =? T_IRQ0 + IRQ_KBD then consoleintr kbd_chars
  else if no =? T_IRQ0 + IRQ_COM1 then consoleintr uart_in
  else if (no =? T_IRQ0 + 7) || (no =? T_IRQ0 + IRQ_SPURIOUS) then
    let! i := cpuid in
    cprintf (str "cpu%d: spurious interrupt at %x:%x" ++ [NL])
      [A_int (Z.of_nat i); A_int (tf_cs tf); A_int (tf_eip tf)]
  else trap_default tf.

Definition trap (tf : trapframe) : K unit :=
  if tf_trapno tf =? T_SYSCALL then
    let! p := curproc "trap" in
    let! k := killed p in
    if k then exit else
    updproc p (set_p_tf tf) ;;
    syscall ;;
    let! k := killed p in
    if k then exit else ret tt
  else
  trap_irq tf ;;
  exit_if_killed tf ;;
  let! op := myproc in
  match op with
  | Some p =>
      let! pr := getproc p in
      when (bool_decide (p_state pr = RUNNING) && (tf_trapno tf =? T_IRQ0 + IRQ_TIMER)) yield
  | None => ret tt
  end ;;
  exit_if_killed tf.
End Trap.
