(* ===== verification/User.v ===== *)
(** User programs: a program is a tree of system calls ([user.h], [usys.S]); what the calls
    answer is up to the kernel it runs on. The C library of the user programs ([ulib.c],
    [printf.c]) is here too. C strings are the lists of their bytes before the NUL. *)

From S2P Require Import Prelude Bytes Params Cprintf.
From stdpp Require Import base list strings.
From Stdlib Require Import ZArith Lia.
Local Open Scope Z_scope.

(** * System calls and programs *)
Inductive call : Type :=
| C_fork | C_wait | C_pipe
| C_write (fd : Z) (data : list Z)
| C_read (fd n : Z)
| C_close (fd : Z)
| C_kill (pid : Z)
| C_exec (path : list Z) (argv : list (list Z))
| C_open (path : list Z) (mode : Z)
| C_mknod (path : list Z) (major minor : Z)
| C_unlink (path : list Z)
| C_fstat (fd : Z)
| C_link (old new : list Z)
| C_mkdir (path : list Z)
| C_chdir (path : list Z)
| C_dup (fd : Z)
| C_getpid
| C_sbrk (n : Z)
| C_sleep (n : Z)
| C_uptime | C_halt | C_toggle | C_ps
| C_send (from to : Z) (msg : list Z)
| C_recv
| C_create_container (cid : Z)
| C_destroy_container (cid : Z)
| C_join_container (cid : Z)
| C_leave_container | C_getcid | C_scheduler_log
(* What depends on the program's memory and on the processor: accesses to an address, the allocator ([umalloc.c]),
   port instructions, and calls made with a pointer or a stack of the program's choice. *)
| X_load (width a : Z)
| X_store (width a x : Z)
| X_malloc (n : Z)
| X_free (a : Z)
| X_inb (port : Z)
| X_outb (port x : Z)
| X_link_at (old : list Z) (new : Z)
| X_sleep_at (esp : Z).

#[export] Instance call_eq_dec : EqDecision call.
Proof. solve_decision. Defined.

(** The answer: the return value, and what is stored through a pointer argument (the bytes
    read, the two descriptors of a pipe, the fields of a [struct stat]). *)
Record resp : Type := mkResp { r_ret : Z; r_data : list Z }.

Inductive prog (A : Type) : Type :=
| Done (a : A)
| Ask (c : call) (k : resp -> prog A)
| Exit
| Fault (why : string)
| More.                      (* a loop without a bound went on for longer than its fuel *)

Arguments Done {A} a.
Arguments Ask {A} c k.
Arguments Exit {A}.
Arguments Fault {A} why.
Arguments More {A}.

Fixpoint pbind {A B} (p : prog A) (f : A -> prog B) : prog B :=
  match p with
  | Done a => f a
  | Ask c k => Ask c (fun r => pbind (k r) f)
  | Exit => Exit
  | Fault w => Fault w
  | More => More
  end.

Declare Scope prog_scope.
Delimit Scope prog_scope with prog.
Notation "'let?' x ':=' m 'in' k" := (pbind m (fun x => k))
  (at level 10, x pattern, m at level 200, k at level 200,
   format "'[v' 'let?'  x  ':='  m  'in' '//' k ']'") : prog_scope.
Notation "m1 >>> m2" := (pbind m1 (fun _ => m2)) (at level 100, m2 at level 200) : prog_scope.
Local Open Scope prog_scope.

Definition pwhen (c : bool) (p : prog unit) : prog unit := if c then p else Done tt.

Fixpoint pfor {I} (l : list I) (body : I -> prog unit) : prog unit :=
  match l with
  | [] => Done tt
  | i :: l' => body i >>> pfor l' body
  end.

(** A call of which only the return value matters. *)
Definition sys (c : call) : prog Z := Ask c (fun r => Done (r_ret r)).

Definition fork : prog Z := sys C_fork.
Definition wait : prog Z := sys C_wait.
Definition exit {A} : prog A := Exit.
Definition write (fd : Z) (data : list Z) : prog Z := sys (C_write fd data).
Definition close (fd : Z) : prog Z := sys (C_close fd).
Definition kill (pid : Z) : prog Z := sys (C_kill pid).
Definition exec (path : list Z) (argv : list (list Z)) : prog Z := sys (C_exec path argv).
Definition open (path : list Z) (mode : Z) : prog Z := sys (C_open path mode).
Definition mknod (path : list Z) (major minor : Z) : prog Z := sys (C_mknod path major minor).
Definition unlink (path : list Z) : prog Z := sys (C_unlink path).
Definition link (old new : list Z) : prog Z := sys (C_link old new).
Definition mkdir (path : list Z) : prog Z := sys (C_mkdir path).
Definition chdir (path : list Z) : prog Z := sys (C_chdir path).
Definition dup (fd : Z) : prog Z := sys (C_dup fd).
Definition sleep (n : Z) : prog Z := sys (C_sleep n).
Definition getcid : prog Z := sys C_getcid.
(** [read(fd, buf, n)]: the return value and the bytes stored at [buf]. *)
Definition read (fd n : Z) : prog resp := Ask (C_read fd n) Done.
(** [pipe(p)]: the return value and [p[0], p[1]]. *)
Definition pipe (p : list Z) : prog (Z * list Z) :=
  Ask C_pipe (fun r => Done (r_ret r, if r_ret r <? 0 then p else r_data r)).

(** An access that the processor refuses ends the program. *)
Definition access (c : call) : prog Z := Ask c (fun r => if r_ret r <? 0 then Exit else Done (hd 0 (r_data r))).

(** * ulib.c *)

(** A C string in a buffer: the bytes before the first NUL; [None] when there is none. *)
Fixpoint cstring (buf : list Z) : option (list Z) :=
  match buf with
  | [] => None
  | c :: buf' => if c =? 0 then Some [] else cons c <$> cstring buf'
  end.

(** [strcmp] on two C strings. *)
Fixpoint strcmp (p q : list Z) : Z :=
  match p, q with
  | [], _ => 0 - hd 0 q
  | x :: _, [] => x
  | x :: p', y :: q' => if x =? y then strcmp p' q' else x - y
  end.

(** [strchr]: the rest of the string from the first [c] on. *)
Fixpoint strchr (s : list Z) (c : Z) : option (list Z) :=
  match s with
  | [] => None
  | x :: s' => if x =? c then Some s else strchr s' c
  end.

(** The loop of [gets]: [n] more characters fit; the result is what is in [buf]. *)
Fixpoint gets_loop (n : nat) : prog (list Z) :=
  match n with
  | O => Done []
  | S n' =>
      let? r := read 0 1 in
      if r_ret r <? 1 then Done [] else
      let c := hd 0 (r_data r) in
      if (c =? 10) || (c =? 13) then Done [c] else
      let? l := gets_loop n' in Done (c :: l)
  end.

(** [buf[i] = 0] at the end. *)
Definition gets (max : Z) : prog (list Z) :=
  let? l := gets_loop (Z.to_nat (max - 1)) in Done (l ++ [0]).

Record stat : Type := mkStat { st_type : Z; st_dev : Z; st_ino : Z; st_nlink : Z; st_size : Z; st_cid : Z }.
Definition stat_of (d : list Z) : stat :=
  mkStat (nth 0 d 0) (nth 1 d 0) (nth 2 d 0) (nth 3 d 0) (nth 4 d 0) (nth 5 d 0).

(** [fstat(fd, &st)]: an error leaves [st] as it was. *)
Definition fstat (fd : Z) (st : stat) : prog (Z * stat) :=
  Ask (C_fstat fd) (fun r => Done (r_ret r, if r_ret r <? 0 then st else stat_of (r_data r))).

Definition stat_path (n : list Z) (st : stat) : prog (Z * stat) :=
  let? fd := open n O_RDONLY in
  if fd <? 0 then Done (-1, st) else
  let? r := fstat fd st in
  close fd >>>
  Done r.

(** [atoi]: the arithmetic is that of [int]. *)
Fixpoint atoi_loop (n : Z) (s : list Z) : Z :=
  match s with
  | [] => n
  | c :: s' => if (48 <=? c) && (c <=? 57) then atoi_loop (i32 (n * 10 + c - 48)) s' else n
  end.
Definition atoi (s : list Z) : Z := atoi_loop 0 s.

(** * printf.c *)
Definition putc (fd c : Z) : prog unit := write fd [c] >>> Done tt.

Definition udigits : list Z := str "0123456789ABCDEF".

Definition uprintint (fd xx base sgn : Z) : prog unit :=
  pfor (printint_chars udigits xx base sgn) (putc fd).

(** The loop of [printf]; [st] is the variable [state] ([true] for the percent sign). *)
Fixpoint printf_loop (fd : Z) (fmt : list Z) (args : list parg) (st : bool) : prog unit :=
  match fmt with
  | [] => Done tt
  | c :: fmt' =>
      if negb st then
        if c =? 37 then printf_loop fd fmt' args true
        else putc fd c >>> printf_loop fd fmt' args false
      else if c =? 100 then
        match args with
        | A_int v :: rest => uprintint fd (i32 v) 10 1 >>> printf_loop fd fmt' rest false
        | _ => Fault "printf: argument"
        end
      else if (c =? 120) || (c =? 112) then
        match args with
        | A_int v :: rest => uprintint fd (i32 v) 16 0 >>> printf_loop fd fmt' rest false
        | _ => Fault "printf: argument"
        end
      else if c =? 115 then
        match args with
        | A_str s :: rest =>
            pfor (default (str "(null)") s) (putc fd) >>> printf_loop fd fmt' rest false
        | _ => Fault "printf: argument"
        end
      else if c =? 99 then
        match args with
        | A_int v :: rest => putc fd (u8 v) >>> printf_loop fd fmt' rest false
        | _ => Fault "printf: argument"
        end
      else if c =? 37 then putc fd c >>> printf_loop fd fmt' args false
      else putc fd 37 >>> putc fd c >>> printf_loop fd fmt' args false
  end.

Definition printf (fd : Z) (fmt : list Z) (args : list parg) : prog unit := printf_loop fd fmt args false.

(** * Running a program on a kernel *)

Inductive pres (A : Type) : Type := R_done (a : A) | R_exit | R_fault | R_more.
Arguments R_done {A} a.
Arguments R_exit {A}.
Arguments R_fault {A}.
Arguments R_more {A}.

Section Run.
Context {E : Type} (h : E -> call -> resp * E).

(** [e] is all the program's environment remembers. *)
Fixpoint prun {A} (p : prog A) (e : E) : pres A * E :=
  match p with
  | Done a => (R_done a, e)
  | Ask c k => let '(r, e') := h e c in prun (k r) e'
  | Exit => (R_exit, e)
  | Fault _ => (R_fault, e)
  | More => (R_more, e)
  end.

Lemma prun_bind {A B} (p : prog A) (f : A -> prog B) e :
  prun (pbind p f) e =
  match prun p e with
  | (R_done a, e') => prun (f a) e'
  | (R_exit, e') => (R_exit, e')
  | (R_fault, e') => (R_fault, e')
  | (R_more, e') => (R_more, e')
  end.
Proof.
  revert e. induction p as [a|c k IH| | |]; intros e; cbn [pbind prun]; try done.
  destruct (h e c) as [r e']. apply IH.
Qed.

Lemma prun_then {A B} (p : prog A) (f : A -> prog B) e a e' :
  prun p e = (R_done a, e') -> prun (pbind p f) e = prun (f a) e'.
Proof. intros H. by rewrite prun_bind, H. Qed.

Lemma prun_ask {A} c (k : resp -> prog A) e : prun (Ask c k) e = prun (k (h e c).1) (h e c).2.
Proof. cbn [prun]. by destruct (h e c). Qed.

Lemma prun_sys {B} c (f : Z -> prog B) e : prun (pbind (sys c) f) e = prun (f (r_ret (h e c).1)) (h e c).2.
Proof. unfold sys. cbn [pbind prun]. by destruct (h e c). Qed.

(** Writing characters one by one. *)
Definition put_env (fd : Z) (l : list Z) (e : E) : E := fold_left (fun e c => (h e (C_write fd [c])).2) l e.

Lemma puts_run fd l e : prun (pfor l (putc fd)) e = (R_done tt, put_env fd l e).
Proof.
  revert e. induction l as [|c l IH]; intros e; cbn [pfor]; [done|].
  rewrite prun_bind. unfold putc, write at 1. rewrite prun_sys. cbn [prun]. by rewrite IH.
Qed.

Lemma put_env_app fd l1 l2 e : put_env fd (l1 ++ l2) e = put_env fd l2 (put_env fd l1 e).
Proof. unfold put_env. by rewrite fold_left_app. Qed.
End Run.

(** The text of a format, when its arguments fit it; [st] as in [printf_loop]. *)
Fixpoint uformat (fmt : list Z) (args : list parg) (st : bool) : option (list Z) :=
  match fmt with
  | [] => Some []
  | c :: fmt' =>
      if negb st then
        if c =? 37 then uformat fmt' args true else cons c <$> uformat fmt' args false
      else if c =? 100 then
        match args with
        | A_int v :: rest => app (printint_chars udigits (i32 v) 10 1) <$> uformat fmt' rest false
        | _ => None
        end
      else if (c =? 120) || (c =? 112) then
        match args with
        | A_int v :: rest => app (printint_chars udigits (i32 v) 16 0) <$> uformat fmt' rest false
        | _ => None
        end
      else if c =? 115 then
        match args with
        | A_str s :: rest => app (default (str "(null)") s) <$> uformat fmt' rest false
        | _ => None
        end
      else if c =? 99 then
        match args with
        | A_int v :: rest => cons (u8 v) <$> uformat fmt' rest false
        | _ => None
        end
      else if c =? 37 then cons c <$> uformat fmt' args false
      else app [37; c] <$> uformat fmt' args false
  end.

Section Printf.
Context {E : Type} (h : E -> call -> resp * E).

Lemma putc_then {B} fd c (f : unit -> prog B) e :
  prun h (pbind (putc fd c) f) e = prun h (f tt) (put_env h fd [c] e).
Proof. rewrite prun_bind. unfold putc, write. rewrite prun_sys. done. Qed.

Lemma printf_loop_run fd fmt args st txt e :
  uformat fmt args st = Some txt -> prun h (printf_loop fd fmt args st) e = (R_done tt, put_env h fd txt e).
Proof.
  revert args st txt e. induction fmt as [|c fmt IH]; intros args st txt e; cbn [uformat printf_loop].
  { by intros [= <-]. }
  destruct st; cbn [negb].
  - destruct (c =? 100) eqn:E1; [|destruct ((c =? 120) || (c =? 112)) eqn:E2;
      [|destruct (c =? 115) eqn:E3; [|destruct (c =? 99) eqn:E4; [|destruct (c =? 37) eqn:E5]]]].
    1, 2, 3: destruct args as [|[v|v] args]; try done; intros (txt' & H & ->)%fmap_Some;
      rewrite prun_bind; unfold uprintint; rewrite puts_run, (IH _ _ _ _ H); by rewrite put_env_app.
    1: destruct args as [|[v|v] args]; try done; intros (txt' & H & ->)%fmap_Some;
      rewrite putc_then, (IH _ _ _ _ H); done.
    + intros (txt' & H & ->)%fmap_Some. rewrite putc_then, (IH _ _ _ _ H). done.
    + intros (txt' & H & ->)%fmap_Some. rewrite !putc_then, (IH _ _ _ _ H). done.
  - destruct (c =? 37); [apply IH|]. intros (txt' & H & ->)%fmap_Some. rewrite putc_then, (IH _ _ _ _ H). done.
Qed.

Lemma printf_run fd fmt args txt e :
  uformat fmt args false = Some txt -> prun h (printf fd fmt args) e = (R_done tt, put_env h fd txt e).
Proof. apply printf_loop_run. Qed.

Lemma printf_then {B} fd fmt args txt (f : unit -> prog B) e :
  uformat fmt args false = Some txt -> prun h (pbind (printf fd fmt args) f) e = prun h (f tt) (put_env h fd txt e).
Proof. intros H. by rewrite prun_bind, (printf_run _ _ _ _ _ H). Qed.
End Printf.

(** * Input in pieces and output *)

(** The pieces that successive reads deliver (at most as many bytes as are asked for), and
    what has been written. *)
Definition stream : Type := list (list Z) * list Z.
Definition stream_h (e : stream) (c : call) : resp * stream :=
  match c with
  | C_read _ n =>
      match e.1 with
      | [] => (mkResp 0 [], e)
      | x :: l =>
          if Z.of_nat (length x) <=? n then (mkResp (Z.of_nat (length x)) x, (l, e.2))
          else (mkResp n (take (Z.to_nat n) x), (drop (Z.to_nat n) x :: l, e.2))
      end
  | C_write _ d => (mkResp (Z.of_nat (length d)) [], (e.1, e.2 ++ d))
  | _ => (mkResp 0 [], e)
  end.

Lemma put_stream fd l e : put_env stream_h fd l e = (e.1, e.2 ++ l).
Proof.
  revert e. induction l as [|c l IH]; intros [i o]; cbn; [by rewrite app_nil_r|].
  change (fold_left _ l ?e) with (put_env stream_h fd l e). rewrite IH. cbn. by rewrite <- app_assoc.
Qed.

(** A read that gets the whole next piece. *)
Lemma read_piece {B} fd n x l o (f : resp -> prog B) :
  Z.of_nat (length x) <= n ->
  prun stream_h (pbind (read fd n) f) (x :: l, o) = prun stream_h (f (mkResp (Z.of_nat (length x)) x)) (l, o).
Proof.
  intros Hn. unfold read. cbn [pbind]. rewrite prun_ask. cbn [stream_h fst snd].
  rewrite (proj2 (Z.leb_le _ _) Hn). done.
Qed.

Lemma read_eof {B} fd n o (f : resp -> prog B) :
  prun stream_h (pbind (read fd n) f) ([], o) = prun stream_h (f (mkResp 0 [])) ([], o).
Proof. done. Qed.
