(* ===== verification/Sh.v ===== *)
(** The shell ([sh.c]): the command parser, the terminating NULs it writes into the line, and
    the processes and descriptors a command line becomes. A pointer into the line is its
    offset; allocation of the command structures is taken to succeed. *)

From S2P Require Import Prelude Bytes Params Cprintf User.
From stdpp Require Import base list strings sets.
From Stdlib Require Import ZArith Lia.
Local Open Scope Z_scope.
Local Open Scope prog_scope.

(** * Parsed commands *)

(** [argv[i]] and [eargv[i]], up to the terminating null pointer. *)
Inductive cmd : Type :=
| EXEC (args : list (nat * nat))
| REDIR (c : cmd) (file efile : nat) (mode fd : Z)
| PIPE (left right : cmd)
| LIST (left right : cmd)
| BACK (c : cmd).

Definition MAXARGS : nat := 10.

Definition panic {A} (s : list Z) : prog A := printf 2 (str "%s" ++ [NL]) [A_str (Some s)] >>> exit.

Definition fork1 : prog Z :=
  let? pid := fork in
  if pid =? -1 then panic (str "fork") else Done pid.

(** * Tokens *)
Definition whitespace : list Z := [32; 9; 13; 10; 11].
Definition symbols : list Z := str "<|>&;()".

Definition in_str (s : list Z) (c : Z) : bool := match strchr s c with Some _ => true | None => false end.

(** What the parser can end with: a result and the position reached, or [panic(msg)]. *)
Inductive parsed (A : Type) : Type := P_ok (a : A) (s : nat) | P_panic (msg : string) | P_fuel.
Arguments P_ok {A} a s.
Arguments P_panic {A} msg.
Arguments P_fuel {A}.

Definition pthen {A B} (r : parsed A) (f : A -> nat -> parsed B) : parsed B :=
  match r with
  | P_ok a s => f a s
  | P_panic m => P_panic m
  | P_fuel => P_fuel
  end.

Section Parser.
(** The line; [es] is where its NUL is. *)
Context (line : list Z).
Let es : nat := length line.

(** [*s] *)
Definition chr (s : nat) : Z := nth s line 0.

(** [while(s < es && P( *s )) s++;] *)
Fixpoint skip_loop (P : Z -> bool) (n : nat) (s : nat) : nat :=
  match n with
  | O => s
  | S n' => if P (chr s) then skip_loop P n' (S s) else s
  end.
Definition skip_while (P : Z -> bool) (s : nat) : nat := skip_loop P (es - s) s.

Definition is_white (c : Z) : bool := in_str whitespace c.
Definition is_word (c : Z) : bool := negb (in_str whitespace c) && negb (in_str symbols c).

(** The token's kind, its two ends, and the new [*ps]. *)
Definition gettoken (ps : nat) : Z * (nat * nat) * nat :=
  let s := skip_while is_white ps in
  let q := s in
  let '(ret, s) :=
    (let c := chr s in
     if c =? 0 then (c, s)
     else if (c =? 124) || (c =? 40) || (c =? 41) || (c =? 59) || (c =? 38) || (c =? 60) then (c, S s)
     else if c =? 62 then (if chr (S s) =? 62 then (43, S (S s)) else (c, S s))
     else (97, skip_while is_word s)) in
  let eq := s in
  (ret, (q, eq), skip_while is_white s).

Definition peek (ps : nat) (toks : list Z) : bool * nat :=
  let s := skip_while is_white ps in
  (negb (chr s =? 0) && in_str toks (chr s), s).

(** * The parser *)

(** One turn of [parseredirs]: [file], [efile], [mode] and [fd] of a [redircmd]. *)
Record redir : Type := mkRedir { rd_file : nat; rd_efile : nat; rd_mode : Z; rd_fd : Z }.

Definition redircmd (c : cmd) (r : redir) : cmd := REDIR c (rd_file r) (rd_efile r) (rd_mode r) (rd_fd r).

(** [switch(tok)] of [parseredirs]; other tokens do not get here. *)
Definition redir_of (tok : Z) (w : nat * nat) : redir :=
  if tok =? 60 then mkRedir w.1 w.2 O_RDONLY 0 else mkRedir w.1 w.2 (Z.lor O_WRONLY O_CREATE) 1.

(** The redirections in the order in which they wrap the command: [parseexec] goes on filling
    in the innermost command, so the wrapping is done at its end. *)
Fixpoint parseredirs (fuel : nat) (s : nat) : parsed (list redir) :=
  match fuel with
  | O => P_fuel
  | S f =>
      let '(b, s) := peek s (str "<>") in
      if b then
        let '(tok, _, s) := gettoken s in
        let '(k, w, s) := gettoken s in
        if negb (k =? 97) then P_panic "missing file for redirection" else
        pthen (parseredirs f s) (fun rs s => P_ok (redir_of tok w :: rs) s)
      else P_ok [] s
  end.

Definition redirs (s : nat) : parsed (list redir) := parseredirs (S (es - s)) s.

(** The argument loop of [parseexec]: [argc] arguments so far. *)
Fixpoint parseargs (fuel : nat) (argc : nat) (s : nat) : parsed (list (nat * nat) * list redir) :=
  match fuel with
  | O => P_fuel
  | S f =>
      let '(b, s) := peek s (str "|)&;") in
      if b then P_ok ([], []) s else
      let '(tok, w, s) := gettoken s in
      if tok =? 0 then P_ok ([], []) s else
      if negb (tok =? 97) then P_panic "syntax" else
      if (MAXARGS <=? S argc)%nat then P_panic "too many args" else
      pthen (redirs s) (fun rs s =>
      pthen (parseargs f (S argc) s) (fun r s => P_ok (w :: r.1, rs ++ r.2) s))
  end.

(** The loop over "&" in [parseline]. *)
Fixpoint parsebacks (fuel : nat) (c : cmd) (s : nat) : parsed cmd :=
  match fuel with
  | O => P_fuel
  | S f =>
      let '(b, s) := peek s (str "&") in
      if b then let '(_, _, s) := gettoken s in parsebacks f (BACK c) s else P_ok c s
  end.

Fixpoint parseline (fuel : nat) (s : nat) : parsed cmd :=
  match fuel with
  | O => P_fuel
  | S f =>
      pthen (parsepipe f s) (fun c s =>
      pthen (parsebacks (S (es - s)) c s) (fun c s =>
      let '(b, s) := peek s (str ";") in
      if b then
        let '(_, _, s) := gettoken s in
        pthen (parseline f s) (fun c2 s => P_ok (LIST c c2) s)
      else P_ok c s))
  end
with parsepipe (fuel : nat) (s : nat) : parsed cmd :=
  match fuel with
  | O => P_fuel
  | S f =>
      pthen (parseexec f s) (fun c s =>
      let '(b, s) := peek s (str "|") in
      if b then
        let '(_, _, s) := gettoken s in
        pthen (parsepipe f s) (fun c2 s => P_ok (PIPE c c2) s)
      else P_ok c s)
  end
with parseexec (fuel : nat) (s : nat) : parsed cmd :=
  match fuel with
  | O => P_fuel
  | S f =>
      let '(b, s) := peek s (str "(") in
      if b then parseblock f s else
      pthen (redirs s) (fun rs s =>
      pthen (parseargs (S (es - s)) 0 s) (fun r s =>
      P_ok (fold_left redircmd (rs ++ r.2) (EXEC r.1)) s))
  end
with parseblock (fuel : nat) (s : nat) : parsed cmd :=
  match fuel with
  | O => P_fuel
  | S f =>
      let '(b, s) := peek s (str "(") in
      if negb b then P_panic "parseblock" else
      let '(_, _, s) := gettoken s in
      pthen (parseline f s) (fun c s =>
      let '(b, s) := peek s (str ")") in
      if negb b then P_panic "syntax - missing )" else
      let '(_, _, s) := gettoken s in
      pthen (redirs s) (fun rs s => P_ok (fold_left redircmd rs c) s))
  end.

(** Four nested calls per character at most. *)
Definition parse_fuel : nat := 4 * es + 4.

(** * nulterminate: the line after it *)
Fixpoint nulterminate (c : cmd) (l : list Z) : list Z :=
  match c with
  | EXEC args => fold_left (fun l (w : nat * nat) => <[w.2 := 0]> l) args l
  | REDIR c _ efile _ _ => <[efile := 0]> (nulterminate c l)
  | PIPE a b => nulterminate b (nulterminate a l)
  | LIST a b => nulterminate b (nulterminate a l)
  | BACK c => nulterminate c l
  end.

(** [parsecmd]: the command and the line (with its NUL) it points into. *)
Definition parsecmd : prog (cmd * list Z) :=
  match parseline parse_fuel 0 with
  | P_fuel => More
  | P_panic m => panic (str m)
  | P_ok c s =>
      let '(_, s) := peek s [] in
      if negb (s =? es)%nat then
        printf 2 (str "leftovers: %s" ++ [NL]) [A_str (Some (drop s line))] >>>
        panic (str "syntax")
      else Done (c, nulterminate c (line ++ [0]))
  end.
End Parser.

(** * Running a command *)

(** The C string at offset [s] of the line. *)
Definition word_at (buf : list Z) (s : nat) : prog (list Z) :=
  match cstring (drop s buf) with
  | Some w => Done w
  | None => Fault "string"
  end.

Fixpoint words_at (buf : list Z) (args : list (nat * nat)) : prog (list (list Z)) :=
  match args with
  | [] => Done []
  | w :: args' =>
      let? x := word_at buf w.1 in
      let? l := words_at buf args' in
      Done (x :: l)
  end.

Fixpoint runcmd (buf : list Z) (c : cmd) : prog unit :=
  match c with
  | EXEC [] => exit
  | EXEC args =>
      let? argv := words_at buf args in
      exec (hd [] argv) argv >>>
      printf 2 (str "exec %s failed" ++ [NL]) [A_str (Some (hd [] argv))] >>>
      exit
  | REDIR c file _ mode fd =>
      close fd >>>
      let? f := word_at buf file in
      let? r := open f mode in
      if r <? 0 then
        printf 2 (str "open %s failed" ++ [NL]) [A_str (Some f)] >>>
        exit
      else runcmd buf c >>> exit
  | LIST a b =>
      let? pid := fork1 in
      pwhen (pid =? 0) (runcmd buf a) >>>
      wait >>>
      runcmd buf b >>>
      exit
  | PIPE a b =>
      let? r := pipe [0; 0] in
      let p0 := nth 0 r.2 0 in
      let p1 := nth 1 r.2 0 in
      if r.1 <? 0 then panic (str "pipe") else
      let? pid := fork1 in
      pwhen (pid =? 0) (close 1 >>> dup p1 >>> close p0 >>> close p1 >>> runcmd buf a) >>>
      let? pid := fork1 in
      pwhen (pid =? 0) (close 0 >>> dup p0 >>> close p0 >>> close p1 >>> runcmd buf b) >>>
      close p0 >>>
      close p1 >>>
      wait >>>
      wait >>>
      exit
  | BACK c =>
      let? pid := fork1 in
      pwhen (pid =? 0) (runcmd buf c) >>>
      exit
  end.

(** [getcmd(buf, nbuf)]: the buffer, of [nbuf] bytes. *)
Definition getcmd (nbuf : Z) : prog (list Z) :=
  printf 2 (str "$ ") [] >>>
  let? l := gets nbuf in
  Done (l ++ replicate (Z.to_nat nbuf - length l) 0).

Definition sh_line (buf : list Z) : prog unit :=
  match cstring buf with
  | None => Fault "string"
  | Some l =>
      if (nth 0 l 0 =? 99) && (nth 1 l 0 =? 100) && (nth 2 l 0 =? 32) then
        let arg := drop 3 (take (length l - 1) l) in
        let? r := chdir arg in
        pwhen (r <? 0) (printf 2 (str "cannot cd %s" ++ [NL]) [A_str (Some arg)])
      else
        let? pid := fork1 in
        pwhen (pid =? 0) (let? r := parsecmd l in runcmd r.2 r.1) >>>
        wait >>>
        Done tt
  end.

Fixpoint sh_loop (fuel : nat) : prog unit :=
  let? buf := getcmd 100 in
  if hd 0 buf =? 0 then exit else
  match fuel with
  | O => More
  | S f => sh_line buf >>> sh_loop f
  end.

Fixpoint sh_open (fuel : nat) : prog unit :=
  let? fd := open (str "console") O_RDWR in
  if fd <? 0 then Done tt else
  if 3 <=? fd then close fd >>> Done tt else
  match fuel with
  | O => More
  | S f => sh_open f
  end.

Definition sh_main (fuel : nat) : prog unit := sh_open fuel >>> sh_loop fuel.

(** * The language of command lines *)

Inductive token : Type := T_word (w : nat * nat) | T_sym (k : Z).

(** The tokens from position [s] on, as repeated [gettoken] yields them. *)
Fixpoint lex_loop (line : list Z) (n s : nat) : list token :=
  match n with
  | O => []
  | S n' =>
      let '(k, w, s') := gettoken line s in
      if k =? 0 then [] else (if k =? 97 then T_word w else T_sym k) :: lex_loop line n' s'
  end.
Definition lex (line : list Z) (s : nat) : list token := lex_loop line (S (length line - s)) s.
Arguments lex : simpl never.

(** Abstract syntax: a line is pipelines separated by ";", each put in the background any
    number of times; a pipeline is commands separated by "|"; a command is a parenthesised
    line with redirections, or words and redirections in any order. *)
Inductive rkind : Type := R_in | R_out | R_app.
Definition sredir : Type := rkind * (nat * nat).

Inductive sline : Type :=
| SL_one (p : spipe) (backs : nat)
| SL_seq (p : spipe) (backs : nat) (l : sline)
with spipe : Type :=
| SP_one (e : sexec)
| SP_pipe (e : sexec) (p : spipe)
with sexec : Type :=
| SE_block (l : sline) (rs : list sredir)
| SE_cmd (rs : list sredir) (args : list ((nat * nat) * list sredir)).

Scheme sline_rec3 := Induction for sline Sort Prop
with spipe_rec3 := Induction for spipe Sort Prop
with sexec_rec3 := Induction for sexec Sort Prop.
Combined Scheme syntax_ind from sline_rec3, spipe_rec3, sexec_rec3.

(** The tokens of a syntax tree. *)
Definition rsym (k : rkind) : Z := match k with R_in => 60 | R_out => 62 | R_app => 43 end.
Definition show_redir (r : sredir) : list token := [T_sym (rsym r.1); T_word r.2].
Definition show_redirs (rs : list sredir) : list token := rs ≫= show_redir.
Definition show_args (args : list ((nat * nat) * list sredir)) : list token :=
  args ≫= (fun a => T_word a.1 :: show_redirs a.2).

Fixpoint show_line (l : sline) : list token :=
  match l with
  | SL_one p n => show_pipe p ++ replicate n (T_sym 38)
  | SL_seq p n l => show_pipe p ++ replicate n (T_sym 38) ++ T_sym 59 :: show_line l
  end
with show_pipe (p : spipe) : list token :=
  match p with
  | SP_one e => show_exec e
  | SP_pipe e p => show_exec e ++ T_sym 124 :: show_pipe p
  end
with show_exec (e : sexec) : list token :=
  match e with
  | SE_block l rs => T_sym 40 :: show_line l ++ T_sym 41 :: show_redirs rs
  | SE_cmd rs args => show_redirs rs ++ show_args args
  end.

(** The command it stands for. *)
Definition den_redir (r : sredir) : redir := redir_of (rsym r.1) r.2.
Definition den_redirs (rs : list sredir) (c : cmd) : cmd := fold_left redircmd (den_redir <$> rs) c.
Fixpoint backs (n : nat) (c : cmd) : cmd := match n with O => c | S n' => backs n' (BACK c) end.

Fixpoint den_line (l : sline) : cmd :=
  match l with
  | SL_one p n => backs n (den_pipe p)
  | SL_seq p n l => LIST (backs n (den_pipe p)) (den_line l)
  end
with den_pipe (p : spipe) : cmd :=
  match p with
  | SP_one e => den_exec e
  | SP_pipe e p => PIPE (den_exec e) (den_pipe p)
  end
with den_exec (e : sexec) : cmd :=
  match e with
  | SE_block l rs => den_redirs rs (den_line l)
  | SE_cmd rs args => den_redirs (rs ++ (args ≫= snd)) (EXEC args.*1)
  end.

(** Fewer than [MAXARGS] arguments in every command. *)
Fixpoint fits_line (l : sline) : Prop :=
  match l with
  | SL_one p _ => fits_pipe p
  | SL_seq p _ l => fits_pipe p /\ fits_line l
  end
with fits_pipe (p : spipe) : Prop :=
  match p with
  | SP_one e => fits_exec e
  | SP_pipe e p => fits_exec e /\ fits_pipe p
  end
with fits_exec (e : sexec) : Prop :=
  match e with
  | SE_block l _ => fits_line l
  | SE_cmd _ args => (length args < MAXARGS)%nat
  end.

(** * The lexer *)
Lemma in_str_spec l c : in_str l c = true <-> c ∈ l.
Proof.
  unfold in_str. induction l as [|x l IH]; cbn [strchr]; [by rewrite elem_of_nil|].
  rewrite elem_of_cons. destruct (Z.eqb_spec x c) as [->|]; [naive_solver|]. rewrite IH. naive_solver.
Qed.

Lemma symbols_eq : symbols = [60; 124; 62; 38; 59; 40; 41].
Proof. done. Qed.

Section Lexer.
Context (line : list Z) (Hline : Forall (fun c => c <> 0) line).

Lemma chr_end s : (s < length line)%nat <-> chr line s <> 0.
Proof.
  unfold chr. split.
  - intros Hs. destruct (lookup_lt_is_Some_2 line s Hs) as [c Hc].
    rewrite (nth_lookup_Some _ _ _ _ Hc). rewrite Forall_lookup in Hline. by eapply Hline.
  - intros Hc. destruct (decide (s < length line)%nat); [done|]. rewrite nth_overflow in Hc by lia. done.
Qed.

Lemma skip_loop_spec P n s :
  (s + n = length line)%nat ->
  (s <= skip_loop line P n s <= length line)%nat /\
  (forall i, (s <= i < skip_loop line P n s)%nat -> P (chr line i) = true) /\
  (skip_loop line P n s = length line \/ P (chr line (skip_loop line P n s)) = false).
Proof.
  revert s. induction n as [|n IH]; intros s Hs; cbn [skip_loop].
  - split_and!; [lia|lia|intros; lia|left; lia].
  - destruct (P (chr line s)) eqn:E.
    + destruct (IH (S s)) as (H1 & H2 & H3); [lia|]. split_and!; [lia|lia| |done].
      intros i Hi. destruct (decide (i = s)) as [->|]; [done|]. apply H2. lia.
    + split_and!; [lia|lia|intros; lia|by right].
Qed.

Lemma skip_spec P s :
  (s <= length line)%nat ->
  (s <= skip_while line P s <= length line)%nat /\
  (forall i, (s <= i < skip_while line P s)%nat -> P (chr line i) = true) /\
  (skip_while line P s = length line \/ P (chr line (skip_while line P s)) = false).
Proof. intros. apply skip_loop_spec. lia. Qed.

Lemma skip_stop P s : P (chr line s) = false -> skip_while line P s = s.
Proof. unfold skip_while. intros H. destruct (length line - s)%nat; cbn [skip_loop]; [done|]. by rewrite H. Qed.

Lemma skip_end P : skip_while line P (length line) = length line.
Proof. unfold skip_while. by rewrite Nat.sub_diag. Qed.

Lemma skip_idem P s : (s <= length line)%nat -> skip_while line P (skip_while line P s) = skip_while line P s.
Proof.
  intros Hs. destruct (skip_spec P s Hs) as (_ & _ & [E|E]); [rewrite E; apply skip_end|by apply skip_stop].
Qed.

(** The first character of a token of kind [k]. *)
Definition lead (k : Z) : Z := if k =? 43 then 62 else k.

Inductive is_token (s : nat) : Z * (nat * nat) * nat -> Prop :=
| it_end : skip_while line is_white s = length line -> is_token s (0, (length line, length line), length line)
| it_word q e : q = skip_while line is_white s -> (q < e <= length line)%nat ->
    (forall i, (q <= i < e)%nat -> is_word (chr line i) = true) ->
    (e = length line \/ is_word (chr line e) = false) ->
    is_token s (97, (q, e), skip_while line is_white e)
| it_sym k q e : q = skip_while line is_white s -> (q < e <= length line)%nat ->
    in_str symbols (lead k) = true -> k <> 97 -> k <> 0 -> chr line q = lead k ->
    is_token s (k, (q, e), skip_while line is_white e).

Lemma gettoken_token s : (s <= length line)%nat -> is_token s (gettoken line s).
Proof.
  intros Hs. unfold gettoken. destruct (skip_spec is_white s Hs) as (H1 & _ & H3).
  set (q := skip_while line is_white s) in *. destruct (Z.eqb_spec (chr line q) 0) as [E|E].
  { assert (q = length line) as E1.
    { destruct (decide (q < length line)%nat) as [Hlt|]; [by apply chr_end in Hlt|lia]. }
    rewrite E, E1, skip_end. by constructor. }
  pose proof (proj2 (chr_end q) E) as Hq.
  destruct ((chr line q =? 124) || (chr line q =? 40) || (chr line q =? 41) || (chr line q =? 59) ||
            (chr line q =? 38) || (chr line q =? 60)) eqn:Es.
  { rewrite !orb_true_iff, !Z.eqb_eq in Es. apply it_sym; [done|lia|..];
      destruct Es as [[[[[E1|E1]|E1]|E1]|E1]|E1]; rewrite E1; by vm_compute. }
  rewrite !orb_false_iff, !Z.eqb_neq in Es. destruct Es as [[[[[E1 E2] E3] E4] E5] E6].
  destruct (Z.eqb_spec (chr line q) 62) as [E7|E7].
  - destruct (Z.eqb_spec (chr line (S q)) 62) as [E8|E8].
    + pose proof (proj2 (chr_end (S q)) ltac:(rewrite E8; done)). by apply it_sym; [|lia|..].
    + rewrite E7. by apply it_sym; [|lia|..].
  - destruct (skip_spec is_word q ltac:(lia)) as (G1 & G2 & G3).
    assert (Hw : is_word (chr line q) = true).
    { unfold is_word. destruct H3 as [H3|H3]; [lia|]. fold (is_white (chr line q)). rewrite H3. cbn [negb andb].
      apply negb_true_iff, not_true_is_false. rewrite in_str_spec, symbols_eq, !elem_of_cons, elem_of_nil. lia. }
    apply it_word; [done| |done|done]. split; [|lia].
    destruct (decide (skip_while line is_word q = q)) as [Eq|]; [|lia].
    rewrite Eq in G3. destruct G3 as [G3|G3]; [lia|congruence].
Qed.

Lemma skip_le P s : (s <= length line)%nat -> (s <= skip_while line P s <= length line)%nat.
Proof. intros H. by apply (skip_spec P s). Qed.

Lemma lex_loop_enough n m s :
  (s <= length line)%nat -> (length line - s < n)%nat -> (length line - s < m)%nat ->
  lex_loop line n s = lex_loop line m s.
Proof.
  revert m s. induction n as [|n IH]; intros [|m] s Hs Hn Hm; try lia. cbn [lex_loop].
  destruct (gettoken_token s Hs) as [E|q e -> He _ _|k q e -> He _ _ Hk _]; [done|..];
    pose proof (skip_le is_white s Hs); pose proof (skip_le is_white e ltac:(lia));
    repeat case_match; try done; f_equal; apply IH; lia.
Qed.

(** What a token looks like at the head of the rest of the line. *)
Definition starts (ts : list token) (toks : list Z) : bool :=
  match ts with
  | T_sym k :: _ => in_str toks (lead k)
  | _ => false
  end.

Lemma gettoken_lex s :
  (s <= length line)%nat ->
  match lex line s with
  | [] => gettoken line s = (0, (length line, length line), length line)
  | T_word w :: ts => exists s', gettoken line s = (97, w, s') /\ lex line s' = ts /\ (s < s' <= length line)%nat
  | T_sym k :: ts => exists w s', gettoken line s = (k, w, s') /\ k <> 97 /\ k <> 0 /\ in_str symbols (lead k) = true /\
      lex line s' = ts /\ (s < s' <= length line)%nat
  end.
Proof.
  intros Hs. unfold lex at 1. cbn [lex_loop].
  destruct (gettoken_token s Hs) as [E|q e -> He _ _|k q e -> He Hk1 Hk Hk0 _]; [done|..];
    pose proof (skip_le is_white s Hs); pose proof (skip_le is_white e ltac:(lia)); cbn [Z.eqb].
  - cbn [Z.eqb Pos.eqb]. eexists. split; [done|]. split; [|lia]. apply lex_loop_enough; lia.
  - rewrite (proj2 (Z.eqb_neq k 0)), (proj2 (Z.eqb_neq k 97)) by done. eexists _, _.
    split; [done|]. split_and!; try done; [apply lex_loop_enough; lia|lia|lia].
Qed.

Lemma gettoken_skip s : (s <= length line)%nat -> gettoken line (skip_while line is_white s) = gettoken line s.
Proof. intros Hs. unfold gettoken. by rewrite skip_idem. Qed.

Lemma lex_skip s : (s <= length line)%nat -> lex line (skip_while line is_white s) = lex line s.
Proof.
  intros Hs. pose proof (skip_le is_white s Hs).
  unfold lex. rewrite (lex_loop_enough (S (length line - skip_while line is_white s)) (S (length line - s))) by lia.
  cbn [lex_loop]. by rewrite gettoken_skip.
Qed.

Lemma peek_lex s toks :
  (s <= length line)%nat -> (forall c, c ∈ toks -> c ∈ symbols) ->
  exists s', peek line s toks = (starts (lex line s) toks, s') /\ lex line s' = lex line s /\ (s <= s' <= length line)%nat.
Proof.
  intros Hs Ht. unfold peek. exists (skip_while line is_white s).
  split; [|split; [by apply lex_skip|by apply skip_le]]. f_equal.
  unfold lex. cbn [lex_loop].
  destruct (gettoken_token s Hs) as [E|q e -> He Hw _|k q e -> He Hk1 Hk Hk0 Hc]; cbn [Z.eqb].
  - rewrite E. unfold chr. by rewrite nth_overflow.
  - rewrite (proj2 (Z.eqb_neq (chr line _) 0)) by (apply chr_end; lia). cbn [negb andb]. cbn.
    apply not_true_is_false. intros Hin%in_str_spec%Ht%in_str_spec. specialize (Hw _ (conj (le_n _) (proj1 He))).
    unfold is_word in Hw. by rewrite Hin, andb_false_r in Hw.
  - rewrite (proj2 (Z.eqb_neq k 0)), (proj2 (Z.eqb_neq k 97)) by done.
    rewrite (proj2 (Z.eqb_neq (chr line _) 0)) by (apply chr_end; lia). cbn. by rewrite Hc.
Qed.

(** The whole line has been read exactly when no token is left. *)
Lemma peek_end s : (s <= length line)%nat ->
  exists b s', peek line s [] = (b, s') /\ (s' = length line <-> lex line s = []).
Proof.
  intros Hs. eexists _, _. split; [done|]. pose proof (gettoken_lex s Hs) as Hg.
  destruct (gettoken_token s Hs) as [E|q e -> He Hw _|k q e -> He Hk1 Hk Hk0 Hc].
  - rewrite E. split; [|done]. intros _. destruct (lex line s) as [|[] ?]; naive_solver.
  - split; [lia|]. intros El. by rewrite El in Hg.
  - split; [lia|]. intros El. rewrite El in Hg. naive_solver.
Qed.
End Lexer.

(** * The parser accepts the language and yields the command of the syntax tree *)
Lemma lead_one c k : in_str [c] (lead k) = true -> c <> 62 -> k = c.
Proof.
  rewrite in_str_spec, list_elem_of_singleton. unfold lead. destruct (Z.eqb_spec k 43); congruence.
Qed.

Lemma lead_redir k : in_str (str "<>") (lead k) = true -> exists r, k = rsym r.
Proof.
  rewrite in_str_spec. change (str "<>") with [60; 62]. rewrite !elem_of_cons, elem_of_nil. unfold lead.
  destruct (Z.eqb_spec k 43) as [->|]; intros [H|[H|[]]]; try done.
  - by exists R_app.
  - by exists R_in.
  - by exists R_out.
Qed.

(** One step of each of the four mutually recursive procedures. *)
Lemma parse_step (line : list Z) f s :
  parseline line (S f) s =
    pthen (parsepipe line f s) (fun c s =>
    pthen (parsebacks line (S (length line - s)) c s) (fun c s =>
    let '(b, s) := peek line s (str ";") in
    if b then
      let '(_, _, s) := gettoken line s in
      pthen (parseline line f s) (fun c2 s => P_ok (LIST c c2) s)
    else P_ok c s)) /\
  parsepipe line (S f) s =
    pthen (parseexec line f s) (fun c s =>
    let '(b, s) := peek line s (str "|") in
    if b then
      let '(_, _, s) := gettoken line s in
      pthen (parsepipe line f s) (fun c2 s => P_ok (PIPE c c2) s)
    else P_ok c s) /\
  parseexec line (S f) s =
    (let '(b, s) := peek line s (str "(") in
     if b then parseblock line f s else
     pthen (redirs line s) (fun rs s =>
     pthen (parseargs line (S (length line - s)) 0 s) (fun r s =>
     P_ok (fold_left redircmd (rs ++ r.2) (EXEC r.1)) s))) /\
  parseblock line (S f) s =
    (let '(b, s) := peek line s (str "(") in
     if negb b then P_panic "parseblock" else
     let '(_, _, s) := gettoken line s in
     pthen (parseline line f s) (fun c s =>
     let '(b, s) := peek line s (str ")") in
     if negb b then P_panic "syntax - missing )" else
     let '(_, _, s) := gettoken line s in
     pthen (redirs line s) (fun rs s => P_ok (fold_left redircmd rs c) s))).
Proof. by split_and!. Qed.

Section Accepts.
Context (line : list Z) (Hline : Forall (fun c => c <> 0) line).
Let es : nat := length line.
Implicit Types (s : nat) (rest : list token).

Lemma lex_end : lex line es = [].
Proof.
  pose proof (gettoken_lex line Hline es (le_n _)) as H. destruct (lex line es) as [|[w|k] ts]; [done|..];
    destruct H; naive_solver lia.
Qed.

(** A word, or a symbol, at the head of the rest of the line. *)
Lemma gettoken_word s w ts :
  (s <= es)%nat -> lex line s = T_word w :: ts ->
  exists s', gettoken line s = (97, w, s') /\ lex line s' = ts /\ (s < s' <= es)%nat.
Proof. intros Hs E. pose proof (gettoken_lex line Hline s Hs) as H. by rewrite E in H. Qed.

Lemma gettoken_sym s k ts :
  (s <= es)%nat -> lex line s = T_sym k :: ts ->
  exists w s', gettoken line s = (k, w, s') /\ lex line s' = ts /\ (s < s' <= es)%nat /\ k <> 97 /\ k <> 0.
Proof.
  intros Hs E. pose proof (gettoken_lex line Hline s Hs) as H. rewrite E in H.
  destruct H as (w & s' & ? & ? & ? & ? & ? & ?). exists w, s'. done.
Qed.

Lemma gettoken_none s : (s <= es)%nat -> lex line s = [] -> gettoken line s = (0, (es, es), es).
Proof. intros Hs E. pose proof (gettoken_lex line Hline s Hs) as H. by rewrite E in H. Qed.

(** [peek] for one of the parser's sets of symbols. *)
Lemma peek_set s toks :
  (s <= es)%nat -> toks ∈ [str "<>"; str "|)&;"; str "&"; str ";"; str "|"; str "("; str ")"] ->
  exists s', peek line s toks = (starts (lex line s) toks, s') /\ lex line s' = lex line s /\ (s <= s' <= es)%nat.
Proof.
  intros Hs Ht. apply peek_lex; [done|done|]. intros c. rewrite symbols_eq. revert Ht.
  rewrite !elem_of_cons, elem_of_nil. intros [->|[->|[->|[->|[->|[->|[->|[]]]]]]]]; cbn; rewrite !elem_of_cons, elem_of_nil; naive_solver.
Qed.

Lemma parseredirs_sound fuel s :
  (s <= es)%nat -> (es - s < fuel)%nat ->
  match parseredirs line fuel s with
  | P_fuel => False
  | P_panic _ => True
  | P_ok rs s' => exists srs, rs = den_redir <$> srs /\ lex line s = show_redirs srs ++ lex line s' /\ (s <= s' <= es)%nat
  end.
Proof.
  revert s. induction fuel as [|f IH]; intros s Hs Hf; [lia|]. cbn [parseredirs].
  destruct (peek_set s (str "<>")) as (s1 & -> & Hl1 & H1); [done|set_solver|].
  destruct (starts (lex line s) (str "<>")) eqn:Hst.
  2:{ exists []. by rewrite Hl1. }
  destruct (lex line s) as [|[w|k] ts] eqn:El; [done|done|]. cbn [starts] in Hst.
  apply lead_redir in Hst as [r ->].
  destruct (gettoken_sym s1 _ _ (proj2 H1) Hl1) as (w1 & s2 & -> & Hl2 & H2 & _).
  destruct ts as [|[w|k] ts].
  - by rewrite (gettoken_none s2 (proj2 H2) Hl2).
  - destruct (gettoken_word s2 _ _ (proj2 H2) Hl2) as (s3 & -> & Hl3 & H3). cbn [Z.eqb Pos.eqb negb].
    specialize (IH s3 (proj2 H3) ltac:(lia)). destruct (parseredirs line f s3) as [rs s'| |]; [|done|done].
    destruct IH as (srs & -> & E3 & H4). cbn [pthen]. exists ((r, w) :: srs). split; [done|]. split; [|lia].
    cbn. rewrite <- Hl3, E3. done.
  - destruct (gettoken_sym s2 _ _ (proj2 H2) Hl2) as (w2 & s3 & -> & _ & _ & Hk & _).
    by rewrite (proj2 (Z.eqb_neq k 97) Hk).
Qed.

Lemma parseredirs_complete srs fuel s rest :
  (s <= es)%nat -> (es - s < fuel)%nat -> lex line s = show_redirs srs ++ rest -> starts rest (str "<>") = false ->
  exists s', parseredirs line fuel s = P_ok (den_redir <$> srs) s' /\ lex line s' = rest /\ (s <= s' <= es)%nat.
Proof.
  revert fuel s. induction srs as [|[r w] srs IH]; intros [|f] s Hs Hf El Hst; try lia; cbn [parseredirs];
    (destruct (peek_set s (str "<>")) as (s1 & -> & Hl1 & H1); [done|set_solver|]); rewrite El in *.
  - cbn in *. rewrite Hst. by exists s1.
  - change (show_redirs ((r, w) :: srs)) with (T_sym (rsym r) :: T_word w :: show_redirs srs) in *.
    replace (starts _ _) with true by (by destruct r).
    destruct (gettoken_sym s1 _ _ (proj2 H1) Hl1) as (w1 & s2 & -> & Hl2 & H2 & _).
    destruct (gettoken_word s2 _ _ (proj2 H2) Hl2) as (s3 & -> & Hl3 & H3). cbn [Z.eqb Pos.eqb negb].
    destruct (IH f s3) as (s4 & -> & Hl4 & H4); [lia|lia|done|done|]. exists s4. split; [done|]. split; [done|lia].
Qed.

Lemma parseargs_sound fuel argc s :
  (s <= es)%nat -> (es - s < fuel)%nat -> (argc < MAXARGS)%nat ->
  match parseargs line fuel argc s with
  | P_fuel => False
  | P_panic _ => True
  | P_ok r s' => exists sargs, r.1 = sargs.*1 /\ r.2 = den_redir <$> (sargs ≫= snd) /\
      lex line s = show_args sargs ++ lex line s' /\ (argc + length sargs < MAXARGS)%nat /\ (s <= s' <= es)%nat
  end.
Proof.
  revert argc s. induction fuel as [|f IH]; intros argc s Hs Hf Ha; [lia|]. cbn [parseargs].
  destruct (peek_set s (str "|)&;")) as (s1 & -> & Hl1 & H1); [done|set_solver|].
  destruct (starts (lex line s) (str "|)&;")) eqn:Hst.
  { exists []. rewrite Hl1. split_and!; [done..|cbn; lia|lia|lia]. }
  destruct (lex line s) as [|[w|k] ts] eqn:El.
  - rewrite (gettoken_none s1 (proj2 H1) Hl1). exists []. rewrite lex_end. split_and!; [done..|cbn; lia|lia|lia].
  - destruct (gettoken_word s1 _ _ (proj2 H1) Hl1) as (s2 & -> & Hl2 & H2). cbn [Z.eqb Pos.eqb negb].
    destruct (Nat.leb_spec MAXARGS (S argc)); [done|]. unfold redirs.
    pose proof (parseredirs_sound (S (es - s2)) s2 (proj2 H2) ltac:(lia)) as Hr. fold es in Hr |- *.
    destruct (parseredirs line (S (es - s2)) s2) as [rs s3| |]; [|done|done]. destruct Hr as (srs & -> & E3 & H3).
    cbn [pthen]. specialize (IH (S argc) s3 (proj2 H3) ltac:(lia) ltac:(lia)).
    destruct (parseargs line f (S argc) s3) as [r s4| |]; [|done|done].
    destruct IH as (sargs & E4 & E5 & E6 & H6 & H7). cbn [pthen]. exists ((w, srs) :: sargs).
    cbn [fst snd fmap list_fmap length]. rewrite E4, E5. split; [done|]. split; [by rewrite bind_cons, fmap_app|].
    split; [|split; lia]. rewrite <- Hl2, E3, E6. unfold show_args. rewrite bind_cons. cbn. by rewrite <- app_assoc.
  - destruct (gettoken_sym s1 _ _ (proj2 H1) Hl1) as (w2 & s3 & -> & _ & _ & Hk & Hk0).
    by rewrite (proj2 (Z.eqb_neq k 97) Hk), (proj2 (Z.eqb_neq k 0) Hk0).
Qed.

Lemma parseargs_complete sargs fuel argc s rest :
  (s <= es)%nat -> (es - s < fuel)%nat -> (argc + length sargs < MAXARGS)%nat ->
  lex line s = show_args sargs ++ rest -> (rest = [] \/ starts rest (str "|)&;") = true) ->
  exists s', parseargs line fuel argc s = P_ok (sargs.*1, den_redir <$> (sargs ≫= snd)) s' /\
    lex line s' = rest /\ (s <= s' <= es)%nat.
Proof.
  revert fuel argc s. induction sargs as [|[w srs] sargs IH]; intros [|f] argc s Hs Hf Ha El Hst; try lia;
    cbn [parseargs];
    (destruct (peek_set s (str "|)&;")) as (s1 & -> & Hl1 & H1); [done|set_solver|]); rewrite El in *.
  - cbn [show_args mbind list_bind app] in *. destruct Hst as [-> | ->].
    + cbn [starts]. rewrite (gettoken_none s1 (proj2 H1) Hl1). exists es. split; [done|]. split; [apply lex_end|lia].
    + by exists s1.
  - unfold show_args in *. rewrite bind_cons in *. cbn [app fst snd] in *. cbn [starts].
    destruct (gettoken_word s1 _ _ (proj2 H1) Hl1) as (s2 & -> & Hl2 & H2). cbn [Z.eqb Pos.eqb negb length] in *.
    destruct (Nat.leb_spec MAXARGS (S argc)); [lia|]. unfold redirs. fold es.
    destruct (parseredirs_complete srs (S (es - s2)) s2 (show_args sargs ++ rest)) as (s3 & -> & Hl3 & H3);
      [lia|lia|by rewrite Hl2, <- app_assoc| |].
    { destruct sargs as [|[]]; [|done]. destruct Hst as [-> | Hst]; [done|]. cbn. destruct rest as [|[|k] ?]; [done..|].
      cbn [starts] in *. apply not_true_is_false. intros [r ->]%lead_redir. by destruct r. }
    cbn [pthen]. destruct (IH f (S argc) s3) as (s4 & -> & Hl4 & H4); [lia|lia|lia|done|done|].
    exists s4. cbn [pthen fst snd]. split; [by rewrite ?bind_cons, fmap_app|]. split; [done|lia].
Qed.

Lemma parsebacks_sound fuel c s :
  (s <= es)%nat -> (es - s < fuel)%nat ->
  exists n s', parsebacks line fuel c s = P_ok (backs n c) s' /\
    lex line s = replicate n (T_sym 38) ++ lex line s' /\ (s <= s' <= es)%nat /\
    starts (lex line s') (str "&") = false.
Proof.
  revert c s. induction fuel as [|f IH]; intros c s Hs Hf; [lia|]. cbn [parsebacks].
  destruct (peek_set s (str "&")) as (s1 & -> & Hl1 & H1); [done|set_solver|].
  destruct (starts (lex line s) (str "&")) eqn:Hst.
  - destruct (lex line s) as [|[w|k] ts] eqn:El; [done|done|]. cbn [starts] in Hst. apply lead_one in Hst as ->; [|done].
    destruct (gettoken_sym s1 _ _ (proj2 H1) Hl1) as (w1 & s2 & -> & Hl2 & H2 & _).
    destruct (IH (BACK c) s2) as (n & s3 & -> & E3 & H3 & Hst3); [lia|lia|]. exists (S n), s3.
    split; [done|]. split; [|split; [lia|done]]. cbn. by rewrite <- Hl2, E3.
  - exists 0%nat, s1. rewrite Hl1. split; [done|]. split; [done|]. split; [lia|done].
Qed.

Lemma parsebacks_complete n fuel c s rest :
  (s <= es)%nat -> (es - s < fuel)%nat -> lex line s = replicate n (T_sym 38) ++ rest -> starts rest (str "&") = false ->
  exists s', parsebacks line fuel c s = P_ok (backs n c) s' /\ lex line s' = rest /\ (s <= s' <= es)%nat.
Proof.
  intros Hs Hf El Hst. destruct (parsebacks_sound fuel c s Hs Hf) as (m & s' & E & El' & H & Hst').
  assert (m = n /\ lex line s' = rest) as [<- <-]; [|by exists s'].
  rewrite El in El'. clear E El. revert m El'. induction n as [|n IH]; intros [|m] E; cbn in E.
  - done.
  - by rewrite E in Hst.
  - by rewrite <- E in Hst'.
  - injection E as E. destruct (IH m E). auto.
Qed.

Definition sound_as (T : Type) (fits : T -> Prop) (den : T -> cmd) (show : T -> list token) (s : nat) (r : parsed cmd) : Prop :=
  match r with
  | P_fuel => False
  | P_panic _ => True
  | P_ok c s' => exists t, fits t /\ c = den t /\ lex line s = show t ++ lex line s' /\ (s <= s' <= es)%nat
  end.

Lemma sound_lex T fits den show s s1 r :
  sound_as T fits den show s1 r -> lex line s1 = lex line s -> (s <= s1)%nat -> sound_as T fits den show s r.
Proof.
  intros H E Hs. destruct r as [c s'| |]; [|done|done]. destruct H as (t & ? & ? & ? & ?). exists t.
  rewrite <- E. split_and!; try done; lia.
Qed.

(** Enough fuel for each of the four procedures: the parser ends, and what it accepts is in
    the language. *)
Definition line_ok (f s : nat) : Prop :=
  (4 * (es - s) + 4 <= f)%nat -> sound_as sline fits_line den_line show_line s (parseline line f s).
Definition pipe_ok (f s : nat) : Prop :=
  (4 * (es - s) + 3 <= f)%nat -> sound_as spipe fits_pipe den_pipe show_pipe s (parsepipe line f s).
Definition exec_ok (f s : nat) : Prop :=
  (4 * (es - s) + 2 <= f)%nat -> sound_as sexec fits_exec den_exec show_exec s (parseexec line f s).
Definition block_ok (f s : nat) : Prop :=
  (4 * (es - s) + 1 <= f)%nat -> sound_as sexec fits_exec den_exec show_exec s (parseblock line f s).

(** A symbol that [peek] has seen is the next token. *)
Lemma peek_sym s c : (s <= es)%nat -> [c] ∈ [str "&"; str ";"; str "|"; str "("; str ")"] ->
  exists b s', peek line s [c] = (b, s') /\ lex line s' = lex line s /\ (s <= s' <= es)%nat /\
    (b = true -> exists w s'', gettoken line s' = (c, w, s'') /\ lex line s = T_sym c :: lex line s'' /\ (s < s'' <= es)%nat) /\
    b = starts (lex line s) [c].
Proof.
  intros Hs Hc. destruct (peek_set s [c]) as (s1 & E & Hl1 & H1); [done|set_solver|].
  exists (starts (lex line s) [c]), s1. split_and!; try done; [lia|lia|].
  intros Hst. destruct (lex line s) as [|[w|k] ts] eqn:El; [done|done|]. cbn [starts] in Hst.
  apply lead_one in Hst; [subst k|].
  - destruct (gettoken_sym s1 _ _ (proj2 H1) Hl1) as (w & s2 & -> & Hl2 & H2 & _). exists w, s2. rewrite Hl2.
    split_and!; [done|done|lia|lia].
  - intros ->. revert Hc. rewrite !elem_of_cons, elem_of_nil. cbn. naive_solver.
Qed.

Lemma line_ok_step f s :
  (s <= es)%nat -> pipe_ok f s -> (forall s', (s < s' <= es)%nat -> line_ok f s') -> line_ok (S f) s.
Proof.
  intros Hs IHp IHl Hf. specialize (IHp ltac:(lia)). unfold sound_as in *. rewrite (proj1 (parse_step line f s)).
  destruct (parsepipe line f s) as [c s1| |]; [|done|done]. destruct IHp as (p & Hfit & -> & El & H1). cbn [pthen].
  destruct (parsebacks_sound (S (es - s1)) (den_pipe p) s1) as (n & s2 & Eb & El2 & H2 & _); [lia|lia|].
  fold es. rewrite Eb. cbn [pthen].
  destruct (peek_sym s2 59) as (b & s3 & E3 & Hl3 & H3 & Hb & _); [lia|set_solver|]. change (str ";") with [59]. rewrite E3.
  destruct b.
  - destruct Hb as (w & s4 & -> & Hl4 & H4); [done|]. specialize (IHl s4 ltac:(lia) ltac:(lia)).
    unfold sound_as in *. destruct (parseline line f s4) as [c2 s5| |]; [|done|done].
    destruct IHl as (l & Hfit2 & -> & El5 & H5). exists (SL_seq p n l). split; [done|]. split; [done|]. split; [|lia].
    rewrite El, El2, Hl4, El5. cbn [show_line]. by rewrite <- !app_assoc.
  - exists (SL_one p n). split; [done|]. split; [done|]. split; [|lia].
    rewrite El, El2, Hl3. cbn [show_line]. by rewrite <- app_assoc.
Qed.

Lemma pipe_ok_step f s :
  (s <= es)%nat -> exec_ok f s -> (forall s', (s < s' <= es)%nat -> pipe_ok f s') -> pipe_ok (S f) s.
Proof.
  intros Hs IHe IHp Hf. specialize (IHe ltac:(lia)). unfold sound_as in *. destruct (parse_step line f s) as (_ & -> & _).
  destruct (parseexec line f s) as [c s2| |]; [|done|done]. destruct IHe as (e & Hfit & -> & El & H2). cbn [pthen].
  destruct (peek_sym s2 124) as (b & s3 & E3 & Hl3 & H3 & Hb & _); [lia|set_solver|]. change (str "|") with [124]. rewrite E3.
  destruct b.
  - destruct Hb as (w & s4 & -> & Hl4 & H4); [done|]. specialize (IHp s4 ltac:(lia) ltac:(lia)).
    unfold sound_as in *. destruct (parsepipe line f s4) as [c2 s5| |]; [|done|done].
    destruct IHp as (p & Hfit2 & -> & El5 & H5). exists (SP_pipe e p). split; [done|]. split; [done|]. split; [|lia].
    rewrite El, Hl4, El5. cbn [show_pipe]. by rewrite <- !app_assoc.
  - exists (SP_one e). split; [done|]. split; [done|]. split; [|lia]. by rewrite El, Hl3.
Qed.

Lemma exec_ok_step f s :
  (s <= es)%nat -> (forall s', (s <= s' <= es)%nat -> block_ok f s') -> exec_ok (S f) s.
Proof.
  intros Hs IHb Hf. destruct (parse_step line f s) as (_ & _ & -> & _).
  destruct (peek_set s (str "(")) as (s1 & -> & Hl1 & H1); [done|set_solver|].
  destruct (starts (lex line s) (str "(")).
  - eapply sound_lex; [apply IHb; lia|done|lia].
  - unfold sound_as, redirs. pose proof (parseredirs_sound (S (es - s1)) s1 (proj2 H1) ltac:(lia)) as Hr.
    fold es in Hr |- *. destruct (parseredirs line (S (es - s1)) s1) as [rs s2| |]; [|done|done].
    destruct Hr as (srs & -> & E2 & H2). cbn [pthen].
    pose proof (parseargs_sound (S (es - s2)) 0 s2 (proj2 H2) ltac:(lia) ltac:(unfold MAXARGS; lia)) as Ha.
    destruct (parseargs line (S (es - s2)) 0 s2) as [[args rs2] s3| |]; [|done|done].
    destruct Ha as (sargs & E3 & E4 & E5 & H5 & H6). cbn [fst snd] in *. subst. cbn [pthen].
    exists (SE_cmd srs sargs). split; [done|]. split; [cbn [den_exec]; unfold den_redirs; by rewrite fmap_app|].
    split; [|lia]. cbn [show_exec]. by rewrite <- Hl1, E2, E5, <- app_assoc.
Qed.

Lemma block_ok_step f s :
  (s <= es)%nat -> (forall s', (s < s' <= es)%nat -> line_ok f s') -> block_ok (S f) s.
Proof.
  intros Hs IHl Hf. unfold sound_as. destruct (parse_step line f s) as (_ & _ & _ & ->). change (str "(") with [40]. change (str ")") with [41].
  destruct (peek_sym s 40) as (b & s1 & -> & Hl1 & H1 & Hb & _); [done|set_solver|]. destruct b; [|done]. cbn [negb].
  destruct Hb as (w & s2 & -> & Hl2 & H2); [done|]. specialize (IHl s2 ltac:(lia) ltac:(lia)). unfold sound_as in IHl.
  destruct (parseline line f s2) as [c s3| |]; [|done|done]. destruct IHl as (l & Hfit & -> & El & H3). cbn [pthen].
  destruct (peek_sym s3 41) as (b & s4 & -> & Hl4 & H4 & Hb & _); [lia|set_solver|]. destruct b; [|done]. cbn [negb].
  destruct Hb as (w' & s5 & -> & Hl5 & H5); [done|].
  unfold redirs. pose proof (parseredirs_sound (S (es - s5)) s5 (proj2 H5) ltac:(lia)) as Hr. fold es in Hr |- *.
  destruct (parseredirs line (S (es - s5)) s5) as [rs s6| |]; [|done|done]. destruct Hr as (srs & -> & E6 & H6).
  cbn [pthen]. exists (SE_block l srs). split; [done|]. split; [done|]. split; [|lia].
  rewrite Hl2. cbn [show_exec]. rewrite El, Hl5, E6. cbn. by rewrite <- !app_assoc.
Qed.

Lemma parse_sound fuel s : (s <= es)%nat -> line_ok fuel s /\ pipe_ok fuel s /\ exec_ok fuel s /\ block_ok fuel s.
Proof.
  revert s. induction fuel as [|f IH]; intros s Hs; [split_and!; intros ?; lia|]. split_and!.
  - apply line_ok_step; [done|by apply IH|intros; apply IH; lia].
  - apply pipe_ok_step; [done|by apply IH|intros; apply IH; lia].
  - apply exec_ok_step; [done|intros; apply IH; lia].
  - apply block_ok_step; [done|intros; apply IH; lia].
Qed.

(** What may come after a phrase. *)
Definition follows (rest : list token) (toks : list Z) : Prop := rest = [] \/ starts rest toks = true.

Lemma follows_not rest toks toks' :
  follows rest toks -> (forall c, c ∈ toks -> c ∉ toks') -> starts rest toks' = false.
Proof.
  intros [->|H] Hd; [done|]. destruct rest as [|[|k] ?]; [done..|]. cbn [starts] in *.
  apply not_true_is_false. rewrite in_str_spec in *. by apply Hd.
Qed.

Lemma follows_mono rest toks toks' :
  follows rest toks -> (forall c, c ∈ toks -> c ∈ toks') -> follows rest toks'.
Proof.
  intros [->|H] Hd; [by left|right]. destruct rest as [|[|k] ?]; [done..|]. cbn [starts] in *.
  rewrite in_str_spec in *. by apply Hd.
Qed.

(** The [i]-th of the four procedures, given enough fuel, parses a phrase that is followed by
    [toks]. *)
Definition parses (need : nat) (P : nat -> nat -> parsed cmd) (c : cmd) (ts : list token) (toks : list Z) : Prop :=
  forall fuel s rest, (s <= es)%nat -> (4 * (es - s) + need <= fuel)%nat -> lex line s = ts ++ rest -> follows rest toks ->
    exists s', P fuel s = P_ok c s' /\ lex line s' = rest /\ (s <= s' <= es)%nat.

Lemma peek_yes s c ts : (s <= es)%nat -> [c] ∈ [str "&"; str ";"; str "|"; str "("; str ")"] ->
  lex line s = T_sym c :: ts ->
  exists s' w s'', peek line s [c] = (true, s') /\ gettoken line s' = (c, w, s'') /\ lex line s' = lex line s /\
    lex line s'' = ts /\ (s <= s' < s'')%nat /\ (s'' <= es)%nat.
Proof.
  intros Hs Hc El. destruct (peek_set s [c]) as (s1 & E & Hl1 & H1); [done|set_solver|].
  rewrite El in *. destruct (gettoken_sym s1 _ _ (proj2 H1) Hl1) as (w & s2 & E2 & Hl2 & H2 & _).
  exists s1, w, s2. split_and!; try done; try lia. rewrite E. f_equal. cbn [starts].
  assert (c <> 43) by (intros ->; revert Hc; rewrite !elem_of_cons, elem_of_nil; cbn; naive_solver).
  unfold lead. rewrite (proj2 (Z.eqb_neq c 43)) by done. apply in_str_spec. set_solver.
Qed.

Lemma line_parses p n toks :
  (forall c, c ∈ toks -> c = 41) ->
  parses 3 (parsepipe line) (den_pipe p) (show_pipe p) [41; 38; 59] ->
  (parses 4 (parseline line) (backs n (den_pipe p)) (show_pipe p ++ replicate n (T_sym 38)) toks) /\
  (forall l, parses 4 (parseline line) (den_line l) (show_line l) toks ->
     parses 4 (parseline line) (den_line (SL_seq p n l)) (show_line (SL_seq p n l)) toks).
Proof.
  intros Ht Hp. split; [|intros l Hl]; intros [|f] s rest Hs Hf El Hfol; try lia;
    rewrite (proj1 (parse_step line f s)); cbn [show_line] in *; rewrite <- !app_assoc in El.
  - destruct (Hp f s (replicate n (T_sym 38) ++ rest)) as (s1 & -> & El1 & H1); [lia|lia|done| |].
    { destruct n; [|by right]. eapply follows_mono; [done|]. set_solver. }
    cbn [pthen]. fold es.
    destruct (parsebacks_complete n (S (es - s1)) (den_pipe p) s1 rest) as (s2 & -> & El2 & H2); [lia|lia|done| |].
    { eapply follows_not; [done|]. change (str "&") with [38]. set_solver. }
    cbn [pthen]. destruct (peek_set s2 (str ";")) as (s3 & -> & Hl3 & H3); [lia|set_solver|].
    rewrite El2. rewrite (follows_not rest toks (str ";")); [|done|change (str ";") with [59]; set_solver].
    exists s3. rewrite Hl3. split; [done|]. split; [done|lia].
  - destruct (Hp f s (replicate n (T_sym 38) ++ T_sym 59 :: show_line l ++ rest)) as (s1 & -> & El1 & H1); [lia|lia|done| |].
    { destruct n; by right. }
    cbn [pthen]. fold es.
    destruct (parsebacks_complete n (S (es - s1)) (den_pipe p) s1 (T_sym 59 :: show_line l ++ rest))
      as (s2 & -> & El2 & H2); [lia|lia|done|done|]. cbn [pthen]. change (str ";") with [59].
    destruct (peek_yes s2 59 _ (proj2 H2) ltac:(set_solver) El2) as (s3 & w & s4 & -> & -> & _ & El4 & H3 & H4).
    destruct (Hl f s4 rest) as (s5 & -> & El5 & H5); [lia|lia|done|done|].
    exists s5. split; [done|]. split; [done|lia].
Qed.

Lemma pipe_parses e :
  parses 2 (parseexec line) (den_exec e) (show_exec e) [124; 41; 38; 59] ->
  parses 3 (parsepipe line) (den_exec e) (show_exec e) [41; 38; 59] /\
  (forall p, parses 3 (parsepipe line) (den_pipe p) (show_pipe p) [41; 38; 59] ->
     parses 3 (parsepipe line) (den_pipe (SP_pipe e p)) (show_pipe (SP_pipe e p)) [41; 38; 59]).
Proof.
  intros He. split; [|intros p Hp]; intros [|f] s rest Hs Hf El Hfol; try lia;
    destruct (parse_step line f s) as (_ & -> & _); cbn [show_pipe] in *; rewrite <- ?app_assoc in El;
    change (str "|") with [124].
  - destruct (He f s rest) as (s1 & -> & El1 & H1); [lia|lia|done|eapply follows_mono; [done|set_solver]|].
    cbn [pthen]. destruct (peek_set s1 (str "|")) as (s3 & E3 & Hl3 & H3); [lia|set_solver|].
    change (str "|") with [124] in *. rewrite E3, El1, (follows_not rest [41; 38; 59] [124]) by (done || set_solver).
    exists s3. rewrite Hl3. split; [done|]. split; [done|lia].
  - destruct (He f s (T_sym 124 :: show_pipe p ++ rest)) as (s1 & -> & El1 & H1); [lia|lia|done|by right|].
    cbn [pthen].
    destruct (peek_yes s1 124 _ (proj2 H1) ltac:(set_solver) El1) as (s3 & w & s4 & -> & -> & _ & El4 & H3 & H4).
    destruct (Hp f s4 rest) as (s5 & -> & El5 & H5); [lia|lia|done|done|].
    exists s5. split; [done|]. split; [done|lia].
Qed.

Lemma cmd_parses rs args :
  (length args < MAXARGS)%nat ->
  parses 2 (parseexec line) (den_exec (SE_cmd rs args)) (show_exec (SE_cmd rs args)) [124; 41; 38; 59].
Proof.
  intros Hlen [|f] s rest Hs Hf El Hfol; [lia|]. destruct (parse_step line f s) as (_ & _ & -> & _).
  destruct (peek_set s (str "(")) as (s1 & -> & Hl1 & H1); [lia|set_solver|]. change (str "(") with [40].
  cbn [show_exec] in El. rewrite <- app_assoc in El. rewrite El in Hl1.
  assert (Hst : starts (lex line s) [40] = false).
  { rewrite El. destruct rs as [|[[] w] rs]; [|done..]. destruct args as [|[]]; [|done].
    eapply follows_not; [done|]. set_solver. }
  rewrite Hst. unfold redirs. fold es.
  destruct (parseredirs_complete rs (S (es - s1)) s1 (show_args args ++ rest)) as (s2 & -> & El2 & H2); [lia|lia|done| |].
  { destruct args as [|[]]; [|done]. eapply follows_not; [done|]. change (str "<>") with [60; 62]. set_solver. }
  cbn [pthen].
  destruct (parseargs_complete args (S (es - s2)) 0 s2 rest) as (s3 & -> & El3 & H3); [lia|lia|done|done|done|].
  cbn [pthen fst snd]. exists s3. split; [|split; [done|lia]]. cbn [den_exec]. unfold den_redirs. by rewrite fmap_app.
Qed.

Lemma block_parses l rs :
  parses 4 (parseline line) (den_line l) (show_line l) [41] ->
  parses 2 (parseexec line) (den_exec (SE_block l rs)) (show_exec (SE_block l rs)) [124; 41; 38; 59].
Proof.
  intros Hl [|[|f]] s rest Hs Hf El Hfol; [lia..|]. destruct (parse_step line (S f) s) as (_ & _ & -> & _).
  cbn [show_exec] in El. rewrite <- app_comm_cons, <- app_assoc, <- app_comm_cons in El. change (str "(") with [40].
  destruct (peek_yes s 40 _ Hs ltac:(set_solver) El) as (s1 & w0 & s0 & -> & _ & Hl1 & _ & H1 & H1').
  destruct (parse_step line f s1) as (_ & _ & _ & ->). change (str "(") with [40]. change (str ")") with [41].
  rewrite El in Hl1.
  destruct (peek_yes s1 40 _ ltac:(lia) ltac:(set_solver) Hl1) as (s2 & w & s3 & -> & -> & _ & Hl3 & H2 & H3). cbn [negb].
  destruct (Hl f s3 (T_sym 41 :: show_redirs rs ++ rest)) as (s4 & -> & Hl4 & H4); [lia|lia|done|by right|]. cbn [pthen].
  destruct (peek_yes s4 41 _ (proj2 H4) ltac:(set_solver) Hl4) as (s5 & w2 & s6 & -> & -> & _ & Hl6 & H5 & H6). cbn [negb].
  unfold redirs. fold es.
  destruct (parseredirs_complete rs (S (es - s6)) s6 rest) as (s7 & -> & El7 & H7); [lia|lia|done| |].
  { eapply follows_not; [done|]. change (str "<>") with [60; 62]. set_solver. }
  exists s7. split; [done|]. split; [done|lia].
Qed.

Lemma parse_complete :
  (forall l, fits_line l -> parses 4 (parseline line) (den_line l) (show_line l) [41]) /\
  (forall p, fits_pipe p -> parses 3 (parsepipe line) (den_pipe p) (show_pipe p) [41; 38; 59]) /\
  (forall e, fits_exec e -> parses 2 (parseexec line) (den_exec e) (show_exec e) [124; 41; 38; 59]).
Proof.
  apply syntax_ind; cbn [fits_line fits_pipe fits_exec].
  - intros p IH n Hf. apply line_parses; [set_solver|auto].
  - intros p IHp n l IHl [Hp Hl]. apply line_parses; [set_solver|auto..].
  - intros e IH He. apply pipe_parses. auto.
  - intros e IHe p IHp [He Hp]. apply pipe_parses; auto.
  - intros l IH rs Hl. apply block_parses. auto.
  - intros rs args Hl. by apply cmd_parses.
Qed.
End Accepts.

(** * The words of a command in the line *)
Fixpoint cmd_words (c : cmd) : list (nat * nat) :=
  match c with
  | EXEC args => args
  | REDIR c file efile _ _ => (file, efile) :: cmd_words c
  | PIPE a b | LIST a b => cmd_words a ++ cmd_words b
  | BACK c => cmd_words c
  end.

(** The characters of a word. *)
Definition word_text (line : list Z) (w : nat * nat) : list Z := take (w.2 - w.1) (drop w.1 line).

(** A maximal run of word characters. *)
Definition is_run (line : list Z) (w : nat * nat) : Prop :=
  (w.1 < w.2 <= length line)%nat /\ (forall i, (w.1 <= i < w.2)%nat -> is_word (chr line i) = true) /\
  (w.2 = length line \/ is_word (chr line w.2) = false).

Lemma redirs_words rs c w : w ∈ cmd_words (den_redirs rs c) <-> w ∈ cmd_words c \/ T_word w ∈ show_redirs rs.
Proof.
  unfold den_redirs, show_redirs. revert c. induction rs as [|[k v] rs IH]; intros c; cbn [fmap list_fmap fold_left mbind list_bind].
  { set_solver. }
  rewrite IH. cbn [redircmd cmd_words den_redir redir_of rsym fst snd show_redir app].
  rewrite !elem_of_cons. replace (rd_file _, rd_efile _) with v by (by destruct k, v). naive_solver.
Qed.

Lemma backs_words n c : cmd_words (backs n c) = cmd_words c.
Proof. revert c. induction n as [|n IH]; intros c; cbn [backs]; [done|]. by rewrite IH. Qed.

Lemma backs_tokens n w : T_word w ∉ replicate n (T_sym 38).
Proof. intros [? ?]%elem_of_replicate. done. Qed.

Lemma args_words (args : list ((nat * nat) * list sredir)) w :
  T_word w ∈ show_args args <-> w ∈ args.*1 \/ T_word w ∈ show_redirs (args ≫= snd).
Proof.
  unfold show_args, show_redirs. induction args as [|[v rs] args IH]; [cbn; set_solver|].
  rewrite !bind_cons, bind_app, fmap_cons, !elem_of_app, IH, !elem_of_cons. cbn. naive_solver.
Qed.

(** The words of the syntax tree are those of the command. *)
Lemma den_words :
  (forall l w, w ∈ cmd_words (den_line l) <-> T_word w ∈ show_line l) /\
  (forall p w, w ∈ cmd_words (den_pipe p) <-> T_word w ∈ show_pipe p) /\
  (forall e w, w ∈ cmd_words (den_exec e) <-> T_word w ∈ show_exec e).
Proof.
  pose proof backs_tokens as Hb.
  apply syntax_ind; cbn [den_line den_pipe den_exec show_line show_pipe show_exec cmd_words].
  - intros p IH n w. rewrite backs_words, elem_of_app, IH. naive_solver.
  - intros p IHp n l IHl w. rewrite backs_words, !elem_of_app, elem_of_cons, IHp, IHl. naive_solver.
  - done.
  - intros e IHe p IHp w. rewrite !elem_of_app, elem_of_cons, IHe, IHp. naive_solver.
  - intros l IHl rs w. rewrite redirs_words, elem_of_cons, elem_of_app, elem_of_cons, IHl. naive_solver.
  - intros rs args w. rewrite redirs_words, elem_of_app, args_words. cbn [cmd_words].
    unfold show_redirs. rewrite bind_app, elem_of_app. naive_solver.
Qed.

(** [nulterminate] writes a NUL at the end of every word, and nothing else. *)
Lemma nulterminate_length c l : length (nulterminate c l) = length l.
Proof.
  revert l. induction c as [args| | | |]; intros l; cbn [nulterminate]; rewrite ?length_insert; auto; [|congruence..].
  revert l. induction args as [|w args IH]; intros l; cbn [fold_left]; [done|]. by rewrite IH, length_insert.
Qed.

Lemma nulterminate_lookup c l i :
  (i < length l)%nat ->
  nulterminate c l !! i = if bool_decide (i ∈ (cmd_words c).*2) then Some 0 else l !! i.
Proof.
  assert (Hins : forall k (m : list Z) (B : bool), (i < length m)%nat ->
    <[k := 0]> m !! i = if bool_decide (i = k) then Some 0 else m !! i).
  { intros k m _ Hi. case_bool_decide; [subst; by apply list_lookup_insert_eq|by apply list_lookup_insert_ne]. }
  revert l. induction c as [args|c IH f e ? ?|a IHa b IHb|a IHa b IHb|c IH]; intros l Hi; cbn [nulterminate cmd_words].
  - revert l Hi. induction args as [|w args IH]; intros l Hi; cbn [fold_left fmap list_fmap]; [done|].
    rewrite IH by (by rewrite length_insert). rewrite (Hins w.2 l true Hi).
    repeat case_bool_decide; set_solver.
  - rewrite (Hins e (nulterminate c l) true) by (by rewrite nulterminate_length). rewrite IH by done. cbn [fmap list_fmap snd].
    repeat case_bool_decide; set_solver.
  - rewrite IHb by (by rewrite nulterminate_length). rewrite IHa by done. rewrite fmap_app.
    repeat case_bool_decide; set_solver.
  - rewrite IHb by (by rewrite nulterminate_length). rewrite IHa by done. rewrite fmap_app.
    repeat case_bool_decide; set_solver.
  - by apply IH.
Qed.

Lemma cstring_take buf n :
  (forall i, (i < n)%nat -> exists c, buf !! i = Some c /\ c <> 0) -> buf !! n = Some 0 -> cstring buf = Some (take n buf).
Proof.
  revert buf. induction n as [|n IH]; intros [|c buf] H Hn; try done; cbn [cstring take].
  - injection Hn as ->. done.
  - destruct (H 0%nat) as (c' & E & Hc); [lia|]. injection E as <-. rewrite (proj2 (Z.eqb_neq c 0)) by done.
    rewrite (IH buf); [done| |done]. intros i Hi. apply (H (S i)). lia.
Qed.

Section Words.
Context (line : list Z) (Hline : Forall (fun c => c <> 0) line).

Lemma lex_words s w : (s <= length line)%nat -> T_word w ∈ lex line s -> is_run line w.
Proof.
  remember (length line - s)%nat as n eqn:Hn. revert s Hn.
  induction (lt_wf n) as [n _ IH]. intros s -> Hs Hin. pose proof (gettoken_lex line Hline s Hs) as Hg.
  pose proof (gettoken_token line Hline s Hs) as Ht. destruct (lex line s) as [|[w'|k] ts]; [by apply elem_of_nil in Hin|..].
  - destruct Hg as (s' & Eg & <- & H). apply elem_of_cons in Hin as [E|Hin].
    + injection E as ->. rewrite Eg in Ht. inversion Ht; subst; [done|congruence].
    + apply (IH (length line - s')%nat ltac:(lia) s'); [done|lia|done].
  - destruct Hg as (w' & s' & Eg & _ & _ & _ & <- & H). apply elem_of_cons in Hin as [E|Hin]; [done|].
    apply (IH (length line - s')%nat ltac:(lia) s'); [done|lia|done].
Qed.

(** A word that is terminated can be read, whole, whatever the other words are. *)
Lemma terminated_word c w :
  (forall v, v ∈ cmd_words c -> is_run line v) -> w ∈ cmd_words c ->
  cstring (drop w.1 (nulterminate c (line ++ [0]))) = Some (word_text line w).
Proof.
  intros Hall Hw. pose proof (Hall w Hw) as (H1 & H2 & H3). set (buf := nulterminate c (line ++ [0])).
  assert (Hlen : length (line ++ [0]) = S (length line)) by (rewrite length_app; cbn; lia).
  assert (Hin : forall i, (w.1 <= i < w.2)%nat -> buf !! i = line !! i).
  { intros i Hi. unfold buf. rewrite nulterminate_lookup by lia. rewrite bool_decide_eq_false_2; [by rewrite lookup_app_l by lia|].
    intros (v & E & Hv)%list_elem_of_fmap. destruct (Hall v Hv) as (_ & _ & [E'|E']); [lia|].
    rewrite <- E, (H2 i Hi) in E'. done. }
  rewrite (cstring_take _ (w.2 - w.1)).
  - f_equal. unfold word_text. apply list_eq. intros i. destruct (decide (i < w.2 - w.1)%nat).
    + rewrite !lookup_take_lt, !lookup_drop by done. apply Hin. lia.
    + by rewrite !lookup_take_ge by lia.
  - intros i Hi. rewrite lookup_drop, Hin by lia.
    destruct (lookup_lt_is_Some_2 line (w.1 + i)%nat) as [x Hx]; [lia|]. exists x. split; [done|].
    rewrite Forall_lookup in Hline. by eapply Hline.
  - rewrite lookup_drop. unfold buf. rewrite nulterminate_lookup by lia.
    rewrite bool_decide_eq_true_2; [done|]. apply list_elem_of_fmap. exists w. split; [lia|done].
Qed.
End Words.

(** * Descriptors of the processes of a command *)

(** What the shell relies on in the kernel: descriptors are numbers below [NOFILE] naming
    open files; [dup], [open] and [pipe] take free ones, [dup] and [open] the lowest;
    [fork] and [wait] leave those of the caller alone, and a child starts with its parent's. *)
Definition setfd (v : Z -> option Z) (fd : Z) (o : option Z) : Z -> option Z := fun x => if x =? fd then o else v x.
Definition lowest_free (v : Z -> option Z) (n : Z) : Prop :=
  0 <= n < NOFILE /\ v n = None /\ forall m, 0 <= m < n -> v m <> None.

Class FdKernel {E : Type} (h : E -> call -> resp * E) : Type := {
  fds : E -> Z -> option Z;
  fds_close e fd x : fds (h e (C_close fd)).2 x = setfd (fds e) fd None x;
  fds_dup e fd o n : fds e fd = Some o -> lowest_free (fds e) n ->
    r_ret (h e (C_dup fd)).1 = n /\ forall x, fds (h e (C_dup fd)).2 x = setfd (fds e) n (Some o) x;
  fds_open e path mode : 0 <= r_ret (h e (C_open path mode)).1 ->
    exists o, lowest_free (fds e) (r_ret (h e (C_open path mode)).1) /\
      forall x, fds (h e (C_open path mode)).2 x = setfd (fds e) (r_ret (h e (C_open path mode)).1) (Some o) x;
  fds_pipe e : 0 <= r_ret (h e C_pipe).1 ->
    exists p0 p1 r w, r_data (h e C_pipe).1 = [p0; p1] /\ p0 <> p1 /\ fds e p0 = None /\ fds e p1 = None /\
      forall x, fds (h e C_pipe).2 x = setfd (setfd (fds e) p0 (Some r)) p1 (Some w) x;
  fds_fork e x : fds (h e C_fork).2 x = fds e x;
  fds_wait e x : fds (h e C_wait).2 x = fds e x
}.

(** Descriptors taken and closed again leave nothing behind. *)
Lemma setfd_back v v' p0 p1 a b x :
  v p0 = None -> v p1 = None -> (forall y, y <> p0 -> y <> p1 -> v' y = setfd (setfd v p0 a) p1 b y) ->
  setfd (setfd v' p0 None) p1 None x = v x.
Proof.
  intros H0 H1 H. unfold setfd in *. destruct (Z.eqb_spec x p1); [congruence|]. destruct (Z.eqb_spec x p0); [congruence|].
  rewrite H by done. by rewrite (proj2 (Z.eqb_neq x p1)), (proj2 (Z.eqb_neq x p0)).
Qed.

Section Descriptors.
Context {E : Type} (h : E -> call -> resp * E) {FK : FdKernel h}.
Implicit Types (e : E) (buf : list Z).

(** [runcmd] does not return. *)
Lemma exit_no_return {A} (p : prog A) (e : E) (a : unit) : (prun h (p >>> exit) e).1 <> R_done a.
Proof. rewrite prun_bind. by destruct (prun h p e) as [[] ?]. Qed.

Lemma runcmd_no_return buf c e a : (prun h (runcmd buf c) e).1 <> R_done a.
Proof.
  revert e. induction c as [[|w args]|c IH f ? mode fd|c1 IH1 c2 IH2|c1 IH1 c2 IH2|c IH]; intros e; cbn [runcmd].
  - done.
  - rewrite prun_bind. destruct (prun h (words_at buf (w :: args)) e) as [[argv| | |] e']; try done.
    unfold exec. rewrite prun_sys. apply exit_no_return.
  - unfold close. rewrite prun_sys, prun_bind. destruct (prun h (word_at buf f) _) as [[x| | |] e']; try done.
    unfold open. rewrite prun_sys. destruct (_ <? 0); apply exit_no_return.
  - unfold pipe. cbn [pbind prun]. destruct (h e C_pipe) as [r e']. cbn [pbind fst snd].
    destruct (r_ret r <? 0); [apply exit_no_return|].
    rewrite !prun_bind. destruct (prun h fork1 e') as [[pid| | |] e1]; try done.
    rewrite !prun_bind. destruct (prun h (pwhen _ _) e1) as [[[]| | |] e2]; try done.
    rewrite !prun_bind. destruct (prun h fork1 e2) as [[pid2| | |] e3]; try done.
    rewrite !prun_bind. destruct (prun h (pwhen _ _) e3) as [[[]| | |] e4]; try done.
    unfold close, wait. rewrite !prun_sys. done.
  - rewrite !prun_bind. destruct (prun h fork1 e) as [[pid| | |] e1]; try done.
    rewrite !prun_bind. destruct (prun h (pwhen _ _) e1) as [[[]| | |] e2]; try done.
    unfold wait. rewrite prun_sys. apply exit_no_return.
  - rewrite !prun_bind. destruct (prun h fork1 e) as [[pid| | |] e1]; try done. apply exit_no_return.
Qed.

(** What follows a [runcmd] is never reached. *)
Lemma runcmd_last buf c e (f : unit -> prog unit) :
  prun h (pbind (runcmd buf c) f) e = prun h (runcmd buf c) e.
Proof.
  rewrite prun_bind. pose proof (runcmd_no_return buf c e) as H.
  destruct (prun h (runcmd buf c) e) as [[a| | |] e']; try done. by destruct (H a).
Qed.

Lemma fork1_run {B} (f : Z -> prog B) e :
  r_ret (h e C_fork).1 <> -1 -> prun h (pbind fork1 f) e = prun h (f (r_ret (h e C_fork).1)) (h e C_fork).2.
Proof.
  intros H. rewrite prun_bind. unfold fork1, fork. rewrite prun_sys. by rewrite (proj2 (Z.eqb_neq _ _) H).
Qed.

(** [close(fd); dup(p)] makes [fd] another name for [p], when everything below is open. *)
Lemma close_dup {B} (f : Z -> Z -> prog B) e fd p o :
  0 <= fd < NOFILE -> fd <> p -> fds e p = Some o -> (forall m, 0 <= m < fd -> fds e m <> None) ->
  exists e' r1 r2, prun h (pbind (close fd) (fun r => pbind (dup p) (f r))) e = prun h (f r1 r2) e' /\
    forall x, fds e' x = setfd (fds e) fd (Some o) x.
Proof.
  intros Hfd Hp Ho Hlow. unfold close, dup. rewrite !prun_sys. set (e1 := (h e (C_close fd)).2).
  assert (H1 : forall x, fds e1 x = setfd (fds e) fd None x) by apply fds_close.
  destruct (fds_dup e1 p o fd) as [_ H2].
  - rewrite H1. unfold setfd. by rewrite (proj2 (Z.eqb_neq p fd)).
  - unfold lowest_free. rewrite H1. unfold setfd at 1. rewrite Z.eqb_refl. split_and!; try done; try lia.
    intros m Hm. rewrite H1. unfold setfd. rewrite (proj2 (Z.eqb_neq m fd)) by lia. apply Hlow. lia.
  - eexists _, _, _. split; [done|]. intros x. rewrite H2. unfold setfd. rewrite H1. unfold setfd.
    by destruct (x =? fd).
Qed.

Lemma close2 e p q :
  exists e' r1 r2, (forall B (f : Z -> Z -> prog B),
      prun h (pbind (close p) (fun r => pbind (close q) (f r))) e = prun h (f r1 r2) e') /\
    forall x, fds e' x = setfd (setfd (fds e) p None) q None x.
Proof.
  eexists _, _, _. split; [intros B f; unfold close; by rewrite !prun_sys|]. intros x. rewrite fds_close.
  unfold setfd. destruct (x =? q); [done|]. by rewrite fds_close.
Qed.

(** A child of a pipeline: [fd] is its end of the pipe, and it has no other. *)
Lemma pipe_child e fd p p0 p1 o buf c :
  0 <= fd < NOFILE -> fd <> p0 -> fd <> p1 -> p = p0 \/ p = p1 -> fds e p = Some o ->
  (forall m, 0 <= m < fd -> fds e m <> None) ->
  exists e', (forall f, prun h (pbind (pwhen true (close fd >>> dup p >>> close p0 >>> close p1 >>> runcmd buf c)) f) e
      = prun h (runcmd buf c) e') /\
    forall x, fds e' x = setfd (setfd (setfd (fds e) fd (Some o)) p0 None) p1 None x.
Proof.
  intros Hfd H0 H1 Hp Ho Hlow. cbn [pwhen].
  destruct (close_dup (fun _ _ => close p0 >>> close p1 >>> runcmd buf c) e fd p o) as (e1 & r1 & r2 & E1 & F1);
    [done|by destruct Hp; subst|done|done|].
  destruct (close2 e1 p0 p1) as (e2 & r3 & r4 & E2 & F2).
  exists e2. split.
  - intros f. rewrite prun_bind, E1, E2. pose proof (runcmd_last buf c e2 f) as Hl. by rewrite prun_bind in Hl.
  - intros x. rewrite F2. unfold setfd. destruct (x =? p1); [done|]. destruct (x =? p0); [done|]. by rewrite F1.
Qed.
End Descriptors.

Lemma panic_run {E A} (h : E -> call -> resp * E) (s : list Z) e :
  prun h (panic s : prog A) e = (R_exit, put_env h 2 (s ++ [NL]) e).
Proof.
  unfold panic. rewrite (printf_then h _ _ _ (s ++ [NL])); [done|].
  done.
Qed.

Lemma panic_not_done {A} (s : list Z) (a : A) : panic s <> Done a.
Proof. intros H. pose proof (panic_run (A := A) (fun e _ => (mkResp 0 [], e)) s tt) as Hr. by rewrite H in Hr. Qed.

(** C21: The shell's parser is total and exact. On a line without NUL bytes [parsecmd] never
    runs out of its recursion bound and never faults: it either prints an error and exits,
    or yields a command, and it yields [c] exactly when the tokens of the line are those of
    a syntax tree of the command language (with fewer than 10 arguments per command) that
    denotes [c]. *)
Theorem parsecmd_exact line :
  Forall (fun c => c <> 0) line ->
  (forall c buf, parsecmd line = Done (c, buf) <->
     buf = nulterminate c (line ++ [0]) /\
     exists l, fits_line l /\ lex line 0 = show_line l /\ c = den_line l) /\
  ((exists c buf, parsecmd line = Done (c, buf)) \/
   forall E (h : E -> call -> resp * E) e, (prun h (parsecmd line) e).1 = R_exit).
Proof.
  intros Hline. pose proof (parse_sound line Hline (parse_fuel line) 0 (Nat.le_0_l _)) as (Hs & _).
  specialize (Hs ltac:(unfold parse_fuel; lia)). unfold sound_as, parsecmd in *.
  destruct (parse_complete line Hline) as (Hc & _). unfold parses in Hc.
  assert (Hc' : forall l, fits_line l -> lex line 0 = show_line l ->
    exists s', parseline line (parse_fuel line) 0 = P_ok (den_line l) s' /\ lex line s' = [] /\ (s' <= length line)%nat).
  { intros l Hf El. destruct (Hc l Hf (parse_fuel line) 0%nat []) as (s' & E & El' & H);
      [lia|unfold parse_fuel; lia|by rewrite app_nil_r|by left|]. exists s'. split_and!; [done|done|lia]. }
  destruct (parseline line (parse_fuel line) 0) as [c s'|m|]; [| |done].
  - destruct Hs as (l & Hfit & -> & El & H). destruct (peek_end line Hline s') as (b & s2 & -> & Hend); [lia|].
    destruct (Nat.eqb_spec s2 (length line)) as [E2|E2]; cbn [negb].
    + rewrite (proj1 Hend E2), app_nil_r in El. split; [|left; by eexists _, _].
      intros c buf. split; [intros [= <- <-]; split; [done|by exists l]|].
      intros (-> & l2 & Hf2 & El2 & ->). destruct (Hc' l2 Hf2 El2) as (s3 & [= E3 ->] & _). by rewrite E3.
    + split.
      * intros c buf. split; [discriminate|]. intros (-> & l2 & Hf2 & El2 & ->).
        destruct (Hc' l2 Hf2 El2) as (s3 & [= E3 ->] & El3 & _). tauto.
      * right. intros E h e. rewrite (printf_then h _ _ _ (str "leftovers: " ++ drop s2 line ++ [NL])); [by rewrite panic_run|done].
  - split; [|right; intros E h e; by rewrite panic_run].
    intros c buf. split; [by intros ?%panic_not_done|]. intros (-> & l2 & Hf2 & El2 & ->). by destruct (Hc' l2 Hf2 El2) as (s3 & E3 & _).
Qed.


(** C31: The shell connects a pipeline correctly. When the pipe and the forks succeed and
    descriptors 0 and 1 are open, the first child runs the left command with the pipe's
    write end as descriptor 1, the second child the right command with its read end as
    descriptor 0, each otherwise with the shell's descriptors and with no further reference
    to the pipe, and the parent keeps none of it. *)
Theorem runcmd_pipe {E : Type} (h : E -> call -> resp * E) {FK : FdKernel h} buf a b e :
  fds e 0 <> None -> fds e 1 <> None ->
  0 <= r_ret (h e C_pipe).1 ->
  let e1 := (h e C_pipe).2 in
  r_ret (h e1 C_fork).1 <> -1 ->
  let e2 := (h e1 C_fork).2 in
  r_ret (h e2 C_fork).1 <> -1 ->
  exists p0 p1 r w, r_data (h e C_pipe).1 = [p0; p1] /\ fds e1 p0 = Some r /\ fds e1 p1 = Some w /\
    if r_ret (h e1 C_fork).1 =? 0 then
      exists e', prun h (runcmd buf (PIPE a b)) e = prun h (runcmd buf a) e' /\
        forall x, fds e' x = setfd (fds e) 1 (Some w) x
    else if r_ret (h e2 C_fork).1 =? 0 then
      exists e', prun h (runcmd buf (PIPE a b)) e = prun h (runcmd buf b) e' /\
        forall x, fds e' x = setfd (fds e) 0 (Some r) x
    else exists e', prun h (runcmd buf (PIPE a b)) e = (R_exit, e') /\ forall x, fds e' x = fds e x.
Proof.
  intros H0 H1 Hp e1 Hf1 e2 Hf2. destruct (fds_pipe e Hp) as (p0 & p1 & r & w & Hd & Hne & Hp0 & Hp1 & Hfd).
  exists p0, p1, r, w. fold e1 in Hfd. split; [done|].
  assert (Hr : fds e1 p0 = Some r).
  { rewrite Hfd. unfold setfd. by rewrite (proj2 (Z.eqb_neq p0 p1)), Z.eqb_refl by done. }
  assert (Hw : fds e1 p1 = Some w) by (rewrite Hfd; unfold setfd; by rewrite Z.eqb_refl).
  split; [done|]. split; [done|].
  assert (N : p0 <> 0 /\ p0 <> 1 /\ p1 <> 0 /\ p1 <> 1) by (split_and!; congruence).
  cbn [runcmd]. unfold pipe. cbn [pbind]. rewrite prun_ask. fold e1. cbn [pbind fst snd].
  destruct (Z.ltb_spec (r_ret (h e C_pipe).1) 0); [lia|]. rewrite Hd. cbn [nth].
  assert (Hf : forall x, fds e2 x = fds e1 x) by (intros; apply fds_fork).
  rewrite fork1_run by done. fold e2. destruct (Z.eqb_spec (r_ret (h e1 C_fork).1) 0) as [E0|E0].
  - destruct (pipe_child h e2 1 p1 p0 p1 w buf a) as (e' & E' & Hx); [by split|lia|lia|by right|by rewrite Hf| |].
    { intros m Hm. replace m with 0 by lia. rewrite Hf, Hfd. unfold setfd.
      by rewrite (proj2 (Z.eqb_neq 0 p1)), (proj2 (Z.eqb_neq 0 p0)) by lia. }
    exists e'. rewrite E'. split; [done|]. intros x. rewrite Hx.
    apply (setfd_back (setfd (fds e) 1 (Some w)) _ p0 p1 (Some r) (Some w));
      [unfold setfd; by rewrite (proj2 (Z.eqb_neq _ 1)) by lia..|].
    intros y Hy0 Hy1. unfold setfd. rewrite Hf, Hfd. unfold setfd.
    by rewrite (proj2 (Z.eqb_neq y p1)), (proj2 (Z.eqb_neq y p0)).
  - cbn [pwhen pbind]. rewrite fork1_run by done. set (e3 := (h e2 C_fork).2).
    assert (Hf3 : forall x, fds e3 x = fds e1 x) by (intros; unfold e3; by rewrite fds_fork, Hf).
    destruct (Z.eqb_spec (r_ret (h e2 C_fork).1) 0) as [E2|E2].
    + destruct (pipe_child h e3 0 p0 p0 p1 r buf b) as (e' & E' & Hx); [by split|lia|lia|by left|by rewrite Hf3|lia|].
      exists e'. rewrite E'. split; [done|]. intros x. rewrite Hx.
      apply (setfd_back (setfd (fds e) 0 (Some r)) _ p0 p1 (Some r) (Some w));
        [unfold setfd; by rewrite (proj2 (Z.eqb_neq _ 0)) by lia..|].
      intros y Hy0 Hy1. unfold setfd. rewrite Hf3, Hfd. unfold setfd.
      by rewrite (proj2 (Z.eqb_neq y p1)), (proj2 (Z.eqb_neq y p0)).
    + cbn [pwhen pbind]. destruct (close2 h e3 p0 p1) as (e' & r1 & r2 & -> & Hx).
      unfold wait. rewrite !prun_sys. eexists. split; [done|]. intros x. rewrite !fds_wait, Hx.
      apply (setfd_back (fds e) _ p0 p1 (Some r) (Some w)); [done|done|]. intros y _ _. by rewrite Hf3.
Qed.

(** A kernel with one table of descriptors and given answers to [fork]. *)
Definition free_fd (v : Z -> option Z) : option Z :=
  snd <$> list_find (fun n => v n = None) (Z.of_nat <$> seq 0 (Z.to_nat NOFILE)).

Definition fd_kernel (e : (Z -> option Z) * list Z) (c : call) : resp * ((Z -> option Z) * list Z) :=
  let v := e.1 in
  match c with
  | C_close fd => (mkResp 0 [], (setfd v fd None, e.2))
  | C_dup fd =>
      match v fd, free_fd v with
      | Some o, Some n => (mkResp n [], (setfd v n (Some o), e.2))
      | _, _ => (mkResp (-1) [], e)
      end
  | C_open _ _ =>
      match free_fd v with
      | Some n => (mkResp n [], (setfd v n (Some 50), e.2))
      | None => (mkResp (-1) [], e)
      end
  | C_pipe =>
      match free_fd v with
      | Some p0 =>
          match free_fd (setfd v p0 (Some 60)) with
          | Some p1 => (mkResp 0 [p0; p1], (setfd (setfd v p0 (Some 60)) p1 (Some 61), e.2))
          | None => (mkResp (-1) [], e)
          end
      | None => (mkResp (-1) [], e)
      end
  | C_fork => (mkResp (hd 0 e.2) [], (v, tl e.2))
  | _ => (mkResp 0 [], e)
  end.

Lemma free_fd_spec v n : free_fd v = Some n <-> lowest_free v n.
Proof.
  unfold free_fd, lowest_free. rewrite fmap_Some. split.
  - intros ([i m] & H & ->). apply list_find_Some in H as (H1 & H2 & H3). cbn [snd].
    apply list_lookup_fmap_Some in H1 as (j & -> & H1). apply lookup_seq in H1 as [-> Hi].
    split_and!; [lia|lia|done|]. intros k Hk. apply (H3 (Z.to_nat k) k); [|lia].
    rewrite list_lookup_fmap, lookup_seq_lt by lia. cbn. f_equal. lia.
  - intros (Hn & Hv & Hlow). exists (Z.to_nat n, n). split; [|done]. apply list_find_Some. split_and!.
    + rewrite list_lookup_fmap, lookup_seq_lt by lia. cbn. f_equal. lia.
    + done.
    + intros j y Hj Hlt. apply list_lookup_fmap_Some in Hj as (j' & -> & Hj). apply lookup_seq in Hj as [-> Hj].
      apply Hlow. lia.
Qed.

#[export, refine] Instance fd_kernel_ok : FdKernel fd_kernel := {| fds := fst |}.
Proof.
  - done.
  - intros e fd o n Ho Hn. cbn. rewrite Ho, (proj2 (free_fd_spec e.1 n) Hn). done.
  - intros e path mode. cbn. destruct (free_fd e.1) as [n|] eqn:E; cbn; [|lia]. intros _. exists 50.
    apply free_fd_spec in E. done.
  - intros e. cbn. destruct (free_fd e.1) as [p0|] eqn:E0; cbn; [|lia].
    destruct (free_fd (setfd e.1 p0 (Some 60))) as [p1|] eqn:E1; cbn; [|lia]. intros _. exists p0, p1, 60, 61.
    apply free_fd_spec in E0 as (_ & H0 & _). apply free_fd_spec in E1 as (_ & H1 & _). unfold setfd in H1.
    destruct (Z.eqb_spec p1 p0); [done|]. split_and!; done.
  - done.
  - done.
Defined.

(** The shell's child for "a | b" with descriptors 0, 1 and 2 open. *)
Definition three_fds : Z -> option Z := fun x => if (0 <=? x) && (x <=? 2) then Some x else None.

Lemma runcmd_pipe_witness :
  exists e', prun fd_kernel (runcmd [97; 0; 98; 0] (PIPE (EXEC [(0, 1)]%nat) (EXEC [(2, 3)]%nat))) (three_fds, [0])
      = prun fd_kernel (runcmd [97; 0; 98; 0] (EXEC [(0, 1)]%nat)) e' /\
    forall x, fds e' x = setfd three_fds 1 (Some 61) x.
Proof.
  destruct (runcmd_pipe fd_kernel [97; 0; 98; 0] (EXEC [(0, 1)]%nat) (EXEC [(2, 3)]%nat) (three_fds, [0]))
    as (p0 & p1 & r & w & H1 & H2 & H3 & H4).
  - discriminate.
  - discriminate.
  - vm_compute. discriminate.
  - vm_compute. discriminate.
  - vm_compute. discriminate.
  - vm_compute in H1. injection H1 as <- <-. vm_compute in H3. injection H3 as <-. exact H4.
Defined.

Lemma parsecmd_exact_witness :
  exists buf, parsecmd (str "ls > f; a | b &") =
    Done (LIST (REDIR (EXEC [(0, 2)]) 5 6 513 1) (BACK (PIPE (EXEC [(8, 9)]) (EXEC [(12, 13)]))), buf)%nat.
Proof.
  eexists. apply (parsecmd_exact (str "ls > f; a | b &")).
  - apply (bool_decide_unpack _). vm_compute. exact I.
  - split; [reflexivity|].
    exists (SL_seq (SP_one (SE_cmd [] [((0, 2), [(R_out, (5, 6))])])) 0
             (SL_one (SP_pipe (SE_cmd [] [((8, 9), [])]) (SP_one (SE_cmd [] [((12, 13), [])]))) 1))%nat.
    split; [cbn; unfold MAXARGS; lia|]. split; [vm_compute; reflexivity|vm_compute; reflexivity].
Defined.

