(* ===== verification/Grep.v ===== *)
(** [grep.c]: the regular-expression matcher, against the languages its expressions denote,
    and the loop that filters the lines of a file. *)

From S2P Require Import Prelude Bytes Params Cprintf User.
From stdpp Require Import base list strings.
From Stdlib Require Import ZArith Lia.
Local Open Scope Z_scope.
Local Open Scope prog_scope.

(** * The matcher *)

(** [matchstar(c, re, text)], where [m] is [matchhere(re, .)]. *)
Fixpoint matchstar (m : list Z -> bool) (c : Z) (text : list Z) : bool :=
  if m text then true
  else match text with
       | [] => false
       | x :: text' => if (x =? c) || (c =? 46) then matchstar m c text' else false
       end.

Fixpoint matchhere (re : list Z) (text : list Z) {struct re} : bool :=
  match re with
  | [] => true
  | c :: re1 =>
      let plain :=
        match text with
        | [] => false
        | x :: text' => if (c =? 46) || (c =? x) then matchhere re1 text' else false
        end in
      match re1 with
      | [] => if c =? 36 then (match text with [] => true | _ => false end) else plain
      | d :: re2 => if d =? 42 then matchstar (matchhere re2) c text else plain
      end
  end.

(** The [do ... while( *text++ != 0)] loop of [match]. *)
Fixpoint match_loop (re : list Z) (text : list Z) : bool :=
  if matchhere re text then true
  else match text with
       | [] => false
       | _ :: text' => match_loop re text'
       end.

Definition match_re (re text : list Z) : bool :=
  match re with
  | c :: re' => if c =? 94 then matchhere re' text else match_loop re text
  | [] => match_loop re text
  end.

(** * Filtering *)

(** [strchr(p, '\n')] in the bytes from [p] on: the line, and what follows it. *)
Fixpoint split_nl (l : list Z) : option (list Z * list Z) :=
  match l with
  | [] => None
  | c :: l' =>
      if c =? 0 then None
      else if c =? 10 then Some ([], l')
      else match split_nl l' with
           | Some (a, b) => Some (c :: a, b)
           | None => None
           end
  end.

(** The inner loop: the bytes from [p] on when it ends. Each turn takes at least a byte. *)
Fixpoint grep_lines (fuel : nat) (pattern : list Z) (l : list Z) : prog (list Z) :=
  match fuel with
  | O => More
  | S f =>
      match split_nl l with
      | None => Done l
      | Some (line, rest) =>
          (if match_re pattern line then write 1 (line ++ [10]) >>> Done tt else Done tt) >>>
          grep_lines f pattern rest
      end
  end.

(** The outer loop: [l] are the first [m] bytes of [buf], of 1024. *)
Fixpoint grep_loop (fuel : nat) (pattern : list Z) (fd : Z) (l : list Z) : prog unit :=
  let? r := read fd (1024 - Z.of_nat (length l) - 1) in
  if r_ret r <=? 0 then Done tt else
  match fuel with
  | O => More
  | S f =>
      let l := l ++ r_data r in
      let? p := grep_lines (S (length l)) pattern l in
      grep_loop f pattern fd (if (length p =? length l)%nat then [] else p)
  end.

Definition grep (fuel : nat) (pattern : list Z) (fd : Z) : prog unit := grep_loop fuel pattern fd [].

Definition grep_main (fuel : nat) (argv : list (list Z)) : prog unit :=
  match argv with
  | [] | [_] => printf 2 (str "usage: grep pattern [file ...]" ++ [NL]) [] >>> exit
  | [_; pattern] => grep fuel pattern 0 >>> exit
  | _ :: pattern :: files =>
      pfor files (fun name =>
        let? fd := open name 0 in
        if fd <? 0 then
          printf 1 (str "grep: cannot open %s" ++ [NL]) [A_str (Some name)] >>> exit
        else
        grep fuel pattern fd >>>
        close fd >>>
        Done tt) >>>
      exit
  end.

(** * What an expression means *)

(** A character stands for itself, "." for any character; [E_star] is zero or more of them. *)
Inductive elem : Type := E_char (c : Z) | E_star (c : Z).
Definition sat (c x : Z) : Prop := c = 46 \/ c = x.

(** The elements of an expression, and whether it ends with "$". *)
Fixpoint elems (re : list Z) : list elem * bool :=
  match re with
  | [] => ([], false)
  | c :: re1 =>
      match re1 with
      | [] => if c =? 36 then ([], true) else ([E_char c], false)
      | d :: re2 =>
          if d =? 42 then let '(es, b) := elems re2 in (E_star c :: es, b)
          else let '(es, b) := elems re1 in (E_char c :: es, b)
      end
  end.

Inductive lang : list elem -> list Z -> Prop :=
| lang_nil : lang [] []
| lang_char c es x t : sat c x -> lang es t -> lang (E_char c :: es) (x :: t)
| lang_skip c es t : lang es t -> lang (E_star c :: es) t
| lang_more c es x t : sat c x -> lang (E_star c :: es) t -> lang (E_star c :: es) (x :: t).

(** The expression matches a beginning of [text], all of it when it ends with "$". *)
Definition at_start (re text : list Z) : Prop :=
  exists t1 t2, text = t1 ++ t2 /\ lang (elems re).1 t1 /\ ((elems re).2 = true -> t2 = []).

Section Matcher.
Implicit Types (re text : list Z).

Lemma satb c x : (c =? 46) || (c =? x) = true <-> sat c x.
Proof. unfold sat. by rewrite orb_true_iff, !Z.eqb_eq. Qed.

Lemma matchstar_spec m c text :
  matchstar m c text = true <-> exists t1 t2, text = t1 ++ t2 /\ Forall (sat c) t1 /\ m t2 = true.
Proof.
  induction text as [|x text IH]; cbn [matchstar].
  - destruct (m []) eqn:E; split; try done.
    + intros _. by exists [], [].
    + intros ([|] & t2 & H & _ & Hm); [|done]. cbn in H. subst t2. congruence.
  - destruct (m (x :: text)) eqn:E.
    { split; [|done]. intros _. by exists [], (x :: text). }
    destruct ((x =? c) || (c =? 46)) eqn:Es.
    + rewrite IH. assert (Hs : sat c x) by (apply satb; rewrite orb_comm, Z.eqb_sym; done). split.
      * intros (t1 & t2 & -> & H1 & H2). exists (x :: t1), t2. split_and!; [done|by constructor|done].
      * intros ([|y t1] & t2 & H & H1 & H2); cbn in H; [subst t2; congruence|]. injection H as -> ->.
        apply Forall_cons in H1 as [_ H1]. by exists t1, t2.
    + split; [done|]. intros ([|y t1] & t2 & H & H1 & H2); cbn in H; [subst t2; congruence|]. injection H as -> ->.
      apply Forall_cons in H1 as [H1 _]. apply satb in H1. rewrite orb_comm, Z.eqb_sym in H1. congruence.
Qed.

Lemma lang_star c es t :
  lang (E_star c :: es) t <-> exists t1 t2, t = t1 ++ t2 /\ Forall (sat c) t1 /\ lang es t2.
Proof.
  split.
  - remember (E_star c :: es) as l eqn:E. induction 1 as [| |c' es' t H _|c' es' x t Hs H IH]; simplify_eq.
    + by exists [], t.
    + destruct (IH eq_refl) as (t1 & t2 & -> & H1 & H2). exists (x :: t1), t2. split_and!; [done|by constructor|done].
  - intros (t1 & t2 & -> & H1 & H2). induction H1 as [|x t1 Hx _ IH]; by constructor.
Qed.

(** One plain element of an expression. *)
Lemma at_start_char c re re1 text :
  elems re = (E_char c :: (elems re1).1, (elems re1).2) ->
  at_start re text <-> exists x text', text = x :: text' /\ sat c x /\ at_start re1 text'.
Proof.
  intros E. unfold at_start. rewrite E. cbn [fst snd]. split.
  - intros (t1 & t2 & -> & H & Hb). inversion H; subst. cbn. eexists _, _. split; [done|]. split; [done|]. eauto.
  - intros (x & ? & -> & Hs & t1 & t2 & -> & H & Hb). exists (x :: t1), t2. split_and!; [done|by constructor|done].
Qed.

Lemma plain_spec c re1 text :
  (forall t, matchhere re1 t = true <-> at_start re1 t) ->
  match text with
  | [] => false
  | x :: text' => if (c =? 46) || (c =? x) then matchhere re1 text' else false
  end = true <-> exists x text', text = x :: text' /\ sat c x /\ at_start re1 text'.
Proof.
  intros IH. destruct text as [|x text]; [split; [done|]; by intros (? & ? & ? & _)|].
  destruct ((c =? 46) || (c =? x)) eqn:E.
  - rewrite IH. apply satb in E. split; [by eexists _, _|]. intros (? & ? & ? & _ & H). by simplify_eq.
  - split; [done|]. intros (? & ? & ? & Hs & _). simplify_eq. apply satb in Hs. congruence.
Qed.

Lemma matchhere_step c d re text :
  matchhere (c :: d :: re) text =
  if d =? 42 then matchstar (matchhere re) c text
  else match text with
       | [] => false
       | x :: text' => if (c =? 46) || (c =? x) then matchhere (d :: re) text' else false
       end.
Proof. done. Qed.

Lemma matchhere_spec re text : matchhere re text = true <-> at_start re text.
Proof.
  revert text. induction re as [|c|c d re IH1 IH2] using list_ind2; intros text.
  - split; [|done]. intros _. exists [], text. by repeat constructor.
  - cbn [matchhere]. destruct (Z.eqb_spec c 36) as [->|Hc].
    + unfold at_start. cbn. destruct text as [|x text]; split; try done.
      * intros _. exists [], []. by repeat constructor.
      * intros (t1 & t2 & E & H & Hb). inversion H; subst. rewrite (Hb eq_refl) in E. done.
    + rewrite (at_start_char c _ []) by (cbn; by rewrite (proj2 (Z.eqb_neq c 36))).
      apply (plain_spec c []). intros t. split; [|done]. intros _. exists [], t. by repeat constructor.
  - rewrite matchhere_step. destruct (Z.eqb_spec d 42) as [->|Hd].
    + rewrite matchstar_spec. unfold at_start at 1. cbn [elems Z.eqb Pos.eqb].
      destruct (elems re) as [es b] eqn:Ee. cbn [fst snd]. split.
      * intros (t1 & t2 & -> & H1 & (t3 & t4 & -> & H3 & H4)%IH1). rewrite Ee in *. exists (t1 ++ t3), t4.
        split_and!; [by rewrite app_assoc|apply lang_star; by exists t1, t3|done].
      * intros (t12 & t4 & -> & (t1 & t3 & -> & H1 & H3)%lang_star & Hb). exists t1, (t3 ++ t4).
        split_and!; [by rewrite app_assoc|done|]. apply IH1. exists t3, t4. by rewrite Ee.
    + rewrite (at_start_char c _ (d :: re)).
      * apply plain_spec, IH2.
      * cbn [elems]. rewrite (proj2 (Z.eqb_neq d 42)) by done. by destruct re as [|? ?]; repeat case_match.
Qed.

Lemma match_loop_spec re text :
  match_loop re text = true <-> exists pre post, text = pre ++ post /\ at_start re post.
Proof.
  induction text as [|x text IH]; cbn [match_loop]; destruct (matchhere re _) eqn:E.
  - apply matchhere_spec in E. split; [|done]. intros _. by exists [], [].
  - split; [done|]. intros ([|] & post & H & Ha); [|done]. cbn in H. subst post.
    apply matchhere_spec in Ha. congruence.
  - apply matchhere_spec in E. split; [|done]. intros _. by exists [], (x :: text).
  - rewrite IH. split.
    + intros (pre & post & -> & Ha). by exists (x :: pre), post.
    + intros ([|y pre] & post & H & Ha); cbn in H; [subst post; apply matchhere_spec in Ha; congruence|].
      injection H as -> ->. by exists pre, post.
Qed.
End Matcher.

(** * Lines *)
Definition plain_text (l : list Z) : Prop := Forall (fun c => c <> 10 /\ c <> 0) l.
Definition unlines (ls : list (list Z)) : list Z := ls ≫= (fun l => l ++ [10]).

Section Lines.
Implicit Types (l last : list Z) (ls : list (list Z)).

Lemma split_nl_line l rest : plain_text l -> split_nl (l ++ 10 :: rest) = Some (l, rest).
Proof.
  induction 1 as [|c l [H1 H2] _ IH]; cbn; [done|].
  by rewrite (proj2 (Z.eqb_neq c 0)), (proj2 (Z.eqb_neq c 10)), IH by done.
Qed.

Lemma split_nl_last l : plain_text l -> split_nl l = None.
Proof.
  induction 1 as [|c l [H1 H2] _ IH]; cbn; [done|].
  by rewrite (proj2 (Z.eqb_neq c 0)), (proj2 (Z.eqb_neq c 10)), IH by done.
Qed.

Lemma grep_lines_run fuel pattern ls last e :
  Forall plain_text ls -> plain_text last -> (length (unlines ls ++ last) < fuel)%nat ->
  prun stream_h (grep_lines fuel pattern (unlines ls ++ last)) e =
    (R_done last, (e.1, e.2 ++ unlines (filter (fun l => match_re pattern l = true) ls))).
Proof.
  intros Hls Hlast. revert fuel e. induction Hls as [|l ls Hl Hls IH]; intros [|f] [i o] Hf; try lia; cbn [grep_lines].
  - cbn [unlines mbind list_bind app]. rewrite split_nl_last by done. cbn. by rewrite app_nil_r.
  - unfold unlines in *. rewrite bind_cons, <- !app_assoc in *. cbn [app] in *. rewrite split_nl_line by done.
    rewrite filter_cons. rewrite length_app in Hf. cbn in Hf. destruct (match_re pattern l) eqn:E.
    + rewrite prun_bind. unfold write. rewrite prun_sys. cbn [prun]. rewrite decide_True by done.
      rewrite IH by lia. cbn [stream_h fst snd]. by rewrite bind_cons, <- !app_assoc.
    + rewrite decide_False by done. cbn [pbind]. by rewrite IH by lia.
Qed.
End Lines.

(** C22: The matcher decides the language of its expression: [matchhere] holds exactly when a
    beginning of the text is in the language of the expression's elements (all of the text
    when the expression ends with "$"), and [match] when this is so at some position of the
    text, or at its start for an expression that begins with "^". *)
Theorem match_correct re text :
  (matchhere re text = true <-> at_start re text) /\
  (match_re re text = true <->
     if bool_decide (hd 0 re = 94) then at_start (tl re) text
     else exists pre post, text = pre ++ post /\ at_start re post).
Proof.
  split; [apply matchhere_spec|]. unfold match_re. destruct re as [|c re]; [apply match_loop_spec|]. cbn [hd tl].
  destruct (Z.eqb_spec c 94) as [->|Hc].
  - apply matchhere_spec.
  - rewrite bool_decide_eq_false_2 by done. apply match_loop_spec.
Qed.

(** C32: [grep] prints exactly the matching lines, in order: on an input that one [read]
    delivers (fewer than 1024 bytes, no NUL), the output is the lines that match, each with
    its newline; a last line without newline is not looked at. *)
Theorem grep_prints_matching fuel pattern fd ls last out :
  Forall plain_text ls -> plain_text last ->
  (0 < length (unlines ls ++ last) < 1024)%nat -> (0 < fuel)%nat ->
  prun stream_h (grep fuel pattern fd) ([unlines ls ++ last], out) =
    (R_done tt, ([], out ++ unlines (filter (fun l => match_re pattern l = true) ls))).
Proof.
  intros Hls Hlast Hlen Hf. destruct fuel as [|f]; [lia|]. unfold grep. cbn [grep_loop].
  rewrite read_piece by (cbn; lia). cbn [r_ret r_data app].
  destruct (Z.leb_spec (Z.of_nat (length (unlines ls ++ last))) 0); [lia|].
  rewrite prun_bind, grep_lines_run by (done || lia). cbn [fst snd].
  destruct f; cbn [grep_loop]; by rewrite read_eof.
Qed.

(** C39: A piece of input without a newline is thrown away when it does not follow the
    beginning of a line kept from before: what [grep] does after reading it is what it does
    on the rest of the input alone, although the line may continue there. *)
Theorem grep_drops_partial fuel pattern fd x rest out :
  plain_text x -> (0 < length x < 1024)%nat ->
  prun stream_h (grep (S fuel) pattern fd) (x :: rest, out) = prun stream_h (grep fuel pattern fd) (rest, out).
Proof.
  intros Hx Hlen. unfold grep. cbn [grep_loop]. rewrite read_piece by (cbn; lia). cbn [r_ret r_data app].
  destruct (Z.leb_spec (Z.of_nat (length x)) 0); [lia|].
  pose proof (grep_lines_run (S (length x)) pattern [] x (rest, out)) as Hg. cbn [unlines mbind list_bind app] in Hg.
  rewrite prun_bind, Hg by (done || lia). cbn. by rewrite Nat.eqb_refl, app_nil_r.
Qed.

(** The line "abc" comes in two reads; the pattern "ab" is not found. *)
Lemma grep_prints_matching_witness :
  prun stream_h (grep 1 (str "b*c$") 0) ([unlines [str "abc"; str "cab"] ++ str "c"], []) =
    (R_done tt, ([], unlines [str "abc"])).
Proof.
  rewrite (grep_prints_matching 1 (str "b*c$") 0 [str "abc"; str "cab"] (str "c") []).
  - vm_compute. reflexivity.
  - apply (bool_decide_unpack _). vm_compute. exact I.
  - apply (bool_decide_unpack _). vm_compute. exact I.
  - cbn. lia.
  - lia.
Defined.

Lemma grep_drops_partial_witness :
  prun stream_h (grep 2 (str "ab") 0) ([str "ab"; str "c" ++ [10]], []) = (R_done tt, ([], [])) /\
  match_re (str "ab") (str "abc") = true.
Proof.
  split; [|vm_compute; reflexivity].
  rewrite (grep_drops_partial 1 (str "ab") 0 (str "ab") [str "c" ++ [10]] []).
  - vm_compute. reflexivity.
  - apply (bool_decide_unpack _). vm_compute. exact I.
  - cbn. lia.
Defined.
