(* ===== verification/Utils.v ===== *)
(** The small user programs: [cat.c], [wc.c], [echo.c], [kill.c], [ln.c], [mkdir.c], [rm.c],
    [init.c], [zombie.c], [stressfs.c], [forktest.c], [ls.c], [ls1.c], [test.c] and the
    one-call programs. [fuel] bounds the loops that go on for as long as the kernel has
    data. *)

From S2P Require Import Prelude Bytes Params Cprintf User.
From stdpp Require Import base list strings.
From Stdlib Require Import ZArith Lia.
Local Open Scope Z_scope.
Local Open Scope prog_scope.

(** * Copying and counting *)

(** The loop of [cat]: the last result of [read]. *)
Fixpoint cat_loop (fuel : nat) (fd : Z) : prog Z :=
  let? r := read fd 512 in
  if r_ret r <=? 0 then Done (r_ret r) else
  match fuel with
  | O => More
  | S f =>
      let? k := write 1 (r_data r) in
      if negb (k =? r_ret r) then printf 1 (str "cat: write error" ++ [NL]) [] >>> exit
      else cat_loop f fd
  end.

Definition cat (fuel : nat) (file : list Z) : prog unit :=
  let? fd := open file 0 in
  let? n := cat_loop fuel fd in
  printf 1 [NL] [] >>>
  if n <? 0 then printf 1 (str "cat: read error" ++ [NL]) [] >>> exit else Done tt.

(** [l], [w], [c] and [inword] *)
Record counts : Type := mkCounts { w_l : Z; w_w : Z; w_c : Z; w_in : bool }.

Definition wc_white : list Z := [32; 13; 9; 10; 11].

(** One character. *)
Definition wc_step (k : counts) (x : Z) : counts :=
  let c := i32 (w_c k + 1) in
  let l := if x =? 10 then i32 (w_l k + 1) else w_l k in
  match strchr wc_white x with
  | Some _ => mkCounts l (w_w k) c false
  | None => if negb (w_in k) then mkCounts l (i32 (w_w k + 1)) c true else mkCounts l (w_w k) c (w_in k)
  end.

Fixpoint wc_loop (fuel : nat) (fd : Z) (k : counts) : prog (Z * counts) :=
  let? r := read fd 512 in
  if r_ret r <=? 0 then Done (r_ret r, k) else
  match fuel with
  | O => More
  | S f => wc_loop f fd (fold_left wc_step (r_data r) k)
  end.

Definition wc (fuel : nat) (fd : Z) (name : list Z) : prog unit :=
  let? r := wc_loop fuel fd (mkCounts 0 0 0 false) in
  if r.1 <? 0 then printf 1 (str "wc: read error" ++ [NL]) [] >>> exit else
  printf 1 (str "%d %d %d %s" ++ [NL]) [A_int (w_l r.2); A_int (w_w r.2); A_int (w_c r.2); A_str (Some name)].

Definition wc_main (fuel : nat) (argv : list (list Z)) : prog unit :=
  match argv with
  | [] | [_] => wc fuel 0 [] >>> exit
  | _ :: files =>
      pfor files (fun name =>
        let? fd := open name 0 in
        if fd <? 0 then
          printf 1 (str "wc: cannot open %s" ++ [NL]) [A_str (Some name)] >>> exit
        else
        wc fuel fd name >>>
        close fd >>>
        Done tt) >>>
      exit
  end.

(** * One call per argument *)
Fixpoint echo_args (args : list (list Z)) : prog unit :=
  match args with
  | [] => Done tt
  | a :: args' =>
      printf 1 (str "%s%s") [A_str (Some a); A_str (Some (match args' with [] => [NL] | _ => str " " end))] >>>
      echo_args args'
  end.
Definition echo_main (argv : list (list Z)) : prog unit := echo_args (tl argv) >>> exit.

Definition kill_main (argv : list (list Z)) : prog unit :=
  if (length argv <? 2)%nat then printf 2 (str "usage: kill pid..." ++ [NL]) [] >>> exit else
  pfor (tl argv) (fun a => kill (atoi a) >>> Done tt) >>>
  exit.

Definition ln_main (argv : list (list Z)) : prog unit :=
  match argv with
  | [_; old; new] =>
      let? r := link old new in
      pwhen (r <? 0) (printf 2 (str "link %s %s: failed" ++ [NL]) [A_str (Some old); A_str (Some new)]) >>>
      exit
  | _ => printf 2 (str "Usage: ln old new" ++ [NL]) [] >>> exit
  end.

Fixpoint mkdir_args (args : list (list Z)) : prog unit :=
  match args with
  | [] => Done tt
  | a :: args' =>
      let? r := mkdir a in
      if r <? 0 then printf 2 (str "mkdir: %s failed to create" ++ [NL]) [A_str (Some a)] else mkdir_args args'
  end.
Definition mkdir_main (argv : list (list Z)) : prog unit :=
  if (length argv <? 2)%nat then printf 2 (str "Usage: mkdir files..." ++ [NL]) [] >>> exit else
  mkdir_args (tl argv) >>>
  exit.

Fixpoint rm_args (args : list (list Z)) : prog unit :=
  match args with
  | [] => Done tt
  | a :: args' =>
      let? r := unlink a in
      if r <? 0 then printf 2 (str "rm: %s failed to delete" ++ [NL]) [A_str (Some a)] else rm_args args'
  end.
Definition rm_main (argv : list (list Z)) : prog unit :=
  if (length argv <? 2)%nat then printf 2 (str "Usage: rm files..." ++ [NL]) [] >>> exit else
  rm_args (tl argv) >>>
  exit.

(** * Processes *)

(** [while((wpid=wait()) >= 0 && wpid != pid) printf("zombie!")] *)
Fixpoint init_wait (fuel : nat) (pid : Z) : prog unit :=
  let? wpid := wait in
  if (0 <=? wpid) && negb (wpid =? pid) then
    printf 1 (str "zombie!" ++ [NL]) [] >>>
    match fuel with
    | O => More
    | S f => init_wait f pid
    end
  else Done tt.

Fixpoint init_loop (fuel : nat) : prog unit :=
  printf 1 (str "init: starting sh" ++ [NL]) [] >>>
  let? pid := fork in
  if pid <? 0 then printf 1 (str "init: fork failed" ++ [NL]) [] >>> exit else
  if pid =? 0 then
    exec (str "sh") [str "sh"] >>>
    printf 1 (str "init: exec sh failed" ++ [NL]) [] >>>
    exit
  else
  init_wait fuel pid >>>
  match fuel with
  | O => More
  | S f => init_loop f
  end.

Definition init_main (fuel : nat) : prog unit :=
  let? fd := open (str "console") O_RDWR in
  pwhen (fd <? 0) (mknod (str "console") 1 1 >>> open (str "console") O_RDWR >>> Done tt) >>>
  dup 0 >>>
  dup 0 >>>
  init_loop fuel.

Definition zombie_main : prog unit :=
  let? pid := fork in
  pwhen (0 <? pid) (sleep 5 >>> Done tt) >>>
  exit.

(** [for(i = 0; i < 4; i++) if(fork() > 0) break;] *)
Fixpoint stressfs_forks (n : nat) (i : Z) : prog Z :=
  match n with
  | O => Done i
  | S n' => let? pid := fork in if 0 <? pid then Done i else stressfs_forks n' (i + 1)
  end.

Definition stressfs_main : prog unit :=
  printf 1 (str "stressfs starting" ++ [NL]) [] >>>
  let data := replicate 512 97 in
  let? i := stressfs_forks 4 0 in
  printf 1 (str "write %d" ++ [NL]) [A_int i] >>>
  let path := str "stressfs" ++ [u8 (48 + i)] in
  let? fd := open path (Z.lor O_CREATE O_RDWR) in
  pfor (seq 0 20) (fun _ => write fd data >>> Done tt) >>>
  close fd >>>
  printf 1 (str "read" ++ [NL]) [] >>>
  let? fd := open path O_RDONLY in
  pfor (seq 0 20) (fun _ => read fd 512 >>> Done tt) >>>
  close fd >>>
  wait >>>
  exit.

(** [forktest.c] has a [printf] of its own, which ignores the arguments. *)
Definition ft_printf (fd : Z) (s : list Z) : prog unit := write fd s >>> Done tt.

(** The loop that forks: the number of children. *)
Fixpoint forktest_forks (k : nat) (n : Z) : prog Z :=
  match k with
  | O => Done n
  | S k' =>
      let? pid := fork in
      if pid <? 0 then Done n else
      if pid =? 0 then exit else forktest_forks k' (n + 1)
  end.

Fixpoint forktest_waits (n : nat) : prog unit :=
  match n with
  | O => Done tt
  | S n' =>
      let? r := wait in
      if r <? 0 then ft_printf 1 (str "wait stopped early" ++ [NL]) >>> exit else forktest_waits n'
  end.

Definition forktest : prog unit :=
  ft_printf 1 (str "fork test" ++ [NL]) >>>
  let? n := forktest_forks 1000 0 in
  if n =? 1000 then ft_printf 1 (str "fork claimed to work N times!" ++ [NL]) >>> exit else
  forktest_waits (Z.to_nat n) >>>
  let? r := wait in
  if negb (r =? -1) then ft_printf 1 (str "wait got too many" ++ [NL]) >>> exit else
  ft_printf 1 (str "fork test OK" ++ [NL]).
Definition forktest_main : prog unit := forktest >>> exit.

(** [clear.c]: [clear(x)] calls itself with the next character, up to 'x'. *)
Fixpoint clear (n : nat) (x : Z) : prog unit :=
  match n with
  | O => More
  | S n' => if x =? 120 then Done tt else printf 1 [NL] [] >>> clear n' (x + (49 - 48))
  end.
Definition clear_main : prog unit := clear 56 65 >>> exit.

(** [shutdown.c], [test_ps.c], [user_toggle.c], [container.c] *)
Definition shutdown_main : prog unit := sys C_halt >>> exit.
Definition test_ps_main : prog unit := sys C_ps >>> exit.
Definition user_toggle_main : prog unit := sys C_toggle >>> exit.
Definition container_main (argv : list (list Z)) : prog unit :=
  match argv with
  | _ :: a :: _ => sys (C_create_container (signed 8 (hd 0 a))) >>> exit
  | _ => Fault "*argv[1]"
  end.

(** * Listing directories *)

(** [for(p=path+strlen(path); p >= path && *p != '/'; p--); p++;] *)
Fixpoint last_part (path : list Z) : list Z :=
  match path with
  | [] => []
  | c :: path' => if existsb (Z.eqb 47) path' then last_part path' else if c =? 47 then path' else path
  end.

(** The static buffer's last byte stays 0. *)
Definition fmtname (path : list Z) : list Z :=
  let p := last_part path in
  if (Z.to_nat DIRSIZ <=? length p)%nat then p
  else p ++ replicate (Z.to_nat DIRSIZ - length p) 32.

(** [removelast]: a copy up to the first dollar sign, in a block of 100 bytes from [malloc]
    that is not terminated: [junk] is what the block holds before. *)
Fixpoint upto_dollar (s : list Z) : list Z :=
  match s with
  | [] => []
  | c :: s' => if c =? 36 then [] else c :: upto_dollar s'
  end.
Definition removelast (junk s : list Z) : prog (list Z) :=
  let copy := upto_dollar s in
  if (100 <? length copy)%nat then Fault "removelast: buffer" else
  match cstring (copy ++ drop (length copy) (take 100 junk)) with
  | Some x => Done x
  | None => Fault "removelast: not terminated"
  end.

Definition ls_entry (name : list Z) (st : stat) : prog unit :=
  printf 1 (str "%s %d %d %d" ++ [NL])
    [A_str (Some name); A_int (st_type st); A_int (st_ino st); A_int (st_size st)].

(** The two [if]s that print a file of [ls.c]. *)
Definition ls_show (junk : list Z) (cid : Z) (path : list Z) (st : stat) : prog unit :=
  pwhen ((st_cid st =? 0) || (st_cid st =? -1)) (ls_entry (fmtname path) st) >>>
  if st_cid st =? cid then
    let? p := removelast junk path in ls_entry (fmtname p) st
  else Done tt.

Definition stat0 : stat := mkStat 0 0 0 0 0 0.

(** [path/name]: [memmove(p, de.name, DIRSIZ); p[DIRSIZ] = 0;], read as a string. *)
Definition entry_path (path de : list Z) : list Z :=
  path ++ [47] ++ default (slice de 2 DIRSIZ) (cstring (slice de 2 DIRSIZ)).

Fixpoint ls_dir (fuel : nat) (show : list Z -> stat -> prog unit) (fd : Z) (path : list Z) (st : stat) : prog unit :=
  let? r := read fd 16 in
  if negb (r_ret r =? 16) then Done tt else
  match fuel with
  | O => More
  | S f =>
      if rd16 (r_data r) 0 =? 0 then ls_dir f show fd path st else
      let buf := entry_path path (r_data r) in
      let? s := stat_path buf st in
      if s.1 <? 0 then
        printf 1 (str "ls: cannot stat %s" ++ [NL]) [A_str (Some buf)] >>> ls_dir f show fd path s.2
      else show buf s.2 >>> ls_dir f show fd path s.2
  end.

(** [ls.c]. The stores through the pointer [ls_called], which is never set in a user
    program, are not part of the model. *)
Definition ls (fuel : nat) (junk path : list Z) : prog unit :=
  let? cid := getcid in
  let? fd := open path 0 in
  if fd <? 0 then printf 2 (str "ls: cannot open %s" ++ [NL]) [A_str (Some path)] else
  let? s := fstat fd stat0 in
  if s.1 <? 0 then
    printf 2 (str "ls: cannot stat %s" ++ [NL]) [A_str (Some path)] >>> close fd >>> Done tt
  else
  (if st_type s.2 =? T_FILE then ls_show junk cid path s.2
   else if st_type s.2 =? T_DIR then
     if (512 <? length path + 1 + Z.to_nat DIRSIZ + 1)%nat then printf 1 (str "ls: path too long" ++ [NL]) []
     else ls_dir fuel (ls_show junk cid) fd path s.2
   else Done tt) >>>
  close fd >>>
  Done tt.

(** [ls1.c] *)
Definition ls1 (fuel : nat) (path : list Z) : prog unit :=
  let? fd := open path 0 in
  if fd <? 0 then printf 2 (str "ls: cannot open %s" ++ [NL]) [A_str (Some path)] else
  let? s := fstat fd stat0 in
  if s.1 <? 0 then
    printf 2 (str "ls: cannot stat %s" ++ [NL]) [A_str (Some path)] >>> close fd >>> Done tt
  else
  (if st_type s.2 =? T_FILE then ls_entry (fmtname path) s.2
   else if st_type s.2 =? T_DIR then
     if (512 <? length path + 1 + Z.to_nat DIRSIZ + 1)%nat then printf 1 (str "ls: path too long" ++ [NL]) []
     else ls_dir fuel (fun p st => ls_entry (fmtname p) st) fd path s.2
   else Done tt) >>>
  close fd >>>
  Done tt.

Definition ls1_main (fuel : nat) (argv : list (list Z)) : prog unit :=
  if (length argv <? 2)%nat then ls1 fuel (str ".") >>> exit else
  pfor (tl argv) (ls1 fuel) >>>
  exit.

(** [assig1_2.c] *)
Definition assig1_2_main (fuel : nat) (junk : list Z) : prog unit :=
  let? pid := fork in
  if pid =? 0 then
    sys (C_create_container 2) >>>
    sys (C_join_container 2) >>>
    let? fd2 := open (str "newfile") (Z.lor O_CREATE O_RDWR) in
    close fd2 >>>
    exit
  else ls fuel junk (str ".") >>> exit.

(** * test.c *)

(** [my_itoa_1(i, b)] with a buffer of 8 bytes, for [i >= 0]. *)
Definition my_itoa (i : Z) : prog (list Z) :=
  let d := rev (print_digits (str "0123456789") 10 i 10) in
  if (7 <? length d)%nat then Fault "my_itoa_1: buffer" else Done d.

(** [strcat(s1, s2)]: the block of 50 bytes it returns; [junk] is what [malloc] left in it. *)
Definition strcat (junk s1 s2 : list Z) : prog (list Z) :=
  let s := s1 ++ s2 ++ [0] in
  if (50 <? length s)%nat then Fault "strcat: buffer" else Done (s ++ drop (length s) (take 50 junk)).

(** The loop that forks: [pid] and [k] at its end; [n] turns are left. *)
Fixpoint test_forks (n : nat) (k : Z) (pid : Z) : prog (Z * Z) :=
  match n with
  | O => Done (pid, k)
  | S n' =>
      let? pid := fork in
      if pid =? -1 then printf 1 (str "fork failed" ++ [NL]) [] >>> Done (pid, k) else
      if pid =? 0 then Done (pid, k) else
      sleep 1 >>>
      test_forks n' (k + 1) pid
  end.

Definition test_child (fuel : nat) (junk : list Z) (k : Z) : prog unit :=
  pwhen ((k =? 1) || (k =? 2) || (k =? 3)) (sys (C_join_container 1) >>> Done tt) >>>
  pwhen ((k =? 4) || (k =? 5)) (sys (C_join_container (k - 2)) >>> Done tt) >>>
  let late := (k =? 3) || (k =? 4) || (k =? 5) in
  pwhen late (sys C_ps >>> Done tt) >>>
  pwhen late (sys C_scheduler_log >>> sleep 1 >>> sys C_scheduler_log >>> Done tt) >>>
  pwhen (k =? 5) (ls fuel junk (str ".")) >>>
  let? pid := sys C_getpid in
  let? num := my_itoa pid in
  let? name := strcat junk (str "file_") num in
  match cstring name with
  | None => Fault "string"
  | Some name => open name (Z.lor O_CREATE O_RDWR) >>> Done tt
  end >>>
  sleep 10 >>>
  pwhen (k =? 5) (ls fuel junk (str ".")) >>>
  pwhen late
    (let? file := open (str "my_file") (Z.lor O_CREATE O_RDWR) in
     let? pid := sys C_getpid in
     let? num := my_itoa pid in
     let? s := strcat junk (str "Modified by: ") num in
     write file (take 20 s) >>>
     close file >>>
     cat fuel (str "my_file")) >>>
  sleep 200 >>>
  sys C_leave_container >>>
  exit.

Definition test_main (fuel : nat) (junk : list Z) : prog unit :=
  sys (C_create_container 1) >>>
  sys (C_create_container 2) >>>
  sys (C_create_container 3) >>>
  let? r := test_forks 5 1 0 in
  if r.1 =? 0 then test_child fuel junk r.2
  else
  pfor (seq 0 5) (fun _ => wait >>> Done tt) >>>
  sys (C_destroy_container 1) >>>
  sys (C_destroy_container 2) >>>
  sys (C_destroy_container 3) >>>
  exit.

(** * What the programs print *)

(** The number of newlines and of maximal runs of other than blank characters. *)
Definition blank (x : Z) : bool := match strchr wc_white x with Some _ => true | None => false end.
Fixpoint newlines (l : list Z) : Z :=
  match l with
  | [] => 0
  | x :: l' => (if x =? 10 then 1 else 0) + newlines l'
  end.
Fixpoint words (before : bool) (l : list Z) : Z :=
  match l with
  | [] => 0
  | x :: l' => (if negb (blank x) && before then 1 else 0) + words (blank x) l'
  end.

Section Counting.
Implicit Types (l : list Z) (k : counts).

(** Counting from counts that are small enough for [int]. *)
Lemma wc_fold l k :
  0 <= w_l k -> 0 <= w_w k -> w_l k <= w_c k -> w_w k <= w_c k -> w_c k + Z.of_nat (length l) < 2 ^ 31 ->
  fold_left wc_step l k =
    mkCounts (w_l k + newlines l) (w_w k + words (negb (w_in k)) l) (w_c k + Z.of_nat (length l))
      (match last l with Some x => negb (blank x) | None => w_in k end).
Proof.
  revert k. induction l as [|x l IH]; intros k H1 H2 H3 H4 H5; cbn [fold_left length newlines words].
  { rewrite !Z.add_0_r. by destruct k. }
  cbn [length] in H5.
  assert (Hk : wc_step k x = mkCounts (w_l k + (if x =? 10 then 1 else 0))
    (w_w k + (if negb (blank x) && negb (w_in k) then 1 else 0)) (w_c k + 1) (negb (blank x))).
  { unfold wc_step, blank. rewrite !i32_small by lia.
    destruct (strchr wc_white x), (w_in k), (x =? 10); cbn [negb andb]; f_equal; (lia || done). }
  rewrite Hk, IH; cbn [w_l w_w w_c w_in].
  - rewrite negb_involutive. f_equal; try lia. rewrite last_cons. by destruct (last l).
  - destruct (x =? 10); lia.
  - destruct (negb (blank x) && negb (w_in k)); lia.
  - destruct (x =? 10); lia.
  - destruct (negb (blank x) && negb (w_in k)); lia.
  - lia.
Qed.
End Counting.

(** Input delivered in pieces, each as much as one [read] of 512 bytes can return. *)
Definition pieces_ok (ps : list (list Z)) : Prop := Forall (fun p => (0 < length p <= 512)%nat) ps.

Lemma wc_loop_run ps fuel fd k out :
  pieces_ok ps -> (length ps <= fuel)%nat ->
  prun stream_h (wc_loop fuel fd k) (ps, out) = (R_done (0, fold_left wc_step (concat ps) k), ([], out)).
Proof.
  intros Hps. revert fuel k. induction Hps as [|p ps Hp Hps IH]; intros fuel k Hf; cbn [length concat] in *.
  - destruct fuel; cbn [wc_loop]; by rewrite read_eof.
  - destruct fuel as [|f]; [lia|]. cbn [wc_loop]. rewrite read_piece by lia. cbn [r_ret r_data].
    destruct (Z.leb_spec (Z.of_nat (length p)) 0); [lia|]. rewrite IH by lia. by rewrite fold_left_app.
Qed.

Lemma cat_loop_run ps fuel fd out :
  pieces_ok ps -> (length ps <= fuel)%nat ->
  prun stream_h (cat_loop fuel fd) (ps, out) = (R_done 0, ([], out ++ concat ps)).
Proof.
  intros Hps. revert fuel out. induction Hps as [|p ps Hp Hps IH]; intros fuel out Hf; cbn [length concat] in *.
  - rewrite app_nil_r. destruct fuel; cbn [cat_loop]; by rewrite read_eof.
  - destruct fuel as [|f]; [lia|]. cbn [cat_loop]. rewrite read_piece by lia. cbn [r_ret r_data].
    destruct (Z.leb_spec (Z.of_nat (length p)) 0); [lia|]. unfold write. rewrite prun_sys. cbn [stream_h fst snd r_ret].
    rewrite Z.eqb_refl. cbn [negb]. rewrite IH by lia. by rewrite app_assoc.
Qed.

Definition dec (n : Z) : list Z := printint_chars udigits n 10 1.

(** C36: [wc] counts the whole input, however [read] cuts it into pieces: it prints the number
    of newlines, of maximal runs of non-blank characters and of bytes (fewer than 2^31). *)
Theorem wc_counts fuel fd name ps out :
  pieces_ok ps -> (length ps <= fuel)%nat -> Z.of_nat (length (concat ps)) < 2 ^ 31 ->
  prun stream_h (wc fuel fd name) (ps, out) =
    (R_done tt, ([], out ++ dec (newlines (concat ps)) ++ str " " ++ dec (words true (concat ps)) ++ str " " ++
                     dec (Z.of_nat (length (concat ps))) ++ str " " ++ name ++ [NL])).
Proof.
  intros Hps Hf Hlen. unfold wc. rewrite prun_bind, wc_loop_run by done.
  rewrite wc_fold by (cbn [w_l w_w w_c]; lia). cbn [fst snd w_l w_w w_c w_in negb Z.ltb Z.compare].
  set (l := concat ps) in *.
  assert (0 <= newlines l <= Z.of_nat (length l)).
  { clear. induction l as [|x l IH]; cbn [newlines length]; [lia|]. destruct (x =? 10); lia. }
  assert (forall b, 0 <= words b l <= Z.of_nat (length l)).
  { clear. induction l as [|x l IH]; intros b; cbn [words length]; [lia|]. specialize (IH (blank x)).
    destruct (negb (blank x) && b); lia. }
  pose proof (H0 true). rewrite !Z.add_0_l. change (str "%d %d %d %s" ++ [NL]) with [37; 100; 32; 37; 100; 32; 37; 100; 32; 37; 115; 10].
  erewrite printf_run; [|cbn [uformat negb Z.eqb Pos.eqb orb fmap option_fmap option_map default]; rewrite !i32_small by lia; reflexivity].
  rewrite put_stream. cbn [fst snd]. unfold dec. change (str " ") with [32]. cbn [app]. done.
Qed.

(** [cat] prints the contents of the file, whatever the pieces, and a newline; [echo]
    prints its arguments separated by blanks. *)
Theorem cat_echo_output fuel file ps out a args :
  pieces_ok ps -> (length ps <= fuel)%nat ->
  prun stream_h (cat fuel file) (ps, out) = (R_done tt, ([], out ++ concat ps ++ [NL])) /\
  prun stream_h (echo_main (a :: args)) ([], out) =
    (R_exit, ([], out ++ concat (zip_with app args (replicate (length args - 1) (str " ") ++ [[NL]])))).
Proof.
  intros Hps Hf. split.
  - unfold cat, open. rewrite prun_sys. cbn [stream_h fst snd r_ret]. rewrite prun_bind, cat_loop_run by done.
    rewrite (printf_then _ _ _ _ [NL]) by done. rewrite put_stream. cbn [fst snd Z.ltb Z.compare]. by rewrite <- app_assoc.
  - unfold echo_main. cbn [tl]. rewrite prun_bind.
    assert (E : prun stream_h (echo_args args) ([], out) =
      (R_done tt, ([], out ++ concat (zip_with app args (replicate (length args - 1) (str " ") ++ [[NL]]))))); [|by rewrite E].
    revert out. induction args as [|x args IH]; intros out; [cbn; by rewrite app_nil_r|]. cbn [echo_args].
    rewrite (printf_then _ _ _ _ (x ++ match args with [] => [NL] | _ => str " " end)).
    + rewrite put_stream. cbn [fst snd]. rewrite IH. destruct args as [|y args]; cbn [length Nat.sub zip_with replicate app concat].
      * by rewrite !app_nil_r.
      * rewrite Nat.sub_0_r. by rewrite <- !app_assoc.
    + change (str "%s%s") with [37; 115; 37; 115].
      cbn [uformat negb Z.eqb Pos.eqb orb fmap option_fmap option_map default]. by rewrite app_nil_r.
Qed.

Lemma wc_counts_witness :
  prun stream_h (wc 2 0 []) ([str "ab c"; str "d" ++ [10] ++ str "e"], []) = (R_done tt, ([], str "1 3 7 " ++ [NL])).
Proof.
  rewrite (wc_counts 2 0 [] [str "ab c"; str "d" ++ [10] ++ str "e"] []).
  - vm_compute. reflexivity.
  - constructor; [cbn; lia|]. constructor; [cbn; lia|constructor].
  - cbn. lia.
  - cbn. lia.
Defined.

Lemma cat_echo_output_witness :
  prun stream_h (cat 2 (str "f")) ([str "ab"; str "c"], []) = (R_done tt, ([], str "abc" ++ [NL])) /\
  prun stream_h (echo_main [str "echo"; str "x"; str "y"]) ([], []) = (R_exit, ([], str "x y" ++ [NL])).
Proof.
  apply (cat_echo_output 2 (str "f") [str "ab"; str "c"] [] (str "echo") [str "x"; str "y"]).
  - constructor; [cbn; lia|]. constructor; [cbn; lia|constructor].
  - cbn. lia.
Defined.
