(* ===== verification/Usertests.v ===== *)
(** The regression tests of the system calls ([usertests.c]), as programs over any kernel. [buf] is the global buffer;
    [fuel] bounds the loops that go on for as long as the kernel answers; what an uninitialised local variable holds is
    an argument. A test that fails prints a message and exits. *)

From S2P Require Import Prelude Bytes Params Cprintf User.
From stdpp Require Import base list gmap strings infinite.
From Stdlib Require Import ZArith Lia.
Local Open Scope Z_scope.
Local Open Scope prog_scope.

(** A message with a newline, and without. *)
Definition say (s : string) : prog unit := printf 1 (str s ++ [NL]) [].
Definition say0 (s : string) : prog unit := printf 1 (str s) [].

(** [if(bad){ printf(...); exit(); }] *)
Definition check (bad : bool) (s : string) : prog unit := if bad then say s >>> exit else Done tt.

(** [read] into a buffer: what was there after the bytes read stays. *)
Definition into (buf data : list Z) : list Z := data ++ drop (length data) buf.
Definition read_buf (fd n : Z) (buf : list Z) : prog (Z * list Z) :=
  let? r := read fd n in Done (r_ret r, into buf (r_data r)).

Definition O_CREATE_RDWR : Z := Z.lor O_CREATE O_RDWR.

(** * Directories and transactions *)

Definition iputtest : prog unit :=
  say "iput test" >>>
  let? r := mkdir (str "iputdir") in check (r <? 0) "mkdir failed" >>>
  let? r := chdir (str "iputdir") in check (r <? 0) "chdir iputdir failed" >>>
  let? r := unlink (str "../iputdir") in check (r <? 0) "unlink ../iputdir failed" >>>
  let? r := chdir (str "/") in check (r <? 0) "chdir / failed" >>>
  say "iput test ok".

Definition exitiputtest : prog unit :=
  say "exitiput test" >>>
  let? pid := fork in
  check (pid <? 0) "fork failed" >>>
  (if pid =? 0 then
     let? r := mkdir (str "iputdir") in check (r <? 0) "mkdir failed" >>>
     let? r := chdir (str "iputdir") in check (r <? 0) "child chdir failed" >>>
     let? r := unlink (str "../iputdir") in check (r <? 0) "unlink ../iputdir failed" >>>
     exit
   else
     wait >>>
     say "exitiput test ok").

Definition openiputtest : prog unit :=
  say "openiput test" >>>
  let? r := mkdir (str "oidir") in check (r <? 0) "mkdir oidir failed" >>>
  let? pid := fork in
  check (pid <? 0) "fork failed" >>>
  (if pid =? 0 then
     let? fd := open (str "oidir") O_RDWR in
     check (0 <=? fd) "open directory for write succeeded" >>>
     exit
   else
     sleep 1 >>>
     let? r := unlink (str "oidir") in check (negb (r =? 0)) "unlink failed" >>>
     wait >>>
     say "openiput test ok").

(** * Simple file system tests *)

Definition opentest : prog unit :=
  say "open test" >>>
  let? fd := open (str "echo") 0 in
  check (fd <? 0) "open echo failed!" >>>
  close fd >>>
  let? fd := open (str "doesnotexist") 0 in
  check (0 <=? fd) "open doesnotexist succeeded!" >>>
  say "open test ok".

(** A failed check with a number in its message. *)
Definition check1 (bad : bool) (s : string) (i : Z) : prog unit :=
  if bad then printf 1 (str s ++ [NL]) [A_int i] >>> exit else Done tt.

Definition writetest (buf : list Z) : prog (list Z) :=
  say "small file test" >>>
  let? fd := open (str "small") O_CREATE_RDWR in
  (if 0 <=? fd then say "creat small succeeded; ok" else say "error: creat small failed!" >>> exit) >>>
  pfor (seq 0 100) (fun i =>
    let? r := write fd (str "aaaaaaaaaa") in
    check1 (negb (r =? 10)) "error: write aa %d new file failed" (Z.of_nat i) >>>
    let? r := write fd (str "bbbbbbbbbb") in
    check1 (negb (r =? 10)) "error: write bb %d new file failed" (Z.of_nat i)) >>>
  say "writes ok" >>>
  close fd >>>
  let? fd := open (str "small") O_RDONLY in
  (if 0 <=? fd then say "open small succeeded ok" else say "error: open small failed!" >>> exit) >>>
  let? (i, buf) := read_buf fd 2000 buf in
  (if i =? 2000 then say "read succeeded ok" else say "read failed" >>> exit) >>>
  close fd >>>
  let? r := unlink (str "small") in
  check (r <? 0) "unlink small failed" >>>
  say "small file test ok" >>>
  Done buf.

(** [((int* )buf)[0]], read and written. *)
Definition buf_int (buf : list Z) : Z := i32 (rd32 buf 0).
Definition set_buf_int (buf : list Z) (i : Z) : list Z := wr32 buf 0 i.

(** The loop that writes: the buffer. *)
Fixpoint writetest1_write (l : list nat) (fd : Z) (buf : list Z) : prog (list Z) :=
  match l with
  | [] => Done buf
  | i :: l =>
      let buf := set_buf_int buf (Z.of_nat i) in
      let? r := write fd (take 512 buf) in
      check1 (negb (r =? 512)) "error: write big file failed" (Z.of_nat i) >>>
      writetest1_write l fd buf
  end.

(** The loop that reads block [n]. *)
Fixpoint writetest1_read (fuel : nat) (fd n : Z) (buf : list Z) : prog (list Z) :=
  let? (i, buf) := read_buf fd 512 buf in
  if i =? 0 then
    if n =? MAXFILE - 1 then printf 1 (str "read only %d blocks from big") [A_int n] >>> exit else Done buf
  else if negb (i =? 512) then printf 1 (str "read failed %d" ++ [NL]) [A_int i] >>> exit
  else if negb (buf_int buf =? n) then
    printf 1 (str "read content of block %d is %d" ++ [NL]) [A_int n; A_int (buf_int buf)] >>> exit
  else
    match fuel with
    | O => More
    | S fuel => writetest1_read fuel fd (n + 1) buf
    end.

Definition writetest1 (fuel : nat) (buf : list Z) : prog (list Z) :=
  say "big files test" >>>
  let? fd := open (str "big") O_CREATE_RDWR in
  check (fd <? 0) "error: creat big failed!" >>>
  let? buf := writetest1_write (range MAXFILE) fd buf in
  close fd >>>
  let? fd := open (str "big") O_RDONLY in
  check (fd <? 0) "error: open big failed!" >>>
  let? buf := writetest1_read fuel fd 0 buf in
  close fd >>>
  let? r := unlink (str "big") in
  check (r <? 0) "unlink big failed" >>>
  say "big files ok" >>>
  Done buf.

(** The file names of two characters. *)
Definition name2 (a b : Z) : list Z := [u8 a; u8 b].

Definition createtest : prog unit :=
  say "many creates, followed by unlink test" >>>
  pfor (seq 0 52) (fun i =>
    let? fd := open (name2 97 (48 + Z.of_nat i)) O_CREATE_RDWR in
    close fd >>> Done tt) >>>
  pfor (seq 0 52) (fun i => unlink (name2 97 (48 + Z.of_nat i)) >>> Done tt) >>>
  say "many creates, followed by unlink; ok".

Definition dirtest : prog unit :=
  say "mkdir test" >>>
  let? r := mkdir (str "dir0") in check (r <? 0) "mkdir failed" >>>
  let? r := chdir (str "dir0") in check (r <? 0) "chdir dir0 failed" >>>
  let? r := chdir (str "..") in check (r <? 0) "chdir .. failed" >>>
  let? r := unlink (str "dir0") in check (r <? 0) "unlink dir0 failed" >>>
  say "mkdir test ok".

Definition echoargv : list (list Z) := [str "echo"; str "ALL"; str "TESTS"; str "PASSED"].

Definition exectest : prog unit :=
  say "exec test" >>>
  let? r := exec (str "echo") echoargv in
  check (r <? 0) "exec echo failed".

(** * Processes and pipes *)

(** The bytes [seq .. seq + n - 1] that [pipe1] sends. *)
Definition seq_bytes (seq : Z) (n : nat) : list Z := (fun i => u8 (seq + Z.of_nat i)) <$> List.seq 0 n.

Fixpoint pipe1_write (l : list nat) (fd seq : Z) (buf : list Z) : prog unit :=
  match l with
  | [] => Done tt
  | _ :: l =>
      let buf := into buf (seq_bytes seq 1033) in
      let? r := write fd (take 1033 buf) in
      check (negb (r =? 1033)) "pipe1 oops 1" >>>
      pipe1_write l fd (seq + 1033) buf
  end.

(** The loop of the reader: [None] for the return after a wrong byte, otherwise [total], and the buffer. *)
Fixpoint pipe1_read (fuel : nat) (fd seq cc total : Z) (buf : list Z) : prog (option Z * list Z) :=
  let? (n, buf) := read_buf fd cc buf in
  if n <=? 0 then Done (Some total, buf) else
  if negb (bool_decide (take (Z.to_nat n) buf = seq_bytes seq (Z.to_nat n))) then say "pipe1 oops 2" >>> Done (None, buf) else
  let cc := cc * 2 in
  let cc := if 8192 <? cc then 8192 else cc in
  match fuel with
  | O => More
  | S fuel => pipe1_read fuel fd (seq + n) cc (total + n) buf
  end.

Definition pipe1 (fuel : nat) (fds : list Z) (buf : list Z) : prog (list Z) :=
  let? (r, fds) := pipe fds in
  check (negb (r =? 0)) "pipe() failed" >>>
  let? pid := fork in
  if pid =? 0 then
    close (nth 0 fds 0) >>>
    pipe1_write (seq 0 5) (nth 1 fds 0) 0 buf >>>
    exit
  else if 0 <? pid then
    close (nth 1 fds 0) >>>
    let? (r, buf) := pipe1_read fuel (nth 0 fds 0) 0 1 0 buf in
    match r with
    | None => Done buf
    | Some total =>
        check1 (negb (total =? 5 * 1033)) "pipe1 oops 3 total %d" total >>>
        close (nth 0 fds 0) >>>
        wait >>>
        say "pipe1 ok" >>>
        Done buf
    end
  else
    say "fork() failed" >>> exit.

(** A child that loops for ever. *)
Definition preempt (pfds : list Z) (buf : list Z) : prog (list Z) :=
  say0 "preempt: " >>>
  let? pid1 := fork in
  (if pid1 =? 0 then More else Done tt) >>>
  let? pid2 := fork in
  (if pid2 =? 0 then More else Done tt) >>>
  let? (_, pfds) := pipe pfds in
  let? pid3 := fork in
  (if pid3 =? 0 then
     close (nth 0 pfds 0) >>>
     let? r := write (nth 1 pfds 0) (str "x") in
     pwhen (negb (r =? 1)) (say0 "preempt write error") >>>
     close (nth 1 pfds 0) >>>
     More
   else Done tt) >>>
  close (nth 1 pfds 0) >>>
  let? (r, buf) := read_buf (nth 0 pfds 0) 8192 buf in
  if negb (r =? 1) then say0 "preempt read error" >>> Done buf else
  close (nth 0 pfds 0) >>>
  say0 "kill... " >>>
  kill pid1 >>>
  kill pid2 >>>
  kill pid3 >>>
  say0 "wait... " >>>
  wait >>>
  wait >>>
  wait >>>
  say "preempt ok" >>>
  Done buf.

Fixpoint exitwait_loop (n : nat) : prog unit :=
  match n with
  | O => say "exitwait ok"
  | S n =>
      let? pid := fork in
      if pid <? 0 then say "fork failed" else
      if negb (pid =? 0) then
        let? r := wait in
        if negb (r =? pid) then say "wait wrong pid" else exitwait_loop n
      else exit
  end.
Definition exitwait : prog unit := exitwait_loop 100.

Definition malloc (n : Z) : prog Z := sys (X_malloc n).
Definition free (a : Z) : prog Z := sys (X_free a).

(** The two loops of [mem]: blocks linked through their first words, then freed. *)
Fixpoint mem_alloc (fuel : nat) (m1 : Z) : prog Z :=
  let? m2 := malloc 10001 in
  if m2 =? 0 then Done m1 else
  match fuel with
  | O => More
  | S fuel => access (X_store 4 m2 m1) >>> mem_alloc fuel m2
  end.
Fixpoint mem_free (fuel : nat) (m1 : Z) : prog unit :=
  if m1 =? 0 then Done tt else
  match fuel with
  | O => More
  | S fuel =>
      let? m2 := access (X_load 4 m1) in
      free m1 >>>
      mem_free fuel m2
  end.

Definition mem (fuel : nat) : prog unit :=
  say "mem test" >>>
  let? ppid := sys C_getpid in
  let? pid := fork in
  if pid =? 0 then
    let? m1 := mem_alloc fuel 0 in
    mem_free fuel m1 >>>
    let? m1 := malloc (1024 * 20) in
    (if m1 =? 0 then say "couldn't allocate mem?!!" >>> kill ppid >>> exit else Done tt) >>>
    free m1 >>>
    say "mem ok" >>>
    exit
  else
    wait >>>
    Done tt.

(** * More file system tests *)

Fixpoint sharedfd_write (n : nat) (fd : Z) (buf : list Z) : prog unit :=
  match n with
  | O => Done tt
  | S n =>
      let? r := write fd buf in
      if negb (r =? 10) then say "fstests: write sharedfd failed" else sharedfd_write n fd buf
  end.

Definition count (c : Z) (l : list Z) : Z := Z.of_nat (length (filter (fun x => x = c) l)).

(** All of the buffer is counted, however few bytes were read. *)
Fixpoint sharedfd_read (fuel : nat) (fd nc np : Z) (buf : list Z) : prog (Z * Z) :=
  let? (n, buf) := read_buf fd 10 buf in
  if n <=? 0 then Done (nc, np) else
  match fuel with
  | O => More
  | S fuel => sharedfd_read fuel fd (nc + count 99 buf) (np + count 112 buf) buf
  end.

Definition sharedfd (fuel : nat) : prog unit :=
  say "sharedfd test" >>>
  unlink (str "sharedfd") >>>
  let? fd := open (str "sharedfd") O_CREATE_RDWR in
  if fd <? 0 then say0 "fstests: cannot open sharedfd for writing" else
  let? pid := fork in
  let buf := replicate 10 (if pid =? 0 then 99 else 112) in
  sharedfd_write 1000 fd buf >>>
  (if pid =? 0 then exit else wait >>> Done tt) >>>
  close fd >>>
  let? fd := open (str "sharedfd") 0 in
  if fd <? 0 then say "fstests: cannot open sharedfd for reading" else
  let? (nc, np) := sharedfd_read fuel fd 0 0 buf in
  close fd >>>
  unlink (str "sharedfd") >>>
  if (nc =? 10000) && (np =? 10000) then say "sharedfd ok"
  else printf 1 (str "sharedfd oops %d %d" ++ [NL]) [A_int nc; A_int np] >>> exit.

(** The name of the [i]th file of [fourfiles], the writing child, and the reading loop: [total] and the buffer. *)
Definition fourfiles_name (i : nat) : list Z := name2 102 (48 + Z.of_nat i).

Definition fourfiles_child (pi : nat) (buf : list Z) : prog unit :=
  let? fd := open (fourfiles_name pi) O_CREATE_RDWR in
  check (fd <? 0) "create failed" >>>
  let buf := into buf (replicate 512 (48 + Z.of_nat pi)) in
  pfor (seq 0 12) (fun _ =>
    let? n := write fd (take 500 buf) in
    check1 (negb (n =? 500)) "write failed %d" n) >>>
  exit.

Fixpoint fourfiles_read (fuel : nat) (i : nat) (fd total : Z) (buf : list Z) : prog (Z * list Z) :=
  let? (n, buf) := read_buf fd 8192 buf in
  if n <=? 0 then Done (total, buf) else
  check (negb (forallb (fun c => c =? 48 + Z.of_nat i) (take (Z.to_nat n) buf))) "wrong char" >>>
  match fuel with
  | O => More
  | S fuel => fourfiles_read fuel i fd (total + n) buf
  end.

Fixpoint fourfiles_check (fuel : nat) (l : list nat) (buf : list Z) : prog (list Z) :=
  match l with
  | [] => Done buf
  | i :: l =>
      let? fd := open (fourfiles_name i) 0 in
      let? (total, buf) := fourfiles_read fuel i fd 0 buf in
      close fd >>>
      check1 (negb (total =? 12 * 500)) "wrong length %d" total >>>
      unlink (fourfiles_name i) >>>
      fourfiles_check fuel l buf
  end.

Definition fourfiles (fuel : nat) (buf : list Z) : prog (list Z) :=
  say "fourfiles test" >>>
  pfor (seq 0 4) (fun pi =>
    unlink (fourfiles_name pi) >>>
    let? pid := fork in
    check (pid <? 0) "fork failed" >>>
    (if pid =? 0 then fourfiles_child pi buf else Done tt)) >>>
  pfor (seq 0 4) (fun _ => wait >>> Done tt) >>>
  let? buf := fourfiles_check fuel [0%nat; 1%nat] buf in
  say "fourfiles ok" >>>
  Done buf.

(** The children of [createdelete]. *)
Definition createdelete_child (pi : nat) : prog unit :=
  pfor (seq 0 20) (fun i =>
    let? fd := open (name2 (112 + Z.of_nat pi) (48 + Z.of_nat i)) O_CREATE_RDWR in
    check (fd <? 0) "create failed" >>>
    close fd >>>
    if (0 <? Z.of_nat i) && (Z.of_nat i mod 2 =? 0) then
      let? r := unlink (name2 (112 + Z.of_nat pi) (48 + Z.of_nat i / 2)) in
      check (r <? 0) "unlink failed"
    else Done tt) >>>
  exit.

Definition createdelete_check (i pi : nat) : prog unit :=
  let name := name2 (112 + Z.of_nat pi) (48 + Z.of_nat i) in
  let? fd := open name 0 in
  (if ((Z.of_nat i =? 0) || (10 <=? Z.of_nat i)) && (fd <? 0) then
     printf 1 (str "oops createdelete %s didn't exist" ++ [NL]) [A_str (Some name)] >>> exit
   else if ((1 <=? Z.of_nat i) && (Z.of_nat i <? 10)) && (0 <=? fd) then
     printf 1 (str "oops createdelete %s did exist" ++ [NL]) [A_str (Some name)] >>> exit
   else Done tt) >>>
  pwhen (0 <=? fd) (close fd >>> Done tt).

(** The last loop takes ['p' + i] for the first character, not ['p' + pi]. *)
Definition createdelete : prog unit :=
  say "createdelete test" >>>
  pfor (seq 0 4) (fun pi =>
    let? pid := fork in
    check (pid <? 0) "fork failed" >>>
    (if pid =? 0 then createdelete_child pi else Done tt)) >>>
  pfor (seq 0 4) (fun _ => wait >>> Done tt) >>>
  pfor (seq 0 20) (fun i => pfor (seq 0 4) (createdelete_check i)) >>>
  pfor (seq 0 20) (fun i => pfor (seq 0 4) (fun _ => unlink (name2 (112 + Z.of_nat i) (48 + Z.of_nat i)) >>> Done tt)) >>>
  say "createdelete ok".

Definition unlinkread (buf : list Z) : prog (list Z) :=
  say "unlinkread test" >>>
  let? fd := open (str "unlinkread") O_CREATE_RDWR in
  check (fd <? 0) "create unlinkread failed" >>>
  write fd (str "hello") >>>
  close fd >>>
  let? fd := open (str "unlinkread") O_RDWR in
  check (fd <? 0) "open unlinkread failed" >>>
  let? r := unlink (str "unlinkread") in
  check (negb (r =? 0)) "unlink unlinkread failed" >>>
  let? fd1 := open (str "unlinkread") O_CREATE_RDWR in
  write fd1 (str "yyy") >>>
  close fd1 >>>
  let? (n, buf) := read_buf fd 8192 buf in
  (if negb (n =? 5) then say0 "unlinkread read failed" >>> exit else Done tt) >>>
  check (negb (nth 0 buf 0 =? 104)) "unlinkread wrong data" >>>
  let? r := write fd (take 10 buf) in
  check (negb (r =? 10)) "unlinkread write failed" >>>
  close fd >>>
  unlink (str "unlinkread") >>>
  say "unlinkread ok" >>>
  Done buf.

Definition linktest (buf : list Z) : prog (list Z) :=
  say "linktest" >>>
  unlink (str "lf1") >>>
  unlink (str "lf2") >>>
  let? fd := open (str "lf1") O_CREATE_RDWR in
  check (fd <? 0) "create lf1 failed" >>>
  let? r := write fd (str "hello") in
  check (negb (r =? 5)) "write lf1 failed" >>>
  close fd >>>
  let? r := link (str "lf1") (str "lf2") in
  check (r <? 0) "link lf1 lf2 failed" >>>
  unlink (str "lf1") >>>
  let? r := open (str "lf1") 0 in
  check (0 <=? r) "unlinked lf1 but it is still there!" >>>
  let? fd := open (str "lf2") 0 in
  check (fd <? 0) "open lf2 failed" >>>
  let? (n, buf) := read_buf fd 8192 buf in
  check (negb (n =? 5)) "read lf2 failed" >>>
  close fd >>>
  let? r := link (str "lf2") (str "lf2") in
  check (0 <=? r) "link lf2 lf2 succeeded! oops" >>>
  unlink (str "lf2") >>>
  let? r := link (str "lf2") (str "lf1") in
  check (0 <=? r) "link non-existant succeeded! oops" >>>
  let? r := link (str ".") (str "lf1") in
  check (0 <=? r) "link . lf1 succeeded! oops" >>>
  say "linktest ok" >>>
  Done buf.

(** [struct { ushort inum; char name[14]; }] *)
Definition de_inum (de : list Z) : Z := rd16 de 0.
Definition de_name (de : list Z) : list Z := drop 2 de.
Definition c_str (l : list Z) : list Z := default l (cstring l).

(** The loop over the directory: [fa] and [n]. *)
Fixpoint concreate_list (fuel : nat) (fd : Z) (de fa : list Z) (n : Z) : prog Z :=
  let? (r, de) := read_buf fd 16 de in
  if r <=? 0 then Done n else
  match fuel with
  | O => More
  | S fuel =>
      if de_inum de =? 0 then concreate_list fuel fd de fa n else
      if (nth 0 (de_name de) 0 =? 67) && (nth 2 (de_name de) 0 =? 0) then
        let i := signed 8 (nth 1 (de_name de) 0) - 48 in
        if (i <? 0) || (40 <=? i) then
          printf 1 (str "concreate weird file %s" ++ [NL]) [A_str (Some (c_str (de_name de)))] >>> exit
        else if negb (nth (Z.to_nat i) fa 0 =? 0) then
          printf 1 (str "concreate duplicate file %s" ++ [NL]) [A_str (Some (c_str (de_name de)))] >>> exit
        else concreate_list fuel fd de (<[Z.to_nat i := 1]> fa) (n + 1)
      else concreate_list fuel fd de fa n
  end.

Definition concreate_make (i : nat) : prog unit :=
  let file := name2 67 (48 + Z.of_nat i) in
  unlink file >>>
  let? pid := fork in
  (if negb (pid =? 0) && (Z.of_nat i mod 3 =? 1) then link (str "C0") file >>> Done tt
   else if (pid =? 0) && (Z.of_nat i mod 5 =? 1) then link (str "C0") file >>> Done tt
   else
     let? fd := open file O_CREATE_RDWR in
     (if fd <? 0 then printf 1 (str "concreate create %s failed" ++ [NL]) [A_str (Some file)] >>> exit else Done tt) >>>
     close fd >>> Done tt) >>>
  (if pid =? 0 then exit else wait >>> Done tt).

Definition concreate_remove (i : nat) : prog unit :=
  let file := name2 67 (48 + Z.of_nat i) in
  let? pid := fork in
  check (pid <? 0) "fork failed" >>>
  (if ((Z.of_nat i mod 3 =? 0) && (pid =? 0)) || ((Z.of_nat i mod 3 =? 1) && negb (pid =? 0)) then
     pfor (seq 0 4) (fun _ => let? fd := open file 0 in close fd >>> Done tt)
   else pfor (seq 0 4) (fun _ => unlink file >>> Done tt)) >>>
  (if pid =? 0 then exit else wait >>> Done tt).

Definition concreate (fuel : nat) (de : list Z) : prog unit :=
  say "concreate test" >>>
  pfor (seq 0 40) concreate_make >>>
  let? fd := open (str ".") 0 in
  let? n := concreate_list fuel fd de (replicate 40 0) 0 in
  close fd >>>
  check (negb (n =? 40)) "concreate not enough files in directory listing" >>>
  pfor (seq 0 40) concreate_remove >>>
  say "concreate ok".

Fixpoint linkunlink_loop (n : nat) (x : Z) : prog unit :=
  match n with
  | O => Done tt
  | S n =>
      let x := u32 (x * 1103515245 + 12345) in
      (if x mod 3 =? 0 then let? fd := open (str "x") (Z.lor O_RDWR O_CREATE) in close fd
       else if x mod 3 =? 1 then link (str "cat") (str "x")
       else unlink (str "x")) >>>
      linkunlink_loop n x
  end.

Definition linkunlink : prog unit :=
  say "linkunlink test" >>>
  unlink (str "x") >>>
  let? pid := fork in
  check (pid <? 0) "fork failed" >>>
  linkunlink_loop 100 (if negb (pid =? 0) then 1 else 97) >>>
  (if negb (pid =? 0) then wait >>> Done tt else exit) >>>
  say "linkunlink ok".

Definition bigdir_name (i : nat) : list Z := [120; u8 (48 + Z.of_nat i / 64); u8 (48 + Z.of_nat i mod 64)].

Definition bigdir : prog unit :=
  say "bigdir test" >>>
  unlink (str "bd") >>>
  let? fd := open (str "bd") O_CREATE in
  check (fd <? 0) "bigdir create failed" >>>
  close fd >>>
  pfor (seq 0 500) (fun i =>
    let? r := link (str "bd") (bigdir_name i) in
    check (negb (r =? 0)) "bigdir link failed") >>>
  unlink (str "bd") >>>
  pfor (seq 0 500) (fun i =>
    let? r := unlink (bigdir_name i) in
    if negb (r =? 0) then say0 "bigdir unlink failed" >>> exit else Done tt) >>>
  say "bigdir ok".

(** ** [subdir], in three parts *)

Definition subdir_create (buf : list Z) : prog (list Z) :=
  unlink (str "ff") >>>
  let? r := mkdir (str "dd") in check (negb (r =? 0)) "subdir mkdir dd failed" >>>
  let? fd := open (str "dd/ff") O_CREATE_RDWR in check (fd <? 0) "create dd/ff failed" >>>
  write fd (str "ff") >>>
  close fd >>>
  let? r := unlink (str "dd") in check (0 <=? r) "unlink dd (non-empty dir) succeeded!" >>>
  let? r := mkdir (str "/dd/dd") in check (negb (r =? 0)) "subdir mkdir dd/dd failed" >>>
  let? fd := open (str "dd/dd/ff") O_CREATE_RDWR in check (fd <? 0) "create dd/dd/ff failed" >>>
  write fd (str "FF") >>>
  close fd >>>
  let? fd := open (str "dd/dd/../ff") 0 in check (fd <? 0) "open dd/dd/../ff failed" >>>
  let? (cc, buf) := read_buf fd 8192 buf in
  check (negb (cc =? 2) || negb (nth 0 buf 0 =? 102)) "dd/dd/../ff wrong content" >>>
  close fd >>>
  let? r := link (str "dd/dd/ff") (str "dd/dd/ffff") in check (negb (r =? 0)) "link dd/dd/ff dd/dd/ffff failed" >>>
  let? r := unlink (str "dd/dd/ff") in check (negb (r =? 0)) "unlink dd/dd/ff failed" >>>
  let? fd := open (str "dd/dd/ff") O_RDONLY in check (0 <=? fd) "open (unlinked) dd/dd/ff succeeded" >>>
  Done buf.

Definition subdir_chdir (buf : list Z) : prog (list Z) :=
  let? r := chdir (str "dd") in check (negb (r =? 0)) "chdir dd failed" >>>
  let? r := chdir (str "dd/../../dd") in check (negb (r =? 0)) "chdir dd/../../dd failed" >>>
  let? r := chdir (str "dd/../../../dd") in check (negb (r =? 0)) "chdir dd/../../dd failed" >>>
  let? r := chdir (str "./..") in check (negb (r =? 0)) "chdir ./.. failed" >>>
  let? fd := open (str "dd/dd/ffff") 0 in check (fd <? 0) "open dd/dd/ffff failed" >>>
  let? (n, buf) := read_buf fd 8192 buf in
  check (negb (n =? 2)) "read dd/dd/ffff wrong len" >>>
  close fd >>>
  let? fd := open (str "dd/dd/ff") O_RDONLY in check (0 <=? fd) "open (unlinked) dd/dd/ff succeeded!" >>>
  Done buf.

Definition subdir_errors : prog unit :=
  let? fd := open (str "dd/ff/ff") O_CREATE_RDWR in check (0 <=? fd) "create dd/ff/ff succeeded!" >>>
  let? fd := open (str "dd/xx/ff") O_CREATE_RDWR in check (0 <=? fd) "create dd/xx/ff succeeded!" >>>
  let? fd := open (str "dd") O_CREATE in check (0 <=? fd) "create dd succeeded!" >>>
  let? fd := open (str "dd") O_RDWR in check (0 <=? fd) "open dd rdwr succeeded!" >>>
  let? fd := open (str "dd") O_WRONLY in check (0 <=? fd) "open dd wronly succeeded!" >>>
  let? r := link (str "dd/ff/ff") (str "dd/dd/xx") in check (r =? 0) "link dd/ff/ff dd/dd/xx succeeded!" >>>
  let? r := link (str "dd/xx/ff") (str "dd/dd/xx") in check (r =? 0) "link dd/xx/ff dd/dd/xx succeeded!" >>>
  let? r := link (str "dd/ff") (str "dd/dd/ffff") in check (r =? 0) "link dd/ff dd/dd/ffff succeeded!" >>>
  let? r := mkdir (str "dd/ff/ff") in check (r =? 0) "mkdir dd/ff/ff succeeded!" >>>
  let? r := mkdir (str "dd/xx/ff") in check (r =? 0) "mkdir dd/xx/ff succeeded!" >>>
  let? r := mkdir (str "dd/dd/ffff") in check (r =? 0) "mkdir dd/dd/ffff succeeded!" >>>
  let? r := unlink (str "dd/xx/ff") in check (r =? 0) "unlink dd/xx/ff succeeded!" >>>
  let? r := unlink (str "dd/ff/ff") in check (r =? 0) "unlink dd/ff/ff succeeded!" >>>
  let? r := chdir (str "dd/ff") in check (r =? 0) "chdir dd/ff succeeded!" >>>
  let? r := chdir (str "dd/xx") in check (r =? 0) "chdir dd/xx succeeded!" >>>
  let? r := unlink (str "dd/dd/ffff") in check (negb (r =? 0)) "unlink dd/dd/ff failed" >>>
  let? r := unlink (str "dd/ff") in check (negb (r =? 0)) "unlink dd/ff failed" >>>
  let? r := unlink (str "dd") in check (r =? 0) "unlink non-empty dd succeeded!" >>>
  let? r := unlink (str "dd/dd") in check (r <? 0) "unlink dd/dd failed" >>>
  let? r := unlink (str "dd") in check (r <? 0) "unlink dd failed".

Definition subdir (buf : list Z) : prog (list Z) :=
  say "subdir test" >>>
  let? buf := subdir_create buf in
  let? buf := subdir_chdir buf in
  subdir_errors >>>
  say "subdir ok" >>>
  Done buf.

(** The sizes 499, 970, ... below 12*512. *)
Definition bigwrite_sizes : list Z := (fun k => 499 + 471 * Z.of_nat k) <$> seq 0 12.

Definition bigwrite (buf : list Z) : prog unit :=
  say "bigwrite test" >>>
  unlink (str "bigwrite") >>>
  pfor bigwrite_sizes (fun sz =>
    let? fd := open (str "bigwrite") O_CREATE_RDWR in
    check (fd <? 0) "cannot create bigwrite" >>>
    pfor (seq 0 2) (fun _ =>
      let? cc := write fd (take (Z.to_nat sz) buf) in
      if negb (cc =? sz) then printf 1 (str "write(%d) ret %d" ++ [NL]) [A_int sz; A_int cc] >>> exit else Done tt) >>>
    close fd >>>
    unlink (str "bigwrite") >>>
    Done tt) >>>
  say "bigwrite ok".

Fixpoint bigfile_write (l : list nat) (fd : Z) (buf : list Z) : prog (list Z) :=
  match l with
  | [] => Done buf
  | i :: l =>
      let buf := into buf (replicate 600 (Z.of_nat i)) in
      let? r := write fd (take 600 buf) in
      check (negb (r =? 600)) "write bigfile failed" >>>
      bigfile_write l fd buf
  end.

(** The loop that reads the [i]th piece: [total] and the buffer. *)
Fixpoint bigfile_read (fuel : nat) (fd i total : Z) (buf : list Z) : prog (Z * list Z) :=
  let? (cc, buf) := read_buf fd 300 buf in
  check (cc <? 0) "read bigfile failed" >>>
  if cc =? 0 then Done (total, buf) else
  check (negb (cc =? 300)) "short read bigfile" >>>
  check (negb (signed 8 (nth 0 buf 0) =? i / 2) || negb (signed 8 (nth 299 buf 0) =? i / 2)) "read bigfile wrong data" >>>
  match fuel with
  | O => More
  | S fuel => bigfile_read fuel fd (i + 1) (total + cc) buf
  end.

Definition bigfile (fuel : nat) (buf : list Z) : prog (list Z) :=
  say "bigfile test" >>>
  unlink (str "bigfile") >>>
  let? fd := open (str "bigfile") O_CREATE_RDWR in
  (if fd <? 0 then say0 "cannot create bigfile" >>> exit else Done tt) >>>
  let? buf := bigfile_write (seq 0 20) fd buf in
  close fd >>>
  let? fd := open (str "bigfile") 0 in
  check (fd <? 0) "cannot open bigfile" >>>
  let? (total, buf) := bigfile_read fuel fd 0 0 buf in
  close fd >>>
  check (negb (total =? 20 * 600)) "read bigfile wrong total" >>>
  unlink (str "bigfile") >>>
  say "bigfile test ok" >>>
  Done buf.

Definition fourteen : prog unit :=
  say "fourteen test" >>>
  let? r := mkdir (str "12345678901234") in
  check (negb (r =? 0)) "mkdir 12345678901234 failed" >>>
  let? r := mkdir (str "12345678901234/123456789012345") in
  check (negb (r =? 0)) "mkdir 12345678901234/123456789012345 failed" >>>
  let? fd := open (str "123456789012345/123456789012345/123456789012345") O_CREATE in
  check (fd <? 0) "create 123456789012345/123456789012345/123456789012345 failed" >>>
  close fd >>>
  let? fd := open (str "12345678901234/12345678901234/12345678901234") 0 in
  check (fd <? 0) "open 12345678901234/12345678901234/12345678901234 failed" >>>
  close fd >>>
  let? r := mkdir (str "12345678901234/12345678901234") in
  check (r =? 0) "mkdir 12345678901234/12345678901234 succeeded!" >>>
  let? r := mkdir (str "123456789012345/12345678901234") in
  check (r =? 0) "mkdir 12345678901234/123456789012345 succeeded!" >>>
  say "fourteen ok".

Definition rmdot : prog unit :=
  say "rmdot test" >>>
  let? r := mkdir (str "dots") in check (negb (r =? 0)) "mkdir dots failed" >>>
  let? r := chdir (str "dots") in check (negb (r =? 0)) "chdir dots failed" >>>
  let? r := unlink (str ".") in check (r =? 0) "rm . worked!" >>>
  let? r := unlink (str "..") in check (r =? 0) "rm .. worked!" >>>
  let? r := chdir (str "/") in check (negb (r =? 0)) "chdir / failed" >>>
  let? r := unlink (str "dots/.") in check (r =? 0) "unlink dots/. worked!" >>>
  let? r := unlink (str "dots/..") in check (r =? 0) "unlink dots/.. worked!" >>>
  let? r := unlink (str "dots") in check (negb (r =? 0)) "unlink dots failed!" >>>
  say "rmdot ok".

Definition dirfile : prog unit :=
  say "dir vs file" >>>
  let? fd := open (str "dirfile") O_CREATE in check (fd <? 0) "create dirfile failed" >>>
  close fd >>>
  let? r := chdir (str "dirfile") in check (r =? 0) "chdir dirfile succeeded!" >>>
  let? fd := open (str "dirfile/xx") 0 in check (0 <=? fd) "create dirfile/xx succeeded!" >>>
  let? fd := open (str "dirfile/xx") O_CREATE in check (0 <=? fd) "create dirfile/xx succeeded!" >>>
  let? r := mkdir (str "dirfile/xx") in check (r =? 0) "mkdir dirfile/xx succeeded!" >>>
  let? r := unlink (str "dirfile/xx") in check (r =? 0) "unlink dirfile/xx succeeded!" >>>
  let? r := link (str "README") (str "dirfile/xx") in check (r =? 0) "link to dirfile/xx succeeded!" >>>
  let? r := unlink (str "dirfile") in check (negb (r =? 0)) "unlink dirfile failed!" >>>
  let? fd := open (str ".") O_RDWR in check (0 <=? fd) "open . for writing succeeded!" >>>
  let? fd := open (str ".") 0 in
  let? r := write fd (str "x") in check (0 <? r) "write . succeeded!" >>>
  close fd >>>
  say "dir vs file OK".

Definition iref : prog unit :=
  say "empty file name" >>>
  pfor (seq 0 51) (fun _ =>
    let? r := mkdir (str "irefd") in check (negb (r =? 0)) "mkdir irefd failed" >>>
    let? r := chdir (str "irefd") in check (negb (r =? 0)) "chdir irefd failed" >>>
    mkdir [] >>>
    link (str "README") [] >>>
    let? fd := open [] O_CREATE in
    pwhen (0 <=? fd) (close fd >>> Done tt) >>>
    let? fd := open (str "xx") O_CREATE in
    pwhen (0 <=? fd) (close fd >>> Done tt) >>>
    unlink (str "xx") >>>
    Done tt) >>>
  chdir (str "/") >>>
  say "empty file name OK".

(** * Memory *)

(** The loop that forks: the number of children. *)
Fixpoint forktest_forks (k : nat) (n : Z) : prog Z :=
  match k with
  | O => Done n
  | S k =>
      let? pid := fork in
      if pid <? 0 then Done n else
      if pid =? 0 then exit else forktest_forks k (n + 1)
  end.

Definition forktest : prog unit :=
  say "fork test" >>>
  let? n := forktest_forks 1000 0 in
  check (n =? 1000) "fork claimed to work 1000 times!" >>>
  pfor (seq 0 (Z.to_nat n)) (fun _ => let? r := wait in check (r <? 0) "wait stopped early") >>>
  let? r := wait in
  check (negb (r =? -1)) "wait got too many" >>>
  say "fork test OK".

(** [sbrk] as a pointer, and the difference of two pointers. *)
Definition sbrk (n : Z) : prog Z := let? r := sys (C_sbrk (i32 n)) in Done (u32 r).
Definition BIG : Z := 100 * 1024 * 1024.

Definition check2 (bad : bool) (s : string) (a c : Z) : prog unit :=
  if bad then printf 1 (str s ++ [NL]) [A_int a; A_int c] >>> exit else Done tt.

(** 5000 calls of [sbrk(1)]: the end of the memory. *)
Fixpoint sbrktest_bytes (n : nat) (i a : Z) : prog Z :=
  match n with
  | O => Done a
  | S n =>
      let? b := sbrk 1 in
      (if negb (b =? a) then printf 1 (str "sbrk test failed %d %x %x" ++ [NL]) [A_int i; A_int a; A_int b] >>> exit else Done tt) >>>
      access (X_store 1 b 1) >>>
      sbrktest_bytes n (i + 1) (u32 (b + 1))
  end.

(** Growing to [BIG], giving a page back and taking it again. *)
Definition sbrktest_big (oldbrk : Z) : prog unit :=
  let? a := sbrk 0 in
  let amt := u32 (BIG - a) in
  let? p := sbrk amt in
  check (negb (p =? a)) "sbrk test failed to grow big address space; enough phys mem?" >>>
  let lastaddr := BIG - 1 in
  access (X_store 1 lastaddr 99) >>>
  let? a := sbrk 0 in
  let? c := sbrk (-4096) in
  check (c =? 4294967295) "sbrk could not deallocate" >>>
  let? c := sbrk 0 in
  check2 (negb (c =? u32 (a - 4096))) "sbrk deallocation produced wrong address, a %x c %x" a c >>>
  let? a := sbrk 0 in
  let? c := sbrk 4096 in
  let? bad := (if negb (c =? a) then Done true else let? x := sbrk 0 in Done (negb (x =? u32 (a + 4096)))) in
  check2 bad "sbrk re-allocation failed, a %x c %x" a c >>>
  let? x := access (X_load 1 lastaddr) in
  check (signed 8 x =? 99) "sbrk de-allocation didn't really deallocate" >>>
  let? a := sbrk 0 in
  let? x := sbrk 0 in
  let? c := sbrk (- i32 (x - oldbrk)) in
  check2 (negb (c =? a)) "sbrk downsize failed, a %x c %x" a c.

(** A child for each of 40 kernel addresses. *)
Definition sbrktest_kernel : prog unit :=
  pfor (seq 0 40) (fun k =>
    let a := KERNBASE + 50000 * Z.of_nat k in
    let? ppid := sys C_getpid in
    let? pid := fork in
    check (pid <? 0) "fork failed" >>>
    (if pid =? 0 then
       let? x := access (X_load 1 a) in
       printf 1 (str "oops could read %x = %x" ++ [NL]) [A_int a; A_int (signed 8 x)] >>>
       kill ppid >>>
       exit
     else Done tt) >>>
    wait >>>
    Done tt).

(** [for(;;) sleep(1000);] *)
Fixpoint sleep_forever (fuel : nat) : prog unit :=
  match fuel with
  | O => More
  | S fuel => sleep 1000 >>> sleep_forever fuel
  end.

(** Ten children that take as much memory as they get: their process ids. *)
Fixpoint sbrktest_hogs (fuel : nat) (n : nat) (fds : list Z) : prog (list Z) :=
  match n with
  | O => Done []
  | S n =>
      let? pid := fork in
      (if pid =? 0 then
         let? x := sbrk 0 in
         sbrk (u32 (BIG - x)) >>>
         write (nth 1 fds 0) (str "x") >>>
         sleep_forever fuel
       else Done tt) >>>
      (if negb (pid =? -1) then read (nth 0 fds 0) 1 >>> Done tt else Done tt) >>>
      let? pids := sbrktest_hogs fuel n fds in
      Done (pid :: pids)
  end.

Definition sbrktest (fuel : nat) (fds : list Z) : prog unit :=
  say "sbrk test" >>>
  let? oldbrk := sbrk 0 in
  let? a := sbrk 0 in
  let? a := sbrktest_bytes 5000 0 a in
  let? pid := fork in
  check (pid <? 0) "sbrk test fork failed" >>>
  sbrk 1 >>>
  let? c := sbrk 1 in
  check (negb (c =? u32 (a + 1))) "sbrk test failed post-fork" >>>
  (if pid =? 0 then exit else Done tt) >>>
  wait >>>
  sbrktest_big oldbrk >>>
  sbrktest_kernel >>>
  let? (r, fds) := pipe fds in
  check (negb (r =? 0)) "pipe() failed" >>>
  let? pids := sbrktest_hogs fuel 10 fds in
  let? c := sbrk 4096 in
  pfor pids (fun pid => pwhen (negb (pid =? -1)) (kill pid >>> wait >>> Done tt)) >>>
  check (c =? 4294967295) "failed sbrk leaked memory" >>>
  let? x := sbrk 0 in
  (if oldbrk <? x then let? x := sbrk 0 in sbrk (- i32 (x - oldbrk)) >>> Done tt else Done tt) >>>
  say "sbrk test OK".

(** A [sleep] whose argument is wherever [p] points. *)
Definition validateint (p : Z) : prog unit := sys (X_sleep_at p) >>> Done tt.

Definition validatetest : prog unit :=
  say "validate test" >>>
  pfor (seq 0 276) (fun k =>
    let p := 4096 * Z.of_nat k in
    let? pid := fork in
    (if pid =? 0 then validateint p >>> exit else Done tt) >>>
    sleep 0 >>>
    sleep 0 >>>
    kill pid >>>
    wait >>>
    let? r := sys (X_link_at (str "nosuchfile") p) in
    check (negb (r =? -1)) "link should not succeed") >>>
  say "validate ok".

(** [uninit] is what the program finds in its uninitialised data. *)
Definition bsstest (uninit : list Z) : prog unit :=
  say "bss test" >>>
  check (negb (forallb (fun x => x =? 0) uninit)) "bss test failed" >>>
  say "bss test ok".

Definition bigarg : list Z := str "bigargs test: failed" ++ [NL] ++ replicate 199 32.

Definition bigargtest : prog unit :=
  unlink (str "bigarg-ok") >>>
  let? pid := fork in
  (if pid =? 0 then
     say "bigarg test" >>>
     exec (str "echo") (replicate (Z.to_nat (MAXARG - 1)) bigarg) >>>
     say "bigarg test ok" >>>
     let? fd := open (str "bigarg-ok") O_CREATE in
     close fd >>>
     exit
   else check (pid <? 0) "bigargtest: fork failed") >>>
  wait >>>
  let? fd := open (str "bigarg-ok") 0 in
  check (fd <? 0) "bigarg test failed!" >>>
  close fd >>>
  unlink (str "bigarg-ok") >>>
  Done tt.

(** * A full disk *)

Definition fsfull_name (n : Z) : list Z :=
  [102; u8 (48 + Z.quot n 1000); u8 (48 + Z.quot (Z.rem n 1000) 100); u8 (48 + Z.quot (Z.rem n 100) 10); u8 (48 + Z.rem n 10)].

Fixpoint fsfull_write (fuel : nat) (fd total : Z) (buf : list Z) : prog Z :=
  let? cc := write fd (take 512 buf) in
  if cc <? 512 then Done total else
  match fuel with
  | O => More
  | S fuel => fsfull_write fuel fd (total + cc) buf
  end.

Fixpoint fsfull_fill (fuel : nat) (nfiles : Z) (buf : list Z) : prog Z :=
  printf 1 (str "writing %s" ++ [NL]) [A_str (Some (fsfull_name nfiles))] >>>
  let? fd := open (fsfull_name nfiles) O_CREATE_RDWR in
  if fd <? 0 then printf 1 (str "open %s failed" ++ [NL]) [A_str (Some (fsfull_name nfiles))] >>> Done nfiles else
  match fuel with
  | O => More
  | S fuel' =>
      let? total := fsfull_write fuel fd 0 buf in
      printf 1 (str "wrote %d bytes" ++ [NL]) [A_int total] >>>
      close fd >>>
      if total =? 0 then Done nfiles else fsfull_fill fuel' (nfiles + 1) buf
  end.

Definition fsfull (fuel : nat) (buf : list Z) : prog unit :=
  say "fsfull test" >>>
  let? nfiles := fsfull_fill fuel 0 buf in
  pfor (rev (seq 0 (Z.to_nat (nfiles + 1)))) (fun k => unlink (fsfull_name (Z.of_nat k)) >>> Done tt) >>>
  say "fsfull test finished".

(** * The processor and the arguments *)

Definition uio : prog unit :=
  say "uio test" >>>
  let? pid := fork in
  (if pid =? 0 then
     access (X_outb 112 9) >>>
     access (X_inb 113) >>>
     say "uio: uio succeeded; test FAILED" >>>
     exit
   else check (pid <? 0) "fork failed") >>>
  wait >>>
  say "uio test done".

Definition argptest : prog unit :=
  let? fd := open (str "init") O_RDONLY in
  (if fd <? 0 then printf 2 (str "open failed" ++ [NL]) [] >>> exit else Done tt) >>>
  sbrk 0 >>>
  read fd (-1) >>>
  close fd >>>
  say "arg test passed".

(** [rand]: the new [randstate], which is the result. *)
Definition rand (randstate : Z) : Z := u32 (randstate * 1664525 + 1013904223).

(** The uninitialised locals and data of the tests. *)
Record locals : Type := mkLocals { l_de : list Z; l_sbrk_fds : list Z; l_pipe_fds : list Z; l_preempt_fds : list Z; l_uninit : list Z }.

Definition usertests_main (fuel : nat) (loc : locals) : prog unit :=
  say "usertests starting" >>>
  let? fd := open (str "usertests.ran") 0 in
  check (0 <=? fd) "already ran user tests -- rebuild fs.img" >>>
  let? fd := open (str "usertests.ran") O_CREATE in
  close fd >>>
  let buf := replicate (Z.to_nat 8192) 0 in
  argptest >>>
  createdelete >>>
  linkunlink >>>
  concreate fuel (l_de loc) >>>
  let? buf := fourfiles fuel buf in
  sharedfd fuel >>>
  bigargtest >>>
  bigwrite buf >>>
  bigargtest >>>
  bsstest (l_uninit loc) >>>
  sbrktest fuel (l_sbrk_fds loc) >>>
  validatetest >>>
  opentest >>>
  let? buf := writetest buf in
  let? buf := writetest1 fuel buf in
  createtest >>>
  openiputtest >>>
  exitiputtest >>>
  iputtest >>>
  mem fuel >>>
  let? buf := pipe1 fuel (l_pipe_fds loc) buf in
  let? buf := preempt (l_preempt_fds loc) buf in
  exitwait >>>
  rmdot >>>
  fourteen >>>
  let? buf := bigfile fuel buf in
  let? buf := subdir buf in
  let? buf := linktest buf in
  let? buf := unlinkread buf in
  dirfile >>>
  iref >>>
  forktest >>>
  bigdir >>>
  uio >>>
  exectest >>>
  exit.

(** * A reference file system *)

(** Files of one directory: names, contents, open descriptors with their offsets, and what was printed. *)
Record rfs : Type := mkRfs {
  f_dir : gmap (list Z) nat;
  f_data : gmap nat (list Z);
  f_fds : gmap nat (nat * nat);
  f_out : list Z
}.

Definition r_file (s : rfs) (fd : Z) : option (nat * (nat * nat) * list Z) :=
  if fd <? 3 then None else
  let k := Z.to_nat (fd - 3) in
  p ← f_fds s !! k; c ← f_data s !! p.1; Some (k, p, c).

Definition r_open (s : rfs) (path : list Z) (mode : Z) : resp * rfs :=
  let fd := fresh (dom (f_fds s)) in
  match f_dir s !! path with
  | Some ino => (mkResp (3 + Z.of_nat fd) [], mkRfs (f_dir s) (f_data s) (<[fd := (ino, 0%nat)]> (f_fds s)) (f_out s))
  | None =>
      if Z.testbit mode 9 then
        let ino := fresh (dom (f_data s)) in
        (mkResp (3 + Z.of_nat fd) [], mkRfs (<[path := ino]> (f_dir s)) (<[ino := []]> (f_data s)) (<[fd := (ino, 0%nat)]> (f_fds s)) (f_out s))
      else (mkResp (-1) [], s)
  end.

Definition r_write (s : rfs) (fd : Z) (d : list Z) : resp * rfs :=
  if fd =? 1 then (mkResp (Z.of_nat (length d)) [], mkRfs (f_dir s) (f_data s) (f_fds s) (f_out s ++ d)) else
  match r_file s fd with
  | Some (k, (ino, off), c) =>
      (mkResp (Z.of_nat (length d)) [],
       mkRfs (f_dir s) (<[ino := take off c ++ d ++ drop (off + length d) c]> (f_data s)) (<[k := (ino, off + length d)%nat]> (f_fds s)) (f_out s))
  | None => (mkResp (-1) [], s)
  end.

Definition r_read (s : rfs) (fd n : Z) : resp * rfs :=
  match r_file s fd with
  | Some (k, (ino, off), c) =>
      let d := take (Z.to_nat n) (drop off c) in
      (mkResp (Z.of_nat (length d)) d, mkRfs (f_dir s) (f_data s) (<[k := (ino, off + length d)%nat]> (f_fds s)) (f_out s))
  | None => (mkResp (-1) [], s)
  end.

Definition rfs_h (s : rfs) (c : call) : resp * rfs :=
  match c with
  | C_open path mode => r_open s path mode
  | C_write fd d => r_write s fd d
  | C_read fd n => r_read s fd n
  | C_close fd =>
      match r_file s fd with
      | Some (k, _, _) => (mkResp 0 [], mkRfs (f_dir s) (f_data s) (delete k (f_fds s)) (f_out s))
      | None => (mkResp (-1) [], s)
      end
  | C_unlink path =>
      match f_dir s !! path with
      | Some _ => (mkResp 0 [], mkRfs (delete path (f_dir s)) (f_data s) (f_fds s) (f_out s))
      | None => (mkResp (-1) [], s)
      end
  | C_link old new =>
      match f_dir s !! old, f_dir s !! new with
      | Some ino, None => (mkResp 0 [], mkRfs (<[new := ino]> (f_dir s)) (f_data s) (f_fds s) (f_out s))
      | _, _ => (mkResp (-1) [], s)
      end
  | _ => (mkResp (-1) [], s)
  end.

(** Lookups of file names that are constants. *)
Ltac differ := let E := fresh "E" in intros E; vm_compute in E; discriminate E.
Ltac maps := repeat first [rewrite lookup_insert_eq | rewrite lookup_delete_eq | rewrite lookup_insert_ne by differ | rewrite lookup_delete_ne by differ].

Section Reference.
Implicit Types (s : rfs) (dir : gmap (list Z) nat) (data : gmap nat (list Z)) (fds : gmap nat (nat * nat)) (out : list Z).

(** ** Printing *)

Lemma put_rfs l s : put_env rfs_h 1 l s = mkRfs (f_dir s) (f_data s) (f_fds s) (f_out s ++ l).
Proof.
  revert s. induction l as [|c l IH]; intros [dir data fds out]; cbn; [by rewrite app_nil_r|].
  change (fold_left _ l ?e) with (put_env rfs_h 1 l e). rewrite IH. cbn. by rewrite <- app_assoc.
Qed.

Lemma uformat_plain l : forallb (fun c => negb (c =? 37)) l = true -> uformat l [] false = Some l.
Proof.
  induction l as [|c l IH]; [done|]. cbn [forallb]. intros [Hc Hl]%andb_true_iff. cbn [uformat negb].
  destruct (c =? 37); [done|]. by rewrite IH.
Qed.

Definition plain (m : string) : bool := forallb (fun c => negb (c =? 37)) (str m ++ [NL]).

Lemma say_run {B} m (f : unit -> prog B) dir data fds out : plain m = true ->
  prun rfs_h (pbind (say m) f) (mkRfs dir data fds out) = prun rfs_h (f tt) (mkRfs dir data fds (out ++ str m ++ [NL])).
Proof. intros Hm. unfold say. erewrite printf_then by (by apply uformat_plain). by rewrite put_rfs. Qed.

(** ** Calls *)

Definition fd_of (k : nat) : Z := 3 + Z.of_nat k.

Lemma fd_of_index k : (fd_of k <? 3) = false /\ (fd_of k =? 1) = false /\ Z.to_nat (fd_of k - 3) = k /\ (fd_of k <? 0) = false /\ (0 <=? fd_of k) = true.
Proof. unfold fd_of. repeat split; first [apply Z.ltb_ge | apply Z.eqb_neq | apply Z.leb_le | idtac]; lia. Qed.

Lemma open_new {B} p mode (f : Z -> prog B) dir data fds out : dir !! p = None -> Z.testbit mode 9 = true ->
  prun rfs_h (pbind (open p mode) f) (mkRfs dir data fds out)
  = prun rfs_h (f (fd_of (fresh (dom fds)))) (mkRfs (<[p := fresh (dom data)]> dir) (<[fresh (dom data) := []]> data) (<[fresh (dom fds) := (fresh (dom data), 0%nat)]> fds) out).
Proof. intros Hp Hm. unfold open. rewrite prun_sys. cbn [rfs_h]. unfold r_open. cbn [f_dir f_data f_fds f_out]. by rewrite Hp, Hm. Qed.

Lemma open_old {B} p mode (f : Z -> prog B) dir data fds out ino : dir !! p = Some ino ->
  prun rfs_h (pbind (open p mode) f) (mkRfs dir data fds out)
  = prun rfs_h (f (fd_of (fresh (dom fds)))) (mkRfs dir data (<[fresh (dom fds) := (ino, 0%nat)]> fds) out).
Proof. intros Hp. unfold open. rewrite prun_sys. cbn [rfs_h]. unfold r_open. cbn [f_dir f_data f_fds f_out]. by rewrite Hp. Qed.

Lemma open_missing {B} p mode (f : Z -> prog B) dir data fds out : dir !! p = None -> Z.testbit mode 9 = false ->
  prun rfs_h (pbind (open p mode) f) (mkRfs dir data fds out) = prun rfs_h (f (-1)) (mkRfs dir data fds out).
Proof. intros Hp Hm. unfold open. rewrite prun_sys. cbn [rfs_h]. unfold r_open. cbn [f_dir f_data f_fds f_out]. by rewrite Hp, Hm. Qed.

Lemma r_file_eq k ino off c dir data fds out : fds !! k = Some (ino, off) -> data !! ino = Some c ->
  r_file (mkRfs dir data fds out) (fd_of k) = Some (k, (ino, off), c).
Proof. intros Hk Hi. unfold r_file. destruct (fd_of_index k) as (-> & _ & -> & _). cbn. rewrite Hk. cbn. by rewrite Hi. Qed.

Lemma write_run {B} k d (f : Z -> prog B) ino off c dir data fds out : fds !! k = Some (ino, off) -> data !! ino = Some c ->
  prun rfs_h (pbind (write (fd_of k) d) f) (mkRfs dir data fds out)
  = prun rfs_h (f (Z.of_nat (length d))) (mkRfs dir (<[ino := take off c ++ d ++ drop (off + length d) c]> data) (<[k := (ino, off + length d)%nat]> fds) out).
Proof.
  intros Hk Hi. unfold write. rewrite prun_sys. cbn [rfs_h]. unfold r_write. destruct (fd_of_index k) as (_ & -> & _).
  by rewrite (r_file_eq _ _ _ _ _ _ _ _ Hk Hi).
Qed.

Lemma read_run {B} k n buf (f : Z * list Z -> prog B) ino off c dir data fds out : fds !! k = Some (ino, off) -> data !! ino = Some c ->
  let d := take (Z.to_nat n) (drop off c) in
  prun rfs_h (pbind (read_buf (fd_of k) n buf) f) (mkRfs dir data fds out)
  = prun rfs_h (f (Z.of_nat (length d), into buf d)) (mkRfs dir data (<[k := (ino, off + length d)%nat]> fds) out).
Proof.
  intros Hk Hi d. unfold read_buf, read. cbn [pbind]. rewrite prun_ask. cbn [rfs_h]. unfold r_read. by rewrite (r_file_eq _ _ _ _ _ _ _ _ Hk Hi).
Qed.

Lemma close_run {B} k (f : Z -> prog B) ino off c dir data fds out : fds !! k = Some (ino, off) -> data !! ino = Some c ->
  prun rfs_h (pbind (close (fd_of k)) f) (mkRfs dir data fds out) = prun rfs_h (f 0) (mkRfs dir data (delete k fds) out).
Proof. intros Hk Hi. unfold close. rewrite prun_sys. cbn [rfs_h]. by rewrite (r_file_eq _ _ _ _ _ _ _ _ Hk Hi). Qed.

Lemma unlink_run {B} p (f : Z -> prog B) dir data fds out :
  prun rfs_h (pbind (unlink p) f) (mkRfs dir data fds out)
  = prun rfs_h (f (if decide (is_Some (dir !! p)) then 0 else -1)) (mkRfs (delete p dir) data fds out).
Proof.
  unfold unlink. rewrite prun_sys. cbn [rfs_h f_dir]. destruct (dir !! p) eqn:Hp; case_decide as Hd; cbn [fst snd r_ret].
  - done.
  - by destruct Hd.
  - by destruct Hd.
  - by rewrite delete_id.
Qed.

Lemma check_run {B} bad m (f : unit -> prog B) dir data fds out : bad = false ->
  prun rfs_h (pbind (check bad m) f) (mkRfs dir data fds out) = prun rfs_h (f tt) (mkRfs dir data fds out).
Proof. by intros ->. Qed.

Lemma link_run {B} p q (f : Z -> prog B) dir data fds out :
  prun rfs_h (pbind (link p q) f) (mkRfs dir data fds out)
  = match dir !! p, dir !! q with
    | Some ino, None => prun rfs_h (f 0) (mkRfs (<[q := ino]> dir) data fds out)
    | _, _ => prun rfs_h (f (-1)) (mkRfs dir data fds out)
    end.
Proof. unfold link. rewrite prun_sys. cbn [rfs_h f_dir f_data f_fds f_out]. by destruct (dir !! p), (dir !! q). Qed.

Lemma fresh_fd fds : fds !! fresh (dom fds) = None.
Proof. apply not_elem_of_dom. apply is_fresh. Qed.

Lemma fresh_ino data : data !! fresh (dom data) = None.
Proof. apply not_elem_of_dom. apply is_fresh. Qed.


Definition linktest_out : list Z := str "linktest" ++ [NL] ++ str "linktest ok" ++ [NL].

Lemma linktest_run buf dir data fds out : dir !! str "." = None ->
  exists buf' data', prun rfs_h (linktest buf) (mkRfs dir data fds out) =
    (R_done buf', mkRfs (delete (str "lf2") (delete (str "lf1") dir)) data' fds (out ++ linktest_out)) /\ buf' = into buf (str "hello") /\ data ⊆ data'.
Proof.
  intros Hdot. set (ino := fresh (dom data)). set (k := fresh (dom fds)). pose proof (fresh_fd fds) as Hk. pose proof (fresh_ino data) as Hi. fold k in Hk. fold ino in Hi.
  unfold linktest. rewrite say_run by done. rewrite !unlink_run. rewrite open_new; [|by maps|done]. fold k ino. rewrite check_run by apply fd_of_index.
  erewrite write_run by (by rewrite lookup_insert_eq). rewrite check_run by done. cbn [take drop length app].
  erewrite close_run by (by rewrite lookup_insert_eq). rewrite !insert_insert_eq, delete_insert_id by done.
  rewrite link_run. maps. rewrite check_run by done. rewrite unlink_run. rewrite open_missing; [|by maps|done]. rewrite check_run by done.
  rewrite (open_old _ _ _ _ _ _ _ ino) by (by maps). fold k. rewrite check_run by apply fd_of_index.
  erewrite read_run by (by rewrite lookup_insert_eq). rewrite check_run by done. cbn [fst snd].
  erewrite close_run by (by rewrite lookup_insert_eq). rewrite !insert_insert_eq, delete_insert_id by done.
  rewrite link_run. maps. rewrite check_run by done. rewrite unlink_run. rewrite link_run. maps. rewrite check_run by done.
  rewrite link_run. maps. rewrite Hdot. rewrite check_run by done. rewrite say_run by done. cbn [prun]. rewrite <- !app_assoc.
  eexists _, _. split; [f_equal|split; [reflexivity|by apply insert_subseteq]]. f_equal.
  apply map_eq. intros p. destruct (decide (p = str "lf1")) as [->|H1]; [by maps|]. destruct (decide (p = str "lf2")) as [->|H2]; [by maps|].
  by repeat first [rewrite lookup_delete_ne by done | rewrite lookup_insert_ne by done].
Qed.

Definition unlinkread_out : list Z := str "unlinkread test" ++ [NL] ++ str "unlinkread ok" ++ [NL].

Lemma unlinkread_run buf dir data fds out : dir !! str "unlinkread" = None -> length buf = Z.to_nat 8192 ->
  exists buf' data', prun rfs_h (unlinkread buf) (mkRfs dir data fds out) = (R_done buf', mkRfs dir data' fds (out ++ unlinkread_out)) /\ data ⊆ data'.
Proof.
  intros Hno Hbuf. set (ino := fresh (dom data)). set (k := fresh (dom fds)). pose proof (fresh_fd fds) as Hk. pose proof (fresh_ino data) as Hi. fold k in Hk. fold ino in Hi.
  unfold unlinkread. rewrite say_run by done. rewrite open_new by done. fold k ino. rewrite check_run by apply fd_of_index.
  erewrite write_run by (by rewrite lookup_insert_eq). erewrite close_run by (by rewrite lookup_insert_eq). rewrite !insert_insert_eq, delete_insert_id by done.
  rewrite (open_old _ _ _ _ _ _ _ ino) by (by maps). fold k. rewrite check_run by apply fd_of_index. rewrite unlink_run. maps. rewrite delete_insert_id by done.
  rewrite check_run by done.
  set (data1 := <[ino := _]> data). set (fds1 := <[k := _]> fds). set (ino2 := fresh (dom data1)). set (k2 := fresh (dom fds1)).
  pose proof (fresh_fd fds1) as Hk2. pose proof (fresh_ino data1) as Hi2. fold k2 in Hk2. fold ino2 in Hi2.
  assert (Hik : k2 <> k) by (intros E; unfold fds1 in Hk2; rewrite E, lookup_insert_eq in Hk2; done).
  assert (Hii : ino2 <> ino) by (intros E; unfold data1 in Hi2; rewrite E, lookup_insert_eq in Hi2; done).
  rewrite open_new by done. fold k2 ino2. erewrite write_run by (by rewrite lookup_insert_eq). erewrite close_run by (by rewrite lookup_insert_eq).
  rewrite !insert_insert_eq, delete_insert_id by done.
  erewrite read_run; [|by apply lookup_insert_eq|rewrite lookup_insert_ne by done; by apply lookup_insert_eq]. rewrite Z.eqb_refl. cbn [negb pbind].
  rewrite check_run by done. unfold fds1. rewrite insert_insert_eq.
  erewrite write_run; [|by apply lookup_insert_eq|rewrite lookup_insert_ne by done; by apply lookup_insert_eq].
  assert (Hlen : length (take 10 (into buf (str "hello"))) = 10%nat) by (unfold into; rewrite length_take, length_app, length_drop, Hbuf; vm_compute; reflexivity).
  change (take (Z.to_nat 8192) (drop 0 (take 0 [] ++ str "hello" ++ drop (0 + length (str "hello")) []))) with (str "hello"). rewrite Hlen.
  rewrite check_run by done. rewrite insert_insert_eq. erewrite close_run by (by rewrite lookup_insert_eq). rewrite delete_insert_id by done.
  rewrite unlink_run. rewrite delete_insert_id by done. rewrite say_run by done. cbn [prun]. rewrite <- !app_assoc.
  eexists _, _. split; [reflexivity|]. apply insert_subseteq_r; [done|]. apply insert_subseteq_r; [by apply lookup_insert_None in Hi2 as [? _]|by apply insert_subseteq].
Qed.

(** ** [writetest] *)

Definition ab : list Z := str "aaaaaaaaaa" ++ str "bbbbbbbbbb".
Fixpoint abs (n : nat) : list Z := match n with O => [] | S n => ab ++ abs n end.

Lemma abs_length n : length (abs n) = (20 * n)%nat.
Proof. induction n as [|n IH]; [done|]. cbn [abs]. rewrite length_app, IH. change (length ab) with 20%nat. lia. Qed.

Lemma check1_run {B} bad m i (f : unit -> prog B) dir data fds out : bad = false ->
  prun rfs_h (pbind (check1 bad m i) f) (mkRfs dir data fds out) = prun rfs_h (f tt) (mkRfs dir data fds out).
Proof. by intros ->. Qed.

Lemma append_end (c d : list Z) : take (length c) c ++ d ++ drop (length c + length d) c = c ++ d.
Proof. rewrite firstn_all, drop_ge by lia. by rewrite app_nil_r. Qed.

Definition write_ab (k : nat) (i : nat) : prog unit :=
  let? r := write (fd_of k) (str "aaaaaaaaaa") in
  check1 (negb (r =? 10)) "error: write aa %d new file failed" (Z.of_nat i) >>>
  let? r := write (fd_of k) (str "bbbbbbbbbb") in
  check1 (negb (r =? 10)) "error: write bb %d new file failed" (Z.of_nat i).

Lemma write_ab_run k i ino c dir data fds out :
  prun rfs_h (write_ab k i) (mkRfs dir (<[ino := c]> data) (<[k := (ino, length c)]> fds) out)
  = (R_done tt, mkRfs dir (<[ino := c ++ ab]> data) (<[k := (ino, length (c ++ ab))]> fds) out).
Proof.
  unfold write_ab. erewrite write_run by (by rewrite lookup_insert_eq). rewrite append_end, !insert_insert_eq, <- length_app. rewrite check1_run by done.
  erewrite write_run by (by rewrite lookup_insert_eq). rewrite append_end, !insert_insert_eq, <- length_app. unfold ab. by rewrite app_assoc.
Qed.

Lemma writes_run {B} l (f : unit -> prog B) k ino dir data fds out : forall c,
  prun rfs_h (pbind (pfor l (write_ab k)) f) (mkRfs dir (<[ino := c]> data) (<[k := (ino, length c)]> fds) out)
  = prun rfs_h (f tt) (mkRfs dir (<[ino := c ++ abs (length l)]> data) (<[k := (ino, length (c ++ abs (length l)))]> fds) out).
Proof.
  induction l as [|i l IH]; intros c; cbn [pfor length abs].
  - by rewrite app_nil_r.
  - rewrite prun_bind. erewrite prun_then by apply write_ab_run. rewrite <- prun_bind, IH. by rewrite <- !app_assoc.
Qed.

Definition writetest_out : list Z :=
  str "small file test" ++ [NL] ++ str "creat small succeeded; ok" ++ [NL] ++ str "writes ok" ++ [NL] ++ str "open small succeeded ok" ++ [NL] ++
  str "read succeeded ok" ++ [NL] ++ str "small file test ok" ++ [NL].

Lemma writetest_run buf dir data fds out : dir !! str "small" = None ->
  exists data', prun rfs_h (writetest buf) (mkRfs dir data fds out) =
    (R_done (into buf (abs 100)), mkRfs dir data' fds (out ++ writetest_out)) /\ data ⊆ data'.
Proof.
  intros Hno. set (ino := fresh (dom data)). set (k := fresh (dom fds)). pose proof (fresh_fd fds) as Hk. pose proof (fresh_ino data) as Hi. fold k in Hk. fold ino in Hi.
  unfold writetest. rewrite say_run by done. rewrite open_new by done. fold k ino. destruct (fd_of_index k) as (_ & _ & _ & _ & ->). rewrite say_run by done.
  change (<[k := (ino, 0%nat)]> fds) with (<[k := (ino, length ([] : list Z))]> fds). change (pfor (seq 0 100) _) with (pfor (seq 0 100) (write_ab k)). rewrite writes_run. rewrite length_seq, app_nil_l. rewrite say_run by done.
  erewrite close_run by (by rewrite lookup_insert_eq). rewrite delete_insert_id by done. rewrite (open_old _ _ _ _ _ _ _ ino) by (by maps). fold k.
  destruct (fd_of_index k) as (_ & _ & _ & _ & ->). rewrite say_run by done. erewrite read_run by (by rewrite lookup_insert_eq). rewrite drop_0.
  rewrite firstn_all2 by (by rewrite abs_length). rewrite abs_length. assert (E2000 : (Z.of_nat (20 * 100) =? 2000) = true) by (vm_compute; reflexivity). rewrite E2000. rewrite say_run by done.
  erewrite close_run by (by rewrite lookup_insert_eq). rewrite insert_insert_eq, delete_insert_id by done. rewrite unlink_run. maps. rewrite check_run by done.
  rewrite say_run by done. rewrite delete_insert_id by done. cbn [prun]. rewrite <- !app_assoc. eexists. split; [reflexivity|by apply insert_subseteq].
Qed.
End Reference.



(** * What [writetest1] does not notice *)

(** A kernel that accepts every write and keeps nothing. *)
Definition lossy_h (e : unit) (c : call) : resp * unit :=
  match c with
  | C_open _ _ => (mkResp 3 [], e)
  | C_write _ d => (mkResp (Z.of_nat (length d)) [], e)
  | _ => (mkResp 0 [], e)
  end.

Lemma lossy_writes l : forall buf e, (512 <= length buf)%nat -> exists buf', prun lossy_h (writetest1_write l 3 buf) e = (R_done buf', e).
Proof.
  induction l as [|i l IH]; intros buf [] Hl; cbn [writetest1_write]; [by eexists|].
  set (b := set_buf_int buf (Z.of_nat i)). assert (Hb : length b = length buf) by (apply wr32_length; lia).
  unfold write. rewrite prun_sys. cbn [lossy_h fst snd r_ret]. rewrite length_take, Hb, Nat.min_l by lia.
  change (prun lossy_h (check1 (negb (Z.of_nat 512 =? 512)) _ _ >>> ?p) ?e) with (prun lossy_h p e). apply IH. lia.
Qed.

(** The test only rejects a file that ends exactly one block early. *)
Theorem writetest1_misses_loss buf : (512 <= length buf)%nat -> exists buf', prun lossy_h (writetest1 0 buf) tt = (R_done buf', tt).
Proof.
  intros Hl. unfold writetest1. destruct (lossy_writes (range MAXFILE) buf tt Hl) as [buf1 E1].
  change (exists buf', prun lossy_h (let? buf := writetest1_write (range MAXFILE) 3 buf in
    close 3 >>> let? fd := open (str "big") O_RDONLY in check (fd <? 0) "error: open big failed!" >>>
    let? buf := writetest1_read 0 fd 0 buf in close fd >>> let? r := unlink (str "big") in check (r <? 0) "unlink big failed" >>>
    say "big files ok" >>> Done buf) tt = (R_done buf', tt)).
  erewrite prun_then by exact E1. exists (into buf1 []). reflexivity.
Qed.
