(* ===== verification/Mkfs.v ===== *)
(** [mkfs.c], the host program that builds the disk image, and the agreement of the image
    with what the kernel's file system reads. The image file is the list of its blocks;
    [perror] with [exit(1)] and a failed [assert] end the run. The host stores integers in
    little-endian order, so that [xint] and [xshort] do not change values. *)

From S2P Require Import Prelude Bytes Params State Cprintf Log Fs.
From stdpp Require Import base list strings.
From Stdlib Require Import ZArith Lia.
Local Open Scope Z_scope.
Local Open Scope km_scope.

Definition NINODES : Z := 200.
Definition nbitmap : Z := FSSIZE / (BSIZE * 8) + 1.
Definition ninodeblocks : Z := NINODES / IPB + 1.
Definition nlog : Z := LOGSIZE.
Definition nmeta : Z := 2 + nlog + ninodeblocks + nbitmap.
Definition nblocks : Z := FSSIZE - nmeta.

(** The superblock that [main] fills in. *)
Definition mksb : superblock :=
  mkSuperblock FSSIZE nblocks NINODES nlog 2 (2 + nlog) (2 + nlog + ninodeblocks).

Record mkst : Type := mkMkst { mk_img : list (list Z); mk_freeinode : Z; mk_freeblock : Z }.

(** [struct dinode] (fs.h) *)
Record dinode : Type := mkDinode {
  di_type : Z; di_major : Z; di_minor : Z; di_nlink : Z; di_size : Z; di_addrs : list Z
}.
Definition enc_dinode (d : dinode) : list Z :=
  le_enc 2 (di_type d) ++ le_enc 2 (di_major d) ++ le_enc 2 (di_minor d) ++ le_enc 2 (di_nlink d) ++
  le_enc 4 (di_size d) ++ enc_addrs (di_addrs d).
Definition dec_dinode (b : list Z) (o : Z) : dinode :=
  mkDinode (rd16 b o) (rd16 b (o + 2)) (rd16 b (o + 4)) (rd16 b (o + 6)) (rd32 b (o + 8)) (dec_addrs b o).
Definition set_addr (k : Z) (v : Z) (d : dinode) : dinode :=
  mkDinode (di_type d) (di_major d) (di_minor d) (di_nlink d) (di_size d) (<[Z.to_nat k := v]> (di_addrs d)).
Definition set_size (n : Z) (d : dinode) : dinode :=
  mkDinode (di_type d) (di_major d) (di_minor d) (di_nlink d) n (di_addrs d).

Section Mkfs.
Abbreviation MK := (M mkst).

Definition zeroes : list Z := replicate (Z.to_nat BSIZE) 0.

(** A write past the end of the file extends it. *)
Definition wsect (sec : Z) (b : list Z) : MK unit :=
  modify (fun s =>
    let img := mk_img s in
    mkMkst (if sec <? Z.of_nat (length img) then <[Z.to_nat sec := b]> img
            else img ++ replicate (Z.to_nat sec - length img) zeroes ++ [b])
      (mk_freeinode s) (mk_freeblock s)).

Definition rsect (sec : Z) : MK (list Z) :=
  let! img := gets mk_img in
  match img !! Z.to_nat sec with
  | Some b => ret b
  | None => panic "read"
  end.

Definition winode (inum : Z) (d : dinode) : MK unit :=
  let bn := IBLOCK inum mksb in
  let! b := rsect bn in
  wsect bn (splice b (dinode_off inum) (enc_dinode d)).

Definition rinode (inum : Z) : MK dinode :=
  let bn := IBLOCK inum mksb in
  let! b := rsect bn in
  ret (dec_dinode b (dinode_off inum)).

(** [freeinode++] and [freeblock++] *)
Definition next_inode : MK Z := fun s =>
  Ret (mk_freeinode s) (mkMkst (mk_img s) (u32 (mk_freeinode s + 1)) (mk_freeblock s)).
Definition next_block : MK Z := fun s =>
  Ret (mk_freeblock s) (mkMkst (mk_img s) (mk_freeinode s) (u32 (mk_freeblock s + 1))).

Definition mk_ialloc (type : Z) : MK Z :=
  let! inum := next_inode in
  winode inum (mkDinode (u16 type) 0 0 1 0 (replicate (Z.to_nat (NDIRECT + 1)) 0)) ;;
  ret inum.

(** The bits of the first [used] blocks. *)
Definition mk_balloc (used : Z) : MK unit :=
  if negb (used <? BSIZE * 8) then panic "assert" else
  wsect (sb_bmapstart mksb)
    (fold_left (fun b i => <[(i / 8)%nat := Z.lor (nth (i / 8) b 0) (Z.shiftl 1 (Z.of_nat i mod 8))]> b)
       (seq 0 (Z.to_nat used)) zeroes).

(** The block of the file's block [fbn], allocated if need be; the inode afterwards. *)
Definition iappend_block (d : dinode) (fbn : Z) : MK (dinode * Z) :=
  if fbn <? NDIRECT then
    let! a := index "addrs" (di_addrs d) fbn in
    if a =? 0 then let! b := next_block in ret (set_addr fbn b d, b) else ret (d, a)
  else
    let! a := index "addrs" (di_addrs d) NDIRECT in
    let! r := (if a =? 0 then let! b := next_block in ret (set_addr NDIRECT b d, b) else ret (d, a)) in
    let '(d, a) := r in
    let! ind := rsect a in
    let o := 4 * (fbn - NDIRECT) in
    if rd32 ind o =? 0 then
      let! b := next_block in
      let ind := wr32 ind o b in
      wsect a ind ;;
      ret (d, rd32 ind o)
    else ret (d, rd32 ind o).

(** The loop of [iappend]; [p] are the bytes left. Each turn takes at least one. *)
Fixpoint iappend_loop (fuel : nat) (d : dinode) (off : Z) (p : list Z) : MK (dinode * Z) :=
  match p with
  | [] => ret (d, off)
  | _ =>
      match fuel with
      | O => nofuel
      | S f =>
          let fbn := off / BSIZE in
          if negb (fbn <? MAXFILE) then panic "assert" else
          let! r := iappend_block d fbn in
          let '(d, x) := r in
          let n1 := Z.to_nat (Z.min (Z.of_nat (length p)) ((fbn + 1) * BSIZE - off)) in
          let! b := rsect x in
          wsect x (splice b (off - fbn * BSIZE) (take n1 p)) ;;
          iappend_loop f d (off + Z.of_nat n1) (drop n1 p)
      end
  end.

Definition iappend (inum : Z) (p : list Z) : MK unit :=
  let! d := rinode inum in
  let! r := iappend_loop (length p) d (di_size d) p in
  winode inum (set_size r.2 r.1).

(** A directory entry. *)
Definition enc_dirent (inum : Z) (name : list Z) : list Z := le_enc 2 inum ++ lstrncpy name (Z.to_nat DIRSIZ).

(** [while((cc = read(fd, buf, sizeof(buf))) > 0) iappend(inum, buf, cc);] *)
Fixpoint append_file (fuel : nat) (inum : Z) (data : list Z) : MK unit :=
  match data with
  | [] => ret tt
  | _ =>
      match fuel with
      | O => nofuel
      | S f =>
          iappend inum (take (Z.to_nat BSIZE) data) ;;
          append_file f inum (drop (Z.to_nat BSIZE) data)
      end
  end.

(** One argument: the name and the contents of the file, [None] when it cannot be opened. *)
Definition add_file (rootino : Z) (a : list Z * option (list Z)) : MK unit :=
  if existsb (Z.eqb SLASH) a.1 then panic "assert" else
  match a.2 with
  | None => panic "open"
  | Some data =>
      let name := match a.1 with c :: n => if c =? 95 then n else a.1 | [] => [] end in
      let! inum := mk_ialloc T_FILE in
      iappend rootino (enc_dirent inum name) ;;
      append_file (length data) inum data
  end.

Definition enc_sb (sb : superblock) : list Z :=
  le_enc 4 (sb_size sb) ++ le_enc 4 (sb_nblocks sb) ++ le_enc 4 (sb_ninodes sb) ++ le_enc 4 (sb_nlog sb) ++
  le_enc 4 (sb_logstart sb) ++ le_enc 4 (sb_inodestart sb) ++ le_enc 4 (sb_bmapstart sb).

(** [main], from the files given as arguments. *)
Definition mkfs_main (files : list (list Z * option (list Z))) : MK unit :=
  modify (fun s => mkMkst (mk_img s) (mk_freeinode s) nmeta) ;;
  for_each (range FSSIZE) (fun i => wsect (Z.of_nat i) zeroes) ;;
  wsect 1 (splice zeroes 0 (enc_sb mksb)) ;;
  let! rootino := mk_ialloc T_DIR in
  if negb (rootino =? ROOTINO) then panic "assert" else
  iappend rootino (enc_dirent rootino (str ".")) ;;
  iappend rootino (enc_dirent rootino (str "..")) ;;
  for_each files (add_file rootino) ;;
  let! din := rinode rootino in
  winode rootino (set_size ((di_size din / BSIZE + 1) * BSIZE) din) ;;
  let! s := get in
  mk_balloc (mk_freeblock s).
End Mkfs.

(** The empty image file, opened with O_TRUNC. *)
Definition mk0 : mkst := mkMkst [] 1 0.

(** * Files in an image *)

Definition blk (img : list (list Z)) (b : Z) : list Z := default [] (img !! Z.to_nat b).
Definition ind_addr (d : dinode) : Z := nth 12 (di_addrs d) 0.

(** The block that holds block [k] of the file, as the kernel's [bmap] finds it. *)
Definition file_addr (img : list (list Z)) (d : dinode) (k : Z) : Z :=
  if k <? NDIRECT then nth (Z.to_nat k) (di_addrs d) 0 else rd32 (blk img (ind_addr d)) (4 * (k - NDIRECT)).

(** [n] blocks are allocated to [d], all of them below [fb], and hold [data] and zeroes after it. *)
Record ino_ok (img : list (list Z)) (fb : Z) (d : dinode) (n : Z) (data : list Z) : Prop := {
  io_addrs : length (di_addrs d) = 13%nat;
  io_n : 0 <= n <= MAXFILE /\ Z.of_nat (length data) <= BSIZE * n;
  io_addr : forall k, 0 <= k < n -> nmeta <= file_addr img d k < fb;
  io_inj : forall j k, 0 <= j < n -> 0 <= k < n -> file_addr img d j = file_addr img d k -> j = k;
  io_ind : NDIRECT < n -> nmeta <= ind_addr d < fb /\ forall k, 0 <= k < n -> file_addr img d k <> ind_addr d;
  io_noind : n <= NDIRECT -> ind_addr d = 0;
  io_zero : forall k, n <= k < MAXFILE -> k < NDIRECT \/ NDIRECT < n -> file_addr img d k = 0;
  io_data : forall i, Z.of_nat i < BSIZE * n ->
              blk img (file_addr img d (Z.of_nat i / BSIZE)) !! (i mod 512)%nat = Some (nth i data 0)
}.

Definition owned (img : list (list Z)) (d : dinode) (n b : Z) : Prop :=
  (exists k, 0 <= k < n /\ b = file_addr img d k) \/ (NDIRECT < n /\ b = ind_addr d).

(** Whole blocks, those from [fb] on never written. *)
Record img_ok (img : list (list Z)) (fb : Z) : Prop := {
  im_len : length img = Z.to_nat FSSIZE;
  im_blocks : forall b, 0 <= b < FSSIZE -> length (blk img b) = 512%nat;
  im_free : forall b, fb <= b < FSSIZE -> blk img b = zeroes;
  im_fb : nmeta <= fb <= FSSIZE
}.

(** [n >= 12] blocks are allocated, and the indirect block is there. *)
Record ind_ready (img : list (list Z)) (fb : Z) (d : dinode) (n : Z) (data : list Z) : Prop := {
  ir_addrs : length (di_addrs d) = 13%nat;
  ir_n : NDIRECT <= n < MAXFILE /\ Z.of_nat (length data) <= BSIZE * n;
  ir_addr : forall k, 0 <= k < n -> nmeta <= file_addr img d k < fb;
  ir_inj : forall j k, 0 <= j < n -> 0 <= k < n -> file_addr img d j = file_addr img d k -> j = k;
  ir_ind : nmeta <= ind_addr d < fb /\ forall k, 0 <= k < n -> file_addr img d k <> ind_addr d;
  ir_zero : forall k, n <= k < MAXFILE -> file_addr img d k = 0;
  ir_data : forall i, Z.of_nat i < BSIZE * n ->
              blk img (file_addr img d (Z.of_nat i / BSIZE)) !! (i mod 512)%nat = Some (nth i data 0)
}.

(** Blocks taken by [n] blocks of data: the indirect block counts. *)
Definition taken (n : Z) : Z := n + (if NDIRECT <? n then 1 else 0).

(** The constants as numbers. *)
Ltac mknum := change NDIRECT with 12 in *; change MAXFILE with 140 in *; change FSSIZE with 1000 in *;
  change BSIZE with 512 in *; change nmeta with 59 in *.

Section Image.
Implicit Types (img : list (list Z)) (d : dinode) (data p : list Z).

Lemma wsect_eq sec b s :
  0 <= sec < Z.of_nat (length (mk_img s)) ->
  wsect sec b s = Ret tt (mkMkst (<[Z.to_nat sec := b]> (mk_img s)) (mk_freeinode s) (mk_freeblock s)).
Proof. intros H. unfold wsect, modify. by rewrite (proj2 (Z.ltb_lt _ _)) by lia. Qed.

Lemma rsect_eq sec s :
  0 <= sec < Z.of_nat (length (mk_img s)) -> rsect sec s = Ret (blk (mk_img s) sec) s.
Proof.
  intros H. unfold rsect. rewrite bind_gets. unfold blk.
  destruct (lookup_lt_is_Some_2 (mk_img s) (Z.to_nat sec)) as [b Hb]; [lia|]. by rewrite Hb.
Qed.

Lemma blk_insert_eq img b x : 0 <= b < Z.of_nat (length img) -> blk (<[Z.to_nat b := x]> img) b = x.
Proof. intros H. unfold blk. by rewrite list_lookup_insert_eq by lia. Qed.

Lemma blk_insert_ne img b b' x : 0 <= b -> 0 <= b' -> b <> b' -> blk (<[Z.to_nat b := x]> img) b' = blk img b'.
Proof. intros. unfold blk. by rewrite list_lookup_insert_ne by lia. Qed.

(** An inode's data depends on its own blocks only. *)
Lemma file_addr_frame img img' d k n :
  (forall b, owned img d n b -> blk img' b = blk img b) -> k < NDIRECT \/ NDIRECT < n ->
  file_addr img' d k = file_addr img d k.
Proof.
  intros H Hk. unfold file_addr. destruct (Z.ltb_spec k NDIRECT); [done|].
  rewrite H; [done|]. right. split; [lia|done].
Qed.

Lemma ino_frame img img' fb fb' d n data :
  ino_ok img fb d n data -> fb <= fb' -> (forall b, owned img d n b -> blk img' b = blk img b) ->
  ino_ok img' fb' d n data.
Proof.
  intros [H1 H2 H3 H4 H5 H6 H7 H8] Hfb H.
  assert (Hf : forall k, 0 <= k < n -> file_addr img' d k = file_addr img d k).
  { intros k Hk. eapply file_addr_frame; [done|]. destruct (Z.ltb_spec k NDIRECT); lia. }
  constructor; try done.
  - intros k Hk. rewrite Hf by done. specialize (H3 k Hk). lia.
  - intros j k Hj Hk. rewrite !Hf by done. auto.
  - intros Hn. destruct (H5 Hn) as [? Hne]. split; [lia|]. intros k Hk. rewrite Hf by done. auto.
  - intros k Hk Hor. rewrite (file_addr_frame img img' d k n H Hor). auto.
  - intros i Hi. assert (0 <= Z.of_nat i / BSIZE < n).
    { mknum; split; [apply Z.div_pos; lia|apply Z.div_lt_upper_bound; lia]. }
    rewrite Hf by done. rewrite H; [auto|]. left. by exists (Z.of_nat i / BSIZE).
Qed.

Lemma owned_frame img img' d n b :
  (forall b, owned img d n b -> blk img' b = blk img b) -> owned img' d n b <-> owned img d n b.
Proof.
  intros H. unfold owned.
  assert (Hf : forall k, 0 <= k < n -> file_addr img' d k = file_addr img d k).
  { intros k Hk. eapply file_addr_frame; [done|]. destruct (Z.ltb_spec k NDIRECT); lia. }
  split; (intros [(k & Hk & ->)|?]; [left; exists k|by right]); split; auto; symmetry; auto.
Qed.

(** ** Allocating a block *)
Lemma nth_lookup_lt (l : list Z) i : (i < length l)%nat -> l !! i = Some (nth i l 0).
Proof. intros H. destruct (lookup_lt_is_Some_2 l i H) as [x Hx]. by rewrite (nth_lookup_Some _ _ _ _ Hx). Qed.

Lemma div_lt (i : nat) n : Z.of_nat i / 512 < n -> Z.of_nat i < 512 * n.
Proof. intros H. pose proof (Z.mod_pos_bound (Z.of_nat i) 512 ltac:(lia)). pose proof (Z.div_mod (Z.of_nat i) 512). lia. Qed.

Lemma mod512 (i : nat) : Z.of_nat (i mod 512) = Z.of_nat i - 512 * (Z.of_nat i / 512).
Proof. rewrite Nat2Z.inj_mod. change (Z.of_nat 512) with 512. pose proof (Z.div_mod (Z.of_nat i) 512 ltac:(lia)). lia. Qed.

Lemma fresh_byte data (i : nat) : (length data <= i)%nat -> zeroes !! (i mod 512)%nat = Some (nth i data 0).
Proof.
  intros H. rewrite nth_overflow by done. apply lookup_replicate. split; [done|].
  pose proof (Nat.mod_upper_bound i 512). mknum. lia.
Qed.

Lemma addr_index d k (s : mkst) :
  length (di_addrs d) = 13%nat -> 0 <= k < 13 -> index "addrs" (di_addrs d) k s = Ret (nth (Z.to_nat k) (di_addrs d) 0) s.
Proof.
  intros Hl Hk. destruct (lookup_lt_is_Some_2 (di_addrs d) (Z.to_nat k)) as [a Ha]; [lia|].
  rewrite (nth_lookup_Some _ _ _ _ Ha). apply index_eq; [lia|done].
Qed.

Lemma block_present img fi fb d n data fbn :
  img_ok img fb -> ino_ok img fb d n data -> 0 <= fbn < n ->
  iappend_block d fbn (mkMkst img fi fb) = Ret (d, file_addr img d fbn) (mkMkst img fi fb).
Proof.
  intros [Hlen _ _ Hfb] [H1 H2 H3 _ H5 _ _ _] Hn. unfold iappend_block. specialize (H3 fbn Hn).
  unfold file_addr in *. mknum. destruct (Z.ltb_spec fbn 12).
  - erewrite bind_run by (apply addr_index; lia).
    by rewrite (proj2 (Z.eqb_neq _ _)) by lia.
  - erewrite bind_run by (apply addr_index; lia). destruct H5 as [H5 _]; [lia|]. unfold ind_addr in *.
    change (Z.to_nat 12) with 12%nat in *.
    rewrite (proj2 (Z.eqb_neq (nth 12 (di_addrs d) 0) 0)), bind_ret by lia.
    erewrite bind_run by (apply rsect_eq; cbn; lia). cbn [mk_img]. by rewrite (proj2 (Z.eqb_neq _ _)) by lia.
Qed.

Lemma set_addr_nth d k v j :
  length (di_addrs d) = 13%nat -> 0 <= k < 13 ->
  nth j (di_addrs (set_addr k v d)) 0 = if (j =? Z.to_nat k)%nat then v else nth j (di_addrs d) 0.
Proof.
  intros Hl Hk. cbn. destruct (Nat.eqb_spec j (Z.to_nat k)) as [->|Hne].
  - apply nth_lookup_Some. apply list_lookup_insert_eq. lia.
  - rewrite !nth_lookup. by rewrite list_lookup_insert_ne by lia.
Qed.

Lemma taken_le n : n <= taken n <= taken (n + 1) - 1.
Proof. unfold taken. destruct (Z.ltb_spec NDIRECT n), (Z.ltb_spec NDIRECT (n + 1)); lia. Qed.

(** A direct block. *)
Lemma alloc_direct img fi fb d n data :
  img_ok img fb -> ino_ok img fb d n data -> n < NDIRECT -> fb < FSSIZE ->
  iappend_block d n (mkMkst img fi fb) = Ret (set_addr n fb d, fb) (mkMkst img fi (fb + 1)) /\
  ino_ok img (fb + 1) (set_addr n fb d) (n + 1) data /\ file_addr img (set_addr n fb d) n = fb /\
  (forall b, owned img (set_addr n fb d) (n + 1) b -> owned img d n b \/ b = fb).
Proof.
  intros [Hlen _ Hfree Hfb] [H1 H2 H3 H4 H5 H6 H7 H8] Hn Hfull.
  assert (Hf : forall k, 0 <= k < NDIRECT -> file_addr img (set_addr n fb d) k = if k =? n then fb else file_addr img d k).
  { intros k Hk. unfold file_addr. rewrite (proj2 (Z.ltb_lt k NDIRECT)) by lia. rewrite set_addr_nth by (mknum; lia).
    destruct (Z.eqb_spec k n), (Nat.eqb_spec (Z.to_nat k) (Z.to_nat n)); try done; lia. }
  assert (Hi : ind_addr (set_addr n fb d) = 0).
  { unfold ind_addr. rewrite set_addr_nth by (mknum; lia).
    destruct (Nat.eqb_spec 12 (Z.to_nat n)); [unfold NDIRECT in *; lia|]. apply H6. lia. }
  mknum. split_and!.
  - unfold iappend_block. mknum. rewrite (proj2 (Z.ltb_lt n 12)) by lia.
    erewrite bind_run by (apply addr_index; lia).
    assert (E : file_addr img d n = 0) by (apply H7; lia). unfold file_addr in E. mknum.
    rewrite (proj2 (Z.ltb_lt n 12)) in E by lia. rewrite E. cbn [Z.eqb].
    unfold next_block, bind, ret. cbn. by rewrite u32_small by lia.
  - constructor; mknum.
    + cbn. by rewrite length_insert.
    + lia.
    + intros k Hk. rewrite Hf by lia. destruct (Z.eqb_spec k n); [lia|]. specialize (H3 k ltac:(lia)). lia.
    + intros j k Hj Hk. rewrite !Hf by lia.
      destruct (Z.eqb_spec j n), (Z.eqb_spec k n); intros E; [lia| | |apply H4; lia].
      * specialize (H3 k ltac:(lia)). lia.
      * specialize (H3 j ltac:(lia)). lia.
    + lia.
    + intros _. done.
    + intros k Hk Hor. rewrite Hf by lia. rewrite (proj2 (Z.eqb_neq k n)) by lia. apply H7; lia.
    + intros i Hx. assert (0 <= Z.of_nat i / 512 < n + 1) by (split; [apply Z.div_pos; lia|apply Z.div_lt_upper_bound; lia]).
      rewrite Hf by lia. destruct (Z.eqb_spec (Z.of_nat i / 512) n) as [En|En]; [|apply H8, div_lt; lia].
      rewrite Hfree by lia. apply fresh_byte. pose proof (Z.mul_div_le (Z.of_nat i) 512). lia.
  - rewrite Hf by lia. by rewrite Z.eqb_refl.
  - intros b [(k & Hk & ->)|[? _]]; [|mknum; lia]. rewrite Hf by lia.
    destruct (Z.eqb_spec k n); [by right|]. left. left. exists k. split; [lia|done].
Qed.

Lemma ind_ready_old img fb d n data : ino_ok img fb d n data -> NDIRECT < n < MAXFILE -> ind_ready img fb d n data.
Proof. intros [H1 H2 H3 H4 H5 H6 H7 H8] Hn. constructor; try done; [lia|apply H5; lia|]. intros k Hk. apply H7; lia. Qed.

Lemma rd32_zeroes o : rd32 zeroes o = 0.
Proof. apply rd32_rep0. Qed.

Lemma ind_ready_new img fb d data :
  img_ok img fb -> ino_ok img fb d NDIRECT data -> fb < FSSIZE ->
  ind_ready img (fb + 1) (set_addr NDIRECT fb d) NDIRECT data.
Proof.
  intros [Hlen _ Hfree Hfb] [H1 H2 H3 H4 _ _ _ H8] Hfull.
  assert (Hi : ind_addr (set_addr NDIRECT fb d) = fb) by (unfold ind_addr; by rewrite set_addr_nth by (mknum; lia)).
  assert (Hf : forall k, 0 <= k < NDIRECT -> file_addr img (set_addr NDIRECT fb d) k = file_addr img d k).
  { intros k Hk. unfold file_addr. mknum. rewrite (proj2 (Z.ltb_lt k 12)) by lia. rewrite set_addr_nth by lia.
    destruct (Nat.eqb_spec (Z.to_nat k) (Z.to_nat 12)); [lia|done]. }
  constructor; mknum.
  - cbn. by rewrite length_insert.
  - lia.
  - intros k Hk. rewrite Hf by lia. specialize (H3 k Hk). lia.
  - intros j k Hj Hk. rewrite !Hf by lia. auto.
  - rewrite Hi. split; [lia|]. intros k Hk. rewrite Hf by lia. specialize (H3 k Hk). lia.
  - intros k Hk. unfold file_addr. mknum. rewrite (proj2 (Z.ltb_ge k 12)) by lia. rewrite Hi, Hfree by lia. apply rd32_zeroes.
  - intros i Hx. rewrite Hf; [by apply H8|].
    split; [apply Z.div_pos; lia|apply Z.div_lt_upper_bound; lia].
Qed.

(** An entry of the indirect block. *)
Definition ind_write (img : list (list Z)) (d : dinode) (n v : Z) : list (list Z) :=
  <[Z.to_nat (ind_addr d) := wr32 (blk img (ind_addr d)) (4 * (n - NDIRECT)) v]> img.

Lemma file_addr_ind img fb d n data v k :
  img_ok img fb -> ind_ready img fb d n data -> 0 <= v < 2 ^ 32 -> 0 <= k < MAXFILE ->
  file_addr (ind_write img d n v) d k = if k =? n then v else file_addr img d k.
Proof.
  intros [Hlen Hblk _ Hfb] [_ H2 _ _ [H5 _] _ _] Hv Hk. unfold file_addr, ind_write. mknum.
  specialize (Hblk (ind_addr d) ltac:(lia)).
  destruct (Z.ltb_spec k 12); [by rewrite (proj2 (Z.eqb_neq k n)) by lia|].
  rewrite blk_insert_eq by lia. destruct (Z.eqb_spec k n) as [->|Hne].
  - rewrite rd32_wr32_eq by lia. by apply u32_small.
  - by rewrite rd32_wr32_ne by lia.
Qed.

Lemma alloc_indirect img fb d n data :
  img_ok img fb -> ind_ready img fb d n data -> fb < FSSIZE ->
  let img' := ind_write img d n fb in
  img_ok img' (fb + 1) /\ ino_ok img' (fb + 1) d (n + 1) data /\ file_addr img' d n = fb /\
  (forall b, b <> ind_addr d -> 0 <= b -> blk img' b = blk img b) /\
  (forall b, owned img' d (n + 1) b -> (exists k, 0 <= k < n /\ b = file_addr img d k) \/ b = ind_addr d \/ b = fb).
Proof.
  intros Him Hr Hfull img'. pose proof Him as [Hlen Hblk Hfree Hfb]. pose proof Hr as [H1 H2 H3 H4 [H5 H5'] H7 H8].
  assert (Hf : forall k, 0 <= k < MAXFILE -> file_addr img' d k = if k =? n then fb else file_addr img d k).
  { intros k Hk. eapply file_addr_ind; [done|done| |done]. mknum. lia. }
  assert (Hout : forall b, b <> ind_addr d -> 0 <= b -> blk img' b = blk img b).
  { intros b Hb Hb0. unfold img', ind_write. apply blk_insert_ne; mknum; lia. }
  mknum. assert (Hn : file_addr img' d n = fb) by (rewrite Hf by lia; by rewrite Z.eqb_refl).
  split_and!; try done.
  - constructor; mknum.
    + unfold img', ind_write. by rewrite length_insert.
    + intros b Hb. destruct (decide (b = ind_addr d)) as [->|Hne]; [|by rewrite Hout by lia; apply Hblk].
      unfold img', ind_write. rewrite blk_insert_eq by lia. unfold wr32. mknum. specialize (Hblk (ind_addr d) ltac:(lia)).
      rewrite splice_length; [done|lia|]. rewrite le_enc_length. lia.
    + intros b Hb. rewrite Hout by lia. apply Hfree. lia.
    + lia.
  - constructor; mknum.
    + done.
    + lia.
    + intros k Hk. rewrite Hf by lia. destruct (Z.eqb_spec k n); [lia|]. specialize (H3 k ltac:(lia)). lia.
    + intros j k Hj Hk. rewrite !Hf by lia.
      destruct (Z.eqb_spec j n), (Z.eqb_spec k n); intros E; [lia| | |apply H4; lia].
      * specialize (H3 k ltac:(lia)). lia.
      * specialize (H3 j ltac:(lia)). lia.
    + intros _. split; [lia|]. intros k Hk. rewrite Hf by lia. destruct (Z.eqb_spec k n); [lia|]. apply H5'. lia.
    + lia.
    + intros k Hk _. rewrite Hf by lia. rewrite (proj2 (Z.eqb_neq k n)) by lia. apply H7. lia.
    + intros i Hx. assert (0 <= Z.of_nat i / 512 < n + 1) by (split; [apply Z.div_pos; lia|apply Z.div_lt_upper_bound; lia]).
      rewrite Hf by lia. destruct (Z.eqb_spec (Z.of_nat i / 512) n) as [En|En].
      * rewrite Hout, Hfree by lia. apply fresh_byte. pose proof (Z.mul_div_le (Z.of_nat i) 512). lia.
      * assert (0 <= Z.of_nat i / 512 < n) as Hi by lia. specialize (H3 _ Hi). specialize (H5' _ Hi).
        rewrite Hout by lia. apply H8, div_lt. lia.
  - intros b [(k & Hk & ->)|[_ ->]]; [|auto]. rewrite Hf by lia.
    destruct (Z.eqb_spec k n); [auto|]. left. exists k. split; [lia|done].
Qed.

Lemma img_ok_mono img fb fb' : img_ok img fb -> fb <= fb' <= FSSIZE -> img_ok img fb'.
Proof. intros [H1 H2 H3 H4] H. constructor; try done; [|lia]. intros b Hb. apply H3. lia. Qed.

Definition same_meta (d d' : dinode) : Prop :=
  di_type d' = di_type d /\ di_major d' = di_major d /\ di_minor d' = di_minor d /\ di_nlink d' = di_nlink d /\ di_size d' = di_size d.

(** What a step may change: the inode's own blocks and free ones. *)
Definition step_ok (img : list (list Z)) (fb : Z) (d : dinode) (n : Z) (img' : list (list Z)) (d' : dinode) (n' : Z) : Prop :=
  (forall b, 0 <= b < fb -> ~ owned img d n b -> blk img' b = blk img b) /\
  (forall b, owned img' d' n' b -> owned img d n b \/ fb <= b) /\ same_meta d d'.

Lemma next_block_eq img fi fb : 0 <= fb < FSSIZE -> next_block (mkMkst img fi fb) = Ret fb (mkMkst img fi (fb + 1)).
Proof. intros H. unfold next_block. cbn. by rewrite u32_small by (mknum; lia). Qed.

(** The second half of [iappend_block], once the indirect block is known. *)
Lemma ind_entry img fi fb d n data :
  img_ok img fb -> ind_ready img fb d n data -> fb < FSSIZE ->
  (let! ind := rsect (ind_addr d) in
   if rd32 ind (4 * (n - NDIRECT)) =? 0 then
     let! b := next_block in
     let ind := wr32 ind (4 * (n - NDIRECT)) b in
     wsect (ind_addr d) ind ;;
     ret (d, rd32 ind (4 * (n - NDIRECT)))
   else ret (d, rd32 ind (4 * (n - NDIRECT)))) (mkMkst img fi fb)
  = Ret (d, fb) (mkMkst (ind_write img d n fb) fi (fb + 1)).
Proof.
  intros Him Hr Hfull. pose proof Him as [Hlen Hblk _ Hfb]. pose proof Hr as [_ H2 _ _ [H5 _] H7 _]. mknum.
  erewrite bind_run by (apply rsect_eq; cbn; lia). cbn [mk_img].
  assert (E : file_addr img d n = 0) by (apply H7; lia). unfold file_addr in E. mknum.
  rewrite (proj2 (Z.ltb_ge n 12)) in E by lia. rewrite E. cbn [Z.eqb].
  erewrite bind_run by (apply next_block_eq; mknum; lia). cbv zeta.
  erewrite bind_run by (apply wsect_eq; cbn; lia). cbn [mk_img mk_freeinode mk_freeblock].
  specialize (Hblk (ind_addr d) ltac:(lia)). unfold ret. rewrite rd32_wr32_eq by lia. by rewrite u32_small by lia.
Qed.

(** [iappend_block] returns the block it is asked for, allocated. *)
Definition grows (img : list (list Z)) (fi fb : Z) (d : dinode) (n : Z) (data : list Z) (fbn n' fb' : Z) : Prop :=
  exists d' img', iappend_block d fbn (mkMkst img fi fb) = Ret (d', file_addr img' d' fbn) (mkMkst img' fi fb') /\
    img_ok img' fb' /\ ino_ok img' fb' d' n' data /\ step_ok img fb d n img' d' n'.

Lemma grows_direct img fi fb d n data :
  img_ok img fb -> ino_ok img fb d n data -> n < NDIRECT -> fb < FSSIZE -> grows img fi fb d n data n (n + 1) (fb + 1).
Proof.
  intros Him Hio Hn Hf. destruct (alloc_direct img fi fb d n data) as (E & Hio' & Ea & Hown); [done..|].
  exists (set_addr n fb d), img. rewrite Ea. split; [done|]. split; [eapply img_ok_mono; [done|lia]|]. split; [done|].
  split; [done|]. split; [|by split_and!]. intros b Hb. destruct (Hown b Hb) as [?| ->]; [by left|right; lia].
Qed.

Lemma grows_indirect img fi fb d n data d1 fb1 :
  same_meta d d1 -> fb <= fb1 < FSSIZE -> img_ok img fb1 -> ind_ready img fb1 d1 n data ->
  (forall k, 0 <= k < n -> file_addr img d1 k = file_addr img d k) ->
  owned img d n (ind_addr d1) \/ fb <= ind_addr d1 ->
  iappend_block d n (mkMkst img fi fb) = Ret (d1, fb1) (mkMkst (ind_write img d1 n fb1) fi (fb1 + 1)) ->
  grows img fi fb d n data n (n + 1) (fb1 + 1).
Proof.
  intros Hm Hf1 Him1 Hr Hk Ho Hrun.
  destruct (alloc_indirect img fb1 d1 n data Him1 Hr) as (A1 & A2 & A3 & A4 & A5); [lia|].
  exists d1, (ind_write img d1 n fb1). rewrite A3. split; [done|]. split; [done|]. split; [done|]. split_and!.
  - intros b Hb Hnb. apply A4; [|lia]. intros ->. destruct Ho; [done|lia].
  - intros b Hb. destruct (A5 b Hb) as [(k & Hkk & ->)|[->| ->]]; [|done|right; lia].
    rewrite Hk by done. left. left. by exists k.
  - done.
Qed.

Lemma grows_first_indirect img fi fb d data :
  img_ok img fb -> ino_ok img fb d NDIRECT data -> fb + 1 < FSSIZE ->
  grows img fi fb d NDIRECT data NDIRECT (NDIRECT + 1) (fb + 1 + 1).
Proof.
  intros Him Hio Hf. pose proof (im_fb _ _ Him). pose proof Hio as [H1 _ _ _ _ H6 _ _].
  assert (Ei : ind_addr (set_addr NDIRECT fb d) = fb) by (unfold ind_addr; mknum; by rewrite set_addr_nth by lia).
  assert (Him1 : img_ok img (fb + 1)) by (eapply img_ok_mono; [done|lia]).
  assert (Hr : ind_ready img (fb + 1) (set_addr NDIRECT fb d) NDIRECT data) by (apply ind_ready_new; [done|done|lia]).
  apply (grows_indirect _ _ _ _ _ _ (set_addr NDIRECT fb d)); [repeat split| |done|done|..].
  - lia.
  - intros k Hk. unfold file_addr. mknum. rewrite (proj2 (Z.ltb_lt k 12)) by lia. rewrite set_addr_nth by lia.
    destruct (Nat.eqb_spec (Z.to_nat k) (Z.to_nat 12)); [lia|done].
  - right. lia.
  - unfold iappend_block. mknum. rewrite (proj2 (Z.ltb_ge 12 12)) by lia.
    erewrite bind_run by (apply addr_index; lia). change (Z.to_nat 12) with 12%nat. fold (ind_addr d).
    rewrite (H6 ltac:(lia)). cbn [Z.eqb]. rewrite (bind_run _ _ _ (set_addr 12 fb d, fb) (mkMkst img fi (fb + 1))).
    + pose proof (ind_entry img fi (fb + 1) (set_addr 12 fb d) 12 data Him1 Hr Hf) as Hie. by rewrite Ei in Hie.
    + by erewrite bind_run by (apply next_block_eq; mknum; lia).
Qed.

Lemma grows_more_indirect img fi fb d n data :
  img_ok img fb -> ino_ok img fb d n data -> NDIRECT < n < MAXFILE -> fb < FSSIZE ->
  grows img fi fb d n data n (n + 1) (fb + 1).
Proof.
  intros Him Hio Hn Hf. pose proof (ind_ready_old _ _ _ _ _ Hio Hn) as Hr.
  pose proof Hio as [H1 _ _ _ H5 _ _ _]. destruct H5 as [H5 _]; [lia|].
  apply (grows_indirect _ _ _ _ _ _ d fb); [repeat split|lia|done|done|done|left; right; split; [lia|done]|].
  unfold iappend_block. mknum. rewrite (proj2 (Z.ltb_ge n 12)) by lia.
  erewrite bind_run by (apply addr_index; lia). change (Z.to_nat 12) with 12%nat. fold (ind_addr d).
  rewrite (proj2 (Z.eqb_neq (ind_addr d) 0)), bind_ret by lia. by apply (ind_entry img fi fb d n data).
Qed.

Lemma iappend_block_ok img fi fb d n data fbn :
  img_ok img fb -> ino_ok img fb d n data -> 0 <= fbn < MAXFILE -> n - 1 <= fbn <= n ->
  fb + taken (Z.max n (fbn + 1)) - taken n <= FSSIZE ->
  grows img fi fb d n data fbn (Z.max n (fbn + 1)) (fb + taken (Z.max n (fbn + 1)) - taken n).
Proof.
  intros Him Hio Hfbn Hn Hroom. destruct (Z.ltb_spec fbn n) as [Hlt|Hge].
  { replace (Z.max n (fbn + 1)) with n in * by lia. replace (fb + taken n - taken n) with fb in * by lia.
    exists d, img. split; [eapply block_present; [done|done|lia]|]. split; [done|]. split; [done|].
    split; [done|]. split; [by left|repeat split]. }
  replace fbn with n in * by lia. replace (Z.max n (n + 1)) with (n + 1) in * by lia. unfold taken in *.
  destruct (Z.ltb_spec NDIRECT n), (Z.ltb_spec NDIRECT (n + 1)); try lia.
  - replace (fb + (n + 1 + 1) - (n + 1)) with (fb + 1) in * by lia. apply grows_more_indirect; [done|done|lia|lia].
  - replace n with NDIRECT in * by lia. replace (fb + (NDIRECT + 1 + 1) - (NDIRECT + 0)) with (fb + 1 + 1) in * by lia.
    apply grows_first_indirect; [done|done|lia].
  - replace (fb + (n + 1 + 0) - (n + 0)) with (fb + 1) in * by lia. apply grows_direct; [done|done|lia|lia].
Qed.

(** ** Writing into a block of the file *)
Lemma step_ok_trans img fb d n img1 fb1 d1 n1 img2 d2 n2 :
  step_ok img fb d n img1 d1 n1 -> step_ok img1 fb1 d1 n1 img2 d2 n2 -> fb <= fb1 -> step_ok img fb d n img2 d2 n2.
Proof.
  intros (A1 & A2 & A3) (B1 & B2 & B3) Hf. split_and!.
  - intros b Hb Hn. rewrite B1; [by apply A1|lia|]. intros [?|?]%A2; [done|lia].
  - intros b [H|H]%B2; [by apply A2 in H|right; lia].
  - unfold same_meta in *. naive_solver congruence.
Qed.

Definition write_block (img : list (list Z)) (x o : Z) (p : list Z) : list (list Z) :=
  <[Z.to_nat x := splice (blk img x) o p]> img.

Lemma write_piece img fb d n data p fbn :
  img_ok img fb -> ino_ok img fb d n data -> fbn = Z.of_nat (length data) / BSIZE -> fbn < n ->
  Z.of_nat (length data) + Z.of_nat (length p) <= (fbn + 1) * BSIZE ->
  let x := file_addr img d fbn in
  let img' := write_block img x (Z.of_nat (length data) - fbn * BSIZE) p in
  img_ok img' fb /\ ino_ok img' fb d n (data ++ p) /\ step_ok img fb d n img' d n.
Proof.
  intros Him Hio Hfbn Hn Hp x img'. pose proof Him as [Hlen Hblk Hfree Hfb]. pose proof Hio as [H1 H2 H3 H4 H5 H6 H7 H8].
  mknum. pose proof (Z.div_mod (Z.of_nat (length data)) 512 ltac:(lia)) as Hdm.
  pose proof (Z.mod_pos_bound (Z.of_nat (length data)) 512 ltac:(lia)) as Hmod. rewrite <- Hfbn in Hdm.
  assert (Hx : 59 <= x < fb) by (apply H3; lia). set (o := Z.of_nat (length data) - fbn * 512) in *.
  assert (Hbx : length (blk img x) = 512%nat) by (apply Hblk; lia).
  assert (Hin : blk img' x = splice (blk img x) o p) by (apply blk_insert_eq; lia).
  assert (Hout : forall b, 0 <= b -> b <> x -> blk img' b = blk img b) by (intros; apply blk_insert_ne; lia).
  assert (Hf : forall k, k < 12 \/ 12 < n -> file_addr img' d k = file_addr img d k).
  { intros k Hk. unfold file_addr. mknum. destruct (Z.ltb_spec k 12); [done|]. destruct H5 as [H5 H5']; [lia|].
    rewrite Hout; [done|lia|]. intros E. symmetry in E. revert E. apply H5'. lia. }
  assert (Hf' : forall k, 0 <= k < n -> file_addr img' d k = file_addr img d k).
  { intros k Hk. apply Hf. destruct (Z.ltb_spec k 12); lia. }
  split_and!.
  - constructor; mknum; [unfold img', write_block; by rewrite length_insert| | |done].
    + intros b Hb. destruct (decide (b = x)) as [->|]; [|by rewrite Hout by lia; apply Hblk].
      rewrite Hin. rewrite splice_length; [done|lia|lia].
    + intros b Hb. rewrite Hout by lia. by apply Hfree.
  - constructor; mknum; try done.
    + rewrite length_app. lia.
    + intros k Hk. rewrite Hf' by done. auto.
    + intros j k Hj Hk. rewrite !Hf' by done. auto.
    + intros H12. destruct (H5 H12) as [? Hne]. split; [done|]. intros k Hk. rewrite Hf' by done. auto.
    + intros k Hk Hor. rewrite Hf by done. auto.
    + intros i Hi. pose proof (mod512 i) as Hm.
      assert (0 <= Z.of_nat i / 512 < n) as Hr by (split; [apply Z.div_pos; lia|apply Z.div_lt_upper_bound; lia]).
      rewrite Hf' by done. destruct (decide (length data <= i < length data + length p)%nat) as [Hi'|Hi'].
      * assert (Ek : Z.of_nat i / 512 = fbn) by (symmetry; apply (Z.div_unique _ _ _ (Z.of_nat i - 512 * fbn)); lia).
        rewrite Ek in *. change (file_addr img d fbn) with x. rewrite Hin, app_nth2 by lia.
        replace (i mod 512)%nat with (Z.to_nat o + (i - length data))%nat by lia.
        rewrite splice_lookup_in by lia. apply nth_lookup_lt. lia.
      * replace (nth i (data ++ p) 0) with (nth i data 0).
        2:{ destruct (decide (i < length data)%nat); [by rewrite app_nth1|].
            by rewrite !nth_overflow by (rewrite ?length_app; lia). }
        rewrite <- (H8 i Hi). destruct (decide (file_addr img d (Z.of_nat i / 512) = x)) as [E|E].
        -- rewrite E, Hin. pose proof (H4 (Z.of_nat i / 512) fbn ltac:(lia) ltac:(lia) E) as Ek.
           rewrite Ek in Hm. apply splice_lookup_out; lia.
        -- specialize (H3 _ Hr). by rewrite Hout by lia.
  - split_and!; [| |repeat split].
    + intros b Hb Hno. apply Hout; [lia|]. intros ->. apply Hno. left. exists fbn. split; [lia|done].
    + intros b [(k & Hk & ->)|?]; left; [left; exists k; split; [done|by apply Hf']|by right].
Qed.

(** The number of blocks of [len] bytes. *)
Definition nblk (len : nat) : Z := (Z.of_nat len + 511) / BSIZE.

Lemma nblk_spec len : BSIZE * (nblk len - 1) < Z.of_nat len <= BSIZE * nblk len.
Proof.
  unfold nblk. mknum. pose proof (Z.div_mod (Z.of_nat len + 511) 512 ltac:(lia)).
  pose proof (Z.mod_pos_bound (Z.of_nat len + 511) 512 ltac:(lia)). lia.
Qed.

Lemma nblk_unique len n : BSIZE * (n - 1) < Z.of_nat len <= BSIZE * n -> nblk len = n.
Proof. intros H. pose proof (nblk_spec len). mknum. lia. Qed.

Lemma taken_mono a b : a <= b -> taken a <= taken b.
Proof. intros H. unfold taken. destruct (Z.ltb_spec NDIRECT a), (Z.ltb_spec NDIRECT b); lia. Qed.

(** One turn of the loop: [n1] bytes go into block [fbn]. *)
Lemma piece_arith (off lq n1 : nat) fbn :
  (0 < lq)%nat -> fbn = Z.of_nat off / BSIZE ->
  n1 = Z.to_nat (Z.min (Z.of_nat lq) ((fbn + 1) * BSIZE - Z.of_nat off)) ->
  (0 < n1 <= lq)%nat /\ Z.of_nat off + Z.of_nat n1 <= (fbn + 1) * BSIZE /\ 0 <= fbn /\
  nblk (off + n1) = fbn + 1 /\ Z.max (nblk off) (fbn + 1) = fbn + 1 /\ nblk off - 1 <= fbn <= nblk off /\
  fbn + 1 <= nblk (off + lq).
Proof.
  intros Hq Hf H1. pose proof (nblk_spec off). pose proof (nblk_spec (off + lq)). mknum.
  pose proof (Z.div_mod (Z.of_nat off) 512 ltac:(lia)). rewrite <- Hf in *.
  pose proof (Z.mod_pos_bound (Z.of_nat off) 512 ltac:(lia)).
  assert (nblk (off + n1) = fbn + 1) by (apply nblk_unique; mknum; lia). lia.
Qed.

Lemma iappend_loop_ok fuel img fi fb d data p :
  img_ok img fb -> ino_ok img fb d (nblk (length data)) data -> (length p <= fuel)%nat ->
  nblk (length (data ++ p)) <= MAXFILE ->
  forall fb', fb' = fb + taken (nblk (length (data ++ p))) - taken (nblk (length data)) -> fb' <= FSSIZE ->
  exists d' img', iappend_loop fuel d (Z.of_nat (length data)) p (mkMkst img fi fb)
      = Ret (d', Z.of_nat (length (data ++ p))) (mkMkst img' fi fb') /\
    img_ok img' fb' /\ ino_ok img' fb' d' (nblk (length (data ++ p))) (data ++ p) /\
    step_ok img fb d (nblk (length data)) img' d' (nblk (length (data ++ p))).
Proof.
  revert img fb d data p. induction fuel as [|f IH]; intros img fb d data [|c p] Him Hio Hfuel Hmax fb' Hfb' Hroom;
    try (cbn in Hfuel; lia).
  1, 2: rewrite app_nil_r in *; cbn [iappend_loop]; exists d, img; replace fb' with fb by lia; split; [done|]; split; [done|];
    split; [done|]; split; [done|]; split; [by left|repeat split].
  cbn [iappend_loop]. assert (Hq : (0 < length (c :: p))%nat) by (cbn; lia).
  generalize dependent (c :: p). clear c p. intros q Hfuel Hmax Hfb' Hq.
  remember (Z.of_nat (length data) / BSIZE) as fbn eqn:Hfbn.
  remember (Z.to_nat (Z.min (Z.of_nat (length q)) ((fbn + 1) * BSIZE - Z.of_nat (length data)))) as n1 eqn:Hn1.
  destruct (piece_arith (length data) (length q) n1 fbn Hq Hfbn Hn1) as (A1 & A2 & A3 & A4 & A5 & A6 & A7).
  rewrite length_app in *. rewrite (proj2 (Z.ltb_lt fbn MAXFILE)) by lia. cbn [negb].
  destruct (iappend_block_ok img fi fb d (nblk (length data)) data fbn) as (d1 & img1 & E1 & Him1 & Hio1 & Hs1);
    [done|done|lia|done| |].
  { rewrite A5. pose proof (taken_mono (fbn + 1) (nblk (length data + length q)) ltac:(lia)). lia. }
  rewrite A5 in *. set (fb1 := fb + taken (fbn + 1) - taken (nblk (length data))) in *.
  erewrite bind_run by exact E1. cbv iota beta.
  destruct (write_piece img1 fb1 d1 (fbn + 1) data (take n1 q) fbn Him1 Hio1 Hfbn) as (Him2 & Hio2 & Hs2);
    [lia|rewrite length_take; lia|].
  pose proof (io_addr _ _ _ _ _ Hio1 fbn ltac:(lia)) as Hx. pose proof (im_len _ _ Him1) as Hl1. pose proof (im_fb _ _ Him1).
  erewrite bind_run by (apply rsect_eq; cbn [mk_img]; change nmeta with 59 in *; lia). cbn [mk_img].
  erewrite bind_run by (apply wsect_eq; cbn [mk_img]; change nmeta with 59 in *; lia).
  cbn [mk_img mk_freeinode mk_freeblock].
  assert (Hd1 : length (data ++ take n1 q) = (length data + n1)%nat) by (rewrite length_app, length_take; lia).
  change (<[_ := splice _ _ _]> img1) with (write_block img1 (file_addr img1 d1 fbn) (Z.of_nat (length data) - fbn * BSIZE) (take n1 q)).
  generalize dependent (write_block img1 (file_addr img1 d1 fbn) (Z.of_nat (length data) - fbn * BSIZE) (take n1 q)).
  intros img2 Him2 Hio2 Hs2.
  destruct (IH img2 fb1 d1 (data ++ take n1 q) (drop n1 q)) with (fb' := fb') as (d' & img' & E3 & Him3 & Hio3 & Hs3);
    rewrite <- ?app_assoc, ?take_drop, ?length_app, ?Hd1, ?A4 in *; try done;
    [rewrite length_drop; lia|lia|].
  exists d', img'. split; [by rewrite <- E3, Nat2Z.inj_add|]. split; [done|]. split; [done|].
  eapply step_ok_trans; [exact Hs1| |]; [eapply step_ok_trans; [exact Hs2|exact Hs3|lia]|].
  unfold fb1. pose proof (taken_mono (nblk (length data)) (fbn + 1) ltac:(lia)). lia.
Qed.
End Image.

(** * Inode blocks *)

Record din_range (d : dinode) : Prop := {
  dr_type : 0 <= di_type d < 2 ^ 16; dr_major : 0 <= di_major d < 2 ^ 16; dr_minor : 0 <= di_minor d < 2 ^ 16;
  dr_nlink : 0 <= di_nlink d < 2 ^ 16; dr_size : 0 <= di_size d < 2 ^ 32;
  dr_addrs : length (di_addrs d) = 13%nat; dr_range : Forall (fun a => 0 <= a < 2 ^ 32) (di_addrs d)
}.

Lemma enc_dinode_length d : length (di_addrs d) = 13%nat -> length (enc_dinode d) = 64%nat.
Proof. intros H. unfold enc_dinode. by rewrite !length_app, !le_enc_length, enc_addrs_length, H. Qed.

Lemma dec_enc_dinode b o d :
  din_range d -> 0 <= o -> o + DINODE_SIZE <= Z.of_nat (length b) -> dec_dinode (splice b o (enc_dinode d)) o = d.
Proof.
  intros [Ht Hm1 Hm2 Hn Hs Hl Hr] Ho Hlen. pose proof (enc_dinode_length d Hl) as Le. unfold DINODE_SIZE in *.
  unfold dec_dinode. replace (dec_addrs (splice b o (enc_dinode d)) o) with (di_addrs d).
  2:{ symmetry. unfold enc_dinode. rewrite !app_assoc. apply dec_addrs_piece; [|done|done|done|unfold DINODE_SIZE; lia].
      by rewrite !length_app, !le_enc_length. }
  rewrite <- (Z.add_0_r o) at 2. rewrite !rd16_splice, rd32_splice by (rewrite ?Le; lia).
  change (slice (enc_dinode d) 0 2) with (le_enc 2 (di_type d)). change (slice (enc_dinode d) 2 2) with (le_enc 2 (di_major d)).
  change (slice (enc_dinode d) 4 2) with (le_enc 2 (di_minor d)). change (slice (enc_dinode d) 6 2) with (le_enc 2 (di_nlink d)).
  change (slice (enc_dinode d) 8 4) with (le_enc 4 (di_size d)).
  rewrite !le_dec2, le_dec4. unfold u16, u32. rewrite !Z.mod_small by done. by destruct d.
Qed.

Lemma dec_dinode_other b o o' e :
  0 <= o -> o + DINODE_SIZE <= Z.of_nat (length b) -> length e = 64%nat -> 0 <= o' ->
  o' + DINODE_SIZE <= o \/ o + DINODE_SIZE <= o' -> dec_dinode (splice b o e) o' = dec_dinode b o'.
Proof.
  intros Ho Hlen Le Ho' Hd. unfold dec_dinode.
  destruct (dinode_load_other b o o' e inode0) as [_ ->]; [done|done|by rewrite Le|done|done|].
  unfold DINODE_SIZE in *.
  assert (R16 : forall k, 0 <= k <= 62 -> rd16 (splice b o e) (o' + k) = rd16 b (o' + k)).
  { intros k Hk. unfold rd16. f_equal. apply slice_splice_ne; lia. }
  assert (R32 : rd32 (splice b o e) (o' + 8) = rd32 b (o' + 8)).
  { unfold rd32. f_equal. apply slice_splice_ne; lia. }
  pose proof (R16 0 ltac:(lia)) as R0. rewrite Z.add_0_r in R0. by rewrite R0, !R16, R32 by lia.
Qed.

(** The inode on disk. *)
Definition disk_ino (img : list (list Z)) (inum : Z) : dinode := dec_dinode (blk img (IBLOCK inum mksb)) (dinode_off inum).

Definition write_ino (img : list (list Z)) (inum : Z) (d : dinode) : list (list Z) :=
  <[Z.to_nat (IBLOCK inum mksb) := splice (blk img (IBLOCK inum mksb)) (dinode_off inum) (enc_dinode d)]> img.

Section Inodes.
Implicit Types (img : list (list Z)) (d : dinode).

Lemma iblock_range inum : 0 < inum < NINODES -> 32 <= IBLOCK inum mksb < 58 /\ 0 <= dinode_off inum <= 448.
Proof.
  unfold NINODES. intros H. unfold IBLOCK, dinode_off. change IPB with 8. change (sb_inodestart mksb) with 32. change DINODE_SIZE with 64.
  pose proof (Z.div_mod inum 8 ltac:(lia)). pose proof (Z.mod_pos_bound inum 8 ltac:(lia)). rewrite u32_small by lia. lia.
Qed.

Lemma ino_slots i j : 0 < i < NINODES -> 0 < j < NINODES -> i <> j -> IBLOCK i mksb = IBLOCK j mksb ->
  dinode_off j + DINODE_SIZE <= dinode_off i \/ dinode_off i + DINODE_SIZE <= dinode_off j.
Proof.
  unfold NINODES, IBLOCK, dinode_off. intros Hi Hj Hne. change IPB with 8. change (sb_inodestart mksb) with 32. change DINODE_SIZE with 64.
  pose proof (Z.div_mod i 8 ltac:(lia)). pose proof (Z.mod_pos_bound i 8 ltac:(lia)).
  pose proof (Z.div_mod j 8 ltac:(lia)). pose proof (Z.mod_pos_bound j 8 ltac:(lia)). rewrite !u32_small by lia. lia.
Qed.

Lemma write_ino_blk img inum d b :
  0 < inum < NINODES -> 0 <= b -> b <> IBLOCK inum mksb -> blk (write_ino img inum d) b = blk img b.
Proof. intros H Hb Hne. pose proof (iblock_range inum H). apply blk_insert_ne; lia. Qed.

Lemma write_ino_ok img fb inum d :
  img_ok img fb -> 0 < inum < NINODES -> length (di_addrs d) = 13%nat -> img_ok (write_ino img inum d) fb.
Proof.
  intros [H1 H2 H3 H4] Hi Hl. destruct (iblock_range inum Hi) as [Hb Ho]. mknum. constructor; mknum.
  - unfold write_ino. by rewrite length_insert.
  - intros b Hb'. destruct (decide (b = IBLOCK inum mksb)) as [->|Hne]; [|rewrite write_ino_blk by (done || lia); by apply H2].
    unfold write_ino. rewrite blk_insert_eq by lia. rewrite splice_length; [apply H2; lia|lia|].
    rewrite enc_dinode_length, H2 by (done || lia). lia.
  - intros b Hb'. rewrite write_ino_blk by (done || lia). by apply H3.
  - done.
Qed.

Lemma disk_ino_same img fb inum d :
  img_ok img fb -> 0 < inum < NINODES -> din_range d -> disk_ino (write_ino img inum d) inum = d.
Proof.
  intros [H1 H2 _ _] Hi Hd. destruct (iblock_range inum Hi) as [Hb Ho]. mknum. unfold disk_ino, write_ino.
  rewrite blk_insert_eq by lia. apply dec_enc_dinode; [done|lia|]. rewrite H2 by lia. change DINODE_SIZE with 64. lia.
Qed.

Lemma disk_ino_other img fb i j d :
  img_ok img fb -> 0 < i < NINODES -> 0 < j < NINODES -> i <> j -> length (di_addrs d) = 13%nat ->
  disk_ino (write_ino img i d) j = disk_ino img j.
Proof.
  intros [H1 H2 _ _] Hi Hj Hne Hl. destruct (iblock_range i Hi) as [Hb Ho]. destruct (iblock_range j Hj) as [Hbj Hoj]. mknum.
  unfold disk_ino. destruct (decide (IBLOCK i mksb = IBLOCK j mksb)) as [E|E]; [|by rewrite write_ino_blk by (done || lia)].
  pose proof (ino_slots i j Hi Hj Hne E). unfold write_ino. rewrite <- E, blk_insert_eq by lia.
  apply dec_dinode_other; [lia|rewrite H2 by lia; change DINODE_SIZE with 64; lia|by apply enc_dinode_length|lia|done].
Qed.

Lemma winode_eq img fi fb inum d :
  img_ok img fb -> 0 < inum < NINODES -> winode inum d (mkMkst img fi fb) = Ret tt (mkMkst (write_ino img inum d) fi fb).
Proof.
  intros [H1 _ _ _] Hi. destruct (iblock_range inum Hi). mknum. unfold winode.
  erewrite bind_run by (apply rsect_eq; cbn; lia). by erewrite wsect_eq by (cbn; lia).
Qed.

Lemma rinode_eq img fi fb inum :
  img_ok img fb -> 0 < inum < NINODES -> rinode inum (mkMkst img fi fb) = Ret (disk_ino img inum) (mkMkst img fi fb).
Proof.
  intros [H1 _ _ _] Hi. destruct (iblock_range inum Hi). mknum. unfold rinode.
  by erewrite bind_run by (apply rsect_eq; cbn; lia).
Qed.
End Inodes.

(** * The files of an image *)

Definition inum_of (i : nat) : Z := Z.of_nat i + 1.

(** Inode [i + 1] is of type [t], has [data] as its contents and one link. *)
Record file_ok (img : list (list Z)) (fb : Z) (i : nat) (t : Z) (data : list Z) : Prop := {
  fl_type : di_type (disk_ino img (inum_of i)) = t /\ 0 <= t < 2 ^ 15;
  fl_dev : di_major (disk_ino img (inum_of i)) = 0 /\ di_minor (disk_ino img (inum_of i)) = 0;
  fl_nlink : di_nlink (disk_ino img (inum_of i)) = 1;
  fl_size : di_size (disk_ino img (inum_of i)) = Z.of_nat (length data);
  fl_data : ino_ok img fb (disk_ino img (inum_of i)) (nblk (length data)) data
}.

Definition file_owns (img : list (list Z)) (i : nat) (data : list Z) (b : Z) : Prop :=
  owned img (disk_ino img (inum_of i)) (nblk (length data)) b.

(** The boot block, the superblock and the log, as they are first written. *)
Definition low_blk (b : Z) : list Z := if b =? 1 then splice zeroes 0 (enc_sb mksb) else zeroes.

(** The files [L], with inode numbers from 1 on, and no block shared. *)
Record fs_ok (s : mkst) (L : list (Z * list Z)) : Prop := {
  fo_img : img_ok (mk_img s) (mk_freeblock s);
  fo_low : forall b, 0 <= b < sb_inodestart mksb -> blk (mk_img s) b = low_blk b;
  fo_unused : forall i, (length L <= i)%nat -> inum_of i < NINODES -> di_type (disk_ino (mk_img s) (inum_of i)) = 0;
  fo_next : mk_freeinode s = inum_of (length L) /\ inum_of (length L) <= NINODES;
  fo_file : forall i t data, L !! i = Some (t, data) -> file_ok (mk_img s) (mk_freeblock s) i t data;
  fo_disj : forall i j t t' data data' b, i <> j -> L !! i = Some (t, data) -> L !! j = Some (t', data') ->
              file_owns (mk_img s) i data b -> file_owns (mk_img s) j data' b -> False
}.

Section Files.
Implicit Types (s : mkst) (L : list (Z * list Z)) (data p : list Z) (img : list (list Z)).

Lemma ino_addr_range img fb d n data :
  img_ok img fb -> ino_ok img fb d n data -> Forall (fun a => 0 <= a < 2 ^ 32) (di_addrs d).
Proof.
  intros [_ _ _ Hfb] [H1 H2 H3 _ H5 H6 H7 _]. rewrite Forall_lookup. intros k a Ha. pose proof (lookup_lt_Some _ _ _ Ha) as Hk.
  apply (nth_lookup_Some _ _ 0) in Ha. mknum. destruct (decide (k = 12%nat)) as [->|Hne].
  - unfold ind_addr in *. rewrite Ha in *. destruct (Z.ltb_spec 12 n) as [Hn|Hn]; [specialize (H5 Hn); lia|specialize (H6 Hn); lia].
  - assert (E : file_addr img d (Z.of_nat k) = a).
    { unfold file_addr. mknum. rewrite (proj2 (Z.ltb_lt (Z.of_nat k) 12)) by lia. by rewrite Nat2Z.id. }
    destruct (Z.ltb_spec (Z.of_nat k) n) as [Hn|Hn]; [specialize (H3 (Z.of_nat k) ltac:(lia)); lia|].
    specialize (H7 (Z.of_nat k) ltac:(lia) ltac:(lia)). lia.
Qed.

Lemma owned_range img fb d n data b : ino_ok img fb d n data -> owned img d n b -> nmeta <= b < fb.
Proof. intros [_ _ H3 _ H5 _ _ _] [(k & Hk & ->)|[Hn ->]]; [auto|by apply H5]. Qed.

Lemma nblk_size data : nblk (length data) <= MAXFILE -> 0 <= Z.of_nat (length data) < 2 ^ 32.
Proof. intros H. pose proof (nblk_spec (length data)). mknum. lia. Qed.

Lemma ino_size img fb d n data z : ino_ok img fb d n data -> ino_ok img fb (set_size z d) n data.
Proof. intros []. by constructor. Qed.

(** A file whose inode and blocks are not written stays as it is. *)
Lemma file_frame img img' fb fb' i t data :
  file_ok img fb i t data -> fb <= fb' -> disk_ino img' (inum_of i) = disk_ino img (inum_of i) ->
  (forall b, file_owns img i data b -> blk img' b = blk img b) ->
  file_ok img' fb' i t data /\ (forall b, file_owns img' i data b -> file_owns img i data b).
Proof.
  intros [H1 H2 H3 H4 H5] Hfb E Hb. unfold file_owns in *. split.
  - constructor; rewrite ?E; try done. by apply (ino_frame img img' fb fb').
  - intros b. rewrite E. exact (proj1 (owned_frame img img' _ _ b Hb)).
Qed.

(** Appending to file [i]: its inode is rewritten and only its own and free blocks change. *)
Section Append.
Context (img img' : list (list Z)) (fi fb fb' : Z) (L : list (Z * list Z)) (i : nat) (t : Z) (data p : list Z) (d' : dinode).
Hypothesis (Hfs : fs_ok (mkMkst img fi fb) L) (Hi : L !! i = Some (t, data)) (Hfb : fb <= fb' <= FSSIZE).
Hypothesis (Him' : img_ok img' fb') (Hio' : ino_ok img' fb' d' (nblk (length (data ++ p))) (data ++ p)).
Hypothesis (Hmax : nblk (length (data ++ p)) <= MAXFILE).
Hypothesis (Hstep : step_ok img fb (disk_ino img (inum_of i)) (nblk (length data)) img' d' (nblk (length (data ++ p)))).
Let d2 := set_size (Z.of_nat (length (data ++ p))) d'.
Let img2 := write_ino img' (inum_of i) d2.

Lemma append_inum j : (j < length L)%nat -> 0 < inum_of j < NINODES.
Proof. intros Hj. pose proof (proj2 (fo_next _ _ Hfs)). unfold inum_of in *. lia. Qed.

Lemma append_inum_i : 0 < inum_of i < NINODES.
Proof. apply append_inum. by eapply lookup_lt_Some. Qed.

Lemma append_range : din_range d2.
Proof.
  destruct Hstep as (_ & _ & M1 & M2 & M3 & M4 & _). destruct (fo_file _ _ Hfs _ _ _ Hi) as [[T Tr] [D1 D2] N _ _].
  cbn [mk_img] in *. pose proof (nblk_size _ Hmax). pose proof (io_addrs _ _ _ _ _ Hio').
  pose proof (ino_addr_range _ _ _ _ _ Him' Hio').
  constructor; cbn; rewrite ?M1, ?M2, ?M3, ?M4, ?T, ?D1, ?D2, ?N; try done; lia.
Qed.

Lemma append_data b : nmeta <= b -> blk img2 b = blk img' b.
Proof. intros Hb. destruct (iblock_range _ append_inum_i). mknum. apply write_ino_blk; [apply append_inum_i|lia|lia]. Qed.

Lemma append_meta b : 0 <= b < nmeta -> blk img' b = blk img b.
Proof.
  intros Hb. pose proof (im_fb _ _ (fo_img _ _ Hfs)). cbn [mk_freeblock] in *. apply Hstep; [lia|]. intros Ho.
  pose proof (owned_range _ _ _ _ _ _ (fl_data _ _ _ _ _ (fo_file _ _ Hfs _ _ _ Hi)) Ho). lia.
Qed.

Lemma append_self : disk_ino img2 (inum_of i) = d2.
Proof. eapply disk_ino_same; [done|apply append_inum_i|apply append_range]. Qed.

Lemma append_ino j : j <> i -> inum_of j < NINODES -> disk_ino img2 (inum_of j) = disk_ino img (inum_of j).
Proof.
  intros Hj Hn. assert (0 < inum_of j < NINODES) as Hn' by (unfold inum_of in *; lia). pose proof append_inum_i.
  unfold img2. rewrite (disk_ino_other img' fb') by (done || (unfold inum_of; lia) || apply append_range).
  unfold disk_ino. f_equal. destruct (iblock_range (inum_of j) Hn'). apply append_meta. mknum. lia.
Qed.

Lemma append_other j t' data' :
  j <> i -> L !! j = Some (t', data') ->
  file_ok img2 fb' j t' data' /\ (forall b, file_owns img2 j data' b -> file_owns img j data' b).
Proof.
  intros Hj Hl. pose proof (fo_file _ _ Hfs _ _ _ Hl) as Hf. pose proof (lookup_lt_Some _ _ _ Hl).
  apply (file_frame img img2 fb); [done|lia|apply append_ino; [done|by apply append_inum]|].
  intros b Hb. pose proof (owned_range _ _ _ _ _ _ (fl_data _ _ _ _ _ Hf) Hb). cbn [mk_freeblock] in *. rewrite append_data by lia.
  mknum. apply Hstep; [lia|]. intros Ho. by eapply (fo_disj _ _ Hfs i j).
Qed.

Lemma append_own b : file_owns img2 i (data ++ p) b -> file_owns img i data b \/ fb <= b.
Proof.
  unfold file_owns. rewrite append_self. intros Hb. apply Hstep. refine (proj1 (owned_frame img' img2 d2 _ b _) Hb).
  intros x Hx. apply append_data. pose proof (owned_range _ _ _ _ _ _ Hio' Hx). lia.
Qed.

Lemma append_low j t' data' b : L !! j = Some (t', data') -> file_owns img j data' b -> b < fb.
Proof. intros Hl Hb. apply (owned_range _ _ _ _ _ _ (fl_data _ _ _ _ _ (fo_file _ _ Hfs _ _ _ Hl)) Hb). Qed.

Lemma append_files : fs_ok (mkMkst img2 fi fb') (<[i := (t, data ++ p)]> L).
Proof.
  pose proof append_inum_i as Hn. pose proof append_range as Hr. pose proof (lookup_lt_Some _ _ _ Hi) as Hlt.
  constructor; cbn [mk_img mk_freeblock mk_freeinode]; rewrite ?length_insert.
  - apply write_ino_ok; [done|done|apply Hr].
  - intros b Hb. destruct (iblock_range _ Hn). change (sb_inodestart mksb) with 32 in *.
    unfold img2. rewrite write_ino_blk, append_meta by (mknum; done || lia). by apply (fo_low _ _ Hfs).
  - intros j Hj Hjn. rewrite append_ino by (done || lia). by apply (fo_unused _ _ Hfs).
  - apply (fo_next _ _ Hfs).
  - intros j t' data' Hj. destruct (decide (j = i)) as [->|Hne].
    + rewrite list_lookup_insert_eq in Hj by done. injection Hj as <- <-.
      destruct Hstep as (_ & _ & M1 & M2 & M3 & M4 & _). destruct (fo_file _ _ Hfs _ _ _ Hi) as [[T Tr] [D1 D2] N _ _].
      cbn [mk_img] in *. constructor; rewrite ?append_self; cbn; rewrite ?M1, ?M2, ?M3, ?M4; try done.
      apply (ino_frame img' img2 fb'); [by apply ino_size|lia|].
      intros b Hb. apply append_data. pose proof (owned_range _ _ _ _ _ _ (ino_size _ _ _ _ _ _ Hio') Hb). lia.
    + rewrite list_lookup_insert_ne in Hj by done. by eapply append_other.
  - intros j k t1 t2 d1 d3 b Hne Hj Hk Hbj Hbk.
    destruct (decide (j = i)) as [->|Hj'], (decide (k = i)) as [->|Hk']; try done.
    + rewrite list_lookup_insert_eq in Hj by done. rewrite list_lookup_insert_ne in Hk by done. injection Hj as <- <-.
      apply (append_other _ _ _ Hk' Hk) in Hbk. apply append_own in Hbj as [Hbj|Hbj]; [by eapply (fo_disj _ _ Hfs i k)|].
      pose proof (append_low _ _ _ _ Hk Hbk). lia.
    + rewrite list_lookup_insert_eq in Hk by done. rewrite list_lookup_insert_ne in Hj by done. injection Hk as <- <-.
      apply (append_other _ _ _ Hj' Hj) in Hbj. apply append_own in Hbk as [Hbk|Hbk]; [by eapply (fo_disj _ _ Hfs j i)|].
      pose proof (append_low _ _ _ _ Hj Hbj). lia.
    + rewrite list_lookup_insert_ne in Hj, Hk by done. apply (append_other _ _ _ Hj' Hj) in Hbj. apply (append_other _ _ _ Hk' Hk) in Hbk. by eapply (fo_disj _ _ Hfs j k).
Qed.
End Append.

(** The blocks that appending [p] takes. *)
Definition grow (data p : list Z) : Z := taken (nblk (length (data ++ p))) - taken (nblk (length data)).

Lemma nblk_mono a b : (a <= b)%nat -> nblk a <= nblk b.
Proof. intros H. unfold nblk. apply Z.div_le_mono; [done|lia]. Qed.

Lemma grow_pos data p : 0 <= grow data p.
Proof.
  unfold grow. pose proof (taken_mono (nblk (length data)) (nblk (length (data ++ p)))) as H.
  pose proof (nblk_mono (length data) (length (data ++ p))) as H'. rewrite length_app in *. lia.
Qed.

Lemma grow_app data p q : grow data (p ++ q) = grow data p + grow (data ++ p) q.
Proof. unfold grow. rewrite app_assoc. lia. Qed.

Lemma iappend_fs s L i t data p :
  fs_ok s L -> L !! i = Some (t, data) -> nblk (length (data ++ p)) <= MAXFILE ->
  mk_freeblock s + grow data p <= FSSIZE ->
  exists s', iappend (inum_of i) p s = Ret tt s' /\ fs_ok s' (<[i := (t, data ++ p)]> L) /\
    mk_freeblock s' = mk_freeblock s + grow data p.
Proof.
  destruct s as [img fi fb]. intros Hfs Hi Hmax Hroom. cbn [mk_freeblock] in *.
  pose proof Hfs as [Him _ _ [Hnext Hcap] Hfile _]. cbn [mk_img mk_freeblock] in *. pose proof (Hfile _ _ _ Hi) as [_ _ _ Fs Fd].
  pose proof (lookup_lt_Some _ _ _ Hi) as Hlt. assert (Hin : 0 < inum_of i < NINODES) by (unfold inum_of in *; lia).
  unfold iappend. erewrite bind_run by by eapply rinode_eq. rewrite Fs.
  destruct (iappend_loop_ok (length p) img fi fb (disk_ino img (inum_of i)) data p Him Fd (le_n _) Hmax (fb + grow data p))
    as (d' & img' & E & Him' & Hio' & Hstep); [unfold grow; lia|done|].
  erewrite bind_run by exact E. cbn [fst snd]. pose proof (grow_pos data p).
  erewrite winode_eq by done. eexists. split; [done|]. split; [|done].
  apply (append_files img img' fi fb); try done; lia.
Qed.

Lemma ino_ok_fresh img fb d : di_addrs d = replicate (Z.to_nat (NDIRECT + 1)) 0 -> ino_ok img fb d (nblk 0) [].
Proof.
  intros Hd. change (nblk 0) with 0.
  constructor; rewrite ?Hd; try done; try (intros; lia); mknum.
  - intros _. unfold ind_addr. by rewrite Hd.
  - intros k Hk [Hk'|Hk']; [|lia]. unfold file_addr. mknum. rewrite (proj2 (Z.ltb_lt _ _)), Hd by lia. apply (nth_repeat 0 13).
Qed.

Lemma ialloc_fs s L t :
  fs_ok s L -> 0 <= t < 2 ^ 15 -> inum_of (length L) < NINODES ->
  exists s', mk_ialloc t s = Ret (inum_of (length L)) s' /\ fs_ok s' (L ++ [(t, [])]) /\ mk_freeblock s' = mk_freeblock s.
Proof.
  destruct s as [img fi fb]. intros [Him Hlow0 Hunu [Hnext Hcap] Hfile Hdisj] Ht Hmax. cbn [mk_img mk_freeblock mk_freeinode] in *. subst fi.
  assert (Hin : forall j, (j <= length L)%nat -> 0 < inum_of j < NINODES) by (intros; unfold inum_of in *; lia).
  set (d := mkDinode (u16 t) 0 0 1 0 (replicate (Z.to_nat (NDIRECT + 1)) 0)).
  assert (Hd : din_range d).
  { constructor; cbn; try lia; [unfold u16; apply Z.mod_pos_bound; lia|done|]. repeat constructor; lia. }
  assert (Et : u16 t = t) by (apply Z.mod_small; lia).
  unfold mk_ialloc. erewrite bind_run by done. cbn [mk_img mk_freeinode mk_freeblock]. fold d.
  erewrite bind_run by (apply winode_eq; [done|by apply Hin]). eexists. split; [done|]. split; [|done].
  set (img2 := write_ino img (inum_of (length L)) d).
  assert (Ei : disk_ino img2 (inum_of (length L)) = d) by (eapply disk_ino_same; [done|by apply Hin|done]).
  assert (Hoth : forall j t' data', L !! j = Some (t', data') ->
    file_ok img2 fb j t' data' /\ (forall b, file_owns img2 j data' b -> file_owns img j data' b)).
  { intros j t' data' Hl. pose proof (Hfile _ _ _ Hl) as Hf. pose proof (lookup_lt_Some _ _ _ Hl).
    apply (file_frame img img2 fb); [done|lia| |].
    - apply (disk_ino_other img fb); [done|apply Hin; lia|apply Hin; lia|unfold inum_of; lia|done].
    - intros b Hb. pose proof (owned_range _ _ _ _ _ _ (fl_data _ _ _ _ _ Hf) Hb).
      destruct (iblock_range (inum_of (length L))); [by apply Hin|]. mknum. apply write_ino_blk; [by apply Hin|lia|lia]. }
  assert (Hno : forall b, ~ file_owns img2 (length L) [] b).
  { intros b. unfold file_owns. rewrite Ei. change (nblk (length (A:=Z) [])) with 0.
    intros [(k & Hk & _)|[? _]]; [lia|done]. }
  constructor; cbn [mk_img mk_freeblock mk_freeinode]; rewrite ?length_app.
  - by apply write_ino_ok; [|apply Hin|].
  - intros b Hb. destruct (iblock_range (inum_of (length L))); [by apply Hin|]. change (sb_inodestart mksb) with 32 in *.
    unfold img2. rewrite write_ino_blk by (try apply Hin; done || lia). by apply Hlow0.
  - cbn [length]. intros j Hj Hn. unfold img2.
    rewrite (disk_ino_other img fb) by (done || (by apply Hin) || (unfold inum_of in *; lia)). apply Hunu; [lia|done].
  - cbn [length]. unfold inum_of, NINODES in *. split; [|lia]. rewrite u32_small by lia. lia.
  - intros j t' data' Hj. apply lookup_app_Some in Hj as [Hj|[Hj1 Hj2]]; [by apply Hoth|].
    apply list_lookup_singleton_Some in Hj2 as [Hj2 E]. simplify_eq. replace j with (length L) by lia.
    constructor; rewrite ?Ei; try done. by apply ino_ok_fresh.
  - intros j k t1 t2 d1 d2 b Hne Hj Hk Hbj Hbk.
    apply lookup_app_Some in Hj as [Hj|[Hj1 Hj2]], Hk as [Hk|[Hk1 Hk2]].
    + exact (Hdisj j k t1 t2 d1 d2 b Hne Hj Hk (proj2 (Hoth _ _ _ Hj) _ Hbj) (proj2 (Hoth _ _ _ Hk) _ Hbk)).
    + apply list_lookup_singleton_Some in Hk2 as [Hk2 E]. simplify_eq. replace k with (length L) in * by lia. by apply (Hno b).
    + apply list_lookup_singleton_Some in Hj2 as [Hj2 E]. simplify_eq. replace j with (length L) in * by lia. by apply (Hno b).
    + apply list_lookup_singleton_Some in Hj2 as [Hj2 _]. apply list_lookup_singleton_Some in Hk2 as [Hk2 _]. lia.
Qed.

Lemma append_file_fs fuel q : forall s L i t data,
  fs_ok s L -> L !! i = Some (t, data) -> (length q <= fuel)%nat -> nblk (length (data ++ q)) <= MAXFILE ->
  mk_freeblock s + grow data q <= FSSIZE ->
  exists s', append_file fuel (inum_of i) q s = Ret tt s' /\ fs_ok s' (<[i := (t, data ++ q)]> L) /\
    mk_freeblock s' = mk_freeblock s + grow data q.
Proof.
  revert q. induction fuel as [|f IH]; intros [|c q] s L i t data Hfs Hi Hf Hmax Hroom; try (cbn in Hf; lia).
  1, 2: exists s; rewrite app_nil_r, list_insert_id by done; unfold grow; rewrite app_nil_r; split; [done|]; split; [done|lia].
  cbn [append_file]. assert (Hq : (0 < length (c :: q))%nat) by (cbn; lia).
  generalize dependent (c :: q). clear c q. intros q Hf Hmax Hroom Hq. set (n := Z.to_nat BSIZE).
  assert (Ea : data ++ q = (data ++ take n q) ++ drop n q) by (by rewrite <- app_assoc, take_drop).
  assert (Eg : grow data q = grow data (take n q) + grow (data ++ take n q) (drop n q)) by (by rewrite <- grow_app, take_drop).
  rewrite Ea, Eg in *.
  pose proof (grow_pos (data ++ take n q) (drop n q)).
  assert (Hm : nblk (length (data ++ take n q)) <= nblk (length ((data ++ take n q) ++ drop n q))).
  { apply nblk_mono. rewrite (length_app (data ++ _)). lia. }
  destruct (iappend_fs s L i t data (take n q)) as (s1 & E1 & F1 & B1); [done|done|lia|lia|].
  erewrite bind_run by exact E1.
  destruct (IH (drop n q) s1 (<[i := (t, data ++ take n q)]> L) i t (data ++ take n q)) as (s2 & E2 & F2 & B2);
    [done|apply list_lookup_insert_eq; by eapply lookup_lt_Some|rewrite length_drop; unfold n; mknum; lia|done|lia|].
  exists s2. rewrite E2, list_insert_insert_eq in *. split; [done|]. split; [done|]. rewrite B2, B1. lia.
Qed.
End Files.

(** * The whole image *)

(** The name in the directory: a leading [_] is dropped. *)
Definition base_name (name : list Z) : list Z := match name with c :: n => if c =? 95 then n else name | [] => [] end.
Definition entry (i : nat) (f : list Z * list Z) : list Z := enc_dirent (Z.of_nat i + 2) (base_name f.1).
Definition root_dir (files : list (list Z * list Z)) : list Z :=
  enc_dirent ROOTINO (str ".") ++ enc_dirent ROOTINO (str "..") ++ concat (imap entry files).

(** The inodes from 1 on: the root directory, then the files in order. *)
Definition tree (files : list (list Z * list Z)) : list (Z * list Z) :=
  (T_DIR, root_dir files) :: map (fun f => (T_FILE, f.2)) files.

(** The blocks that the image needs after the metadata. *)
Definition blocks (files : list (list Z * list Z)) : Z :=
  taken (nblk (length (root_dir files))) + fold_right Z.add 0 (map (fun f => taken (nblk (length f.2))) files).

Section Tree.
Implicit Types (files : list (list Z * list Z)) (f : list Z * list Z).

Lemma lstrncpy_length t n : length (lstrncpy t n) = n.
Proof.
  revert t. induction n as [|n IH]; intros t; cbn [lstrncpy]; [done|].
  destruct (_ =? 0); [apply length_replicate|]. cbn [length]. by rewrite IH.
Qed.

Lemma enc_dirent_length i name : length (enc_dirent i name) = 16%nat.
Proof. unfold enc_dirent. by rewrite length_app, le_enc_length, lstrncpy_length. Qed.

Lemma root_dir_snoc files f : root_dir (files ++ [f]) = root_dir files ++ entry (length files) f.
Proof. unfold root_dir. rewrite imap_app, concat_app. cbn. by rewrite Nat.add_0_r, app_nil_r, <- !app_assoc. Qed.

Lemma root_dir_length files : length (root_dir files) = (16 * (length files + 2))%nat.
Proof.
  induction files as [|f files IH] using rev_ind; [done|].
  rewrite root_dir_snoc, length_app, IH, length_app. unfold entry. rewrite enc_dirent_length. cbn [length]. lia.
Qed.

Lemma root_dir_blocks files : inum_of (length (tree files)) <= NINODES -> 0 < nblk (length (root_dir files)) <= 7.
Proof.
  rewrite root_dir_length. unfold tree, inum_of, NINODES. cbn [length]. rewrite length_map. intros H.
  pose proof (nblk_spec (16 * (length files + 2))). mknum. lia.
Qed.

Lemma tree_length files : length (tree files) = S (length files).
Proof. cbn. by rewrite length_map. Qed.

Lemma taken_pos len : 0 <= taken (nblk len).
Proof. pose proof (nblk_spec len). unfold taken. mknum. destruct (_ <? _); lia. Qed.

Lemma blocks_snoc files f :
  blocks (files ++ [f]) = blocks files + grow (root_dir files) (entry (length files) f) + taken (nblk (length f.2)).
Proof.
  unfold blocks, grow. rewrite root_dir_snoc, map_app. cbn [map].
  assert (H : forall l x, fold_right Z.add 0 (l ++ [x]) = fold_right Z.add 0 l + x).
  { intros l x. induction l as [|y l IH]; cbn; [lia|]. fold (fold_right Z.add 0) in *. lia. }
  rewrite H. lia.
Qed.

Lemma tree_snoc files f :
  <[S (length files) := (T_FILE, f.2)]> (<[0%nat := (T_DIR, root_dir files ++ entry (length files) f)]> (tree files ++ [(T_FILE, [])]))
  = tree (files ++ [f]).
Proof.
  unfold tree. rewrite root_dir_snoc, map_app. cbn. f_equal.
  etransitivity; [apply insert_app_r_alt; by rewrite length_map|]. by rewrite length_map, Nat.sub_diag.
Qed.

Lemma add_file_tree s files f :
  fs_ok s (tree files) -> mk_freeblock s = nmeta + blocks files -> ~ In SLASH f.1 ->
  inum_of (S (length files)) < NINODES -> nblk (length f.2) <= MAXFILE -> nmeta + blocks (files ++ [f]) <= FSSIZE ->
  exists s', add_file ROOTINO (f.1, Some f.2) s = Ret tt s' /\ fs_ok s' (tree (files ++ [f])) /\
    mk_freeblock s' = nmeta + blocks (files ++ [f]).
Proof.
  intros Hfs Hfb Hn Hi Hmax Hroom. rewrite blocks_snoc in *. unfold add_file. cbn [fst snd].
  destruct (existsb (Z.eqb SLASH) f.1) eqn:Hx; [by apply existsb_exists in Hx as (c & Hc & <-%Z.eqb_eq)|]. clear Hx.
  change (match f.1 with [] => [] | c :: n => if c =? 95 then n else f.1 end) with (base_name f.1).
  destruct (ialloc_fs s (tree files) T_FILE) as (s1 & E1 & F1 & B1); [done|done|by rewrite tree_length|].
  erewrite bind_run by exact E1. rewrite tree_length. set (e := enc_dirent (inum_of (S (length files))) (base_name f.1)).
  assert (Ee : e = entry (length files) f) by (unfold e, entry, inum_of; f_equal; lia).
  pose proof (taken_pos (length f.2)).
  destruct (iappend_fs s1 (tree files ++ [(T_FILE, [])]) 0 T_DIR (root_dir files) e) as (s2 & E2 & F2 & B2); [done|done| | |].
  { rewrite Ee, <- root_dir_snoc. pose proof (root_dir_blocks (files ++ [f])) as Hr.
    rewrite tree_length, length_app in Hr. unfold inum_of, NINODES in *. cbn [length] in Hr. mknum. lia. }
  { rewrite Ee. lia. }
  erewrite bind_run by exact E2.
  destruct (append_file_fs (length f.2) f.2 s2 _ (S (length files)) T_FILE [] F2) as (s3 & E3 & F3 & B3); [|done|done| |].
  { etransitivity; [apply lookup_app_r; by rewrite length_map|]. by rewrite length_map, Nat.sub_diag. }
  { unfold grow. cbn [app length]. change (taken (nblk 0)) with 0. rewrite B2, B1, Ee. lia. }
  exists s3. rewrite Ee in F3. cbn [app] in F3. rewrite tree_snoc in F3. split; [done|]. split; [done|].
  rewrite B3, B2, B1, Hfb, Ee. unfold grow at 2. cbn [app length]. change (taken (nblk 0)) with 0. lia.
Qed.
End Tree.

(** The image as the kernel reads it: the inode that [ilock] loads, and the bytes that [readi]
    copies (a block whose address is 0 is allocated, zeroed, by [bmap]). *)
Definition kinode (img : list (list Z)) (inum : Z) : inode :=
  dinode_load (blk img (IBLOCK inum mksb)) (dinode_off inum) inode0.
Definition kaddr (img : list (list Z)) (ip : inode) (k : Z) : Z :=
  if k <? NDIRECT then nth (Z.to_nat k) (i_addrs ip) 0
  else rd32 (blk img (nth (Z.to_nat NDIRECT) (i_addrs ip) 0)) (4 * (k - NDIRECT)).
Definition kblock (img : list (list Z)) (ip : inode) (k : nat) : list Z :=
  let a := kaddr img ip (Z.of_nat k) in if a =? 0 then zeroes else blk img a.
Definition kbytes (img : list (list Z)) (ip : inode) : list Z :=
  take (Z.to_nat (i_size ip)) (concat (map (kblock img ip) (range ((i_size ip + 511) / BSIZE)))).

Definition inode_is (img : list (list Z)) (inum t : Z) (data : list Z) : Prop :=
  let ip := kinode img inum in
  i_type ip = t /\ i_nlink ip = 1 /\ i_size ip = Z.of_nat (length data) /\ kbytes img ip = data.

(** The directory, with free entries up to a whole number of blocks. *)
Definition root_bytes (files : list (list Z * list Z)) : list Z :=
  let d := root_dir files in d ++ replicate (512 - length d mod 512) 0.

(** The image of [files]. *)
Record image_of (img : list (list Z)) (files : list (list Z * list Z)) : Prop := {
  ig_size : length img = Z.to_nat FSSIZE /\ forall b, 0 <= b < FSSIZE -> length (blk img b) = Z.to_nat BSIZE;
  ig_sb : sb_decode (blk img 1) = mksb;
  ig_log : rd32 (blk img (sb_logstart mksb)) 0 = 0;
  ig_root : inode_is img ROOTINO T_DIR (root_bytes files);
  ig_file : forall i f, files !! i = Some f -> inode_is img (Z.of_nat i + 2) T_FILE f.2;
  ig_unused : forall inum, Z.of_nat (length files) + 2 <= inum < NINODES -> i_type (kinode img inum) = 0;
  ig_bitmap : forall b, 0 <= b < BPB -> (bit_test (blk img (BBLOCK b mksb)) b =? 0) = (nmeta + blocks files <=? b);
  ig_used : forall i t d k, tree files !! i = Some (t, d) -> 0 <= k < nblk (length d) ->
              nmeta <= kaddr img (kinode img (inum_of i)) k < nmeta + blocks files;
  ig_apart : forall i j t t' d d' k k', tree files !! i = Some (t, d) -> tree files !! j = Some (t', d') ->
               0 <= k < nblk (length d) -> 0 <= k' < nblk (length d') ->
               kaddr img (kinode img (inum_of i)) k = kaddr img (kinode img (inum_of j)) k' -> i = j /\ k = k'
}.

Section Bitmap.
Definition bitmap (n : nat) : list Z :=
  fold_left (fun b i => <[(i / 8)%nat := Z.lor (nth (i / 8) b 0) (Z.shiftl 1 (Z.of_nat i mod 8))]> b) (seq 0 n) zeroes.

Lemma bitmap_S n : bitmap (S n) = <[(n / 8)%nat := Z.lor (nth (n / 8) (bitmap n) 0) (Z.shiftl 1 (Z.of_nat n mod 8))]> (bitmap n).
Proof. unfold bitmap. by rewrite seq_S, fold_left_app. Qed.

Lemma nth_zeroes i : nth i zeroes 0 = 0.
Proof. rewrite nth_lookup. destruct (zeroes !! i) as [x|] eqn:E; [|done]. by apply lookup_replicate in E as [-> _]. Qed.

Lemma bitmap_length n : length (bitmap n) = 512%nat.
Proof. induction n as [|n IH]; [done|]. by rewrite bitmap_S, length_insert. Qed.

Lemma bitmap_bit n b :
  (n <= 4096)%nat -> (b < 4096)%nat -> Z.testbit (nth (b / 8) (bitmap n) 0) (Z.of_nat b mod 8) = (b <? n)%nat.
Proof.
  induction n as [|n IH]; intros Hn Hb.
  - change (bitmap 0) with zeroes. by rewrite nth_zeroes, Z.bits_0.
  - specialize (IH ltac:(lia) Hb). rewrite bitmap_S.
    assert (Hlt : (n / 8 < length (bitmap n))%nat) by (rewrite bitmap_length; apply Nat.Div0.div_lt_upper_bound; lia).
    pose proof (Z.mod_pos_bound (Z.of_nat b) 8 ltac:(lia)). pose proof (Z.mod_pos_bound (Z.of_nat n) 8 ltac:(lia)).
    pose proof (Nat2Z.inj_div n 8) as Dn. pose proof (Nat2Z.inj_div b 8) as Db. change (Z.of_nat 8) with 8 in *.
    pose proof (Z.div_mod (Z.of_nat b) 8 ltac:(lia)). pose proof (Z.div_mod (Z.of_nat n) 8 ltac:(lia)).
    destruct (decide (b / 8 = n / 8)%nat) as [E|E].
    + rewrite E in *. rewrite (nth_lookup_Some _ _ _ (Z.lor (nth (n / 8) (bitmap n) 0) (Z.shiftl 1 (Z.of_nat n mod 8))))
        by (by apply list_lookup_insert_eq).
      rewrite Z.lor_spec, IH, Z.shiftl_1_l, Z.pow2_bits_eqb by lia.
      destruct (Z.eqb_spec (Z.of_nat n mod 8) (Z.of_nat b mod 8)), (Nat.ltb_spec b n), (Nat.ltb_spec b (S n)); cbn; try done; lia.
    + rewrite nth_lookup, list_lookup_insert_ne, <- nth_lookup by done. rewrite IH.
      destruct (Nat.ltb_spec b n), (Nat.ltb_spec b (S n)); try done; [lia|]. assert (b = n) as -> by lia. done.
Qed.

Lemma bitmap_test n b :
  0 <= n <= 4096 -> 0 <= b < 4096 -> (bit_test (bitmap (Z.to_nat n)) b =? 0) = (n <=? b).
Proof.
  intros Hn Hb. pose proof (bitmap_bit (Z.to_nat n) (Z.to_nat b) ltac:(lia) ltac:(lia)) as H. rewrite Z2Nat.id in H by lia.
  pose proof (Z.mod_pos_bound b 8 ltac:(lia)). unfold bit_test, bit_mask.
  rewrite Z.shiftl_1_l, land_pow2 by lia. unfold char_at. rewrite Z2Nat.inj_div, <- nth_lookup by lia.
  change (Z.to_nat 8) with 8%nat. rewrite H. destruct (Nat.ltb_spec (Z.to_nat b) (Z.to_nat n)), (Z.leb_spec n b); try done; lia.
Qed.
End Bitmap.

Section Read.
Implicit Types (img : list (list Z)) (data : list Z).

Lemma concat_blocks (ls : list (list Z)) i :
  Forall (fun b => length b = 512%nat) ls -> concat ls !! i = ls !! (i / 512)%nat ≫= (.!! (i mod 512)%nat).
Proof.
  intros H. revert i. induction H as [|b ls Hb _ IH]; intros i; cbn [concat]; [by rewrite !lookup_nil|].
  destruct (decide (i < 512)%nat) as [Hi|Hi].
  - rewrite lookup_app_l by lia. rewrite Nat.div_small, Nat.mod_small by done. done.
  - rewrite lookup_app_r, IH by lia. rewrite Hb. replace i with (i - 512 + 1 * 512)%nat at 3 4 by lia.
    rewrite Nat.div_add, Nat.Div0.mod_add by done. by rewrite Nat.add_comm.
Qed.

Lemma kbytes_eq img fb inum data z :
  img_ok img fb -> ino_ok img fb (disk_ino img inum) (nblk (length data)) data ->
  di_size (disk_ino img inum) = Z.of_nat z -> (length data <= z)%nat ->
  (forall k, nblk (length data) <= k < nblk z -> file_addr img (disk_ino img inum) k = 0) ->
  kbytes img (kinode img inum) = data ++ replicate (z - length data) 0.
Proof.
  intros [_ Hblk _ Hfb] [_ Hn Haddr _ _ _ _ Hdata] Hz Hle Hhole. unfold kbytes.
  change (i_size (kinode img inum)) with (di_size (disk_ino img inum)). rewrite Hz, Nat2Z.id. fold (nblk z).
  assert (Hk : forall k, kaddr img (kinode img inum) k = file_addr img (disk_ino img inum) k) by done.
  assert (Hlen : forall k, Z.of_nat k < nblk z -> length (kblock img (kinode img inum) k) = 512%nat).
  { intros k Hkz. unfold kblock. rewrite Hk. destruct (Z.ltb_spec (Z.of_nat k) (nblk (length data))).
    - specialize (Haddr (Z.of_nat k) ltac:(lia)). mknum. rewrite (proj2 (Z.eqb_neq _ 0)) by lia. apply Hblk. lia.
    - by rewrite Hhole by lia. }
  apply list_eq. intros i. pose proof (nblk_spec z) as Sz. pose proof (nblk_spec (length data)) as Sd. mknum.
  destruct (decide (i < z)%nat) as [Hi|Hi].
  2:{ rewrite lookup_take_ge by lia. symmetry. apply lookup_ge_None. rewrite length_app, length_replicate. lia. }
  rewrite lookup_take_lt by done. pose proof (Nat2Z.inj_div i 512) as Di. change (Z.of_nat 512) with 512 in Di.
  assert (Hiz : Z.of_nat i / 512 < nblk z) by (apply Z.div_lt_upper_bound; lia).
  rewrite concat_blocks.
  2:{ apply Forall_map, Forall_forall. intros k Hk'%elem_of_seq. apply Hlen. lia. }
  rewrite list_lookup_fmap. unfold range. rewrite lookup_seq_lt by lia. cbn [fmap option_fmap option_map mbind option_bind].
  unfold kblock. rewrite Hk. replace (Z.of_nat (0 + i / 512)) with (Z.of_nat i / 512) by lia.
  destruct (Z.ltb_spec (Z.of_nat i / 512) (nblk (length data))) as [Hd|Hd].
  - pose proof (Z.div_pos (Z.of_nat i) 512 ltac:(lia) ltac:(lia)). specialize (Haddr (Z.of_nat i / 512) ltac:(lia)).
    rewrite (proj2 (Z.eqb_neq _ 0)) by lia. rewrite Hdata by (apply div_lt; lia).
    destruct (decide (i < length data)%nat).
    + rewrite lookup_app_l by done. symmetry. by apply nth_lookup_lt.
    + rewrite nth_overflow, lookup_app_r by lia. symmetry. apply lookup_replicate. split; [done|lia].
  - rewrite Hhole by lia. cbn [Z.eqb]. pose proof (Z.mul_div_le (Z.of_nat i) 512 ltac:(lia)).
    rewrite lookup_app_r by lia. trans (Some 0); [|symmetry]; apply lookup_replicate; (split; [done|]); [|lia].
    pose proof (Nat.mod_upper_bound i 512). mknum. lia.
Qed.
End Read.

Section Main.
Implicit Types (files : list (list Z * list Z)) (f : list Z * list Z).

Lemma zero_loop n k fi fb :
  for_each (seq k n) (fun i => wsect (Z.of_nat i) zeroes) (mkMkst (replicate k zeroes) fi fb)
  = Ret tt (mkMkst (replicate (k + n) zeroes) fi fb).
Proof.
  revert k. induction n as [|n IH]; intros k; cbn [seq for_each]; [by rewrite Nat.add_0_r|].
  assert (E : wsect (Z.of_nat k) zeroes (mkMkst (replicate k zeroes) fi fb) = Ret tt (mkMkst (replicate (S k) zeroes) fi fb)).
  { unfold wsect, modify. cbn [mk_img mk_freeinode mk_freeblock]. rewrite length_replicate, (proj2 (Z.ltb_ge _ _)) by lia.
    by rewrite Nat2Z.id, Nat.sub_diag, replicate_S_end. }
  erewrite bind_run by exact E. rewrite IH. by rewrite Nat.add_succ_comm.
Qed.

Definition image0 : list (list Z) := <[1%nat := splice zeroes 0 (enc_sb mksb)]> (replicate (Z.to_nat FSSIZE) zeroes).

Lemma image0_blk b : 0 <= b < FSSIZE -> blk image0 b = low_blk b.
Proof.
  intros Hb. unfold image0, low_blk. destruct (Z.eqb_spec b 1) as [->|Hne].
  - apply (blk_insert_eq _ 1). rewrite length_replicate. lia.
  - rewrite (blk_insert_ne _ 1) by lia. unfold blk. by rewrite lookup_replicate_2 by lia.
Qed.

Lemma low_blk_length b : length (low_blk b) = 512%nat.
Proof. unfold low_blk. by destruct (b =? 1). Qed.

Lemma image0_ok : fs_ok (mkMkst image0 1 nmeta) [].
Proof.
  constructor; cbn [mk_img mk_freeinode mk_freeblock]; try done.
  - constructor; [by unfold image0; rewrite length_insert, length_replicate| | |done].
    + intros b Hb. rewrite image0_blk by done. apply low_blk_length.
    + intros b Hb. mknum. rewrite image0_blk by (mknum; lia). unfold low_blk. by rewrite (proj2 (Z.eqb_neq b 1)) by lia.
  - intros b Hb. apply image0_blk. change (sb_inodestart mksb) with 32 in *. mknum. lia.
  - intros i _ Hi. destruct (iblock_range (inum_of i)); [unfold inum_of in *; lia|]. unfold disk_ino. mknum.
    rewrite image0_blk by (mknum; lia). unfold low_blk. rewrite (proj2 (Z.eqb_neq _ 1)) by lia. cbn.
    unfold rd16, slice, zeroes. rewrite drop_replicate, take_replicate. set (n := (_ `min` _)%nat).
    induction n as [|n IH]; cbn [replicate Bytes.le_dec]; [done|]. rewrite IH. lia.
Qed.

(** The root directory with its first two entries. *)
Lemma root_tree : exists s1 s2 s3,
  mk_ialloc T_DIR (mkMkst image0 1 nmeta) = Ret ROOTINO s1 /\
  iappend ROOTINO (enc_dirent ROOTINO (str ".")) s1 = Ret tt s2 /\
  iappend ROOTINO (enc_dirent ROOTINO (str "..")) s2 = Ret tt s3 /\
  fs_ok s3 (tree []) /\ mk_freeblock s3 = nmeta + blocks [].
Proof.
  destruct (ialloc_fs _ _ T_DIR image0_ok) as (s1 & E1 & F1 & B1); [done|done|].
  destruct (iappend_fs s1 _ 0 T_DIR [] (enc_dirent ROOTINO (str ".")) F1) as (s2 & E2 & F2 & B2); [done|done|by rewrite B1|].
  destruct (iappend_fs s2 _ 0 T_DIR (enc_dirent ROOTINO (str ".")) (enc_dirent ROOTINO (str "..")) F2) as (s3 & E3 & F3 & B3);
    [done|done|by rewrite B2, B1|].
  exists s1, s2, s3. split_and!; [done|done|done|exact F3|by rewrite B3, B2, B1].
Qed.

Lemma blocks_mono files rest : blocks files <= blocks (files ++ rest).
Proof.
  induction rest as [|f rest IH] using rev_ind; [by rewrite app_nil_r|]. rewrite app_assoc, blocks_snoc.
  pose proof (grow_pos (root_dir (files ++ rest)) (entry (length (files ++ rest)) f)). pose proof (taken_pos (length f.2)). lia.
Qed.

Definition fits (f : list Z * list Z) : Prop := ~ In SLASH f.1 /\ nblk (length f.2) <= MAXFILE.

Lemma add_files_tree rest : forall files s,
  fs_ok s (tree files) -> mk_freeblock s = nmeta + blocks files -> Forall fits rest ->
  inum_of (S (length (files ++ rest))) <= NINODES -> nmeta + blocks (files ++ rest) <= FSSIZE ->
  exists s', for_each (map (fun f => (f.1, Some f.2)) rest) (add_file ROOTINO) s = Ret tt s' /\
    fs_ok s' (tree (files ++ rest)) /\ mk_freeblock s' = nmeta + blocks (files ++ rest).
Proof.
  induction rest as [|f rest IH]; intros files s Hfs Hfb Hfit Hn Hroom; cbn [map for_each].
  { exists s. by rewrite app_nil_r. }
  apply Forall_cons in Hfit as [[Hs Hm] Hfit]. rewrite length_app in Hn. cbn [length] in Hn.
  assert (Ea : files ++ f :: rest = (files ++ [f]) ++ rest) by (by rewrite <- app_assoc). rewrite Ea in *. pose proof (blocks_mono (files ++ [f]) rest).
  destruct (add_file_tree s files f) as (s1 & E1 & F1 & B1); [done|done|done|unfold inum_of, NINODES in *; lia|done|lia|].
  erewrite bind_run by exact E1. apply IH; try done. rewrite !length_app. cbn [length]. unfold inum_of, NINODES in *. lia.
Qed.

(** The root's size and the bitmap. *)
Definition final_img (img : list (list Z)) (z fb : Z) : list (list Z) :=
  <[Z.to_nat (sb_bmapstart mksb) := bitmap (Z.to_nat fb)]> (write_ino img ROOTINO (set_size z (disk_ino img ROOTINO))).

Lemma finish_run img fi fb :
  img_ok img fb ->
  (let! din := rinode ROOTINO in
   winode ROOTINO (set_size ((di_size din / BSIZE + 1) * BSIZE) din) ;;
   let! s := get in
   mk_balloc (mk_freeblock s)) (mkMkst img fi fb)
  = Ret tt (mkMkst (final_img img ((di_size (disk_ino img ROOTINO) / BSIZE + 1) * BSIZE) fb) fi fb).
Proof.
  intros Him. pose proof Him as [Hlen _ _ Hfb]. erewrite bind_run by (by apply rinode_eq).
  erewrite bind_run by (by apply winode_eq). rewrite bind_get. cbn [mk_freeblock]. unfold mk_balloc. mknum.
  rewrite (proj2 (Z.ltb_lt fb (512 * 8))) by lia. cbn [negb]. rewrite wsect_eq; [done|]. cbn [mk_img].
  unfold write_ino. rewrite length_insert, Hlen. change (sb_bmapstart mksb) with 58. lia.
Qed.

Lemma final_blk img z fb b :
  0 <= b -> b <> sb_bmapstart mksb -> b <> IBLOCK ROOTINO mksb -> blk (final_img img z fb) b = blk img b.
Proof.
  intros H0 H1 H2. unfold final_img. change (sb_bmapstart mksb) with 58 in *.
  rewrite blk_insert_ne by lia. by apply write_ino_blk.
Qed.

Lemma final_bitmap img z fb : length img = Z.to_nat FSSIZE -> blk (final_img img z fb) 58 = bitmap (Z.to_nat fb).
Proof. intros H. apply (blk_insert_eq _ 58). unfold write_ino. rewrite length_insert, H. by mknum. Qed.

Lemma final_ino img z fb inum :
  img_ok img fb -> din_range (set_size z (disk_ino img ROOTINO)) -> 0 < inum < NINODES ->
  disk_ino (final_img img z fb) inum = if inum =? ROOTINO then set_size z (disk_ino img ROOTINO) else disk_ino img inum.
Proof.
  intros Him Hr Hi. destruct (iblock_range inum Hi). unfold final_img. change (sb_bmapstart mksb) with 58.
  unfold disk_ino at 1. rewrite blk_insert_ne by lia. fold (disk_ino (write_ino img ROOTINO (set_size z (disk_ino img ROOTINO))) inum).
  destruct (Z.eqb_spec inum ROOTINO) as [->|Hne]; [by eapply disk_ino_same|].
  apply (disk_ino_other img fb); [done|done|done|congruence|apply Hr].
Qed.

Lemma final_ok img fb z : img_ok img fb -> length (di_addrs (disk_ino img ROOTINO)) = 13%nat -> img_ok (final_img img z fb) fb.
Proof.
  intros Him Hl. pose proof (write_ino_ok img fb ROOTINO (set_size z (disk_ino img ROOTINO)) Him ltac:(done) Hl) as [H1 H2 H3 H4].
  constructor; unfold final_img; mknum; change (sb_bmapstart mksb) with 58 in *; [by rewrite length_insert| | |done].
  - intros b Hb. destruct (decide (b = 58)) as [->|Hne]; [|rewrite blk_insert_ne by lia; by apply H2].
    rewrite blk_insert_eq by lia. apply bitmap_length.
  - intros b Hb. rewrite blk_insert_ne by lia. by apply H3.
Qed.

Lemma final_file img fi fb L z i t data :
  fs_ok (mkMkst img fi fb) L -> L !! i = Some (t, data) -> din_range (set_size z (disk_ino img ROOTINO)) ->
  ino_ok (final_img img z fb) fb (disk_ino (final_img img z fb) (inum_of i)) (nblk (length data)) data /\
  forall b, owned (final_img img z fb) (disk_ino (final_img img z fb) (inum_of i)) (nblk (length data)) b -> file_owns img i data b.
Proof.
  intros [Him _ _ [_ Hcap] Hfile _] Hi Hr. cbn [mk_img mk_freeblock] in *. pose proof (Hfile _ _ _ Hi) as [_ _ _ _ Fd].
  pose proof (lookup_lt_Some _ _ _ Hi). rewrite final_ino by (done || (unfold inum_of, NINODES in *; lia)).
  set (d' := if inum_of i =? ROOTINO then _ else _).
  assert (Hd : ino_ok img fb d' (nblk (length data)) data /\ forall b, owned img d' (nblk (length data)) b -> file_owns img i data b).
  { unfold d'. destruct (Z.eqb_spec (inum_of i) ROOTINO) as [E|E]; [|done]. unfold file_owns. rewrite E in *.
    split; [by apply ino_size|done]. }
  destruct Hd as [Hd Ho].
  assert (Hb : forall b, owned img d' (nblk (length data)) b -> blk (final_img img z fb) b = blk img b).
  { intros b Hb. pose proof (owned_range _ _ _ _ _ _ Hd Hb). destruct (iblock_range ROOTINO ltac:(done)).
    apply final_blk; change (sb_bmapstart mksb) with 58 in *; mknum; lia. }
  split; [by apply (ino_frame img _ fb)|]. intros b Hx. apply Ho. exact (proj1 (owned_frame img _ d' _ b Hb) Hx).
Qed.

Lemma round_up (n z : nat) : z = Z.to_nat ((Z.of_nat n / BSIZE + 1) * BSIZE) ->
  (n <= z)%nat /\ (z - n = 512 - n mod 512)%nat /\ nblk z <= nblk n + 1 /\ (Z.of_nat z = (Z.of_nat n / BSIZE + 1) * BSIZE).
Proof.
  intros ->. mknum. pose proof (Z.div_mod (Z.of_nat n) 512 ltac:(lia)). pose proof (Z.mod_pos_bound (Z.of_nat n) 512 ltac:(lia)).
  pose proof (mod512 n). pose proof (nblk_spec n). pose proof (Z.div_pos (Z.of_nat n) 512). mknum.
  assert (nblk (Z.to_nat ((Z.of_nat n / 512 + 1) * 512)) = Z.of_nat n / 512 + 1) as -> by (apply nblk_unique; mknum; lia).
  split_and!; lia.
Qed.

Section Finish.
Context (img : list (list Z)) (fi fb z : Z) (files : list (list Z * list Z)).
Hypothesis (Hfs : fs_ok (mkMkst img fi fb) (tree files)).
Hypothesis (Hz : z = (di_size (disk_ino img ROOTINO) / BSIZE + 1) * BSIZE).
Let img2 := final_img img z fb.

Lemma tree_inum i t data : tree files !! i = Some (t, data) -> 0 < inum_of i < NINODES.
Proof.
  intros Hi. pose proof (proj2 (fo_next _ _ Hfs)). pose proof (lookup_lt_Some _ _ _ Hi). unfold inum_of, NINODES in *. lia.
Qed.

Lemma root_size : let n := length (root_dir files) in
  z = Z.of_nat (Z.to_nat z) /\ (n <= Z.to_nat z)%nat /\ (Z.to_nat z - n = 512 - n mod 512)%nat /\
  nblk n <= nblk (Z.to_nat z) <= nblk n + 1 /\ nblk n <= 7 /\ 0 <= z < 2 ^ 32.
Proof.
  intros n. pose proof (fo_file _ _ Hfs 0%nat T_DIR (root_dir files) eq_refl) as [_ _ _ Fz _].
  change (inum_of 0) with ROOTINO in Fz. cbn [mk_img] in Fz. fold n in Fz.
  pose proof (root_dir_blocks files (proj2 (fo_next _ _ Hfs))) as Hrb. fold n in Hrb.
  destruct (round_up n (Z.to_nat z)) as (R1 & R2 & R3 & R4); [by rewrite Hz, Fz|]. rewrite <- Fz, <- Hz in R4.
  pose proof (nblk_mono n (Z.to_nat z) R1). pose proof (nblk_spec (Z.to_nat z)). mknum. split_and!; lia.
Qed.

Lemma root_range : din_range (set_size z (disk_ino img ROOTINO)).
Proof.
  destruct (fo_file _ _ Hfs 0%nat T_DIR (root_dir files) eq_refl) as [[T _] [D1 D2] N _ Fd].
  change (inum_of 0) with ROOTINO in *. cbn [mk_img mk_freeblock] in *.
  pose proof (ino_addr_range _ _ _ _ _ (fo_img _ _ Hfs) Fd). pose proof (io_addrs _ _ _ _ _ Fd).
  destruct root_size as (_ & _ & _ & _ & _ & Hz32).
  constructor; cbn [set_size di_type di_major di_minor di_nlink di_size di_addrs]; rewrite ?T, ?D1, ?D2, ?N; unfold T_DIR; try done; lia.
Qed.

Lemma final_img_ok : img_ok img2 fb.
Proof. apply final_ok; [apply (fo_img _ _ Hfs)|apply root_range]. Qed.

Lemma final_disk i t data :
  tree files !! i = Some (t, data) ->
  disk_ino img2 (inum_of i) = if (i =? 0)%nat then set_size z (disk_ino img (inum_of i)) else disk_ino img (inum_of i).
Proof.
  intros Hi. unfold img2. rewrite final_ino; [|apply (fo_img _ _ Hfs)|apply root_range|by eapply tree_inum].
  destruct i as [|i]; [done|]. by rewrite (proj2 (Z.eqb_neq (inum_of (S i)) ROOTINO)) by (unfold inum_of, ROOTINO; lia).
Qed.

(** An inode of the final image. *)
Lemma final_inode i t data n :
  tree files !! i = Some (t, data) -> n = (if (i =? 0)%nat then Z.to_nat z else length data) ->
  inode_is img2 (inum_of i) t (data ++ replicate (n - length data) 0).
Proof.
  intros Hi Hn. pose proof (fo_file _ _ Hfs _ _ _ Hi) as [[T Tr] _ N S _].
  destruct (final_file img fi fb (tree files) z i t data Hfs Hi root_range) as [Hio _]. fold img2 in Hio.
  cbn [mk_img mk_freeblock] in *. destruct root_size as (Z1 & Z2 & _ & Z4 & Z5 & _).
  assert (Hs : di_size (disk_ino img2 (inum_of i)) = Z.of_nat n /\ di_type (disk_ino img2 (inum_of i)) = t /\
    di_nlink (disk_ino img2 (inum_of i)) = 1).
  { rewrite (final_disk _ _ _ Hi). destruct (i =? 0)%nat; subst n; by cbn [set_size di_size di_type di_nlink]. }
  assert (Hh : (length data <= n)%nat /\ forall k, nblk (length data) <= k < nblk n -> file_addr img2 (disk_ino img2 (inum_of i)) k = 0).
  { destruct i as [|i]; [|subst n; split; [done|cbn; lia]].
    change (Some (T_DIR, root_dir files) = Some (t, data)) in Hi. injection Hi as <- <-. subst n. split; [done|].
    intros k Hk. apply (io_zero _ _ _ _ _ Hio); cbn [Nat.eqb] in Hk; mknum; lia. }
  destruct Hs as (S1 & S2 & S3). destruct Hh as [S4 S5]. split; [|split; [|split]].
  - change (i16 (di_type (disk_ino img2 (inum_of i))) = t). rewrite S2. apply i16_small. lia.
  - change (i16 (di_nlink (disk_ino img2 (inum_of i))) = 1). by rewrite S3.
  - change (di_size (disk_ino img2 (inum_of i)) = Z.of_nat (length (data ++ replicate (n - length data) 0))).
    rewrite S1, length_app, length_replicate. lia.
  - by apply (kbytes_eq img2 fb); [apply final_img_ok| | | |].
Qed.

Lemma final_owned i t data k :
  tree files !! i = Some (t, data) -> 0 <= k < nblk (length data) ->
  nmeta <= kaddr img2 (kinode img2 (inum_of i)) k < fb /\ file_owns img i data (kaddr img2 (kinode img2 (inum_of i)) k).
Proof.
  intros Hi Hk. destruct (final_file img fi fb (tree files) z i t data Hfs Hi root_range) as [Hio Ho]. fold img2 in Hio, Ho.
  change (kaddr img2 (kinode img2 (inum_of i)) k) with (file_addr img2 (disk_ino img2 (inum_of i)) k).
  split; [by apply (io_addr _ _ _ _ _ Hio)|]. apply Ho. left. by exists k.
Qed.

Lemma finish_image : fb = nmeta + blocks files -> image_of img2 files.
Proof.
  intros Hfb. pose proof final_img_ok as Him2. pose proof (fo_img _ _ Hfs) as [Hlen _ _ Hfb']. cbn [mk_img mk_freeblock] in *.
  assert (Hlo : forall b, 0 <= b < 32 -> blk img2 b = low_blk b).
  { intros b Hb. unfold img2. rewrite final_blk; [by apply (fo_low _ _ Hfs)|lia|..].
    - change (sb_bmapstart mksb) with 58. lia.
    - change (IBLOCK ROOTINO mksb) with 32. lia. }
  constructor.
  - split; [apply Him2|apply Him2].
  - rewrite Hlo by lia. by vm_compute.
  - change (sb_logstart mksb) with 2. rewrite Hlo by lia. by vm_compute.
  - destruct root_size as (_ & _ & Z3 & _). unfold root_bytes. rewrite <- Z3. by apply (final_inode 0).
  - intros i f Hf. replace (Z.of_nat i + 2) with (inum_of (S i)) by (unfold inum_of; lia).
    rewrite <- (app_nil_r f.2). change [] with (replicate 0 0). rewrite <- (Nat.sub_diag (length f.2)).
    eapply final_inode; [|done]. etransitivity; [apply (list_lookup_fmap (fun f => (T_FILE, f.2)))|]. by rewrite Hf.
  - intros inum Hi. destruct (Z_of_nat_complete (inum - 1)) as [i Ei]; [lia|]. replace inum with (inum_of i) in * by (unfold inum_of; lia).
    change (i16 (di_type (disk_ino img2 (inum_of i))) = 0). unfold img2.
    rewrite final_ino; [|apply (fo_img _ _ Hfs)|apply root_range|unfold inum_of in *; lia].
    rewrite (proj2 (Z.eqb_neq (inum_of i) ROOTINO)) by (unfold inum_of, ROOTINO in *; lia).
    pose proof (fo_unused _ _ Hfs i) as Hu. cbn [mk_img] in Hu. rewrite Hu; [done|rewrite tree_length; unfold inum_of in *; lia|lia].
  - intros b Hb. change BPB with 4096 in *. replace (BBLOCK b mksb) with 58.
    2:{ unfold BBLOCK. change BPB with 4096. by rewrite Z.div_small by done. }
    unfold img2. rewrite final_bitmap by done. rewrite <- Hfb. mknum. apply bitmap_test; lia.
  - intros i t d k Hi Hk. rewrite <- Hfb. by eapply final_owned.
  - intros i j t t' d d' k k' Hi Hj Hk Hk' E. destruct (final_owned i t d k Hi Hk) as [_ Oi].
    destruct (final_owned j t' d' k' Hj Hk') as [_ Oj]. rewrite <- E in Oj. destruct (decide (i = j)) as [->|Hne].
    + rewrite Hi in Hj. injection Hj as <- <-. split; [done|]. destruct (final_file img fi fb (tree files) z j t d Hfs Hi root_range) as [Hio _].
      by apply (io_inj _ _ _ _ _ Hio).
    + destruct (fo_disj _ _ Hfs i j t t' d d' _ Hne Hi Hj Oi Oj).
Qed.
End Finish.

(** C20: mkfs builds a correct image, and it always finishes. Given any files whose names have no slash, at most 198 of
    them, none longer than 140 blocks, whose blocks (data, indirect blocks and the root directory) fit after the
    metadata in the 1000 blocks of the disk, [main] of [mkfs.c] returns with an image in which the kernel finds: the superblock
    that [mkfs] announces; an empty log; a root directory, inode 1, whose bytes are [.], [..] and one entry per file (the name
    without a leading underscore, the inode number), then free entries to the end of the last block; in inode [i + 2] an
    ordinary file with one link whose size and bytes, through direct and indirect blocks, are those of the [i]-th file; every
    other inode free; in the bitmap the blocks in use, no more and no fewer; and no block in use twice. *)
Theorem mkfs_correct files :
  Forall fits files -> (length files <= 198)%nat -> nmeta + blocks files <= FSSIZE ->
  exists s, mkfs_main (map (fun f => (f.1, Some f.2)) files) mk0 = Ret tt s /\ image_of (mk_img s) files.
Proof.
  intros Hfit Hn Hroom. unfold mkfs_main. erewrite bind_run by done. cbn [mk0 mk_img mk_freeinode mk_freeblock].
  erewrite bind_run by (apply (zero_loop (Z.to_nat FSSIZE) 0)). erewrite bind_run by (by apply wsect_eq).
  cbn [mk_img mk_freeinode mk_freeblock]. fold image0.
  destruct root_tree as (s1 & s2 & s3 & E1 & E2 & E3 & F3 & B3).
  erewrite bind_run by exact E1. change (negb (ROOTINO =? ROOTINO)) with false. cbv iota.
  erewrite bind_run by exact E2. erewrite bind_run by exact E3.
  destruct (add_files_tree files [] s3) as ([img fi fb] & E4 & F4 & B4); [done|done|done| |done|].
  { unfold inum_of, NINODES. cbn [app]. lia. }
  cbn [app mk_freeblock] in *. erewrite bind_run by exact E4. erewrite finish_run by apply (fo_img _ _ F4).
  eexists. split; [done|]. by eapply finish_image.
Qed.

Lemma mkfs_correct_witness :
  let files := [(str "README", [104; 105]); (str "_cat", replicate (Z.to_nat 6200) 7)] in
  exists s, mkfs_main (map (fun f => (f.1, Some f.2)) files) mk0 = Ret tt s /\ image_of (mk_img s) files.
Proof.
  apply mkfs_correct.
  - repeat constructor; try (by vm_compute); cbn; intros H; repeat destruct H as [H|H]; done.
  - cbn. lia.
  - by vm_compute.
Defined.
End Main.
